(* ===== verification/_CoqProject ===== *)
-Q . S2P
Prelude.v
Primitives.v
Errors.v
Interfaces.v
Ledger.v
Xyk.v
XykProps.v
XykPools.v
XykRefine.v
Runtime.v
Xcm.v
Adapter.v
Config.v
Weights.v
FrameworkWeights.v
XykExamples.v
Lbp.v
LbpProps.v
LbpExamples.v
Exchange.v
ExchangeProps.v
ExchangeTotal.v
ExchangeSpend.v
ExchangeAnswers.v
ExchangePools.v
TradingStack.v
ExchangeExamples.v
StackExamples.v
Benchmarks.v
Testing.v
XykTests.v
ExchangeTests.v
LbpTests.v
Nft.v
NftProps.v
Marketplace.v
MarketProps.v
MarketExamples.v
Vault.v
NftTests.v
MarketTests.v
LiquidityMining.v
LmProps.v
LmBooks.v
LmFunds.v
LmSolvency.v
LmExamples.v
LmMock.v
LmFarmTests.v
LmDepositTests.v
PalletBenchmarks.v
Duster.v
DusterProps.v
DusterTests.v
RuntimeBenchmarks.v
Rpc.v
TestingRuntime.v
FrameConfig.v
XcmConfig.v
RuntimeApi.v
ChainSpec.v
ChainSpecProps.v
Client.v
Node.v
NodeProps.v
RelayCli.v
Service.v
