(* ===== verification/Prelude.v ===== *)
(** * Basilisk node: verification library

    Basilisk is a Substrate parachain whose runtime composes pallets for pools,
    trading, NFTs and rewards.  This library translates the pallets' own logic (the
    Rust code under [src/pallets], [src/primitives] and [src/runtime]), the configuration
    of both runtimes, and the node that chooses a chain and a runtime and starts
    ([src/node]) into executable Rocq definitions and proves the properties that make
    them correct.

    ** The program and the files that model it

    - [primitives] ([src/primitives/src/lib.rs], [asset.rs], [constants.rs]):
      [Primitives.v].  [AssetPair] with [ordered_pair] and [name], [IntentionType] and
      the intentions, [ClassType] with its permission table, the chain constants.
    - The errors of all pallets ([#[pallet::error]] of each): [Errors.v].
    - The traits between the pallets and to code outside the repository: [Interfaces.v]
      (orml currencies, reserves and locks, share token registry, AMM hooks, pool
      accounts, [hydra_dx_math], fixed-point numbers, and the [AMM] trait).  [Nft.v],
      [Marketplace.v], [LiquidityMining.v] and [Duster.v] declare the interfaces only
      they use ([Uniques], [NamedReservable], [PercentMath], [LmMath],
      [PalletAccounts], ...).
    - XYK pallet ([src/pallets/xyk/src/lib.rs], [impls.rs]): [Xyk.v]; its theorems in
      [XykProps.v] (trades), [XykPools.v] (liquidity, invariant, atomicity, the laws
      of [AMM]) and [XykRefine.v] (step by step refinement of an abstract constant-product
      market).
    - LBP pallet ([src/pallets/lbp/src/lib.rs]): [Lbp.v], [LbpProps.v].
    - Exchange pallet ([src/pallets/exchange/src/lib.rs], [direct.rs]): [Exchange.v],
      [ExchangeProps.v], [ExchangeAnswers.v] (every intention gets its answer),
      [ExchangeTotal.v] (the end of a block completes), [ExchangeSpend.v] (what it can cost
      a seller), [ExchangePools.v] (what it does to a pool).
    - The three trading pallets over one chain, as the runtime composes them:
      [TradingStack.v].
    - NFT pallet ([src/pallets/nft/src/lib.rs], [types.rs]): [Nft.v], [NftProps.v].
    - Marketplace pallet ([src/pallets/marketplace/src/lib.rs], [types.rs]):
      [Marketplace.v], [MarketProps.v].
    - Liquidity mining pallet ([src/pallets/liquidity-mining/src/lib.rs],
      [migration.rs]): [LiquidityMining.v]; [LmProps.v] (ids, effects of the helpers),
      [LmBooks.v] (agreement of the storage maps), [LmFunds.v] (shares and rewards),
      [LmSolvency.v] (the accounts of pools cover what they owe).
    - Duster and offchain duster ([src/pallets/duster/src/lib.rs],
      [src/pallets/offchain-duster/src/lib.rs]): [Duster.v], [DusterProps.v].
    - Runtime ([src/runtime/basilisk/src/lib.rs], [src/runtime/common/src/lib.rs],
      [locked_balance.rs]): [Runtime.v] (filters, fees, pool accounts, locks), [Config.v]
      (parameters, origins, pallet indices and block limits), [FrameConfig.v] (a Module
      for each configured crate with its [Config] in the live and in the testing runtime)
      and [RuntimeApi.v] (the runtime APIs, the inherent check, the registry of
      benchmarks).
    - Testing runtime ([src/runtime/testing-basilisk/src/lib.rs], [xcm.rs]):
      [TestingRuntime.v], and the definitions named [testing_*] of the files above and
      below.
    - The adapter of [orml_tokens] ([src/runtime/common/src/adapter.rs]): [Adapter.v].
    - XCM ([src/runtime/basilisk/src/xcm.rs]): [Xcm.v] (the conversions of currencies)
      and [XcmConfig.v] (barriers, origins, accounts of locations, routers, executor).
    - Weights ([weights.rs] of the pallets, [src/runtime/common/src/weights]):
      [Weights.v] (pallets of the repository) and [FrameworkWeights.v] (the others).
    - RPC handlers and runtime APIs ([src/pallets/xyk/rpc], [src/pallets/lbp/rpc]):
      [Rpc.v].
    - Chain specifications ([src/node/src/chain_spec.rs], [testing_chain_spec.rs]):
      [ChainSpec.v], [ChainSpecProps.v].
    - Command line and runtime selection ([src/node/src/cli.rs], [command.rs]): [Node.v],
      [NodeProps.v], [RelayCli.v] (the part of the relay chain).
    - Node services ([src/node/src/service.rs], [rpc.rs], [client.rs]): [Client.v] (the
      client that forwards to one of two runtimes) and [Service.v] (how a node is built
      and started, as a computation that logs its actions).
    - Benchmarks of the pallets ([benchmarking.rs], [src/pallets/exchange/benchmarking],
      [src/pallets/liquidity-mining/benchmarking]): [Benchmarks.v], [PalletBenchmarks.v];
      of the live runtime ([src/runtime/basilisk/src/benchmarking]): [RuntimeBenchmarks.v].
    - Mock runtimes and unit tests ([mock.rs] and [tests.rs] of the pallets, [tests/] of
      liquidity mining): [Testing.v] (assertions, suites), [XykTests.v],
      [ExchangeTests.v], [LbpTests.v], [Vault.v] (the chain below the next ones),
      [NftTests.v], [MarketTests.v], [DusterTests.v], [LmMock.v], [LmFarmTests.v] and
      [LmDepositTests.v].
    - [Ledger.v] is a reference chain that satisfies the laws of [Interfaces.v]; the
      files [XykExamples.v], [LbpExamples.v], [ExchangeExamples.v], [StackExamples.v],
      [MarketExamples.v] and [LmExamples.v] run the pallets on it (or on a chain built
      in the file) and apply the theorems to concrete states.

    ** How the parts interact

    Exchange collects trade intentions during a block, matches them at [on_finalize],
    settles matched ones directly with reserves and sends the rest to an AMM; the AMM
    is the class [AMM], which the XYK and the LBP pallets implement, with the promises
    [AMMLaws].  XYK asks LBP
    ([DisallowWhenLBPPoolRunning]) before it creates a pool.  Liquidity mining holds LP
    shares of an AMM and issues an NFT for each deposit through the NFT pallet; the
    marketplace sells NFTs of the same pallet.  The duster sweeps accounts below the
    existential deposit; the offchain duster submits the calls.  The pallets move funds
    through the currencies of the runtime, which reach [orml_tokens] through the adapter;
    other chains name these currencies by locations that the XCM conversions read.  The
    node picks a specification and from its name the runtime, and the genesis of the
    specification is the first state of the pallets.

    ** How code becomes definitions

    A dispatchable is a computation [Dispatch S A], a function of type
    [S -> outcome DispatchError A * S] over the
    storage [S] of its pallet: a [Record] with one field for each storage item (a
    [gmap] for a map, keys as in the source), a field for the rest of the chain, and
    the list of deposited events.  The chain is a type variable, reached through a
    [Lens] and [zoom], so a call in another pallet changes exactly that pallet's part.
    A result is [Ok], [Err] with a [DispatchError], or [Panic] for the [unwrap]s of the
    hooks; an error keeps the writes made before it, and [transactional] rolls them
    back, where the source has [#[transactional]].  Errors that the source ignores
    ([let _ =], [is_ok]) are ignored in the model.  [try_mutate] reads, runs its
    closure on a copy and writes back at the end.

    An unsigned integer is a [Z]; [checked_*], [saturating_*] and [wrapping_*] state
    their width, and a plain [+], [-] or [*] of the source that can overflow is the
    wrapping operation of a release build.  Where the source iterates a stored list,
    the model recurses on that list: every definition is total.  Only the printing of a
    [u128] in [Rpc.v] uses fuel, one unit for each digit; 39 digits are enough for
    [2^128 - 1], and the round trip is proved for every amount.

    Code outside the repository is a class of operations and a second class with the
    documented behaviour a theorem relies on.  A theorem lists the laws it needs; each
    class of laws has an instance, on [Ledger] or on the chains of the example files.

    ** What the theorems show

    - XYK: in every state reachable by calls the recorded liquidity of each pool is the
      issuance of its share token, and the storage maps describe the same pools
      ([reachable_pools_ok]); the product of the reserves never falls in a trade
      ([trade_product_nondecreasing]); each extrinsic moves exactly the stated amounts
      within the caller's limits ([sell_exact], [buy_exact], [create_pool_exact],
      [add_liquidity_exact], [remove_liquidity_exact]); a failing extrinsic changes
      nothing ([xyk_dispatch_atomic]).  Every call is, for the pool of any pair, the one
      step with the label of that call of an abstract market that knows only reserves and
      shares ([xyk_refines]).
    - LBP: reachable pools are valid and the record of fee collectors is theirs
      ([lbp_reachable_ok]); no call changes the record of a pool while its sale runs
      ([running_pool_frozen]); the weights are positive and sum to [MAX_WEIGHT]
      ([running_weights_sum]); the exact effects of trades and of removal
      ([lbp_sell_exact], [lbp_buy_exact], [lbp_remove_liquidity_exact]); no competing
      XYK pool during a sale ([no_xyk_pool_during_sale]).
    - Exchange: the book of intentions and its counters agree
      ([exchange_reachable_ok]); when [on_finalize] returns, its events answer every
      intention but those of the matched side whose direct trade could not be made
      ([intentions_answered]), and it does not panic when each pair is
      quoted at one price ([on_finalize_completes]); the end of a block costs an account
      that only sells a currency at most what its sales offered, plus an existential
      deposit for each ([sellers_bounded]) and never lowers the product of the reserves of a pool
      ([pool_product_kept]); a direct trade settles exactly
      ([direct_trade_exact]); an intention that goes to the pool is traded as validated
      or refused without effect, for every pallet with [AMMLaws]
      ([single_intention_spec]); registration on every branch
      ([exchange_register_spec]); the matched prefix ([take_matched_covers]); and the
      reservation that a failed preparation leaves behind ([failed_prepare_leaks]).
    - The three together: their invariants hold in every state reached by any
      interleaving of their calls, ends of blocks and steps of the rest of the chain
      ([stack_reachable_ok]), and none of their steps changes the issuance of an asset,
      but for the native one (burnt discounts) and share tokens ([trading_conserves]).
    - NFT and marketplace: the records agree with [pallet_uniques]
      ([nft_reachable_ok]); through the NFT pallet only the owner moves or burns a token,
      as its class permits ([nft_owner_protected]); reserves cover all offers ([offers_backed]); exact effects
      of a sale and of an accepted offer ([market_buy_exact], [accept_offer_exact]).
    - Liquidity mining: the storage maps agree in every reachable state
      ([lm_reachable_ok]); the account of a pool that is not swept as dust covers what the
      pool owes its deposits, if no pool is added again over old deposits
      ([rewards_covered]); the shares of pools are those of their deposits
      ([lm_shares_counted]); exact effects of a pool update and of a withdrawal
      ([pool_update_exact], [lm_withdraw_exact]); withdrawal from removed pools
      ([removed_pool_withdraw]); one claim in a period ([double_claim_refused]); deposit
      ids decode ([nft_id_roundtrip]); and two runs in which depositors are locked out
      ([late_pool_locks_first], [readded_pool_locks_new_deposit]).
    - Duster and runtime: the exact effect of dusting ([dust_account_exact]), listed
      accounts ([listed_accounts_safe]), the offchain worker ([offchain_worker_spec]);
      pool accounts of different pairs and kinds are distinct
      ([pool_accounts_distinct]); governance is a hierarchy of origins
      ([governance_hierarchy], [signed_unprivileged], [vested_transfer_origin]).  The
      testing runtime differs from the live one exactly in what [relaxed] lists
      ([testing_runtime_relaxes], [testing_code_agrees], [testing_xcm_agrees],
      [testing_api_agrees]).
    - Around the pallets: the adapter is the tokens pallet with a log
      ([adapter_equivalent], and it keeps the laws of the currency); currency ids survive
      the trip to a location and back ([currency_id_roundtrip]); the work at the end of a
      block is paid for in advance and the calls fit a block ([finalize_weight_prepaid],
      [call_weights_fit], [unit_weights_agree]); so do the framework's calls
      ([framework_calls_fit]); a message from another chain is
      executed only if a barrier lets it ([barrier_spec]), locations of accounts are told
      apart ([account_locations]) and messages find their route ([router_spec]); amounts survive their text form ([amount_text_roundtrip]).
    - Node: every specification has a well-formed genesis ([specs_wellformed]); the two
      loaders agree but for one id each ([loaders_agree]); reading the runtime argument
      inverts printing it ([runtime_argument_roundtrip]); the runtime of every known chain
      ([runtime_selection], [testing_networks_run_live_runtime]); what a successful run of
      the program has done ([run_spec]); starting a node performs
      its actions in order or stops before the network starts ([start_node_ordered]); the
      client enum answers like the client inside ([execute_with_agrees]); the relay
      chain of a collator is the one of its specification, in a directory and on ports of
      its own ([relay_follows_collator], [relay_ports_apart]).
    - Benchmarks: every benchmark of the pallets, run on a concrete chain, passes the
      checks it makes, down to the balances the repository writes out
      ([xyk_benchmarks_pass], [exchange_benchmarks_pass], [lbp_benchmarks_pass],
      [nft_benchmarks_pass], [lm_benchmarks_pass], [runtime_benchmarks_pass],
      [framework_benchmarks_pass]).
    - Tests: 261 unit tests of the repository run on the models, with every balance,
      record, event and error they expect (a lemma at the end of each test file); they
      check the models on fixed inputs, with the chains and the formulas of the example
      files in place of the crates outside the repository.  The trades of a simulated
      sale fall into it ([generate_trades_in_sale]).

    Invariants of reachable states are about sequences of the pallet's calls,
    failed ones included, interleaved with changes of the rest of the chain that
    respect a stated condition (for instance that nobody else issues share tokens).
    Each file says which.  The example files also document, on concrete runs,
    behaviour that differs from a comment or that the code does not intend.

    ** What is not modelled

    The framework pallets that the mock runtimes instantiate, the mock of the offchain
    duster, the mocks of the benchmark crates, whose chains are those of [Benchmarks.v] and
    [PalletBenchmarks.v], and the simulated relay chain of the integration tests; eleven
    tests of the LBP, which [LbpTests.v] lists with the reasons;
    networking, consensus, database and transaction pool of the node, which are arguments
    of [Service.v]; the executive, which is an argument of [RuntimeApi.v]; the associated types of
    the FRAME configuration that only name types of other crates.  Transaction fees and
    the signature checks before a dispatch are the framework's.  The farm's own account
    is not shown to cover all it has promised: an update caps a payment by the whole
    balance of the farm, and [late_pool_locks_first] runs into it.  No code of the
    repository lists the accounts of pools with the duster, so theorems that need such an
    account not to be swept as dust say so ([never_swept], [keeps], [unswept]).  The weight
    of the hooks of a block is not bounded: it includes the calls that are scheduled. *)

From stdpp Require Export base gmap list fin_maps strings numbers.
From Stdlib Require Export ZArith Lia.

Open Scope Z_scope.

(** ** Fixed-width unsigned integers

    A [w]-bit unsigned Rust integer is a [Z]; every arithmetic operation of the
    Rust standard library the pallets call is written out at its width. *)

Definition in_range (w z : Z) : Prop := 0 <= z < 2 ^ w.

(** [checked_add], [checked_sub], [checked_mul], [checked_div]: [None] when the
    result does not fit (or the divisor is zero). *)
Definition checked_add (w a b : Z) : option Z :=
  if a + b <? 2 ^ w then Some (a + b) else None.
Definition checked_sub (a b : Z) : option Z :=
  if b <=? a then Some (a - b) else None.
Definition checked_mul (w a b : Z) : option Z :=
  if a * b <? 2 ^ w then Some (a * b) else None.
Definition checked_div (a b : Z) : option Z :=
  if b =? 0 then None else Some (a / b).

(** [saturating_sub], [saturating_add]. *)
Definition saturating_sub (a b : Z) : Z := Z.max 0 (a - b).
Definition saturating_add (w a b : Z) : Z := Z.min (2 ^ w - 1) (a + b).

(** The operators [+], [-] and [*] of a release build, which wrap. *)
Definition wrapping_add (w a b : Z) : Z := (a + b) mod 2 ^ w.
Definition wrapping_sub (w a b : Z) : Z := (a - b) mod 2 ^ w.
Definition wrapping_mul (w a b : Z) : Z := (a * b) mod 2 ^ w.

(** [to_le_bytes] and [from_le_bytes]: bytes are numbers below 256, least
    significant first. *)
Fixpoint to_le_bytes (n : nat) (z : Z) : list Z :=
  match n with
  | O => []
  | S n => z mod 256 :: to_le_bytes n (z / 256)
  end.
Fixpoint from_le_bytes (l : list Z) : Z :=
  match l with
  | [] => 0
  | b :: l => b + 256 * from_le_bytes l
  end.

(** ** Results and the state-and-error monad of a dispatchable

    A call of the runtime ends in one of three ways: a value, a
    [DispatchError] value, or a panic of the Wasm instance. *)
Inductive outcome (E A : Type) : Type :=
| Ok (a : A)
| Err (e : E)
| Panic.
Arguments Ok {E A} a.
Arguments Err {E A} e.
Arguments Panic {E A}.

(** A stateful computation returns the outcome together with the storage it
    leaves behind, also when it fails: writes made before an error are kept
    unless the function is [transactional]. *)
Definition M (E S A : Type) : Type := S -> outcome E A * S.

Definition run_bind {E S A B : Type} (k : A -> M E S B) (m : M E S A) : M E S B :=
  fun s => match m s with
           | (Ok a, s') => k a s'
           | (Err e, s') => (Err e, s')
           | (Panic, s') => (Panic, s')
           end.

#[export] Instance M_ret E S : MRet (M E S) := fun A a s => (Ok a, s).
#[export] Instance M_bind E S : MBind (M E S) := fun A B k m => run_bind k m.

(** [return Err(e)], [panic!], [ensure!], [Option::ok_or], and reading and
    writing storage. *)
Definition fail {E S A} (e : E) : M E S A := fun s => (Err e, s).
Definition panic {E S A} : M E S A := fun s => (Panic, s).
Definition ensure {E S} (b : bool) (e : E) : M E S unit :=
  if b then mret tt else fail e.
Definition ok_or {E S A} (o : option A) (e : E) : M E S A :=
  match o with Some a => mret a | None => fail e end.
Definition gets {E S A} (f : S -> A) : M E S A := fun s => (Ok (f s), s).
Definition modify {E S} (f : S -> S) : M E S unit := fun s => (Ok tt, f s).

(** [#[transactional]]: an error rolls every storage change back. *)
Definition transactional {E S A} (m : M E S A) : M E S A :=
  fun s => match m s with
           | (Ok a, s') => (Ok a, s')
           | (r, _) => (r, s)
           end.

(** [map_err]. *)
Definition map_err {E S A} (f : E -> E) (m : M E S A) : M E S A :=
  fun s => match m s with
           | (Err e, s') => (Err (f e), s')
           | r => r
           end.

(** [if let Err(e) = m { h(e) }] on a result that is then dropped. *)
Definition catch {E S A} (m : M E S A) (h : E -> M E S A) : M E S A :=
  fun s => match m s with
           | (Err e, s') => h e s'
           | r => r
           end.

(** [match m { Ok(a) => ..., Err(e) => ... }]: the result as a value; a panic is not
    caught. *)
Definition attempt {E S A} (m : M E S A) : M E S (A + E) :=
  fun s => match m s with
           | (Ok a, s') => (Ok (inl a), s')
           | (Err e, s') => (Ok (inr e), s')
           | (Panic, s') => (Panic, s')
           end.

(** Iteration in order ([for x in l]). *)
Fixpoint for_each {E S A} (f : A -> M E S unit) (l : list A) : M E S unit :=
  match l with
  | [] => mret tt
  | x :: l => f x ;; for_each f l
  end.

(** A component embedded in a larger state: what the component sees ([get]) and
    how a change of it is written back ([set]). *)
Class Lens (S C : Type) := {
  lens_get : S -> C;
  lens_set : C -> S -> S
}.
Class LensLaws (S C : Type) `{Lens S C} : Prop := {
  lens_get_set c s : lens_get (lens_set c s) = c;
  lens_set_get s : lens_set (lens_get s) s = s;
  lens_set_set c c' s : lens_set c (lens_set c' s) = lens_set c s
}.

(** Run a computation of the component on the larger state. *)
Definition zoom {E S C A} `{Lens S C} (m : M E C A) : M E S A :=
  fun s => let '(r, c) := m (lens_get s) in (r, lens_set c s).

(** Notations for the boolean order of the code. *)
Declare Scope rust_scope.
Delimit Scope rust_scope with rust.
Notation "a >= b" := (b <=? a) : rust_scope.
Notation "a > b" := (b <? a) : rust_scope.
Notation "a <= b" := (a <=? b) : rust_scope.
Notation "a < b" := (a <? b) : rust_scope.
Notation "a == b" := (a =? b) (at level 70, no associativity) : rust_scope.
Notation "a != b" := (negb (a =? b)) (at level 70, no associativity) : rust_scope.

(** ** Lemmas on the integer operations *)

Lemma checked_add_Some w a b c :
  checked_add w a b = Some c <-> c = a + b /\ a + b < 2 ^ w.
Proof.
  unfold checked_add. destruct (Z.ltb_spec (a + b) (2 ^ w)); naive_solver lia.
Qed.

Lemma checked_sub_Some a b c : checked_sub a b = Some c <-> c = a - b /\ b <= a.
Proof. unfold checked_sub. destruct (Z.leb_spec b a); naive_solver lia. Qed.

Lemma checked_mul_Some w a b c :
  checked_mul w a b = Some c <-> c = a * b /\ a * b < 2 ^ w.
Proof.
  unfold checked_mul. destruct (Z.ltb_spec (a * b) (2 ^ w)); naive_solver lia.
Qed.

Lemma checked_div_Some a b c : checked_div a b = Some c <-> c = a / b /\ b <> 0.
Proof. unfold checked_div. destruct (Z.eqb_spec b 0); naive_solver. Qed.

Lemma wrapping_add_small w a b : 0 <= a + b < 2 ^ w -> wrapping_add w a b = a + b.
Proof. intros. unfold wrapping_add. by rewrite Z.mod_small. Qed.

Lemma length_to_le_bytes n z : length (to_le_bytes n z) = n.
Proof. revert z. induction n; intros; simpl; auto. Qed.

Lemma take_to_le_bytes n m z : take n (to_le_bytes (n + m) z) = to_le_bytes n z.
Proof. revert z. induction n; intros; simpl; [done|]. by f_equal. Qed.

Lemma from_to_le_bytes n z : from_le_bytes (to_le_bytes n z) = z mod 256 ^ Z.of_nat n.
Proof.
  revert z. induction n as [|n IH]; intros z; simpl to_le_bytes; simpl from_le_bytes.
  - by rewrite Z.mod_1_r.
  - rewrite IH, Nat2Z.inj_succ, Z.pow_succ_r by lia.
    rewrite Z.rem_mul_r by (try apply Z.pow_nonzero; lia). lia.
Qed.

Lemma to_le_bytes_range n z : Forall (fun b => 0 <= b < 256) (to_le_bytes n z).
Proof.
  revert z. induction n; intros z; simpl; constructor; auto.
  apply Z.mod_pos_bound; lia.
Qed.

Lemma from_le_bytes_app l1 l2 :
  from_le_bytes (l1 ++ l2) = from_le_bytes l1 + 256 ^ Z.of_nat (length l1) * from_le_bytes l2.
Proof.
  induction l1 as [|b l1 IH]; simpl from_le_bytes; [simpl; lia|].
  simpl app. simpl from_le_bytes. rewrite IH. simpl length.
  rewrite Nat2Z.inj_succ, Z.pow_succ_r by lia. lia.
Qed.

Lemma to_from_le_bytes l :
  Forall (fun b => 0 <= b < 256) l -> to_le_bytes (length l) (from_le_bytes l) = l.
Proof.
  induction 1 as [|b l Hb Hl IH]; [done|]. simpl.
  replace ((b + 256 * from_le_bytes l) mod 256) with b.
  - f_equal. replace ((b + 256 * from_le_bytes l) / 256) with (from_le_bytes l); [done|].
    symmetry. rewrite Z.mul_comm, Z.div_add by lia. rewrite Z.div_small by lia. lia.
  - rewrite Z.mul_comm, Z.mod_add by lia. by rewrite Z.mod_small by lia.
Qed.

Lemma to_le_bytes_inj n a b :
  0 <= a < 256 ^ Z.of_nat n -> 0 <= b < 256 ^ Z.of_nat n ->
  to_le_bytes n a = to_le_bytes n b -> a = b.
Proof.
  intros Ha Hb Heq. apply (f_equal from_le_bytes) in Heq.
  rewrite !from_to_le_bytes, !Z.mod_small in Heq by done. done.
Qed.

(** ** Sums over a map *)

Section map_sum.
Context {K A : Type} `{Countable K}.
Implicit Types (f : K -> A -> Z) (m : gmap K A).

Definition map_sum f m : Z := map_fold (fun k x acc => f k x + acc) 0 m.
(** What the entry at [k] contributes. *)
Definition sum_at f m (k : K) : Z := match m !! k with Some x => f k x | None => 0 end.

Lemma map_sum_empty f : map_sum f ∅ = 0.
Proof. done. Qed.
Lemma map_sum_insert_None f m k x :
  m !! k = None -> map_sum f (<[k := x]> m) = f k x + map_sum f m.
Proof. intros Hk. unfold map_sum. rewrite map_fold_insert_L; [done| |done]. intros. lia. Qed.
Lemma map_sum_delete f m k : map_sum f (delete k m) = map_sum f m - sum_at f m k.
Proof.
  unfold sum_at. destruct (m !! k) as [x|] eqn:Hk.
  - rewrite <- (insert_delete_id m k x Hk) at 2.
    rewrite map_sum_insert_None by apply lookup_delete_eq. lia.
  - rewrite delete_id by done. lia.
Qed.
Lemma map_sum_insert f m k x : map_sum f (<[k := x]> m) = map_sum f m - sum_at f m k + f k x.
Proof.
  rewrite <- insert_delete_eq, map_sum_insert_None by apply lookup_delete_eq.
  rewrite map_sum_delete. lia.
Qed.
Lemma map_sum_nonneg f m : (forall k x, m !! k = Some x -> 0 <= f k x) -> 0 <= map_sum f m.
Proof.
  induction m as [|k x m Hk IH] using map_ind; [done|]. intros Hf.
  rewrite map_sum_insert_None by done.
  assert (0 <= f k x) by (apply Hf; apply lookup_insert_eq).
  assert (0 <= map_sum f m); [|lia].
  apply IH. intros k' x' Hk'. apply Hf. rewrite lookup_insert_ne by congruence. done.
Qed.
Lemma map_sum_ge f m k x :
  (forall k' x', m !! k' = Some x' -> 0 <= f k' x') -> m !! k = Some x -> f k x <= map_sum f m.
Proof.
  intros Hf Hk. assert (Hd : 0 <= map_sum f (delete k m)).
  { apply map_sum_nonneg. intros k' x' [_ Hk']%lookup_delete_Some. by apply Hf. }
  rewrite map_sum_delete in Hd. unfold sum_at in Hd. rewrite Hk in Hd. lia.
Qed.
Lemma map_sum_ext f g m :
  (forall k x, m !! k = Some x -> f k x = g k x) -> map_sum f m = map_sum g m.
Proof.
  induction m as [|k x m Hk IH] using map_ind; [done|]. intros Hf.
  rewrite !map_sum_insert_None by done. f_equal; [apply Hf, lookup_insert_eq|].
  apply IH. intros k' x' Hk'. apply Hf. rewrite lookup_insert_ne by congruence. done.
Qed.
Lemma map_sum_0 f m : (forall k x, m !! k = Some x -> f k x = 0) -> map_sum f m = 0.
Proof.
  intros Hf. rewrite (map_sum_ext f (fun _ _ => 0)) by done.
  induction m as [|k x m Hk IH] using map_ind; [done|].
  rewrite map_sum_insert_None by done. rewrite IH; [done|].
  intros k' x' Hk'. apply Hf. rewrite lookup_insert_ne by congruence. done.
Qed.
End map_sum.

(** ** Lemmas on the monad *)

Section monad.
Context {E S : Type}.

Lemma bind_Ok {A B} (m : M E S A) (k : A -> M E S B) s b s' :
  mbind k m s = (Ok b, s') <-> exists a s1, m s = (Ok a, s1) /\ k a s1 = (Ok b, s').
Proof.
  unfold mbind, M_bind, run_bind. destruct (m s) as [[a| |] s1] eqn:Hm; naive_solver.
Qed.

(** Running a bind whose first part is known to succeed. *)
Lemma bind_run {A B} (m : M E S A) (k : A -> M E S B) s a s1 :
  m s = (Ok a, s1) -> mbind k m s = k a s1.
Proof. unfold mbind, M_bind, run_bind. by intros ->. Qed.

Lemma mret_Ok {A} (a b : A) (s s' : S) :
  @mret (M E S) _ A a s = (Ok b, s') <-> b = a /\ s' = s.
Proof. unfold mret, M_ret. naive_solver. Qed.

Lemma ensure_Ok (b : bool) (e : E) (s : S) (u : unit) (s' : S) :
  ensure b e s = (Ok u, s') <-> b = true /\ s' = s.
Proof. unfold ensure, mret, M_ret, fail. destruct b, u; naive_solver. Qed.

Lemma ok_or_Ok {A} (o : option A) (e : E) (s : S) a s' :
  ok_or o e s = (Ok a, s') <-> o = Some a /\ s' = s.
Proof. unfold ok_or, mret, M_ret, fail. destruct o; naive_solver. Qed.

Lemma gets_Ok {A} (f : S -> A) (s : S) a s' :
  @gets E S A f s = (Ok a, s') <-> a = f s /\ s' = s.
Proof. unfold gets. naive_solver. Qed.

Lemma modify_Ok (f : S -> S) (s : S) u s' :
  @modify E S f s = (Ok u, s') <-> s' = f s.
Proof. unfold modify. destruct u; naive_solver. Qed.

Lemma fail_Ok {A} (e : E) (s : S) (a : A) s' : fail e s = (Ok a, s') <-> False.
Proof. unfold fail. naive_solver. Qed.

Lemma panic_Ok {A} (s : S) (a : A) s' : @panic E S A s = (Ok a, s') <-> False.
Proof. unfold panic. naive_solver. Qed.

Lemma transactional_Ok {A} (m : M E S A) s a s' :
  transactional m s = (Ok a, s') <-> m s = (Ok a, s').
Proof. unfold transactional. destruct (m s) as [[| |] ?]; naive_solver. Qed.

(** A transactional function that does not return a value changes nothing. *)
Lemma transactional_rollback {A} (m : M E S A) s r s' :
  transactional m s = (r, s') -> (forall a, r <> Ok a) -> s' = s.
Proof.
  unfold transactional. destruct (m s) as [[a| |] s1]; intros [= <- <-] Hr; try done.
  by destruct (Hr a).
Qed.

Lemma attempt_Ok {A} (m : M E S A) s r s' :
  attempt m s = (Ok r, s') <->
  (exists a, r = inl a /\ m s = (Ok a, s')) \/ (exists e, r = inr e /\ m s = (Err e, s')).
Proof. unfold attempt. destruct (m s) as [[| |] ?]; naive_solver. Qed.

Lemma zoom_Ok {C A} `{Lens S C} (m : M E C A) (s : S) a s' :
  zoom m s = (Ok a, s') <->
  exists c, m (lens_get s) = (Ok a, c) /\ s' = lens_set c s.
Proof. unfold zoom. destruct (m (lens_get s)) as [r c]. naive_solver. Qed.

(** *** Computations that only read

    [reads m]: whatever [m] returns, the state is the one it started from. *)
Definition reads {A} (m : M E S A) : Prop := forall s, snd (m s) = s.

Lemma reads_mret {A} (a : A) : reads (mret a).
Proof. done. Qed.
Lemma reads_fail {A} (e : E) : reads (@fail E S A e).
Proof. done. Qed.
Lemma reads_gets {A} (f : S -> A) : reads (gets f).
Proof. done. Qed.
Lemma reads_ensure (b : bool) (e : E) : reads (ensure b e).
Proof. by destruct b. Qed.
Lemma reads_ok_or {A} (o : option A) (e : E) : reads (ok_or o e).
Proof. by destruct o. Qed.
Lemma reads_bind {A B} (m : M E S A) (k : A -> M E S B) :
  reads m -> (forall a, reads (k a)) -> reads (mbind k m).
Proof.
  intros Hm Hk s. unfold mbind, M_bind, run_bind.
  specialize (Hm s). destruct (m s) as [[a| |] s1]; simpl in *; subst; auto.
  apply Hk.
Qed.
Lemma reads_if {A} (b : bool) (m1 m2 : M E S A) :
  reads m1 -> reads m2 -> reads (if b then m1 else m2).
Proof. by destruct b. Qed.
Lemma reads_Ok {A} (m : M E S A) s r s' : reads m -> m s = (r, s') -> s' = s.
Proof. intros Hm Heq. specialize (Hm s). by rewrite Heq in Hm. Qed.
End monad.

Create HintDb reads.
#[export] Hint Resolve reads_mret reads_fail reads_gets reads_ensure reads_ok_or
  reads_bind reads_if : reads.

(** ** Tactics *)

(** [solve_reads] proves [reads m] by the structure of [m]. *)
Ltac solve_reads :=
  repeat first
    [ progress intros
    | apply reads_bind | apply reads_if | apply reads_ensure | apply reads_ok_or
    | apply reads_gets | apply reads_mret | apply reads_fail
    | progress cbv beta zeta
    | match goal with |- reads (match ?x with _ => _ end) => destruct x end
    | solve [auto with reads] ].

(** [minv_hook H] is where a component file plugs in the inversion lemmas of its
    own sub-computations. *)
Ltac minv_hook H := fail.

(** [minv H] inverts a run that returned [Ok], step by step, into the facts
    established by each guard, read and write. *)
Ltac minv H :=
  cbv beta zeta in H;
  first [ minv_hook H | minv_core H ]
with minv_core H :=
  lazymatch type of H with
  | mbind _ _ _ = (Ok _, _) =>
      let a := fresh "r" in let s1 := fresh "st" in let H1 := fresh "Hstep" in
      apply (proj1 (bind_Ok _ _ _ _ _)) in H; destruct H as (a & s1 & H1 & H); minv H1; minv H
  | mret _ _ = (Ok _, _) =>
      apply (proj1 (mret_Ok _ _ _ _)) in H; let H1 := fresh in let H2 := fresh in
      destruct H as [H1 H2]; try subst
  | ensure _ _ _ = (Ok _, _) =>
      apply (proj1 (ensure_Ok _ _ _ _ _)) in H; let H1 := fresh "Hguard" in let H2 := fresh in
      destruct H as [H1 H2]; try subst
  | ok_or _ _ _ = (Ok _, _) =>
      apply (proj1 (ok_or_Ok _ _ _ _ _)) in H; let H1 := fresh "Hsome" in let H2 := fresh in
      destruct H as [H1 H2]; try subst
  | gets _ _ = (Ok _, _) =>
      apply (proj1 (gets_Ok _ _ _ _)) in H; let H1 := fresh in let H2 := fresh in
      destruct H as [H1 H2]; try subst
  | modify _ _ = (Ok _, _) => apply (proj1 (modify_Ok _ _ _ _)) in H; try subst
  | fail _ _ = (Ok _, _) => apply (proj1 (fail_Ok _ _ _ _)) in H; destruct H
  | panic _ = (Ok _, _) => apply (proj1 (panic_Ok _ _ _)) in H; destruct H
  | transactional _ _ = (Ok _, _) => apply (proj1 (transactional_Ok _ _ _ _)) in H; minv H
  | zoom _ _ = (Ok _, _) =>
      apply (proj1 (zoom_Ok _ _ _ _)) in H; let c := fresh "ch" in let H2 := fresh in
      destruct H as (c & H & H2); subst;
      repeat match goal with u : unit |- _ => destruct u end
  | (if ?b then _ else _) _ = (Ok _, _) =>
      let Hb := fresh "Hif" in destruct b eqn:Hb; minv H
  | _ => idtac
  end.

(** [zbool] turns the boolean guards of the code into propositions. *)
Ltac zbool :=
  repeat match goal with
  | H : negb _ = true |- _ => apply negb_true_iff in H
  | H : negb _ = false |- _ => apply negb_false_iff in H
  | H : (_ && _)%bool = true |- _ => apply andb_true_iff in H; destruct H
  | H : (_ || _)%bool = false |- _ => apply orb_false_iff in H; destruct H
  | H : (_ <=? _) = true |- _ => apply Z.leb_le in H
  | H : (_ <=? _) = false |- _ => apply Z.leb_gt in H
  | H : (_ <? _) = true |- _ => apply Z.ltb_lt in H
  | H : (_ <? _) = false |- _ => apply Z.ltb_ge in H
  | H : (_ =? _) = true |- _ => apply Z.eqb_eq in H
  | H : (_ =? _) = false |- _ => apply Z.eqb_neq in H
  | H : checked_add _ _ _ = Some _ |- _ => apply checked_add_Some in H as [? ?]
  | H : checked_sub _ _ = Some _ |- _ => apply checked_sub_Some in H as [? ?]
  | H : checked_mul _ _ _ = Some _ |- _ => apply checked_mul_Some in H as [? ?]
  | H : checked_div _ _ = Some _ |- _ => apply checked_div_Some in H as [? ?]
  end.
