(* ===== verification/Primitives.v ===== *)
(** * The [primitives] crate

    Models [src/primitives/src/lib.rs], [asset.rs] and [constants.rs]: the type
    aliases of the node (all numbers are [Z] at a stated width), the asset pair
    with its storage ordering and share-token name, the exchange intention, the
    NFT class types with their permission table, and the chain constants. *)

From S2P Require Import Prelude.

(** Type aliases of [primitives/src/lib.rs]; the comments give the widths.
    Account ids are opaque 32-byte values, here any integer. *)
Notation BlockNumber := Z (only parsing). (* u32 *)
Notation AssetId := Z (only parsing).     (* u32 *)
Notation Balance := Z (only parsing).     (* u128 *)
Notation Price := Z (only parsing).       (* inner value of a FixedU128 *)
Notation ClassId := Z (only parsing).     (* u128 *)
Notation InstanceId := Z (only parsing).  (* u128 *)
Notation AccountId := Z (only parsing).

(** ** Asset pairs *)

Record AssetPair := mkAssetPair { asset_in : AssetId; asset_out : AssetId }.

#[export] Instance AssetPair_eq_dec : EqDecision AssetPair.
Proof. solve_decision. Defined.

Definition AssetPair_new (asset_in asset_out : AssetId) : AssetPair :=
  {| asset_in := asset_in; asset_out := asset_out |}.

Definition ordered_pair (p : AssetPair) : AssetId * AssetId :=
  match asset_in p <=? asset_out p with
  | true => (asset_in p, asset_out p)
  | false => (asset_out p, asset_in p)
  end.

(** [b"HDT"]. *)
Definition HDT : list Z := [72; 68; 84].

Definition AssetPair_name (p : AssetPair) : list Z :=
  let '(asset_a, asset_b) := ordered_pair p in
  to_le_bytes 4 asset_a ++ HDT ++ to_le_bytes 4 asset_b.

(** The same pair read in the other direction. *)
Definition flip_pair (p : AssetPair) : AssetPair :=
  {| asset_in := asset_out p; asset_out := asset_in p |}.

(** ** Exchange intentions *)

Inductive IntentionType := SELL | BUY.

#[export] Instance IntentionType_eq_dec : EqDecision IntentionType.
Proof. solve_decision. Defined.

Definition IntentionType_default : IntentionType := SELL.

(** The intention id is a hash of the system, a parameter [H] of the type. *)
Record ExchangeIntention (H : Type) := mkIntention {
  who : AccountId;
  assets : AssetPair;
  amount_in : Balance;
  amount_out : Balance;
  trade_limit : Balance;
  discount : bool;
  sell_or_buy : IntentionType;
  intention_id : H
}.
Arguments mkIntention {H}.
Arguments who {H}.
Arguments assets {H}.
Arguments amount_in {H}.
Arguments amount_out {H}.
Arguments trade_limit {H}.
Arguments discount {H}.
Arguments sell_or_buy {H}.
Arguments intention_id {H}.

Inductive ReserveIdentifier := ReserveNft | ReserveMarketplace | ReserveCount.

#[export] Instance ReserveIdentifier_eq_dec : EqDecision ReserveIdentifier.
Proof. solve_decision. Defined.

(** ** NFT class types and permissions *)

Inductive ClassType := Marketplace | LiquidityMining | Redeemable | Auction | HydraHeads.

#[export] Instance ClassType_eq_dec : EqDecision ClassType.
Proof. solve_decision. Defined.

Definition ClassType_default : ClassType := Marketplace.

(** [trait NftPermission]. *)
Class NftPermission (T : Type) := {
  can_create : T -> bool;
  can_mint : T -> bool;
  can_transfer : T -> bool;
  can_burn : T -> bool;
  can_destroy : T -> bool;
  has_deposit : T -> bool
}.

(** [impl NftPermission<ClassType> for NftPermissions]. *)
Definition NftPermissions : NftPermission ClassType := {|
  can_create t := match t with Marketplace => true | _ => false end;
  can_mint t := match t with Marketplace => true | _ => false end;
  can_transfer t := match t with Marketplace | LiquidityMining => true | _ => false end;
  can_burn t := match t with Marketplace => true | _ => false end;
  can_destroy t := match t with Marketplace => true | _ => false end;
  has_deposit t := match t with Marketplace => true | _ => false end
|}.

(** ** Constants ([constants.rs]) *)

Definition FORTUNE : Balance := 2 ^ 128 - 1.
Definition UNITS : Balance := 1000000000000.
Definition DOLLARS : Balance := UNITS * 100.
Definition CENTS : Balance := DOLLARS / 100.
Definition MILLICENTS : Balance := CENTS / 1000.
Definition NATIVE_EXISTENTIAL_DEPOSIT : Balance := CENTS.

(** [currency::deposit]; the arguments are [u32]s widened to [u128]. *)
Definition currency_deposit (items bytes : Z) : Balance :=
  wrapping_add 128 (items * 2 * DOLLARS) (bytes * 30 * MILLICENTS).

Definition MILLISECS_PER_BLOCK : Z := 12000.
Definition MINUTES : BlockNumber := 60000 / MILLISECS_PER_BLOCK.
Definition HOURS : BlockNumber := MINUTES * 60.
Definition DAYS : BlockNumber := HOURS * 24.
Definition SLOT_DURATION : Z := MILLISECS_PER_BLOCK.
Definition SECS_PER_BLOCK : Z := MILLISECS_PER_BLOCK / 1000.
Definition EPOCH_DURATION_IN_BLOCKS : BlockNumber := 4 * HOURS.

Definition CORE_ASSET_ID : AssetId := 0.
Definition MAX_OUT_RATIO : Z := 3.
Definition MAX_IN_RATIO : Z := 3.
Definition MIN_TRADING_LIMIT : Balance := 1000.
Definition MIN_POOL_LIQUIDITY : Balance := 1000.

(** ** Lemmas *)

Lemma ordered_pair_le p : fst (ordered_pair p) <= snd (ordered_pair p).
Proof. unfold ordered_pair. destruct (Z.leb_spec (asset_in p) (asset_out p)); simpl; lia. Qed.

Lemma ordered_pair_flip p : ordered_pair (flip_pair p) = ordered_pair p.
Proof.
  unfold ordered_pair, flip_pair; simpl.
  destruct (Z.leb_spec (asset_in p) (asset_out p)), (Z.leb_spec (asset_out p) (asset_in p));
    try done; f_equal; lia.
Qed.

(** Two pairs have the same storage order exactly when they hold the same two
    assets. *)
Lemma ordered_pair_eq p q :
  ordered_pair p = ordered_pair q <-> p = q \/ p = flip_pair q.
Proof.
  split.
  - destruct p as [a b], q as [c d]. unfold ordered_pair, flip_pair; simpl.
    destruct (Z.leb_spec a b), (Z.leb_spec c d); intros [= -> ->]; auto.
  - intros [->| ->]; [done|apply ordered_pair_flip].
Qed.

Lemma length_AssetPair_name p : length (AssetPair_name p) = 11%nat.
Proof.
  unfold AssetPair_name. destruct (ordered_pair p).
  by rewrite !length_app, !length_to_le_bytes.
Qed.

(** Both ids of the pair are [u32]s. *)
Definition wide (p : AssetPair) : Prop := in_range 32 (asset_in p) /\ in_range 32 (asset_out p).

Lemma ordered_pair_wide p :
  wide p -> in_range 32 (fst (ordered_pair p)) /\ in_range 32 (snd (ordered_pair p)).
Proof. unfold wide, ordered_pair. case_match; simpl; tauto. Qed.

Lemma AssetPair_name_ordered p q :
  wide p -> wide q ->
  AssetPair_name p = AssetPair_name q <-> ordered_pair p = ordered_pair q.
Proof.
  intros [Hpa Hpb]%ordered_pair_wide [Hqa Hqb]%ordered_pair_wide. unfold AssetPair_name.
  destruct (ordered_pair p) as [a b], (ordered_pair q) as [c d].
  unfold in_range in *. cbn [fst snd] in *. split; [|by intros [= -> ->]].
  intros [Ha Hb]%app_inj_1; [|by rewrite !length_to_le_bytes].
  apply app_inv_head in Hb. f_equal; eapply to_le_bytes_inj; eauto; lia.
Qed.

(** The share-token name determines the pair up to direction: no two pools of
    different assets share a name. *)
Theorem AssetPair_name_injective p q :
  wide p -> wide q -> AssetPair_name p = AssetPair_name q <-> p = q \/ p = flip_pair q.
Proof. intros. rewrite AssetPair_name_ordered by done. apply ordered_pair_eq. Qed.

Lemma AssetPair_name_injective_witness :
  AssetPair_name (AssetPair_new 3 2) = AssetPair_name (AssetPair_new 2 3).
Proof.
  apply AssetPair_name_injective; [split; cbv; intuition congruence..|].
  by right.
Defined.
