(* ===== verification/Errors.v ===== *)
(** * Dispatch errors

    The [#[pallet::error]] enums of the pallets, with the source's constructors,
    and the [DispatchError] they convert into.  Errors of code outside the
    repository (currencies, registries, ...) are [Foreign pallet code]. *)

From S2P Require Import Prelude.

Module XykErr.
Inductive XykError :=
| CannotCreatePoolWithSameAssets
| InsufficientLiquidity
| InsufficientTradingAmount
| ZeroLiquidity
| ZeroInitialPrice
| CreatePoolAssetAmountInvalid
| InvalidMintedLiquidity
| InvalidLiquidityAmount
| AssetAmountExceededLimit
| AssetAmountNotReachedLimit
| InsufficientAssetBalance
| InsufficientPoolAssetBalance
| InsufficientNativeCurrencyBalance
| TokenPoolNotFound
| TokenPoolAlreadyExists
| AddAssetAmountInvalid
| RemoveAssetAmountInvalid
| SellAssetAmountInvalid
| BuyAssetAmountInvalid
| FeeAmountInvalid
| CannotApplyDiscount
| MaxOutRatioExceeded
| MaxInRatioExceeded
| Overflow
| CannotCreatePool.
End XykErr.

Module LbpErr.
Inductive LbpError :=
| CannotCreatePoolWithSameAssets
| NotOwner
| SaleStarted
| SaleNotEnded
| SaleIsNotRunning
| MaxSaleDurationExceeded
| CannotAddZeroLiquidity
| InsufficientAssetBalance
| PoolNotFound
| PoolAlreadyExists
| InvalidBlockRange
| WeightCalculationError
| InvalidWeight
| ZeroAmount
| MaxInRatioExceeded
| MaxOutRatioExceeded
| FeeAmountInvalid
| TradingLimitReached
| Overflow
| NothingToUpdate
| InsufficientLiquidity
| InsufficientTradingAmount
| FeeCollectorWithAssetAlreadyUsed.
End LbpErr.

Module ExchangeErr.
Inductive ExchangeError :=
| TokenPoolNotFound
| InsufficientAssetBalance
| TradeAmountExceededLimit
| TradeAmountNotReachedLimit
| ZeroSpotPrice
| MinimumTradeLimitNotReached
| IntentionCountOverflow.
End ExchangeErr.

Module LmErr.
Inductive LiquidityMiningError :=
| Overflow
| InsufficientBalanceInGlobalPool
| InvalidPoolId
| InvalidPlannedYieldingPeriods
| InvalidBlocksPerPeriod
| InvalidYieldPerPeriod
| InvalidTotalRewards
| InsufficientRewardCurrencyBalance
| Forbidden
| FarmNotFound
| LiquidityPoolAlreadyExists
| InvalidMultiplier
| InvalidInitialRewardPercentage
| InsufficientAmmSharesBalance
| AmmPoolDoesNotExist
| LiquidityPoolNotFound
| FarmIsNotEmpty
| RewardBalanceIsNotZero
| LiquidityPoolMetadataNotFound
| NftDoesNotExist
| NftIdOverflow
| InvalidNftId
| LiquidityMiningCanceled
| LiquidityMiningIsNotCanceled
| InvalidDepositAmount
| NotDepositOwner
| CantFindDepositOwner
| DoubleClaimInThePeriod
| MissingIncentivizedAsset.
End LmErr.

Module NftErr.
Inductive NftError :=
| NoAvailableInstanceId
| NoAvailableClassId
| TokenClassNotEmpty
| ClassUnknown
| InstanceUnknown
| NotPermitted
| IdReserved.
End NftErr.

Module MarketErr.
Inductive MarketplaceError :=
| NotTheTokenOwner
| BuyFromSelf
| NotForSale
| ClassOrInstanceUnknown
| OfferTooLow
| UnknownOffer
| OfferExpired
| AlreadyOffered
| WithdrawNotAuthorized
| AcceptNotAuthorized
| RoyaltyAlreadySet
| NotInRange.
End MarketErr.

Module DusterErr.
Inductive DusterError :=
| AccountBlacklisted
| AccountNotBlacklisted
| ZeroBalance
| BalanceSufficient
| DustAccountNotSet
| ReserveAccountNotSet.
End DusterErr.

Inductive DispatchError :=
| BadOrigin
| CannotLookup
| XykE (e : XykErr.XykError)
| LbpE (e : LbpErr.LbpError)
| ExchangeE (e : ExchangeErr.ExchangeError)
| LmE (e : LmErr.LiquidityMiningError)
| NftE (e : NftErr.NftError)
| MarketE (e : MarketErr.MarketplaceError)
| DusterE (e : DusterErr.DusterError)
| Foreign (pallet code : Z).

Coercion XykE : XykErr.XykError >-> DispatchError.
Coercion LbpE : LbpErr.LbpError >-> DispatchError.
Coercion ExchangeE : ExchangeErr.ExchangeError >-> DispatchError.
Coercion LmE : LmErr.LiquidityMiningError >-> DispatchError.
Coercion NftE : NftErr.NftError >-> DispatchError.
Coercion MarketE : MarketErr.MarketplaceError >-> DispatchError.
Coercion DusterE : DusterErr.DusterError >-> DispatchError.

(** A call of the runtime on storage [S]. *)
Notation Dispatch := (M DispatchError).

(** Origins: [ensure_signed] and [ensure_root] of FRAME. *)
Inductive Origin := Root | Signed (who : Z) | NoneOrigin.

Definition ensure_signed {S} (o : Origin) : Dispatch S Z :=
  match o with Signed who => mret who | _ => fail BadOrigin end.
Definition ensure_root {S} (o : Origin) : Dispatch S unit :=
  match o with Root => mret tt | _ => fail BadOrigin end.

Lemma ensure_signed_Ok {S} o (s : S) w s' :
  ensure_signed o s = (Ok w, s') <-> o = Signed w /\ s' = s.
Proof. destruct o; unfold ensure_signed, fail, mret, M_ret; naive_solver. Qed.

Lemma ensure_root_Ok {S} o (s : S) u s' :
  ensure_root o s = (Ok u, s') <-> o = Root /\ s' = s.
Proof. destruct o, u; unfold ensure_root, fail, mret, M_ret; naive_solver. Qed.

Lemma reads_ensure_signed {S} o : reads (@ensure_signed S o).
Proof. by destruct o. Qed.
Lemma reads_ensure_root {S} o : reads (@ensure_root S o).
Proof. by destruct o. Qed.
#[export] Hint Resolve reads_ensure_signed reads_ensure_root : reads.

(** [dinv H] is [minv H] with the origin checks. *)
Ltac origin_inv :=
  repeat match goal with
  | H : ensure_signed _ _ = (Ok _, _) |- _ => apply ensure_signed_Ok in H as [? ?]; subst
  | H : ensure_root _ _ = (Ok _, _) |- _ => apply ensure_root_Ok in H as [? ?]; subst
  end.
Ltac dinv H := minv H; origin_inv.
