(* ===== verification/Interfaces.v ===== *)
(** * Interfaces

    The traits through which the pallets reach code that is not in this
    repository (orml currencies, asset registry, oracle hooks, the [hydra_dx_math]
    crate), and the [AMM] trait through which the exchange and the liquidity
    mining pallets reach a pool pallet.  Every interface is a class of operations
    on a state type [S]; what clients rely on is a separate class of laws, so a
    theorem names exactly the documented behaviour it uses. *)

From S2P Require Import Prelude Primitives Errors.

(** ** [orml_traits::MultiCurrency] and its extensions *)

Class MultiCurrency (S : Type) := {
  minimum_balance : AssetId -> Balance;
  dust_account : AccountId;
  total_issuance : AssetId -> S -> Balance;
  total_balance : AssetId -> AccountId -> S -> Balance;
  free_balance : AssetId -> AccountId -> S -> Balance;
  transfer : AssetId -> AccountId -> AccountId -> Balance -> Dispatch S unit;
  deposit : AssetId -> AccountId -> Balance -> Dispatch S unit;
  withdraw : AssetId -> AccountId -> Balance -> Dispatch S unit
}.

(** [dust_account] is not an operation of the trait: it names the account that
    collects dust.  Taking [amount] from an account leaves no dust when it leaves
    nothing or at least the minimum balance; otherwise the remainder is swept to
    the dust account. *)
Definition keeps {S} `{MultiCurrency S} (c : AssetId) (w : AccountId) (amount : Balance)
    (s : S) : Prop :=
  free_balance c w s = amount \/ minimum_balance c <= free_balance c w s - amount.

(** The balances of every account in currency [c] agree. *)
Definition same_balances {S} `{MultiCurrency S} (c : AssetId) (s s' : S) : Prop :=
  forall w, free_balance c w s' = free_balance c w s.

(** What a transfer takes from account [w] in currency [c] is never more than its amount: the
    account is on the currency's list of accounts that are not swept, or (see
    [small_deposit_never_swept]) there is no remainder below the minimum balance. *)
Definition never_swept {S} `{MultiCurrency S} (c : AssetId) (w : AccountId) : Prop :=
  forall t a (s s' : S), transfer c w t a s = (Ok tt, s') -> w <> t -> 0 <= a ->
    free_balance c w s' = free_balance c w s - a.

(** Documented behaviour of a multi-currency: a transfer moves [amount] of one
    currency between two accounts, a deposit mints, a withdrawal burns; a
    transfer to oneself, or of nothing, does nothing.  What is known of an account
    that is swept, and of the dust account then, is only that other accounts and
    currencies are left alone. *)
Class MultiCurrencyLaws (S : Type) `{MultiCurrency S} : Prop := {
  free_balance_nonneg c w s : 0 <= free_balance c w s;
  transfer_enough c f t a (s s' : S) :
    transfer c f t a s = (Ok tt, s') -> f <> t -> a <= free_balance c f s;
  transfer_debit c f t a (s s' : S) :
    transfer c f t a s = (Ok tt, s') -> f <> t -> 0 <= a -> keeps c f a s ->
    free_balance c f s' = free_balance c f s - a;
  transfer_credit c f t a (s s' : S) :
    transfer c f t a s = (Ok tt, s') -> f <> t -> 0 <= a ->
    t <> dust_account \/ keeps c f a s ->
    free_balance c t s' = free_balance c t s + a;
  transfer_others c f t a (s s' : S) w :
    transfer c f t a s = (Ok tt, s') -> 0 <= a -> w <> f -> w <> t ->
    w <> dust_account \/ keeps c f a s ->
    free_balance c w s' = free_balance c w s;
  transfer_noop c f t a (s s' : S) :
    transfer c f t a s = (Ok tt, s') -> f = t \/ a = 0 -> same_balances c s s';
  transfer_frame c f t a (s s' : S) c' :
    transfer c f t a s = (Ok tt, s') -> c' <> c -> same_balances c' s s';
  transfer_issuance c f t a (s s' : S) c' :
    transfer c f t a s = (Ok tt, s') -> total_issuance c' s' = total_issuance c' s;
  deposit_credit c w a (s s' : S) :
    deposit c w a s = (Ok tt, s') -> 0 <= a ->
    free_balance c w s' = free_balance c w s + a;
  deposit_others c w a (s s' : S) w' :
    deposit c w a s = (Ok tt, s') -> w' <> w -> free_balance c w' s' = free_balance c w' s;
  deposit_issuance c w a (s s' : S) :
    deposit c w a s = (Ok tt, s') -> total_issuance c s' = total_issuance c s + a;
  deposit_frame c w a (s s' : S) c' :
    deposit c w a s = (Ok tt, s') -> c' <> c ->
    same_balances c' s s' /\ total_issuance c' s' = total_issuance c' s;
  withdraw_enough c w a (s s' : S) :
    withdraw c w a s = (Ok tt, s') -> a <= free_balance c w s;
  withdraw_debit c w a (s s' : S) :
    withdraw c w a s = (Ok tt, s') -> 0 <= a -> keeps c w a s ->
    free_balance c w s' = free_balance c w s - a;
  withdraw_others c w a (s s' : S) w' :
    withdraw c w a s = (Ok tt, s') -> 0 <= a -> w' <> w ->
    w' <> dust_account \/ keeps c w a s ->
    free_balance c w' s' = free_balance c w' s;
  withdraw_issuance c w a (s s' : S) :
    withdraw c w a s = (Ok tt, s') -> total_issuance c s' = total_issuance c s - a;
  withdraw_frame c w a (s s' : S) c' :
    withdraw c w a s = (Ok tt, s') -> c' <> c ->
    same_balances c' s s' /\ total_issuance c' s' = total_issuance c' s
}.

(** [MultiReservableCurrency], the part the direct trades use
    ([repatriate_reserved] always with [BalanceStatus::Free]). *)
Class MultiReservable (S : Type) := {
  reserved_balance : AssetId -> AccountId -> S -> Balance;
  reserve : AssetId -> AccountId -> Balance -> Dispatch S unit;
  unreserve : AssetId -> AccountId -> Balance -> S -> S;
  repatriate_reserved : AssetId -> AccountId -> AccountId -> Balance -> Dispatch S unit
}.

(** Reserving moves funds of an account from free to reserved and fails without
    effect; repatriating moves a reserved amount to the free balance of another
    account; unreserving moves it back. *)
Class MultiReservableLaws (S : Type) `{MultiCurrency S} `{MultiReservable S} : Prop := {
  reserved_nonneg c w (s : S) : 0 <= reserved_balance c w s;
  reserve_effect c w a (s s' : S) b z :
    reserve c w a s = (Ok tt, s') -> 0 <= a ->
    let d := if decide (b = c /\ z = w) then a else 0 in
    free_balance b z s' = free_balance b z s - d /\
    reserved_balance b z s' = reserved_balance b z s + d;
  reserve_failed c w a (s s' : S) r :
    reserve c w a s = (r, s') -> r <> Ok tt -> s' = s;
  repatriate_effect c f t a (s s' : S) b z :
    repatriate_reserved c f t a s = (Ok tt, s') -> f <> t -> 0 <= a <= reserved_balance c f s ->
    free_balance b z s' = free_balance b z s + (if decide (b = c /\ z = t) then a else 0) /\
    reserved_balance b z s' = reserved_balance b z s - (if decide (b = c /\ z = f) then a else 0);
  unreserve_effect c w a (s : S) b z :
    0 <= a <= reserved_balance c w s ->
    let d := if decide (b = c /\ z = w) then a else 0 in
    free_balance b z (unreserve c w a s) = free_balance b z s + d /\
    reserved_balance b z (unreserve c w a s) = reserved_balance b z s - d
}.

(** [MultiLockableCurrency] and [hydradx_traits::LockedBalance]. *)
Notation LockIdentifier := Z (only parsing).
Class MultiLockable (S : Type) := {
  set_lock : LockIdentifier -> AssetId -> AccountId -> Balance -> Dispatch S unit;
  remove_lock : LockIdentifier -> AssetId -> AccountId -> Dispatch S unit;
  get_by_lock : LockIdentifier -> AssetId -> AccountId -> S -> Balance
}.

(** Setting a lock replaces the amount locked under that id for that account and
    currency, and moves no funds. *)
Class MultiLockableLaws (S : Type) `{MultiCurrency S} `{MultiLockable S} : Prop := {
  set_lock_get l c w a (s s' : S) :
    set_lock l c w a s = (Ok tt, s') -> get_by_lock l c w s' = a;
  set_lock_frame l c w a (s s' : S) l' c' w' :
    set_lock l c w a s = (Ok tt, s') -> (l', c', w') <> (l, c, w) ->
    get_by_lock l' c' w' s' = get_by_lock l' c' w' s;
  set_lock_balances l c w a (s s' : S) c' :
    set_lock l c w a s = (Ok tt, s') -> same_balances c' s s';
  remove_lock_get l c w (s s' : S) :
    remove_lock l c w s = (Ok tt, s') -> get_by_lock l c w s' = 0;
  remove_lock_balances l c w (s s' : S) c' :
    remove_lock l c w s = (Ok tt, s') -> same_balances c' s s';
  transfer_locks c f t a (s s' : S) l c' w' :
    transfer c f t a s = (Ok tt, s') -> get_by_lock l c' w' s' = get_by_lock l c' w' s
}.

(** [BlockNumberProvider]. *)
Class BlockNumberProvider (S : Type) := { block_number : S -> BlockNumber }.

(** ** The other collaborators of the XYK pallet *)

(** [hydradx_traits::ShareTokenRegistry]; [shared_asset] observes which token is
    registered under a name. *)
Class ShareTokenRegistry (S : Type) := {
  shared_asset : list Z -> S -> option AssetId;
  get_or_create_shared_asset : list Z -> list AssetId -> Balance -> Dispatch S AssetId
}.

(** [OnCreatePoolHandler] and [OnTradeHandler] (in, out, amounts, liquidity). *)
Class AMMHandler (S : Type) := {
  on_create_pool : AssetId -> AssetId -> Dispatch S unit;
  on_trade : AssetId -> AssetId -> Balance -> Balance -> Balance -> S -> S
}.

(** [CanCreatePool]. *)
Class CanCreatePool (S : Type) := {
  can_create_pool : AssetId -> AssetId -> S -> bool
}.

(** The registry returns the token already registered under the name or a new
    one, which is not the native asset, is registered under no other name and has
    not been issued; registering moves no funds. *)
Class ShareTokenRegistryLaws (S : Type) (native : AssetId)
    `{MultiCurrency S} `{ShareTokenRegistry S} : Prop := {
  shared_asset_created name l ed (s s' : S) t :
    get_or_create_shared_asset name l ed s = (Ok t, s') ->
    shared_asset name s' = Some t /\
    (shared_asset name s = Some t \/
     shared_asset name s = None /\ total_issuance t s = 0 /\ t <> native /\
     forall name', shared_asset name' s <> Some t);
  shared_asset_frame name l ed (s s' : S) t name' :
    get_or_create_shared_asset name l ed s = (Ok t, s') -> name' <> name ->
    shared_asset name' s' = shared_asset name' s;
  shared_asset_balances name l ed (s s' : S) t c :
    get_or_create_shared_asset name l ed s = (Ok t, s') ->
    same_balances c s s' /\ total_issuance c s' = total_issuance c s;
  transfer_shared c f t a (s s' : S) name :
    transfer c f t a s = (Ok tt, s') -> shared_asset name s' = shared_asset name s;
  deposit_shared c w a (s s' : S) name :
    deposit c w a s = (Ok tt, s') -> shared_asset name s' = shared_asset name s;
  withdraw_shared c w a (s s' : S) name :
    withdraw c w a s = (Ok tt, s') -> shared_asset name s' = shared_asset name s
}.

(** The hooks observe pools and trades; they neither move funds nor register
    share tokens. *)
Class AMMHandlerLaws (S : Type) `{MultiCurrency S} `{ShareTokenRegistry S}
    `{AMMHandler S} : Prop := {
  on_create_pool_quiet a b (s s' : S) :
    on_create_pool a b s = (Ok tt, s') ->
    (forall c, same_balances c s s' /\ total_issuance c s' = total_issuance c s) /\
    (forall name, shared_asset name s' = shared_asset name s);
  on_trade_quiet a b x y l (s : S) :
    (forall c, same_balances c s (on_trade a b x y l s) /\
               total_issuance c (on_trade a b x y l s) = total_issuance c s) /\
    (forall name, shared_asset name (on_trade a b x y l s) = shared_asset name s)
}.

(** ** Pool accounts: [AssetPairAccountIdFor] *)

Class AssetPairAccountIdFor := {
  from_assets : AssetId -> AssetId -> string -> AccountId
}.

(** The account of a pair does not depend on the direction and is not shared with
    another pair or another kind of pool (identifiers of at most 8 bytes). *)
Class AssetPairAccountIdLaws `{AssetPairAccountIdFor} : Prop := {
  from_assets_sym a b id : from_assets a b id = from_assets b a id;
  from_assets_inj a b c d id id' :
    in_range 32 a -> in_range 32 b -> in_range 32 c -> in_range 32 d ->
    (String.length id <= 8)%nat -> (String.length id' <= 8)%nat ->
    from_assets a b id = from_assets c d id' ->
    id = id' /\ ordered_pair (AssetPair_new a b) = ordered_pair (AssetPair_new c d)
}.

(** ** [hydra_dx_math]: constant-product and fee formulas *)

Class XykMath := {
  calculate_spot_price : Balance -> Balance -> Balance -> option Balance;
  calculate_out_given_in : Balance -> Balance -> Balance -> option Balance;
  calculate_in_given_out : Balance -> Balance -> Balance -> option Balance;
  calculate_liquidity_in : Balance -> Balance -> Balance -> option Balance;
  calculate_liquidity_out :
    Balance -> Balance -> Balance -> Balance -> option (Balance * Balance)
}.

(** The documented formulas, up to rounding in favour of the pool:
    [out_reserve * amount_in / (in_reserve + amount_in)] for a sale,
    [in_reserve * amount_out / (out_reserve - amount_out)] for a purchase, and
    [reserve * amount / total] for the share of a reserve. *)
Class XykMathLaws `{XykMath} : Prop := {
  out_given_in_formula rin rout a o :
    0 <= rin -> 0 <= rout -> 0 <= a ->
    calculate_out_given_in rin rout a = Some o ->
    0 <= o /\ o * (rin + a) <= rout * a;
  in_given_out_formula rout rin o i :
    0 <= rin -> 0 <= rout -> 0 <= o ->
    calculate_in_given_out rout rin o = Some i ->
    0 <= i /\ rin * o <= i * (rout - o);
  liquidity_in_nonneg ra rb a b :
    0 <= ra -> 0 <= rb -> 0 <= a -> calculate_liquidity_in ra rb a = Some b -> 0 <= b;
  liquidity_out_formula ra rb a total oa ob :
    0 <= ra -> 0 <= rb -> 0 <= a ->
    calculate_liquidity_out ra rb a total = Some (oa, ob) ->
    0 <= oa /\ 0 <= ob /\ oa * total <= ra * a /\ ob * total <= rb * a;
  spot_price_nonneg ra rb a p :
    0 <= ra -> 0 <= rb -> 0 <= a -> calculate_spot_price ra rb a = Some p -> 0 <= p
}.

(** [fee::calculate_pool_trade_fee]: a fraction of the amount, never negative. *)
Class FeeMath := {
  calculate_pool_trade_fee : Balance -> Z * Z -> option Balance
}.
Class FeeMathLaws `{FeeMath} : Prop := {
  pool_trade_fee_nonneg a n d f :
    0 <= a -> 0 <= n -> 0 <= d -> calculate_pool_trade_fee a (n, d) = Some f -> 0 <= f
}.

Lemma trade_fee_nonneg `{FeeMathLaws} a fee f :
  0 <= a -> 0 <= fst fee -> 0 <= snd fee -> calculate_pool_trade_fee a fee = Some f -> 0 <= f.
Proof. destruct fee. apply pool_trade_fee_nonneg. Qed.

(** ** [sp_arithmetic::FixedU128], as far as the pallets use it

    [price_from_rational] is [FixedU128::from((n, d))], [None] standing for the
    panic of the conversion on a zero denominator. *)
Class FixedPoint := {
  checked_mul_int : Price -> Balance -> option Balance;
  price_from_rational : Balance -> Balance -> option Price
}.
Class FixedPointLaws `{FixedPoint} : Prop := {
  checked_mul_int_nonneg p a b : 0 <= p -> 0 <= a -> checked_mul_int p a = Some b -> 0 <= b
}.

(** ** [hydradx_traits::AMM] *)

(** All the information needed to execute a trade. *)
Record AMMTransfer := mkAMMTransfer {
  t_origin : AccountId;
  t_assets : AssetPair;
  t_amount : Balance;
  t_amount_out : Balance;
  t_discount : bool;
  t_discount_amount : Balance;
  t_fee : AssetId * Balance
}.

Class AMM (S : Type) := {
  amm_exists : AssetPair -> S -> bool;
  get_pair_id : AssetPair -> AccountId;
  get_share_token : AssetPair -> S -> AssetId;
  get_pool_assets : AccountId -> S -> option (list AssetId);
  get_spot_price_unchecked : AssetId -> AssetId -> Balance -> S -> Balance;
  validate_sell :
    AccountId -> AssetPair -> Balance -> Balance -> bool -> Dispatch S AMMTransfer;
  execute_sell : AMMTransfer -> Dispatch S unit;
  validate_buy :
    AccountId -> AssetPair -> Balance -> Balance -> bool -> Dispatch S AMMTransfer;
  execute_buy : AMMTransfer -> Dispatch S unit;
  get_min_trading_limit : Balance;
  get_min_pool_liquidity : Balance;
  get_max_in_ratio : Z;
  get_max_out_ratio : Z;
  get_fee : AccountId -> S -> Z * Z
}.

(** What the trait promises its clients: validation does not touch storage, and a
    failed execution leaves it as it was. *)
Class AMMLaws (S : Type) `{AMM S} : Prop := {
  validate_sell_reads w p a l d : reads (validate_sell w p a l d);
  validate_buy_reads w p a l d : reads (validate_buy w p a l d);
  execute_sell_atomic t (s : S) r s' :
    execute_sell t s = (r, s') -> (forall u, r <> Ok u) -> s' = s;
  execute_buy_atomic t (s : S) r s' :
    execute_buy t s = (r, s') -> (forall u, r <> Ok u) -> s' = s
}.

(** The provided methods [AMM::sell] and [AMM::buy] of the trait, given the
    validation and the execution of a trade: they validate, then execute. *)
Class AMMProvided := {
  provided_trade : forall S, Dispatch S AMMTransfer -> (AMMTransfer -> Dispatch S unit) ->
    Dispatch S unit
}.
Class AMMProvidedLaws `{AMMProvided} : Prop := {
  provided_trade_spec S (v : Dispatch S AMMTransfer) (e : AMMTransfer -> Dispatch S unit) s :
    provided_trade S v e s = (t ← v; e t) s
}.

(** ** Lifting a currency through a lens

    A pallet keeps the rest of the chain in one field of its state; the chain's
    currency is then a currency of the pallet's state. *)
Definition lift_currency {S C} `{Lens S C} `{MultiCurrency C} : MultiCurrency S := {|
  minimum_balance := minimum_balance;
  dust_account := dust_account;
  total_issuance c s := total_issuance c (lens_get s);
  total_balance c w s := total_balance c w (lens_get s);
  free_balance c w s := free_balance c w (lens_get s);
  transfer c f t a := zoom (transfer c f t a);
  deposit c w a := zoom (deposit c w a);
  withdraw c w a := zoom (withdraw c w a)
|}.

Lemma lift_currency_laws {S C} `{LensLaws S C} `{MultiCurrencyLaws C} :
  @MultiCurrencyLaws S lift_currency.
Proof.
  split; unfold same_balances, keeps; simpl; intros *;
    try (intros Hrun%zoom_Ok; destruct Hrun as (c0 & Hrun & ->); rewrite ?lens_get_set);
    intros.
  - apply free_balance_nonneg.
  - by eapply transfer_enough.
  - by eapply transfer_debit.
  - by eapply transfer_credit.
  - by eapply transfer_others.
  - by eapply transfer_noop.
  - by eapply transfer_frame.
  - by eapply transfer_issuance.
  - by eapply deposit_credit.
  - by eapply deposit_others.
  - by eapply deposit_issuance.
  - by eapply deposit_frame.
  - by eapply withdraw_enough.
  - by eapply withdraw_debit.
  - by eapply withdraw_others.
  - by eapply withdraw_issuance.
  - by eapply withdraw_frame.
Qed.

(** ** Moving funds, for every account and currency at once *)

(** [x] of currency [a] moves from [f] to [t]. *)
Definition moves (a : AssetId) (f t : AccountId) (x : Balance) (b : AssetId) (z : AccountId)
    : Balance :=
  (if decide (b = a /\ z = t) then x else 0) - (if decide (b = a /\ z = f) then x else 0).

(** With an existential deposit of at most one unit there is nothing to sweep. *)
Lemma small_deposit_never_swept {S} `{MultiCurrencyLaws S} c w :
  minimum_balance (S := S) c <= 1 -> never_swept (S := S) c w.
Proof.
  intros Hmin t a s s' T Hwt Ha. apply (transfer_debit _ _ _ _ _ _ T); [done..|].
  pose proof (transfer_enough _ _ _ _ _ _ T Hwt). unfold keeps. lia.
Qed.

Lemma transfer_moves {S} `{MultiCurrencyLaws S} a f t x (s s' : S) :
  transfer a f t x s = (Ok tt, s') -> f <> t -> 0 <= x -> keeps a f x s ->
  forall b z, free_balance b z s' = free_balance b z s + moves a f t x b z.
Proof.
  intros T Hft Hx Hk b z. unfold moves.
  destruct (decide (b = a)) as [->|Hb].
  - destruct (decide (z = t)) as [->|Ht]; [|destruct (decide (z = f)) as [->|Hf]].
    + rewrite decide_True, decide_False by naive_solver.
      rewrite (transfer_credit _ _ _ _ _ _ T); auto; lia.
    + rewrite decide_False, decide_True by naive_solver.
      rewrite (transfer_debit _ _ _ _ _ _ T); auto; lia.
    + rewrite !decide_False by naive_solver.
      rewrite (transfer_others _ _ _ _ _ _ z T); auto; lia.
  - rewrite !decide_False by naive_solver. rewrite (transfer_frame _ _ _ _ _ _ b T) by done. lia.
Qed.

(** Reservations lifted the same way. *)
Definition lift_reservable {S C} `{Lens S C} `{MultiReservable C} : MultiReservable S := {|
  reserved_balance c w s := reserved_balance c w (lens_get s);
  reserve c w a := zoom (reserve c w a);
  unreserve c w a s := lens_set (unreserve c w a (lens_get s)) s;
  repatriate_reserved c f t a := zoom (repatriate_reserved c f t a)
|}.

Lemma lift_reservable_laws {S C} `{LensLaws S C} `{MultiReservableLaws C} :
  @MultiReservableLaws S lift_currency lift_reservable.
Proof.
  split; simpl; intros *.
  - apply reserved_nonneg.
  - intros Hrun%zoom_Ok. destruct Hrun as (p & Hrun & ->). rewrite lens_get_set.
    by apply reserve_effect.
  - unfold zoom. destruct (reserve c w a (lens_get s)) as [r0 p] eqn:Hr. intros [= <- <-] Hne.
    apply reserve_failed in Hr; [|done]. subst. apply lens_set_get.
  - intros Hrun%zoom_Ok. destruct Hrun as (p & Hrun & ->). rewrite lens_get_set.
    by apply repatriate_effect.
  - rewrite lens_get_set. by apply unreserve_effect.
Qed.
