(* ===== verification/Ledger.v ===== *)
(** * A reference currency

    A small executable chain that satisfies the laws of [Interfaces.v]: free and
    reserved balances, locks, issuance and a share-token registry, with an
    existential deposit of 1 (so an account is never swept).  The theorems about
    the pallets are stated for every currency that satisfies the laws; this
    instance shows the laws can hold and runs the concrete examples. *)

From S2P Require Import Prelude Primitives Errors Interfaces.

Record Ledger := mkLedger {
  l_free : gmap (Z * Z) N;
  l_reserved : gmap (Z * Z) N;
  l_locks : gmap (Z * Z * Z) Z;
  l_issuance : gmap Z Z;
  l_shared : gmap (list Z) Z
}.

Definition l_balance (m : gmap (Z * Z) N) (c w : Z) : Z := Z.of_N (default 0%N (m !! (c, w))).
Definition l_put (c w v : Z) (m : gmap (Z * Z) N) : gmap (Z * Z) N := <[(c, w) := Z.to_N v]> m.

Definition l_issued (c : Z) (s : Ledger) : Z := default 0 (l_issuance s !! c).

Definition set_l_free (m : gmap (Z * Z) N) (s : Ledger) : Ledger :=
  mkLedger m (l_reserved s) (l_locks s) (l_issuance s) (l_shared s).
Definition set_l_reserved (m : gmap (Z * Z) N) (s : Ledger) : Ledger :=
  mkLedger (l_free s) m (l_locks s) (l_issuance s) (l_shared s).
Definition set_l_locks (m : gmap (Z * Z * Z) Z) (s : Ledger) : Ledger :=
  mkLedger (l_free s) (l_reserved s) m (l_issuance s) (l_shared s).
Definition set_l_issuance (m : gmap Z Z) (s : Ledger) : Ledger :=
  mkLedger (l_free s) (l_reserved s) (l_locks s) m (l_shared s).
Definition set_l_shared (m : gmap (list Z) Z) (s : Ledger) : Ledger :=
  mkLedger (l_free s) (l_reserved s) (l_locks s) (l_issuance s) m.

Definition BalanceTooLow : DispatchError := Foreign 1 0.
Definition BalanceOverflow : DispatchError := Foreign 1 1.

Definition l_transfer (c f t a : Z) : Dispatch Ledger unit :=
  fun s =>
    if (f =? t) || (a =? 0) then (Ok tt, s)
    else if l_balance (l_free s) c f <? a then (Err BalanceTooLow, s)
    else if 2 ^ 128 <=? l_balance (l_free s) c t + a then (Err BalanceOverflow, s)
    else (Ok tt, set_l_free (l_put c t (l_balance (l_free s) c t + a)
                              (l_put c f (l_balance (l_free s) c f - a) (l_free s))) s).

Definition l_deposit (c w a : Z) : Dispatch Ledger unit :=
  fun s =>
    if 2 ^ 128 <=? l_issued c s + a then (Err BalanceOverflow, s)
    else (Ok tt, set_l_issuance (<[c := l_issued c s + a]> (l_issuance s))
                  (set_l_free (l_put c w (l_balance (l_free s) c w + a) (l_free s)) s)).

Definition l_withdraw (c w a : Z) : Dispatch Ledger unit :=
  fun s =>
    if l_balance (l_free s) c w <? a then (Err BalanceTooLow, s)
    else (Ok tt, set_l_issuance (<[c := l_issued c s - a]> (l_issuance s))
                  (set_l_free (l_put c w (l_balance (l_free s) c w - a) (l_free s)) s)).

#[export] Instance Ledger_currency : MultiCurrency Ledger := {|
  minimum_balance _ := 1;
  dust_account := 0;
  total_issuance := l_issued;
  total_balance c w s := l_balance (l_free s) c w + l_balance (l_reserved s) c w;
  free_balance c w s := l_balance (l_free s) c w;
  transfer := l_transfer;
  deposit := l_deposit;
  withdraw := l_withdraw
|}.

Definition l_reserve (c w a : Z) : Dispatch Ledger unit :=
  fun s =>
    if l_balance (l_free s) c w <? a then (Err BalanceTooLow, s)
    else (Ok tt, set_l_reserved (l_put c w (l_balance (l_reserved s) c w + a) (l_reserved s))
                  (set_l_free (l_put c w (l_balance (l_free s) c w - a) (l_free s)) s)).

Definition l_unreserve (c w a : Z) (s : Ledger) : Ledger :=
  let v := Z.min a (l_balance (l_reserved s) c w) in
  set_l_reserved (l_put c w (l_balance (l_reserved s) c w - v) (l_reserved s))
    (set_l_free (l_put c w (l_balance (l_free s) c w + v) (l_free s)) s).

Definition l_repatriate (c f t a : Z) : Dispatch Ledger unit :=
  fun s =>
    let v := Z.min a (l_balance (l_reserved s) c f) in
    (Ok tt, set_l_free (l_put c t (l_balance (l_free s) c t + v) (l_free s))
              (set_l_reserved (l_put c f (l_balance (l_reserved s) c f - v) (l_reserved s)) s)).

#[export] Instance Ledger_reservable : MultiReservable Ledger := {|
  reserved_balance c w s := l_balance (l_reserved s) c w;
  reserve := l_reserve;
  unreserve := l_unreserve;
  repatriate_reserved := l_repatriate
|}.

#[export] Instance Ledger_lockable : MultiLockable Ledger := {|
  set_lock l c w a := modify (fun s => set_l_locks (<[(l, c, w) := a]> (l_locks s)) s);
  remove_lock l c w := modify (fun s => set_l_locks (delete (l, c, w) (l_locks s)) s);
  get_by_lock l c w s := default 0 (l_locks s !! (l, c, w))
|}.

(** Share tokens: the ids of the registered tokens, of the issued currencies and
    of the native asset are taken. *)
Definition l_taken (s : Ledger) : gset Z :=
  {[CORE_ASSET_ID]} ∪ dom (l_issuance s) ∪ list_to_set (snd <$> map_to_list (l_shared s)).

Definition l_get_or_create (name : list Z) (_ : list Z) (_ : Z) : Dispatch Ledger Z :=
  fun s => match l_shared s !! name with
           | Some t => (Ok t, s)
           | None => let t := fresh (l_taken s) in
                     (Ok t, set_l_shared (<[name := t]> (l_shared s)) s)
           end.

#[export] Instance Ledger_registry : ShareTokenRegistry Ledger := {|
  shared_asset name s := l_shared s !! name;
  get_or_create_shared_asset := l_get_or_create
|}.

#[export] Instance Ledger_handler : AMMHandler Ledger := {|
  on_create_pool _ _ := mret tt;
  on_trade _ _ _ _ _ s := s
|}.

#[export] Instance Ledger_can_create : CanCreatePool Ledger := {|
  can_create_pool _ _ _ := true
|}.

(** ** The laws *)

Lemma l_balance_put m c w v c' w' :
  0 <= v ->
  l_balance (l_put c w v m) c' w' =
    if decide ((c, w) = (c', w')) then v else l_balance m c' w'.
Proof.
  intros Hv. unfold l_balance, l_put. rewrite lookup_insert.
  case_decide; simpl; [rewrite Z2N.id by done|]; done.
Qed.

Lemma l_balance_nonneg m c w : 0 <= l_balance m c w.
Proof. unfold l_balance. lia. Qed.

Lemma l_issued_put c v s c' m :
  l_issued c' (set_l_issuance (<[c := v]> (l_issuance s)) m) =
    if decide (c = c') then v else l_issued c' s.
Proof.
  unfold l_issued, set_l_issuance; simpl. rewrite lookup_insert. by case_decide.
Qed.

Lemma l_balance_put_ne m c w v c' w' :
  (c, w) <> (c', w') -> l_balance (l_put c w v m) c' w' = l_balance m c' w'.
Proof. intros Hne. unfold l_balance, l_put. by rewrite lookup_insert_ne. Qed.

(** A successful transfer between two accounts, computed. *)
Lemma l_transfer_Ok c f t a s s' :
  l_transfer c f t a s = (Ok tt, s') ->
  (f = t \/ a = 0) /\ s' = s \/
  f <> t /\ a <> 0 /\ a <= l_balance (l_free s) c f /\
  s' = set_l_free (l_put c t (l_balance (l_free s) c t + a)
                    (l_put c f (l_balance (l_free s) c f - a) (l_free s))) s.
Proof.
  unfold l_transfer.
  destruct (Z.eqb_spec f t), (Z.eqb_spec a 0); simpl; try (intros [= <-]; auto; fail).
  repeat case_match; intros [= <-]; zbool. auto.
Qed.

Ltac ledger_balance :=
  repeat first
    [ rewrite l_balance_put_ne by congruence
    | rewrite l_balance_put by lia
    | rewrite decide_True by congruence
    | rewrite decide_False by congruence ].

#[export] Instance Ledger_currency_laws : MultiCurrencyLaws Ledger.
Proof.
  split; unfold same_balances, keeps; simpl; intros *.
  - apply l_balance_nonneg.
  - intros [[[?|?] ->]|(?&?&?&->)]%l_transfer_Ok ?; try done. pose proof (l_balance_nonneg (l_free s) c f). lia.
  - intros [[[?|?] ->]|(?&?&?&->)]%l_transfer_Ok ? ? ?; try done; [lia|].
    simpl. pose proof (l_balance_nonneg (l_free s) c t). ledger_balance. done.
  - intros [[[?|?] ->]|(?&?&?&->)]%l_transfer_Ok ? ? ?; try done; [lia|].
    simpl. pose proof (l_balance_nonneg (l_free s) c t). ledger_balance. done.
  - intros [[? ->]|(?&?&?&->)]%l_transfer_Ok ? ? ? ?; [done|]. simpl. ledger_balance. done.
  - intros [[? ->]|(?&?&?&->)]%l_transfer_Ok ? ?; [done|naive_solver].
  - intros [[? ->]|(?&?&?&->)]%l_transfer_Ok ? ?; [done|]. simpl. ledger_balance. done.
  - intros [[? ->]|(?&?&?&->)]%l_transfer_Ok; done.
  - unfold l_deposit. case_match; intros [= <-] ?; zbool. simpl.
    pose proof (l_balance_nonneg (l_free s) c w). ledger_balance. done.
  - unfold l_deposit. case_match; intros [= <-] ?; zbool. simpl. by ledger_balance.
  - unfold l_deposit. case_match; intros [= <-]. rewrite l_issued_put. by rewrite decide_True.
  - unfold l_deposit. case_match; intros [= <-] ?. simpl. split; intros; [by ledger_balance|].
    rewrite l_issued_put. by rewrite decide_False.
  - unfold l_withdraw. case_match; intros [= <-]; zbool. done.
  - unfold l_withdraw. case_match; intros [= <-] ? ?; zbool. simpl. by ledger_balance.
  - unfold l_withdraw. case_match; intros [= <-] ? ? ?; zbool. simpl. by ledger_balance.
  - unfold l_withdraw. case_match; intros [= <-]. rewrite l_issued_put. by rewrite decide_True.
  - unfold l_withdraw. case_match; intros [= <-] ?. simpl. split; intros; [by ledger_balance|].
    rewrite l_issued_put. by rewrite decide_False.
Qed.

#[export] Instance Ledger_lockable_laws : MultiLockableLaws Ledger.
Proof.
  split; intros *; unfold same_balances; simpl.
  - unfold modify. intros [= <-]. simpl. by rewrite lookup_insert_eq.
  - unfold modify. intros [= <-] ?. simpl. by rewrite lookup_insert_ne.
  - unfold modify. by intros [= <-].
  - unfold modify. intros [= <-]. simpl. by rewrite lookup_delete_eq.
  - unfold modify. by intros [= <-].
  - unfold l_transfer. repeat case_match; intros [= <-]; done.
Qed.

Lemma l_taken_not (s : Ledger) t :
  t ∉ l_taken s ->
  t <> CORE_ASSET_ID /\ l_issued t s = 0 /\ forall name, l_shared s !! name <> Some t.
Proof.
  unfold l_taken, l_issued. intros Ht. repeat split; [set_solver| |].
  - destruct (l_issuance s !! t) eqn:Hl; [|done]. exfalso. apply Ht.
    apply elem_of_union_l, elem_of_union_r, elem_of_dom. eauto.
  - intros name Hn. apply Ht. apply elem_of_union_r. apply elem_of_list_to_set.
    apply list_elem_of_fmap. exists (name, t). split; [done|]. by apply elem_of_map_to_list.
Qed.

#[export] Instance Ledger_registry_laws : ShareTokenRegistryLaws Ledger CORE_ASSET_ID.
Proof.
  split; intros *; unfold same_balances; simpl.
  - unfold l_get_or_create. destruct (l_shared s !! name) eqn:Hn; intros [= <- <-]; [eauto|].
    simpl. rewrite lookup_insert_eq. split; [done|]. right.
    destruct (l_taken_not s (fresh (l_taken s))) as (? & ? & ?); [apply is_fresh|]. auto.
  - unfold l_get_or_create. destruct (l_shared s !! name) eqn:Hn; intros [= <- <-] ?; [done|].
    simpl. by rewrite lookup_insert_ne.
  - unfold l_get_or_create. destruct (l_shared s !! name); by intros [= <- <-].
  - unfold l_transfer. repeat case_match; intros [= <-]; done.
  - unfold l_deposit. repeat case_match; intros [= <-]; done.
  - unfold l_withdraw. repeat case_match; intros [= <-]; done.
Qed.

#[export] Instance Ledger_handler_laws : AMMHandlerLaws Ledger.
Proof.
  split; unfold same_balances; simpl; [|done].
  intros a b s s' Hrun. apply mret_Ok in Hrun as [_ ->]. done.
Qed.

(** ** Formulas for the examples *)

(** Constant-product formulas computed exactly, rounded in favour of the pool. *)
#[export] Instance exact_xyk_math : XykMath := {|
  calculate_spot_price rin rout a := if rin =? 0 then None else Some (a * rout / rin);
  calculate_out_given_in rin rout a :=
    if rin + a =? 0 then Some 0 else Some (rout * a / (rin + a));
  calculate_in_given_out rout rin o :=
    if rout <=? o then None else Some (rin * o / (rout - o) + 1);
  calculate_liquidity_in ra rb a := if ra =? 0 then None else Some (a * rb / ra);
  calculate_liquidity_out ra rb a total :=
    if total <=? 0 then None else Some (ra * a / total, rb * a / total)
|}.

Lemma floor_mul a b : 0 < b -> a / b * b <= a.
Proof. intros. pose proof (Z.mul_div_le a b). lia. Qed.

#[export] Instance exact_xyk_math_laws : XykMathLaws.
Proof.
  split; simpl; intros *.
  - intros ? ? ?. case_match; intros [= <-]; zbool; [nia|]. split.
    + apply Z.div_pos; nia.
    + apply floor_mul. lia.
  - intros ? ? ?. case_match; [done|]. intros [= <-]. zbool. split.
    + assert (0 <= rin * o / (rout - o)) by (apply Z.div_pos; nia). lia.
    + pose proof (Z.mul_succ_div_gt (rin * o) (rout - o)). nia.
  - intros ? ? ?. case_match; [done|]. intros [= <-]. zbool. apply Z.div_pos; nia.
  - intros ? ? ?. case_match; [done|]. intros [= <- <-]. zbool.
    repeat split; try (apply Z.div_pos; nia); apply floor_mul; lia.
  - intros ? ? ?. case_match; [done|]. intros [= <-]. zbool. apply Z.div_pos; nia.
Qed.

(** The fee: whole denominators of the amount times the numerator, nothing for the
    denominator zero, the behaviour the repository's benchmarks and tests show. *)
#[export] Instance exact_fee_math : FeeMath := {|
  calculate_pool_trade_fee a fee :=
    if snd fee =? 0 then Some 0 else
    let f := a / snd fee * fst fee in if f <? 2 ^ 128 then Some f else None
|}.
#[export] Instance exact_fee_math_laws : FeeMathLaws.
Proof.
  split. intros a n d f ? ? ?. cbn [calculate_pool_trade_fee exact_fee_math fst snd]. cbv zeta.
  case_match; [by intros [= <-]|]. case_match; [|done]. intros [= <-]. zbool.
  assert (0 <= a / d) by (apply Z.div_pos; lia). nia.
Qed.

(** Fixed-point numbers with 18 decimals. *)
#[export] Instance exact_fixed : FixedPoint := {|
  checked_mul_int p a :=
    let r := p * a / 10 ^ 18 in if r <? 2 ^ 128 then Some r else None;
  price_from_rational n d :=
    if d =? 0 then None else Some (Z.min (2 ^ 128 - 1) (n * 10 ^ 18 / d))
|}.
#[export] Instance exact_fixed_laws : FixedPointLaws.
Proof.
  split. intros p a b ? ?. cbn [checked_mul_int exact_fixed]. cbv zeta.
  case_match; [|done]. intros [= <-]. apply Z.div_pos; nia.
Qed.

(** Validation followed by execution. *)
#[export] Instance plain_provided : AMMProvided := {|
  provided_trade S v e := t ← v; e t
|}.
#[export] Instance plain_provided_laws : AMMProvidedLaws.
Proof. by split. Qed.

(** Pool accounts for the examples: negative numbers, so that they are never user
    accounts.  The account encodes the kind of pool and the ordered pair. *)
Definition pair_code (a b : Z) : Z := let '(x, y) := ordered_pair (AssetPair_new a b) in
  x * 2 ^ 32 + y.

Fixpoint string_code (id : string) : Z :=
  match id with
  | EmptyString => 1
  | String c id => Z.of_N (Ascii.N_of_ascii c) + 256 * string_code id
  end.

#[export] Instance code_accounts : AssetPairAccountIdFor := {|
  from_assets a b id := - (string_code id * 2 ^ 64 + pair_code a b)
|}.

Lemma string_code_pos id : 0 < string_code id.
Proof. induction id; simpl; lia. Qed.

Lemma string_code_inj id id' : string_code id = string_code id' -> id = id'.
Proof.
  revert id'. induction id as [|c id IH]; intros [|c' id'] Heq; cbn [string_code] in Heq.
  - done.
  - pose proof (string_code_pos id'). lia.
  - pose proof (string_code_pos id). lia.
  - pose proof (Ascii.N_ascii_bounded c) as B1. pose proof (Ascii.N_ascii_bounded c') as B2.
    assert (Ascii.N_of_ascii c = Ascii.N_of_ascii c' /\ string_code id = string_code id')
      as [Hc Hs] by lia.
    f_equal; [|by apply IH]. by rewrite <- (Ascii.ascii_N_embedding c), Hc, Ascii.ascii_N_embedding.
Qed.

Lemma pair_code_sym a b : pair_code a b = pair_code b a.
Proof.
  unfold pair_code. by rewrite (ordered_pair_flip (AssetPair_new b a) : ordered_pair (AssetPair_new a b) = _).
Qed.

Lemma ordered_pair_range a b :
  in_range 32 a -> in_range 32 b ->
  in_range 32 (fst (ordered_pair (AssetPair_new a b))) /\
  in_range 32 (snd (ordered_pair (AssetPair_new a b))).
Proof. intros. unfold ordered_pair. case_match; simpl; auto. Qed.

#[export] Instance code_accounts_laws : AssetPairAccountIdLaws.
Proof.
  split; simpl; intros *; [by rewrite pair_code_sym|].
  intros Ha Hb Hc Hd _ _ Heq.
  destruct (ordered_pair_range a b Ha Hb) as [H1 H2], (ordered_pair_range c d Hc Hd) as [H3 H4].
  unfold pair_code in Heq.
  destruct (ordered_pair (AssetPair_new a b)) as [x y], (ordered_pair (AssetPair_new c d)) as [x' y'].
  unfold in_range in *. cbn [fst snd] in *.
  assert (string_code id = string_code id') as Hid%string_code_inj by lia. subst.
  split; [done|]. f_equal; lia.
Qed.

#[export] Instance Ledger_reservable_laws : MultiReservableLaws Ledger.
Proof.
  assert (Hpair : forall a b c d : Z, (a, b) = (c, d) <-> c = a /\ d = b) by (intros; split; [intros [= -> ->]|intros [-> ->]]; done).
  assert (Hdec : forall (a b c d x y : Z), (if decide ((a, b) = (c, d)) then x else y) =
    (if decide (c = a /\ d = b) then x else y)).
  { intros. destruct (decide ((a, b) = (c, d))) as [Hd|Hd], (decide (c = a /\ d = b)) as [He|He];
      rewrite Hpair in Hd; tauto. }
  split; simpl; intros *.
  - apply l_balance_nonneg.
  - unfold l_reserve. case_match; intros [= <-] ?; zbool. simpl.
    pose proof (l_balance_nonneg (l_reserved s) c w).
    rewrite !l_balance_put, !Hdec by lia.
    destruct (decide (b = c /\ z = w)) as [[-> ->]|]; lia.
  - unfold l_reserve. case_match; intros [= <- <-]; done.
  - unfold l_repatriate. intros [= <-] Hft Ha. simpl. rewrite Z.min_l by lia.
    pose proof (l_balance_nonneg (l_free s) c t).
    rewrite !l_balance_put, !Hdec by lia. split; case_decide as Hd; try (destruct Hd as [-> ->]); lia.
  - intros Ha. unfold l_unreserve. simpl. rewrite Z.min_l by lia.
    pose proof (l_balance_nonneg (l_free s) c w).
    rewrite !l_balance_put, !Hdec by lia.
    destruct (decide (b = c /\ z = w)) as [[-> ->]|]; lia.
Qed.
