(* ===== verification/Xyk.v ===== *)
(** * The XYK pallet

    Models [src/pallets/xyk/src/lib.rs] and [impls.rs]: the storage of the
    constant-product pools, the extrinsics [create_pool], [add_liquidity],
    [remove_liquidity], [sell] and [buy], the [AMM] trait implementation with its
    validate/execute split, and the spot-price provider.  The rest of the chain
    (currencies, registry, hooks) is the field [chain], used through the classes of
    [Interfaces.v]. *)

From S2P Require Import Prelude Primitives Errors Interfaces.

(** The constants of [pallet::Config]. *)
Class XykConfig := {
  NativeAssetId : AssetId;
  GetExchangeFee : Z * Z;
  MinTradingLimit : Balance;
  MinPoolLiquidity : Balance;
  MaxInRatio : Z;
  MaxOutRatio : Z
}.

Inductive XykEvent :=
| LiquidityAdded (who : AccountId) (asset_a asset_b : AssetId) (amount_a amount_b : Balance)
| LiquidityRemoved (who : AccountId) (asset_a asset_b : AssetId) (shares : Balance)
| PoolCreated (who : AccountId) (asset_a asset_b : AssetId) (shares : Balance)
    (share_token : AssetId) (pool : AccountId)
| PoolDestroyed (who : AccountId) (asset_a asset_b share_token : AssetId) (pool : AccountId)
| SellExecuted (who : AccountId) (asset_in asset_out : AssetId) (amount sale_price : Balance)
    (fee_asset : AssetId) (fee_amount : Balance) (pool : AccountId)
| BuyExecuted (who : AccountId) (asset_out asset_in : AssetId) (amount buy_price : Balance)
    (fee_asset : AssetId) (fee_amount : Balance) (pool : AccountId).

(** The pallet's storage, with the rest of the chain. *)
Record XykState (C : Type) := mkXyk {
  chain : C;
  ShareToken : gmap AccountId AssetId;
  TotalLiquidity : gmap AccountId Balance;
  PoolAssets : gmap AccountId (AssetId * AssetId);
  xyk_events : list XykEvent
}.
Arguments mkXyk {C}.
Arguments chain {C}.
Arguments ShareToken {C}.
Arguments TotalLiquidity {C}.
Arguments PoolAssets {C}.
Arguments xyk_events {C}.

Section setters.
Context {C : Type}.
Implicit Types s : XykState C.

Definition set_chain (c : C) s : XykState C :=
  mkXyk c (ShareToken s) (TotalLiquidity s) (PoolAssets s) (xyk_events s).
Definition set_ShareToken (f : gmap AccountId AssetId -> gmap AccountId AssetId) s :=
  mkXyk (chain s) (f (ShareToken s)) (TotalLiquidity s) (PoolAssets s) (xyk_events s).
Definition set_TotalLiquidity (f : gmap AccountId Balance -> gmap AccountId Balance) s :=
  mkXyk (chain s) (ShareToken s) (f (TotalLiquidity s)) (PoolAssets s) (xyk_events s).
Definition set_PoolAssets
    (f : gmap AccountId (AssetId * AssetId) -> gmap AccountId (AssetId * AssetId)) s :=
  mkXyk (chain s) (ShareToken s) (TotalLiquidity s) (f (PoolAssets s)) (xyk_events s).
Definition deposit_event (e : XykEvent) : Dispatch (XykState C) unit :=
  modify (fun s => mkXyk (chain s) (ShareToken s) (TotalLiquidity s) (PoolAssets s)
                     (xyk_events s ++ [e])).
End setters.

#[export] Instance Xyk_lens C : Lens (XykState C) C := {|
  lens_get := chain;
  lens_set := set_chain
|}.
#[export] Instance Xyk_lens_laws C : LensLaws (XykState C) C.
Proof. split; [done|by intros []|done]. Qed.

Section pallet.
Context {C : Type}.
Context `{MultiCurrency C} `{ShareTokenRegistry C} `{AMMHandler C} `{CanCreatePool C}.
Context `{AssetPairAccountIdFor} `{XykMath} `{FeeMath} `{FixedPoint} `{AMMProvided}.
Context {cfg : XykConfig}.
Notation State := (XykState C).
Local Notation ensure b e := (ensure b%rust (XykE e)).
Local Notation ok_or o e := (ok_or o (XykE e)).
Local Notation free c w := (gets (fun s : State => free_balance c w (chain s))).

(** ** Getters *)

Definition share_token (pool : AccountId) (s : State) : AssetId :=
  default 0 (ShareToken s !! pool).
Definition total_liquidity (pool : AccountId) (s : State) : Balance :=
  default 0 (TotalLiquidity s !! pool).

Definition pair_account_from_assets (asset_a asset_b : AssetId) : AccountId :=
  from_assets asset_a asset_b "xyk".

Definition get_pair_id (p : AssetPair) : AccountId :=
  pair_account_from_assets (asset_in p) (asset_out p).

Definition exists_pool (p : AssetPair) (s : State) : bool :=
  bool_decide (is_Some (ShareToken s !! get_pair_id p)).

Definition get_share_token (p : AssetPair) (s : State) : AssetId :=
  share_token (get_pair_id p) s.

Definition get_pool_assets (pool_account_id : AccountId) (s : State) : option (list AssetId) :=
  option_map (fun a => [fst a; snd a]) (PoolAssets s !! pool_account_id).

Definition get_pool_balances (pool_address : AccountId) (s : State)
    : option (list (AssetId * Balance)) :=
  Some (match get_pool_assets pool_address s with
        | Some l => map (fun item => (item, free_balance item pool_address (chain s))) l
        | None => []
        end).

Definition get_spot_price_unchecked (asset_a asset_b : AssetId) (amount : Balance)
    (s : State) : Balance :=
  let pair_account := get_pair_id {| asset_out := asset_a; asset_in := asset_b |} in
  let asset_a_reserve := free_balance asset_a pair_account (chain s) in
  let asset_b_reserve := free_balance asset_b pair_account (chain s) in
  default 0 (calculate_spot_price asset_a_reserve asset_b_reserve amount).

(** ** Fees *)

Definition calculate_discounted_fee (amount : Balance) : Dispatch State Balance :=
  ok_or (calculate_pool_trade_fee amount (7, 10000)) XykErr.FeeAmountInvalid.

Definition calculate_fee (amount : Balance) : Dispatch State Balance :=
  ok_or (calculate_pool_trade_fee amount GetExchangeFee) XykErr.FeeAmountInvalid.

(** ** Extrinsics on pools *)

Definition create_pool (origin : Origin) (asset_a asset_b : AssetId) (amount : Balance)
    (initial_price : Price) : Dispatch State unit :=
  transactional (
    who ← ensure_signed origin;
    can ← gets (fun s => can_create_pool asset_a asset_b (chain s));
    ensure can XykErr.CannotCreatePool ;;
    ensure (amount >= MinPoolLiquidity) XykErr.InsufficientLiquidity ;;
    ensure (initial_price != 0) XykErr.ZeroInitialPrice ;;
    ensure (asset_a != asset_b) XykErr.CannotCreatePoolWithSameAssets ;;
    let asset_pair := {| asset_in := asset_a; asset_out := asset_b |} in
    found ← gets (exists_pool asset_pair);
    ensure (negb found) XykErr.TokenPoolAlreadyExists ;;
    asset_b_amount ← ok_or (checked_mul_int initial_price amount)
                       XykErr.CreatePoolAssetAmountInvalid;
    ensure (asset_b_amount >= MinPoolLiquidity) XykErr.InsufficientLiquidity ;;
    let shares_added := if asset_a <? asset_b then amount else asset_b_amount in
    free_a ← free asset_a who;
    ensure (free_a >= amount) XykErr.InsufficientAssetBalance ;;
    free_b ← free asset_b who;
    ensure (free_b >= asset_b_amount) XykErr.InsufficientAssetBalance ;;
    let pair_account := get_pair_id asset_pair in
    let token_name := AssetPair_name asset_pair in
    share_token ← zoom (get_or_create_shared_asset token_name [asset_a; asset_b] MinPoolLiquidity);
    zoom (on_create_pool (asset_in asset_pair) (asset_out asset_pair)) ;;
    modify (set_ShareToken (insert pair_account share_token)) ;;
    modify (set_PoolAssets (insert pair_account (asset_a, asset_b))) ;;
    deposit_event (PoolCreated who asset_a asset_b shares_added share_token pair_account) ;;
    zoom (transfer asset_a who pair_account amount) ;;
    zoom (transfer asset_b who pair_account asset_b_amount) ;;
    zoom (deposit share_token who shares_added) ;;
    modify (set_TotalLiquidity (insert pair_account shares_added)) ;;
    mret tt).

Definition add_liquidity (origin : Origin) (asset_a asset_b : AssetId)
    (amount_a amount_b_max_limit : Balance) : Dispatch State unit :=
  transactional (
    who ← ensure_signed origin;
    let asset_pair := {| asset_in := asset_a; asset_out := asset_b |} in
    found ← gets (exists_pool asset_pair);
    ensure found XykErr.TokenPoolNotFound ;;
    ensure (amount_a >= MinTradingLimit) XykErr.InsufficientTradingAmount ;;
    ensure (amount_b_max_limit != 0) XykErr.ZeroLiquidity ;;
    free_a ← free asset_a who;
    ensure (free_a >= amount_a) XykErr.InsufficientAssetBalance ;;
    free_b ← free asset_b who;
    ensure (free_b >= amount_b_max_limit) XykErr.InsufficientAssetBalance ;;
    let pair_account := get_pair_id asset_pair in
    share_token ← gets (share_token pair_account);
    account_shares ← free share_token who;
    asset_a_reserve ← free asset_a pair_account;
    asset_b_reserve ← free asset_b pair_account;
    total_liquidity ← gets (total_liquidity pair_account);
    amount_b_required ← ok_or (calculate_liquidity_in asset_a_reserve asset_b_reserve amount_a)
                          XykErr.AddAssetAmountInvalid;
    let shares_added := if asset_a <? asset_b then amount_a else amount_b_required in
    ensure (amount_b_required <= amount_b_max_limit) XykErr.AssetAmountExceededLimit ;;
    ensure (shares_added != 0) XykErr.InvalidMintedLiquidity ;;
    new_shares ← ok_or (checked_add 128 account_shares shares_added) XykErr.InvalidMintedLiquidity;
    ensure (new_shares >= MinPoolLiquidity) XykErr.InsufficientLiquidity ;;
    liquidity_amount ← ok_or (checked_add 128 total_liquidity shares_added)
                         XykErr.InvalidLiquidityAmount;
    zoom (transfer asset_a who pair_account amount_a) ;;
    zoom (transfer asset_b who pair_account amount_b_required) ;;
    zoom (deposit share_token who shares_added) ;;
    modify (set_TotalLiquidity (insert pair_account liquidity_amount)) ;;
    deposit_event (LiquidityAdded who asset_a asset_b amount_a amount_b_required) ;;
    mret tt).

Definition remove_liquidity (origin : Origin) (asset_a asset_b : AssetId)
    (liquidity_amount : Balance) : Dispatch State unit :=
  transactional (
    who ← ensure_signed origin;
    let asset_pair := {| asset_in := asset_a; asset_out := asset_b |} in
    ensure (liquidity_amount != 0) XykErr.ZeroLiquidity ;;
    found ← gets (exists_pool asset_pair);
    ensure found XykErr.TokenPoolNotFound ;;
    let pair_account := get_pair_id asset_pair in
    share_token ← gets (share_token pair_account);
    total_shares ← gets (total_liquidity pair_account);
    account_shares ← free share_token who;
    ensure (total_shares >= liquidity_amount) XykErr.InsufficientLiquidity ;;
    ensure (account_shares >= liquidity_amount) XykErr.InsufficientAssetBalance ;;
    ensure ((saturating_sub account_shares liquidity_amount >= MinPoolLiquidity)
            || (account_shares == liquidity_amount)) XykErr.InsufficientLiquidity ;;
    asset_a_reserve ← free asset_a pair_account;
    asset_b_reserve ← free asset_b pair_account;
    liquidity_out ← ok_or (calculate_liquidity_out asset_a_reserve asset_b_reserve
                             liquidity_amount total_shares) XykErr.RemoveAssetAmountInvalid;
    let '(remove_amount_a, remove_amount_b) := liquidity_out in
    pool_a ← free asset_a pair_account;
    ensure (pool_a >= remove_amount_a) XykErr.InsufficientPoolAssetBalance ;;
    pool_b ← free asset_b pair_account;
    ensure (pool_b >= remove_amount_b) XykErr.InsufficientPoolAssetBalance ;;
    liquidity_left ← ok_or (checked_sub total_shares liquidity_amount)
                       XykErr.InvalidLiquidityAmount;
    zoom (transfer asset_a pair_account who remove_amount_a) ;;
    zoom (transfer asset_b pair_account who remove_amount_b) ;;
    zoom (withdraw share_token who liquidity_amount) ;;
    modify (set_TotalLiquidity (insert pair_account liquidity_left)) ;;
    deposit_event (LiquidityRemoved who asset_a asset_b liquidity_amount) ;;
    if liquidity_left =? 0 then
      modify (set_ShareToken (delete pair_account)) ;;
      modify (set_PoolAssets (delete pair_account)) ;;
      modify (set_TotalLiquidity (delete pair_account)) ;;
      deposit_event (PoolDestroyed who asset_a asset_b share_token pair_account)
    else mret tt).

(** ** The [AMM] implementation: trades *)

(** The fee of a discounted trade, paid in the native asset at the spot price of
    the pool of [asset] and the native asset. *)
Definition discount_fee (who : AccountId) (asset : AssetId) (transfer_fee : Balance)
    : Dispatch State Balance :=
  let native_asset := NativeAssetId in
  let native_pair_account := get_pair_id {| asset_in := asset; asset_out := native_asset |} in
  native_reserve ← free native_asset native_pair_account;
  asset_reserve ← free asset native_pair_account;
  native_fee_spot_price ← ok_or (calculate_spot_price asset_reserve native_reserve transfer_fee)
                            XykErr.CannotApplyDiscount;
  native_free ← free native_asset who;
  ensure (native_free >= native_fee_spot_price) XykErr.InsufficientNativeCurrencyBalance ;;
  mret native_fee_spot_price.

Definition validate_sell (who : AccountId) (assets : AssetPair) (amount min_bought : Balance)
    (discount : bool) : Dispatch State AMMTransfer :=
  ensure (amount >= MinTradingLimit) XykErr.InsufficientTradingAmount ;;
  found ← gets (exists_pool assets);
  ensure found XykErr.TokenPoolNotFound ;;
  free_in ← free (asset_in assets) who;
  ensure (free_in >= amount) XykErr.InsufficientAssetBalance ;;
  (if discount then
     native_found ← gets (exists_pool {| asset_in := asset_in assets;
                                         asset_out := NativeAssetId |});
     ensure native_found XykErr.CannotApplyDiscount
   else mret tt) ;;
  let pair_account := get_pair_id assets in
  asset_in_reserve ← free (asset_in assets) pair_account;
  asset_out_reserve ← free (asset_out assets) pair_account;
  max_in ← ok_or (checked_div asset_in_reserve MaxInRatio) XykErr.Overflow;
  ensure (amount <= max_in) XykErr.MaxInRatioExceeded ;;
  amount_out ← ok_or (calculate_out_given_in asset_in_reserve asset_out_reserve amount)
                 XykErr.SellAssetAmountInvalid;
  transfer_fee ← (if discount then calculate_discounted_fee amount_out
                  else calculate_fee amount_out);
  amount_out_without_fee ← ok_or (checked_sub amount_out transfer_fee)
                             XykErr.SellAssetAmountInvalid;
  ensure (asset_out_reserve > amount_out) XykErr.InsufficientAssetBalance ;;
  ensure (min_bought <= amount_out_without_fee) XykErr.AssetAmountNotReachedLimit ;;
  discount_amount ← (if discount then discount_fee who (asset_in assets) transfer_fee
                     else mret 0);
  mret {| t_origin := who; t_assets := assets; t_amount := amount;
          t_amount_out := amount_out_without_fee; t_discount := discount;
          t_discount_amount := discount_amount; t_fee := (asset_out assets, transfer_fee) |}.

(** The native fee of a discounted trade is burned. *)
Definition pay_discount (t : AMMTransfer) : Dispatch State unit :=
  if t_discount t && (t_discount_amount t >? 0) then
    zoom (withdraw NativeAssetId (t_origin t) (t_discount_amount t))
  else mret tt.

Definition execute_sell (t : AMMTransfer) : Dispatch State unit :=
  transactional (
    let pair_account := get_pair_id (t_assets t) in
    total_liquidity ← gets (total_liquidity pair_account);
    modify (fun s => set_chain (on_trade (asset_in (t_assets t)) (asset_out (t_assets t))
                       (t_amount t) (t_amount_out t) total_liquidity (chain s)) s) ;;
    pay_discount t ;;
    zoom (transfer (asset_in (t_assets t)) (t_origin t) pair_account (t_amount t)) ;;
    zoom (transfer (asset_out (t_assets t)) pair_account (t_origin t) (t_amount_out t)) ;;
    deposit_event (SellExecuted (t_origin t) (asset_in (t_assets t)) (asset_out (t_assets t))
      (t_amount t) (t_amount_out t) (fst (t_fee t)) (snd (t_fee t)) pair_account) ;;
    mret tt).

Definition validate_buy (who : AccountId) (assets : AssetPair) (amount max_limit : Balance)
    (discount : bool) : Dispatch State AMMTransfer :=
  ensure (amount >= MinTradingLimit) XykErr.InsufficientTradingAmount ;;
  found ← gets (exists_pool assets);
  ensure found XykErr.TokenPoolNotFound ;;
  let pair_account := get_pair_id assets in
  asset_out_reserve ← free (asset_out assets) pair_account;
  asset_in_reserve ← free (asset_in assets) pair_account;
  ensure (asset_out_reserve > amount) XykErr.InsufficientPoolAssetBalance ;;
  max_out ← ok_or (checked_div asset_out_reserve MaxOutRatio) XykErr.Overflow;
  ensure (amount <= max_out) XykErr.MaxOutRatioExceeded ;;
  (if discount then
     native_found ← gets (exists_pool {| asset_in := asset_out assets;
                                         asset_out := NativeAssetId |});
     ensure native_found XykErr.CannotApplyDiscount
   else mret tt) ;;
  buy_price ← ok_or (calculate_in_given_out asset_out_reserve asset_in_reserve amount)
                XykErr.BuyAssetAmountInvalid;
  transfer_fee ← (if discount then calculate_discounted_fee buy_price
                  else calculate_fee buy_price);
  buy_price_with_fee ← ok_or (checked_add 128 buy_price transfer_fee)
                         XykErr.BuyAssetAmountInvalid;
  ensure (max_limit >= buy_price_with_fee) XykErr.AssetAmountExceededLimit ;;
  free_in ← free (asset_in assets) who;
  ensure (free_in >= buy_price_with_fee) XykErr.InsufficientAssetBalance ;;
  discount_amount ← (if discount then discount_fee who (asset_out assets) transfer_fee
                     else mret 0);
  mret {| t_origin := who; t_assets := assets; t_amount := amount;
          t_amount_out := buy_price; t_discount := discount;
          t_discount_amount := discount_amount; t_fee := (asset_in assets, transfer_fee) |}.

Definition execute_buy (t : AMMTransfer) : Dispatch State unit :=
  transactional (
    let pair_account := get_pair_id (t_assets t) in
    total_liquidity ← gets (total_liquidity pair_account);
    modify (fun s => set_chain (on_trade (asset_in (t_assets t)) (asset_out (t_assets t))
                       (t_amount t) (t_amount_out t) total_liquidity (chain s)) s) ;;
    pay_discount t ;;
    zoom (transfer (asset_out (t_assets t)) pair_account (t_origin t) (t_amount t)) ;;
    zoom (transfer (asset_in (t_assets t)) (t_origin t) pair_account
            (wrapping_add 128 (t_amount_out t) (snd (t_fee t)))) ;;
    deposit_event (BuyExecuted (t_origin t) (asset_out (t_assets t)) (asset_in (t_assets t))
      (t_amount t) (t_amount_out t) (fst (t_fee t)) (snd (t_fee t)) pair_account) ;;
    mret tt).

(** The extrinsics [sell] and [buy] go through the provided methods of the trait. *)
Definition sell (origin : Origin) (asset_in asset_out : AssetId) (amount max_limit : Balance)
    (discount : bool) : Dispatch State unit :=
  who ← ensure_signed origin;
  provided_trade State
    (validate_sell who {| asset_in := asset_in; asset_out := asset_out |} amount max_limit discount)
    execute_sell ;;
  mret tt.

Definition buy (origin : Origin) (asset_out asset_in : AssetId) (amount max_limit : Balance)
    (discount : bool) : Dispatch State unit :=
  who ← ensure_signed origin;
  provided_trade State
    (validate_buy who {| asset_in := asset_in; asset_out := asset_out |} amount max_limit discount)
    execute_buy ;;
  mret tt.

Definition get_fee (_ : AccountId) (_ : State) : Z * Z := GetExchangeFee.

(** [impl AMM for Pallet<T>]. *)
#[export] Instance Xyk_AMM : AMM State := {|
  amm_exists := exists_pool;
  Interfaces.get_pair_id := get_pair_id;
  Interfaces.get_share_token := get_share_token;
  Interfaces.get_pool_assets := get_pool_assets;
  Interfaces.get_spot_price_unchecked := get_spot_price_unchecked;
  Interfaces.validate_sell := validate_sell;
  Interfaces.execute_sell := execute_sell;
  Interfaces.validate_buy := validate_buy;
  Interfaces.execute_buy := execute_buy;
  get_min_trading_limit := MinTradingLimit;
  get_min_pool_liquidity := MinPoolLiquidity;
  get_max_in_ratio := MaxInRatio;
  get_max_out_ratio := MaxOutRatio;
  Interfaces.get_fee := get_fee
|}.

(** ** [XYKSpotPrice] ([impls.rs]) *)

Definition pair_exists (asset_a asset_b : AssetId) (s : State) : bool :=
  exists_pool (AssetPair_new asset_b asset_a) s.

Definition spot_price (asset_a asset_b : AssetId) : Dispatch State (option Price) :=
  found ← gets (pair_exists asset_a asset_b);
  if found : bool then
    let pair_account := get_pair_id {| asset_out := asset_a; asset_in := asset_b |} in
    asset_a_reserve ← free asset_a pair_account;
    asset_b_reserve ← free asset_b pair_account;
    match price_from_rational asset_b_reserve asset_a_reserve with
    | Some p => mret (Some p)
    | None => panic
    end
  else mret None.

End pallet.

(** [AllowAllPools]. *)
Definition AllowAllPools {S} : CanCreatePool S := {| can_create_pool _ _ _ := true |}.
