(* ===== verification/XykProps.v ===== *)
(** * Correctness of the XYK pallet

    What a successful call establishes, call by call; that the constant product
    never falls; and the exact effect of a trade. *)

From S2P Require Import Prelude Primitives Errors Interfaces Ledger Xyk.

Section facts.
Context {C : Type}.
Context `{MultiCurrency C} `{ShareTokenRegistry C} `{AMMHandler C} `{CanCreatePool C}.
Context `{AssetPairAccountIdFor} `{XykMath} `{FeeMath} `{FixedPoint} `{AMMProvided}.
Context {cfg : XykConfig}.
Notation State := (XykState C).
Implicit Types s : State.

(** The reserve of asset [c] in the pool of [p]. *)
Definition reserve_of (c : AssetId) (p : AssetPair) (s : State) : Balance :=
  free_balance c (get_pair_id p) (chain s).

(** ** Validation only reads *)

Lemma reads_discount_fee who a f : reads (discount_fee who a f).
Proof. unfold discount_fee. solve_reads. Qed.
Hint Resolve reads_discount_fee : reads.

Lemma reads_validate_sell who p a l d : reads (validate_sell who p a l d).
Proof.
  unfold validate_sell, calculate_discounted_fee, calculate_fee. solve_reads.
Qed.

Lemma reads_validate_buy who p a l d : reads (validate_buy who p a l d).
Proof.
  unfold validate_buy, calculate_discounted_fee, calculate_fee. solve_reads.
Qed.

(** The fee rate of a trade. *)
Definition fee_rate (discount : bool) : Z * Z :=
  if discount then (7, 10000) else GetExchangeFee.

(** ** What validation establishes *)

Lemma calculate_fees_Ok (d : bool) amount s fee s' :
  (if d then calculate_discounted_fee amount else calculate_fee amount) s = (Ok fee, s') ->
  calculate_pool_trade_fee amount (fee_rate d) = Some fee /\ s' = s.
Proof.
  unfold calculate_discounted_fee, calculate_fee, fee_rate.
  destruct d; intros Hrun; minv Hrun; done.
Qed.

(** The native amount of a discounted trade: the spot price of the fee, which the
    trader can afford. *)
Definition discount_quoted (d : bool) (who : AccountId) (asset : AssetId) (fee da : Balance)
    (s : State) : Prop :=
  if d then
    let np := {| asset_in := asset; asset_out := NativeAssetId |} in
    calculate_spot_price (reserve_of asset np s) (reserve_of NativeAssetId np s) fee = Some da /\
    da <= free_balance NativeAssetId who (chain s)
  else da = 0.

Lemma discount_fee_Ok (d : bool) who asset fee s da s' :
  (if d then discount_fee who asset fee else mret 0) s = (Ok da, s') ->
  discount_quoted d who asset fee da s /\ s' = s.
Proof.
  unfold discount_fee, discount_quoted. destruct d; intros Hrun; minv Hrun; [|done].
  zbool. done.
Qed.

Lemma discount_pool_Ok (d : bool) q s u s' :
  (if d then native_found ← gets (exists_pool q);
             ensure native_found (XykE XykErr.CannotApplyDiscount)
   else mret tt) s = (Ok u, s') -> s' = s.
Proof. destruct d; intros Hrun; minv Hrun; done. Qed.

#[local] Ltac minv_hook H ::=
  lazymatch type of H with
  | (if _ then calculate_discounted_fee _ else _) _ = _ =>
      apply calculate_fees_Ok in H; destruct H as [H ?]; subst
  | (if _ then discount_fee _ _ _ else _) _ = _ =>
      apply discount_fee_Ok in H; destruct H as [H ?]; subst
  | (if _ then mbind _ (gets (exists_pool _)) else _) _ = _ =>
      apply discount_pool_Ok in H; subst
  end.

Lemma exists_pool_true p s : exists_pool p s = true <-> is_Some (ShareToken s !! get_pair_id p).
Proof. unfold exists_pool. apply bool_decide_eq_true. Qed.

Lemma validate_sell_Ok who p amount min_bought d s t s' :
  validate_sell who p amount min_bought d s = (Ok t, s') ->
  s' = s /\ is_Some (ShareToken s !! get_pair_id p) /\
  MinTradingLimit <= amount <= free_balance (asset_in p) who (chain s) /\
  MaxInRatio <> 0 /\ amount <= reserve_of (asset_in p) p s / MaxInRatio /\
  exists amount_out fee da,
    calculate_out_given_in (reserve_of (asset_in p) p s) (reserve_of (asset_out p) p s) amount
      = Some amount_out /\
    calculate_pool_trade_fee amount_out (fee_rate d) = Some fee /\
    fee <= amount_out < reserve_of (asset_out p) p s /\
    min_bought <= amount_out - fee /\ discount_quoted d who (asset_in p) fee da s /\
    t = {| t_origin := who; t_assets := p; t_amount := amount;
           t_amount_out := amount_out - fee; t_discount := d; t_discount_amount := da;
           t_fee := (asset_out p, fee) |}.
Proof.
  unfold validate_sell, reserve_of. intros Hrun. minv Hrun. zbool. rewrite exists_pool_true in *.
  repeat split; try done; try lia. do 3 eexists. repeat split; eauto; try lia. by f_equal.
Qed.

Lemma validate_buy_Ok who p amount max_limit d s t s' :
  validate_buy who p amount max_limit d s = (Ok t, s') ->
  s' = s /\ is_Some (ShareToken s !! get_pair_id p) /\ MinTradingLimit <= amount /\
  MaxOutRatio <> 0 /\ amount <= reserve_of (asset_out p) p s / MaxOutRatio /\
  amount < reserve_of (asset_out p) p s /\
  exists price fee da,
    calculate_in_given_out (reserve_of (asset_out p) p s) (reserve_of (asset_in p) p s) amount
      = Some price /\
    calculate_pool_trade_fee price (fee_rate d) = Some fee /\
    price + fee < 2 ^ 128 /\ price + fee <= max_limit /\
    price + fee <= free_balance (asset_in p) who (chain s) /\
    discount_quoted d who (asset_out p) fee da s /\
    t = {| t_origin := who; t_assets := p; t_amount := amount; t_amount_out := price;
           t_discount := d; t_discount_amount := da; t_fee := (asset_in p, fee) |}.
Proof.
  unfold validate_buy, reserve_of. intros Hrun. minv Hrun. zbool. rewrite exists_pool_true in *.
  repeat split; try done; try lia. do 3 eexists. repeat split; eauto; lia.
Qed.

(** ** What execution does to the chain *)

(** The pallet's own storage is untouched by a trade. *)
Definition same_pools s s' : Prop :=
  ShareToken s' = ShareToken s /\ TotalLiquidity s' = TotalLiquidity s /\
  PoolAssets s' = PoolAssets s.

(** The native fee leaves the trader's account when a discount is claimed. *)
Definition discount_paid (t : AMMTransfer) (c c' : C) : Prop :=
  if t_discount t && (t_discount_amount t >? 0)
  then withdraw NativeAssetId (t_origin t) (t_discount_amount t) c = (Ok tt, c')
  else c' = c.

Lemma pay_discount_Ok t s u s' :
  pay_discount t s = (Ok u, s') ->
  exists c, discount_paid t (chain s) c /\ s' = set_chain c s.
Proof.
  unfold pay_discount, discount_paid. case_match; intros Hrun; minv Hrun.
  - eauto.
  - exists (chain s). split; [done|]. by destruct s.
Qed.

Lemma execute_sell_Ok t s u s' :
  execute_sell t s = (Ok u, s') ->
  let p := t_assets t in let pool := get_pair_id p in
  exists c1 c2,
    discount_paid t (on_trade (asset_in p) (asset_out p) (t_amount t) (t_amount_out t)
                       (total_liquidity pool s) (chain s)) c1 /\
    transfer (asset_in p) (t_origin t) pool (t_amount t) c1 = (Ok tt, c2) /\
    transfer (asset_out p) pool (t_origin t) (t_amount_out t) c2 = (Ok tt, chain s') /\
    same_pools s s' /\
    xyk_events s' = xyk_events s ++
      [SellExecuted (t_origin t) (asset_in p) (asset_out p) (t_amount t) (t_amount_out t)
         (fst (t_fee t)) (snd (t_fee t)) pool].
Proof.
  unfold execute_sell, deposit_event. intros Hrun. minv Hrun.
  match goal with Hp : pay_discount _ _ = _ |- _ => apply pay_discount_Ok in Hp as (c & ? & ->) end.
  simpl in *. do 2 eexists. unfold same_pools; simpl. eauto 10.
Qed.

Lemma execute_buy_Ok t s u s' :
  execute_buy t s = (Ok u, s') ->
  let p := t_assets t in let pool := get_pair_id p in
  exists c1 c2,
    discount_paid t (on_trade (asset_in p) (asset_out p) (t_amount t) (t_amount_out t)
                       (total_liquidity pool s) (chain s)) c1 /\
    transfer (asset_out p) pool (t_origin t) (t_amount t) c1 = (Ok tt, c2) /\
    transfer (asset_in p) (t_origin t) pool
      (wrapping_add 128 (t_amount_out t) (snd (t_fee t))) c2 = (Ok tt, chain s') /\
    same_pools s s' /\
    xyk_events s' = xyk_events s ++
      [BuyExecuted (t_origin t) (asset_out p) (asset_in p) (t_amount t) (t_amount_out t)
         (fst (t_fee t)) (snd (t_fee t)) pool].
Proof.
  unfold execute_buy, deposit_event. intros Hrun. minv Hrun.
  match goal with Hp : pay_discount _ _ = _ |- _ => apply pay_discount_Ok in Hp as (c & ? & ->) end.
  simpl in *. do 2 eexists. unfold same_pools; simpl. eauto 10.
Qed.

(** ** What the liquidity extrinsics do *)

Lemma exists_pool_false p s : exists_pool p s = false <-> ShareToken s !! get_pair_id p = None.
Proof. unfold exists_pool. rewrite bool_decide_eq_false. symmetry. apply eq_None_not_Some. Qed.

Lemma create_pool_Ok origin a b amount price s u s' :
  create_pool origin a b amount price s = (Ok u, s') ->
  let p := AssetPair_new a b in let pool := get_pair_id p in
  exists who b_amount t c1 c2 c3 c4,
    origin = Signed who /\ can_create_pool a b (chain s) = true /\
    a <> b /\ price <> 0 /\ ShareToken s !! pool = None /\
    checked_mul_int price amount = Some b_amount /\
    MinPoolLiquidity <= amount <= free_balance a who (chain s) /\
    MinPoolLiquidity <= b_amount <= free_balance b who (chain s) /\
    let shares := if a <? b then amount else b_amount in
    get_or_create_shared_asset (AssetPair_name p) [a; b] MinPoolLiquidity (chain s) = (Ok t, c1) /\
    on_create_pool a b c1 = (Ok tt, c2) /\
    transfer a who pool amount c2 = (Ok tt, c3) /\
    transfer b who pool b_amount c3 = (Ok tt, c4) /\
    deposit t who shares c4 = (Ok tt, chain s') /\
    ShareToken s' = <[pool := t]> (ShareToken s) /\
    TotalLiquidity s' = <[pool := shares]> (TotalLiquidity s) /\
    PoolAssets s' = <[pool := (a, b)]> (PoolAssets s) /\
    xyk_events s' = xyk_events s ++ [PoolCreated who a b shares t pool].
Proof.
  unfold create_pool, deposit_event. intros Hrun. dinv Hrun. zbool.
  rewrite exists_pool_false in *. simpl in *.
  do 7 eexists. split_and!; eauto.
Qed.

Lemma add_liquidity_Ok origin a b amount limit s u s' :
  add_liquidity origin a b amount limit s = (Ok u, s') ->
  let p := AssetPair_new a b in let pool := get_pair_id p in
  exists who t b_amount c1 c2,
    origin = Signed who /\ ShareToken s !! pool = Some t /\
    MinTradingLimit <= amount <= free_balance a who (chain s) /\
    calculate_liquidity_in (reserve_of a p s) (reserve_of b p s) amount = Some b_amount /\
    b_amount <= limit <= free_balance b who (chain s) /\
    let shares := if a <? b then amount else b_amount in
    shares <> 0 /\ MinPoolLiquidity <= free_balance t who (chain s) + shares /\
    transfer a who pool amount (chain s) = (Ok tt, c1) /\
    transfer b who pool b_amount c1 = (Ok tt, c2) /\
    deposit t who shares c2 = (Ok tt, chain s') /\
    ShareToken s' = ShareToken s /\ PoolAssets s' = PoolAssets s /\
    TotalLiquidity s' = <[pool := total_liquidity pool s + shares]> (TotalLiquidity s) /\
    xyk_events s' = xyk_events s ++ [LiquidityAdded who a b amount b_amount].
Proof.
  unfold add_liquidity, deposit_event. intros Hrun. dinv Hrun. zbool.
  rewrite exists_pool_true in *. subst. simpl in *.
  match goal with Hs : is_Some _ |- _ => destruct Hs as [t Ht] end.
  unfold share_token in *. cbn [fst snd] in *. unfold AssetPair_new, get_pair_id in *. simpl in *.
  rewrite Ht in *. simpl in *.
  do 5 eexists. split_and!; eauto.
Qed.

Lemma remove_liquidity_Ok origin a b amount s u s' :
  remove_liquidity origin a b amount s = (Ok u, s') ->
  let p := AssetPair_new a b in let pool := get_pair_id p in
  let total := total_liquidity pool s in
  exists who t out_a out_b c1 c2,
    origin = Signed who /\ ShareToken s !! pool = Some t /\ amount <> 0 /\
    amount <= total /\ amount <= free_balance t who (chain s) /\
    (MinPoolLiquidity <= saturating_sub (free_balance t who (chain s)) amount \/
     free_balance t who (chain s) = amount) /\
    calculate_liquidity_out (reserve_of a p s) (reserve_of b p s) amount total
      = Some (out_a, out_b) /\
    out_a <= reserve_of a p s /\ out_b <= reserve_of b p s /\
    transfer a pool who out_a (chain s) = (Ok tt, c1) /\
    transfer b pool who out_b c1 = (Ok tt, c2) /\
    withdraw t who amount c2 = (Ok tt, chain s') /\
    if total =? amount then
      ShareToken s' = delete pool (ShareToken s) /\
      PoolAssets s' = delete pool (PoolAssets s) /\
      TotalLiquidity s' = delete pool (TotalLiquidity s) /\
      xyk_events s' = xyk_events s ++
        [LiquidityRemoved who a b amount; PoolDestroyed who a b t pool]
    else
      ShareToken s' = ShareToken s /\ PoolAssets s' = PoolAssets s /\
      TotalLiquidity s' = <[pool := total - amount]> (TotalLiquidity s) /\
      xyk_events s' = xyk_events s ++ [LiquidityRemoved who a b amount].
Proof.
  unfold remove_liquidity, deposit_event. intros Hrun. dinv Hrun.
  match type of Hrun with context [let '(_, _) := ?r in _] => destruct r as [out_a out_b] end.
  minv Hrun; zbool; rewrite exists_pool_true in *; subst; simpl in *;
  (match goal with Hs : is_Some _ |- _ => destruct Hs as [t Ht] end);
  unfold share_token, AssetPair_new in *; rewrite Ht in *; simpl in *;
  (match goal with Hor : (_ || _)%bool = true |- _ =>
     rewrite orb_true_iff, Z.leb_le, Z.eqb_eq in Hor end);
  eexists; exists t, out_a, out_b; do 2 eexists; unfold reserve_of; simpl;
  split_and!; eauto.
  all: destruct (Z.eqb_spec (total_liquidity (get_pair_id {| asset_in := a; asset_out := b |}) s) amount); try lia.
  - rewrite <- (app_assoc (xyk_events s)). rewrite delete_insert_eq. done.
  - done.
Qed.

(** ** The extrinsics [sell] and [buy] *)

Context `{!AMMProvidedLaws}.

Lemma sell_Ok origin a_in a_out amount limit d s u s' :
  sell origin a_in a_out amount limit d s = (Ok u, s') ->
  exists who t, origin = Signed who /\
    validate_sell who (AssetPair_new a_in a_out) amount limit d s = (Ok t, s) /\
    execute_sell t s = (Ok tt, s').
Proof.
  unfold sell. intros Hrun. dinv Hrun.
  match goal with Hp : provided_trade _ _ _ _ = _ |- _ => rewrite provided_trade_spec in Hp; minv Hp end.
  match goal with Hv : validate_sell _ _ _ _ _ _ = (Ok _, ?st) |- _ =>
    pose proof (reads_Ok _ _ _ _ (reads_validate_sell _ _ _ _ _) Hv); subst st end.
  destruct r0. eauto.
Qed.

Lemma buy_Ok origin a_out a_in amount limit d s u s' :
  buy origin a_out a_in amount limit d s = (Ok u, s') ->
  exists who t, origin = Signed who /\
    validate_buy who (AssetPair_new a_in a_out) amount limit d s = (Ok t, s) /\
    execute_buy t s = (Ok tt, s').
Proof.
  unfold buy. intros Hrun. dinv Hrun.
  match goal with Hp : provided_trade _ _ _ _ = _ |- _ => rewrite provided_trade_spec in Hp; minv Hp end.
  match goal with Hv : validate_buy _ _ _ _ _ _ = (Ok _, ?st) |- _ =>
    pose proof (reads_Ok _ _ _ _ (reads_validate_buy _ _ _ _ _) Hv); subst st end.
  destruct r0. eauto.
Qed.
End facts.

(** A sensible configuration, as the runtime's ([RuntimeCommon.v]). *)
Class XykConfigOk `{XykConfig} : Prop := {
  cfg_min_trading : 0 < MinTradingLimit;
  cfg_min_pool : 0 < MinPoolLiquidity;
  cfg_max_in : 1 <= MaxInRatio;
  cfg_max_out : 2 <= MaxOutRatio;
  cfg_fee : 0 <= fst GetExchangeFee /\ 0 <= snd GetExchangeFee
}.

Section trades.
Context {C : Type}.
Context `{MultiCurrency C} `{ShareTokenRegistry C} `{AMMHandler C} `{CanCreatePool C}.
Context `{AssetPairAccountIdFor} `{XykMath} `{FeeMath} `{FixedPoint} `{AMMProvided}.
Context {cfg : XykConfig}.
Context `{!MultiCurrencyLaws C} `{!AMMHandlerLaws C} `{!XykMathLaws} `{!FeeMathLaws}
  `{!AMMProvidedLaws} `{!XykConfigOk}.
Notation State := (XykState C).
Implicit Types s : State.

Lemma reserve_nonneg c p s : 0 <= reserve_of c p s.
Proof. apply free_balance_nonneg. Qed.
Hint Resolve reserve_nonneg : core.

Lemma fee_nonneg d a fee :
  0 <= a -> calculate_pool_trade_fee a (fee_rate d) = Some fee -> 0 <= fee.
Proof.
  intros Ha. destruct cfg_fee. destruct d; simpl.
  - apply pool_trade_fee_nonneg; lia.
  - by apply trade_fee_nonneg.
Qed.

(** The hook and the discount leave every account but the trader's alone. *)
Lemma before_trade_balance t x y l (c0 c1 : C) a w :
  discount_paid t (on_trade (asset_in (t_assets t)) (asset_out (t_assets t)) x y l c0) c1 ->
  w <> t_origin t -> w <> dust_account ->
  free_balance a w c1 = free_balance a w c0.
Proof.
  destruct (on_trade_quiet (asset_in (t_assets t)) (asset_out (t_assets t)) x y l c0) as [Hq _].
  destruct (Hq a) as [Hb _]. rewrite <- (Hb w). clear Hq Hb.
  generalize (on_trade (asset_in (t_assets t)) (asset_out (t_assets t)) x y l c0). intros c2.
  unfold discount_paid. case_match; [|by intros ->]. zbool. intros Hw ? ?.
  destruct (decide (a = NativeAssetId)) as [->|Hne].
  - eapply withdraw_others; eauto. lia.
  - apply (withdraw_frame _ _ _ _ _ a) in Hw as [Hf _]; [apply Hf|done].
Qed.

Lemma execute_sell_reserves t s s' :
  execute_sell t s = (Ok tt, s') ->
  let p := t_assets t in let pool := get_pair_id p in
  asset_in p <> asset_out p -> t_origin t <> pool -> pool <> dust_account ->
  0 <= t_amount t -> 0 <= t_amount_out t ->
  keeps (asset_out p) pool (t_amount_out t) (chain s) ->
  reserve_of (asset_in p) p s' = reserve_of (asset_in p) p s + t_amount t /\
  reserve_of (asset_out p) p s' = reserve_of (asset_out p) p s - t_amount_out t.
Proof.
  intros Hrun p pool Hne Hwp Hpd Ha Ho Hk. unfold reserve_of. fold pool.
  apply execute_sell_Ok in Hrun as (c1 & c2 & Hd & T1 & T2 & _). fold p pool in Hd, T1, T2.
  assert (Hb : forall a, free_balance a pool c1 = free_balance a pool (chain s))
    by (intros; eapply before_trade_balance; eauto).
  assert (Hout2 : free_balance (asset_out p) pool c2 = free_balance (asset_out p) pool (chain s)).
  { rewrite <- Hb. eapply (transfer_frame _ _ _ _ _ _ (asset_out p)); eauto. }
  split.
  - rewrite <- Hb, <- (transfer_credit _ _ _ _ _ _ T1) by auto.
    eapply (transfer_frame _ _ _ _ _ _ (asset_in p)); eauto.
  - rewrite <- Hout2. eapply transfer_debit; eauto.
    unfold keeps in *. by rewrite Hout2.
Qed.

Lemma execute_buy_reserves t s s' :
  execute_buy t s = (Ok tt, s') ->
  let p := t_assets t in let pool := get_pair_id p in
  asset_in p <> asset_out p -> t_origin t <> pool -> pool <> dust_account ->
  0 <= t_amount t -> 0 <= t_amount_out t + snd (t_fee t) < 2 ^ 128 ->
  keeps (asset_out p) pool (t_amount t) (chain s) ->
  reserve_of (asset_in p) p s' = reserve_of (asset_in p) p s + (t_amount_out t + snd (t_fee t)) /\
  reserve_of (asset_out p) p s' = reserve_of (asset_out p) p s - t_amount t.
Proof.
  intros Hrun p pool Hne Hwp Hpd Ha Ho Hk. unfold reserve_of. fold pool.
  apply execute_buy_Ok in Hrun as (c1 & c2 & Hd & T1 & T2 & _). fold p pool in Hd, T1, T2.
  rewrite wrapping_add_small in T2 by done.
  assert (Hb : forall a, free_balance a pool c1 = free_balance a pool (chain s))
    by (intros; eapply before_trade_balance; eauto).
  assert (Hin2 : free_balance (asset_in p) pool c2 = free_balance (asset_in p) pool (chain s)).
  { rewrite <- Hb. eapply (transfer_frame _ _ _ _ _ _ (asset_in p)); eauto. }
  split.
  - rewrite <- Hin2. eapply transfer_credit; eauto. lia.
  - rewrite <- Hb. rewrite <- (transfer_debit _ _ _ _ _ _ T1); eauto.
    + eapply (transfer_frame _ _ _ _ _ _ (asset_out p)); eauto.
    + unfold keeps in *. by rewrite Hb.
Qed.

(** A sale takes at most half of the outgoing reserve, so a pool holding twice the
    minimum balance is not swept. *)
Lemma out_at_most_half rin rout a o :
  0 <= rin -> 0 <= rout -> 0 < a -> a <= rin / MaxInRatio ->
  0 <= o -> o * (rin + a) <= rout * a -> 2 * o <= rout.
Proof.
  intros. pose proof cfg_max_in.
  assert (a <= rin); [|nia].
  transitivity (rin / MaxInRatio); [done|]. apply Z.div_le_upper_bound; nia.
Qed.

Lemma keeps_half c w a (s : C) :
  2 * minimum_balance c <= free_balance c w s -> 2 * a <= free_balance c w s -> keeps c w a s.
Proof. intros. right. lia. Qed.

Lemma buy_at_most_half rout a :
  0 <= rout -> a <= rout / MaxOutRatio -> 2 * a <= rout.
Proof.
  intros. pose proof cfg_max_out.
  assert (Hd : rout / MaxOutRatio <= rout / 2) by (apply Z.div_le_compat_l; lia).
  pose proof (Z.mul_div_le rout 2 ltac:(lia)). lia.
Qed.

(** The arithmetic of the two product theorems. *)
Lemma product_sell rin rout a o f :
  0 <= rin -> 0 <= a -> 0 <= f -> o * (rin + a) <= rout * a ->
  rin * rout <= (rin + a) * (rout - (o - f)).
Proof. intros. assert (0 <= f * (rin + a)) by nia. nia. Qed.

Lemma product_buy rin rout i o f :
  0 <= f -> o <= rout -> rin * o <= i * (rout - o) ->
  rin * rout <= (rin + (i + f)) * (rout - o).
Proof. intros. assert (0 <= f * (rout - o)) by nia. nia. Qed.

(** The constant product never falls in a successful [sell]. *)
Lemma sell_product_nondecreasing who a_in a_out amount limit d s s' :
  sell (Signed who) a_in a_out amount limit d s = (Ok tt, s') ->
  let p := AssetPair_new a_in a_out in
  a_in <> a_out -> who <> get_pair_id p -> get_pair_id p <> dust_account ->
  2 * minimum_balance a_out <= reserve_of a_out p s ->
  reserve_of a_in p s * reserve_of a_out p s <= reserve_of a_in p s' * reserve_of a_out p s'.
Proof.
  intros Hrun p Hne Hwp Hpd Hmin. pose proof cfg_min_trading.
  apply sell_Ok in Hrun as (who' & t & [= <-] & Hval & Hexe).
  apply validate_sell_Ok in Hval as (_ & _ & Hamt & _ & Hratio & o & fee & da & Hout & Hfee & Ho &
    _ & _ & ->).
  apply out_given_in_formula in Hout as [Ho0 Hform]; [|auto..|lia].
  assert (Hfee0 : 0 <= fee) by (eapply fee_nonneg; eauto).
  assert (Hhalf : 2 * o <= reserve_of a_out p s).
  { apply (out_at_most_half (reserve_of a_in p s) _ amount o); auto; lia. }
  apply execute_sell_reserves in Hexe as [Hi Hr]; simpl in *; try done; try lia.
  - fold p in Hi, Hr. rewrite Hi, Hr. apply product_sell; auto; lia.
  - apply keeps_half; [done|]. unfold reserve_of, p in *. lia.
Qed.

(** Nor in a successful [buy]. *)
Lemma buy_product_nondecreasing who a_out a_in amount limit d s s' :
  buy (Signed who) a_out a_in amount limit d s = (Ok tt, s') ->
  let p := AssetPair_new a_in a_out in
  a_in <> a_out -> who <> get_pair_id p -> get_pair_id p <> dust_account ->
  2 * minimum_balance a_out <= reserve_of a_out p s ->
  reserve_of a_in p s * reserve_of a_out p s <= reserve_of a_in p s' * reserve_of a_out p s'.
Proof.
  intros Hrun p Hne Hwp Hpd Hmin. pose proof cfg_min_trading. pose proof cfg_max_out.
  apply buy_Ok in Hrun as (who' & t & [= <-] & Hval & Hexe).
  apply validate_buy_Ok in Hval as (_ & _ & Hamt & _ & Hratio & Hlt & price & fee & da & Hin &
    Hfee & Hfit & _ & _ & _ & ->).
  apply in_given_out_formula in Hin as [Hp0 Hform]; [|auto..|lia].
  assert (Hfee0 : 0 <= fee) by (eapply fee_nonneg; eauto).
  assert (Hhalf : 2 * amount <= reserve_of a_out p s).
  { apply buy_at_most_half; auto. }
  apply execute_buy_reserves in Hexe as [Hi Hr]; simpl in *; try done; try lia.
  - fold p in Hi, Hr. rewrite Hi, Hr. apply product_buy; auto; unfold p; lia.
  - apply keeps_half; [done|]. unfold reserve_of, p in *. lia.
Qed.

(** [C3] The constant product never falls: after a successful [sell] or [buy] the product
    of the pool's reserves is at least what it was, with or without a discounted fee.
    The pool is any pool of two different assets whose account is neither the trader's
    nor the dust account and which holds twice the minimum balance of the asset that
    leaves it. *)
Theorem trade_product_nondecreasing who a_in a_out amount limit d s s' :
  sell (Signed who) a_in a_out amount limit d s = (Ok tt, s') \/
  buy (Signed who) a_out a_in amount limit d s = (Ok tt, s') ->
  let p := AssetPair_new a_in a_out in
  a_in <> a_out -> who <> get_pair_id p -> get_pair_id p <> dust_account ->
  2 * minimum_balance a_out <= reserve_of a_out p s ->
  reserve_of a_in p s * reserve_of a_out p s <= reserve_of a_in p s' * reserve_of a_out p s'.
Proof.
  intros [Hs|Hb] p; [eapply sell_product_nondecreasing|eapply buy_product_nondecreasing]; eauto.
Qed.

(** ** Exact effect of a trade without discount *)

(** Balances move exactly between the trader and the pool: [paid] of [a_in] to the
    pool, [got] of [a_out] from it, and nothing else. *)
Definition swapped (who pool : AccountId) (a_in a_out : AssetId) (paid got : Balance)
    (c c' : C) : Prop :=
  free_balance a_in who c' = free_balance a_in who c - paid /\
  free_balance a_in pool c' = free_balance a_in pool c + paid /\
  free_balance a_out who c' = free_balance a_out who c + got /\
  free_balance a_out pool c' = free_balance a_out pool c - got /\
  (forall w, w <> who -> w <> pool ->
     free_balance a_in w c' = free_balance a_in w c /\
     free_balance a_out w c' = free_balance a_out w c) /\
  (forall a, a <> a_in -> a <> a_out -> same_balances a c c').

Lemma same_balances_trans a (u v w : C) :
  same_balances a u v -> same_balances a v w -> same_balances a u w.
Proof. unfold same_balances. intros; congruence. Qed.

Lemma keeps_same a w x (u v : C) : same_balances a u v -> keeps a w x u -> keeps a w x v.
Proof. intros Hs. unfold keeps. by rewrite Hs. Qed.

(** A transfer in the middle of a run that otherwise leaves the currency alone. *)
Lemma transfer_within a f t x (c0 u v w : C) :
  f <> t -> 0 <= x -> keeps a f x c0 -> same_balances a c0 u ->
  transfer a f t x u = (Ok tt, v) -> same_balances a v w ->
  free_balance a f w = free_balance a f c0 - x /\
  free_balance a t w = free_balance a t c0 + x /\
  forall z, z <> f -> z <> t -> free_balance a z w = free_balance a z c0.
Proof.
  intros Hft Hx Hk Hu T Hv.
  assert (Hku : keeps a f x u) by (by eapply keeps_same).
  rewrite !Hv, <- !Hu. repeat split; intros; rewrite ?Hv, <- ?Hu.
  - eapply transfer_debit; eauto.
  - eapply transfer_credit; eauto.
  - eapply transfer_others; eauto.
Qed.

(** Two transfers in different currencies, in either order, make a swap. *)
Lemma two_transfers_swap who pool a_in a_out paid got (c0 c1 c2 c3 : C) :
  (forall a, same_balances a c0 c1) ->
  a_in <> a_out -> who <> pool -> 0 <= paid -> 0 <= got ->
  keeps a_in who paid c0 -> keeps a_out pool got c0 ->
  transfer a_in who pool paid c1 = (Ok tt, c2) /\
    transfer a_out pool who got c2 = (Ok tt, c3) \/
  transfer a_out pool who got c1 = (Ok tt, c2) /\
    transfer a_in who pool paid c2 = (Ok tt, c3) ->
  swapped who pool a_in a_out paid got c0 c3.
Proof.
  intros H01 Hne Hwp Hp Hg K1 K2 Hor.
  pose proof same_balances_trans as Htr.
  assert (Hfr : forall a b f t x (u v : C), transfer b f t x u = (Ok tt, v) -> a <> b ->
    same_balances a u v) by (intros; eapply transfer_frame; eauto).
  unfold swapped. destruct Hor as [[T1 T2]|[T1 T2]].
  - destruct (transfer_within a_in who pool paid c0 c1 c2 c3) as (A1 & A2 & A3); eauto.
    destruct (transfer_within a_out pool who got c0 c2 c3 c3) as (B1 & B2 & B3); eauto; [done|].
    repeat split; auto. intros a ? ?. eauto.
  - destruct (transfer_within a_out pool who got c0 c1 c2 c3) as (B1 & B2 & B3); eauto.
    destruct (transfer_within a_in who pool paid c0 c2 c3 c3) as (A1 & A2 & A3); eauto; [done|].
    repeat split; auto. intros a ? ?. eauto.
Qed.

Lemma on_trade_same a b x y l (c : C) a' : same_balances a' c (on_trade a b x y l c).
Proof. destruct (on_trade_quiet a b x y l c) as [Hq _]. apply Hq. Qed.

(** [C14] A successful [sell] without discount takes exactly [amount] from the seller
    and pays exactly the formula's output less the fee, which is at least the
    requested minimum and leaves the fee in the pool; no other balance, no pool
    record changes, and [SellExecuted] reports the trade. *)
Theorem sell_exact who a_in a_out amount limit s s' :
  sell (Signed who) a_in a_out amount limit false s = (Ok tt, s') ->
  let p := AssetPair_new a_in a_out in
  a_in <> a_out -> who <> get_pair_id p ->
  keeps a_in who amount (chain s) -> 2 * minimum_balance a_out <= reserve_of a_out p s ->
  exists amount_out fee,
    calculate_out_given_in (reserve_of a_in p s) (reserve_of a_out p s) amount
      = Some amount_out /\
    calculate_pool_trade_fee amount_out GetExchangeFee = Some fee /\
    limit <= amount_out - fee /\
    swapped who (get_pair_id p) a_in a_out amount (amount_out - fee) (chain s) (chain s') /\
    same_pools s s' /\
    xyk_events s' = xyk_events s ++
      [SellExecuted who a_in a_out amount (amount_out - fee) a_out fee (get_pair_id p)].
Proof.
  intros Hrun p Hne Hwp Hk Hmin. pose proof cfg_min_trading.
  apply sell_Ok in Hrun as (who' & t & [= <-] & Hval & Hexe).
  apply validate_sell_Ok in Hval as (_ & _ & Hamt & _ & Hratio & o & fee & da & Hout & Hfee & Ho &
    Hlim & _ & ->).
  exists o, fee. apply execute_sell_Ok in Hexe as (c1 & c2 & Hd & T1 & T2 & Hsp & Hev).
  simpl in *. split_and!; auto.
  apply out_given_in_formula in Hout as [Ho0 Hform]; [|auto..|lia].
  assert (Hfee0 : 0 <= fee) by (eapply (fee_nonneg false); eauto).
  assert (2 * o <= reserve_of a_out p s).
  { apply (out_at_most_half (reserve_of a_in p s) _ amount o); auto; lia. }
  eapply (two_transfers_swap _ _ _ _ _ _ (chain s) c1 c2); eauto; try lia.
  - unfold discount_paid in Hd; simpl in Hd. subst. apply on_trade_same.
  - apply keeps_half; [done|]. unfold reserve_of, p in *. lia.
Qed.

(** [C15] A successful [buy] without discount delivers exactly [amount], for exactly
    the formula's price plus the fee, which is at most the given limit. *)
Theorem buy_exact who a_out a_in amount limit s s' :
  buy (Signed who) a_out a_in amount limit false s = (Ok tt, s') ->
  let p := AssetPair_new a_in a_out in
  a_in <> a_out -> who <> get_pair_id p ->
  limit + minimum_balance a_in <= free_balance a_in who (chain s) ->
  2 * minimum_balance a_out <= reserve_of a_out p s ->
  exists price fee,
    calculate_in_given_out (reserve_of a_out p s) (reserve_of a_in p s) amount = Some price /\
    calculate_pool_trade_fee price GetExchangeFee = Some fee /\
    price + fee <= limit /\
    swapped who (get_pair_id p) a_in a_out (price + fee) amount (chain s) (chain s') /\
    same_pools s s' /\
    xyk_events s' = xyk_events s ++
      [BuyExecuted who a_out a_in amount price a_in fee (get_pair_id p)].
Proof.
  intros Hrun p Hne Hwp Hkeeps Hmin. pose proof cfg_min_trading. pose proof cfg_max_out.
  apply buy_Ok in Hrun as (who' & t & [= <-] & Hval & Hexe).
  apply validate_buy_Ok in Hval as (_ & _ & Hamt & _ & Hratio & Hlt & price & fee & da & Hin &
    Hfee & Hfit & Hlim & Hfree & _ & ->).
  exists price, fee. apply execute_buy_Ok in Hexe as (c1 & c2 & Hd & T1 & T2 & Hsp & Hev).
  simpl in *. split_and!; auto.
  apply in_given_out_formula in Hin as [Hp0 Hform]; [|auto..|lia].
  assert (Hfee0 : 0 <= fee) by (eapply (fee_nonneg false); eauto).
  rewrite wrapping_add_small in T2 by lia.
  eapply (two_transfers_swap _ _ _ _ _ _ (chain s) c1 c2); eauto; try lia.
  - unfold discount_paid in Hd; simpl in Hd. subst. apply on_trade_same.
  - right. lia.
  - apply keeps_half; [done|]. apply buy_at_most_half; [apply reserve_nonneg|done].
Qed.
End trades.
