(* ===== verification/XykPools.v ===== *)
(** * XYK pools as an accounting system

    The liquidity extrinsics of the XYK pallet: what each of them does to the
    balances, that the recorded liquidity of a pool is always the issuance of its
    share token (an invariant of every reachable state), that a failed extrinsic
    changes nothing, and that the pallet keeps the promises of the [AMM] trait. *)

From S2P Require Import Prelude Primitives Errors Interfaces Ledger Xyk XykProps.

Section atomicity.
Context {C : Type}.
Context `{MultiCurrency C} `{ShareTokenRegistry C} `{AMMHandler C} `{CanCreatePool C}.
Context `{AssetPairAccountIdFor} `{XykMath} `{FeeMath} `{FixedPoint} `{AMMProvided}.
Context {cfg : XykConfig}.
Context `{!AMMProvidedLaws}.
Notation State := (XykState C).
Implicit Types s : State.

(** The extrinsics of the pallet. *)
Inductive xyk_call :=
| CreatePool (asset_a asset_b : AssetId) (amount : Balance) (initial_price : Price)
| AddLiquidity (asset_a asset_b : AssetId) (amount_a amount_b_max_limit : Balance)
| RemoveLiquidity (asset_a asset_b : AssetId) (liquidity_amount : Balance)
| Sell (asset_in asset_out : AssetId) (amount max_limit : Balance) (discount : bool)
| Buy (asset_out asset_in : AssetId) (amount max_limit : Balance) (discount : bool).

Definition dispatch (origin : Origin) (call : xyk_call) : Dispatch State unit :=
  match call with
  | CreatePool a b x p => create_pool origin a b x p
  | AddLiquidity a b x y => add_liquidity origin a b x y
  | RemoveLiquidity a b x => remove_liquidity origin a b x
  | Sell a b x l d => sell origin a b x l d
  | Buy b a x l d => buy origin b a x l d
  end.

(** The pair a call is about. *)
Definition call_pair (call : xyk_call) : AssetPair :=
  match call with
  | CreatePool a b _ _ | AddLiquidity a b _ _ | RemoveLiquidity a b _
  | Sell a b _ _ _ | Buy b a _ _ _ => AssetPair_new a b
  end.

Lemma execute_sell_rollback t s r s' :
  execute_sell t s = (r, s') -> (forall u, r <> Ok u) -> s' = s.
Proof. apply transactional_rollback. Qed.
Lemma execute_buy_rollback t s r s' :
  execute_buy t s = (r, s') -> (forall u, r <> Ok u) -> s' = s.
Proof. apply transactional_rollback. Qed.

(** Reading, then running an atomic computation, is atomic. *)
Lemma reads_then_atomic {A} origin (v : AccountId -> Dispatch State A)
    (e : A -> Dispatch State unit) (s s' : State) r :
  (forall w, reads (v w)) ->
  (forall t s0 r0 s1, e t s0 = (r0, s1) -> (forall u, r0 <> Ok u) -> s1 = s0) ->
  (w ← ensure_signed origin; (t ← v w; e t) ;; mret tt) s = (r, s') ->
  (forall u, r <> Ok u) -> s' = s.
Proof.
  intros Hv He. unfold mbind, M_bind, run_bind, ensure_signed, mret, M_ret, fail.
  destruct origin as [|w|]; try congruence.
  specialize (Hv w s). destruct (v w s) as [[t| |] s1]; simpl in Hv; subst; try congruence.
  destruct (e t s) as [r1 s2] eqn:Het. specialize (He _ _ _ _ Het).
  destruct r1; intros [= <- <-] Hr; [by destruct (Hr tt)|by apply He|by apply He].
Qed.

Lemma provided_rollback origin v e (s s' : State) r :
  (forall w, reads (v w)) ->
  (forall t s0 r0 s1, e t s0 = (r0, s1) -> (forall u, r0 <> Ok u) -> s1 = s0) ->
  (w ← ensure_signed origin; provided_trade State (v w) e ;; mret tt) s = (r, s') ->
  (forall u, r <> Ok u) -> s' = s.
Proof.
  intros Hv He Hrun. apply (reads_then_atomic origin v e s s' r Hv He). rewrite <- Hrun.
  unfold mbind, M_bind, run_bind.
  destruct (ensure_signed origin s) as [[w| |] s0]; [|done..].
  by rewrite provided_trade_spec.
Qed.

Lemma dispatch_rollback origin call s r s' :
  dispatch origin call s = (r, s') -> (forall u, r <> Ok u) -> s' = s.
Proof.
  destruct call; simpl; try apply transactional_rollback.
  - apply provided_rollback; [intros; apply reads_validate_sell|apply execute_sell_rollback].
  - apply provided_rollback; [intros; apply reads_validate_buy|apply execute_buy_rollback].
Qed.

(** [C39] Every extrinsic of the pallet is atomic: when it ends in an error or a
    panic, storage, balances and events are exactly what they were. *)
Theorem xyk_dispatch_atomic origin call s r s' :
  dispatch origin call s = (r, s') -> (forall u, r <> Ok u) -> s' = s.
Proof. apply dispatch_rollback. Qed.

(** The pallet keeps the promises of the [AMM] trait. *)
#[export] Instance Xyk_AMM_laws : AMMLaws State.
Proof.
  split; simpl; intros.
  - apply reads_validate_sell.
  - apply reads_validate_buy.
  - by eapply execute_sell_rollback.
  - by eapply execute_buy_rollback.
Qed.
End atomicity.

Section accounting.
Context {C : Type}.
Context `{MultiCurrency C} `{ShareTokenRegistry C} `{AMMHandler C} `{CanCreatePool C}.
Context `{AssetPairAccountIdFor} `{XykMath} `{FeeMath} `{FixedPoint} `{AMMProvided}.
Context {cfg : XykConfig}.
Context `{!MultiCurrencyLaws C} `{!ShareTokenRegistryLaws C NativeAssetId} `{!AMMHandlerLaws C}
  `{!AssetPairAccountIdLaws} `{!XykMathLaws} `{!AMMProvidedLaws} `{!XykConfigOk}.
Notation State := (XykState C).
Implicit Types s : State.

(** The token registered for a pair. *)
Definition pair_token (p : AssetPair) (c : C) : option AssetId :=
  shared_asset (AssetPair_name p) c.

(** ** The invariant *)

Record pools_ok (s : State) : Prop := mkPoolsOk {
  (** a pool has a token, a recorded liquidity and its assets, or none of them *)
  ok_records pool :
    is_Some (ShareToken s !! pool) <-> is_Some (TotalLiquidity s !! pool);
  ok_assets_record pool :
    is_Some (ShareToken s !! pool) <-> is_Some (PoolAssets s !! pool);
  (** the recorded assets are two different ones, and name the pool's account *)
  ok_assets pool a b :
    PoolAssets s !! pool = Some (a, b) -> a <> b /\ pool = get_pair_id (AssetPair_new a b);
  (** the token of a pool is the one registered under the pair's name *)
  ok_token p t :
    wide p -> ShareToken s !! get_pair_id p = Some t -> pair_token p (chain s) = Some t;
  (** the recorded liquidity (0 without a pool) is the issuance of that token *)
  ok_issuance p t :
    wide p -> pair_token p (chain s) = Some t ->
    total_issuance t (chain s) = total_liquidity (get_pair_id p) s;
  (** a pool is never empty: it is destroyed with its last share *)
  ok_positive pool l : TotalLiquidity s !! pool = Some l -> 0 < l;
  (** two pairs do not share a token, and none is the native asset *)
  ok_distinct p q t :
    wide p -> wide q -> pair_token p (chain s) = Some t -> pair_token q (chain s) = Some t ->
    get_pair_id p = get_pair_id q;
  ok_native p : wide p -> pair_token p (chain s) <> Some NativeAssetId
}.

(** Steps of the rest of the chain that neither mint, burn nor register share
    tokens. *)
Definition quiet (c c' : C) : Prop :=
  (forall p, wide p -> pair_token p c' = pair_token p c) /\
  (forall p t, wide p -> pair_token p c = Some t -> total_issuance t c' = total_issuance t c).

(** A state transition: an extrinsic, whatever its result, or a quiet step. *)
Inductive xyk_step : State -> State -> Prop :=
| step_call origin call s r s' :
    wide (call_pair call) -> dispatch origin call s = (r, s') -> xyk_step s s'
| step_chain s c : quiet (chain s) c -> xyk_step s (set_chain c s).

(** The empty pallet. *)
Definition xyk_genesis (s : State) : Prop :=
  ShareToken s = ∅ /\ TotalLiquidity s = ∅ /\ PoolAssets s = ∅ /\
  forall p, wide p -> pair_token p (chain s) = None.

Inductive xyk_reachable : State -> Prop :=
| reach_init s : xyk_genesis s -> xyk_reachable s
| reach_step s s' : xyk_reachable s -> xyk_step s s' -> xyk_reachable s'.

(** ** Pairs, accounts and names *)

Lemma pair_cases p q :
  wide p -> wide q ->
  get_pair_id q = get_pair_id p /\ AssetPair_name q = AssetPair_name p \/
  get_pair_id q <> get_pair_id p /\ AssetPair_name q <> AssetPair_name p.
Proof.
  intros Hp Hq. destruct (decide (ordered_pair q = ordered_pair p)) as [Ho|Ho].
  - left. split; [|by apply AssetPair_name_ordered].
    apply ordered_pair_eq in Ho as [->| ->]; [done|]. apply from_assets_sym.
  - right. split; [|by rewrite AssetPair_name_ordered].
    unfold get_pair_id, pair_account_from_assets. destruct p, q, Hp, Hq.
    intros [_ ?]%from_assets_inj; simpl; (done || lia).
Qed.

(** ** Quiet steps *)

Lemma quiet_refl c : quiet c c.
Proof. by split. Qed.
Lemma quiet_trans c1 c2 c3 : quiet c1 c2 -> quiet c2 c3 -> quiet c1 c3.
Proof.
  intros [Ha Ia] [Hb Ib]. split; intros.
  - by rewrite Hb, Ha.
  - rewrite (Ib p) by (rewrite ?Ha; done). eauto.
Qed.
#[local] Instance quiet_preorder : PreOrder quiet.
Proof. split; [exact quiet_refl|exact quiet_trans]. Qed.

Lemma transfer_quiet c f t a c1 c2 : transfer c f t a c1 = (Ok tt, c2) -> quiet c1 c2.
Proof.
  intros T. split; intros.
  - by eapply transfer_shared.
  - by eapply transfer_issuance.
Qed.
Lemma on_create_pool_is_quiet a b c1 c2 : on_create_pool a b c1 = (Ok tt, c2) -> quiet c1 c2.
Proof.
  intros [Hi Hs]%on_create_pool_quiet. split; intros; [apply Hs|apply Hi].
Qed.
Lemma on_trade_is_quiet a b x y l c : quiet c (on_trade a b x y l c).
Proof.
  destruct (on_trade_quiet a b x y l c) as [Hi Hs]. split; intros; [apply Hs|apply Hi].
Qed.

Lemma withdraw_native_quiet w a c1 c2 :
  (forall p, wide p -> pair_token p c1 <> Some NativeAssetId) ->
  withdraw NativeAssetId w a c1 = (Ok tt, c2) -> quiet c1 c2.
Proof.
  intros Hn W. split; intros.
  - by eapply withdraw_shared.
  - eapply (withdraw_frame _ _ _ _ _ t); eauto. intros ->. by eapply Hn.
Qed.

(** ** Preservation *)

Lemma pools_ok_quiet s s' :
  pools_ok s -> same_pools s s' -> quiet (chain s) (chain s') -> pools_ok s'.
Proof.
  intros [] (Hst & Htl & Hpa) [Hq Hi].
  split; unfold total_liquidity in *; rewrite ?Hst, ?Htl, ?Hpa; intros; rewrite ?Hq in * by done; eauto.
  rewrite (Hi p) by done. eauto.
Qed.

(** A change of one pool: the records of the other pools, the other registered
    tokens and their issuance are as before, and the pool's own records agree with
    the issuance of its token. *)
Record pool_updated (p : AssetPair) (t : AssetId) (s s' : State) : Prop := mkPoolUpdated {
  up_wide : wide p;
  up_others pool : pool <> get_pair_id p ->
    ShareToken s' !! pool = ShareToken s !! pool /\
    TotalLiquidity s' !! pool = TotalLiquidity s !! pool /\
    PoolAssets s' !! pool = PoolAssets s !! pool;
  up_tokens q : wide q -> AssetPair_name q <> AssetPair_name p ->
    pair_token q (chain s') = pair_token q (chain s) /\ pair_token q (chain s) <> Some t;
  up_issuance t' : t' <> t -> total_issuance t' (chain s') = total_issuance t' (chain s);
  up_before : pair_token p (chain s) = None \/ pair_token p (chain s) = Some t;
  up_token : pair_token p (chain s') = Some t;
  up_native : t <> NativeAssetId;
  up_total : total_issuance t (chain s') = total_liquidity (get_pair_id p) s';
  up_own :
    ShareToken s' !! get_pair_id p = None /\ TotalLiquidity s' !! get_pair_id p = None /\
      PoolAssets s' !! get_pair_id p = None \/
    exists l ab, ShareToken s' !! get_pair_id p = Some t /\
      TotalLiquidity s' !! get_pair_id p = Some l /\ 0 < l /\
      PoolAssets s' !! get_pair_id p = Some ab /\ fst ab <> snd ab /\
      get_pair_id (AssetPair_new (fst ab) (snd ab)) = get_pair_id p
}.

Lemma pools_ok_update p t s s' : pools_ok s -> pool_updated p t s s' -> pools_ok s'.
Proof.
  intros [K1 K2 K3 K4 K5 K6 K7 K8] [Hp Ho Ht Hi _ Htk Hn Htot Hown].
  assert (Hsame : forall q, AssetPair_name q = AssetPair_name p -> pair_token q (chain s') = Some t)
    by (intros q Hq; unfold pair_token in *; by rewrite Hq).
  split.
  - intros pool. destruct (decide (pool = get_pair_id p)) as [->|Hne].
    + destruct Hown as [(->&->&_)|(l&ab&->&->&_)]; [by split; intros []|by split].
    + destruct (Ho pool Hne) as (->&->&_). apply K1.
  - intros pool. destruct (decide (pool = get_pair_id p)) as [->|Hne].
    + destruct Hown as [(->&_&->)|(l&ab&->&_&_&->&_)]; [by split; intros []|by split].
    + destruct (Ho pool Hne) as (->&_&->). apply K2.
  - intros pool a b. destruct (decide (pool = get_pair_id p)) as [->|Hne].
    + destruct Hown as [(_&_&->)|(l&[a' b']&_&_&_&->&?&?)]; [done|]. by intros [= -> ->].
    + destruct (Ho pool Hne) as (_&_&->). apply K3.
  - intros q t' Hq. destruct (pair_cases p q Hp Hq) as [[-> Hnm]|[Hne Hnm]].
    + rewrite (Hsame q Hnm). destruct Hown as [(->&_)|(l&ab&->&_)]; congruence.
    + destruct (Ho _ Hne) as (->&_&_), (Ht q Hq Hnm) as [-> _]. by apply K4.
  - intros q t' Hq. destruct (pair_cases p q Hp Hq) as [[-> Hnm]|[Hne Hnm]].
    + rewrite (Hsame q Hnm). intros [= <-]. done.
    + destruct (Ht q Hq Hnm) as [-> Hd]. intros Hqt. rewrite Hi by congruence.
      rewrite (K5 q t') by done. unfold total_liquidity. by destruct (Ho _ Hne) as (_&->&_).
  - intros pool l. destruct (decide (pool = get_pair_id p)) as [->|Hne].
    + destruct Hown as [(_&->&_)|(l'&ab&_&->&?&_)]; [done|]. by intros [= <-].
    + destruct (Ho pool Hne) as (_&->&_). apply K6.
  - intros q q' t' Hq Hq'.
    destruct (pair_cases p q Hp Hq) as [[Hid Hnm]|[Hne Hnm]], (pair_cases p q' Hp Hq') as
      [[Hid' Hnm']|[Hne' Hnm']]; try congruence.
    + rewrite (Hsame q Hnm). destruct (Ht q' Hq' Hnm') as [-> ?]. congruence.
    + rewrite (Hsame q' Hnm'). destruct (Ht q Hq Hnm) as [-> ?]. congruence.
    + destruct (Ht q Hq Hnm) as [-> _], (Ht q' Hq' Hnm') as [-> _]. by apply K7.
  - intros q Hq. destruct (pair_cases p q Hp Hq) as [[Hid Hnm]|[Hne Hnm]].
    + rewrite (Hsame q Hnm). congruence.
    + destruct (Ht q Hq Hnm) as [-> _]. by apply K8.
Qed.

Lemma create_pool_updates origin a b amount price s u s' :
  pools_ok s -> wide (AssetPair_new a b) ->
  create_pool origin a b amount price s = (Ok u, s') ->
  exists t, pool_updated (AssetPair_new a b) t s s'.
Proof.
  intros Hok Hw Hrun. pose proof cfg_min_pool.
  apply create_pool_Ok in Hrun as (who & bm & t & c1 & c2 & c3 & c4 & _ & _ & Hab & _ & Hnone & _ &
    Hamt & Hbm & Hreg & Hhook & T1 & T2 & D & Hst & Htl & Hpa & _).
  exists t. set (p := AssetPair_new a b) in *.
  set (shares := if a <? b then amount else bm) in *.
  assert (Hsh : 0 < shares) by (unfold shares; case_match; lia).
  assert (Q : quiet c1 c4).
  { transitivity c2; [by eapply on_create_pool_is_quiet|].
    transitivity c3; eapply transfer_quiet; eauto. }
  assert (Hiss : forall x, total_issuance x c4 = total_issuance x c1).
  { intros x. rewrite (transfer_issuance _ _ _ _ _ _ x T2), (transfer_issuance _ _ _ _ _ _ x T1).
    apply on_create_pool_quiet in Hhook as [Hh _]. apply Hh. }
  destruct (shared_asset_created _ _ _ _ _ _ Hreg) as [Hnew Hcase].
  assert (Hreg_iss : forall x, total_issuance x c1 = total_issuance x (chain s))
    by (intros x; apply (shared_asset_balances _ _ _ _ _ _ x Hreg)).
  assert (Htok : forall q, wide q -> pair_token q (chain s') = pair_token q c1).
  { intros q Hq. unfold pair_token at 1. rewrite (deposit_shared _ _ _ _ _ _ D). by apply Q. }
  assert (Hzero : total_issuance t (chain s) = 0).
  { destruct Hcase as [Hold|(_ & Hz & _)]; [|done].
    rewrite (ok_issuance _ Hok p t) by done. unfold total_liquidity.
    destruct (TotalLiquidity s !! get_pair_id p) eqn:Hl; [|done].
    assert (is_Some (ShareToken s !! get_pair_id p)) as [? ?]; [|congruence].
    apply (ok_records _ Hok). by rewrite Hl. }
  split; auto.
  - intros pool Hne. rewrite Hst, Htl, Hpa, !lookup_insert_ne by done. done.
  - intros q Hq Hnm. rewrite (Htok q Hq). unfold pair_token.
    rewrite (shared_asset_frame _ _ _ _ _ _ _ Hreg Hnm). split; [done|].
    destruct Hcase as [Hold|(_ & _ & _ & Hfr)]; [|apply Hfr].
    intros Hqt. destruct (pair_cases p q Hw Hq) as [[_ ?]|[Hid _]]; [done|].
    apply Hid. by eapply (ok_distinct _ Hok).
  - intros t' Hne. destruct (deposit_frame _ _ _ _ _ t' D Hne) as [_ ->]. by rewrite Hiss.
  - destruct Hcase as [?|[? _]]; [by right|by left].
  - by rewrite Htok.
  - destruct Hcase as [Hold|(_ & _ & Hn & _)]; [|done].
    intros ->. by apply (ok_native _ Hok p).
  - rewrite (deposit_issuance _ _ _ _ _ D), Hiss, Hreg_iss, Hzero. unfold total_liquidity.
    rewrite Htl, lookup_insert_eq. simpl. lia.
  - right. exists shares, (a, b). by rewrite Hst, Htl, Hpa, !lookup_insert_eq.
Qed.

(** Minting or burning the shares of an existing pool. *)
Lemma existing_pool_updates p t s s' :
  pools_ok s -> wide p -> ShareToken s !! get_pair_id p = Some t ->
  (forall pool, pool <> get_pair_id p ->
    ShareToken s' !! pool = ShareToken s !! pool /\
    TotalLiquidity s' !! pool = TotalLiquidity s !! pool /\
    PoolAssets s' !! pool = PoolAssets s !! pool) ->
  (forall q, pair_token q (chain s') = pair_token q (chain s)) ->
  (forall t', t' <> t -> total_issuance t' (chain s') = total_issuance t' (chain s)) ->
  total_issuance t (chain s') - total_issuance t (chain s) =
    total_liquidity (get_pair_id p) s' - total_liquidity (get_pair_id p) s ->
  (ShareToken s' !! get_pair_id p = None /\ TotalLiquidity s' !! get_pair_id p = None /\
     PoolAssets s' !! get_pair_id p = None \/
   exists l, ShareToken s' !! get_pair_id p = Some t /\ PoolAssets s' !! get_pair_id p =
     PoolAssets s !! get_pair_id p /\ TotalLiquidity s' !! get_pair_id p = Some l /\ 0 < l) ->
  pool_updated p t s s'.
Proof.
  intros Hok Hw Hst Ho Htok Hiss Hd Hown.
  pose proof (ok_token _ Hok p t Hw Hst) as Hpt.
  split; auto.
  - intros q Hq Hnm. split; [apply Htok|]. intros Hqt.
    destruct (pair_cases p q Hw Hq) as [[_ ?]|[Hid _]]; [done|].
    apply Hid. by eapply (ok_distinct _ Hok).
  - by rewrite Htok.
  - intros ->. by apply (ok_native _ Hok p).
  - pose proof (ok_issuance _ Hok p t Hw Hpt). lia.
  - destruct Hown as [?|(l & ? & Hpa & ? & ?)]; [by left|right].
    destruct (PoolAssets s !! get_pair_id p) as [[a b]|] eqn:Hab.
    + exists l, (a, b). destruct (ok_assets _ Hok _ _ _ Hab). by split_and!.
    + exfalso. destruct (proj1 (ok_assets_record _ Hok (get_pair_id p))) as [? ?]; [eauto|].
      congruence.
Qed.

Lemma total_liquidity_Some s p t :
  pools_ok s -> ShareToken s !! get_pair_id p = Some t ->
  exists l, TotalLiquidity s !! get_pair_id p = Some l /\ 0 < l.
Proof.
  intros Hok Hst. destruct (proj1 (ok_records _ Hok (get_pair_id p))) as [l Hl]; [eauto|].
  exists l. split; [done|]. by eapply (ok_positive _ Hok).
Qed.

Lemma add_liquidity_updates origin a b amount limit s u s' :
  pools_ok s -> wide (AssetPair_new a b) ->
  add_liquidity origin a b amount limit s = (Ok u, s') ->
  exists t, pool_updated (AssetPair_new a b) t s s'.
Proof.
  intros Hok Hw Hrun. pose proof cfg_min_trading.
  apply add_liquidity_Ok in Hrun as (who & t & bm & c1 & c2 & _ & Hst & Hamt & Hbm & _ & Hne &
    _ & T1 & T2 & D & Hst' & Hpa & Htl & _).
  exists t. set (p := AssetPair_new a b) in *.
  destruct (total_liquidity_Some s p t Hok Hst) as (l & Hl & Hpos).
  apply liquidity_in_nonneg in Hbm; [|apply reserve_nonneg..|lia].
  apply existing_pool_updates; auto.
  - intros pool Hp. by rewrite Hst', Hpa, Htl, lookup_insert_ne.
  - intros q. unfold pair_token.
    by rewrite (deposit_shared _ _ _ _ _ _ D), (transfer_shared _ _ _ _ _ _ _ T2),
      (transfer_shared _ _ _ _ _ _ _ T1).
  - intros t' Ht'. destruct (deposit_frame _ _ _ _ _ t' D Ht') as [_ ->].
    by rewrite (transfer_issuance _ _ _ _ _ _ t' T2), (transfer_issuance _ _ _ _ _ _ t' T1).
  - rewrite (deposit_issuance _ _ _ _ _ D), (transfer_issuance _ _ _ _ _ _ t T2),
      (transfer_issuance _ _ _ _ _ _ t T1).
    unfold total_liquidity. rewrite Htl, lookup_insert_eq. simpl. unfold total_liquidity. lia.
  - right. unfold total_liquidity in Htl. rewrite Hl in Htl. simpl in Htl.
    eexists. rewrite Hst', Hpa, Htl, lookup_insert_eq. split_and!; eauto.
    revert Hne. case_match; lia.
Qed.

Lemma remove_liquidity_updates origin a b amount s u s' :
  pools_ok s -> wide (AssetPair_new a b) ->
  remove_liquidity origin a b amount s = (Ok u, s') ->
  exists t, pool_updated (AssetPair_new a b) t s s'.
Proof.
  intros Hok Hw Hrun.
  apply remove_liquidity_Ok in Hrun as (who & t & oa & ob & c1 & c2 & _ & Hst & Hz & Htot & _ &
    _ & _ & _ & _ & T1 & T2 & W & Hcase).
  exists t. set (p := AssetPair_new a b) in *.
  destruct (total_liquidity_Some s p t Hok Hst) as (l & Hl & Hpos).
  assert (Htl0 : total_liquidity (get_pair_id p) s = l) by (unfold total_liquidity; by rewrite Hl).
  rewrite Htl0 in *.
  apply existing_pool_updates; auto.
  - intros pool Hp. case_match; destruct Hcase as (-> & -> & -> & _);
      by rewrite ?lookup_delete_ne, ?lookup_insert_ne.
  - intros q. unfold pair_token.
    by rewrite (withdraw_shared _ _ _ _ _ _ W), (transfer_shared _ _ _ _ _ _ _ T2),
      (transfer_shared _ _ _ _ _ _ _ T1).
  - intros t' Ht'. destruct (withdraw_frame _ _ _ _ _ t' W Ht') as [_ ->].
    by rewrite (transfer_issuance _ _ _ _ _ _ t' T2), (transfer_issuance _ _ _ _ _ _ t' T1).
  - rewrite (withdraw_issuance _ _ _ _ _ W), (transfer_issuance _ _ _ _ _ _ t T2),
      (transfer_issuance _ _ _ _ _ _ t T1), Htl0.
    unfold total_liquidity. case_match; destruct Hcase as (_ & _ & -> & _); zbool.
    + rewrite lookup_delete_eq. simpl. lia.
    + rewrite lookup_insert_eq. simpl. lia.
  - case_match; destruct Hcase as (-> & -> & -> & _); zbool.
    + left. by rewrite !lookup_delete_eq.
    + right. eexists. rewrite lookup_insert_eq. split_and!; eauto. lia.
Qed.

Lemma discount_paid_quiet t c c' :
  (forall p, wide p -> pair_token p c <> Some NativeAssetId) -> discount_paid t c c' -> quiet c c'.
Proof.
  intros Hn. unfold discount_paid. case_match; [by apply withdraw_native_quiet|].
  intros ->. reflexivity.
Qed.

(** The steps of a trade before its two transfers. *)
Lemma trade_quiet t x y l s c1 c2 c3 a f g z a' f' g' z' :
  pools_ok s ->
  discount_paid t (on_trade x y (t_amount t) (t_amount_out t) l (chain s)) c1 ->
  transfer a f g z c1 = (Ok tt, c2) -> transfer a' f' g' z' c2 = (Ok tt, c3) ->
  quiet (chain s) c3.
Proof.
  intros Hok Hd T1 T2.
  pose proof (on_trade_is_quiet x y (t_amount t) (t_amount_out t) l (chain s)) as Q.
  transitivity (on_trade x y (t_amount t) (t_amount_out t) l (chain s)); [done|].
  transitivity c1; [|transitivity c2; eapply transfer_quiet; eauto].
  eapply discount_paid_quiet; [|done]. intros p Hp. destruct Q as [-> _]; [|done].
  by apply (ok_native _ Hok).
Qed.

Lemma dispatch_preserves origin call s r s' :
  pools_ok s -> wide (call_pair call) -> dispatch origin call s = (r, s') -> pools_ok s'.
Proof.
  intros Hok Hw Hrun. destruct r as [[]| |].
  2,3: by rewrite (dispatch_rollback _ _ _ _ _ Hrun).
  destruct call; simpl in Hrun, Hw.
  - apply create_pool_updates in Hrun as [t ?]; eauto using pools_ok_update.
  - apply add_liquidity_updates in Hrun as [t ?]; eauto using pools_ok_update.
  - apply remove_liquidity_updates in Hrun as [t ?]; eauto using pools_ok_update.
  - apply sell_Ok in Hrun as (w & t & _ & _ & He).
    apply execute_sell_Ok in He as (c1 & c2 & Hd & T1 & T2 & Hs & _).
    eapply pools_ok_quiet; eauto using trade_quiet.
  - apply buy_Ok in Hrun as (w & t & _ & _ & He).
    apply execute_buy_Ok in He as (c1 & c2 & Hd & T1 & T2 & Hs & _).
    eapply pools_ok_quiet; eauto using trade_quiet.
Qed.

Lemma xyk_genesis_ok s : xyk_genesis s -> pools_ok s.
Proof.
  intros (Hst & Htl & Hpa & Hn).
  split; rewrite ?Hst, ?Htl, ?Hpa; intros *; rewrite ?lookup_empty; try done.
  - intros Hw. by rewrite (Hn p Hw).
  - intros Hw. by rewrite (Hn p Hw).
  - intros Hw. by rewrite (Hn p Hw).
Qed.

(** [C1] In every state reachable by extrinsics and by steps of the chain that do
    not touch share tokens, the books of every pool balance: the recorded
    [TotalLiquidity] is the issuance of the pool's share token (and zero without a
    pool), a pool is never empty, its three records exist together, its account and
    token are those of its pair, and no two pairs share a token. *)
Theorem reachable_pools_ok s : xyk_reachable s -> pools_ok s.
Proof.
  induction 1 as [s Hg|s s' _ IH Hstep].
  - by apply xyk_genesis_ok.
  - destruct Hstep as [origin call s r s' Hw Hrun|s c Hq].
    + by eapply dispatch_preserves.
    + by eapply pools_ok_quiet.
Qed.
End accounting.

(** ** Exact effect of the liquidity extrinsics *)

Section liquidity.
Context {C : Type}.
Context `{MultiCurrency C} `{ShareTokenRegistry C} `{AMMHandler C} `{CanCreatePool C}.
Context `{AssetPairAccountIdFor} `{XykMath} `{FeeMath} `{FixedPoint} `{AMMProvided}.
Context {cfg : XykConfig}.
Context `{!MultiCurrencyLaws C} `{!ShareTokenRegistryLaws C NativeAssetId} `{!AMMHandlerLaws C}
  `{!XykMathLaws} `{!XykConfigOk}.
Notation State := (XykState C).
Implicit Types s : State.

(** [xa] of asset [a] and [xb] of asset [b] move from [who] to the pool (out of the
    pool when negative) against [shares] new tokens [t] for [who]; nothing else
    moves. *)
Definition liquidity_moved (who pool : AccountId) (a b t : AssetId) (xa xb shares : Balance)
    (c c' : C) : Prop :=
  (free_balance a who c' = free_balance a who c - xa /\
   free_balance a pool c' = free_balance a pool c + xa) /\
  (free_balance b who c' = free_balance b who c - xb /\
   free_balance b pool c' = free_balance b pool c + xb) /\
  free_balance t who c' = free_balance t who c + shares /\
  total_issuance t c' = total_issuance t c + shares /\
  (forall w, w <> who -> w <> pool -> free_balance a w c' = free_balance a w c /\
    free_balance b w c' = free_balance b w c /\ free_balance t w c' = free_balance t w c) /\
  (forall x, x <> a -> x <> b -> x <> t -> same_balances x c c').

Lemma liquidity_in_moved who pool a b t xa xb shares (c0 c1 c2 c3 c4 : C) :
  (forall x, same_balances x c0 c1 /\ total_issuance x c1 = total_issuance x c0) ->
  a <> b -> t <> a -> t <> b -> who <> pool -> 0 <= xa -> 0 <= xb -> 0 <= shares ->
  keeps a who xa c0 -> keeps b who xb c0 ->
  transfer a who pool xa c1 = (Ok tt, c2) -> transfer b who pool xb c2 = (Ok tt, c3) ->
  deposit t who shares c3 = (Ok tt, c4) ->
  liquidity_moved who pool a b t xa xb shares c0 c4.
Proof.
  intros H01 Hab Hta Htb Hwp Hxa Hxb Hsh Ka Kb T1 T2 D.
  assert (Fr1 : forall x, x <> a -> same_balances x c1 c2) by (intros; eapply transfer_frame; eauto).
  assert (Fr2 : forall x, x <> b -> same_balances x c2 c3) by (intros; eapply transfer_frame; eauto).
  assert (Fr3 : forall x, x <> t -> same_balances x c3 c4) by (intros; eapply deposit_frame; eauto).
  assert (Fr0 : forall x, same_balances x c0 c1) by apply H01.
  pose proof (same_balances_trans (C := C)) as Htr.
  destruct (transfer_within a who pool xa c0 c1 c2 c4) as (A1 & A2 & A3); eauto.
  destruct (transfer_within b who pool xb c0 c2 c3 c4) as (B1 & B2 & B3); eauto.
  assert (Ht : same_balances t c0 c3) by eauto.
  unfold liquidity_moved. split_and!; auto.
  - rewrite (deposit_credit _ _ _ _ _ D) by done. by rewrite Ht.
  - rewrite (deposit_issuance _ _ _ _ _ D), (transfer_issuance _ _ _ _ _ _ t T2),
      (transfer_issuance _ _ _ _ _ _ t T1). f_equal. apply H01.
  - intros w Hw1 Hw2. split_and!; auto.
    rewrite (deposit_others _ _ _ _ _ w D) by done. apply Ht.
  - intros x ? ? ?. apply (Htr _ _ c3); eauto.
Qed.

Lemma liquidity_out_moved who pool a b t oa ob shares (c0 c1 c2 c3 : C) :
  a <> b -> t <> a -> t <> b -> who <> pool -> 0 <= oa -> 0 <= ob -> 0 <= shares ->
  keeps a pool oa c0 -> keeps b pool ob c0 -> keeps t who shares c0 ->
  transfer a pool who oa c0 = (Ok tt, c1) -> transfer b pool who ob c1 = (Ok tt, c2) ->
  withdraw t who shares c2 = (Ok tt, c3) ->
  liquidity_moved who pool a b t (- oa) (- ob) (- shares) c0 c3.
Proof.
  intros Hab Hta Htb Hwp Hoa Hob Hsh Ka Kb Kt T1 T2 W.
  assert (Fr1 : forall x, x <> a -> same_balances x c0 c1) by (intros; eapply transfer_frame; eauto).
  assert (Fr2 : forall x, x <> b -> same_balances x c1 c2) by (intros; eapply transfer_frame; eauto).
  assert (Fr3 : forall x, x <> t -> same_balances x c2 c3) by (intros; eapply withdraw_frame; eauto).
  pose proof (same_balances_trans (C := C)) as Htr.
  destruct (transfer_within a pool who oa c0 c0 c1 c3) as (A1 & A2 & A3); eauto; [done|].
  destruct (transfer_within b pool who ob c0 c1 c2 c3) as (B1 & B2 & B3); eauto.
  assert (St : same_balances t c0 c2) by eauto.
  assert (Kt2 : keeps t who shares c2) by (by eapply keeps_same).
  unfold liquidity_moved. split_and!; try lia.
  - rewrite (withdraw_debit _ _ _ _ _ W) by done. rewrite St. lia.
  - rewrite (withdraw_issuance _ _ _ _ _ W), (transfer_issuance _ _ _ _ _ _ t T2),
      (transfer_issuance _ _ _ _ _ _ t T1). lia.
  - intros x Hx1 Hx2. split_and!; auto.
    rewrite (withdraw_others _ _ _ _ _ x W) by auto. apply St.
  - intros x ? ? ?. apply (Htr _ _ c2); eauto.
Qed.

(** A successful [create_pool] moves exactly [amount] of [asset_a] and
    [initial_price * amount] of [asset_b] from the creator to the new pool, mints
    the amount of the asset with the lower id as the initial shares, and records
    the pool; both reserves reach the minimum pool liquidity. *)
Theorem create_pool_exact who a b amount price b_amount s s' :
  create_pool (Signed who) a b amount price s = (Ok tt, s') ->
  let pool := get_pair_id (AssetPair_new a b) in
  let shares := if a <? b then amount else b_amount in
  checked_mul_int price amount = Some b_amount -> who <> pool ->
  amount + minimum_balance a <= free_balance a who (chain s) ->
  b_amount + minimum_balance b <= free_balance b who (chain s) ->
  exists t,
    ShareToken s !! pool = None /\ ShareToken s' = <[pool := t]> (ShareToken s) /\
    TotalLiquidity s' = <[pool := shares]> (TotalLiquidity s) /\
    PoolAssets s' = <[pool := (a, b)]> (PoolAssets s) /\
    MinPoolLiquidity <= amount /\ MinPoolLiquidity <= b_amount /\
    (t <> a -> t <> b ->
     liquidity_moved who pool a b t amount b_amount shares (chain s) (chain s')).
Proof.
  intros Hrun pool shares Hb Hwp Ka Kb. pose proof cfg_min_pool.
  apply create_pool_Ok in Hrun as (w & bm & t & c1 & c2 & c3 & c4 & [= <-] & _ & Hab & _ & Hnone &
    Hmul & Hamt & Hbm & Hreg & Hhook & T1 & T2 & D & Hst & Htl & Hpa & _).
  rewrite Hb in Hmul. injection Hmul as <-.
  exists t. split_and!; auto; try lia. intros Hta Htb.
  eapply (liquidity_in_moved who pool a b t amount b_amount shares (chain s) c2 c3 c4);
    eauto; try lia; [|unfold shares; case_match; lia|right; lia..].
  intros x. destruct (shared_asset_balances _ _ _ _ _ _ x Hreg) as [R1 R2].
  apply on_create_pool_quiet in Hhook as [Hh _]. destruct (Hh x) as [Q1 Q2].
  split; [by eapply same_balances_trans|congruence].
Qed.

(** A successful [add_liquidity] takes [amount_a] of [asset_a] and the
    formula's amount of [asset_b], at most the given limit, into the pool; it mints
    the amount of the asset with the lower id as shares and adds them to the pool's
    recorded liquidity. *)
Theorem add_liquidity_exact who a b amount limit t s s' :
  add_liquidity (Signed who) a b amount limit s = (Ok tt, s') ->
  let p := AssetPair_new a b in let pool := get_pair_id p in
  ShareToken s !! pool = Some t -> a <> b -> t <> a -> t <> b -> who <> pool ->
  amount + minimum_balance a <= free_balance a who (chain s) ->
  limit + minimum_balance b <= free_balance b who (chain s) ->
  exists b_amount,
    calculate_liquidity_in (reserve_of a p s) (reserve_of b p s) amount = Some b_amount /\
    b_amount <= limit /\
    let shares := if a <? b then amount else b_amount in
    0 < shares /\
    liquidity_moved who pool a b t amount b_amount shares (chain s) (chain s') /\
    TotalLiquidity s' = <[pool := total_liquidity pool s + shares]> (TotalLiquidity s) /\
    ShareToken s' = ShareToken s /\ PoolAssets s' = PoolAssets s.
Proof.
  intros Hrun p pool Ht Hab Hta Htb Hwp Ka Kb. pose proof cfg_min_trading.
  apply add_liquidity_Ok in Hrun as (w & t' & bm & c1 & c2 & [= <-] & Hst & Hamt & Hbm & Hlim & Hne &
    _ & T1 & T2 & D & Hst' & Hpa & Htl & _).
  fold p pool in Hst, Hbm, T1, T2, Htl. rewrite Ht in Hst. injection Hst as <-.
  exists bm. pose proof Hbm as Hnn. apply liquidity_in_nonneg in Hnn; [|apply reserve_nonneg..|lia].
  assert (Hpos : 0 < (if a <? b then amount else bm)) by (revert Hne; case_match; lia).
  cbv zeta. split_and!; auto; try lia.
  eapply (liquidity_in_moved who pool a b t _ _ _ (chain s) (chain s) c1 c2); eauto; try lia;
    [by split|right; lia..].
Qed.

(** [C25] A successful [remove_liquidity] burns exactly [liquidity_amount] shares and
    pays the pro-rata amounts of the formula, never more than the shares' proportion
    of either reserve; the last shares destroy the pool. *)
Theorem remove_liquidity_exact who a b amount t s s' :
  remove_liquidity (Signed who) a b amount s = (Ok tt, s') ->
  let p := AssetPair_new a b in let pool := get_pair_id p in
  let total := total_liquidity pool s in
  ShareToken s !! pool = Some t -> 0 <= amount -> a <> b -> t <> a -> t <> b -> who <> pool ->
  minimum_balance t <= MinPoolLiquidity ->
  (forall oa ob, calculate_liquidity_out (reserve_of a p s) (reserve_of b p s) amount total
    = Some (oa, ob) -> keeps a pool oa (chain s) /\ keeps b pool ob (chain s)) ->
  exists oa ob,
    calculate_liquidity_out (reserve_of a p s) (reserve_of b p s) amount total = Some (oa, ob) /\
    oa * total <= reserve_of a p s * amount /\ ob * total <= reserve_of b p s * amount /\
    liquidity_moved who pool a b t (- oa) (- ob) (- amount) (chain s) (chain s') /\
    total_liquidity pool s' = total - amount /\
    (ShareToken s' !! pool = None <-> amount = total).
Proof.
  intros Hrun p pool total Ht Hnn Hab Hta Htb Hwp Hmin Hkeep. pose proof cfg_min_pool.
  apply remove_liquidity_Ok in Hrun as (w & t' & oa & ob & c1 & c2 & [= <-] & Hst & Hz & Htot & Hacc &
    Hleft & Hout & Ha & Hb & T1 & T2 & W & Hcase).
  fold p pool total in Hst, Hz, Htot, Hout, Ha, Hb, T1, T2, Hcase.
  rewrite Ht in Hst. injection Hst as <-.
  destruct (Hkeep oa ob Hout) as [Ka Kb].
  destruct (liquidity_out_formula _ _ _ _ _ _ (reserve_nonneg a p s) (reserve_nonneg b p s) Hnn Hout)
    as (Hoa & Hob & Fa & Fb).
  exists oa, ob. split_and!; auto.
  - eapply (liquidity_out_moved _ _ _ _ _ _ _ _ (chain s) c1 c2); eauto.
    destruct Hleft as [Hl|Hl]; [right|by left]. unfold saturating_sub in Hl. lia.
  - unfold total_liquidity. case_match; destruct Hcase as (_ & _ & -> & _); zbool.
    + rewrite lookup_delete_eq. simpl. lia.
    + by rewrite lookup_insert_eq.
  - case_match; destruct Hcase as (-> & _); zbool.
    + by rewrite lookup_delete_eq.
    + rewrite Ht. split; [done|congruence].
Qed.
End liquidity.
