(* ===== verification/XykRefine.v ===== *)
(** * XYK pools refine a constant-product specification

    An abstract pool is two reserves and a number of shares, and its transitions are
    labelled with what is done to it: the calls of the pallet with their amounts, gifts,
    and nothing.  The label of a transition of the pallet, seen from one of its pools, is
    fixed by the call, its result and its pair; the theorem is that the pool then makes the
    step of the specification with that very label. *)

From S2P Require Import Prelude Primitives Errors Interfaces Xyk XykProps XykPools.

(** ** The specification *)

Record PoolView := mkView { v_a : Balance; v_b : Balance; v_shares : Balance }.

Definition flip_view (v : PoolView) : PoolView := mkView (v_b v) (v_a v) (v_shares v).

(** What is done to a pool of two assets: nothing, a gift to its account, or a call with
    the amount it names (of the first asset for [Open], [Join] and [SellIn], of the second
    for [BuyOut], of shares for [Redeem]); or one of these with the assets exchanged. *)
Inductive action :=
| Idle
| Gift
| Open (amount : Balance)
| Join (amount : Balance)
| Redeem (shares : Balance)
| SellIn (amount : Balance)
| BuyOut (amount : Balance)
| Mirrored (act : action).

(** One pool, or its absence, under a minimum [least] for a new pool.  The amounts of the
    label are exact; what the other side gives or gets is bounded. *)
Inductive cpmm_step (least : Balance) : action -> option PoolView -> option PoolView -> Prop :=
| cpmm_idle v : cpmm_step least Idle v v
| cpmm_gift x y l dx dy :
    0 <= dx -> 0 <= dy ->
    cpmm_step least Gift (Some (mkView x y l)) (Some (mkView (x + dx) (y + dy) l))
| cpmm_gift_none : cpmm_step least Gift None None
| cpmm_open x y dx dy l :
    0 <= x -> 0 <= y -> least <= dx -> least <= dy -> l = dx \/ l = dy ->
    cpmm_step least (Open dx) None (Some (mkView (x + dx) (y + dy) l))
| cpmm_join x y l dx dy m :
    0 <= dx -> 0 <= dy -> 0 < m -> m = dx \/ m = dy ->
    cpmm_step least (Join dx) (Some (mkView x y l)) (Some (mkView (x + dx) (y + dy) (l + m)))
| cpmm_leave x y l ox oy m :
    0 < m < l -> 0 <= ox -> 0 <= oy -> ox * l <= x * m -> oy * l <= y * m ->
    cpmm_step least (Redeem m) (Some (mkView x y l)) (Some (mkView (x - ox) (y - oy) (l - m)))
| cpmm_close x y l : cpmm_step least (Redeem l) (Some (mkView x y l)) None
| cpmm_sell x y l dx oy :
    0 <= dx -> 0 <= oy <= y -> x * y <= (x + dx) * (y - oy) ->
    cpmm_step least (SellIn dx) (Some (mkView x y l)) (Some (mkView (x + dx) (y - oy) l))
| cpmm_buy x y l ix dy :
    0 <= ix -> 0 <= dy <= y -> x * y <= (x + ix) * (y - dy) ->
    cpmm_step least (BuyOut dy) (Some (mkView x y l)) (Some (mkView (x + ix) (y - dy) l))
| cpmm_mirrored act v v' :
    cpmm_step least act (flip_view <$> v) (flip_view <$> v') ->
    cpmm_step least (Mirrored act) v v'.

Lemma cpmm_gift_le least x y x' y' l :
  x <= x' -> y <= y' -> cpmm_step least Gift (Some (mkView x y l)) (Some (mkView x' y' l)).
Proof.
  intros. replace x' with (x + (x' - x)) by lia. replace y' with (y + (y' - y)) by lia.
  apply cpmm_gift; lia.
Qed.

(** While nobody joins or leaves, the product of the reserves never falls. *)
Lemma cpmm_product least act v v' :
  cpmm_step least act (Some v) (Some v') -> v_shares v' = v_shares v -> 0 <= v_a v -> 0 <= v_b v ->
  v_a v * v_b v <= v_a v' * v_b v'.
Proof.
  intros Hs. remember (Some v) as u. remember (Some v') as u'. revert v v' Hequ Hequ'.
  induction Hs as [| | | | | | | | |act u u' Hs IH]; intros v0 v0' E E' Hl Ha Hb; simplify_eq; simpl in *; try nia.
  specialize (IH (flip_view v0) (flip_view v0') eq_refl eq_refl). simpl in IH. lia.
Qed.

(** ** The pallet's pools as abstract pools *)

Section refinement.
Context {C : Type}.
Context `{MultiCurrency C} `{ShareTokenRegistry C} `{AMMHandler C} `{CanCreatePool C}.
Context `{AssetPairAccountIdFor} `{XykMath} `{FeeMath} `{FixedPoint} `{AMMProvided}.
Context {cfg : XykConfig}.
Context `{!MultiCurrencyLaws C} `{!ShareTokenRegistryLaws C NativeAssetId} `{!AMMHandlerLaws C}
  `{!AssetPairAccountIdLaws} `{!XykMathLaws} `{!FeeMathLaws} `{!AMMProvidedLaws} `{!XykConfigOk}.
Notation State := (XykState C).
Implicit Types s : State.

(** The pool of a pair: what its account holds of the two assets, and how many of its share
    tokens there are. *)
Definition view (p : AssetPair) s : option PoolView :=
  match ShareToken s !! get_pair_id p with
  | Some t => Some (mkView (reserve_of (asset_in p) p s) (reserve_of (asset_out p) p s)
                      (total_issuance t (chain s)))
  | None => None
  end.

(** Accounts that are no pool's. *)
Definition outsider (w : AccountId) : Prop := forall p, wide p -> w <> get_pair_id p.

(** What a call must respect for the pool not to be swept below the minimum balance:
    trades need twice the minimum in the outgoing reserve, a removal must leave
    nothing or the minimum. *)
Definition unswept (call : xyk_call) s : Prop :=
  let p := call_pair call in let pool := get_pair_id p in
  match call with
  | CreatePool _ _ _ _ | AddLiquidity _ _ _ _ => True
  | RemoveLiquidity a b x =>
      0 <= x /\
      forall oa ob, calculate_liquidity_out (reserve_of a p s) (reserve_of b p s) x
                      (total_liquidity pool s) = Some (oa, ob) ->
        keeps a pool oa (chain s) /\ keeps b pool ob (chain s)
  | Sell a b _ _ _ | Buy b a _ _ _ => a <> b /\ 2 * minimum_balance b <= reserve_of b p s
  end.

(** A transition: an extrinsic of an outsider, whatever its result, or a step of the rest
    of the chain that neither issues share tokens nor takes from a pool's account. *)
Inductive move := Called (call : xyk_call) (succeeded : bool) | Elsewhere.
Inductive market_move : State -> move -> State -> Prop :=
| move_call who call s r s' :
    outsider who -> wide (call_pair call) -> unswept call s ->
    dispatch (Signed who) call s = (r, s') ->
    market_move s (Called call (match r with Ok _ => true | _ => false end)) s'
| move_chain s c :
    quiet (chain s) c ->
    (forall a p, wide p -> free_balance a (get_pair_id p) (chain s)
                           <= free_balance a (get_pair_id p) c) ->
    market_move s Elsewhere (set_chain c s).
Definition market_moves s s' : Prop := exists m, market_move s m s'.

(** What a transition does to the pool of a pair: a successful call acts on the pool of its own
    pair, in the order in which it names the assets. *)
Definition call_action (call : xyk_call) : action :=
  match call with
  | CreatePool _ _ x _ => Open x
  | AddLiquidity _ _ x _ => Join x
  | RemoveLiquidity _ _ x => Redeem x
  | Sell _ _ x _ _ => SellIn x
  | Buy _ _ x _ _ => BuyOut x
  end.
Definition action_of (p : AssetPair) (m : move) : action :=
  match m with
  | Called call true =>
      if decide (call_pair call = p) then call_action call
      else if decide (call_pair call = flip_pair p) then Mirrored (call_action call)
      else Idle
  | Called _ false => Idle
  | Elsewhere => Gift
  end.

(** The assets of a pool are [u32]s, besides the invariant of [XykPools.v]. *)
Record view_ok s : Prop := mkViewOk {
  vk_pools : pools_ok s;
  vk_wide pool a b : PoolAssets s !! pool = Some (a, b) -> wide (AssetPair_new a b)
}.

(** ** Accounts that only watch *)

Section watching.
Context {w : AccountId}.

Lemma transfer_watched c f t x (u v : C) a :
  transfer c f t x u = (Ok tt, v) -> 0 <= x -> w <> f -> w <> t -> w <> dust_account ->
  free_balance a w v = free_balance a w u.
Proof.
  intros T Hx Hf Ht Hd. destruct (decide (a = c)) as [->|Hne].
  - eapply transfer_others; eauto.
  - by eapply transfer_frame.
Qed.
Lemma transfer_received c f x (u v : C) a :
  transfer c f w x u = (Ok tt, v) -> 0 <= x -> w <> f -> w <> dust_account ->
  free_balance a w v = free_balance a w u + (if decide (a = c) then x else 0).
Proof.
  intros T Hx Hf Hd. case_decide as Hc.
  - subst. eapply transfer_credit; eauto.
  - rewrite Z.add_0_r. by eapply transfer_frame.
Qed.
Lemma transfer_paid c t x (u v : C) a :
  transfer c w t x u = (Ok tt, v) -> 0 <= x -> w <> t -> keeps c w x u ->
  free_balance a w v = free_balance a w u - (if decide (a = c) then x else 0).
Proof.
  intros T Hx Ht Hk. case_decide as Hc.
  - subst. eapply transfer_debit; eauto.
  - rewrite Z.sub_0_r. by eapply transfer_frame.
Qed.
Lemma deposit_watched c z x (u v : C) a :
  deposit c z x u = (Ok tt, v) -> w <> z -> free_balance a w v = free_balance a w u.
Proof.
  intros D Hz. destruct (decide (a = c)) as [->|Hne].
  - by eapply deposit_others.
  - apply (deposit_frame _ _ _ _ _ a) in D as [D _]; [apply D|done].
Qed.
Lemma withdraw_watched c z x (u v : C) a :
  withdraw c z x u = (Ok tt, v) -> 0 <= x -> w <> z -> w <> dust_account ->
  free_balance a w v = free_balance a w u.
Proof.
  intros W Hx Hz Hd. destruct (decide (a = c)) as [->|Hne].
  - eapply withdraw_others; eauto.
  - apply (withdraw_frame _ _ _ _ _ a) in W as [W _]; [apply W|done].
Qed.
End watching.

(** ** Changes of one pool *)

Definition view_of (p : AssetPair) s : PoolView :=
  mkView (reserve_of (asset_in p) p s) (reserve_of (asset_out p) p s)
    (total_liquidity (get_pair_id p) s).

(** The view by the recorded liquidity, which the invariant makes the issuance. *)
Definition recorded (p : AssetPair) s : option PoolView :=
  match TotalLiquidity s !! get_pair_id p with Some _ => Some (view_of p s) | None => None end.

Lemma view_recorded p s : view_ok s -> wide p -> view p s = recorded p s.
Proof.
  intros [Hok _] Hp. unfold view, recorded, view_of.
  pose proof (ok_records _ Hok (get_pair_id p)) as Hr.
  destruct (ShareToken s !! get_pair_id p) as [t|] eqn:Ht.
  - destruct (proj1 Hr) as [l ->]; [eauto|]. do 2 f_equal.
    by eapply ok_issuance, ok_token.
  - destruct (TotalLiquidity s !! get_pair_id p); [|done]. by destruct (proj2 Hr).
Qed.

Lemma recorded_some p s : is_Some (TotalLiquidity s !! get_pair_id p) -> recorded p s = Some (view_of p s).
Proof. intros [l Hl]. unfold recorded. by rewrite Hl. Qed.
Lemma recorded_share p s t :
  view_ok s -> ShareToken s !! get_pair_id p = Some t -> recorded p s = Some (view_of p s).
Proof. intros [Hok _] Ht. apply recorded_some, (ok_records _ Hok). eauto. Qed.

Lemma recorded_flip p s : recorded (flip_pair p) s = flip_view <$> recorded p s.
Proof.
  assert (Hid : get_pair_id (flip_pair p) = get_pair_id p) by apply from_assets_sym.
  unfold recorded, view_of, reserve_of. rewrite Hid. by destruct (TotalLiquidity s !! get_pair_id p).
Qed.

(** The stored order of the assets may be the other one than the call's. *)
Lemma view_cases p a b s :
  view_ok s -> wide p -> PoolAssets s !! get_pair_id p = Some (a, b) ->
  AssetPair_new a b = p \/ AssetPair_new b a = p.
Proof.
  intros [Hok Hw] Hp Hab. pose proof (Hw _ _ _ Hab) as Hq.
  destruct (ok_assets _ Hok _ _ _ Hab) as [_ Hid].
  destruct (pair_cases p (AssetPair_new a b) Hp Hq) as [[_ Hn]|[Hn _]]; [|congruence].
  apply AssetPair_name_injective in Hn as [->|Hf]; auto. right. by destruct p; injection Hf as -> ->.
Qed.

(** The other pools do not notice a call. *)
Definition bystanders (p : AssetPair) s s' : Prop :=
  forall q, wide q -> get_pair_id q <> get_pair_id p ->
    TotalLiquidity s' !! get_pair_id q = TotalLiquidity s !! get_pair_id q /\
    forall a, free_balance a (get_pair_id q) (chain s') = free_balance a (get_pair_id q) (chain s).

Lemma bystander_idle p q s s' :
  bystanders p s s' -> wide q -> get_pair_id q <> get_pair_id p -> recorded q s' = recorded q s.
Proof.
  intros Hby Hq Hne. destruct (Hby q Hq Hne) as [Ht Hb].
  unfold recorded, view_of, reserve_of, total_liquidity. by rewrite Ht, !Hb.
Qed.

Context (Hdust : outsider dust_account).

Lemma pool_not_dust q : wide q -> get_pair_id q <> dust_account.
Proof. intros Hq Heq. by apply (Hdust q). Qed.
Lemma pool_not_user q who : outsider who -> wide q -> get_pair_id q <> who.
Proof. intros Ho Hq Heq. by apply (Ho q). Qed.
#[local] Hint Resolve pool_not_dust pool_not_user : core.

(** What a call does to the pools: the bystanders notice nothing, the call's own pool
    makes the step of the specification. *)
Definition simulated (p : AssetPair) (act : action) s s' : Prop :=
  bystanders p s s' /\ cpmm_step MinPoolLiquidity act (recorded p s) (recorded p s').

Lemma create_pool_simulated who a b amount price s s' :
  view_ok s -> outsider who -> wide (AssetPair_new a b) ->
  create_pool (Signed who) a b amount price s = (Ok tt, s') ->
  simulated (AssetPair_new a b) (Open amount) s s'.
Proof.
  intros Hok Ho Hw Hrun. pose proof cfg_min_pool.
  apply create_pool_Ok in Hrun as (w & bm & t & c1 & c2 & c3 & c4 & [= <-] & _ & Hab & _ & Hnone & _ &
    Hamt & Hbm & Hreg & Hhook & T1 & T2 & D & _ & Htl & Hpa & _).
  set (p := AssetPair_new a b) in *.
  assert (Hq : forall x z, free_balance x z c2 = free_balance x z (chain s)).
  { intros x z. apply on_create_pool_quiet in Hhook as [Hh _]. destruct (Hh x) as [-> _].
    destruct (shared_asset_balances _ _ _ _ _ _ x Hreg) as [-> _]. done. }
  split.
  - intros q Hq' Hne. rewrite Htl, !lookup_insert_ne by done. split; [done|].
    intros x. rewrite (deposit_watched _ _ _ _ _ _ D), (transfer_watched _ _ _ _ _ _ x T2),
      (transfer_watched _ _ _ _ _ _ x T1), ?Hq; auto; lia.
  - unfold recorded at 1. destruct (TotalLiquidity s !! get_pair_id p) eqn:Hpn.
    { destruct (proj2 (ok_records _ (vk_pools _ Hok) (get_pair_id p))); [eauto|congruence]. }
    rewrite recorded_some by (rewrite Htl, lookup_insert_eq; eauto).
    unfold view_of, reserve_of, total_liquidity. rewrite Htl, !lookup_insert_eq. simpl.
    rewrite !(deposit_watched _ _ _ _ _ _ D) by auto.
    rewrite !(transfer_received _ _ _ _ _ _ T2), !(transfer_received _ _ _ _ _ _ T1), !Hq
      by (auto; lia).
    repeat case_decide; try congruence. rewrite !Z.add_0_r.
    apply cpmm_open; auto using free_balance_nonneg; try lia. case_match; auto.
Qed.

Lemma pool_two_assets a b s t :
  view_ok s -> wide (AssetPair_new a b) ->
  ShareToken s !! get_pair_id (AssetPair_new a b) = Some t -> a <> b.
Proof.
  intros Hok Hw Hst.
  destruct (proj1 (ok_assets_record _ (vk_pools _ Hok) (get_pair_id (AssetPair_new a b))))
    as [[a' b'] Hab']; [eauto|].
  destruct (ok_assets _ (vk_pools _ Hok) _ _ _ Hab') as [? _].
  destruct (view_cases _ a' b' s Hok Hw Hab') as [[= <- <-]|[= <- <-]]; congruence.
Qed.

Lemma add_liquidity_simulated who a b amount limit s s' :
  view_ok s -> outsider who -> wide (AssetPair_new a b) ->
  add_liquidity (Signed who) a b amount limit s = (Ok tt, s') ->
  simulated (AssetPair_new a b) (Join amount) s s'.
Proof.
  intros Hok Ho Hw Hrun. pose proof cfg_min_trading.
  apply add_liquidity_Ok in Hrun as (w & t & bm & c1 & c2 & [= <-] & Hst & Hamt & Hbm & _ & Hsh &
    _ & T1 & T2 & D & Hst' & Hpa & Htl & _).
  set (p := AssetPair_new a b) in *.
  apply liquidity_in_nonneg in Hbm; [|apply reserve_nonneg..|lia].
  split.
  - intros q Hq Hne. rewrite Htl, !lookup_insert_ne by done. split; [done|].
    intros x. rewrite (deposit_watched _ _ _ _ _ _ D), (transfer_watched _ _ _ _ _ _ x T2),
      (transfer_watched _ _ _ _ _ _ x T1); auto; lia.
  - rewrite (recorded_share p s t), (recorded_some p s') by (auto; rewrite Htl, lookup_insert_eq; eauto).
    assert (Hab : a <> b) by (by eapply (pool_two_assets a b)).
    unfold view_of, reserve_of, total_liquidity. simpl. rewrite Htl, lookup_insert_eq. simpl.
    rewrite !(deposit_watched _ _ _ _ _ _ D) by auto.
    rewrite !(transfer_received _ _ _ _ _ _ T2), !(transfer_received _ _ _ _ _ _ T1)
      by (auto; lia).
    repeat case_decide; try congruence. rewrite !Z.add_0_r.
    apply cpmm_join; [lia..| |case_match; auto]. revert Hsh. case_match; lia.
Qed.

Lemma remove_liquidity_simulated who a b x s s' :
  view_ok s -> outsider who -> wide (AssetPair_new a b) -> unswept (RemoveLiquidity a b x) s ->
  remove_liquidity (Signed who) a b x s = (Ok tt, s') ->
  simulated (AssetPair_new a b) (Redeem x) s s'.
Proof.
  intros Hok Ho Hw [Hx Hkeep] Hrun. simpl in Hkeep.
  apply remove_liquidity_Ok in Hrun as (w & t & oa & ob & c1 & c2 & [= <-] & Hst & Hz & Htot & _ &
    _ & Hout & _ & _ & T1 & T2 & W & Hcase).
  set (p := AssetPair_new a b) in *. destruct (Hkeep _ _ Hout) as [Ka Kb].
  assert (Hab : a <> b) by (by eapply (pool_two_assets a b)).
  destruct (liquidity_out_formula _ _ _ _ _ _ (reserve_nonneg a p s) (reserve_nonneg b p s) Hx Hout)
    as (Hoa & Hob & Fa & Fb).
  split.
  - intros q Hq Hne.
    assert (TotalLiquidity s' !! get_pair_id q = TotalLiquidity s !! get_pair_id q) as ->.
    { case_match; destruct Hcase as (_ & _ & -> & _);
        by rewrite ?lookup_delete_ne, ?lookup_insert_ne. }
    split; [done|]. intros y.
    rewrite (withdraw_watched _ _ _ _ _ _ W), (transfer_watched _ _ _ _ _ _ y T2),
      (transfer_watched _ _ _ _ _ _ y T1); auto.
  - destruct (Z.eqb_spec (total_liquidity (get_pair_id p) s) x) as [Heq|Hneq];
      destruct Hcase as (Hst' & Hpa & Htl & _).
    + rewrite (recorded_share p s t) by auto. unfold recorded. rewrite Htl, lookup_delete_eq.
      unfold view_of. rewrite Heq. apply cpmm_close.
    + rewrite (recorded_share p s t), (recorded_some p s') by (auto; rewrite Htl, lookup_insert_eq; eauto).
      unfold view_of, reserve_of, total_liquidity in *. simpl in *.
      rewrite Htl, lookup_insert_eq. simpl.
      rewrite !(withdraw_watched _ _ _ _ _ _ W) by auto.
      assert (K2 : keeps b (get_pair_id p) ob c1).
      { unfold keeps in *. rewrite (transfer_paid _ _ _ _ _ b T1), decide_False, Z.sub_0_r; auto. }
      rewrite !(transfer_paid _ _ _ _ _ _ T2), !(transfer_paid _ _ _ _ _ _ T1) by auto.
      repeat case_decide; try congruence. rewrite !Z.sub_0_r.
      apply cpmm_leave; auto. lia.
Qed.

(** Before its transfers a trade touches only the trader and the dust account. *)
Lemma before_trade_watched t x y l (c0 c1 : C) a q :
  discount_paid t (on_trade (asset_in (t_assets t)) (asset_out (t_assets t)) x y l c0) c1 ->
  outsider (t_origin t) -> wide q ->
  free_balance a (get_pair_id q) c1 = free_balance a (get_pair_id q) c0.
Proof. intros Hd Ho Hq. eapply before_trade_balance; eauto. Qed.

Lemma swap_simulated p act s s' :
  view_ok s -> is_Some (ShareToken s !! get_pair_id p) -> same_pools s s' ->
  (forall q a, wide q -> get_pair_id q <> get_pair_id p ->
     free_balance a (get_pair_id q) (chain s') = free_balance a (get_pair_id q) (chain s)) ->
  cpmm_step MinPoolLiquidity act (Some (view_of p s)) (Some (view_of p s')) ->
  simulated p act s s'.
Proof.
  intros Hok Hs (_ & Htl & Hpa) Hby Hstep. split.
  - intros q Hq Hne. rewrite Htl. auto.
  - destruct Hs as [t Ht]. rewrite (recorded_share p s t), (recorded_some p s'); auto.
    rewrite Htl. apply (ok_records _ (vk_pools _ Hok)). eauto.
Qed.

Lemma sell_simulated who a b x l d s s' :
  view_ok s -> outsider who -> wide (AssetPair_new a b) -> unswept (Sell a b x l d) s ->
  sell (Signed who) a b x l d s = (Ok tt, s') -> simulated (AssetPair_new a b) (SellIn x) s s'.
Proof.
  intros Hok Ho Hw [Hab Hmin] Hrun. pose proof cfg_min_trading. simpl in Hmin.
  apply sell_Ok in Hrun as (w & t & [= <-] & Hval & Hexe).
  apply validate_sell_Ok in Hval as (_ & Hs & Hamt & _ & Hratio & o & fee & da & Hout & Hfee & Hle &
    _ & _ & ->).
  simpl in Hs, Hratio, Hout, Hle.
  apply out_given_in_formula in Hout as [Ho0 Hform]; [|apply reserve_nonneg..|lia].
  assert (Hfee0 : 0 <= fee) by (eapply fee_nonneg; eauto).
  assert (Hhalf : 2 * o <= reserve_of b (AssetPair_new a b) s).
  { apply (out_at_most_half (reserve_of a (AssetPair_new a b) s) _ x o);
      auto using reserve_nonneg; lia. }
  pose proof Hexe as Hexe'.
  apply execute_sell_reserves in Hexe as [Hi Hr]; simpl in *; auto; try lia;
    [|apply keeps_half; [done|unfold reserve_of in *; simpl in *; lia]].
  apply execute_sell_Ok in Hexe' as (c1 & c2 & Hd & T1 & T2 & Hsp & _). simpl in *.
  apply swap_simulated; auto; simpl.
  2: { unfold view_of. simpl. rewrite Hi, Hr. unfold total_liquidity. destruct Hsp as (_ & -> & _).
       pose proof (reserve_nonneg a (AssetPair_new a b) s). pose proof (reserve_nonneg b (AssetPair_new a b) s).
       apply cpmm_sell; [lia..|]. apply product_sell; auto; lia. }
  intros q y Hq Hne. rewrite (transfer_watched _ _ _ _ _ _ y T2), (transfer_watched _ _ _ _ _ _ y T1);
    auto; try lia; eapply before_trade_watched; [exact Hd|exact Ho|exact Hq].
Qed.

Lemma buy_simulated who b a x l d s s' :
  view_ok s -> outsider who -> wide (AssetPair_new a b) -> unswept (Buy b a x l d) s ->
  buy (Signed who) b a x l d s = (Ok tt, s') -> simulated (AssetPair_new a b) (BuyOut x) s s'.
Proof.
  intros Hok Ho Hw [Hab Hmin] Hrun. pose proof cfg_min_trading. simpl in Hmin.
  apply buy_Ok in Hrun as (w & t & [= <-] & Hval & Hexe).
  apply validate_buy_Ok in Hval as (_ & Hs & Hamt & _ & Hratio & Hlt & price & fee & da & Hin &
    Hfee & Hfit & _ & _ & _ & ->).
  simpl in Hs, Hratio, Hlt, Hin.
  apply in_given_out_formula in Hin as [Hp0 Hform]; [|apply reserve_nonneg..|lia].
  assert (Hfee0 : 0 <= fee) by (eapply fee_nonneg; eauto).
  assert (Hhalf : 2 * x <= reserve_of b (AssetPair_new a b) s)
    by (apply buy_at_most_half; auto using reserve_nonneg).
  pose proof Hexe as Hexe'.
  apply execute_buy_reserves in Hexe as [Hi Hr]; simpl in *; auto; try lia;
    [|apply keeps_half; [done|unfold reserve_of in *; simpl in *; lia]].
  apply execute_buy_Ok in Hexe' as (c1 & c2 & Hd & T1 & T2 & Hsp & _). simpl in *.
  rewrite wrapping_add_small in T2 by lia.
  apply swap_simulated; auto; simpl.
  2: { unfold view_of. simpl. rewrite Hi, Hr. unfold total_liquidity. destruct Hsp as (_ & -> & _).
       pose proof (reserve_nonneg b (AssetPair_new a b) s).
       apply cpmm_buy; [lia..|]. apply product_buy; auto; lia. }
  intros q y Hq Hne. rewrite (transfer_watched _ _ _ _ _ _ y T2), (transfer_watched _ _ _ _ _ _ y T1);
    auto; try lia; eapply before_trade_watched; [exact Hd|exact Ho|exact Hq].
Qed.

(** ** Runs *)

Lemma dispatch_simulated who call s s' :
  view_ok s -> outsider who -> wide (call_pair call) -> unswept call s ->
  dispatch (Signed who) call s = (Ok tt, s') ->
  simulated (call_pair call) (call_action call) s s'.
Proof.
  destruct call; simpl; intros.
  - by eapply create_pool_simulated.
  - by eapply add_liquidity_simulated.
  - by eapply remove_liquidity_simulated.
  - by eapply sell_simulated.
  - by eapply buy_simulated.
Qed.

(** A call stores only the pair it is about. *)
Lemma dispatch_assets who call s s' pool a b :
  dispatch (Signed who) call s = (Ok tt, s') -> PoolAssets s' !! pool = Some (a, b) ->
  PoolAssets s !! pool = Some (a, b) \/ call_pair call = AssetPair_new a b.
Proof.
  destruct call; simpl; intros Hrun.
  - apply create_pool_Ok in Hrun as (w & bm & t & c1 & c2 & c3 & c4 & _ & _ & _ & _ & _ & _ & _ & _ &
      _ & _ & _ & _ & _ & _ & _ & -> & _).
    rewrite lookup_insert. case_decide; [|by left]. intros [= -> ->]. by right.
  - apply add_liquidity_Ok in Hrun as (w & t & bm & c1 & c2 & _ & _ & _ & _ & _ & _ & _ & _ & _ & _ &
      _ & -> & _). by left.
  - apply remove_liquidity_Ok in Hrun as (w & t & oa & ob & c1 & c2 & _ & _ & _ & _ & _ & _ & _ & _ &
      _ & _ & _ & _ & Hcase).
    case_match; destruct Hcase as (_ & -> & _ & _); [|by left].
    rewrite lookup_delete. by case_decide; [|left].
  - apply sell_Ok in Hrun as (w & t & _ & _ & He).
    apply execute_sell_Ok in He as (c1 & c2 & _ & _ & _ & (_ & _ & ->) & _). by left.
  - apply buy_Ok in Hrun as (w & t & _ & _ & He).
    apply execute_buy_Ok in He as (c1 & c2 & _ & _ & _ & (_ & _ & ->) & _). by left.
Qed.

Lemma market_move_ok s m s' : market_move s m s' -> view_ok s -> view_ok s'.
Proof.
  intros [who call s1 r s2 Ho Hw Hu Hrun|s1 c Hq Hg] Hok.
  - split; [eapply dispatch_preserves; [apply Hok|done..]|].
    intros pool a b Hab. destruct r as [[]| |].
    2,3: rewrite (dispatch_rollback _ _ _ _ _ Hrun) in Hab by done; by eapply vk_wide.
    destruct (dispatch_assets _ _ _ _ _ _ _ Hrun Hab) as [?|<-]; [by eapply vk_wide|done].
  - split; [eapply pools_ok_quiet; [apply Hok|by repeat split|done]|]. apply Hok.
Qed.

(** A successful call, from the pool of any pair. *)
Lemma call_step p call s s' :
  wide p -> wide (call_pair call) -> simulated (call_pair call) (call_action call) s s' ->
  cpmm_step MinPoolLiquidity (action_of p (Called call true)) (recorded p s) (recorded p s').
Proof.
  intros Hp Hw [Hby Hstep]. unfold action_of.
  case_decide as E1; [by subst|]. case_decide as E2.
  - apply cpmm_mirrored. rewrite <- !recorded_flip. by rewrite <- E2.
  - rewrite (bystander_idle _ p _ _ Hby Hp); [apply cpmm_idle|].
    intros Hid. destruct (pair_cases p (call_pair call) Hp Hw) as [[_ Hn]|[Hn _]]; [|congruence].
    by apply AssetPair_name_injective in Hn as [?|?].
Qed.

Lemma market_move_step p s m s' :
  wide p -> market_move s m s' -> view_ok s ->
  cpmm_step MinPoolLiquidity (action_of p m) (view p s) (view p s').
Proof.
  intros Hp Hmove Hok. pose proof (market_move_ok _ _ _ Hmove Hok) as Hok'.
  rewrite !view_recorded by done.
  destruct Hmove as [who call s1 r s2 Ho Hw Hu Hrun|s1 c Hq Hg].
  - destruct r as [[]| |].
    2,3: rewrite (dispatch_rollback _ _ _ _ _ Hrun) by done; apply cpmm_idle.
    apply call_step; [done..|]. by eapply dispatch_simulated.
  - unfold recorded, view_of, reserve_of, total_liquidity. simpl.
    destruct (TotalLiquidity s1 !! get_pair_id p); [|apply cpmm_gift_none].
    apply cpmm_gift_le; by apply Hg.
Qed.

Lemma market_moves_ok s0 s1 : xyk_genesis s0 -> rtc market_moves s0 s1 -> view_ok s1.
Proof.
  intros Hg Hrun. assert (Hok0 : view_ok s0).
  { split; [by apply xyk_genesis_ok|]. destruct Hg as (_ & _ & -> & _). intros *.
    by rewrite lookup_empty. }
  clear Hg. induction Hrun as [|s u v [m Hm] _ IH]; eauto using market_move_ok.
Qed.

(** [C2] Refinement, step by step: in every state reached from the empty one, each
    transition is, for the pool of any pair, the one step of the constant-product
    specification that carries the transition's own label.  A run interleaves extrinsics
    of accounts that are no pool's, successful or not, with steps of the chain that leave
    share tokens and pool accounts alone but for gifts (and [unswept] keeps the pool's
    account above the minimum balance).  So a failed call and a call about another pair
    leave the pool as it is; [create_pool] opens a pool with at least the minimum of both
    assets and as many shares as one of them; [add_liquidity] adds its amount and mints as
    many shares as were put in of one asset; [remove_liquidity] burns exactly its shares
    for at most their part of both reserves, and closes the pool with the last of them;
    [sell] adds exactly the sold amount and [buy] takes exactly the bought amount, and
    the product of the reserves does not fall. *)
Theorem xyk_refines p s0 s1 m s2 :
  wide p -> xyk_genesis s0 -> rtc market_moves s0 s1 -> market_move s1 m s2 ->
  view p s0 = None /\
  cpmm_step MinPoolLiquidity (action_of p m) (view p s1) (view p s2).
Proof.
  intros Hp Hg Hpre Hm. split.
  - unfold view. destruct Hg as (-> & _). by rewrite lookup_empty.
  - apply market_move_step; [done..|]. by eapply market_moves_ok.
Qed.
End refinement.
