(* ===== verification/Runtime.v ===== *)
(** * The runtime

    Models what [src/runtime/basilisk/src/lib.rs] and [src/runtime/common/src]
    contribute themselves: the parameters they fix for the pallets, the call
    filters ([BaseFilter], the proxy types), the fee polynomial, the relay-chain
    block number, the account of an asset pair and the lookup of locked balances.
    The hash function, the weight constant of the framework and the lock tables of
    the currency pallets are arguments. *)

From S2P Require Import Prelude Primitives Errors Interfaces Xyk XykProps.

(** ** Parameters ([runtime/common/src/lib.rs]) *)

Definition ExchangeFee : Z * Z := (2, 1000).
Definition LBPExchangeFee : Z * Z := (2, 1000).
Definition DustingReward : Balance := 0.
Definition MinPlannedYieldingPeriods : BlockNumber := 100.
Definition MinTotalFarmRewards : Balance := NATIVE_EXISTENTIAL_DEPOSIT * 1000.
Definition NftClass : ClassId := 1.
Definition TransactionByteFee : Balance := 10 * MILLICENTS.
Definition MinimumOfferAmount : Balance := 10000 * UNITS.
Definition RoyaltyBondAmount : Balance := 2000 * UNITS.
Definition ReserveClassIdUpTo : ClassId := 999999.

(** [impl pallet_xyk::Config for Runtime]. *)
Definition Runtime_xyk : XykConfig := {|
  NativeAssetId := CORE_ASSET_ID;
  GetExchangeFee := ExchangeFee;
  MinTradingLimit := MIN_TRADING_LIMIT;
  MinPoolLiquidity := MIN_POOL_LIQUIDITY;
  MaxInRatio := MAX_IN_RATIO;
  MaxOutRatio := MAX_OUT_RATIO
|}.

#[export] Instance Runtime_xyk_ok : @XykConfigOk Runtime_xyk.
Proof. split; cbv; intuition congruence. Qed.

(** ** Calls and filters *)

Module Calls.
Inductive ProxyCall := reject_announcement | other_proxy_call.

(** The pallets of [construct_runtime!] that have calls. *)
Inductive Call :=
| System | Timestamp | Balances | Treasury | Utility | Scheduler | Democracy | Elections
| Council | TechnicalCommittee | Vesting | Proxy (c : ProxyCall) | Tips | Authorship
| CollatorSelection | Session | Preimage | Uniques | ParachainSystem | PolkadotXcm
| CumulusXcm | DmpQueue | AssetRegistry | XYK | Duster | Exchange | LBP | NFT
| LiquidityMining | MultiTransactionPayment | PriceOracle | Marketplace | Currencies
| Tokens | OrmlXcm | XTokens | Sudo.

(** [BaseFilter::contains]. *)
Definition BaseFilter_contains (call : Call) : bool :=
  match call with
  | XYK | Exchange | NFT | Marketplace | Uniques | Vesting | Balances | Currencies
  | LiquidityMining | PolkadotXcm | OrmlXcm | XTokens => false
  | _ => true
  end.

Inductive ProxyType := Any | CancelProxy | Governance | ExchangeProxy | Transfer.

#[export] Instance ProxyType_eq_dec : EqDecision ProxyType.
Proof. solve_decision. Defined.

(** [InstanceFilter<Call> for ProxyType]. *)
Definition filter (t : ProxyType) (c : Call) : bool :=
  match t with
  | Any => true
  | CancelProxy => match c with Proxy reject_announcement => true | _ => false end
  | Governance =>
      match c with
      | Democracy | Council | TechnicalCommittee | Elections | Treasury | Tips | Utility => true
      | _ => false
      end
  | ExchangeProxy => match c with XYK | Exchange | LBP | NFT => true | _ => false end
  | Transfer => match c with Balances | Currencies | Tokens => true | _ => false end
  end.

Definition is_superset (t o : ProxyType) : bool :=
  if decide (t = o) then true
  else match t, o with
       | Any, _ => true
       | _, Any => false
       | _, _ => false
       end.
End Calls.

(** ** Fees *)

(** The linear coefficient of [WeightToFee::polynomial], as its integer part and
    its remainder over [q] (the code stores the fraction as a [Perbill]). *)
Definition BasiliskExtrinsicBaseWeight (weight_per_micros : Z) : Z := 200 * weight_per_micros.

Definition WeightToFee_polynomial (weight_per_micros : Z) : Z * (Z * Z) :=
  let p := CENTS in
  let q := 10 * BasiliskExtrinsicBaseWeight weight_per_micros in
  (p / q, (p mod q, q)).

(** ** The relay chain's block number *)

(** [validation_data] of the parachain system; only the parent number is used. *)
Definition current_block_number (validation_data : option BlockNumber) : BlockNumber :=
  match validation_data with Some n => n | None => 0 end.

(** ** The account of an asset pair *)

(** The hash of the system and the conversion of a hash into an account; no
    collision between inputs of at most 16 bytes. *)
Class Hashing := { hash_account : list Z -> AccountId }.
Class HashingLaws `{Hashing} : Prop := {
  hash_account_inj l l' :
    (length l <= 16)%nat -> (length l' <= 16)%nat -> hash_account l = hash_account l' -> l = l'
}.

(** [str::as_bytes]. *)
Fixpoint as_bytes (id : string) : list Z :=
  match id with
  | EmptyString => []
  | String c id => Z.of_N (Ascii.N_of_ascii c) :: as_bytes id
  end.

Definition pair_preimage (asset_a asset_b : AssetId) (identifier : string) : list Z :=
  let buf := as_bytes identifier in
  if asset_a <? asset_b
  then buf ++ to_le_bytes 4 asset_a ++ to_le_bytes 4 asset_b
  else buf ++ to_le_bytes 4 asset_b ++ to_le_bytes 4 asset_a.

(** [AssetPairAccountId::from_assets]. *)
Definition Runtime_accounts `{Hashing} : AssetPairAccountIdFor := {|
  from_assets asset_a asset_b identifier :=
    hash_account (pair_preimage asset_a asset_b identifier)
|}.

(** ** Locked balances *)

Record BalanceLock := mkLock { lock_id : LockIdentifier; lock_amount : Balance }.

(** The lock tables of [pallet_balances] and [orml_tokens]. *)
Class LockTables (S : Type) := {
  balances_locks : AccountId -> S -> list BalanceLock;
  tokens_locks : AccountId -> AssetId -> S -> list BalanceLock
}.

(** [MultiCurrencyLockedBalance::get_by_lock]. *)
Definition locked_under (id : LockIdentifier) (l : list BalanceLock) : Balance :=
  match List.find (fun lock => lock_id lock =? id) l with
  | Some lock => lock_amount lock
  | None => 0
  end.
Definition MultiCurrency_get_by_lock {S} `{LockTables S} (id : LockIdentifier)
    (currency_id : AssetId) (who : AccountId) (s : S) : Balance :=
  if currency_id =? CORE_ASSET_ID
  then locked_under id (balances_locks who s)
  else locked_under id (tokens_locks who currency_id s).

(** ** Lemmas *)

Lemma as_bytes_inj id id' : as_bytes id = as_bytes id' -> id = id'.
Proof.
  revert id'. induction id as [|c id IH]; intros [|c' id']; cbn [as_bytes]; try done.
  intros [= Hc%N2Z.inj Hs]. f_equal; [|by apply IH].
  by rewrite <- (Ascii.ascii_N_embedding c), Hc, Ascii.ascii_N_embedding.
Qed.

Lemma length_as_bytes id : length (as_bytes id) = String.length id.
Proof. induction id; simpl; auto. Qed.

(** The bytes that are hashed, in terms of the ordered pair. *)
Lemma pair_preimage_ordered a b id :
  pair_preimage a b id =
    as_bytes id ++ to_le_bytes 4 (fst (ordered_pair (AssetPair_new a b))) ++
    to_le_bytes 4 (snd (ordered_pair (AssetPair_new a b))).
Proof.
  unfold pair_preimage, ordered_pair, AssetPair_new; simpl asset_in; simpl asset_out.
  destruct (Z.ltb_spec a b), (Z.leb_spec a b); try done; try lia.
  by replace b with a by lia.
Qed.

Lemma length_pair_preimage a b id :
  length (pair_preimage a b id) = (String.length id + 8)%nat.
Proof.
  rewrite pair_preimage_ordered, !length_app, !length_to_le_bytes, length_as_bytes. lia.
Qed.

Lemma pair_preimage_inj a b c d id id' :
  wide (AssetPair_new a b) -> wide (AssetPair_new c d) ->
  pair_preimage a b id = pair_preimage c d id' ->
  id = id' /\ ordered_pair (AssetPair_new a b) = ordered_pair (AssetPair_new c d).
Proof.
  rewrite !pair_preimage_ordered.
  intros [Ha Hb]%ordered_pair_wide [Hc Hd]%ordered_pair_wide Heq.
  destruct (ordered_pair (AssetPair_new a b)) as [x y], (ordered_pair (AssetPair_new c d)) as [x' y'].
  unfold in_range in *. cbn [fst snd] in *.
  assert (length (as_bytes id) = length (as_bytes id')) as Hl.
  { apply (f_equal length) in Heq. rewrite !length_app, !length_to_le_bytes in Heq. lia. }
  apply app_inj_1 in Heq as [Hid Heq]; [|done].
  apply app_inj_1 in Heq as [Hx Hy]; [|by rewrite !length_to_le_bytes].
  split; [by apply as_bytes_inj|]. f_equal; eapply to_le_bytes_inj; eauto; lia.
Qed.

(** The runtime's accounts keep the promise the pool pallets rely on. *)
#[export] Instance Runtime_accounts_laws `{HashingLaws} :
  @AssetPairAccountIdLaws Runtime_accounts.
Proof.
  split; simpl; intros *.
  - by rewrite !pair_preimage_ordered,
      (ordered_pair_flip (AssetPair_new b a) : ordered_pair (AssetPair_new a b) = _).
  - intros Ha Hb Hc Hd L L' Heq%hash_account_inj; [|rewrite length_pair_preimage; lia..].
    by apply pair_preimage_inj in Heq.
Qed.

(** ** Properties *)

(** [C40] Pool accounts do not collide: under a collision-free hash, two pools have
    the same account exactly when they are of the same kind and hold the same two
    assets, in either order. *)
Theorem pool_accounts_distinct `{HashingLaws} a b c d id id' :
  wide (AssetPair_new a b) -> wide (AssetPair_new c d) ->
  (String.length id <= 8)%nat -> (String.length id' <= 8)%nat ->
  @from_assets Runtime_accounts a b id = @from_assets Runtime_accounts c d id' <->
  id = id' /\ (AssetPair_new a b = AssetPair_new c d \/ AssetPair_new a b = AssetPair_new d c).
Proof.
  intros Hp Hq L L'. rewrite <- (ordered_pair_eq (AssetPair_new a b) (AssetPair_new c d)).
  split.
  - intros Heq%hash_account_inj; [|rewrite length_pair_preimage; lia..].
    by apply pair_preimage_inj in Heq.
  - intros [-> Ho]. simpl. by rewrite !pair_preimage_ordered, Ho.
Qed.

(** An injective numbering of byte strings, in the role of the hash. *)
Definition code_hashing : Hashing := {| hash_account l := Zpos (encode l) |}.
#[export] Instance code_hashing_laws : @HashingLaws code_hashing.
Proof. split. intros l l' _ _ [= Heq]. by apply (inj encode). Qed.

Lemma pool_accounts_distinct_witness :
  @from_assets (@Runtime_accounts code_hashing) 1 2 "xyk" =
  @from_assets (@Runtime_accounts code_hashing) 2 1 "xyk".
Proof.
  apply (@pool_accounts_distinct code_hashing code_hashing_laws);
    [split; cbv; intuition congruence..|simpl; lia|simpl; lia|auto].
Defined.

(** A proxy type that claims to be a superset of another lets every call of the
    other through. *)
Theorem proxy_superset_sound t o c :
  Calls.is_superset t o = true -> Calls.filter o c = true -> Calls.filter t c = true.
Proof.
  unfold Calls.is_superset. case_decide as Heq; [by rewrite Heq|]. by destruct t, o.
Qed.

Lemma proxy_superset_sound_witness : Calls.filter Calls.Any Calls.LBP = true.
Proof. by apply (proxy_superset_sound Calls.Any Calls.ExchangeProxy). Defined.

(** The base weight of an extrinsic costs exactly a tenth of a cent when a
    microsecond is a million units of weight; the coefficient then has no
    fractional part. *)
Theorem base_weight_fee :
  let w := 10 ^ 6 in
  let '(integer, (frac, _)) := WeightToFee_polynomial w in
  integer * BasiliskExtrinsicBaseWeight w = CENTS / 10 /\ frac = 0 /\ integer = 500.
Proof. by vm_compute. Qed.
