(* ===== verification/Xcm.v ===== *)
(** * Currencies across chains

    Models the conversions of [src/runtime/basilisk/src/xcm.rs] (the testing runtime has
    the same file): the location under which a currency of this chain is known to other
    chains, and the currency an incoming location stands for; [XcmConfig] models the rest
    of the file.  The asset registry and the id of this parachain are arguments. *)

From S2P Require Import Prelude Primitives.

(** ** Locations ([polkadot_xcm::latest])

    The junctions the runtime builds or matches on; the other kinds are told apart by
    their encoding only. *)

Inductive NetworkId := NetworkAny | Kusama | OtherNetwork (encoding : list Z).
Inductive Junction :=
| Parachain (id : Z)
| GeneralIndex (index : Z)
| AccountId32 (network : NetworkId) (id : AccountId)
| OtherJunction (encoding : list Z).

(** [Here] is the empty interior, [X1], [X2], ... are the longer ones. *)
Record MultiLocation := mkLocation { parents : Z; interior : list Junction }.

Inductive MultiAssetId := Concrete (location : MultiLocation) | Abstract (key : list Z).
Inductive Fungibility := Fungible (amount : Z) | NonFungible (instance : list Z).
Record MultiAsset := mkMultiAsset { ma_id : MultiAssetId; ma_fun : Fungibility }.

#[export] Instance NetworkId_eq_dec : EqDecision NetworkId.
Proof. solve_decision. Defined.
#[export] Instance Junction_eq_dec : EqDecision Junction.
Proof. solve_decision. Defined.
#[export] Instance MultiLocation_eq_dec : EqDecision MultiLocation.
Proof. solve_decision. Defined.

(** [pallet_asset_registry]: the two directions of its location table. *)
Class LocationRegistry := {
  asset_to_location : AssetId -> option MultiLocation;
  location_to_asset : MultiLocation -> option AssetId
}.

(** The registry keeps the two directions together. *)
Class LocationRegistryLaws `{LocationRegistry} : Prop := {
  location_of_asset id l : asset_to_location id = Some l -> location_to_asset l = Some id
}.

(** [ParachainInfo::get]. *)
Class ParachainInfo := { parachain_id : Z }.

Section convert.
Context `{LocationRegistry} `{ParachainInfo}.

(** ** Parameters *)

Definition SelfLocation : MultiLocation := mkLocation 1 [Parachain parachain_id].
Definition Ancestry : MultiLocation := mkLocation 0 [Parachain parachain_id].
Definition RelayNetwork : NetworkId := Kusama.
Definition BaseXcmWeight : Z := 100000000.
Definition MaxInstructions : Z := 100.
Definition MaxAssetsForTransfer : Z := 2.

(** [TradePassthrough]: weight is not charged, the whole payment comes back. *)
Definition buy_weight {Assets XcmError} (weight : Z) (payment : Assets) : outcome XcmError Assets :=
  Ok payment.

(** ** [CurrencyIdConvert] *)

Definition convert_id (id : AssetId) : option MultiLocation :=
  if id =? CORE_ASSET_ID
  then Some (mkLocation 1 [Parachain parachain_id; GeneralIndex id])
  else match asset_to_location id with
       | Some loc => Some loc
       | None => None
       end.

(** The casts [index as u32] keep the low 32 bits of the [u128] index. *)
Definition convert_location (location : MultiLocation) : option AssetId :=
  match interior location with
  | [Parachain id; GeneralIndex index] =>
      if (parents location =? 1) && (id =? parachain_id) && (index mod 2 ^ 32 =? CORE_ASSET_ID)
      then Some CORE_ASSET_ID
      else location_to_asset location
  | [GeneralIndex index] =>
      if (parents location =? 0) && (index mod 2 ^ 32 =? CORE_ASSET_ID) then Some CORE_ASSET_ID
      else location_to_asset location
  | _ => location_to_asset location
  end.

Definition convert_asset (asset : MultiAsset) : option AssetId :=
  match asset with
  | mkMultiAsset (Concrete location) _ => convert_location location
  | _ => None
  end.

(** [AccountIdToMultiLocation]. *)
Definition account_location (account : AccountId) : MultiLocation :=
  mkLocation 0 [AccountId32 NetworkAny account].

(** ** What the conversion promises *)

(** The native asset at index [k] of this chain, seen from a sibling chain and, after
    reanchoring, from this chain itself. *)
Definition native_at (k : Z) : list MultiLocation :=
  [mkLocation 1 [Parachain parachain_id; GeneralIndex k]; mkLocation 0 [GeneralIndex k]].

(** The locations the code takes for the native asset. *)
Definition taken_for_native (l : MultiLocation) : Prop :=
  exists k, k mod 2 ^ 32 = CORE_ASSET_ID /\ l ∈ native_at k.

Lemma native_converts k l :
  k mod 2 ^ 32 = CORE_ASSET_ID -> l ∈ native_at k -> convert_location l = Some CORE_ASSET_ID.
Proof.
  intros Hk. unfold native_at. rewrite elem_of_cons, list_elem_of_singleton.
  intros [->| ->]; unfold convert_location; cbn [interior parents]; rewrite ?Z.eqb_refl, Hk; done.
Qed.

(** Every other location is looked up in the registry. *)
Lemma others_delegated l : ~ taken_for_native l -> convert_location l = location_to_asset l.
Proof.
  intros Hl. unfold convert_location. destruct l as [n j].
  cbn [interior parents]. destruct j as [|[i|k| |] [|[i2|k2| |] [|]]]; try done.
  - destruct (Z.eqb_spec n 1), (Z.eqb_spec i parachain_id),
      (Z.eqb_spec (k2 mod 2 ^ 32) CORE_ASSET_ID); try done.
    destruct Hl. exists k2. subst. split; [done|]. by left.
  - destruct (Z.eqb_spec n 0), (Z.eqb_spec (k mod 2 ^ 32) CORE_ASSET_ID); try done.
    destruct Hl. exists k. subst. split; [done|]. right. by left.
Qed.

Context `{!LocationRegistryLaws}.

(** [C18] Currency ids survive the trip to a location and back: the native asset always,
    a registered asset exactly when its registered location is not one of those the
    code takes for the native asset (and then, not being the native asset, it would
    come back as the native one). *)
Theorem currency_id_roundtrip id l :
  convert_id id = Some l ->
  (id = CORE_ASSET_ID -> convert_location l = Some id) /\
  (id <> CORE_ASSET_ID -> convert_location l = Some id <-> ~ taken_for_native l) /\
  forall f, convert_asset (mkMultiAsset (Concrete l) f) = convert_location l.
Proof.
  unfold convert_id. destruct (Z.eqb_spec id CORE_ASSET_ID) as [->|Hne].
  - intros [= <-]. split_and!; [|done|done]. intros _.
    by apply (native_converts CORE_ASSET_ID); [|left].
  - destruct (asset_to_location id) as [loc|] eqn:Hid; [|done]. intros [= ->].
    split_and!; [done| |done]. intros _. split.
    + intros Hc (k & Hk & Hl). rewrite (native_converts k) in Hc by done. congruence.
    + intros Hl. rewrite others_delegated by done. by apply location_of_asset.
Qed.

(** Two assets of this chain are never sent out under the same location, when no
    registered location is taken for the native asset. *)
Lemma convert_id_inj a b l :
  convert_id a = Some l -> convert_id b = Some l -> ~ taken_for_native l -> a = b.
Proof.
  unfold convert_id. intros Ha Hb Hl.
  assert (Hn : l <> mkLocation 1 [Parachain parachain_id; GeneralIndex CORE_ASSET_ID]).
  { intros ->. destruct Hl. exists CORE_ASSET_ID. split; [done|]. by left. }
  destruct (Z.eqb_spec a CORE_ASSET_ID) as [->|]; [congruence|].
  destruct (Z.eqb_spec b CORE_ASSET_ID) as [->|]; [congruence|].
  destruct (asset_to_location a) eqn:Ea, (asset_to_location b) eqn:Eb; simplify_eq.
  apply location_of_asset in Ea, Eb. congruence.
Qed.

(** The cast drops the high bits of the index: index [2^32] of this chain, which names
    no asset of it, is taken for the native asset whatever the registry says. *)
Theorem truncated_index_is_native :
  convert_location (mkLocation 0 [GeneralIndex (2 ^ 32)]) = Some CORE_ASSET_ID /\
  convert_location (mkLocation 1 [Parachain parachain_id; GeneralIndex (2 ^ 32)]) =
    Some CORE_ASSET_ID.
Proof.
  split; apply (native_converts (2 ^ 32)); try done; [right|]; by left.
Qed.
End convert.

(** ** A registry with one foreign asset *)

Definition ex_foreign : MultiLocation := mkLocation 1 [Parachain 2000; OtherJunction [0; 128]].
#[local] Instance ex_registry : LocationRegistry := {|
  asset_to_location id := if id =? 7 then Some ex_foreign else None;
  location_to_asset l := if decide (l = ex_foreign) then Some 7 else None
|}.
#[local] Instance ex_registry_laws : LocationRegistryLaws.
Proof.
  split. simpl. intros id l. destruct (Z.eqb_spec id 7) as [->|]; [|done]. intros [= <-].
  by rewrite decide_True.
Qed.
#[local] Instance ex_parachain : ParachainInfo := {| parachain_id := 2090 |}.

Lemma currency_id_roundtrip_witness :
  convert_location ex_foreign = Some 7 /\
  convert_location (mkLocation 1 [Parachain 2090; GeneralIndex 0]) = Some CORE_ASSET_ID.
Proof.
  split.
  - apply (currency_id_roundtrip 7 ex_foreign); [done|done|].
    intros (k & _ & Hk). unfold native_at in Hk.
    rewrite elem_of_cons, list_elem_of_singleton in Hk. by destruct Hk as [Hk|Hk].
  - destruct (currency_id_roundtrip CORE_ASSET_ID
      (mkLocation 1 [Parachain 2090; GeneralIndex 0])) as (Hn & _); [|by apply Hn]. by vm_compute.
Defined.
