(* ===== verification/Adapter.v ===== *)
(** * The adapter of the tokens pallet

    Models [src/runtime/common/src/adapter.rs].  The currencies pallet of the runtime
    reaches [orml_tokens] through [OrmlTokensAdapter], which forwards every method of
    the currency traits and adds one thing: a successful [transfer] leaves an event. *)

From S2P Require Import Prelude Primitives Errors Interfaces.

(** [i128]. *)
Notation Amount := Z (only parsing).

Inductive BalanceStatus := StatusFree | StatusReserved.

(** The methods of [MultiCurrency], [MultiCurrencyExtended], [MultiReservableCurrency],
    [MultiLockableCurrency] and [TransferAll]. *)
Record TokenOps (S : Type) := {
  op_minimum_balance : AssetId -> S -> Balance;
  op_total_issuance : AssetId -> S -> Balance;
  op_total_balance : AssetId -> AccountId -> S -> Balance;
  op_free_balance : AssetId -> AccountId -> S -> Balance;
  op_ensure_can_withdraw : AssetId -> AccountId -> Balance -> Dispatch S unit;
  op_transfer : AssetId -> AccountId -> AccountId -> Balance -> Dispatch S unit;
  op_deposit : AssetId -> AccountId -> Balance -> Dispatch S unit;
  op_withdraw : AssetId -> AccountId -> Balance -> Dispatch S unit;
  op_can_slash : AssetId -> AccountId -> Balance -> S -> bool;
  op_slash : AssetId -> AccountId -> Balance -> Dispatch S Balance;
  op_update_balance : AssetId -> AccountId -> Amount -> Dispatch S unit;
  op_can_reserve : AssetId -> AccountId -> Balance -> S -> bool;
  op_slash_reserved : AssetId -> AccountId -> Balance -> Dispatch S Balance;
  op_reserved_balance : AssetId -> AccountId -> S -> Balance;
  op_reserve : AssetId -> AccountId -> Balance -> Dispatch S unit;
  op_unreserve : AssetId -> AccountId -> Balance -> Dispatch S Balance;
  op_repatriate_reserved :
    AssetId -> AccountId -> AccountId -> Balance -> BalanceStatus -> Dispatch S Balance;
  op_set_lock : LockIdentifier -> AssetId -> AccountId -> Balance -> Dispatch S unit;
  op_extend_lock : LockIdentifier -> AssetId -> AccountId -> Balance -> Dispatch S unit;
  op_remove_lock : LockIdentifier -> AssetId -> AccountId -> Dispatch S unit;
  op_transfer_all : AccountId -> AccountId -> Dispatch S unit
}.
Arguments op_minimum_balance {S}.
Arguments op_total_issuance {S}.
Arguments op_total_balance {S}.
Arguments op_free_balance {S}.
Arguments op_ensure_can_withdraw {S}.
Arguments op_transfer {S}.
Arguments op_deposit {S}.
Arguments op_withdraw {S}.
Arguments op_can_slash {S}.
Arguments op_slash {S}.
Arguments op_update_balance {S}.
Arguments op_can_reserve {S}.
Arguments op_slash_reserved {S}.
Arguments op_reserved_balance {S}.
Arguments op_reserve {S}.
Arguments op_unreserve {S}.
Arguments op_repatriate_reserved {S}.
Arguments op_set_lock {S}.
Arguments op_extend_lock {S}.
Arguments op_remove_lock {S}.
Arguments op_transfer_all {S}.

(** [orml_tokens::Event::Transfer]. *)
Record TransferEvent := mkTransferEvent {
  ev_currency_id : AssetId; ev_from : AccountId; ev_to : AccountId; ev_amount : Balance
}.

(** The storage of the tokens pallet and the event log of the block. *)
Record AdapterState (C : Type) := mkAdapter { tokens : C; system_events : list TransferEvent }.
Arguments mkAdapter {C}.
Arguments tokens {C}.
Arguments system_events {C}.

#[export] Instance Adapter_lens C : Lens (AdapterState C) C := {|
  lens_get := tokens;
  lens_set c s := mkAdapter c (system_events s)
|}.
#[export] Instance Adapter_lens_laws C : LensLaws (AdapterState C) C.
Proof. split; [done|by intros []|done]. Qed.

Section adapter.
Context {C : Type} (orml : TokenOps C).
Notation State := (AdapterState C).

Definition system_deposit_event (e : TransferEvent) : Dispatch State unit :=
  modify (fun s => mkAdapter (tokens s) (system_events s ++ [e])).

(** [let res = ...; if res.is_ok() { deposit_event }; res]. *)
Definition adapter_transfer (currency_id : AssetId) (from to : AccountId) (amount : Balance)
    : Dispatch State unit :=
  res ← attempt (zoom (op_transfer orml currency_id from to amount));
  (match res with
   | inl _ => system_deposit_event (mkTransferEvent currency_id from to amount)
   | inr _ => mret tt
   end) ;;
  match res with
  | inl _ => mret tt
  | inr e => fail e
  end.

Definition OrmlTokensAdapter : TokenOps State := {|
  op_minimum_balance c s := op_minimum_balance orml c (tokens s);
  op_total_issuance c s := op_total_issuance orml c (tokens s);
  op_total_balance c w s := op_total_balance orml c w (tokens s);
  op_free_balance c w s := op_free_balance orml c w (tokens s);
  op_ensure_can_withdraw c w a := zoom (op_ensure_can_withdraw orml c w a);
  op_transfer := adapter_transfer;
  op_deposit c w a := zoom (op_deposit orml c w a);
  op_withdraw c w a := zoom (op_withdraw orml c w a);
  op_can_slash c w a s := op_can_slash orml c w a (tokens s);
  op_slash c w a := zoom (op_slash orml c w a);
  op_update_balance c w a := zoom (op_update_balance orml c w a);
  op_can_reserve c w a s := op_can_reserve orml c w a (tokens s);
  op_slash_reserved c w a := zoom (op_slash_reserved orml c w a);
  op_reserved_balance c w s := op_reserved_balance orml c w (tokens s);
  op_reserve c w a := zoom (op_reserve orml c w a);
  op_unreserve c w a := zoom (op_unreserve orml c w a);
  op_repatriate_reserved c f t a st := zoom (op_repatriate_reserved orml c f t a st);
  op_set_lock l c w a := zoom (op_set_lock orml l c w a);
  op_extend_lock l c w a := zoom (op_extend_lock orml l c w a);
  op_remove_lock l c w := zoom (op_remove_lock orml l c w);
  op_transfer_all f t := zoom (op_transfer_all orml f t)
|}.
End adapter.

(** ** Calls on a currency, and what they answer *)

Inductive TokenCall :=
| CMinimumBalance (c : AssetId)
| CTotalIssuance (c : AssetId)
| CTotalBalance (c : AssetId) (w : AccountId)
| CFreeBalance (c : AssetId) (w : AccountId)
| CEnsureCanWithdraw (c : AssetId) (w : AccountId) (a : Balance)
| CTransfer (c : AssetId) (f t : AccountId) (a : Balance)
| CDeposit (c : AssetId) (w : AccountId) (a : Balance)
| CWithdraw (c : AssetId) (w : AccountId) (a : Balance)
| CCanSlash (c : AssetId) (w : AccountId) (a : Balance)
| CSlash (c : AssetId) (w : AccountId) (a : Balance)
| CUpdateBalance (c : AssetId) (w : AccountId) (a : Amount)
| CCanReserve (c : AssetId) (w : AccountId) (a : Balance)
| CSlashReserved (c : AssetId) (w : AccountId) (a : Balance)
| CReservedBalance (c : AssetId) (w : AccountId)
| CReserve (c : AssetId) (w : AccountId) (a : Balance)
| CUnreserve (c : AssetId) (w : AccountId) (a : Balance)
| CRepatriate (c : AssetId) (f t : AccountId) (a : Balance) (st : BalanceStatus)
| CSetLock (l : LockIdentifier) (c : AssetId) (w : AccountId) (a : Balance)
| CExtendLock (l : LockIdentifier) (c : AssetId) (w : AccountId) (a : Balance)
| CRemoveLock (l : LockIdentifier) (c : AssetId) (w : AccountId)
| CTransferAll (f t : AccountId).

Inductive Reply := RUnit | RBalance (b : Balance) | RBool (b : bool).

Section calls.
Context {S : Type}.

Definition replies {A} (f : A -> Reply) (m : Dispatch S A) : Dispatch S Reply :=
  a ← m; mret (f a).
Definition unit_reply : Dispatch S unit -> Dispatch S Reply := replies (fun _ => RUnit).
Definition balance_reply : Dispatch S Balance -> Dispatch S Reply := replies RBalance.

Definition run_call (ops : TokenOps S) (call : TokenCall) : Dispatch S Reply :=
  match call with
  | CMinimumBalance c => gets (fun s => RBalance (op_minimum_balance ops c s))
  | CTotalIssuance c => gets (fun s => RBalance (op_total_issuance ops c s))
  | CTotalBalance c w => gets (fun s => RBalance (op_total_balance ops c w s))
  | CFreeBalance c w => gets (fun s => RBalance (op_free_balance ops c w s))
  | CEnsureCanWithdraw c w a => unit_reply (op_ensure_can_withdraw ops c w a)
  | CTransfer c f t a => unit_reply (op_transfer ops c f t a)
  | CDeposit c w a => unit_reply (op_deposit ops c w a)
  | CWithdraw c w a => unit_reply (op_withdraw ops c w a)
  | CCanSlash c w a => gets (fun s => RBool (op_can_slash ops c w a s))
  | CSlash c w a => balance_reply (op_slash ops c w a)
  | CUpdateBalance c w a => unit_reply (op_update_balance ops c w a)
  | CCanReserve c w a => gets (fun s => RBool (op_can_reserve ops c w a s))
  | CSlashReserved c w a => balance_reply (op_slash_reserved ops c w a)
  | CReservedBalance c w => gets (fun s => RBalance (op_reserved_balance ops c w s))
  | CReserve c w a => unit_reply (op_reserve ops c w a)
  | CUnreserve c w a => balance_reply (op_unreserve ops c w a)
  | CRepatriate c f t a st => balance_reply (op_repatriate_reserved ops c f t a st)
  | CSetLock l c w a => unit_reply (op_set_lock ops l c w a)
  | CExtendLock l c w a => unit_reply (op_extend_lock ops l c w a)
  | CRemoveLock l c w => unit_reply (op_remove_lock ops l c w)
  | CTransferAll f t => unit_reply (op_transfer_all ops f t)
  end.

(** A sequence of calls: every outcome, and the state at the end. *)
Fixpoint run_calls (ops : TokenOps S) (calls : list TokenCall) (s : S)
    : list (outcome DispatchError Reply) * S :=
  match calls with
  | [] => ([], s)
  | call :: calls =>
      let '(r, s1) := run_call ops call s in
      let '(rs, s2) := run_calls ops calls s1 in
      (r :: rs, s2)
  end.
End calls.

(** The events of a sequence: one for each transfer that succeeded, in order. *)
Definition transfer_event (call : TokenCall) (r : outcome DispatchError Reply) : list TransferEvent :=
  match call, r with
  | CTransfer c f t a, Ok _ => [mkTransferEvent c f t a]
  | _, _ => []
  end.
Fixpoint transfer_events (calls : list TokenCall) (rs : list (outcome DispatchError Reply))
    : list TransferEvent :=
  match calls, rs with
  | call :: calls, r :: rs => transfer_event call r ++ transfer_events calls rs
  | _, _ => []
  end.

Section equivalence.
Context {C : Type} (orml : TokenOps C).
Notation State := (AdapterState C).

Lemma replies_zoom {A} (f : A -> Reply) (m : Dispatch C A) (s : State) :
  replies f (zoom m) s =
    (let '(r, c) := replies f m (tokens s) in (r, mkAdapter c (system_events s ++ []))).
Proof.
  rewrite app_nil_r. unfold replies, mbind, M_bind, run_bind, zoom. simpl.
  by destruct (m (tokens s)) as [[| |] c].
Qed.

Lemma adapter_transfer_run c f t a (s : State) :
  adapter_transfer orml c f t a s =
    (let '(r, c') := op_transfer orml c f t a (tokens s) in
     (r, mkAdapter c' (system_events s ++
           match r with Ok _ => [mkTransferEvent c f t a] | _ => [] end))).
Proof.
  unfold adapter_transfer, mbind, M_bind, run_bind, attempt, zoom. simpl.
  destruct (op_transfer orml c f t a (tokens s)) as [[[]| |] c']; simpl; by rewrite ?app_nil_r.
Qed.

(** One call through the adapter. *)
Lemma run_call_adapter call (s : State) :
  run_call (OrmlTokensAdapter orml) call s =
    (let '(r, c) := run_call orml call (tokens s) in
     (r, mkAdapter c (system_events s ++ transfer_event call r))).
Proof.
  destruct call; simpl; try apply replies_zoom;
    try (unfold gets; simpl; rewrite app_nil_r; by destruct s).
  unfold unit_reply, replies, mbind, M_bind, run_bind. rewrite adapter_transfer_run.
  by destruct (op_transfer orml c f t a (tokens s)) as [[[]| |] c'].
Qed.

(** [C16] The adapter is the tokens pallet with a log: any sequence of calls gets the
    same answers and errors through the adapter as from the pallet itself, leaves the
    same balances, reserves and locks, and adds to the events of the block exactly
    one [Transfer] for every transfer that succeeded, in order. *)
Theorem adapter_equivalent calls (s : State) :
  run_calls (OrmlTokensAdapter orml) calls s =
    (let '(rs, c) := run_calls orml calls (tokens s) in
     (rs, mkAdapter c (system_events s ++ transfer_events calls rs))).
Proof.
  revert s. induction calls as [|call calls IH]; intros s; simpl.
  - rewrite app_nil_r. by destruct s.
  - rewrite run_call_adapter. destruct (run_call orml call (tokens s)) as [r c1].
    rewrite IH. simpl. destruct (run_calls orml calls c1) as [rs c2].
    by rewrite <- app_assoc.
Qed.
End equivalence.

(** ** The adapter keeps the promises of the currency it wraps *)

(** The currency interface of the pallets, from the methods of the traits; the minimum
    balances and the account that collects dust are fixed. *)
Definition ops_currency {S} (ed : AssetId -> Balance) (dust : AccountId) (ops : TokenOps S)
    : MultiCurrency S := {|
  minimum_balance := ed;
  dust_account := dust;
  total_issuance := op_total_issuance ops;
  total_balance := op_total_balance ops;
  free_balance := op_free_balance ops;
  transfer := op_transfer ops;
  deposit := op_deposit ops;
  withdraw := op_withdraw ops
|}.

Section laws.
Context {C : Type} (ed : AssetId -> Balance) (dust : AccountId) (orml : TokenOps C).
Notation State := (AdapterState C).
Notation inner := (ops_currency ed dust orml).
Notation outer := (ops_currency ed dust (OrmlTokensAdapter orml)).

Lemma adapter_transfer_Ok c f t a (s s' : State) :
  @transfer _ outer c f t a s = (Ok tt, s') -> @transfer _ inner c f t a (tokens s) = (Ok tt, tokens s').
Proof.
  simpl. rewrite adapter_transfer_run.
  destruct (op_transfer orml c f t a (tokens s)) as [[[]| |] c']; by intros [= <-].
Qed.

#[export] Instance adapter_currency_laws :
  @MultiCurrencyLaws C inner -> @MultiCurrencyLaws State outer.
Proof.
  intros Hin. split; unfold same_balances, keeps; intros *;
    first [intros Hrun%adapter_transfer_Ok
          |intros Hrun; apply zoom_Ok in Hrun as (c0 & Hrun & ->)|idtac];
    intros; simpl.
  - apply (@free_balance_nonneg _ _ Hin).
  - by eapply (@transfer_enough _ _ Hin).
  - by eapply (@transfer_debit _ _ Hin).
  - by eapply (@transfer_credit _ _ Hin).
  - by eapply (@transfer_others _ _ Hin).
  - by eapply (@transfer_noop _ _ Hin).
  - by eapply (@transfer_frame _ _ Hin).
  - by eapply (@transfer_issuance _ _ Hin).
  - by eapply (@deposit_credit _ _ Hin).
  - by eapply (@deposit_others _ _ Hin).
  - by eapply (@deposit_issuance _ _ Hin).
  - by eapply (@deposit_frame _ _ Hin).
  - by eapply (@withdraw_enough _ _ Hin).
  - by eapply (@withdraw_debit _ _ Hin).
  - by eapply (@withdraw_others _ _ Hin).
  - by eapply (@withdraw_issuance _ _ Hin).
  - by eapply (@withdraw_frame _ _ Hin).
Qed.
End laws.
