(* ===== verification/Config.v ===== *)
(** * Parameters and origins of the runtimes

    Models the [parameter_types!] of [src/runtime/common/src/lib.rs],
    [src/runtime/basilisk/src/lib.rs] and [src/runtime/testing-basilisk/src/lib.rs] for
    governance, sessions, treasury and NFT deposits, who may act through which origin,
    the indices of the pallets and the limits of a block.  [FrameConfig] puts them
    together into the configuration of each pallet.  The checks of the collective pallet
    are an interface. *)

From S2P Require Import Prelude Primitives Errors Runtime.

(** ** Parameters

    Ratios are numerators over the accuracy of their type ([Perbill] 10^9,
    [Permill] 10^6, [Percent] 100). *)

Definition NORMAL_DISPATCH_RATIO : Z := 75 * 10 ^ 7.
Definition AVERAGE_ON_INITIALIZE_RATIO : Z := 25 * 10 ^ 6.

Record SystemParams := mkSystemParams {
  BlockHashCount : BlockNumber; max_block_length : Z; SS58Prefix : Z;
  MinimumPeriod : Z; MaxLocks : Z; MaxReserves : Z; MaxAuthorities : Z
}.
Definition system_params : SystemParams := {|
  BlockHashCount := 250; max_block_length := 5 * 1024 * 1024; SS58Prefix := 10041;
  MinimumPeriod := SLOT_DURATION / 2; MaxLocks := 50; MaxReserves := 50; MaxAuthorities := 32
|}.

Record ProxyParams := mkProxyParams {
  ProxyDepositBase : Balance; ProxyDepositFactor : Balance; MaxProxies : Z;
  AnnouncementDepositBase : Balance; AnnouncementDepositFactor : Balance; MaxPending : Z
}.
Definition proxy_params : ProxyParams := {|
  ProxyDepositBase := 4 * DOLLARS + 480 * MILLICENTS;
  ProxyDepositFactor := 1980 * MILLICENTS;
  MaxProxies := 32;
  AnnouncementDepositBase := 4 * DOLLARS + 480 * MILLICENTS;
  AnnouncementDepositFactor := 3960 * MILLICENTS;
  MaxPending := 32
|}.

Record DemocracyParams := mkDemocracyParams {
  LaunchPeriod : BlockNumber; VotingPeriod : BlockNumber; FastTrackVotingPeriod : BlockNumber;
  MinimumDeposit : Balance; EnactmentPeriod : BlockNumber; CooloffPeriod : BlockNumber;
  PreimageByteDeposit : Balance; InstantAllowed : bool; MaxVotes : Z; MaxProposals : Z
}.
(** The parameters of the common crate. *)
Definition democracy_params : DemocracyParams := {|
  LaunchPeriod := 7 * DAYS; VotingPeriod := 7 * DAYS; FastTrackVotingPeriod := 3 * HOURS;
  MinimumDeposit := 1000 * DOLLARS; EnactmentPeriod := 7 * DAYS; CooloffPeriod := 7 * DAYS;
  PreimageByteDeposit := 10 * MILLICENTS; InstantAllowed := true; MaxVotes := 100;
  MaxProposals := 100
|}.

Record ElectionsParams := mkElectionsParams {
  CandidacyBond : Balance; VotingBondBase : Balance; VotingBondFactor : Balance;
  TermDuration : BlockNumber; DesiredMembers : Z; DesiredRunnersUp : Z
}.
Definition elections_params : ElectionsParams := {|
  CandidacyBond := 10000 * DOLLARS; VotingBondBase := DOLLARS; VotingBondFactor := 50 * CENTS;
  TermDuration := 7 * DAYS; DesiredMembers := 1; DesiredRunnersUp := 0
|}.

Record CollectiveParams := mkCollectiveParams {
  MotionDuration : BlockNumber; CollectiveMaxProposals : Z; MaxMembers : Z
}.
Definition council_params : CollectiveParams := {|
  MotionDuration := 4 * DAYS; CollectiveMaxProposals := 100; MaxMembers := 1
|}.
Definition technical_params : CollectiveParams := {|
  MotionDuration := 4 * DAYS; CollectiveMaxProposals := 20; MaxMembers := 10
|}.

Record TreasuryParams := mkTreasuryParams {
  ProposalBond : Z; ProposalBondMinimum : Balance; ProposalBondMaximum : Balance;
  SpendPeriod : BlockNumber; Burn : Z; TreasuryPalletId : string; MaxApprovals : Z
}.
Definition treasury_params : TreasuryParams := {|
  ProposalBond := 5 * 10 ^ 4; ProposalBondMinimum := 10 * DOLLARS;
  ProposalBondMaximum := 50 * DOLLARS; SpendPeriod := 3 * DAYS; Burn := 0;
  TreasuryPalletId := "py/trsry"; MaxApprovals := 100
|}.

Record TipsParams := mkTipsParams {
  DataDepositPerByte : Balance; TipCountdown : BlockNumber; TipFindersFee : Z;
  TipReportDepositBase : Balance; TipReportDepositPerByte : Balance; MaximumReasonLength : Z
}.
Definition tips_params : TipsParams := {|
  DataDepositPerByte := CENTS; TipCountdown := 24 * HOURS; TipFindersFee := 1;
  TipReportDepositBase := 10 * DOLLARS; TipReportDepositPerByte := CENTS;
  MaximumReasonLength := 1024
|}.

Record CollatorParams := mkCollatorParams {
  PotId : string; MaxCandidates : Z; MinCandidates : Z; MaxInvulnerables : Z
}.
Definition collator_params : CollatorParams := {|
  PotId := "PotStake"; MaxCandidates := 20; MinCandidates := 4; MaxInvulnerables := 10
|}.

(** The session pallet and the kick threshold of the collator selection. *)
Record SessionParams := mkSessionParams {
  Period : Z; Offset : Z; KickThreshold : Z
}.
Definition session_params : SessionParams := {|
  Period := 4 * HOURS; Offset := 0; KickThreshold := 4 * HOURS
|}.

Record VestingParams := mkVestingParams { MinVestedTransfer : Balance; MaxVestingSchedules : Z }.
Definition vesting_params : VestingParams := {|
  MinVestedTransfer := 100000; MaxVestingSchedules := 15
|}.

Record UniquesParams := mkUniquesParams {
  ClassDeposit : Balance; InstanceDeposit : Balance; KeyLimit : Z; ValueLimit : Z;
  UniquesMetadataDepositBase : Balance; AttributeDepositBase : Balance;
  DepositPerByte : Balance; UniquesStringLimit : Z
}.
Definition uniques_params : UniquesParams := {|
  ClassDeposit := 100 * UNITS; InstanceDeposit := 100 * UNITS; KeyLimit := 256;
  ValueLimit := 1024; UniquesMetadataDepositBase := 100 * UNITS;
  AttributeDepositBase := 10 * UNITS; DepositPerByte := UNITS; UniquesStringLimit := 60
|}.

Record PreimageParams := mkPreimageParams {
  PreimageMaxSize : Z; PreimageBaseDeposit : Balance; preimage_byte_deposit : Balance
}.
Definition preimage_params : PreimageParams := {|
  PreimageMaxSize := 4096 * 1024; PreimageBaseDeposit := currency_deposit 2 64;
  preimage_byte_deposit := currency_deposit 0 1
|}.

Definition MaxScheduledPerBlock : Z := 50.
Definition NoPreimagePostponement : option Z := Some (5 * MINUTES).

(** ** The two runtimes *)

Record RuntimeVersion := mkVersion {
  spec_name_of : string; impl_name : string; authoring_version : Z; spec_version : Z;
  impl_version : Z; transaction_version : Z; state_version : Z
}.
Definition VERSION : RuntimeVersion := {|
  spec_name_of := "basilisk"; impl_name := "basilisk"; authoring_version := 1;
  spec_version := 47; impl_version := 0; transaction_version := 1; state_version := 0
|}.
Definition testing_VERSION : RuntimeVersion := {|
  spec_name_of := "testing-basilisk"; impl_name := "testing-basilisk"; authoring_version := 1;
  spec_version := 47; impl_version := 0; transaction_version := 1; state_version := 0
|}.

(** The NFT deposits of the testing runtime. *)
Definition testing_uniques_params : UniquesParams := {|
  ClassDeposit := 10000 * UNITS; InstanceDeposit := 100 * UNITS; KeyLimit := 256;
  ValueLimit := 1024; UniquesMetadataDepositBase := 100 * UNITS;
  AttributeDepositBase := 10 * UNITS; DepositPerByte := UNITS; UniquesStringLimit := 128
|}.

(** ** Blocks *)

(** A fraction of a weight ([Perbill * Weight], exact here). *)
Definition perbill_of (ratio weight : Z) : Z := ratio * weight / 10 ^ 9.

Record BlockWeights := mkBlockWeights {
  base_extrinsic : Z; normal_max_total : Z; operational_max_total : Z; operational_reserved : Z
}.
Definition MAXIMUM_BLOCK_WEIGHT (weight_per_second : Z) : Z := weight_per_second / 2.
Definition block_weights (weight_per_second weight_per_micros : Z) : BlockWeights :=
  let maximum := MAXIMUM_BLOCK_WEIGHT weight_per_second in {|
  base_extrinsic := BasiliskExtrinsicBaseWeight weight_per_micros;
  normal_max_total := perbill_of NORMAL_DISPATCH_RATIO maximum;
  operational_max_total := maximum;
  operational_reserved := maximum - perbill_of NORMAL_DISPATCH_RATIO maximum
|}.

(** The maximum of a block is the largest limit of a class. *)
Definition max_block (b : BlockWeights) : Z :=
  Z.max (normal_max_total b) (operational_max_total b).
(** What scheduled calls and messages of the relay chain and of other parachains may use. *)
Definition MaximumSchedulerWeight (b : BlockWeights) : Z := perbill_of (10 * 10 ^ 7) (max_block b).
Definition ReservedXcmpWeight (b : BlockWeights) : Z := max_block b / 4.
Definition ReservedDmpWeight (b : BlockWeights) : Z := max_block b / 4.

(** ** Pallets of [construct_runtime!] *)

Definition pallet_indices : list (string * Z) :=
  [("System", 0); ("Timestamp", 1); ("Balances", 2); ("TransactionPayment", 3); ("Treasury", 4);
   ("Utility", 5); ("Scheduler", 6); ("Democracy", 7); ("Elections", 8); ("Council", 9);
   ("TechnicalCommittee", 10); ("Vesting", 11); ("Proxy", 12); ("Tips", 13); ("Authorship", 14);
   ("CollatorSelection", 15); ("Session", 16); ("Aura", 17); ("AuraExt", 18); ("Preimage", 19);
   ("Uniques", 20); ("ParachainSystem", 50); ("ParachainInfo", 51); ("PolkadotXcm", 52);
   ("CumulusXcm", 53); ("XcmpQueue", 54); ("DmpQueue", 55); ("AssetRegistry", 100); ("XYK", 101);
   ("Duster", 102); ("Exchange", 103); ("LBP", 104); ("NFT", 105); ("LiquidityMining", 156);
   ("MultiTransactionPayment", 106); ("PriceOracle", 107); ("RelayChainInfo", 108);
   ("Marketplace", 109); ("Currencies", 150); ("Tokens", 151); ("OrmlXcm", 153);
   ("XTokens", 154); ("UnknownTokens", 155); ("Sudo", 255)]%string.
Definition position_of (name : string) : option nat :=
  fst <$> list_find (fun p => fst p = name) pallet_indices.

(** ** Origins *)

Inductive Collective := CouncilCollective | TechnicalCollective.

(** A system origin, the members of a collective that approved a motion ([n] of [m]), one
    member of it, or the origin of another pallet. *)
Inductive RuntimeOrigin :=
| SystemOrigin (o : Origin)
| Members (c : Collective) (n m : Z)
| Member (c : Collective) (who : AccountId)
| OtherOrigin (code : Z).

(** [pallet_collective::EnsureProportionAtLeast<N, D>] and [EnsureMember]. *)
Class CollectiveChecks := {
  proportion_at_least : Z -> Z -> Collective -> RuntimeOrigin -> bool;
  is_member_of : Collective -> RuntimeOrigin -> bool
}.
(** At least [N/D] of the members of that collective. *)
Class CollectiveChecksLaws `{CollectiveChecks} : Prop := {
  proportion_spec N D c o :
    proportion_at_least N D c o = true <-> exists n m, o = Members c n m /\ N * m <= n * D;
  member_spec c o : is_member_of c o = true <-> exists w, o = Member c w
}.

Section origins.
Context `{CollectiveChecks}.

Definition EnsureRoot (o : RuntimeOrigin) : bool :=
  match o with SystemOrigin Root => true | _ => false end.
(** [EnsureOneOf<L, R>]. *)
Definition EnsureOneOf (l r : RuntimeOrigin -> bool) (o : RuntimeOrigin) : bool := l o || r o.

Definition EnsureMajorityCouncilOrRoot :=
  EnsureOneOf (proportion_at_least 1 2 CouncilCollective) EnsureRoot.
Definition EnsureUnanimousCouncilOrRoot :=
  EnsureOneOf (proportion_at_least 1 1 CouncilCollective) EnsureRoot.
Definition EnsureSuperMajorityCouncilOrRoot :=
  EnsureOneOf (proportion_at_least 2 3 CouncilCollective) EnsureRoot.
Definition EnsureSuperMajorityTechCommitteeOrRoot :=
  EnsureOneOf (proportion_at_least 2 3 TechnicalCollective) EnsureRoot.
Definition EnsureUnanimousTechCommitteOrRoot :=
  EnsureOneOf (proportion_at_least 1 1 TechnicalCollective) EnsureRoot.
Definition AllCouncilMembers := proportion_at_least 1 1 CouncilCollective.
Definition ManageOrigin := EnsureOneOf EnsureRoot AllCouncilMembers.

(** [EnsureRootOrTreasury::try_origin]: the account of the vested transfer, or the origin
    back; [treasury] is [TreasuryPalletId::get().into_account()]. *)
Definition try_root_or_treasury (treasury : AccountId) (o : RuntimeOrigin)
    : AccountId + RuntimeOrigin :=
  match o with
  | SystemOrigin Root => inl treasury
  | SystemOrigin (Signed caller) =>
      if caller =? treasury then inl caller else inr (SystemOrigin (Signed caller))
  | SystemOrigin r => inr (SystemOrigin r)
  | o => inr o
  end.

(** The origins the pallets of the runtime are given. *)
Inductive Privilege :=
| AcceptedCurrency | Registry | CreateLbpPool | ExternalOrigin | ExternalMajority
| ExternalDefault | FastTrack | Instant | Cancellation | CancelProposal | Blacklist | Veto
| OperationalPreimage | TreasuryApprove | TreasuryReject | Schedule | UpdateCollators
| ProtocolNft | CreateFarm | ForceUniques | ManagePreimages | XcmSovereign | XcmpController
| OverweightXcm.
Definition privileged (p : Privilege) : RuntimeOrigin -> bool :=
  match p with
  | AcceptedCurrency | Registry | CreateLbpPool | FastTrack =>
      EnsureSuperMajorityTechCommitteeOrRoot
  | ExternalOrigin | ExternalMajority | UpdateCollators | XcmSovereign | XcmpController =>
      EnsureMajorityCouncilOrRoot
  | ExternalDefault => EnsureUnanimousCouncilOrRoot
  | Instant | CancelProposal => EnsureUnanimousTechCommitteOrRoot
  | Cancellation => EnsureSuperMajorityCouncilOrRoot
  | Blacklist | Schedule | ProtocolNft | CreateFarm | ForceUniques | ManagePreimages
  | OverweightXcm => EnsureRoot
  | Veto => is_member_of TechnicalCollective
  | OperationalPreimage => is_member_of CouncilCollective
  | TreasuryApprove | TreasuryReject => ManageOrigin
  end.
End origins.

(** ** Properties of the origins *)

Section origin_props.
Context `{CollectiveChecksLaws}.

(** A motion: between one and all of at most [limit] members agree. *)
Definition motion (limit : Z) (o : RuntimeOrigin) : Prop :=
  match o with Members _ n m => 1 <= n <= m /\ m <= limit | _ => True end.

Lemma EnsureOneOf_spec l r o : EnsureOneOf l r o = true <-> l o = true \/ r o = true.
Proof. apply orb_true_iff. Qed.

(** Lowering the bar only lets more origins through. *)
Lemma proportion_mono N D N' D' c o :
  0 < D -> 0 < D' -> N' * D <= N * D' ->
  match o with Members _ n m => 0 <= m | _ => True end ->
  proportion_at_least N D c o = true -> proportion_at_least N' D' c o = true.
Proof.
  intros HD HD' Hle Ho (n & m & -> & Hn)%proportion_spec. apply proportion_spec.
  exists n, m. split; [done|]. simpl in Ho.
  apply Z.mul_le_mono_pos_r with D; [done|]. nia.
Qed.

(** With one seat, a motion of the collective is unanimous, so every bar is met. *)
Lemma single_seat N D c n m :
  motion 1 (Members c n m) -> 0 < N <= D -> proportion_at_least N D c (Members c n m) = true.
Proof.
  intros [Hn Hm] HN. apply proportion_spec. exists n, m. split; [done|]. nia.
Qed.

Ltac solve_mono N D := intros [Hp|Hr]%EnsureOneOf_spec; apply EnsureOneOf_spec;
  [left; eapply (proportion_mono N D); eauto; lia|by right].

(** Governance is a hierarchy: whoever passes the unanimous check of a collective passes
    the super-majority check, and whoever passes that passes the majority check; root
    passes every check that is not reserved to single members; and because the council
    has one seat, every approved motion of it passes all of the council's checks at
    once. *)
Theorem governance_hierarchy o :
  match o with Members _ n m => 0 <= m | _ => True end ->
  (EnsureUnanimousCouncilOrRoot o = true -> EnsureSuperMajorityCouncilOrRoot o = true) /\
  (EnsureSuperMajorityCouncilOrRoot o = true -> EnsureMajorityCouncilOrRoot o = true) /\
  (EnsureUnanimousTechCommitteOrRoot o = true -> EnsureSuperMajorityTechCommitteeOrRoot o = true) /\
  (forall p, p <> Veto -> p <> OperationalPreimage -> privileged p (SystemOrigin Root) = true) /\
  (forall n m, motion (MaxMembers council_params) (Members CouncilCollective n m) ->
     EnsureUnanimousCouncilOrRoot (Members CouncilCollective n m) = true).
Proof.
  intros Ho. split_and!.
  - solve_mono 1 1.
  - solve_mono 2 3.
  - solve_mono 1 1.
  - intros p Hv Hop. destruct p; try done;
      try (apply EnsureOneOf_spec; by right); try (apply EnsureOneOf_spec; by left).
  - intros n m Hm. apply EnsureOneOf_spec. left. by apply single_seat.
Qed.

(** A signed account gets none of these privileges. *)
Theorem signed_unprivileged w p : privileged p (SystemOrigin (Signed w)) = false.
Proof.
  apply not_true_iff_false. intros Hp.
  assert (Hno : forall N D c, proportion_at_least N D c (SystemOrigin (Signed w)) <> true).
  { intros N D c (n & m & Heq & _)%proportion_spec. done. }
  assert (Hme : forall c, is_member_of c (SystemOrigin (Signed w)) <> true).
  { intros c (x & Heq)%member_spec. done. }
  destruct p; simpl in Hp; try done; try (by eapply Hme);
    apply EnsureOneOf_spec in Hp as [Hp|Hp]; try done; by eapply Hno.
Qed.
End origin_props.

(** Vested transfers are made from the treasury only: the check succeeds for root and for
    the treasury itself, and then the account is the treasury; any other origin is
    handed back as it came. *)
Theorem vested_transfer_origin treasury o :
  match try_root_or_treasury treasury o with
  | inl acc => acc = treasury /\ (o = SystemOrigin Root \/ o = SystemOrigin (Signed treasury))
  | inr o' => o' = o /\ o <> SystemOrigin Root /\ o <> SystemOrigin (Signed treasury)
  end.
Proof.
  destruct o as [[|w|]|c n m|c w|code]; simpl; try (split_and!; (done || auto)).
  destruct (Z.eqb_spec w treasury) as [->|Hne]; split_and!; (done || auto); congruence.
Qed.

(** ** Properties of the configuration *)

(** Every pallet has its own index, and the index fits the byte that selects the pallet
    in an encoded call; the session pallet comes after the collator selection and
    before Aura, as its comment asks. *)
Theorem pallet_indices_distinct :
  NoDup (map fst pallet_indices) /\ NoDup (map snd pallet_indices) /\
  Forall (fun p => 0 <= snd p < 256) pallet_indices /\
  position_of "CollatorSelection" = Some 15%nat /\ position_of "Session" = Some 16%nat /\
  position_of "Aura" = Some 17%nat.
Proof.
  split_and!; try (by vm_compute); try (by apply (bool_decide_unpack _); vm_compute).
Qed.

(** The classes of a block share it: normal extrinsics get three quarters of the maximum,
    and what is reserved for operational ones is the rest. *)
Theorem block_weights_split w u :
  0 <= w ->
  let b := block_weights w u in
  0 <= normal_max_total b <= operational_max_total b /\
  normal_max_total b + operational_reserved b = operational_max_total b /\
  4 * normal_max_total b <= 3 * operational_max_total b < 4 * normal_max_total b + 4.
Proof.
  intros Hw. unfold block_weights, perbill_of, NORMAL_DISPATCH_RATIO, MAXIMUM_BLOCK_WEIGHT.
  cbn [normal_max_total operational_max_total operational_reserved].
  set (x := w / 2). assert (0 <= x) by (apply Z.div_pos; lia).
  pose proof (Z.mul_div_le (75 * 10 ^ 7 * x) (10 ^ 9) ltac:(lia)).
  pose proof (Z.mul_succ_div_gt (75 * 10 ^ 7 * x) (10 ^ 9) ltac:(lia)). lia.
Qed.
