(* ===== verification/Weights.v ===== *)
(** * Weights of the calls

    Models the weights of the pallets of this repository: the defaults in each pallet's
    [weights.rs], the ones the runtime uses ([src/runtime/common/src/weights]) and the
    weight expressions of the exchange pallet, whose calls pay in advance for the work at
    the end of the block.  The cost of database accesses and the weight of the trade hook
    are arguments. *)

From S2P Require Import Prelude Primitives Errors Runtime Config.

Notation Weight := Z (only parsing).     (* u64 *)

(** [saturating_mul] of two weights. *)
Definition per (c t : Z) : Z := Z.min (2 ^ 64 - 1) (c * t).

(** [DbWeight::get().reads(n)] and [.writes(n)]. *)
Class RuntimeDbWeight := { db_reads : Z -> Weight; db_writes : Z -> Weight }.
(** [RocksDbWeight]: 25 and 100 microseconds. *)
Class RocksDbWeightLaws `{RuntimeDbWeight} : Prop := {
  db_reads_cost n : 0 <= n < 2 ^ 35 -> db_reads n = n * 25000000;
  db_writes_cost n : 0 <= n < 2 ^ 35 -> db_writes n = n * 100000000
}.

Section tables.
Context `{RuntimeDbWeight}.

(** A chain of [saturating_add]s on a base weight. *)
Inductive term := Plain (w : Weight) | Reads (n : Z) | Writes (n : Z).
Definition term_weight (t : term) : Weight :=
  match t with Plain w => w | Reads n => db_reads n | Writes n => db_writes n end.
Definition weight (base : Weight) (terms : list term) : Weight :=
  fold_left (fun acc t => saturating_add 64 acc (term_weight t)) terms base.

Inductive ExchangeWeights :=
| exchange_w_known_overhead_for_on_finalize
| exchange_w_sell_intention
| exchange_w_buy_intention
| exchange_w_on_finalize (t : Z)
| exchange_w_on_finalize_buys_no_matches (t : Z)
| exchange_w_on_finalize_sells_no_matches (t : Z)
| exchange_w_sell_extrinsic
| exchange_w_on_finalize_for_one_sell_extrinsic
| exchange_w_buy_extrinsic
| exchange_w_on_finalize_for_one_buy_extrinsic.
(** [weights::exchange::BasiliskWeight] of the runtime. *)
Definition exchange_runtime_weight (f : ExchangeWeights) : Weight :=
  match f with
  | exchange_w_known_overhead_for_on_finalize => weight 10094000 [Reads 1]
  | exchange_w_sell_intention => weight 93292000 [Reads 6; Writes 2]
  | exchange_w_buy_intention => weight 95420000 [Reads 6; Writes 2]
  | exchange_w_on_finalize t =>
      weight 0 [Plain (per 66175000 t); Reads 5; Reads (per 2 t); Writes 2; Writes (per 2 t)]
  | exchange_w_on_finalize_buys_no_matches t =>
      weight 0 [Plain (per 118616000 t); Reads 6; Reads (per 3 t); Writes 2; Writes (per 2 t)]
  | exchange_w_on_finalize_sells_no_matches t =>
      weight 6740000 [Plain (per 108168000 t); Reads 6; Reads (per 3 t); Writes 2; Writes (per 2 t)]
  | exchange_w_sell_extrinsic => weight 129608000 [Reads 11; Writes 5]
  | exchange_w_on_finalize_for_one_sell_extrinsic => weight 165468000 [Reads 15; Writes 7]
  | exchange_w_buy_extrinsic => weight 129766000 [Reads 11; Writes 5]
  | exchange_w_on_finalize_for_one_buy_extrinsic => weight 175645000 [Reads 15; Writes 7]
  end.

(** The default of the pallet. *)
Definition exchange_pallet_weight (f : ExchangeWeights) : Weight :=
  match f with
  | exchange_w_known_overhead_for_on_finalize => weight 11782000 [Reads 1]
  | exchange_w_sell_intention => weight 109767000 [Reads 6; Writes 2]
  | exchange_w_buy_intention => weight 112747000 [Reads 6; Writes 2]
  | exchange_w_on_finalize t =>
      weight 0 [Plain (per 110967000 t); Reads 4; Reads (per 2 t); Writes 2; Writes (per 2 t)]
  | exchange_w_on_finalize_buys_no_matches t =>
      weight 0 [Plain (per 125236000 t); Reads 4; Reads (per 2 t); Writes 2; Writes (per 2 t)]
  | exchange_w_on_finalize_sells_no_matches t =>
      weight 8528000 [Plain (per 109453000 t); Reads 4; Reads (per 2 t); Writes 2; Writes (per 2 t)]
  | exchange_w_sell_extrinsic => weight 121370000 [Reads 5; Writes 4]
  | exchange_w_on_finalize_for_one_sell_extrinsic => weight 163828000 [Reads 9; Writes 6]
  | exchange_w_buy_extrinsic => weight 120942000 [Reads 5; Writes 4]
  | exchange_w_on_finalize_for_one_buy_extrinsic => weight 179585000 [Reads 9; Writes 6]
  end.

Inductive XykWeights :=
| xyk_w_create_pool
| xyk_w_add_liquidity
| xyk_w_remove_liquidity
| xyk_w_sell
| xyk_w_buy.
(** [weights::xyk::BasiliskWeight] of the runtime. *)
Definition xyk_runtime_weight (f : XykWeights) : Weight :=
  match f with
  | xyk_w_create_pool => weight 204077000 [Reads 17; Writes 15]
  | xyk_w_add_liquidity => weight 151436000 [Reads 12; Writes 8]
  | xyk_w_remove_liquidity => weight 146728000 [Reads 12; Writes 7]
  | xyk_w_sell => weight 128312000 [Reads 11; Writes 5]
  | xyk_w_buy => weight 128093000 [Reads 11; Writes 5]
  end.

(** The default of the pallet. *)
Definition xyk_pallet_weight (f : XykWeights) : Weight :=
  match f with
  | xyk_w_create_pool => weight 189645000 [Reads 11; Writes 13]
  | xyk_w_add_liquidity => weight 171602000 [Reads 9; Writes 8]
  | xyk_w_remove_liquidity => weight 170846000 [Reads 8; Writes 7]
  | xyk_w_sell => weight 122125000 [Reads 5; Writes 4]
  | xyk_w_buy => weight 121289000 [Reads 5; Writes 4]
  end.

Inductive LbpWeights :=
| lbp_w_create_pool
| lbp_w_update_pool_data
| lbp_w_add_liquidity
| lbp_w_remove_liquidity
| lbp_w_sell
| lbp_w_buy.
(** [weights::lbp::BasiliskWeight] of the runtime. *)
Definition lbp_runtime_weight (f : LbpWeights) : Weight :=
  match f with
  | lbp_w_create_pool => weight 140984000 [Reads 10; Writes 7]
  | lbp_w_update_pool_data => weight 34779000 [Reads 2; Writes 3]
  | lbp_w_add_liquidity => weight 103702000 [Reads 8; Writes 4]
  | lbp_w_remove_liquidity => weight 122228000 [Reads 9; Writes 7]
  | lbp_w_sell => weight 183378000 [Reads 12; Writes 7]
  | lbp_w_buy => weight 183014000 [Reads 12; Writes 7]
  end.

(** The default of the pallet. *)
Definition lbp_pallet_weight (f : LbpWeights) : Weight :=
  match f with
  | lbp_w_create_pool => weight 121358000 [Reads 6; Writes 6]
  | lbp_w_update_pool_data => weight 29130000 [Reads 1; Writes 1]
  | lbp_w_add_liquidity => weight 101859000 [Reads 5; Writes 4]
  | lbp_w_remove_liquidity => weight 122961000 [Reads 6; Writes 6]
  | lbp_w_sell => weight 160655000 [Reads 6; Writes 6]
  | lbp_w_buy => weight 161152000 [Reads 6; Writes 6]
  end.

Inductive NftWeights :=
| nft_w_create_class
| nft_w_mint
| nft_w_transfer
| nft_w_destroy_class
| nft_w_burn.
(** [weights::nft::BasiliskWeight] of the runtime. *)
Definition nft_runtime_weight (f : NftWeights) : Weight :=
  match f with
  | nft_w_create_class => weight 26000000 [Reads 2; Writes 4]
  | nft_w_mint => weight 34000000 [Reads 4; Writes 5]
  | nft_w_transfer => weight 29000000 [Reads 3; Writes 3]
  | nft_w_destroy_class => weight 40000000 [Reads 4; Writes 5]
  | nft_w_burn => weight 36000000 [Reads 4; Writes 5]
  end.

(** The default of the pallet. *)
Definition nft_pallet_weight (f : NftWeights) : Weight :=
  match f with
  | nft_w_create_class => weight 26000000 [Reads 2; Writes 4]
  | nft_w_mint => weight 34000000 [Reads 4; Writes 5]
  | nft_w_transfer => weight 29000000 [Reads 3; Writes 3]
  | nft_w_destroy_class => weight 40000000 [Reads 4; Writes 5]
  | nft_w_burn => weight 36000000 [Reads 4; Writes 5]
  end.

Inductive MarketWeights :=
| marketplace_w_buy
| marketplace_w_set_price
| marketplace_w_make_offer
| marketplace_w_withdraw_offer
| marketplace_w_accept_offer
| marketplace_w_add_royalty.
(** [weights::marketplace::BasiliskWeight] of the runtime. *)
Definition marketplace_runtime_weight (f : MarketWeights) : Weight :=
  match f with
  | marketplace_w_buy => weight 54000000 [Reads 7; Writes 6]
  | marketplace_w_set_price => weight 15000000 [Reads 2; Writes 1]
  | marketplace_w_make_offer => weight 25000000 [Reads 3; Writes 3]
  | marketplace_w_withdraw_offer => weight 29000000 [Reads 4; Writes 3]
  | marketplace_w_accept_offer => weight 73000000 [Reads 9; Writes 8]
  | marketplace_w_add_royalty => weight 27000000 [Reads 4; Writes 3]
  end.

(** The default of the pallet. *)
Definition marketplace_pallet_weight (f : MarketWeights) : Weight :=
  match f with
  | marketplace_w_buy => weight 54000000 [Reads 7; Writes 6]
  | marketplace_w_set_price => weight 15000000 [Reads 2; Writes 1]
  | marketplace_w_make_offer => weight 25000000 [Reads 3; Writes 3]
  | marketplace_w_withdraw_offer => weight 29000000 [Reads 4; Writes 3]
  | marketplace_w_accept_offer => weight 73000000 [Reads 9; Writes 8]
  | marketplace_w_add_royalty => weight 27000000 [Reads 4; Writes 3]
  end.

Inductive DusterWeights :=
| duster_w_dust_account
| duster_w_add_nondustable_account
| duster_w_remove_nondustable_account.
(** [weights::duster::BasiliskWeight] of the runtime. *)
Definition duster_runtime_weight (f : DusterWeights) : Weight :=
  match f with
  | duster_w_dust_account => weight 76038000 [Reads 7; Writes 3]
  | duster_w_add_nondustable_account => weight 15058000 [Writes 1]
  | duster_w_remove_nondustable_account => weight 18275000 [Reads 1; Writes 1]
  end.

(** The default of the pallet. *)
Definition duster_pallet_weight (f : DusterWeights) : Weight :=
  match f with
  | duster_w_dust_account => weight 0 []
  | duster_w_add_nondustable_account => weight 0 []
  | duster_w_remove_nondustable_account => weight 0 []
  end.

Inductive LmWeights :=
| lm_w_create_farm
| lm_w_destroy_farm
| lm_w_withdraw_undistributed_rewards
| lm_w_add_liquidity_pool
| lm_w_update_liquidity_pool
| lm_w_cancel_liquidity_pool
| lm_w_remove_liquidity_pool
| lm_w_deposit_shares
| lm_w_claim_rewards
| lm_w_withdraw_shares
| lm_w_resume_liquidity_pool.
(** [pallet_liquidity_mining::weights]. *)
Definition lm_pallet_weight (f : LmWeights) : Weight :=
  match f with
  | lm_w_create_farm => weight 60093000 [Reads 3; Writes 4]
  | lm_w_destroy_farm => weight 21360000 [Reads 2; Writes 1]
  | lm_w_withdraw_undistributed_rewards => weight 51577000 [Reads 3; Writes 2]
  | lm_w_add_liquidity_pool => weight 36999000 [Reads 4; Writes 4]
  | lm_w_update_liquidity_pool => weight 27472000 [Reads 2; Writes 2]
  | lm_w_cancel_liquidity_pool => weight 52218000 [Reads 3; Writes 2]
  | lm_w_remove_liquidity_pool => weight 37571000 [Reads 4; Writes 3]
  | lm_w_deposit_shares => weight 130025000 [Reads 13; Writes 13]
  | lm_w_claim_rewards => weight 142548000 [Reads 8; Writes 6]
  | lm_w_withdraw_shares => weight 258877000 [Reads 14; Writes 14]
  | lm_w_resume_liquidity_pool => weight 27301000 [Reads 2; Writes 2]
  end.

(** ** [impl WeightInfo for ()]

    The second table of each pallet, with the costs of [RocksDbWeight]. *)

Definition exchange_unit_weight (f : ExchangeWeights) : Weight :=
  match f with
  | exchange_w_known_overhead_for_on_finalize => weight 11782000 [Reads 1]
  | exchange_w_sell_intention => weight 109767000 [Reads 6; Writes 2]
  | exchange_w_buy_intention => weight 112747000 [Reads 6; Writes 2]
  | exchange_w_on_finalize t =>
      weight 0 [Plain (per 110967000 t); Reads 4; Reads (per 2 t); Writes 2; Writes (per 2 t)]
  | exchange_w_on_finalize_buys_no_matches t =>
      weight 0 [Plain (per 125236000 t); Reads 4; Reads (per 2 t); Writes 2; Writes (per 2 t)]
  | exchange_w_on_finalize_sells_no_matches t =>
      weight 8528000 [Plain (per 109453000 t); Reads 4; Reads (per 2 t); Writes 2; Writes (per 2 t)]
  | exchange_w_sell_extrinsic => weight 121370000 [Reads 5; Writes 4]
  | exchange_w_on_finalize_for_one_sell_extrinsic => weight 163828000 [Reads 9; Writes 6]
  | exchange_w_buy_extrinsic => weight 120942000 [Reads 5; Writes 4]
  | exchange_w_on_finalize_for_one_buy_extrinsic => weight 179585000 [Reads 9; Writes 6]
  end.
Definition xyk_unit_weight (f : XykWeights) : Weight :=
  match f with
  | xyk_w_create_pool => weight 189645000 [Reads 11; Writes 13]
  | xyk_w_add_liquidity => weight 171602000 [Reads 9; Writes 8]
  | xyk_w_remove_liquidity => weight 170846000 [Reads 8; Writes 7]
  | xyk_w_sell => weight 122125000 [Reads 5; Writes 4]
  | xyk_w_buy => weight 121289000 [Reads 5; Writes 4]
  end.
Definition lbp_unit_weight (f : LbpWeights) : Weight :=
  match f with
  | lbp_w_create_pool => weight 121358000 [Reads 6; Writes 6]
  | lbp_w_update_pool_data => weight 29130000 [Reads 1; Writes 1]
  | lbp_w_add_liquidity => weight 101859000 [Reads 5; Writes 4]
  | lbp_w_remove_liquidity => weight 122961000 [Reads 6; Writes 6]
  | lbp_w_sell => weight 160655000 [Reads 6; Writes 6]
  | lbp_w_buy => weight 161152000 [Reads 6; Writes 6]
  end.
Definition duster_unit_weight (f : DusterWeights) : Weight :=
  match f with
  | duster_w_dust_account => weight 0 []
  | duster_w_add_nondustable_account => weight 0 []
  | duster_w_remove_nondustable_account => weight 0 []
  end.
Definition lm_unit_weight (f : LmWeights) : Weight :=
  match f with
  | lm_w_create_farm => weight 60093000 [Reads 3; Writes 4]
  | lm_w_destroy_farm => weight 21360000 [Reads 2; Writes 1]
  | lm_w_withdraw_undistributed_rewards => weight 51577000 [Reads 3; Writes 2]
  | lm_w_add_liquidity_pool => weight 36999000 [Reads 4; Writes 4]
  | lm_w_update_liquidity_pool => weight 27472000 [Reads 2; Writes 2]
  | lm_w_cancel_liquidity_pool => weight 52218000 [Reads 3; Writes 2]
  | lm_w_remove_liquidity_pool => weight 37571000 [Reads 4; Writes 3]
  | lm_w_deposit_shares => weight 130025000 [Reads 13; Writes 13]
  | lm_w_claim_rewards => weight 142548000 [Reads 8; Writes 6]
  | lm_w_withdraw_shares => weight 258877000 [Reads 14; Writes 14]
  | lm_w_resume_liquidity_pool => weight 27301000 [Reads 2; Writes 2]
  end.

(** ** The weight expressions of the exchange pallet *)

Definition exchange_sell_weight (wi : ExchangeWeights -> Weight) : Weight :=
  wrapping_sub 64
    (wrapping_add 64 (wi exchange_w_sell_intention) (wi exchange_w_on_finalize_for_one_sell_extrinsic))
    (wi exchange_w_known_overhead_for_on_finalize).
Definition exchange_buy_weight (wi : ExchangeWeights -> Weight) : Weight :=
  wrapping_sub 64
    (wrapping_add 64 (wi exchange_w_buy_intention) (wi exchange_w_on_finalize_for_one_buy_extrinsic))
    (wi exchange_w_known_overhead_for_on_finalize).
(** [on_initialize]. *)
Definition exchange_on_initialize (wi : ExchangeWeights -> Weight) : Weight :=
  wi exchange_w_known_overhead_for_on_finalize.

(** ** The calls of the live runtime *)

Inductive OwnCall :=
| XykW (f : XykWeights) | LbpW (f : LbpWeights) | ExchangeSellW | ExchangeBuyW
| NftW (f : NftWeights) | MarketW (f : MarketWeights) | DusterW (f : DusterWeights)
| LmW (f : LmWeights).
(** Trades on the XYK pallet add the weight of the trade hook; the marketplace uses
    the table of its pallet and the farms the one of [()]. *)
Definition call_weight (on_trade_weight : Weight) (c : OwnCall) : Weight :=
  match c with
  | XykW xyk_w_sell => wrapping_add 64 (xyk_runtime_weight xyk_w_sell) on_trade_weight
  | XykW xyk_w_buy => wrapping_add 64 (xyk_runtime_weight xyk_w_buy) on_trade_weight
  | XykW f => xyk_runtime_weight f
  | LbpW f => lbp_runtime_weight f
  | ExchangeSellW => exchange_sell_weight exchange_runtime_weight
  | ExchangeBuyW => exchange_buy_weight exchange_runtime_weight
  | NftW f => nft_runtime_weight f
  | MarketW f => marketplace_pallet_weight f
  | DusterW f => duster_runtime_weight f
  | LmW f => lm_unit_weight f
  end.

(** Both tables of a pallet agree, so whether a runtime names the pallet's own weights or
    [()] makes no difference to what a call costs. *)
Theorem unit_weights_agree :
  (forall f, exchange_unit_weight f = exchange_pallet_weight f) /\
  (forall f, xyk_unit_weight f = xyk_pallet_weight f) /\
  (forall f, lbp_unit_weight f = lbp_pallet_weight f) /\
  (forall f, duster_unit_weight f = duster_pallet_weight f) /\
  (forall f, lm_unit_weight f = lm_pallet_weight f).
Proof. split_and!; by intros []. Qed.
End tables.

Arguments weight : simpl never.

(** ** Weights without saturation *)

Section bounds.
Context `{RocksDbWeightLaws}.

(** The exact value of a chain of additions. *)
Definition exact (t : term) : Z :=
  match t with Plain w => w | Reads n => n * 25000000 | Writes n => n * 100000000 end.
Definition counts (t : term) : Prop :=
  match t with Plain w => 0 <= w | Reads n | Writes n => 0 <= n < 2 ^ 35 end.
Definition exact_weight (base : Weight) (terms : list term) : Z :=
  foldr (fun t acc => exact t + acc) base terms.

Lemma term_exact t : counts t -> term_weight t = exact t /\ 0 <= exact t.
Proof.
  destruct t; simpl; [done| |]; intros;
    [rewrite db_reads_cost by done|rewrite db_writes_cost by done]; lia.
Qed.
Lemma exact_weight_shift base x terms : exact_weight (base + x) terms = exact_weight base terms + x.
Proof. unfold exact_weight. induction terms; simpl; lia. Qed.
Lemma exact_weight_ge base terms : Forall counts terms -> base <= exact_weight base terms.
Proof.
  unfold exact_weight. induction 1 as [|t terms Ht _ IH]; simpl; [done|].
  destruct (term_exact t Ht). lia.
Qed.
Lemma weight_exact base terms :
  0 <= base -> Forall counts terms -> exact_weight base terms < 2 ^ 64 ->
  weight base terms = exact_weight base terms.
Proof.
  unfold weight. intros Hb Hall. revert base Hb.
  induction Hall as [|t terms Ht Hall IH]; intros base Hb Hlt; simpl in *; [done|].
  destruct (term_exact t Ht) as [He Hpos].
  pose proof (exact_weight_ge base terms Hall).
  pose proof (exact_weight_shift base (exact t) terms).
  assert (Hsat : saturating_add 64 base (term_weight t) = base + exact t).
  { rewrite He. unfold saturating_add. unfold exact_weight in *. lia. }
  rewrite Hsat, IH; unfold exact_weight in *; lia.
Qed.
Lemma per_exact c t : 0 <= c * t < 2 ^ 64 -> per c t = c * t.
Proof. unfold per. lia. Qed.

End bounds.

(** Replaces weights by their exact values. *)
Ltac exact_weights := rewrite ?weight_exact by (first [lia
  |repeat (apply Forall_cons_2; [simpl; lia|]); apply Forall_nil_2
  |unfold exact_weight; simpl; lia]); unfold exact_weight; simpl foldr; unfold exact.

(** ** Properties *)

Section props.
Context `{RocksDbWeightLaws}.

(** The tables in use for the exchange pallet. *)
Definition exchange_table (wi : ExchangeWeights -> Weight) : Prop :=
  wi = exchange_runtime_weight \/ wi = exchange_pallet_weight.

(** The weight of a call is the sum and difference its expression says, without wrapping. *)
Lemma exchange_call_weights wi :
  exchange_table wi ->
  exchange_sell_weight wi = wi exchange_w_sell_intention +
    wi exchange_w_on_finalize_for_one_sell_extrinsic - wi exchange_w_known_overhead_for_on_finalize /\
  exchange_buy_weight wi = wi exchange_w_buy_intention +
    wi exchange_w_on_finalize_for_one_buy_extrinsic - wi exchange_w_known_overhead_for_on_finalize.
Proof.
  intros [-> | ->]; unfold exchange_sell_weight, exchange_buy_weight, wrapping_sub, wrapping_add;
    cbn [exchange_runtime_weight exchange_pallet_weight]; exact_weights; split; by vm_compute.
Qed.

(** [C19] The end of a block is paid for in advance: whatever mix of [m] sell and [n] buy
    intentions was registered, the weight charged by [on_initialize] plus what the calls
    paid beyond their own registration covers the benchmarked weight of [on_finalize] for
    [m + n] intentions, matched or not; no sum saturates or wraps. *)
Theorem finalize_weight_prepaid wi m n f :
  exchange_table wi -> 0 <= m -> 0 <= n -> 1 <= m + n < 2 ^ 32 ->
  f = exchange_w_on_finalize \/ f = exchange_w_on_finalize_buys_no_matches \/
    f = exchange_w_on_finalize_sells_no_matches ->
  wi (f (m + n)) <=
    exchange_on_initialize wi +
    m * (exchange_sell_weight wi - wi exchange_w_sell_intention) +
    n * (exchange_buy_weight wi - wi exchange_w_buy_intention).
Proof.
  intros Hwi Hm Hn Ht Hf. destruct (exchange_call_weights wi Hwi) as [-> ->].
  unfold exchange_on_initialize. remember (m + n) as t eqn:Et.
  assert (Hmt : m = t - n) by lia. rewrite Hmt in *. clear Et Hmt m.
  destruct Hwi as [-> | ->]; destruct Hf as [-> | [-> | ->]];
    cbn [exchange_runtime_weight exchange_pallet_weight];
    rewrite !per_exact by lia; exact_weights; lia.
Qed.

(** Every call of the repository's own pallets fits a block: with a microsecond a
    million units of weight and any trade hook up to 300 milliseconds, its weight does not
    saturate or wrap and stays within what a normal extrinsic may use, which is three
    quarters of the block less the average of initialization and the base weight. *)
Theorem call_weights_fit hook c :
  0 <= hook <= 3 * 10 ^ 11 ->
  let b := block_weights (10 ^ 12) (10 ^ 6) in
  0 < call_weight hook c <=
    normal_max_total b - perbill_of AVERAGE_ON_INITIALIZE_RATIO (operational_max_total b) -
    base_extrinsic b.
Proof.
  intros Hh b.
  assert (Hb : normal_max_total b - perbill_of AVERAGE_ON_INITIALIZE_RATIO (operational_max_total b) -
    base_extrinsic b = 362300000000) by (by vm_compute).
  rewrite Hb. clear Hb b.
  destruct c as [[]|[]| | |[]|[]|[]|[]]; simpl;
    try (destruct (exchange_call_weights exchange_runtime_weight) as [Hs Hbuy]; [by left|];
         rewrite ?Hs, ?Hbuy; simpl);
    exact_weights; unfold wrapping_add; try lia; rewrite Z.mod_small; lia.
Qed.
End props.

(** ** Witnesses *)

#[local] Instance rocks_db : RuntimeDbWeight := {|
  db_reads n := Z.min (2 ^ 64 - 1) (25000000 * n);
  db_writes n := Z.min (2 ^ 64 - 1) (100000000 * n)
|}.
#[local] Instance rocks_db_laws : RocksDbWeightLaws.
Proof. split; simpl; lia. Qed.

Lemma finalize_weight_prepaid_witness :
  exchange_runtime_weight (exchange_w_on_finalize (2 + 1)) <=
    exchange_on_initialize exchange_runtime_weight +
    2 * (exchange_sell_weight exchange_runtime_weight - exchange_runtime_weight exchange_w_sell_intention) +
    1 * (exchange_buy_weight exchange_runtime_weight - exchange_runtime_weight exchange_w_buy_intention).
Proof.
  apply (finalize_weight_prepaid exchange_runtime_weight 2 1 exchange_w_on_finalize); [by left|lia..|by left].
Defined.

Lemma call_weights_fit_witness : 0 < call_weight 1000000 (XykW xyk_w_sell).
Proof. apply (call_weights_fit 1000000 (XykW xyk_w_sell)). lia. Defined.
