(* ===== verification/FrameworkWeights.v ===== *)
(** * Weights of the framework pallets

    Models the weight tables the runtime sets for the pallets of the framework and of
    ORML ([src/runtime/common/src/weights]): one inductive type for the trait [WeightInfo]
    of a pallet, one constructor for each of its functions with the counts it is linear
    in, and the table as a function.  The theorem relates the tables to the limits the
    runtime configures: calls fit the part of a block open to normal extrinsics. *)

From S2P Require Import Prelude Primitives Errors Runtime Config Weights.

Section tables.
Context `{RuntimeDbWeight}.

Inductive SystemWeights :=
| system_w_remark (b : Z)
| system_w_remark_with_event (b : Z)
| system_w_set_heap_pages
| system_w_set_storage (i : Z)
| system_w_kill_storage (i : Z)
| system_w_kill_prefix (p : Z).
(** [weights::system::BasiliskWeight] for [frame_system]. *)
Definition system_runtime_weight (f : SystemWeights) : Weight :=
  match f with
  | system_w_remark _ => weight 0 []
  | system_w_remark_with_event b => weight 0 [Plain (per 1000 b)]
  | system_w_set_heap_pages => weight 4412000 [Reads 1; Writes 2]
  | system_w_set_storage i => weight 0 [Plain (per 697000 i); Writes (per 1 i)]
  | system_w_kill_storage i => weight 2431000 [Plain (per 466000 i); Writes (per 1 i)]
  | system_w_kill_prefix p => weight 9937000 [Plain (per 718000 p); Writes (per 1 p)]
  end.

Inductive TimestampWeights :=
| timestamp_w_set
| timestamp_w_on_finalize.
(** [weights::timestamp::BasiliskWeight] for [pallet_timestamp]. *)
Definition timestamp_runtime_weight (f : TimestampWeights) : Weight :=
  match f with
  | timestamp_w_set => weight 6814000 [Reads 1; Writes 1]
  | timestamp_w_on_finalize => weight 4207000 []
  end.

Inductive BalancesWeights :=
| balances_w_transfer
| balances_w_transfer_keep_alive
| balances_w_set_balance_creating
| balances_w_set_balance_killing
| balances_w_force_transfer
| balances_w_transfer_all
| balances_w_force_unreserve.
(** [weights::balances::BasiliskWeight] for [pallet_balances]. *)
Definition balances_runtime_weight (f : BalancesWeights) : Weight :=
  match f with
  | balances_w_transfer => weight 75165000 [Reads 2; Writes 2]
  | balances_w_transfer_keep_alive => weight 46261000 [Reads 1; Writes 1]
  | balances_w_set_balance_creating => weight 26151000 [Reads 1; Writes 1]
  | balances_w_set_balance_killing => weight 30365000 [Reads 1; Writes 1]
  | balances_w_force_transfer => weight 77042000 [Reads 3; Writes 3]
  | balances_w_transfer_all => weight 56307000 [Reads 1; Writes 1]
  | balances_w_force_unreserve => weight 23743000 [Reads 1; Writes 1]
  end.

Inductive PaymentWeights :=
| payment_w_add_currency
| payment_w_remove_currency
| payment_w_set_currency
| payment_w_get_spot_price.
(** [weights::payment::BasiliskWeight] for [pallet_transaction_multi_payment]. *)
Definition payment_runtime_weight (f : PaymentWeights) : Weight :=
  match f with
  | payment_w_add_currency => weight 16131000 [Reads 1; Writes 1]
  | payment_w_remove_currency => weight 16685000 [Reads 1; Writes 1]
  | payment_w_set_currency => weight 100353000 [Reads 9; Writes 4]
  | payment_w_get_spot_price => weight 17519000 [Reads 3]
  end.

Inductive TokensWeights :=
| tokens_w_transfer
| tokens_w_transfer_all
| tokens_w_transfer_keep_alive
| tokens_w_force_transfer
| tokens_w_set_balance.
(** [weights::tokens::BasiliskWeight] for [orml_tokens]. *)
Definition tokens_runtime_weight (f : TokensWeights) : Weight :=
  match f with
  | tokens_w_transfer => weight 66923000 [Reads 4; Writes 3]
  | tokens_w_transfer_all => weight 72657000 [Reads 4; Writes 3]
  | tokens_w_transfer_keep_alive => weight 55058000 [Reads 4; Writes 3]
  | tokens_w_force_transfer => weight 59423000 [Reads 5; Writes 3]
  | tokens_w_set_balance => weight 46355000 [Reads 4; Writes 3]
  end.

Inductive CurrenciesWeights :=
| currencies_w_transfer_non_native_currency
| currencies_w_transfer_native_currency
| currencies_w_update_balance_non_native_currency
| currencies_w_update_balance_native_currency_creating
| currencies_w_update_balance_native_currency_killing.
(** [weights::currencies::BasiliskWeight] for [orml_currencies]. *)
Definition currencies_runtime_weight (f : CurrenciesWeights) : Weight :=
  match f with
  | currencies_w_transfer_non_native_currency => weight 73058000 [Reads 4; Writes 3]
  | currencies_w_transfer_native_currency => weight 56520000 [Reads 1; Writes 1]
  | currencies_w_update_balance_non_native_currency => weight 46784000 [Reads 4; Writes 3]
  | currencies_w_update_balance_native_currency_creating => weight 43847000 [Reads 1; Writes 1]
  | currencies_w_update_balance_native_currency_killing => weight 38291000 [Reads 1; Writes 1]
  end.

Inductive AssetRegistryWeights :=
| asset_registry_w_register
| asset_registry_w_update
| asset_registry_w_set_metadata
| asset_registry_w_set_location.
(** [weights::asset_registry::BasiliskWeight] for [pallet_asset_registry]. *)
Definition asset_registry_runtime_weight (f : AssetRegistryWeights) : Weight :=
  match f with
  | asset_registry_w_register => weight 27492000 [Reads 2; Writes 3]
  | asset_registry_w_update => weight 29646000 [Reads 2; Writes 3]
  | asset_registry_w_set_metadata => weight 23373000 [Reads 1; Writes 1]
  | asset_registry_w_set_location => weight 24765000 [Reads 1; Writes 2]
  end.

Inductive PriceOracleWeights :=
| price_oracle_w_on_finalize_no_entry
| price_oracle_w_on_finalize_one_token
| price_oracle_w_on_finalize_multiple_tokens_all_bucket_levels (a : Z)
| price_oracle_w_on_finalize_multiple_tokens (b : Z).
(** [weights::price_oracle::BasiliskWeight] for [pallet_price_oracle]. *)
Definition price_oracle_runtime_weight (f : PriceOracleWeights) : Weight :=
  match f with
  | price_oracle_w_on_finalize_no_entry => weight 16180000 [Reads 3; Writes 3]
  | price_oracle_w_on_finalize_one_token => weight 25497000 [Reads 4; Writes 4]
  | price_oracle_w_on_finalize_multiple_tokens_all_bucket_levels a =>
      weight 19828000 [Plain (per 5457000 a); Reads 3; Reads (per 1 a); Writes 3; Writes (per 1 a)]
  | price_oracle_w_on_finalize_multiple_tokens b =>
      weight 19989000 [Plain (per 5250000 b); Reads 3; Reads (per 1 b); Writes 3; Writes (per 1 b)]
  end.

Inductive DemocracyWeights :=
| democracy_w_propose
| democracy_w_second (s : Z)
| democracy_w_vote_new (r : Z)
| democracy_w_vote_existing (r : Z)
| democracy_w_emergency_cancel
| democracy_w_blacklist (p : Z)
| democracy_w_external_propose (v : Z)
| democracy_w_external_propose_majority
| democracy_w_external_propose_default
| democracy_w_fast_track
| democracy_w_veto_external (v : Z)
| democracy_w_cancel_proposal (p : Z)
| democracy_w_cancel_referendum
| democracy_w_cancel_queued (r : Z)
| democracy_w_on_initialize_base (r : Z)
| democracy_w_on_initialize_base_with_launch_period (r : Z)
| democracy_w_delegate (r : Z)
| democracy_w_undelegate (r : Z)
| democracy_w_clear_public_proposals
| democracy_w_note_preimage (b : Z)
| democracy_w_note_imminent_preimage (b : Z)
| democracy_w_reap_preimage (b : Z)
| democracy_w_unlock_remove (r : Z)
| democracy_w_unlock_set (r : Z)
| democracy_w_remove_vote (r : Z)
| democracy_w_remove_other_vote (r : Z).
(** [weights::democracy::BasiliskWeight] for [pallet_democracy]. *)
Definition democracy_runtime_weight (f : DemocracyWeights) : Weight :=
  match f with
  | democracy_w_propose => weight 60700000 [Reads 3; Writes 3]
  | democracy_w_second s => weight 34526000 [Plain (per 170000 s); Reads 1; Writes 1]
  | democracy_w_vote_new r => weight 36917000 [Plain (per 202000 r); Reads 3; Writes 3]
  | democracy_w_vote_existing r => weight 37413000 [Plain (per 192000 r); Reads 3; Writes 3]
  | democracy_w_emergency_cancel => weight 22325000 [Reads 2; Writes 2]
  | democracy_w_blacklist p => weight 56444000 [Plain (per 753000 p); Reads 4; Writes 5]
  | democracy_w_external_propose v => weight 11348000 [Plain (per 76000 v); Reads 2; Writes 1]
  | democracy_w_external_propose_majority => weight 2641000 [Writes 1]
  | democracy_w_external_propose_default => weight 2617000 [Writes 1]
  | democracy_w_fast_track => weight 24448000 [Reads 2; Writes 3]
  | democracy_w_veto_external v => weight 24754000 [Plain (per 98000 v); Reads 2; Writes 2]
  | democracy_w_cancel_proposal p => weight 57781000 [Plain (per 411000 p); Reads 4; Writes 4]
  | democracy_w_cancel_referendum => weight 14687000 [Writes 1]
  | democracy_w_cancel_queued r => weight 26100000 [Plain (per 1471000 r); Reads 2; Writes 2]
  | democracy_w_on_initialize_base r =>
      weight 4859000 [Plain (per 4231000 r); Reads 2; Reads (per 1 r); Writes 1]
  | democracy_w_on_initialize_base_with_launch_period r =>
      weight 12029000 [Plain (per 4186000 r); Reads 5; Reads (per 1 r); Writes 1]
  | democracy_w_delegate r =>
      weight 49410000 [Plain (per 5682000 r); Reads 4; Reads (per 1 r); Writes 4; Writes (per 1 r)]
  | democracy_w_undelegate r =>
      weight 24580000 [Plain (per 5621000 r); Reads 2; Reads (per 1 r); Writes 2; Writes (per 1 r)]
  | democracy_w_clear_public_proposals => weight 2827000 [Writes 1]
  | democracy_w_note_preimage b => weight 29421000 [Plain (per 3000 b); Reads 1; Writes 1]
  | democracy_w_note_imminent_preimage b => weight 24980000 [Plain (per 2000 b); Reads 1; Writes 1]
  | democracy_w_reap_preimage b => weight 31000000 [Plain (per 2000 b); Reads 1; Writes 1]
  | democracy_w_unlock_remove r => weight 32637000 [Plain (per 103000 r); Reads 3; Writes 3]
  | democracy_w_unlock_set r => weight 31896000 [Plain (per 139000 r); Reads 3; Writes 3]
  | democracy_w_remove_vote r => weight 16623000 [Plain (per 171000 r); Reads 2; Writes 2]
  | democracy_w_remove_other_vote r => weight 16688000 [Plain (per 163000 r); Reads 2; Writes 2]
  end.

Inductive TreasuryWeights :=
| treasury_w_propose_spend
| treasury_w_reject_proposal
| treasury_w_approve_proposal (p : Z)
| treasury_w_on_initialize_proposals (p : Z).
(** [weights::treasury::BasiliskWeight] for [pallet_treasury]. *)
Definition treasury_runtime_weight (f : TreasuryWeights) : Weight :=
  match f with
  | treasury_w_propose_spend => weight 35336000 [Reads 1; Writes 2]
  | treasury_w_reject_proposal => weight 54782000 [Reads 3; Writes 3]
  | treasury_w_approve_proposal p => weight 11107000 [Plain (per 111000 p); Reads 2; Writes 1]
  | treasury_w_on_initialize_proposals p =>
      weight 26350000 [Plain (per 52156000 p); Reads 2; Reads (per 3 p); Writes 1; Writes (per 3 p)]
  end.

Inductive SchedulerWeights :=
| scheduler_w_on_initialize_periodic_named_resolved (s : Z)
| scheduler_w_on_initialize_named_resolved (s : Z)
| scheduler_w_on_initialize_periodic_resolved (s : Z)
| scheduler_w_on_initialize_resolved (s : Z)
| scheduler_w_on_initialize_named_aborted (s : Z)
| scheduler_w_on_initialize_aborted (s : Z)
| scheduler_w_on_initialize_periodic_named (s : Z)
| scheduler_w_on_initialize_periodic (s : Z)
| scheduler_w_on_initialize_named (s : Z)
| scheduler_w_on_initialize (s : Z)
| scheduler_w_schedule (s : Z)
| scheduler_w_cancel (s : Z)
| scheduler_w_schedule_named (s : Z)
| scheduler_w_cancel_named (s : Z).
(** [weights::scheduler::BasiliskWeight] for [pallet_scheduler]. *)
Definition scheduler_runtime_weight (f : SchedulerWeights) : Weight :=
  match f with
  | scheduler_w_on_initialize_periodic_named_resolved s =>
      weight 0 [Plain (per 39315000 s); Reads 1; Reads (per 3 s); Writes 1; Writes (per 4 s)]
  | scheduler_w_on_initialize_named_resolved s =>
      weight 4231000 [Plain (per 30830000 s); Reads 1; Reads (per 2 s); Writes 1; Writes (per 3 s)]
  | scheduler_w_on_initialize_periodic_resolved s =>
      weight 0 [Plain (per 33897000 s); Reads 1; Reads (per 3 s); Writes 1; Writes (per 3 s)]
  | scheduler_w_on_initialize_resolved s =>
      weight 3095000 [Plain (per 28718000 s); Reads 1; Reads (per 2 s); Writes 1; Writes (per 2 s)]
  | scheduler_w_on_initialize_named_aborted s =>
      weight 8499000 [Plain (per 14712000 s); Reads 2; Reads (per 1 s); Writes 2; Writes (per 1 s)]
  | scheduler_w_on_initialize_aborted s =>
      weight 9314000 [Plain (per 9745000 s); Reads 2; Reads (per 1 s); Writes 2]
  | scheduler_w_on_initialize_periodic_named s =>
      weight 10351000 [Plain (per 22248000 s); Reads 1; Reads (per 1 s); Writes 1; Writes (per 2 s)]
  | scheduler_w_on_initialize_periodic s =>
      weight 12597000 [Plain (per 16961000 s); Reads 1; Reads (per 1 s); Writes 1; Writes (per 1 s)]
  | scheduler_w_on_initialize_named s =>
      weight 14024000 [Plain (per 14306000 s); Reads 1; Writes 1; Writes (per 1 s)]
  | scheduler_w_on_initialize s => weight 13450000 [Plain (per 12353000 s); Reads 1; Writes 1]
  | scheduler_w_schedule s => weight 21777000 [Plain (per 130000 s); Reads 1; Writes 1]
  | scheduler_w_cancel s => weight 21872000 [Plain (per 1203000 s); Reads 1; Writes 2]
  | scheduler_w_schedule_named s => weight 26985000 [Plain (per 143000 s); Reads 2; Writes 2]
  | scheduler_w_cancel_named s => weight 23942000 [Plain (per 1237000 s); Reads 2; Writes 2]
  end.

Inductive UtilityWeights :=
| utility_w_batch (c : Z)
| utility_w_as_derivative
| utility_w_batch_all (c : Z)
| utility_w_dispatch_as.
(** [weights::utility::BasiliskWeight] for [pallet_utility]. *)
Definition utility_runtime_weight (f : UtilityWeights) : Weight :=
  match f with
  | utility_w_batch c => weight 9151000 [Plain (per 5394000 c)]
  | utility_w_as_derivative => weight 3546000 []
  | utility_w_batch_all c => weight 10528000 [Plain (per 5798000 c)]
  | utility_w_dispatch_as => weight 14626000 []
  end.

Inductive CollatorSelectionWeights :=
| collator_selection_w_set_invulnerables (b : Z)
| collator_selection_w_set_desired_candidates
| collator_selection_w_set_candidacy_bond
| collator_selection_w_register_as_candidate (c : Z)
| collator_selection_w_leave_intent (c : Z)
| collator_selection_w_note_author
| collator_selection_w_new_session (r c : Z).
(** [weights::collator_selection::BasiliskWeight] for [pallet_collator_selection]. *)
Definition collator_selection_runtime_weight (f : CollatorSelectionWeights) : Weight :=
  match f with
  | collator_selection_w_set_invulnerables b => weight 14175000 [Plain (per 151000 b); Writes 1]
  | collator_selection_w_set_desired_candidates => weight 17262000 [Writes 1]
  | collator_selection_w_set_candidacy_bond => weight 13505000 [Writes 1]
  | collator_selection_w_register_as_candidate c =>
      weight 56337000 [Plain (per 449000 c); Reads 5; Writes 2]
  | collator_selection_w_leave_intent c => weight 40897000 [Plain (per 487000 c); Reads 1; Writes 2]
  | collator_selection_w_note_author => weight 54712000 [Reads 3; Writes 4]
  | collator_selection_w_new_session r c =>
      weight 0 [Plain (per 5475000 r); Plain (per 23563000 c); Reads (per 2 c); Writes (per 1 c)]
  end.

Inductive VestingWeights :=
| vesting_w_vested_transfer
| vesting_w_claim (i : Z)
| vesting_w_update_vesting_schedules (i : Z).
(** [weights::vesting::BasiliskWeight] for [orml_vesting]. *)
Definition vesting_runtime_weight (f : VestingWeights) : Weight :=
  match f with
  | vesting_w_vested_transfer => weight 84281000 [Reads 4; Writes 4]
  | vesting_w_claim i => weight 44707000 [Plain (per 142000 i); Reads 2; Writes 2]
  | vesting_w_update_vesting_schedules i =>
      weight 38799000 [Plain (per 233000 i); Reads 2; Writes 3]
  end.

(** ** Calls and hooks *)

(** The functions that weigh a call. *)
Inductive FrameworkCall :=
| SystemW (f : SystemWeights) | TimestampW (f : TimestampWeights) | BalancesW (f : BalancesWeights)
| PaymentW (f : PaymentWeights) | TokensW (f : TokensWeights) | CurrenciesW (f : CurrenciesWeights)
| AssetRegistryW (f : AssetRegistryWeights) | DemocracyW (f : DemocracyWeights)
| TreasuryW (f : TreasuryWeights) | SchedulerW (f : SchedulerWeights)
| UtilityW (f : UtilityWeights) | CollatorSelectionW (f : CollatorSelectionWeights)
| VestingW (f : VestingWeights).
Definition framework_weight (c : FrameworkCall) : Weight :=
  match c with
  | SystemW f => system_runtime_weight f
  | TimestampW f => timestamp_runtime_weight f
  | BalancesW f => balances_runtime_weight f
  | PaymentW f => payment_runtime_weight f
  | TokensW f => tokens_runtime_weight f
  | CurrenciesW f => currencies_runtime_weight f
  | AssetRegistryW f => asset_registry_runtime_weight f
  | DemocracyW f => democracy_runtime_weight f
  | TreasuryW f => treasury_runtime_weight f
  | SchedulerW f => scheduler_runtime_weight f
  | UtilityW f => utility_runtime_weight f
  | CollatorSelectionW f => collator_selection_runtime_weight f
  | VestingW f => vesting_runtime_weight f
  end.
End tables.

(** The counts a table is given, each with the limit the runtime configures for it:
    bytes by the length of a block, votes, proposals, approvals, scheduled calls,
    candidates and vesting schedules by their parameters; storage keys, batched calls,
    seconds, vetoes and referenda, which have no parameter, by [items]. *)
Definition limits (items : Z) (c : FrameworkCall) : list (Z * Z) :=
  let bytes := max_block_length system_params in
  match c with
  | SystemW (system_w_remark b | system_w_remark_with_event b) => [(b, bytes)]
  | SystemW (system_w_set_storage i | system_w_kill_storage i | system_w_kill_prefix i) =>
      [(i, items)]
  | DemocracyW (democracy_w_blacklist p | democracy_w_cancel_proposal p) =>
      [(p, MaxProposals democracy_params)]
  | DemocracyW (democracy_w_second i | democracy_w_external_propose i
               | democracy_w_veto_external i | democracy_w_cancel_queued i
               | democracy_w_on_initialize_base i
               | democracy_w_on_initialize_base_with_launch_period i) => [(i, items)]
  | DemocracyW (democracy_w_vote_new r | democracy_w_vote_existing r | democracy_w_delegate r
               | democracy_w_undelegate r | democracy_w_unlock_remove r | democracy_w_unlock_set r
               | democracy_w_remove_vote r | democracy_w_remove_other_vote r) =>
      [(r, MaxVotes democracy_params)]
  | DemocracyW (democracy_w_note_preimage b | democracy_w_note_imminent_preimage b
               | democracy_w_reap_preimage b) => [(b, bytes)]
  | TreasuryW (treasury_w_approve_proposal p | treasury_w_on_initialize_proposals p) =>
      [(p, MaxApprovals treasury_params)]
  | SchedulerW (scheduler_w_on_initialize_periodic_named_resolved s
               | scheduler_w_on_initialize_named_resolved s
               | scheduler_w_on_initialize_periodic_resolved s
               | scheduler_w_on_initialize_resolved s | scheduler_w_on_initialize_named_aborted s
               | scheduler_w_on_initialize_aborted s | scheduler_w_on_initialize_periodic_named s
               | scheduler_w_on_initialize_periodic s | scheduler_w_on_initialize_named s
               | scheduler_w_on_initialize s | scheduler_w_schedule s | scheduler_w_cancel s
               | scheduler_w_schedule_named s | scheduler_w_cancel_named s) =>
      [(s, MaxScheduledPerBlock)]
  | UtilityW (utility_w_batch c | utility_w_batch_all c) => [(c, items)]
  | CollatorSelectionW (collator_selection_w_set_invulnerables b) =>
      [(b, MaxInvulnerables collator_params)]
  | CollatorSelectionW (collator_selection_w_register_as_candidate c
                       | collator_selection_w_leave_intent c) =>
      [(c, MaxCandidates collator_params)]
  | CollatorSelectionW (collator_selection_w_new_session r c) =>
      [(r, MaxCandidates collator_params); (c, MaxCandidates collator_params)]
  | VestingW (vesting_w_claim i | vesting_w_update_vesting_schedules i) =>
      [(i, MaxVestingSchedules vesting_params)]
  | _ => []
  end.
Definition within (items : Z) (c : FrameworkCall) : Prop :=
  Forall (fun p => 0 <= fst p <= snd p) (limits items c).

(** ** Calls fit a block *)

Section props.
Context `{RocksDbWeightLaws}.

Ltac bounded := cbn; repeat match goal with
  | Hw : within _ _ |- _ => unfold within in Hw; cbn in Hw
  | Hf : Forall _ (_ :: _) |- _ => apply Forall_cons_1 in Hf as [? Hf]; cbn [fst snd] in *
  end; unfold MaxScheduledPerBlock in *; rewrite ?per_exact by lia; exact_weights; lia.

(** Every call of the framework pallets whose counts respect the configured limits fits a
    block, with up to 3500 items where nothing is configured: its weight does not saturate
    and stays within what a normal extrinsic may use. *)
Theorem framework_calls_fit c :
  within 3500 c ->
  let b := block_weights (10 ^ 12) (10 ^ 6) in
  0 <= framework_weight c <=
    normal_max_total b - perbill_of AVERAGE_ON_INITIALIZE_RATIO (operational_max_total b) -
    base_extrinsic b.
Proof.
  intros Hw b.
  assert (Hb : normal_max_total b - perbill_of AVERAGE_ON_INITIALIZE_RATIO (operational_max_total b) -
    base_extrinsic b = 362300000000) by (by vm_compute).
  rewrite Hb. clear Hb b.
  destruct c as [[]|[]|[]|[]|[]|[]|[]|[]|[]|[]|[]|[]|[]]; bounded.
Qed.

End props.

(** ** Witnesses *)

#[local] Instance rocks_db : RuntimeDbWeight := {|
  db_reads n := Z.min (2 ^ 64 - 1) (25000000 * n);
  db_writes n := Z.min (2 ^ 64 - 1) (100000000 * n)
|}.
#[local] Instance rocks_db_laws : RocksDbWeightLaws.
Proof. split; simpl; lia. Qed.

Lemma framework_calls_fit_witness :
  0 <= framework_weight (TreasuryW (treasury_w_approve_proposal 100)).
Proof.
  apply (framework_calls_fit (TreasuryW (treasury_w_approve_proposal 100))).
  unfold within. repeat (apply Forall_cons_2; [simpl; lia|]). apply Forall_nil_2.
Defined.
