(* ===== verification/XykExamples.v ===== *)
(** * The XYK theorems at work

    One pool on the reference ledger with the runtime's parameters: asset 1 and
    asset 2, created by account 10.  Every theorem about the pallet is applied to a
    concrete run, its hypotheses computed. *)

From S2P Require Import Prelude Primitives Errors Interfaces Ledger Xyk XykProps XykPools XykRefine Runtime.

#[local] Existing Instance Runtime_xyk.

(** Two traders, 10 and 20, and no pool yet. *)
Definition ex_ledger : Ledger := {|
  l_free := list_to_map [((1, 10), 10000000%N); ((2, 10), 10000000%N); ((0, 10), 10000000%N);
                         ((1, 20), 10000000%N); ((2, 20), 10000000%N)];
  l_reserved := ∅;
  l_locks := ∅;
  l_issuance := list_to_map [(0, 10000000); (1, 20000000); (2, 20000000)];
  l_shared := ∅
|}.
Definition ex_start : XykState Ledger := mkXyk ex_ledger ∅ ∅ ∅ [].

(** 1,000,000 of asset 1 at the price of 2. *)
Definition ex_create : Dispatch (XykState Ledger) unit :=
  create_pool (Signed 10) 1 2 1000000 (2 * 10 ^ 18).
Definition ex_pool : XykState Ledger := snd (ex_create ex_start).

Ltac run := vm_compute; reflexivity.

Lemma trade_product_nondecreasing_witness :
  let sold := snd (sell (Signed 20) 1 2 5000 1 false ex_pool) in
  let bought := snd (buy (Signed 20) 2 1 5000 100000 false ex_pool) in
  let p := AssetPair_new 1 2 in
  reserve_of 1 p ex_pool * reserve_of 2 p ex_pool <= reserve_of 1 p sold * reserve_of 2 p sold /\
  reserve_of 1 p ex_pool * reserve_of 2 p ex_pool <= reserve_of 1 p bought * reserve_of 2 p bought.
Proof.
  cbv zeta. split.
  - apply (trade_product_nondecreasing 20 1 2 5000 1 false); [left; run|done|by vm_compute..].
  - apply (trade_product_nondecreasing 20 1 2 5000 100000 false); [right; run|done|by vm_compute..].
Defined.

Lemma sell_exact_witness :
  let s' := snd (sell (Signed 20) 1 2 5000 1 false ex_pool) in
  exists amount_out fee, 1 <= amount_out - fee /\
    swapped 20 (get_pair_id (AssetPair_new 1 2)) 1 2 5000 (amount_out - fee) (chain ex_pool) (chain s').
Proof.
  destruct (sell_exact 20 1 2 5000 1 ex_pool (snd (sell (Signed 20) 1 2 5000 1 false ex_pool)))
    as (o & f & _ & _ & Hl & Hs & _).
  - run.
  - done.
  - by vm_compute.
  - right. by vm_compute.
  - by vm_compute.
  - exists o, f. split; [exact Hl|exact Hs].
Defined.

Lemma buy_exact_witness :
  let s' := snd (buy (Signed 20) 2 1 5000 100000 false ex_pool) in
  exists price fee, price + fee <= 100000 /\
    swapped 20 (get_pair_id (AssetPair_new 1 2)) 1 2 (price + fee) 5000 (chain ex_pool) (chain s').
Proof.
  destruct (buy_exact 20 2 1 5000 100000 ex_pool
    (snd (buy (Signed 20) 2 1 5000 100000 false ex_pool))) as (o & f & _ & _ & Hl & Hs & _).
  - run.
  - done.
  - by vm_compute.
  - by vm_compute.
  - by vm_compute.
  - exists o, f. split; [exact Hl|exact Hs].
Defined.

Lemma ex_start_genesis : xyk_genesis ex_start.
Proof. by repeat split. Qed.

Lemma reachable_pools_ok_witness : pools_ok ex_pool.
Proof.
  apply reachable_pools_ok. eapply reach_step; [apply reach_init, ex_start_genesis|].
  apply (step_call (Signed 10) (CreatePool 1 2 1000000 (2 * 10 ^ 18)) ex_start (Ok tt)).
  - split; cbv; intuition congruence.
  - run.
Defined.

Lemma create_pool_exact_witness :
  exists t, ShareToken ex_pool !! get_pair_id (AssetPair_new 1 2) = Some t.
Proof.
  destruct (create_pool_exact 10 1 2 1000000 (2 * 10 ^ 18) 2000000 ex_start ex_pool)
    as (t & _ & Hs & _).
  - run.
  - run.
  - by vm_compute.
  - by vm_compute.
  - by vm_compute.
  - exists t. by rewrite Hs, lookup_insert_eq.
Defined.

Lemma add_liquidity_exact_witness :
  let s' := snd (add_liquidity (Signed 20) 1 2 10000 30000 ex_pool) in
  exists b_amount, b_amount <= 30000 /\
    total_liquidity (get_pair_id (AssetPair_new 1 2)) s' = 1000000 + 10000.
Proof.
  destruct (add_liquidity_exact 20 1 2 10000 30000
    (share_token (get_pair_id (AssetPair_new 1 2)) ex_pool) ex_pool
    (snd (add_liquidity (Signed 20) 1 2 10000 30000 ex_pool))) as (b & _ & Hb & _ & _ & Ht & _).
  - run.
  - run.
  - done.
  - by vm_compute.
  - by vm_compute.
  - by vm_compute.
  - by vm_compute.
  - by vm_compute.
  - exists b. split; [exact Hb|]. unfold total_liquidity. rewrite Ht, lookup_insert_eq. run.
Defined.

Lemma remove_liquidity_exact_witness :
  let s' := snd (remove_liquidity (Signed 10) 1 2 1000000 ex_pool) in
  ShareToken s' !! get_pair_id (AssetPair_new 1 2) = None.
Proof.
  destruct (remove_liquidity_exact 10 1 2 1000000
    (share_token (get_pair_id (AssetPair_new 1 2)) ex_pool) ex_pool
    (snd (remove_liquidity (Signed 10) 1 2 1000000 ex_pool))) as (oa & ob & _ & _ & _ & _ & _ & Hd).
  - run.
  - run.
  - done.
  - done.
  - by vm_compute.
  - by vm_compute.
  - by vm_compute.
  - by vm_compute.
  - intros oa ob Heq. vm_compute in Heq. injection Heq as <- <-. split; left; run.
  - apply Hd. run.
Defined.

Lemma xyk_dispatch_atomic_witness :
  let call := Sell 1 2 5000 1000000 false in
  snd (dispatch (Signed 20) call ex_pool) = ex_pool.
Proof.
  cbv zeta. eapply (xyk_dispatch_atomic (Signed 20) (Sell 1 2 5000 1000000 false) ex_pool
    (Err (XykE XykErr.AssetAmountNotReachedLimit))); [run|discriminate].
Defined.

(** Accounts of the examples are not negative, pool accounts are. *)
Lemma positive_outsider w : 0 <= w -> outsider w.
Proof.
  intros Hw p [Ha Hb]. unfold get_pair_id, pair_account_from_assets. simpl. unfold pair_code.
  destruct (ordered_pair_range (asset_in p) (asset_out p) Ha Hb) as [Hx Hy].
  destruct (ordered_pair (AssetPair_new (asset_in p) (asset_out p))) as [x y].
  unfold in_range in *. simpl in *. lia.
Qed.

Lemma ex_pair_wide : wide (AssetPair_new 1 2).
Proof. split; cbv; intuition congruence. Qed.

Definition ex_sold : XykState Ledger := snd (sell (Signed 20) 1 2 5000 1 false ex_pool).

Lemma xyk_refines_witness :
  cpmm_step MinPoolLiquidity (SellIn 5000) (view (AssetPair_new 1 2) ex_pool)
    (view (AssetPair_new 1 2) ex_sold).
Proof.
  apply (xyk_refines ltac:(by apply positive_outsider) (AssetPair_new 1 2) ex_start ex_pool
    (Called (Sell 1 2 5000 1 false) true) ex_sold).
  - exact ex_pair_wide.
  - exact ex_start_genesis.
  - apply rtc_once. exists (Called (CreatePool 1 2 1000000 (2 * 10 ^ 18)) true).
    apply (move_call 10 (CreatePool 1 2 1000000 (2 * 10 ^ 18)) ex_start (Ok tt)).
    + apply positive_outsider. lia.
    + exact ex_pair_wide.
    + exact I.
    + run.
  - apply (move_call 20 (Sell 1 2 5000 1 false) ex_pool (Ok tt)).
    + apply positive_outsider. lia.
    + exact ex_pair_wide.
    + split; [discriminate|]. vm_compute. discriminate.
    + run.
Defined.

(** Shares are minted one for one with the amount of the asset with the lower id,
    not in proportion to the reserve.  Once trades have moved the reserve away from
    the issued shares, a provider who adds liquidity and removes it again at once
    takes more of both assets out than went in. *)
Definition ex_traded : XykState Ledger :=
  snd (sell (Signed 10) 1 2 300000 1 false ex_pool).
Definition ex_round_trip : XykState Ledger :=
  snd (remove_liquidity (Signed 20) 1 2 100000
    (snd (add_liquidity (Signed 20) 1 2 100000 1000000 ex_traded))).

Theorem add_then_remove_profits :
  free_balance 1 20 (chain ex_traded) < free_balance 1 20 (chain ex_round_trip) /\
  free_balance 2 20 (chain ex_traded) < free_balance 2 20 (chain ex_round_trip).
Proof. by vm_compute. Qed.
