(* ===== verification/Lbp.v ===== *)
(** * The LBP pallet

    Models [src/pallets/lbp/src/lib.rs]: liquidity bootstrapping pools with weights
    that move linearly during a sale, their storage ([PoolData] and the record of
    fee collectors), the extrinsics [create_pool], [update_pool_data],
    [add_liquidity], [remove_liquidity], [sell] and [buy], the [AMM] implementation
    with the fee collection of [execute_trade], and [DisallowWhenLBPPoolRunning],
    the guard the XYK pallet consults. *)

From S2P Require Import Prelude Primitives Errors Interfaces.

Notation LBPWeight := Z (only parsing). (* u32 *)

Inductive WeightCurveType := Linear.
#[export] Instance WeightCurveType_eq_dec : EqDecision WeightCurveType.
Proof. solve_decision. Defined.

Definition MAX_WEIGHT : LBPWeight := 100000000.
Definition MAX_SALE_DURATION : Z := (60 * 60 * 24 / 6) * 14.
(** [b"lbpcllct"], read as a number. *)
Definition COLLECTOR_LOCK_ID : LockIdentifier :=
  from_le_bytes [108; 98; 112; 99; 108; 108; 99; 116].

Record Pool := mkPool {
  owner : AccountId;
  start : option BlockNumber;
  end_ : option BlockNumber;
  pool_assets : AssetId * AssetId;
  initial_weight : LBPWeight;
  final_weight : LBPWeight;
  weight_curve : WeightCurveType;
  fee : Z * Z;
  fee_collector : AccountId;
  repay_target : Balance
}.

Definition Pool_new (pool_owner : AccountId) (asset_a asset_b : AssetId)
    (initial_weight final_weight : LBPWeight) (weight_curve : WeightCurveType) (fee : Z * Z)
    (fee_collector : AccountId) (repay_target : Balance) : Pool := {|
  owner := pool_owner;
  start := None;
  end_ := None;
  pool_assets := (asset_a, asset_b);
  initial_weight := initial_weight;
  final_weight := final_weight;
  weight_curve := weight_curve;
  fee := fee;
  fee_collector := fee_collector;
  repay_target := repay_target
|}.

(** [hydra_dx_math::lbp]; a failed calculation is [None]. *)
Class LbpMath := {
  calculate_linear_weights :
    BlockNumber -> BlockNumber -> LBPWeight -> LBPWeight -> BlockNumber -> option LBPWeight;
  lbp_spot_price : Balance -> Balance -> LBPWeight -> LBPWeight -> Balance -> option Balance;
  lbp_out_given_in : Balance -> Balance -> LBPWeight -> LBPWeight -> Balance -> option Balance;
  lbp_in_given_out : Balance -> Balance -> LBPWeight -> LBPWeight -> Balance -> option Balance
}.

(** The weight stays between the initial and the final one during the sale; the
    calculated amounts are unsigned. *)
Class LbpMathLaws `{LbpMath} : Prop := {
  linear_weights_between st en iw fw at_ w :
    st <= at_ <= en -> calculate_linear_weights st en iw fw at_ = Some w ->
    Z.min iw fw <= w <= Z.max iw fw;
  lbp_out_nonneg ri ro wi wo a o :
    0 <= ri -> 0 <= ro -> 0 <= a -> lbp_out_given_in ri ro wi wo a = Some o -> 0 <= o;
  lbp_in_nonneg ri ro wi wo a i :
    0 <= ri -> 0 <= ro -> 0 <= a -> lbp_in_given_out ri ro wi wo a = Some i -> 0 <= i
}.

(** [LBPWeightFunction::calculate_weight]. *)
Definition calculate_weight `{LbpMath} (_ : WeightCurveType) (start end_ : BlockNumber)
    (initial_weight final_weight : LBPWeight) (at_ : BlockNumber) : option LBPWeight :=
  calculate_linear_weights start end_ initial_weight final_weight at_.

(** [T::CreatePoolOrigin]. *)
Class CreatePoolOrigin := { may_create_pool : Origin -> bool }.

Class LbpConfig := {
  LbpMinTradingLimit : Balance;
  LbpMinPoolLiquidity : Balance;
  LbpMaxInRatio : Z;
  LbpMaxOutRatio : Z
}.

Inductive LbpEvent :=
| LbpPoolCreated (pool_id : AccountId) (pool : Pool)
| LbpPoolUpdated (pool_id : AccountId) (pool : Pool)
| LbpLiquidityAdded (who : AccountId) (asset_a asset_b : AssetId) (amount_a amount_b : Balance)
| LbpLiquidityRemoved (who : AccountId) (asset_a asset_b : AssetId) (amount_a amount_b : Balance)
| LbpSellExecuted (who : AccountId) (asset_in asset_out : AssetId) (amount sale_price : Balance)
    (fee_asset : AssetId) (fee_amount : Balance)
| LbpBuyExecuted (who : AccountId) (asset_out asset_in : AssetId) (amount buy_price : Balance)
    (fee_asset : AssetId) (fee_amount : Balance).

Record LbpState (C : Type) := mkLbp {
  lbp_chain : C;
  PoolData : gmap AccountId Pool;
  FeeCollectorWithAsset : gmap (AccountId * AssetId) bool;
  lbp_events : list LbpEvent
}.
Arguments mkLbp {C}.
Arguments lbp_chain {C}.
Arguments PoolData {C}.
Arguments FeeCollectorWithAsset {C}.
Arguments lbp_events {C}.

Section setters.
Context {C : Type}.
Implicit Types s : LbpState C.

Definition set_lbp_chain (c : C) s : LbpState C :=
  mkLbp c (PoolData s) (FeeCollectorWithAsset s) (lbp_events s).
Definition set_PoolData (f : gmap AccountId Pool -> gmap AccountId Pool) s : LbpState C :=
  mkLbp (lbp_chain s) (f (PoolData s)) (FeeCollectorWithAsset s) (lbp_events s).
Definition set_FeeCollector
    (f : gmap (AccountId * AssetId) bool -> gmap (AccountId * AssetId) bool) s : LbpState C :=
  mkLbp (lbp_chain s) (PoolData s) (f (FeeCollectorWithAsset s)) (lbp_events s).
Definition lbp_deposit_event (e : LbpEvent) : Dispatch (LbpState C) unit :=
  modify (fun s => mkLbp (lbp_chain s) (PoolData s) (FeeCollectorWithAsset s)
                     (lbp_events s ++ [e])).
End setters.

#[export] Instance Lbp_lens C : Lens (LbpState C) C := {|
  lens_get := lbp_chain;
  lens_set := set_lbp_chain
|}.
#[export] Instance Lbp_lens_laws C : LensLaws (LbpState C) C.
Proof. split; [done|by intros []|done]. Qed.

Section pallet.
Context {C : Type}.
Context `{MultiCurrency C} `{MultiLockable C} `{BlockNumberProvider C}.
Context `{AssetPairAccountIdFor} `{LbpMath} `{FeeMath} `{AMMProvided} `{CreatePoolOrigin}.
Context {cfg : LbpConfig}.
Notation State := (LbpState C).
Local Notation ensure b e := (ensure b%rust (LbpE e)).
Local Notation ok_or o e := (ok_or o (LbpE e)).
Local Notation free c w := (gets (fun s : State => free_balance c w (lbp_chain s))).
Local Notation now_ := (gets (fun s : State => block_number (lbp_chain s))).

(** ** Internals *)

Definition repay_fee : Z * Z := (2, 10).

Definition pair_account_from_assets (asset_a asset_b : AssetId) : AccountId :=
  from_assets asset_a asset_b "lbp".

Definition get_pair_id (assets : AssetPair) : AccountId :=
  pair_account_from_assets (asset_in assets) (asset_out assets).

Definition lbp_exists (assets : AssetPair) (s : State) : bool :=
  bool_decide (is_Some (PoolData s !! pair_account_from_assets (asset_in assets) (asset_out assets))).

Definition calculate_weights (pool_data : Pool) (at_ : BlockNumber)
    : option (LBPWeight * LBPWeight) :=
  match calculate_weight (weight_curve pool_data) (default 0 (start pool_data))
          (default 0 (end_ pool_data)) (initial_weight pool_data) (final_weight pool_data) at_ with
  | Some weight_a => Some (weight_a, saturating_sub MAX_WEIGHT weight_a)
  | None => None
  end.

Definition validate_pool_data (pool_data : Pool) : Dispatch State unit :=
  now ← now_;
  ensure (match start pool_data, end_ pool_data with
          | Some start, Some end_ => (now <? start) && (start <? end_)
          | None, None => true
          | _, _ => false
          end) LbpErr.InvalidBlockRange ;;
  ensure (saturating_sub (default 0 (end_ pool_data)) (default 0 (start pool_data))
            < MAX_SALE_DURATION) LbpErr.MaxSaleDurationExceeded ;;
  ensure (negb (initial_weight pool_data =? 0) && (initial_weight pool_data <? MAX_WEIGHT)
          && negb (final_weight pool_data =? 0) && (final_weight pool_data <? MAX_WEIGHT))
    LbpErr.InvalidWeight ;;
  ensure (negb (snd (fee pool_data) =? 0)) LbpErr.FeeAmountInvalid ;;
  mret tt.

Definition get_sorted_weight (asset_in : AssetId) (now : BlockNumber) (pool_data : Pool)
    : option (LBPWeight * LBPWeight) :=
  match calculate_weights pool_data now with
  | Some weights =>
      if asset_in =? fst (pool_assets pool_data)
      then Some (fst weights, snd weights)
      else Some (snd weights, fst weights)
  | None => None
  end.

Definition is_pool_running (pool_data : Pool) (s : State) : bool :=
  let now := block_number (lbp_chain s) in
  match start pool_data, end_ pool_data with
  | Some start, Some end_ => (start <=? now) && (now <=? end_)
  | _, _ => false
  end.

Definition has_pool_started (pool_data : Pool) (s : State) : bool :=
  let now := block_number (lbp_chain s) in
  match start pool_data with
  | Some start => start <=? now
  | None => false
  end.

Definition collected_fees (pool : Pool) (s : State) : Balance :=
  get_by_lock COLLECTOR_LOCK_ID (fst (pool_assets pool)) (fee_collector pool) (lbp_chain s).

Definition is_repay_fee_applied (pool : Pool) (s : State) : bool :=
  collected_fees pool s <? repay_target pool.

Definition calculate_fees (pool : Pool) (amount : Balance) : Dispatch State Balance :=
  repay ← gets (is_repay_fee_applied pool);
  let rate := if repay : bool then repay_fee else fee pool in
  ok_or (calculate_pool_trade_fee amount rate) LbpErr.FeeAmountInvalid.

(** ** Extrinsics on pools *)

Definition create_pool (origin : Origin) (pool_owner : AccountId)
    (asset_a : AssetId) (asset_a_amount : Balance) (asset_b : AssetId) (asset_b_amount : Balance)
    (initial_weight final_weight : LBPWeight) (weight_curve : WeightCurveType) (fee : Z * Z)
    (fee_collector : AccountId) (repay_target : Balance) : Dispatch State unit :=
  transactional (
    Prelude.ensure (may_create_pool origin) BadOrigin ;;
    ensure ((asset_a_amount >= LbpMinPoolLiquidity) && (asset_b_amount >= LbpMinPoolLiquidity))
      LbpErr.InsufficientLiquidity ;;
    ensure (asset_a != asset_b) LbpErr.CannotCreatePoolWithSameAssets ;;
    let asset_pair := {| asset_in := asset_a; asset_out := asset_b |} in
    found ← gets (lbp_exists asset_pair);
    ensure (negb found) LbpErr.PoolAlreadyExists ;;
    used ← gets (fun s => bool_decide (is_Some (FeeCollectorWithAsset s !! (fee_collector, asset_a))));
    ensure (negb used) LbpErr.FeeCollectorWithAssetAlreadyUsed ;;
    free_a ← free asset_a pool_owner;
    ensure (free_a >= asset_a_amount) LbpErr.InsufficientAssetBalance ;;
    free_b ← free asset_b pool_owner;
    ensure (free_b >= asset_b_amount) LbpErr.InsufficientAssetBalance ;;
    let pool_data := Pool_new pool_owner asset_a asset_b initial_weight final_weight weight_curve
                       fee fee_collector repay_target in
    validate_pool_data pool_data ;;
    let pool_id := get_pair_id asset_pair in
    modify (set_PoolData (insert pool_id pool_data)) ;;
    modify (set_FeeCollector (insert (fee_collector, asset_a) true)) ;;
    lbp_deposit_event (LbpPoolCreated pool_id pool_data) ;;
    zoom (transfer asset_a pool_owner pool_id asset_a_amount) ;;
    zoom (transfer asset_b pool_owner pool_id asset_b_amount) ;;
    lbp_deposit_event (LbpLiquidityAdded pool_id asset_a asset_b asset_a_amount asset_b_amount) ;;
    mret tt).

(** [unwrap_or] and [or] on the optional arguments of an update. *)
Definition update_fields (pool_owner : option AccountId) (start' end' : option BlockNumber)
    (initial' final' : option LBPWeight) (fee' : option (Z * Z)) (pool : Pool) : Pool := {|
  owner := default (owner pool) pool_owner;
  start := match start' with Some b => Some b | None => start pool end;
  end_ := match end' with Some b => Some b | None => end_ pool end;
  pool_assets := pool_assets pool;
  initial_weight := default (initial_weight pool) initial';
  final_weight := default (final_weight pool) final';
  weight_curve := weight_curve pool;
  fee := default (fee pool) fee';
  fee_collector := fee_collector pool;
  repay_target := repay_target pool
|}.
Definition set_collector (c : AccountId) (pool : Pool) : Pool :=
  mkPool (owner pool) (start pool) (end_ pool) (pool_assets pool) (initial_weight pool)
    (final_weight pool) (weight_curve pool) (fee pool) c (repay_target pool).
Definition set_repay_target (t : Balance) (pool : Pool) : Pool :=
  mkPool (owner pool) (start pool) (end_ pool) (pool_assets pool) (initial_weight pool)
    (final_weight pool) (weight_curve pool) (fee pool) (fee_collector pool) t.

(** Replacing the fee collector: [try_mutate] reads the new collector's flag, the
    closure removes the old collector's entry, and the flag is written last. *)
Definition replace_collector (pool : Pool) (updated : AccountId) : Dispatch State unit :=
  used ← gets (fun s => default false (FeeCollectorWithAsset s !! (updated, fst (pool_assets pool))));
  ensure (negb used) LbpErr.FeeCollectorWithAssetAlreadyUsed ;;
  modify (set_FeeCollector (delete (fee_collector pool, fst (pool_assets pool)))) ;;
  modify (set_FeeCollector (insert (updated, fst (pool_assets pool)) true)).

Definition update_pool_data (origin : Origin) (pool_id : AccountId) (pool_owner : option AccountId)
    (start end_ : option BlockNumber) (initial_weight final_weight : option LBPWeight)
    (fee : option (Z * Z)) (fee_collector : option AccountId) (repay_target' : option Balance)
    : Dispatch State unit :=
  transactional (
    who ← ensure_signed origin;
    maybe_pool ← gets (fun s => PoolData s !! pool_id);
    pool ← ok_or maybe_pool LbpErr.PoolNotFound;
    ensure (bool_decide (is_Some start) || bool_decide (is_Some end_)
            || bool_decide (is_Some initial_weight) || bool_decide (is_Some final_weight)
            || bool_decide (is_Some fee) || bool_decide (is_Some fee_collector)
            || bool_decide (is_Some repay_target')) LbpErr.NothingToUpdate ;;
    ensure (who == owner pool) LbpErr.NotOwner ;;
    started ← gets (has_pool_started pool);
    ensure (negb started) LbpErr.SaleStarted ;;
    let pool := update_fields pool_owner start end_ initial_weight final_weight fee pool in
    pool ← match fee_collector with
           | Some updated => replace_collector pool updated ;; mret (set_collector updated pool)
           | None => mret pool
           end;
    let pool := set_repay_target (default (repay_target pool) repay_target') pool in
    validate_pool_data pool ;;
    lbp_deposit_event (LbpPoolUpdated pool_id pool) ;;
    modify (set_PoolData (insert pool_id pool))).

Definition add_liquidity (origin : Origin) (amount_a amount_b : AssetId * Balance)
    : Dispatch State unit :=
  transactional (
    who ← ensure_signed origin;
    let '(asset_a, asset_b) := (fst amount_a, fst amount_b) in
    let '(amount_a, amount_b) := (snd amount_a, snd amount_b) in
    let pool_id := pair_account_from_assets asset_a asset_b in
    maybe_pool ← gets (fun s => PoolData s !! pool_id);
    pool_data ← ok_or maybe_pool LbpErr.PoolNotFound;
    ensure (who == owner pool_data) LbpErr.NotOwner ;;
    ensure ((amount_a != 0) || (amount_b != 0)) LbpErr.CannotAddZeroLiquidity ;;
    (if (amount_a != 0)%rust then
       free_a ← free asset_a who;
       ensure (free_a >= amount_a) LbpErr.InsufficientAssetBalance
     else mret tt) ;;
    (if (amount_b != 0)%rust then
       free_b ← free asset_b who;
       ensure (free_b >= amount_b) LbpErr.InsufficientAssetBalance
     else mret tt) ;;
    zoom (transfer asset_a who pool_id amount_a) ;;
    zoom (transfer asset_b who pool_id amount_b) ;;
    lbp_deposit_event (LbpLiquidityAdded pool_id asset_a asset_b amount_a amount_b) ;;
    mret tt).

Definition remove_liquidity (origin : Origin) (pool_id : AccountId) : Dispatch State unit :=
  transactional (
    who ← ensure_signed origin;
    maybe_pool ← gets (fun s => PoolData s !! pool_id);
    pool_data ← ok_or maybe_pool LbpErr.PoolNotFound;
    ensure (who == owner pool_data) LbpErr.NotOwner ;;
    running ← gets (is_pool_running pool_data);
    ensure (negb running) LbpErr.SaleNotEnded ;;
    let asset_a := fst (pool_assets pool_data) in
    let asset_b := snd (pool_assets pool_data) in
    amount_a ← free asset_a pool_id;
    amount_b ← free asset_b pool_id;
    zoom (transfer asset_a pool_id who amount_a) ;;
    zoom (transfer asset_b pool_id who amount_b) ;;
    collected ← gets (collected_fees pool_data);
    (if (collected > 0)%rust
     then zoom (remove_lock COLLECTOR_LOCK_ID asset_a (fee_collector pool_data))
     else mret tt) ;;
    modify (set_FeeCollector (delete (fee_collector pool_data, fst (pool_assets pool_data)))) ;;
    modify (set_PoolData (delete pool_id)) ;;
    lbp_deposit_event (LbpLiquidityRemoved pool_id asset_a asset_b amount_a amount_b) ;;
    mret tt).

(** ** The [AMM] implementation *)

Definition get_share_token (_ : AssetPair) (_ : State) : AssetId := 2 ^ 32 - 1.

Definition get_pool_assets (pool_account_id : AccountId) (s : State) : option (list AssetId) :=
  match PoolData s !! pool_account_id with
  | Some pool_data => Some [fst (pool_assets pool_data); snd (pool_assets pool_data)]
  | None => None
  end.

Definition get_spot_price_unchecked (asset_a asset_b : AssetId) (amount : Balance) (s : State)
    : Balance :=
  let pool_id := get_pair_id {| asset_in := asset_a; asset_out := asset_b |} in
  let asset_a_reserve := free_balance asset_a pool_id (lbp_chain s) in
  let asset_b_reserve := free_balance asset_b pool_id (lbp_chain s) in
  match PoolData s !! pool_id with
  | None => 0
  | Some pool_data =>
      let now := block_number (lbp_chain s) in
      match get_sorted_weight asset_a now pool_data with
      | None => 0
      | Some (weight_in, weight_out) =>
          default 0 (lbp_spot_price asset_a_reserve asset_b_reserve weight_in weight_out amount)
      end
  end.

Definition lbp_transfer (who : AccountId) (assets : AssetPair) (amount amount_out : Balance)
    (fee_asset : AssetId) (fee : Balance) : AMMTransfer := {|
  t_origin := who; t_assets := assets; t_amount := amount; t_amount_out := amount_out;
  t_discount := false; t_discount_amount := 0; t_fee := (fee_asset, fee)
|}.

Definition validate_sell (who : AccountId) (assets : AssetPair) (amount min_bought : Balance)
    (_ : bool) : Dispatch State AMMTransfer :=
  ensure (amount != 0) LbpErr.ZeroAmount ;;
  free_in ← free (asset_in assets) who;
  ensure (free_in >= amount) LbpErr.InsufficientAssetBalance ;;
  let pool_id := get_pair_id assets in
  maybe_pool ← gets (fun s => PoolData s !! pool_id);
  pool_data ← ok_or maybe_pool LbpErr.PoolNotFound;
  running ← gets (is_pool_running pool_data);
  ensure running LbpErr.SaleIsNotRunning ;;
  now ← now_;
  weights ← ok_or (get_sorted_weight (asset_in assets) now pool_data) LbpErr.InvalidWeight;
  asset_in_reserve ← free (asset_in assets) pool_id;
  asset_out_reserve ← free (asset_out assets) pool_id;
  max_in ← ok_or (checked_div asset_in_reserve MAX_IN_RATIO) LbpErr.Overflow;
  ensure (amount <= max_in) LbpErr.MaxInRatioExceeded ;;
  let fee_asset := fst (pool_assets pool_data) in
  if fee_asset =? asset_in assets then
    fee ← calculate_fees pool_data amount;
    amount_out ← ok_or (lbp_out_given_in asset_in_reserve asset_out_reserve (fst weights)
                          (snd weights) amount) LbpErr.Overflow;
    max_out ← ok_or (checked_div asset_out_reserve MAX_OUT_RATIO) LbpErr.Overflow;
    ensure (amount_out <= max_out) LbpErr.MaxOutRatioExceeded ;;
    ensure (min_bought <= amount_out) LbpErr.TradingLimitReached ;;
    amount_without_fee ← ok_or (checked_sub amount fee) LbpErr.Overflow;
    mret (lbp_transfer who assets amount_without_fee amount_out fee_asset fee)
  else
    calculated_out ← ok_or (lbp_out_given_in asset_in_reserve asset_out_reserve (fst weights)
                              (snd weights) amount) LbpErr.Overflow;
    fee ← calculate_fees pool_data calculated_out;
    amount_out_without_fee ← ok_or (checked_sub calculated_out fee) LbpErr.Overflow;
    max_out ← ok_or (checked_div asset_out_reserve MAX_OUT_RATIO) LbpErr.Overflow;
    ensure (calculated_out <= max_out) LbpErr.MaxOutRatioExceeded ;;
    ensure (min_bought <= amount_out_without_fee) LbpErr.TradingLimitReached ;;
    mret (lbp_transfer who assets amount amount_out_without_fee fee_asset fee).

Definition validate_buy (who : AccountId) (assets : AssetPair) (amount max_sold : Balance)
    (_ : bool) : Dispatch State AMMTransfer :=
  ensure (amount != 0) LbpErr.ZeroAmount ;;
  free_in ← free (asset_in assets) who;
  ensure (free_in >= max_sold) LbpErr.InsufficientAssetBalance ;;
  let pool_id := get_pair_id assets in
  maybe_pool ← gets (fun s => PoolData s !! pool_id);
  pool_data ← ok_or maybe_pool LbpErr.PoolNotFound;
  running ← gets (is_pool_running pool_data);
  ensure running LbpErr.SaleIsNotRunning ;;
  now ← now_;
  weights ← ok_or (get_sorted_weight (asset_in assets) now pool_data) LbpErr.InvalidWeight;
  asset_in_reserve ← free (asset_in assets) pool_id;
  asset_out_reserve ← free (asset_out assets) pool_id;
  max_out ← ok_or (checked_div asset_out_reserve MAX_OUT_RATIO) LbpErr.Overflow;
  ensure (amount <= max_out) LbpErr.MaxOutRatioExceeded ;;
  let fee_asset := fst (pool_assets pool_data) in
  if fee_asset =? asset_out assets then
    fee ← calculate_fees pool_data amount;
    amount_out_plus_fee ← ok_or (checked_add 128 amount fee) LbpErr.Overflow;
    calculated_in ← ok_or (lbp_in_given_out asset_in_reserve asset_out_reserve (fst weights)
                             (snd weights) amount_out_plus_fee) LbpErr.Overflow;
    max_in ← ok_or (checked_div asset_in_reserve MAX_IN_RATIO) LbpErr.Overflow;
    ensure (calculated_in <= max_in) LbpErr.MaxInRatioExceeded ;;
    ensure (max_sold >= calculated_in) LbpErr.TradingLimitReached ;;
    mret (lbp_transfer who assets calculated_in amount fee_asset fee)
  else
    calculated_in ← ok_or (lbp_in_given_out asset_in_reserve asset_out_reserve (fst weights)
                             (snd weights) amount) LbpErr.Overflow;
    fee ← calculate_fees pool_data calculated_in;
    calculated_in_without_fee ← ok_or (checked_sub calculated_in fee) LbpErr.Overflow;
    max_in ← ok_or (checked_div asset_in_reserve MAX_IN_RATIO) LbpErr.Overflow;
    ensure (calculated_in <= max_in) LbpErr.MaxInRatioExceeded ;;
    ensure (max_sold >= calculated_in) LbpErr.TradingLimitReached ;;
    mret (lbp_transfer who assets calculated_in_without_fee amount fee_asset fee).

Definition execute_trade (t : AMMTransfer) : Dispatch State unit :=
  transactional (
    let pool_account := get_pair_id (t_assets t) in
    maybe_pool ← gets (fun s => PoolData s !! pool_account);
    pool ← ok_or maybe_pool LbpErr.PoolNotFound;
    zoom (transfer (asset_in (t_assets t)) (t_origin t) pool_account (t_amount t)) ;;
    zoom (transfer (asset_out (t_assets t)) pool_account (t_origin t) (t_amount_out t)) ;;
    let '(fee_asset, fee_amount) := (fst (t_fee t), snd (t_fee t)) in
    let fee_payer := if asset_in (t_assets t) =? fee_asset then t_origin t else pool_account in
    zoom (transfer fee_asset fee_payer (fee_collector pool) fee_amount) ;;
    collected ← gets (collected_fees pool);
    let collected_fee_total := wrapping_add 128 collected fee_amount in
    zoom (set_lock COLLECTOR_LOCK_ID fee_asset (fee_collector pool) collected_fee_total) ;;
    mret tt).

Definition execute_sell (t : AMMTransfer) : Dispatch State unit :=
  execute_trade t ;;
  lbp_deposit_event (LbpSellExecuted (t_origin t) (asset_in (t_assets t)) (asset_out (t_assets t))
    (t_amount t) (t_amount_out t) (fst (t_fee t)) (snd (t_fee t))) ;;
  mret tt.

Definition execute_buy (t : AMMTransfer) : Dispatch State unit :=
  execute_trade t ;;
  lbp_deposit_event (LbpBuyExecuted (t_origin t) (asset_out (t_assets t)) (asset_in (t_assets t))
    (t_amount t) (t_amount_out t) (fst (t_fee t)) (snd (t_fee t))) ;;
  mret tt.

Definition get_fee (pool_account_id : AccountId) (s : State) : Z * Z :=
  match PoolData s !! pool_account_id with
  | Some pool_data => fee pool_data
  | None => (0, 0)
  end.

Definition sell (origin : Origin) (asset_in asset_out : AssetId) (amount max_limit : Balance)
    : Dispatch State unit :=
  transactional (
    who ← ensure_signed origin;
    provided_trade State
      (validate_sell who {| asset_in := asset_in; asset_out := asset_out |} amount max_limit false)
      execute_sell ;;
    mret tt).

Definition buy (origin : Origin) (asset_out asset_in : AssetId) (amount max_limit : Balance)
    : Dispatch State unit :=
  transactional (
    who ← ensure_signed origin;
    provided_trade State
      (validate_buy who {| asset_in := asset_in; asset_out := asset_out |} amount max_limit false)
      execute_buy ;;
    mret tt).

(** [impl AMM for Pallet<T>]. *)
#[export] Instance Lbp_AMM : AMM State := {|
  amm_exists := lbp_exists;
  Interfaces.get_pair_id := get_pair_id;
  Interfaces.get_share_token := get_share_token;
  Interfaces.get_pool_assets := get_pool_assets;
  Interfaces.get_spot_price_unchecked := get_spot_price_unchecked;
  Interfaces.validate_sell := validate_sell;
  Interfaces.execute_sell := execute_sell;
  Interfaces.validate_buy := validate_buy;
  Interfaces.execute_buy := execute_buy;
  get_min_trading_limit := LbpMinTradingLimit;
  get_min_pool_liquidity := LbpMinPoolLiquidity;
  get_max_in_ratio := LbpMaxInRatio;
  get_max_out_ratio := LbpMaxOutRatio;
  Interfaces.get_fee := get_fee
|}.

(** [DisallowWhenLBPPoolRunning], consulted by the XYK pallet. *)
Definition can_create (asset_a asset_b : AssetId) (s : State) : bool :=
  let pool_id := pair_account_from_assets asset_a asset_b in
  let now := block_number (lbp_chain s) in
  match PoolData s !! pool_id with
  | Some data => match end_ data with
                 | Some end_ => end_ <? now
                 | None => false
                 end
  | None => true
  end.

#[export] Instance DisallowWhenLBPPoolRunning : CanCreatePool State := {|
  can_create_pool := can_create
|}.
End pallet.
