(* ===== verification/LbpProps.v ===== *)
(** * Correctness of the LBP pallet

    Validation of pool data, the life cycle of a sale, the record of fee
    collectors, the weights during a sale, the exact effect of a trade with its fee
    and lock, and the guard against a competing XYK pool. *)

From S2P Require Import Prelude Primitives Errors Interfaces Ledger Xyk XykProps Lbp.

(** ** Pool data *)

(** What [validate_pool_data] accepts at block [now]. *)
Definition sale_window_ok (now : BlockNumber) (p : Pool) : Prop :=
  match start p, end_ p with
  | Some st, Some en => now < st < en /\ en - st < MAX_SALE_DURATION
  | None, None => True
  | _, _ => False
  end.
Definition weights_ok (p : Pool) : Prop :=
  0 <> initial_weight p /\ initial_weight p < MAX_WEIGHT /\
  0 <> final_weight p /\ final_weight p < MAX_WEIGHT /\ snd (fee p) <> 0.
Definition valid_pool (now : BlockNumber) (p : Pool) : Prop :=
  sale_window_ok now p /\ weights_ok p.

Section facts.
Context {C : Type}.
Context `{MultiCurrency C} `{MultiLockable C} `{BlockNumberProvider C}.
Context `{AssetPairAccountIdFor} `{LbpMath} `{FeeMath} `{AMMProvided} `{CreatePoolOrigin}.
Context {cfg : LbpConfig}.
Notation State := (LbpState C).
Implicit Types s : State.

Lemma validate_pool_data_reads p : reads (validate_pool_data (C := C) p).
Proof. unfold validate_pool_data. solve_reads. Qed.
#[local] Hint Resolve validate_pool_data_reads : reads.

Lemma validate_pool_data_Ok p s u s' :
  validate_pool_data p s = (Ok u, s') <-> valid_pool (block_number (lbp_chain s)) p /\ s' = s.
Proof.
  unfold validate_pool_data, valid_pool, sale_window_ok, weights_ok. split.
  - intros Hrun. minv Hrun. zbool. split; [|done].
    destruct (start p), (end_ p); zbool; simpl in *; try done; unfold saturating_sub in *; split_and!; lia.
  - intros [[Hw (?&?&?&?&?)] ->]. destruct u.
    unfold mbind, M_bind, run_bind, gets. simpl.
    assert (Hdur : saturating_sub (default 0 (end_ p)) (default 0 (start p)) <? MAX_SALE_DURATION = true).
    { destruct (start p), (end_ p); simpl in *; try done; unfold saturating_sub; apply Z.ltb_lt; lia. }
    assert (Hwin : match start p, end_ p with
                   | Some st, Some en => (block_number (lbp_chain s) <? st) && (st <? en)
                   | None, None => true
                   | _, _ => false end = true).
    { destruct (start p), (end_ p); try done. apply andb_true_iff. rewrite !Z.ltb_lt. lia. }
    rewrite Hwin, Hdur. simpl.
    rewrite (proj2 (Z.eqb_neq (initial_weight p) 0)), (proj2 (Z.eqb_neq (final_weight p) 0)),
      (proj2 (Z.eqb_neq (snd (fee p)) 0)), !(proj2 (Z.ltb_lt _ _)) by lia. done.
Qed.

(** [validate_pool_data] accepts exactly the sound pools, and never touches
    storage: a sale that is not scheduled yet or starts in the future, ends after it
    starts and lasts less than [MAX_SALE_DURATION]; weights strictly between zero
    and [MAX_WEIGHT]; a fee with a non-zero denominator. *)
Theorem validate_pool_data_spec p s s' :
  validate_pool_data p s = (Ok tt, s') <-> valid_pool (block_number (lbp_chain s)) p /\ s' = s.
Proof. apply validate_pool_data_Ok. Qed.

(** ** Validation of trades *)

Lemma calculate_fees_reads p a : reads (calculate_fees (C := C) p a).
Proof. unfold calculate_fees. solve_reads. Qed.
#[local] Hint Resolve calculate_fees_reads : reads.

Lemma lbp_reads_validate_sell who p a l d : reads (validate_sell who p a l d).
Proof. unfold validate_sell. solve_reads. Qed.
Lemma lbp_reads_validate_buy who p a l d : reads (validate_buy who p a l d).
Proof. unfold validate_buy. solve_reads. Qed.

(** A trade that fails is rolled back; what follows the transfers cannot fail. *)
Lemma lbp_trade_rollback t e (s : LbpState C) r s' :
  (execute_trade t ;; lbp_deposit_event e ;; mret tt) s = (r, s') ->
  (forall u, r <> Ok u) -> s' = s.
Proof.
  unfold mbind, M_bind, run_bind, lbp_deposit_event, modify, mret, M_ret.
  destruct (execute_trade t s) as [r1 s1] eqn:Ht.
  pose proof (transactional_rollback _ _ _ _ Ht) as Hback.
  destruct r1; intros [= <- <-] Hr; [by destruct (Hr tt)|by apply Hback..].
Qed.

(** The pallet keeps the promises of the [AMM] trait. *)
#[export] Instance Lbp_AMM_laws : AMMLaws (LbpState C).
Proof.
  split; simpl; intros *.
  - apply lbp_reads_validate_sell.
  - apply lbp_reads_validate_buy.
  - apply lbp_trade_rollback.
  - apply lbp_trade_rollback.
Qed.

(** The rate in force: 20% until the repay target is reached. *)
Definition fee_in_force (pool : Pool) (s : State) : Z * Z :=
  if collected_fees pool s <? repay_target pool then (2, 10) else fee pool.

Lemma lbp_calculate_fees_Ok pool a s f s' :
  calculate_fees pool a s = (Ok f, s') ->
  calculate_pool_trade_fee a (fee_in_force pool s) = Some f /\ s' = s.
Proof. unfold calculate_fees. intros Hrun. minv Hrun. done. Qed.

#[local] Ltac minv_hook H ::=
  lazymatch type of H with
  | calculate_fees _ _ _ = _ => apply lbp_calculate_fees_Ok in H; destruct H as [H ?]; subst
  | validate_pool_data _ _ = _ =>
      apply (proj1 (validate_pool_data_Ok _ _ _ _)) in H; destruct H as [H ?]; subst
  end.

Definition lbp_reserve (c : AssetId) (p : AssetPair) (s : State) : Balance :=
  free_balance c (get_pair_id p) (lbp_chain s).

Lemma lbp_validate_sell_Ok who p amount min_bought d s t s' :
  validate_sell who p amount min_bought d s = (Ok t, s') ->
  s' = s /\ amount <> 0 /\ amount <= free_balance (asset_in p) who (lbp_chain s) /\
  amount <= lbp_reserve (asset_in p) p s / MAX_IN_RATIO /\
  exists pool wi wo o fee,
    PoolData s !! get_pair_id p = Some pool /\ is_pool_running pool s = true /\
    get_sorted_weight (asset_in p) (block_number (lbp_chain s)) pool = Some (wi, wo) /\
    lbp_out_given_in (lbp_reserve (asset_in p) p s) (lbp_reserve (asset_out p) p s) wi wo amount
      = Some o /\ o <= lbp_reserve (asset_out p) p s / MAX_OUT_RATIO /\
    if fst (pool_assets pool) =? asset_in p then
      calculate_pool_trade_fee amount (fee_in_force pool s) = Some fee /\ fee <= amount /\
      min_bought <= o /\ t = lbp_transfer who p (amount - fee) o (asset_in p) fee
    else
      calculate_pool_trade_fee o (fee_in_force pool s) = Some fee /\ fee <= o /\
      min_bought <= o - fee /\ t = lbp_transfer who p amount (o - fee) (fst (pool_assets pool)) fee.
Proof.
  unfold validate_sell, lbp_reserve. intros Hrun. minv Hrun.
  all: match goal with w : (LBPWeight * LBPWeight)%type |- _ => destruct w as [wi wo] end.
  all: zbool; subst; split_and!; auto.
  all: match goal with Hp : PoolData _ !! _ = Some ?pool |- _ => exists pool, wi, wo end.
  all: do 2 eexists; split_and!; eauto.
  - rewrite (proj2 (Z.eqb_eq _ _)) by done. split_and!; eauto. by f_equal.
  - rewrite (proj2 (Z.eqb_neq _ _)) by done. split_and!; eauto.
Qed.

Lemma lbp_validate_buy_Ok who p amount max_sold d s t s' :
  validate_buy who p amount max_sold d s = (Ok t, s') ->
  s' = s /\ amount <> 0 /\ max_sold <= free_balance (asset_in p) who (lbp_chain s) /\
  amount <= lbp_reserve (asset_out p) p s / MAX_OUT_RATIO /\
  exists pool wi wo i fee,
    PoolData s !! get_pair_id p = Some pool /\ is_pool_running pool s = true /\
    get_sorted_weight (asset_in p) (block_number (lbp_chain s)) pool = Some (wi, wo) /\
    i <= lbp_reserve (asset_in p) p s / MAX_IN_RATIO /\ i <= max_sold /\
    if fst (pool_assets pool) =? asset_out p then
      calculate_pool_trade_fee amount (fee_in_force pool s) = Some fee /\ amount + fee < 2 ^ 128 /\
      lbp_in_given_out (lbp_reserve (asset_in p) p s) (lbp_reserve (asset_out p) p s) wi wo
        (amount + fee) = Some i /\
      t = lbp_transfer who p i amount (asset_out p) fee
    else
      lbp_in_given_out (lbp_reserve (asset_in p) p s) (lbp_reserve (asset_out p) p s) wi wo amount
        = Some i /\
      calculate_pool_trade_fee i (fee_in_force pool s) = Some fee /\ fee <= i /\
      t = lbp_transfer who p (i - fee) amount (fst (pool_assets pool)) fee.
Proof.
  unfold validate_buy, lbp_reserve. intros Hrun. minv Hrun.
  all: match goal with w : (LBPWeight * LBPWeight)%type |- _ => destruct w as [wi wo] end.
  all: zbool; subst; split_and!; auto.
  all: match goal with Hp : PoolData _ !! _ = Some ?pool |- _ => exists pool, wi, wo end.
  all: do 2 eexists; split_and!; eauto.
  - rewrite (proj2 (Z.eqb_eq _ _)) by done. split_and!; eauto. by f_equal.
  - rewrite (proj2 (Z.eqb_neq _ _)) by done. split_and!; eauto.
Qed.

(** ** What execution does *)

Definition same_lbp_pools s s' : Prop :=
  PoolData s' = PoolData s /\ FeeCollectorWithAsset s' = FeeCollectorWithAsset s.

(** The four steps of [execute_trade] on the chain. *)
Definition trade_settled (t : AMMTransfer) (pool : Pool) (c c' : C) : Prop :=
  let p := t_assets t in let acc := get_pair_id p in
  let '(fa, f) := (fst (t_fee t), snd (t_fee t)) in
  exists c1 c2 c3,
    transfer (asset_in p) (t_origin t) acc (t_amount t) c = (Ok tt, c1) /\
    transfer (asset_out p) acc (t_origin t) (t_amount_out t) c1 = (Ok tt, c2) /\
    transfer fa (if asset_in p =? fa then t_origin t else acc) (fee_collector pool) f c2
      = (Ok tt, c3) /\
    set_lock COLLECTOR_LOCK_ID fa (fee_collector pool)
      (wrapping_add 128 (get_by_lock COLLECTOR_LOCK_ID (fst (pool_assets pool))
                           (fee_collector pool) c3) f) c3 = (Ok tt, c').

Lemma execute_trade_Ok t s u s' :
  execute_trade t s = (Ok u, s') ->
  exists pool, PoolData s !! get_pair_id (t_assets t) = Some pool /\
    trade_settled t pool (lbp_chain s) (lbp_chain s') /\ same_lbp_pools s s' /\
    lbp_events s' = lbp_events s.
Proof.
  unfold execute_trade, trade_settled. intros Hrun. minv Hrun.
  match goal with Hp : PoolData _ !! _ = Some ?pool |- _ => exists pool end.
  simpl in *. split_and!; try done. do 3 eexists. split_and!; eauto.
Qed.

Context `{!AMMProvidedLaws}.

Lemma lbp_sell_Ok origin a_in a_out amount limit s u s' :
  sell origin a_in a_out amount limit s = (Ok u, s') ->
  exists who t s1, origin = Signed who /\
    validate_sell who (AssetPair_new a_in a_out) amount limit false s = (Ok t, s) /\
    execute_trade t s = (Ok tt, s1) /\ lbp_chain s' = lbp_chain s1 /\ same_lbp_pools s s' /\
    lbp_events s' = lbp_events s ++ [LbpSellExecuted who a_in a_out (t_amount t) (t_amount_out t)
                                       (fst (t_fee t)) (snd (t_fee t))].
Proof.
  unfold sell. intros Hrun. dinv Hrun.
  match goal with Hp : provided_trade _ _ _ _ = _ |- _ => rewrite provided_trade_spec in Hp; minv Hp end.
  match goal with Hv : validate_sell _ _ _ _ _ _ = (Ok _, ?st) |- _ =>
    pose proof (reads_Ok _ _ _ _ (lbp_reads_validate_sell _ _ _ _ _) Hv); subst st;
    pose proof (lbp_validate_sell_Ok _ _ _ _ _ _ _ _ Hv) as (_ & _ & _ & _ & po & wi & wo & o & f &
      _ & _ & _ & _ & _ & Hcase) end.
  match goal with He : execute_sell _ _ = _ |- _ => unfold execute_sell, lbp_deposit_event in He; minv He end.
  repeat match goal with u : unit |- _ => destruct u end.
  match goal with He : execute_trade _ _ = _ |- _ =>
    pose proof (execute_trade_Ok _ _ _ _ He) as (_ & _ & _ & Hs & Hev) end.
  do 3 eexists. split_and!; [done|eassumption|eassumption|done|exact Hs|]. simpl. rewrite Hev.
  case_match; destruct Hcase as (_ & _ & _ & ->); done.
Qed.

Lemma lbp_buy_Ok origin a_out a_in amount limit s u s' :
  buy origin a_out a_in amount limit s = (Ok u, s') ->
  exists who t s1, origin = Signed who /\
    validate_buy who (AssetPair_new a_in a_out) amount limit false s = (Ok t, s) /\
    execute_trade t s = (Ok tt, s1) /\ lbp_chain s' = lbp_chain s1 /\ same_lbp_pools s s' /\
    lbp_events s' = lbp_events s ++ [LbpBuyExecuted who a_out a_in (t_amount t) (t_amount_out t)
                                       (fst (t_fee t)) (snd (t_fee t))].
Proof.
  unfold buy. intros Hrun. dinv Hrun.
  match goal with Hp : provided_trade _ _ _ _ = _ |- _ => rewrite provided_trade_spec in Hp; minv Hp end.
  match goal with Hv : validate_buy _ _ _ _ _ _ = (Ok _, ?st) |- _ =>
    pose proof (reads_Ok _ _ _ _ (lbp_reads_validate_buy _ _ _ _ _) Hv); subst st;
    pose proof (lbp_validate_buy_Ok _ _ _ _ _ _ _ _ Hv) as (_ & _ & _ & _ & po & wi & wo & o & f &
      _ & _ & _ & _ & _ & Hcase) end.
  match goal with He : execute_buy _ _ = _ |- _ => unfold execute_buy, lbp_deposit_event in He; minv He end.
  repeat match goal with u : unit |- _ => destruct u end.
  match goal with He : execute_trade _ _ = _ |- _ =>
    pose proof (execute_trade_Ok _ _ _ _ He) as (_ & _ & _ & Hs & Hev) end.
  do 3 eexists. split_and!; [done|eassumption|eassumption|done|exact Hs|]. simpl. rewrite Hev.
  case_match; destruct Hcase as (_ & _ & _ & ->); done.
Qed.

(** ** The other extrinsics *)

Lemma lbp_create_pool_Ok origin own a xa b xb iw fw wc f coll rt s u s' :
  create_pool origin own a xa b xb iw fw wc f coll rt s = (Ok u, s') ->
  let pool := Pool_new own a b iw fw wc f coll rt in
  let id := pair_account_from_assets a b in
  may_create_pool origin = true /\ a <> b /\ LbpMinPoolLiquidity <= xa /\ LbpMinPoolLiquidity <= xb /\
  PoolData s !! id = None /\ FeeCollectorWithAsset s !! (coll, a) = None /\
  valid_pool (block_number (lbp_chain s)) pool /\
  PoolData s' = <[id := pool]> (PoolData s) /\
  FeeCollectorWithAsset s' = <[(coll, a) := true]> (FeeCollectorWithAsset s) /\
  exists c1, transfer a own id xa (lbp_chain s) = (Ok tt, c1) /\
             transfer b own id xb c1 = (Ok tt, lbp_chain s').
Proof.
  unfold create_pool, lbp_deposit_event. intros Hrun. dinv Hrun. zbool.
  unfold lbp_exists in *. rewrite bool_decide_eq_false, <- eq_None_not_Some in *.
  simpl in *. split_and!; eauto. by apply eq_None_not_Some.
Qed.

Lemma lbp_update_Ok origin id own st en iw fw f coll rt s u s' :
  update_pool_data origin id own st en iw fw f coll rt s = (Ok u, s') ->
  exists who pool,
    origin = Signed who /\ PoolData s !! id = Some pool /\ who = owner pool /\
    has_pool_started pool s = false /\ lbp_chain s' = lbp_chain s /\
    let pool1 := update_fields own st en iw fw f pool in
    let pool2 := set_repay_target (default (repay_target pool1) rt)
                   (set_collector (default (fee_collector pool) coll) pool1) in
    valid_pool (block_number (lbp_chain s)) pool2 /\
    PoolData s' = <[id := pool2]> (PoolData s) /\
    FeeCollectorWithAsset s' =
      match coll with
      | Some c => <[(c, fst (pool_assets pool)) := true]>
                    (delete (fee_collector pool, fst (pool_assets pool)) (FeeCollectorWithAsset s))
      | None => FeeCollectorWithAsset s
      end /\
    (forall c, coll = Some c ->
       default false (FeeCollectorWithAsset s !! (c, fst (pool_assets pool))) = false).
Proof.
  unfold update_pool_data, lbp_deposit_event, replace_collector. intros Hrun.
  destruct coll as [c|]; dinv Hrun; zbool; subst; simpl in *;
    (match goal with Hp : PoolData _ !! _ = Some ?pool |- _ => eexists _, pool end);
    split_and!; try done; eauto.
  by intros ? [= <-].
Qed.

Lemma lbp_add_liquidity_Ok origin xa xb s u s' :
  add_liquidity origin xa xb s = (Ok u, s') ->
  let id := pair_account_from_assets (fst xa) (fst xb) in
  exists who pool c1,
    origin = Signed who /\ PoolData s !! id = Some pool /\ who = owner pool /\
    (snd xa <> 0 \/ snd xb <> 0) /\ same_lbp_pools s s' /\
    transfer (fst xa) who id (snd xa) (lbp_chain s) = (Ok tt, c1) /\
    transfer (fst xb) who id (snd xb) c1 = (Ok tt, lbp_chain s').
Proof.
  unfold add_liquidity, lbp_deposit_event. intros Hrun. dinv Hrun; zbool; subst; simpl in *;
    (match goal with Hp : PoolData _ !! _ = Some ?pool |- _ => eexists _, pool, _ end);
    split_and!; try done; eauto;
    match goal with Hor : (_ || _)%bool = true |- _ =>
      rewrite orb_true_iff, !negb_true_iff, !Z.eqb_neq in Hor; done end.
Qed.

Lemma lbp_remove_liquidity_Ok origin id s u s' :
  remove_liquidity origin id s = (Ok u, s') ->
  exists who pool c1 c2,
    origin = Signed who /\ PoolData s !! id = Some pool /\ who = owner pool /\
    is_pool_running pool s = false /\
    let a := fst (pool_assets pool) in let b := snd (pool_assets pool) in
    let xa := free_balance a id (lbp_chain s) in let xb := free_balance b id (lbp_chain s) in
    transfer a id who xa (lbp_chain s) = (Ok tt, c1) /\ transfer b id who xb c1 = (Ok tt, c2) /\
    (if 0 <? get_by_lock COLLECTOR_LOCK_ID a (fee_collector pool) c2
     then remove_lock COLLECTOR_LOCK_ID a (fee_collector pool) c2 = (Ok tt, lbp_chain s')
     else lbp_chain s' = c2) /\
    PoolData s' = delete id (PoolData s) /\
    FeeCollectorWithAsset s' = delete (fee_collector pool, a) (FeeCollectorWithAsset s) /\
    lbp_events s' = lbp_events s ++ [LbpLiquidityRemoved id a b xa xb].
Proof.
  unfold remove_liquidity, lbp_deposit_event, collected_fees. intros Hrun.
  dinv Hrun; zbool; subst; simpl in *;
    (match goal with Hp : PoolData _ !! _ = Some ?pool |- _ => eexists _, pool, _, _ end);
    split_and!; try done; eauto.
  - by rewrite (proj2 (Z.ltb_lt _ _)).
  - by rewrite (proj2 (Z.ltb_ge _ _)).
Qed.

(** ** The extrinsics together *)

Inductive lbp_call :=
| LbpCreate (own : AccountId) (a : AssetId) (xa : Balance) (b : AssetId) (xb : Balance)
    (iw fw : LBPWeight) (wc : WeightCurveType) (f : Z * Z) (coll : AccountId) (rt : Balance)
| LbpUpdate (id : AccountId) (own : option AccountId) (st en : option BlockNumber)
    (iw fw : option LBPWeight) (f : option (Z * Z)) (coll : option AccountId) (rt : option Balance)
| LbpAdd (xa xb : AssetId * Balance)
| LbpRemove (id : AccountId)
| LbpSell (a_in a_out : AssetId) (amount limit : Balance)
| LbpBuy (a_out a_in : AssetId) (amount limit : Balance).

Definition lbp_dispatch (origin : Origin) (call : lbp_call) : Dispatch State unit :=
  match call with
  | LbpCreate own a xa b xb iw fw wc f coll rt =>
      create_pool origin own a xa b xb iw fw wc f coll rt
  | LbpUpdate id own st en iw fw f coll rt => update_pool_data origin id own st en iw fw f coll rt
  | LbpAdd xa xb => add_liquidity origin xa xb
  | LbpRemove id => remove_liquidity origin id
  | LbpSell a b x l => sell origin a b x l
  | LbpBuy b a x l => buy origin b a x l
  end.

Lemma lbp_dispatch_rollback origin call s r s' :
  lbp_dispatch origin call s = (r, s') -> (forall u, r <> Ok u) -> s' = s.
Proof. destruct call; apply transactional_rollback. Qed.

(** Trades and additions do not touch the records. *)
Lemma lbp_dispatch_records origin call s s' :
  lbp_dispatch origin call s = (Ok tt, s') ->
  match call with LbpAdd _ _ | LbpSell _ _ _ _ | LbpBuy _ _ _ _ => same_lbp_pools s s' | _ => True end.
Proof.
  destruct call; simpl; try done.
  - by intros (? & ? & ? & _ & _ & _ & _ & ? & _)%lbp_add_liquidity_Ok.
  - by intros (? & ? & ? & _ & _ & _ & _ & ? & _)%lbp_sell_Ok.
  - by intros (? & ? & ? & _ & _ & _ & _ & ? & _)%lbp_buy_Ok.
Qed.

(** [C30] The parameters of a sale are frozen while it runs: no extrinsic of the pallet, from
    any origin and whatever its outcome, changes or removes the record [PoolData] of a
    running pool (its owner, sale period, assets, weights, fee, collector and repayment
    target); outside the sale only the owner does.  The reserves are not part of the
    record: trades and [add_liquidity] change them during the sale. *)
Theorem running_pool_frozen origin call s r s' id pool :
  lbp_dispatch origin call s = (r, s') -> PoolData s !! id = Some pool ->
  PoolData s' !! id = Some pool \/
  origin = Signed (owner pool) /\ is_pool_running pool s = false.
Proof.
  intros Hrun Hp. destruct r as [[]| |].
  2,3: left; by rewrite (lbp_dispatch_rollback _ _ _ _ _ Hrun).
  pose proof (lbp_dispatch_records _ _ _ _ Hrun) as Hsame.
  destruct call; simpl in Hrun; try (destruct Hsame as [-> _]; by left).
  - apply lbp_create_pool_Ok in Hrun as (_ & _ & _ & _ & Hn & _ & _ & -> & _). left.
    rewrite lookup_insert_ne; [done|]. intros <-. congruence.
  - apply lbp_update_Ok in Hrun as (who & pl & -> & Hpl & -> & Hst & _ & _ & -> & _).
    destruct (decide (id0 = id)) as [->|Hne]; [right|left; by rewrite lookup_insert_ne].
    assert (pl = pool) as -> by congruence. split; [done|].
    unfold has_pool_started, is_pool_running in *.
    destruct (start pool) as [b|], (end_ pool); try done. by rewrite Hst.
  - apply lbp_remove_liquidity_Ok in Hrun as (who & pl & c1 & c2 & -> & Hpl & -> & Hst & _ & _ & _ & -> & _).
    destruct (decide (id0 = id)) as [->|Hne]; [right|left; by rewrite lookup_delete_ne].
    assert (pl = pool) as -> by congruence. done.
Qed.

(** ** The invariant of the records *)

Definition collector_key (p : Pool) : AccountId * AssetId := (fee_collector p, fst (pool_assets p)).

(** A scheduled sale starts before it ends and is not too long. *)
Definition sale_shape (p : Pool) : Prop :=
  match start p, end_ p with
  | Some st, Some en => st < en /\ en - st < MAX_SALE_DURATION
  | None, None => True
  | _, _ => False
  end.

Record pool_ok (id : AccountId) (p : Pool) : Prop := mkPoolOk {
  po_id : id = pair_account_from_assets (fst (pool_assets p)) (snd (pool_assets p));
  po_assets : fst (pool_assets p) <> snd (pool_assets p);
  po_weights : weights_ok p;
  po_shape : sale_shape p
}.

Record lbp_ok (s : State) : Prop := mkLbpOk {
  (** every pool is stored under the account of its assets and is sound *)
  lk_pool id p : PoolData s !! id = Some p -> pool_ok id p;
  (** the record of fee collectors lists exactly the pools' collectors ... *)
  lk_flag k v : FeeCollectorWithAsset s !! k = Some v ->
    v = true /\ exists id p, PoolData s !! id = Some p /\ collector_key p = k;
  lk_listed id p :
    PoolData s !! id = Some p -> FeeCollectorWithAsset s !! collector_key p = Some true;
  (** ... and no two pools collect the same asset in the same account *)
  lk_unique id id' p p' :
    PoolData s !! id = Some p -> PoolData s !! id' = Some p' ->
    collector_key p = collector_key p' -> id = id'
}.

(** A state transition: an extrinsic with any result, or any step of the rest of
    the chain (the block number moves, balances change). *)
Inductive lbp_step : State -> State -> Prop :=
| lbp_step_call origin call s r s' : lbp_dispatch origin call s = (r, s') -> lbp_step s s'
| lbp_step_chain s c : lbp_step s (set_lbp_chain c s).

Inductive lbp_reachable : State -> Prop :=
| lbp_reach_init s : PoolData s = ∅ -> FeeCollectorWithAsset s = ∅ -> lbp_reachable s
| lbp_reach_step s s' : lbp_reachable s -> lbp_step s s' -> lbp_reachable s'.

Lemma valid_pool_shape now p : valid_pool now p -> weights_ok p /\ sale_shape p.
Proof.
  unfold valid_pool, sale_window_ok, sale_shape. intros [Hw ?]. split; [done|].
  destruct (start p), (end_ p); (done || lia).
Qed.

Lemma lbp_ok_same s s' : lbp_ok s -> same_lbp_pools s s' -> lbp_ok s'.
Proof. intros [] [Hp Hf]. split; rewrite ?Hp, ?Hf; eauto. Qed.

(** A pool moves from nothing to [p], from [p] to [p'] or from [p] to nothing. *)
Lemma lbp_ok_insert s s' id p :
  lbp_ok s -> pool_ok id p -> PoolData s !! id = None ->
  FeeCollectorWithAsset s !! collector_key p = None ->
  PoolData s' = <[id := p]> (PoolData s) ->
  FeeCollectorWithAsset s' = <[collector_key p := true]> (FeeCollectorWithAsset s) -> lbp_ok s'.
Proof.
  intros [K1 K2 K3 K4] Hok Hn Hc Hp Hf. split; rewrite ?Hp, ?Hf.
  - intros id' p' [[<- <-]|[? ?]]%lookup_insert_Some; eauto.
  - intros k v [[<- <-]|[Hk Hv]]%lookup_insert_Some.
    + split; [done|]. exists id, p. by rewrite lookup_insert_eq.
    + destruct (K2 k v Hv) as (-> & id' & p' & Hl & Hkey). split; [done|]. exists id', p'.
      rewrite lookup_insert_ne; [done|]. congruence.
  - intros id' p' [[<- <-]|[? Hl]]%lookup_insert_Some; [by rewrite lookup_insert_eq|].
    rewrite lookup_insert_ne; eauto. intros Heq. apply K3 in Hl. congruence.
  - intros i j p1 p2 [[<- <-]|[Hi H1']]%lookup_insert_Some [[<- <-]|[Hj H2']]%lookup_insert_Some Heq;
      eauto.
    + apply K3 in H2'. congruence.
    + apply K3 in H1'. congruence.
Qed.

Lemma lbp_ok_delete s s' id p :
  lbp_ok s -> PoolData s !! id = Some p -> PoolData s' = delete id (PoolData s) ->
  FeeCollectorWithAsset s' = delete (collector_key p) (FeeCollectorWithAsset s) -> lbp_ok s'.
Proof.
  intros [K1 K2 K3 K4] Hs Hp Hf. split; rewrite ?Hp, ?Hf.
  - intros id' p' [? ?]%lookup_delete_Some. eauto.
  - intros k v [Hk Hv]%lookup_delete_Some.
    destruct (K2 k v Hv) as (-> & id' & p' & Hl & Hkey). split; [done|]. exists id', p'.
    rewrite lookup_delete_ne; [done|]. congruence.
  - intros id' p' [Hne Hl]%lookup_delete_Some. rewrite lookup_delete_ne; [eauto|].
    intros Heq. apply Hne. by eapply K4.
  - intros i j p1 p2 [? ?]%lookup_delete_Some [? ?]%lookup_delete_Some. eauto.
Qed.

Lemma lbp_ok_same_key s s' id p p' :
  lbp_ok s -> PoolData s !! id = Some p -> pool_ok id p' -> collector_key p' = collector_key p ->
  PoolData s' = <[id := p']> (PoolData s) ->
  FeeCollectorWithAsset s' = FeeCollectorWithAsset s -> lbp_ok s'.
Proof.
  intros [K1 K2 K3 K4] Hs Hok Hkey Hp Hf. split; rewrite ?Hp, ?Hf.
  - intros id' q [[<- <-]|[? ?]]%lookup_insert_Some; eauto.
  - intros k v (-> & id' & q & Hl & Hk)%K2. split; [done|].
    destruct (decide (id = id')) as [->|Hne].
    + exists id', p'. rewrite lookup_insert_eq. split; [done|]. congruence.
    + exists id', q. by rewrite lookup_insert_ne.
  - intros id' q [[<- <-]|[? ?]]%lookup_insert_Some; [rewrite Hkey|]; eauto.
  - intros i j p1 p2 [[<- <-]|[? ?]]%lookup_insert_Some [[<- <-]|[? ?]]%lookup_insert_Some Heq;
      eauto; (eapply K4; [eassumption..|]; congruence).
Qed.

Lemma update_preserves origin id own st en iw fw f coll rt s s' :
  lbp_ok s -> update_pool_data origin id own st en iw fw f coll rt s = (Ok tt, s') -> lbp_ok s'.
Proof.
  intros Hok (who & p & _ & Hp & _ & _ & _ & Hv & Hpd & Hfc & Hfree)%lbp_update_Ok.
  set (p' := set_repay_target _ _) in *.
  destruct (valid_pool_shape _ _ Hv) as [Hw Hsh].
  destruct (lk_pool _ Hok _ _ Hp) as [Hid Has _ _].
  assert (Hok' : pool_ok id p') by by split.
  destruct coll as [c|]; [|by eapply (lbp_ok_same_key s s' id p p')].
  (* the old collector is removed, then the new one is inserted *)
  set (mid := mkLbp (lbp_chain s) (delete id (PoolData s))
                (delete (collector_key p) (FeeCollectorWithAsset s)) (lbp_events s)).
  assert (Hmid : lbp_ok mid) by (by eapply lbp_ok_delete).
  assert (Hnew : FeeCollectorWithAsset s !! (c, fst (pool_assets p)) = None).
  { specialize (Hfree c eq_refl). destruct (FeeCollectorWithAsset s !! _) as [v|] eqn:Hl; [|done].
    apply (lk_flag _ Hok) in Hl as [-> _]. done. }
  eapply (lbp_ok_insert mid s' id p'); eauto.
  - simpl. apply lookup_delete_eq.
  - simpl. change (collector_key p') with (c, fst (pool_assets p)). apply lookup_delete_None. by right.
  - simpl. by rewrite insert_delete_eq.
Qed.

Lemma lbp_dispatch_preserves origin call s r s' :
  lbp_ok s -> lbp_dispatch origin call s = (r, s') -> lbp_ok s'.
Proof.
  intros Hok Hrun. destruct r as [[]| |].
  2,3: by rewrite (lbp_dispatch_rollback _ _ _ _ _ Hrun).
  pose proof (lbp_dispatch_records _ _ _ _ Hrun) as Hsame.
  destruct call; simpl in Hrun; try by eapply lbp_ok_same.
  - apply lbp_create_pool_Ok in Hrun as (_ & ? & _ & _ & Hn & Hf & Hv & Hpd & Hfc & _).
    refine (lbp_ok_insert s s' _ (Pool_new own a b iw fw wc f coll rt) Hok _ Hn Hf Hpd Hfc).
    destruct (valid_pool_shape _ _ Hv). by split.
  - by eapply update_preserves.
  - apply lbp_remove_liquidity_Ok in Hrun as (who & p & c1 & c2 & _ & Hp & _ & _ & _ & _ & _ & Hpd & Hfc & _).
    by eapply lbp_ok_delete.
Qed.

(** [C10] In every reachable state the LBP records are consistent: each pool is
    stored under the account of its two different assets with sound weights, fee
    and sale window, and the record of fee collectors lists exactly the (collector,
    accumulated asset) pairs of the pools, each used by one pool only. *)
Theorem lbp_reachable_ok s : lbp_reachable s -> lbp_ok s.
Proof.
  induction 1 as [s Hp Hf|s s' _ IH Hstep].
  - split; rewrite ?Hp, ?Hf; intros *; by rewrite ?lookup_empty.
  - destruct Hstep; [by eapply lbp_dispatch_preserves|]. by eapply lbp_ok_same.
Qed.
End facts.

Section trades.
Context {C : Type}.
Context `{MultiCurrency C} `{MultiLockable C} `{BlockNumberProvider C}.
Context `{AssetPairAccountIdFor} `{LbpMath} `{FeeMath} `{AMMProvided} `{CreatePoolOrigin}.
Context {cfg : LbpConfig}.
Context `{!MultiCurrencyLaws C} `{!MultiLockableLaws C} `{!LbpMathLaws} `{!FeeMathLaws}
  `{!AMMProvidedLaws}.
Notation State := (LbpState C).
Implicit Types s : State.

(** While a sale runs, the two weights are both positive and add up to
    [MAX_WEIGHT], in whichever direction the pair is traded. *)
Theorem running_weights_sum s id pool a wi wo :
  lbp_ok s -> PoolData s !! id = Some pool -> is_pool_running pool s = true ->
  0 <= initial_weight pool -> 0 <= final_weight pool ->
  get_sorted_weight a (block_number (lbp_chain s)) pool = Some (wi, wo) ->
  wi + wo = MAX_WEIGHT /\ 0 < wi < MAX_WEIGHT /\ 0 < wo < MAX_WEIGHT.
Proof.
  intros Hok Hp Hrun Hi0 Hf0. destruct (lk_pool _ Hok _ _ Hp) as [_ _ (? & ? & ? & ? & _) _].
  unfold is_pool_running in Hrun. unfold get_sorted_weight, calculate_weights, calculate_weight.
  destruct (start pool) as [st|], (end_ pool) as [en|]; try done. zbool. simpl.
  destruct (calculate_linear_weights st en (initial_weight pool) (final_weight pool)
    (block_number (lbp_chain s))) as [w|] eqn:Hw; [|done].
  apply linear_weights_between in Hw; [|lia]. unfold saturating_sub.
  case_match; intros [= <- <-]; simpl; unfold MAX_WEIGHT in *; lia.
Qed.

(** The balances and the collector's lock after a settled trade.  [x] of the
    incoming and [y] of the outgoing asset change hands, [f] of [fa] goes to the
    collector. *)
Definition trade_effect (who acc coll : AccountId) (a_in a_out fa : AssetId)
    (x y f : Balance) (c c' : C) : Prop :=
  (forall b z, free_balance b z c' = free_balance b z c + moves a_in who acc x b z
     + moves a_out acc who y b z + moves fa (if a_in =? fa then who else acc) coll f b z) /\
  get_by_lock COLLECTOR_LOCK_ID fa coll c' = get_by_lock COLLECTOR_LOCK_ID fa coll c + f.

Lemma moves_diff_asset a f t x b z : b <> a -> moves a f t x b z = 0.
Proof. intros. unfold moves. rewrite !decide_False by naive_solver. done. Qed.
Lemma moves_source a f t x : f <> t -> moves a f t x a f = - x.
Proof. intros. unfold moves. rewrite decide_False, decide_True by naive_solver. done. Qed.

Lemma trade_settled_effect t pool c c' :
  let p := t_assets t in let acc := get_pair_id p in let who := t_origin t in
  let coll := fee_collector pool in let fa := fst (t_fee t) in let f := snd (t_fee t) in
  trade_settled t pool c c' ->
  asset_in p <> asset_out p -> who <> acc -> who <> coll -> acc <> coll ->
  fa = fst (pool_assets pool) -> fa = asset_in p \/ fa = asset_out p ->
  0 <= t_amount t -> 0 <= t_amount_out t -> 0 <= f ->
  (if asset_in p =? fa then t_amount t + f else t_amount t) + minimum_balance (asset_in p)
    <= free_balance (asset_in p) who c ->
  (if asset_in p =? fa then t_amount_out t else t_amount_out t + f) + minimum_balance (asset_out p)
    <= free_balance (asset_out p) acc c ->
  0 <= minimum_balance (asset_in p) -> 0 <= minimum_balance (asset_out p) ->
  0 <= get_by_lock COLLECTOR_LOCK_ID fa coll c + f < 2 ^ 128 ->
  trade_effect who acc coll (asset_in p) (asset_out p) fa (t_amount t) (t_amount_out t) f c c'.
Proof.
  intros p acc who coll fa f (c1 & c2 & c3 & T1 & T2 & T3 & L) Hne Hwa Hwc Hac Hfa Hor Hx Hy Hf
    Kin Kout Min Mout Hlock.
  fold p acc who fa f coll in T1, T2, T3, L. rewrite <- Hfa in L.
  assert (K1 : keeps (asset_in p) who (t_amount t) c).
  { right. revert Kin. case_match; lia. }
  pose proof (transfer_moves _ _ _ _ _ _ T1 Hwa Hx K1) as M1.
  assert (K2 : keeps (asset_out p) acc (t_amount_out t) c1).
  { right. rewrite M1, moves_diff_asset by done. revert Kout. case_match; lia. }
  pose proof (transfer_moves _ _ _ _ _ _ T2 (not_eq_sym Hwa) Hy K2) as M2.
  assert (K3 : keeps fa (if asset_in p =? fa then who else acc) f c2).
  { right. rewrite M2, M1. case_match eqn:Heq; zbool.
    - rewrite <- Heq, moves_source, moves_diff_asset by auto. lia.
    - assert (fa = asset_out p) as -> by naive_solver.
      rewrite moves_diff_asset, moves_source by auto. lia. }
  assert (Hpay : (if asset_in p =? fa then who else acc) <> coll) by (case_match; done).
  pose proof (transfer_moves _ _ _ _ _ _ T3 Hpay Hf K3) as M3.
  assert (Hlk : get_by_lock COLLECTOR_LOCK_ID fa coll c3 = get_by_lock COLLECTOR_LOCK_ID fa coll c).
  { by rewrite (transfer_locks _ _ _ _ _ _ _ _ _ T3), (transfer_locks _ _ _ _ _ _ _ _ _ T2),
      (transfer_locks _ _ _ _ _ _ _ _ _ T1). }
  split.
  - intros b z. rewrite (set_lock_balances _ _ _ _ _ _ b L), M3, M2, M1. lia.
  - rewrite (set_lock_get _ _ _ _ _ _ L), Hlk. by apply wrapping_add_small.
Qed.

Lemma fee_in_force_nonneg pool s a f :
  0 <= fst (fee pool) -> 0 <= snd (fee pool) -> 0 <= a ->
  calculate_pool_trade_fee a (fee_in_force pool s) = Some f -> 0 <= f.
Proof.
  unfold fee_in_force. intros. destruct (collected_fees pool s <? repay_target pool).
  - by apply (pool_trade_fee_nonneg a 2 10 f).
  - by eapply trade_fee_nonneg.
Qed.

(** The reserve bounds of a trade: a third of a reserve that holds twice the
    minimum balance can leave it. *)
Lemma third_leaves_minimum r m o : 0 <= r -> 2 * m <= r -> o <= r / 3 -> o + m <= r.
Proof. intros. pose proof (Z.mul_div_le r 3). lia. Qed.

(** The accounts and amounts under which a trade of [p] settles exactly. *)
Record trade_context (who : AccountId) (p : AssetPair) (pool : Pool) (s : State) : Prop := {
  tc_pool : PoolData s !! get_pair_id p = Some pool;
  tc_assets : fst (pool_assets pool) = asset_in p \/ fst (pool_assets pool) = asset_out p;
  tc_distinct : asset_in p <> asset_out p;
  tc_accounts : who <> get_pair_id p /\ who <> fee_collector pool /\
                get_pair_id p <> fee_collector pool;
  tc_fee : 0 <= fst (fee pool) /\ 0 <= snd (fee pool);
  tc_minimum : 0 <= minimum_balance (asset_in p) /\ 0 <= minimum_balance (asset_out p) /\
               2 * minimum_balance (asset_out p) <= lbp_reserve (asset_out p) p s;
  tc_lock : 0 <= collected_fees pool s
}.

(** [C31] The exact effect of [sell].  The trade happens only while the sale runs.
    When the accumulated asset is sold, the seller pays exactly [amount]: the fee to
    the collector, the rest to the pool, and gets the formula's output; when it is
    bought, the fee comes out of the output.  The seller gets at least the limit, the
    lock of the collector grows by the fee, the fee is 20% until the repay target is
    reached, and no other balance changes. *)
Theorem lbp_sell_exact who a_in a_out amount limit pool s s' :
  sell (Signed who) a_in a_out amount limit s = (Ok tt, s') ->
  let p := AssetPair_new a_in a_out in
  let settles := trade_effect who (get_pair_id p) (fee_collector pool) a_in a_out in
  trade_context who p pool s -> 0 <= amount ->
  amount + minimum_balance a_in <= free_balance a_in who (lbp_chain s) ->
  collected_fees pool s + amount + lbp_reserve a_out p s < 2 ^ 128 ->
  is_pool_running pool s = true /\ same_lbp_pools s s' /\
  exists wi wo o f,
    get_sorted_weight a_in (block_number (lbp_chain s)) pool = Some (wi, wo) /\
    lbp_out_given_in (lbp_reserve a_in p s) (lbp_reserve a_out p s) wi wo amount = Some o /\
    if fst (pool_assets pool) =? a_in then
      calculate_pool_trade_fee amount (fee_in_force pool s) = Some f /\ limit <= o /\
      settles a_in (amount - f) o f (lbp_chain s) (lbp_chain s')
    else
      calculate_pool_trade_fee o (fee_in_force pool s) = Some f /\ limit <= o - f /\
      settles a_out amount (o - f) f (lbp_chain s) (lbp_chain s').
Proof.
  intros Hrun p settles [Hpool Hfa Hne (Hwa & Hwc & Hac) (Hf1 & Hf2) (Hm1 & Hm2 & Hm3) Hl] Hamt Kin Hlock.
  apply lbp_sell_Ok in Hrun as (w & t & s1 & [= <-] & Hval & Hexe & Hch & Hsame & _).
  apply lbp_validate_sell_Ok in Hval as (_ & _ & _ & _ & pl & wi & wo & o & f & Hp & Hr & Hw & Ho & Hmax & Hcase).
  fold p in Hp, Ho, Hmax, Hcase. assert (pl = pool) as -> by congruence.
  split; [done|]. split; [done|]. exists wi, wo, o, f. split; [done|]. split; [done|].
  assert (Ho0 : 0 <= o) by (eapply lbp_out_nonneg; [| | |exact Ho]; first [apply free_balance_nonneg|done]).
  pose proof (free_balance_nonneg a_out (get_pair_id p) (lbp_chain s)) as Hr0.
  pose proof (third_leaves_minimum _ _ _ Hr0 Hm3 Hmax).
  apply execute_trade_Ok in Hexe as (pl & Hpl & Hset & _).
  unfold settles. rewrite Hch. unfold collected_fees, lbp_reserve in *.
  simpl in Hcase, Hpl, Hfa, Hm1, Hm2, Hm3, Hne. simpl asset_out in *.
  destruct (Z.eqb_spec (fst (pool_assets pool)) a_in) as [Hin|Hout].
  - destruct Hcase as (Hfee & Hle & Hlim & ->). split; [done|]. split; [done|].
    pose proof (fee_in_force_nonneg pool s _ _ Hf1 Hf2 Hamt Hfee).
    assert (pl = pool) as -> by (simpl in Hpl; congruence).
    rewrite Hin in Hl, Hlock.
    apply (trade_settled_effect (lbp_transfer who p (amount - f) o a_in f) pool); simpl;
      rewrite ?Z.eqb_refl; auto; lia.
  - destruct Hcase as (Hfee & Hle & Hlim & ->). split; [done|]. split; [done|].
    assert (Hao : fst (pool_assets pool) = a_out) by naive_solver.
    pose proof (fee_in_force_nonneg pool s _ _ Hf1 Hf2 Ho0 Hfee).
    assert (pl = pool) as -> by (simpl in Hpl; congruence).
    rewrite Hao in Hset, Hl, Hlock.
    pose proof (trade_settled_effect (lbp_transfer who p amount (o - f) a_out f) pool) as Heff.
    simpl in Heff. rewrite (proj2 (Z.eqb_neq a_in a_out)) in Heff by done.
    apply Heff; auto; lia.
Qed.

(** [C22] The exact effect of [buy].  The buyer gets exactly [amount].  When the
    accumulated asset is bought, the pool pays the fee on top of it and the buyer the
    price of both; when the other asset is bought, the price is split between the
    pool and the collector.  The buyer pays at most the limit, the trade happens only
    while the sale runs, and no other balance changes.  Trader, pool and collector are
    different accounts that keep their existential deposits ([trade_context] and the
    bounds on balances), and the lock of the collector fits a [u128]. *)
Theorem lbp_buy_exact who a_out a_in amount limit pool s s' :
  buy (Signed who) a_out a_in amount limit s = (Ok tt, s') ->
  let p := AssetPair_new a_in a_out in
  let settles := trade_effect who (get_pair_id p) (fee_collector pool) a_in a_out in
  trade_context who p pool s -> 0 <= amount ->
  limit + minimum_balance a_in <= free_balance a_in who (lbp_chain s) ->
  (forall f, calculate_pool_trade_fee amount (fee_in_force pool s) = Some f ->
     amount + f + minimum_balance a_out <= lbp_reserve a_out p s) ->
  collected_fees pool s + limit + lbp_reserve a_out p s < 2 ^ 128 ->
  is_pool_running pool s = true /\ same_lbp_pools s s' /\
  exists wi wo i f,
    get_sorted_weight a_in (block_number (lbp_chain s)) pool = Some (wi, wo) /\ i <= limit /\
    if fst (pool_assets pool) =? a_out then
      calculate_pool_trade_fee amount (fee_in_force pool s) = Some f /\
      lbp_in_given_out (lbp_reserve a_in p s) (lbp_reserve a_out p s) wi wo (amount + f) = Some i /\
      settles a_out i amount f (lbp_chain s) (lbp_chain s')
    else
      lbp_in_given_out (lbp_reserve a_in p s) (lbp_reserve a_out p s) wi wo amount = Some i /\
      calculate_pool_trade_fee i (fee_in_force pool s) = Some f /\
      settles a_in (i - f) amount f (lbp_chain s) (lbp_chain s').
Proof.
  intros Hrun p settles [Hpool Hfa Hne (Hwa & Hwc & Hac) (Hf1 & Hf2) (Hm1 & Hm2 & Hm3) Hl] Hamt Kin Kout Hlock.
  apply lbp_buy_Ok in Hrun as (w & t & s1 & [= <-] & Hval & Hexe & Hch & Hsame & _).
  apply lbp_validate_buy_Ok in Hval as (_ & _ & _ & Hmax & pl & wi & wo & i & f & Hp & Hr & Hw & _ & Hlim & Hcase).
  fold p in Hp, Hmax, Hcase. assert (pl = pool) as -> by congruence.
  split; [done|]. split; [done|]. exists wi, wo, i, f. split; [done|]. split; [done|].
  pose proof (free_balance_nonneg a_in (get_pair_id p) (lbp_chain s)) as Hri.
  pose proof (free_balance_nonneg a_out (get_pair_id p) (lbp_chain s)) as Hr0.
  pose proof (third_leaves_minimum _ _ _ Hr0 Hm3 Hmax).
  apply execute_trade_Ok in Hexe as (pl & Hpl & Hset & _).
  unfold settles. rewrite Hch. unfold collected_fees, lbp_reserve in *.
  simpl in Hcase, Hpl, Hfa, Hm1, Hm2, Hm3, Hne. simpl asset_out in *.
  destruct (Z.eqb_spec (fst (pool_assets pool)) a_out) as [Hout|Hin].
  - destruct Hcase as (Hfee & Hfit & Hi & ->). split; [done|]. split; [done|].
    pose proof (fee_in_force_nonneg pool s _ _ Hf1 Hf2 Hamt Hfee).
    assert (0 <= i) by (eapply lbp_in_nonneg; [| | |exact Hi]; auto; lia).
    specialize (Kout f Hfee). assert (pl = pool) as -> by (simpl in Hpl; congruence).
    rewrite Hout in Hl, Hlock.
    pose proof (trade_settled_effect (lbp_transfer who p i amount a_out f) pool) as Heff.
    simpl in Heff. rewrite (proj2 (Z.eqb_neq a_in a_out)) in Heff by done.
    apply Heff; auto; lia.
  - destruct Hcase as (Hi & Hfee & Hle & ->). split; [done|]. split; [done|].
    assert (Hao : fst (pool_assets pool) = a_in) by naive_solver.
    assert (Hi0 : 0 <= i) by (eapply lbp_in_nonneg; [| | |exact Hi]; auto; lia).
    pose proof (fee_in_force_nonneg pool s _ _ Hf1 Hf2 Hi0 Hfee).
    assert (pl = pool) as -> by (simpl in Hpl; congruence).
    rewrite Hao in Hset, Hl, Hlock.
    apply (trade_settled_effect (lbp_transfer who p (i - f) amount a_in f) pool); simpl;
      rewrite ?Z.eqb_refl; auto; lia.
Qed.

(** [remove_liquidity] empties the pool: its owner gets everything the pool
    held, no lock of collected fees remains, and the pool and its collector's entry
    are gone, so that the pair and the collector can be used again. *)
Theorem lbp_remove_liquidity_exact who id pool s s' :
  remove_liquidity (Signed who) id s = (Ok tt, s') ->
  PoolData s !! id = Some pool ->
  let a := fst (pool_assets pool) in let b := snd (pool_assets pool) in
  a <> b -> who <> id ->
  0 <= collected_fees pool s ->
  who = owner pool /\ is_pool_running pool s = false /\
  (forall x z, free_balance x z (lbp_chain s') = free_balance x z (lbp_chain s)
     + moves a id who (free_balance a id (lbp_chain s)) x z
     + moves b id who (free_balance b id (lbp_chain s)) x z) /\
  get_by_lock COLLECTOR_LOCK_ID a (fee_collector pool) (lbp_chain s') = 0 /\
  PoolData s' !! id = None /\ FeeCollectorWithAsset s' !! collector_key pool = None.
Proof.
  intros Hrun Hp a b Hab Hwi Hnn.
  apply lbp_remove_liquidity_Ok in Hrun as (w & pl & c1 & c2 & [= <-] & Hpl & Hw & Hr & T1 & T2 & L & Hpd & Hfc & _).
  assert (pl = pool) as -> by congruence. fold a b in T1, T2, L, Hfc.
  pose proof (free_balance_nonneg a id (lbp_chain s)) as Ha0.
  pose proof (free_balance_nonneg b id (lbp_chain s)) as Hb0.
  pose proof (transfer_moves _ _ _ _ _ _ T1 (not_eq_sym Hwi) Ha0 (or_introl eq_refl)) as M1.
  assert (K2 : keeps b id (free_balance b id (lbp_chain s)) c1).
  { left. rewrite M1, moves_diff_asset by done. lia. }
  pose proof (transfer_moves _ _ _ _ _ _ T2 (not_eq_sym Hwi) Hb0 K2) as M2.
  rewrite Hpd, Hfc. split_and!; try done; try apply lookup_delete_eq.
  - intros x z. destruct (Z.ltb_spec 0 (get_by_lock COLLECTOR_LOCK_ID a (fee_collector pool) c2)).
    + rewrite (remove_lock_balances _ _ _ _ _ x L), M2, M1. lia.
    + rewrite L, M2, M1. lia.
  - case_match; zbool; [by eapply remove_lock_get|]. rewrite L.
    unfold collected_fees in Hnn. fold a in Hnn.
    rewrite <- (transfer_locks _ _ _ _ _ _ _ _ _ T1), <- (transfer_locks _ _ _ _ _ _ _ _ _ T2) in Hnn. lia.
Qed.

(** Which pools block the pair: those whose sale has not ended yet. *)
Definition sale_pending (pool : Pool) (now : BlockNumber) : Prop :=
  match end_ pool with Some e => now <= e | None => True end.

Lemma can_create_false a b s :
  can_create a b s = false <->
  exists pool, PoolData s !! pair_account_from_assets a b = Some pool /\
    sale_pending pool (block_number (lbp_chain s)).
Proof.
  unfold can_create, sale_pending.
  destruct (PoolData s !! pair_account_from_assets a b) as [pool|]; [|naive_solver].
  destruct (end_ pool) as [e|] eqn:He.
  - rewrite Z.ltb_ge. split; [intros; eexists; split; [done|]; by rewrite He|].
    intros (pl & [= <-] & Hle). by rewrite He in Hle.
  - split; [|done]. intros _. eexists. split; [done|]. by rewrite He.
Qed.

(** An update that only names a new owner is refused: the pool owner is not
    among the parameters the guard against an empty update looks at. *)
Theorem lbp_owner_only_update_refused who id own pool s :
  PoolData s !! id = Some pool ->
  update_pool_data (Signed who) id (Some own) None None None None None None None s
  = (Err (LbpE LbpErr.NothingToUpdate), s).
Proof.
  intros Hp. unfold update_pool_data, transactional, mbind, M_bind, run_bind, gets, ok_or. simpl.
  by rewrite Hp.
Qed.
End trades.

(** ** The XYK pallet's guard *)

Section guard.
Context {C : Type}.
Context `{MultiCurrency C} `{MultiLockable C} `{BlockNumberProvider C}.
Context `{AssetPairAccountIdFor} `{LbpMath} `{FeeMath} `{AMMProvided} `{CreatePoolOrigin}.
Context `{XykMath} `{FixedPoint} {lcfg : LbpConfig} {xcfg : XykConfig}.
Context `{ShareTokenRegistry (LbpState C)} `{AMMHandler (LbpState C)}.

#[local] Instance Lbp_currency : MultiCurrency (LbpState C) := lift_currency.

(** [C36] Two components together: in the runtime, where the XYK pallet asks
    [DisallowWhenLBPPoolRunning], no XYK pool can be created for a pair whose
    bootstrapping pool exists and has not passed its end, in either direction of the
    pair; every attempt fails with [CannotCreatePool] and changes nothing. *)
Theorem no_xyk_pool_during_sale `{!AssetPairAccountIdLaws} who a b amount price pool
    (s : XykState (LbpState C)) :
  PoolData (chain s) !! pair_account_from_assets b a = Some pool ->
  sale_pending pool (block_number (lbp_chain (chain s))) ->
  Xyk.create_pool (Signed who) a b amount price s = (Err (XykE XykErr.CannotCreatePool), s).
Proof.
  intros Hp Hs. unfold Xyk.create_pool, transactional, mbind, M_bind, run_bind, gets. simpl.
  assert (Hc : can_create a b (chain s) = false).
  { apply can_create_false. exists pool. split; [|done]. rewrite <- Hp. f_equal. apply from_assets_sym. }
  by rewrite Hc.
Qed.
End guard.
