(* ===== verification/LbpExamples.v ===== *)
(** * The LBP theorems at work

    A sale of asset 2 for asset 1 on the reference ledger, from block 10 to block
    20: created by the root origin, scheduled by its owner, traded at block 15. *)

From S2P Require Import Prelude Primitives Errors Interfaces Ledger Xyk XykProps Runtime Lbp LbpProps.

(** The chain at a fixed block, the root origin as creator, the runtime's limits. *)
Definition at_block (n : BlockNumber) : BlockNumberProvider Ledger := {| block_number _ := n |}.
#[local] Instance ex_origin : CreatePoolOrigin := {|
  may_create_pool o := match o with Root => true | _ => false end
|}.
#[local] Instance Runtime_lbp : LbpConfig := {|
  LbpMinTradingLimit := MIN_TRADING_LIMIT;
  LbpMinPoolLiquidity := MIN_POOL_LIQUIDITY;
  LbpMaxInRatio := MAX_IN_RATIO;
  LbpMaxOutRatio := MAX_OUT_RATIO
|}.

(** An instance of the parameter [LbpMath] for the examples: the weight interpolated, and the
    amounts of the weighted pool to first order.  It satisfies the laws the theorems use;
    it is not the formulas of [hydra_dx_math], which are powers. *)
#[local] Instance ex_lbp_math : LbpMath := {|
  calculate_linear_weights st en iw fw at_ :=
    if (st <=? at_) && (at_ <=? en) && (st <? en)
    then Some (iw + (fw - iw) * (at_ - st) / (en - st)) else None;
  lbp_spot_price ri ro wi wo a := if ri * wo =? 0 then None else Some (a * ro * wi / (ri * wo));
  lbp_out_given_in ri ro wi wo a :=
    if (ri + a) * wo <=? 0 then None else Some (Z.max 0 (ro * a * wi / ((ri + a) * wo)));
  lbp_in_given_out ri ro wi wo a :=
    if (ro - a) * wi <=? 0 then None else Some (Z.max 0 (ri * a * wo / ((ro - a) * wi)))
|}.
#[local] Instance ex_lbp_math_laws : LbpMathLaws.
Proof.
  split; cbn [calculate_linear_weights lbp_out_given_in lbp_in_given_out ex_lbp_math]; intros *.
  - intros Hat. case_match; [|done]. intros [= <-]. zbool.
    assert (0 < en - st) by lia.
    destruct (Z.le_ge_cases iw fw) as [Hle|Hge].
    + pose proof (Z.div_le_upper_bound ((fw - iw) * (at_ - st)) (en - st) (fw - iw)).
      pose proof (Z.div_pos ((fw - iw) * (at_ - st)) (en - st)). nia.
    + pose proof (Z.div_le_upper_bound ((fw - iw) * (at_ - st)) (en - st) 0).
      pose proof (Z.div_le_lower_bound ((fw - iw) * (at_ - st)) (en - st) (fw - iw)). nia.
  - intros ? ? ?. case_match; [done|]. intros [= <-]. lia.
  - intros ? ? ?. case_match; [done|]. intros [= <-]. lia.
Qed.

(** Owner 10, trader 20, fee collector 30. *)
Definition ex_lbp_ledger : Ledger := {|
  l_free := list_to_map [((1, 10), 10000000%N); ((2, 10), 10000000%N);
                         ((1, 20), 10000000%N); ((2, 20), 10000000%N)];
  l_reserved := ∅;
  l_locks := ∅;
  l_issuance := list_to_map [(1, 20000000); (2, 20000000)];
  l_shared := ∅
|}.
Definition ex_lbp_start : LbpState Ledger := mkLbp ex_lbp_ledger ∅ ∅ [].

(** Before the sale, at block 1, and during it, at block 15. *)
Definition ex_early : BlockNumberProvider Ledger := at_block 1.
Definition ex_sale : BlockNumberProvider Ledger := at_block 15.
Definition ex_late : BlockNumberProvider Ledger := at_block 21.

Definition ex_id : AccountId := pair_account_from_assets 1 2.
Definition ex_call_create : lbp_call :=
  LbpCreate 10 1 1000000 2 2000000 20000000 80000000 Linear (2, 1000) 30 1000.
Definition ex_call_update : lbp_call :=
  LbpUpdate ex_id None (Some 10) (Some 20) None None None None None.
Definition ex_created : LbpState Ledger :=
  snd (lbp_dispatch (H1 := ex_early) Root ex_call_create ex_lbp_start).
Definition ex_scheduled : LbpState Ledger :=
  snd (lbp_dispatch (H1 := ex_early) (Signed 10) ex_call_update ex_created).
Definition ex_lbp_pool : Pool := {|
  owner := 10; start := Some 10; end_ := Some 20; pool_assets := (1, 2);
  initial_weight := 20000000; final_weight := 80000000; weight_curve := Linear;
  fee := (2, 1000); fee_collector := 30; repay_target := 1000
|}.

Ltac run := vm_compute; reflexivity.

Lemma lbp_reachable_ok_witness : lbp_ok ex_scheduled.
Proof.
  apply (lbp_reachable_ok (H1 := ex_early)).
  eapply (lbp_reach_step (H1 := ex_early)); [eapply (lbp_reach_step (H1 := ex_early));
    [by apply (lbp_reach_init (H1 := ex_early) ex_lbp_start)|]|].
  - apply (lbp_step_call (H1 := ex_early) Root ex_call_create ex_lbp_start (Ok tt)). run.
  - apply (lbp_step_call (H1 := ex_early) (Signed 10) ex_call_update ex_created (Ok tt)). run.
Defined.

Lemma running_pool_frozen_witness :
  let call := LbpUpdate ex_id None (Some 30) (Some 40) None None None None None in
  PoolData (snd (lbp_dispatch (H1 := ex_sale) (Signed 10) call ex_scheduled)) !! ex_id
  = Some ex_lbp_pool.
Proof.
  destruct (running_pool_frozen (H1 := ex_sale) (Signed 10)
    (LbpUpdate ex_id None (Some 30) (Some 40) None None None None None) ex_scheduled
    (Err (LbpE LbpErr.SaleStarted)) ex_scheduled ex_id ex_lbp_pool) as [Hp|[_ Hr]].
  - run.
  - run.
  - vm_compute. reflexivity.
  - vm_compute in Hr. discriminate.
Defined.

Lemma ex_scheduled_ok : lbp_ok ex_scheduled.
Proof.
  apply (lbp_dispatch_preserves (H1 := ex_early) (Signed 10) ex_call_update ex_created (Ok tt)); [|run].
  apply (lbp_dispatch_preserves (H1 := ex_early) Root ex_call_create ex_lbp_start (Ok tt)); [|run].
  split; simpl; intros *; by rewrite ?lookup_empty.
Qed.

Lemma running_weights_sum_witness :
  let wa := 50000000 in wa + wa = MAX_WEIGHT.
Proof.
  destruct (running_weights_sum (H1 := ex_sale) ex_scheduled ex_id ex_lbp_pool 1 50000000 50000000)
    as [Hs _].
  - apply ex_scheduled_ok.
  - run.
  - run.
  - done.
  - done.
  - run.
  - exact Hs.
Defined.

(** A trader and the pool, in both directions. *)
Lemma ex_context_in : trade_context 20 (AssetPair_new 1 2) ex_lbp_pool ex_scheduled.
Proof. split; first [run|by left|by vm_compute|vm_compute; intuition congruence]. Qed.
Lemma ex_context_out : trade_context 20 (AssetPair_new 2 1) ex_lbp_pool ex_scheduled.
Proof. split; first [run|by right|by vm_compute|vm_compute; intuition congruence]. Qed.

Lemma lbp_sell_exact_witness :
  let s' := snd (sell (H1 := ex_sale) (Signed 20) 1 2 10000 1 ex_scheduled) in
  exists o f, trade_effect 20 ex_id 30 1 2 1 (10000 - f) o f (lbp_chain ex_scheduled) (lbp_chain s').
Proof.
  destruct (lbp_sell_exact (H1 := ex_sale) 20 1 2 10000 1 ex_lbp_pool ex_scheduled
    (snd (sell (H1 := ex_sale) (Signed 20) 1 2 10000 1 ex_scheduled)))
    as (_ & _ & wi & wo & o & f & _ & _ & _ & _ & Heff).
  - run.
  - apply ex_context_in.
  - done.
  - by vm_compute.
  - by vm_compute.
  - exists o, f. exact Heff.
Defined.

Lemma lbp_buy_exact_witness :
  let s' := snd (buy (H1 := ex_sale) (Signed 20) 1 2 10000 100000 ex_scheduled) in
  exists i f, trade_effect 20 ex_id 30 2 1 1 i 10000 f (lbp_chain ex_scheduled) (lbp_chain s').
Proof.
  destruct (lbp_buy_exact (H1 := ex_sale) 20 1 2 10000 100000 ex_lbp_pool ex_scheduled
    (snd (buy (H1 := ex_sale) (Signed 20) 1 2 10000 100000 ex_scheduled)))
    as (_ & _ & wi & wo & i & f & _ & _ & _ & _ & Heff).
  - run.
  - apply ex_context_out.
  - done.
  - by vm_compute.
  - intros f Hf. vm_compute in Hf. injection Hf as <-. by vm_compute.
  - by vm_compute.
  - exists i, f. exact Heff.
Defined.

Lemma lbp_remove_liquidity_exact_witness :
  PoolData (snd (remove_liquidity (H1 := ex_late) (Signed 10) ex_id ex_scheduled)) !! ex_id = None.
Proof.
  destruct (lbp_remove_liquidity_exact (H1 := ex_late) 10 ex_id ex_lbp_pool ex_scheduled
    (snd (remove_liquidity (H1 := ex_late) (Signed 10) ex_id ex_scheduled)))
    as (_ & _ & _ & _ & Hp & _).
  - run.
  - run.
  - done.
  - by vm_compute.
  - by vm_compute.
  - exact Hp.
Defined.

Lemma lbp_owner_only_update_refused_witness :
  update_pool_data (H1 := ex_early) (Signed 10) ex_id (Some 20) None None None None None None None
    ex_scheduled = (Err (LbpE LbpErr.NothingToUpdate), ex_scheduled).
Proof. apply (lbp_owner_only_update_refused _ _ _ ex_lbp_pool). run. Defined.

(** An XYK pallet on top of the LBP pallet. *)
#[local] Instance ex_registry : ShareTokenRegistry (LbpState Ledger) := {|
  shared_asset _ _ := None;
  get_or_create_shared_asset _ _ _ := mret 99
|}.
#[local] Instance ex_handler : AMMHandler (LbpState Ledger) := {|
  on_create_pool _ _ := mret tt;
  on_trade _ _ _ _ _ s := s
|}.
#[local] Existing Instance Runtime_xyk.
Definition ex_both : XykState (LbpState Ledger) := mkXyk ex_scheduled ∅ ∅ ∅ [].

Lemma no_xyk_pool_during_sale_witness :
  fst (Xyk.create_pool (H := lift_currency) (H2 := DisallowWhenLBPPoolRunning (H1 := ex_sale))
         (Signed 10) 2 1 5000 (10 ^ 18) ex_both) = Err (XykE XykErr.CannotCreatePool).
Proof.
  apply (f_equal fst (y := (_, ex_both))).
  apply (no_xyk_pool_during_sale (H1 := ex_sale) 10 2 1 5000 (10 ^ 18) ex_lbp_pool ex_both).
  - run.
  - by vm_compute.
Defined.
