(* ===== verification/Exchange.v ===== *)
(** * The exchange pallet

    Models [src/pallets/exchange/src/lib.rs] and [direct.rs]: intentions to sell or
    buy are registered during a block and resolved when it ends.  [on_finalize]
    sorts the two sides of each pair, matches them, trades matched amounts directly
    between the accounts ([DirectTradeData]) and sends the rest to the AMM.  The AMM
    pallet and the currency are the state [P] with their interfaces. *)

From S2P Require Import Prelude Primitives Errors Interfaces.

(** The hash of the encoded identification of an intention. *)
Class IntentionHashing (H : Type) := {
  hash_intention : Z -> AccountId -> BlockNumber -> AssetId -> AssetId -> H
}.

(** The order in which a storage map is iterated: some order of its entries. *)
Class StorageOrder := {
  storage_iter : gmap (AssetId * AssetId) Z -> list ((AssetId * AssetId) * Z)
}.
Class StorageOrderLaws `{StorageOrder} : Prop := {
  storage_iter_entries m : storage_iter m ≡ₚ map_to_list m
}.

Inductive ExchangeEvent (H : Type) :=
| IntentionRegistered (who : AccountId) (asset_a asset_b : AssetId) (amount : Balance)
    (intention_type : IntentionType) (intention_id : H)
| IntentionResolvedAMMTrade (who : AccountId) (intention_type : IntentionType)
    (intention_id : H) (amount amount_sold_bought : Balance) (pool : AccountId)
| IntentionResolvedDirectTrade (account_a account_b : AccountId) (id_a id_b : H)
    (amount_a amount_b : Balance)
| IntentionResolvedDirectTradeFees (who : AccountId) (intention_id : H)
    (fee_receiver : AccountId) (asset : AssetId) (fee_amount : Balance)
| InsufficientAssetBalanceEvent (who : AccountId) (asset : AssetId)
    (intention_type : IntentionType) (intention_id : H) (error : DispatchError)
| IntentionResolveErrorEvent (who : AccountId) (assets : AssetPair)
    (intention_type : IntentionType) (intention_id : H) (error : DispatchError).
Arguments IntentionRegistered {H}.
Arguments IntentionResolvedAMMTrade {H}.
Arguments IntentionResolvedDirectTrade {H}.
Arguments IntentionResolvedDirectTradeFees {H}.
Arguments InsufficientAssetBalanceEvent {H}.
Arguments IntentionResolveErrorEvent {H}.

Record ExchangeState (P H : Type) := mkExchange {
  pools : P;
  ExchangeAssetsIntentionCount : gmap (AssetId * AssetId) Z;
  ExchangeAssetsIntentions : gmap (AssetId * AssetId) (list (ExchangeIntention H));
  exchange_events : list (ExchangeEvent H)
}.
Arguments mkExchange {P H}.
Arguments pools {P H}.
Arguments ExchangeAssetsIntentionCount {P H}.
Arguments ExchangeAssetsIntentions {P H}.
Arguments exchange_events {P H}.

Section setters.
Context {P H : Type}.
Implicit Types s : ExchangeState P H.

Definition set_pools (p : P) s : ExchangeState P H :=
  mkExchange p (ExchangeAssetsIntentionCount s) (ExchangeAssetsIntentions s) (exchange_events s).
Definition set_IntentionCount (f : gmap (AssetId * AssetId) Z -> gmap (AssetId * AssetId) Z) s
    : ExchangeState P H :=
  mkExchange (pools s) (f (ExchangeAssetsIntentionCount s)) (ExchangeAssetsIntentions s)
    (exchange_events s).
Definition set_Intentions
    (f : gmap (AssetId * AssetId) (list (ExchangeIntention H)) ->
         gmap (AssetId * AssetId) (list (ExchangeIntention H))) s : ExchangeState P H :=
  mkExchange (pools s) (ExchangeAssetsIntentionCount s) (f (ExchangeAssetsIntentions s))
    (exchange_events s).
Definition exchange_deposit_event (e : ExchangeEvent H) : Dispatch (ExchangeState P H) unit :=
  modify (fun s => mkExchange (pools s) (ExchangeAssetsIntentionCount s)
                     (ExchangeAssetsIntentions s) (exchange_events s ++ [e])).
End setters.

#[export] Instance Exchange_lens P H : Lens (ExchangeState P H) P := {|
  lens_get := pools;
  lens_set := set_pools
|}.
#[export] Instance Exchange_lens_laws P H : LensLaws (ExchangeState P H) P.
Proof. split; [done|by intros []|done]. Qed.

(** ** Sorting and matching *)

(** [sort_by(|a, b| b.amount_in.cmp(&a.amount_in))]: stable, descending. *)
Fixpoint insert_desc {H} (x : ExchangeIntention H) (l : list (ExchangeIntention H)) :=
  match l with
  | [] => [x]
  | y :: l => if amount_in y <? amount_in x then x :: y :: l else y :: insert_desc x l
  end.
Definition sort_desc {H} (l : list (ExchangeIntention H)) : list (ExchangeIntention H) :=
  fold_left (fun acc x => insert_desc x acc) l [].

(** The [take_while] of [process_exchange_intentions] with its running total. *)
Fixpoint take_matched {H} (total_left : Balance) (l : list (ExchangeIntention H)) :=
  match l with
  | [] => []
  | x :: l =>
      if (total_left > 0)%rust
      then x :: take_matched (saturating_sub total_left (amount_out x)) l
      else []
  end.

(** ** Direct trades ([direct.rs]) *)

Record Transfer := mkTransfer {
  tr_from : AccountId;
  tr_to : AccountId;
  tr_asset : AssetId;
  tr_amount : Balance;
  fee_transfer : bool
}.

Record DirectTradeData (H : Type) := mkDirect {
  intention_a : ExchangeIntention H;
  intention_b : ExchangeIntention H;
  amount_from_a : Balance;
  amount_from_b : Balance
}.
Arguments mkDirect {H}.
Arguments intention_a {H}.
Arguments intention_b {H}.
Arguments amount_from_a {H}.
Arguments amount_from_b {H}.

Section pallet.
Context {P H : Type}.
Context `{MultiCurrency P} `{MultiReservable P} `{AMM P} `{BlockNumberProvider P}.
Context `{FeeMath} `{IntentionHashing H} `{StorageOrder}.
Notation State := (ExchangeState P H).
Notation Intention := (ExchangeIntention H).
Local Notation ensure b e := (ensure b%rust (ExchangeE e)).
Local Notation free c w := (gets (fun s : State => free_balance c w (pools s))).

Definition send_insufficient_balance_event (intention : Intention) (asset : AssetId)
    : Dispatch State unit :=
  exchange_deposit_event (InsufficientAssetBalanceEvent (who intention) asset
    (sell_or_buy intention) (intention_id intention)
    (ExchangeE ExchangeErr.InsufficientAssetBalance)).

Definition send_trade_fee_event (from : AccountId) (intention : Intention) (to : AccountId)
    (asset : AssetId) (amount : Balance) : Dispatch State unit :=
  exchange_deposit_event (IntentionResolvedDirectTradeFees from (intention_id intention) to
    asset amount).

Definition send_direct_trade_resolve_event (dt : DirectTradeData H) : Dispatch State unit :=
  exchange_deposit_event (IntentionResolvedDirectTrade (who (intention_a dt))
    (who (intention_b dt)) (intention_id (intention_a dt)) (intention_id (intention_b dt))
    (amount_from_a dt) (amount_from_b dt)).

Definition reserve_if_can (asset : AssetId) (who : AccountId) (amount : Balance)
    : Dispatch State bool :=
  r ← attempt (zoom (reserve asset who amount));
  mret (match r with inl _ => true | inr _ => false end).

(** The amounts reserved for the two parties, given the fees on both amounts: a
    buyer reserves the fee on top. *)
Definition reserved_amounts (dt : DirectTradeData H) (fee_a fee_b : Balance) : Balance * Balance :=
  match sell_or_buy (intention_a dt), sell_or_buy (intention_b dt) with
  | SELL, SELL => (amount_from_a dt, amount_from_b dt)
  | BUY, BUY => (wrapping_add 128 (amount_from_a dt) fee_a, wrapping_add 128 (amount_from_b dt) fee_b)
  | BUY, SELL => (wrapping_add 128 (amount_from_a dt) fee_a, amount_from_b dt)
  | SELL, BUY => (amount_from_a dt, wrapping_add 128 (amount_from_b dt) fee_b)
  end.

(** The transfers pushed once both amounts are reserved. *)
Definition trade_transfers (dt : DirectTradeData H) (pool_account : AccountId)
    (fee_a fee_b : Balance) : list Transfer :=
  let a := intention_a dt in let b := intention_b dt in
  let from_a amount := mkTransfer (who a) (who b) (asset_in (assets a)) amount false in
  let from_b amount := mkTransfer (who b) (who a) (asset_out (assets a)) amount false in
  let fee_from_a amount := mkTransfer (who a) pool_account (asset_in (assets a)) amount true in
  let fee_from_b amount := mkTransfer (who b) pool_account (asset_in (assets b)) amount true in
  match sell_or_buy a, sell_or_buy b with
  | SELL, SELL => [from_a (wrapping_sub 128 (amount_from_a dt) fee_a);
                   from_b (wrapping_sub 128 (amount_from_b dt) fee_b);
                   fee_from_a fee_a; fee_from_b fee_b]
  | BUY, BUY => [from_a (amount_from_a dt); from_b (amount_from_b dt);
                 fee_from_a fee_a; fee_from_b fee_b]
  | BUY, SELL => [from_a (wrapping_sub 128 (amount_from_a dt) fee_a); from_b (amount_from_b dt);
                  fee_from_a (wrapping_mul 128 2 fee_a)]
  | SELL, BUY => [from_a (amount_from_a dt); from_b (wrapping_sub 128 (amount_from_b dt) fee_b);
                  fee_from_b (wrapping_mul 128 2 fee_b)]
  end.

(** [prepare]: whether the trade is ready, and its [transfers]. *)
Definition prepare (dt : DirectTradeData H) (pool_account : AccountId)
    : Dispatch State (bool * list Transfer) :=
  free_a ← free (asset_in (assets (intention_a dt))) (who (intention_a dt));
  if free_a <? amount_from_a dt then
    send_insufficient_balance_event (intention_a dt) (asset_in (assets (intention_a dt))) ;;
    mret (false, [])
  else
  free_b ← free (asset_out (assets (intention_a dt))) (who (intention_b dt));
  if free_b <? amount_from_b dt then
    send_insufficient_balance_event (intention_b dt) (asset_out (assets (intention_a dt))) ;;
    mret (false, [])
  else
  fee ← gets (fun s => get_fee pool_account (pools s));
  match calculate_pool_trade_fee (amount_from_a dt) fee,
        calculate_pool_trade_fee (amount_from_b dt) fee with
  | Some transfer_a_fee, Some transfer_b_fee =>
      if (amount_from_a dt <? transfer_a_fee) || (amount_from_b dt <? transfer_b_fee) then
        mret (false, [])
      else
      let '(reserve_a, reserve_b) := reserved_amounts dt transfer_a_fee transfer_b_fee in
      ok_a ← reserve_if_can (asset_in (assets (intention_a dt))) (who (intention_a dt)) reserve_a;
      if negb ok_a then mret (false, []) else
      ok_b ← reserve_if_can (asset_out (assets (intention_a dt))) (who (intention_b dt)) reserve_b;
      if negb ok_b then mret (false, []) else
      mret (true, trade_transfers dt pool_account transfer_a_fee transfer_b_fee)
  | _, _ => mret (false, [])
  end.

(** [execute]: the transfers in order, stopping at the first failure. *)
Fixpoint execute_transfers (dt : DirectTradeData H) (transfers : list Transfer)
    : Dispatch State bool :=
  match transfers with
  | [] => mret true
  | t :: transfers =>
      r ← attempt (zoom (repatriate_reserved (tr_asset t) (tr_from t) (tr_to t) (tr_amount t)));
      match r with
      | inr _ => mret false
      | inl _ =>
          (if fee_transfer t then
             let intention := if tr_from t =? who (intention_a dt) then intention_a dt
                              else intention_b dt in
             send_trade_fee_event (tr_from t) intention (tr_to t) (tr_asset t) (tr_amount t)
           else mret tt) ;;
          execute_transfers dt transfers
      end
  end.
Definition execute (dt : DirectTradeData H) (transfers : list Transfer) : Dispatch State bool :=
  send_direct_trade_resolve_event dt ;;
  execute_transfers dt transfers.

(** [revert]: unreserves the registered transfers. *)
Definition revert (transfers : list Transfer) : Dispatch State unit :=
  for_each (fun t => modify (fun s => set_pools (unreserve (tr_asset t) (tr_from t) (tr_amount t)
                                                   (pools s)) s)) transfers.

(** ** Registering intentions *)

Definition generate_intention_id (account : AccountId) (c : Z) (assets : AssetPair) (s : State) : H :=
  hash_intention c account (block_number (pools s)) (fst (ordered_pair assets))
    (snd (ordered_pair assets)).

Definition get_intentions_count (p : AssetId * AssetId) (s : State) : Z :=
  default 0 (ExchangeAssetsIntentionCount s !! p).
Definition get_intentions (p : AssetId * AssetId) (s : State) : list Intention :=
  default [] (ExchangeAssetsIntentions s !! p).

Definition register_intention (who : AccountId) (intention_type : IntentionType)
    (assets : AssetPair) (amount_in amount_out limit : Balance) (discount : bool)
    : Dispatch State unit :=
  intention_count ← gets (get_intentions_count (ordered_pair assets));
  intention_id ← gets (generate_intention_id who intention_count assets);
  let intention := {| Primitives.who := who; Primitives.assets := assets;
                      Primitives.amount_in := amount_in; Primitives.amount_out := amount_out;
                      Primitives.trade_limit := limit; Primitives.discount := discount;
                      Primitives.sell_or_buy := intention_type;
                      Primitives.intention_id := intention_id |} in
  total ← gets (get_intentions_count (ordered_pair assets));
  total' ← ok_or (checked_add 32 total 1) (ExchangeE ExchangeErr.IntentionCountOverflow);
  modify (set_IntentionCount (insert (ordered_pair assets) total')) ;;
  modify (fun s => set_Intentions (insert (asset_in assets, asset_out assets)
            (get_intentions (asset_in assets, asset_out assets) s ++ [intention])) s) ;;
  match intention_type with
  | SELL => exchange_deposit_event (IntentionRegistered who (asset_in assets) (asset_out assets)
              amount_in intention_type intention_id)
  | BUY => exchange_deposit_event (IntentionRegistered who (asset_out assets) (asset_in assets)
             amount_out intention_type intention_id)
  end ;;
  mret tt.

Definition sell (origin : Origin) (asset_sell asset_buy : AssetId)
    (amount_sell min_bought : Balance) (discount : bool) : Dispatch State unit :=
  who ← ensure_signed origin;
  ensure (amount_sell >= MIN_TRADING_LIMIT) ExchangeErr.MinimumTradeLimitNotReached ;;
  let assets := {| asset_in := asset_sell; asset_out := asset_buy |} in
  found ← gets (fun s => amm_exists assets (pools s));
  ensure found ExchangeErr.TokenPoolNotFound ;;
  free_sell ← free asset_sell who;
  ensure (free_sell >= amount_sell) ExchangeErr.InsufficientAssetBalance ;;
  amount_buy ← gets (fun s => get_spot_price_unchecked asset_sell asset_buy amount_sell (pools s));
  ensure (amount_buy != 0) ExchangeErr.ZeroSpotPrice ;;
  register_intention who SELL assets amount_sell amount_buy min_bought discount ;;
  mret tt.

Definition buy (origin : Origin) (asset_buy asset_sell : AssetId)
    (amount_buy max_sold : Balance) (discount : bool) : Dispatch State unit :=
  who ← ensure_signed origin;
  ensure (amount_buy >= MIN_TRADING_LIMIT) ExchangeErr.MinimumTradeLimitNotReached ;;
  let assets := {| asset_in := asset_sell; asset_out := asset_buy |} in
  found ← gets (fun s => amm_exists assets (pools s));
  ensure found ExchangeErr.TokenPoolNotFound ;;
  amount_sell ← gets (fun s => get_spot_price_unchecked asset_buy asset_sell amount_buy (pools s));
  ensure (amount_sell != 0) ExchangeErr.ZeroSpotPrice ;;
  free_sell ← free asset_sell who;
  ensure (free_sell >= amount_sell) ExchangeErr.InsufficientAssetBalance ;;
  register_intention who BUY assets amount_sell amount_buy max_sold discount ;;
  mret tt.

(** ** Resolving intentions *)

Definition send_intention_error_event (intention : Intention) (error : DispatchError)
    : Dispatch State unit :=
  exchange_deposit_event (IntentionResolveErrorEvent (who intention) (assets intention)
    (sell_or_buy intention) (intention_id intention) error).

Definition execute_amm_transfer (amm_tranfer_type : IntentionType) (intention_id : H)
    (transfer : AMMTransfer) : Dispatch State unit :=
  match amm_tranfer_type with
  | SELL =>
      zoom (execute_sell transfer) ;;
      exchange_deposit_event (IntentionResolvedAMMTrade (t_origin transfer) SELL intention_id
        (t_amount transfer) (wrapping_add 128 (t_amount_out transfer) (snd (t_fee transfer)))
        (get_pair_id (t_assets transfer)))
  | BUY =>
      zoom (execute_buy transfer) ;;
      exchange_deposit_event (IntentionResolvedAMMTrade (t_origin transfer) BUY intention_id
        (t_amount transfer) (wrapping_add 128 (t_amount_out transfer) (snd (t_fee transfer)))
        (get_pair_id (t_assets transfer)))
  end ;;
  mret tt.

(** The AMM's validation of an intention. *)
Definition validate_intention (intention : Intention) : Dispatch State AMMTransfer :=
  match sell_or_buy intention with
  | SELL => zoom (validate_sell (who intention) (assets intention) (amount_in intention)
                    (trade_limit intention) (discount intention))
  | BUY => zoom (validate_buy (who intention) (assets intention) (amount_out intention)
                   (trade_limit intention) (discount intention))
  end.

Definition verify_intention (intention : Intention) : Dispatch State bool :=
  r ← attempt (validate_intention intention);
  match r with
  | inr error => send_intention_error_event intention error ;; mret false
  | inl _ => mret true
  end.

Definition resolve_single_intention (intention : Intention) : Dispatch State unit :=
  amm_transfer ← attempt (validate_intention intention);
  match amm_transfer with
  | inl x =>
      r ← attempt (execute_amm_transfer (sell_or_buy intention) (intention_id intention) x);
      match r with
      | inl _ => mret tt
      | inr error => send_intention_error_event intention error
      end
  | inr error => send_intention_error_event intention error
  end.

Definition set_amounts (amount_in amount_out trade_limit : Balance) (i : Intention) : Intention :=
  mkIntention (who i) (assets i) amount_in amount_out trade_limit (discount i) (sell_or_buy i)
    (intention_id i).
Definition set_amount_in (x : Balance) (i : Intention) : Intention :=
  set_amounts x (amount_out i) (trade_limit i) i.

(** [match i.sell_or_buy { SELL => if got < limit, BUY => if paid > limit }]: the
    error to report, if any. *)
Definition limit_error (i : Intention) (got paid : Balance) : option DispatchError :=
  match sell_or_buy i with
  | SELL => if got <? trade_limit i
            then Some (ExchangeE ExchangeErr.TradeAmountNotReachedLimit) else None
  | BUY => if trade_limit i <? paid
           then Some (ExchangeE ExchangeErr.TradeAmountExceededLimit) else None
  end.

(** Prepare a direct trade, then [k] when it is ready, otherwise revert. *)
Definition with_prepared (dt : DirectTradeData H) (pair_account : AccountId) (copy : Intention)
    (k : list Transfer -> Dispatch State Intention) : Dispatch State Intention :=
  p ← prepare dt pair_account;
  let '(ready, transfers) := p in
  if (ready : bool) then k transfers else revert transfers ;; mret copy.

(** Scenario 1: the matched intention is traded completely. *)
Definition resolve_smaller (pair_account : AccountId) (copy matched : Intention)
    : Dispatch State Intention :=
  let dt := mkDirect copy matched (amount_out matched) (amount_in matched) in
  match limit_error matched (amount_from_a dt) (amount_from_b dt) with
  | Some e => send_intention_error_event matched e ;; mret copy
  | None =>
      with_prepared dt pair_account copy (fun transfers =>
        execute dt transfers ;;
        match checked_sub (amount_in copy) (amount_out matched) with
        | None => panic
        | Some new_in =>
            match checked_sub (amount_out copy) (amount_in matched) with
            | None => panic
            | Some new_out =>
                let new_limit := match sell_or_buy copy with
                                 | SELL => saturating_sub (trade_limit copy) (amount_in matched)
                                 | BUY => wrapping_sub 128 (trade_limit copy) (amount_out matched)
                                 end in
                mret (set_amounts new_in new_out new_limit copy)
            end
        end)
  end.

(** Scenario 2: the main intention is used up, the rest of the matched one goes to
    the AMM. *)
Definition resolve_larger (pair_account : AccountId) (copy matched : Intention)
    : Dispatch State Intention :=
  match checked_sub (amount_out matched) (amount_in copy),
        checked_sub (amount_in matched) (amount_out copy) with
  | Some rest_out_amount, Some rest_in_amount =>
      let dt := mkDirect copy matched (amount_in copy) (amount_out copy) in
      amm_transfer_result ← attempt (
        match sell_or_buy matched with
        | SELL => zoom (validate_sell (who matched) (assets matched) rest_in_amount
                          (saturating_sub (trade_limit matched) (amount_in copy))
                          (discount matched))
        | BUY => zoom (validate_buy (who matched) (assets matched) rest_out_amount
                         (saturating_sub (trade_limit matched) (amount_out copy))
                         (discount matched))
        end);
      match amm_transfer_result with
      | inr error => send_intention_error_event matched error ;; mret copy
      | inl amm_transfer =>
          with_prepared dt pair_account copy (fun transfers =>
            r ← attempt (execute_amm_transfer (sell_or_buy matched) (intention_id matched)
                           amm_transfer);
            match r with
            | inl _ => execute dt transfers ;; mret (set_amount_in 0 copy)
            | inr error =>
                send_intention_error_event matched error ;; revert transfers ;; mret copy
            end)
      end
  | _, _ => panic
  end.

(** Scenario 3: exact match; the limits of the original intention are checked. *)
Definition resolve_equal (pair_account : AccountId) (intention copy matched : Intention)
    : Dispatch State Intention :=
  let dt := mkDirect copy matched (amount_in copy) (amount_in matched) in
  match limit_error intention (amount_from_b dt) (amount_from_a dt) with
  | Some e => send_intention_error_event intention e ;; mret copy
  | None =>
      match limit_error matched (amount_from_a dt) (amount_from_b dt) with
      | Some e => send_intention_error_event matched e ;; mret copy
      | None =>
          with_prepared dt pair_account copy (fun transfers =>
            execute dt transfers ;; mret (set_amount_in 0 copy))
      end
  end.

(** The loop over the matched intentions; it carries the rest of the main one. *)
Fixpoint resolve_loop (pair_account : AccountId) (intention copy : Intention)
    (matched : list Intention) : Dispatch State Intention :=
  match matched with
  | [] => mret copy
  | m :: matched =>
      copy' ← (if amount_out m <? amount_in copy then resolve_smaller pair_account copy m
               else if amount_in copy <? amount_out m then resolve_larger pair_account copy m
               else resolve_equal pair_account intention copy m);
      resolve_loop pair_account intention copy' matched
  end.

Definition resolve_matched_intentions (pair_account : AccountId) (intention : Intention)
    (matched : list Intention) : Dispatch State unit :=
  copy ← resolve_loop pair_account intention intention matched;
  if 0 <? amount_in copy then resolve_single_intention copy else mret tt.

(** The loop over the main intentions; it returns how many of the others were
    matched. *)
Fixpoint process_main (pair_account : AccountId) (b_in : list Intention) (to_skip : nat)
    (a_in : list Intention) : Dispatch State nat :=
  match a_in with
  | [] => mret to_skip
  | intention :: a_in =>
      ok ← verify_intention intention;
      if negb ok then process_main pair_account b_in to_skip a_in else
      let matched := take_matched (amount_in intention) (drop to_skip b_in) in
      resolve_matched_intentions pair_account intention matched ;;
      process_main pair_account b_in (to_skip + length matched)%nat a_in
  end.

Definition process_exchange_intentions (pair_account : AccountId)
    (a_in_intentions b_in_intentions : list Intention) : Dispatch State unit :=
  let b_in := sort_desc b_in_intentions in
  let a_in := sort_desc a_in_intentions in
  to_skip ← process_main pair_account b_in 0 a_in;
  for_each resolve_single_intention (drop to_skip b_in).

Definition on_finalize : Dispatch State unit :=
  entries ← gets (fun s => storage_iter (ExchangeAssetsIntentionCount s));
  for_each (fun e : (AssetId * AssetId) * Z =>
    let '((asset_1, asset_2), count) := e in
    if count =? 0 then mret tt else
    let pair := {| asset_in := asset_1; asset_out := asset_2 |} in
    let pair_account := get_pair_id pair in
    asset_a_ins ← gets (get_intentions (asset_2, asset_1));
    asset_b_ins ← gets (get_intentions (asset_1, asset_2));
    process_exchange_intentions pair_account asset_a_ins asset_b_ins) entries ;;
  modify (set_IntentionCount (fun _ => ∅)) ;;
  modify (set_Intentions (fun _ => ∅)).
End pallet.
