(* ===== verification/ExchangeProps.v ===== *)
(** * Correctness of the exchange pallet

    Sorting and matching of intentions, registration and its bookkeeping, the exact
    settlement of a direct trade, and what happens when a direct trade cannot be
    prepared. *)

From Stdlib Require Import Sorted.
From S2P Require Import Prelude Primitives Errors Interfaces Exchange.

(** ** Sorting and matching *)

Section matching.
Context {H : Type}.
Notation Intention := (ExchangeIntention H).
Implicit Types l : list Intention.

Definition desc (x y : Intention) : Prop := amount_in y <= amount_in x.
Definition of_amount (k : Balance) l : list Intention :=
  List.filter (fun x => amount_in x =? k) l.

Lemma insert_desc_perm x l : insert_desc x l ≡ₚ x :: l.
Proof.
  induction l as [|y l IH]; simpl; [done|]. case_match; [done|]. rewrite IH. by constructor.
Qed.

Lemma insert_desc_sorted x l : StronglySorted desc l -> StronglySorted desc (insert_desc x l).
Proof.
  induction 1 as [|y l Hs IH Hall]; simpl; [by repeat constructor|].
  case_match; zbool.
  - constructor; [by constructor|]. constructor; [unfold desc; lia|].
    eapply Forall_impl; [|exact Hall]. unfold desc. intros; lia.
  - constructor; [done|]. rewrite insert_desc_perm. constructor; [done|done].
Qed.

(** The new element goes behind the equal ones. *)
Lemma insert_desc_of_amount x l k :
  StronglySorted desc l -> of_amount k (insert_desc x l) = of_amount k l ++ of_amount k [x].
Proof.
  unfold of_amount. induction 1 as [|y l Hs IH Hall]; simpl; [done|].
  destruct (Z.ltb_spec (amount_in y) (amount_in x)); simpl.
  - destruct (Z.eqb_spec (amount_in x) k) as [Hx|]; [|by rewrite app_nil_r].
    destruct (Z.eqb_spec (amount_in y) k); [lia|].
    assert (Hn : List.filter (fun z => amount_in z =? k) l = []); [|by rewrite Hn].
    clear IH Hs. induction Hall as [|z l Hz Hl IH]; simpl; [done|].
    unfold desc in Hz. destruct (Z.eqb_spec (amount_in z) k); [lia|done].
  - rewrite IH. by destruct (amount_in y =? k).
Qed.

Lemma sort_desc_acc l acc :
  StronglySorted desc acc ->
  let r := fold_left (fun acc x => insert_desc x acc) l acc in
  r ≡ₚ acc ++ l /\ StronglySorted desc r /\
  forall k, of_amount k r = of_amount k acc ++ of_amount k l.
Proof.
  revert acc. induction l as [|x l IH]; simpl; intros acc Hs.
  - rewrite app_nil_r. split_and!; [done|done|]. intros k. by rewrite app_nil_r.
  - destruct (IH (insert_desc x acc)) as (Hp & Hss & Hk); [by apply insert_desc_sorted|].
    split_and!; [|done|].
    + rewrite Hp, insert_desc_perm. simpl. by rewrite Permutation_middle.
    + intros k. rewrite Hk, insert_desc_of_amount by done. rewrite <- app_assoc. f_equal.
      unfold of_amount. simpl. by destruct (amount_in x =? k).
Qed.

(** The sort of the intentions is a stable descending sort: a permutation,
    ordered by falling [amount_in], in which intentions of the same amount keep the
    order of their registration. *)
Theorem sort_desc_stable l :
  sort_desc l ≡ₚ l /\ StronglySorted desc (sort_desc l) /\
  forall k, of_amount k (sort_desc l) = of_amount k l.
Proof. apply (sort_desc_acc l []). constructor. Qed.

Definition total_out l : Balance := foldr (fun x acc => amount_out x + acc) 0 l.

Lemma take_matched_take n l : take_matched n l = take (length (take_matched n l)) l.
Proof.
  revert n. induction l as [|x l IH]; intros n; simpl; [done|]. case_match; simpl; [|done].
  f_equal. apply IH.
Qed.

Lemma take_matched_prefix n l :
  0 <= n -> Forall (fun x => 0 <= amount_out x) l ->
  exists rest, l = take_matched n l ++ rest /\
    (rest = [] \/ n <= total_out (take_matched n l)) /\
    forall pre x, take_matched n l = pre ++ [x] -> total_out pre < n.
Proof.
  intros Hn Hall. revert n Hn. induction Hall as [|x l Hx Hl IH]; intros n Hn; simpl.
  - exists []. split_and!; auto. intros [|? ?] ?; done.
  - destruct (Z.ltb_spec 0 n).
    + destruct (IH (saturating_sub n (amount_out x))) as (rest & Hr & Hend & Hpre);
        [unfold saturating_sub; lia|].
      exists rest. split_and!; [simpl; f_equal; exact Hr| |].
      * destruct Hend as [?|Hend]; [by left|right]. unfold saturating_sub in *. simpl. lia.
      * intros [|y pre] z [= <- Hz]; simpl; [lia|].
        specialize (Hpre _ _ Hz). unfold saturating_sub in *.
        assert (0 < n - amount_out x); [|lia]. apply Z.nle_gt. intros Hle.
        assert (Hnil : take_matched (Z.max 0 (n - amount_out x)) l = []).
        { rewrite Z.max_l by lia. by destruct l. }
        rewrite Hnil in Hz. by destruct pre.
    + exists (x :: l). split_and!; [done|right; simpl; lia|]. intros [|? ?] ?; done.
Qed.

(** The intentions matched with a main intention of amount [n] are a prefix of
    what is left of the other side; it is the shortest prefix that covers the
    amount, or everything when nothing covers it. *)
Theorem take_matched_covers n l :
  0 <= n -> Forall (fun x => 0 <= amount_out x) l ->
  exists rest, l = take_matched n l ++ rest /\
    (rest = [] \/ n <= total_out (take_matched n l)) /\
    forall pre x, take_matched n l = pre ++ [x] -> total_out pre < n.
Proof. apply take_matched_prefix. Qed.
End matching.

(** ** Resolution leaves the book of intentions alone *)

Section frame.
Context {P H : Type}.
Notation State := (ExchangeState P H).

Definition book (s : State) := (ExchangeAssetsIntentionCount s, ExchangeAssetsIntentions s).

(** The computation changes neither the counts nor the registered intentions. *)
Definition frames {A} (m : Dispatch State A) : Prop :=
  forall s, book (snd (m s)) = book s.

Lemma frames_reads {A} (m : Dispatch State A) : reads m -> frames m.
Proof. intros Hm s. by rewrite Hm. Qed.
Lemma frames_bind {A B} (m : Dispatch State A) (k : A -> Dispatch State B) :
  frames m -> (forall a, frames (k a)) -> frames (mbind k m).
Proof.
  intros Hm Hk s. specialize (Hm s). unfold mbind, M_bind, run_bind.
  destruct (m s) as [[a| |] s1]; simpl in *; try done. by rewrite Hk.
Qed.
Lemma frames_attempt {A} (m : Dispatch State A) : frames m -> frames (attempt m).
Proof.
  intros Hm s. specialize (Hm s). unfold attempt. by destruct (m s) as [[a| |] s1].
Qed.
Lemma frames_zoom {A} (m : Dispatch P A) : frames (zoom m).
Proof. intros s. unfold zoom. simpl. by destruct (m (pools s)). Qed.
Lemma frames_event e : frames (exchange_deposit_event e).
Proof. done. Qed.
Lemma frames_set_pools f : frames (modify (fun s => set_pools (f (pools s)) s)).
Proof. done. Qed.
Lemma frames_panic {A} : frames (@panic _ _ A).
Proof. done. Qed.
Lemma frames_if {A} (b : bool) (m1 m2 : Dispatch State A) :
  frames m1 -> frames m2 -> frames (if b then m1 else m2).
Proof. by destruct b. Qed.
Lemma frames_for_each {A} (f : A -> Dispatch State unit) l :
  (forall x, frames (f x)) -> frames (for_each f l).
Proof.
  intros Hf. induction l; simpl; [done|]. apply frames_bind; auto.
Qed.
End frame.

Create HintDb frames.
#[export] Hint Resolve frames_zoom frames_event frames_panic frames_attempt frames_for_each : frames.
#[export] Hint Extern 1 (frames (mret _)) => done : frames.
#[export] Hint Extern 1 (frames (gets _)) => done : frames.

(** [solve_frames] follows the structure of the computation. *)
Ltac solve_frames :=
  repeat first
    [ progress intros
    | solve [auto with frames]
    | apply frames_bind | apply frames_if | apply frames_attempt
    | progress cbv beta zeta
    | match goal with |- frames (match ?x with _ => _ end) => destruct x end ].

Section book.
Context {P H : Type}.
Context `{MultiCurrency P} `{MultiReservable P} `{AMM P} `{BlockNumberProvider P}.
Context `{FeeMath} `{IntentionHashing H} `{StorageOrder}.
Notation State := (ExchangeState P H).
Notation Intention := (ExchangeIntention H).
Implicit Types s : State.

Lemma frames_revert l : frames (revert (H := H) l).
Proof. apply frames_for_each. done. Qed.
Lemma frames_execute dt l : frames (execute (H := H) dt l).
Proof.
  unfold execute, send_direct_trade_resolve_event. apply frames_bind; [done|intros _].
  induction l; simpl; unfold send_trade_fee_event; solve_frames.
Qed.
Lemma frames_prepare dt acc : frames (prepare (H := H) dt acc).
Proof. unfold prepare, reserve_if_can, send_insufficient_balance_event. solve_frames. Qed.
#[local] Hint Resolve frames_revert frames_execute frames_prepare : frames.

Lemma frames_send_error i e : frames (send_intention_error_event (P := P) (H := H) i e).
Proof. done. Qed.
Lemma frames_amm t i x : frames (execute_amm_transfer (H := H) t i x).
Proof. unfold execute_amm_transfer. solve_frames. Qed.
Lemma frames_validate i : frames (validate_intention (H := H) i).
Proof. unfold validate_intention. solve_frames. Qed.
#[local] Hint Resolve frames_send_error frames_amm frames_validate : frames.

Lemma frames_single i : frames (resolve_single_intention (H := H) i).
Proof. unfold resolve_single_intention. solve_frames. Qed.
Lemma frames_verify i : frames (verify_intention (H := H) i).
Proof. unfold verify_intention. solve_frames. Qed.
#[local] Hint Resolve frames_single frames_verify : frames.

Lemma frames_resolve_loop acc i l copy : frames (resolve_loop (H := H) acc i copy l).
Proof.
  revert copy. induction l as [|m l IH]; intros copy; simpl; [done|].
  unfold resolve_smaller, resolve_larger, resolve_equal, with_prepared. solve_frames.
Qed.
#[local] Hint Resolve frames_resolve_loop : frames.

Lemma frames_matched acc i l : frames (resolve_matched_intentions (H := H) acc i l).
Proof. unfold resolve_matched_intentions. solve_frames. Qed.
#[local] Hint Resolve frames_matched : frames.

Lemma frames_process acc a b : frames (process_exchange_intentions (H := H) acc a b).
Proof.
  unfold process_exchange_intentions. cbv zeta. generalize (sort_desc b). intros bs.
  apply frames_bind; [|intros; auto with frames].
  generalize 0%nat. generalize (sort_desc a). intros as_.
  induction as_ as [|i as_ IH]; intros n; simpl; [done|]. solve_frames.
Qed.

(** ** Intentions resolved by the pool

    What the pool pallet answers, and the two ways an intention can end. *)
Definition amm_validation (i : Intention) : Dispatch P AMMTransfer :=
  match sell_or_buy i with
  | SELL => validate_sell (who i) (assets i) (amount_in i) (trade_limit i) (discount i)
  | BUY => validate_buy (who i) (assets i) (amount_out i) (trade_limit i) (discount i)
  end.
Definition amm_execution (i : Intention) (x : AMMTransfer) : Dispatch P unit :=
  match sell_or_buy i with SELL => execute_sell x | BUY => execute_buy x end.

Definition refused (i : Intention) (e : DispatchError) (s : State) : State :=
  mkExchange (pools s) (ExchangeAssetsIntentionCount s) (ExchangeAssetsIntentions s)
    (exchange_events s ++
      [IntentionResolveErrorEvent (who i) (assets i) (sell_or_buy i) (intention_id i) e]).
Definition resolved_by_amm (i : Intention) (x : AMMTransfer) (p : P) (s : State) : State :=
  mkExchange p (ExchangeAssetsIntentionCount s) (ExchangeAssetsIntentions s)
    (exchange_events s ++
      [IntentionResolvedAMMTrade (t_origin x) (sell_or_buy i) (intention_id i) (t_amount x)
         (wrapping_add 128 (t_amount_out x) (snd (t_fee x))) (get_pair_id (t_assets x))]).

Lemma set_pools_id s : set_pools (pools s) s = s.
Proof. by destruct s. Qed.

Lemma validate_intention_zoom i : validate_intention i = zoom (S := State) (amm_validation i).
Proof. unfold validate_intention, amm_validation. by case_match. Qed.

Section amm_client.
Context `{!AMMLaws P}.

Lemma amm_validation_reads i p : snd (amm_validation i p) = p.
Proof.
  unfold amm_validation. case_match; [apply validate_sell_reads|apply validate_buy_reads].
Qed.
Lemma amm_execution_atomic i x p r p' :
  amm_execution i x p = (r, p') -> (forall u, r <> Ok u) -> p' = p.
Proof.
  unfold amm_execution. case_match; [apply execute_sell_atomic|apply execute_buy_atomic].
Qed.

Lemma validate_intention_run i s :
  validate_intention i s = (fst (amm_validation i (pools s)), s).
Proof.
  rewrite validate_intention_zoom. unfold zoom. simpl.
  pose proof (amm_validation_reads i (pools s)) as Hr.
  destruct (amm_validation i (pools s)) as [r p]. simpl in *. subst. by rewrite set_pools_id.
Qed.

Lemma execute_amm_run i x s :
  execute_amm_transfer (sell_or_buy i) (intention_id i) x s =
  match amm_execution i x (pools s) with
  | (Ok _, p) => (Ok tt, resolved_by_amm i x p s)
  | (Err e, _) => (Err e, s)
  | (Panic, _) => (Panic, s)
  end.
Proof.
  pose proof (amm_execution_atomic i x (pools s)) as Hatomic.
  unfold execute_amm_transfer, amm_execution, resolved_by_amm in *.
  destruct (sell_or_buy i);
    unfold mbind, M_bind, run_bind, zoom, exchange_deposit_event, modify, mret, M_ret; simpl;
    [destruct (execute_sell x (pools s)) as [[[]| |] p]
    |destruct (execute_buy x (pools s)) as [[[]| |] p]];
    try done; (rewrite (Hatomic _ _ eq_refl) by done; by rewrite set_pools_id).
Qed.

(** [C28] The resolution of a single intention, for every pool pallet that keeps the
    promises of the [AMM] trait: it never returns an error; the intention is
    either traded by the pool exactly as validated, with the one event that says so,
    or refused (by the validation or by the execution) with the one event that says
    why, and then the pools and all balances are what they were. *)
Theorem single_intention_spec i s :
  resolve_single_intention i s =
  match fst (amm_validation i (pools s)) with
  | Ok x =>
      match amm_execution i x (pools s) with
      | (Ok _, p) => (Ok tt, resolved_by_amm i x p s)
      | (Err e, _) => (Ok tt, refused i e s)
      | (Panic, _) => (Panic, s)
      end
  | Err e => (Ok tt, refused i e s)
  | Panic => (Panic, s)
  end.
Proof.
  unfold resolve_single_intention, attempt, mbind, M_bind, run_bind.
  rewrite validate_intention_run. destruct (fst (amm_validation i (pools s))) as [x| |]; [|done..].
  rewrite execute_amm_run. by destruct (amm_execution i x (pools s)) as [[[]| |] p].
Qed.
End amm_client.

Lemma finalize_clears s s' :
  on_finalize s = (Ok tt, s') ->
  ExchangeAssetsIntentionCount s' = ∅ /\ ExchangeAssetsIntentions s' = ∅.
Proof. unfold on_finalize. intros Hrun. minv Hrun. done. Qed.

(** ** Registration *)

Definition registered (i : Intention) (s : State) : State :=
  let p := assets i in
  let a := match sell_or_buy i with SELL => asset_in p | BUY => asset_out p end in
  let b := match sell_or_buy i with SELL => asset_out p | BUY => asset_in p end in
  let x := match sell_or_buy i with SELL => amount_in i | BUY => amount_out i end in
  mkExchange (pools s)
    (<[ordered_pair p := get_intentions_count (ordered_pair p) s + 1]>
       (ExchangeAssetsIntentionCount s))
    (<[(asset_in p, asset_out p) := get_intentions (asset_in p, asset_out p) s ++ [i]]>
       (ExchangeAssetsIntentions s))
    (exchange_events s ++ [IntentionRegistered (who i) a b x (sell_or_buy i) (intention_id i)]).

Lemma register_Ok w ty p x y l d s s' :
  register_intention w ty p x y l d s = (Ok tt, s') <->
  let c := get_intentions_count (ordered_pair p) s in
  c + 1 < 2 ^ 32 /\
  s' = registered (mkIntention w p x y l d ty (generate_intention_id w c p s)) s.
Proof.
  unfold register_intention, checked_add, mbind, M_bind, run_bind, gets, modify, ok_or,
    exchange_deposit_event, registered.
  destruct (Z.ltb_spec (get_intentions_count (ordered_pair p) s + 1) (2 ^ 32)); simpl.
  - destruct ty; simpl; unfold mret, M_ret; (split; [intros [= <-]; done|intros [_ ->]; done]).
  - unfold fail. split; [done|lia].
Qed.

(** The result of [sell] and [buy] on every branch. *)
Definition sell_result (w : AccountId) (a b : AssetId) (x limit : Balance) (d : bool) (s : State)
    : outcome DispatchError unit * State :=
  let p := AssetPair_new a b in
  let y := get_spot_price_unchecked a b x (pools s) in
  let c := get_intentions_count (ordered_pair p) s in
  if x <? MIN_TRADING_LIMIT then (Err (ExchangeE ExchangeErr.MinimumTradeLimitNotReached), s)
  else if negb (amm_exists p (pools s)) then (Err (ExchangeE ExchangeErr.TokenPoolNotFound), s)
  else if free_balance a w (pools s) <? x then
    (Err (ExchangeE ExchangeErr.InsufficientAssetBalance), s)
  else if y =? 0 then (Err (ExchangeE ExchangeErr.ZeroSpotPrice), s)
  else if 2 ^ 32 <=? c + 1 then (Err (ExchangeE ExchangeErr.IntentionCountOverflow), s)
  else (Ok tt, registered (mkIntention w p x y limit d SELL (generate_intention_id w c p s)) s).

Definition buy_result (w : AccountId) (b a : AssetId) (y limit : Balance) (d : bool) (s : State)
    : outcome DispatchError unit * State :=
  let p := AssetPair_new a b in
  let x := get_spot_price_unchecked b a y (pools s) in
  let c := get_intentions_count (ordered_pair p) s in
  if y <? MIN_TRADING_LIMIT then (Err (ExchangeE ExchangeErr.MinimumTradeLimitNotReached), s)
  else if negb (amm_exists p (pools s)) then (Err (ExchangeE ExchangeErr.TokenPoolNotFound), s)
  else if x =? 0 then (Err (ExchangeE ExchangeErr.ZeroSpotPrice), s)
  else if free_balance a w (pools s) <? x then
    (Err (ExchangeE ExchangeErr.InsufficientAssetBalance), s)
  else if 2 ^ 32 <=? c + 1 then (Err (ExchangeE ExchangeErr.IntentionCountOverflow), s)
  else (Ok tt, registered (mkIntention w p x y limit d BUY (generate_intention_id w c p s)) s).

Lemma register_result w ty p x y l d s :
  (register_intention w ty p x y l d ;; mret tt) s =
  let c := get_intentions_count (ordered_pair p) s in
  if 2 ^ 32 <=? c + 1 then (Err (ExchangeE ExchangeErr.IntentionCountOverflow), s)
  else (Ok tt, registered (mkIntention w p x y l d ty (generate_intention_id w c p s)) s).
Proof.
  unfold register_intention, checked_add, mbind, M_bind, run_bind, gets, modify, ok_or,
    exchange_deposit_event, registered.
  destruct (Z.ltb_spec (get_intentions_count (ordered_pair p) s + 1) (2 ^ 32)),
    (Z.leb_spec (2 ^ 32) (get_intentions_count (ordered_pair p) s + 1)); try lia; simpl; [|done].
  by destruct ty.
Qed.

(** Running a guard. *)
Lemma bind_ensure {A} (b : bool) e (k : unit -> Dispatch State A) s :
  mbind k (ensure b e) s = if b then k tt s else (Err e, s).
Proof. by destruct b. Qed.
Lemma bind_gets {A B} (f : State -> A) (k : A -> Dispatch State B) s :
  mbind k (gets f) s = k (f s) s.
Proof. done. Qed.
Lemma bind_signed {A} w (k : AccountId -> Dispatch State A) s :
  mbind k (ensure_signed (Signed w)) s = k w s.
Proof. done. Qed.

Lemma exchange_results w a b x limit d s :
  sell (Signed w) a b x limit d s = sell_result w a b x limit d s /\
  buy (Signed w) a b x limit d s = buy_result w a b x limit d s.
Proof.
  split; unfold sell, buy, sell_result, buy_result; rewrite bind_signed; cbv zeta;
    rewrite bind_ensure, Z.leb_antisym; destruct (x <? MIN_TRADING_LIMIT); simpl; try done;
    rewrite bind_gets, bind_ensure; change {| asset_in := ?u; asset_out := ?v |} with (AssetPair_new u v);
    destruct (amm_exists _ (pools s)); simpl; try done.
  - rewrite bind_gets, bind_ensure, Z.leb_antisym.
    destruct (free_balance a w (pools s) <? x); simpl; [done|].
    rewrite bind_gets, bind_ensure. destruct (_ =? 0); simpl; [done|]. apply register_result.
  - rewrite bind_gets, bind_ensure. destruct (_ =? 0); simpl; [done|].
    rewrite bind_gets, bind_ensure, Z.leb_antisym.
    destruct (free_balance b w (pools s) <? _); simpl; [done|]. apply register_result.
Qed.

(** [sell] and [buy] only register: on every branch their result is the one
    given, in the order of the checks; an error changes nothing, and success appends
    one intention with the spot price of the moment, counts it and reports it. *)
Theorem exchange_register_spec w a b x limit d s :
  sell (Signed w) a b x limit d s = sell_result w a b x limit d s /\
  buy (Signed w) a b x limit d s = buy_result w a b x limit d s.
Proof. apply exchange_results. Qed.

(** ** The bookkeeping of intentions *)

Definition count_of (a b : AssetId) (s : State) : Z :=
  get_intentions_count (ordered_pair (AssetPair_new a b)) s.

Record book_ok (s : State) : Prop := mkBookOk {
  (** the count of a pair is the number of intentions in both directions *)
  bk_count a b : a <> b ->
    count_of a b s = Z.of_nat (length (get_intentions (a, b) s) + length (get_intentions (b, a) s));
  bk_same a : count_of a a s = Z.of_nat (length (get_intentions (a, a) s));
  (** an intention is stored under the pair it trades *)
  bk_stored a b i : i ∈ get_intentions (a, b) s -> assets i = AssetPair_new a b;
  (** the counts are kept under ordered pairs *)
  bk_keys a b n : ExchangeAssetsIntentionCount s !! (a, b) = Some n -> a <= b
}.

Inductive exchange_step : State -> State -> Prop :=
| exchange_sell origin a b x l d s r s' : sell origin a b x l d s = (r, s') -> exchange_step s s'
| exchange_buy origin b a y l d s r s' : buy origin b a y l d s = (r, s') -> exchange_step s s'
| exchange_end_block s s' : on_finalize s = (Ok tt, s') -> exchange_step s s'
| exchange_pools p s : exchange_step s (set_pools p s).

Inductive exchange_reachable : State -> Prop :=
| exchange_init p : exchange_reachable (mkExchange p ∅ ∅ [])
| exchange_more s s' : exchange_reachable s -> exchange_step s s' -> exchange_reachable s'.

Lemma book_ok_same s s' : book s' = book s -> book_ok s -> book_ok s'.
Proof.
  intros [= Hc Hi] [K1 K0 K2 K3]. split; unfold count_of, get_intentions_count, get_intentions in *;
    rewrite ?Hc, ?Hi; eauto.
Qed.

Lemma book_ok_empty s :
  ExchangeAssetsIntentionCount s = ∅ -> ExchangeAssetsIntentions s = ∅ -> book_ok s.
Proof.
  intros Hc Hi. split; unfold count_of, get_intentions_count, get_intentions;
    rewrite ?Hc, ?Hi; intros *; rewrite !lookup_empty; simpl; [done|done| |done].
  intros Hin. by apply not_elem_of_nil in Hin.
Qed.

Lemma get_intentions_registered i s a b :
  get_intentions (a, b) (registered i s) =
  if decide (assets i = AssetPair_new a b) then get_intentions (a, b) s ++ [i]
  else get_intentions (a, b) s.
Proof.
  unfold get_intentions at 1, registered; simpl. rewrite lookup_insert.
  destruct (assets i) as [u v]. simpl. unfold AssetPair_new.
  destruct (decide ((u, v) = (a, b))) as [[= -> ->]|Hne], (decide _) as [He|He]; try done.
  by injection He as -> ->.
Qed.

Lemma count_of_registered i s a b :
  count_of a b (registered i s) =
  count_of a b s +
  (if decide (ordered_pair (assets i) = ordered_pair (AssetPair_new a b)) then 1 else 0).
Proof.
  unfold count_of, get_intentions_count at 1, registered; simpl. rewrite lookup_insert.
  case_decide as Hd; simpl; [by rewrite Hd|]. unfold get_intentions_count. lia.
Qed.

Lemma book_ok_registered i s : book_ok s -> book_ok (registered i s).
Proof.
  intros [K1 K0 K2 K3]. split.
  - intros a b Hab. rewrite count_of_registered, (K1 a b Hab), !get_intentions_registered.
    pose proof (ordered_pair_eq (assets i) (AssetPair_new a b)) as Ho.
    change (flip_pair (AssetPair_new a b)) with (AssetPair_new b a) in Ho.
    assert (Hd : AssetPair_new a b <> AssetPair_new b a) by (intros [= -> _]; done).
    destruct (decide (assets i = AssetPair_new a b)) as [Ha|Ha],
      (decide (assets i = AssetPair_new b a)) as [Hb|Hb];
      [congruence|rewrite decide_True by tauto|rewrite decide_True by tauto|rewrite decide_False by tauto];
      rewrite ?length_app; simpl; lia.
  - intros a. rewrite count_of_registered, K0, get_intentions_registered.
    pose proof (ordered_pair_eq (assets i) (AssetPair_new a a)) as Ho.
    change (flip_pair (AssetPair_new a a)) with (AssetPair_new a a) in Ho.
    destruct (decide (assets i = AssetPair_new a a));
      [rewrite decide_True by tauto|rewrite decide_False by tauto];
      rewrite ?length_app; simpl; lia.
  - intros a b j. rewrite get_intentions_registered. case_decide; [|apply K2].
    rewrite elem_of_app, list_elem_of_singleton. intros [?| ->]; eauto.
  - simpl. intros a b n [[He _]|[_ ?]]%lookup_insert_Some; [|eauto].
    pose proof (ordered_pair_le (assets i)) as Hle. by rewrite He in Hle.
Qed.

Lemma exchange_step_ok s s' : exchange_step s s' -> book_ok s -> book_ok s'.
Proof.
  intros Hstep Hok. destruct Hstep as [origin a b x l d s r s' Hrun|origin b a y l d s r s' Hrun|s s' Hrun|p s].
  - destruct origin as [|w|]; try (injection Hrun as _ <-; done).
    destruct (exchange_results w a b x l d s) as [Hspec _].
    rewrite Hspec in Hrun. unfold sell_result in Hrun. cbv zeta in Hrun.
    repeat case_match; injection Hrun as _ <-; auto using book_ok_registered.
  - destruct origin as [|w|]; try (injection Hrun as _ <-; done).
    destruct (exchange_results w b a y l d s) as [_ Hspec].
    rewrite Hspec in Hrun. unfold buy_result in Hrun. cbv zeta in Hrun.
    repeat case_match; injection Hrun as _ <-; auto using book_ok_registered.
  - apply finalize_clears in Hrun as [? ?]. by apply book_ok_empty.
  - by apply (book_ok_same s).
Qed.

(** In every reachable state the books agree: the count kept for a pair is the
    number of intentions registered in both directions (so [on_finalize], which
    visits the pairs with a non-zero count, visits every pair with an intention),
    and each intention is stored under the pair it trades, each count under the
    ordered pair. *)
Theorem exchange_reachable_ok s : exchange_reachable s -> book_ok s.
Proof.
  induction 1 as [p|s s' _ IH Hstep]; [by apply book_ok_empty|by eapply exchange_step_ok].
Qed.

(** ** The end of a block *)

(** What [on_finalize] does with one entry, given the registered intentions. *)
Definition resolve_entry (book_of : AssetId * AssetId -> list Intention)
    (e : (AssetId * AssetId) * Z) : Dispatch State unit :=
  let '((asset_1, asset_2), count) := e in
  if count =? 0 then mret tt else
  process_exchange_intentions (get_pair_id (AssetPair_new asset_1 asset_2))
    (book_of (asset_2, asset_1)) (book_of (asset_1, asset_2)).

Lemma resolve_entry_same s0 s e :
  book s = book s0 ->
  (let '((asset_1, asset_2), count) := e in
   if count =? 0 then mret tt else
   asset_a_ins ← gets (get_intentions (asset_2, asset_1));
   asset_b_ins ← gets (get_intentions (asset_1, asset_2));
   process_exchange_intentions (get_pair_id {| asset_in := asset_1; asset_out := asset_2 |})
     asset_a_ins asset_b_ins) s = resolve_entry (fun p => get_intentions p s0) e s.
Proof.
  intros [= Hc Hi]. destruct e as [[a b] n]. unfold resolve_entry. destruct (n =? 0); [done|].
  rewrite !bind_gets. unfold get_intentions. by rewrite Hi.
Qed.

Lemma resolve_entry_frames f e : frames (resolve_entry f e).
Proof.
  destruct e as [[a b] n]. unfold resolve_entry. apply frames_if; [done|]. apply frames_process.
Qed.

Lemma for_each_ext {A} (f g : A -> Dispatch State unit) l s0 s :
  book s = book s0 ->
  (forall x s1, book s1 = book s0 -> f x s1 = g x s1) -> (forall x, frames (g x)) ->
  for_each f l s = for_each g l s.
Proof.
  intros Hs Hfg Hg. revert s Hs. induction l as [|x l IH]; intros s Hs; simpl; [done|].
  unfold mbind, M_bind, run_bind. rewrite (Hfg x s Hs). specialize (Hg x s).
  destruct (g x s) as [[u| |] s1]; simpl in *; [|done..]. apply IH. congruence.
Qed.

(** [on_finalize] works on the book as it stands when it starts. *)
Lemma on_finalize_snapshot s :
  on_finalize s =
    (for_each (resolve_entry (fun p => get_intentions p s))
       (storage_iter (ExchangeAssetsIntentionCount s)) ;;
     modify (set_IntentionCount (fun _ => ∅)) ;; modify (set_Intentions (fun _ => ∅))) s.
Proof.
  unfold on_finalize. rewrite bind_gets. unfold mbind, M_bind, run_bind.
  erewrite (for_each_ext _ (resolve_entry (fun p => get_intentions p s)) _ s s); [done|done| |].
  - intros e s1 Hs1. by apply resolve_entry_same.
  - apply resolve_entry_frames.
Qed.

(** ** Direct trades *)

(** [x] at account [w] in currency [c]. *)
Definition at_account (c : AssetId) (w : AccountId) (x : Balance) (b : AssetId) (z : AccountId)
    : Balance := if decide (b = c /\ z = w) then x else 0.

Lemma at_account_add c w x y b z :
  at_account c w (x + y) b z = at_account c w x b z + at_account c w y b z.
Proof. unfold at_account. case_decide; lia. Qed.
Lemma at_account_0 c w b z : at_account c w 0 b z = 0.
Proof. unfold at_account. by case_decide. Qed.
Lemma at_account_nonneg c w x b z : 0 <= x -> 0 <= at_account c w x b z.
Proof. unfold at_account. case_decide; lia. Qed.
Lemma at_account_le c w x y b z : x <= y -> at_account c w x b z <= at_account c w y b z.
Proof. unfold at_account. case_decide; lia. Qed.
Lemma moves_at_account c f t x b z :
  moves c f t x b z = at_account c t x b z - at_account c f x b z.
Proof. done. Qed.

(** What a list of transfers takes from reserves and adds to free balances. *)
Definition debits (l : list Transfer) (b : AssetId) (z : AccountId) : Balance :=
  foldr (fun t acc => at_account (tr_asset t) (tr_from t) (tr_amount t) b z + acc) 0 l.
Definition credits (l : list Transfer) (b : AssetId) (z : AccountId) : Balance :=
  foldr (fun t acc => at_account (tr_asset t) (tr_to t) (tr_amount t) b z + acc) 0 l.
Definition proper (t : Transfer) : Prop := tr_from t <> tr_to t /\ 0 <= tr_amount t.

Lemma debits_nonneg l b z : Forall proper l -> 0 <= debits l b z.
Proof.
  induction 1 as [|t l [_ Ht] _ IH]; simpl; [done|].
  pose proof (at_account_nonneg (tr_asset t) (tr_from t) (tr_amount t) b z Ht). lia.
Qed.

Context `{!MultiReservableLaws P} `{!FeeMathLaws}.

Lemma execute_transfers_effect dt l s s' :
  execute_transfers dt l s = (Ok true, s') -> Forall proper l ->
  (forall c w, debits l c w <= reserved_balance c w (pools s)) ->
  forall b z,
    free_balance b z (pools s') = free_balance b z (pools s) + credits l b z /\
    reserved_balance b z (pools s') = reserved_balance b z (pools s) - debits l b z.
Proof.
  intros Hrun Hall. revert s Hrun.
  induction Hall as [|t l [Hne Hx] Hl IH]; simpl; intros s Hrun Hres b z.
  - minv Hrun. lia.
  - apply bind_Ok in Hrun as (r & st & Hstep & Hrun).
    apply attempt_Ok in Hstep as [(ru & -> & Hr)|(e & -> & _)]; [|by minv Hrun].
    apply zoom_Ok in Hr as (p1 & Hr & ->). destruct ru. simpl in Hr.
    assert (Hcov : forall c w, at_account (tr_asset t) (tr_from t) (tr_amount t) c w <=
      reserved_balance c w (pools s)).
    { intros c w. specialize (Hres c w). pose proof (debits_nonneg l c w Hl). lia. }
    assert (Heff := fun c w => repatriate_effect _ _ _ _ _ _ c w Hr Hne).
    assert (Hb : 0 <= tr_amount t <= reserved_balance (tr_asset t) (tr_from t) (pools s)).
    { split; [done|]. specialize (Hcov (tr_asset t) (tr_from t)).
      unfold at_account in Hcov. by rewrite decide_True in Hcov. }
    assert (Hs1 : exists s1, pools s1 = p1 /\ execute_transfers dt l s1 = (Ok true, s')).
    { apply bind_Ok in Hrun as (u & s1 & Hev & Hrest). exists s1. split; [|done].
      unfold send_trade_fee_event, exchange_deposit_event in Hev.
      destruct (fee_transfer t); minv Hev; done. }
    destruct Hs1 as (s1 & <- & Hrest).
    destruct (IH s1 Hrest) with (b := b) (z := z) as [-> ->].
    { intros c w. destruct (Heff c w Hb) as [_ ->]. specialize (Hres c w).
      unfold at_account in Hres. lia. }
    destruct (Heff b z Hb) as [-> ->]. unfold at_account. lia.
Qed.

(** The amounts that change hands in a direct trade, by the kinds of the two
    intentions: to [B], fee of [A], to [A], fee of [B]. *)
Definition settlement (dt : DirectTradeData H) (fee_a fee_b : Balance)
    : (Balance * Balance) * (Balance * Balance) :=
  let xa := amount_from_a dt in let xb := amount_from_b dt in
  match sell_or_buy (intention_a dt), sell_or_buy (intention_b dt) with
  | SELL, SELL => ((xa - fee_a, fee_a), (xb - fee_b, fee_b))
  | BUY, BUY => ((xa, fee_a), (xb, fee_b))
  | BUY, SELL => ((xa - fee_a, 2 * fee_a), (xb, 0))
  | SELL, BUY => ((xa, 0), (xb - fee_b, 2 * fee_b))
  end.

Definition reserved_for (dt : DirectTradeData H) (fee_a fee_b : Balance) (b : AssetId)
    (z : AccountId) : Balance :=
  let a := intention_a dt in
  let '((ta, fa), (tb, fb)) := settlement dt fee_a fee_b in
  at_account (asset_in (assets a)) (who a) (ta + fa) b z +
  at_account (asset_out (assets a)) (who (intention_b dt)) (tb + fb) b z.

Lemma reserve_if_can_Ok c w x s (ok : bool) s1 :
  reserve_if_can (H := H) c w x s = (Ok ok, s1) -> 0 <= x ->
  let d := if ok then x else 0 in
  forall b z,
    free_balance b z (pools s1) = free_balance b z (pools s) - at_account c w d b z /\
    reserved_balance b z (pools s1) = reserved_balance b z (pools s) + at_account c w d b z.
Proof.
  unfold reserve_if_can. intros Hrun Hx. minv Hrun.
  apply attempt_Ok in Hstep as [(u & -> & Hr)|(e & -> & Hr)].
  - apply zoom_Ok in Hr as (p1 & Hr & ->). destruct u. simpl. intros b z.
    by destruct (reserve_effect _ _ _ _ _ b z Hr Hx).
  - unfold zoom in Hr. simpl in Hr. destruct (reserve c w x (pools s)) as [r p1] eqn:Hres.
    injection Hr as -> <-. apply reserve_failed in Hres; [|done]. subst. simpl. intros b z.
    rewrite at_account_0. lia.
Qed.

(** The amounts fit: the fee is at most the amount, twice the amount is a [u128]. *)
Definition amounts_fit (dt : DirectTradeData H) : Prop :=
  0 <= amount_from_a dt /\ 2 * amount_from_a dt < 2 ^ 128 /\
  0 <= amount_from_b dt /\ 2 * amount_from_b dt < 2 ^ 128.

Lemma wrapping_sub_small w a b : 0 <= b <= a -> a < 2 ^ w -> wrapping_sub w a b = a - b.
Proof. intros. unfold wrapping_sub. apply Z.mod_small. lia. Qed.
Lemma wrapping_mul_small w a b : 0 <= a * b < 2 ^ w -> wrapping_mul w a b = a * b.
Proof. intros. unfold wrapping_mul. by apply Z.mod_small. Qed.

(** The machine arithmetic of [prepare] computes the settlement. *)
Lemma settlement_fits dt acc fee_a fee_b :
  amounts_fit dt -> 0 <= fee_a <= amount_from_a dt -> 0 <= fee_b <= amount_from_b dt ->
  assets (intention_b dt) = flip_pair (assets (intention_a dt)) ->
  let a := intention_a dt in let b := intention_b dt in
  let X := asset_in (assets a) in let Y := asset_out (assets a) in
  let '((ta, fa), (tb, fb)) := settlement dt fee_a fee_b in
  (0 <= ta /\ 0 <= fa /\ 0 <= tb /\ 0 <= fb) /\
  reserved_amounts dt fee_a fee_b = (ta + fa, tb + fb) /\
  (forall c w, debits (trade_transfers dt acc fee_a fee_b) c w =
     at_account X (who a) (ta + fa) c w + at_account Y (who b) (tb + fb) c w) /\
  (forall c w, credits (trade_transfers dt acc fee_a fee_b) c w =
     at_account X (who b) ta c w + at_account Y (who a) tb c w +
     at_account X acc fa c w + at_account Y acc fb c w) /\
  (who a <> who b -> who a <> acc -> who b <> acc ->
   Forall proper (trade_transfers dt acc fee_a fee_b)).
Proof.
  intros (H1' & H2' & H3' & H4') Hfa Hfb Hflip. unfold settlement, reserved_amounts, trade_transfers.
  rewrite Hflip. simpl asset_in. cbv zeta.
  pose proof at_account_add as Hadd. pose proof at_account_0 as H0'.
  destruct (sell_or_buy (intention_a dt)), (sell_or_buy (intention_b dt));
    rewrite ?wrapping_add_small, ?wrapping_sub_small, ?wrapping_mul_small by lia;
    (split_and!; try lia;
     [f_equal; lia
     |intros c w; simpl; rewrite ?Z.add_0_r, ?Hadd, ?H0'; lia
     |intros c w; simpl; rewrite ?Hadd, ?H0'; lia
     |intros; repeat constructor; unfold proper; simpl; (auto || lia)]).
Qed.

Lemma prepare_Ok dt acc l s s1 :
  prepare dt acc s = (Ok (true, l), s1) -> amounts_fit dt ->
  0 <= fst (get_fee acc (pools s)) -> 0 <= snd (get_fee acc (pools s)) ->
  assets (intention_b dt) = flip_pair (assets (intention_a dt)) ->
  exists fee_a fee_b,
    calculate_pool_trade_fee (amount_from_a dt) (get_fee acc (pools s)) = Some fee_a /\
    calculate_pool_trade_fee (amount_from_b dt) (get_fee acc (pools s)) = Some fee_b /\
    0 <= fee_a <= amount_from_a dt /\ 0 <= fee_b <= amount_from_b dt /\
    l = trade_transfers dt acc fee_a fee_b /\
    forall b z,
      free_balance b z (pools s1) = free_balance b z (pools s) - reserved_for dt fee_a fee_b b z /\
      reserved_balance b z (pools s1) =
        reserved_balance b z (pools s) + reserved_for dt fee_a fee_b b z.
Proof.
  unfold prepare, send_insufficient_balance_event, exchange_deposit_event.
  intros Hrun Hfit Hf1 Hf2 Hflip. minv Hrun; try discriminate.
  destruct (calculate_pool_trade_fee (amount_from_a dt) _) as [fee_a|] eqn:Hfa;
    [|minv Hrun; discriminate].
  destruct (calculate_pool_trade_fee (amount_from_b dt) _) as [fee_b|] eqn:Hfb;
    [|minv Hrun; discriminate].
  pose proof Hfit as (Ha0 & Ha1 & Hb0 & Hb1).
  assert (Hna : 0 <= fee_a) by exact (trade_fee_nonneg _ _ _ Ha0 Hf1 Hf2 Hfa).
  assert (Hnb : 0 <= fee_b) by exact (trade_fee_nonneg _ _ _ Hb0 Hf1 Hf2 Hfb).
  destruct (_ || _)%bool eqn:Hle; [minv Hrun; discriminate|].
  apply orb_false_iff in Hle as [La%Z.ltb_ge Lb%Z.ltb_ge].
  pose proof (settlement_fits dt acc fee_a fee_b Hfit (conj Hna La) (conj Hnb Lb) Hflip) as Hset.
  exists fee_a, fee_b. unfold reserved_for.
  destruct (settlement dt fee_a fee_b) as [[ta fa] [tb fb]].
  destruct Hset as ((? & ? & ? & ?) & Hr & _). rewrite Hr in Hrun.
  minv Hrun; try discriminate.
  repeat match goal with Hx : negb ?x = false |- _ => destruct x; [clear Hx|done] end.
  match goal with Hx : (_, _) = (_, _) |- _ => injection Hx as -> end.
  split_and!; auto. intros b z.
  match goal with R1 : reserve_if_can _ _ _ _ = (_, ?m), R2 : reserve_if_can _ _ _ ?m = _ |- _ =>
    destruct (reserve_if_can_Ok _ _ _ _ _ _ R1 ltac:(lia) b z) as [F1 G1];
    destruct (reserve_if_can_Ok _ _ _ _ _ _ R2 ltac:(lia) b z) as [F2 G2] end.
  lia.
Qed.

(** [C27] A direct trade that was prepared and executed settles exactly: each party
    pays what its intention says (the fee on top for a buyer, deducted for a seller),
    the fees go to the pool, every reservation made for the trade is used up, and no
    other balance changes. *)
Theorem direct_trade_exact dt acc l s s1 s2 :
  let a := intention_a dt in let b := intention_b dt in
  prepare dt acc s = (Ok (true, l), s1) -> execute dt l s1 = (Ok true, s2) ->
  amounts_fit dt -> assets b = flip_pair (assets a) ->
  who a <> who b -> who a <> acc -> who b <> acc ->
  0 <= fst (get_fee acc (pools s)) -> 0 <= snd (get_fee acc (pools s)) ->
  exists fee_a fee_b,
    calculate_pool_trade_fee (amount_from_a dt) (get_fee acc (pools s)) = Some fee_a /\
    calculate_pool_trade_fee (amount_from_b dt) (get_fee acc (pools s)) = Some fee_b /\
    let X := asset_in (assets a) in let Y := asset_out (assets a) in
    let '((ta, fa), (tb, fb)) := settlement dt fee_a fee_b in
    forall c z,
      free_balance c z (pools s2) = free_balance c z (pools s) +
        moves X (who a) (who b) ta c z + moves Y (who b) (who a) tb c z +
        moves X (who a) acc fa c z + moves Y (who b) acc fb c z /\
      reserved_balance c z (pools s2) = reserved_balance c z (pools s).
Proof.
  intros a b Hprep Hexe Hfit Hflip Hab Hap Hbp Hf1 Hf2.
  destruct (prepare_Ok _ _ _ _ _ Hprep Hfit Hf1 Hf2 Hflip) as (fee_a & fee_b & Ha & Hb & La & Lb & -> & Hbal).
  exists fee_a, fee_b. split; [done|]. split; [done|]. cbv zeta.
  pose proof (settlement_fits dt acc fee_a fee_b Hfit La Lb Hflip) as Hset. cbv zeta in Hset.
  unfold reserved_for in Hbal. fold a b in Hset, Hbal.
  destruct (settlement dt fee_a fee_b) as [[ta fa] [tb fb]].
  destruct Hset as (_ & _ & Hdeb & Hcred & Hprop). specialize (Hprop Hab Hap Hbp).
  unfold execute, send_direct_trade_resolve_event, exchange_deposit_event in Hexe. minv Hexe.
  match goal with He : execute_transfers _ _ _ = _ |- _ =>
    pose proof (execute_transfers_effect _ _ _ _ He Hprop) as Heff end. simpl in Heff.
  intros c z. destruct (Heff) with (b := c) (z := z) as [-> ->].
  { intros c' w. rewrite Hdeb. destruct (Hbal c' w) as [_ ->].
    pose proof (reserved_nonneg c' w (pools s)). lia. }
  destruct (Hbal c z) as [-> ->]. rewrite Hdeb, Hcred, !moves_at_account, !at_account_add. lia.
Qed.

(** When the second reservation of a direct trade fails, the first one stays:
    [prepare] has registered no transfer yet, so [revert] has nothing to undo, and the
    resolution goes on with the funds of the first party still reserved. *)
Theorem failed_prepare_leaks dt acc copy k s fee_a fee_b ra rb p1 p2 e :
  let a := intention_a dt in let b := intention_b dt in
  let X := asset_in (assets a) in let Y := asset_out (assets a) in
  amount_from_a dt <= free_balance X (who a) (pools s) ->
  amount_from_b dt <= free_balance Y (who b) (pools s) ->
  calculate_pool_trade_fee (amount_from_a dt) (get_fee acc (pools s)) = Some fee_a ->
  calculate_pool_trade_fee (amount_from_b dt) (get_fee acc (pools s)) = Some fee_b ->
  fee_a <= amount_from_a dt -> fee_b <= amount_from_b dt ->
  reserved_amounts dt fee_a fee_b = (ra, rb) -> 0 <= ra ->
  reserve X (who a) ra (pools s) = (Ok tt, p1) -> reserve Y (who b) rb p1 = (Err e, p2) ->
  with_prepared dt acc copy k s = (Ok copy, set_pools p1 s) /\
  reserved_balance X (who a) p1 = reserved_balance X (who a) (pools s) + ra.
Proof.
  intros a b X Y Ha Hb Hfa Hfb La Lb Hr Hra R1 R2.
  pose proof (reserve_failed _ _ _ _ _ _ R2 ltac:(done)) as ->.
  split.
  - unfold with_prepared, prepare, reserve_if_can, mbind, M_bind, run_bind, gets. fold a b X Y.
    rewrite (proj2 (Z.ltb_ge _ _) Ha), (proj2 (Z.ltb_ge _ _) Hb), Hfa, Hfb,
      (proj2 (Z.ltb_ge _ _) La), (proj2 (Z.ltb_ge _ _) Lb), Hr. simpl.
    unfold attempt at 1, zoom at 1. simpl. rewrite R1. simpl.
    unfold attempt, zoom. simpl. rewrite R2. done.
  - destruct (reserve_effect _ _ _ _ _ X (who a) R1 Hra) as [_ ->]. by rewrite decide_True.
Qed.
End book.
