(* ===== verification/ExchangeTotal.v ===== *)
(** * The end of a block completes

    [on_finalize] contains two panics the code calls impossible.  They are impossible when
    the intentions of a pair are all quoted at exactly one price: then the matching and
    the resolution run to the end and clear the book. *)

From S2P Require Import Xyk.
From S2P Require Import Prelude Primitives Errors Interfaces Exchange ExchangeProps.

(** ** Computations that cannot panic, and computations that always succeed *)

Section total.
Context {E S : Type}.

Definition never_panics {A} (m : M E S A) : Prop := forall s, fst (m s) <> Panic.
Definition always_ok {A} (m : M E S A) : Prop := forall s, exists a s', m s = (Ok a, s').

(** Success with a result of which [Q] holds. *)
Definition ok_with {A} (Q : A -> Prop) (m : M E S A) : Prop :=
  forall s, exists a s', m s = (Ok a, s') /\ Q a.

Lemma ok_with_mret {A} (Q : A -> Prop) a : Q a -> ok_with Q (mret a).
Proof. intros Ha s. by exists a, s. Qed.
Lemma ok_with_bind {A B} (Q : B -> Prop) (m : M E S A) (k : A -> M E S B) :
  always_ok m -> (forall a, ok_with Q (k a)) -> ok_with Q (mbind k m).
Proof.
  intros Hm Hk s. destruct (Hm s) as (a & s1 & Heq), (Hk a s1) as (b & s2 & Heq2 & Hb).
  exists b, s2. unfold mbind, M_bind, run_bind. by rewrite Heq.
Qed.
Lemma ok_with_bind_with {A B} (R : A -> Prop) (Q : B -> Prop) (m : M E S A) (k : A -> M E S B) :
  ok_with R m -> (forall a, R a -> ok_with Q (k a)) -> ok_with Q (mbind k m).
Proof.
  intros Hm Hk s. destruct (Hm s) as (a & s1 & Heq & Ha), (Hk a Ha s1) as (b & s2 & Heq2 & Hb).
  exists b, s2. unfold mbind, M_bind, run_bind. by rewrite Heq.
Qed.
Lemma ok_with_always {A} (Q : A -> Prop) (m : M E S A) : ok_with Q m -> always_ok m.
Proof. intros Hm s. destruct (Hm s) as (a & s1 & ? & _). eauto. Qed.
Lemma always_ok_with {A} (m : M E S A) : always_ok m -> ok_with (fun _ => True) m.
Proof. intros Hm s. destruct (Hm s) as (a & s1 & ?). eauto. Qed.

Lemma ok_mret {A} (a : A) : always_ok (mret a).
Proof. intros s. by exists a, s. Qed.
Lemma ok_gets {A} (f : S -> A) : always_ok (gets f).
Proof. intros s. by exists (f s), s. Qed.
Lemma ok_modify (f : S -> S) : always_ok (modify f).
Proof. intros s. by exists tt, (f s). Qed.
Lemma ok_bind {A B} (m : M E S A) (k : A -> M E S B) :
  always_ok m -> (forall a, always_ok (k a)) -> always_ok (mbind k m).
Proof.
  intros Hm Hk s. destruct (Hm s) as (a & s1 & Heq), (Hk a s1) as (b & s2 & Heq2).
  exists b, s2. unfold mbind, M_bind, run_bind. by rewrite Heq.
Qed.
Lemma ok_if {A} (b : bool) (m1 m2 : M E S A) :
  always_ok m1 -> always_ok m2 -> always_ok (if b then m1 else m2).
Proof. by destruct b. Qed.
Lemma ok_attempt {A} (m : M E S A) : never_panics m -> always_ok (attempt m).
Proof.
  intros Hm s. specialize (Hm s). unfold attempt. destruct (m s) as [[a|e|] s1]; [eauto..|done].
Qed.
Lemma ok_for_each {A} (f : A -> M E S unit) l : (forall x, always_ok (f x)) -> always_ok (for_each f l).
Proof.
  intros Hf. induction l; simpl; [apply ok_mret|]. apply ok_bind; auto.
Qed.
Lemma ok_never_panics {A} (m : M E S A) : always_ok m -> never_panics m.
Proof. intros Hm s. by destruct (Hm s) as (a & s1 & ->). Qed.
Lemma panics_bind {A B} (m : M E S A) (k : A -> M E S B) :
  never_panics m -> (forall a, never_panics (k a)) -> never_panics (mbind k m).
Proof.
  intros Hm Hk s. specialize (Hm s). unfold mbind, M_bind, run_bind.
  destruct (m s) as [[a|e|] s1]; [apply Hk|done..].
Qed.
Lemma panics_zoom {C A} `{Lens S C} (m : M E C A) :
  (forall c, fst (m c) <> Panic) -> never_panics (zoom m).
Proof. intros Hm s. unfold zoom. specialize (Hm (lens_get s)). by destruct (m (lens_get s)). Qed.
Lemma panics_ensure (b : bool) (e : E) : never_panics (ensure b e).
Proof. intros s. by destruct b. Qed.
Lemma panics_ok_or {A} (o : option A) (e : E) : never_panics (ok_or o e).
Proof. intros s. by destruct o. Qed.
Lemma panics_transactional {A} (m : M E S A) : never_panics m -> never_panics (transactional m).
Proof. intros Hm s. specialize (Hm s). unfold transactional. by destruct (m s) as [[| |] s1]. Qed.
End total.

Create HintDb total.
#[export] Hint Resolve ok_mret ok_gets ok_modify ok_bind ok_if ok_attempt ok_for_each
  panics_bind panics_zoom panics_ensure panics_ok_or panics_transactional : total.
#[export] Hint Extern 1 (never_panics (exchange_deposit_event _)) =>
  apply ok_never_panics, ok_modify : total.
#[export] Hint Extern 1 (always_ok (exchange_deposit_event _)) => apply ok_modify : total.
#[export] Hint Extern 2 (never_panics (mret _)) => apply ok_never_panics, ok_mret : total.
#[export] Hint Extern 2 (never_panics (gets _)) => apply ok_never_panics, ok_gets : total.
#[export] Hint Extern 2 (never_panics (modify _)) => apply ok_never_panics, ok_modify : total.

(** ** The collaborators do not panic *)

Class AMMTotal (P : Type) `{AMM P} : Prop := {
  validate_sell_total w p a l d (s : P) : fst (validate_sell w p a l d s) <> Panic;
  validate_buy_total w p a l d (s : P) : fst (validate_buy w p a l d s) <> Panic;
  execute_sell_total t (s : P) : fst (execute_sell t s) <> Panic;
  execute_buy_total t (s : P) : fst (execute_buy t s) <> Panic
}.
Class ReservableTotal (P : Type) `{MultiReservable P} : Prop := {
  reserve_total c w a (s : P) : fst (reserve c w a s) <> Panic;
  repatriate_total c f t a (s : P) : fst (repatriate_reserved c f t a s) <> Panic
}.
#[export] Hint Resolve validate_sell_total validate_buy_total execute_sell_total execute_buy_total
  reserve_total repatriate_total : total.

Section completes.
Context {P H : Type}.
Context `{MultiCurrency P} `{MultiReservable P} `{AMM P} `{BlockNumberProvider P}.
Context `{FeeMath} `{IntentionHashing H} `{StorageOrder}.
Context `{!AMMTotal P} `{!ReservableTotal P}.
Notation State := (ExchangeState P H).
Notation Intention := (ExchangeIntention H).
Implicit Types s : State.

Ltac solve_total := repeat first [progress intros | progress cbv zeta | solve [eauto 3 with total] |
  apply ok_bind | apply panics_bind | case_match | apply ok_attempt | apply panics_zoom ].

Lemma ok_execute dt l : always_ok (execute (P := P) (H := H) dt l).
Proof.
  unfold execute, send_direct_trade_resolve_event. apply ok_bind; [auto with total|intros _].
  induction l as [|t l IH]; simpl; unfold send_trade_fee_event; solve_total.
Qed.
Lemma ok_revert l : always_ok (revert (P := P) (H := H) l).
Proof. apply ok_for_each. auto with total. Qed.
Lemma ok_prepare dt acc : always_ok (prepare (P := P) (H := H) dt acc).
Proof. unfold prepare, reserve_if_can, send_insufficient_balance_event. solve_total. Qed.
Lemma ok_send_error i e : always_ok (send_intention_error_event (P := P) (H := H) i e).
Proof. apply ok_modify. Qed.
Lemma panics_amm t i x : never_panics (execute_amm_transfer (P := P) (H := H) t i x).
Proof. unfold execute_amm_transfer. solve_total. Qed.
Lemma panics_validate i : never_panics (validate_intention (P := P) (H := H) i).
Proof. unfold validate_intention. solve_total. Qed.
#[local] Hint Resolve ok_execute ok_revert ok_prepare ok_send_error panics_amm panics_validate : total.

Lemma ok_single i : always_ok (resolve_single_intention (P := P) (H := H) i).
Proof. unfold resolve_single_intention. solve_total. Qed.
Lemma ok_verify i : always_ok (verify_intention (P := P) (H := H) i).
Proof. unfold verify_intention. solve_total. Qed.
#[local] Hint Resolve ok_single ok_verify : total.

(** ** One price *)

(** [amount_out / amount_in] is exactly [q / p]. *)
Definition quoted (p q : Z) (i : Intention) : Prop :=
  0 <= amount_in i /\ 0 <= amount_out i /\ amount_out i * p = amount_in i * q.

(** The main intention while it is worked on: quoted, with at least [left] to trade. *)
Definition rest_ok (p q left : Z) (i : Intention) : Prop := quoted p q i /\ left <= amount_in i.

Lemma ok_with_prepared dt acc copy k (Q : Intention -> Prop) :
  Q copy -> (forall l, ok_with Q (k l)) -> ok_with Q (with_prepared (P := P) (H := H) dt acc copy k).
Proof.
  intros Hc Hk. unfold with_prepared. apply ok_with_bind; [apply ok_prepare|intros [[] l]].
  - apply Hk.
  - apply ok_with_bind; [apply ok_revert|intros _]. by apply ok_with_mret.
Qed.

Lemma ok_report i e (copy : Intention) (Q : Intention -> Prop) :
  Q copy -> ok_with Q (send_intention_error_event (P := P) (H := H) i e ;; mret copy).
Proof. intros. apply ok_with_bind; [apply ok_send_error|intros _]. by apply ok_with_mret. Qed.

Section price.
Context (p q : Z) (Hp : 0 < p) (Hq : 0 < q).

(** A smaller counterpart leaves a quoted rest. *)
Lemma ok_smaller acc copy m left :
  quoted p q copy -> quoted q p m -> left <= amount_in copy -> amount_out m < left ->
  ok_with (rest_ok p q (left - amount_out m)) (resolve_smaller (P := P) (H := H) acc copy m).
Proof.
  intros (Ha & Hb & Hab) (Hc & Hd & Hcd) Hl Hm. unfold resolve_smaller. cbv zeta. simpl.
  assert (Hrest : rest_ok p q (left - amount_out m) copy) by (split; [done|lia]).
  case_match; [by apply ok_report|]. apply ok_with_prepared; [done|]. intros l.
  apply ok_with_bind; [apply ok_execute|intros _].
  assert (amount_in m <= amount_out copy) by nia.
  unfold checked_sub. rewrite !(proj2 (Z.leb_le _ _)) by lia.
  apply ok_with_mret. unfold rest_ok, quoted, set_amounts. simpl. lia.
Qed.

(** The last counterpart of a group may be of any size. *)
Lemma ok_larger acc copy m :
  quoted p q copy -> quoted q p m -> amount_in copy < amount_out m ->
  always_ok (resolve_larger (P := P) (H := H) acc copy m).
Proof.
  intros (Ha & Hb & Hab) (Hc & Hd & Hcd) Hlt. unfold resolve_larger.
  assert (amount_out copy <= amount_in m) by nia.
  unfold checked_sub. rewrite !(proj2 (Z.leb_le _ _)) by lia. cbv zeta.
  apply ok_bind; [case_match; solve_total|]. intros [x|e]; [|solve_total].
  eapply ok_with_always, ok_with_prepared; [exact I|]. intros l. apply always_ok_with. solve_total.
Qed.
Lemma ok_equal acc i copy m : always_ok (resolve_equal (P := P) (H := H) acc i copy m).
Proof.
  unfold resolve_equal. cbv zeta. case_match; [solve_total|]. case_match; [solve_total|].
  eapply ok_with_always, ok_with_prepared; [exact I|]. intros l. apply always_ok_with. solve_total.
Qed.

(** A matched group: every counterpart but the last is smaller than what is left. *)
Lemma ok_loop acc i copy l left :
  rest_ok p q left copy -> Forall (quoted q p) l -> take_matched left l = l ->
  always_ok (resolve_loop (P := P) (H := H) acc i copy l).
Proof.
  revert copy left. induction l as [|m l IH]; intros copy left [Hc Hl] Hall Htake; simpl; [solve_total|].
  apply Forall_cons_1 in Hall as [Hm Hall]. simpl in Htake.
  destruct (Z.ltb_spec 0 left); [|done]. injection Htake as Htake.
  destruct l as [|m' l].
  - apply ok_bind; [|solve_total]. case_match; zbool; [|case_match; zbool].
    + eapply ok_with_always, (ok_smaller acc copy m (amount_in copy)); auto using Z.le_refl.
    + by apply ok_larger.
    + apply ok_equal.
  - assert (Hlt : amount_out m < left).
    { unfold saturating_sub in Htake. simpl in Htake.
      destruct (Z.ltb_spec 0 (Z.max 0 (left - amount_out m))); [lia|done]. }
    assert (Hsat : saturating_sub left (amount_out m) = left - amount_out m)
      by (unfold saturating_sub; lia).
    rewrite (proj2 (Z.ltb_lt _ _)) by lia. rewrite Hsat in Htake.
    eapply ok_with_always, ok_with_bind_with; [by apply (ok_smaller acc copy m left)|].
    intros copy' Hcopy'. apply always_ok_with. by eapply IH.
Qed.

(** Matching again against the matched group takes all of it. *)
Lemma take_matched_idem n (l : list Intention) : take_matched n (take_matched n l) = take_matched n l.
Proof.
  revert n. induction l as [|x l IH]; intros n; simpl; [done|].
  destruct (0 <? n) eqn:Hn; simpl; [|done]. by rewrite Hn, IH.
Qed.
Lemma take_matched_sub n (l : list Intention) : take_matched n l ⊆ l.
Proof.
  revert n. induction l as [|x l IH]; intros n; simpl; [done|].
  destruct (0 <? n); [|apply list_subseteq_nil]. by apply list_subseteq_skip.
Qed.
Lemma Forall_sub {A} (R : A -> Prop) l k : k ⊆ l -> Forall R l -> Forall R k.
Proof. intros Hk Hl. apply Forall_forall. intros x Hx%list_elem_of_In%Hk%list_elem_of_In.
  by eapply Forall_forall. Qed.

Lemma ok_matched acc i l :
  quoted p q i -> Forall (quoted q p) l -> take_matched (amount_in i) l = l ->
  always_ok (resolve_matched_intentions (P := P) (H := H) acc i l).
Proof.
  intros Hi Hl Ht. unfold resolve_matched_intentions. apply ok_bind; [|solve_total].
  by eapply ok_loop; [split; [apply Hi|reflexivity]|..].
Qed.
Lemma ok_process_main acc b_in n a_in :
  Forall (quoted p q) a_in -> Forall (quoted q p) b_in ->
  always_ok (process_main (P := P) (H := H) acc b_in n a_in).
Proof.
  intros Ha Hb. revert n. induction Ha as [|i a_in Hi _ IH]; intros n; simpl; [solve_total|].
  apply ok_bind; [solve_total|]. intros []; simpl; [|apply IH].
  apply ok_bind; [|intros _; apply IH]. apply ok_matched; [done| |apply take_matched_idem].
  eapply Forall_sub; [apply take_matched_sub|]. by apply Forall_drop.
Qed.
Lemma ok_process acc a_in b_in :
  Forall (quoted p q) a_in -> Forall (quoted q p) b_in ->
  always_ok (process_exchange_intentions (P := P) (H := H) acc a_in b_in).
Proof.
  intros Ha Hb. unfold process_exchange_intentions. cbv zeta.
  apply ok_bind; [|intros n; apply ok_for_each; solve_total].
  apply ok_process_main; by rewrite (proj1 (sort_desc_stable _)).
Qed.
End price.

(** ** The block ends *)

(** Every intention of the pair is quoted at one price. *)
Definition one_price (s : State) (a b : AssetId) : Prop :=
  exists p q, 0 < p /\ 0 < q /\
    Forall (quoted p q) (get_intentions (b, a) s) /\ Forall (quoted q p) (get_intentions (a, b) s).

(** [C11] The end of a block completes: when for every pair the registered intentions are
    all quoted at exactly one price, neither of the two subtractions that would panic
    can fail, and [on_finalize] runs to its end whatever the AMM and the currency
    answer, leaving an empty book. *)
Theorem on_finalize_completes s :
  (forall a b, one_price s a b) ->
  exists s', on_finalize s = (Ok tt, s') /\ book s' = (∅, ∅).
Proof.
  intros Hprice. destruct (on_finalize s) as [r s'] eqn:Hrun. exists s'.
  enough (r = Ok tt) as ->.
  { split; [done|]. apply finalize_clears in Hrun as [Hc Hi]. unfold book. by rewrite Hc, Hi. }
  rewrite on_finalize_snapshot in Hrun.
  enough (Hok : always_ok (for_each (resolve_entry (fun p => get_intentions p s))
       (storage_iter (ExchangeAssetsIntentionCount s)) ;;
     modify (set_IntentionCount (fun _ => ∅)) ;; modify (set_Intentions (fun _ => ∅)))).
  { destruct (Hok s) as ([] & s1 & Heq). rewrite Heq in Hrun. by injection Hrun. }
  apply ok_bind; [|solve_total]. apply ok_for_each. intros [[a b] n]. unfold resolve_entry. simpl.
  destruct (Hprice a b) as (p & q & Hp & Hq & Ha & Hb).
  case_match; [solve_total|]. by apply (ok_process p q).
Qed.
End completes.

(** ** The XYK pallet as the AMM: it panics only where its currency does *)

Class CurrencyTotal (C : Type) `{MultiCurrency C} : Prop := {
  transfer_total c f t a (s : C) : fst (transfer c f t a s) <> Panic;
  withdraw_total c w a (s : C) : fst (withdraw c w a s) <> Panic
}.
#[export] Hint Resolve transfer_total withdraw_total : total.

Section xyk.
Context {C : Type}.
Context `{MultiCurrency C} `{ShareTokenRegistry C} `{AMMHandler C} `{CanCreatePool C}.
Context `{AssetPairAccountIdFor} `{XykMath} `{FeeMath} `{FixedPoint} `{AMMProvided}.
Context {cfg : XykConfig}.
Context `{!CurrencyTotal C}.

Ltac panic_free := repeat first [progress intros | progress cbv zeta | solve [eauto 3 with total] |
  apply panics_bind | apply panics_transactional | apply panics_zoom | case_match ].

#[export] Instance Xyk_AMMTotal : AMMTotal (XykState C).
Proof.
  split; simpl; intros.
  - apply (ltac:(unfold Xyk.validate_sell, Xyk.calculate_discounted_fee, Xyk.calculate_fee,
      Xyk.discount_fee; panic_free) : never_panics (Xyk.validate_sell w p a l d)).
  - apply (ltac:(unfold Xyk.validate_buy, Xyk.calculate_discounted_fee, Xyk.calculate_fee,
      Xyk.discount_fee; panic_free) : never_panics (Xyk.validate_buy w p a l d)).
  - apply (ltac:(unfold Xyk.execute_sell, Xyk.pay_discount, deposit_event; panic_free)
      : never_panics (Xyk.execute_sell t)).
  - apply (ltac:(unfold Xyk.execute_buy, Xyk.pay_discount, deposit_event; panic_free)
      : never_panics (Xyk.execute_buy t)).
Qed.
End xyk.
