(* ===== verification/ExchangeSpend.v ===== *)
(** * What the end of a block can cost a seller

    [on_finalize] matches, trades directly and trades with the pool on behalf of the
    accounts that registered intentions.  This file bounds what that can take from an
    account: a seller never parts with more than it offered, however its intentions are
    matched, and an account without intentions loses nothing.  The bound is proved with a
    small budget logic over the resolution code, against interfaces for the currency with
    reserves and for the AMM; the last section discharges the AMM's for the XYK pallet. *)

From S2P Require Import Xyk XykProps XykPools.
From S2P Require Import Prelude Primitives Errors Interfaces Exchange ExchangeProps.

(** What an account owns in a currency: its free and its reserved balance. *)
Definition wealth {P} `{MultiCurrency P} `{MultiReservable P} (c : AssetId) (w : AccountId)
    (p : P) : Balance := free_balance c w p + reserved_balance c w p.

(** Reserving and unreserving move funds within an account, whatever the outcome;
    repatriating takes at most the stated amount from the account it names and nothing
    from others. *)
Class WealthLaws (P : Type) `{MultiCurrency P} `{MultiReservable P} : Prop := {
  minimum_balance_nonneg c : 0 <= minimum_balance (S := P) c;
  reserve_wealth c w a (p : P) b z :
    0 <= a -> wealth b z (snd (reserve c w a p)) = wealth b z p;
  unreserve_wealth c w a (p : P) b z :
    0 <= a -> wealth b z (unreserve c w a p) = wealth b z p;
  repatriate_wealth c f t a (p : P) b z :
    0 <= a ->
    wealth b z p <= wealth b z (snd (repatriate_reserved c f t a p)) + at_account c f a b z
}.

(** A validated trade has no negative amount. *)
Record sane_trade (x : AMMTransfer) : Prop := mkSaneTrade {
  sane_amount : 0 <= t_amount x;
  sane_amount_out : 0 <= t_amount_out x;
  sane_discount : 0 <= t_discount_amount x
}.

(** What a pool pallet promises the accounts it trades for: the validated trade is the
    one asked for; selling takes the sold amount of the sold asset from the seller, and
    at most an existential deposit more when the rest is swept as dust; buying takes
    only the asset paid with; a discount is paid in the native asset. *)
Class AMMSpendLaws (P : Type) (native : AssetId) `{MultiCurrency P} `{MultiReservable P}
    `{AMM P} : Prop := {
  validate_sell_trade w pr a l d (p : P) x p' :
    validate_sell w pr a l d p = (Ok x, p') -> 0 <= a ->
    sane_trade x /\ t_origin x = w /\ t_assets x = pr /\ t_discount x = d /\ t_amount x = a;
  validate_buy_trade w pr a l d (p : P) x p' :
    validate_buy w pr a l d p = (Ok x, p') -> 0 <= a ->
    sane_trade x /\ t_origin x = w /\ t_assets x = pr /\ t_discount x = d;
  execute_sell_spends x (p p' : P) b z :
    execute_sell x p = (Ok tt, p') -> sane_trade x ->
    z <> get_pair_id (t_assets x) -> z <> dust_account ->
    ~ (t_discount x = true /\ b = native /\ z = t_origin x) ->
    wealth b z p <= wealth b z p' +
      at_account (asset_in (t_assets x)) (t_origin x) (t_amount x + minimum_balance b) b z;
  execute_buy_spends x (p p' : P) b z :
    execute_buy x p = (Ok tt, p') -> sane_trade x ->
    z <> get_pair_id (t_assets x) -> z <> dust_account ->
    ~ (t_discount x = true /\ b = native /\ z = t_origin x) ->
    ~ (b = asset_in (t_assets x) /\ z = t_origin x) ->
    wealth b z p <= wealth b z p'
}.

Section spend.
Context {P H : Type} {native : AssetId}.
Context `{MultiCurrency P} `{MultiReservable P} `{AMM P} `{BlockNumberProvider P}.
Context `{FeeMath} `{IntentionHashing H} `{StorageOrder}.
Context `{!WealthLaws P} `{!AMMLaws P} `{!AMMSpendLaws P native} `{!FeeMathLaws}.
Notation State := (ExchangeState P H).
Notation Intention := (ExchangeIntention H).

(** The account and the currency under consideration: not a pool, not the collector of
    dust; the fee of a pool is a fraction. *)
Context (c : AssetId) (w : AccountId).
Context (Hpool : forall pr, wide pr -> get_pair_id pr <> w) (Hdust : w <> dust_account).
Context (Hfee : forall acc (p : P), 0 <= fst (get_fee acc p) /\ 0 <= snd (get_fee acc p)).

Notation W s := (wealth c w (pools s)).
Notation at_w a z x := (at_account a z x c w).

(** ** A budget logic

    [pays n m Q]: running [m] costs the account at most [n]; when [m] returns [a], at
    least [k] of the budget is left for some [k] with [Q a k]. *)
Definition pays {A} (n : Z) (m : Dispatch State A) (Q : A -> Z -> Prop) : Prop :=
  forall s, match m s with
            | (Ok a, s') => exists k, Q a k /\ W s + k <= W s' + n
            | (_, s') => W s <= W s' + n
            end.

Lemma pays_bind {A B} n (m : Dispatch State A) (f : A -> Dispatch State B) Q R :
  pays n m Q -> (forall a k, Q a k -> pays k (f a) R) -> pays n (mbind f m) R.
Proof.
  intros Hm Hf s. specialize (Hm s). unfold mbind, M_bind, run_bind.
  destruct (m s) as [[a|e|] s1]; [|done..]. destruct Hm as (k & Hk & Hle).
  specialize (Hf a k Hk s1). destruct (f a s1) as [[b|e|] s2]; [|lia..].
  destruct Hf as (k' & Hk' & Hle'). exists k'. split; [done|lia].
Qed.
Lemma pays_conseq {A} n n' (m : Dispatch State A) (Q R : A -> Z -> Prop) :
  pays n m Q -> n <= n' -> (forall a k, Q a k -> exists k', R a k' /\ k' <= k + (n' - n)) ->
  pays n' m R.
Proof.
  intros Hm Hn HQ s. specialize (Hm s). destruct (m s) as [[a|e|] s1]; [|lia..].
  destruct Hm as (k & (k' & HR & Hk')%HQ & Hle). exists k'. split; [done|lia].
Qed.
(** Nothing moves. *)
Lemma pays_quiet {A} n (m : Dispatch State A) (Q : A -> Z -> Prop) :
  (forall s, W (snd (m s)) = W s) -> 0 <= n ->
  (forall s a s', m s = (Ok a, s') -> Q a n) -> pays n m Q.
Proof.
  intros Hq Hn HQ s. specialize (Hq s). destruct (m s) as [[a|e|] s1] eqn:Hm; simpl in Hq; [|lia..].
  exists n. split; [by eapply HQ|lia].
Qed.
Lemma pays_ret {A} n (a : A) (Q : A -> Z -> Prop) : Q a n -> pays n (mret a) Q.
Proof. intros Ha s. simpl. exists n. split; [done|lia]. Qed.
Lemma pays_panic {A} n (Q : A -> Z -> Prop) : 0 <= n -> pays n panic Q.
Proof. intros Hn s. simpl. lia. Qed.
Lemma pays_gets {A B} n (f : State -> A) (g : A -> Dispatch State B) R :
  (forall a, pays n (g a) R) -> pays n (mbind g (gets f)) R.
Proof. intros Hg s. apply (Hg (f s)). Qed.
Lemma pays_event {B} n e (m : Dispatch State B) R :
  pays n m R -> pays n (exchange_deposit_event e ;; m) R.
Proof. intros Hm s. exact (Hm _). Qed.
Lemma sum_costs_nonneg {A} (cost : A -> Z) l n :
  (forall x, x ∈ l -> 0 <= cost x) -> 0 <= n -> 0 <= foldr (fun x acc => cost x + acc) n l.
Proof.
  induction l as [|x l IH]; simpl; intros Hc Hn; [done|].
  assert (0 <= cost x) by (apply Hc; by left). assert (0 <= foldr (fun x acc => cost x + acc) n l); [|lia].
  apply IH; [|done]. intros y Hy. apply Hc. by right.
Qed.
Lemma pays_for_each {A} (f : A -> Dispatch State unit) (cost : A -> Z) l n :
  (forall x, x ∈ l -> 0 <= cost x /\ pays (cost x) (f x) (fun _ k => 0 <= k)) -> 0 <= n ->
  pays (foldr (fun x acc => cost x + acc) n l) (for_each f l) (fun _ k => k = n).
Proof.
  intros Hf Hn. induction l as [|x l IH]; simpl; [by apply pays_ret|].
  assert (Hl : forall y, y ∈ l -> 0 <= cost y /\ pays (cost y) (f y) (fun _ k => 0 <= k))
    by (intros y Hy; apply Hf; by right).
  assert (0 <= foldr (fun x acc => cost x + acc) n l)
    by (apply sum_costs_nonneg; [intros y Hy; by apply Hl|done]).
  destruct (Hf x) as [Hx Hp]; [by left|].
  eapply pays_bind with (Q := fun _ k => k = foldr (fun x acc => cost x + acc) n l);
    [|intros u k ->; by apply IH].
  eapply pays_conseq; [exact Hp|lia|]. intros ? k Hk. cbv beta in Hk. eexists. split; [reflexivity|lia].
Qed.

(** ** The trades *)

Definition charge (i : Intention) : Z :=
  at_w (asset_in (assets i)) (who i) (amount_in i + minimum_balance (S := P) c).

(** An intention with [u32] assets and [u128] amounts that, if it could take [c] from [w], is a sale
    without a discount in [c]. *)
Record fair (i : Intention) : Prop := mkFair {
  fair_assets : wide (assets i);
  fair_in : in_range 128 (amount_in i);
  fair_out : in_range 128 (amount_out i);
  fair_sell : who i = w -> asset_in (assets i) = c -> sell_or_buy i = SELL;
  fair_discount : who i = w -> discount i = true -> c <> native
}.

Lemma at_w_nonneg a z x : 0 <= x -> 0 <= at_w a z x.
Proof. apply at_account_nonneg. Qed.
Lemma charge_nonneg i : fair i -> 0 <= charge i.
Proof.
  intros Hf. apply at_w_nonneg. destruct (fair_in i Hf). pose proof (minimum_balance_nonneg (P := P) c). lia.
Qed.

(** [x] is the trade of the intention [i] with the pool, for [a] when it is a sale. *)
Definition trade_of (i : Intention) (a : Balance) (x : AMMTransfer) : Prop :=
  sane_trade x /\ t_origin x = who i /\ t_assets x = assets i /\ t_discount x = discount i /\
  (sell_or_buy i = SELL -> t_amount x = a).

Lemma pays_validate i n :
  fair i -> 0 <= n ->
  pays n (attempt (validate_intention i))
    (fun r k => k = n /\ match r with inl x => trade_of i (amount_in i) x | inr _ => True end).
Proof.
  intros [_ [Hi _] [Ho _] _ _] Hn. apply pays_quiet; [|done|].
  - intros s. unfold attempt. rewrite validate_intention_run.
    by destruct (fst (amm_validation i (pools s))).
  - intros s r s' [(x & -> & Hv)|(e & -> & _)]%attempt_Ok; [|done]. split; [done|].
    rewrite validate_intention_zoom in Hv. apply zoom_Ok in Hv as (p & Hv & _).
    unfold amm_validation in Hv. unfold trade_of. destruct (sell_or_buy i).
    + apply validate_sell_trade in Hv as (? & ? & ? & ? & ?); [|done]. split_and!; auto.
    + apply validate_buy_trade in Hv as (? & ? & ? & ?); [|done]. by split_and!.
Qed.

Lemma pays_amm i a x n :
  fair i -> trade_of i a x -> 0 <= a -> 0 <= n ->
  let cost := at_w (asset_in (assets i)) (who i) (a + minimum_balance (S := P) c) in
  pays (cost + n) (attempt (execute_amm_transfer (sell_or_buy i) (intention_id i) x))
    (fun r k => match r with inl _ => k = n | inr _ => k = cost + n end).
Proof.
  intros [Hwide _ _ Hsell Hdisc] (Hx & Hor & Has & Hd & Ham) Ha Hn cost s.
  assert (0 <= cost).
  { apply at_w_nonneg. pose proof (minimum_balance_nonneg (P := P) c). lia. }
  unfold attempt. rewrite execute_amm_run.
  destruct (amm_execution i x (pools s)) as [[[]|e|] p] eqn:Hex; [|exists (cost + n); lia|lia].
  exists n. split; [done|]. cbn [pools resolved_by_amm]. unfold amm_execution in Hex.
  assert (Hnd : ~ (t_discount x = true /\ c = native /\ w = t_origin x)).
  { intros (D & -> & E). rewrite Hd in D. rewrite Hor in E. by apply Hdisc. }
  assert (Hnp : w <> get_pair_id (t_assets x)) by (rewrite Has; intros E; by apply (Hpool (assets i))).
  destruct (sell_or_buy i) eqn:Hk.
  - pose proof (execute_sell_spends _ _ _ c w Hex Hx Hnp Hdust Hnd) as Hle.
    rewrite Hor, Has, (Ham eq_refl) in Hle. unfold cost. lia.
  - assert (Hle : wealth c w (pools s) <= wealth c w p); [|lia].
    apply (execute_buy_spends _ _ _ c w Hex Hx Hnp Hdust Hnd).
    rewrite Hor, Has. intros [E1 E2]. specialize (Hsell (eq_sym E2) (eq_sym E1)). congruence.
Qed.

Lemma pays_single i :
  fair i -> pays (charge i) (resolve_single_intention i) (fun _ k => 0 <= k).
Proof.
  intros Hi. pose proof (charge_nonneg i Hi). pose proof (fair_in i Hi) as [? _].
  unfold resolve_single_intention, send_intention_error_event.
  eapply pays_bind; [by apply pays_validate|]. intros [x|e] k [-> Hx].
  - eapply pays_bind.
    + rewrite <- (Z.add_0_r (charge i)). by apply pays_amm.
    + intros [u|e] k ->; [apply pays_ret; lia|].
      unfold exchange_deposit_event. apply pays_quiet; [done|unfold charge in *; lia|].
      intros. unfold charge in *. lia.
  - by apply pays_quiet.
Qed.

(** ** Direct trades *)

Definition nonneg_transfers (l : list Transfer) : Prop := Forall (fun t => 0 <= tr_amount t) l.

Lemma pays_transfers dt l n :
  nonneg_transfers l -> 0 <= n ->
  pays (debits l c w + n) (execute_transfers dt l) (fun _ k => k = n).
Proof.
  intros Hl Hn. assert (Hd : forall l, nonneg_transfers l -> 0 <= debits l c w).
  { clear. induction 1 as [|x l Hx _ IH]; simpl; [done|].
    pose proof (at_account_nonneg (tr_asset x) (tr_from x) _ c w Hx). lia. }
  induction Hl as [|t l Ht Hl IH]; simpl; [by apply pays_ret|].
  specialize (Hd l Hl).
  eapply pays_bind with (Q := fun _ k => k = debits l c w + n).
  - intros s. unfold attempt, zoom. simpl.
    pose proof (repatriate_wealth (tr_asset t) (tr_from t) (tr_to t) (tr_amount t) (pools s) c w Ht) as Hle.
    destruct (repatriate_reserved _ _ _ _ (pools s)) as [[u|e|] p]; simpl in *;
      [eexists; (split; [reflexivity|lia])..|lia].
  - intros [u|e] k ->.
    + eapply pays_bind with (Q := fun _ k => k = debits l c w + n); [|intros ? k ->; exact IH].
      unfold send_trade_fee_event, exchange_deposit_event.
      destruct (fee_transfer t); apply pays_quiet; auto; lia.
    + eapply pays_conseq; [apply (pays_ret n false (fun _ k => k = n)); done|lia|].
      intros ? k ->. eexists. split; [reflexivity|lia].
Qed.
Lemma pays_execute dt l n d :
  nonneg_transfers l -> debits l c w <= d -> 0 <= n ->
  pays (d + n) (execute dt l) (fun _ k => k = n).
Proof.
  intros Hl Hd Hn. unfold execute, send_direct_trade_resolve_event. apply pays_event.
  eapply pays_conseq; [by apply (pays_transfers dt l n)|lia|].
  intros ? k ->. eexists. split; [reflexivity|lia].
Qed.
Lemma pays_revert l n :
  nonneg_transfers l -> 0 <= n -> pays n (revert l) (fun _ k => k = n).
Proof.
  intros Hl Hn. unfold revert. induction Hl as [|t l Ht Hl IH]; simpl; [by apply pays_ret|].
  eapply pays_bind with (Q := fun _ k => k = n); [|intros ? k ->; exact IH].
  apply pays_quiet; [|done|done]. intros s. simpl. by rewrite unreserve_wealth.
Qed.

(** The two intentions of a direct trade: opposite directions, each a sale if it takes
    [c] from [w]. *)
Record fair_trade (dt : DirectTradeData H) : Prop := mkFairTrade {
  ft_a : in_range 128 (amount_from_a dt);
  ft_b : in_range 128 (amount_from_b dt);
  ft_sell_a : who (intention_a dt) = w -> asset_in (assets (intention_a dt)) = c ->
    sell_or_buy (intention_a dt) = SELL;
  ft_sell_b : who (intention_b dt) = w -> asset_in (assets (intention_b dt)) = c ->
    sell_or_buy (intention_b dt) = SELL;
  ft_flip : assets (intention_b dt) = flip_pair (assets (intention_a dt))
}.

Definition trade_cost (dt : DirectTradeData H) : Z :=
  at_w (asset_in (assets (intention_a dt))) (who (intention_a dt)) (amount_from_a dt) +
  at_w (asset_in (assets (intention_b dt))) (who (intention_b dt)) (amount_from_b dt).

Lemma trade_transfers_cost dt acc fee_a fee_b :
  fair_trade dt -> 0 <= fee_a <= amount_from_a dt -> 0 <= fee_b <= amount_from_b dt ->
  nonneg_transfers (trade_transfers dt acc fee_a fee_b) /\
  debits (trade_transfers dt acc fee_a fee_b) c w <= trade_cost dt.
Proof.
  intros [[_ Ra] [_ Rb] Sa Sb Hflip] Hfa Hfb.
  assert (Hmod : forall x, 0 <= x mod 2 ^ 128) by (intros; apply Z.mod_pos_bound; lia).
  assert (Ea : asset_out (assets (intention_a dt)) = asset_in (assets (intention_b dt)))
    by (by rewrite Hflip).
  unfold trade_transfers, nonneg_transfers, trade_cost.
  destruct (sell_or_buy (intention_a dt)), (sell_or_buy (intention_b dt));
    rewrite ?wrapping_sub_small by lia;
    (split; [repeat (apply List.Forall_cons; [cbn [tr_amount]; first [lia|apply Hmod]|]);
              apply List.Forall_nil|]); simpl; rewrite Ea;
    unfold at_account in *; repeat case_decide; try lia; exfalso; destruct_and!;
    assert (BUY = SELL) by (first [apply Sa; congruence|apply Sb; congruence]); discriminate.
Qed.

Lemma reserved_amounts_nonneg (dt : DirectTradeData H) fee_a fee_b :
  0 <= amount_from_a dt -> 0 <= amount_from_b dt ->
  0 <= fst (reserved_amounts dt fee_a fee_b) /\ 0 <= snd (reserved_amounts dt fee_a fee_b).
Proof.
  intros. assert (Hmod : forall x, 0 <= x mod 2 ^ 128) by (intros; apply Z.mod_pos_bound; lia).
  unfold reserved_amounts, wrapping_add. destruct (sell_or_buy _), (sell_or_buy _); simpl; auto.
Qed.

Lemma reserve_if_can_quiet a z x s :
  0 <= x -> W (snd (reserve_if_can (H := H) a z x s)) = W s.
Proof.
  intros Hx. unfold reserve_if_can, attempt, mbind, M_bind, run_bind, zoom. simpl.
  pose proof (reserve_wealth a z x (pools s) c w Hx) as Hw.
  destruct (reserve a z x (pools s)) as [[u|e|] p]; simpl in *; done.
Qed.

Lemma pays_prepare dt acc n :
  fair_trade dt -> 0 <= n ->
  pays n (prepare dt acc) (fun r k => k = n /\ nonneg_transfers (snd r) /\
    debits (snd r) c w <= trade_cost dt).
Proof.
  intros Hft Hn. pose proof (ft_a _ Hft) as [Ha _]. pose proof (ft_b _ Hft) as [Hb _].
  assert (Hno : forall ok, (fun (r : bool * list Transfer) k => k = n /\ nonneg_transfers (snd r) /\
    debits (snd r) c w <= trade_cost dt) (ok, []) n).
  { intros ok. split_and!; [done|constructor|]. simpl. unfold trade_cost.
    pose proof (at_w_nonneg (asset_in (assets (intention_a dt))) (who (intention_a dt)) _ Ha).
    pose proof (at_w_nonneg (asset_in (assets (intention_b dt))) (who (intention_b dt)) _ Hb). lia. }
  unfold prepare, send_insufficient_balance_event. apply pays_gets. intros fa.
  case_match; [by apply pays_event, pays_ret|]. apply pays_gets. intros fb.
  case_match; [by apply pays_event, pays_ret|].
  intros s. unfold mbind at 1, M_bind, run_bind, gets. revert s.
  assert (Hgoal : forall acc' (p : P),
    pays n (match calculate_pool_trade_fee (amount_from_a dt) (get_fee acc' p),
                  calculate_pool_trade_fee (amount_from_b dt) (get_fee acc' p) with
      | Some fee_a, Some fee_b =>
          if (amount_from_a dt <? fee_a) || (amount_from_b dt <? fee_b) then mret (false, [])
          else let '(reserve_a, reserve_b) := reserved_amounts dt fee_a fee_b in
            ok_a ← reserve_if_can (asset_in (assets (intention_a dt))) (who (intention_a dt)) reserve_a;
            if negb ok_a then mret (false, []) else
            ok_b ← reserve_if_can (asset_out (assets (intention_a dt))) (who (intention_b dt)) reserve_b;
            if negb ok_b then mret (false, []) else
            mret (true, trade_transfers dt acc fee_a fee_b)
      | _, _ => mret (false, [])
      end) (fun r k => k = n /\ nonneg_transfers (snd r) /\ debits (snd r) c w <= trade_cost dt));
    [|intros s; apply (Hgoal acc (pools s) s)].
  intros acc' p. destruct (Hfee acc' p) as [F1 F2].
  destruct (calculate_pool_trade_fee (amount_from_a dt) _) as [fee_a|] eqn:Ea; [|by apply pays_ret].
  destruct (calculate_pool_trade_fee (amount_from_b dt) _) as [fee_b|] eqn:Eb; [|by apply pays_ret].
  assert (Na : 0 <= fee_a) by exact (trade_fee_nonneg _ _ _ Ha F1 F2 Ea).
  assert (Nb : 0 <= fee_b) by exact (trade_fee_nonneg _ _ _ Hb F1 F2 Eb).
  destruct (_ || _)%bool eqn:Hle; [by apply pays_ret|].
  apply orb_false_iff in Hle as [La%Z.ltb_ge Lb%Z.ltb_ge].
  destruct (reserved_amounts_nonneg dt fee_a fee_b Ha Hb) as [Ra Rb].
  destruct (reserved_amounts dt fee_a fee_b) as [ra rb]. simpl in Ra, Rb.
  eapply pays_bind with (Q := fun _ k => k = n);
    [apply pays_quiet; auto using reserve_if_can_quiet|].
  intros ok_a k ->. destruct ok_a; simpl; [|by apply pays_ret].
  eapply pays_bind with (Q := fun _ k => k = n);
    [apply pays_quiet; auto using reserve_if_can_quiet|].
  intros ok_b k ->. destruct ok_b; simpl; [|by apply pays_ret].
  apply pays_ret. split; [done|]. simpl. by apply trade_transfers_cost.
Qed.

Lemma pays_with_prepared dt acc copy k n R :
  fair_trade dt -> 0 <= n -> R copy n ->
  (forall l, nonneg_transfers l -> debits l c w <= trade_cost dt -> pays n (k l) R) ->
  pays n (with_prepared dt acc copy k) R.
Proof.
  intros Hft Hn Hcopy Hk. unfold with_prepared.
  eapply pays_bind; [by apply pays_prepare|]. intros [ok l] k' (-> & Hl & Hd). simpl in *.
  destruct ok; [by apply Hk|].
  eapply pays_bind; [by apply pays_revert|]. intros ? k' ->. by apply pays_ret.
Qed.

(** ** Resolving a group *)

(** The rest of the main intention, with the budget that is left for it. *)
Definition rest_of (i : Intention) (copy : Intention) (k : Z) : Prop :=
  k = charge copy /\ fair copy /\ assets copy = assets i.

Lemma at_w_add a z x y : at_w a z (x + y) = at_w a z x + at_w a z y.
Proof. apply at_account_add. Qed.

Lemma fair_set_amounts x y l i : fair i -> in_range 128 x -> in_range 128 y -> fair (set_amounts x y l i).
Proof. by intros [Hw _ _ Hs Hd] Hx Hy. Qed.

(** The cost of a direct trade and what it leaves of the two charges. *)
Lemma charge_less x y l i : charge i = charge (set_amounts x y l i) +
  at_w (asset_in (assets i)) (who i) (amount_in i - x).
Proof. unfold charge. simpl. rewrite <- at_w_add. f_equal. lia. Qed.

Lemma charge_covers i x :
  x <= amount_in i -> at_w (asset_in (assets i)) (who i) x <= charge i.
Proof.
  intros Hx. apply at_account_le. pose proof (minimum_balance_nonneg (P := P) c). lia.
Qed.

Section group.
Context (acc : AccountId) (i : Intention).

Lemma fair_direct copy m xa xb :
  fair copy -> fair m -> assets copy = assets i -> assets m = flip_pair (assets i) ->
  in_range 128 xa -> in_range 128 xb -> fair_trade (mkDirect copy m xa xb).
Proof. intros [] [] Hc Hm Ha Hb. split; simpl; auto. congruence. Qed.

(** A step that fails leaves the rest as it was. *)
Lemma unchanged copy m : fair copy -> fair m -> assets copy = assets i ->
  exists k', rest_of i copy k' /\ k' <= charge copy + charge m.
Proof.
  intros Hc Hm Ha. exists (charge copy). split; [done|]. pose proof (charge_nonneg m Hm). lia.
Qed.

Lemma pays_unchanged copy m : fair copy -> fair m -> assets copy = assets i ->
  pays (charge copy + charge m) (mret copy) (rest_of i).
Proof.
  intros Hc Hm Ha. eapply (pays_conseq (charge copy) _ _ (rest_of i));
    [by apply pays_ret|pose proof (charge_nonneg m Hm); lia|].
  intros ? k Hk. exists k. split; [done|]. pose proof (charge_nonneg m Hm). lia.
Qed.

(** After the direct trade: [copy'] is what is left. *)
Lemma pays_direct copy copy' m xa xb l n :
  nonneg_transfers l -> debits l c w <= trade_cost (mkDirect copy m xa xb) ->
  charge copy = charge copy' + at_w (asset_in (assets copy)) (who copy) xa ->
  at_w (asset_in (assets m)) (who m) xb <= n -> fair copy' ->
  pays (charge copy + n) (execute (mkDirect copy m xa xb) l) (fun _ k => k = charge copy').
Proof.
  intros Hl Hd Hc Hm Hf. eapply pays_conseq.
  - apply (pays_execute (mkDirect copy m xa xb) l (charge copy') _ Hl Hd). by apply charge_nonneg.
  - unfold trade_cost. simpl. lia.
  - intros ? k ->. eexists. split; [reflexivity|]. unfold trade_cost. simpl. lia.
Qed.

Lemma pays_smaller copy m :
  fair copy -> fair m -> assets copy = assets i -> assets m = flip_pair (assets i) ->
  amount_out m <= amount_in copy ->
  pays (charge copy + charge m) (resolve_smaller acc copy m) (rest_of i).
Proof.
  intros Hc Hm Ha Hb Hlt. pose proof (charge_nonneg copy Hc). pose proof (charge_nonneg m Hm).
  unfold resolve_smaller, send_intention_error_event. cbv zeta.
  destruct (limit_error m _ _); [apply pays_event; by apply pays_unchanged|].
  eapply pays_conseq with (Q := fun copy' k => exists k', rest_of i copy' k' /\ k' <= k);
    [|reflexivity|intros copy' k (k' & Hr & Hle); exists k'; split; [done|lia]].
  apply pays_with_prepared; simpl; [apply fair_direct; auto; apply Hm|lia|by apply unchanged|].
  intros l Hl Hd.
  set (spent y lim := set_amounts (amount_in copy - amount_out m) y lim copy).
  assert (Hf : forall y lim, in_range 128 y -> fair (spent y lim)).
  { intros y lim Hy. destruct (fair_in _ Hc), (fair_out _ Hm).
    apply fair_set_amounts; [done|split; lia|done]. }
  assert (Hc0 : 0 <= charge (spent 0 0)) by (by apply charge_nonneg, Hf).
  eapply pays_bind; [apply (pays_direct copy (spent 0 0)); try done|].
  - unfold spent. rewrite (charge_less (amount_in copy - amount_out m) 0 0 copy) at 1.
    do 2 f_equal. lia.
  - by apply charge_covers.
  - by apply Hf.
  - intros ? k ->. destruct (checked_sub (amount_in copy) (amount_out m)) as [x|] eqn:Hx;
      [|by apply pays_panic].
    destruct (checked_sub (amount_out copy) (amount_in m)) as [y|] eqn:Hy; [|by apply pays_panic].
    zbool. subst x y. apply pays_ret. exists (charge (spent 0 0)). split; [|done]. split_and!; try done.
    apply Hf. destruct (fair_out _ Hc), (fair_in _ Hm). split; lia.
Qed.

(** When the main intention is used up. *)
Lemma pays_used_up copy m l xb n :
  fair copy -> assets copy = assets i -> nonneg_transfers l ->
  debits l c w <= trade_cost (mkDirect copy m (amount_in copy) xb) ->
  at_w (asset_in (assets m)) (who m) xb <= n ->
  pays (charge copy + n) (execute (mkDirect copy m (amount_in copy) xb) l ;;
                          mret (set_amount_in 0 copy)) (rest_of i).
Proof.
  intros Hc Ha Hl Hd Hn.
  assert (Hf : fair (set_amount_in 0 copy)) by (apply fair_set_amounts; [done|done|apply Hc]).
  eapply pays_bind; [apply (pays_direct copy (set_amount_in 0 copy)); try done|].
  - unfold set_amount_in. rewrite (charge_less 0 (amount_out copy) (trade_limit copy) copy) at 1.
    do 2 f_equal. lia.
  - intros ? k ->. by apply pays_ret.
Qed.

Lemma pays_equal copy m :
  fair copy -> fair m -> assets copy = assets i -> assets m = flip_pair (assets i) ->
  pays (charge copy + charge m) (resolve_equal acc i copy m) (rest_of i).
Proof.
  intros Hc Hm Ha Hb. pose proof (charge_nonneg copy Hc). pose proof (charge_nonneg m Hm).
  unfold resolve_equal, send_intention_error_event. cbv zeta.
  destruct (limit_error i _ _); [apply pays_event; by apply pays_unchanged|].
  destruct (limit_error m _ _); [apply pays_event; by apply pays_unchanged|].
  eapply pays_conseq with (Q := fun copy' k => exists k', rest_of i copy' k' /\ k' <= k);
    [|reflexivity|intros copy' k (k' & Hr & Hle); exists k'; split; [done|lia]].
  apply pays_with_prepared; simpl;
    [apply fair_direct; auto; [apply Hc|apply Hm]|lia|by apply unchanged|].
  intros l Hl Hd.
  eapply pays_conseq; [apply (pays_used_up copy m l (amount_in m) (charge m)); auto|reflexivity|].
  - by apply charge_covers.
  - intros copy' k Hr. exists k. split; [by exists k|lia].
Qed.

Lemma pays_larger copy m :
  fair copy -> fair m -> assets copy = assets i -> assets m = flip_pair (assets i) ->
  pays (charge copy + charge m) (resolve_larger acc copy m) (rest_of i).
Proof.
  intros Hc Hm Ha Hb. pose proof (charge_nonneg copy Hc). pose proof (charge_nonneg m Hm).
  unfold resolve_larger, send_intention_error_event.
  destruct (checked_sub (amount_out m) (amount_in copy)) as [rest_out|] eqn:Ho;
    [|apply pays_panic; lia].
  destruct (checked_sub (amount_in m) (amount_out copy)) as [rest_in|] eqn:Hi;
    [|apply pays_panic; lia].
  zbool. cbv zeta.
  set (lim := match sell_or_buy m with
              | SELL => saturating_sub (trade_limit m) (amount_in copy)
              | BUY => saturating_sub (trade_limit m) (amount_out copy) end).
  set (rest := set_amounts rest_in rest_out lim m).
  assert (Hrest : fair rest).
  { destruct (fair_in _ Hc), (fair_out _ Hc), (fair_in _ Hm), (fair_out _ Hm).
    apply fair_set_amounts; [done|split; lia..]. }
  assert (Hval : match sell_or_buy m with
    | SELL => zoom (validate_sell (who m) (assets m) rest_in
                      (saturating_sub (trade_limit m) (amount_in copy)) (discount m))
    | BUY => zoom (validate_buy (who m) (assets m) rest_out
                     (saturating_sub (trade_limit m) (amount_out copy)) (discount m))
    end = validate_intention (P := P) rest).
  { unfold validate_intention, rest, lim. simpl. by destruct (sell_or_buy m). }
  rewrite Hval. eapply pays_bind; [apply pays_validate; [done|lia]|].
  intros [x|e] k [-> Hx]; [|apply pays_event; by apply pays_unchanged].
  eapply pays_conseq with (Q := fun copy' k => exists k', rest_of i copy' k' /\ k' <= k);
    [|reflexivity|intros copy' k (k' & Hr & Hle); exists k'; split; [done|lia]].
  apply pays_with_prepared; simpl;
    [apply fair_direct; auto; apply Hc|lia|by apply unchanged|].
  intros l Hl Hd.
  (* the rest of the matched one goes to the pool *)
  assert (Hsplit : charge m = charge rest + at_w (asset_in (assets m)) (who m) (amount_out copy)).
  { unfold rest. rewrite (charge_less rest_in rest_out lim m) at 1. do 2 f_equal. lia. }
  set (share := at_w (asset_in (assets m)) (who m) (amount_out copy)) in *.
  assert (Hsh : 0 <= share) by (apply at_w_nonneg; apply Hc).
  eapply pays_bind.
  - replace (charge copy + charge m) with (charge rest + (charge copy + share)) by lia.
    apply (pays_amm rest rest_in x); [done|done|subst rest_in; lia|lia].
  - intros [u|e] k ->.
    + eapply pays_conseq; [by apply (pays_used_up copy m l (amount_out copy) share)|reflexivity|].
      intros copy' k Hr. exists k. split; [by exists k|lia].
    + apply pays_event. eapply pays_bind; [apply pays_revert; [done|]|].
      * change (0 <= charge rest + (charge copy + share)). lia.
      * intros ? k ->. apply pays_ret. exists (charge copy). split; [done|].
        change (charge copy <= charge rest + (charge copy + share)).
        pose proof (charge_nonneg rest Hrest). lia.
Qed.
End group.

(** ** The whole block *)

Definition charges (l : list Intention) : Z := foldr (fun i acc => charge i + acc) 0 l.

Lemma charges_app l l' : charges (l ++ l') = charges l + charges l'.
Proof. induction l; simpl; [done|]. unfold charges in *. simpl. lia. Qed.
Lemma charges_perm l l' : l ≡ₚ l' -> charges l = charges l'.
Proof. induction 1; unfold charges in *; simpl; lia. Qed.
Lemma charges_nonneg l : Forall fair l -> 0 <= charges l.
Proof.
  induction 1 as [|i l Hi _ IH]; [done|]. unfold charges in *. simpl.
  pose proof (charge_nonneg i Hi). lia.
Qed.

(** The intentions of one direction of a pair. *)
Definition side (pr : AssetPair) (l : list Intention) : Prop :=
  Forall (fun i => fair i /\ assets i = pr) l.
Lemma side_fair pr l : side pr l -> Forall fair l.
Proof. apply List.Forall_impl. by intros i []. Qed.
Lemma side_charges pr l : side pr l -> 0 <= charges l.
Proof. intros Hl. by eapply charges_nonneg, side_fair. Qed.

Lemma pays_loop acc i matched copy :
  fair copy -> assets copy = assets i ->
  side (flip_pair (assets i)) matched ->
  pays (charge copy + charges matched) (resolve_loop acc i copy matched) (rest_of i).
Proof.
  intros Hc Ha Hall. revert copy Hc Ha.
  induction Hall as [|m matched [Hm Hb] Hall IH]; intros copy Hc Ha; simpl.
  { apply pays_ret. split; [unfold charges; simpl; lia|done]. }
  pose proof (side_charges _ _ Hall) as Hrest.
  eapply pays_bind with (Q := fun copy' k => exists k', rest_of i copy' k' /\ k = k' + charges matched).
  - eapply pays_conseq with (n := charge copy + charge m) (Q := rest_of i).
    + destruct (Z.ltb_spec (amount_out m) (amount_in copy)); [apply pays_smaller; auto; lia|].
      case_match; [by apply pays_larger|by apply pays_equal].
    + unfold charges in *. simpl. lia.
    + intros copy' k Hr. eexists. split; [by exists k|]. unfold charges. simpl. lia.
  - intros copy' k (k' & (-> & Hf & Hs) & ->). by apply IH.
Qed.

Lemma pays_matched acc i matched :
  fair i -> side (flip_pair (assets i)) matched ->
  pays (charge i + charges matched) (resolve_matched_intentions acc i matched) (fun _ k => 0 <= k).
Proof.
  intros Hi Hall. unfold resolve_matched_intentions.
  eapply pays_bind; [by apply pays_loop|]. intros copy k (-> & Hf & _).
  case_match; [by apply pays_single|]. apply pays_ret. by apply charge_nonneg.
Qed.

Lemma pays_main acc pr b_in a_in skip :
  side pr a_in -> side (flip_pair pr) b_in ->
  pays (charges a_in + charges (drop skip b_in)) (process_main acc b_in skip a_in)
    (fun skip' k => k = charges (drop skip' b_in)).
Proof.
  intros Ha Hb. revert skip. induction Ha as [|i a_in [Hi Hp] Ha IH]; intros skip; simpl.
  { apply pays_ret. unfold charges. simpl. lia. }
  assert (Hall : forall n, 0 <= charges (drop n b_in)).
  { intros n. eapply side_charges. apply Forall_drop. exact Hb. }
  pose proof (side_charges _ _ Ha) as Hrest.
  pose proof (charge_nonneg i Hi) as Hci. pose proof (Hall skip) as Hs.
  set (budget := charges (i :: a_in) + charges (drop skip b_in)).
  assert (Hbud : budget = charge i + charges a_in + charges (drop skip b_in)) by done.
  unfold verify_intention, send_intention_error_event.
  eapply pays_bind with (Q := fun _ k => k = budget).
  - eapply pays_bind; [apply pays_validate; [done|lia]|].
    intros [x|e] k [-> _]; [by apply pays_ret|]. by apply pays_event, pays_ret.
  - intros ok k ->. destruct ok; simpl.
    + set (matched := take_matched (amount_in i) (drop skip b_in)).
      assert (Hm : matched ++ drop (skip + length matched) b_in = drop skip b_in).
      { unfold matched at 1. rewrite take_matched_take. fold matched.
        rewrite <- drop_drop. apply take_drop. }
      assert (Hsum : charges (drop skip b_in) = charges matched + charges (drop (skip + length matched) b_in)).
      { rewrite <- charges_app. by rewrite Hm. }
      assert (Hmf : side (flip_pair (assets i)) matched).
      { rewrite Hp. unfold matched. rewrite take_matched_take. by apply Forall_take, Forall_drop. }
      eapply pays_bind with (Q := fun _ k => k = charges a_in + charges (drop (skip + length matched) b_in));
        [|intros ? k ->; apply IH].
      eapply pays_conseq; [by apply pays_matched| |].
      * pose proof (Hall (skip + length matched)%nat). lia.
      * intros ? k Hk. cbv beta in Hk. eexists. split; [reflexivity|lia].
    + eapply pays_conseq; [apply IH|lia|]. intros n k ->. eexists. split; [reflexivity|lia].
Qed.

Lemma pays_process acc pr a_in b_in :
  side pr a_in -> side (flip_pair pr) b_in ->
  pays (charges a_in + charges b_in) (process_exchange_intentions acc a_in b_in) (fun _ k => 0 <= k).
Proof.
  intros Ha Hb. unfold process_exchange_intentions. cbv zeta.
  destruct (sort_desc_stable a_in) as [Pa _], (sort_desc_stable b_in) as [Pb _].
  rewrite <- (charges_perm _ _ Pa), <- (charges_perm _ _ Pb).
  assert (Hb' : side (flip_pair pr) (sort_desc b_in)) by (unfold side; by rewrite Pb).
  eapply pays_bind.
  - apply (pays_main acc pr (sort_desc b_in) (sort_desc a_in) 0); [unfold side; by rewrite Pa|done].
  - intros skip k ->. eapply pays_conseq; [apply (pays_for_each _ charge); [|done]|reflexivity|].
    + intros x Hx. assert (Hf : fair x); [|split; [by apply charge_nonneg|by apply pays_single]].
      apply list_elem_of_In in Hx. revert x Hx. apply Forall_forall.
      by eapply side_fair, Forall_drop.
    + intros ? k ->. exists 0. split; [done|]. unfold charges. lia.
Qed.

(** The keys of the book that an entry of the counts stands for. *)
Definition directions (e : (AssetId * AssetId) * Z) : list (AssetId * AssetId) :=
  let '((a, b), _) := e in [(b, a); (a, b)].

(** What the intentions of the block can cost the account: the sum over the book. *)
Definition exposure (s : State) : Z :=
  map_sum (fun _ l => charges l) (ExchangeAssetsIntentions s).

(** The intentions of the block are [fair], and none trades an asset for itself. *)
Definition fair_book (s : State) : Prop :=
  (forall a b i, i ∈ get_intentions (a, b) s -> fair i) /\
  (forall a, get_intentions (a, a) s = []).

Lemma book_side s a b : book_ok s -> fair_book s -> side (AssetPair_new a b) (get_intentions (a, b) s).
Proof.
  intros Hok [Hf _]. apply Forall_forall. intros i Hi%list_elem_of_In.
  split; [by eapply Hf|by eapply bk_stored].
Qed.

Lemma pays_entry s e :
  book_ok s -> fair_book s ->
  let cost := foldr (fun k acc => charges (get_intentions k s) + acc) 0 (directions e) in
  0 <= cost /\ pays cost (resolve_entry (fun p => get_intentions p s) e) (fun _ k => 0 <= k).
Proof.
  intros Hok Hf. destruct e as [[a b] n]. simpl.
  pose proof (book_side s a b Hok Hf) as Hab. pose proof (book_side s b a Hok Hf) as Hba.
  pose proof (side_charges _ _ Hab). pose proof (side_charges _ _ Hba).
  split; [lia|]. unfold resolve_entry. case_match; [apply pays_ret; lia|].
  rewrite Z.add_0_r. by apply (pays_process _ (AssetPair_new b a)).
Qed.

(** A sum over distinct keys of a map is at most the sum over the map. *)
Lemma sum_keys_le (ks : list (AssetId * AssetId)) (m : gmap (AssetId * AssetId) (list Intention)) :
  NoDup ks -> (forall k l, m !! k = Some l -> 0 <= charges l) ->
  foldr (fun k acc => charges (default [] (m !! k)) + acc) 0 ks <= map_sum (fun _ l => charges l) m.
Proof.
  intros Hnd. revert m. induction Hnd as [|k ks Hk Hnd IH]; intros m Hm; simpl.
  - by apply map_sum_nonneg.
  - specialize (IH (delete k m)). rewrite map_sum_delete in IH. unfold sum_at in IH.
    assert (Hrest : foldr (fun k acc => charges (default [] (m !! k)) + acc) 0 ks =
      foldr (fun k' acc => charges (default [] (delete k m !! k')) + acc) 0 ks).
    { clear IH Hnd. induction ks as [|k' ks IH]; simpl; [done|].
      apply not_elem_of_cons in Hk as [Hne Hk]. rewrite IH by done.
      by rewrite lookup_delete_ne. }
    rewrite Hrest. assert (Hd : forall k' l, delete k m !! k' = Some l -> 0 <= charges l).
    { intros k' l [_ Hl]%lookup_delete_Some. by eapply Hm. }
    specialize (IH Hd). destruct (m !! k); simpl in *; [lia|]. change (charges []) with 0. lia.
Qed.

(** The directions of the entries are distinct keys of the book. *)
Lemma directions_distinct (g : AssetId * AssetId -> Z) (l : list ((AssetId * AssetId) * Z)) :
  NoDup l.*1 -> (forall a b n, ((a, b), n) ∈ l -> a <= b) -> (forall a, g (a, a) = 0) ->
  exists ks, NoDup ks /\
    (forall x y, (x, y) ∈ ks -> x <> y /\ ordered_pair (AssetPair_new x y) ∈ l.*1) /\
    foldr (fun e acc => foldr (fun k acc => g k + acc) 0 (directions e) + acc) 0 l =
    foldr (fun k acc => g k + acc) 0 ks.
Proof.
  induction l as [|[[a b] n] l IH]; intros Hnd Hle Hg.
  { exists []. split_and!; [constructor|set_solver|done]. }
  apply list.NoDup_cons in Hnd as [Hnew Hnd]. simpl in Hnew.
  destruct IH as (ks & Hks & Hord & Hsum); [done|intros; eapply Hle; by right|done|].
  assert (Hab : a <= b) by (eapply Hle; by left).
  destruct (decide (a = b)) as [->|Hne].
  { exists ks. split_and!; [done| |]; [|simpl; rewrite Hg, Hsum; lia].
    intros x y Hxy. destruct (Hord _ _ Hxy). split; [done|by right]. }
  assert (Ho : forall x y, (x, y) = (a, b) \/ (x, y) = (b, a) ->
    x <> y /\ ordered_pair (AssetPair_new x y) = (a, b)).
  { intros x y [[= -> ->]|[= -> ->]]; unfold ordered_pair; simpl.
    - by rewrite (proj2 (Z.leb_le a b) Hab).
    - rewrite (proj2 (Z.leb_gt b a)) by lia. by split; [congruence|]. }
  assert (Hfresh : forall x y, (x, y) = (a, b) \/ (x, y) = (b, a) -> (x, y) ∉ ks).
  { intros x y Hxy Hin. destruct (Ho x y Hxy) as [_ E], (Hord _ _ Hin) as [_ Hin'].
    by rewrite E in Hin'. }
  exists ((b, a) :: (a, b) :: ks). split_and!.
  - rewrite !list.NoDup_cons, not_elem_of_cons. split_and!; auto. congruence.
  - intros x y. rewrite !elem_of_cons. intros [Hxy|[Hxy|Hxy]];
      [destruct (Ho x y ltac:(auto)) as [? ->]..|destruct (Hord x y Hxy)];
      (split; [done|simpl; rewrite elem_of_cons; auto]).
  - simpl. rewrite Hsum. lia.
Qed.

(** [C5] What the end of a block can cost a seller.  Take an account that is neither a pool nor
    the collector of dust, and a currency such that every intention of the account that
    pays in it is a sale (a purchase pays what the pool asks, and is not covered) and none
    of its intentions has a discount paid in it; let no intention of the block trade an
    asset for itself (there are no such pools).  Then [on_finalize] takes no more of the
    currency from the account than those sales offered, plus an existential deposit for
    each of them (its remainder may be swept as dust): every intention is settled at most
    once, whether directly, by the pool or partly by both, and whatever the other
    accounts registered.  In particular an account without intentions loses nothing. *)
Theorem sellers_bounded `{!StorageOrderLaws} s :
  book_ok s -> fair_book s ->
  wealth c w (pools s) - exposure s <= wealth c w (pools (snd (on_finalize s))).
Proof.
  intros Hok Hf. rewrite on_finalize_snapshot.
  destruct (directions_distinct (fun k => charges (get_intentions k s))
    (storage_iter (ExchangeAssetsIntentionCount s))) as (ks & Hks & _ & Hsum).
  - rewrite storage_iter_entries. apply NoDup_fst_map_to_list.
  - intros a b n. rewrite storage_iter_entries, elem_of_map_to_list. apply (bk_keys _ Hok).
  - intros a. destruct Hf as [_ Hf]. by rewrite Hf.
  - assert (Hle : foldr (fun k acc => charges (get_intentions k s) + acc) 0 ks <= exposure s).
    { apply sum_keys_le; [done|]. intros [a b] l Hl. pose proof (book_side s a b Hok Hf) as Hs.
      unfold get_intentions in Hs. rewrite Hl in Hs. by eapply side_charges. }
    assert (Hp : pays (exposure s) (for_each (resolve_entry (fun p => get_intentions p s))
        (storage_iter (ExchangeAssetsIntentionCount s)) ;;
      modify (set_IntentionCount (fun _ => ∅)) ;; modify (set_Intentions (fun _ => ∅))) (fun _ k => 0 <= k)).
    { eapply pays_bind with (Q := fun _ k => 0 <= k).
      - eapply pays_conseq; [apply (pays_for_each _ (fun e =>
          foldr (fun k acc => charges (get_intentions k s) + acc) 0 (directions e)) _ 0); [|done]| |].
        + intros e _. by apply pays_entry.
        + by rewrite Hsum.
        + intros ? k ->. exists 0. split; [done|]. rewrite Hsum. lia.
      - intros ? k Hk. eapply pays_bind with (Q := fun _ k => 0 <= k); intros; apply pays_quiet; auto. }
    specialize (Hp s).
    match type of Hp with match ?r with _ => _ end => destruct r as [[u|e|] s'] end;
      simpl in *; [|lia..].
    destruct Hp as (k & Hk & Hp). lia.
Qed.
End spend.

(** ** The currency of a chain, and the XYK pallet as the AMM *)

(** Transfers, burns and the hooks of a trade leave reserves alone. *)
Class ReservesApart (C : Type) `{MultiCurrency C} `{MultiReservable C} `{AMMHandler C} : Prop := {
  transfer_reserved a f t x (s s' : C) b z :
    transfer a f t x s = (Ok tt, s') -> reserved_balance b z s' = reserved_balance b z s;
  withdraw_reserved a f x (s s' : C) b z :
    withdraw a f x s = (Ok tt, s') -> reserved_balance b z s' = reserved_balance b z s;
  on_trade_reserved a b' x y l (s : C) b z :
    reserved_balance b z (on_trade a b' x y l s) = reserved_balance b z s
}.

Section xyk.
Context {C : Type}.
Context `{MultiCurrency C} `{ShareTokenRegistry C} `{AMMHandler C} `{CanCreatePool C}.
Context `{AssetPairAccountIdFor} `{XykMath} `{FeeMath} `{FixedPoint} `{AMMProvided}.
Context {cfg : XykConfig} `{MultiReservable C}.
Context `{!MultiCurrencyLaws C} `{!AMMHandlerLaws C} `{!XykMathLaws} `{!FeeMathLaws}.
Context `{!XykConfigOk} `{!WealthLaws C} `{!ReservesApart C}.

(** A transfer takes from the payer at most the amount and a swept remainder, and
    nothing from anybody else. *)
Lemma transfer_loses a f t x (s s' : C) b z :
  transfer a f t x s = (Ok tt, s') -> 0 <= x -> z <> dust_account ->
  wealth b z s <= wealth b z s' + at_account a f (x + minimum_balance (S := C) b) b z.
Proof.
  intros Ht Hx Hz. unfold wealth. rewrite (transfer_reserved _ _ _ _ _ _ b z Ht).
  pose proof (minimum_balance_nonneg (P := C) b) as Hmin. unfold at_account.
  destruct (decide (b = a)) as [->|Hb].
  2: { rewrite (transfer_frame _ _ _ _ _ _ b Ht Hb z). case_decide; lia. }
  destruct (decide (f = t)) as [->|Hft].
  { rewrite (transfer_noop _ _ _ _ _ _ Ht (or_introl eq_refl) z). case_decide; lia. }
  destruct (decide (z = f)) as [->|Hf].
  - rewrite decide_True by done. destruct (decide (free_balance a f s = x \/
      minimum_balance (S := C) a <= free_balance a f s - x)) as [Hk|Hk].
    + rewrite (transfer_debit _ _ _ _ _ _ Ht Hft Hx Hk). lia.
    + pose proof (free_balance_nonneg a f s'). lia.
  - rewrite decide_False by naive_solver. destruct (decide (z = t)) as [->|Hzt].
    + rewrite (transfer_credit _ _ _ _ _ _ Ht Hft Hx (or_introl Hz)). lia.
    + rewrite (transfer_others _ _ _ _ _ _ z Ht Hx Hf Hzt (or_introl Hz)). lia.
Qed.

(** Before the transfers of a trade nothing is taken but the discount. *)
Lemma before_trade_wealth t x y l (c0 c1 : C) b z :
  discount_paid t (on_trade (asset_in (t_assets t)) (asset_out (t_assets t)) x y l c0) c1 ->
  z <> dust_account -> ~ (t_discount t = true /\ b = NativeAssetId /\ z = t_origin t) ->
  wealth b z c1 = wealth b z c0.
Proof.
  intros Hd Hz Hnd. unfold wealth. f_equal.
  - destruct (decide (z = t_origin t)) as [->|Hne]; [|by eapply before_trade_balance].
    destruct (on_trade_quiet (asset_in (t_assets t)) (asset_out (t_assets t)) x y l c0) as [Hq _].
    destruct (Hq b) as [Hb _]. rewrite <- (Hb (t_origin t)). unfold discount_paid in Hd.
    destruct (t_discount t) eqn:Hdis; simpl in Hd; [|by rewrite Hd].
    case_match; [|by rewrite Hd]. destruct (decide (b = NativeAssetId)) as [->|Hne]; [tauto|].
    by apply (withdraw_frame _ _ _ _ _ b) in Hd as [Hf _]; [apply Hf|].
  - rewrite <- (on_trade_reserved (asset_in (t_assets t)) (asset_out (t_assets t)) x y l c0 b z).
    unfold discount_paid in Hd. case_match; [|by rewrite Hd]. by eapply withdraw_reserved.
Qed.

#[local] Instance xyk_currency : MultiCurrency (XykState C) := lift_currency.
#[local] Instance xyk_reservable : MultiReservable (XykState C) := lift_reservable.

Lemma discount_quoted_nonneg d who a f da (s : XykState C) :
  discount_quoted d who a f da s -> 0 <= f -> 0 <= da.
Proof.
  unfold discount_quoted. destruct d; [|lia]. intros [Hq _] Hf.
  eapply spot_price_nonneg; [| |exact Hf|exact Hq]; apply free_balance_nonneg.
Qed.

(** The XYK pallet keeps the promise, over every chain that keeps its own. *)
#[export] Instance Xyk_AMMSpend : AMMSpendLaws (XykState C) NativeAssetId.
Proof.
  split; simpl; intros *.
  - intros (_ & _ & _ & _ & _ & o & fee & da & Ho & Hf & Hle & _ & Hq & ->)%validate_sell_Ok Ha.
    simpl. destruct (out_given_in_formula _ _ _ _ (free_balance_nonneg _ _ _)
      (free_balance_nonneg _ _ _) Ha Ho) as [Hon _].
    split_and!; try done. split; simpl; [done|lia|].
    eapply discount_quoted_nonneg; [exact Hq|]. by eapply fee_nonneg.
  - intros (_ & _ & _ & _ & _ & _ & o & fee & da & Ho & Hf & _ & _ & _ & Hq & ->)%validate_buy_Ok Ha.
    simpl. destruct (in_given_out_formula _ _ _ _ (free_balance_nonneg (asset_in pr) _ _)
      (free_balance_nonneg _ _ _) Ha Ho) as [Hon _].
    split_and!; try done. split; simpl; [done|lia|].
    eapply discount_quoted_nonneg; [exact Hq|]. by eapply fee_nonneg.
  - intros (c1 & c2 & Hd & T1 & T2 & _)%execute_sell_Ok [Ha Ho _] Hp Hz Hn.
    change (wealth b z p) with (wealth b z (chain p)).
    change (wealth b z p') with (wealth b z (chain p')).
    rewrite <- (before_trade_wealth _ _ _ _ _ _ b z Hd Hz Hn).
    pose proof (transfer_loses _ _ _ _ _ _ b z T1 Ha Hz) as L1.
    pose proof (transfer_loses _ _ _ _ _ _ b z T2 Ho Hz) as L2.
    unfold at_account at 1 in L2. rewrite decide_False in L2 by tauto.
    change (minimum_balance (S := XykState C) b) with (minimum_balance (S := C) b). lia.
  - intros (c1 & c2 & Hd & T1 & T2 & _)%execute_buy_Ok [Ha Ho _] Hp Hz Hn Hb.
    change (wealth b z p) with (wealth b z (chain p)).
    change (wealth b z p') with (wealth b z (chain p')).
    rewrite <- (before_trade_wealth _ _ _ _ _ _ b z Hd Hz Hn).
    pose proof (transfer_loses _ _ _ _ _ _ b z T1 Ha Hz) as L1.
    assert (Hw : 0 <= wrapping_add 128 (t_amount_out x) (snd (t_fee x)))
      by (apply Z.mod_pos_bound; lia).
    pose proof (transfer_loses _ _ _ _ _ _ b z T2 Hw Hz) as L2.
    unfold at_account in L1, L2. rewrite decide_False in L1 by tauto.
    rewrite decide_False in L2 by tauto. lia.
Qed.

#[export] Instance Xyk_WealthLaws : WealthLaws (XykState C).
Proof.
  split; intros *.
  - apply (minimum_balance_nonneg (P := C)).
  - intros Ha. pose proof (reserve_wealth c w a (chain p) b z Ha) as Hw.
    simpl. unfold zoom. simpl. by destruct (reserve c w a (chain p)).
  - intros Ha. exact (unreserve_wealth c w a (chain p) b z Ha).
  - intros Ha. pose proof (repatriate_wealth c f t a (chain p) b z Ha) as Hw.
    simpl. unfold zoom. simpl. by destruct (repatriate_reserved c f t a (chain p)).
Qed.
End xyk.
