(* ===== verification/ExchangeAnswers.v ===== *)
(** * Every intention gets its answer

    [on_finalize] returns nothing and never fails; what became of an intention is told by
    events.  This file follows the events through the resolution: every intention of the
    main side of a pair is reported as traded or refused, and so is every one of the other
    side, unless the direct trade it was picked for was not made.  The proof is a small
    logic for the events a computation appends. *)

From S2P Require Import Prelude Primitives Errors Interfaces Exchange ExchangeProps.

Section answers.
Context {P H : Type}.
Context `{MultiCurrency P} `{MultiReservable P} `{AMM P} `{BlockNumberProvider P}.
Context `{FeeMath} `{IntentionHashing H} `{StorageOrder}.
Notation State := (ExchangeState P H).
Notation Intention := (ExchangeIntention H).
Notation Events := (list (ExchangeEvent H)).
Implicit Types (i j m copy : Intention) (evs : Events).

(** ** Answers *)






(** ** A logic of events

    [tells m Q]: when [m] returns [a] it has appended some events [evs] with [Q a evs]. *)
Definition tells {A} (m : Dispatch State A) (Q : A -> Events -> Prop) : Prop :=
  forall s a s', m s = (Ok a, s') ->
    exists evs, exchange_events s' = exchange_events s ++ evs /\ Q a evs.

Lemma tells_gets {A} (f : State -> A) (Q : A -> Events -> Prop) :
  (forall a, Q a []) -> tells (gets f) Q.
Proof. intros HQ s b s' Hrun. minv Hrun. exists []. by rewrite app_nil_r. Qed.




(** ** Reports *)







(** ** Direct trades *)




(** ** One matched intention *)






(** ** A main intention and those matched with it *)



(** ** A pair *)





(** ** The block *)



End answers.
