(* ===== verification/ExchangePools.v ===== *)
(** * What the end of a block does to a pool

    [on_finalize] trades with the pools and pays them the fees of direct trades.  However
    the intentions are matched, the product of the reserves of a pool does not fall.  The
    theorem is proved with a small logic over the resolution code, against interfaces for
    reserves and for the AMM; the last section discharges the AMM's for the XYK pallet. *)

From S2P Require Import Xyk XykProps XykPools.
From S2P Require Import Prelude Primitives Errors Interfaces Exchange ExchangeProps ExchangeSpend.

(** Reserving and unreserving concern one account; repatriating takes from one account and
    lowers the free balance of no other. *)
Class ReserveFrame (P : Type) `{MultiCurrency P} `{MultiReservable P} : Prop := {
  reserve_frame c w a (p : P) b z :
    0 <= a -> z <> w -> free_balance b z (snd (reserve c w a p)) = free_balance b z p;
  unreserve_frame c w a (p : P) b z :
    0 <= a -> z <> w -> free_balance b z (unreserve c w a p) = free_balance b z p;
  repatriate_frame c f t a (p : P) b z :
    0 <= a -> z <> f ->
    free_balance b z p <= free_balance b z (snd (repatriate_reserved c f t a p))
}.

Section product.
Context {P : Type} `{MultiCurrency P} (acc : AccountId).
(** The product of the reserves of the account in two assets, and states in which it holds
    the same. *)
Definition product (a b : AssetId) (p : P) : Z := free_balance a acc p * free_balance b acc p.
Definition still (p p' : P) : Prop := forall c, free_balance c acc p' = free_balance c acc p.
End product.

(** What a pool pallet promises the pool [acc] of [a] and [b]: a trade that was validated
    when the pool held what it holds now does not lower the product. *)
Class AMMProductLaws (P : Type) (acc : AccountId) (a b : AssetId) `{MultiCurrency P} `{AMM P}
    : Prop := {
  sell_product w pr x l d (p0 : P) t p1 p p' :
    validate_sell w pr x l d p0 = (Ok t, p1) -> wide pr -> w <> acc -> 0 <= x ->
    still acc p0 p -> execute_sell t p = (Ok tt, p') -> product acc a b p <= product acc a b p';
  buy_product w pr x l d (p0 : P) t p1 p p' :
    validate_buy w pr x l d p0 = (Ok t, p1) -> wide pr -> w <> acc -> 0 <= x ->
    still acc p0 p -> execute_buy t p = (Ok tt, p') -> product acc a b p <= product acc a b p'
}.

Section pools.
Context {P H : Type} (acc : AccountId) (a b : AssetId).
Context `{MultiCurrency P} `{MultiReservable P} `{AMM P} `{BlockNumberProvider P}.
Context `{FeeMath} `{IntentionHashing H} `{StorageOrder}.
Context `{!MultiCurrencyLaws P} `{!ReserveFrame P} `{!AMMLaws P} `{!AMMProductLaws P acc a b}.
Context `{!FeeMathLaws}.
Context (Hfee : forall z (p : P), 0 <= fst (get_fee z p) /\ 0 <= snd (get_fee z p)).
Notation State := (ExchangeState P H).
Notation Intention := (ExchangeIntention H).
Notation K s := (product acc a b (pools s)).

(** ** The logic

    [safe I m Q]: from a state in which [I] holds of the chain, [m] does not lower the
    product, and when it returns [x] it leaves a chain with [Q x]. *)
Definition safe {A} (I : P -> Prop) (m : Dispatch State A) (Q : A -> P -> Prop) : Prop :=
  forall s, I (pools s) -> K s <= K (snd (m s)) /\
    forall x, fst (m s) = Ok x -> Q x (pools (snd (m s))).

Lemma safe_bind {A B} I (m : Dispatch State A) (f : A -> Dispatch State B) Q R :
  safe I m Q -> (forall x, safe (Q x) (f x) R) -> safe I (mbind f m) R.
Proof.
  intros Hm Hf s Hs. destruct (Hm s Hs) as [Hle HQ]. unfold mbind, M_bind, run_bind.
  destruct (m s) as [[x|e|] s1]; simpl in *; [|done..].
  destruct (Hf x s1 (HQ x eq_refl)) as [Hle' HR]. split; [lia|done].
Qed.
Lemma safe_conseq {A} (I I' : P -> Prop) (m : Dispatch State A) (Q R : A -> P -> Prop) :
  safe I m Q -> (forall p, I' p -> I p) -> (forall x p, Q x p -> R x p) -> safe I' m R.
Proof. intros Hm HI HQ s Hs. destruct (Hm s (HI _ Hs)) as [? Hq]. split; auto. Qed.
Lemma safe_given {A} (I : P -> Prop) (X : Prop) (m : Dispatch State A) Q :
  (X -> safe I m Q) -> safe (fun p => I p /\ X) m Q.
Proof. intros Hm s [Hs Hx]. by apply Hm. Qed.
Lemma safe_known {A} (X : Prop) (m : Dispatch State A) Q :
  (X -> safe (fun _ => True) m Q) -> safe (fun _ => X) m Q.
Proof. intros Hm s Hx. by apply Hm. Qed.
Lemma safe_ret {A} (I : P -> Prop) (x : A) (Q : A -> P -> Prop) :
  (forall p, I p -> Q x p) -> safe I (mret x) Q.
Proof. intros HQ s Hs. split; [done|]. intros ? [= <-]. by apply HQ. Qed.
Lemma safe_panic {A} I (Q : A -> P -> Prop) : safe I panic Q.
Proof. intros s Hs. by split. Qed.
Lemma safe_gets {A B} I (f : State -> A) (g : A -> Dispatch State B) R :
  (forall s, safe I (g (f s)) R) -> safe I (mbind g (gets f)) R.
Proof. intros Hg s. apply (Hg s). Qed.
(** Events and the bookkeeping of the pallet do not touch the chain. *)
Lemma safe_quiet {A B} I (m : Dispatch State A) (f : A -> Dispatch State B) R :
  (forall s, pools (snd (m s)) = pools s) -> (forall x, safe I (f x) R) -> safe I (mbind f m) R.
Proof.
  intros Hm Hf. eapply (safe_bind _ _ _ (fun _ => I)); [|done].
  intros s Hs. rewrite Hm. split; [done|]. by intros.
Qed.
Lemma safe_event {B} I e (m : Dispatch State B) R :
  safe I m R -> safe I (exchange_deposit_event e ;; m) R.
Proof. intros Hm. by apply safe_quiet. Qed.
Lemma safe_done I e (Q : unit -> P -> Prop) :
  (forall p, I p -> Q tt p) -> safe I (exchange_deposit_event e) Q.
Proof. intros HQ s Hs. split; [done|]. intros [] ?. by apply HQ. Qed.
Lemma safe_for_each {A} (f : A -> Dispatch State unit) l (I : P -> Prop) :
  (forall x, x ∈ l -> safe I (f x) (fun _ => I)) -> safe I (for_each f l) (fun _ => I).
Proof.
  induction l as [|x l IH]; intros Hf; simpl; [by apply safe_ret|].
  eapply safe_bind; [apply Hf; by left|]. intros []. apply IH. intros y Hy. apply Hf. by right.
Qed.

(** Balances that only grow. *)
Lemma product_mono (p p' : P) :
  (forall c, free_balance c acc p <= free_balance c acc p') -> product acc a b p <= product acc a b p'.
Proof.
  intros Hle. apply Z.mul_le_mono_nonneg; auto; apply free_balance_nonneg.
Qed.

(** ** Trades with the pool *)

(** An intention of somebody else, with [u32] assets and no negative amount. *)
Record proper (i : Intention) : Prop := mkProper {
  pr_who : who i <> acc;
  pr_assets : wide (assets i);
  pr_in : 0 <= amount_in i;
  pr_out : 0 <= amount_out i
}.

(** [t] was validated for [i] when the pool held what it holds in [p]. *)
Definition validated (i : Intention) (t : AMMTransfer) (p : P) : Prop :=
  exists p0, still acc p0 p /\ fst (amm_validation i p0) = Ok t.
Lemma validated_still i t (p p' : P) : validated i t p -> still acc p p' -> validated i t p'.
Proof.
  intros (p0 & Hs & Hv) Hs'. exists p0. split; [|done]. intros c. by rewrite Hs', Hs.
Qed.

Lemma safe_validate I i :
  safe I (attempt (validate_intention i))
    (fun r p => I p /\ match r with inl t => validated i t p | inr _ => True end).
Proof.
  intros s Hs. unfold attempt. rewrite validate_intention_run.
  destruct (fst (amm_validation i (pools s))) as [t|e|] eqn:Hv; simpl; (split; [done|]);
    intros r [= <-]; (split; [done|]); [|done].
  exists (pools s). by split.
Qed.

Lemma safe_amm i t :
  proper i ->
  safe (validated i t) (attempt (execute_amm_transfer (sell_or_buy i) (intention_id i) t))
    (fun _ _ => True).
Proof.
  intros [Hw Hpr Hi Ho] s (p0 & Hs & Hv). split; [|done]. unfold attempt. rewrite execute_amm_run.
  destruct (amm_execution i t (pools s)) as [[[]|e|] p'] eqn:Hex; simpl; [|done..].
  unfold amm_execution, amm_validation in *. destruct (sell_or_buy i).
  - destruct (validate_sell _ _ _ _ _ p0) as [r p1] eqn:Hval. simpl in Hv. subst r.
    by eapply sell_product.
  - destruct (validate_buy _ _ _ _ _ p0) as [r p1] eqn:Hval. simpl in Hv. subst r.
    by eapply buy_product.
Qed.

Lemma safe_single i : proper i -> safe (fun _ => True) (resolve_single_intention i) (fun _ _ => True).
Proof.
  intros Hi. unfold resolve_single_intention, send_intention_error_event.
  eapply safe_bind; [apply safe_validate|]. intros [t|e]; [|by apply safe_done].
  eapply safe_bind.
  - eapply safe_conseq; [by apply (safe_amm i t)|by intros p []|]. intros r p Hr. exact Hr.
  - intros [u|e]; [by apply safe_ret|by apply safe_done].
Qed.

(** ** Direct trades *)

(** The transfers of a trade between two others. *)
Definition outside (t : Transfer) : Prop := tr_from t <> acc /\ 0 <= tr_amount t.

Lemma safe_transfers dt l :
  Forall outside l -> safe (fun _ => True) (execute_transfers dt l) (fun _ _ => True).
Proof.
  induction 1 as [|t l [Hf Ha] _ IH]; simpl; [by apply safe_ret|].
  eapply (safe_bind _ _ _ (fun _ _ => True)).
  - intros s _. split; [|done]. unfold attempt, zoom. simpl.
    assert (Hle : forall c, free_balance c acc (pools s) <=
      free_balance c acc (snd (repatriate_reserved (tr_asset t) (tr_from t) (tr_to t) (tr_amount t)
        (pools s)))) by (intros c; by apply repatriate_frame).
    destruct (repatriate_reserved _ _ _ _ (pools s)) as [[u|e|] p]; by apply product_mono.
  - intros [u|e]; [|by apply safe_ret]. apply safe_quiet; [|by intros _].
    intros s. unfold send_trade_fee_event. by destruct (fee_transfer t).
Qed.
Lemma safe_execute dt l :
  Forall outside l -> safe (fun _ => True) (execute dt l) (fun _ _ => True).
Proof. intros Hl. apply safe_event. by apply safe_transfers. Qed.

Lemma safe_revert I l :
  Forall outside l -> (forall p p' : P, I p -> still acc p p' -> I p') ->
  safe I (revert l) (fun _ => I).
Proof.
  intros Hl HI. apply safe_for_each. intros t Ht. rewrite Forall_forall in Hl.
  destruct (Hl t) as [Hf Ha]; [by apply list_elem_of_In|]. intros s Hs.
  assert (Hst : still acc (pools s) (unreserve (tr_asset t) (tr_from t) (tr_amount t) (pools s)))
    by (intros c; by apply unreserve_frame).
  split; simpl; [apply product_mono; intros c; by rewrite Hst|]. intros ? _. by eapply HI.
Qed.

(** A trade between two others of amounts that are not negative. *)
Record outsiders (dt : DirectTradeData H) : Prop := mkOutsiders {
  os_a : who (intention_a dt) <> acc;
  os_b : who (intention_b dt) <> acc;
  os_from_a : 0 <= amount_from_a dt;
  os_from_b : 0 <= amount_from_b dt
}.

Lemma trade_transfers_outside dt z fee_a fee_b :
  outsiders dt -> 0 <= fee_a -> 0 <= fee_b -> Forall outside (trade_transfers dt z fee_a fee_b).
Proof.
  intros [Wa Wb Ha Hb] Fa Fb.
  assert (Hmod : forall x, 0 <= x mod 2 ^ 128) by (intros; apply Z.mod_pos_bound; lia).
  unfold trade_transfers, wrapping_sub, wrapping_mul.
  destruct (sell_or_buy _), (sell_or_buy _); repeat (apply List.Forall_cons; [by split; simpl|]);
    apply List.Forall_nil.
Qed.

(** Reserving for an outsider leaves the pool what it holds. *)
Lemma safe_reserve I c w x :
  w <> acc -> 0 <= x -> (forall p p' : P, I p -> still acc p p' -> I p') ->
  safe I (reserve_if_can (H := H) c w x) (fun _ => I).
Proof.
  intros Hw Hx HI s Hs. unfold reserve_if_can, attempt, mbind, M_bind, run_bind, zoom. simpl.
  assert (Hst : still acc (pools s) (snd (reserve c w x (pools s))))
    by (intros b'; by apply reserve_frame).
  assert (Hle : product acc a b (pools s) <= product acc a b (snd (reserve c w x (pools s))))
    by (apply product_mono; intros b'; by rewrite Hst).
  destruct (reserve c w x (pools s)) as [[u|e|] p]; simpl in *; (split; [done|]); intros ? ?;
    by eapply HI.
Qed.

Lemma safe_prepare I dt z :
  outsiders dt -> (forall p p' : P, I p -> still acc p p' -> I p') ->
  safe I (prepare dt z) (fun r p => I p /\ Forall outside (snd r)).
Proof.
  intros Hdt HI. pose proof Hdt as [Wa Wb Ha Hb].
  assert (Hno : forall ok, safe I (mret (ok, [])) (fun (r : bool * list Transfer) p =>
    I p /\ Forall outside (snd r))) by (intros ok; apply safe_ret; intros p Hp; by split).
  unfold prepare, send_insufficient_balance_event. apply safe_gets. intros fa.
  case_match; [by apply safe_event|]. apply safe_gets. intros fb.
  case_match; [by apply safe_event|].
  apply safe_gets. intros s. destruct (Hfee z (pools s)) as [F1 F2].
  set (fee := get_fee z (pools s)) in *.
  destruct (calculate_pool_trade_fee (amount_from_a dt) fee) as [fee_a|] eqn:Ea; [|apply Hno].
  destruct (calculate_pool_trade_fee (amount_from_b dt) fee) as [fee_b|] eqn:Eb; [|apply Hno].
  assert (Na : 0 <= fee_a) by exact (trade_fee_nonneg _ _ _ Ha F1 F2 Ea).
  assert (Nb : 0 <= fee_b) by exact (trade_fee_nonneg _ _ _ Hb F1 F2 Eb).
  destruct (_ || _)%bool; [apply Hno|].
  destruct (reserved_amounts_nonneg dt fee_a fee_b Ha Hb) as [Ra Rb].
  destruct (reserved_amounts dt fee_a fee_b) as [ra rb]. simpl in Ra, Rb.
  apply (safe_bind _ _ _ (fun _ => I)); [by apply safe_reserve|].
  intros []; simpl; [|apply Hno].
  apply (safe_bind _ _ _ (fun _ => I)); [by apply safe_reserve|].
  intros []; simpl; [|apply Hno].
  apply safe_ret. intros p Hp. split; [done|]. by apply trade_transfers_outside.
Qed.

(** ** Resolving a group *)

Lemma safe_with_prepared I dt z copy k :
  outsiders dt -> (forall p p' : P, I p -> still acc p p' -> I p') -> proper copy ->
  (forall l, Forall outside l -> safe I (k l) (fun i _ => proper i)) ->
  safe I (with_prepared dt z copy k) (fun i _ => proper i).
Proof.
  intros Hdt HI Hc Hk. unfold with_prepared.
  eapply safe_bind; [by apply safe_prepare|]. intros [ok l]. apply safe_given. simpl.
  intros Hl. destruct ok; [by apply Hk|].
  apply (safe_bind _ _ _ (fun _ => I)); [by apply safe_revert|]. intros _. by apply safe_ret.
Qed.

Notation anything := (fun _ : P => True).
Notation left_proper := (fun (i : Intention) (_ : P) => proper i).

Lemma proper_amounts x y l i : proper i -> 0 <= x -> 0 <= y -> proper (set_amounts x y l i).
Proof. by intros [] ? ?. Qed.

Lemma safe_smaller z copy m :
  proper copy -> proper m -> safe anything (resolve_smaller z copy m) left_proper.
Proof.
  intros Hc Hm. unfold resolve_smaller, send_intention_error_event. cbv zeta.
  destruct (limit_error m _ _); [apply safe_event; by apply safe_ret|].
  apply safe_with_prepared; [split; simpl; apply Hc || apply Hm|done|done|]. intros l Hl.
  apply (safe_bind _ _ _ (fun _ _ => True)); [by apply safe_execute|]. intros _.
  destruct (checked_sub (amount_in copy) (amount_out m)) as [x|] eqn:Hx; [|apply safe_panic].
  destruct (checked_sub (amount_out copy) (amount_in m)) as [y|] eqn:Hy; [|apply safe_panic].
  zbool. apply safe_ret. intros p _. apply proper_amounts; [done|lia..].
Qed.

Lemma safe_equal z i copy m :
  proper copy -> proper m -> safe anything (resolve_equal z i copy m) left_proper.
Proof.
  intros Hc Hm. unfold resolve_equal, send_intention_error_event. cbv zeta.
  destruct (limit_error i _ _); [apply safe_event; by apply safe_ret|].
  destruct (limit_error m _ _); [apply safe_event; by apply safe_ret|].
  apply safe_with_prepared; [split; simpl; apply Hc || apply Hm|done|done|]. intros l Hl.
  apply (safe_bind _ _ _ (fun _ _ => True)); [by apply safe_execute|]. intros _.
  apply safe_ret. intros p _. apply proper_amounts; [done|done|apply Hc].
Qed.

Lemma safe_larger z copy m :
  proper copy -> proper m -> safe anything (resolve_larger z copy m) left_proper.
Proof.
  intros Hc Hm. unfold resolve_larger, send_intention_error_event.
  destruct (checked_sub (amount_out m) (amount_in copy)) as [rest_out|] eqn:Ho; [|apply safe_panic].
  destruct (checked_sub (amount_in m) (amount_out copy)) as [rest_in|] eqn:Hi; [|apply safe_panic].
  zbool. cbv zeta.
  set (lim := match sell_or_buy m with
              | SELL => saturating_sub (trade_limit m) (amount_in copy)
              | BUY => saturating_sub (trade_limit m) (amount_out copy) end).
  set (rest := set_amounts rest_in rest_out lim m).
  assert (Hrest : proper rest) by (apply proper_amounts; [done|lia..]).
  assert (Hval : match sell_or_buy m with
    | SELL => zoom (validate_sell (who m) (assets m) rest_in
                      (saturating_sub (trade_limit m) (amount_in copy)) (discount m))
    | BUY => zoom (validate_buy (who m) (assets m) rest_out
                     (saturating_sub (trade_limit m) (amount_out copy)) (discount m))
    end = validate_intention (P := P) rest).
  { unfold validate_intention, rest, lim. simpl. by destruct (sell_or_buy m). }
  rewrite Hval. eapply safe_bind; [apply (safe_validate anything)|].
  intros [t|e]; [|apply safe_event; by apply safe_ret].
  apply (safe_conseq (validated rest t) _ _ left_proper); [|by intros p []|done].
  apply safe_with_prepared; [split; simpl; apply Hc || apply Hm|by apply validated_still|done|].
  intros l Hl. apply (safe_bind _ _ _ (fun _ _ => True)); [by apply (safe_amm rest t)|].
  intros [u|e].
  - apply (safe_bind _ _ _ (fun _ _ => True)); [by apply safe_execute|]. intros _.
    apply safe_ret. intros p _. apply proper_amounts; [done|done|apply Hc].
  - apply safe_event, (safe_bind _ _ _ (fun _ _ => True)); [by apply safe_revert|]. intros _.
    by apply safe_ret.
Qed.

Lemma safe_loop z i copy matched :
  proper copy -> Forall proper matched -> safe anything (resolve_loop z i copy matched) left_proper.
Proof.
  intros Hc Hall. revert copy Hc. induction Hall as [|m matched Hm _ IH]; intros copy Hc; simpl.
  { by apply safe_ret. }
  apply (safe_bind _ _ _ left_proper).
  - case_match; [by apply safe_smaller|]. case_match; [by apply safe_larger|by apply safe_equal].
  - intros copy'. apply safe_known. apply IH.
Qed.

Lemma safe_matched z i matched :
  proper i -> Forall proper matched ->
  safe anything (resolve_matched_intentions z i matched) (fun _ _ => True).
Proof.
  intros Hi Hall. apply (safe_bind _ _ _ left_proper); [by apply safe_loop|].
  intros copy. apply safe_known. intros Hc. case_match; [by apply safe_single|by apply safe_ret].
Qed.

(** ** The whole block *)

Lemma safe_main z b_in skip a_in :
  Forall proper a_in -> Forall proper b_in ->
  safe anything (process_main z b_in skip a_in) (fun _ _ => True).
Proof.
  intros Ha Hb. revert skip. induction Ha as [|i a_in Hi Ha IH]; intros skip; simpl.
  { by apply safe_ret. }
  unfold verify_intention, send_intention_error_event.
  apply (safe_bind _ _ _ (fun _ _ => True)).
  - eapply safe_bind; [apply (safe_validate anything)|].
    intros [t|e]; [by apply safe_ret|apply safe_event; by apply safe_ret].
  - intros []; simpl; [|apply IH].
    apply (safe_bind _ _ _ (fun _ _ => True)); [|intros _; apply IH].
    apply safe_matched; [done|]. rewrite take_matched_take. by apply Forall_take, Forall_drop.
Qed.

Lemma sort_desc_proper (l : list Intention) : Forall proper l -> Forall proper (sort_desc l).
Proof. intros Hl. destruct (sort_desc_stable l) as [Hp _]. by rewrite Hp. Qed.

Lemma safe_process z a_in b_in :
  Forall proper a_in -> Forall proper b_in ->
  safe anything (process_exchange_intentions z a_in b_in) (fun _ _ => True).
Proof.
  intros Ha%sort_desc_proper Hb%sort_desc_proper. unfold process_exchange_intentions. cbv zeta.
  apply (safe_bind _ _ _ (fun _ _ => True)); [by apply safe_main|]. intros n.
  apply safe_for_each. intros i Hi. apply safe_single. apply (Forall_drop _ n) in Hb.
  rewrite Forall_forall in Hb. by apply Hb, list_elem_of_In.
Qed.

(** [C6] The end of a block does not lower the product of the reserves of a pool, whether its
    trades are matched directly, go to the pool or are split between the two, and whether
    or not they succeed: the intentions are those of accounts other than the pool. *)
Theorem pool_product_kept s :
  (forall x y i, i ∈ get_intentions (x, y) s -> proper i) ->
  product acc a b (pools s) <= product acc a b (pools (snd (on_finalize s))).
Proof.
  intros Hbook. rewrite on_finalize_snapshot.
  assert (Hsafe : safe anything (for_each (resolve_entry (fun p => get_intentions p s))
      (storage_iter (ExchangeAssetsIntentionCount s)) ;;
    modify (set_IntentionCount (fun _ => ∅)) ;; modify (set_Intentions (fun _ => ∅)))
    (fun _ _ => True)).
  { apply (safe_bind _ _ _ (fun _ _ => True)).
    - apply safe_for_each. intros [[x y] n] _. unfold resolve_entry. case_match; [by apply safe_ret|].
      apply safe_process; apply Forall_forall; intros i Hi%list_elem_of_In; by eapply Hbook.
    - intros _ s' _. by split. }
  by apply Hsafe.
Qed.
End pools.

(** ** The XYK pallet as the AMM *)

Section xyk.
Context {C : Type}.
Context `{MultiCurrency C} `{ShareTokenRegistry C} `{AMMHandler C} `{CanCreatePool C}.
Context `{AssetPairAccountIdFor} `{XykMath} `{FeeMath} `{FixedPoint} `{AMMProvided}.
Context {cfg : XykConfig} `{MultiReservable C}.
Context `{!MultiCurrencyLaws C} `{!AMMHandlerLaws C} `{!XykMathLaws} `{!FeeMathLaws}.
Context `{!XykConfigOk} `{!AssetPairAccountIdLaws}.
#[local] Instance pool_currency : MultiCurrency (XykState C) := lift_currency.
#[local] Instance pool_reservable : MultiReservable (XykState C) := lift_reservable.

(** A pool of two assets whose account is not swept in either of them. *)
Context (pool : AssetPair) (Hwide : wide pool) (Hne : asset_in pool <> asset_out pool).
Notation acc := (Xyk.get_pair_id pool).
Context (Hdust : acc <> dust_account).
Context (Hspared : forall c, c = asset_in pool \/ c = asset_out pool -> never_swept (S := C) c acc).

(** A transfer adds to the account, takes from it, or concerns others. *)
Lemma transfer_in c w x (u v : C) d :
  transfer c w acc x u = (Ok tt, v) -> w <> acc -> 0 <= x ->
  free_balance d acc v = free_balance d acc u + (if decide (d = c) then x else 0).
Proof.
  intros T Hw Hx. case_decide as Hd; [subst d|].
  - eapply transfer_credit; eauto.
  - rewrite (transfer_frame _ _ _ _ _ _ d T Hd). lia.
Qed.
Lemma transfer_out c w x (u v : C) d :
  transfer c acc w x u = (Ok tt, v) -> c = asset_in pool \/ c = asset_out pool -> w <> acc -> 0 <= x ->
  free_balance d acc v = free_balance d acc u - (if decide (d = c) then x else 0).
Proof.
  intros T Hc Hw Hx. case_decide as Hd; [subst d|].
  - by eapply (Hspared _ Hc).
  - rewrite (transfer_frame _ _ _ _ _ _ d T Hd). lia.
Qed.
Lemma transfer_by c f t x (u v : C) d :
  transfer c f t x u = (Ok tt, v) -> f <> acc -> t <> acc -> 0 <= x ->
  free_balance d acc v = free_balance d acc u.
Proof.
  intros T Hf Ht Hx. destruct (decide (d = c)) as [->|Hd].
  - eapply transfer_others; eauto.
  - exact (transfer_frame _ _ _ _ _ _ d T Hd acc).
Qed.

(** The pair of a trade with this pool is the pool's, in one of the two directions. *)
Lemma same_pool pr : wide pr -> Xyk.get_pair_id pr = acc -> pr = pool \/ pr = flip_pair pool.
Proof.
  intros [] Hid. destruct Hwide. apply from_assets_inj in Hid as [_ Ho]; simpl; auto; try lia.
  destruct pr, pool. by apply ordered_pair_eq in Ho.
Qed.
(** The product does not depend on the direction. *)
Lemma same_product pr (s : XykState C) :
  pr = pool \/ pr = flip_pair pool ->
  product acc (asset_in pool) (asset_out pool) s = reserve_of (asset_in pr) pr s * reserve_of (asset_out pr) pr s /\
  asset_in pr <> asset_out pr /\ Xyk.get_pair_id pr = acc.
Proof.
  intros [->| ->]; [by split_and!|]. simpl.
  assert (Hid : Xyk.get_pair_id (flip_pair pool) = acc) by apply from_assets_sym.
  unfold reserve_of. rewrite Hid. split_and!; auto. unfold product. simpl. lia.
Qed.

(** What a trade with this pool leaves of its reserves. *)
Lemma sell_reserves t (s s' : XykState C) :
  Xyk.execute_sell t s = (Ok tt, s') -> t_assets t = pool \/ t_assets t = flip_pair pool ->
  t_origin t <> acc ->
  0 <= t_amount t -> 0 <= t_amount_out t ->
  reserve_of (asset_in (t_assets t)) (t_assets t) s' =
    reserve_of (asset_in (t_assets t)) (t_assets t) s + t_amount t /\
  reserve_of (asset_out (t_assets t)) (t_assets t) s' =
    reserve_of (asset_out (t_assets t)) (t_assets t) s - t_amount_out t.
Proof.
  intros (c1 & c2 & Hd & T1 & T2 & _)%execute_sell_Ok Hpr Ho Ha Hx.
  destruct (same_product _ s Hpr) as (_ & Hio & Hp).
  assert (Hc : asset_out (t_assets t) = asset_in pool \/ asset_out (t_assets t) = asset_out pool)
    by (destruct Hpr as [->| ->]; simpl; auto).
  unfold reserve_of. rewrite !Hp in *.
  rewrite !(transfer_out _ _ _ _ _ _ T2), !(transfer_in _ _ _ _ _ _ T1) by done.
  rewrite !(before_trade_balance _ _ _ _ _ _ _ acc Hd) by done.
  repeat case_decide; try congruence. lia.
Qed.
Lemma buy_reserves t (s s' : XykState C) :
  Xyk.execute_buy t s = (Ok tt, s') -> t_assets t = pool \/ t_assets t = flip_pair pool ->
  t_origin t <> acc ->
  0 <= t_amount t -> 0 <= t_amount_out t + snd (t_fee t) < 2 ^ 128 ->
  reserve_of (asset_in (t_assets t)) (t_assets t) s' =
    reserve_of (asset_in (t_assets t)) (t_assets t) s + (t_amount_out t + snd (t_fee t)) /\
  reserve_of (asset_out (t_assets t)) (t_assets t) s' =
    reserve_of (asset_out (t_assets t)) (t_assets t) s - t_amount t.
Proof.
  intros (c1 & c2 & Hd & T1 & T2 & _)%execute_buy_Ok Hpr Ho Ha Hx.
  destruct (same_product _ s Hpr) as (_ & Hio & Hp).
  assert (Hc : asset_out (t_assets t) = asset_in pool \/ asset_out (t_assets t) = asset_out pool)
    by (destruct Hpr as [->| ->]; simpl; auto).
  rewrite wrapping_add_small in T2 by done. unfold reserve_of. rewrite !Hp in *.
  rewrite !(transfer_in _ _ _ _ _ _ T2), !(transfer_out _ _ _ _ _ _ T1) by (done || lia).
  rewrite !(before_trade_balance _ _ _ _ _ _ _ acc Hd) by done.
  repeat case_decide; try congruence. lia.
Qed.
(** A trade with another pool leaves it alone. *)
Lemma sell_elsewhere t (s s' : XykState C) c :
  Xyk.execute_sell t s = (Ok tt, s') -> Xyk.get_pair_id (t_assets t) <> acc -> t_origin t <> acc ->
  0 <= t_amount t -> 0 <= t_amount_out t ->
  free_balance c acc (chain s') = free_balance c acc (chain s).
Proof.
  intros (c1 & c2 & Hd & T1 & T2 & _)%execute_sell_Ok Hp Ho Ha Hx.
  rewrite (transfer_by _ _ _ _ _ _ c T2), (transfer_by _ _ _ _ _ _ c T1) by done.
  by eapply before_trade_balance.
Qed.
Lemma buy_elsewhere t (s s' : XykState C) c :
  Xyk.execute_buy t s = (Ok tt, s') -> Xyk.get_pair_id (t_assets t) <> acc -> t_origin t <> acc ->
  0 <= t_amount t ->
  free_balance c acc (chain s') = free_balance c acc (chain s).
Proof.
  intros (c1 & c2 & Hd & T1 & T2 & _)%execute_buy_Ok Hp Ho Ha.
  rewrite (transfer_by _ _ _ _ _ _ c T2), (transfer_by _ _ _ _ _ _ c T1);
    try done; [by eapply before_trade_balance|]. apply Z.mod_pos_bound. lia.
Qed.

Lemma still_reserve pr (p0 p : XykState C) c :
  still acc p0 p -> Xyk.get_pair_id pr = acc -> reserve_of c pr p0 = reserve_of c pr p.
Proof. intros Hs Hp. unfold reserve_of. rewrite Hp. symmetry. apply Hs. Qed.

(** The pallet keeps its promise to the pool. *)
Lemma Xyk_AMMProduct :
  AMMProductLaws (XykState C) acc (asset_in pool) (asset_out pool).
Proof.
  split; simpl; intros *.
  - intros (_ & _ & Hamt & _ & _ & o & fee & da & Hout & Hfee & Hle & _ & _ & ->)%validate_sell_Ok
      Hpr Hw Hx Hs Hex.
    apply out_given_in_formula in Hout as [Ho Hform]; [|apply free_balance_nonneg..|done].
    assert (0 <= fee) by exact (fee_nonneg _ _ _ Ho Hfee).
    destruct (decide (Xyk.get_pair_id pr = acc)) as [Hp|Hp].
    + destruct (same_product pr p (same_pool pr Hpr Hp)) as (-> & Hio & _).
      destruct (same_product pr p' (same_pool pr Hpr Hp)) as (-> & _).
      apply sell_reserves in Hex as [E1 E2]; simpl in *; auto using same_pool; [|lia]. rewrite E1, E2.
      rewrite !(still_reserve pr p0 p) in * by done.
      apply product_sell; auto. apply free_balance_nonneg.
    + unfold product. simpl. rewrite !(sell_elsewhere _ _ _ _ Hex); simpl; auto; lia.
  - intros (_ & _ & Hamt & _ & _ & Hlt & price & fee & da & Hin & Hfee & Hfit & _ & _ & _ & ->)%validate_buy_Ok
      Hpr Hw Hx Hs Hex.
    apply in_given_out_formula in Hin as [Ho Hform]; [|apply free_balance_nonneg..|done].
    assert (0 <= fee) by exact (fee_nonneg _ _ _ Ho Hfee).
    destruct (decide (Xyk.get_pair_id pr = acc)) as [Hp|Hp].
    + destruct (same_product pr p (same_pool pr Hpr Hp)) as (-> & Hio & _).
      destruct (same_product pr p' (same_pool pr Hpr Hp)) as (-> & _).
      apply buy_reserves in Hex as [E1 E2]; simpl in *; auto using same_pool; [|lia]. rewrite E1, E2.
      rewrite !(still_reserve pr p0 p) in * by done. apply product_buy; auto. lia.
    + unfold product. simpl. rewrite !(buy_elsewhere _ _ _ _ Hex); simpl; auto; lia.
Qed.
End xyk.

(** What holds of the reserves of a chain holds of the pallet's state around it. *)
#[export] Instance Xyk_ReserveFrame {C} `{ReserveFrame C} :
  @ReserveFrame (XykState C) lift_currency lift_reservable.
Proof.
  split; simpl; intros *; intros Hx Hz; unfold zoom; simpl.
  - pose proof (reserve_frame c w a (chain p) b z Hx Hz) as Hf. by destruct (reserve c w a (chain p)).
  - by apply unreserve_frame.
  - pose proof (repatriate_frame c f t a (chain p) b z Hx Hz) as Hf.
    by destruct (repatriate_reserved c f t a (chain p)).
Qed.
