(* ===== verification/TradingStack.v ===== *)
(** * The trading pallets together

    The runtime puts the exchange pallet on top of the XYK pallet, and the XYK pallet
    next to the LBP pallet, which it asks before it creates a pool.  Each pallet's
    invariant was proved against an environment that makes certain steps only; here the
    environment of each pallet is the other two.  The first section follows any relation
    on the chain through the resolution code of the exchange, the second through the
    extrinsics of the XYK pallet, the third puts the three pallets on one state. *)

From S2P Require Import Prelude Primitives Errors Lbp LbpProps Xyk XykProps XykPools.
From S2P Require Import Interfaces Exchange ExchangeProps.

(** ** The exchange and a relation on the pools *)

Section along.
Context {P H : Type} (R : P -> P -> Prop) `{!PreOrder R}.
Notation State := (ExchangeState P H).

(** The computation takes the pools along [R], whatever its result. *)
Definition along {A} (m : Dispatch State A) : Prop :=
  forall s, R (pools s) (pools (snd (m s))).

Lemma along_reads {A} (m : Dispatch State A) : reads m -> along m.
Proof. intros Hm s. by rewrite Hm. Qed.
Lemma along_pools {A} (m : Dispatch State A) :
  (forall s, pools (snd (m s)) = pools s) -> along m.
Proof. intros Hm s. by rewrite Hm. Qed.
Lemma along_bind {A B} (m : Dispatch State A) (k : A -> Dispatch State B) :
  along m -> (forall a, along (k a)) -> along (mbind k m).
Proof.
  intros Hm Hk s. specialize (Hm s). unfold mbind, M_bind, run_bind.
  destruct (m s) as [[a| |] s1]; simpl in *; [|done..]. by etransitivity; [|apply Hk].
Qed.
Lemma along_attempt {A} (m : Dispatch State A) : along m -> along (attempt m).
Proof.
  intros Hm s. specialize (Hm s). unfold attempt. by destruct (m s) as [[a| |] s1].
Qed.
Lemma along_zoom {A} (m : Dispatch P A) : (forall p, R p (snd (m p))) -> along (zoom m).
Proof. intros Hm s. specialize (Hm (pools s)). unfold zoom. simpl. by destruct (m (pools s)). Qed.
Lemma along_if {A} (b : bool) (m1 m2 : Dispatch State A) :
  along m1 -> along m2 -> along (if b then m1 else m2).
Proof. by destruct b. Qed.
Lemma along_for_each {A} (f : A -> Dispatch State unit) l :
  (forall x, along (f x)) -> along (for_each f l).
Proof. intros Hf. induction l; simpl; [by intros s|]. by apply along_bind. Qed.
End along.

Create HintDb along.
#[export] Hint Extern 1 (along _ (mret _)) => (intros ?; simpl; reflexivity) : along.
#[export] Hint Extern 1 (along _ (gets _)) => (intros ?; simpl; reflexivity) : along.
#[export] Hint Extern 1 (along _ panic) => (intros ?; simpl; reflexivity) : along.
#[export] Hint Extern 1 (along _ (exchange_deposit_event _)) =>
  (intros ?; simpl; reflexivity) : along.

(** [solve_along] follows the structure of the computation. *)
Ltac solve_along :=
  repeat first
    [ progress intros
    | solve [auto with along typeclass_instances]
    | apply along_bind; [apply _| |] | apply along_if | apply along_attempt
    | apply along_for_each; [apply _|]
    | progress cbv beta zeta
    | match goal with |- along _ (match ?x with _ => _ end) => destruct x end ].

(** What a relation has to allow: the reservations of direct trades and the trades the
    pool pallet executes. *)
Class PoolMoves (P : Type) `{MultiReservable P} `{AMM P} (R : P -> P -> Prop) : Prop := {
  moves_preorder :: PreOrder R;
  moves_reserve c w a p : R p (snd (reserve c w a p));
  moves_unreserve c w a p : R p (unreserve c w a p);
  moves_repatriate c f t a p : R p (snd (repatriate_reserved c f t a p));
  moves_sell t p p' : execute_sell t p = (Ok tt, p') -> R p p';
  moves_buy t p p' : execute_buy t p = (Ok tt, p') -> R p p'
}.

Section exchange.
Context {P H : Type}.
Context `{MultiCurrency P} `{MultiReservable P} `{AMM P} `{BlockNumberProvider P}.
Context `{FeeMath} `{IntentionHashing H} `{StorageOrder} `{!AMMLaws P}.
Context (R : P -> P -> Prop) `{!PoolMoves P R}.
Notation State := (ExchangeState P H).
Notation along m := (along (H := H) R m).
Implicit Types s : State.

Lemma atomic_moves (m : Dispatch P unit) p :
  (forall r p', m p = (r, p') -> (forall u, r <> Ok u) -> p' = p) ->
  (forall p', m p = (Ok tt, p') -> R p p') -> R p (snd (m p)).
Proof.
  intros Hat Hok. destruct (m p) as [[[]|e|] p'] eqn:Hm; simpl; [by apply Hok|..];
    by rewrite (Hat _ _ eq_refl).
Qed.
Lemma along_sell t : along (zoom (execute_sell t)).
Proof.
  apply along_zoom. intros p. apply atomic_moves; [|apply moves_sell].
  intros r p'. apply execute_sell_atomic.
Qed.
Lemma along_buy t : along (zoom (execute_buy t)).
Proof.
  apply along_zoom. intros p. apply atomic_moves; [|apply moves_buy].
  intros r p'. apply execute_buy_atomic.
Qed.
Lemma along_validate_sell w p a l d : along (zoom (validate_sell w p a l d)).
Proof. apply along_zoom. intros q. by rewrite validate_sell_reads. Qed.
Lemma along_validate_buy w p a l d : along (zoom (validate_buy w p a l d)).
Proof. apply along_zoom. intros q. by rewrite validate_buy_reads. Qed.
Lemma along_reserve c w a : along (zoom (reserve c w a)).
Proof. apply along_zoom, moves_reserve. Qed.
Lemma along_repatriate c f t a : along (zoom (repatriate_reserved c f t a)).
Proof. apply along_zoom, moves_repatriate. Qed.
#[local] Hint Resolve along_sell along_buy along_validate_sell along_validate_buy along_reserve
  along_repatriate : along.

Lemma along_revert l : along (revert l).
Proof. apply along_for_each; [apply _|]. intros t s. apply moves_unreserve. Qed.
Lemma along_execute dt l : along (execute dt l).
Proof.
  unfold execute, send_direct_trade_resolve_event. apply along_bind; [apply _|auto with along|intros _].
  induction l; simpl; unfold send_trade_fee_event; solve_along.
Qed.
Lemma along_prepare dt z : along (prepare dt z).
Proof. unfold prepare, reserve_if_can, send_insufficient_balance_event. solve_along. Qed.
Lemma along_amm t i x : along (execute_amm_transfer t i x).
Proof. unfold execute_amm_transfer. solve_along. Qed.
Lemma along_validate i : along (validate_intention i).
Proof. unfold validate_intention. solve_along. Qed.
#[local] Hint Resolve along_revert along_execute along_prepare along_amm along_validate : along.

Lemma along_single i : along (resolve_single_intention i).
Proof. unfold resolve_single_intention, send_intention_error_event. solve_along. Qed.
Lemma along_verify i : along (verify_intention i).
Proof. unfold verify_intention, send_intention_error_event. solve_along. Qed.
#[local] Hint Resolve along_single along_verify : along.

Lemma along_resolve_loop z i l copy : along (resolve_loop z i copy l).
Proof.
  revert copy. induction l as [|m l IH]; intros copy; simpl; [auto with along|].
  unfold resolve_smaller, resolve_larger, resolve_equal, with_prepared, send_intention_error_event.
  solve_along.
Qed.
#[local] Hint Resolve along_resolve_loop : along.

Lemma along_process z a b : along (process_exchange_intentions z a b).
Proof.
  unfold process_exchange_intentions. cbv zeta. generalize (sort_desc b). intros bs.
  apply along_bind; [apply _| |intros; solve_along].
  generalize 0%nat. generalize (sort_desc a). intros as_.
  induction as_ as [|i as_ IH]; intros n; simpl; [auto with along|].
  unfold resolve_matched_intentions. solve_along.
Qed.

(** The end of a block takes the pools along every such relation. *)
Lemma along_on_finalize : along on_finalize.
Proof.
  pose proof along_process. unfold on_finalize. solve_along; by intros s.
Qed.

(** Registering an intention does not touch the pools. *)
Lemma register_pools origin a b x l d s :
  pools (snd (Exchange.sell origin a b x l d s)) = pools s /\
  pools (snd (Exchange.buy origin a b x l d s)) = pools s.
Proof.
  destruct origin as [|w|]; [done| |done]. destruct (exchange_results w a b x l d s) as [-> ->].
  unfold sell_result, buy_result. cbv zeta. split; by repeat case_match.
Qed.
End exchange.

(** ** Relations between states of the chain *)

Section chain.
Context {C : Type} `{MultiCurrency C} `{ShareTokenRegistry C}.

(** Nothing is minted, burnt or registered. *)
Definition untouched (c c' : C) : Prop :=
  (forall x, total_issuance x c' = total_issuance x c) /\
  (forall name, shared_asset name c' = shared_asset name c).

#[export] Instance untouched_preorder : PreOrder untouched.
Proof.
  split; [by split|]. intros c1 c2 c3 [Ia Sa] [Ib Sb]. split; intros; by rewrite ?Ib, ?Sb.
Qed.

Lemma transfer_untouched {native} `{!MultiCurrencyLaws C} `{!ShareTokenRegistryLaws C native}
    c f t a (s s' : C) :
  transfer c f t a s = (Ok tt, s') -> untouched s s'.
Proof. intros T. split; intros; [by eapply transfer_issuance|by eapply transfer_shared]. Qed.
End chain.

(** Reserving and locking funds do not change what is issued or registered. *)
Class FundsUntouched (C : Type) `{MultiCurrency C} `{ShareTokenRegistry C} `{MultiReservable C}
    `{MultiLockable C} : Prop := {
  reserve_untouched c w a (s : C) : untouched s (snd (reserve c w a s));
  unreserve_untouched c w a (s : C) : untouched s (unreserve c w a s);
  repatriate_untouched c f t a (s : C) : untouched s (snd (repatriate_reserved c f t a s));
  set_lock_untouched l c w a (s s' : C) : set_lock l c w a s = (Ok tt, s') -> untouched s s';
  remove_lock_untouched l c w (s s' : C) : remove_lock l c w s = (Ok tt, s') -> untouched s s'
}.

(** ** The share-token registry and the hooks, lifted *)

Definition lift_registry {S C} `{Lens S C} `{ShareTokenRegistry C} : ShareTokenRegistry S := {|
  shared_asset name s := shared_asset name (lens_get s);
  get_or_create_shared_asset name l ed := zoom (get_or_create_shared_asset name l ed)
|}.
Definition lift_handler {S C} `{Lens S C} `{AMMHandler C} : AMMHandler S := {|
  on_create_pool a b := zoom (on_create_pool a b);
  on_trade a b x y l s := lens_set (on_trade a b x y l (lens_get s)) s
|}.

Lemma lift_registry_laws {S C} native `{LensLaws S C} `{ShareTokenRegistryLaws C native} :
  @ShareTokenRegistryLaws S native lift_currency lift_registry.
Proof.
  split; unfold same_balances; simpl; intros *;
    intros Hrun%zoom_Ok; destruct Hrun as (c0 & Hrun & ->); rewrite ?lens_get_set; intros.
  - by eapply shared_asset_created.
  - by eapply shared_asset_frame.
  - by eapply shared_asset_balances.
  - by eapply transfer_shared.
  - by eapply deposit_shared.
  - by eapply withdraw_shared.
Qed.
Lemma lift_handler_laws {S C} `{LensLaws S C} `{AMMHandlerLaws C} :
  @AMMHandlerLaws S lift_currency lift_registry lift_handler.
Proof.
  split; unfold same_balances; simpl; intros *.
  - intros Hrun%zoom_Ok. destruct Hrun as (c0 & Hrun & ->). rewrite ?lens_get_set.
    by eapply on_create_pool_quiet.
  - rewrite ?lens_get_set. apply on_trade_quiet.
Qed.

(** ** The XYK pallet and a relation on its chain *)

(** What a relation has to allow: the operations the XYK pallet calls. *)
Class ChainMoves (C : Type) `{MultiCurrency C} `{ShareTokenRegistry C} `{AMMHandler C}
    (R : C -> C -> Prop) : Prop := {
  chain_preorder :: PreOrder R;
  chain_transfer c f t a s s' : transfer c f t a s = (Ok tt, s') -> R s s';
  chain_deposit c w a s s' : deposit c w a s = (Ok tt, s') -> R s s';
  chain_withdraw c w a s s' : withdraw c w a s = (Ok tt, s') -> R s s';
  chain_register name l ed s t s' : get_or_create_shared_asset name l ed s = (Ok t, s') -> R s s';
  chain_on_create a b s s' : on_create_pool a b s = (Ok tt, s') -> R s s';
  chain_on_trade a b x y l s : R s (on_trade a b x y l s)
}.

Section xyk.
Context {C : Type}.
Context `{MultiCurrency C} `{ShareTokenRegistry C} `{AMMHandler C} `{CanCreatePool C}.
Context `{AssetPairAccountIdFor} `{XykMath} `{FeeMath} `{FixedPoint} `{AMMProvided}.
Context {cfg : XykConfig} `{!AMMProvidedLaws}.
Implicit Types s : XykState C.

Section moves.
Context (R : C -> C -> Prop) `{!ChainMoves C R}.

Lemma chain_discount t c c' : discount_paid t c c' -> R c c'.
Proof. unfold discount_paid. case_match; [apply chain_withdraw|]. by intros ->. Qed.

Lemma chain_trade t x y l c c1 c2 c3 a f g z a' f' g' z' :
  discount_paid t (on_trade x y (t_amount t) (t_amount_out t) l c) c1 ->
  transfer a f g z c1 = (Ok tt, c2) -> transfer a' f' g' z' c2 = (Ok tt, c3) -> R c c3.
Proof.
  intros Hd%chain_discount T1%(chain_transfer (R := R)) T2%(chain_transfer (R := R)).
  etransitivity; [apply (chain_on_trade (R := R))|].
  etransitivity; [exact Hd|]. by etransitivity.
Qed.
Lemma chain_execute_sell t s s' : Xyk.execute_sell t s = (Ok tt, s') -> R (chain s) (chain s').
Proof. intros (c1 & c2 & Hd & T1 & T2 & _)%execute_sell_Ok. by eapply chain_trade. Qed.
Lemma chain_execute_buy t s s' : Xyk.execute_buy t s = (Ok tt, s') -> R (chain s) (chain s').
Proof. intros (c1 & c2 & Hd & T1 & T2 & _)%execute_buy_Ok. by eapply chain_trade. Qed.

(** Every extrinsic takes the chain along the relation. *)
Lemma chain_dispatch origin call s r s' :
  dispatch origin call s = (r, s') -> R (chain s) (chain s').
Proof.
  intros Hrun. destruct r as [[]| |].
  2,3: by rewrite (dispatch_rollback _ _ _ _ _ Hrun).
  destruct call; simpl in Hrun.
  - apply create_pool_Ok in Hrun as (who & bm & t & c1 & c2 & c3 & c4 & _ & _ & _ & _ & _ & _ &
      _ & _ & Hreg & Hhook & T1 & T2 & D & _).
    apply (chain_register (R := R)) in Hreg. apply (chain_on_create (R := R)) in Hhook.
    apply (chain_transfer (R := R)) in T1, T2. apply (chain_deposit (R := R)) in D.
    do 4 (etransitivity; [eassumption|]). done.
  - apply add_liquidity_Ok in Hrun as (who & t & bm & c1 & c2 & _ & _ & _ & _ & _ & _ & _ & T1 & T2 & D & _).
    apply (chain_transfer (R := R)) in T1, T2. apply (chain_deposit (R := R)) in D.
    do 2 (etransitivity; [eassumption|]). done.
  - apply remove_liquidity_Ok in Hrun as (who & t & oa & ob & c1 & c2 & _ & _ & _ & _ & _ &
      _ & _ & _ & _ & T1 & T2 & W & _).
    apply (chain_transfer (R := R)) in T1, T2. apply (chain_withdraw (R := R)) in W.
    do 2 (etransitivity; [eassumption|]). done.
  - apply sell_Ok in Hrun as (w & t & _ & _ & He). by eapply chain_execute_sell.
  - apply buy_Ok in Hrun as (w & t & _ & _ & He). by eapply chain_execute_buy.
Qed.
End moves.

(** Assets other than the native one and the share tokens are neither minted nor burnt,
    and a registered share token stays registered. *)
Definition conserved (c c' : C) : Prop :=
  (forall p t, wide p -> pair_token p c = Some t -> pair_token p c' = Some t) /\
  (forall x, x <> NativeAssetId -> (forall p, wide p -> pair_token p c' <> Some x) ->
     total_issuance x c' = total_issuance x c).

#[export] Instance conserved_preorder : PreOrder conserved.
Proof.
  split; [by split|]. intros c1 c2 c3 [Ta Ia] [Tb Ib]. split; [by eauto|].
  intros x Hn Hx. rewrite Ib by done. apply Ia; [done|]. intros p Hp Ht. by apply (Hx p), Tb.
Qed.
Lemma untouched_conserved c c' : untouched c c' -> conserved c c'.
Proof. intros [Hi Hs]. split; unfold pair_token; intros; by rewrite ?Hs, ?Hi. Qed.
Lemma untouched_quiet c c' : untouched c c' -> quiet c c'.
Proof. intros [Hi Hs]. split; unfold pair_token; intros; by rewrite ?Hs, ?Hi. Qed.

Context `{!MultiCurrencyLaws C} `{!ShareTokenRegistryLaws C NativeAssetId} `{!AMMHandlerLaws C}
  `{!AssetPairAccountIdLaws} `{!XykMathLaws} `{!XykConfigOk}.

Lemma withdraw_conserved w a (c c' : C) : withdraw NativeAssetId w a c = (Ok tt, c') -> conserved c c'.
Proof.
  intros W. split; intros.
  - unfold pair_token. by rewrite (withdraw_shared _ _ _ _ _ _ W).
  - by eapply (withdraw_frame _ _ _ _ _ x W).
Qed.
Lemma pool_updated_conserved p t s s' : pool_updated p t s s' -> conserved (chain s) (chain s').
Proof.
  intros [Hp _ Ht Hi Hb Htk _ _ _]. split.
  - intros q tq Hq Htq. destruct (pair_cases p q Hp Hq) as [[_ Hn]|[_ Hn]].
    + unfold pair_token in *. rewrite Hn in *. destruct Hb; congruence.
    + by destruct (Ht q Hq Hn) as [-> _].
  - intros x _ Hx. apply Hi. intros ->. by apply (Hx p).
Qed.

(** A trade of the XYK pallet conserves the assets. *)
Lemma trade_conserved t x y l (c c1 c2 c3 : C) a f g z a' f' g' z' :
  discount_paid t (on_trade x y (t_amount t) (t_amount_out t) l c) c1 ->
  transfer a f g z c1 = (Ok tt, c2) -> transfer a' f' g' z' c2 = (Ok tt, c3) -> conserved c c3.
Proof.
  intros Hd T1%transfer_untouched T2%transfer_untouched.
  assert (Ho : untouched c (on_trade x y (t_amount t) (t_amount_out t) l c)).
  { destruct (on_trade_quiet x y (t_amount t) (t_amount_out t) l c) as [Hi Hs].
    split; intros; [apply Hi|apply Hs]. }
  etransitivity; [by apply untouched_conserved|].
  transitivity c1; [|apply untouched_conserved; by transitivity c2].
  revert Hd. unfold discount_paid. case_match; [apply withdraw_conserved|]. by intros ->.
Qed.

Lemma execute_sell_sound t s s' :
  Xyk.execute_sell t s = (Ok tt, s') ->
  (pools_ok s -> pools_ok s') /\ conserved (chain s) (chain s').
Proof.
  intros (c1 & c2 & Hd & T1 & T2 & Hs & _)%execute_sell_Ok. split; [|by eapply trade_conserved].
  intros Hok. eapply pools_ok_quiet; eauto using trade_quiet.
Qed.
Lemma execute_buy_sound t s s' :
  Xyk.execute_buy t s = (Ok tt, s') ->
  (pools_ok s -> pools_ok s') /\ conserved (chain s) (chain s').
Proof.
  intros (c1 & c2 & Hd & T1 & T2 & Hs & _)%execute_buy_Ok. split; [|by eapply trade_conserved].
  intros Hok. eapply pools_ok_quiet; eauto using trade_quiet.
Qed.
Lemma dispatch_conserved origin call s r s' :
  pools_ok s -> wide (call_pair call) -> dispatch origin call s = (r, s') ->
  conserved (chain s) (chain s').
Proof.
  intros Hok Hw Hrun. destruct r as [[]| |].
  2,3: by rewrite (dispatch_rollback _ _ _ _ _ Hrun).
  destruct call; simpl in Hrun, Hw.
  - apply create_pool_updates in Hrun as [t ?]; eauto using pool_updated_conserved.
  - apply add_liquidity_updates in Hrun as [t ?]; eauto using pool_updated_conserved.
  - apply remove_liquidity_updates in Hrun as [t ?]; eauto using pool_updated_conserved.
  - apply sell_Ok in Hrun as (w & t & _ & _ & He). by eapply execute_sell_sound.
  - apply buy_Ok in Hrun as (w & t & _ & _ & He). by eapply execute_buy_sound.
Qed.
End xyk.

(** ** The LBP pallet mints nothing *)

Section lbp.
Context {C : Type}.
Context `{MultiCurrency C} `{MultiLockable C} `{BlockNumberProvider C} `{ShareTokenRegistry C}
  `{MultiReservable C}.
Context `{AssetPairAccountIdFor} `{LbpMath} `{FeeMath} `{AMMProvided} `{CreatePoolOrigin}.
Context {cfg : LbpConfig} {native : AssetId}.
Context `{!MultiCurrencyLaws C} `{!ShareTokenRegistryLaws C native} `{!FundsUntouched C}
  `{!AMMProvidedLaws}.
Implicit Types s : LbpState C.

Lemma two_transfers_untouched a f t x b g u y (c c1 c2 : C) :
  transfer a f t x c = (Ok tt, c1) -> transfer b g u y c1 = (Ok tt, c2) -> untouched c c2.
Proof.
  intros T1 T2. transitivity c1; by eapply (transfer_untouched (native := native)).
Qed.
Lemma trade_settled_untouched t pool (c c' : C) : trade_settled t pool c c' -> untouched c c'.
Proof.
  intros (c1 & c2 & c3 & T1 & T2 & T3 & L). transitivity c2; [by eapply two_transfers_untouched|].
  transitivity c3; [by eapply (transfer_untouched (native := native))|by eapply set_lock_untouched].
Qed.

Lemma lbp_dispatch_untouched origin call s r s' :
  lbp_dispatch origin call s = (r, s') -> untouched (lbp_chain s) (lbp_chain s').
Proof.
  intros Hrun. destruct r as [[]| |].
  2,3: by rewrite (lbp_dispatch_rollback _ _ _ _ _ Hrun).
  destruct call; simpl in Hrun.
  - apply lbp_create_pool_Ok in Hrun as (_ & _ & _ & _ & _ & _ & _ & _ & _ & c1 & T1 & T2).
    by eapply two_transfers_untouched.
  - by apply lbp_update_Ok in Hrun as (who & pool & _ & _ & _ & _ & -> & _).
  - apply lbp_add_liquidity_Ok in Hrun as (who & pool & c1 & _ & _ & _ & _ & _ & T1 & T2).
    by eapply two_transfers_untouched.
  - apply lbp_remove_liquidity_Ok in Hrun as (who & pool & c1 & c2 & _ & _ & _ & _ & T1 & T2 & L & _).
    transitivity c2; [by eapply two_transfers_untouched|]. revert L.
    case_match; [apply remove_lock_untouched|]. by intros ->.
  - apply lbp_sell_Ok in Hrun as (who & t & s1 & _ & _ & He & -> & _).
    apply execute_trade_Ok in He as (pool & _ & Hset & _). by eapply trade_settled_untouched.
  - apply lbp_buy_Ok in Hrun as (who & t & s1 & _ & _ & He & -> & _).
    apply execute_trade_Ok in He as (pool & _ & Hset & _). by eapply trade_settled_untouched.
Qed.
End lbp.

(** ** The three pallets on one state *)

Section stack.
Context {C H : Type}.
Context `{MultiCurrency C} `{MultiReservable C} `{MultiLockable C} `{BlockNumberProvider C}.
Context `{ShareTokenRegistry C} `{AMMHandler C}.
Context `{AssetPairAccountIdFor} `{XykMath} `{LbpMath} `{FeeMath} `{FixedPoint} `{AMMProvided}.
Context `{CreatePoolOrigin} `{IntentionHashing H} `{StorageOrder}.
Context {xcfg : XykConfig} {lcfg : LbpConfig}.
Context `{!MultiCurrencyLaws C} `{!ShareTokenRegistryLaws C NativeAssetId} `{!AMMHandlerLaws C}
  `{!FundsUntouched C} `{!AssetPairAccountIdLaws} `{!XykMathLaws} `{!XykConfigOk}
  `{!AMMProvidedLaws}.

(** What the XYK pallet runs on: the LBP pallet and the chain below it.  The guard of the
    runtime, [DisallowWhenLBPPoolRunning], is the one XYK asks. *)
#[local] Instance below_currency : MultiCurrency (LbpState C) := lift_currency.
#[local] Instance below_registry : ShareTokenRegistry (LbpState C) := lift_registry.
#[local] Instance below_handler : AMMHandler (LbpState C) := lift_handler.
#[local] Instance below_reservable : MultiReservable (LbpState C) := lift_reservable.
#[local] Instance below_currency_laws : MultiCurrencyLaws (LbpState C) := lift_currency_laws.
#[local] Instance below_registry_laws : ShareTokenRegistryLaws (LbpState C) NativeAssetId :=
  lift_registry_laws NativeAssetId.
#[local] Instance below_handler_laws : AMMHandlerLaws (LbpState C) := lift_handler_laws.

(** What the exchange pallet runs on: the XYK pallet. *)
Notation Pools := (XykState (LbpState C)).
#[local] Instance pools_currency : MultiCurrency Pools := lift_currency.
#[local] Instance pools_reservable : MultiReservable Pools := lift_reservable.
#[local] Instance pools_block : BlockNumberProvider Pools := {|
  block_number p := block_number (lbp_chain (chain p))
|}.
Notation Stack := (ExchangeState Pools H).
Implicit Types s : Stack.

Definition lbp_of s : LbpState C := chain (pools s).
Definition base_of s : C := lbp_chain (lbp_of s).
Definition set_lbp_of (l : LbpState C) s : Stack := set_pools (set_chain l (pools s)) s.

(** The steps of the pallets, each with any result: an intention registered, the end of a
    block, an extrinsic of the XYK or of the LBP pallet. *)
Inductive trading_step : Stack -> Stack -> Prop :=
| stack_sell origin a b x l d s r s' : Exchange.sell origin a b x l d s = (r, s') -> trading_step s s'
| stack_buy origin b a y l d s r s' : Exchange.buy origin b a y l d s = (r, s') -> trading_step s s'
| stack_end_block s s' : on_finalize s = (Ok tt, s') -> trading_step s s'
| stack_xyk origin call s r p :
    wide (call_pair call) -> dispatch origin call (pools s) = (r, p) -> trading_step s (set_pools p s)
| stack_lbp origin call s r l :
    lbp_dispatch origin call (lbp_of s) = (r, l) -> trading_step s (set_lbp_of l s).

(** The rest of the chain: blocks pass, balances and issuances change, but nobody mints,
    burns or registers share tokens. *)
Inductive stack_step : Stack -> Stack -> Prop :=
| stack_trading s s' : trading_step s s' -> stack_step s s'
| stack_chain s c : quiet (base_of s) c -> stack_step s (set_lbp_of (set_lbp_chain c (lbp_of s)) s).

Inductive stack_reachable : Stack -> Prop :=
| stack_init c :
    (forall p, wide p -> pair_token p c = None) ->
    stack_reachable (mkExchange (mkXyk (mkLbp c ∅ ∅ []) ∅ ∅ ∅ []) ∅ ∅ [])
| stack_more s s' : stack_reachable s -> stack_step s s' -> stack_reachable s'.

(** The invariants of the three pallets at once. *)
Record stack_ok s : Prop := mkStackOk {
  so_book : book_ok s;
  so_pools : pools_ok (pools s);
  so_lbp : lbp_ok (lbp_of s)
}.

(** What a step of the exchange does to the pools: the books of the XYK pallet stay
    balanced, the assets are conserved, the LBP records are untouched. *)
Definition pools_follow (p p' : Pools) : Prop :=
  (pools_ok p -> pools_ok p') /\ conserved (chain p) (chain p') /\ same_lbp_pools (chain p) (chain p').

#[local] Instance same_lbp_preorder : PreOrder (same_lbp_pools (C := C)).
Proof. split; [by split|]. intros ? ? ? [Pa Fa] [Pb Fb]. split; congruence. Qed.
#[local] Instance pools_follow_preorder : PreOrder pools_follow.
Proof.
  split; [intros p; by unfold pools_follow|]. intros p1 p2 p3 (Ka & Ca & La) (Kb & Cb & Lb).
  split_and!; [auto|by transitivity (chain p2)|by transitivity (chain p2)].
Qed.

(** A change of the base chain alone. *)
Lemma untouched_follow (p : Pools) c :
  untouched (lbp_chain (chain p)) c -> pools_follow p (set_chain (set_lbp_chain c (chain p)) p).
Proof.
  intros Hu. assert (Hl : untouched (chain p) (set_lbp_chain c (chain p))) by exact Hu.
  split_and!; [|by apply untouched_conserved|done].
  intros Hok. eapply pools_ok_quiet; [done|done|]. by apply untouched_quiet.
Qed.

(** The XYK pallet does not touch the records of the LBP pallet. *)
#[local] Instance same_lbp_moves : ChainMoves (LbpState C) (same_lbp_pools (C := C)).
Proof.
  split; [apply _|..]; simpl; intros *;
    try (intros Hrun%zoom_Ok; destruct Hrun as (c0 & Hrun & ->); by split).
  by split.
Qed.

#[local] Instance follow_moves : PoolMoves Pools pools_follow.
Proof.
  split; [apply _|..]; simpl; intros *.
  - pose proof (untouched_follow p _ (reserve_untouched c w a _)) as Hf.
    unfold zoom. simpl. unfold zoom. simpl. by destruct (reserve c w a (lbp_chain (chain p))).
  - apply untouched_follow, unreserve_untouched.
  - pose proof (untouched_follow p _ (repatriate_untouched c f t a _)) as Hf.
    unfold zoom. simpl. unfold zoom. simpl.
    by destruct (repatriate_reserved c f t a (lbp_chain (chain p))).
  - intros He. destruct (execute_sell_sound t p p' He).
    split_and!; [done|done|]. by apply (chain_execute_sell (same_lbp_pools (C := C)) t).
  - intros He. destruct (execute_buy_sound t p p' He).
    split_and!; [done|done|]. by apply (chain_execute_buy (same_lbp_pools (C := C)) t).
Qed.

(** Every step of the trading pallets keeps the three invariants and conserves assets. *)
Lemma trading_step_sound s s' :
  trading_step s s' -> stack_ok s ->
  stack_ok s' /\ conserved (lbp_of s) (lbp_of s').
Proof.
  intros Hstep [Kb Kp Kl]. destruct Hstep as [o a b x l d s r s' Hrun|o b a y l d s r s' Hrun|s s' Hrun|
    o call s r p Hw Hrun|o call s r l Hrun].
  - assert (Hp : pools s' = pools s) by (by destruct (register_pools o a b x l d s); rewrite Hrun in *).
    split; [|unfold lbp_of; by rewrite Hp]. split; unfold lbp_of; rewrite ?Hp; auto.
    eapply exchange_step_ok; [|done]. by econstructor.
  - assert (Hp : pools s' = pools s) by (by destruct (register_pools o b a y l d s); rewrite Hrun in *).
    split; [|unfold lbp_of; by rewrite Hp]. split; unfold lbp_of; rewrite ?Hp; auto.
    eapply exchange_step_ok; [|done]. by eapply exchange_buy.
  - pose proof (along_on_finalize pools_follow s) as (Hp & Hc & Hl). rewrite Hrun in Hp, Hc, Hl.
    split; [|done]. split; [|auto|by eapply lbp_ok_same].
    eapply exchange_step_ok; [|done]. by eapply exchange_end_block.
  - split; [|by eapply dispatch_conserved]. split.
    + by apply (book_ok_same s).
    + by eapply dispatch_preserves.
    + eapply lbp_ok_same; [done|]. by eapply (chain_dispatch (same_lbp_pools (C := C))).
  - pose proof (lbp_dispatch_untouched (native := NativeAssetId) _ _ _ _ _ Hrun) as Hu.
    assert (Hl : untouched (lbp_of s) l) by exact Hu.
    split; [|by apply untouched_conserved]. split.
    + by apply (book_ok_same s).
    + eapply (pools_ok_quiet (pools s)); [done|done|]. by apply untouched_quiet.
    + by eapply lbp_dispatch_preserves.
Qed.

Lemma stack_step_ok s s' : stack_step s s' -> stack_ok s -> stack_ok s'.
Proof.
  intros [s0 s1 Ht|s0 c Hq] Hok; [by eapply trading_step_sound|]. destruct Hok as [Kb Kp Kl]. split.
  - by apply (book_ok_same s0).
  - eapply (pools_ok_quiet (pools s0)); [done|done|exact Hq].
  - by eapply lbp_ok_same.
Qed.
Lemma stack_init_ok (c : C) :
  (forall p, wide p -> pair_token p c = None) ->
  stack_ok (mkExchange (mkXyk (mkLbp c ∅ ∅ []) ∅ ∅ ∅ []) ∅ ∅ []).
Proof.
  intros Hn. split.
  - by apply book_ok_empty.
  - by apply xyk_genesis_ok.
  - split; simpl; intros *; by rewrite ?lookup_empty.
Qed.

Lemma stack_sound s : stack_reachable s -> stack_ok s.
Proof.
  induction 1 as [c Hn|s s' _ IH Hstep]; [by apply stack_init_ok|by eapply stack_step_ok].
Qed.

(** [C23] The three trading pallets together keep all their invariants: in every
    state reached by intentions, ends of blocks, extrinsics of the XYK and of the LBP
    pallet, in any order and with any result, and by steps of the rest of the chain that
    leave share tokens alone, the books of the exchange agree, the liquidity recorded for
    every XYK pool is the issuance of its share token, and the LBP records are sound. *)
Theorem stack_reachable_ok s : stack_reachable s -> stack_ok s.
Proof. apply stack_sound. Qed.

(** [C7] Trading creates and destroys no asset: a step of the three pallets from a
    reachable state changes the issuance of no asset but the native one, in which
    discounts are burnt, and the share tokens of XYK pools; a registered share token
    stays registered. *)
Theorem trading_conserves s s' :
  stack_reachable s -> trading_step s s' ->
  (forall p t, wide p -> pair_token p (base_of s) = Some t -> pair_token p (base_of s') = Some t) /\
  (forall x, x <> NativeAssetId -> (forall p, wide p -> pair_token p (base_of s') <> Some x) ->
     total_issuance x (base_of s') = total_issuance x (base_of s)).
Proof. intros Hr%stack_sound Hstep. by apply trading_step_sound. Qed.
End stack.
