(* ===== verification/ExchangeExamples.v ===== *)
(** * The exchange theorems at work

    The exchange pallet over the XYK pallet over the reference ledger: the pool of
    assets 1 and 2 of [XykExamples.v], intentions of accounts 20 and 30. *)

From S2P Require Import Prelude Primitives Errors Interfaces Ledger Xyk XykProps XykPools Runtime.
From S2P Require Import Exchange ExchangeProps ExchangeAnswers ExchangeTotal ExchangeSpend ExchangePools.

#[local] Existing Instance Runtime_xyk.
Notation Pools := (XykState Ledger).
#[local] Instance ex_currency : MultiCurrency Pools := lift_currency.
#[local] Instance ex_reservable : MultiReservable Pools := lift_reservable.
#[local] Instance ex_currency_laws : MultiCurrencyLaws Pools := lift_currency_laws.
#[local] Instance ex_reservable_laws : MultiReservableLaws Pools := lift_reservable_laws.
#[local] Instance ex_block : BlockNumberProvider Pools := {| block_number _ := 1 |}.
#[local] Instance ex_hash : IntentionHashing (Z * Z) := {| hash_intention c w _ _ _ := (c, w) |}.
#[local] Instance ex_order : StorageOrder := {| storage_iter := map_to_list |}.
#[local] Instance ex_order_laws : StorageOrderLaws.
Proof. by split. Qed.

#[local] Instance ex_currency_total : CurrencyTotal Ledger.
Proof.
  split; simpl; intros; [unfold l_transfer|unfold l_withdraw]; by repeat case_match.
Qed.
#[local] Instance ex_reservable_total : ReservableTotal Pools.
Proof.
  split; intros; cbn; unfold zoom; cbn; [unfold l_reserve; by destruct (_ <? _)|done].
Qed.

(** A pool with a reserve of 1,000,000 of asset 1 and 2,000,000 of asset 2. *)
Definition ex_books : Ledger := {|
  l_free := list_to_map [((1, 10), 10000000%N); ((2, 10), 10000000%N);
                         ((1, 20), 10000000%N); ((2, 30), 6000%N)];
  l_reserved := ∅;
  l_locks := ∅;
  l_issuance := list_to_map [(1, 20000000); (2, 20000000)];
  l_shared := ∅
|}.
Definition ex_pools : Pools :=
  snd (Xyk.create_pool (Signed 10) 1 2 1000000 (2 * 10 ^ 18) (mkXyk ex_books ∅ ∅ ∅ [])).
Definition ex_exchange : ExchangeState Pools (Z * Z) := mkExchange ex_pools ∅ ∅ [].

(** Account 20 sells 2000 of asset 1, account 30 sells 4000 of asset 2. *)
Definition ex_sell_20 := Exchange.sell (P := Pools) (Signed 20) 1 2 2000 1 false.
Definition ex_sell_30 := Exchange.sell (P := Pools) (Signed 30) 2 1 4000 1 false.
Definition ex_one : ExchangeState Pools (Z * Z) := snd (ex_sell_20 ex_exchange).
Definition ex_two : ExchangeState Pools (Z * Z) := snd (ex_sell_30 ex_one).

Definition ex_acc : AccountId := Xyk.get_pair_id (AssetPair_new 1 2).

Ltac run := vm_compute; reflexivity.

Lemma ex_two_reachable : exchange_reachable ex_two.
Proof.
  eapply exchange_more; [eapply exchange_more; [apply (exchange_init ex_pools)|]|].
  - apply (exchange_sell (Signed 20) 1 2 2000 1 false ex_exchange (Ok tt)). run.
  - apply (exchange_sell (Signed 30) 2 1 4000 1 false ex_one (Ok tt)). run.
Qed.

Lemma exchange_reachable_ok_witness : book_ok ex_two.
Proof. apply exchange_reachable_ok, ex_two_reachable. Defined.

Lemma ex_two_ok : book_ok ex_two.
Proof.
  apply (exchange_step_ok ex_one); [|apply (exchange_step_ok ex_exchange)].
  - apply (exchange_sell (Signed 30) 2 1 4000 1 false ex_one (Ok tt)). run.
  - apply (exchange_sell (Signed 20) 1 2 2000 1 false ex_exchange (Ok tt)). run.
  - by apply book_ok_empty.
Qed.

(** The two intentions, and the answer to the one of the main side. *)
Lemma ex_two_book a b i :
  i ∈ get_intentions (a, b) ex_two ->
  i = mkIntention 20 (AssetPair_new 1 2) 2000 4000 1 false SELL (0, 20) \/
  i = mkIntention 30 (AssetPair_new 2 1) 4000 2000 1 false SELL (1, 30).
Proof.
  unfold get_intentions.
  replace (ExchangeAssetsIntentions ex_two) with
    (<[(2, 1) := [mkIntention 30 (AssetPair_new 2 1) 4000 2000 1 false SELL (1, 30)]]>
       {[(1, 2) := [mkIntention 20 (AssetPair_new 1 2) 2000 4000 1 false SELL (0, 20)]]}
     : gmap (Z * Z) _) by (by vm_compute).
  rewrite lookup_insert. case_decide; [|rewrite lookup_singleton; case_decide]; simpl;
    rewrite ?list_elem_of_singleton; auto. by intros ?%not_elem_of_nil.
Qed.

(** Both intentions are quoted at the price 2. *)
Lemma on_finalize_completes_witness :
  exists s', on_finalize ex_two = (Ok tt, s') /\ book s' = (∅, ∅).
Proof.
  apply (on_finalize_completes ex_two). intros a b.
  destruct (decide ((a, b) = (1, 2))) as [[= -> ->]|Hab].
  - exists 2, 1. vm_compute. repeat constructor; (done || discriminate).
  - destruct (decide ((a, b) = (2, 1))) as [[= -> ->]|Hba].
    + exists 1, 2. vm_compute. repeat constructor; (done || discriminate).
    + exists 1, 1. unfold get_intentions.
      replace (ExchangeAssetsIntentions ex_two) with
        (<[(2, 1) := get_intentions (2, 1) ex_two]>
           {[(1, 2) := get_intentions (1, 2) ex_two]} : gmap (Z * Z) _) by (by vm_compute).
      rewrite !lookup_insert_ne, !lookup_singleton_ne by congruence. by repeat constructor.
Defined.

(** The reference ledger keeps the promises about what an account owns. *)
#[local] Instance ex_wealth : WealthLaws Ledger.
Proof.
  assert (Hdec : forall (a b c d x y : Z), (if decide ((a, b) = (c, d)) then x else y) =
    (if decide (c = a /\ d = b) then x else y)).
  { intros. destruct (decide ((a, b) = (c, d))) as [Hd|Hd], (decide (c = a /\ d = b)) as [He|He];
      try done; exfalso; [injection Hd as -> ->; tauto|destruct He as [-> ->]; done]. }
  split; simpl; intros *; [done|..]; intros Ha; unfold wealth, at_account; simpl.
  - unfold l_reserve. case_match; [done|]. zbool. simpl.
    pose proof (l_balance_nonneg (l_reserved p) c w).
    rewrite !l_balance_put, !Hdec by lia. case_decide as Hd; [destruct Hd as [-> ->]|]; lia.
  - pose proof (l_balance_nonneg (l_reserved p) c w). pose proof (l_balance_nonneg (l_free p) c w).
    rewrite !l_balance_put, !Hdec by lia. case_decide as Hd; [destruct Hd as [-> ->]|]; lia.
  - pose proof (l_balance_nonneg (l_reserved p) c f). pose proof (l_balance_nonneg (l_free p) c t).
    rewrite !l_balance_put, !Hdec by lia.
    repeat case_decide; destruct_and?; subst; lia.
Qed.
#[local] Instance ex_apart : ReservesApart Ledger.
Proof.
  split; simpl; intros *; [unfold l_transfer|unfold l_withdraw|done];
    repeat case_match; by intros [= <-].
Qed.

(** Account 20 offered 2000 of asset 1 in the block, and can lose that and a remainder
    of 1; account 10 has no intention. *)
Lemma sellers_bounded_witness :
  wealth 1 20 (pools ex_two) - 2001 <= wealth 1 20 (pools (snd (on_finalize ex_two))) /\
  wealth 1 10 (pools ex_two) <= wealth 1 10 (pools (snd (on_finalize ex_two))).
Proof.
  assert (Hpools : forall w, 0 < w -> forall pr, wide pr -> get_pair_id pr <> w).
  { intros w Hw pr Hpr. unfold get_pair_id. simpl. unfold Xyk.get_pair_id,
      pair_account_from_assets. simpl. unfold pair_code.
    destruct (ordered_pair_wide pr Hpr) as [[? _] [? _]]. unfold AssetPair_new.
    destruct pr as [x y]. simpl in *. destruct (ordered_pair _). simpl in *. lia. }
  assert (Hfee : forall acc (p : Pools), 0 <= fst (get_fee acc p) /\ 0 <= snd (get_fee acc p)) by done.
  assert (Hfair : forall w, fair_book (native := NativeAssetId) 1 w ex_two).
  { intros w. split.
    - intros a b i [->| ->]%ex_two_book; split; try done.
    - intros a. destruct (get_intentions (a, a) ex_two) as [|i l] eqn:Hl; [done|].
      assert (Hi : i ∈ get_intentions (a, a) ex_two) by (rewrite Hl; by left).
      pose proof (bk_stored _ ex_two_ok _ _ _ Hi) as Hst.
      apply ex_two_book in Hi as [->| ->]; simpl in Hst; injection Hst as <- ?; done. }
  split.
  - assert (He : exposure 1 20 ex_two = 2001) by run.
    assert (Hb := sellers_bounded (native := NativeAssetId) 1 20 (Hpools 20 eq_refl)
      ltac:(discriminate) Hfee ex_two ex_two_ok (Hfair 20)).
    rewrite He in Hb. exact Hb.
  - assert (He : exposure 1 10 ex_two = 0) by run.
    assert (Hb := sellers_bounded (native := NativeAssetId) 1 10 (Hpools 10 eq_refl)
      ltac:(discriminate) Hfee ex_two ex_two_ok (Hfair 10)).
    rewrite He, Z.sub_0_r in Hb. exact Hb.
Defined.

(** The reference ledger keeps the promises about free balances, and sweeps nobody. *)
#[local] Instance ex_reserve_frame : ReserveFrame Ledger.
Proof.
  assert (Hput : forall m c w v b z, z <> w -> l_balance (l_put c w v m) b z = l_balance m b z).
  { intros m c w v b z Hz. unfold l_balance, l_put. rewrite lookup_insert_ne by congruence. done. }
  split; simpl; intros *; intros Ha Hz.
  - unfold l_reserve. case_match; simpl; [done|by apply Hput].
  - by apply Hput.
  - pose proof (l_balance_nonneg (l_reserved p) c f). pose proof (l_balance_nonneg (l_free p) c t).
    rewrite l_balance_put by lia. case_decide as Hd; [injection Hd as -> ->|]; lia.
Qed.

(** Account 20 sells 2000 of asset 1, account 30 sells 6000 of asset 2: a part of the
    second sale is matched by the first, the rest goes to the pool.  The product of the
    reserves grows by the fees of both. *)
Definition ex_split : ExchangeState Pools (Z * Z) :=
  snd (Exchange.sell (P := Pools) (Signed 30) 2 1 6000 1 false ex_one).
Lemma pool_product_kept_witness :
  product ex_acc 1 2 (pools ex_split) = 2000000000000 /\
  product ex_acc 1 2 (pools ex_split) <= product ex_acc 1 2 (pools (snd (on_finalize ex_split))).
Proof.
  split; [run|].
  assert (Hlaws : AMMProductLaws Pools ex_acc 1 2).
  { apply (Xyk_AMMProduct (AssetPair_new 1 2)); [by vm_compute|done|by vm_compute|].
    intros c _. by apply small_deposit_never_swept. }
  apply (pool_product_kept ex_acc 1 2); [done|]. intros x y i. unfold get_intentions.
  replace (ExchangeAssetsIntentions ex_split) with
    (<[(2, 1) := [mkIntention 30 (AssetPair_new 2 1) 6000 3000 1 false SELL (1, 30)]]>
       {[(1, 2) := [mkIntention 20 (AssetPair_new 1 2) 2000 4000 1 false SELL (0, 20)]]}
     : gmap (Z * Z) _) by (by vm_compute).
  rewrite lookup_insert. case_decide; [|rewrite lookup_singleton; case_decide]; simpl;
    rewrite ?list_elem_of_singleton; [intros ->; by split..|by intros ?%not_elem_of_nil].
Defined.

(** Account 20 alone: its intention goes to the pool. *)
Definition ex_intention : ExchangeIntention (Z * Z) :=
  mkIntention 20 (AssetPair_new 1 2) 2000 4000 1 false SELL (0, 20).
Lemma single_intention_spec_witness :
  let out := resolve_single_intention ex_intention ex_one in
  fst out = Ok tt /\
  free_balance 1 20 (pools (snd out)) = free_balance 1 20 (pools ex_one) - 2000 /\
  free_balance 2 20 (pools (snd out)) = free_balance 2 20 (pools ex_one) + 3986.
Proof.
  cbv zeta. rewrite (single_intention_spec ex_intention ex_one). by vm_compute.
Defined.

Lemma take_matched_covers_witness :
  let l := get_intentions (2, 1) ex_two in
  exists rest, l = take_matched 2000 l ++ rest.
Proof.
  destruct (take_matched_covers 2000 (get_intentions (2, 1) ex_two)) as (rest & Hr & _).
  - done.
  - apply Forall_forall. intros x Hx. vm_compute in Hx.
    by destruct Hx as [<-|[]].
  - exists rest. exact Hr.
Defined.

(** The two intentions match exactly and are traded directly. *)
Definition ex_dt : DirectTradeData (Z * Z) :=
  mkDirect (mkIntention 20 (AssetPair_new 1 2) 2000 4000 1 false SELL (0, 20))
           (mkIntention 30 (AssetPair_new 2 1) 4000 2000 1 false SELL (1, 30)) 2000 4000.

Lemma direct_trade_exact_witness :
  let s1 := snd (prepare ex_dt ex_acc ex_two) in
  let l := trade_transfers ex_dt ex_acc 4 8 in
  let s2 := snd (execute ex_dt l s1) in
  free_balance 2 20 (pools s2) = free_balance 2 20 (pools ex_two) + 3992.
Proof.
  destruct (direct_trade_exact ex_dt ex_acc (trade_transfers ex_dt ex_acc 4 8) ex_two
    (snd (prepare ex_dt ex_acc ex_two))
    (snd (execute ex_dt (trade_transfers ex_dt ex_acc 4 8) (snd (prepare ex_dt ex_acc ex_two)))))
    as (fa & fb & Hfa & Hfb & Hset).
  - run.
  - run.
  - vm_compute; intuition congruence.
  - done.
  - done.
  - by vm_compute.
  - by vm_compute.
  - by vm_compute.
  - by vm_compute.
  - vm_compute in Hfa, Hfb. injection Hfa as <-. injection Hfb as <-.
    cbv zeta. destruct (Hset 2 20) as [Hf _]. rewrite Hf. run.
Defined.

(** A buyer who has the amount but not the fee: account 30 owns 6000 of asset 2. *)
Definition ex_dt_short : DirectTradeData (Z * Z) :=
  mkDirect (mkIntention 20 (AssetPair_new 1 2) 3000 6000 1 false SELL (0, 20))
           (mkIntention 30 (AssetPair_new 2 1) 6000 3000 7000 false BUY (1, 30)) 3000 6000.

Lemma failed_prepare_leaks_witness :
  exists p1, reserved_balance 1 20 p1 = reserved_balance 1 20 (pools ex_two) + 3000.
Proof.
  destruct (failed_prepare_leaks ex_dt_short ex_acc (intention_a ex_dt_short) (fun _ => panic)
    ex_two 6 12 3000 6012 (snd (reserve 1 20 3000 (pools ex_two)))
    (snd (reserve 1 20 3000 (pools ex_two))) BalanceTooLow) as [_ Hr].
  - by vm_compute.
  - by vm_compute.
  - run.
  - run.
  - done.
  - done.
  - run.
  - done.
  - run.
  - run.
  - exists (snd (reserve 1 20 3000 (pools ex_two))). exact Hr.
Defined.

(** ** Behaviours of the resolution that the code does not intend *)

(** A trade on the pool between two registrations: account 20 sells 2000 of asset 1
    at the price 2, account 10 then moves the price, and account 30 registers at the
    new one. *)
Definition ex_moved : ExchangeState Pools (Z * Z) :=
  set_pools (snd (Xyk.sell (Signed 10) 2 1 600000 1 false (pools ex_one))) ex_one.
Definition ex_sell_later := Exchange.sell (P := Pools) (Signed 30) 2 1 5000 1 false.
Definition ex_mixed : ExchangeState Pools (Z * Z) := snd (ex_sell_later ex_moved).

(** The subtraction the code comments as impossible to fail can fail: with a
    trade on the pool between two registrations of a block, the amounts of the two
    intentions are at different prices, and the end of the block panics. *)
Theorem on_finalize_can_panic :
  fst (ex_sell_later ex_moved) = Ok tt /\ fst (on_finalize ex_mixed) = Panic.
Proof. by vm_compute. Qed.

(** A pool with 1,000,000 of asset 1 and 900,000 of asset 2. *)
Definition ex_round_pools : Pools :=
  snd (Xyk.create_pool (Signed 10) 1 2 1000000 (9 * 10 ^ 17)
    (mkXyk {| l_free := list_to_map [((1, 10), 10000000%N); ((2, 10), 10000000%N);
                ((1, 20), 5000%N); ((1, 40), 5000%N); ((2, 30), 5000%N)];
              l_reserved := ∅; l_locks := ∅;
              l_issuance := list_to_map [(1, 10010000); (2, 10005000)]; l_shared := ∅ |} ∅ ∅ ∅ [])).
Definition ex_round : ExchangeState Pools (Z * Z) :=
  snd (Exchange.sell (P := Pools) (Signed 40) 1 2 1001 1 false
    (snd (Exchange.sell (P := Pools) (Signed 20) 1 2 1001 1 false
      (snd (Exchange.sell (P := Pools) (Signed 30) 2 1 1801 1 false
        (mkExchange ex_round_pools ∅ ∅ [])))))).

(** Nor does it take a trade in between.  Three sales registered at the same spot
    price 9/10 are enough: the quotes are rounded down, so what is left of the first
    sale (901 for 1000) is less than the 1001 the second counterpart gives, and the
    end of the block panics. *)
Theorem on_finalize_panics_on_rounding :
  map (fun i => (amount_in i, amount_out i)) (get_intentions (2, 1) ex_round) = [(1801, 2001)] /\
  map (fun i => (amount_in i, amount_out i)) (get_intentions (1, 2) ex_round) =
    [(1001, 900); (1001, 900)] /\
  fst (on_finalize ex_round) = Panic.
Proof. by vm_compute. Qed.

(** Account 20 sells 2000 of asset 1 for at least 4000 of asset 2; account 30 sells
    4000 of asset 2. *)
Definition ex_limit : ExchangeState Pools (Z * Z) :=
  snd (ex_sell_30 (snd (Exchange.sell (P := Pools) (Signed 20) 1 2 2000 4000 false ex_exchange))).
Definition ex_limit_end : ExchangeState Pools (Z * Z) := snd (on_finalize ex_limit).

(** The limit of a matched seller is compared with the amount before the fee:
    an exactly matched intention to sell for at least 4000 is resolved and its owner
    gets 3992. *)
Theorem direct_trade_ignores_fee_in_limit :
  fst (on_finalize ex_limit) = Ok tt /\
  free_balance 1 20 (pools ex_limit_end) = free_balance 1 20 (pools ex_limit) - 2000 /\
  free_balance 2 20 (pools ex_limit_end) = free_balance 2 20 (pools ex_limit) + 3992.
Proof. by vm_compute. Qed.
