(* ===== verification/StackExamples.v ===== *)
(** * The trading pallets on one chain

    A run of the three pallets on the reference ledger: a bootstrapping sale of asset 2
    for asset 1, an XYK pool of assets 3 and 4, an intention against that pool and the end
    of the block. *)

From S2P Require Import Prelude Primitives Errors Interfaces Ledger Xyk XykProps XykPools Runtime.
From S2P Require Import Lbp LbpProps LbpExamples Exchange ExchangeProps TradingStack.

#[local] Existing Instances Runtime_xyk ex_origin Runtime_lbp ex_lbp_math ex_early.
#[local] Instance ex_hash : IntentionHashing (Z * Z) := {| hash_intention c w _ _ _ := (c, w) |}.
#[local] Instance ex_order : StorageOrder := {| storage_iter := map_to_list |}.

#[local] Instance ex_funds_untouched : FundsUntouched Ledger.
Proof.
  split; simpl; intros *.
  - unfold l_reserve. by case_match.
  - done.
  - done.
  - by intros [= <-].
  - by intros [= <-].
Qed.

Notation Below := (LbpState Ledger).
Notation Stack := (ExchangeState (XykState Below) (Z * Z)).

(** Account 10 has the assets of the pools, account 20 asset 3. *)
Definition ex_chain : Ledger := {|
  l_free := list_to_map [((1, 10), 10000000%N); ((2, 10), 10000000%N); ((3, 10), 10000000%N);
                         ((4, 10), 10000000%N); ((3, 20), 10000%N)];
  l_reserved := ∅;
  l_locks := ∅;
  l_issuance := list_to_map [(1, 10000000); (2, 10000000); (3, 10010000); (4, 10000000)];
  l_shared := ∅
|}.
Definition ex_stack : Stack := mkExchange (mkXyk (mkLbp ex_chain ∅ ∅ []) ∅ ∅ ∅ []) ∅ ∅ [].

Definition ex_on_sale : Stack :=
  set_lbp_of (snd (lbp_dispatch Root ex_call_create (lbp_of ex_stack))) ex_stack.

#[local] Existing Instances below_currency below_registry below_handler below_reservable.
#[local] Existing Instances pools_currency pools_reservable pools_block.

Definition ex_pool_call : xyk_call := CreatePool 3 4 1000000 (2 * 10 ^ 18).
Definition ex_pooled : Stack :=
  set_pools (snd (dispatch (Signed 10) ex_pool_call (pools ex_on_sale))) ex_on_sale.
Definition ex_intended : Stack :=
  snd (Exchange.sell (P := XykState Below) (Signed 20) 3 4 2000 1 false ex_pooled).
Definition ex_settled : Stack := snd (on_finalize ex_intended).

Ltac run := vm_compute; reflexivity.

Lemma ex_stack_pair_wide a b : 0 <= a < 2 ^ 32 -> 0 <= b < 2 ^ 32 -> wide (AssetPair_new a b).
Proof. by split. Qed.

Lemma ex_intended_reachable : stack_reachable ex_intended.
Proof.
  apply (stack_more ex_pooled).
  - apply (stack_more ex_on_sale); [apply (stack_more ex_stack); [by apply stack_init|]|].
    + apply stack_trading, (stack_lbp Root ex_call_create ex_stack (Ok tt)). run.
    + apply stack_trading, (stack_xyk (Signed 10) ex_pool_call ex_on_sale (Ok tt));
        [by apply ex_stack_pair_wide|run].
  - apply stack_trading, (stack_sell (Signed 20) 3 4 2000 1 false ex_pooled (Ok tt)). run.
Qed.
Lemma ex_settles : trading_step ex_intended ex_settled.
Proof. apply stack_end_block. run. Qed.

(** The end of the block, with a sale and an intention pending. *)
Lemma stack_reachable_ok_witness :
  stack_ok ex_settled /\ total_liquidity (Xyk.get_pair_id (AssetPair_new 3 4)) (pools ex_settled) = 1000000.
Proof.
  split; [|run]. apply (stack_reachable_ok ex_settled).
  apply (stack_more ex_intended); [apply ex_intended_reachable|]. apply stack_trading, ex_settles.
Defined.

Lemma trading_conserves_witness :
  total_issuance 3 (base_of ex_settled) = total_issuance 3 (base_of ex_intended).
Proof.
  apply (trading_conserves ex_intended ex_settled ex_intended_reachable ex_settles).
  - by vm_compute.
  - intros p Hp Ht.
    assert (Hl : l_shared (base_of ex_settled) = {[AssetPair_name (AssetPair_new 3 4) := 5]}) by run.
    change (l_shared (base_of ex_settled) !! AssetPair_name p = Some 3) in Ht. rewrite Hl in Ht.
    apply lookup_singleton_Some in Ht as [_ Ht]. discriminate Ht.
Defined.
