(* ===== verification/Testing.v ===== *)
(** * The vocabulary of the test suites

    The repository's own unit tests, run on the model: the assertion macros of the tests as
    computations, the genesis of the token balances on the reference ledger and the account
    function of the mocks.  A test is a state to start from and a script; it passes when the
    script ends without a panic. *)

From S2P Require Import Prelude Primitives Errors Interfaces Ledger.

#[export] Instance DispatchError_eq_dec : EqDecision DispatchError.
Proof. unfold EqDecision, Decision. repeat decide equality. Defined.

(** ** Assertions *)

(** A failed assertion ends the test. *)
Definition check {S} (p : S -> bool) : Dispatch S unit :=
  fun s => if p s then (Ok tt, s) else (Panic, s).
Definition assert_ok {S A} (m : Dispatch S A) : Dispatch S unit :=
  fun s => match m s with (Ok _, s') => (Ok tt, s') | (_, s') => (Panic, s') end.
Definition is_error {A} (e : DispatchError) (r : outcome DispatchError A) : bool :=
  match r with Err e' => bool_decide (e' = e) | _ => false end.
(** [assert_noop!]: the call fails with the error and leaves the storage as it was. *)
Definition assert_noop {S A} `{EqDecision S} (m : Dispatch S A) (e : DispatchError)
    : Dispatch S unit :=
  fun s => let '(r, s') := m s in
    if is_error e r && bool_decide (s' = s) then (Ok tt, s) else (Panic, s').
(** [assert_err!]: the call fails with the error. *)
Definition assert_err {S A} (m : Dispatch S A) (e : DispatchError) : Dispatch S unit :=
  fun s => let '(r, s') := m s in if is_error e r then (Ok tt, s') else (Panic, s').

(** ** Tests *)

Definition passes {S} (t : S * Dispatch S unit) : bool :=
  match fst (snd t (fst t)) with Ok _ => true | _ => false end.

(** All tests of a suite pass; the statement of a suite's theorem. *)
Definition suite_passes {S} (l : list (S * Dispatch S unit)) : Prop :=
  Forall (fun t => passes t = true) l.
Lemma suite_cons {S} (t : S * Dispatch S unit) l :
  passes t = true -> suite_passes l -> suite_passes (t :: l).
Proof. by constructor. Qed.
(** One evaluation per test. *)
Ltac run_suite :=
  repeat (apply suite_cons; [vm_compute; reflexivity|]); constructor.

Definition u128_MAX : Z := 2 ^ 128 - 1.

(** ** Mock chains *)

(** [orml_tokens::GenesisConfig]: the balances of the endowed accounts. *)
Definition tokens_genesis (balances : list (AccountId * AssetId * Balance)) : Ledger :=
  foldl (fun l '(w, c, x) => snd (l_deposit c w x l)) (mkLedger ∅ ∅ ∅ ∅ ∅) balances.

(** [AssetPairAccountIdTest::from_assets], the same in the mocks of the XYK, exchange, LBP and
    liquidity mining pallets; the accounts are [u64]. *)
Definition AssetPairAccountIdTest : AssetPairAccountIdFor := {|
  from_assets asset_a asset_b _ :=
    let a := Z.min asset_a asset_b in
    let b := Z.max asset_a asset_b in
    (a * 1000 + b) mod 2 ^ 64
|}.

#[export] Instance Ledger_eq_dec : EqDecision Ledger.
Proof. solve_decision. Defined.

(** The reference ledger with a block number that the tests set. *)
Record Timed := mkTimed { t_books : Ledger; t_block : BlockNumber }.
Definition at_time (n : BlockNumber) (c : Timed) : Timed := mkTimed (t_books c) n.
#[export] Instance Timed_lens : Lens Timed Ledger := {|
  lens_get := t_books;
  lens_set l c := mkTimed l (t_block c)
|}.
#[export] Instance Timed_eq_dec : EqDecision Timed.
Proof. solve_decision. Defined.
Definition Timed_currency : MultiCurrency Timed := lift_currency.
Definition Timed_reservable : MultiReservable Timed := lift_reservable.
Definition Timed_lockable : MultiLockable Timed := {|
  set_lock l c w a := zoom (set_lock l c w a);
  remove_lock l c w := zoom (remove_lock l c w);
  get_by_lock l c w s := get_by_lock l c w (t_books s)
|}.
Definition Timed_block : BlockNumberProvider Timed := {| block_number := t_block |}.
