(* ===== verification/XykTests.v ===== *)
(** * The tests of the XYK pallet

    Models the mock runtime of [src/pallets/xyk/src/mock.rs] and runs the tests of
    [src/pallets/xyk/src/tests.rs] on the model of the pallet: each test is the script of the
    Rust test, with its calls, the balances it asserts to the unit, the errors it expects (and
    that they change nothing) and the events of the pallet. *)

From S2P Require Import Prelude Primitives Errors Interfaces Ledger Benchmarks Testing Xyk.

(** ** The mock runtime *)

Definition ALICE : AccountId := 1.
Definition BOB : AccountId := 2.
Definition HDX : AssetId := 1000.
Definition DOT : AssetId := 2000.
Definition ACA : AssetId := 3000.
Definition HDX_DOT_POOL_ID : AccountId := 1002000.

(** [EXCHANGE_FEE], a variable of the mock, is an argument. *)
Definition mock_config (fee : Z * Z) : XykConfig := {|
  NativeAssetId := HDX;
  GetExchangeFee := fee;
  MinTradingLimit := MIN_TRADING_LIMIT;
  MinPoolLiquidity := MIN_POOL_LIQUIDITY;
  MaxInRatio := MAX_IN_RATIO;
  MaxOutRatio := MAX_OUT_RATIO
|}.
#[local] Instance Test_config : XykConfig := mock_config (2, 1000).
Definition Disallow10_10Pool : CanCreatePool Ledger := {|
  can_create_pool asset_a asset_b _ := negb ((asset_a =? 10) && (asset_b =? 10))
|}.
#[local] Existing Instances AssetPairAccountIdTest Disallow10_10Pool.

(** [ExtBuilder]. *)
Definition ExtBuilder_default : list (AccountId * AssetId * Balance) :=
  [(ALICE, HDX, 1000000000000000); (BOB, HDX, 1000000000000000);
   (ALICE, ACA, 1000000000000000); (BOB, ACA, 1000000000000000);
   (ALICE, DOT, 1000000000000000); (BOB, DOT, 1000000000000000)].
Definition build (endowed_accounts : list (AccountId * AssetId * Balance)) : XykState Ledger :=
  mkXyk (tokens_genesis endowed_accounts) ∅ ∅ ∅ [].
Definition new_test_ext : XykState Ledger := build ExtBuilder_default.

(** ** What the tests look at *)

Notation Test := (XykState Ledger * Dispatch (XykState Ledger) unit)%type.

#[local] Instance XykEvent_eq_dec : EqDecision XykEvent.
Proof. solve_decision. Defined.
#[local] Instance XykState_eq_dec : EqDecision (XykState Ledger).
Proof. solve_decision. Defined.

Definition balance (c : AssetId) (w : AccountId) (s : XykState Ledger) : Balance :=
  free_balance c w (chain s).
Definition balance_is (c : AssetId) (w : AccountId) (x : Balance)
    : Dispatch (XykState Ledger) unit :=
  check (fun s => balance c w s =? x).
Definition token_of (pool : AccountId) (s : XykState Ledger) : AssetId :=
  default 0 (ShareToken s !! pool).
Definition has_events (l : list XykEvent) (s : XykState Ledger) : bool :=
  forallb (fun e => bool_decide (e ∈ xyk_events s)) l.

(** ** The tests *)

Definition create_pool_should_work : Test := (new_test_ext,
  let asset_a := HDX in let asset_b := ACA in
  assert_ok (create_pool (Signed ALICE) asset_a asset_b 100000000000000 (price 10)) ;;
  let pair_account := get_pair_id (AssetPair_new asset_a asset_b) in
  share_token ← gets (fun s => token_of pair_account s);
  check (fun s => bool_decide (get_pool_assets pair_account s = Some [asset_a; asset_b])) ;;
  balance_is asset_a pair_account 100000000000000 ;;
  balance_is asset_b pair_account 1000000000000000 ;;
  balance_is asset_a ALICE 900000000000000 ;; balance_is asset_b ALICE 0 ;;
  balance_is share_token ALICE 100000000000000 ;;
  check (fun s => total_liquidity pair_account s =? 100000000000000) ;;
  check (has_events [
      PoolCreated ALICE asset_a asset_b 100000000000000 share_token pair_account])).

Definition create_same_pool_should_not_work : Test := (new_test_ext,
  let user := ALICE in let asset_a := HDX in let asset_b := ACA in
  assert_ok (create_pool (Signed user) asset_b asset_a 1000 (price 2)) ;;
  assert_noop (create_pool (Signed user) asset_b asset_a 999 (price 2))
    XykErr.InsufficientLiquidity ;;
  assert_noop (create_pool (Signed user) asset_b asset_a 1000 (price 0)) XykErr.ZeroInitialPrice ;;
  assert_noop (create_pool (Signed user) asset_a asset_a 1000 (price 2))
    XykErr.CannotCreatePoolWithSameAssets ;;
  assert_noop (create_pool (Signed user) asset_b asset_a 1000 (price 2))
    XykErr.TokenPoolAlreadyExists ;;
  let pair_account := get_pair_id (AssetPair_new asset_a asset_b) in
  share_token ← gets (fun s => token_of pair_account s);
  check (has_events [
      PoolCreated ALICE asset_b asset_a 2000 share_token pair_account])).

Definition create_pool_overflowing_amount_should_not_work : Test := (new_test_ext,
  let user := ALICE in let asset_a := HDX in let asset_b := ACA in
  assert_noop (create_pool (Signed user) asset_b asset_a u128_MAX (price 2))
    XykErr.CreatePoolAssetAmountInvalid).

Definition create_pool_with_insufficient_balance_should_not_work : Test := (new_test_ext,
  let user := ALICE in let asset_a := HDX in
  assert_noop (create_pool (Signed user) 4000 asset_a 100000000000000 (price 10))
    XykErr.InsufficientAssetBalance ;;
  assert_noop (create_pool (Signed user) asset_a 4000 100000000000000 (price 10))
    XykErr.InsufficientAssetBalance).

Definition add_liquidity_should_work : Test := (new_test_ext,
  let user := ALICE in let asset_a := DOT in let asset_b := HDX in
  assert_ok (create_pool (Signed user) asset_a asset_b 100000000 (price 10000)) ;;
  assert_ok (add_liquidity (Signed user) asset_a asset_b 400000 1000000000000) ;;
  let pair_account := get_pair_id (AssetPair_new asset_a asset_b) in
  share_token ← gets (fun s => token_of pair_account s);
  balance_is asset_b pair_account 1004000000000 ;; balance_is asset_a pair_account 100400000 ;;
  balance_is asset_a user 999999899600000 ;; balance_is share_token user 1004000000000 ;;
  check (fun s => total_liquidity pair_account s =? 1004000000000) ;;
  check (has_events [
      PoolCreated ALICE asset_a asset_b 1000000000000 share_token pair_account;
      LiquidityAdded ALICE asset_a asset_b 400000 4000000000])).

Definition add_liquidity_as_another_user_should_work : Test := (new_test_ext,
  let user := ALICE in let asset_a := HDX in let asset_b := ACA in
  assert_ok (create_pool (Signed user) asset_b asset_a 100000000 (price 10000)) ;;
  assert_ok (add_liquidity (Signed user) asset_b asset_a 400000 1000000000000) ;;
  let pair_account := get_pair_id (AssetPair_new asset_a asset_b) in
  share_token ← gets (fun s => token_of pair_account s);
  balance_is asset_a pair_account 1004000000000 ;; balance_is asset_b pair_account 100400000 ;;
  balance_is asset_b user 999999899600000 ;; balance_is share_token user 1004000000000 ;;
  check (fun s => total_liquidity pair_account s =? 1004000000000) ;;
  assert_ok (add_liquidity (Signed BOB) asset_b asset_a 1000000 1000000000000) ;;
  balance_is asset_a pair_account 1014000000000 ;; balance_is asset_b pair_account 101400000 ;;
  balance_is asset_b user 999999899600000 ;; balance_is asset_b BOB 999999999000000 ;;
  balance_is share_token user 1004000000000 ;; balance_is share_token BOB 10000000000 ;;
  check (fun s => total_liquidity pair_account s =? 1014000000000) ;;
  check (has_events [
      PoolCreated ALICE asset_b asset_a 1000000000000 share_token pair_account;
      LiquidityAdded ALICE asset_b asset_a 400000 4000000000;
      LiquidityAdded BOB asset_b asset_a 1000000 10000000000])).

Definition remove_liquidity_should_work : Test := (new_test_ext,
  let user := ALICE in let asset_a := HDX in let asset_b := DOT in
  assert_ok (create_pool (Signed user) asset_a asset_b 100000000 (price 10000)) ;;
  let pair_account := get_pair_id (AssetPair_new asset_a asset_b) in
  share_token ← gets (fun s => token_of pair_account s);
  balance_is share_token user 100000000 ;; balance_is asset_a user 999999900000000 ;;
  balance_is asset_a pair_account 100000000 ;; balance_is asset_b pair_account 1000000000000 ;;
  assert_ok (remove_liquidity (Signed user) asset_a asset_b 355000) ;;
  balance_is asset_b pair_account 996450000000 ;; balance_is asset_a user 999999900355000 ;;
  balance_is share_token user 99645000 ;;
  check (fun s => total_liquidity pair_account s =? 99645000) ;;
  check (has_events [
      PoolCreated ALICE asset_a asset_b 100000000 share_token pair_account;
      LiquidityRemoved ALICE asset_a asset_b 355000])).

Definition remove_liquidity_without_shares_should_not_work : Test := (new_test_ext,
  let user := ALICE in let asset_a := HDX in let asset_b := DOT in
  assert_ok (create_pool (Signed user) asset_a asset_b 100000000 (price 1)) ;;
  let pair_account := get_pair_id (AssetPair_new asset_a asset_b) in
  share_token ← gets (fun s => token_of pair_account s);
  shares ← gets (fun s => balance share_token user s);
  assert_ok (zoom (transfer share_token ALICE BOB shares)) ;;
  assert_noop (remove_liquidity (Signed user) asset_a asset_b 355000)
    XykErr.InsufficientAssetBalance ;;
  check (has_events [
      PoolCreated ALICE asset_a asset_b 100000000 share_token pair_account])).

Definition remove_liquidity_from_reduced_pool_should_not_work : Test := (new_test_ext,
  let user := ALICE in let asset_a := HDX in let asset_b := DOT in
  assert_ok (create_pool (Signed user) asset_a asset_b 100000000 (price 1)) ;;
  let pair_account := get_pair_id (AssetPair_new asset_a asset_b) in
  assert_ok (zoom (transfer asset_a pair_account BOB 90000000)) ;;
  assert_noop (remove_liquidity (Signed user) asset_a asset_b 200000000)
    XykErr.InsufficientLiquidity ;;
  assert_ok (zoom (transfer asset_a BOB pair_account 90000000)) ;;
  assert_ok (zoom (transfer asset_b pair_account BOB 90000000)) ;;
  assert_noop (remove_liquidity (Signed user) asset_a asset_b 200000000)
    XykErr.InsufficientLiquidity ;;
  let pair_account := get_pair_id (AssetPair_new asset_a asset_b) in
  share_token ← gets (fun s => token_of pair_account s);
  check (has_events [
      PoolCreated ALICE asset_a asset_b 100000000 share_token pair_account])).

Definition add_liquidity_more_than_owner_should_not_work : Test := (new_test_ext,
  assert_ok (create_pool (Signed ALICE) HDX ACA 200000000 (price 3000000)) ;;
  balance_is ACA ALICE 400000000000000 ;;
  assert_noop (add_liquidity (Signed ALICE) HDX ACA 200000000000000000 600000000)
    XykErr.InsufficientAssetBalance ;;
  assert_noop (add_liquidity (Signed ALICE) HDX ACA 600000000 200000000000000000)
    XykErr.InsufficientAssetBalance).

Definition add_insufficient_liquidity_should_not_work : Test := (new_test_ext,
  assert_ok (create_pool (Signed ALICE) HDX ACA 1000 1500000000000000000) ;;
  assert_noop (add_liquidity (Signed ALICE) HDX ACA 0 0) XykErr.InsufficientTradingAmount ;;
  assert_noop (add_liquidity (Signed ALICE) HDX ACA 1000 0) XykErr.ZeroLiquidity ;;
  assert_noop (add_liquidity (Signed BOB) ACA HDX 1000 2000) XykErr.InsufficientLiquidity).

Definition add_liquidity_exceeding_max_limit_should_not_work : Test := (new_test_ext,
  assert_ok (create_pool (Signed ALICE) HDX ACA 100000000000000 (price 1)) ;;
  assert_noop (add_liquidity (Signed ALICE) HDX ACA 10000000 1000000)
    XykErr.AssetAmountExceededLimit).

Definition remove_liquidity_should_respect_min_pool_limit : Test := (new_test_ext,
  assert_ok (create_pool (Signed ALICE) HDX ACA 1000 1500000000000000000) ;;
  assert_ok (add_liquidity (Signed BOB) ACA HDX 2000 2000) ;;
  assert_noop (remove_liquidity (Signed BOB) ACA HDX 500) XykErr.InsufficientLiquidity).

Definition remove_zero_liquidity_should_not_work : Test := (new_test_ext,
  assert_noop (remove_liquidity (Signed ALICE) HDX ACA 0) XykErr.ZeroLiquidity).

Definition sell_test : Test := (new_test_ext,
  let user_1 := ALICE in let asset_a := ACA in let asset_b := DOT in
  assert_ok (create_pool (Signed user_1) asset_a asset_b 200000000000 (price 3000)) ;;
  let pair_account := get_pair_id (AssetPair_new asset_a asset_b) in
  share_token ← gets (fun s => token_of pair_account s);
  balance_is asset_a user_1 999800000000000 ;; balance_is asset_b user_1 400000000000000 ;;
  balance_is share_token user_1 600000000000000 ;;
  balance_is asset_a pair_account 200000000000 ;;
  balance_is asset_b pair_account 600000000000000 ;;
  assert_ok (sell (Signed user_1) asset_a asset_b 456444678 1000000000000 false) ;;
  balance_is asset_a user_1 999799543555322 ;; balance_is asset_b user_1 401363483591788 ;;
  balance_is share_token user_1 600000000000000 ;;
  balance_is asset_a pair_account 200456444678 ;;
  balance_is asset_b pair_account 598636516408212 ;;
  check (has_events [
      PoolCreated ALICE asset_a asset_b 600000000000000 share_token pair_account;
      SellExecuted ALICE asset_a asset_b 456444678 1363483591788 asset_b 2732432046 pair_account])).

Definition work_flow_happy_path_should_work : Test := (new_test_ext,
  let user_1 := ALICE in let user_2 := BOB in let asset_a := HDX in let asset_b := ACA in
  let pair_account := get_pair_id (AssetPair_new asset_a asset_b) in
  balance_is asset_a user_1 1000000000000000 ;; balance_is asset_b user_2 1000000000000000 ;;
  balance_is asset_a pair_account 0 ;;
  assert_ok (create_pool (Signed user_1) asset_a asset_b 350000000000 (price 40)) ;;
  assert_noop (add_liquidity (Signed user_1) asset_a asset_b 800000000000000000 100)
    XykErr.InsufficientAssetBalance ;;
  check (fun s => total_liquidity pair_account s =? 350000000000) ;;
  share_token ← gets (fun s => token_of pair_account s);
  balance_is asset_a user_1 999650000000000 ;; balance_is asset_b user_1 986000000000000 ;;
  balance_is asset_a user_2 1000000000000000 ;; balance_is asset_b user_2 1000000000000000 ;;
  balance_is share_token user_1 350000000000 ;; balance_is share_token user_2 0 ;;
  balance_is asset_a pair_account 350000000000 ;;
  balance_is asset_b pair_account 14000000000000 ;;
  current_b_balance ← gets (fun s => balance asset_b user_2 s);
  assert_ok (add_liquidity (Signed user_2) asset_a asset_b 300000000000 current_b_balance) ;;
  check (fun s => total_liquidity pair_account s =? 650000000000) ;;
  balance_is asset_a user_1 999650000000000 ;; balance_is asset_b user_1 986000000000000 ;;
  balance_is asset_a user_2 999700000000000 ;; balance_is asset_b user_2 988000000000000 ;;
  balance_is share_token user_1 350000000000 ;; balance_is share_token user_2 300000000000 ;;
  balance_is asset_a pair_account 650000000000 ;;
  balance_is asset_b pair_account 26000000000000 ;;
  assert_ok (sell (Signed user_2) asset_a asset_b 216666666666 100000000000 false) ;;
  balance_is asset_a user_1 999650000000000 ;; balance_is asset_b user_1 986000000000000 ;;
  balance_is asset_a user_2 999483333333334 ;; balance_is asset_b user_2 994486999999986 ;;
  balance_is share_token user_1 350000000000 ;; balance_is share_token user_2 300000000000 ;;
  balance_is asset_a pair_account 866666666666 ;;
  balance_is asset_b pair_account 19513000000014 ;;
  assert_ok (sell (Signed user_1) asset_a asset_b 288888888888 100000000000 false) ;;
  balance_is asset_a user_1 999361111111112 ;; balance_is asset_b user_1 990868493499997 ;;
  user_2_original_balance_1 ← gets (fun s => balance asset_a user_2 s);
  user_2_original_balance_2 ← gets (fun s => balance asset_b user_2 s);
  check (fun s => user_2_original_balance_1 =? 999483333333334) ;;
  check (fun s => user_2_original_balance_2 =? 994486999999986) ;;
  balance_is share_token user_1 350000000000 ;; balance_is share_token user_2 300000000000 ;;
  assert_ok (remove_liquidity (Signed user_2) asset_a asset_b 10000) ;;
  user_2_remove_1_balance_1 ← gets (fun s => balance asset_a user_2 s);
  user_2_remove_1_balance_2 ← gets (fun s => balance asset_b user_2 s);
  check (fun s => user_2_remove_1_balance_1 =? 999483333351111) ;;
  check (fun s => user_2_remove_1_balance_2 =? 994487000225286) ;;
  balance_is share_token user_2 299999990000 ;;
  assert_ok (remove_liquidity (Signed user_2) asset_b asset_a 10000) ;;
  user_2_remove_2_balance_1 ← gets (fun s => balance asset_a user_2 s);
  user_2_remove_2_balance_2 ← gets (fun s => balance asset_b user_2 s);
  check (fun s => user_2_remove_2_balance_1 =? 999483333368888) ;;
  check (fun s => user_2_remove_2_balance_2 =? 994487000450586) ;;
  balance_is share_token user_2 299999980000 ;;
  check (fun s => user_2_remove_1_balance_1 - user_2_original_balance_1 =?
    user_2_remove_2_balance_1 - user_2_remove_1_balance_1) ;;
  check (fun s => user_2_remove_1_balance_2 - user_2_original_balance_2 =?
    user_2_remove_2_balance_2 - user_2_remove_1_balance_2) ;;
  check (fun s => total_liquidity pair_account s =? 649999980000) ;;
  assert_ok (remove_liquidity (Signed user_2) asset_a asset_b 18000) ;;
  balance_is share_token user_2 299999962000 ;;
  check (fun s => total_liquidity pair_account s =? 649999962000) ;;
  check (has_events [
      PoolCreated user_1 asset_a asset_b 350000000000 share_token pair_account;
      LiquidityAdded user_2 asset_a asset_b 300000000000 12000000000000;
      SellExecuted user_2 asset_a asset_b 216666666666 6486999999986 asset_b 12999999998
        pair_account;
      SellExecuted ALICE asset_a asset_b 288888888888 4868493499997 asset_b 9756499998
        pair_account;
      LiquidityRemoved user_2 asset_a asset_b 10000;
      LiquidityRemoved user_2 asset_b asset_a 10000;
      LiquidityRemoved user_2 asset_a asset_b 18000])).

Definition sell_with_correct_fees_should_work : Test :=
  ((build [(ALICE, HDX, 1000000000000000); (BOB, HDX, 1000000000000000); (ALICE, ACA,
    1000000000000000); (BOB, ACA, 1000000000000000); (ALICE, DOT, 1000000000000000); (BOB, DOT,
    1000000000000000)]),
  let user_1 := ALICE in let user_2 := BOB in let asset_a := ACA in let asset_b := HDX in
  balance_is asset_a user_1 1000000000000000 ;; balance_is asset_a user_2 1000000000000000 ;;
  balance_is asset_b user_1 1000000000000000 ;; balance_is asset_b user_2 1000000000000000 ;;
  assert_ok (create_pool (Signed user_1) asset_a asset_b 10000000 (price 200)) ;;
  let pair_account := get_pair_id (AssetPair_new asset_a asset_b) in
  share_token ← gets (fun s => token_of pair_account s);
  balance_is asset_a user_1 999999990000000 ;; balance_is asset_b user_1 999998000000000 ;;
  balance_is asset_a pair_account 10000000 ;; balance_is asset_b pair_account 2000000000 ;;
  balance_is share_token user_1 2000000000 ;;
  assert_ok (sell (Signed user_1) asset_a asset_b 100000 1000000 false) ;;
  balance_is asset_a pair_account 10100000 ;; balance_is asset_b pair_account 1980237622 ;;
  balance_is asset_a user_1 999999989900000 ;; balance_is asset_b user_1 999998019762378 ;;
  check (has_events [
      PoolCreated user_1 asset_a asset_b 2000000000 share_token pair_account;
      SellExecuted user_1 asset_a asset_b 100000 19762378 asset_b 39602 pair_account])).

Definition discount_sell_fees_should_work : Test :=
  ((build [(ALICE, HDX, 1000000); (BOB, HDX, 1000000); (ALICE, ACA, 1000000); (BOB, ACA,
    1000000); (ALICE, DOT, 1000000); (BOB, DOT, 1000)]),
  let user_1 := ALICE in let asset_a := ACA in let asset_b := DOT in
  assert_ok (create_pool (Signed user_1) asset_a HDX 5000 (price 2)) ;;
  assert_ok (create_pool (Signed user_1) asset_a asset_b 30000 (price 2)) ;;
  let pair_account := get_pair_id (AssetPair_new asset_a asset_b) in
  let native_pair_account := get_pair_id (AssetPair_new asset_a HDX) in
  balance_is asset_a pair_account 30000 ;; balance_is asset_b pair_account 60000 ;;
  balance_is asset_a native_pair_account 5000 ;; balance_is HDX native_pair_account 10000 ;;
  balance_is asset_a user_1 965000 ;; balance_is asset_b user_1 940000 ;;
  balance_is HDX user_1 990000 ;;
  assert_ok (sell (Signed user_1) asset_a asset_b 10000 1500 true) ;;
  balance_is asset_a pair_account 40000 ;; balance_is asset_b pair_account 45007 ;;
  balance_is asset_a native_pair_account 5000 ;; balance_is HDX native_pair_account 10000 ;;
  balance_is asset_a user_1 955000 ;; balance_is asset_b user_1 954993 ;;
  balance_is HDX user_1 989986 ;;
  share_token ← gets (fun s => token_of pair_account s);
  share_token_native ← gets (fun s => token_of native_pair_account s);
  check (has_events [
      PoolCreated user_1 asset_a HDX 10000 share_token_native native_pair_account;
      PoolCreated user_1 asset_a asset_b 60000 share_token pair_account;
      SellExecuted user_1 asset_a asset_b 10000 14993 asset_b 7 pair_account])).

Definition sell_without_sufficient_balance_should_not_work : Test := (new_test_ext,
  let user := ALICE in let asset_a := ACA in let asset_b := DOT in
  assert_ok (create_pool (Signed user) asset_a asset_b 1000000000 (price 1)) ;;
  assert_ok (zoom (transfer ACA user BOB 999998999999999)) ;;
  assert_noop (sell (Signed user) ACA DOT 1000 100 false) XykErr.InsufficientAssetBalance).

Definition sell_without_sufficient_discount_balance_should_not_work : Test := (new_test_ext,
  let user := ALICE in let asset_a := ACA in let asset_b := DOT in
  assert_ok (create_pool (Signed user) asset_a asset_b 1000000000000 (price 1)) ;;
  assert_ok (create_pool (Signed user) asset_a HDX 1000000000000 (price 1)) ;;
  assert_ok (zoom (transfer HDX user BOB 998999999999999)) ;;
  assert_noop (sell (Signed user) ACA DOT 1000000000 100 true)
    XykErr.InsufficientNativeCurrencyBalance).

Definition buy_without_sufficient_balance_should_not_work : Test := (new_test_ext,
  let user := ALICE in let asset_a := ACA in let asset_b := DOT in
  assert_ok (create_pool (Signed user) asset_a asset_b 1000000000 (price 1)) ;;
  assert_ok (zoom (transfer ACA user BOB 999998999999999)) ;;
  assert_noop (buy (Signed user) DOT ACA 1000 10000 false) XykErr.InsufficientAssetBalance).

Definition buy_without_sufficient_discount_balance_should_not_work : Test := (new_test_ext,
  let user := ALICE in let asset_a := ACA in let asset_b := DOT in
  assert_ok (create_pool (Signed user) asset_a asset_b 1000000000000 (price 1)) ;;
  assert_ok (create_pool (Signed user) asset_b HDX 1000000000000 (price 1)) ;;
  assert_ok (zoom (transfer HDX user BOB 998999999999999)) ;;
  assert_noop (buy (Signed user) DOT ACA 1000000000 10000000000 true)
    XykErr.InsufficientNativeCurrencyBalance).

Definition single_buy_should_work : Test := (new_test_ext,
  let user_1 := ALICE in let asset_a := ACA in let asset_b := DOT in
  assert_ok (create_pool (Signed user_1) asset_a asset_b 200000000 (price 3200)) ;;
  let pair_account := get_pair_id (AssetPair_new asset_a asset_b) in
  share_token ← gets (fun s => token_of pair_account s);
  balance_is asset_a user_1 999999800000000 ;; balance_is asset_b user_1 999360000000000 ;;
  balance_is share_token user_1 640000000000 ;; balance_is asset_a pair_account 200000000 ;;
  balance_is asset_b pair_account 640000000000 ;;
  assert_ok (buy (Signed user_1) asset_a asset_b 66666666 1000000000000 false) ;;
  balance_is asset_a user_1 999999866666666 ;; balance_is asset_b user_1 999039360004809 ;;
  balance_is share_token user_1 640000000000 ;; balance_is asset_a pair_account 133333334 ;;
  balance_is asset_b pair_account 960639995191 ;;
  check (has_events [
      PoolCreated user_1 asset_a asset_b 640000000000 share_token pair_account;
      BuyExecuted user_1 asset_a asset_b 66666666 319999995201 asset_b 639999990 pair_account])).

Definition single_buy_with_discount_should_work : Test := (new_test_ext,
  let user_1 := ALICE in let asset_a := ACA in let asset_b := DOT in
  assert_ok (create_pool (Signed user_1) asset_a asset_b 200000000 (price 3200)) ;;
  assert_ok (create_pool (Signed user_1) asset_a HDX 50000000000 (price 2)) ;;
  let native_pair_account := get_pair_id (AssetPair_new asset_a HDX) in
  let pair_account := get_pair_id (AssetPair_new asset_a asset_b) in
  share_token ← gets (fun s => token_of pair_account s);
  share_token_native ← gets (fun s => token_of native_pair_account s);
  balance_is asset_a user_1 999949800000000 ;; balance_is asset_b user_1 999360000000000 ;;
  balance_is HDX user_1 999900000000000 ;; balance_is share_token user_1 640000000000 ;;
  balance_is asset_a pair_account 200000000 ;; balance_is asset_b pair_account 640000000000 ;;
  assert_ok (buy (Signed user_1) asset_a asset_b 66666666 1000000000000 true) ;;
  balance_is asset_a user_1 999949866666666 ;; balance_is asset_b user_1 999039776004806 ;;
  balance_is share_token user_1 640000000000 ;; balance_is asset_a pair_account 133333334 ;;
  balance_is asset_b pair_account 960223995194 ;; balance_is HDX user_1 999899552000014 ;;
  check (has_events [
      PoolCreated user_1 asset_a asset_b 640000000000 share_token pair_account;
      PoolCreated user_1 asset_a HDX 100000000000 share_token_native native_pair_account;
      BuyExecuted user_1 asset_a asset_b 66666666 319999995201 asset_b 223999993 pair_account])).

Definition create_pool_with_insufficient_liquidity_should_not_work : Test := (new_test_ext,
  assert_noop (create_pool (Signed ALICE) ACA HDX 500 (price 3200)) XykErr.InsufficientLiquidity ;;
  assert_noop (create_pool (Signed ALICE) ACA HDX 5000 100000000000000000)
    XykErr.InsufficientLiquidity ;;
  assert_noop (create_pool (Signed ALICE) ACA HDX 1000 (price 0)) XykErr.ZeroInitialPrice).

Definition add_liquidity_to_non_existing_pool_should_not_work : Test := (new_test_ext,
  assert_noop (add_liquidity (Signed ALICE) HDX ACA 200000000000000000 600000000)
    XykErr.TokenPoolNotFound).

Definition remove_zero_liquidity_from_non_existing_pool_should_not_work : Test := (new_test_ext,
  assert_noop (remove_liquidity (Signed ALICE) HDX ACA 100) XykErr.TokenPoolNotFound).

Definition sell_with_non_existing_pool_should_not_work : Test := (new_test_ext,
  assert_noop (sell (Signed ALICE) HDX DOT 456444678 1000000 false) XykErr.TokenPoolNotFound).

Definition discount_sell_with_no_native_pool_should_not_work : Test := (new_test_ext,
  assert_ok (create_pool (Signed ALICE) ACA DOT 1000 (price 3200)) ;;
  assert_noop (sell (Signed ALICE) ACA DOT 456444678 1000000 true) XykErr.CannotApplyDiscount).

Definition buy_with_non_existing_pool_should_not_work : Test := (new_test_ext,
  assert_noop (buy (Signed ALICE) HDX DOT 456444678 1000000000 false) XykErr.TokenPoolNotFound).

Definition discount_buy_with_no_native_pool_should_not_work : Test := (new_test_ext,
  assert_ok (create_pool (Signed ALICE) ACA DOT 10000 (price 3200)) ;;
  assert_noop (buy (Signed ALICE) ACA DOT 1000 1000000000 true) XykErr.CannotApplyDiscount).

Definition create_pool_small_fixed_point_amount_should_work : Test := (new_test_ext,
  let asset_a := HDX in let asset_b := ACA in
  assert_ok (create_pool (Signed ALICE) asset_a asset_b 100000000000000 10000000000000) ;;
  let pair_account := get_pair_id (AssetPair_new asset_a asset_b) in
  share_token ← gets (fun s => token_of pair_account s);
  balance_is asset_a pair_account 100000000000000 ;;
  balance_is asset_b pair_account 1000000000 ;; balance_is asset_a ALICE 900000000000000 ;;
  balance_is asset_b ALICE 999999000000000 ;; balance_is share_token ALICE 100000000000000 ;;
  check (fun s => total_liquidity pair_account s =? 100000000000000) ;;
  check (has_events [
      PoolCreated ALICE asset_a asset_b 100000000000000 share_token pair_account])).

Definition create_pool_fixed_point_amount_should_work : Test := (new_test_ext,
  let asset_a := HDX in let asset_b := ACA in
  assert_ok (create_pool (Signed ALICE) asset_a asset_b 100000000000 4560234542999999610880) ;;
  let pair_account := get_pair_id (AssetPair_new asset_a asset_b) in
  share_token ← gets (fun s => token_of pair_account s);
  balance_is asset_a pair_account 100000000000 ;;
  balance_is asset_b pair_account 456023454299999 ;; balance_is asset_a ALICE 999900000000000 ;;
  balance_is asset_b ALICE 543976545700001 ;; balance_is share_token ALICE 100000000000 ;;
  check (fun s => total_liquidity pair_account s =? 100000000000) ;;
  check (has_events [
      PoolCreated ALICE asset_a asset_b 100000000000 share_token pair_account])).

Definition money_in_sell_money_out_should_leave_the_same_balance : Test := (new_test_ext,
  let user_1 := ALICE in let asset_a := ACA in let asset_b := DOT in
  user_1_balance_a_before ← gets (fun s => balance asset_a user_1 s);
  user_1_balance_b_before ← gets (fun s => balance asset_b user_1 s);
  assert_ok (create_pool (Signed user_1) asset_a asset_b 200000000000 (price 3000)) ;;
  let pair_account := get_pair_id (AssetPair_new asset_a asset_b) in
  share_token ← gets (fun s => token_of pair_account s);
  balance_is asset_a user_1 999800000000000 ;; balance_is asset_b user_1 400000000000000 ;;
  balance_is share_token user_1 600000000000000 ;;
  balance_is asset_a pair_account 200000000000 ;;
  balance_is asset_b pair_account 600000000000000 ;;
  assert_ok (sell (Signed user_1) asset_a asset_b 456444678 1000000000000 false) ;;
  balance_is asset_a user_1 999799543555322 ;; balance_is asset_b user_1 401363483591788 ;;
  balance_is share_token user_1 600000000000000 ;;
  balance_is asset_a pair_account 200456444678 ;;
  balance_is asset_b pair_account 598636516408212 ;;
  assert_ok (remove_liquidity (Signed user_1) asset_a asset_b 600000000000000) ;;
  user_1_balance_a_after ← gets (fun s => balance asset_a user_1 s);
  user_1_balance_b_after ← gets (fun s => balance asset_b user_1 s);
  check (fun s => user_1_balance_a_before =? user_1_balance_a_after) ;;
  check (fun s => user_1_balance_b_before =? user_1_balance_b_after)).

Definition money_in_money_out_should_leave_the_same_balance_for_both_accounts : Test :=
  (new_test_ext,
  let user_1 := ALICE in let user_2 := BOB in let asset_a := HDX in let asset_b := DOT in
  user_1_balance_a_before ← gets (fun s => balance asset_a user_1 s);
  user_1_balance_b_before ← gets (fun s => balance asset_b user_1 s);
  user_2_balance_a_before ← gets (fun s => balance asset_a user_2 s);
  user_2_balance_b_before ← gets (fun s => balance asset_b user_2 s);
  assert_ok (create_pool (Signed user_1) asset_a asset_b 100000000 (price 10000)) ;;
  let asset_pair := AssetPair_new asset_a asset_b in
  let pair_account := get_pair_id asset_pair in
  share_token ← gets (fun s => token_of pair_account s);
  check (fun s => exists_pool asset_pair s) ;;
  assert_ok (add_liquidity (Signed user_2) asset_a asset_b 100000000 1000000000000) ;;
  balance_is share_token user_1 100000000 ;; balance_is share_token user_2 100000000 ;;
  assert_ok (remove_liquidity (Signed user_1) asset_a asset_b 100000000) ;;
  assert_ok (remove_liquidity (Signed user_2) asset_a asset_b 100000000) ;;
  check (fun s => total_liquidity pair_account s =? 0) ;;
  user_1_balance_a_after ← gets (fun s => balance asset_a user_1 s);
  user_1_balance_b_after ← gets (fun s => balance asset_b user_1 s);
  user_2_balance_a_after ← gets (fun s => balance asset_a user_2 s);
  user_2_balance_b_after ← gets (fun s => balance asset_b user_2 s);
  check (fun s => user_1_balance_a_before =? user_1_balance_a_after) ;;
  check (fun s => user_1_balance_b_before =? user_1_balance_b_after) ;;
  check (fun s => user_2_balance_a_before =? user_2_balance_a_after) ;;
  check (fun s => user_2_balance_b_before =? user_2_balance_b_after) ;;
  check (fun s => negb (exists_pool asset_pair s))).

Definition destroy_pool_on_remove_liquidity_and_recreate_should_work : Test := (new_test_ext,
  let user := ALICE in let asset_a := HDX in let asset_b := DOT in
  assert_ok (create_pool (Signed user) asset_a asset_b 100000000 (price 10000)) ;;
  let asset_pair := AssetPair_new asset_a asset_b in
  let pair_account := get_pair_id asset_pair in
  share_token ← gets (fun s => token_of pair_account s);
  check (fun s => exists_pool asset_pair s) ;;
  assert_ok (remove_liquidity (Signed user) asset_a asset_b 100000000) ;;
  check (fun s => total_liquidity pair_account s =? 0) ;;
  check (fun s => negb (exists_pool asset_pair s)) ;;
  assert_ok (create_pool (Signed user) asset_a asset_b 100000000 (price 10000)) ;;
  check (has_events [
      PoolCreated user asset_a asset_b 100000000 share_token pair_account;
      LiquidityRemoved user asset_a asset_b 100000000;
      PoolDestroyed user asset_a asset_b share_token pair_account;
      PoolCreated user asset_a asset_b 100000000 share_token pair_account])).

Definition create_pool_with_same_assets_should_not_be_allowed : Test := (new_test_ext,
  let user := ALICE in let asset_a := HDX in
  assert_noop (create_pool (Signed user) asset_a asset_a 100000000 (price 10000))
    XykErr.CannotCreatePoolWithSameAssets).

Definition sell_test_not_reaching_limit : Test := (new_test_ext,
  let user_1 := ALICE in let asset_a := ACA in let asset_b := DOT in
  assert_ok (create_pool (Signed user_1) asset_a asset_b 200000000000 (price 3000)) ;;
  let pair_account := get_pair_id (AssetPair_new asset_a asset_b) in
  share_token ← gets (fun s => token_of pair_account s);
  balance_is asset_a user_1 999800000000000 ;; balance_is asset_b user_1 400000000000000 ;;
  balance_is share_token user_1 600000000000000 ;;
  balance_is asset_a pair_account 200000000000 ;;
  balance_is asset_b pair_account 600000000000000 ;;
  assert_noop (sell (Signed user_1) asset_a asset_b 456444678 1000000000000000 false)
    XykErr.AssetAmountNotReachedLimit ;;
  balance_is asset_a user_1 999800000000000 ;; balance_is asset_b user_1 400000000000000 ;;
  balance_is asset_a pair_account 200000000000 ;;
  balance_is asset_b pair_account 600000000000000).

Definition buy_test_exceeding_max_limit : Test := (new_test_ext,
  let user_1 := ALICE in let asset_a := ACA in let asset_b := DOT in
  assert_ok (create_pool (Signed user_1) asset_a asset_b 200000000000 (price 3000)) ;;
  let pair_account := get_pair_id (AssetPair_new asset_a asset_b) in
  share_token ← gets (fun s => token_of pair_account s);
  balance_is asset_a user_1 999800000000000 ;; balance_is asset_b user_1 400000000000000 ;;
  balance_is share_token user_1 600000000000000 ;;
  balance_is asset_a pair_account 200000000000 ;;
  balance_is asset_b pair_account 600000000000000 ;;
  assert_noop (buy (Signed user_1) asset_a asset_b 456444678 1000000000 false)
    XykErr.AssetAmountExceededLimit ;;
  balance_is asset_a user_1 999800000000000 ;; balance_is asset_b user_1 400000000000000 ;;
  balance_is asset_a pair_account 200000000000 ;;
  balance_is asset_b pair_account 600000000000000).

Definition single_buy_more_than_ratio_out_should_not_work : Test := (new_test_ext,
  let user_1 := ALICE in let asset_a := ACA in let asset_b := DOT in
  assert_ok (create_pool (Signed user_1) asset_a asset_b 200000000 (price 3200)) ;;
  let pair_account := get_pair_id (AssetPair_new asset_a asset_b) in
  share_token ← gets (fun s => token_of pair_account s);
  balance_is asset_a user_1 999999800000000 ;; balance_is asset_b user_1 999360000000000 ;;
  balance_is share_token user_1 640000000000 ;; balance_is asset_a pair_account 200000000 ;;
  balance_is asset_b pair_account 640000000000 ;;
  assert_noop (buy (Signed user_1) asset_a asset_b 66666667 1000000000000 false)
    XykErr.MaxOutRatioExceeded).

Definition single_sell_more_than_ratio_in_should_not_work : Test := (new_test_ext,
  let user_1 := ALICE in let asset_a := ACA in let asset_b := DOT in
  assert_ok (create_pool (Signed user_1) asset_a asset_b 200000000000 (price 3000)) ;;
  let pair_account := get_pair_id (AssetPair_new asset_a asset_b) in
  share_token ← gets (fun s => token_of pair_account s);
  balance_is asset_a user_1 999800000000000 ;; balance_is asset_b user_1 400000000000000 ;;
  balance_is share_token user_1 600000000000000 ;;
  balance_is asset_a pair_account 200000000000 ;;
  balance_is asset_b pair_account 600000000000000 ;;
  assert_noop (sell (Signed user_1) asset_a asset_b 66666666667 10000000 false)
    XykErr.MaxInRatioExceeded).

Definition test_calculate_out_given_in : Test := (new_test_ext,
  let in_reserve := 10000000000000 in let out_reserve := 100000 in
  let in_amount := 100000000000 in
  let result := calculate_out_given_in in_reserve out_reserve in_amount in
  check (fun s => bool_decide (result = Some 990))).

Definition test_calculate_out_given_in_invalid : Test := (new_test_ext,
  let in_reserve := 0 in let out_reserve := 1000 in let in_amount := 0 in
  let result := calculate_out_given_in in_reserve out_reserve in_amount in
  check (fun s => bool_decide (result = Some 0))).

Definition test_calculate_in_given_out_insufficient_pool_balance : Test := (new_test_ext,
  let in_reserve := 10000000000000 in let out_reserve := 100000 in
  let out_amount := 100000000000 in
  let result := calculate_in_given_out out_reserve in_reserve out_amount in
  check (fun s => bool_decide (result = None))).

Definition test_calculate_in_given_out : Test := (new_test_ext,
  let in_reserve := 10000000000000 in let out_reserve := 10000000 in
  let out_amount := 1000000 in
  let result := calculate_in_given_out out_reserve in_reserve out_amount in
  check (fun s => bool_decide (result = Some 1111111111112))).

Definition sell_with_low_amount_should_not_work : Test := (new_test_ext,
  assert_noop (sell (Signed ALICE) HDX DOT 1 1000000 false) XykErr.InsufficientTradingAmount).

Definition buy_with_low_amount_should_not_work : Test := (new_test_ext,
  assert_noop (buy (Signed ALICE) HDX DOT 1 1000000 false) XykErr.InsufficientTradingAmount).

Definition buy_with_excesive_amount_should_not_work : Test := (new_test_ext,
  assert_ok (create_pool (Signed ALICE) HDX DOT 10000 (price 1)) ;;
  assert_noop (buy (Signed ALICE) HDX DOT 20000 1000000 false) XykErr.InsufficientPoolAssetBalance).

Definition can_create_pool_should_work : Test := (new_test_ext,
  let asset_a := 10 in let asset_b := 10 in
  assert_noop (create_pool (Signed ALICE) asset_a asset_b 100000000000000 (price 10))
    XykErr.CannotCreatePool).

Definition get_fee_should_work : Test := (new_test_ext,
  assert_ok (create_pool (Signed ALICE) HDX DOT 1000000000 (price 2)) ;;
  fee ← gets (fun s => get_fee HDX_DOT_POOL_ID s);
  check (fun s => bool_decide (fee = (2, 1000))) ;;
  fee ← gets (fun s => get_fee 1234 s);
  check (fun s => bool_decide (fee = (2, 1000)))).

(** [fee_calculation] builds four chains, with different fees. *)
Definition fee_calculation : list Test :=
  let fee_is x := fun r : outcome DispatchError Balance =>
    match r with Ok y => y =? x | _ => false end in
  [(new_test_ext,
    check (fun s => fee_is 7 (fst (calculate_discounted_fee 10000 s))) ;;
    check (fun s => fee_is 70 (fst (calculate_discounted_fee 100000 s))) ;;
    check (fun s => fee_is 200 (fst (calculate_fee 100000 s))) ;;
    check (fun s => fee_is 20 (fst (calculate_fee 10000 s))));
   (new_test_ext,
    check (fun s => fee_is 1000 (fst (calculate_fee (cfg := mock_config (10, 1000)) 100000 s))) ;;
    check (fun s => fee_is 100 (fst (calculate_fee (cfg := mock_config (10, 1000)) 10000 s))));
   (new_test_ext,
    check (fun s => fee_is 0 (fst (calculate_fee (cfg := mock_config (10, 0)) 100000 s))));
   (new_test_ext,
    assert_noop (calculate_fee (cfg := mock_config (10, 1)) u128_MAX) XykErr.FeeAmountInvalid)].

Definition xyk_suite : list Test :=
    [create_pool_should_work; create_same_pool_should_not_work;
     create_pool_overflowing_amount_should_not_work;
     create_pool_with_insufficient_balance_should_not_work; add_liquidity_should_work;
     add_liquidity_as_another_user_should_work; remove_liquidity_should_work;
     remove_liquidity_without_shares_should_not_work;
     remove_liquidity_from_reduced_pool_should_not_work;
     add_liquidity_more_than_owner_should_not_work;
     add_insufficient_liquidity_should_not_work;
     add_liquidity_exceeding_max_limit_should_not_work;
     remove_liquidity_should_respect_min_pool_limit; remove_zero_liquidity_should_not_work;
     sell_test; work_flow_happy_path_should_work; sell_with_correct_fees_should_work;
     discount_sell_fees_should_work; sell_without_sufficient_balance_should_not_work;
     sell_without_sufficient_discount_balance_should_not_work;
     buy_without_sufficient_balance_should_not_work;
     buy_without_sufficient_discount_balance_should_not_work; single_buy_should_work;
     single_buy_with_discount_should_work;
     create_pool_with_insufficient_liquidity_should_not_work;
     add_liquidity_to_non_existing_pool_should_not_work;
     remove_zero_liquidity_from_non_existing_pool_should_not_work;
     sell_with_non_existing_pool_should_not_work;
     discount_sell_with_no_native_pool_should_not_work;
     buy_with_non_existing_pool_should_not_work;
     discount_buy_with_no_native_pool_should_not_work;
     create_pool_small_fixed_point_amount_should_work;
     create_pool_fixed_point_amount_should_work;
     money_in_sell_money_out_should_leave_the_same_balance;
     money_in_money_out_should_leave_the_same_balance_for_both_accounts;
     destroy_pool_on_remove_liquidity_and_recreate_should_work;
     create_pool_with_same_assets_should_not_be_allowed; sell_test_not_reaching_limit;
     buy_test_exceeding_max_limit; single_buy_more_than_ratio_out_should_not_work;
     single_sell_more_than_ratio_in_should_not_work; test_calculate_out_given_in;
     test_calculate_out_given_in_invalid;
     test_calculate_in_given_out_insufficient_pool_balance; test_calculate_in_given_out;
     sell_with_low_amount_should_not_work; buy_with_low_amount_should_not_work;
     buy_with_excesive_amount_should_not_work; can_create_pool_should_work; get_fee_should_work]
     ++ fee_calculation.

(** Every test of the XYK pallet passes on the model. *)
Theorem xyk_tests_pass : suite_passes xyk_suite.
Proof. unfold xyk_suite, fee_calculation. cbv zeta. cbn [app]. run_suite. Qed.
