(* ===== verification/ExchangeTests.v ===== *)
(** * The tests of the exchange pallet

    Models the mock runtime of [src/pallets/exchange/src/mock.rs], the exchange over the XYK
    pallet, and runs the tests of [src/pallets/exchange/src/tests.rs] on the model: intentions
    that match exactly or in part, groups of them, limits, discounts and failures, with the
    balances of every trader and of the pool after the block and the events of both pallets. *)

From S2P Require Import Prelude Primitives Errors Ledger Benchmarks Testing Xyk Interfaces Exchange.

(** ** The mock runtime *)

Definition ALICE : AccountId := 1.
Definition BOB : AccountId := 2.
Definition CHARLIE : AccountId := 3.
Definition DAVE : AccountId := 4.
Definition FERDIE : AccountId := 5.
Definition GEORGE : AccountId := 6.
Definition HDX : AssetId := 1000.
Definition DOT : AssetId := 2000.
Definition ETH : AssetId := 3000.

#[local] Instance Test_config : XykConfig := {|
  NativeAssetId := HDX;
  GetExchangeFee := (2, 1000);
  MinTradingLimit := MIN_TRADING_LIMIT;
  MinPoolLiquidity := MIN_POOL_LIQUIDITY;
  MaxInRatio := MAX_IN_RATIO;
  MaxOutRatio := MAX_OUT_RATIO
|}.
#[local] Existing Instances AssetPairAccountIdTest AllowAllPools.

Notation Pools := (XykState Ledger).
#[local] Instance Test_currency : MultiCurrency Pools := lift_currency.
#[local] Instance Test_reservable : MultiReservable Pools := lift_reservable.
(** The tests run in block 1; an intention's id stands for its hash. *)
#[local] Instance Test_block : BlockNumberProvider Pools := {| block_number _ := 1 |}.
Notation Id := (Z * AccountId * BlockNumber * AssetId * AssetId)%type.
#[local] Instance Test_hash : IntentionHashing Id := {|
  hash_intention c w n a b := (c, w, n, a, b)
|}.
#[local] Instance Test_order : StorageOrder := {| storage_iter := map_to_list |}.
Notation State := (ExchangeState Pools Id).
Notation Test := (State * Dispatch State unit)%type.

(** [ExtBuilder]: every account has the endowed amount of the three assets. *)
Definition endowed_accounts : list AccountId := [ALICE; BOB; CHARLIE; FERDIE; DAVE; GEORGE].
Definition build (token_amount : Balance) : State :=
  mkExchange (mkXyk (tokens_genesis (flat_map
    (fun x => [(x, HDX, token_amount); (x, ETH, token_amount); (x, DOT, token_amount)])
    endowed_accounts)) ∅ ∅ ∅ []) ∅ ∅ [].
Definition endowed : Balance := 100000000000000000.
Definition new_test_ext : State := build endowed.

(** ** What the tests look at *)

#[local] Instance XykEvent_eq_dec : EqDecision XykEvent.
Proof. solve_decision. Defined.
#[local] Instance Pools_eq_dec : EqDecision Pools.
Proof. solve_decision. Defined.
#[local] Instance Intention_eq_dec : EqDecision (ExchangeIntention Id).
Proof. solve_decision. Defined.
#[local] Instance ExchangeEvent_eq_dec : EqDecision (ExchangeEvent Id).
Proof. solve_decision. Defined.
#[local] Instance State_eq_dec : EqDecision State.
Proof. solve_decision. Defined.

Definition balance (c : AssetId) (w : AccountId) (s : State) : Balance :=
  free_balance c w (pools s).
Definition balance_is (c : AssetId) (w : AccountId) (x : Balance) : Dispatch State unit :=
  check (fun s => balance c w s =? x).
Definition has_events (l : list (ExchangeEvent Id)) (s : State) : bool :=
  forallb (fun e => bool_decide (e ∈ exchange_events s)) l.
Definition has_xyk_events (l : list XykEvent) (s : State) : bool :=
  forallb (fun e => bool_decide (e ∈ xyk_events (pools s))) l.
Definition pool_account (p : AssetPair) : AccountId := Xyk.get_pair_id p.
Definition token_of (pool : AccountId) (s : State) : AssetId :=
  default 0 (ShareToken (pools s) !! pool).
Definition move_funds (c : AssetId) (f t : AccountId) (x : Balance) : Dispatch State unit :=
  zoom (C := Pools) (transfer c f t x).
Definition verifies (b : bool) (i : ExchangeIntention Id) : Dispatch State unit :=
  r ← verify_intention i; check (fun _ => Bool.eqb r b).
(** [std::panic::catch_unwind] around a call that is expected to panic. *)
Definition panics (m : Dispatch State unit) : Dispatch State unit :=
  fun s => match m s with (Panic, s') => (Ok tt, s') | (_, s') => (Panic, s') end.

(** The helpers of the tests: the id of an intention for DOT and ETH, and a pool with its
    checks, after which the events are dropped. *)
Definition generate_intention_id (account : AccountId) (c : Z) : Id := (c, account, 1, DOT, ETH).
Definition drop_events (s : State) : State :=
  let p := pools s in
  mkExchange (mkXyk (chain p) (ShareToken p) (TotalLiquidity p) (PoolAssets p) [])
    (ExchangeAssetsIntentionCount s) (ExchangeAssetsIntentions s) [].
Definition initialize_pool (endowed : Balance) (asset_a asset_b : AssetId) (user : AccountId)
    (amount : Balance) (price : Price) : Dispatch State unit :=
  assert_ok (zoom (Xyk.create_pool (Signed user) asset_a asset_b amount price)) ;;
  let amount_b := default 0 (checked_mul_int price amount) in
  let shares := if asset_a <=? asset_b then amount else amount_b in
  let pair_account := pool_account (AssetPair_new asset_a asset_b) in
  share_token ← gets (token_of pair_account);
  check (has_xyk_events [PoolCreated user asset_a asset_b shares share_token pair_account]) ;;
  balance_is asset_a user (endowed - amount) ;; balance_is asset_b user (endowed - amount_b) ;;
  balance_is asset_a pair_account amount ;; balance_is asset_b pair_account amount_b ;;
  balance_is share_token user shares ;;
  modify drop_events.

(** ** The tests *)

Definition no_intentions_should_work : Test := (new_test_ext,
  let user := ALICE in let asset_a := ETH in let asset_b := DOT in
  let pool_amount := 100000000000000 in let initial_price := price 2 in
  let pair_account := pool_account (AssetPair_new asset_a asset_b) in
  initialize_pool endowed asset_a asset_b user pool_amount initial_price ;;
  check (fun s => get_intentions_count (asset_b, asset_a) s =? 0) ;;
  on_finalize ;;
  balance_is asset_a user 99900000000000000 ;; balance_is asset_b user 99800000000000000 ;;
  balance_is asset_a pair_account 100000000000000 ;;
  balance_is asset_b pair_account 200000000000000 ;;
  check (fun s => get_intentions_count (asset_b, asset_a) s =? 0)).

Definition sell_test_pool_finalization_states : Test := (new_test_ext,
  let user_1 := ALICE in let user_2 := BOB in let user_3 := CHARLIE in let asset_a := ETH in
  let asset_b := DOT in let pool_amount := 100000000000000 in let initial_price := price 2 in
  let pair_account := pool_account (AssetPair_new asset_a asset_b) in
  initialize_pool endowed asset_a asset_b user_1 pool_amount initial_price ;;
  assert_ok (Exchange.sell (Signed user_2) asset_a asset_b 2000000000000 20000000000 false) ;;
  let user_2_sell_intention_id := generate_intention_id user_2 0 in
  assert_ok (Exchange.buy (Signed user_3) asset_a asset_b 1000000000000 4000000000000 false) ;;
  let user_3_sell_intention_id := generate_intention_id user_3 1 in
  check (fun s => get_intentions_count (asset_b, asset_a) s =? 2) ;;
  balance_is asset_a user_2 endowed ;; balance_is asset_b user_2 endowed ;;
  balance_is asset_a user_3 endowed ;; balance_is asset_b user_3 endowed ;;
  balance_is asset_a pair_account 100000000000000 ;;
  on_finalize ;;
  check (has_events [
      IntentionRegistered user_2 asset_a asset_b 2000000000000 SELL user_2_sell_intention_id;
      IntentionRegistered user_3 asset_a asset_b 1000000000000 BUY user_3_sell_intention_id;
      IntentionResolvedDirectTrade user_2 user_3 user_2_sell_intention_id
        user_3_sell_intention_id 1000000000000 2000000000000;
      IntentionResolvedDirectTradeFees user_3 user_3_sell_intention_id pair_account asset_b
        8000000000;
      IntentionResolvedAMMTrade user_2 SELL user_2_sell_intention_id 1000000000000 1980277227722
        pair_account]) ;;
  check (has_xyk_events [
      SellExecuted user_2 asset_a asset_b 1000000000000 1976316673268 asset_b 3960554454
        pair_account]) ;;
  balance_is asset_a user_2 99998000000000000 ;; balance_is asset_b user_2 100003972316673268 ;;
  balance_is asset_a user_3 100001000000000000 ;; balance_is asset_b user_3 99997996000000000 ;;
  balance_is asset_a pair_account 101000000000000 ;;
  balance_is asset_b pair_account 198031683326732 ;;
  check (fun s => get_intentions_count (asset_b, asset_a) s =? 0)).

Definition sell_test_standard : Test := (new_test_ext,
  let user_1 := ALICE in let user_2 := BOB in let user_3 := CHARLIE in let asset_a := ETH in
  let asset_b := DOT in let pool_amount := 100000000000000 in let initial_price := price 2 in
  let pair_account := pool_account (AssetPair_new asset_a asset_b) in
  initialize_pool endowed asset_a asset_b user_1 pool_amount initial_price ;;
  assert_ok (Exchange.sell (Signed user_2) asset_a asset_b 2000000000000 300000000000 false) ;;
  let user_2_sell_intention_id := generate_intention_id user_2 0 in
  assert_ok (Exchange.buy (Signed user_3) asset_a asset_b 1000000000000 4000000000000 false) ;;
  let user_3_sell_intention_id := generate_intention_id user_3 1 in
  check (fun s => get_intentions_count (asset_b, asset_a) s =? 2) ;;
  on_finalize ;;
  user_2_balance_a ← gets (fun s => balance asset_a user_2 s);
  user_2_balance_b ← gets (fun s => balance asset_b user_2 s);
  check (fun s => user_2_balance_a =? 99998000000000000) ;;
  check (fun s => user_2_balance_b =? 100003972316673268) ;;
  user_3_balance_a ← gets (fun s => balance asset_a user_3 s);
  user_3_balance_b ← gets (fun s => balance asset_b user_3 s);
  check (fun s => user_3_balance_a =? 100001000000000000) ;;
  check (fun s => user_3_balance_b =? 99997996000000000) ;;
  pool_balance_a ← gets (fun s => balance asset_a pair_account s);
  pool_balance_b ← gets (fun s => balance asset_b pair_account s);
  check (fun s => pool_balance_a =? 101000000000000) ;;
  check (fun s => pool_balance_b =? 198031683326732) ;;
  check (fun s => (user_2_balance_a + user_3_balance_a) + pool_balance_a =? 200100000000000000) ;;
  check (fun s => (user_2_balance_b + user_3_balance_b) + pool_balance_b =? 200200000000000000) ;;
  check (fun s => get_intentions_count (asset_b, asset_a) s =? 0) ;;
  check (has_events [
      IntentionRegistered user_2 asset_a asset_b 2000000000000 SELL user_2_sell_intention_id;
      IntentionRegistered user_3 asset_a asset_b 1000000000000 BUY user_3_sell_intention_id;
      IntentionResolvedDirectTrade user_2 user_3 user_2_sell_intention_id
        user_3_sell_intention_id 1000000000000 2000000000000;
      IntentionResolvedDirectTradeFees user_3 user_3_sell_intention_id pair_account asset_b
        8000000000;
      IntentionResolvedAMMTrade user_2 SELL user_2_sell_intention_id 1000000000000 1980277227722
        pair_account]) ;;
  check (has_xyk_events [
      SellExecuted user_2 3000 2000 1000000000000 1976316673268 2000 3960554454 pair_account])).

Definition sell_test_inverse_standard : Test := (new_test_ext,
  let user_1 := ALICE in let user_2 := BOB in let user_3 := CHARLIE in let asset_a := ETH in
  let asset_b := DOT in let pool_amount := 100000000000000 in let initial_price := price 2 in
  let pair_account := pool_account (AssetPair_new asset_a asset_b) in
  initialize_pool endowed asset_a asset_b user_1 pool_amount initial_price ;;
  assert_ok (Exchange.sell (Signed user_2) asset_a asset_b 1000000000000 100000000000 false) ;;
  let user_2_sell_intention_id := generate_intention_id user_2 0 in
  assert_ok (Exchange.sell (Signed user_3) asset_b asset_a 4000000000000 1000000000000 false) ;;
  let user_3_sell_intention_id := generate_intention_id user_3 1 in
  check (fun s => get_intentions_count (asset_b, asset_a) s =? 2) ;;
  on_finalize ;;
  user_2_balance_a ← gets (fun s => balance asset_a user_2 s);
  user_2_balance_b ← gets (fun s => balance asset_b user_2 s);
  check (fun s => user_2_balance_a =? 99999000000000000) ;;
  check (fun s => user_2_balance_b =? 100001996000000000) ;;
  user_3_balance_a ← gets (fun s => balance asset_a user_3 s);
  user_3_balance_b ← gets (fun s => balance asset_b user_3 s);
  check (fun s => user_3_balance_a =? 100001986118811882) ;;
  check (fun s => user_3_balance_b =? 99996000000000000) ;;
  pool_balance_a ← gets (fun s => balance asset_a pair_account s);
  pool_balance_b ← gets (fun s => balance asset_b pair_account s);
  check (fun s => pool_balance_a =? 99013881188118) ;;
  check (fun s => pool_balance_b =? 202004000000000) ;;
  check (fun s => (user_2_balance_a + user_3_balance_a) + pool_balance_a =? 200100000000000000) ;;
  check (fun s => (user_2_balance_b + user_3_balance_b) + pool_balance_b =? 200200000000000000) ;;
  check (fun s => get_intentions_count (asset_b, asset_a) s =? 0) ;;
  check (has_events [
      IntentionRegistered user_2 asset_a asset_b 1000000000000 SELL user_2_sell_intention_id;
      IntentionRegistered user_3 asset_b asset_a 4000000000000 SELL user_3_sell_intention_id;
      IntentionResolvedAMMTrade user_3 SELL user_3_sell_intention_id 2000000000000 990099009900
        pair_account;
      IntentionResolvedDirectTrade user_2 user_3 user_2_sell_intention_id
        user_3_sell_intention_id 1000000000000 2000000000000;
      IntentionResolvedDirectTradeFees user_2 user_2_sell_intention_id pair_account asset_a
        2000000000;
      IntentionResolvedDirectTradeFees user_3 user_3_sell_intention_id pair_account asset_b
        4000000000]) ;;
  check (has_xyk_events [
      SellExecuted 3 2000 3000 2000000000000 988118811882 3000 1980198018 pair_account])).

Definition sell_test_exact_match : Test := (new_test_ext,
  let user_1 := ALICE in let user_2 := BOB in let user_3 := CHARLIE in let asset_a := ETH in
  let asset_b := DOT in let pool_amount := 100000000000000 in let initial_price := price 2 in
  let pair_account := pool_account (AssetPair_new asset_a asset_b) in
  initialize_pool endowed asset_a asset_b user_1 pool_amount initial_price ;;
  assert_ok (Exchange.sell (Signed user_2) asset_a asset_b 1000000000000 1500000000000 false) ;;
  let user_2_sell_intention_id := generate_intention_id user_2 0 in
  assert_ok (Exchange.sell (Signed user_3) asset_b asset_a 2000000000000 200000000000 false) ;;
  let user_3_sell_intention_id := generate_intention_id user_3 1 in
  check (fun s => get_intentions_count (asset_b, asset_a) s =? 2) ;;
  on_finalize ;;
  balance_is asset_a user_2 99999000000000000 ;; balance_is asset_b user_2 100001996000000000 ;;
  balance_is asset_a user_3 100000998000000000 ;; balance_is asset_b user_3 99998000000000000 ;;
  balance_is asset_a pair_account 100002000000000 ;;
  balance_is asset_b pair_account 200004000000000 ;;
  check (fun s => get_intentions_count (asset_b, asset_a) s =? 0) ;;
  check (has_events [
      IntentionRegistered user_2 asset_a asset_b 1000000000000 SELL user_2_sell_intention_id;
      IntentionRegistered user_3 asset_b asset_a 2000000000000 SELL user_3_sell_intention_id;
      IntentionResolvedDirectTrade user_2 user_3 user_2_sell_intention_id
        user_3_sell_intention_id 1000000000000 2000000000000;
      IntentionResolvedDirectTradeFees user_2 user_2_sell_intention_id pair_account asset_a
        2000000000;
      IntentionResolvedDirectTradeFees user_3 user_3_sell_intention_id pair_account asset_b
        4000000000])).

Definition sell_test_single_eth_sells : Test := (new_test_ext,
  let user_1 := ALICE in let user_2 := BOB in let user_3 := CHARLIE in let asset_a := ETH in
  let asset_b := DOT in let pool_amount := 100000000000000 in let initial_price := price 2 in
  let pair_account := pool_account (AssetPair_new asset_a asset_b) in
  initialize_pool endowed asset_a asset_b user_1 pool_amount initial_price ;;
  assert_ok (Exchange.sell (Signed user_2) asset_a asset_b 1000000000000 100000000000 false) ;;
  let user_2_sell_intention_id := generate_intention_id user_2 0 in
  assert_ok (Exchange.sell (Signed user_3) asset_a asset_b 2000000000000 200000000000 false) ;;
  let user_3_sell_intention_id := generate_intention_id user_3 1 in
  check (fun s => get_intentions_count (asset_b, asset_a) s =? 2) ;;
  on_finalize ;;
  balance_is asset_a user_2 99999000000000000 ;; balance_is asset_b user_2 100001899942737485 ;;
  balance_is asset_a user_3 99998000000000000 ;; balance_is asset_b user_3 100003913725490196 ;;
  balance_is asset_a pair_account 103000000000000 ;;
  balance_is asset_b pair_account 194186331772319 ;;
  check (fun s => get_intentions_count (asset_b, asset_a) s =? 0) ;;
  check (has_events [
      IntentionRegistered user_2 asset_a asset_b 1000000000000 SELL user_2_sell_intention_id;
      IntentionRegistered user_3 asset_a asset_b 2000000000000 SELL user_3_sell_intention_id;
      IntentionResolvedAMMTrade user_3 SELL user_3_sell_intention_id 2000000000000 3921568627450
        pair_account;
      IntentionResolvedAMMTrade user_2 SELL user_2_sell_intention_id 1000000000000 1903750237959
        pair_account]) ;;
  check (has_xyk_events [
      SellExecuted user_3 asset_a asset_b 2000000000000 3913725490196 asset_b 7843137254
        pair_account;
      SellExecuted user_2 asset_a asset_b 1000000000000 1899942737485 asset_b 3807500474
        pair_account])).

Definition sell_test_single_dot_sells : Test := (new_test_ext,
  let user_1 := ALICE in let user_2 := BOB in let user_3 := CHARLIE in let asset_a := ETH in
  let asset_b := DOT in let pool_amount := 100000000000000 in let initial_price := price 2 in
  let pair_account := pool_account (AssetPair_new asset_a asset_b) in
  initialize_pool endowed asset_a asset_b user_1 pool_amount initial_price ;;
  assert_ok (Exchange.sell (Signed user_2) asset_b asset_a 1000000000000 100000000000 false) ;;
  let user_2_sell_intention_id := generate_intention_id user_2 0 in
  assert_ok (Exchange.sell (Signed user_3) asset_b asset_a 2000000000000 200000000000 false) ;;
  let user_3_sell_intention_id := generate_intention_id user_3 1 in
  check (fun s => get_intentions_count (asset_b, asset_a) s =? 2) ;;
  on_finalize ;;
  balance_is asset_a user_2 100000486767770570 ;; balance_is asset_b user_2 99999000000000000 ;;
  balance_is asset_a user_3 100000988118811882 ;; balance_is asset_b user_3 99998000000000000 ;;
  balance_is asset_a pair_account 98525113417548 ;;
  balance_is asset_b pair_account 203000000000000 ;;
  check (fun s => get_intentions_count (asset_b, asset_a) s =? 0) ;;
  check (has_events [
      IntentionRegistered user_2 asset_b asset_a 1000000000000 SELL user_2_sell_intention_id;
      IntentionRegistered user_3 asset_b asset_a 2000000000000 SELL user_3_sell_intention_id;
      IntentionResolvedAMMTrade user_3 SELL user_3_sell_intention_id 2000000000000 990099009900
        pair_account;
      IntentionResolvedAMMTrade user_2 SELL user_2_sell_intention_id 1000000000000 487743257084
        pair_account]) ;;
  check (has_xyk_events [
      SellExecuted user_3 asset_b asset_a 2000000000000 988118811882 asset_a 1980198018
        pair_account;
      SellExecuted user_2 asset_b asset_a 1000000000000 486767770570 asset_a 975486514
        pair_account])).

Definition sell_trade_limits_respected_for_matched_intention : Test := (new_test_ext,
  let user_1 := ALICE in let user_2 := BOB in let user_3 := CHARLIE in let asset_a := ETH in
  let asset_b := DOT in let pool_amount := 100000000000000 in let initial_price := price 2 in
  initialize_pool endowed asset_a asset_b user_1 pool_amount initial_price ;;
  assert_ok (Exchange.sell (Signed user_2) asset_a asset_b 1000000000000 100000000000 false) ;;
  assert_ok (Exchange.sell (Signed user_3) asset_b asset_a 1000000000000 100000000000000000
    false) ;;
  let user_3_sell_intention_id := generate_intention_id user_3 1 in
  let user_2_sell_intention_id := generate_intention_id user_2 0 in
  on_finalize ;;
  let pair_account := pool_account (AssetPair_new asset_a asset_b) in
  check (has_events [
      IntentionRegistered user_2 asset_a asset_b 1000000000000 SELL user_2_sell_intention_id;
      IntentionRegistered user_3 asset_b asset_a 1000000000000 SELL user_3_sell_intention_id;
      IntentionResolveErrorEvent user_3 (AssetPair_new asset_b asset_a) SELL
        user_3_sell_intention_id ExchangeErr.TradeAmountNotReachedLimit;
      IntentionResolvedAMMTrade user_2 SELL user_2_sell_intention_id 1000000000000 1980198019801
        pair_account]) ;;
  check (has_xyk_events [
      SellExecuted user_2 asset_a asset_b 1000000000000 1976237623763 asset_b 3960396038
        pair_account])).

Definition buy_trade_limits_respected_for_matched_intention : Test := (new_test_ext,
  let user_1 := ALICE in let user_2 := BOB in let user_3 := CHARLIE in let asset_a := ETH in
  let asset_b := DOT in let pool_amount := 100000000000000 in let initial_price := price 2 in
  initialize_pool endowed asset_a asset_b user_1 pool_amount initial_price ;;
  assert_ok (Exchange.buy (Signed user_2) asset_b asset_a 1000000000000 10000000000000000 false) ;;
  assert_ok (Exchange.buy (Signed user_3) asset_a asset_b 100000000000 1 false) ;;
  let user_3_buy_intention_id := generate_intention_id user_3 1 in
  let user_2_buy_intention_id := generate_intention_id user_2 0 in
  on_finalize ;;
  let pair_account := pool_account (AssetPair_new asset_a asset_b) in
  check (has_events [
      IntentionRegistered user_2 asset_b asset_a 1000000000000 BUY user_2_buy_intention_id;
      IntentionRegistered user_3 asset_a asset_b 100000000000 BUY user_3_buy_intention_id;
      IntentionResolveErrorEvent user_3 (AssetPair_new asset_b asset_a) BUY
        user_3_buy_intention_id ExchangeErr.TradeAmountExceededLimit;
      IntentionResolvedAMMTrade user_2 BUY user_2_buy_intention_id 1000000000000 503517587939
        pair_account]) ;;
  check (has_xyk_events [
      BuyExecuted user_2 asset_b asset_a 1000000000000 502512562815 asset_a 1005025124
        pair_account])).

Definition sell_test_single_multiple_sells : Test := (new_test_ext,
  let user_1 := ALICE in let user_2 := BOB in let user_3 := CHARLIE in let user_4 := DAVE in
  let user_5 := FERDIE in let user_6 := GEORGE in let asset_a := ETH in let asset_b := DOT in
  let pool_amount := 100000000000000 in let initial_price := price 2 in
  let pair_account := pool_account (AssetPair_new asset_a asset_b) in
  initialize_pool endowed asset_a asset_b user_1 pool_amount initial_price ;;
  assert_ok (Exchange.sell (Signed user_2) asset_a asset_b 1000000000000 100000000000 false) ;;
  let user_2_sell_intention_id := generate_intention_id user_2 0 in
  assert_ok (Exchange.sell (Signed user_3) asset_b asset_a 1000000000000 100000000000 false) ;;
  let user_3_sell_intention_id := generate_intention_id user_3 1 in
  assert_ok (Exchange.sell (Signed user_4) asset_a asset_b 1000000000000 100000000000 false) ;;
  let user_4_sell_intention_id := generate_intention_id user_4 2 in
  assert_ok (Exchange.sell (Signed user_5) asset_b asset_a 1000000000000 100000000000 false) ;;
  let user_5_sell_intention_id := generate_intention_id user_5 3 in
  assert_ok (Exchange.sell (Signed user_6) asset_b asset_a 2000000000000 200000000000 false) ;;
  let user_6_sell_intention_id := generate_intention_id user_6 4 in
  check (fun s => get_intentions_count (asset_b, asset_a) s =? 5) ;;
  on_finalize ;;
  balance_is asset_a user_2 99999000000000000 ;; balance_is asset_b user_2 100001996000000000 ;;
  balance_is asset_a user_3 100000499000000000 ;; balance_is asset_b user_3 99999000000000000 ;;
  balance_is asset_a user_4 99999000000000000 ;; balance_is asset_b user_4 100001996000000000 ;;
  balance_is asset_a user_5 100000499000000000 ;; balance_is asset_b user_5 99999000000000000 ;;
  balance_is asset_a pair_account 100004000000000 ;;
  balance_is asset_b pair_account 200008000000000 ;;
  check (fun s => get_intentions_count (asset_b, asset_a) s =? 0) ;;
  check (has_events [
      IntentionRegistered user_2 asset_a asset_b 1000000000000 SELL user_2_sell_intention_id;
      IntentionRegistered user_3 asset_b asset_a 1000000000000 SELL user_3_sell_intention_id;
      IntentionRegistered user_4 asset_a asset_b 1000000000000 SELL user_4_sell_intention_id;
      IntentionRegistered user_5 asset_b asset_a 1000000000000 SELL user_5_sell_intention_id;
      IntentionRegistered user_6 asset_b asset_a 2000000000000 SELL user_6_sell_intention_id;
      IntentionResolvedDirectTrade user_2 user_6 user_2_sell_intention_id
        user_6_sell_intention_id 1000000000000 2000000000000;
      IntentionResolvedDirectTradeFees user_2 user_2_sell_intention_id pair_account asset_a
        2000000000;
      IntentionResolvedDirectTradeFees user_6 user_6_sell_intention_id pair_account asset_b
        4000000000;
      IntentionResolvedDirectTrade user_4 user_3 user_4_sell_intention_id
        user_3_sell_intention_id 500000000000 1000000000000;
      IntentionResolvedDirectTradeFees user_4 user_4_sell_intention_id pair_account asset_a
        1000000000;
      IntentionResolvedDirectTradeFees user_3 user_3_sell_intention_id pair_account asset_b
        2000000000;
      IntentionResolvedDirectTrade user_4 user_5 user_4_sell_intention_id
        user_5_sell_intention_id 500000000000 1000000000000;
      IntentionResolvedDirectTradeFees user_4 user_4_sell_intention_id pair_account asset_a
        1000000000;
      IntentionResolvedDirectTradeFees user_5 user_5_sell_intention_id pair_account asset_b
        2000000000])).

Definition sell_test_group_sells : Test := (new_test_ext,
  let user_1 := ALICE in let user_2 := BOB in let user_3 := CHARLIE in let user_4 := DAVE in
  let asset_a := ETH in let asset_b := DOT in let pool_amount := 100000000000000 in
  let initial_price := price 2 in
  let pair_account := pool_account (AssetPair_new asset_a asset_b) in
  initialize_pool endowed asset_a asset_b user_1 pool_amount initial_price ;;
  assert_ok (Exchange.sell (Signed user_2) asset_b asset_a 5000000000000 200000000000 false) ;;
  let user_2_sell_intention_id := generate_intention_id user_2 0 in
  assert_ok (Exchange.sell (Signed user_3) asset_b asset_a 3000000000000 200000000000 false) ;;
  let user_3_sell_intention_id := generate_intention_id user_3 1 in
  assert_ok (Exchange.sell (Signed user_4) asset_a asset_b 10000000000000 200000000000 false) ;;
  let user_4_sell_intention_id := generate_intention_id user_4 2 in
  check (fun s => get_intentions_count (asset_b, asset_a) s =? 3) ;;
  on_finalize ;;
  balance_is asset_a user_2 100002495000000000 ;; balance_is asset_b user_2 99995000000000000 ;;
  balance_is asset_a user_3 100001497000000000 ;; balance_is asset_b user_3 99997000000000000 ;;
  balance_is asset_a user_4 99990000000000000 ;; balance_is asset_b user_4 100019282164364955 ;;
  balance_is asset_a pair_account 106008000000000 ;;
  balance_is asset_b pair_account 188717835635045 ;;
  check (fun s => get_intentions_count (asset_b, asset_a) s =? 0) ;;
  check (has_events [
      IntentionRegistered user_2 asset_b asset_a 5000000000000 SELL user_2_sell_intention_id;
      IntentionRegistered user_3 asset_b asset_a 3000000000000 SELL user_3_sell_intention_id;
      IntentionRegistered user_4 asset_a asset_b 10000000000000 SELL user_4_sell_intention_id;
      IntentionResolvedDirectTrade user_4 user_2 user_4_sell_intention_id
        user_2_sell_intention_id 2500000000000 5000000000000;
      IntentionResolvedDirectTradeFees user_4 user_4_sell_intention_id pair_account asset_a
        5000000000;
      IntentionResolvedDirectTradeFees user_2 user_2_sell_intention_id pair_account asset_b
        10000000000;
      IntentionResolvedDirectTrade user_4 user_3 user_4_sell_intention_id
        user_3_sell_intention_id 1500000000000 3000000000000;
      IntentionResolvedDirectTradeFees user_4 user_4_sell_intention_id pair_account asset_a
        3000000000;
      IntentionResolvedDirectTradeFees user_3 user_3_sell_intention_id pair_account asset_b
        6000000000;
      IntentionResolvedAMMTrade user_4 SELL user_4_sell_intention_id 6000000000000 11320805976907
        pair_account]) ;;
  check (has_xyk_events [
      SellExecuted user_4 asset_a asset_b 6000000000000 11298164364955 asset_b 22641611952
        pair_account])).

Definition trades_without_pool_should_not_work : Test := (new_test_ext,
  assert_noop (Exchange.sell (Signed ALICE) HDX ETH 1000 200 false) ExchangeErr.TokenPoolNotFound ;;
  assert_noop (Exchange.buy (Signed ALICE) HDX ETH 1000 200 false) ExchangeErr.TokenPoolNotFound).

Definition trade_min_limit : Test := (new_test_ext,
  assert_noop (Exchange.sell (Signed ALICE) HDX ETH 10 200 false)
    ExchangeErr.MinimumTradeLimitNotReached ;;
  assert_noop (Exchange.buy (Signed ALICE) HDX ETH 10 200 false)
    ExchangeErr.MinimumTradeLimitNotReached).

Definition sell_more_than_owner_should_not_work : Test := (new_test_ext,
  assert_ok (zoom (Xyk.create_pool (Signed ALICE) HDX ETH 200000 (price 2))) ;;
  assert_noop (Exchange.sell (Signed ALICE) HDX ETH (10 * endowed) 1 false)
    ExchangeErr.InsufficientAssetBalance ;;
  assert_noop (Exchange.buy (Signed ALICE) ETH HDX (10 * endowed) 1 false)
    ExchangeErr.InsufficientAssetBalance).

Definition sell_test_mixed_buy_sells : Test := (new_test_ext,
  let user_1 := ALICE in let user_2 := BOB in let user_3 := CHARLIE in let user_4 := DAVE in
  let asset_a := ETH in let asset_b := DOT in let pool_amount := 100000000000000 in
  let initial_price := price 2 in
  let pair_account := pool_account (AssetPair_new asset_a asset_b) in
  initialize_pool endowed asset_a asset_b user_1 pool_amount initial_price ;;
  assert_ok (Exchange.buy (Signed user_2) asset_b asset_a 5000000000000 20000000000000 false) ;;
  let user_2_sell_intention_id := generate_intention_id user_2 0 in
  assert_ok (Exchange.sell (Signed user_3) asset_b asset_a 3000000000000 1400000000000 false) ;;
  let user_3_sell_intention_id := generate_intention_id user_3 1 in
  assert_ok (Exchange.sell (Signed user_4) asset_a asset_b 10000000000000 2000000000000 false) ;;
  let user_4_sell_intention_id := generate_intention_id user_4 2 in
  check (fun s => get_intentions_count (asset_b, asset_a) s =? 3) ;;
  on_finalize ;;
  balance_is asset_a user_2 99996969377448952 ;; balance_is asset_b user_2 100005000000000000 ;;
  balance_is asset_a user_3 100001497000000000 ;; balance_is asset_b user_3 99997000000000000 ;;
  balance_is asset_a user_4 99990000000000000 ;; balance_is asset_b user_4 100018630903108671 ;;
  balance_is asset_a pair_account 111533622551048 ;;
  balance_is asset_b pair_account 179369096891329 ;;
  check (fun s => get_intentions_count (asset_b, asset_a) s =? 0) ;;
  check (has_events [
      IntentionRegistered user_2 asset_b asset_a 5000000000000 BUY user_2_sell_intention_id;
      IntentionRegistered user_3 asset_b asset_a 3000000000000 SELL user_3_sell_intention_id;
      IntentionRegistered user_4 asset_a asset_b 10000000000000 SELL user_4_sell_intention_id;
      IntentionResolvedDirectTrade user_4 user_3 user_4_sell_intention_id
        user_3_sell_intention_id 1500000000000 3000000000000;
      IntentionResolvedDirectTradeFees user_4 user_4_sell_intention_id pair_account asset_a
        3000000000;
      IntentionResolvedDirectTradeFees user_3 user_3_sell_intention_id pair_account asset_b
        6000000000;
      IntentionResolvedAMMTrade user_4 SELL user_4_sell_intention_id 8500000000000 15668239587845
        pair_account;
      IntentionResolvedAMMTrade user_2 BUY user_2_sell_intention_id 5000000000000 3030622551048
        pair_account]) ;;
  check (has_xyk_events [
      SellExecuted user_4 asset_a asset_b 8500000000000 15636903108671 asset_b 31336479174
        pair_account;
      BuyExecuted user_2 asset_b asset_a 5000000000000 3024573404240 asset_a 6049146808
        pair_account])).

Definition discount_tests_no_discount : Test := (new_test_ext,
  let user_1 := ALICE in let user_2 := BOB in let user_3 := CHARLIE in let user_4 := DAVE in
  let asset_a := ETH in let asset_b := DOT in let pool_amount := 100000000000000 in
  let initial_price := price 2 in
  let pair_account := pool_account (AssetPair_new asset_a asset_b) in
  initialize_pool endowed asset_a asset_b user_1 pool_amount initial_price ;;
  assert_ok (Exchange.buy (Signed user_2) asset_b asset_a 5000000000000 20000000000000 false) ;;
  let user_2_sell_intention_id := generate_intention_id user_2 0 in
  assert_ok (Exchange.sell (Signed user_3) asset_b asset_a 3000000000000 1400000000000 false) ;;
  let user_3_sell_intention_id := generate_intention_id user_3 1 in
  assert_ok (Exchange.sell (Signed user_4) asset_a asset_b 10000000000000 2000000000000 false) ;;
  let user_4_sell_intention_id := generate_intention_id user_4 2 in
  check (fun s => get_intentions_count (asset_b, asset_a) s =? 3) ;;
  on_finalize ;;
  balance_is asset_a user_2 99996969377448952 ;; balance_is asset_b user_2 100005000000000000 ;;
  balance_is asset_a user_3 100001497000000000 ;; balance_is asset_b user_3 99997000000000000 ;;
  balance_is asset_a user_4 99990000000000000 ;; balance_is asset_b user_4 100018630903108671 ;;
  balance_is asset_a pair_account 111533622551048 ;;
  balance_is asset_b pair_account 179369096891329 ;;
  check (fun s => get_intentions_count (asset_b, asset_a) s =? 0) ;;
  check (has_events [
      IntentionRegistered user_2 asset_b asset_a 5000000000000 BUY user_2_sell_intention_id;
      IntentionRegistered user_3 asset_b asset_a 3000000000000 SELL user_3_sell_intention_id;
      IntentionRegistered user_4 asset_a asset_b 10000000000000 SELL user_4_sell_intention_id;
      IntentionResolvedDirectTrade user_4 user_3 user_4_sell_intention_id
        user_3_sell_intention_id 1500000000000 3000000000000;
      IntentionResolvedDirectTradeFees user_4 user_4_sell_intention_id pair_account asset_a
        3000000000;
      IntentionResolvedDirectTradeFees user_3 user_3_sell_intention_id pair_account asset_b
        6000000000;
      IntentionResolvedAMMTrade user_4 SELL user_4_sell_intention_id 8500000000000 15668239587845
        pair_account;
      IntentionResolvedAMMTrade user_2 BUY user_2_sell_intention_id 5000000000000 3030622551048
        pair_account]) ;;
  check (has_xyk_events [
      SellExecuted user_4 asset_a asset_b 8500000000000 15636903108671 asset_b 31336479174
        pair_account;
      BuyExecuted user_2 asset_b asset_a 5000000000000 3024573404240 asset_a 6049146808
        pair_account])).

Definition discount_tests_with_discount : Test := (new_test_ext,
  let user_1 := ALICE in let user_2 := BOB in let user_3 := CHARLIE in let user_4 := DAVE in
  let asset_a := ETH in let asset_b := DOT in let pool_amount := 100000000000000 in
  let initial_price := price 2 in
  let pair_account := pool_account (AssetPair_new asset_a asset_b) in
  initialize_pool endowed asset_a asset_b user_1 pool_amount initial_price ;;
  initialize_pool endowed asset_a HDX user_2 pool_amount initial_price ;;
  initialize_pool endowed asset_b HDX user_3 pool_amount initial_price ;;
  assert_ok (Exchange.buy (Signed user_2) asset_b asset_a 5000000000000 20000000000000 true) ;;
  let user_2_sell_intention_id := generate_intention_id user_2 0 in
  assert_ok (Exchange.sell (Signed user_3) asset_b asset_a 3000000000000 1400000000000 true) ;;
  let user_3_sell_intention_id := generate_intention_id user_3 1 in
  assert_ok (Exchange.sell (Signed user_4) asset_a asset_b 10000000000000 2000000000000 true) ;;
  let user_4_sell_intention_id := generate_intention_id user_4 2 in
  check (fun s => get_intentions_count (asset_b, asset_a) s =? 3) ;;
  on_finalize ;;
  balance_is asset_a user_2 99896972965651840 ;; balance_is asset_b user_2 100005000000000000 ;;
  balance_is asset_a user_3 100001497000000000 ;; balance_is asset_b user_3 99897000000000000 ;;
  balance_is asset_a user_4 99990000000000000 ;; balance_is asset_b user_4 100018651271820139 ;;
  balance_is asset_a pair_account 111530034348160 ;;
  balance_is asset_b pair_account 179348728179861 ;; balance_is HDX user_4 99999978064464588 ;;
  balance_is HDX user_2 99799995765116340 ;; balance_is HDX user_3 99800000000000000 ;;
  check (fun s => get_intentions_count (asset_b, asset_a) s =? 0) ;;
  check (has_events [
      IntentionRegistered user_2 asset_b asset_a 5000000000000 BUY user_2_sell_intention_id;
      IntentionRegistered user_3 asset_b asset_a 3000000000000 SELL user_3_sell_intention_id;
      IntentionRegistered user_4 asset_a asset_b 10000000000000 SELL user_4_sell_intention_id;
      IntentionResolvedDirectTrade user_4 user_3 user_4_sell_intention_id
        user_3_sell_intention_id 1500000000000 3000000000000;
      IntentionResolvedDirectTradeFees user_4 user_4_sell_intention_id pair_account asset_a
        3000000000;
      IntentionResolvedDirectTradeFees user_3 user_3_sell_intention_id pair_account asset_b
        6000000000;
      IntentionResolvedAMMTrade user_4 SELL user_4_sell_intention_id 8500000000000 15668239587845
        pair_account;
      IntentionResolvedAMMTrade user_2 BUY user_2_sell_intention_id 5000000000000 3027034348160
        pair_account]) ;;
  check (has_xyk_events [
      SellExecuted user_4 asset_a asset_b 8500000000000 15657271820139 asset_b 10967767706
        pair_account;
      BuyExecuted user_2 asset_b asset_a 5000000000000 3024916906330 asset_a 2117441830
        pair_account])).

Definition buy_test_exact_match : Test := (new_test_ext,
  let user_1 := ALICE in let user_2 := BOB in let user_3 := CHARLIE in let asset_a := ETH in
  let asset_b := DOT in let pool_amount := 100000000000000 in let initial_price := price 2 in
  let pair_account := pool_account (AssetPair_new asset_a asset_b) in
  initialize_pool endowed asset_a asset_b user_1 pool_amount initial_price ;;
  assert_ok (Exchange.buy (Signed user_2) asset_a asset_b 1000000000000 4000000000000 false) ;;
  let user_2_sell_intention_id := generate_intention_id user_2 0 in
  assert_ok (Exchange.buy (Signed user_3) asset_b asset_a 2000000000000 4000000000000 false) ;;
  let user_3_sell_intention_id := generate_intention_id user_3 1 in
  check (fun s => get_intentions_count (asset_b, asset_a) s =? 2) ;;
  on_finalize ;;
  balance_is asset_a user_2 100001000000000000 ;; balance_is asset_b user_2 99997996000000000 ;;
  balance_is asset_a user_3 99998998000000000 ;; balance_is asset_b user_3 100002000000000000 ;;
  balance_is asset_a pair_account 100002000000000 ;;
  balance_is asset_b pair_account 200004000000000 ;;
  check (fun s => get_intentions_count (asset_b, asset_a) s =? 0) ;;
  check (has_events [
      IntentionRegistered user_2 asset_a asset_b 1000000000000 BUY user_2_sell_intention_id;
      IntentionRegistered user_3 asset_b asset_a 2000000000000 BUY user_3_sell_intention_id;
      IntentionResolvedDirectTrade user_3 user_2 user_3_sell_intention_id
        user_2_sell_intention_id 1000000000000 2000000000000;
      IntentionResolvedDirectTradeFees user_3 user_3_sell_intention_id pair_account asset_a
        2000000000;
      IntentionResolvedDirectTradeFees user_2 user_2_sell_intention_id pair_account asset_b
        4000000000])).

Definition buy_test_group_buys : Test := (new_test_ext,
  let user_1 := ALICE in let user_2 := BOB in let user_3 := CHARLIE in let user_4 := DAVE in
  let asset_a := ETH in let asset_b := DOT in let pool_amount := 100000000000000 in
  let initial_price := price 2 in
  let pair_account := pool_account (AssetPair_new asset_a asset_b) in
  initialize_pool endowed asset_a asset_b user_1 pool_amount initial_price ;;
  assert_ok (Exchange.buy (Signed user_2) asset_b asset_a 5000000000000 20000000000000 false) ;;
  let user_2_sell_intention_id := generate_intention_id user_2 0 in
  assert_ok (Exchange.buy (Signed user_3) asset_b asset_a 3000000000000 20000000000000 false) ;;
  let user_3_sell_intention_id := generate_intention_id user_3 1 in
  assert_ok (Exchange.buy (Signed user_4) asset_a asset_b 10000000000000 22000000000000 false) ;;
  let user_4_sell_intention_id := generate_intention_id user_4 2 in
  check (fun s => get_intentions_count (asset_b, asset_a) s =? 3) ;;
  on_finalize ;;
  balance_is asset_a user_2 99997495000000000 ;; balance_is asset_b user_2 100005000000000000 ;;
  balance_is asset_a user_3 99998696090255838 ;; balance_is asset_b user_3 100003000000000000 ;;
  balance_is asset_a user_4 100010000000000000 ;; balance_is asset_b user_4 99978741351351351 ;;
  balance_is asset_a pair_account 93808909744162 ;;
  balance_is asset_b pair_account 213258648648649 ;;
  check (fun s => get_intentions_count (asset_b, asset_a) s =? 0) ;;
  check (has_events [
      IntentionRegistered user_2 asset_b asset_a 5000000000000 BUY user_2_sell_intention_id;
      IntentionRegistered user_3 asset_b asset_a 3000000000000 BUY user_3_sell_intention_id;
      IntentionRegistered user_4 asset_a asset_b 10000000000000 BUY user_4_sell_intention_id;
      IntentionResolvedAMMTrade user_4 BUY user_4_sell_intention_id 7500000000000 16248648648649
        pair_account;
      IntentionResolvedDirectTrade user_2 user_4 user_2_sell_intention_id
        user_4_sell_intention_id 2500000000000 5000000000000;
      IntentionResolvedDirectTradeFees user_2 user_2_sell_intention_id pair_account asset_a
        5000000000;
      IntentionResolvedDirectTradeFees user_4 user_4_sell_intention_id pair_account asset_b
        10000000000;
      IntentionResolvedAMMTrade user_3 BUY user_3_sell_intention_id 3000000000000 1303909744162
        pair_account]) ;;
  check (has_xyk_events [
      BuyExecuted user_4 asset_a asset_b 7500000000000 16216216216217 asset_b 32432432432
        pair_account;
      BuyExecuted user_3 asset_b asset_a 3000000000000 1301307129904 asset_a 2602614258
        pair_account])).

Definition discount_tests_with_error : Test := (new_test_ext,
  let user_1 := ALICE in let user_2 := BOB in let user_3 := CHARLIE in let user_4 := DAVE in
  let asset_a := ETH in let asset_b := DOT in let pool_amount := 100000000000000 in
  let initial_price := price 2 in
  let pair_account := pool_account (AssetPair_new asset_a asset_b) in
  initialize_pool endowed asset_a asset_b user_1 pool_amount initial_price ;;
  assert_ok (Exchange.buy (Signed user_2) asset_b asset_a 5000000000000 20000000000000 true) ;;
  assert_ok (Exchange.sell (Signed user_3) asset_b asset_a 3000000000000 20000000000000 true) ;;
  assert_ok (Exchange.sell (Signed user_4) asset_a asset_b 10000000000000 20000000000000 true) ;;
  let user_2_sell_intention_id := generate_intention_id user_2 0 in
  let user_3_sell_intention_id := generate_intention_id user_3 1 in
  let user_4_sell_intention_id := generate_intention_id user_4 2 in
  check (fun s => get_intentions_count (asset_b, asset_a) s =? 3) ;;
  on_finalize ;;
  balance_is asset_a user_2 100000000000000000 ;;
  balance_is asset_b user_2 100000000000000000 ;;
  balance_is asset_a user_3 100000000000000000 ;;
  balance_is asset_b user_3 100000000000000000 ;;
  balance_is asset_a user_4 100000000000000000 ;;
  balance_is asset_b user_4 100000000000000000 ;;
  balance_is asset_a pair_account 100000000000000 ;;
  balance_is asset_b pair_account 200000000000000 ;; balance_is HDX user_4 endowed ;;
  balance_is HDX user_2 endowed ;; balance_is HDX user_3 endowed ;;
  check (fun s => get_intentions_count (asset_b, asset_a) s =? 0) ;;
  check (has_events [
      IntentionRegistered user_2 asset_b asset_a 5000000000000 BUY user_2_sell_intention_id;
      IntentionRegistered user_3 asset_b asset_a 3000000000000 SELL user_3_sell_intention_id;
      IntentionRegistered user_4 asset_a asset_b 10000000000000 SELL user_4_sell_intention_id;
      IntentionResolveErrorEvent user_4 (AssetPair_new asset_a asset_b) SELL
        user_4_sell_intention_id XykErr.CannotApplyDiscount;
      IntentionResolveErrorEvent user_2 (AssetPair_new asset_a asset_b) BUY
        user_2_sell_intention_id XykErr.CannotApplyDiscount;
      IntentionResolveErrorEvent user_3 (AssetPair_new asset_b asset_a) SELL
        user_3_sell_intention_id XykErr.CannotApplyDiscount])).

Definition simple_sell_sell : Test := (new_test_ext,
  let user_1 := ALICE in let user_2 := BOB in let user_3 := CHARLIE in let asset_a := ETH in
  let asset_b := DOT in let pool_amount := 100000000 in let initial_price := price 2 in
  let pair_account := pool_account (AssetPair_new asset_a asset_b) in
  initialize_pool endowed asset_a asset_b user_1 pool_amount initial_price ;;
  assert_ok (Exchange.sell (Signed user_2) asset_a asset_b 2000 400 false) ;;
  assert_ok (Exchange.sell (Signed user_3) asset_b asset_a 1000 400 false) ;;
  let user_2_sell_intention_id := generate_intention_id user_2 0 in
  let user_3_sell_intention_id := generate_intention_id user_3 1 in
  balance_is asset_a pair_account 100000000 ;; balance_is asset_b pair_account 200000000 ;;
  on_finalize ;;
  balance_is asset_a user_2 99999999999998000 ;; balance_is asset_b user_2 100000000000003993 ;;
  balance_is asset_a user_3 100000000000000500 ;; balance_is asset_b user_3 99999999999999000 ;;
  balance_is asset_a pair_account 100001500 ;; balance_is asset_b pair_account 199997007 ;;
  check (has_events [
      IntentionRegistered user_2 asset_a asset_b 2000 SELL user_2_sell_intention_id;
      IntentionRegistered user_3 asset_b asset_a 1000 SELL user_3_sell_intention_id;
      IntentionResolvedDirectTrade user_2 user_3 user_2_sell_intention_id
        user_3_sell_intention_id 500 1000;
      IntentionResolvedDirectTradeFees user_2 user_2_sell_intention_id pair_account asset_a 0;
      IntentionResolvedDirectTradeFees user_3 user_3_sell_intention_id pair_account asset_b 2;
      IntentionResolvedAMMTrade user_2 SELL user_2_sell_intention_id 1500 2999 pair_account]) ;;
  check (has_xyk_events [
      SellExecuted 2 3000 2000 1500 2995 2000 4 pair_account])).

Definition simple_buy_buy : Test := (new_test_ext,
  let user_1 := ALICE in let user_2 := BOB in let user_3 := CHARLIE in let asset_a := ETH in
  let asset_b := DOT in let pool_amount := 100000000 in let initial_price := price 2 in
  let pair_account := pool_account (AssetPair_new asset_a asset_b) in
  initialize_pool endowed asset_a asset_b user_1 pool_amount initial_price ;;
  assert_ok (Exchange.buy (Signed user_2) asset_a asset_b 2000 5000 false) ;;
  assert_ok (Exchange.buy (Signed user_3) asset_b asset_a 1000 5000 false) ;;
  let user_2_sell_intention_id := generate_intention_id user_2 0 in
  let user_3_sell_intention_id := generate_intention_id user_3 1 in
  balance_is asset_a pair_account 100000000 ;; balance_is asset_b pair_account 200000000 ;;
  on_finalize ;;
  balance_is asset_a user_2 100000000000002000 ;; balance_is asset_b user_2 99999999999995991 ;;
  balance_is asset_a user_3 99999999999999500 ;; balance_is asset_b user_3 100000000000001000 ;;
  balance_is asset_a pair_account 99998500 ;; balance_is asset_b pair_account 200003009 ;;
  check (has_events [
      IntentionRegistered user_2 asset_a asset_b 2000 BUY user_2_sell_intention_id;
      IntentionRegistered user_3 asset_b asset_a 1000 BUY user_3_sell_intention_id;
      IntentionResolvedAMMTrade user_2 BUY user_2_sell_intention_id 1500 3007 pair_account;
      IntentionResolvedDirectTrade user_3 user_2 user_3_sell_intention_id
        user_2_sell_intention_id 500 1000;
      IntentionResolvedDirectTradeFees user_3 user_3_sell_intention_id pair_account asset_a 0;
      IntentionResolvedDirectTradeFees user_2 user_2_sell_intention_id pair_account asset_b 2]) ;;
  check (has_xyk_events [
      BuyExecuted 2 3000 2000 1500 3001 2000 6 pair_account])).

Definition simple_sell_buy : Test := (new_test_ext,
  let user_1 := ALICE in let user_2 := BOB in let user_3 := CHARLIE in let asset_a := ETH in
  let asset_b := DOT in let pool_amount := 100000000 in let initial_price := price 2 in
  let pair_account := pool_account (AssetPair_new asset_a asset_b) in
  initialize_pool endowed asset_a asset_b user_1 pool_amount initial_price ;;
  assert_ok (Exchange.sell (Signed user_2) asset_a asset_b 2000 400 false) ;;
  assert_ok (Exchange.buy (Signed user_3) asset_a asset_b 1000 2000 false) ;;
  let user_2_sell_intention_id := generate_intention_id user_2 0 in
  let user_3_sell_intention_id := generate_intention_id user_3 1 in
  balance_is asset_a pair_account 100000000 ;; balance_is asset_b pair_account 200000000 ;;
  on_finalize ;;
  balance_is asset_a user_2 99999999999998000 ;; balance_is asset_b user_2 100000000000003993 ;;
  balance_is asset_a user_3 100000000000001000 ;; balance_is asset_b user_3 99999999999997996 ;;
  balance_is asset_a pair_account 100001000 ;; balance_is asset_b pair_account 199998011 ;;
  check (has_events [
      IntentionRegistered user_2 asset_a asset_b 2000 SELL user_2_sell_intention_id;
      IntentionRegistered user_3 asset_a asset_b 1000 BUY user_3_sell_intention_id;
      IntentionResolvedDirectTrade user_2 user_3 user_2_sell_intention_id
        user_3_sell_intention_id 1000 2000;
      IntentionResolvedDirectTradeFees user_3 user_3_sell_intention_id pair_account asset_b 8;
      IntentionResolvedAMMTrade user_2 SELL user_2_sell_intention_id 1000 1999 pair_account]) ;;
  check (has_xyk_events [
      SellExecuted 2 3000 2000 1000 1997 2000 2 pair_account])).

Definition simple_buy_sell : Test := (new_test_ext,
  let user_1 := ALICE in let user_2 := BOB in let user_3 := CHARLIE in let asset_a := ETH in
  let asset_b := DOT in let pool_amount := 100000000 in let initial_price := price 2 in
  let pair_account := pool_account (AssetPair_new asset_a asset_b) in
  initialize_pool endowed asset_a asset_b user_1 pool_amount initial_price ;;
  assert_ok (Exchange.buy (Signed user_2) asset_a asset_b 2000 5000 false) ;;
  assert_ok (Exchange.sell (Signed user_3) asset_a asset_b 1000 1500 false) ;;
  let user_2_sell_intention_id := generate_intention_id user_2 0 in
  let user_3_sell_intention_id := generate_intention_id user_3 1 in
  balance_is asset_a pair_account 100000000 ;; balance_is asset_b pair_account 200000000 ;;
  on_finalize ;;
  balance_is asset_a user_2 100000000000002000 ;; balance_is asset_b user_2 99999999999995991 ;;
  balance_is asset_a user_3 99999999999999000 ;; balance_is asset_b user_3 100000000000001996 ;;
  balance_is asset_a pair_account 99999000 ;; balance_is asset_b pair_account 200002013 ;;
  check (has_events [
      IntentionRegistered user_2 asset_a asset_b 2000 BUY user_2_sell_intention_id;
      IntentionRegistered user_3 asset_a asset_b 1000 SELL user_3_sell_intention_id;
      IntentionResolvedAMMTrade user_2 BUY user_2_sell_intention_id 1000 2005 pair_account;
      IntentionResolvedDirectTrade user_3 user_2 user_3_sell_intention_id
        user_2_sell_intention_id 1000 2000;
      IntentionResolvedDirectTradeFees user_2 user_2_sell_intention_id pair_account asset_b 8]) ;;
  check (has_xyk_events [
      BuyExecuted user_2 3000 2000 1000 2001 2000 4 pair_account])).

Definition single_sell_intention_test : Test := (new_test_ext,
  let user_1 := ALICE in let user_2 := BOB in let asset_a := ETH in let asset_b := DOT in
  let pool_amount := 100000000000000 in let initial_price := price 2 in
  let pair_account := pool_account (AssetPair_new asset_a asset_b) in
  initialize_pool endowed asset_a asset_b user_1 pool_amount initial_price ;;
  assert_ok (Exchange.sell (Signed user_2) asset_a asset_b 2000000000000 400000000000 false) ;;
  let user_2_sell_intention_id := generate_intention_id user_2 0 in
  check (fun s => get_intentions_count (asset_b, asset_a) s =? 1) ;;
  on_finalize ;;
  balance_is asset_a user_2 99998000000000000 ;; balance_is asset_b user_2 100003913725490196 ;;
  balance_is asset_a pair_account 102000000000000 ;;
  balance_is asset_b pair_account 196086274509804 ;;
  check (fun s => get_intentions_count (asset_b, asset_a) s =? 0) ;;
  check (has_events [
      IntentionRegistered user_2 asset_a asset_b 2000000000000 SELL user_2_sell_intention_id;
      IntentionResolvedAMMTrade user_2 SELL user_2_sell_intention_id 2000000000000 3921568627450
        pair_account]) ;;
  check (has_xyk_events [
      SellExecuted 2 3000 2000 2000000000000 3913725490196 2000 7843137254 pair_account])).

Definition single_buy_intention_test : Test := (new_test_ext,
  let user_1 := ALICE in let user_2 := BOB in let asset_a := ETH in let asset_b := DOT in
  let pool_amount := 100000000000000 in let initial_price := price 2 in
  let pair_account := pool_account (AssetPair_new asset_a asset_b) in
  initialize_pool endowed asset_a asset_b user_1 pool_amount initial_price ;;
  assert_ok (Exchange.buy (Signed user_2) asset_a asset_b 2000000000000 15000000000000 false) ;;
  let user_2_sell_intention_id := generate_intention_id user_2 0 in
  check (fun s => get_intentions_count (asset_b, asset_a) s =? 1) ;;
  on_finalize ;;
  balance_is asset_a user_2 100002000000000000 ;; balance_is asset_b user_2 99995910204081632 ;;
  balance_is asset_a pair_account 98000000000000 ;;
  balance_is asset_b pair_account 204089795918368 ;;
  check (fun s => get_intentions_count (asset_b, asset_a) s =? 0) ;;
  check (has_events [
      IntentionRegistered user_2 asset_a asset_b 2000000000000 BUY user_2_sell_intention_id;
      IntentionResolvedAMMTrade user_2 BUY user_2_sell_intention_id 2000000000000 4089795918368
        pair_account]) ;;
  check (has_xyk_events [
      BuyExecuted 2 3000 2000 2000000000000 4081632653062 2000 8163265306 pair_account])).

Definition simple_sell_sell_with_error_should_not_pass : Test := (new_test_ext,
  let user_1 := ALICE in let user_2 := BOB in let user_3 := CHARLIE in let asset_a := ETH in
  let asset_b := DOT in let pool_amount := 100000000 in let initial_price := price 2 in
  let pair_account := pool_account (AssetPair_new asset_a asset_b) in
  initialize_pool endowed asset_a asset_b user_1 pool_amount initial_price ;;
  assert_ok (Exchange.sell (Signed user_2) asset_a asset_b 2000 5000 false) ;;
  let user_2_sell_intention_id := generate_intention_id user_2 0 in
  assert_ok (Exchange.sell (Signed user_3) asset_b asset_a 1000 5000 false) ;;
  let user_3_sell_intention_id := generate_intention_id user_3 1 in
  balance_is asset_a pair_account 100000000 ;; balance_is asset_b pair_account 200000000 ;;
  on_finalize ;;
  balance_is asset_a user_2 100000000000000000 ;;
  balance_is asset_b user_2 100000000000000000 ;;
  balance_is asset_a user_3 100000000000000000 ;;
  balance_is asset_b user_3 100000000000000000 ;; balance_is asset_a pair_account 100000000 ;;
  balance_is asset_b pair_account 200000000 ;;
  check (has_events [
      IntentionRegistered user_2 asset_a asset_b 2000 SELL user_2_sell_intention_id;
      IntentionRegistered user_3 asset_b asset_a 1000 SELL user_3_sell_intention_id;
      IntentionResolveErrorEvent user_2 (AssetPair_new asset_a asset_b) SELL
        user_2_sell_intention_id XykErr.AssetAmountNotReachedLimit;
      IntentionResolveErrorEvent user_3 (AssetPair_new asset_b asset_a) SELL
        user_3_sell_intention_id XykErr.AssetAmountNotReachedLimit])).

Definition matching_limits_buy_buy_should_work : Test := (new_test_ext,
  let one := 1000000000000 in let user_1 := ALICE in let user_2 := BOB in
  let user_3 := CHARLIE in let asset_a := HDX in let asset_b := DOT in
  let pool_amount := 1000 * one in let initial_price := price 2 in
  let pair_account := pool_account (AssetPair_new asset_a asset_b) in
  initialize_pool endowed asset_a asset_b user_1 pool_amount initial_price ;;
  balance_is asset_a pair_account (1000 * one) ;;
  balance_is asset_b pair_account (2000 * one) ;; balance_is asset_a user_2 (100000 * one) ;;
  balance_is asset_b user_2 (100000 * one) ;;
  assert_ok (Exchange.buy (Signed user_2) asset_a asset_b 100000000000000 223333333333334 false) ;;
  let b := 1 in let user_2_sell_intention_id := (0, user_2, b, HDX, DOT) in
  assert_ok (Exchange.buy (Signed user_3) asset_b asset_a (220 * one) 124213483146068 false) ;;
  let user_3_sell_intention_id := (1, user_3, b, HDX, DOT) in
  on_finalize ;;
  balance_is asset_a user_2 (100100 * one) ;; balance_is asset_b user_2 99799600000000000 ;;
  balance_is asset_a pair_account 1010321212121213 ;;
  balance_is asset_b pair_account 1980400000000000 ;;
  check (has_events [
      IntentionRegistered user_2 asset_a asset_b (100 * one) BUY user_2_sell_intention_id;
      IntentionRegistered user_3 asset_b asset_a (220 * one) BUY user_3_sell_intention_id;
      IntentionResolvedAMMTrade user_3 BUY user_3_sell_intention_id 20000000000000 10121212121213
        pair_account;
      IntentionResolvedDirectTrade user_2 user_3 user_2_sell_intention_id
        user_3_sell_intention_id 200000000000000 100000000000000;
      IntentionResolvedDirectTradeFees user_2 user_2_sell_intention_id pair_account asset_b
        400000000000;
      IntentionResolvedDirectTradeFees user_3 user_3_sell_intention_id pair_account asset_a
        200000000000]) ;;
  check (has_xyk_events [
      BuyExecuted 3 asset_b asset_a 20000000000000 10101010101011 asset_a 20202020202
        pair_account])).

Definition matching_limits_sell_buy_should_work : Test := (new_test_ext,
  let one := 1000000000000 in let user_1 := ALICE in let user_2 := BOB in
  let user_3 := CHARLIE in let asset_a := HDX in let asset_b := DOT in
  let pool_amount := 1000 * one in let initial_price := price 2 in
  let pair_account := pool_account (AssetPair_new asset_a asset_b) in
  initialize_pool endowed asset_a asset_b user_1 pool_amount initial_price ;;
  balance_is asset_a pair_account (1000 * one) ;;
  balance_is asset_b pair_account (2000 * one) ;; balance_is asset_a user_2 (100000 * one) ;;
  balance_is asset_b user_2 (100000 * one) ;;
  assert_ok (Exchange.buy (Signed user_2) asset_a asset_b 30000000000000 62164948453608 false) ;;
  let b := 1 in let user_2_sell_intention_id := (0, user_2, b, HDX, DOT) in
  assert_ok (Exchange.sell (Signed user_3) asset_a asset_b (50 * one) 94761904761906 false) ;;
  let user_3_sell_intention_id := (1, user_3, b, HDX, DOT) in
  on_finalize ;;
  balance_is asset_a user_2 (100030 * one) ;; balance_is asset_b user_2 99939880000000000 ;;
  balance_is asset_a pair_account 1020000000000000 ;;
  balance_is asset_b pair_account 1961102745098039 ;;
  check (has_events [
      IntentionRegistered user_2 asset_a asset_b (30 * one) BUY user_2_sell_intention_id;
      IntentionRegistered user_3 asset_a asset_b (50 * one) SELL user_3_sell_intention_id;
      IntentionResolvedAMMTrade user_3 SELL user_3_sell_intention_id 20000000000000
        39215686274509 pair_account;
      IntentionResolvedDirectTrade user_2 user_3 user_2_sell_intention_id
        user_3_sell_intention_id 60000000000000 30000000000000;
      IntentionResolvedDirectTradeFees user_2 user_2_sell_intention_id pair_account asset_b
        240000000000]) ;;
  check (has_xyk_events [
      SellExecuted 3 asset_a asset_b 20000000000000 39137254901961 asset_b 78431372548
        pair_account])).

Definition exact_match_limit_should_work : Test := (new_test_ext,
  let one := 1000000000000 in let user_1 := ALICE in let user_2 := BOB in
  let user_3 := CHARLIE in let asset_a := HDX in let asset_b := DOT in
  let pool_amount := 1000 * one in let initial_price := price 2 in
  let pair_account := pool_account (AssetPair_new asset_a asset_b) in
  initialize_pool endowed asset_a asset_b user_1 pool_amount initial_price ;;
  balance_is asset_a pair_account (1000 * one) ;;
  balance_is asset_b pair_account (2000 * one) ;; balance_is asset_a user_2 (100000 * one) ;;
  balance_is asset_b user_2 (100000 * one) ;;
  assert_ok (Exchange.buy (Signed user_2) asset_a asset_b 50000000000000 106315789473684 false) ;;
  let b := 1 in let user_2_sell_intention_id := (0, user_2, b, HDX, DOT) in
  assert_ok (Exchange.buy (Signed user_3) asset_b asset_a 100000000000000 53157894736843 false) ;;
  let user_3_sell_intention_id := (1, user_3, b, HDX, DOT) in
  on_finalize ;;
  balance_is asset_a user_2 100050000000000000 ;; balance_is asset_b user_2 99899800000000000 ;;
  balance_is asset_a user_3 99949900000000000 ;; balance_is asset_b user_3 100100000000000000 ;;
  balance_is asset_a pair_account 1000100000000000 ;;
  balance_is asset_b pair_account 2000200000000000 ;;
  check (has_events [
      IntentionRegistered user_2 asset_a asset_b (50 * one) BUY user_2_sell_intention_id;
      IntentionRegistered user_3 asset_b asset_a (100 * one) BUY user_3_sell_intention_id;
      IntentionResolvedDirectTrade user_2 user_3 user_2_sell_intention_id
        user_3_sell_intention_id (100 * one) (50 * one);
      IntentionResolvedDirectTradeFees user_2 user_2_sell_intention_id pair_account asset_b
        200000000000;
      IntentionResolvedDirectTradeFees user_3 user_3_sell_intention_id pair_account asset_a
        100000000000])).

Definition matching_limit_scenario_2 : Test := (new_test_ext,
  let one := 1000000000000 in let user_1 := ALICE in let user_2 := BOB in
  let user_3 := CHARLIE in let asset_a := HDX in let asset_b := DOT in
  let pool_amount := 1000 * one in let initial_price := price 2 in
  let pair_account := pool_account (AssetPair_new asset_a asset_b) in
  initialize_pool endowed asset_a asset_b user_1 pool_amount initial_price ;;
  balance_is asset_a pair_account (1000 * one) ;;
  balance_is asset_b pair_account (2000 * one) ;; balance_is asset_a user_2 (100000 * one) ;;
  balance_is asset_b user_2 (100000 * one) ;;
  assert_ok (Exchange.buy (Signed user_2) asset_a asset_b 100000000000000 223067143076693 false) ;;
  let b := 1 in let user_2_sell_intention_id := (0, user_2, b, HDX, DOT) in
  assert_ok (Exchange.buy (Signed user_3) asset_b asset_a 180000000000000 220242387444707 false) ;;
  let user_3_sell_intention_id := (1, user_3, b, HDX, DOT) in
  on_finalize ;;
  balance_is asset_a user_2 100100000000000000 ;; balance_is asset_b user_2 99799397612555294 ;;
  balance_is asset_a user_3 99909820000000000 ;; balance_is asset_b user_3 100180000000000000 ;;
  balance_is asset_a pair_account 990180000000000 ;;
  balance_is asset_b pair_account 2020602387444706 ;;
  check (has_events [
      IntentionRegistered user_2 asset_a asset_b (100 * one) BUY user_2_sell_intention_id;
      IntentionRegistered user_3 asset_b asset_a (180 * one) BUY user_3_sell_intention_id;
      IntentionResolvedDirectTrade user_2 user_3 user_2_sell_intention_id
        user_3_sell_intention_id (180 * one) (90 * one);
      IntentionResolvedDirectTradeFees user_2 user_2_sell_intention_id pair_account asset_b
        360000000000;
      IntentionResolvedDirectTradeFees user_3 user_3_sell_intention_id pair_account asset_a
        180000000000;
      IntentionResolvedAMMTrade user_2 BUY user_2_sell_intention_id 10000000000000 20242387444706
        pair_account]) ;;
  check (has_xyk_events [
      BuyExecuted user_2 asset_a asset_b 10000000000000 20201983477752 asset_b 40403966954
        pair_account])).

Definition matching_limit_scenario_3 : Test := (new_test_ext,
  let one := 1000000000000 in let user_1 := ALICE in let user_2 := BOB in
  let user_3 := CHARLIE in let asset_a := HDX in let asset_b := DOT in
  let pool_amount := 1000 * one in let initial_price := price 2 in
  let pair_account := pool_account (AssetPair_new asset_a asset_b) in
  initialize_pool endowed asset_a asset_b user_1 pool_amount initial_price ;;
  balance_is asset_a pair_account (1000 * one) ;;
  balance_is asset_b pair_account (2000 * one) ;; balance_is asset_a user_2 (100000 * one) ;;
  balance_is asset_b user_2 (100000 * one) ;;
  assert_ok (Exchange.buy (Signed user_2) asset_a asset_b 150000000000000 356315789473684 false) ;;
  let b := 1 in let user_2_sell_intention_id := (0, user_2, b, HDX, DOT) in
  assert_ok (Exchange.buy (Signed user_3) asset_b asset_a 200000000000000 253157894736843 false) ;;
  let user_3_sell_intention_id := (1, user_3, b, HDX, DOT) in
  on_finalize ;;
  balance_is asset_a user_2 100150000000000000 ;; balance_is asset_b user_2 99694127425805095 ;;
  balance_is asset_a user_3 99899800000000000 ;; balance_is asset_b user_3 100200000000000000 ;;
  balance_is asset_a pair_account 950200000000000 ;;
  balance_is asset_b pair_account 2105872574194905 ;;
  check (has_events [
      IntentionRegistered user_2 asset_a asset_b (150 * one) BUY user_2_sell_intention_id;
      IntentionRegistered user_3 asset_b asset_a (200 * one) BUY user_3_sell_intention_id;
      IntentionResolvedDirectTrade user_2 user_3 user_2_sell_intention_id
        user_3_sell_intention_id (200 * one) (100 * one);
      IntentionResolvedDirectTradeFees user_2 user_2_sell_intention_id pair_account asset_b
        400000000000;
      IntentionResolvedDirectTradeFees user_3 user_3_sell_intention_id pair_account asset_a
        200000000000;
      IntentionResolvedAMMTrade user_2 BUY user_2_sell_intention_id 50000000000000
        105472574194905 pair_account]) ;;
  check (has_xyk_events [
      BuyExecuted user_2 asset_a asset_b 50000000000000 105262050094717 asset_b 210524100188
        pair_account])).

Definition process_invalid_intention_should_work : Test := (new_test_ext,
  let one := 1000000000000 in let user := ALICE in let asset_a := HDX in let asset_b := DOT in
  let pool_amount := 1000 * one in let initial_price := price 2 in
  let pair_account := pool_account (AssetPair_new asset_a asset_b) in
  initialize_pool endowed asset_a asset_b user pool_amount initial_price ;;
  let main_intention := mkIntention user (AssetPair_new asset_b asset_a) 2000000 (10 *
    pool_amount) 10000000 false BUY (generate_intention_id user 0) in
  let intentions_a := [main_intention] in
  process_exchange_intentions pair_account intentions_a [] ;;
  balance_is asset_a user 99000000000000000 ;; balance_is asset_b user 98000000000000000 ;;
  balance_is asset_a pair_account 1000000000000000 ;;
  balance_is asset_b pair_account 2000000000000000).

Definition main_intention_greater_than_matched_should_work : Test := (new_test_ext,
  let user_1 := ALICE in let user_2 := BOB in let asset_a := HDX in let asset_b := DOT in
  let pool_amount := 1000000000000000 in let initial_price := price 2 in
  let pair_account := pool_account (AssetPair_new asset_a asset_b) in
  initialize_pool endowed asset_a asset_b user_1 pool_amount initial_price ;;
  let main_intention := mkIntention user_1 (AssetPair_new asset_b asset_a) 2000000 1000000
    10000000 false BUY (generate_intention_id user_1 0) in
  let matched_intention := mkIntention user_2 (AssetPair_new asset_a asset_b) 3000000 6000000 10
    false SELL (generate_intention_id user_2 1) in
  let intentions_a := [main_intention] in let intentions_b := [matched_intention] in
  process_exchange_intentions pair_account intentions_a intentions_b ;;
  balance_is asset_a pair_account 1000000002000000 ;;
  balance_is asset_b pair_account 1999999996015999 ;;
  balance_is asset_a user_1 99000000001000000 ;; balance_is asset_b user_1 97999999997996000 ;;
  balance_is asset_a user_2 99999999997000000 ;; balance_is asset_b user_2 100000000005988001).

Definition in_out_calculations_error_should_work : Test := (new_test_ext,
  let user_1 := ALICE in let user_2 := BOB in let asset_a := HDX in let asset_b := DOT in
  let pool_amount := 1000000000000000 in let initial_price := price 2 in
  let pair_account := pool_account (AssetPair_new asset_a asset_b) in
  initialize_pool endowed asset_a asset_b user_1 pool_amount initial_price ;;
  let main_intention := mkIntention user_1 (AssetPair_new asset_b asset_a) 3000000 1000000
    10000000 false BUY (generate_intention_id user_1 0) in
  let matched_intention := mkIntention user_2 (AssetPair_new asset_a asset_b) 3000000 2000000 10
    false SELL (generate_intention_id user_2 1) in
  let intentions_a := [main_intention] in let intentions_b := [matched_intention] in
  panics (process_exchange_intentions pair_account intentions_a intentions_b) ;;
  let main_intention := mkIntention user_1 (AssetPair_new asset_b asset_a) 1000000 2000000
    10000000 false BUY (generate_intention_id user_1 2) in
  let matched_intention := mkIntention user_2 (AssetPair_new asset_a asset_b) 1000000 2000000 10
    false SELL (generate_intention_id user_2 3) in
  let intentions_a := [main_intention] in let intentions_b := [matched_intention] in
  panics (process_exchange_intentions pair_account intentions_a intentions_b)).

Definition revert_invalid_direct_trades_should_work : Test := (new_test_ext,
  let user_1 := ALICE in let user_2 := BOB in let asset_a := HDX in let asset_b := DOT in
  let pool_amount := 1000000000000000 in let initial_price := price 2 in
  let pair_account := pool_account (AssetPair_new asset_a asset_b) in
  initialize_pool endowed asset_a asset_b user_1 pool_amount initial_price ;;
  assert_ok (move_funds asset_b ALICE BOB 98000000000000000) ;;
  let main_intention := mkIntention user_1 (AssetPair_new asset_b asset_a) 4000000 2000000
    10000000 false BUY (generate_intention_id user_1 0) in
  let matched_intention := mkIntention user_2 (AssetPair_new asset_a asset_b) 1000000 2000000 10
    false SELL (generate_intention_id user_2 1) in
  let intentions_b := [matched_intention] in
  resolve_matched_intentions pair_account main_intention intentions_b ;;
  let main_intention := mkIntention user_1 (AssetPair_new asset_b asset_a) 2000000 1000000
    10000000 false BUY (generate_intention_id user_1 0) in
  let matched_intention := mkIntention user_2 (AssetPair_new asset_a asset_b) 2000000 4000000 10
    false SELL (generate_intention_id user_2 1) in
  let intentions_b := [matched_intention] in
  resolve_matched_intentions pair_account main_intention intentions_b ;;
  let main_intention := mkIntention user_1 (AssetPair_new asset_b asset_a) 2000000 1000000
    10000000 false BUY (generate_intention_id user_1 0) in
  let matched_intention := mkIntention user_2 (AssetPair_new asset_a asset_b) 1000000 2000000 10
    false SELL (generate_intention_id user_2 1) in
  let intentions_b := [matched_intention] in
  resolve_matched_intentions pair_account main_intention intentions_b ;;
  balance_is asset_a pair_account 1000000000000000 ;;
  balance_is asset_b pair_account 2000000000000000 ;;
  balance_is asset_a user_1 99000000000000000 ;; balance_is asset_b user_1 0 ;;
  balance_is asset_a user_2 100000000000000000 ;; balance_is asset_b user_2 198000000000000000).

Definition invalid_transfers_in_resolver_should_not_work : Test := (new_test_ext,
  let user_1 := ALICE in let user_2 := BOB in let asset_a := HDX in let asset_b := DOT in
  let pool_amount := 1000000000000000 in let initial_price := price 2 in
  let pair_account := pool_account (AssetPair_new asset_a asset_b) in
  initialize_pool endowed asset_a asset_b user_1 pool_amount initial_price ;;
  assert_ok (move_funds asset_b ALICE BOB 98000000000000000) ;;
  let main_intention := mkIntention user_1 (AssetPair_new asset_b asset_a) 2000000000000000
    1000000000000000 10000000 false BUY (generate_intention_id user_1 0) in
  let matched_intention := mkIntention user_2 (AssetPair_new asset_a asset_b) 2000000000000000
    4000000000000000 10 false SELL (generate_intention_id user_2 1) in
  let intentions_b := [matched_intention] in
  resolve_matched_intentions pair_account main_intention intentions_b ;;
  balance_is asset_a pair_account 1000000000000000 ;;
  balance_is asset_b pair_account 2000000000000000 ;;
  balance_is asset_a user_1 99000000000000000 ;; balance_is asset_b user_1 0 ;;
  balance_is asset_a user_2 100000000000000000 ;; balance_is asset_b user_2 198000000000000000).

Definition trade_limits_in_exact_match_scenario_should_work : Test := (new_test_ext,
  let user_1 := ALICE in let user_2 := BOB in let asset_a := HDX in let asset_b := DOT in
  let pool_amount := 1000000000000000 in let initial_price := price 2 in
  let pair_account := pool_account (AssetPair_new asset_a asset_b) in
  initialize_pool endowed asset_a asset_b user_1 pool_amount initial_price ;;
  assert_ok (move_funds asset_b ALICE BOB 98000000000000000) ;;
  let main_intention_1 := mkIntention user_1 (AssetPair_new asset_b asset_a) 2000000 1000000
    10000000 false SELL (generate_intention_id user_1 0) in
  let matched_intention_1 := mkIntention user_2 (AssetPair_new asset_a asset_b) 1000000 2000000
    10 false SELL (generate_intention_id user_2 1) in
  let intentions_b := [matched_intention_1] in
  resolve_matched_intentions pair_account main_intention_1 intentions_b ;;
  let main_intention_2 := mkIntention user_1 (AssetPair_new asset_b asset_a) 2000000 1000000
    100000 false BUY (generate_intention_id user_1 0) in
  resolve_matched_intentions pair_account main_intention_2 intentions_b ;;
  let main_intention_3 := mkIntention user_1 (AssetPair_new asset_b asset_a) 2000000 1000000
    1000000 false SELL (generate_intention_id user_1 0) in
  let matched_intention_3 := mkIntention user_2 (AssetPair_new asset_a asset_b) 1000000 2000000
    10000000 false SELL (generate_intention_id user_2 1) in
  let intentions_b := [matched_intention_3] in
  resolve_matched_intentions pair_account main_intention_3 intentions_b ;;
  let matched_intention_4 := mkIntention user_2 (AssetPair_new asset_a asset_b) 1000000 2000000
    100000 false BUY (generate_intention_id user_2 1) in
  let intentions_b := [matched_intention_4] in
  resolve_matched_intentions pair_account main_intention_3 intentions_b ;;
  balance_is asset_a pair_account 1000000000000000 ;;
  balance_is asset_b pair_account 2000000000000000 ;;
  balance_is asset_a user_1 99000000000000000 ;; balance_is asset_b user_1 0 ;;
  balance_is asset_a user_2 100000000000000000 ;; balance_is asset_b user_2 198000000000000000).

Definition correct_matching : Test := (new_test_ext,
  let user_1 := ALICE in let asset_a := HDX in let asset_b := DOT in
  let pool_amount := 139637976727557 in let initial_price := 72057594037927936 in
  initialize_pool endowed asset_b asset_a user_1 pool_amount initial_price ;;
  assert_ok (Exchange.sell (Signed 3) asset_b asset_a 1048577 0 false) ;;
  assert_ok (Exchange.buy (Signed 4) asset_b asset_a 7602433 4722366482869645213696 false) ;;
  assert_ok (Exchange.buy (Signed 6) asset_b asset_a 65536 4722366482869645213696 false) ;;
  check (fun s => get_intentions_count (asset_a, asset_b) s =? 3) ;;
  on_finalize ;;
  check (fun s => get_intentions_count (asset_a, asset_b) s =? 0)).

Definition trade_limit_test : Test :=
  let endowed := 10000000000000000000 in (build endowed,
  let user_1 := ALICE in let asset_a := HDX in let asset_b := DOT in
  let pool_amount := 139637976727557 in let initial_price := 4722438541558899802112 in
  initialize_pool endowed asset_b asset_a user_1 pool_amount initial_price ;;
  assert_ok (Exchange.buy (Signed 4) asset_a asset_b 281474976710656 127547660566528 false) ;;
  assert_ok (Exchange.sell (Signed 5) asset_a asset_b 190275657924608 12075401216 false) ;;
  check (fun s => get_intentions_count (asset_a, asset_b) s =? 2) ;;
  on_finalize ;;
  check (fun s => get_intentions_count (asset_a, asset_b) s =? 0)).

Definition register_intention_should_work : Test := (new_test_ext,
  assert_ok (Exchange.register_intention ALICE SELL (AssetPair_new HDX DOT) 1 1 1 false) ;;
  assert_ok (Exchange.register_intention ALICE BUY (AssetPair_new HDX DOT) 1 1 1 false) ;;
  check (fun s => get_intentions_count (HDX, DOT) s =? 2) ;;
  check (fun s => Z.of_nat (length (get_intentions (HDX, DOT) s)) =? 2)).

Definition register_intention_should_return_error_on_overflow : Test := (new_test_ext,
  modify (set_IntentionCount (insert (HDX, DOT) (2 ^ 32 - 1))) ;;
  check (fun s => get_intentions_count (HDX, DOT) s =? (2 ^ 32 - 1)) ;;
  assert_noop (Exchange.register_intention ALICE SELL (AssetPair_new HDX DOT) 1 1 1 false)
    ExchangeErr.IntentionCountOverflow).

Definition execute_amm_transfer_should_work : Test := (new_test_ext,
  let asset_a := HDX in let asset_b := DOT in let pool_amount := 1000000000000000 in
  let initial_price := 71999999999999992 in
  initialize_pool endowed asset_b asset_a ALICE pool_amount initial_price ;;
  let pair_account := pool_account (AssetPair_new asset_a asset_b) in
  let alice_buy_intention_id := generate_intention_id ALICE 0 in
  assert_ok (Exchange.execute_amm_transfer BUY alice_buy_intention_id (mkAMMTransfer ALICE
    (AssetPair_new HDX DOT) 1000000000000 1000000000 false 0 (1000, 1000000))) ;;
  let alice_sell_intention_id := generate_intention_id ALICE 1 in
  assert_ok (Exchange.execute_amm_transfer SELL alice_sell_intention_id (mkAMMTransfer ALICE
    (AssetPair_new HDX DOT) 1000000000000 1000000000 false 0 (1000, 1000000))) ;;
  check (has_events [
      IntentionResolvedAMMTrade ALICE BUY alice_buy_intention_id 1000000000000 1001000000
        pair_account;
      IntentionResolvedAMMTrade ALICE SELL alice_sell_intention_id 1000000000000 1001000000
        pair_account]) ;;
  check (has_xyk_events [
      BuyExecuted ALICE DOT HDX 1000000000000 1000000000 HDX 1000000 pair_account;
      SellExecuted ALICE HDX DOT 1000000000000 1000000000 HDX 1000000 pair_account])).

Definition resolve_single_intention_should_work : Test := (new_test_ext,
  let asset_a := HDX in let asset_b := DOT in let pool_amount := 1000000000000000 in
  let initial_price := 71999999999999992 in
  initialize_pool endowed asset_b asset_a ALICE pool_amount initial_price ;;
  let alice_buy_intention_id := generate_intention_id ALICE 0 in
  resolve_single_intention (mkIntention ALICE (AssetPair_new DOT HDX) 150000000 2000000000
    1500000000000 false BUY alice_buy_intention_id) ;;
  let alice_sell_intention_id := generate_intention_id ALICE 1 in
  resolve_single_intention (mkIntention ALICE (AssetPair_new DOT HDX) 150000000 2000000000 101000
    false SELL alice_sell_intention_id) ;;
  let pair_account := pool_account (AssetPair_new asset_a asset_b) in
  check (has_events [
      IntentionResolvedAMMTrade ALICE BUY alice_buy_intention_id 2000000000 27834106503
        pair_account;
      IntentionResolvedAMMTrade ALICE SELL alice_sell_intention_id 150000000 10799397
        pair_account]) ;;
  check (has_xyk_events [
      BuyExecuted ALICE HDX DOT 2000000000 27778549405 DOT 55557098 pair_account;
      SellExecuted ALICE DOT HDX 150000000 10777799 HDX 21598 pair_account])).

Definition verify_intention_should_work : Test := (new_test_ext,
  let user := ALICE in let asset_a := HDX in let asset_b := DOT in
  let pool_amount := 1000000000000000 in let initial_price := 2000000000000000000 in
  initialize_pool endowed asset_a asset_b user pool_amount initial_price ;;
  verifies true (mkIntention user (AssetPair_new asset_a asset_b) 1000000000 2000000000
    3000000000 false BUY (generate_intention_id user 0)) ;;
  verifies true (mkIntention user (AssetPair_new asset_a asset_b) 1000000000 2000000000 100000000
    false SELL (generate_intention_id user 0)) ;;
  verifies false (mkIntention user (AssetPair_new asset_a asset_b) 1000000000 2000000000
    100000000 false BUY (generate_intention_id user 0)) ;;
  verifies false (mkIntention user (AssetPair_new asset_a asset_b) 1000000000 2000000000
    10000000000 false SELL (generate_intention_id user 0))).

Definition direct_sell_sell_transfers_without_other_asset_should_work : Test := (new_test_ext,
  let user_1 := ALICE in let user_2 := BOB in let user_3 := CHARLIE in let asset_a := ETH in
  let asset_b := DOT in let pool_amount := 100000000 in let initial_price := price 2 in
  let pair_account := pool_account (AssetPair_new asset_a asset_b) in
  initialize_pool endowed asset_a asset_b user_1 pool_amount initial_price ;;
  assert_ok (move_funds asset_b user_2 user_1 100000000000000000) ;;
  assert_ok (move_funds asset_a user_3 user_1 100000000000000000) ;;
  assert_ok (Exchange.sell (Signed user_2) asset_a asset_b 1000000 400 false) ;;
  assert_ok (Exchange.sell (Signed user_3) asset_b asset_a 2000000 400 false) ;;
  let user_2_sell_intention_id := generate_intention_id user_2 0 in
  let user_3_sell_intention_id := generate_intention_id user_3 1 in
  balance_is asset_a pair_account 100000000 ;; balance_is asset_b pair_account 200000000 ;;
  on_finalize ;;
  balance_is asset_a user_2 99999999999000000 ;; balance_is asset_b user_2 1996000 ;;
  balance_is asset_a user_3 998000 ;; balance_is asset_b user_3 99999999998000000 ;;
  balance_is asset_a pair_account 100002000 ;; balance_is asset_b pair_account 200004000 ;;
  check (has_events [
      IntentionRegistered user_2 asset_a asset_b 1000000 SELL user_2_sell_intention_id;
      IntentionRegistered user_3 asset_b asset_a 2000000 SELL user_3_sell_intention_id;
      IntentionResolvedDirectTrade user_2 user_3 user_2_sell_intention_id
        user_3_sell_intention_id 1000000 2000000;
      IntentionResolvedDirectTradeFees user_2 user_2_sell_intention_id pair_account asset_a 2000;
      IntentionResolvedDirectTradeFees user_3 user_3_sell_intention_id pair_account asset_b 4000])).

Definition direct_buy_buy_transfers_without_other_asset_should_work : Test := (new_test_ext,
  let user_1 := ALICE in let user_2 := BOB in let user_3 := CHARLIE in let asset_a := ETH in
  let asset_b := DOT in let pool_amount := 100000000 in let initial_price := price 2 in
  let pair_account := pool_account (AssetPair_new asset_a asset_b) in
  initialize_pool endowed asset_a asset_b user_1 pool_amount initial_price ;;
  assert_ok (move_funds asset_a user_2 user_1 100000000000000000) ;;
  assert_ok (move_funds asset_b user_3 user_1 100000000000000000) ;;
  assert_ok (Exchange.buy (Signed user_2) asset_a asset_b 1000000 40000000 false) ;;
  assert_ok (Exchange.buy (Signed user_3) asset_b asset_a 2000000 40000000 false) ;;
  let user_2_sell_intention_id := generate_intention_id user_2 0 in
  let user_3_sell_intention_id := generate_intention_id user_3 1 in
  balance_is asset_a pair_account 100000000 ;; balance_is asset_b pair_account 200000000 ;;
  on_finalize ;;
  balance_is asset_a user_2 1000000 ;; balance_is asset_b user_2 99999999997996000 ;;
  balance_is asset_a user_3 99999999998998000 ;; balance_is asset_b user_3 2000000 ;;
  balance_is asset_a pair_account 100002000 ;; balance_is asset_b pair_account 200004000 ;;
  check (has_events [
      IntentionRegistered user_2 asset_a asset_b 1000000 BUY user_2_sell_intention_id;
      IntentionRegistered user_3 asset_b asset_a 2000000 BUY user_3_sell_intention_id;
      IntentionResolvedDirectTrade user_3 user_2 user_3_sell_intention_id
        user_2_sell_intention_id 1000000 2000000;
      IntentionResolvedDirectTradeFees user_3 user_3_sell_intention_id pair_account asset_a 2000;
      IntentionResolvedDirectTradeFees user_2 user_2_sell_intention_id pair_account asset_b 4000])).

Definition direct_sell_buy_transfers_without_other_asset_should_work : Test := (new_test_ext,
  let user_1 := ALICE in let user_2 := BOB in let user_3 := CHARLIE in let asset_a := ETH in
  let asset_b := DOT in let pool_amount := 100000000 in let initial_price := price 2 in
  let pair_account := pool_account (AssetPair_new asset_a asset_b) in
  initialize_pool endowed asset_a asset_b user_1 pool_amount initial_price ;;
  assert_ok (move_funds asset_b user_2 user_1 100000000000000000) ;;
  assert_ok (move_funds asset_a user_3 user_1 100000000000000000) ;;
  assert_ok (Exchange.sell (Signed user_2) asset_a asset_b 1000000 40000 false) ;;
  assert_ok (Exchange.buy (Signed user_3) asset_a asset_b 1000000 40000000 false) ;;
  let user_2_sell_intention_id := generate_intention_id user_2 0 in
  let user_3_sell_intention_id := generate_intention_id user_3 1 in
  balance_is asset_a pair_account 100000000 ;; balance_is asset_b pair_account 200000000 ;;
  on_finalize ;;
  balance_is asset_a user_2 99999999999000000 ;; balance_is asset_b user_2 1996000 ;;
  balance_is asset_a user_3 1000000 ;; balance_is asset_b user_3 99999999997996000 ;;
  balance_is asset_a pair_account 100000000 ;; balance_is asset_b pair_account 200008000 ;;
  check (has_events [
      IntentionRegistered user_2 asset_a asset_b 1000000 SELL user_2_sell_intention_id;
      IntentionRegistered user_3 asset_a asset_b 1000000 BUY user_3_sell_intention_id;
      IntentionResolvedDirectTrade user_2 user_3 user_2_sell_intention_id
        user_3_sell_intention_id 1000000 2000000;
      IntentionResolvedDirectTradeFees user_3 user_3_sell_intention_id pair_account asset_b 8000])).

Definition direct_buy_sell_transfers_without_other_asset_should_work : Test := (new_test_ext,
  let user_1 := ALICE in let user_2 := BOB in let user_3 := CHARLIE in let asset_a := ETH in
  let asset_b := DOT in let pool_amount := 100000000 in let initial_price := price 2 in
  let pair_account := pool_account (AssetPair_new asset_a asset_b) in
  initialize_pool endowed asset_a asset_b user_1 pool_amount initial_price ;;
  assert_ok (move_funds asset_a user_2 user_1 100000000000000000) ;;
  assert_ok (move_funds asset_b user_3 user_1 100000000000000000) ;;
  assert_ok (Exchange.buy (Signed user_2) asset_a asset_b 1000000 40000000 false) ;;
  assert_ok (Exchange.sell (Signed user_3) asset_a asset_b 1000000 40000 false) ;;
  let user_2_sell_intention_id := generate_intention_id user_2 0 in
  let user_3_sell_intention_id := generate_intention_id user_3 1 in
  balance_is asset_a pair_account 100000000 ;; balance_is asset_b pair_account 200000000 ;;
  on_finalize ;;
  balance_is asset_a user_2 1000000 ;; balance_is asset_b user_2 99999999997996000 ;;
  balance_is asset_a user_3 99999999999000000 ;; balance_is asset_b user_3 1996000 ;;
  balance_is asset_a pair_account 100000000 ;; balance_is asset_b pair_account 200008000 ;;
  check (has_events [
      IntentionRegistered user_2 asset_a asset_b 1000000 BUY user_2_sell_intention_id;
      IntentionRegistered user_3 asset_a asset_b 1000000 SELL user_3_sell_intention_id;
      IntentionResolvedDirectTrade user_3 user_2 user_3_sell_intention_id
        user_2_sell_intention_id 1000000 2000000;
      IntentionResolvedDirectTradeFees user_2 user_2_sell_intention_id pair_account asset_b 8000])).

Definition exchange_suite : list Test :=
    [no_intentions_should_work; sell_test_pool_finalization_states; sell_test_standard;
     sell_test_inverse_standard; sell_test_exact_match; sell_test_single_eth_sells;
     sell_test_single_dot_sells; sell_trade_limits_respected_for_matched_intention;
     buy_trade_limits_respected_for_matched_intention; sell_test_single_multiple_sells;
     sell_test_group_sells; trades_without_pool_should_not_work; trade_min_limit;
     sell_more_than_owner_should_not_work; sell_test_mixed_buy_sells;
     discount_tests_no_discount; discount_tests_with_discount; buy_test_exact_match;
     buy_test_group_buys; discount_tests_with_error; simple_sell_sell; simple_buy_buy;
     simple_sell_buy; simple_buy_sell; single_sell_intention_test; single_buy_intention_test;
     simple_sell_sell_with_error_should_not_pass; matching_limits_buy_buy_should_work;
     matching_limits_sell_buy_should_work; exact_match_limit_should_work;
     matching_limit_scenario_2; matching_limit_scenario_3;
     process_invalid_intention_should_work; main_intention_greater_than_matched_should_work;
     in_out_calculations_error_should_work; revert_invalid_direct_trades_should_work;
     invalid_transfers_in_resolver_should_not_work;
     trade_limits_in_exact_match_scenario_should_work; correct_matching; trade_limit_test;
     register_intention_should_work; register_intention_should_return_error_on_overflow;
     execute_amm_transfer_should_work; resolve_single_intention_should_work;
     verify_intention_should_work; direct_sell_sell_transfers_without_other_asset_should_work;
     direct_buy_buy_transfers_without_other_asset_should_work;
     direct_sell_buy_transfers_without_other_asset_should_work;
     direct_buy_sell_transfers_without_other_asset_should_work].

(** Every test of the exchange pallet passes on the model. *)
Theorem exchange_tests_pass : suite_passes exchange_suite.
Proof. unfold exchange_suite. run_suite. Qed.
