(* ===== verification/LbpTests.v ===== *)
(** * The tests of the LBP pallet

    Models the mock runtime of [src/pallets/lbp/src/mock.rs] and runs the tests of
    [src/pallets/lbp/src/tests.rs] on the model of the pallet.  Left out are ten tests whose
    amounts or limits are results of the weighted-pool formulas of [hydra_dx_math] (a parameter
    here: the examples' formulas are only of first order), the two simulations of a sale among
    them, and one on the existential deposit of [orml_tokens], which the reference ledger does
    not enforce:
    [inverted_operations_should_be_equal], [buy_should_work], [sell_should_work],
    [update_pool_data_after_sale_should_not_work], [amm_trait_should_work],
    [get_spot_price_should_work], [simulate_lbp_event_should_work],
    [simulate_lbp_event_with_repayment], [validate_trade_should_work],
    [validate_trade_should_not_work] and
    [trade_fails_when_first_fee_lesser_than_existential_deposit]. *)

From S2P Require Import Prelude Primitives Errors Interfaces Ledger Testing Lbp LbpExamples.

(** ** The mock runtime *)

Definition INITIAL_BALANCE : Balance := 1000000000000000.
Definition ALICE : AccountId := 1.
Definition BOB : AccountId := 2.
Definition CHARLIE : AccountId := 3.
Definition HDX : AssetId := CORE_ASSET_ID.
Definition KUSD : AssetId := 2000.
Definition BSX : AssetId := 3000.
Definition ETH : AssetId := 4000.
Definition SALE_START : BlockNumber := 10.
Definition SALE_END : BlockNumber := 40.
Definition HDX_BSX_POOL_ID : AccountId := 3000.
Definition KUSD_BSX_POOL_ID : AccountId := 2003000.
Definition DEFAULT_FEE : Z * Z := (2, 1000).
Definition SAMPLE_POOL_DATA : Pool :=
  mkPool ALICE (Some SALE_START) (Some SALE_END) (KUSD, BSX) 10000000 90000000 Linear DEFAULT_FEE
    CHARLIE 0.
Definition SAMPLE_AMM_TRANSFER : AMMTransfer :=
  mkAMMTransfer ALICE (AssetPair_new KUSD BSX) 1000 10000 false 0 (KUSD, 200).

(** [Config for Test]: pools are created by the root origin. *)
#[local] Instance Test_config : LbpConfig := {|
  LbpMinTradingLimit := MIN_TRADING_LIMIT;
  LbpMinPoolLiquidity := MIN_POOL_LIQUIDITY;
  LbpMaxInRatio := MAX_IN_RATIO;
  LbpMaxOutRatio := MAX_OUT_RATIO
|}.
#[local] Instance EnsureRoot : CreatePoolOrigin := {|
  may_create_pool o := match o with Root => true | _ => false end
|}.
#[local] Existing Instances AssetPairAccountIdTest ex_lbp_math.
#[local] Existing Instances Timed_currency Timed_lockable Timed_block.
Notation State := (LbpState Timed).
Notation Test := (State * Dispatch State unit)%type.

(** [ExtBuilder]; the tests start in block 1. *)
Definition ExtBuilder_default : list (AccountId * AssetId * Balance) :=
  [(ALICE, HDX, INITIAL_BALANCE); (ALICE, BSX, INITIAL_BALANCE); (ALICE, KUSD, INITIAL_BALANCE);
   (ALICE, ETH, INITIAL_BALANCE); (BOB, HDX, INITIAL_BALANCE); (BOB, BSX, INITIAL_BALANCE);
   (BOB, KUSD, INITIAL_BALANCE); (BOB, ETH, INITIAL_BALANCE)].
Definition new_test_ext : State := mkLbp (mkTimed (tokens_genesis ExtBuilder_default) 1) ∅ ∅ [].
Definition set_block_number (n : BlockNumber) : Dispatch State unit :=
  modify (fun s => set_lbp_chain (at_time n (lbp_chain s)) s).
Definition run_to_sale_start : Dispatch State unit := set_block_number SALE_START.
Definition run_to_sale_end : Dispatch State unit := set_block_number (SALE_END + 1).

(** [predefined_test_ext] and [predefined_test_ext_with_repay_target] of the tests. *)
Definition after (m : Dispatch State unit) (s : State) : State := snd (m s).
Definition predefined_test_ext : State :=
  after (create_pool Root ALICE KUSD 1000000000 BSX 2000000000 20000000 80000000 Linear DEFAULT_FEE
           CHARLIE 0 ;;
         update_pool_data (Signed ALICE) KUSD_BSX_POOL_ID None (Some SALE_START) (Some SALE_END)
           None None None None None) new_test_ext.
Definition predefined_test_ext_with_repay_target : State :=
  after (create_pool Root ALICE KUSD 1000000000 BSX 2000000000 80000000 20000000 Linear DEFAULT_FEE
           CHARLIE 1000000000 ;;
         update_pool_data (Signed ALICE) KUSD_BSX_POOL_ID None (Some SALE_START) (Some 20)
           None None None None None ;;
         add_liquidity (Signed ALICE) (KUSD, 10000000000) (BSX, 1000000000)) new_test_ext.

(** [generate_trades], the trades of a simulated sale: none in the first tenth, then buys, with
    some intervals of sells.  Divisions by zero and a negative difference panic. *)
Definition INTERVALS : Z := 72.
Definition skip : list Z := [0; 1; 2; 3; 4; 5; 6; 7; 8; 9].
Definition sells : list Z := [19; 20; 21; 33; 34; 35; 48; 49; 50; 62; 63; 64].
Definition trade_at (start end_ : BlockNumber) (buy_amount sell_amount : Balance) (i : Z)
    : option (BlockNumber * (bool * Balance)) :=
  if bool_decide (i ∈ skip) then None else
  Some (start + i * ((end_ - start) / INTERVALS),
        if bool_decide (i ∈ sells) then (false, sell_amount) else (true, buy_amount)).
Definition generate_trades (start end_ : BlockNumber) (sale_rate sell_ratio : Balance)
    : option (gmap BlockNumber (bool * Balance)) :=
  if (sell_ratio =? 0) || (end_ <? start) then None else
  let buy_amount := sale_rate / 24 in
  let sell_amount := sale_rate / sell_ratio / 24 in
  Some (foldl (fun trades kv => <[fst kv := snd kv]> trades) ∅
    (omap (fun i => trade_at start end_ buy_amount sell_amount (Z.of_nat i)) (seq 0 73))).

(** ** What the tests look at *)

#[local] Instance Pool_eq_dec : EqDecision Pool.
Proof. solve_decision. Defined.
#[local] Instance LbpEvent_eq_dec : EqDecision LbpEvent.
Proof. solve_decision. Defined.
#[local] Instance State_eq_dec : EqDecision State.
Proof. solve_decision. Defined.

Definition balance (c : AssetId) (w : AccountId) (s : State) : Balance :=
  free_balance c w (lbp_chain s).
Definition balance_is (c : AssetId) (w : AccountId) (x : Balance) : Dispatch State unit :=
  check (fun s => balance c w s =? x).
(** [MultiLockedBalance::get_by_lock]: both branches look in the same table. *)
Definition MultiLockedBalance (lock_id : LockIdentifier) (asset : AssetId) (account : AccountId)
    (c : Timed) : Balance :=
  if asset =? CORE_ASSET_ID then default 0 (l_locks (t_books c) !! (lock_id, asset, account))
  else default 0 (l_locks (t_books c) !! (lock_id, asset, account)).
Definition locked (c : AssetId) (w : AccountId) (s : State) : Balance :=
  MultiLockedBalance COLLECTOR_LOCK_ID c w (lbp_chain s).
Definition has_pool (pool : AccountId) (s : State) : bool :=
  bool_decide (is_Some (PoolData s !! pool)).
Definition collects (w : AccountId) (c : AssetId) (s : State) : bool :=
  bool_decide (is_Some (FeeCollectorWithAsset s !! (w, c))).
Definition pool_data (pool : AccountId) : Dispatch State Pool :=
  p ← gets (fun s : State => PoolData s !! pool); match p with Some p => mret p | None => panic end.
Definition has_events (l : list LbpEvent) (s : State) : bool :=
  forallb (fun e => bool_decide (e ∈ lbp_events s)) l.
Definition returns (m : Dispatch State Balance) (x : Balance) : Dispatch State unit :=
  r ← m; check (fun _ => r =? x).

(** [Currency::set_balance] with nothing reserved. *)
Definition set_free (c : AssetId) (w : AccountId) (x : Balance) : Dispatch State unit :=
  zoom (C := Timed) (zoom (C := Ledger) (modify (fun l => set_l_free (l_put c w x (l_free l)) l))).

(** Assignments to the fields of a pool. *)
Definition with_initial_weight (w : LBPWeight) (p : Pool) : Pool :=
  mkPool (owner p) (start p) (end_ p) (pool_assets p) w (final_weight p) (weight_curve p) (fee p)
    (fee_collector p) (repay_target p).
Definition with_final_weight (w : LBPWeight) (p : Pool) : Pool :=
  mkPool (owner p) (start p) (end_ p) (pool_assets p) (initial_weight p) w (weight_curve p) (fee p)
    (fee_collector p) (repay_target p).
Definition with_start (n : option BlockNumber) (p : Pool) : Pool :=
  mkPool (owner p) n (end_ p) (pool_assets p) (initial_weight p) (final_weight p) (weight_curve p)
    (fee p) (fee_collector p) (repay_target p).
Definition with_end_ (n : option BlockNumber) (p : Pool) : Pool :=
  mkPool (owner p) (start p) n (pool_assets p) (initial_weight p) (final_weight p) (weight_curve p)
    (fee p) (fee_collector p) (repay_target p).

(** ** The tests *)

Definition default_locked_balance_should_be_zero : Test := (new_test_ext,
  check (fun s => locked BSX BOB s =? 0)).

Definition validate_pool_data_should_work : Test := (new_test_ext,
  let pool_data := mkPool ALICE (Some SALE_START) (Some SALE_END) (KUSD, BSX) 20000000 90000000
    Linear DEFAULT_FEE CHARLIE 0 in
  assert_ok (validate_pool_data pool_data) ;;
  let pool_data := mkPool ALICE None None (KUSD, BSX) 20000000 90000000 Linear DEFAULT_FEE
    CHARLIE 0 in
  assert_ok (validate_pool_data pool_data) ;;
  let pool_data := mkPool ALICE (Some SALE_START) (Some 2) (KUSD, BSX) 20000000 90000000 Linear
    DEFAULT_FEE CHARLIE 0 in
  assert_noop (validate_pool_data pool_data) LbpErr.InvalidBlockRange ;;
  let pool_data := mkPool ALICE (Some SALE_START) (Some (11 + (2 ^ 32 - 1))) (KUSD, BSX) 20000000
    90000000 Linear DEFAULT_FEE CHARLIE 0 in
  assert_noop (validate_pool_data pool_data) LbpErr.MaxSaleDurationExceeded).

Definition max_sale_duration_ckeck : Test := (new_test_ext,
  assert_ok (validate_pool_data (mkPool ALICE (Some SALE_START) (Some ((SALE_START +
    MAX_SALE_DURATION) - 1)) (KUSD, BSX) 20000000 90000000 Linear DEFAULT_FEE CHARLIE 0)) ;;
  assert_noop (validate_pool_data (mkPool ALICE (Some SALE_START) (Some (SALE_START +
    MAX_SALE_DURATION)) (KUSD, BSX) 20000000 90000000 Linear DEFAULT_FEE CHARLIE 0))
    LbpErr.MaxSaleDurationExceeded).

Definition calculate_weights_should_work : Test := (new_test_ext,
  let pool_data := mkPool ALICE (Some 100) (Some 200) (KUSD, BSX) 50000000 33333333 Linear
    DEFAULT_FEE CHARLIE 0 in
  check (fun s => bool_decide (calculate_weights pool_data 170 = Some (38333333, 61666667))) ;;
  let pool_data := with_initial_weight 33333333 pool_data in
  let pool_data := with_final_weight 66666666 pool_data in
  check (fun s => bool_decide (calculate_weights pool_data 100 = Some (33333333, 66666667))) ;;
  let pool_data := with_initial_weight 33333333 pool_data in
  let pool_data := with_final_weight 33333333 pool_data in
  check (fun s => bool_decide (calculate_weights pool_data 100 = Some (33333333, 66666667))) ;;
  let pool_data := with_initial_weight 50000000 pool_data in
  let pool_data := with_final_weight 33333333 pool_data in
  check (fun s => bool_decide (calculate_weights pool_data 200 = Some (33333333, 66666667))) ;;
  let pool_data := with_start (Some 200) pool_data in
  let pool_data := with_end_ (Some 100) pool_data in
  check (fun s => bool_decide (calculate_weights pool_data 200 = None)) ;;
  let pool_data := with_start (Some 100) pool_data in
  let pool_data := with_end_ (Some 200) pool_data in
  check (fun s => bool_decide (calculate_weights pool_data 201 = None)) ;;
  let pool_data := with_start (Some 100) pool_data in
  let pool_data := with_end_ (Some 200) pool_data in
  check (fun s => bool_decide (calculate_weights pool_data 10 = None)) ;;
  check (fun s => bool_decide (calculate_weights pool_data 210 = None))).

Definition create_pool_should_work : Test := (new_test_ext,
  assert_ok (create_pool Root ALICE KUSD 1000000000 BSX 2000000000 20000000 90000000 Linear
    DEFAULT_FEE CHARLIE 0) ;;
  balance_is KUSD KUSD_BSX_POOL_ID 1000000000 ;; balance_is BSX KUSD_BSX_POOL_ID 2000000000 ;;
  balance_is KUSD ALICE (INITIAL_BALANCE - 1000000000) ;;
  balance_is BSX ALICE (INITIAL_BALANCE - 2000000000) ;;
  pool_data ← pool_data KUSD_BSX_POOL_ID;
  check (fun s => owner pool_data =? ALICE) ;;
  check (fun s => bool_decide (start pool_data = None)) ;;
  check (fun s => bool_decide (end_ pool_data = None)) ;;
  check (fun s => bool_decide (pool_assets pool_data = (KUSD, BSX))) ;;
  check (fun s => initial_weight pool_data =? 20000000) ;;
  check (fun s => final_weight pool_data =? 90000000) ;;
  check (fun s => bool_decide (weight_curve pool_data = Linear)) ;;
  check (fun s => bool_decide (fee pool_data = DEFAULT_FEE)) ;;
  check (fun s => fee_collector pool_data =? CHARLIE) ;;
  check (fun s => collects CHARLIE KUSD s) ;;
  check (has_events [
      LbpLiquidityAdded KUSD_BSX_POOL_ID KUSD BSX 1000000000 2000000000])).

Definition create_pool_from_basic_origin_should_not_work : Test := (new_test_ext,
  assert_noop (create_pool (Signed ALICE) ALICE HDX 1000000000 BSX 2000000000 80000000 10000000
    Linear DEFAULT_FEE CHARLIE 0) BadOrigin).

Definition create_same_pool_should_not_work : Test := (new_test_ext,
  assert_ok (create_pool Root ALICE KUSD 1000000000 BSX 2000000000 80000000 10000000 Linear
    DEFAULT_FEE CHARLIE 0) ;;
  assert_noop (create_pool Root ALICE KUSD 10000000000 BSX 20000000000 80000000 10000000 Linear
    DEFAULT_FEE CHARLIE 0) LbpErr.PoolAlreadyExists ;;
  check (has_events [
      LbpLiquidityAdded KUSD_BSX_POOL_ID KUSD BSX 1000000000 2000000000])).

Definition create_pool_with_same_assets_should_not_work : Test := (new_test_ext,
  assert_noop (create_pool Root ALICE KUSD 1000000000 KUSD 2000000000 80000000 10000000 Linear
    DEFAULT_FEE CHARLIE 0) LbpErr.CannotCreatePoolWithSameAssets).

Definition create_pool_with_non_existing_fee_collector_with_asset_should_work : Test :=
  (new_test_ext,
  assert_ok (create_pool Root ALICE KUSD 1000000000 BSX 2000000000 20000000 90000000 Linear
    DEFAULT_FEE CHARLIE 0) ;;
  assert_ok (create_pool Root ALICE HDX 1000000000 BSX 2000000000 20000000 90000000 Linear
    DEFAULT_FEE CHARLIE 0)).

Definition create_pool_with_existing_fee_collector_with_asset_should_not_work : Test :=
  (new_test_ext,
  assert_ok (create_pool Root ALICE KUSD 1000000000 BSX 2000000000 20000000 90000000 Linear
    DEFAULT_FEE CHARLIE 0) ;;
  assert_noop (create_pool Root ALICE KUSD 1000000000 HDX 2000000000 20000000 90000000 Linear
    DEFAULT_FEE CHARLIE 0) LbpErr.FeeCollectorWithAssetAlreadyUsed).

Definition create_pool_with_insufficient_liquidity_should_not_work : Test := (new_test_ext,
  assert_noop (create_pool Root ALICE HDX 0 BSX 0 80000000 10000000 Linear DEFAULT_FEE CHARLIE 0)
    LbpErr.InsufficientLiquidity ;;
  assert_noop (create_pool Root ALICE HDX 0 BSX 2000000000 80000000 10000000 Linear DEFAULT_FEE
    CHARLIE 0) LbpErr.InsufficientLiquidity ;;
  assert_noop (create_pool Root ALICE HDX 100 BSX 100 80000000 10000000 Linear DEFAULT_FEE
    CHARLIE 0) LbpErr.InsufficientLiquidity).

Definition create_pool_with_insufficient_balance_should_not_work : Test := (new_test_ext,
  assert_noop (create_pool Root ALICE KUSD 2000000000000000 BSX 2000000000000000 80000000
    10000000 Linear DEFAULT_FEE CHARLIE 0) LbpErr.InsufficientAssetBalance).

Definition update_pool_data_should_work : Test := (predefined_test_ext,
  assert_ok (update_pool_data (Signed ALICE) KUSD_BSX_POOL_ID None (Some 15) (Some 18) (Some
    10000000) (Some 80000000) (Some (5, 100)) (Some BOB) None) ;;
  updated_pool_data_1 ← pool_data KUSD_BSX_POOL_ID;
  check (fun s => bool_decide (start updated_pool_data_1 = Some 15)) ;;
  check (fun s => bool_decide (end_ updated_pool_data_1 = Some 18)) ;;
  check (fun s => initial_weight updated_pool_data_1 =? 10000000) ;;
  check (fun s => final_weight updated_pool_data_1 =? 80000000) ;;
  check (fun s => bool_decide (fee updated_pool_data_1 = (5, 100))) ;;
  check (fun s => fee_collector updated_pool_data_1 =? BOB) ;;
  check (fun s => negb (collects CHARLIE KUSD s)) ;;
  check (fun s => collects BOB KUSD s) ;;
  assert_ok (update_pool_data (Signed ALICE) KUSD_BSX_POOL_ID None None (Some 30) None None None
    None None) ;;
  updated_pool_data_2 ← pool_data KUSD_BSX_POOL_ID;
  check (fun s => bool_decide (start updated_pool_data_2 = Some 15)) ;;
  check (fun s => bool_decide (end_ updated_pool_data_2 = Some 30)) ;;
  check (fun s => initial_weight updated_pool_data_2 =? 10000000) ;;
  check (fun s => final_weight updated_pool_data_2 =? 80000000) ;;
  check (fun s => bool_decide (fee updated_pool_data_2 = (5, 100))) ;;
  check (fun s => fee_collector updated_pool_data_2 =? BOB) ;;
  assert_ok (update_pool_data (Signed ALICE) KUSD_BSX_POOL_ID None None None (Some 12500000) None
    None None None) ;;
  updated_pool_data_3 ← pool_data KUSD_BSX_POOL_ID;
  check (fun s => bool_decide (start updated_pool_data_3 = Some 15)) ;;
  check (fun s => bool_decide (end_ updated_pool_data_3 = Some 30)) ;;
  check (fun s => initial_weight updated_pool_data_3 =? 12500000) ;;
  check (fun s => final_weight updated_pool_data_3 =? 80000000) ;;
  check (fun s => bool_decide (fee updated_pool_data_3 = (5, 100))) ;;
  check (fun s => fee_collector updated_pool_data_3 =? BOB) ;;
  assert_ok (update_pool_data (Signed ALICE) KUSD_BSX_POOL_ID None None None None None None (Some
    ALICE) None) ;;
  updated_pool_data_4 ← pool_data KUSD_BSX_POOL_ID;
  check (fun s => bool_decide (start updated_pool_data_4 = Some 15)) ;;
  check (fun s => bool_decide (end_ updated_pool_data_4 = Some 30)) ;;
  check (fun s => initial_weight updated_pool_data_4 =? 12500000) ;;
  check (fun s => final_weight updated_pool_data_4 =? 80000000) ;;
  check (fun s => bool_decide (fee updated_pool_data_4 = (5, 100))) ;;
  check (fun s => fee_collector updated_pool_data_4 =? ALICE) ;;
  assert_ok (update_pool_data (Signed ALICE) KUSD_BSX_POOL_ID None None (Some 18) (Some 10000000)
    (Some 80000000) (Some (6, 1000)) None None) ;;
  updated_pool_data_5 ← pool_data KUSD_BSX_POOL_ID;
  check (fun s => bool_decide (start updated_pool_data_5 = Some 15)) ;;
  check (fun s => bool_decide (end_ updated_pool_data_5 = Some 18)) ;;
  check (fun s => initial_weight updated_pool_data_5 =? 10000000) ;;
  check (fun s => final_weight updated_pool_data_5 =? 80000000) ;;
  check (fun s => bool_decide (fee updated_pool_data_5 = (6, 1000))) ;;
  check (fun s => fee_collector updated_pool_data_5 =? ALICE) ;;
  let repayment := 1000000 in
  check (fun s => repay_target updated_pool_data_5 =? 0) ;;
  assert_ok (update_pool_data (Signed ALICE) KUSD_BSX_POOL_ID None None None None None None None
    (Some repayment)) ;;
  updated_pool_data_6 ← pool_data KUSD_BSX_POOL_ID;
  check (fun s => repay_target updated_pool_data_6 =? repayment) ;;
  check (has_events [
      LbpPoolUpdated KUSD_BSX_POOL_ID updated_pool_data_1;
      LbpPoolUpdated KUSD_BSX_POOL_ID updated_pool_data_2;
      LbpPoolUpdated KUSD_BSX_POOL_ID updated_pool_data_3;
      LbpPoolUpdated KUSD_BSX_POOL_ID updated_pool_data_4;
      LbpPoolUpdated KUSD_BSX_POOL_ID updated_pool_data_5;
      LbpPoolUpdated KUSD_BSX_POOL_ID updated_pool_data_6])).

Definition update_non_existing_pool_data_should_not_work : Test := (new_test_ext,
  assert_noop (update_pool_data (Signed ALICE) KUSD_BSX_POOL_ID None (Some 15) (Some 18) (Some
    10000000) (Some 80000000) (Some (5, 100)) None None) LbpErr.PoolNotFound).

Definition update_pool_with_invalid_data_should_not_work : Test := (predefined_test_ext,
  assert_noop (update_pool_data (Signed ALICE) KUSD_BSX_POOL_ID None (Some 20) (Some 10) (Some
    10000000) (Some 80000000) (Some (5, 100)) None None) LbpErr.InvalidBlockRange ;;
  set_block_number 6 ;;
  assert_noop (update_pool_data (Signed ALICE) KUSD_BSX_POOL_ID None (Some 5) (Some 20) (Some
    10000000) (Some 80000000) (Some (5, 100)) None None) LbpErr.InvalidBlockRange ;;
  assert_noop (update_pool_data (Signed ALICE) KUSD_BSX_POOL_ID None (Some 0) (Some 20) (Some
    10000000) (Some 80000000) (Some (5, 100)) None None) LbpErr.InvalidBlockRange ;;
  assert_noop (update_pool_data (Signed ALICE) KUSD_BSX_POOL_ID None (Some 5) (Some 0) (Some
    10000000) (Some 80000000) (Some (5, 100)) None None) LbpErr.InvalidBlockRange).

Definition update_pool_data_without_changes_should_not_work : Test := (predefined_test_ext,
  assert_noop (update_pool_data (Signed ALICE) KUSD_BSX_POOL_ID None None None None None None
    None None) LbpErr.NothingToUpdate).

Definition update_pool_data_by_non_owner_should_not_work : Test := (predefined_test_ext,
  assert_noop (update_pool_data (Signed BOB) KUSD_BSX_POOL_ID None (Some 15) (Some 20) (Some
    10000000) (Some 80000000) None None None) LbpErr.NotOwner).

Definition update_pool_owner_by_new_owner_should_work : Test := (predefined_test_ext,
  assert_ok (update_pool_data (Signed ALICE) KUSD_BSX_POOL_ID (Some BOB) (Some 15) (Some 20)
    (Some 10000000) (Some 80000000) None None None) ;;
  pool_data1 ← pool_data KUSD_BSX_POOL_ID;
  assert_ok (update_pool_data (Signed BOB) KUSD_BSX_POOL_ID (Some ALICE) (Some 15) (Some 20)
    (Some 10000000) (Some 80000000) None None None) ;;
  pool_data2 ← pool_data KUSD_BSX_POOL_ID;
  check (has_events [
      LbpPoolUpdated KUSD_BSX_POOL_ID pool_data1;
      LbpPoolUpdated KUSD_BSX_POOL_ID pool_data2])).

Definition update_pool_data_for_running_lbp_should_not_work : Test := (predefined_test_ext,
  assert_ok (update_pool_data (Signed ALICE) KUSD_BSX_POOL_ID None (Some 15) (Some 20) None None
    None None None) ;;
  set_block_number 16 ;;
  assert_noop (update_pool_data (Signed ALICE) KUSD_BSX_POOL_ID None (Some 15) (Some 30) (Some
    10000000) (Some 80000000) (Some (5, 100)) (Some BOB) None) LbpErr.SaleStarted ;;
  pool_data ← pool_data KUSD_BSX_POOL_ID;
  check (has_events [
      LbpPoolUpdated KUSD_BSX_POOL_ID pool_data])).

Definition update_pool_with_existing_fee_collector_should_not_work : Test := (predefined_test_ext,
  assert_ok (create_pool Root ALICE KUSD 1000000000 HDX 2000000000 20000000 90000000 Linear
    DEFAULT_FEE BOB 0) ;;
  assert_noop (update_pool_data (Signed ALICE) KUSD_BSX_POOL_ID None (Some 15) (Some 18) (Some
    10000000) (Some 80000000) (Some (5, 100)) (Some BOB) None)
    LbpErr.FeeCollectorWithAssetAlreadyUsed).

Definition update_pool_interval_should_work : Test := (new_test_ext,
  assert_ok (create_pool Root ALICE KUSD 1000000000 BSX 2000000000 10000000 10000000 Linear
    DEFAULT_FEE CHARLIE 0) ;;
  set_block_number 15 ;;
  assert_noop (update_pool_data (Signed ALICE) KUSD_BSX_POOL_ID None (Some 16) (Some 0) None None
    None None None) LbpErr.InvalidBlockRange ;;
  assert_ok (update_pool_data (Signed ALICE) KUSD_BSX_POOL_ID None (Some 16) (Some 20) None None
    None None None) ;;
  updated_pool_data ← pool_data KUSD_BSX_POOL_ID;
  check (fun s => bool_decide (start updated_pool_data = Some 16)) ;;
  check (fun s => bool_decide (end_ updated_pool_data = Some 20)) ;;
  check (has_events [
      LbpLiquidityAdded KUSD_BSX_POOL_ID KUSD BSX 1000000000 2000000000;
      LbpPoolUpdated KUSD_BSX_POOL_ID updated_pool_data])).

Definition add_liquidity_should_work : Test := (predefined_test_ext,
  user_balance_a_before ← gets (fun s => balance KUSD ALICE s);
  user_balance_b_before ← gets (fun s => balance BSX ALICE s);
  pool_balance_a_before ← gets (fun s => balance KUSD KUSD_BSX_POOL_ID s);
  pool_balance_b_before ← gets (fun s => balance BSX KUSD_BSX_POOL_ID s);
  let added_a := 10000000000 in let added_b := 20000000000 in
  assert_ok (add_liquidity (Signed ALICE) (KUSD, added_a) (BSX, added_b)) ;;
  pool_balance_a_after ← gets (fun s => balance KUSD KUSD_BSX_POOL_ID s);
  pool_balance_b_after ← gets (fun s => balance BSX KUSD_BSX_POOL_ID s);
  check (fun s => pool_balance_a_after =? pool_balance_a_before + added_a) ;;
  check (fun s => pool_balance_b_after =? pool_balance_b_before + added_b) ;;
  user_balance_a_after ← gets (fun s => balance KUSD ALICE s);
  user_balance_b_after ← gets (fun s => balance BSX ALICE s);
  check (fun s => user_balance_a_after =? user_balance_a_before - added_a) ;;
  check (fun s => user_balance_b_after =? user_balance_b_before - added_b) ;;
  user_balance_a_before ← gets (fun s => balance KUSD ALICE s);
  user_balance_b_before ← gets (fun s => balance BSX ALICE s);
  pool_balance_a_before ← gets (fun s => balance KUSD KUSD_BSX_POOL_ID s);
  pool_balance_b_before ← gets (fun s => balance BSX KUSD_BSX_POOL_ID s);
  assert_ok (add_liquidity (Signed ALICE) (KUSD, added_a) (BSX, 0)) ;;
  pool_balance_a_after ← gets (fun s => balance KUSD KUSD_BSX_POOL_ID s);
  pool_balance_b_after ← gets (fun s => balance BSX KUSD_BSX_POOL_ID s);
  check (fun s => pool_balance_a_after =? pool_balance_a_before + added_a) ;;
  check (fun s => pool_balance_b_after =? pool_balance_b_before) ;;
  user_balance_a_after ← gets (fun s => balance KUSD ALICE s);
  user_balance_b_after ← gets (fun s => balance BSX ALICE s);
  check (fun s => user_balance_a_after =? user_balance_a_before - added_a) ;;
  check (fun s => user_balance_b_after =? user_balance_b_before) ;;
  user_balance_a_before ← gets (fun s => balance KUSD ALICE s);
  user_balance_b_before ← gets (fun s => balance BSX ALICE s);
  pool_balance_a_before ← gets (fun s => balance KUSD KUSD_BSX_POOL_ID s);
  pool_balance_b_before ← gets (fun s => balance BSX KUSD_BSX_POOL_ID s);
  assert_ok (add_liquidity (Signed ALICE) (BSX, added_b) (KUSD, added_a)) ;;
  pool_balance_a_after ← gets (fun s => balance KUSD KUSD_BSX_POOL_ID s);
  pool_balance_b_after ← gets (fun s => balance BSX KUSD_BSX_POOL_ID s);
  check (fun s => pool_balance_a_after =? pool_balance_a_before + added_a) ;;
  check (fun s => pool_balance_b_after =? pool_balance_b_before + added_b) ;;
  user_balance_a_after ← gets (fun s => balance KUSD ALICE s);
  user_balance_b_after ← gets (fun s => balance BSX ALICE s);
  check (fun s => user_balance_a_after =? user_balance_a_before - added_a) ;;
  check (fun s => user_balance_b_after =? user_balance_b_before - added_b) ;;
  check (has_events [
      LbpLiquidityAdded KUSD_BSX_POOL_ID KUSD BSX added_a added_b;
      LbpLiquidityAdded KUSD_BSX_POOL_ID KUSD BSX added_a 0;
      LbpLiquidityAdded KUSD_BSX_POOL_ID BSX KUSD added_b added_a])).

Definition add_liquidity_by_non_owner_should_not_work : Test := (predefined_test_ext,
  balance_is KUSD BOB 1000000000000000 ;; balance_is BSX BOB 1000000000000000 ;;
  balance_is KUSD KUSD_BSX_POOL_ID 1000000000 ;; balance_is BSX KUSD_BSX_POOL_ID 2000000000 ;;
  assert_noop (add_liquidity (Signed BOB) (KUSD, 10000000000) (BSX, 20000000000)) LbpErr.NotOwner).

Definition add_zero_liquidity_should_not_work : Test := (predefined_test_ext,
  user_balance_a_before ← gets (fun s => balance KUSD ALICE s);
  user_balance_b_before ← gets (fun s => balance BSX ALICE s);
  pool_balance_a_before ← gets (fun s => balance KUSD KUSD_BSX_POOL_ID s);
  pool_balance_b_before ← gets (fun s => balance BSX KUSD_BSX_POOL_ID s);
  assert_noop (add_liquidity (Signed ALICE) (KUSD, 0) (BSX, 0)) LbpErr.CannotAddZeroLiquidity ;;
  pool_balance_a_after ← gets (fun s => balance KUSD KUSD_BSX_POOL_ID s);
  pool_balance_b_after ← gets (fun s => balance BSX KUSD_BSX_POOL_ID s);
  check (fun s => pool_balance_a_after =? pool_balance_a_before) ;;
  check (fun s => pool_balance_b_after =? pool_balance_b_before) ;;
  user_balance_a_after ← gets (fun s => balance KUSD ALICE s);
  user_balance_b_after ← gets (fun s => balance BSX ALICE s);
  check (fun s => user_balance_a_after =? user_balance_a_before) ;;
  check (fun s => user_balance_b_after =? user_balance_b_before)).

Definition add_liquidity_with_insufficient_balance_should_not_work : Test := (predefined_test_ext,
  user_balance_a_before ← gets (fun s => balance KUSD ALICE s);
  pool_balance_a_before ← gets (fun s => balance KUSD KUSD_BSX_POOL_ID s);
  pool_balance_b_before ← gets (fun s => balance BSX KUSD_BSX_POOL_ID s);
  assert_noop (add_liquidity (Signed ALICE) (KUSD, u128_MAX) (BSX, 0))
    LbpErr.InsufficientAssetBalance ;;
  pool_balance_a_after ← gets (fun s => balance KUSD KUSD_BSX_POOL_ID s);
  pool_balance_b_after ← gets (fun s => balance BSX KUSD_BSX_POOL_ID s);
  check (fun s => pool_balance_a_after =? pool_balance_a_before) ;;
  check (fun s => pool_balance_b_after =? pool_balance_b_before) ;;
  user_balance_a_after ← gets (fun s => balance KUSD ALICE s);
  check (fun s => user_balance_a_after =? user_balance_a_before)).

Definition add_liquidity_after_sale_started_should_work : Test := (predefined_test_ext,
  set_block_number 15 ;;
  user_balance_a_before ← gets (fun s => balance KUSD ALICE s);
  user_balance_b_before ← gets (fun s => balance BSX ALICE s);
  pool_balance_a_before ← gets (fun s => balance KUSD KUSD_BSX_POOL_ID s);
  pool_balance_b_before ← gets (fun s => balance BSX KUSD_BSX_POOL_ID s);
  assert_ok (add_liquidity (Signed ALICE) (KUSD, 1000) (BSX, 1000)) ;;
  pool_balance_a_after ← gets (fun s => balance KUSD KUSD_BSX_POOL_ID s);
  pool_balance_b_after ← gets (fun s => balance BSX KUSD_BSX_POOL_ID s);
  check (fun s => pool_balance_a_after =? pool_balance_a_before + 1000) ;;
  check (fun s => pool_balance_b_after =? pool_balance_b_before + 1000) ;;
  user_balance_a_after ← gets (fun s => balance KUSD ALICE s);
  user_balance_b_after ← gets (fun s => balance BSX ALICE s);
  check (fun s => user_balance_a_after =? user_balance_a_before - 1000) ;;
  check (fun s => user_balance_b_after =? user_balance_b_before - 1000) ;;
  set_block_number 30 ;;
  user_balance_a_before ← gets (fun s => balance KUSD ALICE s);
  user_balance_b_before ← gets (fun s => balance BSX ALICE s);
  pool_balance_a_before ← gets (fun s => balance KUSD KUSD_BSX_POOL_ID s);
  pool_balance_b_before ← gets (fun s => balance BSX KUSD_BSX_POOL_ID s);
  assert_ok (add_liquidity (Signed ALICE) (KUSD, 1000) (BSX, 1000)) ;;
  pool_balance_a_after ← gets (fun s => balance KUSD KUSD_BSX_POOL_ID s);
  pool_balance_b_after ← gets (fun s => balance BSX KUSD_BSX_POOL_ID s);
  check (fun s => pool_balance_a_after =? pool_balance_a_before + 1000) ;;
  check (fun s => pool_balance_b_after =? pool_balance_b_before + 1000) ;;
  user_balance_a_after ← gets (fun s => balance KUSD ALICE s);
  user_balance_b_after ← gets (fun s => balance BSX ALICE s);
  check (fun s => user_balance_a_after =? user_balance_a_before - 1000) ;;
  check (fun s => user_balance_b_after =? user_balance_b_before - 1000) ;;
  check (has_events [
      LbpLiquidityAdded KUSD_BSX_POOL_ID KUSD BSX 1000 1000;
      LbpLiquidityAdded KUSD_BSX_POOL_ID KUSD BSX 1000 1000])).

Definition add_liquidity_to_non_existing_pool_should_not_work : Test := (predefined_test_ext,
  assert_noop (add_liquidity (Signed ALICE) (KUSD, 1000) (HDX, 1000)) LbpErr.PoolNotFound).

Definition remove_liquidity_should_work : Test := (predefined_test_ext,
  set_block_number 41 ;;
  user_balance_a_before ← gets (fun s => balance KUSD ALICE s);
  user_balance_b_before ← gets (fun s => balance BSX ALICE s);
  pool_balance_a_before ← gets (fun s => balance KUSD KUSD_BSX_POOL_ID s);
  pool_balance_b_before ← gets (fun s => balance BSX KUSD_BSX_POOL_ID s);
  assert_ok (remove_liquidity (Signed ALICE) KUSD_BSX_POOL_ID) ;;
  pool_balance_a_after ← gets (fun s => balance KUSD KUSD_BSX_POOL_ID s);
  pool_balance_b_after ← gets (fun s => balance BSX KUSD_BSX_POOL_ID s);
  check (fun s => pool_balance_a_after =? 0) ;;
  check (fun s => pool_balance_b_after =? 0) ;;
  user_balance_a_after ← gets (fun s => balance KUSD ALICE s);
  check (fun s => user_balance_a_after =? user_balance_a_before + pool_balance_a_before) ;;
  user_balance_b_after ← gets (fun s => balance BSX ALICE s);
  check (fun s => user_balance_b_after =? user_balance_b_before + pool_balance_b_before) ;;
  check (fun s => negb (collects CHARLIE KUSD s)) ;;
  check (fun s => negb (has_pool KUSD_BSX_POOL_ID s)) ;;
  check (has_events [
      LbpLiquidityRemoved KUSD_BSX_POOL_ID KUSD BSX pool_balance_a_before pool_balance_b_before])).

Definition remove_liquidity_from_not_started_pool_should_work : Test := (predefined_test_ext,
  user_balance_a_before ← gets (fun s => balance KUSD ALICE s);
  user_balance_b_before ← gets (fun s => balance BSX ALICE s);
  pool_balance_a_before ← gets (fun s => balance KUSD KUSD_BSX_POOL_ID s);
  pool_balance_b_before ← gets (fun s => balance BSX KUSD_BSX_POOL_ID s);
  assert_ok (remove_liquidity (Signed ALICE) KUSD_BSX_POOL_ID) ;;
  pool_balance_a_after ← gets (fun s => balance KUSD KUSD_BSX_POOL_ID s);
  pool_balance_b_after ← gets (fun s => balance BSX KUSD_BSX_POOL_ID s);
  check (fun s => pool_balance_a_after =? 0) ;;
  check (fun s => pool_balance_b_after =? 0) ;;
  user_balance_a_after ← gets (fun s => balance KUSD ALICE s);
  check (fun s => user_balance_a_after =? user_balance_a_before + pool_balance_a_before) ;;
  user_balance_b_after ← gets (fun s => balance BSX ALICE s);
  check (fun s => user_balance_b_after =? user_balance_b_before + pool_balance_b_before) ;;
  check (fun s => negb (has_pool KUSD_BSX_POOL_ID s)) ;;
  check (has_events [
      LbpLiquidityRemoved KUSD_BSX_POOL_ID KUSD BSX pool_balance_a_before pool_balance_b_before]) ;;
  assert_ok (create_pool Root ALICE HDX 1000000000 BSX 2000000000 10000000 90000000 Linear
    DEFAULT_FEE CHARLIE 0) ;;
  user_balance_a_before ← gets (fun s => balance HDX ALICE s);
  user_balance_b_before ← gets (fun s => balance BSX ALICE s);
  pool_balance_a_before ← gets (fun s => balance HDX HDX_BSX_POOL_ID s);
  pool_balance_b_before ← gets (fun s => balance BSX HDX_BSX_POOL_ID s);
  assert_ok (remove_liquidity (Signed ALICE) HDX_BSX_POOL_ID) ;;
  pool_balance_a_after ← gets (fun s => balance HDX HDX_BSX_POOL_ID s);
  pool_balance_b_after ← gets (fun s => balance BSX HDX_BSX_POOL_ID s);
  check (fun s => pool_balance_a_after =? 0) ;;
  check (fun s => pool_balance_b_after =? 0) ;;
  user_balance_a_after ← gets (fun s => balance HDX ALICE s);
  check (fun s => user_balance_a_after =? user_balance_a_before + pool_balance_a_before) ;;
  user_balance_b_after ← gets (fun s => balance BSX ALICE s);
  check (fun s => user_balance_b_after =? user_balance_b_before + pool_balance_b_before) ;;
  check (fun s => negb (has_pool HDX_BSX_POOL_ID s)) ;;
  check (has_events [
      LbpLiquidityRemoved HDX_BSX_POOL_ID HDX BSX pool_balance_a_before pool_balance_b_before])).

Definition remove_liquidity_from_non_existing_pool_should_not_work : Test := (new_test_ext,
  assert_noop (remove_liquidity (Signed ALICE) KUSD_BSX_POOL_ID) LbpErr.PoolNotFound).

Definition remove_liquidity_from_not_finalized_pool_should_not_work : Test :=
  (predefined_test_ext,
  set_block_number 15 ;;
  user_balance_a_before ← gets (fun s => balance KUSD ALICE s);
  user_balance_b_before ← gets (fun s => balance BSX ALICE s);
  pool_balance_a_before ← gets (fun s => balance KUSD KUSD_BSX_POOL_ID s);
  pool_balance_b_before ← gets (fun s => balance BSX KUSD_BSX_POOL_ID s);
  assert_noop (remove_liquidity (Signed ALICE) KUSD_BSX_POOL_ID) LbpErr.SaleNotEnded ;;
  user_balance_a_after ← gets (fun s => balance KUSD ALICE s);
  user_balance_b_after ← gets (fun s => balance BSX ALICE s);
  pool_balance_a_after ← gets (fun s => balance KUSD KUSD_BSX_POOL_ID s);
  pool_balance_b_after ← gets (fun s => balance BSX KUSD_BSX_POOL_ID s);
  check (fun s => pool_balance_a_before =? pool_balance_a_after) ;;
  check (fun s => pool_balance_b_before =? pool_balance_b_after) ;;
  check (fun s => user_balance_a_before =? user_balance_a_after) ;;
  check (fun s => user_balance_b_before =? user_balance_b_after)).

Definition remove_liquidity_from_finalized_pool_should_work : Test := (predefined_test_ext,
  set_block_number 41 ;;
  user_balance_a_before ← gets (fun s => balance KUSD ALICE s);
  user_balance_b_before ← gets (fun s => balance BSX ALICE s);
  pool_balance_a_before ← gets (fun s => balance KUSD KUSD_BSX_POOL_ID s);
  pool_balance_b_before ← gets (fun s => balance BSX KUSD_BSX_POOL_ID s);
  assert_ok (remove_liquidity (Signed ALICE) KUSD_BSX_POOL_ID) ;;
  pool_balance_a_after ← gets (fun s => balance KUSD KUSD_BSX_POOL_ID s);
  pool_balance_b_after ← gets (fun s => balance BSX KUSD_BSX_POOL_ID s);
  check (fun s => pool_balance_a_after =? 0) ;;
  check (fun s => pool_balance_b_after =? 0) ;;
  user_balance_a_after ← gets (fun s => balance KUSD ALICE s);
  check (fun s => user_balance_a_after =? user_balance_a_before + pool_balance_a_before) ;;
  user_balance_b_after ← gets (fun s => balance BSX ALICE s);
  check (fun s => user_balance_b_after =? user_balance_b_before + pool_balance_b_before) ;;
  check (fun s => negb (has_pool KUSD_BSX_POOL_ID s)) ;;
  check (has_events [
      LbpLiquidityRemoved KUSD_BSX_POOL_ID KUSD BSX pool_balance_a_before pool_balance_b_before])).

Definition remove_liquidity_by_non_owner_should_not_work : Test := (predefined_test_ext,
  assert_noop (remove_liquidity (Signed BOB) KUSD_BSX_POOL_ID) LbpErr.NotOwner).

Definition execute_trade_should_work : Test := (predefined_test_ext,
  let asset_in := KUSD in let asset_out := BSX in let pool_id := KUSD_BSX_POOL_ID in
  let amount_in := 5000000 in let amount_out := 10000000 in
  let t_sell := mkAMMTransfer ALICE (AssetPair_new asset_in asset_out) amount_in amount_out false
    0 (asset_in, 1000) in
  balance_is asset_in ALICE 999999000000000 ;; balance_is asset_out ALICE 999998000000000 ;;
  balance_is asset_in CHARLIE 0 ;; balance_is asset_out CHARLIE 0 ;;
  balance_is asset_in pool_id 1000000000 ;; balance_is asset_out pool_id 2000000000 ;;
  assert_ok (execute_trade t_sell) ;;
  balance_is asset_in ALICE 999998994999000 ;; balance_is asset_out ALICE 999998010000000 ;;
  balance_is asset_in CHARLIE 1000 ;; balance_is asset_out CHARLIE 0 ;;
  balance_is asset_in pool_id 1005000000 ;; balance_is asset_out pool_id 1990000000 ;;
  let t_buy := mkAMMTransfer ALICE (AssetPair_new asset_in asset_out) amount_in amount_out false
    0 (asset_in, 1000) in
  assert_ok (execute_trade t_buy) ;;
  balance_is asset_in ALICE 999998989998000 ;; balance_is asset_out ALICE 999998020000000 ;;
  balance_is asset_in CHARLIE 2000 ;; balance_is asset_out CHARLIE 0 ;;
  balance_is asset_in pool_id 1010000000 ;; balance_is asset_out pool_id 1980000000).

Definition execute_trade_should_not_work : Test := (predefined_test_ext,
  let asset_in := KUSD in let asset_out := BSX in
  let pool_id := get_pair_id (AssetPair_new asset_in asset_out) in let amount_in := 5000000 in
  let amount_out := 10000000000000000 in
  let t := mkAMMTransfer ALICE (AssetPair_new asset_in asset_out) amount_in amount_out false 0
    (asset_in, 1000) in
  balance_is asset_in ALICE 999999000000000 ;; balance_is asset_out ALICE 999998000000000 ;;
  balance_is asset_out CHARLIE 0 ;; balance_is asset_in pool_id 1000000000 ;;
  balance_is asset_out pool_id 2000000000 ;;
  assert_noop (execute_trade t) BalanceTooLow ;;
  balance_is asset_in ALICE 999999000000000 ;; balance_is asset_out ALICE 999998000000000 ;;
  balance_is asset_out CHARLIE 0 ;; balance_is asset_in pool_id 1000000000 ;;
  balance_is asset_out pool_id 2000000000).

Definition execute_sell_should_work : Test := (predefined_test_ext,
  let asset_in := KUSD in let asset_out := BSX in
  let pool_id := get_pair_id (AssetPair_new asset_in asset_out) in let amount_in := 8000000 in
  let amount_out := 20000000 in
  let t := mkAMMTransfer ALICE (AssetPair_new asset_in asset_out) amount_in amount_out false 0
    (asset_in, 1000) in
  balance_is asset_in ALICE 999999000000000 ;; balance_is asset_out ALICE 999998000000000 ;;
  balance_is asset_out CHARLIE 0 ;; balance_is asset_in pool_id 1000000000 ;;
  balance_is asset_out pool_id 2000000000 ;;
  assert_ok (execute_sell t) ;;
  check (has_events [
      LbpSellExecuted ALICE asset_in asset_out amount_in amount_out asset_in 1000]) ;;
  balance_is asset_in ALICE 999998991999000 ;; balance_is asset_out ALICE 999998020000000 ;;
  balance_is asset_in CHARLIE 1000 ;; balance_is asset_in pool_id 1008000000 ;;
  balance_is asset_out pool_id 1980000000 ;;
  check (has_events [
      LbpSellExecuted ALICE asset_in asset_out 8000000 20000000 asset_in 1000])).

Definition execute_sell_should_not_work : Test := (predefined_test_ext,
  let t := mkAMMTransfer ALICE (AssetPair_new KUSD BSX) 8000000000 200000000000000 false 0 (KUSD,
    1000) in
  balance_is KUSD ALICE 999999000000000 ;; balance_is BSX ALICE 999998000000000 ;;
  balance_is BSX CHARLIE 0 ;; balance_is KUSD KUSD_BSX_POOL_ID 1000000000 ;;
  balance_is BSX KUSD_BSX_POOL_ID 2000000000 ;;
  assert_noop (execute_sell t) BalanceTooLow ;;
  balance_is KUSD ALICE 999999000000000 ;; balance_is BSX ALICE 999998000000000 ;;
  balance_is BSX CHARLIE 0 ;; balance_is KUSD KUSD_BSX_POOL_ID 1000000000 ;;
  balance_is BSX KUSD_BSX_POOL_ID 2000000000).

Definition zero_weight_should_not_work : Test := (predefined_test_ext,
  assert_noop (create_pool Root ALICE ETH 1000000000 KUSD 2000000000 0 20 Linear DEFAULT_FEE
    CHARLIE 0) LbpErr.InvalidWeight ;;
  assert_noop (update_pool_data (Signed ALICE) KUSD_BSX_POOL_ID None (Some 15) (Some 18) (Some 0)
    (Some 80) (Some (5, 100)) (Some BOB) (Some 0)) LbpErr.InvalidWeight).

Definition execute_buy_should_work : Test := (predefined_test_ext,
  let asset_in := KUSD in let asset_out := BSX in
  let pool_id := get_pair_id (AssetPair_new asset_in asset_out) in let amount_in := 8000000 in
  let amount_out := 20000000 in
  let t := mkAMMTransfer ALICE (AssetPair_new asset_in asset_out) amount_in amount_out false 0
    (asset_in, 1000) in
  balance_is asset_in ALICE 999999000000000 ;; balance_is asset_out ALICE 999998000000000 ;;
  balance_is asset_in CHARLIE 0 ;; balance_is asset_out CHARLIE 0 ;;
  balance_is asset_in pool_id 1000000000 ;; balance_is asset_out pool_id 2000000000 ;;
  assert_ok (execute_buy t) ;;
  balance_is asset_in ALICE 999998991999000 ;; balance_is asset_out ALICE 999998020000000 ;;
  balance_is asset_in CHARLIE 1000 ;; balance_is asset_out CHARLIE 0 ;;
  balance_is asset_in pool_id 1008000000 ;; balance_is asset_out pool_id 1980000000 ;;
  check (has_events [
      LbpBuyExecuted ALICE asset_out asset_in 8000000 20000000 asset_in 1000])).

Definition execute_buy_should_not_work : Test := (predefined_test_ext,
  let asset_in := KUSD in let asset_out := BSX in
  let pool_id := get_pair_id (AssetPair_new asset_in asset_out) in
  let amount_in := 8000000000 in let amount_out := 200000000000000 in
  let t := mkAMMTransfer ALICE (AssetPair_new asset_in asset_out) amount_in amount_out false 0
    (asset_in, 1000) in
  balance_is asset_in ALICE 999999000000000 ;; balance_is asset_out ALICE 999998000000000 ;;
  balance_is asset_in CHARLIE 0 ;; balance_is asset_in pool_id 1000000000 ;;
  balance_is asset_out pool_id 2000000000 ;;
  assert_noop (execute_buy t) BalanceTooLow ;;
  balance_is asset_in ALICE 999999000000000 ;; balance_is asset_out ALICE 999998000000000 ;;
  balance_is asset_in CHARLIE 0 ;; balance_is asset_in pool_id 1000000000 ;;
  balance_is asset_out pool_id 2000000000).

Definition sell_zero_amount_should_not_work : Test := (predefined_test_ext,
  assert_noop (sell (Signed BOB) KUSD BSX 0 200000) LbpErr.ZeroAmount).

Definition buy_zero_amount_should_not_work : Test := (predefined_test_ext,
  assert_noop (buy (Signed BOB) KUSD BSX 0 200000) LbpErr.ZeroAmount).

Definition sell_to_non_existing_pool_should_not_work : Test := (predefined_test_ext,
  assert_noop (sell (Signed BOB) KUSD ETH 800000 200000) LbpErr.PoolNotFound).

Definition buy_from_non_existing_pool_should_not_work : Test := (predefined_test_ext,
  assert_noop (buy (Signed BOB) KUSD ETH 800000 200000) LbpErr.PoolNotFound).

Definition exceed_max_in_ratio_should_not_work : Test := (predefined_test_ext,
  set_block_number 11 ;;
  assert_noop (sell (Signed BOB) KUSD BSX ((1000000000 / MAX_IN_RATIO) + 1) 200000)
    LbpErr.MaxInRatioExceeded ;;
  assert_noop (sell (Signed BOB) KUSD BSX (1000000000 / 2) 200000) LbpErr.MaxInRatioExceeded ;;
  assert_ok (sell (Signed BOB) KUSD BSX (1000000000 / MAX_IN_RATIO) 2000)).

Definition exceed_max_out_ratio_should_not_work : Test := (predefined_test_ext,
  set_block_number 11 ;;
  assert_noop (buy (Signed BOB) BSX KUSD ((2000000000 / MAX_OUT_RATIO) + 1) 200000)
    LbpErr.MaxOutRatioExceeded ;;
  assert_noop (buy (Signed BOB) BSX KUSD (2000000000 / 2) 200000) LbpErr.MaxOutRatioExceeded).

Definition trade_in_non_running_pool_should_not_work : Test := (predefined_test_ext,
  let who := BOB in let asset_in := KUSD in let asset_out := BSX in let amount := 800000 in
  let limit := 200000 in
  set_block_number 9 ;;
  assert_noop (sell (Signed who) asset_in asset_out amount limit) LbpErr.SaleIsNotRunning ;;
  assert_noop (buy (Signed who) asset_out asset_in amount limit) LbpErr.SaleIsNotRunning ;;
  set_block_number 41 ;;
  assert_noop (sell (Signed who) asset_in asset_out amount limit) LbpErr.SaleIsNotRunning ;;
  assert_noop (buy (Signed who) asset_out asset_in amount limit) LbpErr.SaleIsNotRunning).

Definition exceed_trader_limit_should_not_work : Test := (predefined_test_ext,
  let who := BOB in let asset_in := KUSD in let asset_out := BSX in let amount := 800000 in
  let sell_limit := 800000 in let buy_limit := 1000 in
  set_block_number 11 ;;
  assert_noop (sell (Signed who) asset_in asset_out amount sell_limit) LbpErr.TradingLimitReached ;;
  assert_noop (buy (Signed who) asset_out asset_in amount buy_limit) LbpErr.TradingLimitReached).

Definition sell_with_insufficient_balance_should_not_work : Test := (predefined_test_ext,
  let who := BOB in let asset_in := KUSD in let asset_out := BSX in let amount := 1000000 in
  assert_ok (zoom (withdraw asset_in who 999999999900000)) ;;
  balance_is asset_in who 100000 ;;
  set_block_number 11 ;;
  assert_noop (sell (Signed who) asset_in asset_out amount 800000) LbpErr.InsufficientAssetBalance).

Definition buy_with_insufficient_balance_should_not_work : Test := (predefined_test_ext,
  let who := BOB in let asset_in := KUSD in let asset_out := BSX in let amount := 1000000 in
  assert_ok (zoom (withdraw asset_in who 999999999900000)) ;;
  balance_is asset_in who 100000 ;;
  set_block_number 11 ;;
  assert_noop (buy (Signed who) asset_out asset_in amount 2000000) LbpErr.InsufficientAssetBalance).

Definition zero_fee_should_work : Test := (new_test_ext,
  assert_ok (create_pool Root ALICE KUSD 1000000000 BSX 2000000000 20000000 80000000 Linear (0,
    100) CHARLIE 0) ;;
  assert_ok (update_pool_data (Signed ALICE) KUSD_BSX_POOL_ID None (Some 10) (Some 20) None None
    None None None) ;;
  set_block_number 11 ;;
  assert_ok (sell (Signed ALICE) KUSD BSX 1000 1)).

Definition invalid_fee_should_not_work : Test := (new_test_ext,
  assert_noop (create_pool Root ALICE KUSD 1000000000 BSX 2000000000 20000000 80000000 Linear
    (10, 0) CHARLIE 0) LbpErr.FeeAmountInvalid).

Definition get_sorted_weight_should_work : Test := (predefined_test_ext,
  pool ← pool_data KUSD_BSX_POOL_ID;
  check (fun s => bool_decide (get_sorted_weight KUSD 10 pool = Some (20000000, 80000000))) ;;
  check (fun s => bool_decide (get_sorted_weight BSX 10 pool = Some (80000000, 20000000))) ;;
  check (fun s => bool_decide (get_sorted_weight KUSD 41 pool = None))).

Definition calculate_fees_should_work : Test := (predefined_test_ext,
  pool ← pool_data KUSD_BSX_POOL_ID;
  returns (calculate_fees pool 1234567890) 2469134 ;;
  returns (calculate_fees pool 1000) 2 ;;
  returns (calculate_fees pool 1999) 2 ;;
  returns (calculate_fees pool 999) 0 ;;
  returns (calculate_fees pool u128_MAX) 680564733841876926926749214863536422 ;;
  assert_ok (create_pool Root ALICE HDX 1000000000 BSX 2000000000 80000000 20000000 Linear (10,
    1) CHARLIE 0) ;;
  assert_ok (update_pool_data (Signed ALICE) KUSD_BSX_POOL_ID None (Some SALE_START) (Some 20)
    None None None None None) ;;
  pool ← pool_data HDX_BSX_POOL_ID;
  assert_err (calculate_fees pool u128_MAX) LbpErr.FeeAmountInvalid).

Definition can_create_should_work : Test := (new_test_ext,
  let asset_pair := AssetPair_new KUSD BSX in
  check (fun s => can_create (asset_in asset_pair) (asset_out asset_pair) s) ;;
  assert_ok (create_pool Root ALICE KUSD 1000000000 BSX 2000000000 20000000 80000000 Linear
    DEFAULT_FEE CHARLIE 0) ;;
  check (fun s => negb (can_create (asset_in asset_pair) (asset_out asset_pair) s)) ;;
  assert_ok (update_pool_data (Signed ALICE) KUSD_BSX_POOL_ID None (Some 10) (Some 20) None None
    None None None) ;;
  check (fun s => negb (can_create (asset_in asset_pair) (asset_out asset_pair) s)) ;;
  set_block_number 15 ;;
  check (fun s => negb (can_create (asset_in asset_pair) (asset_out asset_pair) s)) ;;
  set_block_number 30 ;;
  check (fun s => can_create (asset_in asset_pair) (asset_out asset_pair) s) ;;
  assert_ok (remove_liquidity (Signed ALICE) KUSD_BSX_POOL_ID) ;;
  check (fun s => can_create (asset_in asset_pair) (asset_out asset_pair) s)).

Definition repay_fee_not_applied_when_set_to_zero : Test := (new_test_ext,
  let pool := mkPool (owner SAMPLE_POOL_DATA) (start SAMPLE_POOL_DATA) (end_ SAMPLE_POOL_DATA)
    (pool_assets SAMPLE_POOL_DATA) (initial_weight SAMPLE_POOL_DATA) (final_weight
    SAMPLE_POOL_DATA) (weight_curve SAMPLE_POOL_DATA) (fee SAMPLE_POOL_DATA) (fee_collector
    SAMPLE_POOL_DATA) 0 in
  check (fun s => Bool.eqb (is_repay_fee_applied pool s) false)).

Definition repay_fee_applied_when_set : Test := (new_test_ext,
  let pool := mkPool (owner SAMPLE_POOL_DATA) (start SAMPLE_POOL_DATA) (end_ SAMPLE_POOL_DATA)
    (pool_assets SAMPLE_POOL_DATA) (initial_weight SAMPLE_POOL_DATA) (final_weight
    SAMPLE_POOL_DATA) (weight_curve SAMPLE_POOL_DATA) (fee SAMPLE_POOL_DATA) (fee_collector
    SAMPLE_POOL_DATA) 10000000 in
  check (fun s => Bool.eqb (is_repay_fee_applied pool s) true)).

Definition repay_fee_not_applied_when_target_reached : Test := (new_test_ext,
  let pool := mkPool (owner SAMPLE_POOL_DATA) (start SAMPLE_POOL_DATA) (end_ SAMPLE_POOL_DATA)
    (pool_assets SAMPLE_POOL_DATA) (initial_weight SAMPLE_POOL_DATA) (final_weight
    SAMPLE_POOL_DATA) (weight_curve SAMPLE_POOL_DATA) (fee SAMPLE_POOL_DATA) ALICE
    INITIAL_BALANCE in
  assert_ok (zoom (set_lock COLLECTOR_LOCK_ID (fst (pool_assets pool)) ALICE INITIAL_BALANCE)) ;;
  check (fun s => Bool.eqb (is_repay_fee_applied pool s) false)).

Definition repay_fee_not_applied_in_predefined_env : Test := (predefined_test_ext,
  pool ← pool_data KUSD_BSX_POOL_ID;
  check (fun s => Bool.eqb (is_repay_fee_applied pool s) false)).

Definition repay_fee_applied_in_env_with_repay_target : Test :=
  (predefined_test_ext_with_repay_target,
  pool ← pool_data KUSD_BSX_POOL_ID;
  check (fun s => Bool.eqb (is_repay_fee_applied pool s) true)).

Definition calculate_repay_fee : Test := (predefined_test_ext_with_repay_target,
  pool ← pool_data KUSD_BSX_POOL_ID;
  returns (calculate_fees pool 1000) 200).

Definition repay_fee_should_work : Test := (new_test_ext,
  check (fun s => bool_decide (repay_fee = (2, 10)))).

Definition collected_fees_should_be_locked_and_unlocked_after_liquidity_is_removed : Test :=
  (predefined_test_ext,
  run_to_sale_start ;;
  pool ← pool_data KUSD_BSX_POOL_ID;
  let fee_collector := fee_collector pool in
  let '(fee_asset, fee_amount) := t_fee SAMPLE_AMM_TRANSFER in
  assert_ok (execute_buy SAMPLE_AMM_TRANSFER) ;;
  balance_is fee_asset fee_collector fee_amount ;;
  check (fun s => locked fee_asset fee_collector s =? fee_amount) ;;
  run_to_sale_end ;;
  check (fun s => locked fee_asset fee_collector s =? fee_amount) ;;
  assert_ok (remove_liquidity (Signed ALICE) KUSD_BSX_POOL_ID) ;;
  check (fun s => locked fee_asset fee_collector s =? 0)).

Definition collected_fees_are_continually_locked : Test := (predefined_test_ext,
  run_to_sale_start ;;
  pool ← pool_data KUSD_BSX_POOL_ID;
  let fee_collector := fee_collector pool in
  let '(fee_asset, fee_amount) := t_fee SAMPLE_AMM_TRANSFER in
  assert_ok (execute_buy SAMPLE_AMM_TRANSFER) ;;
  assert_ok (execute_buy SAMPLE_AMM_TRANSFER) ;;
  let total := 2 * fee_amount in
  balance_is fee_asset fee_collector total ;;
  check (fun s => locked fee_asset fee_collector s =? total)).

Definition lbp_suite : list Test :=
    [default_locked_balance_should_be_zero; validate_pool_data_should_work;
     max_sale_duration_ckeck; calculate_weights_should_work; create_pool_should_work;
     create_pool_from_basic_origin_should_not_work; create_same_pool_should_not_work;
     create_pool_with_same_assets_should_not_work;
     create_pool_with_non_existing_fee_collector_with_asset_should_work;
     create_pool_with_existing_fee_collector_with_asset_should_not_work;
     create_pool_with_insufficient_liquidity_should_not_work;
     create_pool_with_insufficient_balance_should_not_work; update_pool_data_should_work;
     update_non_existing_pool_data_should_not_work;
     update_pool_with_invalid_data_should_not_work;
     update_pool_data_without_changes_should_not_work;
     update_pool_data_by_non_owner_should_not_work;
     update_pool_owner_by_new_owner_should_work;
     update_pool_data_for_running_lbp_should_not_work;
     update_pool_with_existing_fee_collector_should_not_work;
     update_pool_interval_should_work; add_liquidity_should_work;
     add_liquidity_by_non_owner_should_not_work; add_zero_liquidity_should_not_work;
     add_liquidity_with_insufficient_balance_should_not_work;
     add_liquidity_after_sale_started_should_work;
     add_liquidity_to_non_existing_pool_should_not_work; remove_liquidity_should_work;
     remove_liquidity_from_not_started_pool_should_work;
     remove_liquidity_from_non_existing_pool_should_not_work;
     remove_liquidity_from_not_finalized_pool_should_not_work;
     remove_liquidity_from_finalized_pool_should_work;
     remove_liquidity_by_non_owner_should_not_work; execute_trade_should_work;
     execute_trade_should_not_work; execute_sell_should_work; execute_sell_should_not_work;
     zero_weight_should_not_work; execute_buy_should_work; execute_buy_should_not_work;
     sell_zero_amount_should_not_work; buy_zero_amount_should_not_work;
     sell_to_non_existing_pool_should_not_work; buy_from_non_existing_pool_should_not_work;
     exceed_max_in_ratio_should_not_work; exceed_max_out_ratio_should_not_work;
     trade_in_non_running_pool_should_not_work; exceed_trader_limit_should_not_work;
     sell_with_insufficient_balance_should_not_work;
     buy_with_insufficient_balance_should_not_work; zero_fee_should_work;
     invalid_fee_should_not_work; get_sorted_weight_should_work; calculate_fees_should_work;
     can_create_should_work; repay_fee_not_applied_when_set_to_zero;
     repay_fee_applied_when_set; repay_fee_not_applied_when_target_reached;
     repay_fee_not_applied_in_predefined_env; repay_fee_applied_in_env_with_repay_target;
     calculate_repay_fee; repay_fee_should_work;
     collected_fees_should_be_locked_and_unlocked_after_liquidity_is_removed;
     collected_fees_are_continually_locked].

(** Both predefined chains are set up without an error. *)
Lemma lbp_chains_built :
  has_pool KUSD_BSX_POOL_ID predefined_test_ext = true /\
  has_pool KUSD_BSX_POOL_ID predefined_test_ext_with_repay_target = true.
Proof. vm_compute. by split. Qed.

(** The tests pass on the model. *)
Theorem lbp_tests_pass : suite_passes lbp_suite.
Proof. unfold lbp_suite. run_suite. Qed.

(** ** The simulated sale *)

Lemma foldl_insert_inv {K A} `{Countable K} (P : K -> A -> Prop) (l : list (K * A)) (m : gmap K A) :
  map_Forall P m -> Forall (fun kv => P (fst kv) (snd kv)) l ->
  map_Forall P (foldl (fun m kv => <[fst kv := snd kv]> m) m l).
Proof.
  revert m. induction l as [|[k a] l IH]; intros m Hm Hl; [done|]. inversion_clear Hl. cbn.
  apply IH; [by apply map_Forall_insert_2|done].
Qed.

(** Every trade of the simulation falls into the sale and is a positive part of the daily rate
    of it, when the rate is large enough to be divided. *)
Theorem generate_trades_in_sale start end_ sale_rate sell_ratio trades :
  0 < sell_ratio -> 24 * sell_ratio <= sale_rate ->
  generate_trades start end_ sale_rate sell_ratio = Some trades ->
  map_Forall (fun n t => start <= n <= end_ /\ 0 < snd t <= sale_rate / 24) trades.
Proof.
  intros Hr Hs. unfold generate_trades. destruct (sell_ratio =? 0) eqn:?; [lia|].
  destruct (Z.ltb_spec end_ start); [done|]. cbn [orb]. intros <-%(inj Some).
  apply foldl_insert_inv; [apply map_Forall_empty|].
  assert (Hsell : 0 < sale_rate / sell_ratio / 24 <= sale_rate / 24).
  { split; [|apply Z.div_le_mono; [lia|]; apply Z.div_le_upper_bound; nia].
    apply Z.div_str_pos. split; [lia|]. apply Z.div_le_lower_bound; nia. }
  apply list.Forall_forall. intros [n t] (i & Hi & Ht)%list_elem_of_omap.
  apply elem_of_seq in Hi. unfold trade_at in Ht.
  repeat (case_bool_decide; [|]); simplify_eq/=; (split; [|lia]);
    pose proof (Z.mul_div_le (end_ - start) INTERVALS ltac:(unfold INTERVALS; lia));
    assert (0 <= (end_ - start) / INTERVALS) by (apply Z.div_pos; unfold INTERVALS; lia);
    unfold INTERVALS in *; nia.
Qed.
