(* ===== verification/Nft.v ===== *)
(** * The NFT pallet

    Models [src/pallets/nft/src/lib.rs] and [types.rs]: classes with a type that
    decides what may be done with their instances, on top of [pallet_uniques],
    which keeps the owners.  [pallet_uniques] is not in the repository; it is the
    interface [Uniques] with its documented behaviour. *)

From S2P Require Import Prelude Primitives Errors.

(** ** [pallet_uniques], as far as the pallet calls it

    [do_transfer] and [do_burn] check that the token exists and is not frozen, run
    the caller's closure, and only then change the record: the two halves are
    [..._check] and [..._commit]. *)
Class Uniques (U : Type) := {
  class_owner : ClassId -> U -> option AccountId;
  token_owner : ClassId -> InstanceId -> U -> option AccountId;
  class_instances : ClassId -> U -> option Z;
  uniques_create : ClassId -> AccountId -> AccountId -> Balance -> bool -> Dispatch U unit;
  uniques_mint : ClassId -> InstanceId -> AccountId -> Dispatch U unit;
  transfer_check : ClassId -> InstanceId -> Dispatch U unit;
  transfer_commit : ClassId -> InstanceId -> AccountId -> U -> U;
  burn_check : ClassId -> InstanceId -> Dispatch U unit;
  burn_commit : ClassId -> InstanceId -> U -> U;
  uniques_destroy : ClassId -> AccountId -> Dispatch U unit;
  ClassDeposit : Balance
}.

(** Every token and every class, after [o] became the owner of one. *)
Definition with_token (c : ClassId) (i : InstanceId) (o : option AccountId)
    (f : ClassId -> InstanceId -> option AccountId) (c' : ClassId) (i' : InstanceId) :=
  if decide ((c', i') = (c, i)) then o else f c' i'.
Definition with_class (c : ClassId) (o : option AccountId) (f : ClassId -> option AccountId)
    (c' : ClassId) := if decide (c' = c) then o else f c'.

Class UniquesLaws (U : Type) `{Uniques U} : Prop := {
  create_effect c o a d h (u u' : U) :
    uniques_create c o a d h u = (Ok tt, u') ->
    class_owner c u = None /\
    (forall c', class_owner c' u' = with_class c (Some o) (fun x => class_owner x u) c') /\
    (forall c' i, token_owner c' i u' = token_owner c' i u);
  mint_effect c i o (u u' : U) :
    uniques_mint c i o u = (Ok tt, u') ->
    is_Some (class_owner c u) /\ token_owner c i u = None /\
    (forall c', class_owner c' u' = class_owner c' u) /\
    (forall c' i', token_owner c' i' u' =
       with_token c i (Some o) (fun x y => token_owner x y u) c' i');
  transfer_check_effect c i (u u' : U) :
    transfer_check c i u = (Ok tt, u') -> u' = u /\ is_Some (token_owner c i u);
  transfer_effect c i o (u : U) :
    (forall c', class_owner c' (transfer_commit c i o u) = class_owner c' u) /\
    (forall c' i', token_owner c' i' (transfer_commit c i o u) =
       with_token c i (Some o) (fun x y => token_owner x y u) c' i');
  burn_check_effect c i (u u' : U) :
    burn_check c i u = (Ok tt, u') -> u' = u /\ is_Some (token_owner c i u);
  burn_effect c i (u : U) :
    (forall c', class_owner c' (burn_commit c i u) = class_owner c' u) /\
    (forall c' i', token_owner c' i' (burn_commit c i u) =
       with_token c i None (fun x y => token_owner x y u) c' i');
  instances_witness c (u : U) :
    (is_Some (class_instances c u) <-> is_Some (class_owner c u)) /\
    (class_instances c u = Some 0 -> forall i, token_owner c i u = None);
  destroy_effect c o (u u' : U) :
    uniques_destroy c o u = (Ok tt, u') ->
    class_owner c u = Some o /\
    (forall c', class_owner c' u' = with_class c None (fun x => class_owner x u) c') /\
    (class_instances c u = Some 0 -> forall c' i, token_owner c' i u' = token_owner c' i u)
}.

(** ** The pallet *)

(** Metadata: a bounded byte string. *)
Notation Metadata := (list Z) (only parsing).

Record ClassInfo := mkClassInfo { class_type : ClassType; class_metadata : Metadata }.
Record InstanceInfo := mkInstanceInfo { instance_metadata : Metadata }.

Inductive NftEvent :=
| ClassCreated (owner : AccountId) (class_id : ClassId) (class_type : ClassType) (m : Metadata)
| InstanceMinted (owner : AccountId) (class_id : ClassId) (instance_id : InstanceId) (m : Metadata)
| InstanceTransferred (from to : AccountId) (class_id : ClassId) (instance_id : InstanceId)
| InstanceBurned (owner : AccountId) (class_id : ClassId) (instance_id : InstanceId)
| ClassDestroyed (owner : AccountId) (class_id : ClassId).

Record NftState (U : Type) := mkNft {
  uniques : U;
  Classes : gmap ClassId ClassInfo;
  Instances : gmap (ClassId * InstanceId) InstanceInfo;
  nft_events : list NftEvent
}.
Arguments mkNft {U}.
Arguments uniques {U}.
Arguments Classes {U}.
Arguments Instances {U}.
Arguments nft_events {U}.

Section setters.
Context {U : Type}.
Implicit Types s : NftState U.
Definition set_uniques (u : U) s : NftState U := mkNft u (Classes s) (Instances s) (nft_events s).
Definition set_Classes (f : gmap ClassId ClassInfo -> gmap ClassId ClassInfo) s : NftState U :=
  mkNft (uniques s) (f (Classes s)) (Instances s) (nft_events s).
Definition set_Instances (f : gmap (ClassId * InstanceId) InstanceInfo ->
    gmap (ClassId * InstanceId) InstanceInfo) s : NftState U :=
  mkNft (uniques s) (Classes s) (f (Instances s)) (nft_events s).
Definition nft_deposit_event (e : NftEvent) : Dispatch (NftState U) unit :=
  modify (fun s => mkNft (uniques s) (Classes s) (Instances s) (nft_events s ++ [e])).
End setters.

#[export] Instance Nft_lens U : Lens (NftState U) U := {|
  lens_get := uniques;
  lens_set := set_uniques
|}.
#[export] Instance Nft_lens_laws U : LensLaws (NftState U) U.
Proof. split; [done|by intros []|done]. Qed.

Class NftConfig := {
  NftReserveClassIdUpTo : ClassId;
  Permissions : NftPermission ClassType
}.

Section pallet.
Context {U : Type} `{Uniques U} {cfg : NftConfig}.
Notation State := (NftState U).
Local Notation ensure b e := (ensure b%rust (NftE e)).
Local Notation ok_or o e := (ok_or o (NftE e)).

Definition owner (class_id : ClassId) (instance_id : InstanceId) (s : State) : option AccountId :=
  token_owner class_id instance_id (uniques s).

Definition do_create_class (owner : AccountId) (class_id : ClassId) (class_type : ClassType)
    (metadata : Metadata) : Dispatch State (ClassId * ClassType) :=
  let deposit_info := match @has_deposit _ Permissions class_type with
                      | false => (0, true)
                      | true => (ClassDeposit, false)
                      end in
  zoom (uniques_create class_id owner owner (fst deposit_info) (snd deposit_info)) ;;
  modify (set_Classes (insert class_id (mkClassInfo class_type metadata))) ;;
  nft_deposit_event (ClassCreated owner class_id class_type metadata) ;;
  mret (class_id, class_type).

Definition do_mint (owner : AccountId) (class_id : ClassId) (instance_id : InstanceId)
    (metadata : Metadata) : Dispatch State InstanceId :=
  zoom (uniques_mint class_id instance_id owner) ;;
  modify (set_Instances (insert (class_id, instance_id) (mkInstanceInfo metadata))) ;;
  nft_deposit_event (InstanceMinted owner class_id instance_id metadata) ;;
  mret instance_id.

Definition do_transfer (class_id : ClassId) (instance_id : InstanceId) (from to : AccountId)
    : Dispatch State unit :=
  if from =? to then mret tt else
  zoom (transfer_check class_id instance_id) ;;
  maybe_owner ← gets (owner class_id instance_id);
  owner ← ok_or maybe_owner NftErr.InstanceUnknown;
  ensure (owner == from) NftErr.NotPermitted ;;
  nft_deposit_event (InstanceTransferred from to class_id instance_id) ;;
  modify (fun s => set_uniques (transfer_commit class_id instance_id to (uniques s)) s).

Definition do_burn (who : AccountId) (class_id : ClassId) (instance_id : InstanceId)
    : Dispatch State unit :=
  zoom (burn_check class_id instance_id) ;;
  maybe_owner ← gets (owner class_id instance_id);
  iowner ← ok_or maybe_owner NftErr.InstanceUnknown;
  ensure (who == iowner) NftErr.NotPermitted ;;
  modify (fun s => set_uniques (burn_commit class_id instance_id (uniques s)) s) ;;
  modify (set_Instances (delete (class_id, instance_id))) ;;
  nft_deposit_event (InstanceBurned who class_id instance_id) ;;
  mret tt.

Definition do_destroy_class (who : AccountId) (class_id : ClassId) : Dispatch State unit :=
  maybe_witness ← gets (fun s => class_instances class_id (uniques s));
  instances ← ok_or maybe_witness NftErr.ClassUnknown;
  ensure (instances == 0) NftErr.TokenClassNotEmpty ;;
  zoom (uniques_destroy class_id who) ;;
  modify (set_Classes (delete class_id)) ;;
  nft_deposit_event (ClassDestroyed who class_id) ;;
  mret tt.

(** The type of a class, or [ClassUnknown]. *)
Definition type_of (class_id : ClassId) : Dispatch State ClassType :=
  info ← gets (fun s => Classes s !! class_id);
  ok_or (option_map class_type info) NftErr.ClassUnknown.

(** ** Extrinsics *)

(** The class is created with the default type, whatever type was asked for. *)
Definition create_class (origin : Origin) (class_id : ClassId) (class_type : ClassType)
    (metadata : Metadata) : Dispatch State unit :=
  transactional (
    sender ← ensure_signed origin;
    ensure (NftReserveClassIdUpTo < class_id) NftErr.IdReserved ;;
    ensure (@can_create _ Permissions class_type) NftErr.NotPermitted ;;
    do_create_class sender class_id ClassType_default metadata ;;
    mret tt).

Definition mint (origin : Origin) (class_id : ClassId) (instance_id : InstanceId)
    (metadata : Metadata) : Dispatch State unit :=
  transactional (
    sender ← ensure_signed origin;
    class_type ← type_of class_id;
    ensure (@can_mint _ Permissions class_type) NftErr.NotPermitted ;;
    do_mint sender class_id instance_id metadata ;;
    mret tt).

(** The lookup of the destination is the identity, as configured. *)
Definition transfer (origin : Origin) (class_id : ClassId) (instance_id : InstanceId)
    (dest : AccountId) : Dispatch State unit :=
  transactional (
    sender ← ensure_signed origin;
    class_type ← type_of class_id;
    ensure (@can_transfer _ Permissions class_type) NftErr.NotPermitted ;;
    do_transfer class_id instance_id sender dest ;;
    mret tt).

Definition burn (origin : Origin) (class_id : ClassId) (instance_id : InstanceId)
    : Dispatch State unit :=
  transactional (
    sender ← ensure_signed origin;
    class_type ← type_of class_id;
    ensure (@can_burn _ Permissions class_type) NftErr.NotPermitted ;;
    do_burn sender class_id instance_id ;;
    mret tt).

Definition destroy_class (origin : Origin) (class_id : ClassId) : Dispatch State unit :=
  transactional (
    sender ← ensure_signed origin;
    class_type ← type_of class_id;
    ensure (@can_destroy _ Permissions class_type) NftErr.NotPermitted ;;
    do_destroy_class sender class_id ;;
    mret tt).
End pallet.
