(* ===== verification/NftProps.v ===== *)
(** * Correctness of the NFT pallet

    Only the owner can move or burn a token, and only as its class permits; the
    pallet's records and the ownership records of [pallet_uniques] agree in every
    reachable state. *)

From S2P Require Import Prelude Primitives Errors Nft.

Section nft.
Context {U : Type} `{UniquesLaws U} {cfg : NftConfig}.
Notation State := (NftState U).
Implicit Types s : State.

Inductive nft_call :=
| NftCreate (c : ClassId) (t : ClassType) (m : list Z)
| NftMint (c : ClassId) (i : InstanceId) (m : list Z)
| NftTransfer (c : ClassId) (i : InstanceId) (dest : AccountId)
| NftBurn (c : ClassId) (i : InstanceId)
| NftDestroy (c : ClassId).

Definition nft_dispatch (origin : Origin) (call : nft_call) : Dispatch State unit :=
  match call with
  | NftCreate c t m => create_class origin c t m
  | NftMint c i m => mint origin c i m
  | NftTransfer c i d => transfer origin c i d
  | NftBurn c i => burn origin c i
  | NftDestroy c => destroy_class origin c
  end.

Lemma nft_dispatch_rollback origin call s r s' :
  nft_dispatch origin call s = (r, s') -> (forall u, r <> Ok u) -> s' = s.
Proof. destruct call; apply transactional_rollback. Qed.

(** ** What the internal functions do *)

Lemma do_create_class_Ok o c t m s x s' :
  do_create_class o c t m s = (Ok x, s') ->
  class_owner c (uniques s) = None /\
  (forall c', class_owner c' (uniques s') = with_class c (Some o) (fun x => class_owner x (uniques s)) c') /\
  (forall c' i, owner c' i s' = owner c' i s) /\
  Classes s' = <[c := mkClassInfo t m]> (Classes s) /\ Instances s' = Instances s.
Proof.
  unfold do_create_class, nft_deposit_event, owner. intros Hrun. minv Hrun.
  match goal with Hu : uniques_create _ _ _ _ _ _ = _ |- _ => apply create_effect in Hu as (? & ? & ?) end.
  done.
Qed.

Lemma do_mint_Ok o c i m s x s' :
  do_mint o c i m s = (Ok x, s') ->
  is_Some (class_owner c (uniques s)) /\ owner c i s = None /\
  (forall c', class_owner c' (uniques s') = class_owner c' (uniques s)) /\
  (forall c' i', owner c' i' s' = with_token c i (Some o) (fun x y => owner x y s) c' i') /\
  Classes s' = Classes s /\ Instances s' = <[(c, i) := mkInstanceInfo m]> (Instances s).
Proof.
  unfold do_mint, nft_deposit_event, owner. intros Hrun. minv Hrun.
  match goal with Hu : uniques_mint _ _ _ _ = _ |- _ => apply mint_effect in Hu as (? & ? & ? & ?) end.
  done.
Qed.

Lemma do_transfer_Ok c i f t s x s' :
  do_transfer c i f t s = (Ok x, s') ->
  Classes s' = Classes s /\ Instances s' = Instances s /\
  (forall c', class_owner c' (uniques s') = class_owner c' (uniques s)) /\
  (f = t /\ s' = s \/
   f <> t /\ owner c i s = Some f /\
   forall c' i', owner c' i' s' = with_token c i (Some t) (fun x y => owner x y s) c' i').
Proof.
  unfold do_transfer, nft_deposit_event. intros Hrun. minv Hrun; zbool; subst; [split_and!; try done; by left|].
  match goal with Hu : transfer_check _ _ _ = _ |- _ => apply transfer_check_effect in Hu as [-> _] end.
  simpl in *. destruct (transfer_effect c i t (uniques s)) as [Hc Ho].
  split_and!; try done. right. split_and!; done.
Qed.

Lemma do_burn_Ok w c i s x s' :
  do_burn w c i s = (Ok x, s') ->
  owner c i s = Some w /\ Classes s' = Classes s /\ Instances s' = delete (c, i) (Instances s) /\
  (forall c', class_owner c' (uniques s') = class_owner c' (uniques s)) /\
  (forall c' i', owner c' i' s' = with_token c i None (fun x y => owner x y s) c' i').
Proof.
  unfold do_burn, nft_deposit_event. intros Hrun. minv Hrun; zbool; subst.
  match goal with Hu : burn_check _ _ _ = _ |- _ => apply burn_check_effect in Hu as [-> _] end.
  simpl in *. destruct (burn_effect c i (uniques s)) as [Hc Ho]. done.
Qed.

Lemma do_destroy_class_Ok w c s x s' :
  do_destroy_class w c s = (Ok x, s') ->
  class_owner c (uniques s) = Some w /\ class_instances c (uniques s) = Some 0 /\
  Classes s' = delete c (Classes s) /\ Instances s' = Instances s /\
  (forall c', class_owner c' (uniques s') = with_class c None (fun x => class_owner x (uniques s)) c') /\
  (forall c' i, owner c' i s' = owner c' i s).
Proof.
  unfold do_destroy_class, nft_deposit_event, owner. intros Hrun. minv Hrun; zbool; subst.
  match goal with Hu : uniques_destroy _ _ _ = _ |- _ => apply destroy_effect in Hu as (? & ? & Ht) end.
  split_and!; try done. by apply Ht.
Qed.

Lemma type_of_Ok c s t s' :
  type_of c s = (Ok t, s') -> s' = s /\ option_map class_type (Classes s !! c) = Some t.
Proof. unfold type_of. intros Hrun. minv Hrun. done. Qed.

#[local] Ltac minv_hook H ::=
  lazymatch type of H with
  | type_of _ _ = _ => apply type_of_Ok in H; destruct H as [? H]; subst
  end.

(** ** Ownership *)

(** The permission of the class of a token. *)
Definition permits (f : ClassType -> bool) (c : ClassId) (s : State) : Prop :=
  exists t, option_map class_type (Classes s !! c) = Some t /\ f t = true.

(** [C29] A token is safe with its owner from the extrinsics of the NFT pallet: whichever of
    them is called, from whatever origin, the token keeps its owner unless the owner
    itself transfers it in a class that permits transfers, or burns it in a class that
    permits burning.  The marketplace and the liquidity mining pallet, which move and
    burn tokens through the pallet's functions, have theorems of their own. *)
Theorem nft_owner_protected origin call s r s' c i o :
  nft_dispatch origin call s = (r, s') -> owner c i s = Some o ->
  owner c i s' = Some o \/
  origin = Signed o /\
  ((exists d, call = NftTransfer c i d /\ permits (@can_transfer _ Permissions) c s /\
              owner c i s' = Some d) \/
   (call = NftBurn c i /\ permits (@can_burn _ Permissions) c s /\ owner c i s' = None)).
Proof.
  intros Hrun Ho. destruct r as [[]| |].
  2,3: left; by rewrite (nft_dispatch_rollback _ _ _ _ _ Hrun).
  destruct call; simpl in Hrun.
  - unfold create_class in Hrun. dinv Hrun.
    match goal with Hd : do_create_class _ _ _ _ _ = _ |- _ =>
      apply do_create_class_Ok in Hd as (_ & _ & Hafter & _) end. left. congruence.
  - unfold mint in Hrun. dinv Hrun.
    match goal with Hd : do_mint _ _ _ _ _ = _ |- _ =>
      apply do_mint_Ok in Hd as (_ & Hn & _ & Hafter & _) end.
    left. rewrite Hafter. unfold with_token. rewrite decide_False; [done|congruence].
  - unfold transfer in Hrun. dinv Hrun.
    match goal with Hd : do_transfer _ _ _ _ _ = _ |- _ =>
      apply do_transfer_Ok in Hd as (_ & _ & _ & [[-> ->]|(Hne & Hf & Hafter)]); [by left|] end.
    rewrite Hafter. unfold with_token. case_decide as Heq; [|by left]. injection Heq as -> ->.
    right. split; [congruence|]. left. eexists. split_and!; try done. eexists. eauto.
  - unfold burn in Hrun. dinv Hrun.
    match goal with Hd : do_burn _ _ _ _ = _ |- _ =>
      apply do_burn_Ok in Hd as (Hf & _ & _ & _ & Hafter) end.
    rewrite Hafter. unfold with_token. case_decide as Heq; [|by left]. injection Heq as -> ->.
    right. split; [congruence|]. right. split_and!; try done. eexists. eauto.
  - unfold destroy_class in Hrun. dinv Hrun.
    match goal with Hd : do_destroy_class _ _ _ = _ |- _ =>
      apply do_destroy_class_Ok in Hd as (_ & _ & _ & _ & _ & Hafter) end. left. congruence.
Qed.

(** ** The records agree *)

Record nft_ok (s : State) : Prop := mkNftOk {
  no_class c : is_Some (Classes s !! c) <-> is_Some (class_owner c (uniques s));
  no_token c i : is_Some (Instances s !! (c, i)) <-> is_Some (owner c i s);
  no_member c i : is_Some (owner c i s) -> is_Some (Classes s !! c)
}.

(** Extrinsics, with any result, and the functions other pallets call. *)
Inductive nft_step : State -> State -> Prop :=
| nft_step_call origin call s r s' : nft_dispatch origin call s = (r, s') -> nft_step s s'
| nft_step_create o c t m s x s' : do_create_class o c t m s = (Ok x, s') -> nft_step s s'
| nft_step_mint o c i m s x s' : do_mint o c i m s = (Ok x, s') -> nft_step s s'
| nft_step_burn o c i s x s' : do_burn o c i s = (Ok x, s') -> nft_step s s'.

Inductive nft_reachable : State -> Prop :=
| nft_reach_init s :
    Classes s = ∅ -> Instances s = ∅ -> (forall c, class_owner c (uniques s) = None) ->
    (forall c i, owner c i s = None) -> nft_reachable s
| nft_reach_step s s' : nft_reachable s -> nft_step s s' -> nft_reachable s'.

Lemma is_Some_None_iff {A B} : is_Some (@None A) <-> is_Some (@None B).
Proof. split; intros []; done. Qed.
Lemma is_Some_Some_iff {A B} (a : A) (b : B) : is_Some (Some a) <-> is_Some (Some b).
Proof. split; eauto. Qed.

Lemma nft_ok_create o c t m s x s' :
  nft_ok s -> do_create_class o c t m s = (Ok x, s') -> nft_ok s'.
Proof.
  intros [K1 K2 K3] (Hn & Hc & Ho & Hcl & Hin)%do_create_class_Ok. split.
  - intros c'. rewrite Hc, Hcl. unfold with_class. rewrite lookup_insert.
    destruct (decide (c = c')), (decide (c' = c)); try congruence; [apply is_Some_Some_iff|apply K1].
  - intros c' i. rewrite Ho, Hin. apply K2.
  - intros c' i. rewrite Ho, Hcl, lookup_insert. case_decide; [eauto|apply K3].
Qed.

Lemma nft_ok_mint o c i m s x s' : nft_ok s -> do_mint o c i m s = (Ok x, s') -> nft_ok s'.
Proof.
  intros [K1 K2 K3] (Hs & Hn & Hc & Ho & Hcl & Hin)%do_mint_Ok. split.
  - intros c'. rewrite Hc, Hcl. apply K1.
  - intros c' i'. rewrite Ho, Hin. unfold with_token. rewrite lookup_insert.
    destruct (decide ((c, i) = (c', i'))), (decide ((c', i') = (c, i))); try congruence;
      [apply is_Some_Some_iff|apply K2].
  - intros c' i'. rewrite Ho, Hcl. unfold with_token. case_decide as Hd; [|apply K3].
    injection Hd as -> ->. intros _. by apply K1.
Qed.

Lemma nft_ok_burn o c i s x s' : nft_ok s -> do_burn o c i s = (Ok x, s') -> nft_ok s'.
Proof.
  intros [K1 K2 K3] (Hs & Hcl & Hin & Hc & Ho)%do_burn_Ok. split.
  - intros c'. rewrite Hc, Hcl. apply K1.
  - intros c' i'. rewrite Ho, Hin. unfold with_token. rewrite lookup_delete.
    destruct (decide ((c, i) = (c', i'))), (decide ((c', i') = (c, i))); try congruence;
      [apply is_Some_None_iff|apply K2].
  - intros c' i'. rewrite Ho, Hcl. unfold with_token. case_decide as Hd; [|apply K3].
    by intros [].
Qed.

Lemma nft_ok_transfer c i f t s x s' : nft_ok s -> do_transfer c i f t s = (Ok x, s') -> nft_ok s'.
Proof.
  intros [K1 K2 K3] (Hcl & Hin & Hc & [[-> ->]|(Hne & Hs & Ho)])%do_transfer_Ok; [by split|].
  assert (Hsome : forall c' i', is_Some (owner c' i' s') <-> is_Some (owner c' i' s)).
  { intros c' i'. rewrite Ho. unfold with_token. case_decide as Hd; [|done].
    injection Hd as -> ->. rewrite Hs. apply is_Some_Some_iff. }
  split.
  - intros c'. rewrite Hc, Hcl. apply K1.
  - intros c' i'. rewrite Hsome, Hin. apply K2.
  - intros c' i'. rewrite Hsome, Hcl. apply K3.
Qed.

Lemma nft_ok_destroy w c s x s' : nft_ok s -> do_destroy_class w c s = (Ok x, s') -> nft_ok s'.
Proof.
  intros [K1 K2 K3] (Hs & Hz & Hcl & Hin & Hc & Ho)%do_destroy_class_Ok.
  destruct (instances_witness c (uniques s)) as [_ Hempty]. split.
  - intros c'. rewrite Hc, Hcl. unfold with_class. rewrite lookup_delete.
    destruct (decide (c = c')), (decide (c' = c)); try congruence; [apply is_Some_None_iff|apply K1].
  - intros c' i'. rewrite Ho, Hin. apply K2.
  - intros c' i'. rewrite Ho, Hcl, lookup_delete. case_decide as Hd; [|apply K3]. subst.
    unfold owner. rewrite (Hempty Hz). by intros [].
Qed.

Lemma nft_step_ok s s' : nft_ok s -> nft_step s s' -> nft_ok s'.
Proof.
  intros Hok Hstep. revert Hok. destruct Hstep as [origin call s r s' Hrun| | |]; intros Hok;
    eauto using nft_ok_create, nft_ok_mint, nft_ok_burn.
  destruct r as [[]| |]. 2,3: by rewrite (nft_dispatch_rollback _ _ _ _ _ Hrun).
  destruct call; simpl in Hrun;
    unfold create_class, mint, transfer, burn, destroy_class in Hrun; dinv Hrun;
    eauto using nft_ok_create, nft_ok_mint, nft_ok_transfer, nft_ok_burn, nft_ok_destroy.
Qed.

(** [C35] In every reachable state the records of the pallet and the ownership
    records of [pallet_uniques] agree: a class has an entry exactly when it has an
    owner, an instance exactly when it has one, and every owned instance belongs to
    an existing class. *)
Theorem nft_reachable_ok s : nft_reachable s -> nft_ok s.
Proof.
  induction 1 as [s Hc Hi Hco Ho|s s' _ IH Hstep]; [|by eapply nft_step_ok].
  split.
  - intros c. rewrite Hc, Hco, lookup_empty. apply is_Some_None_iff.
  - intros c i. rewrite Hi, Ho, lookup_empty. apply is_Some_None_iff.
  - intros c i. rewrite Ho. by intros [].
Qed.
End nft.
