(* ===== verification/Marketplace.v ===== *)
(** * The marketplace pallet

    Models [src/pallets/marketplace/src/lib.rs] and [types.rs]: listings, offers
    backed by reserved funds, and royalties for NFTs, on top of the NFT pallet.  The
    native currency with its named reserves and the percentage arithmetic are
    interfaces. *)

From S2P Require Import Prelude Primitives Errors Interfaces Nft.

(** ** [NamedReservableCurrency], as far as the pallet calls it

    Transfers are made with [ExistenceRequirement::KeepAlive]. *)
Class NamedReservable (U : Type) := {
  n_free : AccountId -> U -> Balance;
  n_reserved : ReserveIdentifier -> AccountId -> U -> Balance;
  n_transfer : AccountId -> AccountId -> Balance -> Dispatch U unit;
  reserve_named : ReserveIdentifier -> AccountId -> Balance -> Dispatch U unit;
  unreserve_named : ReserveIdentifier -> AccountId -> Balance -> U -> U
}.

(** [x] moves from [f] to [t]. *)
Definition pays (f t : AccountId) (x : Balance) (z : AccountId) : Balance :=
  (if decide (z = t) then x else 0) - (if decide (z = f) then x else 0).

Class NamedReservableLaws (U : Type) `{NamedReservable U} `{Uniques U} : Prop := {
  n_transfer_effect f t x (u u' : U) :
    n_transfer f t x u = (Ok tt, u') -> 0 <= x ->
    (forall z, n_free z u' = n_free z u + pays f t x z) /\
    (forall id z, n_reserved id z u' = n_reserved id z u) /\
    (forall c i, token_owner c i u' = token_owner c i u);
  reserve_named_effect id w x (u u' : U) :
    reserve_named id w x u = (Ok tt, u') -> 0 <= x ->
    (forall z, n_free z u' = n_free z u - (if decide (z = w) then x else 0)) /\
    (forall id' z, n_reserved id' z u' =
       n_reserved id' z u + (if decide (id' = id /\ z = w) then x else 0)) /\
    (forall c i, token_owner c i u' = token_owner c i u);
  unreserve_named_effect id w x (u : U) :
    0 <= x <= n_reserved id w u ->
    (forall z, n_free z (unreserve_named id w x u) = n_free z u + (if decide (z = w) then x else 0)) /\
    (forall id' z, n_reserved id' z (unreserve_named id w x u) =
       n_reserved id' z u - (if decide (id' = id /\ z = w) then x else 0));
  unreserve_named_tokens id w x (u : U) c i :
    token_owner c i (unreserve_named id w x u) = token_owner c i u;
  transfer_commit_funds c i o (u : U) :
    (forall z, n_free z (transfer_commit c i o u) = n_free z u) /\
    (forall id z, n_reserved id z (transfer_commit c i o u) = n_reserved id z u)
}.

(** [Percent::from_percent(p) * x]. *)
Class PercentMath := { percent_of : Z -> Balance -> Balance }.
Class PercentMathLaws `{PercentMath} : Prop := {
  percent_of_bounds p x : 0 <= p -> 0 <= x -> 0 <= percent_of p x <= x
}.

(** ** The pallet *)

Record Offer := mkOffer { maker : AccountId; offer_amount : Balance; expires : BlockNumber }.
Record Royalty := mkRoyalty { author : AccountId; royalty : Z }.

Inductive MarketEvent :=
| TokenPriceUpdated (owner : AccountId) (c : ClassId) (i : InstanceId) (price : option Balance)
| TokenSold (owner buyer : AccountId) (c : ClassId) (i : InstanceId) (price : Balance)
| OfferPlaced (who : AccountId) (c : ClassId) (i : InstanceId) (amount : Balance)
    (expires : BlockNumber)
| OfferWithdrawn (who : AccountId) (c : ClassId) (i : InstanceId)
| OfferAccepted (who : AccountId) (c : ClassId) (i : InstanceId) (amount : Balance)
| RoyaltyPaid (c : ClassId) (i : InstanceId) (author : AccountId) (royalty : Z) (amount : Balance)
| RoyaltyAdded (c : ClassId) (i : InstanceId) (author : AccountId) (royalty : Z).

Record MarketState (U : Type) := mkMarket {
  nft : NftState U;
  Prices : gmap (ClassId * InstanceId) Balance;
  Offers : gmap ((ClassId * InstanceId) * AccountId) Offer;
  MarketplaceInstances : gmap (ClassId * InstanceId) Royalty;
  market_events : list MarketEvent
}.
Arguments mkMarket {U}.
Arguments nft {U}.
Arguments Prices {U}.
Arguments Offers {U}.
Arguments MarketplaceInstances {U}.
Arguments market_events {U}.

Section setters.
Context {U : Type}.
Implicit Types s : MarketState U.
Definition set_nft (n : NftState U) s : MarketState U :=
  mkMarket n (Prices s) (Offers s) (MarketplaceInstances s) (market_events s).
Definition set_Prices (f : gmap (ClassId * InstanceId) Balance -> gmap (ClassId * InstanceId) Balance)
    s : MarketState U :=
  mkMarket (nft s) (f (Prices s)) (Offers s) (MarketplaceInstances s) (market_events s).
Definition set_Offers (f : gmap ((ClassId * InstanceId) * AccountId) Offer ->
    gmap ((ClassId * InstanceId) * AccountId) Offer) s : MarketState U :=
  mkMarket (nft s) (Prices s) (f (Offers s)) (MarketplaceInstances s) (market_events s).
Definition set_MarketplaceInstances (f : gmap (ClassId * InstanceId) Royalty ->
    gmap (ClassId * InstanceId) Royalty) s : MarketState U :=
  mkMarket (nft s) (Prices s) (Offers s) (f (MarketplaceInstances s)) (market_events s).
Definition market_deposit_event (e : MarketEvent) : Dispatch (MarketState U) unit :=
  modify (fun s => mkMarket (nft s) (Prices s) (Offers s) (MarketplaceInstances s)
                     (market_events s ++ [e])).
(** The native currency, below the NFT pallet. *)
Definition funds s : U := uniques (nft s).
Definition set_funds (u : U) s : MarketState U := set_nft (set_uniques u (nft s)) s.
End setters.

#[export] Instance Market_lens U : Lens (MarketState U) (NftState U) := {|
  lens_get := nft;
  lens_set := set_nft
|}.
#[export] Instance Market_funds_lens U : Lens (MarketState U) U := {|
  lens_get := funds;
  lens_set := set_funds
|}.

Class MarketConfig := {
  MarketMinimumOfferAmount : Balance;
  MarketRoyaltyBondAmount : Balance
}.

Definition RESERVE_ID : ReserveIdentifier := ReserveMarketplace.

Section pallet.
Context {U : Type} `{Uniques U} `{NamedReservable U} `{BlockNumberProvider U} `{PercentMath}.
Context {ncfg : NftConfig} {cfg : MarketConfig}.
Notation State := (MarketState U).
Local Notation ensure b e := (ensure b%rust (MarketE e)).
Local Notation ok_or o e := (ok_or o (MarketE e)).
Local Notation pay f t x := (zoom (C := U) (n_transfer f t x)).

Definition token_owned (class_id : ClassId) (instance_id : InstanceId) (s : State)
    : option AccountId := owner class_id instance_id (nft s).

(** The royalty of a sale: what is left of the price for the owner. *)
Definition settle_royalty (buyer owner : AccountId) (class_id : ClassId)
    (instance_id : InstanceId) (price : Balance) : Dispatch State Balance :=
  maybe_info ← gets (fun s => MarketplaceInstances s !! (class_id, instance_id));
  match maybe_info with
  | Some info =>
      let royalty_amount := percent_of (royalty info) price in
      if negb (owner =? author info) && negb (royalty info =? 0) then
        pay buyer (author info) royalty_amount ;;
        market_deposit_event (RoyaltyPaid class_id instance_id (author info) (royalty info)
          royalty_amount) ;;
        mret (saturating_sub price royalty_amount)
      else mret price
  | None => mret price
  end.

(** Shared by [buy] and [accept_offer].  The listing is taken only in a [buy]. *)
Definition do_buy (buyer : AccountId) (class_id : ClassId) (instance_id : InstanceId)
    (is_offer : bool) : Dispatch State unit :=
  maybe_owner ← gets (token_owned class_id instance_id);
  owner ← ok_or maybe_owner MarketErr.ClassOrInstanceUnknown;
  ensure (buyer != owner) MarketErr.BuyFromSelf ;;
  let token_id := (class_id, instance_id) in
  listed ← gets (fun s => Prices s !! token_id);
  offer ← gets (fun s => Offers s !! (token_id, buyer));
  price ← (if is_offer then ok_or (option_map offer_amount offer) MarketErr.UnknownOffer
           else ok_or listed MarketErr.NotForSale);
  price ← settle_royalty buyer owner class_id instance_id price;
  pay buyer owner price ;;
  zoom (C := NftState U) (Nft.transfer (Signed owner) class_id instance_id buyer) ;;
  market_deposit_event (TokenSold owner buyer class_id instance_id price) ;;
  (if is_offer then mret tt else modify (set_Prices (delete token_id))).

Definition buy (origin : Origin) (class_id : ClassId) (instance_id : InstanceId)
    : Dispatch State unit :=
  transactional (
    sender ← ensure_signed origin;
    do_buy sender class_id instance_id false).

Definition set_price (origin : Origin) (class_id : ClassId) (instance_id : InstanceId)
    (new_price : option Balance) : Dispatch State unit :=
  transactional (
    sender ← ensure_signed origin;
    o ← gets (token_owned class_id instance_id);
    ensure (bool_decide (o = Some sender)) MarketErr.NotTheTokenOwner ;;
    modify (set_Prices (match new_price with
                        | Some p => insert (class_id, instance_id) p
                        | None => delete (class_id, instance_id)
                        end)) ;;
    market_deposit_event (TokenPriceUpdated sender class_id instance_id new_price) ;;
    mret tt).

Definition make_offer (origin : Origin) (class_id : ClassId) (instance_id : InstanceId)
    (amount : Balance) (expires : BlockNumber) : Dispatch State unit :=
  transactional (
    sender ← ensure_signed origin;
    ensure (amount >= MarketMinimumOfferAmount) MarketErr.OfferTooLow ;;
    old ← gets (fun s => Offers s !! ((class_id, instance_id), sender));
    ensure (negb (bool_decide (is_Some old))) MarketErr.AlreadyOffered ;;
    let token_id := (class_id, instance_id) in
    modify (set_Offers (insert (token_id, sender) (mkOffer sender amount expires))) ;;
    zoom (C := U) (reserve_named RESERVE_ID sender amount) ;;
    market_deposit_event (OfferPlaced sender class_id instance_id amount expires) ;;
    mret tt).

Definition withdraw_offer (origin : Origin) (class_id : ClassId) (instance_id : InstanceId)
    (maker_ : AccountId) : Dispatch State unit :=
  transactional (
    sender ← ensure_signed origin;
    let token_id := (class_id, instance_id) in
    maybe_offer ← gets (fun s => Offers s !! (token_id, maker_));
    offer ← ok_or maybe_offer MarketErr.UnknownOffer;
    maybe_owner ← gets (token_owned class_id instance_id);
    owner ← ok_or maybe_owner MarketErr.ClassOrInstanceUnknown;
    ensure ((sender =? maker offer) || (sender =? owner)) MarketErr.WithdrawNotAuthorized ;;
    modify (fun s => set_funds (unreserve_named RESERVE_ID (maker offer) (offer_amount offer)
                                  (funds s)) s) ;;
    market_deposit_event (OfferWithdrawn sender class_id instance_id) ;;
    modify (set_Offers (delete (token_id, maker_)))).

Definition accept_offer (origin : Origin) (class_id : ClassId) (instance_id : InstanceId)
    (maker_ : AccountId) : Dispatch State unit :=
  transactional (
    sender ← ensure_signed origin;
    let token_id := (class_id, instance_id) in
    maybe_owner ← gets (token_owned class_id instance_id);
    owner ← ok_or maybe_owner MarketErr.ClassOrInstanceUnknown;
    ensure (sender == owner) MarketErr.AcceptNotAuthorized ;;
    maybe_offer ← gets (fun s => Offers s !! (token_id, maker_));
    offer ← ok_or maybe_offer MarketErr.UnknownOffer;
    now ← gets (fun s => block_number (funds s));
    if now <? expires offer then
      modify (fun s => set_funds (unreserve_named RESERVE_ID (maker offer) (offer_amount offer)
                                    (funds s)) s) ;;
      do_buy (maker offer) class_id instance_id true ;;
      market_deposit_event (OfferAccepted sender class_id instance_id (offer_amount offer)) ;;
      modify (set_Offers (delete (token_id, maker_)))
    else fail (MarketE MarketErr.OfferExpired)).

Definition add_royalty (origin : Origin) (class_id : ClassId) (instance_id : InstanceId)
    (author : AccountId) (royalty : Z) : Dispatch State unit :=
  transactional (
    sender ← ensure_signed origin;
    old ← gets (fun s => MarketplaceInstances s !! (class_id, instance_id));
    ensure (negb (bool_decide (is_Some old))) MarketErr.RoyaltyAlreadySet ;;
    ensure (royalty <= 100) MarketErr.NotInRange ;;
    maybe_owner ← gets (token_owned class_id instance_id);
    owner ← Prelude.ok_or maybe_owner (NftE NftErr.ClassUnknown);
    Prelude.ensure (sender =? owner) (NftE NftErr.NotPermitted) ;;
    zoom (C := U) (reserve_named RESERVE_ID sender MarketRoyaltyBondAmount) ;;
    modify (set_MarketplaceInstances (insert (class_id, instance_id) (mkRoyalty author royalty))) ;;
    market_deposit_event (RoyaltyAdded class_id instance_id author royalty) ;;
    mret tt).
End pallet.
