(* ===== verification/MarketProps.v ===== *)
(** * Correctness of the marketplace pallet

    What a sale pays to whom, that every offer is backed by reserved funds in every
    reachable state, and what happens to listings and offers at the edges. *)

From S2P Require Import Prelude Primitives Errors Interfaces Nft NftProps Marketplace.

Section market.
Context {U : Type} `{Uniques U} `{NamedReservable U} `{BlockNumberProvider U} `{PercentMath}.
Context {ncfg : NftConfig} {cfg : MarketConfig}.
Context `{!UniquesLaws U} `{!NamedReservableLaws U} `{!PercentMathLaws}.
Notation State := (MarketState U).
Implicit Types s : State.

(** ** Sales *)

(** What a sale at [price] owes to an author: nothing without a royalty, or when the
    owner is the author. *)
Definition royalty_due (own : AccountId) (c : ClassId) (i : InstanceId) (price : Balance) (s : State)
    : AccountId * Balance :=
  match MarketplaceInstances s !! (c, i) with
  | Some info => if negb (own =? author info) && negb (royalty info =? 0)
                 then (author info, percent_of (royalty info) price) else (own, 0)
  | None => (own, 0)
  end.

(** The stored numbers are in the range of their types and of [add_royalty]. *)
Record market_typed (s : State) : Prop := mkTyped {
  ty_royalty k info : MarketplaceInstances s !! k = Some info -> 0 <= royalty info <= 100;
  ty_price k x : Prices s !! k = Some x -> 0 <= x;
  ty_offer k o : Offers s !! k = Some o -> 0 <= offer_amount o
}.

Lemma pays_0 f t z : pays f t 0 z = 0.
Proof. unfold pays. repeat case_decide; done. Qed.

Lemma royalty_due_bounds own c i price s :
  market_typed s -> 0 <= price -> 0 <= snd (royalty_due own c i price s) <= price.
Proof.
  intros Hr Hp. unfold royalty_due. destruct (MarketplaceInstances s !! (c, i)) as [info|] eqn:Hi; [|done].
  case_match; [|done]. simpl. apply percent_of_bounds; [|done]. by destruct (ty_royalty _ Hr _ _ Hi).
Qed.

Lemma settle_royalty_Ok b own c i price s x s' :
  market_typed s -> 0 <= price -> settle_royalty b own c i price s = (Ok x, s') ->
  let '(a, r) := royalty_due own c i price s in
  x = price - r /\
  (forall z, n_free z (funds s') = n_free z (funds s) + pays b a r z) /\
  (forall id z, n_reserved id z (funds s') = n_reserved id z (funds s)) /\
  (forall c' i', token_owned c' i' s' = token_owned c' i' s) /\
  Classes (nft s') = Classes (nft s) /\ Prices s' = Prices s /\ Offers s' = Offers s /\
  MarketplaceInstances s' = MarketplaceInstances s.
Proof.
  intros Hr Hp. pose proof (royalty_due_bounds own c i price s Hr Hp) as Hb. revert Hb.
  unfold settle_royalty, royalty_due, mbind at 1, M_bind, run_bind, gets.
  destruct (MarketplaceInstances s !! (c, i)) as [info|] eqn:Hi.
  - destruct (negb (own =? author info) && negb (royalty info =? 0)); simpl; intros Hb Hrun.
    + unfold market_deposit_event in Hrun.
      change (M_bind DispatchError State) with (@mbind (M DispatchError State) _) in Hrun.
      minv Hrun.
      match goal with Ht : n_transfer _ _ _ _ = _ |- _ =>
        apply n_transfer_effect in Ht as (Hf & Hv & Ho); [|lia] end.
      unfold token_owned, owner, funds in *; simpl in *.
      unfold saturating_sub. rewrite Z.max_r by lia. done.
    + minv Hrun. split_and!; try done; [lia|]. intros z. rewrite pays_0. lia.
  - simpl. intros Hb Hrun. minv Hrun. split_and!; try done; [lia|]. intros z. rewrite pays_0. lia.
Qed.

Lemma nft_transfer_effect own c i d (n n' : NftState U) :
  Nft.transfer (Signed own) c i d n = (Ok tt, n') -> own <> d ->
  owner c i n = Some own /\
  (forall c' i', owner c' i' n' = with_token c i (Some d) (fun x y => owner x y n) c' i') /\
  (forall z, n_free z (uniques n') = n_free z (uniques n)) /\
  (forall id z, n_reserved id z (uniques n') = n_reserved id z (uniques n)).
Proof.
  unfold Nft.transfer, type_of. intros Hrun Hne. minv Hrun.
  repeat match goal with Ht : ensure_signed _ _ = _ |- _ => apply ensure_signed_Ok in Ht as [[= <-] ->] end.
  match goal with Hd : do_transfer _ _ _ _ _ = _ |- _ => rename Hd into Htr end.
  pose proof (do_transfer_Ok _ _ _ _ _ _ _ Htr) as (_ & _ & _ & [[? _]|(_ & Hown & Hafter)]); [done|].
  split_and!; try done;
    unfold do_transfer, nft_deposit_event in Htr; rewrite (proj2 (Z.eqb_neq _ _) Hne) in Htr; minv Htr;
    (match goal with Hu : transfer_check _ _ _ = _ |- _ => apply transfer_check_effect in Hu as [-> _] end);
    simpl; apply transfer_commit_funds.
Qed.

(** The sale of token [(c, i)] of [own] to [b] at [price], on the funds and tokens. *)
Definition sold (b own : AccountId) (c : ClassId) (i : InstanceId) (price : Balance) (s s' : State)
    : Prop :=
  let '(a, r) := royalty_due own c i price s in
  0 <= r <= price /\
  (forall z, n_free z (funds s') = n_free z (funds s) + pays b a r z + pays b own (price - r) z) /\
  (forall id z, n_reserved id z (funds s') = n_reserved id z (funds s)) /\
  (forall c' i', token_owned c' i' s' = with_token c i (Some b) (fun x y => token_owned x y s) c' i').

Lemma do_buy_Ok b c i (offer : bool) s u s' :
  market_typed s -> do_buy b c i offer s = (Ok u, s') ->
  exists own price,
    token_owned c i s = Some own /\ b <> own /\
    (if offer then option_map offer_amount (Offers s !! ((c, i), b)) else Prices s !! (c, i)) = Some price /\
    sold b own c i price s s' /\
    Prices s' = (if offer then Prices s else delete (c, i) (Prices s)) /\
    Offers s' = Offers s /\ MarketplaceInstances s' = MarketplaceInstances s.
Proof.
  intros Hty Hrun. unfold do_buy in Hrun.
  apply bind_Ok in Hrun as (mo & s0 & Hg & Hrun). minv Hg.
  apply bind_Ok in Hrun as (own & s0 & Hg & Hrun). minv Hg.
  apply bind_Ok in Hrun as (? & s0 & Hg & Hrun). minv Hg. zbool. cbv zeta in Hrun.
  apply bind_Ok in Hrun as (listed & s0 & Hg & Hrun). minv Hg.
  apply bind_Ok in Hrun as (off & s0 & Hg & Hrun). minv Hg.
  apply bind_Ok in Hrun as (price & s0 & Hg & Hrun).
  assert (Hprice : s0 = s /\ (if offer then option_map offer_amount (Offers s !! ((c, i), b))
    else Prices s !! (c, i)) = Some price) by (destruct offer; minv Hg; done).
  destruct Hprice as [-> Hprice].
  assert (Hp0 : 0 <= price).
  { destruct offer; [|by eapply ty_price].
    destruct (Offers s !! _) as [o|] eqn:Ho; [|done]. injection Hprice as <-. by eapply ty_offer. }
  apply bind_Ok in Hrun as (net & s1 & Hroyal & Hrun).
  apply settle_royalty_Ok in Hroyal; [|done..]. exists own, price.
  pose proof (royalty_due_bounds own c i price s Hty Hp0) as Hb.
  unfold sold. destruct (royalty_due own c i price s) as [a r]. simpl in Hb.
  destruct Hroyal as (-> & Hf1 & Hv1 & Ho1 & _ & Hp1 & Hof1 & Hmi1).
  unfold market_deposit_event in Hrun. minv Hrun;
    (match goal with Ht : n_transfer _ _ _ _ = _ |- _ =>
       apply n_transfer_effect in Ht as (Hf2 & Hv2 & Ho2); [|lia] end);
    (match goal with Ht : Nft.transfer _ _ _ _ _ = _ |- _ =>
       apply nft_transfer_effect in Ht as (_ & Ho3 & Hf3 & Hv3); [|done] end);
    unfold token_owned, owner, funds in *; simpl in *;
    rewrite ?Hp1, ?Hof1, ?Hmi1; split_and!; try done; try lia;
    (intros; unfold with_token in *; rewrite ?Hf3, ?Hv3, ?Hf2, ?Hv2, ?Hf1, ?Hv1, ?Ho3, ?Ho2, ?Ho1;
     repeat case_decide; (done || lia)).
Qed.

Lemma market_buy_Ok b c i s u s' :
  market_typed s -> buy (Signed b) c i s = (Ok u, s') ->
  exists own price, token_owned c i s = Some own /\ b <> own /\ Prices s !! (c, i) = Some price /\
    sold b own c i price s s' /\ Prices s' = delete (c, i) (Prices s) /\
    Offers s' = Offers s /\ MarketplaceInstances s' = MarketplaceInstances s.
Proof.
  unfold buy. intros Hty Hrun. dinv Hrun.
  match goal with He : Signed _ = Signed _ |- _ => injection He as <- end.
  by apply (do_buy_Ok _ _ _ false) in Hrun.
Qed.

(** [C13] A successful [buy] sells the token at its listed price: the buyer pays
    exactly the price, the author's royalty out of it and the rest to the owner, the
    token and nothing else changes hands, and the listing is gone.  The royalty is due
    when the owner who sells is not the author, which is what the code compares; the
    comment above it says that the author differs from the buyer, so an author who buys
    the token back does pay a royalty (to itself), and one who sells it gets the whole
    price. *)
Theorem market_buy_exact b c i s s' :
  market_typed s -> buy (Signed b) c i s = (Ok tt, s') ->
  exists own price, token_owned c i s = Some own /\ b <> own /\ Prices s !! (c, i) = Some price /\
    sold b own c i price s s' /\ Prices s' = delete (c, i) (Prices s) /\
    Offers s' = Offers s /\ MarketplaceInstances s' = MarketplaceInstances s.
Proof. apply market_buy_Ok. Qed.

(** ** Offers *)

(** The amounts an account has offered, over all tokens. *)
Definition offer_by (m : AccountId) (k : (ClassId * InstanceId) * AccountId) (x : Offer) : Balance :=
  if decide (snd k = m) then offer_amount x else 0.
Definition offered (m : AccountId) (o : gmap ((ClassId * InstanceId) * AccountId) Offer) : Balance :=
  map_sum (offer_by m) o.

Lemma offered_insert m k x o :
  o !! k = None ->
  offered m (<[k := x]> o) = (if decide (snd k = m) then offer_amount x else 0) + offered m o.
Proof. apply map_sum_insert_None. Qed.
Lemma offered_delete m k x o :
  o !! k = Some x ->
  offered m (delete k o) = offered m o - (if decide (snd k = m) then offer_amount x else 0).
Proof. intros Hk. unfold offered. rewrite map_sum_delete. unfold sum_at. by rewrite Hk. Qed.

Record market_ok (s : State) : Prop := mkMarketOk {
  mk_typed : market_typed s;
  mk_maker t m o : Offers s !! (t, m) = Some o -> maker o = m;
  mk_backed m : offered m (Offers s) <= n_reserved RESERVE_ID m (funds s)
}.

Lemma offer_backed s t m o :
  market_ok s -> Offers s !! (t, m) = Some o ->
  0 <= offer_amount o <= n_reserved RESERVE_ID m (funds s).
Proof.
  intros [Hty _ Hb] Ho. split; [by eapply ty_offer|].
  specialize (Hb m). assert (offer_amount o <= offered m (Offers s)); [|lia].
  pose proof (fun Hf => map_sum_ge (offer_by m) _ _ _ Hf Ho) as Hge.
  replace (offer_by m (t, m) o) with (offer_amount o) in Hge
    by (unfold offer_by; by rewrite decide_True).
  apply Hge. intros k x Hx. pose proof (ty_offer _ Hty _ _ Hx). unfold offer_by. case_decide; lia.
Qed.

(** Unreserving a backed offer. *)
Lemma unreserve_offer s t m o :
  market_ok s -> Offers s !! (t, m) = Some o ->
  let u := unreserve_named RESERVE_ID (maker o) (offer_amount o) (funds s) in
  (forall z, n_free z u = n_free z (funds s) + (if decide (z = m) then offer_amount o else 0)) /\
  (forall id z, n_reserved id z u =
     n_reserved id z (funds s) - (if decide (id = RESERVE_ID /\ z = m) then offer_amount o else 0)) /\
  (forall c i, token_owner c i u = token_owner c i (funds s)).
Proof.
  intros Hok Ho. pose proof (offer_backed _ _ _ _ Hok Ho) as Hb.
  rewrite (mk_maker _ Hok _ _ _ Ho). destruct (unreserve_named_effect RESERVE_ID m (offer_amount o) (funds s) Hb).
  split_and!; try done. intros. apply unreserve_named_tokens.
Qed.

(** [accept_offer], as an unreserve followed by a sale to the maker. *)
Lemma accept_offer_Ok w c i m s u s' :
  market_ok s -> accept_offer (Signed w) c i m s = (Ok u, s') ->
  exists o s1, token_owned c i s = Some w /\ Offers s !! ((c, i), m) = Some o /\
    block_number (funds s) < expires o /\ m <> w /\
    s1 = set_funds (unreserve_named RESERVE_ID (maker o) (offer_amount o) (funds s)) s /\
    sold m w c i (offer_amount o) s1 s' /\
    Prices s' = Prices s /\ Offers s' = delete ((c, i), m) (Offers s) /\
    MarketplaceInstances s' = MarketplaceInstances s.
Proof.
  unfold accept_offer, market_deposit_event. intros Hok Hrun. dinv Hrun.
  match goal with He : Signed _ = Signed _ |- _ => injection He as <- end. zbool.
  match goal with Hx : w = ?x |- _ => subst x end.
  match goal with Ho : Offers _ !! _ = Some ?x, Hd : do_buy _ _ _ _ ?y = _ |- _ =>
    rename Ho into Hoff, Hd into Hbuy; exists x, y end.
  rewrite (mk_maker _ Hok _ _ _ Hoff) in Hbuy.
  apply (do_buy_Ok _ _ _ true) in Hbuy as (own & price & Hown & Hne & Hpr & Hsold & Hp & Hof & Hmi);
    [|by destruct (mk_typed _ Hok)].
  assert (own = w) as ->.
  { unfold token_owned, owner, funds in *. simpl in *. rewrite unreserve_named_tokens in Hown. congruence. }
  simpl in Hpr, Hp, Hof, Hmi. rewrite Hoff in Hpr. simpl in Hpr. injection Hpr as <-.
  rewrite (mk_maker _ Hok _ _ _ Hoff) in *. simpl. rewrite Hp, Hof, Hmi. split_and!; done.
Qed.

(** [C24] In a state that satisfies the invariant [market_ok], a successful [accept_offer] sells the token to the maker for
    exactly the offered amount, out of the funds reserved for the offer; the offer is
    used up.  A listing of the token is not touched: it survives the sale. *)
Theorem accept_offer_exact w c i m s s' :
  market_ok s -> accept_offer (Signed w) c i m s = (Ok tt, s') ->
  exists o, token_owned c i s = Some w /\ Offers s !! ((c, i), m) = Some o /\
    block_number (funds s) < expires o /\
    let x := offer_amount o in
    let '(a, r) := royalty_due w c i x s in
    0 <= r <= x /\
    (forall z, n_free z (funds s') = n_free z (funds s) + (if decide (z = m) then x else 0)
       + pays m a r z + pays m w (x - r) z) /\
    (forall z, n_reserved RESERVE_ID z (funds s') =
       n_reserved RESERVE_ID z (funds s) - (if decide (z = m) then x else 0)) /\
    (forall c' i', token_owned c' i' s' = with_token c i (Some m) (fun y j => token_owned y j s) c' i') /\
    Offers s' = delete ((c, i), m) (Offers s) /\ Prices s' = Prices s.
Proof.
  intros Hok Hrun. pose proof (accept_offer_Ok _ _ _ _ _ _ _ Hok Hrun) as
    (o & s1 & Hown & Hoff & Hexp & Hne & -> & Hsold & Hp & Hof & _).
  exists o. split; [done|]. split; [done|]. split; [done|]. cbv zeta.
  destruct (unreserve_offer _ _ _ _ Hok Hoff) as (Hf & Hv & Ht).
  unfold sold in Hsold. change (royalty_due w c i (offer_amount o) (set_funds _ s)) with
    (royalty_due w c i (offer_amount o) s) in Hsold.
  destruct (royalty_due w c i (offer_amount o) s) as [a r].
  destruct Hsold as (Hb & Hf2 & Hv2 & Ho2). split_and!; try done; try lia.
  - intros z. rewrite Hf2. simpl. rewrite Hf. lia.
  - intros z. rewrite Hv2. simpl. rewrite Hv. repeat case_decide; naive_solver lia.
  - intros c' i'. rewrite Ho2. unfold with_token, token_owned, owner in *. simpl.
    case_decide; [done|]. apply Ht.
Qed.

(** ** The extrinsics together *)

Inductive market_call :=
| MarketBuy (c : ClassId) (i : InstanceId)
| SetPrice (c : ClassId) (i : InstanceId) (p : option Balance)
| MakeOffer (c : ClassId) (i : InstanceId) (x : Balance) (e : BlockNumber)
| WithdrawOffer (c : ClassId) (i : InstanceId) (m : AccountId)
| AcceptOffer (c : ClassId) (i : InstanceId) (m : AccountId)
| AddRoyalty (c : ClassId) (i : InstanceId) (a : AccountId) (r : Z).

Definition market_dispatch (origin : Origin) (call : market_call) : Dispatch State unit :=
  match call with
  | MarketBuy c i => buy origin c i
  | SetPrice c i p => set_price origin c i p
  | MakeOffer c i x e => make_offer origin c i x e
  | WithdrawOffer c i m => withdraw_offer origin c i m
  | AcceptOffer c i m => accept_offer origin c i m
  | AddRoyalty c i a r => add_royalty origin c i a r
  end.

(** Balances and the percentage are unsigned. *)
Definition call_typed (call : market_call) : Prop :=
  match call with
  | SetPrice _ _ (Some p) => 0 <= p
  | MakeOffer _ _ x _ => 0 <= x
  | AddRoyalty _ _ _ r => 0 <= r
  | _ => True
  end.

Lemma market_rollback origin call s r s' :
  market_dispatch origin call s = (r, s') -> (forall u, r <> Ok u) -> s' = s.
Proof. destruct call; apply transactional_rollback. Qed.

(** Other pallets may do anything but release the marketplace's reserves. *)
Inductive market_step : State -> State -> Prop :=
| market_step_call origin call s r s' :
    call_typed call -> market_dispatch origin call s = (r, s') -> market_step s s'
| market_step_nft n s :
    (forall m, n_reserved RESERVE_ID m (funds s) <= n_reserved RESERVE_ID m (uniques n)) ->
    market_step s (set_nft n s).

Inductive market_reachable : State -> Prop :=
| market_init n :
    (forall m, 0 <= n_reserved RESERVE_ID m (uniques n)) ->
    market_reachable (mkMarket n ∅ ∅ ∅ [])
| market_more s s' : market_reachable s -> market_step s s' -> market_reachable s'.

Lemma market_ok_funds s s' :
  market_ok s -> Prices s' ⊆ Prices s -> Offers s' = Offers s ->
  MarketplaceInstances s' = MarketplaceInstances s ->
  (forall m, n_reserved RESERVE_ID m (funds s) <= n_reserved RESERVE_ID m (funds s')) -> market_ok s'.
Proof.
  intros [[T1 T2 T3] K1 K2] Hp Ho Hm Hr. split; [split|..]; rewrite ?Ho, ?Hm; eauto.
  - intros k x Hx. eapply T2, lookup_weaken; eauto.
  - intros m. etransitivity; [apply K2|apply Hr].
Qed.

Lemma make_offer_preserves origin c i x e s u s' :
  market_ok s -> 0 <= x -> make_offer origin c i x e s = (Ok u, s') -> market_ok s'.
Proof.
  unfold make_offer, market_deposit_event. intros [[T1 T2 T3] K1 K2] Hx Hrun. dinv Hrun. zbool.
  match goal with Hr : reserve_named _ _ _ _ = _ |- _ =>
    apply reserve_named_effect in Hr as (_ & Hv & _); [|done] end.
  match goal with Hn : bool_decide _ = false |- _ =>
    apply bool_decide_eq_false, eq_None_not_Some in Hn; rename Hn into Hnone end.
  simpl in *. split; [split|..]; simpl; eauto.
  - intros k o [[_ <-]|[_ ?]]%lookup_insert_Some; simpl; eauto.
  - intros t m o [[[= <- <-] <-]|[_ ?]]%lookup_insert_Some; simpl; eauto.
  - intros m. rewrite offered_insert by done. unfold funds in *. simpl. rewrite Hv.
    specialize (K2 m). simpl. repeat case_decide; naive_solver lia.
Qed.

Lemma withdraw_offer_preserves origin c i m s u s' :
  market_ok s -> withdraw_offer origin c i m s = (Ok u, s') -> market_ok s'.
Proof.
  unfold withdraw_offer, market_deposit_event. intros Hok Hrun. dinv Hrun.
  match goal with Ho : Offers _ !! _ = Some _ |- _ => rename Ho into Hoff end.
  destruct (unreserve_offer _ _ _ _ Hok Hoff) as (_ & Hv & _).
  destruct Hok as [[T1 T2 T3] K1 K2]. split; [split|..]; simpl; eauto.
  - intros k o [_ ?]%lookup_delete_Some. eauto.
  - intros t m' o [_ ?]%lookup_delete_Some. eauto.
  - intros m'. rewrite (offered_delete m' _ _ _ Hoff). unfold funds in *. simpl. rewrite Hv.
    specialize (K2 m'). simpl. repeat case_decide; naive_solver lia.
Qed.

Lemma accept_offer_preserves w c i m s u s' :
  market_ok s -> accept_offer (Signed w) c i m s = (Ok u, s') -> market_ok s'.
Proof.
  intros Hok Hrun. pose proof (accept_offer_Ok _ _ _ _ _ _ _ Hok Hrun) as
    (o & s1 & _ & Hoff & _ & _ & -> & Hsold & Hp & Hof & Hmi).
  destruct (unreserve_offer _ _ _ _ Hok Hoff) as (_ & Hv & _).
  unfold sold in Hsold. destruct (royalty_due _ _ _ _ _) as [a r]. destruct Hsold as (_ & _ & Hv2 & _).
  destruct Hok as [[T1 T2 T3] K1 K2]. split; [split|..]; rewrite ?Hp, ?Hof, ?Hmi; eauto.
  - intros k x [_ ?]%lookup_delete_Some. eauto.
  - intros t m' x [_ ?]%lookup_delete_Some. eauto.
  - intros m'. rewrite (offered_delete m' _ _ _ Hoff), Hv2. simpl. rewrite Hv.
    specialize (K2 m'). simpl. repeat case_decide; naive_solver lia.
Qed.

Lemma set_price_preserves origin c i p s u s' :
  market_ok s -> (forall x, p = Some x -> 0 <= x) ->
  set_price origin c i p s = (Ok u, s') -> market_ok s'.
Proof.
  unfold set_price, market_deposit_event. intros [[T1 T2 T3] K1 K2] Hp Hrun. dinv Hrun.
  split; [split|..]; simpl; eauto. intros k x. destruct p as [y|].
  - intros [[_ <-]|[_ ?]]%lookup_insert_Some; eauto.
  - intros [_ ?]%lookup_delete_Some. eauto.
Qed.

Lemma add_royalty_preserves origin c i a r s u s' :
  market_ok s -> 0 <= MarketRoyaltyBondAmount -> 0 <= r ->
  add_royalty origin c i a r s = (Ok u, s') -> market_ok s'.
Proof.
  unfold add_royalty, market_deposit_event. intros [[T1 T2 T3] K1 K2] Hbond Hr Hrun. dinv Hrun. zbool.
  match goal with Hv : reserve_named _ _ _ _ = _ |- _ =>
    apply reserve_named_effect in Hv as (_ & Hres & _); [|done] end.
  split; [split|..]; simpl; eauto.
  - intros k info [[_ <-]|[_ ?]]%lookup_insert_Some; [simpl; lia|eauto].
  - intros m. unfold funds in *. simpl. rewrite Hres. specialize (K2 m).
    change (lens_get s) with (uniques (nft s)). case_decide; lia.
Qed.

Lemma market_step_ok s s' :
  0 <= MarketRoyaltyBondAmount -> market_ok s -> market_step s s' -> market_ok s'.
Proof.
  intros Hbond Hok Hstep. revert Hok.
  destruct Hstep as [origin call s r s' Hty Hrun|n s Hres]; intros Hok; [|by eapply market_ok_funds].
  destruct r as [[]| |]. 2,3: by rewrite (market_rollback _ _ _ _ _ Hrun).
  destruct origin as [|w|]; [by destruct call| |by destruct call].
  destruct call; simpl in Hrun, Hty.
  - pose proof (market_buy_Ok _ _ _ _ _ _ (mk_typed _ Hok) Hrun) as (own & price & _ & _ & _ & Hsold & Hp & Ho & Hm).
    unfold sold in Hsold. destruct (royalty_due _ _ _ _ _) as [a r]. destruct Hsold as (_ & _ & Hv & _).
    apply (market_ok_funds s); auto; [rewrite Hp; apply delete_subseteq|]. intros m. by rewrite Hv.
  - eapply set_price_preserves; eauto. by intros x ->.
  - by eapply make_offer_preserves.
  - by eapply withdraw_offer_preserves.
  - by eapply accept_offer_preserves.
  - by eapply add_royalty_preserves.
Qed.

(** [C9] Every offer is backed in every reachable state: the funds reserved for an
    account under the marketplace's identifier cover all the offers it has made, so
    each of them can be withdrawn or accepted in full; and each offer is stored under
    its maker. *)
Theorem offers_backed s :
  0 <= MarketRoyaltyBondAmount -> market_reachable s -> market_ok s.
Proof.
  intros Hbond. induction 1 as [n Hn|s s' _ IH Hstep]; [|by eapply market_step_ok].
  split; [split|..]; simpl; intros *; try (by rewrite lookup_empty). apply Hn.
Qed.

(** An offer for a token that no longer exists cannot be withdrawn, neither by
    its maker nor by anybody else: its funds stay reserved. *)
Theorem burned_token_locks_offer w c i m o s :
  Offers s !! ((c, i), m) = Some o -> token_owned c i s = None ->
  withdraw_offer (Signed w) c i m s = (Err (MarketE MarketErr.ClassOrInstanceUnknown), s) /\
  accept_offer (Signed w) c i m s = (Err (MarketE MarketErr.ClassOrInstanceUnknown), s).
Proof.
  intros Ho Hn. split; unfold withdraw_offer, accept_offer, transactional, mbind, M_bind, run_bind,
    gets, ok_or; simpl; rewrite ?Ho; simpl; rewrite Hn; done.
Qed.
End market.
