(* ===== verification/MarketExamples.v ===== *)
(** * The NFT and marketplace theorems at work

    An executable chain of tokens and native funds that satisfies the laws the NFT
    and marketplace pallets assume, and the theorems applied on it. *)

From S2P Require Import Prelude Primitives Errors Interfaces Nft NftProps Marketplace MarketProps.

(** ** Tokens and funds *)

Record Collectibles := mkCollectibles {
  k_class : gmap Z Z;
  k_token : gmap (Z * Z) Z;
  k_free : gmap Z Z;
  k_reserved : ReserveIdentifier -> Z -> Z;
  k_now : Z
}.

Definition set_k_class f u :=
  mkCollectibles (f (k_class u)) (k_token u) (k_free u) (k_reserved u) (k_now u).
Definition set_k_token f u :=
  mkCollectibles (k_class u) (f (k_token u)) (k_free u) (k_reserved u) (k_now u).
Definition set_k_free f u :=
  mkCollectibles (k_class u) (k_token u) (f (k_free u)) (k_reserved u) (k_now u).
Definition k_balance (w : Z) (u : Collectibles) : Z := default 0 (k_free u !! w).
Definition k_add (w x : Z) (m : gmap Z Z) : gmap Z Z := <[w := default 0 (m !! w) + x]> m.
Definition k_hold (id : ReserveIdentifier) (w x : Z) (u : Collectibles) : Collectibles :=
  mkCollectibles (k_class u) (k_token u) (k_add w (- x) (k_free u))
    (fun id' z => k_reserved u id' z + (if decide (id' = id /\ z = w) then x else 0)) (k_now u).

Definition k_members (c : Z) (u : Collectibles) : Z :=
  Z.of_nat (size (filter (fun kv : (Z * Z) * Z => kv.1.1 = c) (k_token u))).

Definition k_err : DispatchError := Foreign 2 0.

#[export] Instance Collectibles_uniques : Uniques Collectibles := {|
  class_owner c u := k_class u !! c;
  token_owner c i u := k_token u !! (c, i);
  class_instances c u := option_map (fun _ => k_members c u) (k_class u !! c);
  uniques_create c o _ _ _ u :=
    match k_class u !! c with
    | Some _ => (Err k_err, u)
    | None => (Ok tt, set_k_class (insert c o) u)
    end;
  uniques_mint c i o u :=
    match k_class u !! c, k_token u !! (c, i) with
    | Some _, None => (Ok tt, set_k_token (insert (c, i) o) u)
    | _, _ => (Err k_err, u)
    end;
  transfer_check c i u :=
    match k_token u !! (c, i) with Some _ => (Ok tt, u) | None => (Err k_err, u) end;
  transfer_commit c i o u := set_k_token (insert (c, i) o) u;
  burn_check c i u :=
    match k_token u !! (c, i) with Some _ => (Ok tt, u) | None => (Err k_err, u) end;
  burn_commit c i u := set_k_token (delete (c, i)) u;
  uniques_destroy c o u :=
    if decide (k_class u !! c = Some o) then (Ok tt, set_k_class (delete c) u) else (Err k_err, u);
  ClassDeposit := 10
|}.

Lemma k_members_0 c u : k_members c u = 0 -> forall i, k_token u !! (c, i) = None.
Proof.
  unfold k_members. intros Hs%(Nat2Z.inj _ 0)%map_size_empty_inv i.
  destruct (k_token u !! (c, i)) as [o|] eqn:Ht; [|done].
  assert (Hf : filter (fun kv : (Z * Z) * Z => kv.1.1 = c) (k_token u) !! (c, i) = Some o)
    by (by apply map_lookup_filter_Some).
  by rewrite Hs, lookup_empty in Hf.
Qed.

#[export] Instance Collectibles_uniques_laws : UniquesLaws Collectibles.
Proof.
  split; simpl; unfold with_class, with_token; intros *.
  - intros _ _ _ u u'. destruct (k_class u !! c) eqn:Hc; intros [= <-]. split_and!; try done.
    intros c'. simpl. rewrite lookup_insert. repeat case_decide; congruence.
  - destruct (k_class u !! c) eqn:Hc; [|done]. destruct (k_token u !! (c, i)) eqn:Ht; intros [= <-].
    split_and!; try done. intros c' i'. simpl. rewrite lookup_insert. repeat case_decide; congruence.
  - destruct (k_token u !! (c, i)) eqn:Ht; intros [= <-]. done.
  - split; [done|]. intros c' i'. rewrite lookup_insert. repeat case_decide; congruence.
  - destruct (k_token u !! (c, i)) eqn:Ht; intros [= <-]. done.
  - split; [done|]. intros c' i'. rewrite lookup_delete. repeat case_decide; congruence.
  - split; [destruct (k_class u !! c); simpl; split; intros []; eauto; done|].
    destruct (k_class u !! c); simpl; [|done]. intros [= Hm]. by apply k_members_0.
  - case_decide as Hc; intros [= <-]. split_and!; try done.
    intros c'. simpl. rewrite lookup_delete. repeat case_decide; congruence.
Qed.

#[export] Instance Collectibles_funds : NamedReservable Collectibles := {|
  n_free w u := k_balance w u;
  n_reserved id w u := k_reserved u id w;
  n_transfer f t x u :=
    if k_balance f u <? x then (Err k_err, u)
    else (Ok tt, set_k_free (fun m => k_add t x (k_add f (- x) m)) u);
  reserve_named id w x u :=
    if k_balance w u <? x then (Err k_err, u) else (Ok tt, k_hold id w x u);
  unreserve_named id w x u := k_hold id w (- x) u
|}.

Lemma k_add_lookup w x m z :
  default 0 (k_add w x m !! z) = default 0 (m !! z) + (if decide (z = w) then x else 0).
Proof.
  unfold k_add. rewrite lookup_insert.
  repeat case_decide; simpl; subst; try congruence; lia.
Qed.

#[export] Instance Collectibles_funds_laws : NamedReservableLaws Collectibles.
Proof.
  split; simpl; unfold pays, k_balance; intros *.
  - case_match; intros [= <-] Hx. simpl. split_and!; try done. intros z.
    rewrite !k_add_lookup. repeat case_decide; lia.
  - case_match; intros [= <-] Hx. simpl. split_and!; try done. intros z.
    rewrite k_add_lookup. repeat case_decide; lia.
  - intros _. split.
    + intros z. simpl. rewrite k_add_lookup. repeat case_decide; lia.
    + intros id' z. repeat case_decide; lia.
  - done.
  - done.
Qed.

#[export] Instance Collectibles_block : BlockNumberProvider Collectibles := {| block_number := k_now |}.
#[export] Instance Percent_floor : PercentMath := {| percent_of p x := Z.min p 100 * x / 100 |}.
#[export] Instance Percent_floor_laws : PercentMathLaws.
Proof.
  split. intros p x Hp Hx. simpl. split; [apply Z.div_pos; nia|].
  apply Z.div_le_upper_bound; nia.
Qed.

#[export] Instance ex_nft_config : NftConfig :=
  {| NftReserveClassIdUpTo := 999999; Permissions := NftPermissions |}.
#[export] Instance ex_market_config : MarketConfig :=
  {| MarketMinimumOfferAmount := 50; MarketRoyaltyBondAmount := 20 |}.

Ltac run := vm_compute; reflexivity.

(** ** NFTs

    Account 1 creates class 1,000,000 and mints token 7; account 3 tries to take it. *)

Definition ex_chain : Collectibles :=
  mkCollectibles ∅ ∅ (list_to_map [(1, 1000); (2, 1000); (3, 1000)]) (fun _ _ => 0) 5.
Definition ex_nft0 : NftState Collectibles := mkNft ex_chain ∅ ∅ [].
Definition ex_class := create_class (U := Collectibles) (Signed 1) 1000000 Marketplace [].
Definition ex_mint := mint (U := Collectibles) (Signed 1) 1000000 7 [].
Definition ex_nft1 : NftState Collectibles := snd (ex_class ex_nft0).
Definition ex_nft2 : NftState Collectibles := snd (ex_mint ex_nft1).

Lemma nft_owner_protected_witness :
  owner 1000000 7 (snd (Nft.transfer (Signed 3) 1000000 7 3 ex_nft2)) = Some 1.
Proof.
  destruct (nft_owner_protected (Signed 3) (NftTransfer 1000000 7 3) ex_nft2
    (fst (Nft.transfer (Signed 3) 1000000 7 3 ex_nft2))
    (snd (Nft.transfer (Signed 3) 1000000 7 3 ex_nft2)) 1000000 7 1) as [Ho|[Ho _]].
  - run.
  - run.
  - exact Ho.
  - discriminate Ho.
Defined.

Lemma nft_reachable_ok_witness : nft_ok ex_nft2.
Proof.
  apply nft_reachable_ok.
  apply (nft_reach_step ex_nft1); [apply (nft_reach_step ex_nft0)|].
  - apply nft_reach_init; done.
  - apply (nft_step_call (Signed 1) (NftCreate 1000000 Marketplace []) ex_nft0 (Ok tt)). run.
  - apply (nft_step_call (Signed 1) (NftMint 1000000 7 []) ex_nft1 (Ok tt)). run.
Defined.

(** ** Sales

    Account 4 is the author of the token with a royalty of 20 percent; the token is
    listed at 200 and account 2 offers 100. *)

Definition ex_market0 : MarketState Collectibles := mkMarket ex_nft2 ∅ ∅ ∅ [].
Definition ex_royalty := market_dispatch (U := Collectibles) (Signed 1) (AddRoyalty 1000000 7 4 20).
Definition ex_list := market_dispatch (U := Collectibles) (Signed 1) (SetPrice 1000000 7 (Some 200)).
Definition ex_offer := market_dispatch (U := Collectibles) (Signed 2) (MakeOffer 1000000 7 100 50).
Definition ex_market1 : MarketState Collectibles := snd (ex_royalty ex_market0).
Definition ex_market2 : MarketState Collectibles := snd (ex_list ex_market1).
Definition ex_market3 : MarketState Collectibles := snd (ex_offer ex_market2).

Lemma ex_market0_ok : market_ok ex_market0.
Proof. by split; [split|..]. Qed.

Lemma ex_market3_ok : market_ok ex_market3.
Proof.
  apply (market_step_ok ex_market2); [done|apply (market_step_ok ex_market1); [done|
    apply (market_step_ok ex_market0); [done|apply ex_market0_ok|]|]|].
  - by apply (market_step_call (Signed 1) (AddRoyalty 1000000 7 4 20) ex_market0 (Ok tt)).
  - by apply (market_step_call (Signed 1) (SetPrice 1000000 7 (Some 200)) ex_market1 (Ok tt)).
  - by apply (market_step_call (Signed 2) (MakeOffer 1000000 7 100 50) ex_market2 (Ok tt)).
Qed.

Lemma offers_backed_witness : market_ok ex_market3.
Proof.
  apply offers_backed; [done|].
  apply (market_more ex_market2); [apply (market_more ex_market1);
    [apply (market_more ex_market0); [by apply market_init|]|]|].
  - by apply (market_step_call (Signed 1) (AddRoyalty 1000000 7 4 20) ex_market0 (Ok tt)).
  - by apply (market_step_call (Signed 1) (SetPrice 1000000 7 (Some 200)) ex_market1 (Ok tt)).
  - by apply (market_step_call (Signed 2) (MakeOffer 1000000 7 100 50) ex_market2 (Ok tt)).
Defined.

(** Account 3 buys at the listed price: 40 for the author, 160 for the owner. *)
Lemma market_buy_exact_witness :
  let s' := snd (buy (Signed 3) 1000000 7 ex_market3) in
  exists own price, token_owned 1000000 7 ex_market3 = Some own /\ 3 <> own /\
    Prices ex_market3 !! (1000000, 7) = Some price /\ sold 3 own 1000000 7 price ex_market3 s'.
Proof.
  destruct (market_buy_exact 3 1000000 7 ex_market3 (snd (buy (Signed 3) 1000000 7 ex_market3)))
    as (own & price & Ho & Hne & Hp & Hs & _).
  - apply ex_market3_ok.
  - run.
  - exists own, price. split_and!; assumption.
Defined.

(** Account 1 accepts the offer of account 2. *)
Lemma accept_offer_exact_witness :
  let s' := snd (accept_offer (Signed 1) 1000000 7 2 ex_market3) in
  exists o, Offers ex_market3 !! ((1000000, 7), 2) = Some o /\ Prices s' = Prices ex_market3.
Proof.
  destruct (accept_offer_exact 1 1000000 7 2 ex_market3
    (snd (accept_offer (Signed 1) 1000000 7 2 ex_market3))) as (o & _ & Ho & _ & Hrest).
  - apply ex_market3_ok.
  - run.
  - exists o. split; [exact Ho|]. cbv zeta in Hrest.
    destruct (royalty_due 1 1000000 7 (offer_amount o) ex_market3) as [a r].
    destruct Hrest as (_ & _ & _ & _ & _ & Hp). exact Hp.
Defined.

(** The owner burns the token, in the NFT pallet, and the offer is locked. *)
Definition ex_burned : MarketState Collectibles :=
  set_nft (snd (burn (Signed 1) 1000000 7 (nft ex_market3))) ex_market3.

Lemma burned_token_locks_offer_witness :
  fst (withdraw_offer (Signed 2) 1000000 7 2 ex_burned) =
    Err (MarketE MarketErr.ClassOrInstanceUnknown).
Proof.
  destruct (burned_token_locks_offer 2 1000000 7 2 (mkOffer 2 100 50) ex_burned) as [Hw _].
  - run.
  - run.
  - rewrite Hw. reflexivity.
Defined.

(** After account 1 accepted the offer, the listing of account 1 at 200 is still
    there. *)
Definition ex_accepted : MarketState Collectibles :=
  snd (accept_offer (Signed 1) 1000000 7 2 ex_market3).

(** A listing outlives a sale by offer: the new owner, who never listed the token,
    loses it to anybody at the price the previous owner had set. *)
Theorem stale_listing_sells :
  token_owned 1000000 7 ex_accepted = Some 2 /\
  fst (buy (Signed 3) 1000000 7 ex_accepted) = Ok tt /\
  token_owned 1000000 7 (snd (buy (Signed 3) 1000000 7 ex_accepted)) = Some 3.
Proof. by vm_compute. Qed.
