(* ===== verification/Vault.v ===== *)
(** * The chain of the NFT tests

    The parts of [pallet_uniques] and [pallet_balances] that the tests of the NFT, marketplace and
    liquidity mining pallets observe: a class and its instances hold a deposit of the class's
    owner unless the class is free of deposits, and give it back when they go.  And the accounts
    the mock runtimes of these pallets name alike. *)

From S2P Require Import Prelude Primitives Errors Interfaces Nft Marketplace MarketExamples.

(** ** Tokens with deposits

    A class has an owner, its deposits so far and whether its holdings are free; an instance has
    an owner and a deposit; an account has free, reserved and named reserved funds. *)
Record Vault := mkVault {
  v_class : gmap ClassId (AccountId * Balance * bool);
  v_token : gmap (ClassId * InstanceId) (AccountId * Balance);
  v_free : gmap AccountId Balance;
  v_held : gmap AccountId Balance;
  v_named : gmap AccountId Balance;
  v_block : BlockNumber
}.
#[export] Instance Vault_eq_dec : EqDecision Vault.
Proof. solve_decision. Defined.

Definition set_v_class f v :=
  mkVault (f (v_class v)) (v_token v) (v_free v) (v_held v) (v_named v) (v_block v).
Definition set_v_token f v :=
  mkVault (v_class v) (f (v_token v)) (v_free v) (v_held v) (v_named v) (v_block v).
Definition set_v_free f v :=
  mkVault (v_class v) (v_token v) (f (v_free v)) (v_held v) (v_named v) (v_block v).
Definition v_amount (w : AccountId) (m : gmap AccountId Balance) : Balance := default 0 (m !! w).
(** Reserve [x] of the free funds of [w], or give back with [- x]. *)
Definition v_hold (w : AccountId) (x : Balance) (v : Vault) : Vault :=
  mkVault (v_class v) (v_token v) (k_add w (- x) (v_free v)) (k_add w x (v_held v)) (v_named v)
    (v_block v).
Definition v_name (w : AccountId) (x : Balance) (v : Vault) : Vault :=
  mkVault (v_class v) (v_token v) (k_add w (- x) (v_free v)) (v_held v) (k_add w x (v_named v))
    (v_block v).

Definition UniquesErr : DispatchError := Foreign 2 0.
Definition InsufficientBalance : DispatchError := Foreign 3 0.
Definition v_members (c : ClassId) (v : Vault) : Z :=
  Z.of_nat (size (filter (fun kv : (Z * Z) * (Z * Z) => kv.1.1 = c) (v_token v))).

Definition v_deposit (c : ClassId) (i : InstanceId) (v : Vault) : Balance :=
  default 0 (option_map snd (v_token v !! (c, i))).

(** The deposits are those of the mock. *)
Class Deposits := { class_deposit : Balance; instance_deposit : Balance }.

#[export] Instance Vault_uniques `{Deposits} : Uniques Vault := {|
  class_owner c v := option_map (fun k => k.1.1) (v_class v !! c);
  token_owner c i v := option_map fst (v_token v !! (c, i));
  class_instances c v := option_map (fun _ => v_members c v) (v_class v !! c);
  uniques_create c o _ d free v :=
    match v_class v !! c with
    | Some _ => (Err UniquesErr, v)
    | None =>
        if v_amount o (v_free v) <? d then (Err InsufficientBalance, v)
        else (Ok tt, v_hold o d (set_v_class (insert c (o, d, free)) v))
    end;
  uniques_mint c i o v :=
    match v_class v !! c, v_token v !! (c, i) with
    | Some (own, total, free), None =>
        let d := if free : bool then 0 else instance_deposit in
        if v_amount own (v_free v) <? d then (Err InsufficientBalance, v)
        else (Ok tt, v_hold own d (set_v_class (insert c (own, total + d, free))
                                     (set_v_token (insert (c, i) (o, d)) v)))
    | _, _ => (Err UniquesErr, v)
    end;
  transfer_check c i v :=
    match v_token v !! (c, i) with Some _ => (Ok tt, v) | None => (Err UniquesErr, v) end;
  transfer_commit c i o v :=
    set_v_token (insert (c, i) (o, v_deposit c i v)) v;
  burn_check c i v :=
    match v_token v !! (c, i) with Some _ => (Ok tt, v) | None => (Err UniquesErr, v) end;
  burn_commit c i v :=
    let d := v_deposit c i v in
    let v := set_v_token (delete (c, i)) v in
    match v_class v !! c with
    | Some (own, total, free) =>
        v_hold own (- d) (set_v_class (insert c (own, total - d, free)) v)
    | None => v
    end;
  uniques_destroy c o v :=
    match v_class v !! c with
    | Some (own, total, _) =>
        if own =? o then (Ok tt, v_hold own (- total) (set_v_class (delete c) v))
        else (Err UniquesErr, v)
    | None => (Err UniquesErr, v)
    end;
  ClassDeposit := class_deposit
|}.

Lemma v_members_0 c v : v_members c v = 0 -> forall i, v_token v !! (c, i) = None.
Proof.
  unfold v_members. intros Hs%(Nat2Z.inj _ 0)%map_size_empty_inv i.
  destruct (v_token v !! (c, i)) as [o|] eqn:Ht; [|done].
  assert (Hf : filter (fun kv : (Z * Z) * (Z * Z) => kv.1.1 = c) (v_token v) !! (c, i) = Some o)
    by (by apply map_lookup_filter_Some).
  by rewrite Hs, lookup_empty in Hf.
Qed.

(** A lookup in a map after one update. *)
Ltac look := intros; cbn; rewrite ?lookup_insert, ?lookup_delete;
  repeat case_decide; simplify_eq/=; try done.

(** The chain of the tests meets the hypotheses of the theorems on the pallets. *)
#[export] Instance Vault_uniques_laws `{Deposits} : UniquesLaws Vault.
Proof.
  split; unfold with_class, with_token; intros *; cbn.
  - destruct (v_class u !! c) eqn:Hc; [done|]. case_match; intros [= <-]. split_and!; [done|look|done].
  - destruct (v_class u !! c) as [[[own total] free]|] eqn:Hc; [|done].
    destruct (v_token u !! (c, i)) eqn:Ht; [done|]. case_match; intros [= <-].
    split_and!; [done|done| |look]. look. by rewrite Hc.
  - destruct (v_token u !! (c, i)) eqn:Ht; intros [= <-]. by split.
  - split; [done|look].
  - destruct (v_token u !! (c, i)) eqn:Ht; intros [= <-]. by split.
  - destruct (v_class u !! c) as [[[own total] free]|] eqn:Hc; (split; [|look]); look.
    by rewrite Hc.
  - split; [destruct (v_class u !! c); simpl; split; intros []; eauto; done|].
    destruct (v_class u !! c); simpl; [|done]. intros [= Hm] i. by rewrite v_members_0.
  - destruct (v_class u !! c) as [[[own total] free]|] eqn:Hc; [|done].
    destruct (own =? o) eqn:Ho; intros [= <-]. apply Z.eqb_eq in Ho as ->.
    split_and!; [done|look|done].
Qed.

(** The marketplace uses one identifier only. *)
#[export] Instance Vault_funds : NamedReservable Vault := {|
  n_free w v := v_amount w (v_free v);
  n_reserved id w v := match id with ReserveMarketplace => v_amount w (v_named v) | _ => 0 end;
  n_transfer f t x v :=
    if (f =? t) || (x =? 0) then (Ok tt, v)
    else if v_amount f (v_free v) <? x then (Err InsufficientBalance, v)
    else (Ok tt, set_v_free (fun m => k_add t x (k_add f (- x) m)) v);
  reserve_named id w x v :=
    match id with
    | ReserveMarketplace =>
        if v_amount w (v_free v) <? x then (Err InsufficientBalance, v) else (Ok tt, v_name w x v)
    | _ => (Err InsufficientBalance, v)
    end;
  unreserve_named id w x v := match id with ReserveMarketplace => v_name w (- x) v | _ => v end
|}.
#[export] Instance Vault_funds_laws `{Deposits} : NamedReservableLaws Vault.
Proof.
  split; unfold pays; intros *; cbn; unfold v_amount.
  - destruct (f =? t) eqn:Hft; [apply Z.eqb_eq in Hft as ->|destruct (x =? 0) eqn:Hx;
      [apply Z.eqb_eq in Hx as ->|]]; cbn [orb].
    + intros [= <-] _. split_and!; try done. intros z. repeat case_decide; lia.
    + intros [= <-] _. split_and!; try done. intros z. repeat case_decide; lia.
    + case_match; intros [= <-] _. cbn. split_and!; try done. intros z.
      rewrite !k_add_lookup. repeat case_decide; lia.
  - destruct id; [done| |done]. case_match; intros [= <-] _. cbn.
    split_and!; [intros z|intros id' z|done].
    + rewrite k_add_lookup. repeat case_decide; lia.
    + destruct id'; rewrite ?k_add_lookup; repeat case_decide; naive_solver lia.
  - intros Hx. destruct id; cbn; (split; [intros z|intros id' z; destruct id'; cbn]);
      rewrite ?k_add_lookup; repeat case_decide; naive_solver lia.
  - by destruct id.
  - done.
Qed.
#[export] Instance Vault_block : BlockNumberProvider Vault := {| block_number := v_block |}.

Definition balances_genesis (l : list (AccountId * Balance)) : Vault :=
  mkVault ∅ ∅ (list_to_map l) ∅ ∅ 1.

#[export] Instance ClassInfo_eq_dec : EqDecision ClassInfo.
Proof. solve_decision. Defined.
#[export] Instance InstanceInfo_eq_dec : EqDecision InstanceInfo.
Proof. solve_decision. Defined.
#[export] Instance NftEvent_eq_dec : EqDecision NftEvent.
Proof. solve_decision. Defined.
#[export] Instance NftState_eq_dec : EqDecision (NftState Vault).
Proof. solve_decision. Defined.

Definition ALICE : AccountId := 1.
Definition BOB : AccountId := 2.
Definition CHARLIE : AccountId := 3.
Definition DAVE : AccountId := 4.
(** [b"metadata"]. *)
Definition metadata : list Z := [109; 101; 116; 97; 100; 97; 116; 97].
