(* ===== verification/NftTests.v ===== *)
(** * The tests of the NFT pallet

    Models the mock runtime of [src/pallets/nft/src/mock.rs] and runs the tests of
    [src/pallets/nft/src/tests.rs] on the model of the pallet. *)

From S2P Require Import Prelude Primitives Errors Interfaces Testing Nft Vault.

(** ** The mock runtime *)

Definition BSX : Balance := 100000000000.
Definition CLASS_ID_0 : ClassId := 1000.
Definition CLASS_ID_1 : ClassId := 1001.
Definition CLASS_ID_2 : ClassId := 1002.
Definition CLASS_ID_RESERVED : ClassId := 42.
Definition INSTANCE_ID_0 : InstanceId := 0.
Definition INSTANCE_ID_1 : InstanceId := 1.
Definition INSTANCE_ID_2 : InstanceId := 2.
Definition NON_EXISTING_CLASS_ID : ClassId := 999.

Definition Test_nft : NftConfig :=
  {| NftReserveClassIdUpTo := 999; Permissions := NftPermissions |}.
Definition Test_uniques : Deposits :=
  {| class_deposit := 10000 * BSX; instance_deposit := 100 * BSX |}.
#[local] Existing Instances Test_nft Test_uniques.
Notation State := (NftState Vault).
Notation Test := (State * Dispatch State unit)%type.

Definition build : State :=
  mkNft (balances_genesis [(ALICE, 200000 * BSX); (BOB, 150000 * BSX); (CHARLIE, 15000 * BSX)])
    ∅ ∅ [].
Definition balance_is (w : AccountId) (x : Balance) : Dispatch State unit :=
  check (fun s => v_amount w (v_free (uniques s)) =? x).

(** ** The tests *)

Definition create_class_works : Test := (build,
  assert_ok (create_class (Signed ALICE) CLASS_ID_0 ClassType_default metadata) ;;
  assert_ok (create_class (Signed ALICE) CLASS_ID_1 Primitives.Marketplace metadata) ;;
  assert_noop (create_class (Signed ALICE) CLASS_ID_2 LiquidityMining metadata)
    NftErr.NotPermitted ;;
  assert_ok (do_create_class ALICE CLASS_ID_2 LiquidityMining metadata) ;;
  assert_noop (create_class (Signed ALICE) CLASS_ID_RESERVED Primitives.Marketplace metadata)
    NftErr.IdReserved).

Definition mint_works : Test := (build,
  assert_ok (create_class (Signed ALICE) CLASS_ID_0 ClassType_default metadata) ;;
  assert_ok (do_create_class ALICE CLASS_ID_1 LiquidityMining metadata) ;;
  assert_ok (mint (Signed ALICE) CLASS_ID_0 INSTANCE_ID_0 metadata) ;;
  assert_ok (mint (Signed BOB) CLASS_ID_0 INSTANCE_ID_1 metadata) ;;
  assert_noop (mint (Signed ALICE) CLASS_ID_1 INSTANCE_ID_2 metadata) NftErr.NotPermitted ;;
  assert_ok (do_mint ALICE CLASS_ID_1 INSTANCE_ID_2 metadata) ;;
  assert_ok (create_class (Signed ALICE) CLASS_ID_2 ClassType_default metadata) ;;
  assert_noop (mint (Signed ALICE) NON_EXISTING_CLASS_ID INSTANCE_ID_0 metadata)
    NftErr.ClassUnknown ;;
  assert_noop (destroy_class (Signed ALICE) NON_EXISTING_CLASS_ID) NftErr.ClassUnknown).

Definition transfer_works : Test := (build,
  assert_ok (create_class (Signed ALICE) CLASS_ID_0 ClassType_default metadata) ;;
  assert_ok (do_create_class ALICE CLASS_ID_1 LiquidityMining metadata) ;;
  balance_is ALICE (190000 * BSX) ;;
  assert_ok (mint (Signed ALICE) CLASS_ID_0 INSTANCE_ID_0 metadata) ;;
  assert_ok (do_mint ALICE CLASS_ID_1 INSTANCE_ID_0 metadata) ;;
  balance_is ALICE (189900 * BSX) ;;
  assert_ok (Nft.transfer (Signed ALICE) CLASS_ID_0 INSTANCE_ID_0 BOB) ;;
  assert_noop (Nft.transfer (Signed CHARLIE) CLASS_ID_0 INSTANCE_ID_0 ALICE) NftErr.NotPermitted ;;
  assert_ok (Nft.transfer (Signed ALICE) CLASS_ID_1 INSTANCE_ID_0 BOB) ;;
  assert_ok (do_transfer CLASS_ID_1 INSTANCE_ID_0 BOB CHARLIE) ;;
  balance_is BOB (150000 * BSX) ;;
  assert_ok (Nft.transfer (Signed BOB) CLASS_ID_0 INSTANCE_ID_0 BOB) ;;
  balance_is BOB (150000 * BSX) ;;
  assert_ok (Nft.transfer (Signed BOB) CLASS_ID_0 INSTANCE_ID_0 CHARLIE) ;;
  balance_is ALICE (189900 * BSX) ;;
  balance_is BOB (150000 * BSX) ;;
  balance_is CHARLIE (15000 * BSX)).

Definition burn_works : Test := (build,
  assert_ok (create_class (Signed ALICE) CLASS_ID_0 ClassType_default metadata) ;;
  assert_ok (do_create_class ALICE CLASS_ID_1 LiquidityMining metadata) ;;
  assert_ok (mint (Signed ALICE) CLASS_ID_0 INSTANCE_ID_0 metadata) ;;
  assert_ok (do_mint BOB CLASS_ID_1 INSTANCE_ID_0 metadata) ;;
  assert_noop (burn (Signed BOB) CLASS_ID_0 INSTANCE_ID_0) NftErr.NotPermitted ;;
  assert_noop (burn (Signed BOB) CLASS_ID_1 INSTANCE_ID_0) NftErr.NotPermitted ;;
  assert_ok (burn (Signed ALICE) CLASS_ID_0 INSTANCE_ID_0)).

Definition destroy_class_works : Test := (build,
  assert_ok (create_class (Signed ALICE) CLASS_ID_0 ClassType_default metadata) ;;
  assert_ok (do_create_class ALICE CLASS_ID_1 LiquidityMining metadata) ;;
  assert_ok (mint (Signed ALICE) CLASS_ID_0 INSTANCE_ID_0 metadata) ;;
  assert_ok (do_mint BOB CLASS_ID_1 INSTANCE_ID_0 metadata) ;;
  assert_noop (destroy_class (Signed ALICE) CLASS_ID_0) NftErr.TokenClassNotEmpty ;;
  assert_ok (burn (Signed ALICE) CLASS_ID_0 INSTANCE_ID_0) ;;
  assert_ok (destroy_class (Signed ALICE) CLASS_ID_0) ;;
  assert_noop (destroy_class (Signed ALICE) CLASS_ID_1) NftErr.NotPermitted ;;
  assert_ok (do_burn BOB CLASS_ID_1 INSTANCE_ID_0) ;;
  assert_ok (do_destroy_class ALICE CLASS_ID_1) ;;
  assert_noop (destroy_class (Signed ALICE) CLASS_ID_0) NftErr.ClassUnknown).

Definition nft_suite : list Test :=
    [create_class_works; mint_works; transfer_works; burn_works; destroy_class_works].

(** All tests of the NFT pallet pass on the model. *)
Theorem nft_tests_pass : suite_passes nft_suite.
Proof. unfold nft_suite. run_suite. Qed.
