(* ===== verification/MarketTests.v ===== *)
(** * The tests of the marketplace pallet

    Models the mock runtime of [src/pallets/marketplace/src/mock.rs] and runs the tests of
    [src/pallets/marketplace/src/tests.rs] on the model of the pallet, over the NFT pallet. *)

From S2P Require Import Prelude Primitives Errors Interfaces Testing Nft Marketplace MarketExamples Vault.

(** ** The mock runtime *)

Definition UNITS : Balance := 100000000000.
Definition CLASS_ID_0 : ClassId := 1000.
Definition CLASS_ID_1 : ClassId := 1001.
Definition CLASS_ID_2 : ClassId := 1002.
Definition INSTANCE_ID_0 : InstanceId := 0.
Definition INSTANCE_ID_1 : InstanceId := 1.

Definition Test_nft : NftConfig :=
  {| NftReserveClassIdUpTo := 999; Permissions := NftPermissions |}.
Definition Test_uniques : Deposits :=
  {| class_deposit := 10000 * UNITS; instance_deposit := 100 * UNITS |}.
Definition Test_marketplace : MarketConfig :=
  {| MarketMinimumOfferAmount := 50 * UNITS; MarketRoyaltyBondAmount := 200 * UNITS |}.
#[local] Existing Instances Test_nft Test_uniques Test_marketplace.
Notation State := (MarketState Vault).
Notation Test := (State * Dispatch State unit)%type.

#[local] Instance Offer_eq_dec : EqDecision Offer.
Proof. solve_decision. Defined.
#[local] Instance Royalty_eq_dec : EqDecision Royalty.
Proof. solve_decision. Defined.
#[local] Instance MarketEvent_eq_dec : EqDecision MarketEvent.
Proof. solve_decision. Defined.
#[local] Instance State_eq_dec : EqDecision State.
Proof. solve_decision. Defined.

Definition build : State :=
  mkMarket (mkNft (balances_genesis [(ALICE, 200000 * UNITS); (BOB, 15000 * UNITS);
    (CHARLIE, 150000 * UNITS); (DAVE, 200000 * UNITS)]) ∅ ∅ []) ∅ ∅ ∅ [].
Definition new_test_ext : State := build.

(** ** What the tests look at *)

Definition NFT {A} (m : Dispatch (NftState Vault) A) : Dispatch State A :=
  zoom (C := NftState Vault) m.
Definition price_is (c : ClassId) (i : InstanceId) (p : option Balance) : Dispatch State unit :=
  check (fun s => bool_decide (Prices s !! (c, i) = p)).
Definition owner_is (c : ClassId) (i : InstanceId) (w : AccountId) : Dispatch State unit :=
  check (fun s => bool_decide (token_owned c i s = Some w)).
Definition last_event_is (e : MarketEvent) : Dispatch State unit :=
  check (fun s => bool_decide (head (rev (market_events s)) = Some e)).
Definition reserved (w : AccountId) (s : State) : Balance :=
  v_amount w (v_held (funds s)) + v_amount w (v_named (funds s)).
Definition free_is (w : AccountId) (x : Balance) : Dispatch State unit :=
  check (fun s => v_amount w (v_free (funds s)) =? x).
Definition reserved_is (w : AccountId) (x : Balance) : Dispatch State unit :=
  check (fun s => reserved w s =? x).
Definition total_is (w : AccountId) (x : Balance) : Dispatch State unit :=
  check (fun s => v_amount w (v_free (funds s)) + reserved w s =? x).

(** ** The tests *)

Definition set_price_works : Test := (new_test_ext,
  assert_ok (NFT (create_class (Signed ALICE) CLASS_ID_0 ClassType_default metadata)) ;;
  assert_ok (NFT (mint (Signed ALICE) CLASS_ID_0 INSTANCE_ID_0 metadata)) ;;
  assert_ok (add_royalty (Signed ALICE) CLASS_ID_0 INSTANCE_ID_0 CHARLIE 20) ;;
  assert_noop (set_price (Signed BOB) CLASS_ID_0 INSTANCE_ID_0 (Some 10))
    MarketErr.NotTheTokenOwner ;;
  assert_ok (set_price (Signed ALICE) CLASS_ID_0 INSTANCE_ID_0 (Some 10)) ;;
  last_event_is (TokenPriceUpdated ALICE CLASS_ID_0 INSTANCE_ID_0 (Some 10)) ;;
  price_is CLASS_ID_0 INSTANCE_ID_0 (Some 10) ;;
  assert_ok (set_price (Signed ALICE) CLASS_ID_0 INSTANCE_ID_0 None) ;;
  price_is CLASS_ID_0 INSTANCE_ID_0 None ;;
  last_event_is (TokenPriceUpdated ALICE CLASS_ID_0 INSTANCE_ID_0 None)).

Definition buy_works : Test := (new_test_ext,
  assert_ok (NFT (create_class (Signed ALICE) CLASS_ID_0 ClassType_default metadata)) ;;
  assert_ok (NFT (mint (Signed ALICE) CLASS_ID_0 INSTANCE_ID_0 metadata)) ;;
  assert_ok (add_royalty (Signed ALICE) CLASS_ID_0 INSTANCE_ID_0 CHARLIE 25) ;;
  assert_noop (buy (Signed BOB) 666 666) MarketErr.ClassOrInstanceUnknown ;;
  assert_noop (buy (Signed BOB) CLASS_ID_0 INSTANCE_ID_0) MarketErr.NotForSale ;;
  assert_ok (set_price (Signed ALICE) CLASS_ID_0 INSTANCE_ID_0 (Some (22222 * UNITS))) ;;
  assert_noop (buy (Signed BOB) CLASS_ID_0 INSTANCE_ID_0) InsufficientBalance ;;
  assert_ok (set_price (Signed ALICE) CLASS_ID_0 INSTANCE_ID_0 (Some (1024 * UNITS))) ;;
  assert_ok (buy (Signed BOB) CLASS_ID_0 INSTANCE_ID_0) ;;
  price_is CLASS_ID_0 INSTANCE_ID_0 None ;;
  free_is ALICE (190468 * UNITS) ;;
  free_is BOB (13976 * UNITS) ;;
  free_is CHARLIE (150256 * UNITS) ;;
  free_is DAVE (200000 * UNITS) ;;
  last_event_is (TokenSold ALICE BOB CLASS_ID_0 INSTANCE_ID_0 (768 * UNITS))).

Definition buy_works_2 : Test := (new_test_ext,
  assert_ok (NFT (create_class (Signed ALICE) CLASS_ID_0 ClassType_default metadata)) ;;
  assert_ok (NFT (mint (Signed ALICE) CLASS_ID_0 INSTANCE_ID_0 metadata)) ;;
  assert_ok (add_royalty (Signed ALICE) CLASS_ID_0 INSTANCE_ID_0 CHARLIE 20) ;;
  assert_ok (set_price (Signed ALICE) CLASS_ID_0 INSTANCE_ID_0 (Some (100 * UNITS))) ;;
  assert_ok (buy (Signed BOB) CLASS_ID_0 INSTANCE_ID_0) ;;
  owner_is CLASS_ID_0 INSTANCE_ID_0 BOB ;;
  total_is ALICE (200080 * UNITS) ;;
  total_is BOB (14900 * UNITS) ;;
  total_is CHARLIE (150020 * UNITS) ;;
  reserved_is ALICE (10300 * UNITS) ;;
  reserved_is BOB 0 ;;
  assert_ok (NFT (burn (Signed BOB) CLASS_ID_0 INSTANCE_ID_0)) ;;
  reserved_is ALICE (10200 * UNITS) ;;
  reserved_is BOB 0).

Definition trading_works : Test := (new_test_ext,
  assert_ok (NFT (create_class (Signed ALICE) CLASS_ID_0 ClassType_default metadata)) ;;
  assert_ok (NFT (create_class (Signed BOB) CLASS_ID_1 ClassType_default metadata)) ;;
  assert_ok (NFT (create_class (Signed CHARLIE) CLASS_ID_2 ClassType_default metadata)) ;;
  assert_ok (NFT (mint (Signed ALICE) CLASS_ID_0 INSTANCE_ID_0 metadata)) ;;
  assert_ok (NFT (mint (Signed BOB) CLASS_ID_1 INSTANCE_ID_0 metadata)) ;;
  assert_ok (NFT (mint (Signed BOB) CLASS_ID_1 INSTANCE_ID_1 metadata)) ;;
  assert_ok (add_royalty (Signed ALICE) CLASS_ID_0 INSTANCE_ID_0 ALICE 20) ;;
  assert_noop (set_price (Signed CHARLIE) CLASS_ID_0 INSTANCE_ID_0 (Some 20))
    MarketErr.NotTheTokenOwner ;;
  assert_ok (set_price (Signed ALICE) CLASS_ID_0 INSTANCE_ID_0 (Some 100)) ;;
  assert_ok (buy (Signed BOB) CLASS_ID_0 INSTANCE_ID_0) ;;
  assert_ok (set_price (Signed BOB) CLASS_ID_1 INSTANCE_ID_1 (Some 200)) ;;
  assert_ok (buy (Signed CHARLIE) CLASS_ID_1 INSTANCE_ID_1) ;;
  assert_ok (set_price (Signed CHARLIE) CLASS_ID_1 INSTANCE_ID_1 (Some 300)) ;;
  assert_noop (buy (Signed CHARLIE) CLASS_ID_1 INSTANCE_ID_1) MarketErr.BuyFromSelf ;;
  assert_noop (NFT (burn (Signed BOB) CLASS_ID_1 INSTANCE_ID_1)) NftErr.NotPermitted ;;
  assert_ok (NFT (burn (Signed CHARLIE) CLASS_ID_1 INSTANCE_ID_1))).

Definition offering_works : Test := (new_test_ext,
  assert_ok (NFT (create_class (Signed ALICE) CLASS_ID_0 ClassType_default metadata)) ;;
  assert_ok (NFT (mint (Signed ALICE) CLASS_ID_0 INSTANCE_ID_0 metadata)) ;;
  assert_ok (NFT (do_create_class ALICE CLASS_ID_1 LiquidityMining metadata)) ;;
  assert_ok (add_royalty (Signed ALICE) CLASS_ID_0 INSTANCE_ID_0 CHARLIE 20) ;;
  assert_ok (set_price (Signed ALICE) CLASS_ID_0 INSTANCE_ID_0 (Some (100 * UNITS))) ;;
  assert_noop (make_offer (Signed BOB) CLASS_ID_0 INSTANCE_ID_0 0 1) MarketErr.OfferTooLow ;;
  assert_ok (make_offer (Signed DAVE) CLASS_ID_0 INSTANCE_ID_0 (50 * UNITS) 1) ;;
  assert_ok (make_offer (Signed ALICE) 3 0 (50 * UNITS) 1) ;;
  assert_noop (make_offer (Signed DAVE) CLASS_ID_0 INSTANCE_ID_0 (50 * UNITS) 1)
    MarketErr.AlreadyOffered ;;
  assert_noop (withdraw_offer (Signed CHARLIE) CLASS_ID_0 INSTANCE_ID_0 CHARLIE)
    MarketErr.UnknownOffer ;;
  assert_noop (withdraw_offer (Signed BOB) CLASS_ID_0 INSTANCE_ID_0 DAVE)
    MarketErr.WithdrawNotAuthorized ;;
  assert_noop (accept_offer (Signed ALICE) CLASS_ID_0 INSTANCE_ID_0 DAVE) MarketErr.OfferExpired ;;
  assert_ok (withdraw_offer (Signed ALICE) CLASS_ID_0 INSTANCE_ID_0 DAVE) ;;
  assert_ok (make_offer (Signed BOB) CLASS_ID_0 INSTANCE_ID_0 (50 * UNITS) 666) ;;
  assert_noop (accept_offer (Signed DAVE) CLASS_ID_0 INSTANCE_ID_0 BOB)
    MarketErr.AcceptNotAuthorized ;;
  price_is CLASS_ID_0 INSTANCE_ID_0 (Some (100 * UNITS)) ;;
  check (fun s : State => bool_decide (Offers s !! ((CLASS_ID_0, INSTANCE_ID_0), BOB) =
                                       Some (mkOffer BOB (50 * UNITS) 666))) ;;
  check (fun s : State => block_number (funds s) =? 1) ;;
  assert_ok (accept_offer (Signed ALICE) CLASS_ID_0 INSTANCE_ID_0 BOB) ;;
  owner_is CLASS_ID_0 INSTANCE_ID_0 BOB ;;
  total_is ALICE (200040 * UNITS) ;;
  total_is BOB (14950 * UNITS) ;;
  total_is CHARLIE (150010 * UNITS)).

Definition add_royalty_works : Test := (new_test_ext,
  assert_ok (NFT (create_class (Signed ALICE) CLASS_ID_0 ClassType_default metadata)) ;;
  assert_ok (NFT (mint (Signed ALICE) CLASS_ID_0 INSTANCE_ID_0 metadata)) ;;
  assert_ok (add_royalty (Signed ALICE) CLASS_ID_0 INSTANCE_ID_0 CHARLIE 20)).

Definition market_suite : list Test :=
    [set_price_works; buy_works; buy_works_2; trading_works; offering_works; add_royalty_works].

(** All tests of the marketplace pallet pass on the model. *)
Theorem market_tests_pass : suite_passes market_suite.
Proof. unfold market_suite. run_suite. Qed.
