(* ===== verification/LiquidityMining.v ===== *)
(** * The liquidity mining pallet

    Models [src/pallets/liquidity-mining/src/lib.rs] and [migration.rs]: farms
    ([GlobalPool]) that distribute a reward over the liquidity pools in them
    ([LiquidityPoolYieldFarm]), and deposits of LP shares in those pools, each
    represented by an NFT.  The chain below ([U]) provides currencies, the AMM and
    the records of [pallet_uniques]; the formulas of [hydra_dx_math] are parameters.

    [try_mutate] is modelled as the code runs it: the value is read, the closure works
    on a local copy, and the copy is written back when the closure succeeds. *)

From S2P Require Import Prelude Primitives Errors Interfaces Nft.

Notation PoolId := Z (only parsing).         (* u32 *)
Notation GlobalPoolId := Z (only parsing).   (* u32 *)
Notation PeriodOf := Z (only parsing).       (* u32 *)
Notation PoolMultiplier := Z (only parsing). (* inner value of a FixedU128 *)
Notation FixedU128 := Z (only parsing).      (* inner value *)
Notation Permill := Z (only parsing).        (* parts per million *)

(** ** [hydra_dx_math::liquidity_mining] and the conversion of a [Permill] *)
Class LmMath := {
  fixed_from_permill : Permill -> FixedU128;
  calculate_global_pool_reward_per_period : FixedU128 -> Balance -> Balance -> option Balance;
  calculate_accumulated_rps : Balance -> Balance -> Balance -> option Balance;
  calculate_global_pool_shares : Balance -> PoolMultiplier -> option Balance;
  calculate_loyalty_multiplier : PeriodOf -> FixedU128 -> Z -> option FixedU128;
  calculate_user_reward :
    Balance -> Balance -> Balance -> Balance -> FixedU128 -> option (Balance * Balance)
}.

(** The accounts derived from a [PalletId]. *)
Class PalletAccounts := {
  into_account : AccountId;
  into_sub_account : PoolId -> AccountId
}.

(** ** Constants and data *)

Definition MAX_NFT_INSTANCE_SEQUENCER : Z := 79228162514264337593543950335.
Definition POOL_ID_BYTES : nat := 4.
Definition NFT_SEQUENCE_BYTES : nat := 12.
Definition FixedU128_one : FixedU128 := 10 ^ 18.

Record GlobalPool := mkGlobalPool {
  gp_id : GlobalPoolId;
  gp_owner : AccountId;
  gp_updated_at : PeriodOf;
  gp_total_shares_z : Balance;
  gp_accumulated_rpz : Balance;
  gp_reward_currency : AssetId;
  gp_accumulated_rewards : Balance;
  gp_paid_accumulated_rewards : Balance;
  gp_yield_per_period : Permill;
  gp_planned_yielding_periods : PeriodOf;
  gp_blocks_per_period : BlockNumber;
  gp_incentivized_asset : AssetId;
  gp_max_reward_per_period : Balance;
  gp_liq_pools_count : Z
}.

Definition GlobalPool_new (id : GlobalPoolId) (updated_at : PeriodOf) (reward_currency : AssetId)
    (yield_per_period : Permill) (planned_yielding_periods : PeriodOf)
    (blocks_per_period : BlockNumber) (owner : AccountId) (incentivized_asset : AssetId)
    (max_reward_per_period : Balance) : GlobalPool := {|
  gp_accumulated_rewards := 0;
  gp_accumulated_rpz := 0;
  gp_paid_accumulated_rewards := 0;
  gp_total_shares_z := 0;
  gp_liq_pools_count := 0;
  gp_id := id;
  gp_updated_at := updated_at;
  gp_reward_currency := reward_currency;
  gp_yield_per_period := yield_per_period;
  gp_planned_yielding_periods := planned_yielding_periods;
  gp_blocks_per_period := blocks_per_period;
  gp_owner := owner;
  gp_incentivized_asset := incentivized_asset;
  gp_max_reward_per_period := max_reward_per_period
|}.

Record LoyaltyCurve := mkLoyaltyCurve {
  initial_reward_percentage : FixedU128;
  scale_coef : Z
}.
Definition LoyaltyCurve_default : LoyaltyCurve := mkLoyaltyCurve 500000000000000000 100.

Record LiquidityPoolYieldFarm := mkLiquidityPool {
  lp_id : PoolId;
  lp_updated_at : PeriodOf;
  lp_total_shares : Balance;
  lp_total_valued_shares : Balance;
  lp_accumulated_rpvs : Balance;
  lp_accumulated_rpz : Balance;
  lp_loyalty_curve : option LoyaltyCurve;
  lp_stake_in_global_pool : Balance;
  lp_multiplier : PoolMultiplier;
  lp_canceled : bool
}.

Definition LiquidityPoolYieldFarm_new (id : PoolId) (updated_at : PeriodOf)
    (loyalty_curve : option LoyaltyCurve) (multiplier : PoolMultiplier)
    : LiquidityPoolYieldFarm := {|
  lp_accumulated_rpvs := 0;
  lp_accumulated_rpz := 0;
  lp_stake_in_global_pool := 0;
  lp_total_shares := 0;
  lp_total_valued_shares := 0;
  lp_canceled := false;
  lp_id := id;
  lp_updated_at := updated_at;
  lp_loyalty_curve := loyalty_curve;
  lp_multiplier := multiplier
|}.

Record Deposit := mkDeposit {
  d_shares : Balance;
  d_valued_shares : Balance;
  d_accumulated_rpvs : Balance;
  d_accumulated_claimed_rewards : Balance;
  d_entered_at : PeriodOf;
  d_updated_at : PeriodOf
}.

Definition Deposit_new (shares valued_shares accumulated_rpvs : Balance) (entered_at : PeriodOf)
    : Deposit := {|
  d_updated_at := entered_at;
  d_entered_at := entered_at;
  d_shares := shares;
  d_valued_shares := valued_shares;
  d_accumulated_rpvs := accumulated_rpvs;
  d_accumulated_claimed_rewards := 0
|}.

Inductive LmEvent :=
| FarmCreated (farm_id : GlobalPoolId) (owner : AccountId) (reward_currency : AssetId)
    (yield_per_period : Permill) (planned_yielding_periods : PeriodOf)
    (blocks_per_period : BlockNumber) (incentivized_asset : AssetId)
    (max_reward_per_period : Balance)
| LiquidityPoolAdded (farm_id : GlobalPoolId) (liq_pool_farm_id : PoolId)
    (multiplier : PoolMultiplier) (nft_class : ClassId) (asset_pair : AssetPair)
    (loyalty_curve : option LoyaltyCurve)
| FarmDestroyed (id : PoolId) (who : AccountId)
| SharesDeposited (farm_id : GlobalPoolId) (liq_pool_farm_id : PoolId) (who : AccountId)
    (amount : Balance) (lp_token : AssetId) (nft_class_id : ClassId) (nft_instance_id : InstanceId)
| RewardClaimed (farm_id : GlobalPoolId) (liq_pool_farm_id : PoolId) (who : AccountId)
    (claimed : Balance) (reward_currency : AssetId)
| SharesWithdrawn (farm_id : GlobalPoolId) (liq_pool_farm_id : PoolId) (who : AccountId)
    (lp_token : AssetId) (amount : Balance)
| LiquidityMiningCanceled (farm_id : GlobalPoolId) (liq_pool_farm_id : PoolId) (who : AccountId)
    (asset_pair : AssetPair)
| LiquidityMiningResumed (farm_id : GlobalPoolId) (liq_pool_farm_id : PoolId) (who : AccountId)
    (asset_pair : AssetPair) (multiplier : PoolMultiplier)
| LiquidityPoolRemoved (farm_id : GlobalPoolId) (liq_pool_farm_id : PoolId) (who : AccountId)
    (asset_pair : AssetPair)
| UndistributedRewardsWithdrawn (farm_id : GlobalPoolId) (who : AccountId)
    (reward_currency : AssetId) (amount : Balance)
| LiquidityPoolUpdated (farm_id : GlobalPoolId) (liq_pool_farm_id : PoolId) (who : AccountId)
    (asset_pair : AssetPair) (multiplier : PoolMultiplier)
| FarmAccRPZUpdated (farm_id : GlobalPoolId) (accumulated_rpz total_shares_z : Balance)
| LiquidityPoolAccRPVSUpdated (farm_id : GlobalPoolId) (liq_pool_farm_id : PoolId)
    (accumulated_rpvs total_valued_shares : Balance).

(** ** Storage *)

Record LmState (U : Type) := mkLm {
  lm_nft : NftState U;
  PoolIdSequencer : PoolId;
  NftInstanceSequencer : InstanceId;
  GlobalPoolData : gmap GlobalPoolId GlobalPool;
  LiquidityPoolData : gmap (GlobalPoolId * AccountId) LiquidityPoolYieldFarm;
  DepositData : gmap InstanceId Deposit;
  LiquidityPoolMetadata : gmap PoolId (AssetPair * Z * GlobalPoolId);
  lm_version : Z;
  lm_events : list LmEvent
}.
Arguments mkLm {U}.
Arguments lm_nft {U}.
Arguments PoolIdSequencer {U}.
Arguments NftInstanceSequencer {U}.
Arguments GlobalPoolData {U}.
Arguments LiquidityPoolData {U}.
Arguments DepositData {U}.
Arguments LiquidityPoolMetadata {U}.
Arguments lm_version {U}.
Arguments lm_events {U}.

Section setters.
Context {U : Type}.
Implicit Types s : LmState U.
Definition set_lm_nft (n : NftState U) s : LmState U :=
  mkLm n (PoolIdSequencer s) (NftInstanceSequencer s) (GlobalPoolData s) (LiquidityPoolData s)
    (DepositData s) (LiquidityPoolMetadata s) (lm_version s) (lm_events s).
Definition set_PoolIdSequencer (x : PoolId) s : LmState U :=
  mkLm (lm_nft s) x (NftInstanceSequencer s) (GlobalPoolData s) (LiquidityPoolData s)
    (DepositData s) (LiquidityPoolMetadata s) (lm_version s) (lm_events s).
Definition set_NftInstanceSequencer (x : InstanceId) s : LmState U :=
  mkLm (lm_nft s) (PoolIdSequencer s) x (GlobalPoolData s) (LiquidityPoolData s)
    (DepositData s) (LiquidityPoolMetadata s) (lm_version s) (lm_events s).
Definition set_GlobalPoolData (f : gmap GlobalPoolId GlobalPool -> gmap GlobalPoolId GlobalPool) s
    : LmState U :=
  mkLm (lm_nft s) (PoolIdSequencer s) (NftInstanceSequencer s) (f (GlobalPoolData s))
    (LiquidityPoolData s) (DepositData s) (LiquidityPoolMetadata s) (lm_version s) (lm_events s).
Definition set_LiquidityPoolData (f : gmap (GlobalPoolId * AccountId) LiquidityPoolYieldFarm ->
    gmap (GlobalPoolId * AccountId) LiquidityPoolYieldFarm) s : LmState U :=
  mkLm (lm_nft s) (PoolIdSequencer s) (NftInstanceSequencer s) (GlobalPoolData s)
    (f (LiquidityPoolData s)) (DepositData s) (LiquidityPoolMetadata s) (lm_version s) (lm_events s).
Definition set_DepositData (f : gmap InstanceId Deposit -> gmap InstanceId Deposit) s : LmState U :=
  mkLm (lm_nft s) (PoolIdSequencer s) (NftInstanceSequencer s) (GlobalPoolData s)
    (LiquidityPoolData s) (f (DepositData s)) (LiquidityPoolMetadata s) (lm_version s) (lm_events s).
Definition set_LiquidityPoolMetadata (f : gmap PoolId (AssetPair * Z * GlobalPoolId) ->
    gmap PoolId (AssetPair * Z * GlobalPoolId)) s : LmState U :=
  mkLm (lm_nft s) (PoolIdSequencer s) (NftInstanceSequencer s) (GlobalPoolData s)
    (LiquidityPoolData s) (DepositData s) (f (LiquidityPoolMetadata s)) (lm_version s) (lm_events s).
Definition set_lm_version (v : Z) s : LmState U :=
  mkLm (lm_nft s) (PoolIdSequencer s) (NftInstanceSequencer s) (GlobalPoolData s)
    (LiquidityPoolData s) (DepositData s) (LiquidityPoolMetadata s) v (lm_events s).
Definition lm_deposit_event (e : LmEvent) : Dispatch (LmState U) unit :=
  modify (fun s => mkLm (lm_nft s) (PoolIdSequencer s) (NftInstanceSequencer s) (GlobalPoolData s)
    (LiquidityPoolData s) (DepositData s) (LiquidityPoolMetadata s) (lm_version s)
    (lm_events s ++ [e])).
(** The chain below: currencies, AMM, uniques. *)
Definition below s : U := uniques (lm_nft s).
Definition set_below (u : U) s : LmState U := set_lm_nft (set_uniques u (lm_nft s)) s.
End setters.

#[export] Instance Lm_lens U : Lens (LmState U) (NftState U) := {|
  lens_get := lm_nft;
  lens_set := set_lm_nft
|}.
#[export] Instance Lm_below_lens U : Lens (LmState U) U := {|
  lens_get := below;
  lens_set := set_below
|}.

(** Field updates of the records. *)
Definition gp_set_shares_z (z : Balance) (g : GlobalPool) : GlobalPool :=
  mkGlobalPool (gp_id g) (gp_owner g) (gp_updated_at g) z (gp_accumulated_rpz g)
    (gp_reward_currency g) (gp_accumulated_rewards g) (gp_paid_accumulated_rewards g)
    (gp_yield_per_period g) (gp_planned_yielding_periods g) (gp_blocks_per_period g)
    (gp_incentivized_asset g) (gp_max_reward_per_period g) (gp_liq_pools_count g).
Definition gp_set_count (n : Z) (g : GlobalPool) : GlobalPool :=
  mkGlobalPool (gp_id g) (gp_owner g) (gp_updated_at g) (gp_total_shares_z g) (gp_accumulated_rpz g)
    (gp_reward_currency g) (gp_accumulated_rewards g) (gp_paid_accumulated_rewards g)
    (gp_yield_per_period g) (gp_planned_yielding_periods g) (gp_blocks_per_period g)
    (gp_incentivized_asset g) (gp_max_reward_per_period g) n.
Definition gp_set_rewards (updated : PeriodOf) (rpz accumulated paid : Balance) (g : GlobalPool)
    : GlobalPool :=
  mkGlobalPool (gp_id g) (gp_owner g) updated (gp_total_shares_z g) rpz
    (gp_reward_currency g) accumulated paid
    (gp_yield_per_period g) (gp_planned_yielding_periods g) (gp_blocks_per_period g)
    (gp_incentivized_asset g) (gp_max_reward_per_period g) (gp_liq_pools_count g).
Definition lp_set_shares (shares valued stake : Balance) (p : LiquidityPoolYieldFarm)
    : LiquidityPoolYieldFarm :=
  mkLiquidityPool (lp_id p) (lp_updated_at p) shares valued (lp_accumulated_rpvs p)
    (lp_accumulated_rpz p) (lp_loyalty_curve p) stake (lp_multiplier p) (lp_canceled p).
Definition lp_set_stake (stake : Balance) (m : PoolMultiplier) (canceled : bool)
    (p : LiquidityPoolYieldFarm) : LiquidityPoolYieldFarm :=
  mkLiquidityPool (lp_id p) (lp_updated_at p) (lp_total_shares p) (lp_total_valued_shares p)
    (lp_accumulated_rpvs p) (lp_accumulated_rpz p) (lp_loyalty_curve p) stake m canceled.
Definition lp_set_rewards (updated : PeriodOf) (rpvs rpz : Balance) (p : LiquidityPoolYieldFarm)
    : LiquidityPoolYieldFarm :=
  mkLiquidityPool (lp_id p) updated (lp_total_shares p) (lp_total_valued_shares p) rpvs rpz
    (lp_loyalty_curve p) (lp_stake_in_global_pool p) (lp_multiplier p) (lp_canceled p).
Definition d_set_claimed (claimed : Balance) (updated : PeriodOf) (d : Deposit) : Deposit :=
  mkDeposit (d_shares d) (d_valued_shares d) (d_accumulated_rpvs d) claimed (d_entered_at d) updated.

Class LmConfig := {
  may_create_farm : Origin -> bool;
  MinTotalFarmRewards : Balance;
  MinPlannedYieldingPeriods : PeriodOf;
  NftClass : ClassId
}.

Section pallet.
Context {U : Type} `{Uniques U} `{MultiCurrency U} `{AMM U} `{BlockNumberProvider U}.
Context `{LmMath} `{PalletAccounts} {ncfg : NftConfig} {cfg : LmConfig}.
Notation State := (LmState U).
Local Notation ensure b e := (ensure b%rust (LmE e)).
Local Notation ok_or o e := (ok_or o (LmE e)).
Local Notation err e := (fail (LmE e)).

(** ** Helpers *)

Definition validate_pool_id (pool_id : PoolId) : Dispatch State unit :=
  if pool_id =? 0 then err LmErr.InvalidPoolId else mret tt.

Definition get_next_pool_id : Dispatch State PoolId :=
  current_id ← gets PoolIdSequencer;
  next ← ok_or (checked_add 32 current_id 1) LmErr.Overflow;
  modify (set_PoolIdSequencer next) ;;
  mret next.

Definition encode_nft_id (liq_pool_id : PoolId) (current_id : InstanceId) : InstanceId :=
  from_le_bytes (to_le_bytes POOL_ID_BYTES liq_pool_id
                 ++ take NFT_SEQUENCE_BYTES (to_le_bytes 16 current_id)).

Definition get_next_nft_id (liq_pool_id : PoolId) : Dispatch State InstanceId :=
  validate_pool_id liq_pool_id ;;
  current_id ← gets NftInstanceSequencer;
  next ← ok_or (checked_add 128 current_id 1) LmErr.Overflow;
  ensure (MAX_NFT_INSTANCE_SEQUENCER >= next) LmErr.NftIdOverflow ;;
  modify (set_NftInstanceSequencer next) ;;
  mret (encode_nft_id liq_pool_id next).

Definition decode_pool_id (nft_id : InstanceId) : PoolId :=
  from_le_bytes (take POOL_ID_BYTES (to_le_bytes 16 nft_id)).

Definition get_pool_id_from_nft_id (nft_id : InstanceId) : Dispatch State PoolId :=
  ensure (4294967296 < nft_id) LmErr.InvalidNftId ;;
  mret (decode_pool_id nft_id).

Definition account_id : AccountId := into_account.

Definition pool_account_id (pool_id : PoolId) : Dispatch State AccountId :=
  validate_pool_id pool_id ;;
  mret (into_sub_account pool_id).

Definition get_period_number (block : BlockNumber) (blocks_per_period : BlockNumber)
    : Dispatch State PeriodOf :=
  ok_or (checked_div block blocks_per_period) LmErr.Overflow.

Definition get_now_period (blocks_per_period : BlockNumber) : Dispatch State PeriodOf :=
  block ← gets (fun s => block_number (below s));
  get_period_number block blocks_per_period.

Definition get_loyalty_multiplier (periods : PeriodOf) (curve : option LoyaltyCurve)
    : Dispatch State FixedU128 :=
  match curve with
  | None => mret FixedU128_one
  | Some curve =>
      if initial_reward_percentage curve =? FixedU128_one then mret FixedU128_one
      else ok_or (calculate_loyalty_multiplier periods (initial_reward_percentage curve)
                    (scale_coef curve)) LmErr.Overflow
  end.

(** The reward is for all periods since the last update, capped by the balance of the
    farm's account. *)
Definition update_global_pool (global_pool : GlobalPool) (now_period : PeriodOf)
    (reward_per_period : Balance) : Dispatch State GlobalPool :=
  if gp_updated_at global_pool =? now_period then mret global_pool else
  if gp_total_shares_z global_pool =? 0 then mret global_pool else
  periods_since_last_update ←
    ok_or (checked_sub now_period (gp_updated_at global_pool)) LmErr.Overflow;
  global_pool_account ← pool_account_id (gp_id global_pool);
  left_to_distribute ←
    gets (fun s => free_balance (gp_reward_currency global_pool) global_pool_account (below s));
  planned ← ok_or (checked_mul 128 periods_since_last_update reward_per_period) LmErr.Overflow;
  let reward := Z.min planned left_to_distribute in
  g ← (if negb (reward =? 0) then
         rpz ← ok_or (calculate_accumulated_rps (gp_accumulated_rpz global_pool)
                        (gp_total_shares_z global_pool) reward) LmErr.Overflow;
         rewards ← ok_or (checked_add 128 (gp_accumulated_rewards global_pool) reward)
                     LmErr.Overflow;
         mret (gp_set_rewards (gp_updated_at global_pool) rpz rewards
                 (gp_paid_accumulated_rewards global_pool) global_pool)
       else mret global_pool);
  let g := gp_set_rewards now_period (gp_accumulated_rpz g) (gp_accumulated_rewards g)
             (gp_paid_accumulated_rewards g) g in
  lm_deposit_event (FarmAccRPZUpdated (gp_id g) (gp_accumulated_rpz g) (gp_total_shares_z g)) ;;
  mret g.

Definition claim_from_global_pool (global_pool : GlobalPool) (liq_pool : LiquidityPoolYieldFarm)
    (stake_in_global_pool : Balance)
    : Dispatch State (Balance * GlobalPool * LiquidityPoolYieldFarm) :=
  diff ← ok_or (checked_sub (gp_accumulated_rpz global_pool) (lp_accumulated_rpz liq_pool))
           LmErr.Overflow;
  reward ← ok_or (checked_mul 128 diff stake_in_global_pool) LmErr.Overflow;
  let liq_pool := lp_set_rewards (lp_updated_at liq_pool) (lp_accumulated_rpvs liq_pool)
                    (gp_accumulated_rpz global_pool) liq_pool in
  paid ← ok_or (checked_add 128 (gp_paid_accumulated_rewards global_pool) reward) LmErr.Overflow;
  rewards ← ok_or (checked_sub (gp_accumulated_rewards global_pool) reward) LmErr.Overflow;
  mret (reward, gp_set_rewards (gp_updated_at global_pool) (gp_accumulated_rpz global_pool)
                  rewards paid global_pool, liq_pool).

Definition update_liq_pool (pool : LiquidityPoolYieldFarm) (pool_rewards : Balance)
    (period_now : PeriodOf) (global_pool_id : GlobalPoolId) (reward_currency : AssetId)
    : Dispatch State LiquidityPoolYieldFarm :=
  if lp_updated_at pool =? period_now then mret pool else
  if lp_total_valued_shares pool =? 0 then mret pool else
  rpvs ← ok_or (calculate_accumulated_rps (lp_accumulated_rpvs pool) (lp_total_valued_shares pool)
                  pool_rewards) LmErr.Overflow;
  let pool := lp_set_rewards period_now rpvs (lp_accumulated_rpz pool) pool in
  global_pool_account ← pool_account_id global_pool_id;
  global_pool_balance ← gets (fun s => free_balance reward_currency global_pool_account (below s));
  ensure (global_pool_balance >= pool_rewards) LmErr.InsufficientBalanceInGlobalPool ;;
  global_pool_account ← pool_account_id global_pool_id;
  pool_account ← pool_account_id (lp_id pool);
  lm_deposit_event (LiquidityPoolAccRPVSUpdated global_pool_id (lp_id pool)
    (lp_accumulated_rpvs pool) (lp_total_valued_shares pool)) ;;
  zoom (C := U) (Interfaces.transfer reward_currency global_pool_account pool_account pool_rewards) ;;
  mret pool.

Definition validate_create_farm_data (total_rewards : Balance)
    (planned_yielding_periods : PeriodOf) (blocks_per_period : BlockNumber)
    (yield_per_period : Permill) : Dispatch State unit :=
  ensure (total_rewards >= MinTotalFarmRewards) LmErr.InvalidTotalRewards ;;
  ensure (planned_yielding_periods >= MinPlannedYieldingPeriods)
    LmErr.InvalidPlannedYieldingPeriods ;;
  ensure (blocks_per_period != 0) LmErr.InvalidBlocksPerPeriod ;;
  ensure (yield_per_period != 0) LmErr.InvalidYieldPerPeriod ;;
  mret tt.

Definition get_valued_shares (shares : Balance) (amm : AccountId) (incentivized_asset : AssetId)
    : Dispatch State Balance :=
  incentivized_asset_balance ← gets (fun s => free_balance incentivized_asset amm (below s));
  ok_or (checked_mul 128 shares incentivized_asset_balance) LmErr.Overflow.

Definition do_claim_rewards (who : AccountId) (deposit : Deposit)
    (liq_pool : LiquidityPoolYieldFarm) (now_period : PeriodOf) (reward_currency : AssetId)
    : Dispatch State (Balance * Balance * Deposit) :=
  periods ← ok_or (checked_sub now_period (d_entered_at deposit)) LmErr.Overflow;
  if d_updated_at deposit =? now_period then mret (0, 0, deposit) else
  loyalty_multiplier ← get_loyalty_multiplier periods (lp_loyalty_curve liq_pool);
  result ← ok_or (calculate_user_reward (d_accumulated_rpvs deposit) (d_valued_shares deposit)
                    (d_accumulated_claimed_rewards deposit) (lp_accumulated_rpvs liq_pool)
                    loyalty_multiplier) LmErr.Overflow;
  let rewards := fst result in
  let unclaimable_rewards := snd result in
  claimed ← ok_or (checked_add 128 (d_accumulated_claimed_rewards deposit) rewards) LmErr.Overflow;
  let deposit := d_set_claimed claimed now_period deposit in
  liq_pool_account ← pool_account_id (lp_id liq_pool);
  zoom (C := U) (Interfaces.transfer reward_currency liq_pool_account who rewards) ;;
  mret (rewards, unclaimable_rewards, deposit).

(** The update of the farm's [accumulated_rpz], written out at three places. *)
Definition accrue (global_pool : GlobalPool) (now_period : PeriodOf) : Dispatch State GlobalPool :=
  if negb (gp_total_shares_z global_pool =? 0) && negb (gp_updated_at global_pool =? now_period)
  then reward_per_period ←
         ok_or (calculate_global_pool_reward_per_period
                  (fixed_from_permill (gp_yield_per_period global_pool))
                  (gp_total_shares_z global_pool) (gp_max_reward_per_period global_pool))
           LmErr.Overflow;
       update_global_pool global_pool now_period reward_per_period
  else mret global_pool.

Definition maybe_update_pools (global_pool : GlobalPool) (liq_pool : LiquidityPoolYieldFarm)
    (now_period : PeriodOf) : Dispatch State (GlobalPool * LiquidityPoolYieldFarm) :=
  if lp_canceled liq_pool then mret (global_pool, liq_pool) else
  if negb (lp_total_shares liq_pool =? 0) && negb (lp_updated_at liq_pool =? now_period) then
    global_pool ← accrue global_pool now_period;
    r ← claim_from_global_pool global_pool liq_pool (lp_stake_in_global_pool liq_pool);
    let '(rewards, global_pool, liq_pool) := r in
    liq_pool ← update_liq_pool liq_pool rewards now_period (gp_id global_pool)
                 (gp_reward_currency global_pool);
    mret (global_pool, liq_pool)
  else mret (global_pool, liq_pool).

(** Reading and writing back the farm and the pool of a call. *)
Definition get_farm (farm_id : GlobalPoolId) : Dispatch State GlobalPool :=
  g ← gets (fun s => GlobalPoolData s !! farm_id);
  ok_or g LmErr.FarmNotFound.
Definition get_liq_pool (farm_id : GlobalPoolId) (amm_account : AccountId)
    : Dispatch State LiquidityPoolYieldFarm :=
  p ← gets (fun s => LiquidityPoolData s !! (farm_id, amm_account));
  ok_or p LmErr.LiquidityPoolNotFound.
Definition put_farm (farm_id : GlobalPoolId) (g : GlobalPool) : Dispatch State unit :=
  modify (set_GlobalPoolData (insert farm_id g)).
Definition put_liq_pool (farm_id : GlobalPoolId) (amm_account : AccountId)
    (p : LiquidityPoolYieldFarm) : Dispatch State unit :=
  modify (set_LiquidityPoolData (insert (farm_id, amm_account) p)).

(** ** Extrinsics *)

Definition create_farm (origin : Origin) (total_rewards : Balance)
    (planned_yielding_periods : PeriodOf) (blocks_per_period : BlockNumber)
    (incentivized_asset reward_currency : AssetId) (owner : AccountId)
    (yield_per_period : Permill) : Dispatch State unit :=
  transactional (
    (if may_create_farm origin then mret tt else fail BadOrigin) ;;
    validate_create_farm_data total_rewards planned_yielding_periods blocks_per_period
      yield_per_period ;;
    balance ← gets (fun s => free_balance reward_currency owner (below s));
    ensure (balance >= total_rewards) LmErr.InsufficientRewardCurrencyBalance ;;
    max_reward_per_period ← ok_or (checked_div total_rewards planned_yielding_periods)
                              LmErr.Overflow;
    now_period ← get_now_period blocks_per_period;
    pool_id ← get_next_pool_id;
    let global_pool := GlobalPool_new pool_id now_period reward_currency yield_per_period
      planned_yielding_periods blocks_per_period owner incentivized_asset max_reward_per_period in
    put_farm (gp_id global_pool) global_pool ;;
    global_pool_account ← pool_account_id (gp_id global_pool);
    zoom (C := U) (Interfaces.transfer reward_currency (gp_owner global_pool) global_pool_account
                     total_rewards) ;;
    lm_deposit_event (FarmCreated (gp_id global_pool) (gp_owner global_pool)
      (gp_reward_currency global_pool) (gp_yield_per_period global_pool)
      (gp_planned_yielding_periods global_pool) (gp_blocks_per_period global_pool)
      (gp_incentivized_asset global_pool) (gp_max_reward_per_period global_pool)) ;;
    mret tt).

Definition destroy_farm (origin : Origin) (farm_id : GlobalPoolId) : Dispatch State unit :=
  transactional (
    who ← ensure_signed origin;
    global_pool ← get_farm farm_id;
    ensure (who == gp_owner global_pool) LmErr.Forbidden ;;
    ensure (gp_liq_pools_count global_pool == 0) LmErr.FarmIsNotEmpty ;;
    global_pool_account ← pool_account_id (gp_id global_pool);
    balance ← gets (fun s => free_balance (gp_reward_currency global_pool) global_pool_account
                               (below s));
    ensure (balance == 0) LmErr.RewardBalanceIsNotZero ;;
    lm_deposit_event (FarmDestroyed farm_id who) ;;
    modify (set_GlobalPoolData (delete farm_id))).

Definition withdraw_undistributed_rewards (origin : Origin) (farm_id : GlobalPoolId)
    : Dispatch State unit :=
  transactional (
    who ← ensure_signed origin;
    global_pool ← get_farm farm_id;
    ensure (gp_owner global_pool == who) LmErr.Forbidden ;;
    ensure (gp_liq_pools_count global_pool == 0) LmErr.FarmIsNotEmpty ;;
    global_pool_account ← pool_account_id (gp_id global_pool);
    undistributed_reward ← gets (fun s => total_balance (gp_reward_currency global_pool)
                                            global_pool_account (below s));
    zoom (C := U) (Interfaces.transfer (gp_reward_currency global_pool) global_pool_account who
                     undistributed_reward) ;;
    lm_deposit_event (UndistributedRewardsWithdrawn (gp_id global_pool) who
      (gp_reward_currency global_pool) undistributed_reward) ;;
    mret tt).

Definition add_liquidity_pool (origin : Origin) (farm_id : GlobalPoolId) (asset_pair : AssetPair)
    (multiplier : PoolMultiplier) (loyalty_curve : option LoyaltyCurve) : Dispatch State unit :=
  transactional (
    who ← ensure_signed origin;
    ensure (multiplier != 0) LmErr.InvalidMultiplier ;;
    match loyalty_curve with
    | Some curve => ensure (initial_reward_percentage curve < FixedU128_one)
                      LmErr.InvalidInitialRewardPercentage
    | None => mret tt
    end ;;
    known ← gets (fun s => amm_exists asset_pair (below s));
    ensure known LmErr.AmmPoolDoesNotExist ;;
    global_pool ← get_farm farm_id;
    ensure (who == gp_owner global_pool) LmErr.Forbidden ;;
    ensure ((asset_in asset_pair == gp_incentivized_asset global_pool)
            || (asset_out asset_pair == gp_incentivized_asset global_pool))
      LmErr.MissingIncentivizedAsset ;;
    let amm_pool_id := get_pair_id asset_pair in
    present ← gets (fun s => LiquidityPoolData s !! (farm_id, amm_pool_id));
    ensure (negb (bool_decide (is_Some present))) LmErr.LiquidityPoolAlreadyExists ;;
    now_period ← get_now_period (gp_blocks_per_period global_pool);
    global_pool ← accrue global_pool now_period;
    liq_pool_id ← get_next_pool_id;
    modify (set_LiquidityPoolMetadata (insert liq_pool_id (asset_pair, 0, gp_id global_pool))) ;;
    let pool := LiquidityPoolYieldFarm_new liq_pool_id now_period loyalty_curve multiplier in
    put_liq_pool (gp_id global_pool) amm_pool_id pool ;;
    count ← ok_or (checked_add 32 (gp_liq_pools_count global_pool) 1) LmErr.Overflow;
    let global_pool := gp_set_count count global_pool in
    lm_deposit_event (LiquidityPoolAdded (gp_id global_pool) (lp_id pool) multiplier NftClass
      asset_pair loyalty_curve) ;;
    put_farm farm_id global_pool).

Definition update_liquidity_pool (origin : Origin) (farm_id : GlobalPoolId)
    (asset_pair : AssetPair) (multiplier : PoolMultiplier) : Dispatch State unit :=
  transactional (
    who ← ensure_signed origin;
    ensure (multiplier != 0) LmErr.InvalidMultiplier ;;
    let amm_pool_id := get_pair_id asset_pair in
    liq_pool ← get_liq_pool farm_id amm_pool_id;
    ensure (negb (lp_canceled liq_pool)) LmErr.LiquidityMiningCanceled ;;
    global_pool ← get_farm farm_id;
    ensure (who == gp_owner global_pool) LmErr.Forbidden ;;
    now_period ← get_now_period (gp_blocks_per_period global_pool);
    pools ← maybe_update_pools global_pool liq_pool now_period;
    let '(global_pool, liq_pool) := pools in
    new_stake_in_global_pool ←
      ok_or (calculate_global_pool_shares (lp_total_valued_shares liq_pool) multiplier)
        LmErr.Overflow;
    z ← ok_or (checked_sub (gp_total_shares_z global_pool) (lp_stake_in_global_pool liq_pool))
          LmErr.Overflow;
    z ← ok_or (checked_add 128 z new_stake_in_global_pool) LmErr.Overflow;
    let global_pool := gp_set_shares_z z global_pool in
    let liq_pool := lp_set_stake new_stake_in_global_pool multiplier (lp_canceled liq_pool) liq_pool in
    lm_deposit_event (LiquidityPoolUpdated (gp_id global_pool) (lp_id liq_pool) who asset_pair
      (lp_multiplier liq_pool)) ;;
    put_farm farm_id global_pool ;;
    put_liq_pool farm_id amm_pool_id liq_pool).

Definition cancel_liquidity_pool (origin : Origin) (farm_id : GlobalPoolId)
    (asset_pair : AssetPair) : Dispatch State unit :=
  transactional (
    who ← ensure_signed origin;
    let amm_account := get_pair_id asset_pair in
    liq_pool ← get_liq_pool farm_id amm_account;
    ensure (negb (lp_canceled liq_pool)) LmErr.LiquidityMiningCanceled ;;
    global_pool ← get_farm farm_id;
    ensure (gp_owner global_pool == who) LmErr.Forbidden ;;
    now_period ← get_now_period (gp_blocks_per_period global_pool);
    pools ← maybe_update_pools global_pool liq_pool now_period;
    let '(global_pool, liq_pool) := pools in
    z ← ok_or (checked_sub (gp_total_shares_z global_pool) (lp_stake_in_global_pool liq_pool))
          LmErr.Overflow;
    let global_pool := gp_set_shares_z z global_pool in
    let liq_pool := lp_set_stake 0 0 true liq_pool in
    lm_deposit_event (LiquidityMiningCanceled farm_id (lp_id liq_pool) who asset_pair) ;;
    put_farm farm_id global_pool ;;
    put_liq_pool farm_id amm_account liq_pool).

Definition resume_liquidity_pool (origin : Origin) (farm_id : GlobalPoolId)
    (asset_pair : AssetPair) (multiplier : PoolMultiplier) : Dispatch State unit :=
  transactional (
    who ← ensure_signed origin;
    ensure (multiplier != 0) LmErr.InvalidMultiplier ;;
    let amm_account := get_pair_id asset_pair in
    liq_pool ← get_liq_pool farm_id amm_account;
    ensure (lp_canceled liq_pool) LmErr.LiquidityMiningIsNotCanceled ;;
    global_pool ← get_farm farm_id;
    ensure (gp_owner global_pool == who) LmErr.Forbidden ;;
    now_period ← get_now_period (gp_blocks_per_period global_pool);
    global_pool ← accrue global_pool now_period;
    new_stake_in_global_poll ←
      ok_or (calculate_global_pool_shares (lp_total_valued_shares liq_pool) multiplier)
        LmErr.Overflow;
    z ← ok_or (checked_add 128 (gp_total_shares_z global_pool) new_stake_in_global_poll)
          LmErr.Overflow;
    let global_pool := gp_set_shares_z z global_pool in
    let liq_pool := lp_set_stake new_stake_in_global_poll multiplier false
      (lp_set_rewards now_period (lp_accumulated_rpvs liq_pool) (gp_accumulated_rpz global_pool)
         liq_pool) in
    lm_deposit_event (LiquidityMiningResumed farm_id (lp_id liq_pool) who asset_pair multiplier) ;;
    put_farm farm_id global_pool ;;
    put_liq_pool farm_id amm_account liq_pool).

Definition remove_liquidity_pool (origin : Origin) (farm_id : GlobalPoolId)
    (asset_pair : AssetPair) : Dispatch State unit :=
  transactional (
    who ← ensure_signed origin;
    let amm_account := get_pair_id asset_pair in
    liq_pool ← get_liq_pool farm_id amm_account;
    ensure (lp_canceled liq_pool) LmErr.LiquidityMiningIsNotCanceled ;;
    global_pool ← get_farm farm_id;
    ensure (gp_owner global_pool == who) LmErr.Forbidden ;;
    count ← ok_or (checked_sub (gp_liq_pools_count global_pool) 1) LmErr.Overflow;
    let global_pool := gp_set_count count global_pool in
    global_pool_account ← pool_account_id (gp_id global_pool);
    liq_pool_account ← pool_account_id (lp_id liq_pool);
    unpaid_reward ← gets (fun s => total_balance (gp_reward_currency global_pool) liq_pool_account
                                     (below s));
    zoom (C := U) (Interfaces.transfer (gp_reward_currency global_pool) liq_pool_account
                     global_pool_account unpaid_reward) ;;
    modify (fun s => match LiquidityPoolMetadata s !! lp_id liq_pool with
                     | Some (_, nfts_in_class, _) =>
                         if nfts_in_class =? 0
                         then set_LiquidityPoolMetadata (delete (lp_id liq_pool)) s else s
                     | None => s
                     end) ;;
    put_farm farm_id global_pool ;;
    lm_deposit_event (LiquidityPoolRemoved farm_id (lp_id liq_pool) who asset_pair) ;;
    modify (set_LiquidityPoolData (delete (farm_id, amm_account)))).

Definition deposit_shares (origin : Origin) (farm_id : GlobalPoolId) (asset_pair : AssetPair)
    (shares_amount : Balance) : Dispatch State unit :=
  transactional (
    who ← ensure_signed origin;
    ensure (shares_amount != 0) LmErr.InvalidDepositAmount ;;
    amm_share_token ← gets (fun s => get_share_token asset_pair (below s));
    balance ← gets (fun s => free_balance amm_share_token who (below s));
    ensure (balance >= shares_amount) LmErr.InsufficientAmmSharesBalance ;;
    let amm_account := get_pair_id asset_pair in
    liq_pool ← get_liq_pool farm_id amm_account;
    ensure (negb (lp_canceled liq_pool)) LmErr.LiquidityMiningCanceled ;;
    global_pool ← get_farm farm_id;
    now_period ← get_now_period (gp_blocks_per_period global_pool);
    pools ← maybe_update_pools global_pool liq_pool now_period;
    let '(global_pool, liq_pool) := pools in
    valued_shares ← get_valued_shares shares_amount amm_account (gp_incentivized_asset global_pool);
    shares_in_global_pool_for_deposit ←
      ok_or (calculate_global_pool_shares valued_shares (lp_multiplier liq_pool)) LmErr.Overflow;
    total ← ok_or (checked_add 128 (lp_total_shares liq_pool) shares_amount) LmErr.Overflow;
    valued ← ok_or (checked_add 128 (lp_total_valued_shares liq_pool) valued_shares) LmErr.Overflow;
    stake ← ok_or (checked_add 128 (lp_stake_in_global_pool liq_pool)
                     shares_in_global_pool_for_deposit) LmErr.Overflow;
    let liq_pool := lp_set_shares total valued stake liq_pool in
    z ← ok_or (checked_add 128 (gp_total_shares_z global_pool) shares_in_global_pool_for_deposit)
          LmErr.Overflow;
    let global_pool := gp_set_shares_z z global_pool in
    let pallet_account := account_id in
    zoom (C := U) (Interfaces.transfer amm_share_token who pallet_account shares_amount) ;;
    nft_id ← get_next_nft_id (lp_id liq_pool);
    zoom (C := NftState U) (do_mint who NftClass nft_id []) ;;
    let d := Deposit_new shares_amount valued_shares (lp_accumulated_rpvs liq_pool) now_period in
    modify (set_DepositData (insert nft_id d)) ;;
    maybe_metadata ← gets (fun s => LiquidityPoolMetadata s !! lp_id liq_pool);
    metadata ← ok_or maybe_metadata LmErr.LiquidityPoolMetadataNotFound;
    let '(meta_pair, nfts, farm) := metadata in
    nfts ← ok_or (checked_add 64 nfts 1) LmErr.Overflow;
    modify (set_LiquidityPoolMetadata (insert (lp_id liq_pool) (meta_pair, nfts, farm))) ;;
    lm_deposit_event (SharesDeposited farm_id (lp_id liq_pool) who shares_amount amm_share_token
      NftClass nft_id) ;;
    put_farm farm_id global_pool ;;
    put_liq_pool farm_id amm_account liq_pool).

Definition claim_rewards (origin : Origin) (nft_id : InstanceId) : Dispatch State unit :=
  transactional (
    who ← ensure_signed origin;
    liq_pool_id ← get_pool_id_from_nft_id nft_id;
    maybe_metadata ← gets (fun s => LiquidityPoolMetadata s !! liq_pool_id);
    metadata ← ok_or maybe_metadata LmErr.LiquidityPoolNotFound;
    let '(asset_pair, _, farm_id) := metadata in
    maybe_nft ← gets (fun s => DepositData s !! nft_id);
    deposit ← ok_or maybe_nft LmErr.NftDoesNotExist;
    maybe_owner ← gets (fun s => owner NftClass nft_id (lm_nft s));
    nft_owner ← ok_or maybe_owner LmErr.CantFindDepositOwner;
    ensure (nft_owner == who) LmErr.NotDepositOwner ;;
    let amm_account := get_pair_id asset_pair in
    liq_pool ← get_liq_pool farm_id amm_account;
    ensure (negb (lp_canceled liq_pool)) LmErr.LiquidityMiningCanceled ;;
    global_pool ← get_farm farm_id;
    now_period ← get_now_period (gp_blocks_per_period global_pool);
    ensure (d_updated_at deposit != now_period) LmErr.DoubleClaimInThePeriod ;;
    pools ← maybe_update_pools global_pool liq_pool now_period;
    let '(global_pool, liq_pool) := pools in
    r ← do_claim_rewards who deposit liq_pool now_period (gp_reward_currency global_pool);
    let '(reward, _, deposit) := r in
    lm_deposit_event (RewardClaimed farm_id (lp_id liq_pool) who reward
      (gp_reward_currency global_pool)) ;;
    put_farm farm_id global_pool ;;
    put_liq_pool farm_id amm_account liq_pool ;;
    modify (set_DepositData (insert nft_id deposit))).

(** The part of [withdraw_shares] for a liquidity pool that still exists: the claim,
    the stakes, and the unclaimable rewards.  Returns the deposit after the claim. *)
Definition leave_liq_pool (who : AccountId) (farm_id : GlobalPoolId) (amm_account : AccountId)
    (liq_pool : LiquidityPoolYieldFarm) (deposit : Deposit) : Dispatch State Deposit :=
  global_pool ← get_farm farm_id;
  now_period ← get_now_period (gp_blocks_per_period global_pool);
  pools ← (if negb (lp_canceled liq_pool) then maybe_update_pools global_pool liq_pool now_period
           else mret (global_pool, liq_pool));
  let '(global_pool, liq_pool) := pools in
  r ← do_claim_rewards who deposit liq_pool now_period (gp_reward_currency global_pool);
  let '(reward, unclaimable_rewards, deposit) := r in
  global_pool_account ← pool_account_id (gp_id global_pool);
  liq_pool_account ← pool_account_id (lp_id liq_pool);
  total ← ok_or (checked_sub (lp_total_shares liq_pool) (d_shares deposit)) LmErr.Overflow;
  valued ← ok_or (checked_sub (lp_total_valued_shares liq_pool) (d_valued_shares deposit))
             LmErr.Overflow;
  stakes ← (if negb (lp_canceled liq_pool) then
              x ← ok_or (calculate_global_pool_shares (d_valued_shares deposit)
                           (lp_multiplier liq_pool)) LmErr.Overflow;
              stake ← ok_or (checked_sub (lp_stake_in_global_pool liq_pool) x) LmErr.Overflow;
              z ← ok_or (checked_sub (gp_total_shares_z global_pool) x) LmErr.Overflow;
              mret (stake, z)
            else mret (lp_stake_in_global_pool liq_pool, gp_total_shares_z global_pool));
  let liq_pool := lp_set_shares total valued (fst stakes) liq_pool in
  let global_pool := gp_set_shares_z (snd stakes) global_pool in
  zoom (C := U) (Interfaces.transfer (gp_reward_currency global_pool) liq_pool_account
                   global_pool_account unclaimable_rewards) ;;
  (if negb (reward =? 0)
   then lm_deposit_event (RewardClaimed (gp_id global_pool) (lp_id liq_pool) who reward
          (gp_reward_currency global_pool))
   else mret tt) ;;
  put_farm farm_id global_pool ;;
  put_liq_pool farm_id amm_account liq_pool ;;
  mret deposit.

Definition withdraw_shares (origin : Origin) (nft_id : InstanceId) : Dispatch State unit :=
  transactional (
    who ← ensure_signed origin;
    maybe_owner ← gets (fun s => owner NftClass nft_id (lm_nft s));
    nft_owner ← ok_or maybe_owner LmErr.CantFindDepositOwner;
    ensure (nft_owner == who) LmErr.NotDepositOwner ;;
    liq_pool_id ← get_pool_id_from_nft_id nft_id;
    maybe_metadata ← gets (fun s => LiquidityPoolMetadata s !! liq_pool_id);
    metadata ← ok_or maybe_metadata LmErr.LiquidityPoolNotFound;
    let '(asset_pair, nfts_in_liq_pool, farm_id) := metadata in
    maybe_deposit ← gets (fun s => DepositData s !! nft_id);
    deposit ← ok_or maybe_deposit LmErr.NftDoesNotExist;
    let amm_account := get_pair_id asset_pair in
    maybe_liq_pool ← gets (fun s => LiquidityPoolData s !! (farm_id, amm_account));
    r ← match maybe_liq_pool with
        | Some liq_pool =>
            deposit ← leave_liq_pool who farm_id amm_account liq_pool deposit;
            mret (deposit, false)
        | None => mret (deposit, true)
        end;
    let '(deposit, can_remove_liq_pool_metadata) := r in
    known ← gets (fun s => amm_exists asset_pair (below s));
    (if known : bool then
       amm_token ← gets (fun s => get_share_token asset_pair (below s));
       let pallet_account := account_id in
       zoom (C := U) (Interfaces.transfer amm_token pallet_account who (d_shares deposit)) ;;
       lm_deposit_event (SharesWithdrawn farm_id liq_pool_id who amm_token (d_shares deposit))
     else mret tt) ;;
    zoom (C := NftState U) (do_burn who NftClass nft_id) ;;
    (if (nfts_in_liq_pool =? 1) && can_remove_liq_pool_metadata
     then modify (set_LiquidityPoolMetadata (delete liq_pool_id))
     else nfts ← ok_or (checked_sub nfts_in_liq_pool 1) LmErr.Overflow;
          modify (set_LiquidityPoolMetadata
                    (insert liq_pool_id (asset_pair, nfts, farm_id)))) ;;
    modify (set_DepositData (delete nft_id))).

(** ** Hooks and migration *)

(** [unwrap]: an error is a panic. *)
Definition unwrap {A} (m : Dispatch State A) : Dispatch State A :=
  fun s => match m s with (Err _, s') => (Panic, s') | r => r end.

Definition init_nft_class : Dispatch State unit :=
  version ← gets lm_version;
  if version =? 0 then
    let pallet_account := account_id in
    unwrap (zoom (C := NftState U) (do_create_class pallet_account NftClass LiquidityMining [])) ;;
    modify (set_lm_version 1)
  else mret tt.

Definition on_runtime_upgrade : Dispatch State unit := init_nft_class.

Definition integrity_test : bool := NftClass <=? NftReserveClassIdUpTo.
End pallet.
