(* ===== verification/LmProps.v ===== *)
(** * Correctness of the liquidity mining pallet: ids and helpers

    The deposit ids, and what each helper of the pallet does to the storage, for the
    proofs in [LmBooks.v] and [LmFunds.v]. *)

From S2P Require Import Prelude Primitives Errors Interfaces Nft LiquidityMining.

(** ** Deposit ids *)

(** The ids the code can produce: a pool id of 4 bytes and a sequence number of 12. *)
Definition valid_ids (i k : Z) : Prop := 1 <= i < 2 ^ 32 /\ 1 <= k <= MAX_NFT_INSTANCE_SEQUENCER.

Lemma max_sequencer : MAX_NFT_INSTANCE_SEQUENCER = 2 ^ 96 - 1.
Proof. done. Qed.

Lemma encode_nft_id_sum i k :
  valid_ids i k -> encode_nft_id i k = i + 2 ^ 32 * k.
Proof.
  unfold valid_ids, encode_nft_id, POOL_ID_BYTES, NFT_SEQUENCE_BYTES. rewrite max_sequencer. intros [Hi Hk].
  rewrite from_le_bytes_app, length_to_le_bytes, (take_to_le_bytes 12 4), !from_to_le_bytes.
  rewrite !Z.mod_small by lia. done.
Qed.

Lemma decode_pool_id_mod x : decode_pool_id x = x mod 2 ^ 32.
Proof. unfold decode_pool_id, POOL_ID_BYTES. by rewrite (take_to_le_bytes 4 12), from_to_le_bytes. Qed.

Lemma decode_encode i k : valid_ids i k -> decode_pool_id (encode_nft_id i k) = i.
Proof.
  intros Hv. rewrite encode_nft_id_sum, decode_pool_id_mod by done. destruct Hv.
  rewrite Z.mul_comm, Z.mod_add by lia. apply Z.mod_small. lia.
Qed.

Lemma encode_inj i k i' k' :
  valid_ids i k -> valid_ids i' k' -> encode_nft_id i k = encode_nft_id i' k' -> i = i' /\ k = k'.
Proof.
  intros Hv Hv' Heq.
  assert (i = i') as <- by (rewrite <- (decode_encode i k), <- (decode_encode i' k'); congruence).
  rewrite !encode_nft_id_sum in Heq by done. lia.
Qed.

Section lm.
Context {U : Type} `{Uniques U} `{MultiCurrency U} `{AMM U} `{BlockNumberProvider U}.
Context `{LmMath} `{PalletAccounts} {ncfg : NftConfig} {cfg : LmConfig}.
Notation State := (LmState U).
Implicit Types s : State.

(** [C34] A deposit id leads back to the pool it was made in, and different deposits have
    different ids: encoding and decoding are inverse, and the encoded id is a [u128]
    that passes the pallet's own validity check. *)
Theorem nft_id_roundtrip i k s :
  valid_ids i k ->
  in_range 128 (encode_nft_id i k) /\
  get_pool_id_from_nft_id (encode_nft_id i k) s = (Ok i, s) /\
  forall i' k', valid_ids i' k' -> encode_nft_id i' k' = encode_nft_id i k -> i' = i /\ k' = k.
Proof.
  intros Hv. split_and!.
  - rewrite encode_nft_id_sum by done. destruct Hv as [? Hk]. rewrite max_sequencer in Hk.
    unfold in_range. lia.
  - unfold get_pool_id_from_nft_id, ensure. rewrite decode_encode, encode_nft_id_sum by done.
    destruct Hv. rewrite (proj2 (Z.ltb_lt _ _)) by lia. done.
  - intros i' k' Hv' Heq. by apply encode_inj.
Qed.

(** ** What the helpers do *)

(** The pallet's storage, without the NFT pallet below, the version and the events. *)
Record Book := mkBook {
  b_pool_seq : PoolId;
  b_nft_seq : InstanceId;
  b_farms : gmap GlobalPoolId GlobalPool;
  b_pools : gmap (GlobalPoolId * AccountId) LiquidityPoolYieldFarm;
  b_deposits : gmap InstanceId Deposit;
  b_meta : gmap PoolId (AssetPair * Z * GlobalPoolId)
}.
Definition book s : Book :=
  mkBook (PoolIdSequencer s) (NftInstanceSequencer s) (GlobalPoolData s) (LiquidityPoolData s)
    (DepositData s) (LiquidityPoolMetadata s).

Lemma pool_account_id_Ok i s a s' :
  pool_account_id i s = (Ok a, s') -> s' = s /\ i <> 0 /\ a = into_sub_account i.
Proof. unfold pool_account_id, validate_pool_id. intros Hrun. minv Hrun. by zbool. Qed.

Lemma get_now_period_Ok b s n s' :
  get_now_period b s = (Ok n, s') -> s' = s /\ b <> 0 /\ n = block_number (below s) / b.
Proof. unfold get_now_period, get_period_number. intros Hrun. minv Hrun. by zbool. Qed.

Lemma get_farm_Ok f s g s' : get_farm f s = (Ok g, s') -> s' = s /\ GlobalPoolData s !! f = Some g.
Proof. unfold get_farm. intros Hrun. minv Hrun. done. Qed.

Lemma get_liq_pool_Ok f a s p s' :
  get_liq_pool f a s = (Ok p, s') -> s' = s /\ LiquidityPoolData s !! (f, a) = Some p.
Proof. unfold get_liq_pool. intros Hrun. minv Hrun. done. Qed.

Lemma get_pool_id_Ok x s i s' :
  get_pool_id_from_nft_id x s = (Ok i, s') -> s' = s /\ i = decode_pool_id x.
Proof. unfold get_pool_id_from_nft_id. intros Hrun. minv Hrun. done. Qed.

Lemma get_valued_shares_Ok x a c s v s' :
  get_valued_shares x a c s = (Ok v, s') -> s' = s /\ v = x * free_balance c a (below s).
Proof. unfold get_valued_shares. intros Hrun. minv Hrun. by zbool. Qed.

Lemma get_loyalty_multiplier_Ok n c s v s' : get_loyalty_multiplier n c s = (Ok v, s') -> s' = s.
Proof. intros Hrun. eapply reads_Ok; [|exact Hrun]. unfold get_loyalty_multiplier. solve_reads. Qed.

Lemma get_next_pool_id_Ok s i s' :
  get_next_pool_id s = (Ok i, s') ->
  i = PoolIdSequencer s + 1 /\ i < 2 ^ 32 /\ s' = set_PoolIdSequencer i s.
Proof. unfold get_next_pool_id. intros Hrun. minv Hrun. zbool. by subst. Qed.

Lemma get_next_nft_id_Ok i s x s' :
  get_next_nft_id i s = (Ok x, s') ->
  let k := NftInstanceSequencer s + 1 in
  i <> 0 /\ k <= MAX_NFT_INSTANCE_SEQUENCER /\ x = encode_nft_id i k /\
  s' = set_NftInstanceSequencer k s.
Proof. unfold get_next_nft_id, validate_pool_id. intros Hrun. minv Hrun. zbool. by subst. Qed.

#[local] Ltac minv_hook H ::=
  lazymatch type of H with
  | pool_account_id _ _ = _ => apply pool_account_id_Ok in H; destruct H as (? & ? & ?); subst
  | get_now_period _ _ = _ => apply get_now_period_Ok in H; destruct H as (? & ? & H); subst
  | get_farm _ _ = _ => apply get_farm_Ok in H; destruct H as (? & H); subst
  | get_liq_pool _ _ _ = _ => apply get_liq_pool_Ok in H; destruct H as (? & H); subst
  | get_pool_id_from_nft_id _ _ = _ => apply get_pool_id_Ok in H; destruct H as (? & H); subst
  | get_valued_shares _ _ _ _ = _ => apply get_valued_shares_Ok in H; destruct H as (? & H); subst
  | get_loyalty_multiplier _ _ _ = _ => apply get_loyalty_multiplier_Ok in H; subst
  end.

(** The farm accrues the reward of the periods since its last update, at most what its
    account holds; nothing else changes. *)
Definition accrued (g : GlobalPool) (now : PeriodOf) (u : U) (g' : GlobalPool) : Prop :=
  exists rpp reward rpz,
    reward = Z.min ((now - gp_updated_at g) * rpp)
               (free_balance (gp_reward_currency g) (into_sub_account (gp_id g)) u) /\
    (if reward =? 0 then rpz = gp_accumulated_rpz g
     else calculate_accumulated_rps (gp_accumulated_rpz g) (gp_total_shares_z g) reward = Some rpz) /\
    gp_total_shares_z g <> 0 /\ gp_updated_at g <= now /\
    g' = gp_set_rewards now rpz (gp_accumulated_rewards g + reward)
           (gp_paid_accumulated_rewards g) g.

Lemma update_global_pool_Ok g now rpp s g' s' :
  update_global_pool g now rpp s = (Ok g', s') ->
  book s' = book s /\ lm_nft s' = lm_nft s /\ (g' = g \/ accrued g now (below s) g').
Proof.
  unfold update_global_pool, lm_deposit_event. intros Hrun.
  destruct (gp_updated_at g =? now); [minv Hrun; auto|].
  destruct (gp_total_shares_z g =? 0) eqn:Hz; [minv Hrun; auto|].
  minv Hrun; zbool; subst; (split; [done|]); (split; [done|]); right; exists rpp; do 2 eexists;
    (split; [reflexivity|]); rewrite ?Hif.
  - rewrite (proj2 (Z.eqb_neq _ _)) by done. split_and!; done.
  - simpl. rewrite Z.add_0_r. split_and!; done.
Qed.

Lemma accrue_Ok g now s g' s' :
  accrue g now s = (Ok g', s') ->
  book s' = book s /\ lm_nft s' = lm_nft s /\ (g' = g \/ accrued g now (below s) g').
Proof.
  unfold accrue. intros Hrun. minv Hrun; [|auto].
  by eapply update_global_pool_Ok.
Qed.

(** [s'] is [s] with the chain below at [u] and more events. *)
Definition only_below (u : U) s s' : Prop :=
  book s' = book s /\ lm_nft s' = set_uniques u (lm_nft s).

Lemma only_below_refl s : only_below (below s) s s.
Proof. split; [done|]. unfold below, set_uniques. by destruct (lm_nft s). Qed.

Lemma set_uniques_twice (u v : U) (n : NftState U) : set_uniques u (set_uniques v n) = set_uniques u n.
Proof. done. Qed.

(** What the pool claims from the farm. *)
Definition pool_reward (g : GlobalPool) (p : LiquidityPoolYieldFarm) : Balance :=
  (gp_accumulated_rpz g - lp_accumulated_rpz p) * lp_stake_in_global_pool p.

(** A pool that is brought up to date: the farm accrues, the reward of the pool is
    moved from "accumulated" to "paid" in the books of the farm and, when the pool has
    valued shares, from the account of the farm to the account of the pool. *)
Definition pools_updated (g : GlobalPool) (p : LiquidityPoolYieldFarm) (now : PeriodOf) (u : U)
    (g' : GlobalPool) (p' : LiquidityPoolYieldFarm) (u' : U) : Prop :=
  lp_canceled p = false /\ lp_total_shares p <> 0 /\ lp_updated_at p <> now /\
  exists g1, (g1 = g \/ accrued g now u g1) /\
    lp_accumulated_rpz p <= gp_accumulated_rpz g1 /\
    pool_reward g1 p <= gp_accumulated_rewards g1 /\
    g' = gp_set_rewards (gp_updated_at g1) (gp_accumulated_rpz g1)
           (gp_accumulated_rewards g1 - pool_reward g1 p)
           (gp_paid_accumulated_rewards g1 + pool_reward g1 p) g1 /\
    (if lp_total_valued_shares p =? 0
     then p' = lp_set_rewards (lp_updated_at p) (lp_accumulated_rpvs p) (gp_accumulated_rpz g1) p /\
          u' = u
     else exists rpvs,
       calculate_accumulated_rps (lp_accumulated_rpvs p) (lp_total_valued_shares p)
         (pool_reward g1 p) = Some rpvs /\
       p' = lp_set_rewards now rpvs (gp_accumulated_rpz g1) p /\
       Interfaces.transfer (gp_reward_currency g) (into_sub_account (gp_id g))
         (into_sub_account (lp_id p)) (pool_reward g1 p) u = (Ok tt, u')).

Lemma claim_from_global_pool_Ok g p s r g' p' s' :
  claim_from_global_pool g p (lp_stake_in_global_pool p) s = (Ok (r, g', p'), s') ->
  s' = s /\ lp_accumulated_rpz p <= gp_accumulated_rpz g /\ r = pool_reward g p /\
  r <= gp_accumulated_rewards g /\
  g' = gp_set_rewards (gp_updated_at g) (gp_accumulated_rpz g) (gp_accumulated_rewards g - r)
         (gp_paid_accumulated_rewards g + r) g /\
  p' = lp_set_rewards (lp_updated_at p) (lp_accumulated_rpvs p) (gp_accumulated_rpz g) p.
Proof.
  unfold claim_from_global_pool. intros Hrun. minv Hrun. zbool. subst.
  match goal with He : (_, _, _) = (_, _, _) |- _ => injection He as -> -> -> end.
  by split_and!.
Qed.

Lemma update_liq_pool_Ok p r now f c s p' s' :
  lp_updated_at p <> now -> update_liq_pool p r now f c s = (Ok p', s') ->
  if lp_total_valued_shares p =? 0 then p' = p /\ s' = s else
  only_below (below s') s s' /\
  exists rpvs,
    calculate_accumulated_rps (lp_accumulated_rpvs p) (lp_total_valued_shares p) r = Some rpvs /\
    p' = lp_set_rewards now rpvs (lp_accumulated_rpz p) p /\
    Interfaces.transfer c (into_sub_account f) (into_sub_account (lp_id p)) r (below s) =
      (Ok tt, below s').
Proof.
  unfold update_liq_pool, lm_deposit_event. intros Hne Hrun.
  rewrite (proj2 (Z.eqb_neq _ _) Hne) in Hrun.
  destruct (lp_total_valued_shares p =? 0); [by minv Hrun|].
  minv Hrun. split; [done|]. eexists. by split_and!.
Qed.

Lemma maybe_update_pools_Ok g p now s g' p' s' :
  maybe_update_pools g p now s = (Ok (g', p'), s') ->
  only_below (below s') s s' /\
  ((g', p', below s') = (g, p, below s) \/ pools_updated g p now (below s) g' p' (below s')).
Proof.
  unfold maybe_update_pools. intros Hrun.
  destruct (lp_canceled p) eqn:Hc;
    [minv Hrun; match goal with He : (_, _) = (_, _) |- _ => injection He as -> -> end;
     split; [apply only_below_refl|by left]|].
  destruct (negb _ && negb _) eqn:Hg;
    [|minv Hrun; match goal with He : (_, _) = (_, _) |- _ => injection He as -> -> end;
     split; [apply only_below_refl|by left]]. zbool.
  apply bind_Ok in Hrun as (g1 & s1 & Hacc & Hrun). apply accrue_Ok in Hacc as (Hb1 & Hn1 & Hg1).
  apply bind_Ok in Hrun as ([[r g2] p2] & s2 & Hcl & Hrun).
  apply claim_from_global_pool_Ok in Hcl as (-> & Hle & -> & Hr & -> & ->).
  apply bind_Ok in Hrun as (p3 & s3 & Hup & Hrun). minv Hrun.
  match goal with He : (_, _) = (_, _) |- _ => injection He as -> -> end.
  apply update_liq_pool_Ok in Hup; [|done]. simpl in Hup.
  assert (Hu : below s1 = below s) by (unfold below; by rewrite Hn1).
  assert (Hid : gp_id g1 = gp_id g /\ gp_reward_currency g1 = gp_reward_currency g).
  { destruct Hg1 as [->|(? & ? & ? & ? & ? & ? & ? & ->)]; done. }
  destruct Hid as [Hid Hcur]. rewrite Hid, Hcur, Hu in Hup. unfold pools_updated.
  destruct (lp_total_valued_shares p =? 0).
  - destruct Hup as [-> ->]. split; [split; [done|]|].
    + rewrite Hn1. unfold below, set_uniques. rewrite Hn1. by destruct (lm_nft s).
    + right. split_and!; try done. exists g1. by split_and!.
  - destruct Hup as ([Hb3 Hn3] & rpvs & Hrps & -> & Htr). split; [split; [congruence|]|].
    + rewrite Hn3, Hn1. done.
    + right. split_and!; try done. exists g1. split_and!; try done. by exists rpvs.
Qed.

Lemma do_claim_rewards_Ok w d p now c s r x d' s' :
  do_claim_rewards w d p now c s = (Ok (r, x, d'), s') ->
  d_entered_at d <= now /\
  if d_updated_at d =? now then r = 0 /\ x = 0 /\ d' = d /\ s' = s else
  only_below (below s') s s' /\ lp_id p <> 0 /\
  Interfaces.transfer c (into_sub_account (lp_id p)) w r (below s) = (Ok tt, below s') /\
  d' = d_set_claimed (d_accumulated_claimed_rewards d + r) now d.
Proof.
  unfold do_claim_rewards. intros Hrun. apply bind_Ok in Hrun as (n & s1 & Hs & Hrun). minv Hs. zbool. subst.
  split; [done|]. destruct (d_updated_at d =? now).
  - minv Hrun. match goal with He : (_, _, _) = (_, _, _) |- _ => injection He as -> -> -> end. done.
  - minv Hrun. zbool. subst.
    match goal with He : (_, _, _) = (_, _, _) |- _ => injection He as -> -> -> end. done.
Qed.
End lm.

(** The inversion steps of the helpers, for the files on top. *)
Ltac lm_hook H :=
  lazymatch type of H with
  | pool_account_id _ _ = _ => apply pool_account_id_Ok in H; destruct H as (? & ? & ?); subst
  | get_now_period _ _ = _ => apply get_now_period_Ok in H; destruct H as (? & ? & H); subst
  | get_farm _ _ = _ => apply get_farm_Ok in H; destruct H as (? & H); subst
  | get_liq_pool _ _ _ = _ => apply get_liq_pool_Ok in H; destruct H as (? & H); subst
  | get_pool_id_from_nft_id _ _ = _ => apply get_pool_id_Ok in H; destruct H as (? & H); subst
  | get_valued_shares _ _ _ _ = _ => apply get_valued_shares_Ok in H; destruct H as (? & H); subst
  | get_loyalty_multiplier _ _ _ = _ => apply get_loyalty_multiplier_Ok in H; subst
  end.

(** One step of a run at a time: naming its parts, or inverting it. *)
Ltac mstep H x s1 Hx := apply bind_Ok in H as (x & s1 & Hx & H).
Ltac mguard H := let x := fresh "v" in let s1 := fresh "st" in let Hx := fresh "Hg" in
  mstep H x s1 Hx; minv Hx; origin_inv.

(** Rewrite the storage of the later state with that of the earlier one. *)
Ltac use_book Hb :=
  let H1 := fresh in let E1 := fresh in let E2 := fresh in let E3 := fresh in
  let E4 := fresh in let E5 := fresh in let E6 := fresh in
  pose proof Hb as H1; unfold book in H1; injection H1 as E1 E2 E3 E4 E5 E6;
  rewrite ?E1, ?E2, ?E3, ?E4, ?E5, ?E6.
