(* ===== verification/LmBooks.v ===== *)
(** * The books of the liquidity mining pallet

    What the six storage maps of the pallet say about each other, and that every
    extrinsic keeps it: the farm's total stake is the sum of the stakes of its pools,
    its counter counts them, every deposit has the metadata of its pool, and the
    metadata counts the deposits. *)

From S2P Require Import Prelude Primitives Errors Interfaces Nft LiquidityMining LmProps.

Section books.
Context {U : Type} `{Uniques U} `{MultiCurrency U} `{AMM U} `{BlockNumberProvider U}.
Context `{LmMath} `{PalletAccounts} {ncfg : NftConfig} {cfg : LmConfig}.
Notation State := (LmState U).
Implicit Types (s : State) (b : Book).

(** A quantity of the pools of one farm, and of the deposits of one pool. *)
Definition in_farm (f : GlobalPoolId) (v : LiquidityPoolYieldFarm -> Z)
    (k : GlobalPoolId * AccountId) (p : LiquidityPoolYieldFarm) : Z :=
  if decide (fst k = f) then v p else 0.
Definition of_pool (i : PoolId) (v : Deposit -> Z) (x : InstanceId) (d : Deposit) : Z :=
  if decide (decode_pool_id x = i) then v d else 0.
Definition one {A} (_ : A) : Z := 1.

Record lm_ok b : Prop := mkLmOk {
  lo_seq : 0 <= b_pool_seq b < 2 ^ 32 /\ 0 <= b_nft_seq b <= MAX_NFT_INSTANCE_SEQUENCER;
  lo_farm f g : b_farms b !! f = Some g ->
    gp_id g = f /\ 1 <= f <= b_pool_seq b /\
    gp_total_shares_z g = map_sum (in_farm f lp_stake_in_global_pool) (b_pools b) /\
    gp_liq_pools_count g = map_sum (in_farm f one) (b_pools b);
  lo_pool f a p : b_pools b !! (f, a) = Some p ->
    is_Some (b_farms b !! f) /\
    (exists pr n, b_meta b !! lp_id p = Some (pr, n, f) /\ get_pair_id pr = a) /\
    (lp_canceled p = true -> lp_stake_in_global_pool p = 0);
  lo_meta i pr n f : b_meta b !! i = Some (pr, n, f) ->
    1 <= i <= b_pool_seq b /\ n = map_sum (of_pool i one) (b_deposits b);
  lo_deposit x d : b_deposits b !! x = Some d ->
    exists i k, x = encode_nft_id i k /\ valid_ids i k /\ k <= b_nft_seq b /\
      is_Some (b_meta b !! i)
}.

(** ** Sums over one farm and over one pool *)

Lemma in_farm_at f v m a p :
  m !! (f, a) = Some p -> sum_at (in_farm f v) m (f, a) = v p.
Proof. intros Hp. unfold sum_at, in_farm. rewrite Hp. by rewrite decide_True. Qed.
Lemma in_farm_other f v k p : fst k <> f -> in_farm f v k p = 0.
Proof. intros. unfold in_farm. by rewrite decide_False. Qed.
Lemma sum_at_other f v m k : fst k <> f -> sum_at (in_farm f v) m k = 0.
Proof. intros. unfold sum_at. case_match; [by apply in_farm_other|done]. Qed.
Lemma of_pool_other i v x d : decode_pool_id x <> i -> of_pool i v x d = 0.
Proof. intros. unfold of_pool. by rewrite decide_False. Qed.
Lemma of_pool_here i v x d : decode_pool_id x = i -> of_pool i v x d = v d.
Proof. intros. unfold of_pool. by rewrite decide_True. Qed.

(** Replacing or deleting an entry moves the sum of its own farm only. *)
Lemma sum_put f v m f' a p :
  map_sum (in_farm f v) (<[(f', a) := p]> m) =
  map_sum (in_farm f v) m +
    (if decide (f' = f) then v p - sum_at (in_farm f v) m (f, a) else 0).
Proof.
  rewrite map_sum_insert. case_decide as Hf; subst.
  - unfold in_farm at 3. rewrite decide_True by done. lia.
  - rewrite sum_at_other, in_farm_other by done. lia.
Qed.
Lemma sum_drop f v m f' a :
  map_sum (in_farm f v) (delete (f', a) m) =
  map_sum (in_farm f v) m - (if decide (f' = f) then sum_at (in_farm f v) m (f, a) else 0).
Proof.
  rewrite map_sum_delete. case_decide as Hf; subst; [done|]. by rewrite sum_at_other.
Qed.
Lemma sum_none f v m : (forall a p, m !! (f, a) = Some p -> False) -> map_sum (in_farm f v) m = 0.
Proof.
  intros Hn. apply map_sum_0. intros [f' a] p Hp. unfold in_farm. case_decide as Hf; [|done].
  simpl in Hf. subst. by destruct (Hn a p).
Qed.
Lemma count_zero f m a p : map_sum (in_farm f one) m = 0 -> m !! (f, a) = Some p -> False.
Proof.
  intros Hz Hp. assert (Hge : in_farm f one (f, a) p <= map_sum (in_farm f one) m).
  { apply map_sum_ge; [|done]. intros. unfold in_farm, one. case_decide; lia. }
  rewrite Hz in Hge. unfold in_farm, one in Hge. rewrite decide_True in Hge by done. lia.
Qed.
Lemma deposits_zero i m x d :
  map_sum (of_pool i one) m = 0 -> m !! x = Some d -> decode_pool_id x <> i.
Proof.
  intros Hz Hx Hi. assert (Hge : of_pool i one x d <= map_sum (of_pool i one) m).
  { apply map_sum_ge; [|done]. intros. unfold of_pool, one. case_decide; lia. }
  rewrite Hz, of_pool_here in Hge by done. unfold one in Hge. lia.
Qed.
Lemma deposits_none i v m :
  (forall x d, m !! x = Some d -> decode_pool_id x <> i) -> map_sum (of_pool i v) m = 0.
Proof. intros Hn. apply map_sum_0. intros x d Hx. apply of_pool_other. eauto. Qed.

(** ** The changes of the books *)

(** A farm and one of its pools are written back together. *)
Definition bk_put (f : GlobalPoolId) (a : AccountId) (g : GlobalPool) (p : LiquidityPoolYieldFarm) b
    : Book :=
  mkBook (b_pool_seq b) (b_nft_seq b) (<[f := g]> (b_farms b)) (<[(f, a) := p]> (b_pools b))
    (b_deposits b) (b_meta b).
Definition bk_farm (i : PoolId) (f : GlobalPoolId) (g : GlobalPool) b : Book :=
  mkBook i (b_nft_seq b) (<[f := g]> (b_farms b)) (b_pools b) (b_deposits b) (b_meta b).
Definition bk_drop_farm (f : GlobalPoolId) b : Book :=
  mkBook (b_pool_seq b) (b_nft_seq b) (delete f (b_farms b)) (b_pools b) (b_deposits b) (b_meta b).
Definition bk_add (f : GlobalPoolId) (a : AccountId) (g : GlobalPool) (p : LiquidityPoolYieldFarm)
    (pr : AssetPair) b : Book :=
  mkBook (lp_id p) (b_nft_seq b) (<[f := g]> (b_farms b)) (<[(f, a) := p]> (b_pools b))
    (b_deposits b) (<[lp_id p := (pr, 0, f)]> (b_meta b)).
Definition bk_remove (f : GlobalPoolId) (a : AccountId) (g : GlobalPool) (i : PoolId) b : Book :=
  mkBook (b_pool_seq b) (b_nft_seq b) (<[f := g]> (b_farms b)) (delete (f, a) (b_pools b))
    (b_deposits b)
    (match b_meta b !! i with
     | Some (_, n, _) => if n =? 0 then delete i (b_meta b) else b_meta b
     | None => b_meta b
     end).
Definition bk_deposit (i : PoolId) (d : Deposit) (m : AssetPair * Z * GlobalPoolId) b : Book :=
  mkBook (b_pool_seq b) (b_nft_seq b + 1) (b_farms b) (b_pools b)
    (<[encode_nft_id i (b_nft_seq b + 1) := d]> (b_deposits b)) (<[i := m]> (b_meta b)).
Definition bk_redeposit (x : InstanceId) (d : Deposit) b : Book :=
  mkBook (b_pool_seq b) (b_nft_seq b) (b_farms b) (b_pools b) (<[x := d]> (b_deposits b)) (b_meta b).
Definition bk_withdraw (x : InstanceId) (i : PoolId) (m : option (AssetPair * Z * GlobalPoolId)) b
    : Book :=
  mkBook (b_pool_seq b) (b_nft_seq b) (b_farms b) (b_pools b) (delete x (b_deposits b))
    (match m with Some m => <[i := m]> (b_meta b) | None => delete i (b_meta b) end).

(** The farm [g'] is [g] with its stake moved by [dz] and its counter by [dn]. *)
Definition farm_moved (dz dn : Z) (g g' : GlobalPool) : Prop :=
  gp_id g' = gp_id g /\ gp_total_shares_z g' = gp_total_shares_z g + dz /\
  gp_liq_pools_count g' = gp_liq_pools_count g + dn.

Lemma lm_ok_put f a g g' p p' b :
  lm_ok b -> b_farms b !! f = Some g -> b_pools b !! (f, a) = Some p ->
  farm_moved (lp_stake_in_global_pool p' - lp_stake_in_global_pool p) 0 g g' ->
  lp_id p' = lp_id p -> (lp_canceled p' = true -> lp_stake_in_global_pool p' = 0) ->
  lm_ok (bk_put f a g' p' b).
Proof.
  intros [K1 K2 K3 K4 K5] Hg Hp (Hi & Hz & Hn) Hid Hc. split; simpl; auto.
  - intros f' g0 [[<- <-]|[Hne Hg0]]%lookup_insert_Some.
    + destruct (K2 _ _ Hg) as (E1 & E2 & E3 & E4).
      rewrite !sum_put, !decide_True, !(in_farm_at _ _ _ _ _ Hp) by done. unfold one in *.
      split_and!; lia.
    + destruct (K2 _ _ Hg0) as (E1 & E2 & E3 & E4).
      rewrite !sum_put, !decide_False by done. split_and!; lia.
  - intros f' a' p0 Hp0. rewrite lookup_insert_is_Some'.
    apply lookup_insert_Some in Hp0 as [[[= <- <-] <-]|[Hne Hp0]].
    + rewrite Hid. destruct (K3 _ _ _ Hp) as (E1 & E2 & E3). eauto.
    + destruct (K3 _ _ _ Hp0) as (E1 & E2 & E3). eauto.
Qed.

Lemma lm_ok_create g b :
  lm_ok b -> gp_id g = b_pool_seq b + 1 -> b_pool_seq b + 1 < 2 ^ 32 ->
  gp_total_shares_z g = 0 -> gp_liq_pools_count g = 0 ->
  lm_ok (bk_farm (b_pool_seq b + 1) (b_pool_seq b + 1) g b).
Proof.
  intros [K1 K2 K3 K4 K5] Hi Hseq Hz Hn.
  assert (Hfresh : forall a p, b_pools b !! (b_pool_seq b + 1, a) = Some p -> False).
  { intros a p Hp. destruct (K3 _ _ _ Hp) as ([g0 Hg0] & _). destruct (K2 _ _ Hg0). lia. }
  split; simpl; auto; [lia|..].
  - intros f' g0 [[<- <-]|[Hne Hg0]]%lookup_insert_Some.
    + rewrite !sum_none by done. split_and!; lia.
    + destruct (K2 _ _ Hg0) as (E1 & E2 & E3 & E4). split_and!; lia.
  - intros f' a' p0 Hp0. rewrite lookup_insert_is_Some'.
    destruct (K3 _ _ _ Hp0) as (E1 & E2 & E3). eauto.
  - intros i pr n f Hm. destruct (K4 _ _ _ _ Hm). split; [lia|done].
Qed.

Lemma lm_ok_destroy f g b :
  lm_ok b -> b_farms b !! f = Some g -> gp_liq_pools_count g = 0 -> lm_ok (bk_drop_farm f b).
Proof.
  intros [K1 K2 K3 K4 K5] Hg Hn. split; simpl; auto.
  - intros f' g' [_ Hg']%lookup_delete_Some. eauto.
  - intros f' a' p Hp. destruct (K3 _ _ _ Hp) as (E1 & E2 & E3). split; [|done].
    rewrite lookup_delete_ne; [done|]. intros <-.
    destruct (K2 _ _ Hg) as (_ & _ & _ & E4). rewrite Hn in E4. by eapply count_zero.
Qed.

Lemma lm_ok_add f a g g' p pr b :
  lm_ok b -> b_farms b !! f = Some g -> b_pools b !! (f, a) = None -> get_pair_id pr = a ->
  farm_moved 0 1 g g' -> lp_id p = b_pool_seq b + 1 -> b_pool_seq b + 1 < 2 ^ 32 ->
  lp_stake_in_global_pool p = 0 -> lm_ok (bk_add f a g' p pr b).
Proof.
  intros [K1 K2 K3 K4 K5] Hg Hp Ha (Hi & Hz & Hn) Hid Hseq Hst.
  assert (Hnew : forall i m, b_meta b !! i = Some m -> i <> lp_id p).
  { intros i [[pr' n] f'] Hm. destruct (K4 _ _ _ _ Hm). lia. }
  split; simpl; [lia|..].
  - intros f' g0 [[<- <-]|[Hne Hg0]]%lookup_insert_Some.
    + destruct (K2 _ _ Hg) as (E1 & E2 & E3 & E4).
      rewrite !sum_put, !decide_True by done. unfold sum_at. rewrite Hp. unfold one in *.
      split_and!; lia.
    + destruct (K2 _ _ Hg0) as (E1 & E2 & E3 & E4).
      rewrite !sum_put, !decide_False by done. split_and!; lia.
  - intros f' a' p0 Hp0. rewrite lookup_insert_is_Some'.
    apply lookup_insert_Some in Hp0 as [[[= <- <-] <-]|[Hne Hp0]].
    + split_and!; [by left| |done]. exists pr, 0. by rewrite lookup_insert_eq.
    + destruct (K3 _ _ _ Hp0) as (E1 & (pr0 & n0 & Hm & E2) & E3). split_and!; eauto.
      exists pr0, n0. rewrite lookup_insert_ne; [done|]. intros Heq. by apply (Hnew _ _ Hm).
  - intros i pr0 n f0 [[<- [= <- <- <-]]|[Hne Hm]]%lookup_insert_Some.
    + split; [lia|]. symmetry. apply deposits_none. intros x d Hx.
      destruct (K5 _ _ Hx) as (i & k & -> & Hv & _ & [m Hm]). rewrite decode_encode by done.
      by apply (Hnew _ m).
    + destruct (K4 _ _ _ _ Hm). split; [lia|done].
  - intros x d Hx. destruct (K5 _ _ Hx) as (i & k & E1 & E2 & E3 & E4). exists i, k.
    split_and!; try done. rewrite lookup_insert_is_Some'. by right.
Qed.

Lemma lm_ok_remove f a g g' p b :
  lm_ok b -> b_farms b !! f = Some g -> b_pools b !! (f, a) = Some p ->
  lp_canceled p = true -> farm_moved 0 (-1) g g' -> lm_ok (bk_remove f a g' (lp_id p) b).
Proof.
  intros [K1 K2 K3 K4 K5] Hg Hp Hc (Hi & Hz & Hn).
  destruct (K3 _ _ _ Hp) as (_ & (pr & n & Hm & Hpr) & Hst). specialize (Hst Hc).
  split; simpl; rewrite ?Hm; auto.
  - intros f' g0 [[<- <-]|[Hne Hg0]]%lookup_insert_Some.
    + destruct (K2 _ _ Hg) as (E1 & E2 & E3 & E4).
      rewrite !sum_drop, !decide_True, !(in_farm_at _ _ _ _ _ Hp) by done. unfold one in *.
      split_and!; lia.
    + destruct (K2 _ _ Hg0) as (E1 & E2 & E3 & E4).
      rewrite !sum_drop, !decide_False by done. split_and!; lia.
  - intros f' a' p0 [Hne Hp0]%lookup_delete_Some. rewrite lookup_insert_is_Some'.
    destruct (K3 _ _ _ Hp0) as (E1 & (pr0 & n0 & Hm0 & E2) & E3). split_and!; eauto.
    exists pr0, n0. split; [|done]. case_match; [|done].
    rewrite lookup_delete_ne; [done|]. intros Heq. rewrite Heq in Hm. apply Hne. congruence.
  - intros i pr0 n0 f0 Hm0. apply (K4 _ pr0 n0 f0). case_match; [|done].
    by apply lookup_delete_Some in Hm0 as [_ ?].
  - intros x d Hx. destruct (K5 _ _ Hx) as (i & k & E1 & E2 & E3 & E4). exists i, k.
    split_and!; try done. case_match eqn:Hn0; [|done]. zbool. subst n.
    rewrite lookup_delete_ne; [done|]. intros <-. destruct (K4 _ _ _ _ Hm) as [_ E5].
    apply (deposits_zero _ _ _ _ (eq_sym E5) Hx). subst x. by apply decode_encode.
Qed.

Lemma lm_ok_deposit i d pr n f b :
  lm_ok b -> b_meta b !! i = Some (pr, n, f) -> b_nft_seq b + 1 <= MAX_NFT_INSTANCE_SEQUENCER ->
  lm_ok (bk_deposit i d (pr, n + 1, f) b).
Proof.
  intros [K1 K2 K3 K4 K5] Hm Hk. pose proof (K4 _ _ _ _ Hm) as [Hi Hn].
  assert (Hv : valid_ids i (b_nft_seq b + 1)) by (unfold valid_ids; lia).
  assert (Hfresh : b_deposits b !! encode_nft_id i (b_nft_seq b + 1) = None).
  { apply eq_None_not_Some. intros [d0 Hd0]. destruct (K5 _ _ Hd0) as (i' & k' & E & Hv' & Hle & _).
    destruct (encode_inj _ _ _ _ Hv Hv' E). lia. }
  split; simpl; auto; [lia|..].
  - intros f' a' p Hp. destruct (K3 _ _ _ Hp) as (E1 & (pr0 & n0 & Hm0 & E2) & E3).
    split_and!; auto. destruct (decide (i = lp_id p)) as [->|Hne].
    + exists pr, (n + 1). rewrite lookup_insert_eq. split; congruence.
    + exists pr0, n0. by rewrite lookup_insert_ne.
  - intros j pr0 n0 f0 [[<- [= <- <- <-]]|[Hne Hm0]]%lookup_insert_Some.
    + split; [done|]. rewrite map_sum_insert_None, of_pool_here by (done || by apply decode_encode).
      unfold one at 1. lia.
    + destruct (K4 _ _ _ _ Hm0) as [E1 E2]. split; [done|].
      rewrite map_sum_insert_None, of_pool_other by (done || by rewrite decode_encode). done.
  - intros x d0 [[<- <-]|[Hne Hx]]%lookup_insert_Some.
    + exists i, (b_nft_seq b + 1). split_and!; try done; by rewrite lookup_insert_eq.
    + destruct (K5 _ _ Hx) as (j & k & E1 & E2 & E3 & E4). exists j, k.
      split_and!; try done; [lia|]. rewrite lookup_insert_is_Some'. by right.
Qed.

Lemma lm_ok_redeposit x d d' b :
  lm_ok b -> b_deposits b !! x = Some d -> lm_ok (bk_redeposit x d' b).
Proof.
  intros [K1 K2 K3 K4 K5] Hx. split; simpl; auto.
  - intros i pr n f Hm. destruct (K4 _ _ _ _ Hm) as [E1 E2]. split; [done|].
    rewrite map_sum_insert. unfold sum_at, of_pool, one in *. rewrite Hx. case_decide; lia.
  - intros y e [[<- <-]|[_ Hy]]%lookup_insert_Some; eauto.
Qed.

Lemma lm_ok_withdraw x d i pr n f m b :
  lm_ok b -> b_deposits b !! x = Some d -> decode_pool_id x = i -> b_meta b !! i = Some (pr, n, f) ->
  (m = Some (pr, n - 1, f) \/ m = None /\ n = 1 /\ b_pools b !! (f, get_pair_id pr) = None) ->
  lm_ok (bk_withdraw x i m b).
Proof.
  intros [K1 K2 K3 K4 K5] Hx Hi Hm Hcase. pose proof (K4 _ _ _ _ Hm) as [Hir Hn].
  assert (Hsum : forall j v, map_sum (of_pool j v) (delete x (b_deposits b)) =
    map_sum (of_pool j v) (b_deposits b) - (if decide (j = i) then v d else 0)).
  { intros j v. rewrite map_sum_delete. unfold sum_at, of_pool. rewrite Hx.
    repeat case_decide; congruence. }
  split; simpl; auto.
  - intros f' a' p Hp. destruct (K3 _ _ _ Hp) as (E1 & (pr0 & n0 & Hm0 & E2) & E3).
    split_and!; auto. destruct (decide (i = lp_id p)) as [Heq|Hne].
    + destruct Hcase as [->|(-> & -> & Hnone)].
      * exists pr, (n - 1). rewrite Heq, lookup_insert_eq. rewrite Heq in Hm. split; congruence.
      * exfalso. rewrite Heq in Hm. rewrite Hm in Hm0. congruence.
    + exists pr0, n0. destruct Hcase as [->|(-> & _)]; [by rewrite lookup_insert_ne|].
      by rewrite lookup_delete_ne.
  - intros j pr0 n0 f0 Hm0. rewrite Hsum. unfold one.
    destruct Hcase as [->|(-> & -> & _)].
    + apply lookup_insert_Some in Hm0 as [[<- [= <- <- <-]]|[Hne Hm0]].
      * rewrite decide_True by done. unfold one in Hn. split; [done|lia].
      * rewrite decide_False by done. destruct (K4 _ _ _ _ Hm0) as [? E2]. unfold one in E2. split; [done|lia].
    + apply lookup_delete_Some in Hm0 as [Hne Hm0].
      rewrite decide_False by done. destruct (K4 _ _ _ _ Hm0) as [? E2]. unfold one in E2. split; [done|lia].
  - intros y e [Hne Hy]%lookup_delete_Some. destruct (K5 _ _ Hy) as (j & k & E1 & E2 & E3 & E4).
    exists j, k. split_and!; try done.
    destruct Hcase as [->|(-> & -> & _)]; [rewrite lookup_insert_is_Some'; by right|].
    rewrite lookup_delete_ne; [done|]. intros Heq.
    assert (Hz : map_sum (of_pool i one) (delete x (b_deposits b)) = 0).
    { rewrite Hsum, <- Hn, decide_True by done. done. }
    assert (Hy' : delete x (b_deposits b) !! y = Some e) by (by rewrite lookup_delete_ne).
    apply (deposits_zero i _ y e Hz Hy'). subst y. rewrite decode_encode by done. done.
Qed.

(** ** The extrinsics, on the books *)

#[local] Ltac minv_hook H ::= lm_hook H.

(** Everything but the reward fields agrees. *)
Definition same_pool (p p' : LiquidityPoolYieldFarm) : Prop :=
  lp_id p' = lp_id p /\ lp_total_shares p' = lp_total_shares p /\
  lp_total_valued_shares p' = lp_total_valued_shares p /\
  lp_stake_in_global_pool p' = lp_stake_in_global_pool p /\
  lp_multiplier p' = lp_multiplier p /\ lp_canceled p' = lp_canceled p.
Definition same_farm (g g' : GlobalPool) : Prop :=
  farm_moved 0 0 g g' /\ gp_owner g' = gp_owner g /\ gp_reward_currency g' = gp_reward_currency g /\
  gp_incentivized_asset g' = gp_incentivized_asset g /\
  gp_blocks_per_period g' = gp_blocks_per_period g.

Lemma same_farm_refl g : same_farm g g.
Proof. unfold same_farm, farm_moved. rewrite !Z.add_0_r. done. Qed.
Lemma same_pool_refl p : same_pool p p.
Proof. done. Qed.

Lemma accrued_same g now u g' : g' = g \/ accrued g now u g' -> same_farm g g'.
Proof.
  unfold same_farm, farm_moved. rewrite !Z.add_0_r.
  intros [->|(? & ? & ? & ? & ? & ? & ? & ->)]; done.
Qed.

Lemma accrue_book g now s g' s' :
  accrue g now s = (Ok g', s') -> book s' = book s /\ lm_nft s' = lm_nft s /\ same_farm g g'.
Proof. intros (? & ? & ?)%accrue_Ok. eauto using accrued_same. Qed.

Lemma maybe_update_book g p now s g' p' s' :
  maybe_update_pools g p now s = (Ok (g', p'), s') ->
  book s' = book s /\ same_farm g g' /\ same_pool p p'.
Proof.
  intros ([Hb _] & [[= -> -> _]|Hu])%maybe_update_pools_Ok;
    [auto using same_farm_refl, same_pool_refl|].
  destruct Hu as (_ & _ & _ & g1 & Hg1%accrued_same & _ & _ & -> & Hp). split_and!; try done.
  case_match; [by destruct Hp as [-> _]|by destruct Hp as (? & _ & -> & _)].
Qed.

Lemma do_claim_book w d p now c s r x d' s' :
  do_claim_rewards w d p now c s = (Ok (r, x, d'), s') ->
  book s' = book s /\ d_shares d' = d_shares d /\ d_valued_shares d' = d_valued_shares d.
Proof.
  intros [_ Hd]%do_claim_rewards_Ok. case_match.
  - by destruct Hd as (_ & _ & -> & ->).
  - by destruct Hd as ([? _] & _ & _ & ->).
Qed.

(** Farm, pool and account of a call on an existing pool. *)
Definition on_pool (f : GlobalPoolId) (pr : AssetPair) s (g : GlobalPool)
    (p : LiquidityPoolYieldFarm) : Prop :=
  GlobalPoolData s !! f = Some g /\ LiquidityPoolData s !! (f, get_pair_id pr) = Some p.

Lemma create_farm_book o tr pl bl ia rc w y s u s' :
  create_farm o tr pl bl ia rc w y s = (Ok u, s') ->
  exists g, gp_id g = PoolIdSequencer s + 1 /\ PoolIdSequencer s + 1 < 2 ^ 32 /\
    gp_total_shares_z g = 0 /\ gp_liq_pools_count g = 0 /\
    book s' = bk_farm (PoolIdSequencer s + 1) (PoolIdSequencer s + 1) g (book s).
Proof.
  unfold create_farm, lm_deposit_event, put_farm, validate_create_farm_data. intros Hrun. dinv Hrun.
  match goal with Hn : get_next_pool_id _ = _ |- _ => apply get_next_pool_id_Ok in Hn as (-> & ? & ->) end.
  eexists. split_and!; try done. all: done.
Qed.

Lemma destroy_farm_book o f s u s' :
  destroy_farm o f s = (Ok u, s') ->
  exists g, GlobalPoolData s !! f = Some g /\ o = Signed (gp_owner g) /\ gp_liq_pools_count g = 0 /\
    book s' = bk_drop_farm f (book s).
Proof.
  unfold destroy_farm, lm_deposit_event. intros Hrun. dinv Hrun. zbool. subst. eexists. by split_and!.
Qed.

Lemma withdraw_undistributed_book o f s u s' :
  withdraw_undistributed_rewards o f s = (Ok u, s') -> book s' = book s.
Proof. unfold withdraw_undistributed_rewards, lm_deposit_event. intros Hrun. by dinv Hrun. Qed.

Lemma add_liquidity_pool_book o f pr m c s u s' :
  lm_ok (book s) -> add_liquidity_pool o f pr m c s = (Ok u, s') ->
  exists g g' p, GlobalPoolData s !! f = Some g /\
    LiquidityPoolData s !! (f, get_pair_id pr) = None /\ farm_moved 0 1 g g' /\
    lp_id p = PoolIdSequencer s + 1 /\ PoolIdSequencer s + 1 < 2 ^ 32 /\
    p = LiquidityPoolYieldFarm_new (lp_id p) (lp_updated_at p) c m /\
    book s' = bk_add f (get_pair_id pr) g' p pr (book s).
Proof.
  unfold add_liquidity_pool, lm_deposit_event, put_farm, put_liq_pool. intros Hok Hrun.
  assert (Hc : forall s0 a0 s1, match c with
      | Some curve => ensure (initial_reward_percentage curve <? FixedU128_one)
                        (LmE LmErr.InvalidInitialRewardPercentage)
      | None => mret tt end s0 = (Ok a0, s1) -> s1 = s0) by (intros ???; destruct c; intros Hm; by minv Hm).
  dinv Hrun. zbool. subst.
  match goal with Hm : (match c with _ => _ end) _ = _ |- _ => apply Hc in Hm; subst end.
  match goal with Hg : accrue _ _ _ = _ |- _ => apply accrue_book in Hg as (Hb & _ & ((Hi & Hz & Hn) & _)) end.
  match goal with Hn : get_next_pool_id _ = _ |- _ => apply get_next_pool_id_Ok in Hn as (-> & ? & ->) end.
  match goal with Hn : bool_decide _ = false |- _ => apply bool_decide_eq_false, eq_None_not_Some in Hn end.
  match goal with Hg : GlobalPoolData _ !! f = Some ?g |- _ =>
    pose proof (lo_farm _ Hok f g Hg) as (Hf & _); exists g; eexists;
    exists (LiquidityPoolYieldFarm_new (PoolIdSequencer s + 1)
      (block_number (below s) / gp_blocks_per_period g) c m) end.
  assert (Hseq : PoolIdSequencer st1 = PoolIdSequencer s) by (by use_book Hb).
  split_and!; cycle 6.
  - unfold bk_add, book. simpl. use_book Hb. rewrite Hi, Hf. reflexivity.
  - done.
  - done.
  - unfold farm_moved. simpl. split_and!; lia.
  - done.
  - lia.
  - done.
Qed.

(** The calls that write a farm and its pool back, moving the stake of both alike and
    leaving the shares of the pool alone. *)
Definition rewritten (f : GlobalPoolId) (pr : AssetPair) s (b' : Book) : Prop :=
  exists g p g' p', on_pool f pr s g p /\
    farm_moved (lp_stake_in_global_pool p' - lp_stake_in_global_pool p) 0 g g' /\
    lp_id p' = lp_id p /\ (lp_canceled p' = true -> lp_stake_in_global_pool p' = 0) /\
    lp_total_shares p' = lp_total_shares p /\
    lp_total_valued_shares p' = lp_total_valued_shares p /\
    b' = bk_put f (get_pair_id pr) g' p' (book s).

Lemma book_put f a g p s b :
  book s = b ->
  book (set_LiquidityPoolData (insert (f, a) p) (set_GlobalPoolData (insert f g) s)) = bk_put f a g p b.
Proof. by intros <-. Qed.

Lemma update_liquidity_pool_book o f pr m s u s' :
  update_liquidity_pool o f pr m s = (Ok u, s') -> rewritten f pr s (book s').
Proof.
  unfold update_liquidity_pool, lm_deposit_event, put_farm, put_liq_pool. rewrite transactional_Ok.
  intros Hrun. do 2 mguard Hrun. do 5 mguard Hrun. zbool.
  mstep Hrun gp s1 Hup. destruct gp as [g1 p1].
  apply maybe_update_book in Hup as (Hb & ((Hi & Hz & Hn) & _) & (P1 & P2 & P3 & P4 & P5 & P6)).
  minv Hrun. zbool. subst. do 4 eexists. split_and!; cycle 6.
  - apply book_put. exact Hb.
  - done.
  - unfold farm_moved. simpl. split_and!; lia.
  - done.
  - simpl. congruence.
  - done.
  - done.
Qed.

Lemma cancel_liquidity_pool_book o f pr s u s' :
  cancel_liquidity_pool o f pr s = (Ok u, s') -> rewritten f pr s (book s').
Proof.
  unfold cancel_liquidity_pool, lm_deposit_event, put_farm, put_liq_pool. rewrite transactional_Ok.
  intros Hrun. do 6 mguard Hrun. zbool.
  mstep Hrun gp s1 Hup. destruct gp as [g1 p1].
  apply maybe_update_book in Hup as (Hb & ((Hi & Hz & Hn) & _) & (P1 & P2 & P3 & P4 & P5 & P6)).
  minv Hrun. zbool. subst. do 4 eexists. split_and!; cycle 6.
  - apply book_put. exact Hb.
  - done.
  - unfold farm_moved. simpl. split_and!; lia.
  - done.
  - done.
  - done.
  - done.
Qed.

Lemma resume_liquidity_pool_book o f pr m s u s' :
  lm_ok (book s) -> resume_liquidity_pool o f pr m s = (Ok u, s') -> rewritten f pr s (book s').
Proof.
  unfold resume_liquidity_pool, lm_deposit_event, put_farm, put_liq_pool. rewrite transactional_Ok.
  intros Hok Hrun. do 7 mguard Hrun. zbool.
  mstep Hrun g1 s1 Hacc. apply accrue_book in Hacc as (Hb & _ & ((Hi & Hz & Hn) & _)).
  minv Hrun. zbool. subst. do 4 eexists. split_and!; cycle 6.
  - apply book_put. exact Hb.
  - done.
  - match goal with Hp : LiquidityPoolData s !! _ = Some _ |- _ =>
      destruct (lo_pool _ Hok _ _ _ Hp) as (_ & _ & Hst) end.
    unfold farm_moved. simpl. rewrite Hst by done. split_and!; lia.
  - done.
  - done.
  - done.
  - done.
Qed.

Lemma remove_liquidity_pool_book o f pr s u s' :
  remove_liquidity_pool o f pr s = (Ok u, s') ->
  exists g p g', on_pool f pr s g p /\ lp_canceled p = true /\ farm_moved 0 (-1) g g' /\
    book s' = bk_remove f (get_pair_id pr) g' (lp_id p) (book s).
Proof.
  unfold remove_liquidity_pool, lm_deposit_event, put_farm, put_liq_pool.
  intros Hrun. dinv Hrun. zbool. subst.
  match goal with Hp : LiquidityPoolData s !! _ = Some ?p, Hg : GlobalPoolData s !! _ = Some ?g |- _ =>
    exists g, p end. eexists. split_and!; cycle 3.
  - unfold bk_remove, book. simpl. destruct (LiquidityPoolMetadata s !! _) as [[[pr0 n0] f0]|]; simpl;
      [destruct (n0 =? 0)|]; reflexivity.
  - done.
  - done.
  - unfold farm_moved. simpl. split_and!; lia.
Qed.

(** The calls that also move [dt] shares and [dv] valued shares of the pool. *)
Definition restaked (f : GlobalPoolId) (a : AccountId) (dt dv : Z) s (g : GlobalPool)
    (p : LiquidityPoolYieldFarm) (g' : GlobalPool) (p' : LiquidityPoolYieldFarm) : Prop :=
  GlobalPoolData s !! f = Some g /\ LiquidityPoolData s !! (f, a) = Some p /\
  farm_moved (lp_stake_in_global_pool p' - lp_stake_in_global_pool p) 0 g g' /\
  lp_id p' = lp_id p /\ lp_canceled p' = lp_canceled p /\
  (lp_canceled p = true -> lp_stake_in_global_pool p' = lp_stake_in_global_pool p) /\
  lp_total_shares p' = lp_total_shares p + dt /\
  lp_total_valued_shares p' = lp_total_valued_shares p + dv.

Lemma deposit_shares_book o f pr x s u s' :
  deposit_shares o f pr x s = (Ok u, s') ->
  exists g p g' p' d pr0 n f0,
    restaked f (get_pair_id pr) x (d_valued_shares d) s g p g' p' /\
    x <> 0 /\ d_shares d = x /\ NftInstanceSequencer s + 1 <= MAX_NFT_INSTANCE_SEQUENCER /\
    LiquidityPoolMetadata s !! lp_id p = Some (pr0, n, f0) /\
    book s' = bk_put f (get_pair_id pr) g' p' (bk_deposit (lp_id p) d (pr0, n + 1, f0) (book s)).
Proof.
  unfold deposit_shares, lm_deposit_event, put_farm, put_liq_pool. rewrite transactional_Ok.
  intros Hrun. do 9 mguard Hrun. zbool.
  mstep Hrun gp s1 Hup. destruct gp as [g1 p1].
  apply maybe_update_book in Hup as (Hb & ((Hi & Hz & Hn) & _) & (P1 & P2 & P3 & P4 & P5 & P6)).
  do 7 mguard Hrun.
  mstep Hrun nid s2 Hid. apply get_next_nft_id_Ok in Hid as (_ & Hmax & -> & ->).
  do 4 mguard Hrun.
  match type of Hrun with context [match ?m with _ => _ end] => destruct m as [[pr0 n] f0] end.
  minv Hrun. zbool. subst.
  assert (Hseq : NftInstanceSequencer s1 = NftInstanceSequencer s) by (by use_book Hb).
  do 8 eexists. split_and!; cycle 5.
  - etransitivity; [apply book_put; reflexivity|]. f_equal.
    unfold bk_deposit, book. simpl. use_book Hb. rewrite P1. reflexivity.
  - unfold restaked, farm_moved. simpl. split_and!; try done; try lia; congruence.
  - done.
  - done.
  - simpl in Hmax. lia.
  - match goal with Hm : LiquidityPoolMetadata _ !! _ = Some _ |- _ => simpl in Hm; revert Hm end.
    use_book Hb. rewrite P1. done.
Qed.

Lemma claim_rewards_book o x s u s' :
  claim_rewards o x s = (Ok u, s') ->
  exists d d' pr n f g p g' p',
    DepositData s !! x = Some d /\ d_shares d' = d_shares d /\
    d_valued_shares d' = d_valued_shares d /\
    LiquidityPoolMetadata s !! decode_pool_id x = Some (pr, n, f) /\
    restaked f (get_pair_id pr) 0 0 s g p g' p' /\
    book s' = bk_redeposit x d' (bk_put f (get_pair_id pr) g' p' (book s)).
Proof.
  unfold claim_rewards, lm_deposit_event, put_farm, put_liq_pool. rewrite transactional_Ok.
  intros Hrun. do 4 mguard Hrun.
  match type of Hrun with context [match ?m with _ => _ end] => destruct m as [[pr n] f] end.
  do 10 mguard Hrun. zbool.
  mstep Hrun gp s1 Hup. destruct gp as [g1 p1].
  apply maybe_update_book in Hup as (Hb & ((Hi & Hz & Hn) & _) & (P1 & P2 & P3 & P4 & P5 & P6)).
  mstep Hrun r s2 Hcl. destruct r as [[r x0] d'].
  apply do_claim_book in Hcl as (Hb2 & D1 & D2). rewrite Hb in Hb2.
  minv Hrun. zbool. subst. do 9 eexists. split_and!; cycle 5.
  - unfold bk_redeposit, bk_put, book. simpl. use_book Hb2. reflexivity.
  - eassumption.
  - done.
  - done.
  - eassumption.
  - unfold restaked, farm_moved. split_and!; try done; lia || congruence.
Qed.

Lemma leave_liq_pool_book w f a p d s d' s' :
  LiquidityPoolData s !! (f, a) = Some p -> leave_liq_pool w f a p d s = (Ok d', s') ->
  exists g g' p', restaked f a (- d_shares d) (- d_valued_shares d) s g p g' p' /\
    d_shares d' = d_shares d /\ book s' = bk_put f a g' p' (book s).
Proof.
  unfold leave_liq_pool, lm_deposit_event, put_farm, put_liq_pool. intros Hp Hrun.
  do 2 mguard Hrun. mstep Hrun gp s1 Hup. destruct gp as [g1 p1].
  assert (Hup' : book s1 = book s /\ same_farm v g1 /\ same_pool p p1).
  { destruct (negb (lp_canceled p)); [by apply maybe_update_book in Hup|].
    minv Hup. match goal with He : (_, _) = (_, _) |- _ => injection He as -> -> end.
    auto using same_farm_refl, same_pool_refl. }
  destruct Hup' as (Hb & ((Hi & Hz & Hn) & _) & (P1 & P2 & P3 & P4 & P5 & P6)). clear Hup.
  mstep Hrun r s2 Hcl. destruct r as [[r x0] d1].
  apply do_claim_book in Hcl as (Hb2 & D1 & D2). rewrite Hb in Hb2.
  do 4 mguard Hrun. mstep Hrun st s3 Hst.
  assert (Hst' : s3 = s2 /\ fst st - lp_stake_in_global_pool p = snd st - gp_total_shares_z v /\
    (lp_canceled p = true -> fst st = lp_stake_in_global_pool p)).
  { rewrite P6 in Hst. destruct (negb (lp_canceled p)) eqn:Hc; minv Hst; zbool; subst; simpl;
      (split; [done|]); (split; [lia|]); congruence. }
  destruct Hst' as (-> & Hmove & Hcan). clear Hst. destruct st as [stake z]. simpl in *.
  assert (Hfin : book s' = bk_put f a (gp_set_shares_z z g1)
     (lp_set_shares (lp_total_shares p1 - d_shares d1) (lp_total_valued_shares p1 - d_valued_shares d1)
        stake p1) (book s) /\ d' = d1).
  { mguard Hrun. zbool. subst. mstep Hrun u2 s4 Hev.
    assert (Hb4 : book s4 = book s) by (destruct (negb (r =? 0)); minv Hev; exact Hb2).
    minv Hrun. split; [|done]. unfold bk_put, book. simpl. use_book Hb4. reflexivity. }
  destruct Hfin as [Hfin ->]. exists v. do 2 eexists. split_and!; [|done|exact Hfin].
  unfold restaked, farm_moved. simpl. split_and!; try done; lia || congruence.
Qed.

Lemma withdraw_shares_book o x s u s' :
  withdraw_shares o x s = (Ok u, s') ->
  exists d pr n f m b1,
    DepositData s !! x = Some d /\ LiquidityPoolMetadata s !! decode_pool_id x = Some (pr, n, f) /\
    book s' = bk_withdraw x (decode_pool_id x) m b1 /\
    (LiquidityPoolData s !! (f, get_pair_id pr) = None /\ b1 = book s /\
       m = (if n =? 1 then None else Some (pr, n - 1, f)) \/
     m = Some (pr, n - 1, f) /\
     exists g p g' p', b1 = bk_put f (get_pair_id pr) g' p' (book s) /\
       restaked f (get_pair_id pr) (- d_shares d) (- d_valued_shares d) s g p g' p').
Proof.
  unfold withdraw_shares, lm_deposit_event. rewrite transactional_Ok.
  intros Hrun. do 7 mguard Hrun.
  match type of Hrun with context [match ?m with _ => _ end] => destruct m as [[pr n] f] end.
  do 3 mguard Hrun. mstep Hrun r s1 Hr. destruct r as [d1 can].
  do 1 mguard Hrun.
  mstep Hrun u2 s2 Hamm.
  assert (Hb2 : book s2 = book s1).
  { destruct (amm_exists pr (below s1)); minv Hamm; done. }
  clear Hamm. mguard Hrun. mstep Hrun u3 s3 Hmeta. minv Hrun.
  match goal with Hd : DepositData s !! _ = Some ?d |- _ => exists d end. exists pr, n, f.
  exists (if (n =? 1) && can then None else Some (pr, n - 1, f)), (book s1). split; [done|]. split; [done|].
  split.
  - destruct ((n =? 1) && can); minv Hmeta; zbool; subst; unfold bk_withdraw, book; simpl;
      use_book Hb2; reflexivity.
  - destruct (LiquidityPoolData s !! (f, get_pair_id pr)) as [p|] eqn:Hp.
    + right. mstep Hr d2 s4 Hlv. minv Hr.
      match goal with He : (_, _) = (_, _) |- _ => injection He as -> -> end.
      rewrite andb_false_r. split; [done|].
      apply leave_liq_pool_book in Hlv as (g & g' & p' & Hre & _ & Hb4); [|done]. eauto 10.
    + left. minv Hr. match goal with He : (_, _) = (_, _) |- _ => injection He as -> -> end.
      rewrite andb_true_r. done.
Qed.

(** ** Reachable states *)

Inductive lm_call :=
| CreateFarm (total : Balance) (planned : PeriodOf) (blocks : BlockNumber)
    (incentivized reward : AssetId) (w : AccountId) (yield : Permill)
| DestroyFarm (f : GlobalPoolId)
| WithdrawUndistributed (f : GlobalPoolId)
| AddLiquidityPool (f : GlobalPoolId) (pr : AssetPair) (m : PoolMultiplier) (c : option LoyaltyCurve)
| UpdateLiquidityPool (f : GlobalPoolId) (pr : AssetPair) (m : PoolMultiplier)
| CancelLiquidityPool (f : GlobalPoolId) (pr : AssetPair)
| ResumeLiquidityPool (f : GlobalPoolId) (pr : AssetPair) (m : PoolMultiplier)
| RemoveLiquidityPool (f : GlobalPoolId) (pr : AssetPair)
| DepositShares (f : GlobalPoolId) (pr : AssetPair) (x : Balance)
| ClaimRewards (x : InstanceId)
| WithdrawShares (x : InstanceId).

Definition lm_dispatch (o : Origin) (c : lm_call) : Dispatch State unit :=
  match c with
  | CreateFarm t p b i r w y => create_farm o t p b i r w y
  | DestroyFarm f => destroy_farm o f
  | WithdrawUndistributed f => withdraw_undistributed_rewards o f
  | AddLiquidityPool f pr m c => add_liquidity_pool o f pr m c
  | UpdateLiquidityPool f pr m => update_liquidity_pool o f pr m
  | CancelLiquidityPool f pr => cancel_liquidity_pool o f pr
  | ResumeLiquidityPool f pr m => resume_liquidity_pool o f pr m
  | RemoveLiquidityPool f pr => remove_liquidity_pool o f pr
  | DepositShares f pr x => deposit_shares o f pr x
  | ClaimRewards x => claim_rewards o x
  | WithdrawShares x => withdraw_shares o x
  end.

Lemma lm_rollback o c s r s' :
  lm_dispatch o c s = (r, s') -> (forall u, r <> Ok u) -> s' = s.
Proof. destruct c; apply transactional_rollback. Qed.

(** No metadata is left of an earlier pool of the same pair in the same farm. *)
Definition not_readded (f : GlobalPoolId) (pr : AssetPair) s : Prop :=
  forall i pr' n, LiquidityPoolMetadata s !! i = Some (pr', n, f) -> get_pair_id pr' <> get_pair_id pr.

(** A call from any origin, with any result; the migration; or any change of the chain
    below, by other pallets.  With [careful], a pool is not added again to a farm as
    long as deposits of an earlier pool of the pair are left. *)
Inductive lm_step (careful : bool) : State -> State -> Prop :=
| lm_step_call o c s r s' :
    (careful = true -> forall f pr m k, c = AddLiquidityPool f pr m k -> not_readded f pr s) ->
    lm_dispatch o c s = (r, s') -> lm_step careful s s'
| lm_step_upgrade s s' : on_runtime_upgrade s = (Ok tt, s') -> lm_step careful s s'
| lm_step_below n s : lm_step careful s (set_lm_nft n s).

Inductive lm_reachable (careful : bool) : State -> Prop :=
| lm_init n : lm_reachable careful (mkLm n 0 0 ∅ ∅ ∅ ∅ 0 [])
| lm_more s s' : lm_reachable careful s -> lm_step careful s s' -> lm_reachable careful s'.

Lemma restaked_ok f a dt dv s g p g' p' b :
  lm_ok b -> b_farms b = GlobalPoolData s -> b_pools b = LiquidityPoolData s ->
  lm_ok (book s) -> restaked f a dt dv s g p g' p' -> lm_ok (bk_put f a g' p' b).
Proof.
  intros Hok Hf Hp Hs (Hg & Hpool & Hmv & Hid & Hc & Hst & _).
  destruct (lo_pool _ Hs _ _ _ Hpool) as (_ & _ & H0').
  eapply lm_ok_put; [done|by rewrite Hf|by rewrite Hp|done|done|].
  intros Hcan. rewrite Hc in Hcan. rewrite Hst by done. by apply H0'.
Qed.

Lemma rewritten_ok f pr s b' : lm_ok (book s) -> rewritten f pr s b' -> lm_ok b'.
Proof.
  intros Hok (g & p & g' & p' & [Hg Hp] & Hmv & Hid & Hc & _ & _ & ->).
  by eapply lm_ok_put.
Qed.

Lemma withdraw_shares_ok o x s u s' :
  lm_ok (book s) -> withdraw_shares o x s = (Ok u, s') -> lm_ok (book s').
Proof.
  intros Hok Hrun. apply withdraw_shares_book in Hrun as (d & pr & n & f & m & b1 & Hd & Hm & -> & Hcase).
  destruct Hcase as [(Hnone & -> & ->)|(-> & g & p & g' & p' & -> & Hre)].
  - eapply lm_ok_withdraw; try done. case_match eqn:Hn; [zbool; by right|by left].
  - eapply lm_ok_withdraw; [by eapply restaked_ok|done..|by left].
Qed.

Lemma lm_dispatch_ok o c s u s' :
  lm_ok (book s) -> lm_dispatch o c s = (Ok u, s') -> lm_ok (book s').
Proof.
  intros Hok Hrun. destruct c; simpl in Hrun.
  - apply create_farm_book in Hrun as (g & ? & ? & ? & ? & ->). by apply (lm_ok_create g (book s)).
  - apply destroy_farm_book in Hrun as (g & Hg & _ & Hn & ->). by eapply lm_ok_destroy.
  - apply withdraw_undistributed_book in Hrun. by rewrite Hrun.
  - apply add_liquidity_pool_book in Hrun as (g & g' & p & Hg & Hp & Hmv & Hid & Hs & Hnew & ->); [|done].
    eapply lm_ok_add; try done. by rewrite Hnew.
  - by eapply rewritten_ok, update_liquidity_pool_book.
  - by eapply rewritten_ok, cancel_liquidity_pool_book.
  - by eapply rewritten_ok, resume_liquidity_pool_book.
  - apply remove_liquidity_pool_book in Hrun as (g & p & g' & [Hg Hp] & Hc & Hmv & ->).
    by eapply lm_ok_remove.
  - apply deposit_shares_book in Hrun as (g & p & g' & p' & d & pr0 & n & f0 & Hre & _ & _ & Hmax & Hm & ->).
    eapply restaked_ok; try done. by apply lm_ok_deposit.
  - apply claim_rewards_book in Hrun as (d & d' & pr & n & f & g & p & g' & p' & Hd & _ & _ & Hm & Hre & ->).
    eapply lm_ok_redeposit; [by eapply restaked_ok|done].
  - by eapply withdraw_shares_ok.
Qed.

Lemma upgrade_book s s' : on_runtime_upgrade s = (Ok tt, s') -> book s' = book s.
Proof.
  unfold on_runtime_upgrade, init_nft_class. intros Hrun. mguard Hrun.
  destruct (lm_version s =? 0); [|by minv Hrun]. mstep Hrun x s1 Hc. minv Hrun.
  unfold unwrap, zoom in Hc. simpl in Hc.
  destruct (do_create_class _ _ _ _ _) as [[? | |] n]; by simplify_eq.
Qed.

Lemma lm_step_ok careful s s' : lm_ok (book s) -> lm_step careful s s' -> lm_ok (book s').
Proof.
  intros Hok Hstep. revert Hok. destruct Hstep as [o c s r s' _ Hrun|s s' Hrun|n s]; intros Hok; [| |done].
  - destruct r as [[]| |]; [by eapply lm_dispatch_ok|..]; by rewrite (lm_rollback _ _ _ _ _ Hrun).
  - by rewrite (upgrade_book _ _ Hrun).
Qed.

Lemma lm_ok_empty : lm_ok (mkBook 0 0 ∅ ∅ ∅ ∅).
Proof. split; simpl; intros *; try (by rewrite lookup_empty). rewrite max_sequencer. lia. Qed.

(** [C8] In every reachable state the storage maps of the pallet agree: the total stake of
    a farm is the sum of the stakes of its pools and its counter their number; a pool
    belongs to an existing farm, has its metadata, and has no stake once canceled; the
    metadata of a pool counts its deposits, and every deposit has an id the pallet
    produced and the metadata of its pool. *)
Theorem lm_reachable_ok careful s : lm_reachable careful s -> lm_ok (book s).
Proof. induction 1 as [n|s s' _ IH Hstep]; [apply lm_ok_empty|by eapply lm_step_ok]. Qed.
End books.
