(* ===== verification/LmFunds.v ===== *)
(** * Shares and rewards of the liquidity mining pallet

    The shares a pool counts are those of its deposits; what an update of a pool and a
    withdrawal move between accounts; that deposits in removed pools can be withdrawn;
    that a period is claimed once. *)

From S2P Require Import Prelude Primitives Errors Interfaces Nft NftProps LiquidityMining.
From S2P Require Import LmProps LmBooks.

Section funds.
Context {U : Type} `{Uniques U} `{MultiCurrency U} `{AMM U} `{BlockNumberProvider U}.
Context `{LmMath} `{PalletAccounts} {ncfg : NftConfig} {cfg : LmConfig}.
Notation State := (LmState U).
Implicit Types (s : State) (b : Book).

#[local] Ltac minv_hook H ::= lm_hook H.

(** ** The shares of a pool are those of its deposits *)

Record shares_ok b : Prop := mkSharesOk {
  so_unique i j pr n pr' n' f :
    b_meta b !! i = Some (pr, n, f) -> b_meta b !! j = Some (pr', n', f) ->
    get_pair_id pr = get_pair_id pr' -> i = j;
  so_total k p : b_pools b !! k = Some p ->
    lp_total_shares p = map_sum (of_pool (lp_id p) d_shares) (b_deposits b) /\
    lp_total_valued_shares p = map_sum (of_pool (lp_id p) d_valued_shares) (b_deposits b)
}.

(** Two pools have different ids. *)
Lemma pool_ids_distinct b f a p f' a' p' :
  lm_ok b -> b_pools b !! (f, a) = Some p -> b_pools b !! (f', a') = Some p' ->
  lp_id p = lp_id p' -> (f, a) = (f', a').
Proof.
  intros Hok Hp Hp' Hid.
  destruct (lo_pool _ Hok _ _ _ Hp) as (_ & (pr & n & Hm & <-) & _).
  destruct (lo_pool _ Hok _ _ _ Hp') as (_ & (pr' & n' & Hm' & <-) & _). congruence.
Qed.

Lemma shares_ok_put f a g p p' b :
  shares_ok b -> b_pools b !! (f, a) = Some p -> lp_id p' = lp_id p ->
  lp_total_shares p' = lp_total_shares p ->
  lp_total_valued_shares p' = lp_total_valued_shares p -> shares_ok (bk_put f a g p' b).
Proof.
  intros [K1 K2] Hp Hid Ht Hv. split; simpl; [done|].
  intros k q [[<- <-]|[_ Hq]]%lookup_insert_Some; [rewrite Hid, Ht, Hv|]; eauto.
Qed.

Lemma shares_ok_add f a g p pr b :
  lm_ok b -> shares_ok b -> lp_id p = b_pool_seq b + 1 ->
  lp_total_shares p = 0 -> lp_total_valued_shares p = 0 -> get_pair_id pr = a ->
  (forall i pr' n, b_meta b !! i = Some (pr', n, f) -> get_pair_id pr' <> a) ->
  shares_ok (bk_add f a g p pr b).
Proof.
  intros Hok [K1 K2] Hid Ht Hv Ha Hfresh. split; simpl.
  - intros i j pr1 n1 pr2 n2 f0 Hi Hj Heq.
    apply lookup_insert_Some in Hi as [[<- [= <- <- <-]]|[Hne Hi]];
      apply lookup_insert_Some in Hj as [[<- Hj]|[Hne' Hj]]; [done| | |by eapply K1].
    + exfalso. apply (Hfresh _ _ _ Hj). congruence.
    + injection Hj as <- <- <-. exfalso. apply (Hfresh _ _ _ Hi). congruence.
  - intros k q [[_ <-]|[_ Hq]]%lookup_insert_Some; [|eauto].
    rewrite Ht, Hv, !deposits_none; [done|..]; intros x d Hx;
      destruct (lo_deposit _ Hok _ _ Hx) as (i & k' & -> & Hvi & _ & [[[pr' n'] f'] Hm]);
      rewrite decode_encode by done; destruct (lo_meta _ Hok _ _ _ _ Hm); lia.
Qed.

Lemma shares_ok_remove f a g i b : shares_ok b -> shares_ok (bk_remove f a g i b).
Proof.
  intros [K1 K2]. split; simpl.
  - intros j j' pr n pr' n' f' Hj Hj'.
    assert (Hsub : forall y z, match b_meta b !! i with
      | Some (_, n0, _) => if n0 =? 0 then delete i (b_meta b) else b_meta b
      | None => b_meta b end !! y = Some z -> b_meta b !! y = Some z).
    { intros y z. repeat case_match; try done. by intros [_ ?]%lookup_delete_Some. }
    eapply K1; eauto.
  - intros k q [_ Hq]%lookup_delete_Some. eauto.
Qed.

Lemma shares_ok_deposit f a g p p' d pr n f0 b :
  lm_ok b -> shares_ok b -> b_pools b !! (f, a) = Some p -> lp_id p' = lp_id p ->
  lp_total_shares p' = lp_total_shares p + d_shares d ->
  lp_total_valued_shares p' = lp_total_valued_shares p + d_valued_shares d ->
  b_meta b !! lp_id p = Some (pr, n, f0) -> b_nft_seq b + 1 <= MAX_NFT_INSTANCE_SEQUENCER ->
  shares_ok (bk_put f a g p' (bk_deposit (lp_id p) d (pr, n + 1, f0) b)).
Proof.
  intros Hok [K1 K2] Hp Hid Ht Hv Hm Hmax.
  assert (Hvi : valid_ids (lp_id p) (b_nft_seq b + 1)).
  { destruct (lo_seq _ Hok), (lo_meta _ Hok _ _ _ _ Hm). unfold valid_ids. lia. }
  assert (Hfresh : b_deposits b !! encode_nft_id (lp_id p) (b_nft_seq b + 1) = None).
  { apply eq_None_not_Some. intros [d0 Hd0].
    destruct (lo_deposit _ Hok _ _ Hd0) as (i' & k' & E & Hv' & Hle & _).
    destruct (encode_inj _ _ _ _ Hvi Hv' E). lia. }
  split; simpl.
  - intros i j pr1 n1 pr2 n2 f1 Hi Hj Heq.
    apply lookup_insert_Some in Hi as [[<- [= <- <- <-]]|[Hne Hi]];
      apply lookup_insert_Some in Hj as [[<- Hj]|[Hne' Hj]]; try done; try by eapply K1.
    injection Hj as <- <- <-. by eapply K1.
  - intros [f1 a1] q Hq. rewrite !map_sum_insert_None by done.
    apply lookup_insert_Some in Hq as [[_ <-]|[Hne Hq]].
    + rewrite Hid, !of_pool_here by (by apply decode_encode).
      destruct (K2 _ _ Hp). lia.
    + rewrite !of_pool_other; [by apply (K2 _ _ Hq)|..]; rewrite decode_encode by done; intros E;
        apply Hne; eapply pool_ids_distinct; eauto.
Qed.

Lemma shares_ok_redeposit x d d' b :
  shares_ok b -> b_deposits b !! x = Some d -> d_shares d' = d_shares d ->
  d_valued_shares d' = d_valued_shares d -> shares_ok (bk_redeposit x d' b).
Proof.
  intros [K1 K2] Hx Hs Hv. split; simpl; [done|]. intros k p Hp. destruct (K2 _ _ Hp) as [-> ->].
  rewrite !map_sum_insert. unfold sum_at, of_pool. rewrite Hx. case_decide; lia.
Qed.

Lemma sum_withdraw j v x d (m : gmap InstanceId Deposit) :
  m !! x = Some d ->
  map_sum (of_pool j v) (delete x m) = map_sum (of_pool j v) m - of_pool j v x d.
Proof. intros Hx. rewrite map_sum_delete. unfold sum_at. by rewrite Hx. Qed.

Lemma shares_ok_withdraw x d pr n f m b :
  lm_ok b -> shares_ok b -> b_deposits b !! x = Some d ->
  b_meta b !! decode_pool_id x = Some (pr, n, f) -> b_pools b !! (f, get_pair_id pr) = None ->
  m = Some (pr, n - 1, f) \/ m = None -> shares_ok (bk_withdraw x (decode_pool_id x) m b).
Proof.
  intros Hok [K1 K2] Hx Hm Hnone Hcase. split; simpl.
  - intros i j pr1 n1 pr2 n2 f1 Hi Hj Heq. destruct Hcase as [->| ->].
    + apply lookup_insert_Some in Hi as [[<- [= <- <- <-]]|[Hne Hi]];
        apply lookup_insert_Some in Hj as [[<- Hj]|[Hne' Hj]]; try done; try by eapply K1.
      injection Hj as <- <- <-. by eapply K1.
    + apply lookup_delete_Some in Hi as [_ Hi], Hj as [_ Hj]. by eapply K1.
  - intros [f1 a1] q Hq. rewrite !(sum_withdraw _ _ _ _ _ Hx), !of_pool_other, !Z.sub_0_r;
      [by apply (K2 _ _ Hq)|..]; intros E;
      destruct (lo_pool _ Hok _ _ _ Hq) as (_ & (pr' & n' & Hm' & <-) & _); rewrite <- E in Hm'; congruence.
Qed.

Lemma shares_ok_leave x d pr n f g p p' b :
  lm_ok b -> shares_ok b -> b_deposits b !! x = Some d ->
  b_meta b !! decode_pool_id x = Some (pr, n, f) -> b_pools b !! (f, get_pair_id pr) = Some p ->
  lp_id p' = lp_id p -> lp_total_shares p' = lp_total_shares p - d_shares d ->
  lp_total_valued_shares p' = lp_total_valued_shares p - d_valued_shares d ->
  shares_ok (bk_withdraw x (decode_pool_id x) (Some (pr, n - 1, f))
    (bk_put f (get_pair_id pr) g p' b)).
Proof.
  intros Hok [K1 K2] Hx Hm Hp Hid Ht Hv.
  assert (Hxid : decode_pool_id x = lp_id p).
  { destruct (lo_pool _ Hok _ _ _ Hp) as (_ & (pr' & n' & Hm' & Heq) & _). by eapply K1. }
  split; simpl.
  - intros i j pr1 n1 pr2 n2 f1 Hi Hj Heq.
    apply lookup_insert_Some in Hi as [[<- [= <- <- <-]]|[Hne Hi]];
      apply lookup_insert_Some in Hj as [[<- Hj]|[Hne' Hj]]; try done; try by eapply K1.
    injection Hj as <- <- <-. by eapply K1.
  - intros [f1 a1] q Hq. rewrite !(sum_withdraw _ _ _ _ _ Hx).
    apply lookup_insert_Some in Hq as [[_ <-]|[Hne Hq]].
    + rewrite !of_pool_here by congruence. rewrite Hid. destruct (K2 _ _ Hp). lia.
    + rewrite !of_pool_other, !Z.sub_0_r; [by apply (K2 _ _ Hq)|..]; rewrite Hxid; intros E;
        apply Hne; eapply pool_ids_distinct; eauto.
Qed.

Lemma rewritten_shares f pr s b' : shares_ok (book s) -> rewritten f pr s b' -> shares_ok b'.
Proof.
  intros Hok (g & p & g' & p' & [Hg Hp] & _ & Hid & _ & Ht & Hv & ->). by eapply shares_ok_put.
Qed.

Lemma withdraw_shares_counted o x s u s' :
  lm_ok (book s) -> shares_ok (book s) -> withdraw_shares o x s = (Ok u, s') -> shares_ok (book s').
Proof.
  intros Hok Hsh Hrun.
  apply withdraw_shares_book in Hrun as (d & pr & n & f & m & b1 & Hd & Hm & -> & Hcase).
  destruct Hcase as [(Hnone & -> & ->)|(-> & g & p & g' & p' & -> & Hre)].
  - eapply shares_ok_withdraw; try done. case_match; auto.
  - destruct Hre as (_ & Hp & _ & Hid & _ & _ & Ht & Hv). eapply shares_ok_leave; try done.
Qed.

Lemma lm_dispatch_shares o c s u s' :
  lm_ok (book s) -> shares_ok (book s) ->
  (forall f pr m k, c = AddLiquidityPool f pr m k -> not_readded f pr s) ->
  lm_dispatch o c s = (Ok u, s') -> shares_ok (book s').
Proof.
  intros Hok Hsh Hadd Hrun. destruct c; simpl in Hrun.
  - apply create_farm_book in Hrun as (g & ? & ? & ? & ? & ->). by destruct Hsh.
  - apply destroy_farm_book in Hrun as (g & Hg & _ & Hn & ->). by destruct Hsh.
  - apply withdraw_undistributed_book in Hrun. by rewrite Hrun.
  - apply add_liquidity_pool_book in Hrun as (g & g' & p & Hg & Hp & Hmv & Hid & Hs & Hnew & ->); [|done].
    eapply shares_ok_add; try done; [by rewrite Hnew|by rewrite Hnew|by eapply Hadd].
  - by eapply rewritten_shares, update_liquidity_pool_book.
  - by eapply rewritten_shares, cancel_liquidity_pool_book.
  - by eapply rewritten_shares, resume_liquidity_pool_book.
  - apply remove_liquidity_pool_book in Hrun as (g & p & g' & _ & _ & _ & ->).
    by apply shares_ok_remove.
  - apply deposit_shares_book in Hrun
      as (g & p & g' & p' & d & pr0 & n & f0 & Hre & _ & Hx & Hmax & Hm & ->).
    destruct Hre as (_ & Hp & _ & Hid & _ & _ & Ht & Hv). subst x.
    by eapply shares_ok_deposit.
  - apply claim_rewards_book in Hrun
      as (d & d' & pr & n & f & g & p & g' & p' & Hd & Hs & Hv & Hm & Hre & ->).
    destruct Hre as (_ & Hp & _ & Hid & _ & _ & Ht & Hvs). rewrite Z.add_0_r in Ht, Hvs.
    eapply shares_ok_redeposit; try done. by eapply shares_ok_put.
  - by eapply withdraw_shares_counted.
Qed.

(** [C32] When no pool is added to a farm again while deposits of its predecessor are left,
    the shares (and the valued shares) a pool counts are exactly those of its deposits,
    in every reachable state. *)
Theorem lm_shares_counted s : lm_reachable true s -> shares_ok (book s).
Proof.
  intros Hr. assert (Hboth : lm_ok (book s) /\ shares_ok (book s)); [|tauto].
  induction Hr as [n|s s' _ [Hok Hsh] Hstep].
  - split; [apply lm_ok_empty|]. split; simpl; intros *; by rewrite lookup_empty.
  - split; [by eapply lm_step_ok|]. revert Hok Hsh.
    destruct Hstep as [o c s r s' Hadd Hrun|s s' Hrun|n s]; intros Hok Hsh; [| |done].
    + destruct r as [[]| |]; [eapply lm_dispatch_shares; eauto|..];
        by rewrite (lm_rollback _ _ _ _ _ Hrun).
    + by rewrite (upgrade_book _ _ Hrun).
Qed.
End funds.

(** ** The chain below *)

(** A currency transfer does not touch the AMM, the tokens or the block number, and
    burning a token moves no currency. *)
Class LmChainLaws (U : Type) `{Uniques U} `{MultiCurrency U} `{AMM U} `{BlockNumberProvider U}
    : Prop := {
  transfer_amm c f t a (u u' : U) pr :
    Interfaces.transfer c f t a u = (Ok tt, u') ->
    amm_exists pr u' = amm_exists pr u /\ get_share_token pr u' = get_share_token pr u;
  transfer_tokens c f t a (u u' : U) k i :
    Interfaces.transfer c f t a u = (Ok tt, u') -> token_owner k i u' = token_owner k i u;
  transfer_block c f t a (u u' : U) :
    Interfaces.transfer c f t a u = (Ok tt, u') -> block_number u' = block_number u;
  burn_balances k i (u : U) c w : free_balance c w (burn_commit k i u) = free_balance c w u
}.

(** The sub-account of a pool is not shared; id 0 would be the account of the pallet. *)
Class PalletAccountsLaws `{PalletAccounts} : Prop := {
  sub_account_inj i j :
    in_range 32 i -> in_range 32 j -> into_sub_account i = into_sub_account j -> i = j;
  sub_account_zero : into_sub_account 0 = into_account
}.

Section chain.
Context {U : Type} `{Uniques U} `{MultiCurrency U} `{AMM U} `{BlockNumberProvider U}.
Context `{LmMath} `{PalletAccounts} {ncfg : NftConfig} {cfg : LmConfig}.
Context `{!MultiCurrencyLaws U} `{!UniquesLaws U} `{!LmChainLaws U} `{!PalletAccountsLaws}.
Notation State := (LmState U).
Implicit Types (s : State) (u : U).

#[local] Ltac minv_hook H ::= lm_hook H.

(** Only balances of the currency [rc] may differ. *)
Definition below_quiet (rc : AssetId) u u' : Prop :=
  (forall c, c <> rc -> same_balances c u u') /\
  (forall pr, amm_exists pr u' = amm_exists pr u /\ get_share_token pr u' = get_share_token pr u) /\
  (forall k i, token_owner k i u' = token_owner k i u) /\
  block_number u' = block_number u.

Lemma below_quiet_refl rc u : below_quiet rc u u.
Proof. done. Qed.
Lemma below_quiet_trans rc u1 u2 u3 : below_quiet rc u1 u2 -> below_quiet rc u2 u3 -> below_quiet rc u1 u3.
Proof.
  intros (A1 & A2 & A3 & A4) (B1 & B2 & B3 & B4). split_and!.
  - intros c Hc w. rewrite (B1 c Hc w). by apply A1.
  - intros pr. destruct (A2 pr), (B2 pr). split; congruence.
  - intros k i. by rewrite B3.
  - congruence.
Qed.
Lemma below_quiet_transfer rc f t x u u' :
  Interfaces.transfer rc f t x u = (Ok tt, u') -> below_quiet rc u u'.
Proof.
  intros Ht. split_and!.
  - intros c Hc. by eapply transfer_frame.
  - intros pr. by eapply transfer_amm.
  - intros k i. by eapply transfer_tokens.
  - by eapply transfer_block.
Qed.

Lemma maybe_update_quiet g p now s g' p' s' :
  maybe_update_pools g p now s = (Ok (g', p'), s') ->
  below_quiet (gp_reward_currency g) (below s) (below s').
Proof.
  intros (_ & [[= _ _ ->]|Hu])%maybe_update_pools_Ok; [done|].
  destruct Hu as (_ & _ & _ & g1 & _ & _ & _ & _ & Hp). case_match.
  - by destruct Hp as [_ ->].
  - destruct Hp as (_ & _ & _ & Ht). by eapply below_quiet_transfer.
Qed.

Lemma do_claim_quiet w d p now c s r x d' s' :
  do_claim_rewards w d p now c s = (Ok (r, x, d'), s') -> below_quiet c (below s) (below s').
Proof.
  intros [_ Hd]%do_claim_rewards_Ok. case_match.
  - by destruct Hd as (_ & _ & _ & ->).
  - destruct Hd as (_ & _ & Ht & _). by eapply below_quiet_transfer.
Qed.

(** *** Updating a pool *)


(** *** Leaving *)

Lemma leave_liq_pool_quiet w f a p d s d' s' :
  leave_liq_pool w f a p d s = (Ok d', s') ->
  d_shares d' = d_shares d /\
  (exists g, GlobalPoolData s !! f = Some g /\ below_quiet (gp_reward_currency g) (below s) (below s')) /\
  lm_nft s' = set_uniques (below s') (lm_nft s).
Proof.
  unfold leave_liq_pool, lm_deposit_event, put_farm, put_liq_pool. intros Hrun.
  mguard Hrun. mguard Hrun. mstep Hrun gp s1 Hup. destruct gp as [g1 p1].
  assert (Hup' : below_quiet (gp_reward_currency v) (below s) (below s1) /\
    lm_nft s1 = set_uniques (below s1) (lm_nft s) /\ gp_reward_currency g1 = gp_reward_currency v).
  { destruct (negb (lp_canceled p)).
    - pose proof (maybe_update_quiet _ _ _ _ _ _ _ Hup). split; [done|].
      pose proof (maybe_update_book _ _ _ _ _ _ _ Hup) as (_ & (_ & _ & ? & _) & _).
      apply maybe_update_pools_Ok in Hup as [[_ ?] _]. done.
    - minv Hup. match goal with He : (_, _) = (_, _) |- _ => injection He as -> -> end.
      split_and!; try done. apply only_below_refl. }
  destruct Hup' as (Q1 & N1 & Hcur). clear Hup.
  mstep Hrun r s2 Hcl. destruct r as [[r x0] d1].
  assert (N2 : lm_nft s2 = set_uniques (below s2) (lm_nft s)).
  { apply do_claim_rewards_Ok in Hcl as [_ Hcl]. destruct (d_updated_at d =? _).
    - by destruct Hcl as (_ & _ & _ & ->).
    - destruct Hcl as ([_ Hn] & _). by rewrite Hn, N1. }
  pose proof (do_claim_book _ _ _ _ _ _ _ _ _ _ Hcl) as (_ & D1 & _).
  apply do_claim_quiet in Hcl. rewrite Hcur in Hcl.
  do 4 mguard Hrun. mstep Hrun st s3 Hst.
  assert (s3 = s2) as -> by (destruct (negb (lp_canceled p1)); minv Hst; done).
  mguard Hrun.
  match goal with Ht : Interfaces.transfer _ _ _ x0 _ = _ |- _ =>
    simpl in Ht; rewrite Hcur in Ht; apply below_quiet_transfer in Ht; rename Ht into Q3 end.
  mstep Hrun u2 s4 Hev.
  assert (Hn4 : lm_nft s4 = set_uniques ch (lm_nft s)).
  { assert (lm_nft s4 = set_uniques ch (lm_nft s2)) as ->
      by (destruct (negb (r =? 0)); minv Hev; done). rewrite N2. done. }
  minv Hrun. split; [done|]. split.
  - exists v. split; [done|].
    eapply below_quiet_trans; [exact Q1|]. eapply below_quiet_trans; [exact Hcl|].
    unfold below at 2. simpl. rewrite Hn4. exact Q3.
  - unfold below. simpl. rewrite Hn4. done.
Qed.

Lemma do_burn_below w c i (n n' : NftState U) v :
  do_burn w c i n = (Ok v, n') ->
  owner c i n = Some w /\ uniques n' = burn_commit c i (uniques n) /\
  (forall c' i', owner c' i' n' = with_token c i None (fun x y => owner x y n) c' i').
Proof.
  intros Hrun. pose proof (do_burn_Ok _ _ _ _ _ _ Hrun) as (Hs & _ & _ & _ & Ho).
  split_and!; try done. unfold do_burn, nft_deposit_event in Hrun. minv Hrun.
  match goal with Hu : burn_check _ _ _ = _ |- _ => apply burn_check_effect in Hu as [-> _] end. done.
Qed.

(** The reward currency of the farm of a deposit, when the farm exists, is not [t]. *)
Definition rewards_not_in (t : AssetId) (f : GlobalPoolId) s : Prop :=
  forall g, GlobalPoolData s !! f = Some g -> gp_reward_currency g <> t.

Lemma withdraw_shares_Ok w x s (v : unit) s' :
  withdraw_shares (Signed w) x s = (Ok v, s') ->
  exists d pr n f, DepositData s !! x = Some d /\
    LiquidityPoolMetadata s !! decode_pool_id x = Some (pr, n, f) /\
    owner NftClass x (lm_nft s) = Some w /\
    DepositData s' = delete x (DepositData s) /\
    (forall k i, owner k i (lm_nft s') = with_token NftClass x None (fun k i => owner k i (lm_nft s)) k i) /\
    exists u1, (u1 = below s \/ exists g, GlobalPoolData s !! f = Some g /\
                 below_quiet (gp_reward_currency g) (below s) u1) /\
      (if amm_exists pr (below s)
       then exists u2, Interfaces.transfer (get_share_token pr (below s)) account_id w (d_shares d) u1 =
                         (Ok tt, u2) /\ below s' = burn_commit NftClass x u2
       else below s' = burn_commit NftClass x u1).
Proof.
  unfold withdraw_shares, lm_deposit_event. rewrite transactional_Ok.
  intros Hrun. do 4 mguard Hrun. zbool. do 3 mguard Hrun.
  match goal with He : Signed _ = Signed _ |- _ => injection He as <- end.
  match type of Hrun with context [match ?m with _ => _ end] => destruct m as [[pr n] f] end.
  do 3 mguard Hrun. mstep Hrun r s1 Hr. destruct r as [d1 can].
  match goal with Hd : DepositData s !! _ = Some ?d |- _ => exists d, pr, n, f; rename d into d0 end.
  split; [done|]. split; [done|]. split; [congruence|].
  assert (H1' : d_shares d1 = d_shares d0 /\ DepositData s1 = DepositData s /\
    lm_nft s1 = set_uniques (below s1) (lm_nft s) /\
    (below s1 = below s \/ exists g, GlobalPoolData s !! f = Some g /\
       below_quiet (gp_reward_currency g) (below s) (below s1))).
  { destruct (LiquidityPoolData s !! (f, get_pair_id pr)) as [p|] eqn:Hp.
    - mstep Hr d2 s2 Hlv. minv Hr. match goal with He : (_, _) = (_, _) |- _ => injection He as -> -> end.
      pose proof (leave_liq_pool_book _ _ _ _ _ _ _ _ Hp Hlv) as (g & g' & p' & _ & _ & Hb).
      apply leave_liq_pool_quiet in Hlv as (? & ? & ?). unfold book in Hb. injection Hb as _ _ _ _ Hb _.
      split_and!; auto.
    - minv Hr. match goal with He : (_, _) = (_, _) |- _ => injection He as -> -> end.
      split_and!; auto. apply only_below_refl. }
  destruct H1' as (D1 & D2 & N1 & Hq).
  assert (Hamm : amm_exists pr (below s1) = amm_exists pr (below s) /\
    get_share_token pr (below s1) = get_share_token pr (below s)).
  { destruct Hq as [->|(g & _ & _ & Hq & _)]; [done|apply Hq]. }
  destruct Hamm as [A1 A2].
  mguard Hrun. mstep Hrun u2 s2 Htr. mstep Hrun u3 s3 Hburn. minv Hburn.
  match goal with Hb : do_burn _ _ _ _ = _ |- _ => apply do_burn_below in Hb as (_ & B1 & B2) end.
  mstep Hrun u4 s4 Hmeta.
  assert (Hm4 : lm_nft s4 = ch /\ DepositData s4 = DepositData s2).
  { destruct ((n =? 1) && can); minv Hmeta; done. }
  minv Hrun. destruct Hm4 as [M1 M2]. simpl. unfold below in *. simpl. rewrite M1, M2.
  assert (Hs2 : DepositData s2 = DepositData s1 /\
    if amm_exists pr (uniques (lm_nft s)) then exists u2,
      Interfaces.transfer (get_share_token pr (uniques (lm_nft s))) account_id w (d_shares d0)
        (uniques (lm_nft s1)) = (Ok tt, u2) /\ lm_nft s2 = set_uniques u2 (lm_nft s)
    else s2 = s1).
  { rewrite A1 in Htr. destruct (amm_exists pr (uniques (lm_nft s))); minv Htr; [|done].
    match goal with Ht : Interfaces.transfer _ _ _ _ _ = (Ok tt, ?y) |- _ =>
      rewrite A2, D1 in Ht; split; [done|]; exists y; split; [exact Ht|]; simpl; by rewrite N1 end. }
  destruct Hs2 as [E1 E2]. split; [congruence|].
  assert (Hown : forall k i, owner k i (lm_nft s2) = owner k i (lm_nft s)).
  { intros k i. unfold owner.
    assert (Ht1 : token_owner k i (uniques (lm_nft s1)) = token_owner k i (uniques (lm_nft s))).
    { destruct Hq as [->|(g & _ & _ & _ & Hq & _)]; [done|apply Hq]. }
    destruct (amm_exists pr (uniques (lm_nft s))); [|by rewrite E2].
    destruct E2 as (y & Ht & ->). simpl. by rewrite (transfer_tokens _ _ _ _ _ _ k i Ht). }
  split.
  - intros k i. rewrite B2. unfold with_token. by rewrite Hown.
  - exists (uniques (lm_nft s1)). split; [done|].
    destruct (amm_exists pr (uniques (lm_nft s))).
    + destruct E2 as (y & Ht & Hn). exists y. split; [done|]. rewrite B1. simpl. by rewrite Hn.
    + rewrite B1. simpl. by rewrite E2.
Qed.

(** [C12] A successful [withdraw_shares] is by the owner of the deposit's NFT; the deposit and
    the NFT are gone, no other token changes hands, and the LP token moves as it
    should: when the AMM pool still exists, exactly the deposited shares go from the
    pallet's account to the owner, and otherwise nothing moves. *)
Theorem lm_withdraw_exact w x s s' :
  withdraw_shares (Signed w) x s = (Ok tt, s') ->
  (forall y d, DepositData s !! y = Some d -> 0 <= d_shares d) -> w <> account_id ->
  exists d pr n f, DepositData s !! x = Some d /\
    LiquidityPoolMetadata s !! decode_pool_id x = Some (pr, n, f) /\
    owner NftClass x (lm_nft s) = Some w /\
    DepositData s' = delete x (DepositData s) /\
    (forall k i, owner k i (lm_nft s') = with_token NftClass x None (fun k i => owner k i (lm_nft s)) k i) /\
    let t := get_share_token pr (below s) in
    let y := if amm_exists pr (below s) then d_shares d else 0 in
    (rewards_not_in t f s -> keeps t account_id (d_shares d) (below s) ->
     forall z, free_balance t z (below s') = free_balance t z (below s) + moves t account_id w y t z).
Proof.
  intros Hrun Hty Hw.
  destruct (withdraw_shares_Ok _ _ _ _ _ Hrun) as (d & pr & n & f & Hd & Hm & Ho & Hdel & Hown & u1 & Hu1 & Htr).
  exists d, pr, n, f. split_and!; try done. cbv zeta. intros Hrc Hk z.
  assert (Hq : same_balances (get_share_token pr (below s)) (below s) u1).
  { destruct Hu1 as [->|(g & Hg & Hq & _)]; [done|]. apply Hq. intros E. by apply (Hrc g). }
  destruct (amm_exists pr (below s)).
  - destruct Htr as (u2 & Ht & ->). rewrite burn_balances.
    rewrite (transfer_moves _ _ _ _ _ _ Ht); [by rewrite Hq|congruence|by eapply Hty|].
    unfold keeps in *. by rewrite Hq.
  - rewrite Htr, burn_balances, Hq. unfold moves. repeat case_decide; lia.
Qed.

(** *** Deposits in removed pools *)

(** [C33] Whoever holds the NFT of a deposit whose pool was removed from its farm, or whose
    farm was destroyed, can withdraw it: nothing in the books of the pallet stands in
    the way.  What remains is that the currency pays out the shares and that the token
    is not frozen. *)
Theorem removed_pool_withdraw w x d s :
  lm_ok (book s) -> DepositData s !! x = Some d -> owner NftClass x (lm_nft s) = Some w ->
  (forall pr n f, LiquidityPoolMetadata s !! decode_pool_id x = Some (pr, n, f) ->
     LiquidityPoolData s !! (f, get_pair_id pr) = None /\
     (amm_exists pr (below s) = true -> exists u2,
        Interfaces.transfer (get_share_token pr (below s)) account_id w (d_shares d) (below s) =
          (Ok tt, u2))) ->
  (forall u, token_owner NftClass x u = Some w -> burn_check NftClass x u = (Ok tt, u)) ->
  exists s', withdraw_shares (Signed w) x s = (Ok tt, s') /\ DepositData s' = delete x (DepositData s).
Proof.
  intros Hok Hd Ho Hpool Hburn.
  destruct (lo_deposit _ Hok _ _ Hd) as (i & k & Hx & Hv & _ & [[[pr n] f] Hm]).
  change (LiquidityPoolMetadata s !! i = Some (pr, n, f)) in Hm.
  assert (Hdec : decode_pool_id x = i) by (subst x; by apply decode_encode).
  rewrite Hdec in Hpool. destruct (Hpool _ _ _ Hm) as [Hnone Hpay].
  assert (Hn : 1 <= n).
  { destruct (lo_meta _ Hok _ _ _ _ Hm) as [_ ->].
    assert (Hge : of_pool i one x d <= map_sum (of_pool i one) (DepositData s)).
    { apply map_sum_ge; [|done]. intros. unfold of_pool, one. case_decide; lia. }
    by rewrite of_pool_here in Hge. }
  assert (Hid : forall s0, get_pool_id_from_nft_id x s0 = (Ok i, s0)).
  { intros s0. unfold get_pool_id_from_nft_id, ensure. rewrite (proj2 (Z.ltb_lt _ _)).
    - simpl. unfold mbind, M_bind, run_bind, mret, M_ret. by rewrite Hdec.
    - subst x. rewrite encode_nft_id_sum by done. destruct Hv. lia. }
  (* the withdrawal itself *)
  assert (Hlast : forall s2, LiquidityPoolMetadata s2 = LiquidityPoolMetadata s ->
    DepositData s2 = DepositData s -> owner NftClass x (lm_nft s2) = Some w ->
    exists s', (zoom (C := NftState U) (do_burn w NftClass x) ;;
      (if (n =? 1) && true then modify (set_LiquidityPoolMetadata (delete i))
       else nfts ← ok_or (checked_sub n 1) (LmE LmErr.Overflow);
            modify (set_LiquidityPoolMetadata (insert i (pr, nfts, f)))) ;;
      modify (set_DepositData (delete x))) s2 = (Ok tt, s') /\
      DepositData s' = delete x (DepositData s)).
  { intros s2 Hm2 Hd2 Ho2. unfold owner in Ho2.
    assert (Hb : exists n', do_burn w NftClass x (lm_nft s2) = (Ok tt, n')).
    { eexists. unfold do_burn. erewrite bind_run by (unfold zoom; simpl; by rewrite (Hburn _ Ho2)).
      cbv beta. erewrite bind_run by (unfold gets, owner; simpl; by rewrite Ho2). cbv beta.
      erewrite bind_run by reflexivity. cbv beta.
      erewrite bind_run by (unfold ensure; by rewrite Z.eqb_refl). reflexivity. }
    destruct Hb as [n' Hb]. erewrite bind_run by (unfold zoom; simpl; by rewrite Hb). cbv beta.
    assert (Hc : checked_sub n 1 = Some (n - 1)) by (apply checked_sub_Some; lia).
    rewrite Hc. destruct ((n =? 1) && true); eexists; (split; [reflexivity|]); simpl; by rewrite Hd2. }
  unfold withdraw_shares. setoid_rewrite transactional_Ok.
  rewrite (bind_run _ _ s w s) by done. cbv beta.
  rewrite (bind_run _ _ s (Some w) s) by (unfold gets; by rewrite Ho). cbv beta.
  rewrite (bind_run _ _ s w s) by done. cbv beta.
  rewrite (bind_run _ _ s tt s) by (unfold ensure; by rewrite Z.eqb_refl). cbv beta.
  rewrite (bind_run _ _ s i s) by apply Hid. cbv beta.
  rewrite (bind_run _ _ s (Some (pr, n, f)) s) by (unfold gets; by rewrite Hm). cbv beta.
  rewrite (bind_run _ _ s (pr, n, f) s) by done. cbv beta iota.
  rewrite (bind_run _ _ s (Some d) s) by (unfold gets; by rewrite Hd). cbv beta.
  rewrite (bind_run _ _ s d s) by done. cbv beta iota zeta.
  rewrite (bind_run _ _ s None s) by (unfold gets; by rewrite Hnone). cbv beta.
  rewrite (bind_run _ _ s (d, true) s) by done. cbv beta iota.
  rewrite (bind_run _ _ s (amm_exists pr (below s)) s) by done. cbv beta.
  destruct (amm_exists pr (below s)) eqn:Hamm.
  - destruct (Hpay eq_refl) as [u2 Hu2].
    match goal with |- exists s', mbind _ ?m s = _ /\ _ =>
      assert (Hpaid : exists s2, m s = (Ok tt, s2) /\
        LiquidityPoolMetadata s2 = LiquidityPoolMetadata s /\ DepositData s2 = DepositData s /\
        lm_nft s2 = set_uniques u2 (lm_nft s)) end.
    { eexists. rewrite (bind_run _ _ s (get_share_token pr (below s)) s) by done. cbv beta zeta.
      erewrite bind_run by (unfold zoom; simpl; by rewrite Hu2). by split_and!. }
    destruct Hpaid as (s2 & Hs2 & M2 & D2 & N2). rewrite (bind_run _ _ s tt s2) by done.
    apply Hlast; [done|done|]. unfold owner. rewrite N2. simpl.
    by rewrite (transfer_tokens _ _ _ _ _ _ NftClass x Hu2).
  - rewrite (bind_run _ _ s tt s) by done. by apply Hlast.
Qed.

(** *** Claiming *)

Lemma get_now_period_same b s s' now :
  get_now_period b s = (Ok now, s) -> block_number (below s') = block_number (below s) ->
  get_now_period b s' = (Ok now, s').
Proof.
  unfold get_now_period, get_period_number, mbind, M_bind, run_bind, gets. intros Hrun ->. revert Hrun.
  destruct (checked_div _ _); simpl; [|done]. by intros [= ->].
Qed.

(** What a second claim will read after a successful one. *)
Lemma claim_rewards_Ok o x s v s' :
  claim_rewards o x s = (Ok v, s') ->
  exists w pr n f d p g now,
    o = Signed w /\ get_pool_id_from_nft_id x s' = (Ok (decode_pool_id x), s') /\
    LiquidityPoolMetadata s' !! decode_pool_id x = Some (pr, n, f) /\
    DepositData s' !! x = Some d /\ owner NftClass x (lm_nft s') = Some w /\
    LiquidityPoolData s' !! (f, get_pair_id pr) = Some p /\ lp_canceled p = false /\
    GlobalPoolData s' !! f = Some g /\ get_now_period (gp_blocks_per_period g) s' = (Ok now, s') /\
    d_updated_at d = now.
Proof.
  unfold claim_rewards, lm_deposit_event, put_farm, put_liq_pool. rewrite transactional_Ok.
  intros Hrun. mguard Hrun. mstep Hrun i s0 Hid.
  assert (Hid' : forall s1, get_pool_id_from_nft_id x s1 = (Ok (decode_pool_id x), s1)).
  { unfold get_pool_id_from_nft_id in *. minv Hid. intros s1. unfold ensure.
    by rewrite Hguard. }
  minv Hid. do 2 mguard Hrun.
  match type of Hrun with context [match ?m with _ => _ end] => destruct m as [[pr n] f] end.
  do 7 mguard Hrun. mguard Hrun. mstep Hrun now s0 Hnow. mguard Hrun. zbool.
  pose proof (get_now_period_Ok _ _ _ _ Hnow) as (-> & _ & _).
  mstep Hrun gp s1 Hup. destruct gp as [g1 p1].
  pose proof (maybe_update_quiet _ _ _ _ _ _ _ Hup) as (_ & _ & T1 & B1).
  pose proof (maybe_update_pools_Ok _ _ _ _ _ _ _ Hup) as [[_ N1] _].
  apply maybe_update_book in Hup as (Hb & (_ & _ & _ & _ & Hbl) & (_ & _ & _ & _ & _ & P6)).
  mstep Hrun r s2 Hcl. destruct r as [[r x0] d'].
  pose proof (do_claim_quiet _ _ _ _ _ _ _ _ _ _ Hcl) as (_ & _ & T2 & B2).
  pose proof (do_claim_book _ _ _ _ _ _ _ _ _ _ Hcl) as (Hb2 & _). rewrite Hb in Hb2.
  apply do_claim_rewards_Ok in Hcl as [_ Hcl].
  match goal with Hne : d_updated_at _ <> now |- _ => rewrite (proj2 (Z.eqb_neq _ _) Hne) in Hcl end.
  destruct Hcl as ([_ N2] & _ & _ & ->). minv Hrun.
  do 8 eexists. split_and!.
  - reflexivity.
  - apply Hid'.
  - simpl. use_book Hb2. eassumption.
  - simpl. by rewrite lookup_insert_eq.
  - unfold owner in *. simpl. unfold below in T1, T2. rewrite T2, T1. congruence.
  - simpl. by rewrite lookup_insert_eq.
  - congruence.
  - simpl. by rewrite lookup_insert_eq.
  - rewrite Hbl. eapply get_now_period_same; [exact Hnow|]. unfold below in *. simpl. congruence.
  - done.
Qed.

(** A deposit is rewarded once per period: after a successful [claim_rewards] the same
    claim in the same block is refused and changes nothing. *)
Theorem double_claim_refused o x s s' :
  claim_rewards o x s = (Ok tt, s') ->
  claim_rewards o x s' = (Err (LmE LmErr.DoubleClaimInThePeriod), s').
Proof.
  intros (w & pr & n & f & d & p & g & now & -> & Hid & Hm & Hd & Ho & Hp & Hc & Hg & Hnow & Hup)%claim_rewards_Ok.
  unfold claim_rewards, transactional.
  rewrite (bind_run _ _ s' w s') by done. cbv beta.
  rewrite (bind_run _ _ s' (decode_pool_id x) s') by done. cbv beta.
  rewrite (bind_run _ _ s' (Some (pr, n, f)) s') by (unfold gets; by rewrite Hm). cbv beta.
  rewrite (bind_run _ _ s' (pr, n, f) s') by done. cbv beta iota.
  rewrite (bind_run _ _ s' (Some d) s') by (unfold gets; by rewrite Hd). cbv beta.
  rewrite (bind_run _ _ s' d s') by done. cbv beta.
  rewrite (bind_run _ _ s' (Some w) s') by (unfold gets; by rewrite Ho). cbv beta.
  rewrite (bind_run _ _ s' w s') by done. cbv beta.
  rewrite (bind_run _ _ s' tt s') by (unfold ensure; by rewrite Z.eqb_refl). cbv beta zeta.
  rewrite (bind_run _ _ s' p s')
    by (unfold get_liq_pool, mbind, M_bind, run_bind, gets; by rewrite Hp). cbv beta.
  rewrite (bind_run _ _ s' tt s') by (unfold ensure; by rewrite Hc). cbv beta.
  rewrite (bind_run _ _ s' g s')
    by (unfold get_farm, mbind, M_bind, run_bind, gets; by rewrite Hg). cbv beta.
  rewrite (bind_run _ _ s' now s') by done. cbv beta.
  unfold mbind at 1, M_bind, run_bind, ensure. rewrite Hup, Z.eqb_refl. done.
Qed.
End chain.
