(* ===== verification/LmSolvency.v ===== *)
(** * The rewards owed to depositors are covered

    A liquidity pool owes each of its deposits the growth of its reward per valued share
    since the deposit was made, less what was claimed.  This file proves that the account
    of the pool always holds at least the sum of what it owes, whatever calls are made:
    updates bring in as much as they promise, claims and withdrawals take out no more than
    they settle, and no call touches the account of another pool.

    The reward formulas of [hydra_dx_math] enter with their documented bounds.  A pool is
    covered if its account is never swept as dust in the reward currency ([never_swept] of
    [Interfaces.v]: no code of the repository lists these accounts, so this is a condition on
    the currency, met for instance by an existential deposit of one unit); what happens to
    the accounts of other pools does not matter. *)

From S2P Require Import Prelude Primitives Errors Interfaces Nft NftProps LiquidityMining.
From S2P Require Import LmProps LmBooks LmFunds.

(** [calculate_accumulated_rps] distributes at most the reward; [calculate_user_reward]
    splits what was earned and not claimed into a reward and an unclaimable rest, and
    returns zeros when nothing was earned. *)
Class LmMathLaws `{LmMath} : Prop := {
  accumulated_rps_bound r t w r' :
    0 < t -> 0 <= w -> calculate_accumulated_rps r t w = Some r' ->
    r <= r' /\ (r' - r) * t <= w;
  user_reward_split rps v cl rps' m a b :
    rps <= rps' -> 0 <= v -> 0 <= cl -> calculate_user_reward rps v cl rps' m = Some (a, b) ->
    0 <= a /\ 0 <= b /\
    (cl + a + b = (rps' - rps) * v \/ (rps' - rps) * v = 0 /\ a = 0 /\ b = 0);
  global_pool_shares_nonneg v m z :
    0 <= v -> 0 <= m -> calculate_global_pool_shares v m = Some z -> 0 <= z
}.

(** The accounts of the pallet do not collect dust, and minting a token moves no currency. *)
Class LmAccountsApart (U : Type) `{Uniques U} `{MultiCurrency U} `{PalletAccounts} : Prop := {
  sub_account_not_dust i : in_range 32 i -> into_sub_account i <> dust_account (S := U);
  mint_balances k i o (u u' : U) c w :
    uniques_mint k i o u = (Ok tt, u') -> free_balance c w u' = free_balance c w u;
  total_balance_nonneg c w (u : U) : 0 <= total_balance c w u
}.

Section solvency.
Context {U : Type} `{Uniques U} `{MultiCurrency U} `{AMM U} `{BlockNumberProvider U}.
Context `{LmMath} `{PalletAccounts} {ncfg : NftConfig} {cfg : LmConfig}.
Context `{!MultiCurrencyLaws U} `{!UniquesLaws U} `{!LmChainLaws U} `{!PalletAccountsLaws}.
Context `{!LmMathLaws} `{!LmAccountsApart U}.
Notation State := (LmState U).
Implicit Types (s : State) (u : U) (D : gmap InstanceId Deposit).

#[local] Ltac minv_hook H ::= lm_hook H.

(** ** What a pool owes *)

Definition cash (c : AssetId) (i : PoolId) u : Balance := free_balance c (into_sub_account i) u.

(** The account of a pool keeps what is not transferred from it. *)
Definition spared (c : AssetId) (i : PoolId) : Prop := never_swept (S := U) c (into_sub_account i).

Definition owed (p : LiquidityPoolYieldFarm) (d : Deposit) : Z :=
  (lp_accumulated_rpvs p - d_accumulated_rpvs d) * d_valued_shares d
  - d_accumulated_claimed_rewards d.
Definition debt (p : LiquidityPoolYieldFarm) D : Z := map_sum (of_pool (lp_id p) (owed p)) D.

Record deposit_ok (p : LiquidityPoolYieldFarm) (d : Deposit) : Prop := mkDepositOk {
  do_valued : 0 <= d_valued_shares d;
  do_rpvs : d_accumulated_rpvs d <= lp_accumulated_rpvs p;
  do_claimed : 0 <= d_accumulated_claimed_rewards d;
  do_owed : 0 <= owed p d
}.

Record pool_ok (c : AssetId) (p : LiquidityPoolYieldFarm) D u : Prop := mkPoolOk {
  po_stake : 0 <= lp_stake_in_global_pool p;
  po_multiplier : 0 <= lp_multiplier p;
  po_deposits x d : D !! x = Some d -> decode_pool_id x = lp_id p -> deposit_ok p d;
  po_covered : spared c (lp_id p) -> debt p D <= cash c (lp_id p) u
}.

(** Only the id, the reward per valued share, the stake and the multiplier matter. *)
Lemma pool_ok_same c p p' D u :
  pool_ok c p D u -> lp_id p' = lp_id p -> lp_accumulated_rpvs p' = lp_accumulated_rpvs p ->
  0 <= lp_stake_in_global_pool p' -> 0 <= lp_multiplier p' -> pool_ok c p' D u.
Proof.
  intros [K1 K2 K3 K4] Hi Hr Hs Hm.
  assert (Ho : forall d, owed p' d = owed p d) by (intros; unfold owed; by rewrite Hr).
  split; auto.
  - intros x d Hx Hd. rewrite Hi in Hd. destruct (K3 x d Hx Hd). split; rewrite ?Hr, ?Ho; auto.
  - rewrite Hi. intros Hsp. specialize (K4 Hsp). unfold debt, cash in *. rewrite Hi.
    rewrite (map_sum_ext _ (of_pool (lp_id p) (owed p))); [done|].
    intros k x _. unfold of_pool. by rewrite Ho.
Qed.

(** More cash, or deposits that differ in other pools. *)
Lemma pool_ok_frame c p D D' u u' :
  pool_ok c p D u -> cash c (lp_id p) u <= cash c (lp_id p) u' ->
  (forall v, map_sum (of_pool (lp_id p) v) D' = map_sum (of_pool (lp_id p) v) D) ->
  (forall x d, D' !! x = Some d -> decode_pool_id x = lp_id p -> D !! x = Some d) ->
  pool_ok c p D' u'.
Proof.
  intros [K1 K2 K3 K4] Hc Hsum Hin. split; [done|done| |].
  - intros x d Hx Hd. eauto.
  - intros Hsp. specialize (K4 Hsp). unfold debt in *. rewrite Hsum. lia.
Qed.

Lemma of_pool_insert_other i v x d D :
  decode_pool_id x <> i -> map_sum (of_pool i v) (<[x := d]> D) = map_sum (of_pool i v) D.
Proof.
  intros Hx. rewrite map_sum_insert. unfold sum_at. rewrite of_pool_other by done.
  case_match; [rewrite of_pool_other by done|]; lia.
Qed.
Lemma of_pool_delete_other i v x D :
  decode_pool_id x <> i -> map_sum (of_pool i v) (delete x D) = map_sum (of_pool i v) D.
Proof.
  intros Hx. rewrite map_sum_delete. unfold sum_at.
  case_match; [rewrite of_pool_other by done|]; lia.
Qed.

(** A higher reward per share adds to the debt in proportion to the valued shares. *)
Lemma debt_grows p p' D :
  lp_id p' = lp_id p ->
  debt p' D = debt p D + (lp_accumulated_rpvs p' - lp_accumulated_rpvs p) *
                map_sum (of_pool (lp_id p) d_valued_shares) D.
Proof.
  intros Hid. unfold debt. rewrite Hid.
  induction D as [|x d D Hx IH] using map_ind; [rewrite !map_sum_empty; lia|].
  rewrite !map_sum_insert_None, IH by done. unfold of_pool, owed. case_decide; lia.
Qed.

(** ** Transfers and the accounts of pools *)

Lemma transfer_kept c f t x u u' c' i :
  Interfaces.transfer c f t x u = (Ok tt, u') -> 0 <= x -> in_range 32 i ->
  into_sub_account i <> f -> cash c' i u <= cash c' i u'.
Proof.
  intros Ht Hx Hi Hf. unfold cash. pose proof (sub_account_not_dust i Hi) as Hd.
  destruct (decide (c' = c)) as [->|Hc]; [|by rewrite (transfer_frame _ _ _ _ _ _ c' Ht Hc)].
  destruct (decide (into_sub_account i = t)) as [<-|Hne].
  - rewrite (transfer_credit _ _ _ _ _ _ Ht) by auto. lia.
  - by rewrite (transfer_others _ _ _ _ _ _ _ Ht Hx Hf Hne (or_introl Hd)).
Qed.

Lemma transfer_from_sub c i t x u u' :
  Interfaces.transfer c (into_sub_account i) t x u = (Ok tt, u') -> 0 <= x -> spared c i ->
  cash c i u - x <= cash c i u'.
Proof.
  intros Ht Hx Hsp. unfold cash. destruct (decide (into_sub_account i = t)) as [Heq|Hne].
  - rewrite (transfer_noop _ _ _ _ _ _ Ht (or_introl Heq)). lia.
  - rewrite (Hsp _ _ _ _ Ht Hne Hx). lia.
Qed.

(** No account of the pallet loses, but those of [J]. *)
Definition kept_but (J : PoolId -> Prop) u u' : Prop :=
  forall c i, in_range 32 i -> 1 <= i -> ~ J i -> cash c i u <= cash c i u'.

Lemma kept_but_trans J u1 u2 u3 : kept_but J u1 u2 -> kept_but J u2 u3 -> kept_but J u1 u3.
Proof. intros A B c i Hi H1' HJ. specialize (A c i Hi H1' HJ). specialize (B c i Hi H1' HJ). lia. Qed.
Lemma kept_but_mono (J J' : PoolId -> Prop) u u' :
  kept_but J u u' -> (forall i, J i -> J' i) -> kept_but J' u u'.
Proof. intros A Hm c i Hi H1' HJ. apply A; auto. Qed.
Lemma kept_but_refl J u : kept_but J u u.
Proof. intros c i _ _ _. lia. Qed.

Lemma kept_sub c j t x u u' :
  Interfaces.transfer c (into_sub_account j) t x u = (Ok tt, u') -> 0 <= x -> in_range 32 j ->
  kept_but (eq j) u u'.
Proof.
  intros Ht Hx Hj c' i Hi _ Hne. eapply transfer_kept; [exact Ht|done|done|].
  intros E. apply Hne. symmetry. by apply sub_account_inj.
Qed.

(** ** Updating and claiming *)

Lemma update_pool_ok g p now D u g' p' u' :
  pools_updated g p now u g' p' u' -> pool_ok (gp_reward_currency g) p D u ->
  lp_total_valued_shares p = map_sum (of_pool (lp_id p) d_valued_shares) D ->
  in_range 32 (gp_id g) -> in_range 32 (lp_id p) -> gp_id g <> lp_id p ->
  pool_ok (gp_reward_currency g) p' D u' /\ kept_but (eq (gp_id g)) u u'.
Proof.
  intros (_ & _ & _ & g1 & _ & Hle & _ & _ & Hp) Hok Htot Hg Hi Hne.
  destruct (lp_total_valued_shares p =? 0) eqn:Hz; zbool.
  { destruct Hp as [-> ->]. split; [|apply kept_but_refl].
    destruct Hok. by eapply (pool_ok_same _ p). }
  destruct Hp as (rpvs & Hrps & -> & Ht).
  assert (Hnn : 0 <= lp_total_valued_shares p).
  { rewrite Htot. apply map_sum_nonneg. intros x d Hx. unfold of_pool. case_decide; [|done].
    by eapply do_valued, po_deposits. }
  assert (Hr : 0 <= pool_reward g1 p).
  { unfold pool_reward. apply Z.mul_nonneg_nonneg; [lia|by eapply po_stake]. }
  apply accumulated_rps_bound in Hrps as [Hup Hbound]; [|lia|done].
  split; [|by eapply kept_sub].
  set (p' := lp_set_rewards now rpvs (gp_accumulated_rpz g1) p).
  pose proof (debt_grows p p' D eq_refl) as Hd. destruct Hok as [K1 K2 K3 K4]. split; [done|done| |].
  - intros x d Hx Hdec. destruct (K3 x d Hx Hdec) as [V1 V2 V3 V4]. split; [done|simpl; lia|done|].
    unfold owed in *. simpl. nia.
  - intros Hsp. specialize (K4 Hsp). rewrite Hd, <- Htot. simpl.
    assert (cash (gp_reward_currency g) (lp_id p) u + pool_reward g1 p =
      cash (gp_reward_currency g) (lp_id p) u') as <-; [|lia].
    unfold cash. rewrite (transfer_credit _ _ _ _ _ _ Ht); [done| |done|].
    + intros E. by apply Hne, sub_account_inj.
    + left. by apply sub_account_not_dust.
Qed.

Lemma maybe_update_pool_ok g p now D s g' p' s' :
  maybe_update_pools g p now s = (Ok (g', p'), s') ->
  pool_ok (gp_reward_currency g) p D (below s) ->
  lp_total_valued_shares p = map_sum (of_pool (lp_id p) d_valued_shares) D ->
  in_range 32 (gp_id g) -> in_range 32 (lp_id p) -> gp_id g <> lp_id p ->
  pool_ok (gp_reward_currency g') p' D (below s') /\ kept_but (eq (gp_id g)) (below s) (below s').
Proof.
  intros Hrun Hok Htot Hg Hi Hne.
  pose proof (maybe_update_book _ _ _ _ _ _ _ Hrun) as (_ & (_ & _ & -> & _) & _).
  apply maybe_update_pools_Ok in Hrun as (_ & [[= -> -> ->]|Hu]);
    [split; [done|apply kept_but_refl]|by eapply update_pool_ok].
Qed.

(** What a claim pays and what it leaves. *)
Lemma do_claim_split w d p now c s r x d' s' :
  do_claim_rewards w d p now c s = (Ok (r, x, d'), s') ->
  r = 0 /\ x = 0 /\ d' = d /\ s' = s \/
  (exists m, calculate_user_reward (d_accumulated_rpvs d) (d_valued_shares d)
     (d_accumulated_claimed_rewards d) (lp_accumulated_rpvs p) m = Some (r, x)) /\
  Interfaces.transfer c (into_sub_account (lp_id p)) w r (below s) = (Ok tt, below s') /\
  d' = d_set_claimed (d_accumulated_claimed_rewards d + r) now d.
Proof.
  intros Hrun. pose proof (do_claim_rewards_Ok _ _ _ _ _ _ _ _ _ _ Hrun) as [_ Hd].
  unfold do_claim_rewards in Hrun. mstep Hrun n s1 Hs. minv Hs.
  destruct (d_updated_at d =? now); [by left|]. destruct Hd as (_ & _ & Ht & ->).
  right. split; [|done]. mstep Hrun m s2 Hm. minv Hm. minv Hrun.
  match goal with He : (_, _, _) = (_, _, _) |- _ => injection He as -> -> _ end.
  match goal with Hc : calculate_user_reward _ _ _ _ _ = Some ?y |- _ =>
    exists m; rewrite Hc; by destruct y end.
Qed.

Lemma claim_pool_ok w y d p now c D s r x d' s' :
  do_claim_rewards w d p now c s = (Ok (r, x, d'), s') ->
  pool_ok c p D (below s) -> D !! y = Some d -> decode_pool_id y = lp_id p -> in_range 32 (lp_id p) ->
  pool_ok c p (<[y := d']> D) (below s') /\ kept_but (eq (lp_id p)) (below s) (below s') /\
  0 <= x <= owed p d'.
Proof.
  intros Hcl Hok Hy Hdec Hi. pose proof (po_deposits _ _ _ _ Hok y d Hy Hdec) as [V1 V2 V3 V4].
  apply do_claim_split in Hcl as [(-> & -> & -> & ->)|([m Hm] & Ht & ->)].
  { rewrite insert_id by done. split_and!; [done|apply kept_but_refl|done|done]. }
  apply user_reward_split in Hm as (Hr & Hx & Hsum); [|done..].
  set (d' := d_set_claimed _ now d).
  assert (Howe : owed p d' = owed p d - r) by (unfold owed; simpl; lia).
  assert (Hxo : x <= owed p d - r).
  { unfold owed in *. destruct Hsum as [?|(? & ? & ?)]; lia. }
  split_and!; [|by eapply kept_sub|done|lia].
  destruct Hok as [K1 K2 K3 K4]. split; [done|done| |].
  - intros x' d0 [[<- <-]|[_ Hd0]]%lookup_insert_Some Hdx; [|by eapply K3].
    split; [done|done|simpl; lia|lia].
  - intros Hsp. specialize (K4 Hsp). unfold debt in *. rewrite map_sum_insert, of_pool_here by done.
    unfold sum_at. rewrite Hy, of_pool_here by done.
    pose proof (transfer_from_sub _ _ _ _ _ _ Ht Hr Hsp). lia.
Qed.

(** ** Farms and pools have different ids *)

Definition ids_apart (b : Book) : Prop :=
  forall f g i m, b_farms b !! f = Some g -> b_meta b !! i = Some m -> f <> i.

(** No new ids. *)
Lemma ids_apart_sub b b' :
  ids_apart b -> (forall f, is_Some (b_farms b' !! f) -> is_Some (b_farms b !! f)) ->
  (forall i, is_Some (b_meta b' !! i) -> is_Some (b_meta b !! i)) -> ids_apart b'.
Proof.
  intros Ha Hf Hm f g i m Hg Hi.
  destruct (Hf f) as [g0 Hg0]; [eauto|]. destruct (Hm i) as [m0 Hm0]; [eauto|]. eauto.
Qed.

Lemma lookup_insert_old {K A} `{Countable K} (m : gmap K A) k x k' :
  is_Some (m !! k) -> is_Some (<[k := x]> m !! k') -> is_Some (m !! k').
Proof. intros Hk [->|[_ ?]]%lookup_insert_is_Some; done. Qed.
Lemma lookup_delete_old {K A} `{Countable K} (m : gmap K A) k k' :
  is_Some (delete k m !! k') -> is_Some (m !! k').
Proof. by intros [_ ?]%lookup_delete_is_Some. Qed.

Lemma ids_apart_put f a g p b :
  ids_apart b -> is_Some (b_farms b !! f) -> ids_apart (bk_put f a g p b).
Proof.
  intros Ha Hf. eapply ids_apart_sub; [done| |done]. simpl. intros f'. by apply lookup_insert_old.
Qed.

Lemma lm_dispatch_apart o c s v s' :
  lm_ok (book s) -> ids_apart (book s) -> lm_dispatch o c s = (Ok v, s') -> ids_apart (book s').
Proof.
  intros Hok Ha Hrun.
  assert (Hput : forall f pr b', rewritten f pr s b' -> ids_apart b').
  { intros f pr b' (g & p & g' & p' & [Hg Hp] & _ & _ & _ & _ & _ & ->).
    apply ids_apart_put; [done|]. by exists g. }
  destruct c; simpl in Hrun.
  - apply create_farm_book in Hrun as (g & _ & _ & _ & _ & ->).
    intros f' g' i m Hf Hm. simpl in *.
    apply lookup_insert_Some in Hf as [[<- _]|[_ Hf]]; [|by eapply Ha].
    destruct m as [[pr n] f]. destruct (lo_meta _ Hok _ _ _ _ Hm) as [Hi _]. simpl in Hi. lia.
  - apply destroy_farm_book in Hrun as (g & _ & _ & _ & ->).
    eapply ids_apart_sub; [done| |done]. intros f'. apply lookup_delete_old.
  - apply withdraw_undistributed_book in Hrun. by rewrite Hrun.
  - apply add_liquidity_pool_book in Hrun as (g & g' & p & Hg & _ & _ & Hid & _ & _ & ->); [|done].
    intros f' g0 i mt Hf Hm. simpl in *.
    assert (Hfar : is_Some (GlobalPoolData s !! f')).
    { eapply lookup_insert_old; [by exists g|by eexists]. }
    destruct Hfar as [g1 Hg1]. apply lookup_insert_Some in Hm as [[<- _]|[_ Hm]]; [|by eapply Ha].
    destruct (lo_farm _ Hok _ _ Hg1) as (_ & Hle & _). simpl in Hle. lia.
  - by eapply Hput, update_liquidity_pool_book.
  - by eapply Hput, cancel_liquidity_pool_book.
  - by eapply Hput, resume_liquidity_pool_book.
  - apply remove_liquidity_pool_book in Hrun as (g & p & g' & [Hg _] & _ & _ & ->).
    eapply ids_apart_sub; [done| |]; simpl.
    + intros f'. apply lookup_insert_old. by exists g.
    + intros i. repeat case_match; try done. apply lookup_delete_old.
  - apply deposit_shares_book in Hrun as (g & p & g' & p' & d & pr0 & n & f0 & (Hg & _) & _ & _ & _ & Hm & ->).
    apply ids_apart_put; [|by exists g]. eapply ids_apart_sub; [done|done|]. simpl.
    intros i. apply lookup_insert_old. eauto.
  - apply claim_rewards_book in Hrun as (d & d' & pr & n & f & g & p & g' & p' & _ & _ & _ & _ & (Hg & _) & ->).
    assert (Hp : ids_apart (bk_put f (get_pair_id pr) g' p' (book s))) by (apply ids_apart_put; [done|by exists g]).
    exact Hp.
  - apply withdraw_shares_book in Hrun as (d & pr & n & f & m & b1 & Hd & Hm & -> & Hcase).
    assert (Hb1 : ids_apart b1 /\ b_meta b1 = LiquidityPoolMetadata s).
    { destruct Hcase as [(_ & -> & _)|(_ & g & p & g' & p' & -> & (Hg & _))]; [done|].
      split; [|done]. apply ids_apart_put; [done|by exists g]. }
    destruct Hb1 as [Hb1 Hmeta]. eapply ids_apart_sub; [exact Hb1|done|]. simpl. intros i.
    rewrite Hmeta. destruct m; [|apply lookup_delete_old]. apply lookup_insert_old. eauto.
Qed.

(** ** The invariant *)

Record solvent s : Prop := mkSolvent {
  sv_pool f a p g :
    LiquidityPoolData s !! (f, a) = Some p -> GlobalPoolData s !! f = Some g ->
    pool_ok (gp_reward_currency g) p (DepositData s) (below s);
  sv_shares x d : DepositData s !! x = Some d -> 0 <= d_shares d
}.

Record lm_funds_ok s : Prop := mkFundsOk {
  fo_books : lm_ok (book s);
  fo_shares : shares_ok (book s);
  fo_ids : ids_apart (book s);
  fo_solvent : solvent s
}.

(** What is known of a pool in the books. *)
Lemma pool_facts s f a p g :
  lm_funds_ok s -> LiquidityPoolData s !! (f, a) = Some p -> GlobalPoolData s !! f = Some g ->
  gp_id g = f /\ in_range 32 f /\ 1 <= f /\ in_range 32 (lp_id p) /\ 1 <= lp_id p /\ f <> lp_id p /\
  lp_total_valued_shares p = map_sum (of_pool (lp_id p) d_valued_shares) (DepositData s) /\
  pool_ok (gp_reward_currency g) p (DepositData s) (below s).
Proof.
  intros [Hok Hsh Hids Hsol] Hp Hg.
  destruct (lo_pool _ Hok _ _ _ Hp) as (_ & (pr & n & Hm & _) & _).
  destruct (lo_meta _ Hok _ _ _ _ Hm) as [Hi _]. destruct (lo_farm _ Hok _ _ Hg) as (Hid & Hf & _).
  destruct (lo_seq _ Hok) as [Hseq _]. destruct (so_total _ Hsh _ _ Hp) as [_ Hv].
  unfold in_range. split_and!; try lia; try done; [by eapply Hids|by eapply sv_pool].
Qed.

(** The pool of a deposit is the one found under its farm and pair. *)
Lemma deposit_pool s x pr n f a p :
  lm_funds_ok s -> LiquidityPoolMetadata s !! decode_pool_id x = Some (pr, n, f) ->
  LiquidityPoolData s !! (f, a) = Some p -> get_pair_id pr = a -> decode_pool_id x = lp_id p.
Proof.
  intros [Hok Hsh _ _] Hm Hp Ha.
  destruct (lo_pool _ Hok _ _ _ Hp) as (_ & (pr' & n' & Hm' & Heq) & _).
  eapply (so_unique _ Hsh); [exact Hm|exact Hm'|congruence].
Qed.

(** A call that rewrites one pool and its farm. *)
Lemma solvent_put s s' f a g p g' p' :
  lm_funds_ok s -> GlobalPoolData s !! f = Some g -> LiquidityPoolData s !! (f, a) = Some p ->
  GlobalPoolData s' = <[f := g']> (GlobalPoolData s) ->
  LiquidityPoolData s' = <[(f, a) := p']> (LiquidityPoolData s) ->
  gp_reward_currency g' = gp_reward_currency g ->
  pool_ok (gp_reward_currency g) p' (DepositData s') (below s') ->
  (forall i v, i <> lp_id p ->
     map_sum (of_pool i v) (DepositData s') = map_sum (of_pool i v) (DepositData s)) ->
  (forall x d, DepositData s' !! x = Some d -> decode_pool_id x <> lp_id p ->
     DepositData s !! x = Some d) ->
  (forall x d, DepositData s' !! x = Some d -> 0 <= d_shares d) ->
  kept_but (fun i => i = f \/ i = lp_id p) (below s) (below s') -> solvent s'.
Proof.
  intros Hfo Hg Hp Hg' Hp' Hcur Hpool Hsum Hdep Hsh Hkept. split; [|exact Hsh].
  intros f1 a1 q g1 Hq Hg1. rewrite Hp' in Hq. rewrite Hg' in Hg1.
  apply lookup_insert_Some in Hq as [[[= <- <-] <-]|[Hne Hq]].
  { rewrite lookup_insert_eq in Hg1. injection Hg1 as <-. by rewrite Hcur. }
  assert (Hold : exists g0, GlobalPoolData s !! f1 = Some g0 /\ gp_reward_currency g0 = gp_reward_currency g1).
  { apply lookup_insert_Some in Hg1 as [[<- <-]|[_ Hg1]]; eauto. }
  destruct Hold as (g0 & Hg0 & <-).
  destruct (pool_facts _ _ _ _ _ Hfo Hq Hg0) as (_ & _ & _ & Hqi & Hq1 & _ & _ & Hqok).
  assert (Hids : lp_id q <> lp_id p).
  { intros E. apply Hne. symmetry. by eapply (pool_ids_distinct (book s)); [apply Hfo|..]. }
  assert (Hqf : lp_id q <> f).
  { destruct (lo_pool _ (fo_books _ Hfo) _ _ _ Hq) as (_ & (pr & n & Hm & _) & _).
    intros E. by apply (fo_ids _ Hfo f g (lp_id q) (pr, n, f1)). }
  eapply pool_ok_frame; [exact Hqok|..].
  - apply Hkept; [done|done|tauto].
  - intros v. by apply Hsum.
  - intros x d Hx Hd. apply Hdep; [done|congruence].
Qed.

(** A call that leaves the deposits and the pools it does not remove alone. *)
Lemma solvent_kept s s' J :
  lm_funds_ok s -> DepositData s' = DepositData s ->
  (forall f a p g', LiquidityPoolData s' !! (f, a) = Some p -> GlobalPoolData s' !! f = Some g' ->
     LiquidityPoolData s !! (f, a) = Some p /\ ~ J (lp_id p) /\
     exists g, GlobalPoolData s !! f = Some g /\ gp_reward_currency g' = gp_reward_currency g) ->
  kept_but J (below s) (below s') -> solvent s'.
Proof.
  intros Hfo Hd Hfarm Hkept. split; rewrite Hd; [|apply (fo_solvent _ Hfo)].
  intros f a p g' Hpool' Hg'. destruct (Hfarm _ _ _ _ Hpool' Hg') as (Hpool & HJ & g & Hg & ->).
  destruct (pool_facts _ _ _ _ _ Hfo Hpool Hg) as (_ & _ & _ & Hi & H1' & _ & _ & Hok).
  eapply pool_ok_frame; [exact Hok|by apply Hkept|done|done].
Qed.

(** ** The calls *)

(** An account of a user: not one of the pallet's. *)
Definition user (w : AccountId) : Prop := forall i, in_range 32 i -> into_sub_account i <> w.

Lemma user_kept c w t x u u' :
  user w -> Interfaces.transfer c w t x u = (Ok tt, u') -> 0 <= x ->
  forall J, kept_but J u u'.
Proof. intros Hw Ht Hx J c' i Hi _ _. eapply transfer_kept; [exact Ht|done|done|by apply Hw]. Qed.

Lemma create_farm_solvent o tr pl bl ia rc w y s v s' :
  lm_funds_ok s -> create_farm o tr pl bl ia rc w y s = (Ok v, s') -> user w -> 0 <= tr -> solvent s'.
Proof.
  intros Hfo Hrun Hw Htr. pose proof (create_farm_book _ _ _ _ _ _ _ _ _ _ _ Hrun) as (g & _ & _ & _ & _ & Hb).
  unfold book, bk_farm in Hb. injection Hb as _ _ Hf Hp Hd _.
  eapply (solvent_kept s s' (fun _ => False)); [done|done| |].
  - intros f a p g' Hpool. rewrite Hf. rewrite Hp in Hpool. destruct (lo_pool _ (fo_books _ Hfo) _ _ _ Hpool) as ([g0 Hg0] & _).
    destruct (lo_farm _ (fo_books _ Hfo) _ _ Hg0) as (_ & Hle & _).
    rewrite lookup_insert_ne by (simpl in Hle; lia). intros Hg'. split_and!; [done|tauto|eauto].
  - unfold create_farm, lm_deposit_event, put_farm, validate_create_farm_data in Hrun. dinv Hrun.
    match goal with Hn : get_next_pool_id _ = _ |- _ => apply get_next_pool_id_Ok in Hn as (-> & _ & ->) end.
    match goal with Ht : Interfaces.transfer _ _ _ _ _ = _ |- _ =>
      apply (user_kept _ _ _ _ _ _ Hw Ht Htr) end.
Qed.

(** The id of a pool is not that of a farm. *)
Lemma pool_not_farm s f a p f' g' :
  lm_funds_ok s -> LiquidityPoolData s !! (f, a) = Some p -> GlobalPoolData s !! f' = Some g' ->
  f' <> lp_id p.
Proof.
  intros Hfo Hp Hg. destruct (lo_pool _ (fo_books _ Hfo) _ _ _ Hp) as (_ & (pr & n & Hm & _) & _).
  by eapply (fo_ids _ Hfo).
Qed.

Lemma destroy_farm_solvent o f s v s' :
  lm_funds_ok s -> destroy_farm o f s = (Ok v, s') -> solvent s'.
Proof.
  intros Hfo Hrun. pose proof (destroy_farm_book _ _ _ _ _ Hrun) as (g & _ & _ & _ & Hb).
  unfold book, bk_drop_farm in Hb. injection Hb as _ _ Hf Hp Hd _.
  eapply (solvent_kept s s' (fun _ => False)); [done|done| |].
  - intros f' a p g'. rewrite Hf, Hp. intros Hpool [_ Hg']%lookup_delete_Some.
    split_and!; [done|tauto|eauto].
  - unfold destroy_farm, lm_deposit_event in Hrun. dinv Hrun. apply kept_but_refl.
Qed.

Lemma withdraw_undistributed_solvent o f s v s' :
  lm_funds_ok s -> withdraw_undistributed_rewards o f s = (Ok v, s') -> solvent s'.
Proof.
  intros Hfo Hrun. pose proof (withdraw_undistributed_book _ _ _ _ _ Hrun) as Hb.
  unfold book in Hb. injection Hb as _ _ Hf Hp Hd _.
  unfold withdraw_undistributed_rewards, lm_deposit_event in Hrun. dinv Hrun.
  match goal with Hg : GlobalPoolData s !! f = Some ?g |- _ =>
    destruct (lo_farm _ (fo_books _ Hfo) _ _ Hg) as (Hid & Hle & _);
    eapply (solvent_kept s _ (eq f)); [done|done| |];
    [intros f' a p g' Hpool Hg'; split_and!; [done|by eapply pool_not_farm|eauto]|] end.
  match goal with Ht : Interfaces.transfer _ _ _ _ _ = _ |- _ => rewrite Hid in Ht;
    eapply kept_sub; [exact Ht|apply total_balance_nonneg|] end.
  destruct (lo_seq _ (fo_books _ Hfo)) as [? _]. simpl in *. unfold in_range. lia.
Qed.

Lemma add_liquidity_pool_solvent o f pr m c s v s' :
  lm_funds_ok s -> add_liquidity_pool o f pr m c s = (Ok v, s') -> 0 <= m -> solvent s'.
Proof.
  intros Hfo Hrun Hm.
  pose proof (add_liquidity_pool_book _ _ _ _ _ _ _ _ (fo_books _ Hfo) Hrun)
    as (g & g' & p & Hg & Hnone & _ & Hid & _ & Hnew & Hb).
  unfold book, bk_add in Hb. injection Hb as _ _ Hf Hp Hd _.
  assert (Hcur : gp_reward_currency g' = gp_reward_currency g /\ below s' = below s).
  { unfold add_liquidity_pool, lm_deposit_event, put_farm, put_liq_pool in Hrun.
    assert (Hc : forall s0 a0 s1, match c with
      | Some curve => ensure (initial_reward_percentage curve <? FixedU128_one)
                        (LmE LmErr.InvalidInitialRewardPercentage)
      | None => mret tt end s0 = (Ok a0, s1) -> s1 = s0) by (intros ???; destruct c; intros Hc; by minv Hc).
    dinv Hrun. subst.
    match goal with Hx : (match c with _ => _ end) _ = _ |- _ => apply Hc in Hx; subst end.
    match goal with Ha : accrue _ _ _ = _ |- _ => apply accrue_book in Ha as (Hb & Hn & (_ & _ & Hcur & _)) end.
    match goal with Hx : get_next_pool_id _ = _ |- _ => apply get_next_pool_id_Ok in Hx as (-> & _ & ->) end.
    simpl in Hf. apply (f_equal (lookup f)) in Hf. rewrite !lookup_insert_eq in Hf. injection Hf as <-.
    simpl. split; [congruence|]. unfold below. simpl. by rewrite Hn. }
  destruct Hcur as [Hcur Hu]. split; [|rewrite Hd; apply (fo_solvent _ Hfo)].
  rewrite Hp, Hf, Hd, Hu. intros f1 a1 q g1 [[[= <- <-] <-]|[Hne Hq]]%lookup_insert_Some Hg1.
  - assert (Hno : forall x d, DepositData s !! x = Some d -> decode_pool_id x <> lp_id p).
    { intros x d Hx. destruct (lo_deposit _ (fo_books _ Hfo) _ _ Hx) as (i & k & -> & Hv & _ & [[[pr' n'] f'] Hmt]).
      rewrite decode_encode by done. destruct (lo_meta _ (fo_books _ Hfo) _ _ _ _ Hmt) as [Hi _].
      simpl in Hi. lia. }
    split; [by rewrite Hnew|by rewrite Hnew|intros x d Hx Hdec; by destruct (Hno x d Hx)|].
    intros _. unfold debt, cash. rewrite deposits_none by done. apply free_balance_nonneg.
  - apply lookup_insert_Some in Hg1 as [[<- <-]|[_ Hg1]].
    + rewrite Hcur. by eapply (sv_pool _ (fo_solvent _ Hfo)).
    + by eapply (sv_pool _ (fo_solvent _ Hfo)).
Qed.

(** The calls that update a pool and change its stake or its multiplier only. *)
Lemma put_solvent s s1 s' f a g p g1 p1 g' p' :
  lm_funds_ok s -> GlobalPoolData s !! f = Some g -> LiquidityPoolData s !! (f, a) = Some p ->
  pool_ok (gp_reward_currency g1) p1 (DepositData s) (below s1) ->
  kept_but (eq f) (below s) (below s1) -> same_farm g g1 -> same_pool p p1 ->
  GlobalPoolData s' = <[f := g']> (GlobalPoolData s) ->
  LiquidityPoolData s' = <[(f, a) := p']> (LiquidityPoolData s) ->
  DepositData s' = DepositData s -> below s' = below s1 ->
  gp_reward_currency g' = gp_reward_currency g1 -> lp_id p' = lp_id p1 ->
  lp_accumulated_rpvs p' = lp_accumulated_rpvs p1 ->
  0 <= lp_stake_in_global_pool p' -> 0 <= lp_multiplier p' -> solvent s'.
Proof.
  intros Hfo Hg Hp Hok1 Hk1 (_ & _ & Hcur & _) (Hid & _) Hf' Hp' Hd' Hu' Hc' Hi' Hr' Hst Hmul.
  eapply solvent_put; try done.
  - congruence.
  - rewrite Hd', Hu', <- Hcur. by eapply pool_ok_same.
  - intros i x _. by rewrite Hd'.
  - intros x d. by rewrite Hd'.
  - rewrite Hd'. apply (fo_solvent _ Hfo).
  - rewrite Hu'. eapply kept_but_mono; [exact Hk1|]. by left.
Qed.

(** An update of a stored pool, in the invariant. *)
Lemma stored_update s f a g p now g1 p1 s1 :
  lm_funds_ok s -> GlobalPoolData s !! f = Some g -> LiquidityPoolData s !! (f, a) = Some p ->
  maybe_update_pools g p now s = (Ok (g1, p1), s1) ->
  pool_ok (gp_reward_currency g1) p1 (DepositData s) (below s1) /\
  kept_but (eq f) (below s) (below s1) /\ same_farm g g1 /\ same_pool p p1 /\ book s1 = book s.
Proof.
  intros Hfo Hg Hp Hup. destruct (pool_facts _ _ _ _ _ Hfo Hp Hg) as (Hid & F1 & F2 & P1 & P2 & Hne & Hv & Hok).
  pose proof (maybe_update_book _ _ _ _ _ _ _ Hup) as (Hb & Hsf & Hsp).
  destruct (maybe_update_pool_ok _ _ _ (DepositData s) _ _ _ _ Hup) as [Hok1 Hk]; rewrite ?Hid; try done.
  rewrite Hid in Hk. by split_and!.
Qed.

Lemma valued_nonneg s f a p g :
  lm_funds_ok s -> LiquidityPoolData s !! (f, a) = Some p -> GlobalPoolData s !! f = Some g ->
  0 <= lp_total_valued_shares p.
Proof.
  intros Hfo Hp Hg. destruct (pool_facts _ _ _ _ _ Hfo Hp Hg) as (_ & _ & _ & _ & _ & _ & -> & Hok).
  apply map_sum_nonneg. intros x d Hx. unfold of_pool. case_decide; [|done].
  by eapply do_valued, po_deposits.
Qed.

#[local] Ltac put_pool Hfo Hok Hk Hsf Hsp Hb :=
  eapply put_solvent; [exact Hfo|eassumption|eassumption|exact Hok|exact Hk|exact Hsf|exact Hsp
    |simpl; use_book Hb; reflexivity|simpl; use_book Hb; reflexivity|simpl; use_book Hb; reflexivity|..];
  try done; simpl.

Lemma update_liquidity_pool_solvent o f pr m s v s' :
  lm_funds_ok s -> update_liquidity_pool o f pr m s = (Ok v, s') -> 0 <= m -> solvent s'.
Proof.
  intros Hfo Hrun Hm. unfold update_liquidity_pool, lm_deposit_event, put_farm, put_liq_pool in Hrun.
  rewrite transactional_Ok in Hrun. do 7 mguard Hrun. zbool. mstep Hrun gp s1 Hup. destruct gp as [g1 p1].
  destruct (stored_update _ _ _ _ _ _ _ _ _ Hfo ltac:(eassumption) ltac:(eassumption) Hup)
    as (Hok & Hk & Hsf & Hsp & Hb). minv Hrun. zbool. subst.
  put_pool Hfo Hok Hk Hsf Hsp Hb.
  eapply global_pool_shares_nonneg; [|exact Hm|eassumption].
  destruct Hsp as (_ & _ & -> & _). eapply valued_nonneg; eassumption.
Qed.

Lemma cancel_liquidity_pool_solvent o f pr s v s' :
  lm_funds_ok s -> cancel_liquidity_pool o f pr s = (Ok v, s') -> solvent s'.
Proof.
  intros Hfo Hrun. unfold cancel_liquidity_pool, lm_deposit_event, put_farm, put_liq_pool in Hrun.
  rewrite transactional_Ok in Hrun. do 6 mguard Hrun. zbool. mstep Hrun gp s1 Hup. destruct gp as [g1 p1].
  destruct (stored_update _ _ _ _ _ _ _ _ _ Hfo ltac:(eassumption) ltac:(eassumption) Hup)
    as (Hok & Hk & Hsf & Hsp & Hb). minv Hrun. zbool. subst. by put_pool Hfo Hok Hk Hsf Hsp Hb.
Qed.

Lemma resume_liquidity_pool_solvent o f pr m s v s' :
  lm_funds_ok s -> resume_liquidity_pool o f pr m s = (Ok v, s') -> 0 <= m -> solvent s'.
Proof.
  intros Hfo Hrun Hm. unfold resume_liquidity_pool, lm_deposit_event, put_farm, put_liq_pool in Hrun.
  rewrite transactional_Ok in Hrun. do 7 mguard Hrun. zbool.
  mstep Hrun g1 s1 Hacc. apply accrue_book in Hacc as (Hb & Hn & Hsf). minv Hrun. zbool. subst.
  match goal with Hp : LiquidityPoolData s !! _ = Some ?p, Hg : GlobalPoolData s !! _ = Some ?g |- _ =>
    destruct (pool_facts _ _ _ _ _ Hfo Hp Hg) as (_ & _ & _ & _ & _ & _ & _ & Hok) end.
  assert (Hu : below s1 = below s) by (unfold below; by rewrite Hn).
  pose proof Hsf as (_ & _ & Hcur & _). rewrite <- Hcur, <- Hu in Hok.
  assert (Hk : kept_but (eq f) (below s) (below s1)) by (rewrite Hu; apply kept_but_refl).
  match goal with Hp : LiquidityPoolData s !! _ = Some ?p |- _ =>
    put_pool Hfo Hok Hk Hsf (same_pool_refl p) Hb end.
  eapply global_pool_shares_nonneg; [|exact Hm|eassumption]. eapply valued_nonneg; eassumption.
Qed.

Lemma remove_liquidity_pool_solvent o f pr s v s' :
  lm_funds_ok s -> remove_liquidity_pool o f pr s = (Ok v, s') -> solvent s'.
Proof.
  intros Hfo Hrun. pose proof (remove_liquidity_pool_book _ _ _ _ _ _ Hrun)
    as (g & p & g' & [Hg Hp] & _ & _ & Hb).
  unfold book, bk_remove in Hb. injection Hb as _ _ Hf Hps Hd _.
  destruct (pool_facts _ _ _ _ _ Hfo Hp Hg) as (_ & _ & _ & Hpi & _).
  unfold remove_liquidity_pool, lm_deposit_event, put_farm, put_liq_pool in Hrun. dinv Hrun.
  match goal with Hx : GlobalPoolData s !! f = Some ?x, Hy : LiquidityPoolData s !! _ = Some ?y |- _ =>
    assert_fails (constr_eq x g); assert_fails (constr_eq y p);
    assert (x = g) by congruence; assert (y = p) by congruence; subst x y end.
  assert (Hcur : gp_reward_currency g' = gp_reward_currency g).
  { apply (f_equal (lookup f)) in Hf. simpl in Hf. rewrite !lookup_insert_eq in Hf. by injection Hf as <-. }
  eapply (solvent_kept s _ (eq (lp_id p))); [done|done| |].
  - rewrite Hf, Hps. intros f1 a1 q g1 [Hne Hq]%lookup_delete_Some Hg1. split_and!; [done| |].
    + intros E. apply Hne. by eapply (pool_ids_distinct (book s)); [apply Hfo|..].
    + apply lookup_insert_Some in Hg1 as [[<- <-]|[_ Hg1]]; eauto.
  - match goal with Ht : Interfaces.transfer _ _ _ _ _ = (Ok tt, ?u1) |- _ =>
      assert (Hk : kept_but (eq (lp_id p)) (below s) u1) by
        (eapply kept_sub; [exact Ht|apply total_balance_nonneg|exact Hpi]) end.
    intros c i Hi H1' HJ. specialize (Hk c i Hi H1' HJ). unfold below in *. simpl in *.
    by repeat case_match.
Qed.

(** A deposit that was not there, or is, or is no longer. *)
Lemma deposit_sums (x : InstanceId) (d : Deposit) D i v :
  i <> decode_pool_id x ->
  map_sum (of_pool i v) (<[x := d]> D) = map_sum (of_pool i v) D /\
  map_sum (of_pool i v) (delete x D) = map_sum (of_pool i v) D.
Proof. intros Hi. by rewrite of_pool_insert_other, of_pool_delete_other. Qed.

Lemma new_deposit_ok c p x d D u :
  pool_ok c p D u -> D !! x = None -> decode_pool_id x = lp_id p ->
  0 <= d_valued_shares d -> d_accumulated_rpvs d = lp_accumulated_rpvs p ->
  d_accumulated_claimed_rewards d = 0 -> pool_ok c p (<[x := d]> D) u.
Proof.
  intros [K1 K2 K3 K4] Hx Hdec Hv Hr Hc.
  assert (Ho : owed p d = 0) by (unfold owed; rewrite Hr, Hc; lia).
  split; [done|done| |].
  - intros y e [[<- <-]|[_ Hy]]%lookup_insert_Some He; [|eauto]. split; lia.
  - intros Hsp. specialize (K4 Hsp). unfold debt.
    rewrite map_sum_insert_None, of_pool_here, Ho by done. exact K4.
Qed.

(** The id of the next deposit of a pool is new. *)
Lemma fresh_deposit s i :
  lm_funds_ok s -> in_range 32 i -> 1 <= i -> NftInstanceSequencer s + 1 <= MAX_NFT_INSTANCE_SEQUENCER ->
  DepositData s !! encode_nft_id i (NftInstanceSequencer s + 1) = None /\
  decode_pool_id (encode_nft_id i (NftInstanceSequencer s + 1)) = i.
Proof.
  intros Hfo [_ Hi] H1' Hmax. destruct (lo_seq _ (fo_books _ Hfo)) as [_ [Hseq _]]. simpl in Hseq.
  assert (Hv : valid_ids i (NftInstanceSequencer s + 1)) by (unfold valid_ids; lia).
  split; [|by apply decode_encode]. apply eq_None_not_Some. intros [d Hd].
  destruct (lo_deposit _ (fo_books _ Hfo) _ _ Hd) as (i' & k' & E & Hv' & Hle & _).
  destruct (encode_inj _ _ _ _ Hv Hv' E). simpl in Hle. lia.
Qed.

Lemma do_mint_below w c i m (n n' : NftState U) v :
  do_mint w c i m n = (Ok v, n') -> forall a z, free_balance a z (uniques n') = free_balance a z (uniques n).
Proof.
  unfold do_mint, nft_deposit_event. intros Hrun a z. minv Hrun.
  match goal with Hm : uniques_mint _ _ _ _ = _ |- _ => by rewrite (mint_balances _ _ _ _ _ a z Hm) end.
Qed.

Lemma deposit_shares_solvent o f pr x s v s' :
  lm_funds_ok s -> deposit_shares o f pr x s = (Ok v, s') -> (forall w, o = Signed w -> user w) ->
  0 <= x -> solvent s'.
Proof.
  intros Hfo Hrun Huser Hx.
  unfold deposit_shares, lm_deposit_event, put_farm, put_liq_pool in Hrun. rewrite transactional_Ok in Hrun.
  do 9 mguard Hrun. zbool. mstep Hrun gp s1 Hup. destruct gp as [g1 p1].
  match goal with Hp : LiquidityPoolData s !! _ = Some ?p, Hg : GlobalPoolData s !! _ = Some ?g |- _ =>
    destruct (stored_update _ _ _ _ _ _ _ _ _ Hfo Hg Hp Hup) as (Hok & Hk & Hsf & Hsp & Hb);
    rename Hp into Hpool; rename Hg into Hfarm;
    destruct (pool_facts _ _ _ _ _ Hfo Hpool Hfarm) as (_ & _ & _ & Hpi & Hp1 & _) end.
  do 7 mguard Hrun. mstep Hrun nid s2 Hid. apply get_next_nft_id_Ok in Hid as (_ & Hmax & -> & ->).
  do 4 mguard Hrun.
  match type of Hrun with context [match ?m with _ => _ end] => destruct m as [[pr0 n] f0] end.
  minv Hrun. zbool. subst. destruct Hsf as (_ & _ & Hcur & _), Hsp as (E1 & _ & _ & _ & _ & _).
  assert (Hseq : NftInstanceSequencer s1 = NftInstanceSequencer s) by (by use_book Hb).
  cbn [NftInstanceSequencer lens_set Lm_below_lens set_below set_lm_nft] in Hmax. rewrite Hseq in Hmax.
  destruct (fresh_deposit s (lp_id p1)) as [Hfresh Hdec]; [done|by rewrite E1|by rewrite E1|done|].
  match goal with Ht : Interfaces.transfer _ ?who _ x _ = (Ok tt, ?u1), Hm : do_mint _ _ _ _ _ = (_, ?n1) |- _ =>
    assert (Hk2 : forall J, kept_but J (below s1) (uniques n1)) end.
  { intros J c i Hi H1' HJ. unfold cash.
    match goal with Hm : do_mint _ _ _ _ _ = _ |- _ => rewrite (do_mint_below _ _ _ _ _ _ _ Hm) end.
    match goal with Ht : Interfaces.transfer _ ?who _ x _ = _ |- _ =>
      exact (user_kept _ _ _ _ _ _ (Huser who eq_refl) Ht Hx J c i Hi H1' HJ) end. }
  eapply (solvent_put s _ f (get_pair_id pr)); [exact Hfo|exact Hfarm|exact Hpool
    |simpl; use_book Hb; reflexivity|simpl; use_book Hb; reflexivity|..]; simpl.
  - done.
  - rewrite <- Hcur. simpl in Hseq. rewrite Hseq. use_book Hb. apply new_deposit_ok; try done; simpl.
    + destruct Hok as [K1 K2 K3 K4]. apply (pool_ok_same _ p1); [|done|done|simpl|done].
      * split; try done. intros Hsp. etransitivity; [exact (K4 Hsp)|]. apply (Hk2 (fun _ => False)); try tauto; by rewrite E1.
      * assert (0 <= x * free_balance (gp_incentivized_asset g1) (get_pair_id pr) (below s1))
          by (apply Z.mul_nonneg_nonneg; [done|apply free_balance_nonneg]).
        match goal with Hc : calculate_global_pool_shares _ _ = Some ?z |- _ =>
          apply global_pool_shares_nonneg in Hc; [lia|done|done] end.
    + apply Z.mul_nonneg_nonneg; [done|apply free_balance_nonneg].
  - intros i vv Hi. rewrite Hseq. use_book Hb. apply of_pool_insert_other. rewrite Hdec. congruence.
  - intros y d. rewrite Hseq. use_book Hb. intros [[<- <-]|[_ Hy]]%lookup_insert_Some Hne; [|done].
    rewrite Hdec in Hne. congruence.
  - intros y d. use_book Hb. intros [[<- <-]|[_ Hy]]%lookup_insert_Some; [done|].
    by eapply (sv_shares _ (fo_solvent _ Hfo)).
  - eapply kept_but_trans; [eapply kept_but_mono; [exact Hk|by left]|apply Hk2].
Qed.

Lemma claim_rewards_solvent o x s v s' :
  lm_funds_ok s -> claim_rewards o x s = (Ok v, s') -> solvent s'.
Proof.
  intros Hfo Hrun. unfold claim_rewards, lm_deposit_event, put_farm, put_liq_pool in Hrun.
  rewrite transactional_Ok in Hrun. do 4 mguard Hrun.
  match type of Hrun with context [match ?m with _ => _ end] => destruct m as [[pr n] f] end.
  do 10 mguard Hrun. zbool. mstep Hrun gp s1 Hup. destruct gp as [g1 p1].
  match goal with Hp : LiquidityPoolData s !! _ = Some ?p, Hg : GlobalPoolData s !! _ = Some ?g,
      Hm : LiquidityPoolMetadata s !! _ = Some _, Hd : DepositData s !! x = Some ?d |- _ =>
    destruct (stored_update _ _ _ _ _ _ _ _ _ Hfo Hg Hp Hup) as (Hok & Hk & Hsf & Hsp & Hb);
    pose proof (deposit_pool _ _ _ _ _ _ _ Hfo Hm Hp eq_refl) as Hdec;
    rename Hp into Hpool; rename Hg into Hfarm; rename Hd into Hdep;
    destruct (pool_facts _ _ _ _ _ Hfo Hpool Hfarm) as (_ & _ & _ & Hpi & Hp1 & _) end.
  mstep Hrun r s2 Hcl. destruct r as [[r x0] d'].
  destruct Hsf as (_ & _ & Hcur & _), Hsp as (E1 & _).
  destruct (claim_pool_ok _ _ _ _ _ _ _ _ _ _ _ _ Hcl Hok Hdep) as (Hok2 & Hk2 & _);
    [congruence|by rewrite E1|].
  pose proof (do_claim_book _ _ _ _ _ _ _ _ _ _ Hcl) as (Hb2 & D1 & _). rewrite Hb in Hb2.
  minv Hrun. zbool.
  eapply (solvent_put s _ f (get_pair_id pr)); [exact Hfo|exact Hfarm|exact Hpool
    |simpl; use_book Hb2; reflexivity|simpl; use_book Hb2; reflexivity|..]; simpl; use_book Hb2.
  - done.
  - rewrite <- Hcur. exact Hok2.
  - intros i w Hi. apply of_pool_insert_other. congruence.
  - intros y d [[<- _]|[_ Hy]]%lookup_insert_Some Hne; done.
  - intros y d [[<- <-]|[_ Hy]]%lookup_insert_Some; [rewrite D1|]; by eapply (sv_shares _ (fo_solvent _ Hfo)).
  - eapply kept_but_trans; [eapply kept_but_mono; [exact Hk|by left]|].
    eapply kept_but_mono; [exact Hk2|]. intros i <-. rewrite E1. by right.
Qed.

(** A deposit leaves its pool: the claim and the unclaimable rest are paid. *)
Lemma leave_funds w f a p d x s d' s' :
  lm_funds_ok s -> LiquidityPoolData s !! (f, a) = Some p -> DepositData s !! x = Some d ->
  decode_pool_id x = lp_id p -> leave_liq_pool w f a p d s = (Ok d', s') ->
  exists g g' p', GlobalPoolData s !! f = Some g /\ GlobalPoolData s' = <[f := g']> (GlobalPoolData s) /\
    LiquidityPoolData s' = <[(f, a) := p']> (LiquidityPoolData s) /\ DepositData s' = DepositData s /\
    LiquidityPoolMetadata s' = LiquidityPoolMetadata s /\
    gp_reward_currency g' = gp_reward_currency g /\ lp_id p' = lp_id p /\ d_shares d' = d_shares d /\
    pool_ok (gp_reward_currency g) p' (delete x (DepositData s)) (below s') /\
    kept_but (fun i => i = f \/ i = lp_id p) (below s) (below s').
Proof.
  intros Hfo Hp Hd Hdec Hrun. unfold leave_liq_pool, lm_deposit_event, put_farm, put_liq_pool in Hrun.
  do 2 mguard Hrun. rename v into g.
  match goal with Hx : GlobalPoolData s !! f = Some g |- _ => rename Hx into Hg end.
  destruct (pool_facts _ _ _ _ _ Hfo Hp Hg) as (_ & _ & _ & Hpi & Hp1 & _ & _ & Hpok).
  mstep Hrun gp s1 Hup. destruct gp as [g1 p1].
  assert (Hup' : pool_ok (gp_reward_currency g1) p1 (DepositData s) (below s1) /\
    kept_but (eq f) (below s) (below s1) /\ same_farm g g1 /\ same_pool p p1 /\ book s1 = book s).
  { destruct (negb (lp_canceled p)); [by eapply stored_update|].
    minv Hup. match goal with He : (_, _) = (_, _) |- _ => injection He as -> -> end.
    split_and!; auto using kept_but_refl, same_farm_refl, same_pool_refl. }
  destruct Hup' as (Hok & Hk & (_ & _ & Hcur & _) & (E1 & _) & Hb). clear Hup.
  mstep Hrun r s2 Hcl. destruct r as [[r x0] d1].
  destruct (claim_pool_ok _ _ _ _ _ _ _ _ _ _ _ _ Hcl Hok Hd) as (Hok2 & Hk2 & Hx0);
    [congruence|by rewrite E1|].
  pose proof (do_claim_book _ _ _ _ _ _ _ _ _ _ Hcl) as (Hb2 & D1 & _). rewrite Hb in Hb2.
  do 4 mguard Hrun. mstep Hrun st s3 Hst.
  assert (Hst' : s3 = s2 /\ 0 <= fst st).
  { destruct (negb (lp_canceled p1)); minv Hst; zbool; subst; simpl; (split; [done|]); [lia|].
    by eapply po_stake. }
  destruct Hst' as [-> Hstake]. clear Hst. destruct st as [stake z]. simpl in Hstake.
  mguard Hrun. mstep Hrun u2 s4 Hev.
  match goal with Ht : Interfaces.transfer _ _ _ x0 _ = (Ok tt, ?u) |- _ =>
    simpl in Ht; rename Ht into Htr;
    assert (H4' : book s4 = book s /\ below s4 = u)
      by (destruct (negb (r =? 0)); minv Hev; done) end.
  destruct H4' as [Hb4 Hu4]. minv Hrun.
  exists g. do 2 eexists. split; [done|].
  split; [simpl; use_book Hb4; reflexivity|]. split; [simpl; use_book Hb4; reflexivity|].
  split; [simpl; by use_book Hb4|]. split; [simpl; by use_book Hb4|].
  split; [done|]. split; [done|]. split; [done|].
  rewrite E1 in *. split.
  - match goal with |- pool_ok _ ?q _ _ =>
      change (pool_ok (gp_reward_currency g) q (delete x (DepositData s)) (below s4)) end.
    eapply (pool_ok_same _ p1); [|done|done|done|exact (po_multiplier _ _ _ _ Hok2)].
    destruct Hok2 as [K1 K2 K3 K4]. rewrite <- Hcur. split; [done|done| |].
    + intros y e [Hne Hy]%lookup_delete_Some. apply K3. by rewrite lookup_insert_ne.
    + intros Hsp. specialize (K4 Hsp). unfold debt in *. rewrite map_sum_insert, of_pool_here in K4 by congruence.
      rewrite map_sum_delete. rewrite <- E1 in Htr.
      pose proof (transfer_from_sub _ _ _ _ _ _ Htr ltac:(lia) Hsp). lia.
  - change (kept_but (fun i => i = f \/ i = lp_id p) (below s) (below s4)).
    eapply kept_but_trans; [eapply kept_but_mono; [exact Hk|by left]|].
    eapply kept_but_trans; [eapply kept_but_mono; [exact Hk2|intros i <-; by right]|].
    eapply kept_but_mono; [eapply kept_sub; [exact Htr|lia|done]|intros i <-; by right].
Qed.

(** A deposit whose pool is gone is taken out. *)
Lemma solvent_drop s s' x pr n f :
  lm_funds_ok s -> LiquidityPoolMetadata s !! decode_pool_id x = Some (pr, n, f) ->
  LiquidityPoolData s !! (f, get_pair_id pr) = None ->
  (forall J, kept_but J (below s) (below s')) -> GlobalPoolData s' = GlobalPoolData s ->
  LiquidityPoolData s' = LiquidityPoolData s -> DepositData s' = delete x (DepositData s) -> solvent s'.
Proof.
  intros Hfo Hm Hp K2 G2 P2 D2. split; rewrite D2.
  - rewrite G2, P2. intros f1 a1 q g1 Hq Hg1.
    destruct (pool_facts _ _ _ _ _ Hfo Hq Hg1) as (_ & _ & _ & Hqi & Hq1 & _ & _ & Hqok).
    assert (Hne : decode_pool_id x <> lp_id q).
    { destruct (lo_pool _ (fo_books _ Hfo) _ _ _ Hq) as (_ & (pr' & n' & Hm' & Heq) & _).
      intros E. simpl in Hm'. rewrite <- E in Hm'. congruence. }
    eapply pool_ok_frame; [exact Hqok|by apply (K2 (fun _ => False)); [..|tauto]| |].
    + intros w. by apply of_pool_delete_other.
    + by intros y d [_ Hy]%lookup_delete_Some.
  - intros y d [_ Hy]%lookup_delete_Some. by eapply (sv_shares _ (fo_solvent _ Hfo)).
Qed.

Lemma withdraw_shares_solvent o x s v s' :
  lm_funds_ok s -> withdraw_shares o x s = (Ok v, s') -> solvent s'.
Proof.
  intros Hfo Hrun. unfold withdraw_shares, lm_deposit_event in Hrun. rewrite transactional_Ok in Hrun.
  do 4 mguard Hrun. zbool. do 3 mguard Hrun.
  match type of Hrun with context [match ?m with _ => _ end] => destruct m as [[pr n] f] end.
  do 3 mguard Hrun. mstep Hrun r s1 Hr. destruct r as [d1 can].
  match goal with Hd : DepositData s !! x = Some ?d |- _ => rename Hd into Hdep; rename d into d0 end.
  match goal with Hx : LiquidityPoolMetadata s !! _ = Some _ |- _ => rename Hx into Hm end.
  pose proof (sv_shares _ (fo_solvent _ Hfo) _ _ Hdep) as Hsh.
  (* after the pool is settled *)
  assert (Hlast : d_shares d1 = d_shares d0 ->
    (forall J, kept_but J (below s1) (below s')) /\ GlobalPoolData s' = GlobalPoolData s1 /\
    LiquidityPoolData s' = LiquidityPoolData s1 /\ DepositData s' = delete x (DepositData s1)).
  { intros Hds. clear Hr. mguard Hrun. mstep Hrun u2 s2 Htr. mstep Hrun u3 s3 Hburn. minv Hburn.
    match goal with Hb : do_burn _ _ _ _ = _ |- _ => apply do_burn_below in Hb as (_ & B1 & _) end.
    mstep Hrun u4 s4 Hmeta.
    assert (H4' : lm_nft s4 = ch /\ GlobalPoolData s4 = GlobalPoolData s2 /\
      LiquidityPoolData s4 = LiquidityPoolData s2 /\ DepositData s4 = DepositData s2)
      by (destruct ((n =? 1) && can); minv Hmeta; done).
    assert (H2' : (forall J, kept_but J (below s1) (below s2)) /\ GlobalPoolData s2 = GlobalPoolData s1 /\
      LiquidityPoolData s2 = LiquidityPoolData s1 /\ DepositData s2 = DepositData s1).
    { destruct (amm_exists pr (below s1)); minv Htr; [|split_and!; auto using kept_but_refl].
      split_and!; try done. intros J c i Hi H1' _.
      match goal with Ht : Interfaces.transfer _ _ _ _ _ = _ |- _ =>
        eapply transfer_kept; [exact Ht|lia|done|] end.
      unfold account_id. rewrite <- sub_account_zero. intros E. apply sub_account_inj in E; [lia|done|done]. }
    destruct H4' as (N4 & G4 & P4 & D4), H2' as (K2 & G2 & P2 & D2). minv Hrun. simpl.
    rewrite G4, P4, D4, G2, P2, D2. split_and!; try done. intros J c i Hi H1' HJ.
    specialize (K2 J c i Hi H1' HJ). unfold cash, below in *. simpl. rewrite B1, burn_balances. exact K2. }
  destruct (LiquidityPoolData s !! (f, get_pair_id pr)) as [p|] eqn:Hp.
  - mstep Hr d2 s5 Hlv. minv Hr. match goal with He : (_, _) = (_, _) |- _ => injection He as -> _ end.
    pose proof (deposit_pool _ _ _ _ _ _ _ Hfo Hm Hp eq_refl) as Hdec.
    destruct (leave_funds _ _ _ _ _ _ _ _ _ Hfo Hp Hdep Hdec Hlv)
      as (g & g' & p' & Hg & G1 & P1 & D1 & _ & Hcur & Hid & Hds & Hok & Hk).
    destruct (Hlast Hds) as (K2 & G2 & P2 & D2). rewrite D1 in D2.
    destruct (pool_facts _ _ _ _ _ Hfo Hp Hg) as (_ & _ & _ & Hpi & Hp1 & _).
    eapply (solvent_put s s' f (get_pair_id pr)); [exact Hfo|exact Hg|exact Hp|exact (eq_trans G2 G1)|exact (eq_trans P2 P1)|done|..];
      rewrite ?D2.
    + eapply pool_ok_frame; [exact Hok| |done|done].
      apply (K2 (fun _ => False)); [by rewrite Hid|by rewrite Hid|tauto].
    + intros i w Hi. apply of_pool_delete_other. congruence.
    + by intros y d [_ Hy]%lookup_delete_Some.
    + intros y d [_ Hy]%lookup_delete_Some. by eapply (sv_shares _ (fo_solvent _ Hfo)).
    + eapply kept_but_trans; [exact Hk|apply K2].
  - minv Hr. match goal with He : (_, _) = (_, _) |- _ => injection He as -> _ end.
    destruct (Hlast eq_refl) as (K2 & G2 & P2 & D2). by eapply solvent_drop.
Qed.

(** ** Reachable states *)

(** What is asked of a call: it is not signed by an account of the pallet, amounts are
    not negative, the owner of a new farm is a user, and a pool is not added again over
    deposits of its predecessor. *)
Definition regular (o : Origin) (c : lm_call) s : Prop :=
  (forall w, o = Signed w -> user w) /\
  match c with
  | CreateFarm total _ _ _ _ w _ => 0 <= total /\ user w
  | AddLiquidityPool f pr m _ => 0 <= m /\ not_readded f pr s
  | UpdateLiquidityPool _ _ m | ResumeLiquidityPool _ _ m => 0 <= m
  | DepositShares _ _ x => 0 <= x
  | _ => True
  end.

(** Calls, the migration, and changes of the chain below by other pallets that take
    nothing from the accounts of the pools. *)
Definition pools_kept s u : Prop :=
  forall f a p c, LiquidityPoolData s !! (f, a) = Some p -> cash c (lp_id p) (below s) <= cash c (lp_id p) u.

Inductive lm_run : State -> Prop :=
| run_init n : lm_run (mkLm n 0 0 ∅ ∅ ∅ ∅ 0 [])
| run_call o c s r s' : lm_run s -> regular o c s -> lm_dispatch o c s = (r, s') -> lm_run s'
| run_upgrade s s' :
    lm_run s -> on_runtime_upgrade s = (Ok tt, s') -> pools_kept s (below s') -> lm_run s'
| run_below n s : lm_run s -> pools_kept s (uniques n) -> lm_run (set_lm_nft n s).

Lemma lm_dispatch_solvent o c s v s' :
  lm_funds_ok s -> regular o c s -> lm_dispatch o c s = (Ok v, s') -> solvent s'.
Proof.
  intros Hfo [Ho Hc] Hrun. destruct c; simpl in Hrun, Hc.
  - destruct Hc. by eapply create_farm_solvent.
  - by eapply destroy_farm_solvent.
  - by eapply withdraw_undistributed_solvent.
  - destruct Hc. by eapply add_liquidity_pool_solvent.
  - by eapply update_liquidity_pool_solvent.
  - by eapply cancel_liquidity_pool_solvent.
  - by eapply resume_liquidity_pool_solvent.
  - by eapply remove_liquidity_pool_solvent.
  - by eapply deposit_shares_solvent.
  - by eapply claim_rewards_solvent.
  - by eapply withdraw_shares_solvent.
Qed.

Lemma same_book_solvent s s' :
  lm_funds_ok s -> book s' = book s -> pools_kept s (below s') -> lm_funds_ok s'.
Proof.
  intros Hfo Hb Hk. destruct Hfo as [K1 K2 K3 [K4 K5]]. split; rewrite ?Hb; try done.
  unfold book in Hb. injection Hb as _ _ Hf Hp Hd _. split; rewrite Hd; [|done].
  rewrite Hp, Hf. intros f a p g Hpool Hg. eapply pool_ok_frame; [by eapply K4|by eapply Hk|done|done].
Qed.

Lemma lm_run_ok s : lm_run s -> lm_funds_ok s.
Proof.
  induction 1 as [n|o c s r s' _ IH Hreg Hrun|s s' _ IH Hrun Hk|n s _ IH Hk].
  - split; [apply lm_ok_empty|..]; split || (intros ????); simpl; intros *; by rewrite ?lookup_empty.
  - destruct r as [[]| |]; [|by rewrite (lm_rollback _ _ _ _ _ Hrun)..].
    pose proof IH as [K1 K2 K3 K4]. split.
    + by eapply lm_dispatch_ok.
    + eapply lm_dispatch_shares; [done|done| |done]. intros f pr m k ->. by destruct Hreg as [_ [_ ?]].
    + by eapply lm_dispatch_apart.
    + by eapply lm_dispatch_solvent.
  - eapply same_book_solvent; [exact IH|by apply upgrade_book|done].
  - by eapply same_book_solvent.
Qed.

(** [C4] As long as calls are [regular] (signed by no account of the pallet, with amounts that
    are not negative, and no pool added again over the deposits its predecessor left) and
    other pallets take nothing from the accounts of the pools, no deposit is owed a negative
    amount, and the account of every liquidity pool that is never swept as dust in the
    reward currency of its farm holds at least what the pool owes its deposits: the sum over
    the deposits of the rewards earned (the growth of the reward per valued share since the
    deposit, times its valued shares) and not yet claimed. *)
Theorem rewards_covered s f a p g :
  lm_run s -> LiquidityPoolData s !! (f, a) = Some p -> GlobalPoolData s !! f = Some g ->
  (never_swept (S := U) (gp_reward_currency g) (into_sub_account (lp_id p)) ->
   debt p (DepositData s) <=
     free_balance (gp_reward_currency g) (into_sub_account (lp_id p)) (below s)) /\
  (forall x d, DepositData s !! x = Some d -> decode_pool_id x = lp_id p -> 0 <= owed p d).
Proof.
  intros Hr Hp Hg. destruct (pool_facts _ _ _ _ _ (lm_run_ok _ Hr) Hp Hg) as (_ & _ & _ & _ & _ & _ & _ & Hok).
  split; [apply Hok|]. intros x d Hx Hd. by eapply do_owed, po_deposits.
Qed.
End solvency.
