(* ===== verification/LmExamples.v ===== *)
(** * The liquidity mining theorems at work

    The reference ledger and the tokens of [MarketExamples.v] as one chain, with the
    documented reward formulas, and the theorems applied on it; then two runs of the
    pallet in which depositors lose access to their shares. *)

From S2P Require Import Prelude Primitives Errors Interfaces Ledger Nft NftProps Marketplace MarketExamples.
From S2P Require Import LiquidityMining LmProps LmBooks LmFunds LmSolvency.

(** ** The chain *)

Record LmChain := mkChain { lc_books : Ledger; lc_tokens : Collectibles }.

#[export] Instance LmChain_books : Lens LmChain Ledger := {|
  lens_get := lc_books;
  lens_set b u := mkChain b (lc_tokens u)
|}.
#[export] Instance LmChain_books_laws : LensLaws LmChain Ledger.
Proof. split; [done|by intros []|done]. Qed.
#[export] Instance LmChain_currency : MultiCurrency LmChain := lift_currency.
#[export] Instance LmChain_currency_laws : MultiCurrencyLaws LmChain := lift_currency_laws.

Definition on_tokens {A} (m : Dispatch Collectibles A) : Dispatch LmChain A :=
  fun u => let '(r, k) := m (lc_tokens u) in (r, mkChain (lc_books u) k).

#[export] Instance LmChain_uniques : Uniques LmChain := {|
  class_owner c u := class_owner c (lc_tokens u);
  token_owner c i u := token_owner c i (lc_tokens u);
  class_instances c u := class_instances c (lc_tokens u);
  uniques_create c o a d h := on_tokens (uniques_create c o a d h);
  uniques_mint c i o := on_tokens (uniques_mint c i o);
  transfer_check c i := on_tokens (transfer_check c i);
  transfer_commit c i o u := mkChain (lc_books u) (transfer_commit c i o (lc_tokens u));
  burn_check c i := on_tokens (burn_check c i);
  burn_commit c i u := mkChain (lc_books u) (burn_commit c i (lc_tokens u));
  uniques_destroy c o := on_tokens (uniques_destroy c o);
  ClassDeposit := 10
|}.

Lemma on_tokens_Ok {A} (m : Dispatch Collectibles A) u a u' :
  on_tokens m u = (Ok a, u') -> exists k, m (lc_tokens u) = (Ok a, k) /\ u' = mkChain (lc_books u) k.
Proof. unfold on_tokens. destruct (m (lc_tokens u)) as [r k]. naive_solver. Qed.

#[export] Instance LmChain_uniques_laws : UniquesLaws LmChain.
Proof.
  split; intros *; cbn [class_owner token_owner class_instances uniques_create uniques_mint
    transfer_check transfer_commit burn_check burn_commit uniques_destroy LmChain_uniques lc_tokens];
    try (intros (k & Hrun & ->)%on_tokens_Ok; cbn [lc_tokens]).
  - by apply create_effect in Hrun.
  - by apply mint_effect in Hrun.
  - apply transfer_check_effect in Hrun as [-> ?]. by destruct u.
  - apply transfer_effect.
  - apply burn_check_effect in Hrun as [-> ?]. by destruct u.
  - apply burn_effect.
  - apply instances_witness.
  - by apply destroy_effect in Hrun.
Qed.

#[export] Instance LmChain_block : BlockNumberProvider LmChain := {|
  block_number u := k_now (lc_tokens u)
|}.

(** Every pool exists; the pool account and the share token of a pair. *)
#[export] Instance LmChain_amm : AMM LmChain := {|
  amm_exists _ _ := true;
  get_pair_id p := 1000 + 100 * fst (ordered_pair p) + snd (ordered_pair p);
  get_share_token p _ := 1000 + 100 * fst (ordered_pair p) + snd (ordered_pair p);
  get_pool_assets _ _ := None;
  get_spot_price_unchecked _ _ _ _ := 0;
  validate_sell _ _ _ _ _ := panic;
  execute_sell _ := panic;
  validate_buy _ _ _ _ _ := panic;
  execute_buy _ := panic;
  get_min_trading_limit := MIN_TRADING_LIMIT;
  get_min_pool_liquidity := MIN_POOL_LIQUIDITY;
  get_max_in_ratio := MAX_IN_RATIO;
  get_max_out_ratio := MAX_OUT_RATIO;
  get_fee _ _ := (2, 1000)
|}.

#[export] Instance LmChain_laws : LmChainLaws LmChain.
Proof.
  split; simpl; try done; intros *; intros (b & _ & ->)%zoom_Ok; done.
Qed.

#[export] Instance ex_accounts : PalletAccounts := {|
  into_account := 5000;
  into_sub_account i := 5000 + i
|}.
#[export] Instance ex_accounts_laws : PalletAccountsLaws.
Proof. split; simpl; [lia|done]. Qed.

(** The documented formulas of [hydra_dx_math], without a loyalty curve. *)
#[export] Instance ex_lm_math : LmMath := {|
  fixed_from_permill p := p * 10 ^ 12;
  calculate_global_pool_reward_per_period y z m := Some (Z.min (y * z / 10 ^ 18) m);
  calculate_accumulated_rps rps total reward :=
    if total =? 0 then None else Some (rps + reward / total);
  calculate_global_pool_shares v m := Some (v * m / 10 ^ 18);
  calculate_loyalty_multiplier _ _ _ := Some (10 ^ 18);
  calculate_user_reward rpvs valued claimed now mult :=
    if now <? rpvs then None else
    let reward := (now - rpvs) * valued in
    let claimable := reward * mult / 10 ^ 18 in
    if (claimable <? claimed) || (reward <? claimable) then None
    else Some (claimable - claimed, reward - claimable)
|}.

(** The constants of the runtime. *)
#[export] Instance Runtime_lm : LmConfig := {|
  may_create_farm o := match o with Root => true | _ => false end;
  MinPlannedYieldingPeriods := 100;
  MinTotalFarmRewards := NATIVE_EXISTENTIAL_DEPOSIT * 1000;
  NftClass := 1
|}.

(** ** A farm

    Account 10 owns the rewards (asset 0); 20 and 30 hold the LP tokens of the pairs
    (1, 2) and (1, 3), whose pool accounts hold 100 of asset 1. *)

Definition ex_pair_a : AssetPair := AssetPair_new 1 2.
Definition ex_pair_b : AssetPair := AssetPair_new 1 3.
Definition ex_books : Ledger := {|
  l_free := list_to_map [((0, 10), 10000000000000000000%N);
                         ((1102, 20), 1000%N); ((1102, 30), 1000%N); ((1103, 30), 1000%N);
                         ((1, 1102), 100%N); ((1, 1103), 100%N)];
  l_reserved := ∅;
  l_locks := ∅;
  l_issuance := ∅;
  l_shared := ∅
|}.
Definition ex_lm0 : LmState LmChain :=
  mkLm (mkNft (mkChain ex_books (mkCollectibles ∅ ∅ ∅ (fun _ _ => 0) 1)) ∅ ∅ []) 0 0 ∅ ∅ ∅ ∅ 0 [].

(** The chain at block [n]. *)
Definition at_height (n : Z) (s : LmState LmChain) : LmState LmChain :=
  let k := lc_tokens (below s) in
  set_lm_nft (set_uniques (mkChain (lc_books (below s))
    (mkCollectibles (k_class k) (k_token k) (k_free k) (k_reserved k) n)) (lm_nft s)) s.

Definition do_call (o : Origin) (c : lm_call) (s : LmState LmChain) : LmState LmChain :=
  snd (lm_dispatch o c s).
Definition ex_create := CreateFarm (10 ^ 18) 100 1 1 0 10 1000000.
Definition ex_add_a := AddLiquidityPool 1 ex_pair_a (10 ^ 18) None.
Definition ex_add_b := AddLiquidityPool 1 ex_pair_b (10 ^ 18) None.
Definition ex_nft (i k : Z) : InstanceId := encode_nft_id i k.

(** The farm, the pool of pair (1, 2) with id 2, and a deposit of account 20. *)
Definition ex_lm1 : LmState LmChain := snd (on_runtime_upgrade ex_lm0).
Definition ex_created : LmState LmChain := do_call Root ex_create ex_lm1.
Definition ex_lm2 : LmState LmChain := do_call (Signed 10) ex_add_a ex_created.
Definition ex_deposit := DepositShares 1 ex_pair_a 1000.
Definition ex_lm3 : LmState LmChain := do_call (Signed 20) ex_deposit ex_lm2.

Example ex_deposit_id : DepositData ex_lm3 !! ex_nft 2 1 = Some (mkDeposit 1000 100000 0 0 1 1).
Proof. vm_compute. reflexivity. Qed.

Ltac run := vm_compute; reflexivity.

Lemma nft_id_roundtrip_witness :
  get_pool_id_from_nft_id (encode_nft_id 2 1) ex_lm3 = (Ok 2, ex_lm3).
Proof.
  destruct (nft_id_roundtrip 2 1 ex_lm3) as (_ & Hd & _); [by vm_compute|exact Hd].
Defined.

(** The steps to [ex_lm3]. *)
Lemma ex_step careful o c s :
  (careful = true -> forall f pr m k, c = AddLiquidityPool f pr m k -> not_readded f pr s) ->
  lm_step careful s (do_call o c s).
Proof.
  intros Hadd. unfold do_call. destruct (lm_dispatch o c s) as [r s'] eqn:Hrun.
  by eapply lm_step_call.
Qed.

Definition is_add (c : lm_call) : bool :=
  match c with AddLiquidityPool _ _ _ _ => true | _ => false end.

Lemma ex_step_other careful o c s : is_add c = false -> lm_step careful s (do_call o c s).
Proof. intros Hc. apply ex_step. intros _ f pr m k Heq. rewrite Heq in Hc. discriminate Hc. Qed.

Lemma ex_upgraded careful : lm_step careful ex_lm0 ex_lm1.
Proof. apply lm_step_upgrade. vm_compute. reflexivity. Qed.

Lemma ex_added_a careful : lm_step careful ex_created ex_lm2.
Proof.
  apply ex_step. intros _ f pr m k _ i pr' n Hm.
  assert (He : LiquidityPoolMetadata ex_created = ∅) by run.
  rewrite He, lookup_empty in Hm. discriminate Hm.
Qed.

Lemma ex_lm3_reachable careful : lm_reachable careful ex_lm3.
Proof.
  apply (lm_more _ ex_lm2); [apply (lm_more _ ex_created);
    [apply (lm_more _ ex_lm1); [apply (lm_more _ ex_lm0); [apply lm_init|apply ex_upgraded]|]|]|].
  - apply ex_step_other. reflexivity.
  - apply ex_added_a.
  - apply ex_step_other. reflexivity.
Qed.

Lemma lm_reachable_ok_witness : lm_ok (book ex_lm3).
Proof. apply (lm_reachable_ok false). apply ex_lm3_reachable. Defined.

Lemma lm_shares_counted_witness : shares_ok (book ex_lm3).
Proof. apply lm_shares_counted. apply ex_lm3_reachable. Defined.

Lemma ex_lm3_ok : lm_ok (book ex_lm3).
Proof.
  apply (lm_step_ok true ex_lm2); [apply (lm_step_ok true ex_created); [apply (lm_step_ok true ex_lm1);
    [apply (lm_step_ok true ex_lm0); [apply lm_ok_empty|apply ex_upgraded]|]|]|].
  - apply ex_step_other. reflexivity.
  - apply ex_added_a.
  - apply ex_step_other. reflexivity.
Qed.

(** Ten periods later: the pool is updated and account 20 claims. *)
Definition ex_lm4 : LmState LmChain := at_height 11 ex_lm3.
Definition ex_farm (s : LmState LmChain) : GlobalPool :=
  default (GlobalPool_new 0 0 0 0 0 0 0 0 0) (GlobalPoolData s !! 1).
Definition ex_pool (s : LmState LmChain) (pr : AssetPair) : LiquidityPoolYieldFarm :=
  default (LiquidityPoolYieldFarm_new 0 0 None 0) (LiquidityPoolData s !! (1, get_pair_id pr)).


Lemma double_claim_refused_witness :
  let s' := do_call (Signed 20) (ClaimRewards (ex_nft 2 1)) ex_lm4 in
  claim_rewards (Signed 20) (ex_nft 2 1) s' = (Err (LmE LmErr.DoubleClaimInThePeriod), s').
Proof.
  apply (double_claim_refused (Signed 20) (ex_nft 2 1) ex_lm4). run.
Defined.

Lemma lm_withdraw_exact_witness :
  let s' := do_call (Signed 20) (WithdrawShares (ex_nft 2 1)) ex_lm4 in
  free_balance 1102 20 (below s') = free_balance 1102 20 (below ex_lm4) + 1000.
Proof.
  destruct (lm_withdraw_exact 20 (ex_nft 2 1) ex_lm4
    (do_call (Signed 20) (WithdrawShares (ex_nft 2 1)) ex_lm4)) as (d & pr & n & f & Hd & Hm & _ & _ & _ & Hpay).
  - run.
  - intros y d Hy. assert (He : DepositData ex_lm4 = {[ ex_nft 2 1 := mkDeposit 1000 100000 0 0 1 1 ]}) by run.
    rewrite He in Hy. by apply lookup_singleton_Some in Hy as [_ <-].
  - by vm_compute.
  - assert (Hd' : DepositData ex_lm4 !! ex_nft 2 1 = Some (mkDeposit 1000 100000 0 0 1 1)) by run.
    assert (Hm' : LiquidityPoolMetadata ex_lm4 !! decode_pool_id (ex_nft 2 1) = Some (ex_pair_a, 1, 1)) by run.
    rewrite Hd in Hd'. rewrite Hm in Hm'. injection Hd' as ->. injection Hm' as -> -> ->.
    cbv zeta in *. rewrite Hpay; [run| |left; run].
    intros g Hg. assert (Hg' : option_map gp_reward_currency (GlobalPoolData ex_lm4 !! 1) = Some 0) by run.
    rewrite Hg in Hg'. injection Hg' as ->. by vm_compute.
Defined.

(** The formulas and the chain keep the promises about rewards. *)
#[local] Instance ex_math_laws : LmMathLaws.
Proof.
  split; simpl; intros *.
  - intros Ht Hw. case_match; [done|]. intros [= <-]. split.
    + assert (0 <= w / t) by (apply Z.div_pos; lia). lia.
    + replace (r + w / t - r) with (w / t) by lia. apply floor_mul. lia.
  - intros Hr Hv Hcl. repeat case_match; try done. intros [= <- <-]. zbool. lia.
  - intros Hv Hm [= <-]. apply Z.div_pos; nia.
Qed.
#[local] Instance ex_accounts_apart : LmAccountsApart LmChain.
Proof.
  split; simpl; intros *.
  - intros [? _]. lia.
  - by intros (k' & _ & ->)%on_tokens_Ok.
  - pose proof (l_balance_nonneg (l_free (lc_books u)) c w).
    pose proof (l_balance_nonneg (l_reserved (lc_books u)) c w). lia.
Qed.

(** Accounts 20 and 30 deposit in the pool; ten periods later account 20 claims. *)
Definition ex_both : LmState LmChain := do_call (Signed 30) ex_deposit ex_lm3.
Definition ex_later : LmState LmChain := at_height 11 ex_both.
Definition ex_claimed : LmState LmChain := do_call (Signed 20) (ClaimRewards (ex_nft 2 1)) ex_later.

Lemma ex_user w : 0 <= w < 5000 -> user w.
Proof. intros Hw i [Hi _]. simpl. lia. Qed.

Lemma ex_run_call o c s : lm_run s -> regular o c s -> lm_run (do_call o c s).
Proof.
  intros Hr Hreg. unfold do_call. destruct (lm_dispatch o c s) as [r s'] eqn:Hrun. by eapply run_call.
Qed.

Lemma ex_claimed_run : lm_run ex_claimed.
Proof.
  assert (Hsig : forall v w, 0 <= v < 5000 -> Signed v = Signed w -> user w)
    by (intros v w Hv [= <-]; by apply ex_user).
  apply ex_run_call; [|split; [intros w; by apply Hsig|done]].
  apply run_below; [|by intros f a p c _].
  apply ex_run_call; [|split; [intros w; by apply Hsig|done]].
  apply ex_run_call; [|split; [intros w; by apply Hsig|done]].
  apply ex_run_call; [|split; [intros w; by apply Hsig|split; [done|]]].
  - apply ex_run_call; [|split; [done|split; [done|by apply ex_user]]].
    apply (run_upgrade ex_lm0); [apply run_init|run|].
    intros f a p c Hp. change (LiquidityPoolData ex_lm0) with (∅ : gmap (Z * Z) LiquidityPoolYieldFarm) in Hp.
    by rewrite lookup_empty in Hp.
  - intros i pr' n Hm. assert (He : LiquidityPoolMetadata ex_created = ∅) by run.
    rewrite He, lookup_empty in Hm. discriminate Hm.
Qed.

(** What the pool still owes account 30 is on its account. *)
Lemma rewards_covered_witness :
  debt (ex_pool ex_claimed ex_pair_a) (DepositData ex_claimed) = 1000000 /\
  1000000 <= free_balance 0 (into_sub_account 2) (below ex_claimed).
Proof.
  assert (Hd : debt (ex_pool ex_claimed ex_pair_a) (DepositData ex_claimed) = 1000000) by run.
  assert (Hp : LiquidityPoolData ex_claimed !! (1, 1102) = Some (ex_pool ex_claimed ex_pair_a)) by run.
  assert (Hg : GlobalPoolData ex_claimed !! 1 = Some (ex_farm ex_claimed)) by run.
  destruct (rewards_covered ex_claimed 1 1102 (ex_pool ex_claimed ex_pair_a) (ex_farm ex_claimed)
    ex_claimed_run Hp Hg) as [Hc _].
  split; [exact Hd|]. rewrite Hd in Hc. apply Hc. by apply small_deposit_never_swept.
Defined.

(** The owner cancels and removes the pool; account 20 still gets its shares. *)
Definition ex_canceled : LmState LmChain := do_call (Signed 10) (CancelLiquidityPool 1 ex_pair_a) ex_lm4.
Definition ex_lm5 : LmState LmChain := do_call (Signed 10) (RemoveLiquidityPool 1 ex_pair_a) ex_canceled.

Lemma ex_lm5_ok : lm_ok (book ex_lm5).
Proof.
  apply (lm_step_ok true ex_canceled ex_lm5); [|apply ex_step_other; reflexivity].
  apply (lm_step_ok true ex_lm4 ex_canceled); [|apply ex_step_other; reflexivity].
  apply (lm_step_ok true ex_lm3 ex_lm4); [apply ex_lm3_ok|apply lm_step_below].
Qed.

Lemma removed_pool_withdraw_witness :
  exists s', withdraw_shares (Signed 20) (ex_nft 2 1) ex_lm5 = (Ok tt, s').
Proof.
  destruct (removed_pool_withdraw 20 (ex_nft 2 1) (mkDeposit 1000 100000 0 0 1 1) ex_lm5)
    as (s' & Hs & _); [..|exists s'; exact Hs].
  - apply ex_lm5_ok.
  - run.
  - run.
  - assert (Hm' : LiquidityPoolMetadata ex_lm5 !! decode_pool_id (ex_nft 2 1) = Some (ex_pair_a, 1, 1)) by run.
    intros pr n f Hm. rewrite Hm in Hm'. injection Hm' as -> -> ->. split; [run|]. intros _.
    eexists. run.
  - intros [b k]. cbn [token_owner burn_check LmChain_uniques lc_tokens]. unfold on_tokens. simpl.
    by intros ->.
Defined.

(** ** Runs in which the pallet locks deposits *)

(** *** A pool added late

    Ten periods after the deposit of account 20, the pool of pair (1, 3) is added, with
    id 3, and account 30 deposits in it; one period later account 30 claims. *)
Definition ex_late1 : LmState LmChain :=
  do_call (Signed 30) (DepositShares 1 ex_pair_b 1000) (do_call (Signed 10) ex_add_b ex_lm4).
Definition ex_late2 : LmState LmChain := at_height 12 ex_late1.
Definition ex_late3 : LmState LmChain :=
  do_call (Signed 30) (ClaimRewards (ex_nft 3 2)) ex_late2.

(** A pool starts with a reward per share of zero instead of the farm's: the late pool
    is paid for eleven periods after one, 1,100,000, although the farm accrues only
    200,000 in that period.  The first pool then asks for more than is left, and every
    call on it fails with an overflow: its depositor can neither claim nor withdraw
    the shares, and the owner of the farm cannot cancel the pool. *)
Theorem late_pool_locks_first :
  fst (lm_dispatch (Signed 30) (ClaimRewards (ex_nft 3 2)) ex_late2) = Ok tt /\
  free_balance 0 30 (below ex_late3) = free_balance 0 30 (below ex_late2) + 1100000 /\
  fst (lm_dispatch (Signed 20) (ClaimRewards (ex_nft 2 1)) ex_late3) = Err (LmE LmErr.Overflow) /\
  fst (lm_dispatch (Signed 20) (WithdrawShares (ex_nft 2 1)) ex_late3) = Err (LmE LmErr.Overflow) /\
  fst (lm_dispatch (Signed 10) (CancelLiquidityPool 1 ex_pair_a) ex_late3) = Err (LmE LmErr.Overflow).
Proof. vm_compute. tauto. Qed.

(** *** A pool added again

    The pool of account 20's deposit is removed and the pair added again, with id 3;
    account 30 deposits in the new pool; then account 20 withdraws its old deposit. *)
Definition ex_again1 : LmState LmChain :=
  do_call (Signed 30) ex_deposit (do_call (Signed 10) ex_add_a ex_lm5).
Definition ex_again2 : LmState LmChain :=
  do_call (Signed 20) (WithdrawShares (ex_nft 2 1)) ex_again1.

(** The old deposit is settled against the new pool of the pair: it takes the shares
    of account 30's deposit out of the pool's total, and account 30 cannot withdraw. *)
Theorem readded_pool_locks_new_deposit :
  fst (lm_dispatch (Signed 20) (WithdrawShares (ex_nft 2 1)) ex_again1) = Ok tt /\
  DepositData ex_again2 !! ex_nft 3 2 = Some (mkDeposit 1000 100000 0 0 11 11) /\
  lp_total_shares (ex_pool ex_again2 ex_pair_a) = 0 /\
  fst (lm_dispatch (Signed 30) (WithdrawShares (ex_nft 3 2)) ex_again2) = Err (LmE LmErr.Overflow).
Proof. vm_compute. tauto. Qed.
