(* ===== verification/LmMock.v ===== *)
(** * The mock runtime of the liquidity mining pallet

    Models [src/pallets/liquidity-mining/src/mock.rs] and the chains its tests start from
    ([src/pallets/liquidity-mining/src/tests/mod.rs] and [test_ext.rs]).  Balances are the
    reference ledger, deposits' tokens the ones of the NFT pallet's tests, pools a fixed map from
    pairs to accounts and share tokens.  The reward formulas of [hydra_dx_math] are the documented
    ones, with the loyalty curve. *)

From S2P Require Import Prelude Primitives Errors Interfaces Ledger Testing Nft Marketplace MarketExamples.
From S2P Require Import Vault LiquidityMining.

(** ** Accounts, assets and pools *)

Definition TREASURY : AccountId := 5.
Definition ACCOUNT_WITH_1M : AccountId := 6.
Definition GC : AccountId := 7.
Definition INITIAL_BALANCE : Balance := 1000000000000.

Definition BSX_ACA_SHARE_ID : AssetId := 100.
Definition BSX_KSM_SHARE_ID : AssetId := 101.
Definition BSX_DOT_SHARE_ID : AssetId := 102.
Definition BSX_ETH_SHARE_ID : AssetId := 103.
Definition BSX_HDX_SHARE_ID : AssetId := 104.
Definition BSX_TKN1_SHARE_ID : AssetId := 105.
Definition BSX_TKN2_SHARE_ID : AssetId := 106.
Definition KSM_DOT_SHARE_ID : AssetId := 107.
Definition ACA_KSM_SHARE_ID : AssetId := 108.

Definition BSX : AssetId := 1000.
Definition HDX : AssetId := 2000.
Definition ACA : AssetId := 3000.
Definition KSM : AssetId := 4000.
Definition DOT : AssetId := 5000.
Definition ETH : AssetId := 6000.
Definition TKN1 : AssetId := 7001.
Definition TKN2 : AssetId := 7002.

Definition BSX_ACA_AMM : AccountId := 11000.
Definition BSX_KSM_AMM : AccountId := 11001.
Definition BSX_DOT_AMM : AccountId := 11002.
Definition BSX_ETH_AMM : AccountId := 11003.
Definition BSX_HDX_AMM : AccountId := 11004.
Definition BSX_TKN1_AMM : AccountId := 11005.
Definition BSX_TKN2_AMM : AccountId := 11006.
Definition DEFAULT_AMM : AccountId := 11007.
Definition KSM_DOT_AMM : AccountId := 11008.
Definition ACA_KSM_AMM : AccountId := 11009.

Definition BSX_ACA_LM_POOL : PoolId := 12000.
Definition BSX_KSM_LM_POOL : PoolId := 12001.
Definition BSX_DOT_LM_POOL : PoolId := 12002.
Definition BSX_FARM : PoolId := 1.
Definition KSM_FARM : PoolId := 2.
Definition GC_FARM : PoolId := 3.
Definition ACA_FARM : PoolId := 4.
Definition LIQ_MINING_NFT_CLASS : ClassId := 1.

(** ** The chain below the pallet *)

Record MockChain := mkMock { mk_books : Ledger; mk_vault : Vault; mk_block : BlockNumber }.
#[export] Instance MockChain_eq_dec : EqDecision MockChain.
Proof. solve_decision. Defined.
#[export] Instance MockChain_books : Lens MockChain Ledger := {|
  lens_get := mk_books;
  lens_set b u := mkMock b (mk_vault u) (mk_block u)
|}.
#[export] Instance MockChain_currency : MultiCurrency MockChain := lift_currency.

Definition Test_uniques : Deposits :=
  {| class_deposit := 1000000000000000; instance_deposit := 10000000000000 |}.
#[export] Existing Instance Test_uniques.
Definition on_vault {A} (m : Dispatch Vault A) : Dispatch MockChain A :=
  fun u => let '(r, v) := m (mk_vault u) in (r, mkMock (mk_books u) v (mk_block u)).
#[export] Instance MockChain_uniques : Uniques MockChain := {|
  class_owner c u := class_owner c (mk_vault u);
  token_owner c i u := token_owner c i (mk_vault u);
  class_instances c u := class_instances c (mk_vault u);
  uniques_create c o a d h := on_vault (uniques_create c o a d h);
  uniques_mint c i o := on_vault (uniques_mint c i o);
  transfer_check c i := on_vault (transfer_check c i);
  transfer_commit c i o u := mkMock (mk_books u) (transfer_commit c i o (mk_vault u)) (mk_block u);
  burn_check c i := on_vault (burn_check c i);
  burn_commit c i u := mkMock (mk_books u) (burn_commit c i (mk_vault u)) (mk_block u);
  uniques_destroy c o := on_vault (uniques_destroy c o);
  ClassDeposit := class_deposit
|}.

(** [MockBlockNumberProvider]. *)
#[export] Instance MockBlockNumberProvider : BlockNumberProvider MockChain := {|
  block_number := mk_block
|}.

(** [AMM_POOLS], with the pools [predefined_test_ext] puts into it; the key is the pair in the
    order given. *)
Definition AMM_POOLS : gmap (AssetId * AssetId) (AccountId * AssetId) :=
  list_to_map
    [((BSX, ACA), (BSX_ACA_AMM, BSX_ACA_SHARE_ID)); ((KSM, BSX), (BSX_KSM_AMM, BSX_KSM_SHARE_ID));
     ((BSX, DOT), (BSX_DOT_AMM, BSX_DOT_SHARE_ID)); ((BSX, ETH), (BSX_ETH_AMM, BSX_ETH_SHARE_ID));
     ((BSX, HDX), (BSX_HDX_AMM, BSX_HDX_SHARE_ID));
     ((BSX, TKN1), (BSX_TKN1_AMM, BSX_TKN1_SHARE_ID));
     ((BSX, TKN2), (BSX_TKN2_AMM, BSX_TKN2_SHARE_ID));
     ((KSM, DOT), (KSM_DOT_AMM, KSM_DOT_SHARE_ID)); ((ACA, KSM), (ACA_KSM_AMM, ACA_KSM_SHARE_ID))].
Definition asset_pair_to_map_key (assets : AssetPair) : AssetId * AssetId :=
  (asset_in assets, asset_out assets).
Definition NotImplemented : DispatchError := Foreign 9 0.
#[export] Instance Amm : AMM MockChain := {|
  get_max_out_ratio := 0;
  get_fee _ _ := (0, 0);
  get_max_in_ratio := 0;
  get_pool_assets _ _ := None;
  get_spot_price_unchecked _ _ _ _ := 0;
  validate_sell _ _ _ _ _ := fail NotImplemented;
  execute_buy _ := fail NotImplemented;
  execute_sell _ := fail NotImplemented;
  validate_buy _ _ _ _ _ := fail NotImplemented;
  get_min_pool_liquidity := 0;
  get_min_trading_limit := 0;
  amm_exists assets _ := bool_decide (is_Some (AMM_POOLS !! asset_pair_to_map_key assets));
  get_pair_id assets :=
    match AMM_POOLS !! asset_pair_to_map_key assets with Some p => fst p | None => DEFAULT_AMM end;
  get_share_token assets _ :=
    match AMM_POOLS !! asset_pair_to_map_key assets with Some p => snd p | None => BSX end
|}.

(** The [PalletId] of the bytes [TEST_lm_]: the account is the [u128] with the bytes of
    [modlTEST_lm_] and the index of the pool. *)
Definition TestPalletId : Z :=
  from_le_bytes [109; 111; 100; 108; 84; 69; 83; 84; 95; 108; 109; 95].
#[export] Instance LMPallet_accounts : PalletAccounts := {|
  into_account := TestPalletId;
  into_sub_account i := TestPalletId + i * 2 ^ 96
|}.

#[export] Instance Test_lm : LmConfig := {|
  may_create_farm o := match o with Root => true | _ => false end;
  MinPlannedYieldingPeriods := 100;
  MinTotalFarmRewards := 1000000;
  NftClass := LIQ_MINING_NFT_CLASS
|}.
#[export] Instance Test_nft : NftConfig :=
  {| NftReserveClassIdUpTo := 999; Permissions := NftPermissions |}.

(** ** The reward formulas *)

Definition fixed_mul (a b : FixedU128) : FixedU128 := a * b / FixedU128_one.
Definition fixed_div (a b : FixedU128) : option FixedU128 :=
  if b =? 0 then None else Some (a * FixedU128_one / b).
(** With [tau = periods / ((initial + 1) * scale)], the multiplier is
    [(tau + tau * initial + initial) / (tau + tau * initial + 1)]. *)
Definition loyalty (periods : PeriodOf) (initial : FixedU128) (scale : Z) : option FixedU128 :=
  tau ← fixed_div (periods * FixedU128_one) ((initial + FixedU128_one) * scale);
  let weight := tau + fixed_mul tau initial in
  fixed_div (weight + initial) (weight + FixedU128_one).
#[export] Instance Test_lm_math : LmMath := {|
  fixed_from_permill p := p * 10 ^ 12;
  calculate_global_pool_reward_per_period y z m := Some (Z.min (y * z / FixedU128_one) m);
  calculate_accumulated_rps rps total reward :=
    if total =? 0 then None else Some (rps + reward / total);
  calculate_global_pool_shares v m := Some (v * m / FixedU128_one);
  calculate_loyalty_multiplier := loyalty;
  calculate_user_reward rpvs valued claimed now mult :=
    if now <? rpvs then None else
    let max_rewards := (now - rpvs) * valued in
    if max_rewards =? 0 then Some (0, 0) else
    let claimable := max_rewards * mult / FixedU128_one in
    if (claimable <? claimed) || (max_rewards <? claimable) then None
    else Some (claimable - claimed, max_rewards - claimable)
|}.

(** ** Tests *)

Notation State := (LmState MockChain).
Notation Test := (State * Dispatch State unit)%type.

#[export] Instance GlobalPool_eq_dec : EqDecision GlobalPool.
Proof. solve_decision. Defined.
#[export] Instance LoyaltyCurve_eq_dec : EqDecision LoyaltyCurve.
Proof. solve_decision. Defined.
#[export] Instance LiquidityPoolYieldFarm_eq_dec : EqDecision LiquidityPoolYieldFarm.
Proof. solve_decision. Defined.
#[export] Instance Deposit_eq_dec : EqDecision Deposit.
Proof. solve_decision. Defined.
#[export] Instance AssetPair_eq_dec : EqDecision AssetPair.
Proof. solve_decision. Defined.
#[export] Instance LmEvent_eq_dec : EqDecision LmEvent.
Proof. solve_decision. Defined.
#[export] Instance MockNft_eq_dec : EqDecision (NftState MockChain).
Proof. solve_decision. Defined.
#[export] Instance MockLm_eq_dec : EqDecision State.
Proof. solve_decision. Defined.

Definition balance (c : AssetId) (w : AccountId) (s : State) : Balance :=
  Interfaces.free_balance c w (below s).
Definition balance_is (c : AssetId) (w : AccountId) (x : Balance) : Dispatch State unit :=
  check (fun s => balance c w s =? x).
(** The last events of the pallets, in order. *)
Definition is_end {A} `{EqDecision A} (l events : list A) : bool :=
  bool_decide (drop (length events - length l) events = l).
Definition expect_events (l : list LmEvent) : Dispatch State unit :=
  check (fun s => is_end l (lm_events s)).
Definition expect_nft_events (l : list NftEvent) : Dispatch State unit :=
  check (fun s => is_end l (nft_events (lm_nft s))).
Definition unwrap_get {A} (f : State -> option A) : Dispatch State A :=
  o ← gets f; match o with Some x => mret x | None => panic end.
Definition is_value {A} `{EqDecision A} (f : State -> option A) (x : option A)
    : Dispatch State unit := check (fun s => bool_decide (f s = x)).
Definition returns {A} `{EqDecision A} (m : Dispatch State A) (x : A) : Dispatch State unit :=
  r ← m; check (fun _ => bool_decide (r = x)).
Definition farm_at (id : PoolId) (s : State) : option GlobalPool := GlobalPoolData s !! id.
Definition liq_pool_at (id : PoolId) (amm : AccountId) (s : State)
    : option LiquidityPoolYieldFarm := LiquidityPoolData s !! (id, amm).
Definition deposit_at (nft_id : InstanceId) (s : State) : option Deposit := DepositData s !! nft_id.
Definition meta_at (id : PoolId) (s : State) : option (AssetPair * Z * PoolId) :=
  LiquidityPoolMetadata s !! id.

(** [Tokens::set_balance] with nothing reserved, [Tokens::transfer] and [Tokens::transfer_all]. *)
Definition set_balance (w : AccountId) (c : AssetId) (x : Balance) : Dispatch State unit :=
  zoom (C := MockChain) (zoom (C := Ledger)
    (modify (fun l => set_l_free (l_put c w x (l_free l)) l))).
Definition pay (from to : AccountId) (c : AssetId) (x : Balance) : Dispatch State unit :=
  zoom (C := MockChain) (Interfaces.transfer c from to x).
Definition transfer_all (from to : AccountId) (c : AssetId) : Dispatch State unit :=
  x ← gets (balance c from); pay from to c x.
Definition set_block_number (n : BlockNumber) : Dispatch State unit :=
  modify (fun s => set_below (mkMock (mk_books (below s)) (mk_vault (below s)) n) s).

Definition percent (p : Z) : Permill := p * 10000.
Definition fixed (n : Z) : FixedU128 := n * FixedU128_one.

(** ** The chains the tests start from *)

(** [ExtBuilder::default]. *)
Definition endowed_accounts : list (AccountId * AssetId * Balance) :=
  [(ALICE, BSX_ACA_SHARE_ID, INITIAL_BALANCE); (ALICE, BSX_DOT_SHARE_ID, INITIAL_BALANCE);
   (ALICE, BSX_KSM_SHARE_ID, INITIAL_BALANCE); (ALICE, BSX_TKN1_SHARE_ID, 3000000);
   (ALICE, BSX_TKN2_SHARE_ID, 3000000); (ALICE, ACA_KSM_SHARE_ID, 3000000);
   (ALICE, BSX, INITIAL_BALANCE); (ACCOUNT_WITH_1M, BSX, 1000000);
   (BOB, BSX_ACA_SHARE_ID, INITIAL_BALANCE); (BOB, BSX_DOT_SHARE_ID, INITIAL_BALANCE);
   (BOB, BSX_KSM_SHARE_ID, INITIAL_BALANCE); (BOB, BSX_TKN1_SHARE_ID, 2000000);
   (BOB, BSX_TKN2_SHARE_ID, 2000000); (BOB, ACA_KSM_SHARE_ID, 2000000);
   (BOB, BSX, INITIAL_BALANCE); (BOB, KSM, INITIAL_BALANCE);
   (CHARLIE, BSX_ACA_SHARE_ID, INITIAL_BALANCE); (CHARLIE, BSX_DOT_SHARE_ID, INITIAL_BALANCE);
   (CHARLIE, BSX_KSM_SHARE_ID, INITIAL_BALANCE); (CHARLIE, BSX_TKN1_SHARE_ID, 5000000);
   (CHARLIE, BSX_TKN2_SHARE_ID, 5000000); (CHARLIE, BSX, INITIAL_BALANCE);
   (CHARLIE, KSM, INITIAL_BALANCE); (CHARLIE, ACA, INITIAL_BALANCE);
   (DAVE, BSX_ACA_SHARE_ID, INITIAL_BALANCE); (DAVE, BSX_DOT_SHARE_ID, INITIAL_BALANCE);
   (DAVE, BSX_KSM_SHARE_ID, INITIAL_BALANCE); (DAVE, BSX_TKN1_SHARE_ID, 10000000);
   (DAVE, BSX_TKN2_SHARE_ID, 10000000); (DAVE, BSX, INITIAL_BALANCE); (GC, BSX, INITIAL_BALANCE);
   (TREASURY, BSX, 1000000000000000000); (TREASURY, ACA, 1000000000000000000);
   (TREASURY, HDX, 1000000000000000000); (TREASURY, KSM, 1000000000000000000)].
Definition build : State :=
  mkLm (mkNft (mkMock (tokens_genesis endowed_accounts) (balances_genesis []) 0) ∅ ∅ [])
    0 0 ∅ ∅ ∅ ∅ 0 [].

Definition ALICE_FARM : PoolId := BSX_FARM.
Definition BOB_FARM : PoolId := KSM_FARM.
Definition CHARLIE_FARM : PoolId := ACA_FARM.
Definition BSX_TKN1_LIQ_POOL_ID : PoolId := 5.
Definition BSX_TKN2_LIQ_POOL_ID : PoolId := 6.
Definition ACA_KSM_LIQ_POOL_ID : PoolId := 7.

(** [PREDEFINED_GLOBAL_POOLS], [PREDEFINED_LIQ_POOLS], [PREDEFINED_NFT_IDS]. *)
Definition PREDEFINED_GLOBAL_POOLS (i : nat) : GlobalPool :=
  match i with
  | 0%nat => mkGlobalPool ALICE_FARM ALICE 0 0 0 BSX 0 0 (percent 20) 300 1000 BSX 333333333 0
  | 1%nat => mkGlobalPool BOB_FARM BOB 0 0 0 KSM 0 0 (percent 38) 5000 10000 BSX 200000 0
  | 2%nat => mkGlobalPool GC_FARM GC 0 0 0 BSX 0 0 (percent 50) 500 100 BSX 60000000 2
  | _ => mkGlobalPool CHARLIE_FARM CHARLIE 0 0 0 ACA 0 0 (percent 50) 500 100 KSM 60000000 2
  end.
Definition PREDEFINED_LIQ_POOLS (i : nat) : LiquidityPoolYieldFarm :=
  let empty id m := mkLiquidityPool id 0 0 0 0 0 (Some LoyaltyCurve_default) 0 m false in
  match i with
  | 0%nat => empty BSX_TKN1_LIQ_POOL_ID (fixed 5)
  | 1%nat => empty BSX_TKN2_LIQ_POOL_ID (fixed 10)
  | _ => empty ACA_KSM_LIQ_POOL_ID (fixed 10)
  end.
Definition PREDEFINED_NFT_IDS (i : nat) : InstanceId :=
  nth i [4294967301; 8589934597; 12884901894; 17179869190; 21474836486; 25769803782; 30064771077] 0.

(** [new_test_ext], [predefined_test_ext] and [predefined_test_ext_with_deposits]; the last two
    are scripts of their own with assertions. *)
Definition after (m : Dispatch State unit) (s : State) : State := snd (m s).
Definition new_test_ext : State := after (init_nft_class ;; set_block_number 1) build.

Definition predefined_script : Dispatch State unit :=
  assert_ok (create_farm Root 100000000000 (gp_planned_yielding_periods (PREDEFINED_GLOBAL_POOLS
    0)) (gp_blocks_per_period (PREDEFINED_GLOBAL_POOLS 0)) (gp_incentivized_asset
    (PREDEFINED_GLOBAL_POOLS 0)) (gp_reward_currency (PREDEFINED_GLOBAL_POOLS 0)) ALICE
    (gp_yield_per_period (PREDEFINED_GLOBAL_POOLS 0))) ;;
  assert_ok (create_farm Root 1000000000 (gp_planned_yielding_periods (PREDEFINED_GLOBAL_POOLS
    1)) (gp_blocks_per_period (PREDEFINED_GLOBAL_POOLS 1)) (gp_incentivized_asset
    (PREDEFINED_GLOBAL_POOLS 1)) (gp_reward_currency (PREDEFINED_GLOBAL_POOLS 1)) BOB
    (gp_yield_per_period (PREDEFINED_GLOBAL_POOLS 1))) ;;
  assert_ok (create_farm Root 30000000000 (gp_planned_yielding_periods (PREDEFINED_GLOBAL_POOLS
    2)) (gp_blocks_per_period (PREDEFINED_GLOBAL_POOLS 2)) (gp_incentivized_asset
    (PREDEFINED_GLOBAL_POOLS 2)) (gp_reward_currency (PREDEFINED_GLOBAL_POOLS 2)) GC
    (gp_yield_per_period (PREDEFINED_GLOBAL_POOLS 2))) ;;
  assert_ok (create_farm Root 30000000000 (gp_planned_yielding_periods (PREDEFINED_GLOBAL_POOLS
    3)) (gp_blocks_per_period (PREDEFINED_GLOBAL_POOLS 3)) (gp_incentivized_asset
    (PREDEFINED_GLOBAL_POOLS 3)) (gp_reward_currency (PREDEFINED_GLOBAL_POOLS 3)) CHARLIE
    (gp_yield_per_period (PREDEFINED_GLOBAL_POOLS 3))) ;;
  expect_events [FarmCreated (gp_id (PREDEFINED_GLOBAL_POOLS 0)) (gp_owner
    (PREDEFINED_GLOBAL_POOLS 0)) (gp_reward_currency (PREDEFINED_GLOBAL_POOLS 0))
    (gp_yield_per_period (PREDEFINED_GLOBAL_POOLS 0)) (gp_planned_yielding_periods
    (PREDEFINED_GLOBAL_POOLS 0)) (gp_blocks_per_period (PREDEFINED_GLOBAL_POOLS 0))
    (gp_incentivized_asset (PREDEFINED_GLOBAL_POOLS 0)) (gp_max_reward_per_period
    (PREDEFINED_GLOBAL_POOLS 0)); FarmCreated (gp_id (PREDEFINED_GLOBAL_POOLS 1)) (gp_owner
    (PREDEFINED_GLOBAL_POOLS 1)) (gp_reward_currency (PREDEFINED_GLOBAL_POOLS 1))
    (gp_yield_per_period (PREDEFINED_GLOBAL_POOLS 1)) (gp_planned_yielding_periods
    (PREDEFINED_GLOBAL_POOLS 1)) (gp_blocks_per_period (PREDEFINED_GLOBAL_POOLS 1))
    (gp_incentivized_asset (PREDEFINED_GLOBAL_POOLS 1)) (gp_max_reward_per_period
    (PREDEFINED_GLOBAL_POOLS 1)); FarmCreated (gp_id (PREDEFINED_GLOBAL_POOLS 2)) (gp_owner
    (PREDEFINED_GLOBAL_POOLS 2)) (gp_reward_currency (PREDEFINED_GLOBAL_POOLS 2))
    (gp_yield_per_period (PREDEFINED_GLOBAL_POOLS 2)) (gp_planned_yielding_periods
    (PREDEFINED_GLOBAL_POOLS 2)) (gp_blocks_per_period (PREDEFINED_GLOBAL_POOLS 2))
    (gp_incentivized_asset (PREDEFINED_GLOBAL_POOLS 2)) (gp_max_reward_per_period
    (PREDEFINED_GLOBAL_POOLS 2)); FarmCreated (gp_id (PREDEFINED_GLOBAL_POOLS 3)) (gp_owner
    (PREDEFINED_GLOBAL_POOLS 3)) (gp_reward_currency (PREDEFINED_GLOBAL_POOLS 3))
    (gp_yield_per_period (PREDEFINED_GLOBAL_POOLS 3)) (gp_planned_yielding_periods
    (PREDEFINED_GLOBAL_POOLS 3)) (gp_blocks_per_period (PREDEFINED_GLOBAL_POOLS 3))
    (gp_incentivized_asset (PREDEFINED_GLOBAL_POOLS 3)) (gp_max_reward_per_period
    (PREDEFINED_GLOBAL_POOLS 3))] ;;
  assert_ok (add_liquidity_pool (Signed GC) GC_FARM (AssetPair_new BSX TKN1) (lp_multiplier
    (PREDEFINED_LIQ_POOLS 0)) (lp_loyalty_curve (PREDEFINED_LIQ_POOLS 0))) ;;
  expect_events [LiquidityPoolAdded GC_FARM (lp_id (PREDEFINED_LIQ_POOLS 0)) (lp_multiplier
    (PREDEFINED_LIQ_POOLS 0)) LIQ_MINING_NFT_CLASS (AssetPair_new BSX TKN1) (lp_loyalty_curve
    (PREDEFINED_LIQ_POOLS 0))] ;;
  assert_ok (add_liquidity_pool (Signed GC) GC_FARM (AssetPair_new BSX TKN2) (lp_multiplier
    (PREDEFINED_LIQ_POOLS 1)) (lp_loyalty_curve (PREDEFINED_LIQ_POOLS 1))) ;;
  expect_events [LiquidityPoolAdded GC_FARM (lp_id (PREDEFINED_LIQ_POOLS 1)) (lp_multiplier
    (PREDEFINED_LIQ_POOLS 1)) LIQ_MINING_NFT_CLASS (AssetPair_new BSX TKN2) (lp_loyalty_curve
    (PREDEFINED_LIQ_POOLS 1))] ;;
  assert_ok (add_liquidity_pool (Signed CHARLIE) CHARLIE_FARM (AssetPair_new ACA KSM)
    (lp_multiplier (PREDEFINED_LIQ_POOLS 2)) (lp_loyalty_curve (PREDEFINED_LIQ_POOLS 2))) ;;
  expect_events [LiquidityPoolAdded CHARLIE_FARM (lp_id (PREDEFINED_LIQ_POOLS 2)) (lp_multiplier
    (PREDEFINED_LIQ_POOLS 2)) LIQ_MINING_NFT_CLASS (AssetPair_new ACA KSM) (lp_loyalty_curve
    (PREDEFINED_LIQ_POOLS 2))].
Definition predefined_test_ext : State := after predefined_script new_test_ext.

Definition deposits_script : Dispatch State unit :=
  let farm_id := GC_FARM in let bsx_tkn1_assets := AssetPair_new BSX TKN1 in
  let bsx_tkn2_assets := AssetPair_new BSX TKN2 in let pallet_account := account_id in
  global_pool_account ← pool_account_id GC_FARM;
  bsx_tkn1_liq_pool_account ← pool_account_id BSX_TKN1_LIQ_POOL_ID;
  bsx_tkn2_liq_pool_account ← pool_account_id BSX_TKN2_LIQ_POOL_ID;
  let bsx_tkn1_amm_account := get_pair_id bsx_tkn1_assets in
  let bsx_tkn2_amm_account := get_pair_id bsx_tkn2_assets in
  set_block_number 1800 ;;
  set_balance bsx_tkn1_amm_account BSX 50 ;;
  let deposited_amount := 50 in
  assert_ok (deposit_shares (Signed ALICE) farm_id bsx_tkn1_assets deposited_amount) ;;
  expect_events [SharesDeposited GC_FARM BSX_TKN1_LIQ_POOL_ID ALICE deposited_amount
    BSX_TKN1_SHARE_ID LIQ_MINING_NFT_CLASS (PREDEFINED_NFT_IDS 0)] ;;
  set_balance bsx_tkn1_amm_account BSX 52 ;;
  let deposited_amount := 80 in
  assert_ok (deposit_shares (Signed BOB) farm_id bsx_tkn1_assets deposited_amount) ;;
  expect_events [SharesDeposited GC_FARM BSX_TKN1_LIQ_POOL_ID BOB deposited_amount
    BSX_TKN1_SHARE_ID LIQ_MINING_NFT_CLASS (PREDEFINED_NFT_IDS 1)] ;;
  set_balance bsx_tkn2_amm_account BSX 8 ;;
  let deposited_amount := 25 in
  assert_ok (deposit_shares (Signed BOB) farm_id bsx_tkn2_assets deposited_amount) ;;
  expect_events [SharesDeposited GC_FARM BSX_TKN2_LIQ_POOL_ID BOB deposited_amount
    BSX_TKN2_SHARE_ID LIQ_MINING_NFT_CLASS (PREDEFINED_NFT_IDS 2)] ;;
  set_block_number 2051 ;;
  set_balance bsx_tkn2_amm_account BSX 58 ;;
  let deposited_amount := 800 in
  assert_ok (deposit_shares (Signed BOB) farm_id bsx_tkn2_assets deposited_amount) ;;
  expect_events [SharesDeposited GC_FARM BSX_TKN2_LIQ_POOL_ID BOB deposited_amount
    BSX_TKN2_SHARE_ID LIQ_MINING_NFT_CLASS (PREDEFINED_NFT_IDS 3)] ;;
  set_block_number 2586 ;;
  set_balance bsx_tkn2_amm_account BSX 3 ;;
  let deposited_amount := 87 in
  assert_ok (deposit_shares (Signed ALICE) farm_id bsx_tkn2_assets deposited_amount) ;;
  expect_events [SharesDeposited GC_FARM BSX_TKN2_LIQ_POOL_ID ALICE deposited_amount
    BSX_TKN2_SHARE_ID LIQ_MINING_NFT_CLASS (PREDEFINED_NFT_IDS 4)] ;;
  set_block_number 2596 ;;
  set_balance bsx_tkn2_amm_account BSX 16 ;;
  let deposited_amount := 48 in
  assert_ok (deposit_shares (Signed ALICE) farm_id bsx_tkn2_assets deposited_amount) ;;
  expect_events [SharesDeposited GC_FARM BSX_TKN2_LIQ_POOL_ID ALICE deposited_amount
    BSX_TKN2_SHARE_ID LIQ_MINING_NFT_CLASS (PREDEFINED_NFT_IDS 5)] ;;
  set_block_number 2596 ;;
  set_balance bsx_tkn1_amm_account BSX 80 ;;
  let deposited_amount := 486 in
  assert_ok (deposit_shares (Signed ALICE) farm_id bsx_tkn1_assets deposited_amount) ;;
  expect_events [SharesDeposited GC_FARM BSX_TKN1_LIQ_POOL_ID ALICE deposited_amount
    BSX_TKN1_SHARE_ID LIQ_MINING_NFT_CLASS (PREDEFINED_NFT_IDS 6)] ;;
  is_value (farm_at GC_FARM) (Some (mkGlobalPool GC_FARM GC 25 703990 12 BSX 231650 1164400
    (percent 50) 500 100 BSX 60000000 2)) ;;
  is_value (liq_pool_at GC_FARM BSX_TKN1_AMM) (Some (mkLiquidityPool (lp_id (PREDEFINED_LIQ_POOLS
    0)) 25 616 45540 60 12 (lp_loyalty_curve (PREDEFINED_LIQ_POOLS 0)) 227700 (lp_multiplier
    (PREDEFINED_LIQ_POOLS 0)) (lp_canceled (PREDEFINED_LIQ_POOLS 0)))) ;;
  is_value (liq_pool_at GC_FARM BSX_TKN2_AMM) (Some (mkLiquidityPool (lp_id (PREDEFINED_LIQ_POOLS
    1)) 25 960 47629 120 12 (lp_loyalty_curve (PREDEFINED_LIQ_POOLS 1)) 476290 (lp_multiplier
    (PREDEFINED_LIQ_POOLS 1)) (lp_canceled (PREDEFINED_LIQ_POOLS 1)))) ;;
  is_value (meta_at BSX_TKN1_LIQ_POOL_ID) (Some (bsx_tkn1_assets, 3, GC_FARM)) ;;
  is_value (meta_at BSX_TKN2_LIQ_POOL_ID) (Some (bsx_tkn2_assets, 4, GC_FARM)) ;;
  balance_is BSX_TKN1_SHARE_ID pallet_account 616 ;;
  balance_is BSX_TKN2_SHARE_ID pallet_account 960 ;;
  balance_is BSX global_pool_account (30000000000 - 1164400) ;;
  balance_is BSX bsx_tkn1_liq_pool_account 212400 ;;
  balance_is BSX bsx_tkn2_liq_pool_account 952000 ;;
  balance_is BSX_TKN1_SHARE_ID ALICE (3000000 - 536) ;;
  balance_is BSX_TKN2_SHARE_ID ALICE (3000000 - 135) ;;
  balance_is BSX_TKN1_SHARE_ID BOB (2000000 - 80) ;;
  balance_is BSX_TKN2_SHARE_ID BOB (2000000 - 825).
Definition predefined_test_ext_with_deposits : State := after deposits_script predefined_test_ext.

(** Both scripts run without an error, all their assertions included. *)
Theorem lm_chains_built :
  suite_passes [(new_test_ext, predefined_script); (predefined_test_ext, deposits_script)].
Proof. run_suite. Qed.
