(* ===== verification/LmFarmTests.v ===== *)
(** * The tests of the liquidity mining pallet: farms and liquidity pools

    The tests of [create_farm.rs], [add_liquidity_pool.rs], [update_liquidity_pool.rs],
    [cancel_liquidity_pool.rs], [resume_liquidity_pool.rs], [remove_liquidity_pool.rs],
    [destroy_farm.rs] and [withdraw_undistributed_rewards.rs] under
    [src/pallets/liquidity-mining/src/tests/], on the model of the pallet.  A test that builds
    more than one chain is one definition per chain. *)

From S2P Require Import Prelude Primitives Errors Interfaces Ledger Testing Nft Vault LiquidityMining LmMock.

Definition create_farm_should_work : Test := (new_test_ext,
  let pool_id := 1 in let total_rewards := 50000000000 in let reward_currency := BSX in
  let planned_yielding_periods := 1000000000 in let blocks_per_period := 20000 in
  let incentivized_token := BSX in let owner := ALICE in let yield_per_period := percent 20 in
  let max_reward_per_period := total_rewards / planned_yielding_periods in
  let created_at_block := 15896 in
  set_block_number created_at_block ;;
  pool_account ← pool_account_id pool_id;
  balance_is reward_currency pool_account 0 ;;
  assert_ok (create_farm Root total_rewards planned_yielding_periods blocks_per_period
    incentivized_token reward_currency owner yield_per_period) ;;
  balance_is reward_currency pool_account total_rewards ;;
  balance_is reward_currency ALICE (INITIAL_BALANCE - total_rewards) ;;
  let updated_at := created_at_block / blocks_per_period in
  let global_pool := GlobalPool_new pool_id updated_at reward_currency yield_per_period
    planned_yielding_periods blocks_per_period owner incentivized_token max_reward_per_period in
  expect_events [FarmCreated (gp_id global_pool) (gp_owner global_pool) (gp_reward_currency
    global_pool) (gp_yield_per_period global_pool) (gp_planned_yielding_periods global_pool)
    (gp_blocks_per_period global_pool) (gp_incentivized_asset global_pool)
    (gp_max_reward_per_period global_pool)] ;;
  is_value (farm_at pool_id) (Some global_pool)).

Definition create_farm_from_basic_origin_should_not_work : Test := (new_test_ext,
  let created_at_block := 15896 in
  set_block_number created_at_block ;;
  assert_noop (create_farm (Signed ALICE) 1000000 1000 300 BSX BSX ALICE (percent 20)) BadOrigin).

Definition create_farm_invalid_data_should_not_work : Test := (new_test_ext,
  let created_at_block := 15896 in
  set_block_number created_at_block ;;
  assert_noop (create_farm Root 100 1000 300 BSX BSX ALICE (percent 20))
    LmErr.InvalidTotalRewards ;;
  assert_noop (create_farm Root 1000000 10 300 BSX BSX ALICE (percent 20))
    LmErr.InvalidPlannedYieldingPeriods ;;
  assert_noop (create_farm Root 1000000 1000 0 BSX BSX ALICE (percent 20))
    LmErr.InvalidBlocksPerPeriod ;;
  assert_noop (create_farm Root 1000000 1000 1 BSX BSX ALICE (percent 0))
    LmErr.InvalidYieldPerPeriod).

Definition create_farm_with_inssufficient_balance_should_not_work : Test := (new_test_ext,
  assert_noop (create_farm Root 1000001 1000 1 BSX BSX ACCOUNT_WITH_1M (percent 20))
    LmErr.InsufficientRewardCurrencyBalance).

Definition add_liquidity_pool_should_work : Test := (predefined_test_ext,
  let test_data := [(AssetPair_new BSX ACA, mkLiquidityPool 8 17 0 0 0 0 (Some
    LoyaltyCurve_default) 0 (fixed 20000) false, BSX_ACA_AMM, ALICE, ALICE_FARM, 17850,
    mkGlobalPool (gp_id (PREDEFINED_GLOBAL_POOLS 0)) (gp_owner (PREDEFINED_GLOBAL_POOLS 0))
    (gp_updated_at (PREDEFINED_GLOBAL_POOLS 0)) (gp_total_shares_z (PREDEFINED_GLOBAL_POOLS 0))
    (gp_accumulated_rpz (PREDEFINED_GLOBAL_POOLS 0)) (gp_reward_currency (PREDEFINED_GLOBAL_POOLS
    0)) (gp_accumulated_rewards (PREDEFINED_GLOBAL_POOLS 0)) (gp_paid_accumulated_rewards
    (PREDEFINED_GLOBAL_POOLS 0)) (gp_yield_per_period (PREDEFINED_GLOBAL_POOLS 0))
    (gp_planned_yielding_periods (PREDEFINED_GLOBAL_POOLS 0)) (gp_blocks_per_period
    (PREDEFINED_GLOBAL_POOLS 0)) (gp_incentivized_asset (PREDEFINED_GLOBAL_POOLS 0))
    (gp_max_reward_per_period (PREDEFINED_GLOBAL_POOLS 0)) 1); (AssetPair_new KSM BSX,
    mkLiquidityPool 9 17 0 0 0 0 None 0 (fixed 10000) false, BSX_KSM_AMM, ALICE, ALICE_FARM,
    17850, mkGlobalPool (gp_id (PREDEFINED_GLOBAL_POOLS 0)) (gp_owner (PREDEFINED_GLOBAL_POOLS
    0)) (gp_updated_at (PREDEFINED_GLOBAL_POOLS 0)) (gp_total_shares_z (PREDEFINED_GLOBAL_POOLS
    0)) (gp_accumulated_rpz (PREDEFINED_GLOBAL_POOLS 0)) (gp_reward_currency
    (PREDEFINED_GLOBAL_POOLS 0)) (gp_accumulated_rewards (PREDEFINED_GLOBAL_POOLS 0))
    (gp_paid_accumulated_rewards (PREDEFINED_GLOBAL_POOLS 0)) (gp_yield_per_period
    (PREDEFINED_GLOBAL_POOLS 0)) (gp_planned_yielding_periods (PREDEFINED_GLOBAL_POOLS 0))
    (gp_blocks_per_period (PREDEFINED_GLOBAL_POOLS 0)) (gp_incentivized_asset
    (PREDEFINED_GLOBAL_POOLS 0)) (gp_max_reward_per_period (PREDEFINED_GLOBAL_POOLS 0)) 2);
    (AssetPair_new BSX ETH, mkLiquidityPool 10 20 0 0 0 0 (Some (mkLoyaltyCurve
    100000000000000000 50)) 0 (fixed 10000) false, BSX_ETH_AMM, ALICE, ALICE_FARM, 20000,
    mkGlobalPool (gp_id (PREDEFINED_GLOBAL_POOLS 0)) (gp_owner (PREDEFINED_GLOBAL_POOLS 0))
    (gp_updated_at (PREDEFINED_GLOBAL_POOLS 0)) (gp_total_shares_z (PREDEFINED_GLOBAL_POOLS 0))
    (gp_accumulated_rpz (PREDEFINED_GLOBAL_POOLS 0)) (gp_reward_currency (PREDEFINED_GLOBAL_POOLS
    0)) (gp_accumulated_rewards (PREDEFINED_GLOBAL_POOLS 0)) (gp_paid_accumulated_rewards
    (PREDEFINED_GLOBAL_POOLS 0)) (gp_yield_per_period (PREDEFINED_GLOBAL_POOLS 0))
    (gp_planned_yielding_periods (PREDEFINED_GLOBAL_POOLS 0)) (gp_blocks_per_period
    (PREDEFINED_GLOBAL_POOLS 0)) (gp_incentivized_asset (PREDEFINED_GLOBAL_POOLS 0))
    (gp_max_reward_per_period (PREDEFINED_GLOBAL_POOLS 0)) 3); (AssetPair_new BSX ETH,
    mkLiquidityPool 11 2 0 0 0 0 (Some (mkLoyaltyCurve 1 0)) 0 (fixed 50000128) false,
    BSX_ETH_AMM, BOB, BOB_FARM, 20000, mkGlobalPool (gp_id (PREDEFINED_GLOBAL_POOLS 1)) (gp_owner
    (PREDEFINED_GLOBAL_POOLS 1)) (gp_updated_at (PREDEFINED_GLOBAL_POOLS 1)) (gp_total_shares_z
    (PREDEFINED_GLOBAL_POOLS 1)) (gp_accumulated_rpz (PREDEFINED_GLOBAL_POOLS 1))
    (gp_reward_currency (PREDEFINED_GLOBAL_POOLS 1)) (gp_accumulated_rewards
    (PREDEFINED_GLOBAL_POOLS 1)) (gp_paid_accumulated_rewards (PREDEFINED_GLOBAL_POOLS 1))
    (gp_yield_per_period (PREDEFINED_GLOBAL_POOLS 1)) (gp_planned_yielding_periods
    (PREDEFINED_GLOBAL_POOLS 1)) (gp_blocks_per_period (PREDEFINED_GLOBAL_POOLS 1))
    (gp_incentivized_asset (PREDEFINED_GLOBAL_POOLS 1)) (gp_max_reward_per_period
    (PREDEFINED_GLOBAL_POOLS 1)) 1)] in
  for_each (fun '(assets, pool, _, who, farm_id, now, global_pool) =>
    set_block_number now ;;
    assert_ok (add_liquidity_pool (Signed who) farm_id assets (lp_multiplier pool)
      (lp_loyalty_curve pool)) ;;
    expect_events [LiquidityPoolAdded farm_id (lp_id pool) (lp_multiplier pool)
      LIQ_MINING_NFT_CLASS assets (lp_loyalty_curve pool)] ;;
    is_value (farm_at farm_id) (Some global_pool))
    test_data ;;
  for_each (fun '(_, pool, amm_id, _, farm_id, _, _) =>
    is_value (liq_pool_at farm_id amm_id) (Some pool))
    test_data).

Definition add_liquidity_pool_missing_incentivized_asset_should_not_work : Test :=
  (predefined_test_ext,
  assert_noop (add_liquidity_pool (Signed ALICE) ALICE_FARM (AssetPair_new KSM DOT) (fixed 10000)
    None) LmErr.MissingIncentivizedAsset).

Definition add_liquidity_pool_not_owner_should_not_work : Test := (predefined_test_ext,
  assert_noop (add_liquidity_pool (Signed BOB) ALICE_FARM (AssetPair_new BSX HDX) (fixed 10000)
    None) LmErr.Forbidden ;;
  assert_noop (add_liquidity_pool (Signed BOB) ALICE_FARM (AssetPair_new BSX HDX) (fixed 10000)
    (Some LoyaltyCurve_default)) LmErr.Forbidden).

Definition add_liquidity_pool_invalid_loyalty_curve_should_not_work : Test :=
  (predefined_test_ext,
  let curves := [Some (mkLoyaltyCurve FixedU128_one 0); Some (mkLoyaltyCurve 1000000000000000000
    1000000); Some (mkLoyaltyCurve 1000000000000000000 25996000); Some (mkLoyaltyCurve (fixed 1)
    25996000); Some (mkLoyaltyCurve (fixed 5) 25996000); Some (mkLoyaltyCurve (fixed 16874354654)
    25996000)] in
  for_each (fun c =>
    assert_noop (add_liquidity_pool (Signed ALICE) ALICE_FARM (AssetPair_new BSX HDX) (fixed
      10000) c) LmErr.InvalidInitialRewardPercentage)
    curves).

Definition add_liquidity_pool_invalid_multiplier_should_not_work : Test := (predefined_test_ext,
  assert_noop (add_liquidity_pool (Signed ALICE) ALICE_FARM (AssetPair_new BSX HDX) (fixed 0)
    (Some LoyaltyCurve_default)) LmErr.InvalidMultiplier).

Definition add_liquidity_pool_non_existing_amm_should_not_work : Test := (predefined_test_ext,
  assert_noop (add_liquidity_pool (Signed ALICE) ALICE_FARM (AssetPair_new BSX 999999999) (fixed
    10000) (Some LoyaltyCurve_default)) LmErr.AmmPoolDoesNotExist).

Definition add_liquidity_pool_add_duplicate_amm_should_not_work : Test := (predefined_test_ext,
  set_block_number 20000 ;;
  let aca_ksm_assets := AssetPair_new ACA KSM in
  let aca_ksm_amm_account := get_pair_id aca_ksm_assets in
  check (fun s => negb (bool_decide (liq_pool_at CHARLIE_FARM aca_ksm_amm_account s = None))) ;;
  assert_noop (add_liquidity_pool (Signed CHARLIE) CHARLIE_FARM aca_ksm_assets (fixed 9000) (Some
    LoyaltyCurve_default)) LmErr.LiquidityPoolAlreadyExists ;;
  set_block_number 30000 ;;
  assert_noop (add_liquidity_pool (Signed CHARLIE) CHARLIE_FARM aca_ksm_assets (fixed 9000) (Some
    LoyaltyCurve_default)) LmErr.LiquidityPoolAlreadyExists).

Definition update_liquidity_pool_should_work : Test := (predefined_test_ext,
  let bsx_tkn1_assets := AssetPair_new BSX TKN1 in let new_multiplier := fixed 5000 in
  liq_pool ← unwrap_get (liq_pool_at GC_FARM BSX_TKN1_AMM);
  global_pool ← unwrap_get (farm_at GC_FARM);
  assert_ok (update_liquidity_pool (Signed GC) GC_FARM bsx_tkn1_assets new_multiplier) ;;
  is_value (liq_pool_at GC_FARM BSX_TKN1_AMM) (Some (mkLiquidityPool (lp_id liq_pool)
    (lp_updated_at liq_pool) (lp_total_shares liq_pool) (lp_total_valued_shares liq_pool)
    (lp_accumulated_rpvs liq_pool) (lp_accumulated_rpz liq_pool) (lp_loyalty_curve liq_pool)
    (lp_stake_in_global_pool liq_pool) new_multiplier (lp_canceled liq_pool))) ;;
  is_value (farm_at GC_FARM) (Some global_pool)).

Definition update_liquidity_pool_should_work_2 : Test := (predefined_test_ext_with_deposits,
  let bsx_tkn1_assets := AssetPair_new BSX TKN1 in let new_multiplier := fixed 10000 in
  liq_pool ← unwrap_get (liq_pool_at GC_FARM BSX_TKN1_AMM);
  global_pool ← unwrap_get (farm_at GC_FARM);
  assert_ok (update_liquidity_pool (Signed GC) GC_FARM bsx_tkn1_assets new_multiplier) ;;
  is_value (liq_pool_at GC_FARM BSX_TKN1_AMM) (Some (mkLiquidityPool (lp_id liq_pool)
    (lp_updated_at liq_pool) (lp_total_shares liq_pool) (lp_total_valued_shares liq_pool)
    (lp_accumulated_rpvs liq_pool) (lp_accumulated_rpz liq_pool) (lp_loyalty_curve liq_pool)
    455400000 new_multiplier (lp_canceled liq_pool))) ;;
  is_value (farm_at GC_FARM) (Some (mkGlobalPool (gp_id global_pool) (gp_owner global_pool)
    (gp_updated_at global_pool) 455876290 (gp_accumulated_rpz global_pool) (gp_reward_currency
    global_pool) (gp_accumulated_rewards global_pool) (gp_paid_accumulated_rewards global_pool)
    (gp_yield_per_period global_pool) (gp_planned_yielding_periods global_pool)
    (gp_blocks_per_period global_pool) (gp_incentivized_asset global_pool)
    (gp_max_reward_per_period global_pool) (gp_liq_pools_count global_pool))) ;;
  set_block_number 5000 ;;
  let new_multiplier := fixed 5000 in
  liq_pool ← unwrap_get (liq_pool_at GC_FARM BSX_TKN1_AMM);
  global_pool ← unwrap_get (farm_at GC_FARM);
  global_pool_account ← pool_account_id GC_FARM;
  liq_pool_account ← pool_account_id BSX_TKN1_LIQ_POOL_ID;
  global_pool_bsx_balance ← gets (fun s => balance BSX global_pool_account s);
  liq_pool_bsx_balance ← gets (fun s => balance BSX liq_pool_account s);
  assert_ok (update_liquidity_pool (Signed GC) GC_FARM bsx_tkn1_assets new_multiplier) ;;
  is_value (liq_pool_at GC_FARM BSX_TKN1_AMM) (Some (mkLiquidityPool (lp_id liq_pool) 50
    (lp_total_shares liq_pool) (lp_total_valued_shares liq_pool) 30060 15 (lp_loyalty_curve
    liq_pool) 227700000 new_multiplier (lp_canceled liq_pool))) ;;
  is_value (farm_at GC_FARM) (Some (mkGlobalPool (gp_id global_pool) (gp_owner global_pool) 50
    228176290 15 (gp_reward_currency global_pool) ((gp_accumulated_rewards global_pool) +
    133800000) ((gp_paid_accumulated_rewards global_pool) + 1366200000) (gp_yield_per_period
    global_pool) (gp_planned_yielding_periods global_pool) (gp_blocks_per_period global_pool)
    (gp_incentivized_asset global_pool) (gp_max_reward_per_period global_pool)
    (gp_liq_pools_count global_pool))) ;;
  balance_is BSX global_pool_account (global_pool_bsx_balance - 1366200000) ;;
  balance_is BSX liq_pool_account (liq_pool_bsx_balance + 1366200000)).

Definition update_liquidity_pool_zero_multiplier_should_not_work : Test :=
  (predefined_test_ext_with_deposits,
  let bsx_tkn1_assets := AssetPair_new BSX TKN1 in
  assert_noop (update_liquidity_pool (Signed GC) GC_FARM bsx_tkn1_assets (fixed 0))
    LmErr.InvalidMultiplier).

Definition update_liquidity_pool_canceled_pool_should_not_work : Test :=
  (predefined_test_ext_with_deposits,
  let bsx_tkn1_liq_pool := AssetPair_new BSX TKN1 in
  assert_ok (cancel_liquidity_pool (Signed GC) GC_FARM bsx_tkn1_liq_pool) ;;
  assert_noop (update_liquidity_pool (Signed GC) GC_FARM bsx_tkn1_liq_pool (fixed 10001))
    LmErr.LiquidityMiningCanceled).

Definition update_liquidity_pool_not_owner_should_not_work : Test :=
  (predefined_test_ext_with_deposits,
  let bsx_tkn1_assets := AssetPair_new BSX TKN1 in
  assert_ok (cancel_liquidity_pool (Signed GC) GC_FARM bsx_tkn1_assets) ;;
  let not_owner := ALICE in
  assert_noop (update_liquidity_pool (Signed not_owner) GC_FARM bsx_tkn1_assets (fixed 10001))
    LmErr.LiquidityMiningCanceled).

Definition cancel_liquidity_pool_should_work : Test := (predefined_test_ext_with_deposits,
  let bsx_tkn1_assets := AssetPair_new BSX TKN1 in
  liq_pool_account ← pool_account_id BSX_TKN1_LIQ_POOL_ID;
  global_pool_account ← pool_account_id GC_FARM;
  liq_pool_bsx_balance ← gets (fun s => balance BSX liq_pool_account s);
  global_pool_bsx_balance ← gets (fun s => balance BSX global_pool_account s);
  liq_pool ← unwrap_get (liq_pool_at GC_FARM BSX_TKN1_AMM);
  global_pool ← unwrap_get (farm_at GC_FARM);
  assert_ok (cancel_liquidity_pool (Signed GC) GC_FARM bsx_tkn1_assets) ;;
  expect_events [LiquidityMiningCanceled GC_FARM BSX_TKN1_LIQ_POOL_ID GC bsx_tkn1_assets] ;;
  is_value (liq_pool_at GC_FARM BSX_TKN1_AMM) (Some (mkLiquidityPool (lp_id liq_pool)
    (lp_updated_at liq_pool) (lp_total_shares liq_pool) (lp_total_valued_shares liq_pool)
    (lp_accumulated_rpvs liq_pool) (lp_accumulated_rpz liq_pool) (lp_loyalty_curve liq_pool) 0 0
    true)) ;;
  is_value (farm_at GC_FARM) (Some (mkGlobalPool (gp_id global_pool) (gp_owner global_pool)
    (gp_updated_at global_pool) ((gp_total_shares_z global_pool) - (lp_stake_in_global_pool
    liq_pool)) (gp_accumulated_rpz global_pool) (gp_reward_currency global_pool)
    (gp_accumulated_rewards global_pool) (gp_paid_accumulated_rewards global_pool)
    (gp_yield_per_period global_pool) (gp_planned_yielding_periods global_pool)
    (gp_blocks_per_period global_pool) (gp_incentivized_asset global_pool)
    (gp_max_reward_per_period global_pool) (gp_liq_pools_count global_pool))) ;;
  is_value (meta_at BSX_TKN1_LIQ_POOL_ID) (Some (bsx_tkn1_assets, 3, GC_FARM)) ;;
  balance_is BSX liq_pool_account liq_pool_bsx_balance ;;
  balance_is BSX global_pool_account global_pool_bsx_balance).

Definition cancel_liquidity_pool_should_work_2 : Test := (predefined_test_ext_with_deposits,
  let bsx_tkn1_assets := AssetPair_new BSX TKN1 in
  liq_pool_account ← pool_account_id BSX_TKN1_LIQ_POOL_ID;
  global_pool_account ← pool_account_id GC_FARM;
  liq_pool_bsx_balance ← gets (fun s => balance BSX liq_pool_account s);
  global_pool_bsx_balance ← gets (fun s => balance BSX global_pool_account s);
  liq_pool ← unwrap_get (liq_pool_at GC_FARM BSX_TKN1_AMM);
  global_pool ← unwrap_get (farm_at GC_FARM);
  set_block_number 10000 ;;
  assert_ok (cancel_liquidity_pool (Signed GC) GC_FARM bsx_tkn1_assets) ;;
  expect_events [LiquidityMiningCanceled GC_FARM BSX_TKN1_LIQ_POOL_ID GC bsx_tkn1_assets] ;;
  is_value (liq_pool_at GC_FARM BSX_TKN1_AMM) (Some (mkLiquidityPool (lp_id liq_pool) 100
    (lp_total_shares liq_pool) (lp_total_valued_shares liq_pool) 245 49 (lp_loyalty_curve
    liq_pool) 0 0 true)) ;;
  is_value (farm_at GC_FARM) (Some (mkGlobalPool (gp_id global_pool) (gp_owner global_pool) 100
    ((gp_total_shares_z global_pool) - (lp_stake_in_global_pool liq_pool)) 49 (gp_reward_currency
    global_pool) 18206375 9589300 (gp_yield_per_period global_pool) (gp_planned_yielding_periods
    global_pool) (gp_blocks_per_period global_pool) (gp_incentivized_asset global_pool)
    (gp_max_reward_per_period global_pool) (gp_liq_pools_count global_pool))) ;;
  is_value (meta_at BSX_TKN1_LIQ_POOL_ID) (Some (bsx_tkn1_assets, 3, GC_FARM)) ;;
  balance_is BSX liq_pool_account (liq_pool_bsx_balance + 8424900) ;;
  balance_is BSX global_pool_account (global_pool_bsx_balance - 8424900)).

Definition cancel_liquidity_pool_invalid_liq_pool_should_not_work : Test :=
  (predefined_test_ext_with_deposits,
  let bsx_dot_assets := AssetPair_new BSX DOT in
  assert_noop (cancel_liquidity_pool (Signed GC) GC_FARM bsx_dot_assets)
    LmErr.LiquidityPoolNotFound).

Definition cancel_liquidity_pool_liq_pool_already_canceled : Test :=
  (predefined_test_ext_with_deposits,
  let bsx_tkn1_assets := AssetPair_new BSX TKN1 in
  assert_ok (cancel_liquidity_pool (Signed GC) GC_FARM bsx_tkn1_assets) ;;
  assert_noop (cancel_liquidity_pool (Signed GC) GC_FARM bsx_tkn1_assets)
    LmErr.LiquidityMiningCanceled).

Definition cancel_liquidity_pool_not_owner_should_not_work : Test :=
  (predefined_test_ext_with_deposits,
  let bsx_tkn1_assets := AssetPair_new BSX TKN1 in let NOT_LIQ_POOL_OWNER := ALICE in
  assert_noop (cancel_liquidity_pool (Signed NOT_LIQ_POOL_OWNER) GC_FARM bsx_tkn1_assets)
    LmErr.Forbidden).

Definition resume_liquidity_pool_should_work : Test := (predefined_test_ext_with_deposits,
  let bsx_tkn1_assets := AssetPair_new BSX TKN1 in
  assert_ok (cancel_liquidity_pool (Signed GC) GC_FARM bsx_tkn1_assets) ;;
  liq_pool ← unwrap_get (liq_pool_at GC_FARM BSX_TKN1_AMM);
  global_pool ← unwrap_get (farm_at GC_FARM);
  let new_multiplier := fixed 7490000 in
  check (fun s => lp_canceled liq_pool) ;;
  check (fun s => lp_stake_in_global_pool liq_pool =? 0) ;;
  check (fun s => lp_multiplier liq_pool =? 0) ;;
  set_block_number 13420000 ;;
  assert_ok (resume_liquidity_pool (Signed GC) GC_FARM bsx_tkn1_assets new_multiplier) ;;
  let liq_pool_stake_in_global_pool := new_multiplier * 45540 / FixedU128_one in
  is_value (liq_pool_at GC_FARM BSX_TKN1_AMM) (Some (mkLiquidityPool (lp_id liq_pool) 134200
    (lp_total_shares liq_pool) (lp_total_valued_shares liq_pool) (lp_accumulated_rpvs liq_pool)
    62996 (lp_loyalty_curve liq_pool) liq_pool_stake_in_global_pool new_multiplier false)) ;;
  is_value (farm_at GC_FARM) (Some (mkGlobalPool (gp_id global_pool) (gp_owner global_pool)
    134200 ((gp_total_shares_z global_pool) + liq_pool_stake_in_global_pool) 62996
    (gp_reward_currency global_pool) 29999067250 (gp_paid_accumulated_rewards global_pool)
    (gp_yield_per_period global_pool) (gp_planned_yielding_periods global_pool)
    (gp_blocks_per_period global_pool) (gp_incentivized_asset global_pool)
    (gp_max_reward_per_period global_pool) (gp_liq_pools_count global_pool)))).

Definition resume_liquidity_pool_non_existing_pool_should_not_work : Test :=
  (predefined_test_ext_with_deposits,
  let bsx_ksm_assets := AssetPair_new BSX KSM in let new_multiplier := fixed 7490000 in
  assert_noop (resume_liquidity_pool (Signed GC) GC_FARM bsx_ksm_assets new_multiplier)
    LmErr.LiquidityPoolNotFound).

Definition resume_liquidity_pool_non_canceled_pool_should_not_work : Test :=
  (predefined_test_ext_with_deposits,
  let bsx_tkn1_assets := AssetPair_new BSX TKN1 in let new_multiplier := fixed 7490000 in
  assert_noop (resume_liquidity_pool (Signed GC) GC_FARM bsx_tkn1_assets new_multiplier)
    LmErr.LiquidityMiningIsNotCanceled).

Definition resume_liquidity_pool_not_owner_should_not_work : Test :=
  (predefined_test_ext_with_deposits,
  let bsx_tkn1_assets := AssetPair_new BSX TKN1 in let new_multiplier := fixed 7490000 in
  assert_noop (resume_liquidity_pool (Signed ALICE) GC_FARM bsx_tkn1_assets new_multiplier)
    LmErr.LiquidityMiningIsNotCanceled).

Definition remove_liquidity_pool_with_deposits_should_work : Test :=
  (predefined_test_ext_with_deposits,
  let bsx_tkn1_assets := AssetPair_new BSX TKN1 in
  global_pool_account ← pool_account_id GC_FARM;
  liq_pool_account ← pool_account_id BSX_TKN1_LIQ_POOL_ID;
  liq_pool_bsx_balance ← gets (fun s => balance BSX liq_pool_account s);
  global_pool_bsx_balance ← gets (fun s => balance BSX global_pool_account s);
  assert_ok (cancel_liquidity_pool (Signed GC) GC_FARM bsx_tkn1_assets) ;;
  global_pool ← unwrap_get (farm_at GC_FARM);
  assert_ok (remove_liquidity_pool (Signed GC) GC_FARM bsx_tkn1_assets) ;;
  expect_events [LiquidityPoolRemoved GC_FARM BSX_TKN1_LIQ_POOL_ID GC bsx_tkn1_assets] ;;
  is_value (farm_at GC_FARM) (Some (mkGlobalPool (gp_id global_pool) (gp_owner global_pool)
    (gp_updated_at global_pool) (gp_total_shares_z global_pool) (gp_accumulated_rpz global_pool)
    (gp_reward_currency global_pool) (gp_accumulated_rewards global_pool)
    (gp_paid_accumulated_rewards global_pool) (gp_yield_per_period global_pool)
    (gp_planned_yielding_periods global_pool) (gp_blocks_per_period global_pool)
    (gp_incentivized_asset global_pool) (gp_max_reward_per_period global_pool)
    ((gp_liq_pools_count global_pool) - 1))) ;;
  is_value (liq_pool_at GC_FARM BSX_TKN1_AMM) None ;;
  is_value (meta_at BSX_TKN1_LIQ_POOL_ID) (Some (bsx_tkn1_assets, 3, GC_FARM)) ;;
  balance_is BSX liq_pool_account 0 ;;
  balance_is BSX global_pool_account (global_pool_bsx_balance + liq_pool_bsx_balance)).

Definition remove_liquidity_pool_without_deposits_should_work : Test := (predefined_test_ext,
  let bsx_tkn1_assets := AssetPair_new BSX TKN1 in
  global_pool_account ← pool_account_id GC_FARM;
  liq_pool_account ← pool_account_id BSX_TKN1_LIQ_POOL_ID;
  liq_pool_bsx_balance ← gets (fun s => balance BSX liq_pool_account s);
  global_pool_bsx_balance ← gets (fun s => balance BSX global_pool_account s);
  assert_ok (cancel_liquidity_pool (Signed GC) GC_FARM bsx_tkn1_assets) ;;
  global_pool ← unwrap_get (farm_at GC_FARM);
  assert_ok (remove_liquidity_pool (Signed GC) GC_FARM bsx_tkn1_assets) ;;
  expect_events [LiquidityPoolRemoved GC_FARM BSX_TKN1_LIQ_POOL_ID GC bsx_tkn1_assets] ;;
  is_value (farm_at GC_FARM) (Some (mkGlobalPool (gp_id global_pool) (gp_owner global_pool)
    (gp_updated_at global_pool) (gp_total_shares_z global_pool) (gp_accumulated_rpz global_pool)
    (gp_reward_currency global_pool) (gp_accumulated_rewards global_pool)
    (gp_paid_accumulated_rewards global_pool) (gp_yield_per_period global_pool)
    (gp_planned_yielding_periods global_pool) (gp_blocks_per_period global_pool)
    (gp_incentivized_asset global_pool) (gp_max_reward_per_period global_pool)
    ((gp_liq_pools_count global_pool) - 1))) ;;
  is_value (liq_pool_at GC_FARM BSX_TKN1_AMM) None ;;
  is_value (meta_at BSX_TKN1_LIQ_POOL_ID) None ;;
  balance_is BSX liq_pool_account 0 ;;
  balance_is BSX global_pool_account (global_pool_bsx_balance + liq_pool_bsx_balance)).

Definition remove_liquidity_pool_non_canceled_liq_pool_should_not_work : Test :=
  (predefined_test_ext_with_deposits,
  let bsx_tkn1_assets := AssetPair_new BSX TKN1 in
  assert_noop (remove_liquidity_pool (Signed GC) GC_FARM bsx_tkn1_assets)
    LmErr.LiquidityMiningIsNotCanceled).

Definition remove_liquidity_pool_not_owner_should_not_work : Test :=
  (predefined_test_ext_with_deposits,
  let bsx_tkn1 := AssetPair_new BSX TKN1 in let NOT_OWNER := ALICE in
  assert_ok (cancel_liquidity_pool (Signed GC) GC_FARM bsx_tkn1) ;;
  assert_noop (remove_liquidity_pool (Signed NOT_OWNER) GC_FARM bsx_tkn1) LmErr.Forbidden).

Definition remove_liquidity_pool_liq_pool_does_not_exists_should_not_work : Test :=
  (predefined_test_ext_with_deposits,
  let bsx_dot_assets := AssetPair_new BSX DOT in
  assert_noop (remove_liquidity_pool (Signed GC) GC_FARM bsx_dot_assets)
    LmErr.LiquidityPoolNotFound).

Definition destroy_farm_should_work : Test := (predefined_test_ext,
  farm_account ← pool_account_id BOB_FARM;
  transfer_all farm_account TREASURY (gp_reward_currency (PREDEFINED_GLOBAL_POOLS 1)) ;;
  balance_is (gp_reward_currency (PREDEFINED_GLOBAL_POOLS 1)) farm_account 0 ;;
  assert_ok (destroy_farm (Signed BOB) BOB_FARM) ;;
  expect_events [FarmDestroyed BOB_FARM BOB] ;;
  check (fun s => bool_decide (farm_at BOB_FARM s = None))).

Definition destroy_farm_not_owner_should_not_work : Test := (predefined_test_ext,
  farm_account ← pool_account_id BOB_FARM;
  transfer_all farm_account TREASURY (gp_reward_currency (PREDEFINED_GLOBAL_POOLS 1)) ;;
  balance_is (gp_reward_currency (PREDEFINED_GLOBAL_POOLS 1)) farm_account 0 ;;
  assert_noop (destroy_farm (Signed ALICE) BOB_FARM) LmErr.Forbidden ;;
  is_value (farm_at BOB_FARM) (Some (PREDEFINED_GLOBAL_POOLS 1))).

Definition destroy_farm_farm_not_exists_should_not_work : Test := (predefined_test_ext,
  let NON_EXISTING_FARM := 999999999 in
  assert_noop (destroy_farm (Signed ALICE) NON_EXISTING_FARM) LmErr.FarmNotFound).

Definition destroy_farm_with_pools_should_not_work : Test := (predefined_test_ext,
  farm_account ← pool_account_id GC_FARM;
  transfer_all farm_account TREASURY (gp_reward_currency (PREDEFINED_GLOBAL_POOLS 2)) ;;
  balance_is (gp_reward_currency (PREDEFINED_GLOBAL_POOLS 2)) farm_account 0 ;;
  assert_noop (destroy_farm (Signed GC) GC_FARM) LmErr.FarmIsNotEmpty ;;
  is_value (farm_at GC_FARM) (Some (PREDEFINED_GLOBAL_POOLS 2))).

Definition destroy_farm_with_undistributed_rewards_and_no_pools_should_not_work : Test :=
  (predefined_test_ext,
  farm_account ← pool_account_id BOB_FARM;
  check (fun s => negb (balance (gp_reward_currency (PREDEFINED_GLOBAL_POOLS 1)) farm_account s
    =? 0)) ;;
  assert_noop (destroy_farm (Signed BOB) BOB_FARM) LmErr.RewardBalanceIsNotZero ;;
  is_value (farm_at BOB_FARM) (Some (PREDEFINED_GLOBAL_POOLS 1))).

Definition destroy_farm_healthy_farm_should_not_work : Test := (predefined_test_ext,
  farm_account ← pool_account_id GC_FARM;
  check (fun s => negb (balance (gp_reward_currency (PREDEFINED_GLOBAL_POOLS 2)) farm_account s
    =? 0)) ;;
  assert_noop (destroy_farm (Signed GC) GC_FARM) LmErr.FarmIsNotEmpty ;;
  is_value (farm_at GC_FARM) (Some (PREDEFINED_GLOBAL_POOLS 2))).

Definition withdraw_undistributed_rewards_should_work : Test := (predefined_test_ext,
  let bsx_tkn1_assets := AssetPair_new BSX TKN1 in
  let bsx_tkn2_assets := AssetPair_new BSX TKN2 in
  assert_ok (cancel_liquidity_pool (Signed GC) GC_FARM bsx_tkn1_assets) ;;
  assert_ok (cancel_liquidity_pool (Signed GC) GC_FARM bsx_tkn2_assets) ;;
  assert_ok (remove_liquidity_pool (Signed GC) GC_FARM bsx_tkn1_assets) ;;
  assert_ok (remove_liquidity_pool (Signed GC) GC_FARM bsx_tkn2_assets) ;;
  farm_owner_bsx_balance ← gets (fun s => Interfaces.total_balance BSX GC (below s));
  assert_ok (withdraw_undistributed_rewards (Signed GC) GC_FARM) ;;
  check (fun s => Interfaces.total_balance BSX GC (below s) =? farm_owner_bsx_balance +
    30000000000)).

Definition withdraw_undistributed_rewards_non_existing_farm_should_not_work : Test :=
  (predefined_test_ext,
  let NON_EXISTING_FARM := 879798 in
  assert_noop (withdraw_undistributed_rewards (Signed GC) NON_EXISTING_FARM) LmErr.FarmNotFound).

Definition withdraw_undistributed_rewards_not_owner_should_not_work : Test :=
  (predefined_test_ext,
  let bsx_tkn1_assets := AssetPair_new BSX TKN1 in
  let bsx_tkn2_assets := AssetPair_new BSX TKN2 in
  assert_ok (cancel_liquidity_pool (Signed GC) GC_FARM bsx_tkn1_assets) ;;
  assert_ok (cancel_liquidity_pool (Signed GC) GC_FARM bsx_tkn2_assets) ;;
  assert_ok (remove_liquidity_pool (Signed GC) GC_FARM bsx_tkn1_assets) ;;
  assert_ok (remove_liquidity_pool (Signed GC) GC_FARM bsx_tkn2_assets) ;;
  let NOT_OWNER := ALICE in
  assert_noop (withdraw_undistributed_rewards (Signed NOT_OWNER) GC_FARM) LmErr.Forbidden).

Definition withdraw_undistributed_rewards_not_empty_farm_should_not_work : Test :=
  (predefined_test_ext,
  let bsx_tkn1_assets := AssetPair_new BSX TKN1 in
  let bsx_tkn2_assets := AssetPair_new BSX TKN2 in
  assert_ok (cancel_liquidity_pool (Signed GC) GC_FARM bsx_tkn1_assets) ;;
  assert_ok (cancel_liquidity_pool (Signed GC) GC_FARM bsx_tkn2_assets) ;;
  assert_ok (remove_liquidity_pool (Signed GC) GC_FARM bsx_tkn2_assets) ;;
  assert_noop (withdraw_undistributed_rewards (Signed GC) GC_FARM) LmErr.FarmIsNotEmpty).

Definition withdraw_undistributed_rewards_not_empty_farm_should_not_work_2 : Test :=
  (predefined_test_ext,
  let bsx_tkn1_assets := AssetPair_new BSX TKN1 in
  let bsx_tkn2_assets := AssetPair_new BSX TKN2 in
  assert_ok (cancel_liquidity_pool (Signed GC) GC_FARM bsx_tkn1_assets) ;;
  assert_ok (cancel_liquidity_pool (Signed GC) GC_FARM bsx_tkn2_assets) ;;
  assert_noop (withdraw_undistributed_rewards (Signed GC) GC_FARM) LmErr.FarmIsNotEmpty).

Definition lm_farm_suite : list Test :=
    [create_farm_should_work; create_farm_from_basic_origin_should_not_work;
     create_farm_invalid_data_should_not_work;
     create_farm_with_inssufficient_balance_should_not_work; add_liquidity_pool_should_work;
     add_liquidity_pool_missing_incentivized_asset_should_not_work;
     add_liquidity_pool_not_owner_should_not_work;
     add_liquidity_pool_invalid_loyalty_curve_should_not_work;
     add_liquidity_pool_invalid_multiplier_should_not_work;
     add_liquidity_pool_non_existing_amm_should_not_work;
     add_liquidity_pool_add_duplicate_amm_should_not_work; update_liquidity_pool_should_work;
     update_liquidity_pool_should_work_2;
     update_liquidity_pool_zero_multiplier_should_not_work;
     update_liquidity_pool_canceled_pool_should_not_work;
     update_liquidity_pool_not_owner_should_not_work; cancel_liquidity_pool_should_work;
     cancel_liquidity_pool_should_work_2;
     cancel_liquidity_pool_invalid_liq_pool_should_not_work;
     cancel_liquidity_pool_liq_pool_already_canceled;
     cancel_liquidity_pool_not_owner_should_not_work; resume_liquidity_pool_should_work;
     resume_liquidity_pool_non_existing_pool_should_not_work;
     resume_liquidity_pool_non_canceled_pool_should_not_work;
     resume_liquidity_pool_not_owner_should_not_work;
     remove_liquidity_pool_with_deposits_should_work;
     remove_liquidity_pool_without_deposits_should_work;
     remove_liquidity_pool_non_canceled_liq_pool_should_not_work;
     remove_liquidity_pool_not_owner_should_not_work;
     remove_liquidity_pool_liq_pool_does_not_exists_should_not_work; destroy_farm_should_work;
     destroy_farm_not_owner_should_not_work; destroy_farm_farm_not_exists_should_not_work;
     destroy_farm_with_pools_should_not_work;
     destroy_farm_with_undistributed_rewards_and_no_pools_should_not_work;
     destroy_farm_healthy_farm_should_not_work; withdraw_undistributed_rewards_should_work;
     withdraw_undistributed_rewards_non_existing_farm_should_not_work;
     withdraw_undistributed_rewards_not_owner_should_not_work;
     withdraw_undistributed_rewards_not_empty_farm_should_not_work;
     withdraw_undistributed_rewards_not_empty_farm_should_not_work_2].

(** All these tests pass on the model. *)
Theorem lm_farm_tests_pass : suite_passes lm_farm_suite.
Proof. unfold lm_farm_suite. run_suite. Qed.
