(* ===== verification/LmDepositTests.v ===== *)
(** * The tests of the liquidity mining pallet: deposits and rewards

    The tests of [deposit_shares.rs], [claim_rewards.rs], [withdraw_shares.rs] and [tests.rs]
    under [src/pallets/liquidity-mining/src/tests/], on the model of the pallet.  A test that
    builds more than one chain is one definition per chain. *)

From S2P Require Import Prelude Primitives Errors Interfaces Ledger Testing Nft Vault LiquidityMining LmMock.

Definition deposit_shares_should_work : Test := (predefined_test_ext,
  let farm_id := GC_FARM in let bsx_tkn1_assets := AssetPair_new BSX TKN1 in
  let bsx_tkn2_assets := AssetPair_new BSX TKN2 in let pallet_account := account_id in
  global_pool_account ← pool_account_id GC_FARM;
  bsx_tkn1_liq_pool_account ← pool_account_id BSX_TKN1_LIQ_POOL_ID;
  bsx_tkn2_liq_pool_account ← pool_account_id BSX_TKN2_LIQ_POOL_ID;
  let bsx_tkn1_amm_account := get_pair_id bsx_tkn1_assets in
  let bsx_tkn2_amm_account := get_pair_id bsx_tkn2_assets in
  set_block_number 1800 ;;
  bsx_tkn1_alice_shares ← gets (fun s => balance BSX_TKN1_SHARE_ID ALICE s);
  set_balance bsx_tkn1_amm_account BSX 50 ;;
  balance_is BSX_TKN1_SHARE_ID pallet_account 0 ;;
  let deposited_amount := 50 in
  assert_ok (deposit_shares (Signed ALICE) farm_id bsx_tkn1_assets deposited_amount) ;;
  expect_nft_events [InstanceMinted ALICE LIQ_MINING_NFT_CLASS (PREDEFINED_NFT_IDS 0) []] ;;
  expect_events [SharesDeposited GC_FARM BSX_TKN1_LIQ_POOL_ID ALICE deposited_amount
    BSX_TKN1_SHARE_ID LIQ_MINING_NFT_CLASS (PREDEFINED_NFT_IDS 0)] ;;
  is_value (farm_at GC_FARM) (Some (mkGlobalPool GC_FARM GC 0 12500 0 BSX 0 0 (percent 50) 500
    100 BSX 60000000 2)) ;;
  is_value (liq_pool_at GC_FARM BSX_TKN1_AMM) (Some (mkLiquidityPool BSX_TKN1_LIQ_POOL_ID 0 50
    2500 0 0 (Some LoyaltyCurve_default) 12500 (fixed 5) false)) ;;
  is_value (meta_at BSX_TKN1_LIQ_POOL_ID) (Some (bsx_tkn1_assets, 1, GC_FARM)) ;;
  is_value (deposit_at (PREDEFINED_NFT_IDS 0)) (Some (mkDeposit deposited_amount 2500 0 0 18 18)) ;;
  balance_is BSX_TKN1_SHARE_ID ALICE (bsx_tkn1_alice_shares - deposited_amount) ;;
  balance_is BSX_TKN1_SHARE_ID pallet_account deposited_amount ;;
  bsx_tkn1_bob_shares ← gets (fun s => balance BSX_TKN1_SHARE_ID BOB s);
  set_balance bsx_tkn1_amm_account BSX 52 ;;
  let deposited_amount := 80 in
  assert_ok (deposit_shares (Signed BOB) farm_id bsx_tkn1_assets deposited_amount) ;;
  expect_nft_events [InstanceMinted BOB LIQ_MINING_NFT_CLASS (PREDEFINED_NFT_IDS 1) []] ;;
  expect_events [SharesDeposited GC_FARM BSX_TKN1_LIQ_POOL_ID BOB deposited_amount
    BSX_TKN1_SHARE_ID LIQ_MINING_NFT_CLASS (PREDEFINED_NFT_IDS 1)] ;;
  is_value (farm_at GC_FARM) (Some (mkGlobalPool GC_FARM GC 18 33300 9 BSX 0 112500 (percent 50)
    500 100 BSX 60000000 2)) ;;
  is_value (liq_pool_at GC_FARM BSX_TKN1_AMM) (Some (mkLiquidityPool BSX_TKN1_LIQ_POOL_ID 18 130
    6660 45 9 (Some LoyaltyCurve_default) 33300 (fixed 5) false)) ;;
  is_value (meta_at BSX_TKN1_LIQ_POOL_ID) (Some (bsx_tkn1_assets, 2, GC_FARM)) ;;
  is_value (deposit_at (PREDEFINED_NFT_IDS 1)) (Some (mkDeposit deposited_amount 4160 45 0 18
    18)) ;;
  balance_is BSX_TKN1_SHARE_ID BOB (bsx_tkn1_bob_shares - deposited_amount) ;;
  balance_is BSX_TKN1_SHARE_ID pallet_account 130 ;;
  balance_is BSX global_pool_account (30000000000 - 112500) ;;
  balance_is BSX bsx_tkn1_liq_pool_account 112500 ;;
  bsx_tkn2_bob_shares ← gets (fun s => balance BSX_TKN2_SHARE_ID BOB s);
  set_balance bsx_tkn2_amm_account BSX 8 ;;
  let deposited_amount := 25 in
  assert_ok (deposit_shares (Signed BOB) farm_id bsx_tkn2_assets deposited_amount) ;;
  expect_nft_events [InstanceMinted BOB LIQ_MINING_NFT_CLASS (PREDEFINED_NFT_IDS 2) []] ;;
  expect_events [SharesDeposited GC_FARM BSX_TKN2_LIQ_POOL_ID BOB deposited_amount
    BSX_TKN2_SHARE_ID LIQ_MINING_NFT_CLASS (PREDEFINED_NFT_IDS 2)] ;;
  is_value (farm_at GC_FARM) (Some (mkGlobalPool GC_FARM GC 18 35300 9 BSX 0 112500 (percent 50)
    500 100 BSX 60000000 2)) ;;
  is_value (liq_pool_at GC_FARM BSX_TKN2_AMM) (Some (mkLiquidityPool BSX_TKN2_LIQ_POOL_ID 0 25
    200 0 0 (Some LoyaltyCurve_default) 2000 (fixed 10) false)) ;;
  is_value (meta_at BSX_TKN2_LIQ_POOL_ID) (Some (bsx_tkn2_assets, 1, GC_FARM)) ;;
  is_value (deposit_at (PREDEFINED_NFT_IDS 2)) (Some (mkDeposit deposited_amount 200 0 0 18 18)) ;;
  balance_is BSX_TKN2_SHARE_ID BOB (bsx_tkn2_bob_shares - deposited_amount) ;;
  balance_is BSX_TKN2_SHARE_ID pallet_account 25 ;;
  balance_is BSX global_pool_account (30000000000 - 112500) ;;
  balance_is BSX bsx_tkn1_liq_pool_account 112500 ;;
  balance_is BSX bsx_tkn2_liq_pool_account 0 ;;
  set_block_number 2051 ;;
  bsx_tkn2_bob_shares ← gets (fun s => balance BSX_TKN2_SHARE_ID BOB s);
  set_balance bsx_tkn2_amm_account BSX 58 ;;
  let deposited_amount := 800 in
  assert_ok (deposit_shares (Signed BOB) farm_id bsx_tkn2_assets deposited_amount) ;;
  expect_nft_events [InstanceMinted BOB LIQ_MINING_NFT_CLASS (PREDEFINED_NFT_IDS 3) []] ;;
  expect_events [SharesDeposited GC_FARM BSX_TKN2_LIQ_POOL_ID BOB deposited_amount
    BSX_TKN2_SHARE_ID LIQ_MINING_NFT_CLASS (PREDEFINED_NFT_IDS 3)] ;;
  is_value (farm_at GC_FARM) (Some (mkGlobalPool GC_FARM GC 20 499300 10 BSX 15300 132500
    (percent 50) 500 100 BSX 60000000 2)) ;;
  is_value (liq_pool_at GC_FARM BSX_TKN2_AMM) (Some (mkLiquidityPool BSX_TKN2_LIQ_POOL_ID 20 825
    46600 100 10 (Some LoyaltyCurve_default) 466000 (fixed 10) false)) ;;
  is_value (meta_at BSX_TKN2_LIQ_POOL_ID) (Some (bsx_tkn2_assets, 2, GC_FARM)) ;;
  is_value (deposit_at (PREDEFINED_NFT_IDS 3)) (Some (mkDeposit deposited_amount 46400 100 0 20
    20)) ;;
  balance_is BSX_TKN2_SHARE_ID BOB (bsx_tkn2_bob_shares - deposited_amount) ;;
  balance_is BSX_TKN2_SHARE_ID pallet_account 825 ;;
  balance_is BSX global_pool_account (30000000000 - 132500) ;;
  balance_is BSX bsx_tkn1_liq_pool_account 112500 ;;
  balance_is BSX bsx_tkn2_liq_pool_account 20000 ;;
  set_block_number 2586 ;;
  bsx_tkn2_alice_shares ← gets (fun s => balance BSX_TKN2_SHARE_ID ALICE s);
  set_balance bsx_tkn2_amm_account BSX 3 ;;
  let deposited_amount := 87 in
  assert_ok (deposit_shares (Signed ALICE) farm_id bsx_tkn2_assets deposited_amount) ;;
  expect_nft_events [InstanceMinted ALICE LIQ_MINING_NFT_CLASS (PREDEFINED_NFT_IDS 4) []] ;;
  expect_events [SharesDeposited GC_FARM BSX_TKN2_LIQ_POOL_ID ALICE 87 BSX_TKN2_SHARE_ID
    LIQ_MINING_NFT_CLASS (PREDEFINED_NFT_IDS 4)] ;;
  is_value (farm_at GC_FARM) (Some (mkGlobalPool GC_FARM GC 25 501910 12 BSX 331550 1064500
    (percent 50) 500 100 BSX 60000000 2)) ;;
  is_value (liq_pool_at GC_FARM BSX_TKN2_AMM) (Some (mkLiquidityPool BSX_TKN2_LIQ_POOL_ID 25 912
    46861 120 12 (Some LoyaltyCurve_default) 468610 (fixed 10) false)) ;;
  is_value (meta_at BSX_TKN2_LIQ_POOL_ID) (Some (bsx_tkn2_assets, 3, GC_FARM)) ;;
  is_value (deposit_at (PREDEFINED_NFT_IDS 4)) (Some (mkDeposit deposited_amount 261 120 0 25
    25)) ;;
  balance_is BSX_TKN2_SHARE_ID ALICE (bsx_tkn2_alice_shares - 87) ;;
  balance_is BSX_TKN2_SHARE_ID pallet_account 912 ;;
  balance_is BSX global_pool_account (30000000000 - 1064500) ;;
  balance_is BSX bsx_tkn1_liq_pool_account 112500 ;;
  balance_is BSX bsx_tkn2_liq_pool_account 952000 ;;
  set_block_number 2596 ;;
  bsx_tkn2_alice_shares ← gets (fun s => balance BSX_TKN2_SHARE_ID ALICE s);
  set_balance bsx_tkn2_amm_account BSX 16 ;;
  let deposited_amount := 48 in
  assert_ok (deposit_shares (Signed ALICE) farm_id bsx_tkn2_assets deposited_amount) ;;
  expect_nft_events [InstanceMinted ALICE LIQ_MINING_NFT_CLASS (PREDEFINED_NFT_IDS 5) []] ;;
  expect_events [SharesDeposited GC_FARM BSX_TKN2_LIQ_POOL_ID ALICE deposited_amount
    BSX_TKN2_SHARE_ID LIQ_MINING_NFT_CLASS (PREDEFINED_NFT_IDS 5)] ;;
  is_value (farm_at GC_FARM) (Some (mkGlobalPool GC_FARM GC 25 509590 12 BSX 331550 1064500
    (percent 50) 500 100 BSX 60000000 2)) ;;
  is_value (liq_pool_at GC_FARM BSX_TKN2_AMM) (Some (mkLiquidityPool BSX_TKN2_LIQ_POOL_ID 25 960
    47629 120 12 (Some LoyaltyCurve_default) 476290 (fixed 10) false)) ;;
  is_value (meta_at BSX_TKN2_LIQ_POOL_ID) (Some (bsx_tkn2_assets, 4, GC_FARM)) ;;
  is_value (deposit_at (PREDEFINED_NFT_IDS 5)) (Some (mkDeposit deposited_amount 768 120 0 25
    25)) ;;
  balance_is BSX_TKN2_SHARE_ID ALICE (bsx_tkn2_alice_shares - deposited_amount) ;;
  balance_is BSX_TKN2_SHARE_ID pallet_account 960 ;;
  balance_is BSX global_pool_account (30000000000 - 1064500) ;;
  balance_is BSX bsx_tkn1_liq_pool_account 112500 ;;
  balance_is BSX bsx_tkn2_liq_pool_account 952000 ;;
  set_block_number 2596 ;;
  bsx_tkn1_alice_shares ← gets (fun s => balance BSX_TKN1_SHARE_ID ALICE s);
  set_balance bsx_tkn1_amm_account BSX 80 ;;
  let deposited_amount := 486 in
  assert_ok (deposit_shares (Signed ALICE) farm_id bsx_tkn1_assets 486) ;;
  expect_nft_events [InstanceMinted ALICE LIQ_MINING_NFT_CLASS (PREDEFINED_NFT_IDS 6) []] ;;
  expect_events [SharesDeposited GC_FARM BSX_TKN1_LIQ_POOL_ID ALICE deposited_amount
    BSX_TKN1_SHARE_ID LIQ_MINING_NFT_CLASS (PREDEFINED_NFT_IDS 6)] ;;
  is_value (farm_at GC_FARM) (Some (mkGlobalPool GC_FARM GC 25 703990 12 BSX 231650 1164400
    (percent 50) 500 100 BSX 60000000 2)) ;;
  is_value (liq_pool_at GC_FARM BSX_TKN1_AMM) (Some (mkLiquidityPool BSX_TKN1_LIQ_POOL_ID 25 616
    45540 60 12 (Some LoyaltyCurve_default) 227700 (fixed 5) false)) ;;
  is_value (meta_at BSX_TKN1_LIQ_POOL_ID) (Some (bsx_tkn1_assets, 3, GC_FARM)) ;;
  is_value (deposit_at (PREDEFINED_NFT_IDS 6)) (Some (mkDeposit deposited_amount 38880 60 0 25
    25)) ;;
  balance_is BSX_TKN1_SHARE_ID ALICE (bsx_tkn1_alice_shares - deposited_amount) ;;
  balance_is BSX_TKN1_SHARE_ID pallet_account 616 ;;
  balance_is BSX global_pool_account (30000000000 - 1164400) ;;
  balance_is BSX bsx_tkn1_liq_pool_account 212400 ;;
  balance_is BSX bsx_tkn2_liq_pool_account 952000).

Definition deposit_shares_should_work_2 : Test := (predefined_test_ext,
  let aca_ksm_assets := AssetPair_new ACA KSM in
  let aca_ksm_amm_account := get_pair_id aca_ksm_assets in let ksm_balance_in_amm := 16 in
  set_balance aca_ksm_amm_account KSM ksm_balance_in_amm ;;
  set_balance aca_ksm_amm_account ACA 20 ;;
  set_block_number 2596 ;;
  let deposited_amount := 1000000 in
  assert_ok (deposit_shares (Signed ALICE) CHARLIE_FARM aca_ksm_assets deposited_amount) ;;
  is_value (deposit_at 4294967303) (Some (mkDeposit deposited_amount (deposited_amount *
    ksm_balance_in_amm) 0 0 25 25))).

Definition deposit_shares_zero_deposit_should_not_work : Test :=
  (predefined_test_ext_with_deposits,
  let bsx_tkn1_assets := AssetPair_new BSX TKN1 in
  assert_noop (deposit_shares (Signed ALICE) GC_FARM bsx_tkn1_assets 0) LmErr.InvalidDepositAmount).

Definition deposit_shares_insufficient_shares_balance_should_not_work : Test :=
  (predefined_test_ext_with_deposits,
  let bsx_tkn1_assets := AssetPair_new BSX TKN1 in
  assert_noop (deposit_shares (Signed ALICE) GC_FARM bsx_tkn1_assets 4000000)
    LmErr.InsufficientAmmSharesBalance).

Definition deposit_shares_non_existing_liq_pool_should_not_work : Test :=
  (predefined_test_ext_with_deposits,
  let bsx_dot_assets := AssetPair_new BSX DOT in
  assert_noop (deposit_shares (Signed ALICE) GC_FARM bsx_dot_assets 10000)
    LmErr.LiquidityPoolNotFound).

Definition deposit_shares_canceled_liq_pool_should_not_work : Test :=
  (predefined_test_ext_with_deposits,
  let bsx_tkn1_assets := AssetPair_new BSX TKN1 in
  assert_ok (cancel_liquidity_pool (Signed GC) GC_FARM bsx_tkn1_assets) ;;
  assert_noop (deposit_shares (Signed ALICE) GC_FARM bsx_tkn1_assets 10000)
    LmErr.LiquidityMiningCanceled).

Definition claim_rewards_should_work : Test := (predefined_test_ext_with_deposits,
  alice_bsx_balance ← gets (fun s => balance BSX ALICE s);
  bsx_tkn1_liq_pool_account ← pool_account_id BSX_TKN1_LIQ_POOL_ID;
  bsx_tkn2_liq_pool_account ← pool_account_id BSX_TKN2_LIQ_POOL_ID;
  bsx_tkn1_liq_pool_reward_balance ← gets (fun s => balance BSX bsx_tkn1_liq_pool_account s);
  let expected_claimed_rewards := 79906 in
  assert_ok (claim_rewards (Signed ALICE) (PREDEFINED_NFT_IDS 0)) ;;
  expect_events [RewardClaimed GC_FARM BSX_TKN1_LIQ_POOL_ID ALICE expected_claimed_rewards BSX] ;;
  is_value (deposit_at (PREDEFINED_NFT_IDS 0)) (Some (mkDeposit 50 2500 0
    expected_claimed_rewards 18 25)) ;;
  balance_is BSX ALICE (alice_bsx_balance + expected_claimed_rewards) ;;
  balance_is BSX bsx_tkn1_liq_pool_account (bsx_tkn1_liq_pool_reward_balance -
    expected_claimed_rewards) ;;
  set_block_number 3056 ;;
  bsx_tkn2_liq_pool_reward_balance ← gets (fun s => balance BSX bsx_tkn2_liq_pool_account s);
  alice_bsx_balance ← gets (fun s => balance BSX ALICE s);
  let expected_claimed_rewards := 2734 in
  assert_ok (claim_rewards (Signed ALICE) (PREDEFINED_NFT_IDS 4)) ;;
  expect_events [RewardClaimed GC_FARM BSX_TKN2_LIQ_POOL_ID ALICE expected_claimed_rewards BSX] ;;
  is_value (deposit_at (PREDEFINED_NFT_IDS 4)) (Some (mkDeposit 87 261 120
    expected_claimed_rewards 25 30)) ;;
  is_value (farm_at GC_FARM) (Some (mkGlobalPool GC_FARM GC 30 703990 14 BSX 1039045 2116980
    (percent 50) 500 100 BSX 60000000 2)) ;;
  is_value (liq_pool_at GC_FARM BSX_TKN2_AMM) (Some (mkLiquidityPool BSX_TKN2_LIQ_POOL_ID 30 960
    47629 140 14 (Some LoyaltyCurve_default) 476290 (fixed 10) false)) ;;
  balance_is BSX ALICE (alice_bsx_balance + expected_claimed_rewards) ;;
  balance_is BSX bsx_tkn2_liq_pool_account ((bsx_tkn2_liq_pool_reward_balance + 952580) -
    expected_claimed_rewards) ;;
  set_block_number 125879 ;;
  bsx_tkn1_liq_pool_reward_banance ← gets (fun s => balance BSX bsx_tkn1_liq_pool_account s);
  alice_bsx_balance ← gets (fun s => balance BSX ALICE s);
  let expected_claimed_rewards := 7477183 in
  assert_ok (claim_rewards (Signed ALICE) (PREDEFINED_NFT_IDS 0)) ;;
  expect_events [RewardClaimed GC_FARM BSX_TKN1_LIQ_POOL_ID ALICE expected_claimed_rewards BSX] ;;
  is_value (deposit_at (PREDEFINED_NFT_IDS 0)) (Some (mkDeposit 50 2500 0 7557089 18 1258)) ;;
  is_value (farm_at GC_FARM) (Some (mkGlobalPool GC_FARM GC 1258 703990 628 BSX 293025705
    142380180 (percent 50) 500 100 BSX 60000000 2)) ;;
  is_value (liq_pool_at GC_FARM BSX_TKN1_AMM) (Some (mkLiquidityPool BSX_TKN1_LIQ_POOL_ID 1258
    616 45540 3140 628 (Some LoyaltyCurve_default) 227700 (fixed 5) false)) ;;
  is_value (liq_pool_at GC_FARM BSX_TKN2_AMM) (Some (mkLiquidityPool BSX_TKN2_LIQ_POOL_ID 30 960
    47629 140 14 (Some LoyaltyCurve_default) 476290 (fixed 10) false)) ;;
  balance_is BSX ALICE (alice_bsx_balance + expected_claimed_rewards) ;;
  balance_is BSX bsx_tkn1_liq_pool_account ((bsx_tkn1_liq_pool_reward_banance + 140263200) -
    expected_claimed_rewards)).

Definition claim_rewards_should_work_2 : Test := (predefined_test_ext,
  let aca_ksm_assets := AssetPair_new ACA KSM in
  let aca_ksm_amm_account := get_pair_id aca_ksm_assets in let ksm_balance_in_amm := 50 in
  set_balance aca_ksm_amm_account KSM ksm_balance_in_amm ;;
  set_balance aca_ksm_amm_account ACA 20 ;;
  set_block_number 1800 ;;
  let expected_claimed_rewards := 159813 in let deposited_amount := 50 in
  assert_ok (deposit_shares (Signed ALICE) CHARLIE_FARM aca_ksm_assets deposited_amount) ;;
  is_value (deposit_at 4294967303) (Some (mkDeposit 50 2500 0 0 18 18)) ;;
  set_block_number 2596 ;;
  assert_ok (claim_rewards (Signed ALICE) 4294967303) ;;
  balance_is ACA ALICE expected_claimed_rewards).

Definition claim_rewards_double_claim_in_the_same_period_should_not_work : Test :=
  (predefined_test_ext_with_deposits,
  alice_bsx_balance ← gets (fun s => balance BSX ALICE s);
  bsx_tkn1_liq_pool_account ← pool_account_id BSX_TKN1_LIQ_POOL_ID;
  bsx_tkn1_liq_pool_reward_balance ← gets (fun s => balance BSX bsx_tkn1_liq_pool_account s);
  assert_ok (claim_rewards (Signed ALICE) (PREDEFINED_NFT_IDS 0)) ;;
  expect_events [RewardClaimed GC_FARM BSX_TKN1_LIQ_POOL_ID ALICE 79906 BSX] ;;
  is_value (deposit_at (PREDEFINED_NFT_IDS 0)) (Some (mkDeposit 50 2500 0 79906 18 25)) ;;
  balance_is BSX ALICE (alice_bsx_balance + 79906) ;;
  balance_is BSX bsx_tkn1_liq_pool_account (bsx_tkn1_liq_pool_reward_balance - 79906) ;;
  assert_noop (claim_rewards (Signed ALICE) (PREDEFINED_NFT_IDS 0)) LmErr.DoubleClaimInThePeriod).

Definition claim_rewards_invalid_nft_id_should_not_work : Test :=
  (predefined_test_ext_with_deposits,
  let INVALID_NFT_CLASS := 5486 in
  assert_noop (claim_rewards (Signed ALICE) INVALID_NFT_CLASS) LmErr.InvalidNftId ;;
  let NOT_FOUND_ID := 723500752978313215 in
  assert_noop (claim_rewards (Signed ALICE) NOT_FOUND_ID) LmErr.LiquidityPoolNotFound).

Definition claim_rewards_from_canceled_pool_should_not_work : Test :=
  (predefined_test_ext_with_deposits,
  let bsx_tkn1_assets := AssetPair_new BSX TKN1 in
  assert_ok (cancel_liquidity_pool (Signed GC) GC_FARM bsx_tkn1_assets) ;;
  assert_noop (claim_rewards (Signed ALICE) (PREDEFINED_NFT_IDS 0)) LmErr.LiquidityMiningCanceled).

Definition claim_rewards_from_removed_pool_should_not_work : Test :=
  (predefined_test_ext_with_deposits,
  let bsx_tkn1_assets := AssetPair_new BSX TKN1 in
  assert_ok (cancel_liquidity_pool (Signed GC) GC_FARM bsx_tkn1_assets) ;;
  assert_ok (remove_liquidity_pool (Signed GC) GC_FARM bsx_tkn1_assets) ;;
  assert_noop (claim_rewards (Signed ALICE) (PREDEFINED_NFT_IDS 0)) LmErr.LiquidityPoolNotFound).

Definition claim_rewards_not_deposit_owner_should_not_work : Test :=
  (predefined_test_ext_with_deposits,
  let NOT_OWNER := BOB in
  assert_noop (claim_rewards (Signed NOT_OWNER) (PREDEFINED_NFT_IDS 0)) LmErr.NotDepositOwner).

Definition withdraw_shares_should_work : Test := (predefined_test_ext_with_deposits,
  let bsx_tkn1_assets := AssetPair_new BSX TKN1 in
  let bsx_tkn2_assets := AssetPair_new BSX TKN2 in let REWARD_CURRENCY := BSX in
  let pallet_account := account_id in
  bsx_tkn1_liq_pool_account ← pool_account_id BSX_TKN1_LIQ_POOL_ID;
  bsx_tkn2_liq_pool_account ← pool_account_id BSX_TKN2_LIQ_POOL_ID;
  global_pool_account ← pool_account_id GC_FARM;
  bsx_tkn1_alice_amm_shares_balance ← gets (fun s => balance BSX_TKN1_SHARE_ID ALICE s);
  alice_bsx_balance ← gets (fun s => balance REWARD_CURRENCY ALICE s);
  bsx_tkn1_pallet_amm_shares_balance ← gets (fun s => balance BSX_TKN1_SHARE_ID pallet_account s);
  bsx_tkn2_pallet_amm_shares_balance ← gets (fun s => balance BSX_TKN2_SHARE_ID pallet_account s);
  global_pool_bsx_balance ← gets (fun s => balance REWARD_CURRENCY global_pool_account s);
  bsx_tkn1_liq_pool_bsx_balance ← gets (fun s => balance REWARD_CURRENCY
    bsx_tkn1_liq_pool_account s);
  bsx_tkn2_liq_pool_bsx_balance ← gets (fun s => balance REWARD_CURRENCY
    bsx_tkn2_liq_pool_account s);
  let expected_claimed_rewards := 79906 in
  assert_ok (withdraw_shares (Signed ALICE) (PREDEFINED_NFT_IDS 0)) ;;
  expect_nft_events [InstanceBurned ALICE LIQ_MINING_NFT_CLASS (PREDEFINED_NFT_IDS 0)] ;;
  expect_events [RewardClaimed GC_FARM BSX_TKN1_LIQ_POOL_ID ALICE expected_claimed_rewards BSX;
    SharesWithdrawn GC_FARM BSX_TKN1_LIQ_POOL_ID ALICE BSX_TKN1_SHARE_ID 50] ;;
  is_value (farm_at GC_FARM) (Some (mkGlobalPool GC_FARM GC 25 691490 12 BSX 231650 1164400
    (percent 50) 500 100 BSX 60000000 2)) ;;
  is_value (liq_pool_at GC_FARM BSX_TKN1_AMM) (Some (mkLiquidityPool BSX_TKN1_LIQ_POOL_ID 25 566
    43040 60 12 (Some LoyaltyCurve_default) 215200 (fixed 5) false)) ;;
  balance_is REWARD_CURRENCY ALICE (alice_bsx_balance + expected_claimed_rewards) ;;
  balance_is BSX_TKN1_SHARE_ID ALICE (bsx_tkn1_alice_amm_shares_balance + 50) ;;
  balance_is BSX_TKN1_SHARE_ID pallet_account (bsx_tkn1_pallet_amm_shares_balance - 50) ;;
  balance_is BSX_TKN2_SHARE_ID pallet_account bsx_tkn2_pallet_amm_shares_balance ;;
  balance_is REWARD_CURRENCY bsx_tkn1_liq_pool_account (bsx_tkn1_liq_pool_bsx_balance -
    (expected_claimed_rewards + 70094)) ;;
  balance_is REWARD_CURRENCY bsx_tkn2_liq_pool_account bsx_tkn2_liq_pool_bsx_balance ;;
  balance_is REWARD_CURRENCY global_pool_account (global_pool_bsx_balance + 70094) ;;
  is_value (deposit_at (PREDEFINED_NFT_IDS 0)) None ;;
  is_value (meta_at BSX_TKN1_LIQ_POOL_ID) (Some (bsx_tkn1_assets, 2, GC_FARM)) ;;
  set_block_number 12800 ;;
  bsx_tkn2_alice_amm_shares_balance ← gets (fun s => balance BSX_TKN2_SHARE_ID ALICE s);
  alice_bsx_balance ← gets (fun s => balance REWARD_CURRENCY ALICE s);
  bsx_tkn1_pallet_amm_shares_balance ← gets (fun s => balance BSX_TKN1_SHARE_ID pallet_account s);
  bsx_tkn2_pallet_amm_shares_balance ← gets (fun s => balance BSX_TKN2_SHARE_ID pallet_account s);
  global_pool_bsx_balance ← gets (fun s => balance REWARD_CURRENCY global_pool_account s);
  bsx_tkn1_liq_pool_bsx_balance ← gets (fun s => balance REWARD_CURRENCY
    bsx_tkn1_liq_pool_account s);
  bsx_tkn2_liq_pool_bsx_balance ← gets (fun s => balance REWARD_CURRENCY
    bsx_tkn2_liq_pool_account s);
  let expected_claimed_rewards := 100324 in
  assert_ok (withdraw_shares (Signed ALICE) (PREDEFINED_NFT_IDS 4)) ;;
  expect_nft_events [InstanceBurned ALICE LIQ_MINING_NFT_CLASS (PREDEFINED_NFT_IDS 4)] ;;
  expect_events [FarmAccRPZUpdated GC_FARM 63 691490; LiquidityPoolAccRPVSUpdated GC_FARM
    BSX_TKN2_LIQ_POOL_ID 630 47629; RewardClaimed GC_FARM BSX_TKN2_LIQ_POOL_ID ALICE
    expected_claimed_rewards BSX; SharesWithdrawn GC_FARM BSX_TKN2_LIQ_POOL_ID ALICE
    BSX_TKN2_SHARE_ID 87] ;;
  is_value (farm_at GC_FARM) (Some (mkGlobalPool GC_FARM GC 128 688880 63 BSX 11552595 25455190
    (percent 50) 500 100 BSX 60000000 2)) ;;
  is_value (liq_pool_at GC_FARM BSX_TKN1_AMM) (Some (mkLiquidityPool BSX_TKN1_LIQ_POOL_ID 25 566
    43040 60 12 (Some LoyaltyCurve_default) 215200 (fixed 5) false)) ;;
  is_value (liq_pool_at GC_FARM BSX_TKN2_AMM) (Some (mkLiquidityPool BSX_TKN2_LIQ_POOL_ID 128 873
    47368 630 63 (Some LoyaltyCurve_default) 473680 (fixed 10) false)) ;;
  balance_is REWARD_CURRENCY ALICE (alice_bsx_balance + expected_claimed_rewards) ;;
  balance_is BSX_TKN2_SHARE_ID ALICE (bsx_tkn2_alice_amm_shares_balance + 87) ;;
  balance_is BSX_TKN1_SHARE_ID pallet_account bsx_tkn1_pallet_amm_shares_balance ;;
  balance_is BSX_TKN2_SHARE_ID pallet_account (bsx_tkn2_pallet_amm_shares_balance - 87) ;;
  balance_is REWARD_CURRENCY bsx_tkn1_liq_pool_account bsx_tkn1_liq_pool_bsx_balance ;;
  balance_is REWARD_CURRENCY bsx_tkn2_liq_pool_account ((bsx_tkn2_liq_pool_bsx_balance +
    24290790) - (expected_claimed_rewards + 32786)) ;;
  balance_is REWARD_CURRENCY global_pool_account ((global_pool_bsx_balance + 32786) - 24290790) ;;
  is_value (deposit_at (PREDEFINED_NFT_IDS 4)) None ;;
  is_value (meta_at BSX_TKN2_LIQ_POOL_ID) (Some (bsx_tkn2_assets, 3, GC_FARM)) ;;
  bsx_tkn1_alice_amm_shares_balance ← gets (fun s => balance BSX_TKN1_SHARE_ID ALICE s);
  alice_bsx_balance ← gets (fun s => balance REWARD_CURRENCY ALICE s);
  bsx_tkn1_pallet_amm_shares_balance ← gets (fun s => balance BSX_TKN1_SHARE_ID pallet_account s);
  bsx_tkn2_pallet_amm_shares_balance ← gets (fun s => balance BSX_TKN2_SHARE_ID pallet_account s);
  global_pool_bsx_balance ← gets (fun s => balance REWARD_CURRENCY global_pool_account s);
  bsx_tkn1_liq_pool_bsx_balance ← gets (fun s => balance REWARD_CURRENCY
    bsx_tkn1_liq_pool_account s);
  bsx_tkn2_liq_pool_bsx_balance ← gets (fun s => balance REWARD_CURRENCY
    bsx_tkn2_liq_pool_account s);
  let expected_claimed_rewards := 7472429 in
  assert_ok (withdraw_shares (Signed ALICE) (PREDEFINED_NFT_IDS 6)) ;;
  expect_nft_events [InstanceBurned ALICE LIQ_MINING_NFT_CLASS (PREDEFINED_NFT_IDS 6)] ;;
  expect_events [LiquidityPoolAccRPVSUpdated GC_FARM BSX_TKN1_LIQ_POOL_ID 315 43040;
    RewardClaimed GC_FARM BSX_TKN1_LIQ_POOL_ID ALICE expected_claimed_rewards BSX;
    SharesWithdrawn GC_FARM BSX_TKN1_LIQ_POOL_ID ALICE BSX_TKN1_SHARE_ID 486] ;;
  is_value (farm_at GC_FARM) (Some (mkGlobalPool GC_FARM GC 128 494480 63 BSX 577395 36430390
    (percent 50) 500 100 BSX 60000000 2)) ;;
  is_value (liq_pool_at GC_FARM BSX_TKN1_AMM) (Some (mkLiquidityPool BSX_TKN1_LIQ_POOL_ID 128 80
    4160 315 63 (Some LoyaltyCurve_default) 20800 (fixed 5) false)) ;;
  balance_is REWARD_CURRENCY ALICE (alice_bsx_balance + expected_claimed_rewards) ;;
  balance_is BSX_TKN1_SHARE_ID ALICE (bsx_tkn1_alice_amm_shares_balance + 486) ;;
  balance_is BSX_TKN1_SHARE_ID pallet_account (bsx_tkn1_pallet_amm_shares_balance - 486) ;;
  balance_is BSX_TKN2_SHARE_ID pallet_account bsx_tkn2_pallet_amm_shares_balance ;;
  balance_is REWARD_CURRENCY bsx_tkn1_liq_pool_account ((bsx_tkn1_liq_pool_bsx_balance +
    10975200) - (expected_claimed_rewards + 2441971)) ;;
  balance_is REWARD_CURRENCY bsx_tkn2_liq_pool_account bsx_tkn2_liq_pool_bsx_balance ;;
  balance_is REWARD_CURRENCY global_pool_account ((global_pool_bsx_balance + 2441971) - 10975200) ;;
  is_value (deposit_at (PREDEFINED_NFT_IDS 6)) None ;;
  is_value (meta_at BSX_TKN1_LIQ_POOL_ID) (Some (bsx_tkn1_assets, 1, GC_FARM)) ;;
  bsx_tkn1_bob_amm_shares_balance ← gets (fun s => balance BSX_TKN1_SHARE_ID BOB s);
  bob_bsx_balance ← gets (fun s => balance REWARD_CURRENCY BOB s);
  bsx_tkn2_pallet_amm_shares_balance ← gets (fun s => balance BSX_TKN2_SHARE_ID pallet_account s);
  global_pool_bsx_balance ← gets (fun s => balance REWARD_CURRENCY global_pool_account s);
  bsx_tkn1_liq_pool_bsx_balance ← gets (fun s => balance REWARD_CURRENCY
    bsx_tkn1_liq_pool_account s);
  bsx_tkn2_liq_pool_bsx_balance ← gets (fun s => balance REWARD_CURRENCY
    bsx_tkn2_liq_pool_account s);
  let expected_claimed_rewards := 855771 in
  assert_ok (withdraw_shares (Signed BOB) (PREDEFINED_NFT_IDS 1)) ;;
  expect_nft_events [InstanceBurned BOB LIQ_MINING_NFT_CLASS (PREDEFINED_NFT_IDS 1)] ;;
  expect_events [RewardClaimed GC_FARM BSX_TKN1_LIQ_POOL_ID BOB expected_claimed_rewards BSX;
    SharesWithdrawn GC_FARM BSX_TKN1_LIQ_POOL_ID BOB BSX_TKN1_SHARE_ID 80] ;;
  is_value (farm_at GC_FARM) (Some (mkGlobalPool GC_FARM GC 128 473680 63 BSX 577395 36430390
    (percent 50) 500 100 BSX 60000000 2)) ;;
  is_value (liq_pool_at GC_FARM BSX_TKN1_AMM) (Some (mkLiquidityPool BSX_TKN1_LIQ_POOL_ID 128 0 0
    315 63 (Some LoyaltyCurve_default) 0 (fixed 5) false)) ;;
  balance_is REWARD_CURRENCY BOB (bob_bsx_balance + expected_claimed_rewards) ;;
  balance_is BSX_TKN1_SHARE_ID BOB (bsx_tkn1_bob_amm_shares_balance + 80) ;;
  balance_is BSX_TKN1_SHARE_ID pallet_account 0 ;;
  balance_is BSX_TKN2_SHARE_ID pallet_account bsx_tkn2_pallet_amm_shares_balance ;;
  balance_is REWARD_CURRENCY bsx_tkn1_liq_pool_account (bsx_tkn1_liq_pool_bsx_balance -
    (expected_claimed_rewards + 267429)) ;;
  balance_is REWARD_CURRENCY bsx_tkn2_liq_pool_account bsx_tkn2_liq_pool_bsx_balance ;;
  balance_is REWARD_CURRENCY global_pool_account (global_pool_bsx_balance + 267429) ;;
  is_value (deposit_at (PREDEFINED_NFT_IDS 1)) None ;;
  is_value (meta_at BSX_TKN1_LIQ_POOL_ID) (Some (bsx_tkn1_assets, 0, GC_FARM)) ;;
  bsx_tkn2_bob_amm_shares_balance ← gets (fun s => balance BSX_TKN2_SHARE_ID BOB s);
  bob_bsx_balance ← gets (fun s => balance REWARD_CURRENCY BOB s);
  bsx_tkn2_pallet_amm_shares_balance ← gets (fun s => balance BSX_TKN2_SHARE_ID pallet_account s);
  global_pool_bsx_balance ← gets (fun s => balance REWARD_CURRENCY global_pool_account s);
  bsx_tkn1_liq_pool_bsx_balance ← gets (fun s => balance REWARD_CURRENCY
    bsx_tkn1_liq_pool_account s);
  bsx_tkn2_liq_pool_bsx_balance ← gets (fun s => balance REWARD_CURRENCY
    bsx_tkn2_liq_pool_account s);
  let expected_claimed_rewards := 95999 in
  assert_ok (withdraw_shares (Signed BOB) (PREDEFINED_NFT_IDS 2)) ;;
  expect_nft_events [InstanceBurned BOB LIQ_MINING_NFT_CLASS (PREDEFINED_NFT_IDS 2)] ;;
  expect_events [RewardClaimed GC_FARM BSX_TKN2_LIQ_POOL_ID BOB expected_claimed_rewards BSX;
    SharesWithdrawn GC_FARM BSX_TKN2_LIQ_POOL_ID BOB BSX_TKN2_SHARE_ID 25] ;;
  is_value (farm_at GC_FARM) (Some (mkGlobalPool GC_FARM GC 128 471680 63 BSX 577395 36430390
    (percent 50) 500 100 BSX 60000000 2)) ;;
  is_value (liq_pool_at GC_FARM BSX_TKN1_AMM) (Some (mkLiquidityPool BSX_TKN1_LIQ_POOL_ID 128 0 0
    315 63 (Some LoyaltyCurve_default) 0 (fixed 5) false)) ;;
  is_value (liq_pool_at GC_FARM BSX_TKN2_AMM) (Some (mkLiquidityPool BSX_TKN2_LIQ_POOL_ID 128 848
    47168 630 63 (Some LoyaltyCurve_default) 471680 (fixed 10) false)) ;;
  balance_is REWARD_CURRENCY BOB (bob_bsx_balance + expected_claimed_rewards) ;;
  balance_is BSX_TKN2_SHARE_ID BOB (bsx_tkn2_bob_amm_shares_balance + 25) ;;
  balance_is BSX_TKN1_SHARE_ID pallet_account 0 ;;
  balance_is BSX_TKN2_SHARE_ID pallet_account (bsx_tkn2_pallet_amm_shares_balance - 25) ;;
  balance_is REWARD_CURRENCY bsx_tkn1_liq_pool_account bsx_tkn1_liq_pool_bsx_balance ;;
  balance_is REWARD_CURRENCY bsx_tkn2_liq_pool_account (bsx_tkn2_liq_pool_bsx_balance -
    (expected_claimed_rewards + 30001)) ;;
  balance_is REWARD_CURRENCY global_pool_account (global_pool_bsx_balance + 30001) ;;
  is_value (deposit_at (PREDEFINED_NFT_IDS 2)) None ;;
  is_value (meta_at BSX_TKN2_LIQ_POOL_ID) (Some (bsx_tkn2_assets, 2, GC_FARM)) ;;
  bsx_tkn2_alice_amm_shares_balance ← gets (fun s => balance BSX_TKN2_SHARE_ID ALICE s);
  alice_bsx_balance ← gets (fun s => balance REWARD_CURRENCY ALICE s);
  bsx_tkn2_pallet_amm_shares_balance ← gets (fun s => balance BSX_TKN2_SHARE_ID pallet_account s);
  global_pool_bsx_balance ← gets (fun s => balance REWARD_CURRENCY global_pool_account s);
  bsx_tkn1_liq_pool_bsx_balance ← gets (fun s => balance REWARD_CURRENCY
    bsx_tkn1_liq_pool_account s);
  bsx_tkn2_liq_pool_bsx_balance ← gets (fun s => balance REWARD_CURRENCY
    bsx_tkn2_liq_pool_account s);
  let expected_claimed_rewards := 295207 in
  assert_ok (withdraw_shares (Signed ALICE) (PREDEFINED_NFT_IDS 5)) ;;
  expect_nft_events [InstanceBurned ALICE LIQ_MINING_NFT_CLASS (PREDEFINED_NFT_IDS 5)] ;;
  expect_events [RewardClaimed GC_FARM BSX_TKN2_LIQ_POOL_ID ALICE expected_claimed_rewards BSX;
    SharesWithdrawn GC_FARM BSX_TKN2_LIQ_POOL_ID ALICE BSX_TKN2_SHARE_ID 48] ;;
  is_value (farm_at GC_FARM) (Some (mkGlobalPool GC_FARM GC 128 464000 63 BSX 577395 36430390
    (percent 50) 500 100 BSX 60000000 2)) ;;
  is_value (liq_pool_at GC_FARM BSX_TKN2_AMM) (Some (mkLiquidityPool BSX_TKN2_LIQ_POOL_ID 128 800
    46400 630 63 (Some LoyaltyCurve_default) 464000 (fixed 10) false)) ;;
  balance_is REWARD_CURRENCY ALICE (alice_bsx_balance + expected_claimed_rewards) ;;
  balance_is BSX_TKN2_SHARE_ID ALICE (bsx_tkn2_alice_amm_shares_balance + 48) ;;
  balance_is BSX_TKN1_SHARE_ID pallet_account 0 ;;
  balance_is BSX_TKN2_SHARE_ID pallet_account (bsx_tkn2_pallet_amm_shares_balance - 48) ;;
  balance_is REWARD_CURRENCY bsx_tkn1_liq_pool_account bsx_tkn1_liq_pool_bsx_balance ;;
  balance_is REWARD_CURRENCY bsx_tkn2_liq_pool_account (bsx_tkn2_liq_pool_bsx_balance -
    (expected_claimed_rewards + 96473)) ;;
  balance_is REWARD_CURRENCY global_pool_account (global_pool_bsx_balance + 96473) ;;
  is_value (deposit_at (PREDEFINED_NFT_IDS 5)) None ;;
  is_value (meta_at BSX_TKN2_LIQ_POOL_ID) (Some (bsx_tkn2_assets, 1, GC_FARM)) ;;
  bsx_tkn2_bob_amm_shares_balance ← gets (fun s => balance BSX_TKN2_SHARE_ID BOB s);
  bob_bsx_balance ← gets (fun s => balance REWARD_CURRENCY BOB s);
  global_pool_bsx_balance ← gets (fun s => balance REWARD_CURRENCY global_pool_account s);
  bsx_tkn1_liq_pool_amm_shares_balance ← gets (fun s => balance REWARD_CURRENCY
    bsx_tkn1_liq_pool_account s);
  let expected_claimed_rewards := 18680461 in
  assert_ok (withdraw_shares (Signed BOB) (PREDEFINED_NFT_IDS 3)) ;;
  expect_nft_events [InstanceBurned BOB LIQ_MINING_NFT_CLASS (PREDEFINED_NFT_IDS 3)] ;;
  expect_events [RewardClaimed GC_FARM BSX_TKN2_LIQ_POOL_ID BOB expected_claimed_rewards BSX;
    SharesWithdrawn GC_FARM BSX_TKN2_LIQ_POOL_ID BOB BSX_TKN2_SHARE_ID 800] ;;
  is_value (farm_at GC_FARM) (Some (mkGlobalPool GC_FARM GC 128 0 63 BSX 577395 36430390 (percent
    50) 500 100 BSX 60000000 2)) ;;
  is_value (liq_pool_at GC_FARM BSX_TKN2_AMM) (Some (mkLiquidityPool BSX_TKN2_LIQ_POOL_ID 128 0 0
    630 63 (Some LoyaltyCurve_default) 0 (fixed 10) false)) ;;
  balance_is REWARD_CURRENCY BOB (bob_bsx_balance + expected_claimed_rewards) ;;
  balance_is BSX_TKN2_SHARE_ID BOB (bsx_tkn2_bob_amm_shares_balance + 800) ;;
  balance_is BSX_TKN1_SHARE_ID pallet_account 0 ;;
  balance_is BSX_TKN2_SHARE_ID pallet_account 0 ;;
  balance_is REWARD_CURRENCY bsx_tkn1_liq_pool_account bsx_tkn1_liq_pool_amm_shares_balance ;;
  balance_is REWARD_CURRENCY bsx_tkn2_liq_pool_account 0 ;;
  balance_is REWARD_CURRENCY global_pool_account (global_pool_bsx_balance + 5911539) ;;
  is_value (deposit_at (PREDEFINED_NFT_IDS 2)) None ;;
  is_value (meta_at BSX_TKN2_LIQ_POOL_ID) (Some (bsx_tkn2_assets, 0, GC_FARM))).

Definition withdraw_shares_should_work_2 : Test := (predefined_test_ext,
  let aca_ksm_assets := AssetPair_new ACA KSM in
  let aca_ksm_amm_account := get_pair_id aca_ksm_assets in let ksm_balance_in_amm := 50 in
  set_balance aca_ksm_amm_account KSM ksm_balance_in_amm ;;
  set_balance aca_ksm_amm_account ACA 20 ;;
  set_block_number 1800 ;;
  let expected_claimed_rewards := 159813 in let deposited_amount := 50 in
  assert_ok (deposit_shares (Signed ALICE) CHARLIE_FARM aca_ksm_assets deposited_amount) ;;
  is_value (deposit_at 4294967303) (Some (mkDeposit deposited_amount 2500 0 0 18 18)) ;;
  set_block_number 2596 ;;
  aca_ksm_alice_amm_shares_balance ← gets (fun s => balance ACA_KSM_SHARE_ID ALICE s);
  assert_ok (withdraw_shares (Signed ALICE) 4294967303) ;;
  balance_is ACA ALICE expected_claimed_rewards ;;
  balance_is ACA_KSM_SHARE_ID ALICE (aca_ksm_alice_amm_shares_balance + deposited_amount)).

Definition withdraw_shares_from_destroyed_farm_should_work : Test :=
  (predefined_test_ext_with_deposits,
  let bsx_tkn1_assets := AssetPair_new BSX TKN1 in
  let bsx_tkn2_assets := AssetPair_new BSX TKN2 in
  let bsx_tkn1_amm_account := get_pair_id bsx_tkn1_assets in
  let bsx_tkn2_amm_account := get_pair_id bsx_tkn2_assets in
  check (fun s => negb (bool_decide (liq_pool_at GC_FARM bsx_tkn1_amm_account s = None))) ;;
  check (fun s => negb (bool_decide (liq_pool_at GC_FARM bsx_tkn2_amm_account s = None))) ;;
  check (fun s => negb (bool_decide (farm_at GC_FARM s = None))) ;;
  assert_ok (cancel_liquidity_pool (Signed GC) GC_FARM bsx_tkn1_assets) ;;
  assert_ok (cancel_liquidity_pool (Signed GC) GC_FARM bsx_tkn2_assets) ;;
  assert_ok (remove_liquidity_pool (Signed GC) GC_FARM bsx_tkn1_assets) ;;
  assert_ok (remove_liquidity_pool (Signed GC) GC_FARM bsx_tkn2_assets) ;;
  assert_ok (withdraw_undistributed_rewards (Signed GC) GC_FARM) ;;
  assert_ok (destroy_farm (Signed GC) GC_FARM) ;;
  check (fun s => bool_decide (liq_pool_at GC_FARM bsx_tkn1_amm_account s = None)) ;;
  check (fun s => bool_decide (liq_pool_at GC_FARM bsx_tkn2_amm_account s = None)) ;;
  check (fun s => bool_decide (farm_at GC_FARM s = None)) ;;
  let pallet_account := account_id in
  let test_data := [(ALICE, 0, 50, 2, BSX_TKN1_LIQ_POOL_ID, BSX_TKN1_SHARE_ID); (BOB, 1, 80, 1,
    BSX_TKN1_LIQ_POOL_ID, BSX_TKN1_SHARE_ID); (BOB, 2, 25, 3, BSX_TKN2_LIQ_POOL_ID,
    BSX_TKN2_SHARE_ID); (BOB, 3, 800, 2, BSX_TKN2_LIQ_POOL_ID, BSX_TKN2_SHARE_ID); (ALICE, 4, 87,
    1, BSX_TKN2_LIQ_POOL_ID, BSX_TKN2_SHARE_ID); (ALICE, 5, 48, 0, BSX_TKN2_LIQ_POOL_ID,
    BSX_TKN2_SHARE_ID); (ALICE, 6, 486, 0, BSX_TKN1_LIQ_POOL_ID, BSX_TKN1_SHARE_ID)] in
  for_each (fun '(caller, nft_id_index, withdrawn_shares, deposits_left, liq_pool_farm_id,
    lp_token) =>
    bsx_tkn1_pallet_amm_shares_balance ← gets (fun s => balance BSX_TKN1_SHARE_ID pallet_account
      s);
    bsx_tkn2_pallet_amm_shares_balance ← gets (fun s => balance BSX_TKN2_SHARE_ID pallet_account
      s);
    bsx_tkn1_caller_amm_shares_balance ← gets (fun s => balance BSX_TKN1_SHARE_ID caller s);
    bsx_tkn2_caller_shares_balance ← gets (fun s => balance BSX_TKN2_SHARE_ID caller s);
    assert_ok (withdraw_shares (Signed caller) (PREDEFINED_NFT_IDS (Z.to_nat nft_id_index))) ;;
    expect_nft_events [InstanceBurned caller LIQ_MINING_NFT_CLASS (PREDEFINED_NFT_IDS (Z.to_nat
      nft_id_index))] ;;
    expect_events [SharesWithdrawn GC_FARM liq_pool_farm_id caller lp_token withdrawn_shares] ;;
    let bsx_tkn1_shares_withdrawn := if liq_pool_farm_id =? BSX_TKN1_LIQ_POOL_ID then
      withdrawn_shares else 0 in
    let bsx_tkn2_shares_withdrawn := if liq_pool_farm_id =? BSX_TKN1_LIQ_POOL_ID then 0 else
      withdrawn_shares in
    balance_is BSX_TKN1_SHARE_ID pallet_account (bsx_tkn1_pallet_amm_shares_balance -
      bsx_tkn1_shares_withdrawn) ;;
    balance_is BSX_TKN2_SHARE_ID pallet_account (bsx_tkn2_pallet_amm_shares_balance -
      bsx_tkn2_shares_withdrawn) ;;
    balance_is BSX_TKN1_SHARE_ID caller (bsx_tkn1_caller_amm_shares_balance +
      bsx_tkn1_shares_withdrawn) ;;
    balance_is BSX_TKN2_SHARE_ID caller (bsx_tkn2_caller_shares_balance +
      bsx_tkn2_shares_withdrawn) ;;
    is_value (deposit_at (PREDEFINED_NFT_IDS (Z.to_nat nft_id_index))) None ;;
    (if deposits_left =? 0 then check (fun s => bool_decide (meta_at liq_pool_farm_id s = None))
   else let assets := if liq_pool_farm_id =? BSX_TKN1_LIQ_POOL_ID then bsx_tkn1_assets else
        bsx_tkn2_assets in
      is_value (meta_at liq_pool_farm_id) (Some (assets, deposits_left, GC_FARM))))
    test_data).

Definition withdraw_shares_from_canceled_pool_should_work : Test :=
  (predefined_test_ext_with_deposits,
  let bsx_tkn1_assets := AssetPair_new BSX TKN1 in
  set_block_number 10000 ;;
  assert_ok (cancel_liquidity_pool (Signed GC) GC_FARM bsx_tkn1_assets) ;;
  let pallet_account := account_id in
  global_pool_account ← pool_account_id GC_FARM;
  liq_pool_account ← pool_account_id BSX_TKN1_LIQ_POOL_ID;
  liq_pool_bsx_balance ← gets (fun s => balance BSX liq_pool_account s);
  global_pool_bsx_balance ← gets (fun s => balance BSX global_pool_account s);
  bsx_tkn1_pallet_amm_shares_balance ← gets (fun s => balance BSX_TKN1_SHARE_ID pallet_account s);
  bsx_tkn1_alice_amm_shares_balance ← gets (fun s => balance BSX_TKN1_SHARE_ID ALICE s);
  alice_bsx_balance ← gets (fun s => balance BSX ALICE s);
  global_pool ← unwrap_get (farm_at GC_FARM);
  liq_pool ← unwrap_get (liq_pool_at GC_FARM BSX_TKN1_AMM);
  assert_ok (withdraw_shares (Signed ALICE) (PREDEFINED_NFT_IDS 0)) ;;
  let user_reward := 444230 in
  expect_nft_events [InstanceBurned ALICE LIQ_MINING_NFT_CLASS (PREDEFINED_NFT_IDS 0)] ;;
  expect_events [RewardClaimed GC_FARM BSX_TKN1_LIQ_POOL_ID ALICE user_reward BSX;
    SharesWithdrawn GC_FARM BSX_TKN1_LIQ_POOL_ID ALICE BSX_TKN1_SHARE_ID 50] ;;
  is_value (farm_at GC_FARM) (Some global_pool) ;;
  is_value (liq_pool_at GC_FARM BSX_TKN1_AMM) (Some (mkLiquidityPool (lp_id liq_pool)
    (lp_updated_at liq_pool) ((lp_total_shares liq_pool) - 50) ((lp_total_valued_shares liq_pool)
    - 2500) (lp_accumulated_rpvs liq_pool) (lp_accumulated_rpz liq_pool) (lp_loyalty_curve
    liq_pool) (lp_stake_in_global_pool liq_pool) (lp_multiplier liq_pool) (lp_canceled
    liq_pool))) ;;
  is_value (deposit_at (PREDEFINED_NFT_IDS 0)) None ;;
  balance_is BSX_TKN1_SHARE_ID pallet_account (bsx_tkn1_pallet_amm_shares_balance - 50) ;;
  balance_is BSX_TKN1_SHARE_ID ALICE (bsx_tkn1_alice_amm_shares_balance + 50) ;;
  balance_is BSX ALICE (alice_bsx_balance + user_reward) ;;
  let unclaimable_rewards := 168270 in
  balance_is BSX global_pool_account (global_pool_bsx_balance + unclaimable_rewards) ;;
  balance_is BSX liq_pool_account ((liq_pool_bsx_balance - user_reward) - unclaimable_rewards) ;;
  is_value (meta_at BSX_TKN1_LIQ_POOL_ID) (Some (bsx_tkn1_assets, 2, GC_FARM)) ;;
  liq_pool_bsx_balance ← gets (fun s => balance BSX liq_pool_account s);
  global_pool_bsx_balance ← gets (fun s => balance BSX global_pool_account s);
  bsx_tkn1_pallet_amm_shares_balance ← gets (fun s => balance BSX_TKN1_SHARE_ID pallet_account s);
  bsx_tkn1_alice_amm_shares_balance ← gets (fun s => balance BSX_TKN1_SHARE_ID ALICE s);
  alice_bsx_balance ← gets (fun s => balance BSX ALICE s);
  global_pool ← unwrap_get (farm_at GC_FARM);
  liq_pool ← unwrap_get (liq_pool_at GC_FARM BSX_TKN1_AMM);
  let user_reward := 5137714 in let unclaimable_rewards := 2055086 in
  let shares_amount := 486 in let valued_shares_amount := 38880 in
  assert_ok (withdraw_shares (Signed ALICE) (PREDEFINED_NFT_IDS 6)) ;;
  expect_nft_events [InstanceBurned ALICE LIQ_MINING_NFT_CLASS (PREDEFINED_NFT_IDS 6)] ;;
  expect_events [RewardClaimed GC_FARM BSX_TKN1_LIQ_POOL_ID ALICE user_reward BSX;
    SharesWithdrawn GC_FARM BSX_TKN1_LIQ_POOL_ID ALICE BSX_TKN1_SHARE_ID shares_amount] ;;
  is_value (farm_at GC_FARM) (Some global_pool) ;;
  is_value (liq_pool_at GC_FARM BSX_TKN1_AMM) (Some (mkLiquidityPool (lp_id liq_pool)
    (lp_updated_at liq_pool) ((lp_total_shares liq_pool) - shares_amount)
    ((lp_total_valued_shares liq_pool) - valued_shares_amount) (lp_accumulated_rpvs liq_pool)
    (lp_accumulated_rpz liq_pool) (lp_loyalty_curve liq_pool) (lp_stake_in_global_pool liq_pool)
    (lp_multiplier liq_pool) (lp_canceled liq_pool))) ;;
  is_value (deposit_at (PREDEFINED_NFT_IDS 6)) None ;;
  balance_is BSX_TKN1_SHARE_ID pallet_account (bsx_tkn1_pallet_amm_shares_balance -
    shares_amount) ;;
  balance_is BSX_TKN1_SHARE_ID ALICE (bsx_tkn1_alice_amm_shares_balance + shares_amount) ;;
  balance_is BSX ALICE (alice_bsx_balance + user_reward) ;;
  balance_is BSX global_pool_account (global_pool_bsx_balance + unclaimable_rewards) ;;
  balance_is BSX liq_pool_account ((liq_pool_bsx_balance - user_reward) - unclaimable_rewards) ;;
  is_value (meta_at BSX_TKN1_LIQ_POOL_ID) (Some (bsx_tkn1_assets, 1, GC_FARM)) ;;
  liq_pool_bsx_balance ← gets (fun s => balance BSX liq_pool_account s);
  global_pool_bsx_balance ← gets (fun s => balance BSX global_pool_account s);
  bsx_tkn1_pallet_amm_shares_balance ← gets (fun s => balance BSX_TKN1_SHARE_ID pallet_account s);
  bsx_tkn1_bob_amm_shares_balance ← gets (fun s => balance BSX_TKN1_SHARE_ID BOB s);
  bob_bsx_balance ← gets (fun s => balance BSX BOB s);
  global_pool ← unwrap_get (farm_at GC_FARM);
  liq_pool ← unwrap_get (liq_pool_at GC_FARM BSX_TKN1_AMM);
  let user_reward := 603428 in let unclaimable_rewards := 228572 in let shares_amount := 80 in
  assert_ok (withdraw_shares (Signed BOB) (PREDEFINED_NFT_IDS 1)) ;;
  expect_nft_events [InstanceBurned BOB LIQ_MINING_NFT_CLASS (PREDEFINED_NFT_IDS 1)] ;;
  expect_events [RewardClaimed GC_FARM BSX_TKN1_LIQ_POOL_ID BOB user_reward BSX; SharesWithdrawn
    GC_FARM BSX_TKN1_LIQ_POOL_ID BOB BSX_TKN1_SHARE_ID shares_amount] ;;
  is_value (farm_at GC_FARM) (Some global_pool) ;;
  is_value (liq_pool_at GC_FARM BSX_TKN1_AMM) (Some (mkLiquidityPool (lp_id liq_pool)
    (lp_updated_at liq_pool) 0 0 (lp_accumulated_rpvs liq_pool) (lp_accumulated_rpz liq_pool)
    (lp_loyalty_curve liq_pool) (lp_stake_in_global_pool liq_pool) (lp_multiplier liq_pool)
    (lp_canceled liq_pool))) ;;
  is_value (deposit_at (PREDEFINED_NFT_IDS 1)) None ;;
  balance_is BSX_TKN1_SHARE_ID pallet_account (bsx_tkn1_pallet_amm_shares_balance -
    shares_amount) ;;
  balance_is BSX_TKN1_SHARE_ID BOB (bsx_tkn1_bob_amm_shares_balance + shares_amount) ;;
  balance_is BSX BOB (bob_bsx_balance + user_reward) ;;
  balance_is BSX global_pool_account (global_pool_bsx_balance + unclaimable_rewards) ;;
  balance_is BSX liq_pool_account ((liq_pool_bsx_balance - user_reward) - unclaimable_rewards) ;;
  is_value (meta_at BSX_TKN1_LIQ_POOL_ID) (Some (bsx_tkn1_assets, 0, GC_FARM))).

Definition claim_and_withdraw_in_same_period_should_work : Test :=
  (predefined_test_ext_with_deposits,
  alice_bsx_balance ← gets (fun s => balance BSX ALICE s);
  bsx_tkn1_liq_pool_account ← pool_account_id BSX_TKN1_LIQ_POOL_ID;
  bsx_tkn1_liq_pool_reward_balance ← gets (fun s => balance BSX bsx_tkn1_liq_pool_account s);
  bsx_tkn1_alice_amm_shares_balance ← gets (fun s => balance BSX_TKN1_SHARE_ID ALICE s);
  let claimed_rewards := 79906 in
  assert_ok (claim_rewards (Signed ALICE) (PREDEFINED_NFT_IDS 0)) ;;
  expect_events [RewardClaimed GC_FARM BSX_TKN1_LIQ_POOL_ID ALICE claimed_rewards BSX] ;;
  is_value (deposit_at (PREDEFINED_NFT_IDS 0)) (Some (mkDeposit 50 2500 0 claimed_rewards 18 25)) ;;
  balance_is BSX ALICE (alice_bsx_balance + claimed_rewards) ;;
  balance_is BSX bsx_tkn1_liq_pool_account (bsx_tkn1_liq_pool_reward_balance - claimed_rewards) ;;
  alice_bsx_balance ← gets (fun s => balance BSX ALICE s);
  bsx_tkn1_liq_pool_reward_balance ← gets (fun s => balance BSX bsx_tkn1_liq_pool_account s);
  assert_ok (withdraw_shares (Signed ALICE) (PREDEFINED_NFT_IDS 0)) ;;
  balance_is BSX_TKN1_SHARE_ID ALICE (bsx_tkn1_alice_amm_shares_balance + 50) ;;
  expect_nft_events [InstanceBurned ALICE LIQ_MINING_NFT_CLASS (PREDEFINED_NFT_IDS 0)] ;;
  expect_events [SharesWithdrawn GC_FARM BSX_TKN1_LIQ_POOL_ID ALICE BSX_TKN1_SHARE_ID 50] ;;
  balance_is BSX ALICE alice_bsx_balance ;;
  balance_is BSX bsx_tkn1_liq_pool_account bsx_tkn1_liq_pool_reward_balance).

Definition withdraw_shares_from_removed_pool_should_work : Test :=
  (predefined_test_ext_with_deposits,
  let bsx_tkn1_assets := AssetPair_new BSX TKN1 in
  set_block_number 10000 ;;
  assert_ok (cancel_liquidity_pool (Signed GC) GC_FARM bsx_tkn1_assets) ;;
  assert_ok (remove_liquidity_pool (Signed GC) GC_FARM bsx_tkn1_assets) ;;
  is_value (liq_pool_at GC_FARM BSX_TKN1_AMM) None ;;
  global_pool ← unwrap_get (farm_at GC_FARM);
  let liq_pool_id_removed := BSX_TKN1_LIQ_POOL_ID in let pallet_account := account_id in
  globa_pool_account ← pool_account_id GC_FARM;
  bsx_tkn1_pallet_amm_shares_balance ← gets (fun s => balance BSX_TKN1_SHARE_ID pallet_account s);
  global_pool_bsx_balance ← gets (fun s => balance BSX globa_pool_account s);
  bsx_tkn1_alice_amm_shares_balance ← gets (fun s => balance BSX_TKN1_SHARE_ID ALICE s);
  alice_bsx_balance ← gets (fun s => balance BSX ALICE s);
  assert_ok (withdraw_shares (Signed ALICE) (PREDEFINED_NFT_IDS 0)) ;;
  let shares_amount := 50 in
  expect_nft_events [InstanceBurned ALICE LIQ_MINING_NFT_CLASS (PREDEFINED_NFT_IDS 0)] ;;
  expect_events [SharesWithdrawn GC_FARM liq_pool_id_removed ALICE BSX_TKN1_SHARE_ID
    shares_amount] ;;
  is_value (deposit_at (PREDEFINED_NFT_IDS 0)) None ;;
  is_value (meta_at liq_pool_id_removed) (Some (bsx_tkn1_assets, 2, GC_FARM)) ;;
  is_value (farm_at GC_FARM) (Some global_pool) ;;
  balance_is BSX_TKN1_SHARE_ID pallet_account (bsx_tkn1_pallet_amm_shares_balance -
    shares_amount) ;;
  balance_is BSX_TKN1_SHARE_ID ALICE (bsx_tkn1_alice_amm_shares_balance + shares_amount) ;;
  balance_is BSX ALICE alice_bsx_balance ;;
  balance_is BSX globa_pool_account global_pool_bsx_balance ;;
  bsx_tkn1_alice_amm_shares_balance ← gets (fun s => balance BSX_TKN1_SHARE_ID ALICE s);
  alice_bsx_balance ← gets (fun s => balance BSX ALICE s);
  bsx_tkn1_pallet_amm_shares_balance ← gets (fun s => balance BSX_TKN1_SHARE_ID pallet_account s);
  let shares_amount := 486 in
  assert_ok (withdraw_shares (Signed ALICE) (PREDEFINED_NFT_IDS 6)) ;;
  expect_nft_events [InstanceBurned ALICE LIQ_MINING_NFT_CLASS (PREDEFINED_NFT_IDS 6)] ;;
  expect_events [SharesWithdrawn GC_FARM liq_pool_id_removed ALICE BSX_TKN1_SHARE_ID
    shares_amount] ;;
  is_value (deposit_at (PREDEFINED_NFT_IDS 6)) None ;;
  is_value (farm_at GC_FARM) (Some global_pool) ;;
  is_value (meta_at liq_pool_id_removed) (Some (bsx_tkn1_assets, 1, GC_FARM)) ;;
  balance_is BSX_TKN1_SHARE_ID pallet_account (bsx_tkn1_pallet_amm_shares_balance -
    shares_amount) ;;
  balance_is BSX_TKN1_SHARE_ID ALICE (bsx_tkn1_alice_amm_shares_balance + shares_amount) ;;
  balance_is BSX ALICE alice_bsx_balance ;;
  balance_is BSX globa_pool_account global_pool_bsx_balance ;;
  bsx_tkn1_bob_amm_shares_balance ← gets (fun s => balance BSX_TKN1_SHARE_ID BOB s);
  bob_bsx_balance ← gets (fun s => balance BSX BOB s);
  let shares_amount := 80 in
  assert_ok (withdraw_shares (Signed BOB) (PREDEFINED_NFT_IDS 1)) ;;
  expect_nft_events [InstanceBurned BOB LIQ_MINING_NFT_CLASS (PREDEFINED_NFT_IDS 1)] ;;
  expect_events [SharesWithdrawn GC_FARM liq_pool_id_removed BOB BSX_TKN1_SHARE_ID shares_amount] ;;
  is_value (deposit_at (PREDEFINED_NFT_IDS 1)) None ;;
  is_value (farm_at GC_FARM) (Some global_pool) ;;
  balance_is BSX_TKN1_SHARE_ID pallet_account 0 ;;
  balance_is BSX_TKN1_SHARE_ID BOB (bsx_tkn1_bob_amm_shares_balance + shares_amount) ;;
  balance_is BSX BOB bob_bsx_balance ;;
  balance_is BSX globa_pool_account global_pool_bsx_balance ;;
  is_value (meta_at liq_pool_id_removed) None).

Definition withdraw_shares_pool_metadata_not_found_should_not_work : Test :=
  (predefined_test_ext_with_deposits,
  assert_noop (claim_rewards (Signed ALICE) 723500752978313215) LmErr.LiquidityPoolNotFound).

Definition withdraw_shares_invalid_nft_id_should_not_work : Test :=
  (predefined_test_ext_with_deposits,
  let invalid_nft_id := 684 in
  assert_noop (claim_rewards (Signed ALICE) invalid_nft_id) LmErr.InvalidNftId).

Definition withdraw_shares_nft_not_found_should_not_work : Test :=
  (predefined_test_ext_with_deposits,
  assert_noop (claim_rewards (Signed ALICE) 72334321125861359621) LmErr.NftDoesNotExist).

Definition withdraw_shares_not_owner_should_not_work : Test := (predefined_test_ext_with_deposits,
  let NOT_FNT_OWNER := BOB in
  assert_noop (withdraw_shares (Signed NOT_FNT_OWNER) (PREDEFINED_NFT_IDS 0))
    LmErr.NotDepositOwner).

Definition validate_create_farm_data_should_work : Test := (new_test_ext,
  assert_ok (validate_create_farm_data 1000000 100 1 (percent 50)) ;;
  assert_ok (validate_create_farm_data 9999000000000 2000000 500 (percent 100)) ;;
  assert_ok (validate_create_farm_data 10000000 101 16986741 (percent 1 / 10))).

Definition validate_create_farm_data_should_not_work : Test := (new_test_ext,
  assert_err (validate_create_farm_data 999999 100 1 (percent 50)) LmErr.InvalidTotalRewards ;;
  assert_err (validate_create_farm_data 9 100 1 (percent 50)) LmErr.InvalidTotalRewards ;;
  assert_err (validate_create_farm_data 0 100 1 (percent 50)) LmErr.InvalidTotalRewards ;;
  assert_err (validate_create_farm_data 1000000 99 1 (percent 50))
    LmErr.InvalidPlannedYieldingPeriods ;;
  assert_err (validate_create_farm_data 1000000 0 1 (percent 50))
    LmErr.InvalidPlannedYieldingPeriods ;;
  assert_err (validate_create_farm_data 1000000 87 1 (percent 50))
    LmErr.InvalidPlannedYieldingPeriods ;;
  assert_err (validate_create_farm_data 1000000 100 0 (percent 50)) LmErr.InvalidBlocksPerPeriod ;;
  assert_err (validate_create_farm_data 1000000 100 10 (percent 0)) LmErr.InvalidYieldPerPeriod).

Definition get_period_number_should_work : Test := (new_test_ext,
  let block_num := 1 in let blocks_per_period := 1 in
  returns (get_period_number block_num blocks_per_period) 1 ;;
  let block_num := 1000 in let blocks_per_period := 1 in
  returns (get_period_number block_num blocks_per_period) 1000 ;;
  let block_num := 23 in let blocks_per_period := 15 in
  returns (get_period_number block_num blocks_per_period) 1 ;;
  let block_num := 843712398 in let blocks_per_period := 13412341 in
  returns (get_period_number block_num blocks_per_period) 62 ;;
  let block_num := 843 in let blocks_per_period := 2000 in
  returns (get_period_number block_num blocks_per_period) 0 ;;
  let block_num := 10 in let blocks_per_period := 10 in
  returns (get_period_number block_num blocks_per_period) 1).

Definition get_period_number_should_not_work : Test := (new_test_ext,
  let block_num := 10 in
  assert_err (get_period_number block_num 0) LmErr.Overflow).

Definition get_loyalty_multiplier_should_work : Test := (new_test_ext,
  let loyalty_curve_1 := LoyaltyCurve_default in
  let loyalty_curve_2 := mkLoyaltyCurve (fixed 1) 50 in
  let loyalty_curve_3 := mkLoyaltyCurve 123580000000000000 23 in
  let loyalty_curve_4 := mkLoyaltyCurve 0 15 in
  let testing_values := [(0, 500000000000000000, 1000000000000000000, 123580000000000000, 0); (1,
    504950495000000000, 1000000000000000000, 160097500000000000, 62500000000000000); (4,
    519230769200000000, 1000000000000000000, 253419999999999968, 210526315800000000); (130,
    782608695700000000, 1000000000000000000, 868250588200000000, 896551724100000000); (150,
    800000000000000000, 1000000000000000000, 883481734100000000, 909090909100000000); (180,
    821428571400000000, 1000000000000000000, 900701182300000000, 923076923100000000); (240,
    852941176500000000, 1000000000000000000, 923354904900000000, 941176470600000000); (270,
    864864864900000000, 1000000000000000000, 931202525600000000, 947368421100000000); (280,
    868421052600000000, 1000000000000000000, 933473069300000000, 949152542400000000); (320,
    880952381000000000, 1000000000000000000, 941231312000000000, 955223880600000000); (380,
    895833333300000000, 1000000000000000000, 949980992600000000, 962025316500000000); (390,
    897959183700000000, 1000000000000000000, 951192106500000000, 962962963000000000); (4000,
    987804878000000000, 1000000000000000000, 994989396000000000, 996264010000000000); (4400,
    988888888900000000, 1000000000000000000, 995442536700000000, 996602491500000000); (4700,
    989583333300000000, 1000000000000000000, 995732022000000000, 996818663800000000)] in
  returns (get_loyalty_multiplier 10 None) FixedU128_one ;;
  let precission_delta := 100000000 in
  for_each (fun '(periods, expected_multiplier_1, expected_multiplier_2, expected_multiplier_3,
    expected_multiplier_4) =>
    m ← get_loyalty_multiplier periods (Some loyalty_curve_1);
    check (fun _ => Z.abs (m - expected_multiplier_1) <=? precission_delta) ;;
    m ← get_loyalty_multiplier periods (Some loyalty_curve_2);
    check (fun _ => Z.abs (m - expected_multiplier_2) <=? precission_delta) ;;
    m ← get_loyalty_multiplier periods (Some loyalty_curve_3);
    check (fun _ => Z.abs (m - expected_multiplier_3) <=? precission_delta) ;;
    m ← get_loyalty_multiplier periods (Some loyalty_curve_4);
    check (fun _ => Z.abs (m - expected_multiplier_4) <=? precission_delta))
    testing_values).

Definition update_global_pool_should_work : Test := (new_test_ext,
  let testing_values := [(26, 2501944769, 259, HDX, BSX_FARM, 0, 206, 65192006, 55563662, 259,
    55563662); (188, 33769603, 1148, BSX, BSX_FARM, 30080406306, 259, 1548635, 56710169, 1151,
    166663254); (195, 26098384286056, 523, ACA, KSM_FARM, 32055, 326, 1712797, 61424428, 523,
    61456483); (181, 9894090144, 317, KSM, ACA_FARM, 36806694280, 1856, 19009156, 52711084, 320,
    31893047384); (196, 26886423482043, 596, ACA, KSM_FARM, 30560755872, 954, 78355, 34013971,
    596, 93407061); (68, 1138057342, 4, ACA, KSM_FARM, 38398062768, 161, 55309798233, 71071995,
    37, 38469134763); (161, 24495534649923, 213, KSM, BSX_FARM, 11116735745, 448, 326, 85963452,
    213, 86057014); (27, 22108444, 970, KSM, KSM_FARM, 8572779460, 132, 1874081, 43974403, 978,
    240752908); (97, 1593208, 6, HDX, BSX_FARM, 18440792496, 146, 741803, 14437690, 28,
    50786037); (154, 27279119649838, 713, BSX, BSX_FARM, 28318566664, 202, 508869, 7533987, 713,
    31959699); (104, 20462312838954, 833, BSX, ACA_FARM, 3852003, 131, 1081636, 75149021, 833,
    79001024); (90, 37650830596054, 586, HDX, KSM_FARM, 27990338179, 110, 758482, 36765518, 586,
    51935158); (198, 318777215, 251, ACA, ACA_FARM, 3615346492, 582, 69329, 12876432, 251,
    39498768); (29, 33478250, 77, BSX, ACA_FARM, 39174031245, 100, 1845620, 26611087, 80,
    157650107); (91, 393922835172, 2491, ACA, KSM_FARM, 63486975129400, 260, 109118678233,
    85100506, 2537, 18441141721883); (67, 1126422, 295, HDX, ACA_FARM, 7492177402, 229, 1227791,
    35844776, 471, 234746918); (168, 28351324279041, 450, ACA, KSM_FARM, 38796364068, 361,
    1015284, 35695723, 450, 231645535); (3, 17631376575792, 82, HDX, BSX_FARM, 20473946880, 52,
    1836345, 93293564, 82, 183274469); (49, 94059, 81, HDX, BSX_FARM, 11126653978, 132, 1672829,
    75841904, 1557, 214686711); (38, 14085, 266, KSM, ACA_FARM, 36115448964, 400000, 886865,
    52402278, 2564373, 36167851242); (158, 762784, 129, BSX, ACA_FARM, 21814882774, 158, 789730,
    86085676, 129, 86085676)] in
  for_each (fun '(updated_at, total_shares_z, accumulated_rpz, reward_currency, id,
    rewards_left_to_distribute, now_period, reward_per_period, accumulated_rewards,
    expected_accumulated_rpz, expected_accumulated_rewards) =>
    modify (fun _ => new_test_ext) ;;
    let yield_per_period := percent 50 in let planned_yielding_periods := 100 in
    let blocks_per_period := 0 in let owner := ALICE in let incentivized_token := BSX in
    let max_reward_per_period := 10000 in
    let global_pool := GlobalPool_new id updated_at reward_currency yield_per_period
      planned_yielding_periods blocks_per_period owner incentivized_token max_reward_per_period in
    let global_pool := mkGlobalPool (gp_id global_pool) (gp_owner global_pool) (gp_updated_at
      global_pool) total_shares_z (gp_accumulated_rpz global_pool) (gp_reward_currency
      global_pool) (gp_accumulated_rewards global_pool) (gp_paid_accumulated_rewards global_pool)
      (gp_yield_per_period global_pool) (gp_planned_yielding_periods global_pool)
      (gp_blocks_per_period global_pool) (gp_incentivized_asset global_pool)
      (gp_max_reward_per_period global_pool) (gp_liq_pools_count global_pool) in
    let global_pool := mkGlobalPool (gp_id global_pool) (gp_owner global_pool) (gp_updated_at
      global_pool) (gp_total_shares_z global_pool) (gp_accumulated_rpz global_pool)
      (gp_reward_currency global_pool) accumulated_rewards (gp_paid_accumulated_rewards
      global_pool) (gp_yield_per_period global_pool) (gp_planned_yielding_periods global_pool)
      (gp_blocks_per_period global_pool) (gp_incentivized_asset global_pool)
      (gp_max_reward_per_period global_pool) (gp_liq_pools_count global_pool) in
    let global_pool := mkGlobalPool (gp_id global_pool) (gp_owner global_pool) (gp_updated_at
      global_pool) (gp_total_shares_z global_pool) accumulated_rpz (gp_reward_currency
      global_pool) (gp_accumulated_rewards global_pool) (gp_paid_accumulated_rewards global_pool)
      (gp_yield_per_period global_pool) (gp_planned_yielding_periods global_pool)
      (gp_blocks_per_period global_pool) (gp_incentivized_asset global_pool)
      (gp_max_reward_per_period global_pool) (gp_liq_pools_count global_pool) in
    let global_pool := mkGlobalPool (gp_id global_pool) (gp_owner global_pool) (gp_updated_at
      global_pool) (gp_total_shares_z global_pool) (gp_accumulated_rpz global_pool)
      (gp_reward_currency global_pool) (gp_accumulated_rewards global_pool) 10
      (gp_yield_per_period global_pool) (gp_planned_yielding_periods global_pool)
      (gp_blocks_per_period global_pool) (gp_incentivized_asset global_pool)
      (gp_max_reward_per_period global_pool) (gp_liq_pools_count global_pool) in
    farm_account_id ← pool_account_id id;
    pay TREASURY farm_account_id reward_currency rewards_left_to_distribute ;;
    balance_is reward_currency farm_account_id rewards_left_to_distribute ;;
    global_pool ← update_global_pool global_pool now_period reward_per_period;
    let expected_global_pool := GlobalPool_new id now_period reward_currency yield_per_period
      planned_yielding_periods blocks_per_period owner incentivized_token max_reward_per_period in
    let expected_global_pool := mkGlobalPool (gp_id expected_global_pool) (gp_owner
      expected_global_pool) (gp_updated_at expected_global_pool) total_shares_z
      (gp_accumulated_rpz expected_global_pool) (gp_reward_currency expected_global_pool)
      (gp_accumulated_rewards expected_global_pool) (gp_paid_accumulated_rewards
      expected_global_pool) (gp_yield_per_period expected_global_pool)
      (gp_planned_yielding_periods expected_global_pool) (gp_blocks_per_period
      expected_global_pool) (gp_incentivized_asset expected_global_pool)
      (gp_max_reward_per_period expected_global_pool) (gp_liq_pools_count expected_global_pool) in
    let expected_global_pool := mkGlobalPool (gp_id expected_global_pool) (gp_owner
      expected_global_pool) (gp_updated_at expected_global_pool) (gp_total_shares_z
      expected_global_pool) (gp_accumulated_rpz expected_global_pool) (gp_reward_currency
      expected_global_pool) (gp_accumulated_rewards expected_global_pool) 10 (gp_yield_per_period
      expected_global_pool) (gp_planned_yielding_periods expected_global_pool)
      (gp_blocks_per_period expected_global_pool) (gp_incentivized_asset expected_global_pool)
      (gp_max_reward_per_period expected_global_pool) (gp_liq_pools_count expected_global_pool) in
    let expected_global_pool := mkGlobalPool (gp_id expected_global_pool) (gp_owner
      expected_global_pool) (gp_updated_at expected_global_pool) (gp_total_shares_z
      expected_global_pool) expected_accumulated_rpz (gp_reward_currency expected_global_pool)
      (gp_accumulated_rewards expected_global_pool) (gp_paid_accumulated_rewards
      expected_global_pool) (gp_yield_per_period expected_global_pool)
      (gp_planned_yielding_periods expected_global_pool) (gp_blocks_per_period
      expected_global_pool) (gp_incentivized_asset expected_global_pool)
      (gp_max_reward_per_period expected_global_pool) (gp_liq_pools_count expected_global_pool) in
    let expected_global_pool := mkGlobalPool (gp_id expected_global_pool) (gp_owner
      expected_global_pool) (gp_updated_at expected_global_pool) (gp_total_shares_z
      expected_global_pool) (gp_accumulated_rpz expected_global_pool) (gp_reward_currency
      expected_global_pool) expected_accumulated_rewards (gp_paid_accumulated_rewards
      expected_global_pool) (gp_yield_per_period expected_global_pool)
      (gp_planned_yielding_periods expected_global_pool) (gp_blocks_per_period
      expected_global_pool) (gp_incentivized_asset expected_global_pool)
      (gp_max_reward_per_period expected_global_pool) (gp_liq_pools_count expected_global_pool) in
    check (fun s => bool_decide (global_pool = expected_global_pool)))
    testing_values).

Definition claim_from_global_pool_should_work : Test := (new_test_ext,
  let testing_values := [(26, 2501944769, 259, 299, HDX, 5556613662, 0, 55563662, 2222546480,
    299, 3334067182, 2222546480); (188, 33769603, 1148, 1151, BSX, 166663254, 30080406306,
    5671016, 17013048, 1151, 149650206, 30097419354); (195, 26098384286056, 523, 823, ACA,
    61456483, 32055, 61428, 18428400, 823, 43028083, 18460455); (181, 9894090144, 317, 320, KSM,
    31893047384, 36806694280, 527114, 1581342, 320, 31891466042, 36808275622); (196,
    26886423482043, 596, 5684, ACA, 93407061, 30560755872, 3011, 15319968, 5684, 78087093,
    30576075840); (68, 1138057342, 4, 37, ACA, 38469134763, 38398062768, 71071995, 2345375835,
    37, 36123758928, 40743438603); (161, 24495534649923, 213, 678, KSM, 86057014, 11116735745,
    85452, 39735180, 678, 46321834, 11156470925); (27, 22108444, 970, 978, KSM, 240752908,
    8572779460, 474403, 3795224, 978, 236957684, 8576574684); (97, 1593208, 6, 28, HDX, 50786037,
    18440792496, 147690, 3249180, 28, 47536857, 18444041676); (154, 27279119649838, 713, 876,
    BSX, 319959699, 28318566664, 75987, 12385881, 876, 307573818, 28330952545); (104,
    20462312838954, 833, 8373, BSX, 790051024, 3852003, 7521, 56708340, 8373, 733342684,
    60560343); (90, 37650830596054, 586, 5886, HDX, 519356158, 27990338179, 318, 1685400, 5886,
    517670758, 27992023579); (198, 318777215, 251, 2591, ACA, 3949876895, 3615346492, 28732,
    67232880, 2591, 3882644015, 3682579372); (29, 33478250, 77, 80, BSX, 157650107, 39174031245,
    26611087, 79833261, 80, 77816846, 39253864506); (91, 393922835172, 2491, 2537, ACA,
    18441141721883, 63486975129400, 85100506, 3914623276, 2537, 18437227098607, 63490889752676);
    (67, 1126422, 295, 471, HDX, 234746918, 7492177402, 358776, 63144576, 471, 171602342,
    7555321978); (168, 28351324279041, 450, 952, ACA, 231645535, 38796364068, 356723, 179074946,
    952, 52570589, 38975439014); (3, 17631376575792, 82, 357, HDX, 1832794469, 20473946880,
    932564, 256455100, 357, 1576339369, 20730401980); (49, 94059, 81, 1557, HDX, 21495686711,
    11126653978, 758404, 1119404304, 1557, 20376282407, 12246058282); (38, 14085, 266, 2564373,
    KSM, 36167851242, 36115448964, 5278, 13533356746, 2564373, 22634494496, 49648805710); (158,
    762784, 129, 129, BSX, 86085676, 21814882774, 86085676, 0, 129, 86085676, 21814882774)] in
  for_each (fun '(updated_at, total_shares_z, liq_pool_accumulated_rpz,
    global_pool_accumulated_rpz, reward_currency, accumulated_rewards, paid_accumulated_rewards,
    liq_pool_stake_in_global_pool, expected_rewards_from_global_pool,
    expected_liq_pool_accumulated_rpz, expected_global_pool_accumulated_rewards,
    expected_global_pool_paid_accumulated_rewards) =>
    let global_pool_id := 1 in let liq_pool_id := 2 in let yield_per_period := percent 50 in
    let planned_yielding_periods := 100 in let blocks_per_period := 1 in let owner := ALICE in
    let incentivized_token := BSX in let max_reward_per_period := 10000 in
    let global_pool := GlobalPool_new global_pool_id updated_at reward_currency yield_per_period
      planned_yielding_periods blocks_per_period owner incentivized_token max_reward_per_period in
    let global_pool := mkGlobalPool (gp_id global_pool) (gp_owner global_pool) (gp_updated_at
      global_pool) total_shares_z (gp_accumulated_rpz global_pool) (gp_reward_currency
      global_pool) (gp_accumulated_rewards global_pool) (gp_paid_accumulated_rewards global_pool)
      (gp_yield_per_period global_pool) (gp_planned_yielding_periods global_pool)
      (gp_blocks_per_period global_pool) (gp_incentivized_asset global_pool)
      (gp_max_reward_per_period global_pool) (gp_liq_pools_count global_pool) in
    let global_pool := mkGlobalPool (gp_id global_pool) (gp_owner global_pool) (gp_updated_at
      global_pool) (gp_total_shares_z global_pool) global_pool_accumulated_rpz
      (gp_reward_currency global_pool) (gp_accumulated_rewards global_pool)
      (gp_paid_accumulated_rewards global_pool) (gp_yield_per_period global_pool)
      (gp_planned_yielding_periods global_pool) (gp_blocks_per_period global_pool)
      (gp_incentivized_asset global_pool) (gp_max_reward_per_period global_pool)
      (gp_liq_pools_count global_pool) in
    let global_pool := mkGlobalPool (gp_id global_pool) (gp_owner global_pool) (gp_updated_at
      global_pool) (gp_total_shares_z global_pool) (gp_accumulated_rpz global_pool)
      (gp_reward_currency global_pool) accumulated_rewards (gp_paid_accumulated_rewards
      global_pool) (gp_yield_per_period global_pool) (gp_planned_yielding_periods global_pool)
      (gp_blocks_per_period global_pool) (gp_incentivized_asset global_pool)
      (gp_max_reward_per_period global_pool) (gp_liq_pools_count global_pool) in
    let global_pool := mkGlobalPool (gp_id global_pool) (gp_owner global_pool) (gp_updated_at
      global_pool) (gp_total_shares_z global_pool) (gp_accumulated_rpz global_pool)
      (gp_reward_currency global_pool) (gp_accumulated_rewards global_pool)
      paid_accumulated_rewards (gp_yield_per_period global_pool) (gp_planned_yielding_periods
      global_pool) (gp_blocks_per_period global_pool) (gp_incentivized_asset global_pool)
      (gp_max_reward_per_period global_pool) (gp_liq_pools_count global_pool) in
    let liq_pool := LiquidityPoolYieldFarm_new liq_pool_id updated_at None (fixed 10) in
    let liq_pool := mkLiquidityPool (lp_id liq_pool) (lp_updated_at liq_pool) (lp_total_shares
      liq_pool) (lp_total_valued_shares liq_pool) (lp_accumulated_rpvs liq_pool)
      liq_pool_accumulated_rpz (lp_loyalty_curve liq_pool) (lp_stake_in_global_pool liq_pool)
      (lp_multiplier liq_pool) (lp_canceled liq_pool) in
    '(rewards, global_pool, liq_pool) ← claim_from_global_pool global_pool liq_pool
      liq_pool_stake_in_global_pool;
    check (fun _ => rewards =? expected_rewards_from_global_pool) ;;
    let expected_global_pool := GlobalPool_new global_pool_id updated_at reward_currency
      yield_per_period planned_yielding_periods blocks_per_period owner incentivized_token
      max_reward_per_period in
    let expected_global_pool := mkGlobalPool (gp_id expected_global_pool) (gp_owner
      expected_global_pool) (gp_updated_at expected_global_pool) total_shares_z
      (gp_accumulated_rpz expected_global_pool) (gp_reward_currency expected_global_pool)
      (gp_accumulated_rewards expected_global_pool) (gp_paid_accumulated_rewards
      expected_global_pool) (gp_yield_per_period expected_global_pool)
      (gp_planned_yielding_periods expected_global_pool) (gp_blocks_per_period
      expected_global_pool) (gp_incentivized_asset expected_global_pool)
      (gp_max_reward_per_period expected_global_pool) (gp_liq_pools_count expected_global_pool) in
    let expected_global_pool := mkGlobalPool (gp_id expected_global_pool) (gp_owner
      expected_global_pool) (gp_updated_at expected_global_pool) (gp_total_shares_z
      expected_global_pool) global_pool_accumulated_rpz (gp_reward_currency expected_global_pool)
      (gp_accumulated_rewards expected_global_pool) (gp_paid_accumulated_rewards
      expected_global_pool) (gp_yield_per_period expected_global_pool)
      (gp_planned_yielding_periods expected_global_pool) (gp_blocks_per_period
      expected_global_pool) (gp_incentivized_asset expected_global_pool)
      (gp_max_reward_per_period expected_global_pool) (gp_liq_pools_count expected_global_pool) in
    let expected_global_pool := mkGlobalPool (gp_id expected_global_pool) (gp_owner
      expected_global_pool) (gp_updated_at expected_global_pool) (gp_total_shares_z
      expected_global_pool) (gp_accumulated_rpz expected_global_pool) (gp_reward_currency
      expected_global_pool) expected_global_pool_accumulated_rewards (gp_paid_accumulated_rewards
      expected_global_pool) (gp_yield_per_period expected_global_pool)
      (gp_planned_yielding_periods expected_global_pool) (gp_blocks_per_period
      expected_global_pool) (gp_incentivized_asset expected_global_pool)
      (gp_max_reward_per_period expected_global_pool) (gp_liq_pools_count expected_global_pool) in
    let expected_global_pool := mkGlobalPool (gp_id expected_global_pool) (gp_owner
      expected_global_pool) (gp_updated_at expected_global_pool) (gp_total_shares_z
      expected_global_pool) (gp_accumulated_rpz expected_global_pool) (gp_reward_currency
      expected_global_pool) (gp_accumulated_rewards expected_global_pool)
      expected_global_pool_paid_accumulated_rewards (gp_yield_per_period expected_global_pool)
      (gp_planned_yielding_periods expected_global_pool) (gp_blocks_per_period
      expected_global_pool) (gp_incentivized_asset expected_global_pool)
      (gp_max_reward_per_period expected_global_pool) (gp_liq_pools_count expected_global_pool) in
    check (fun s => bool_decide (global_pool = expected_global_pool)) ;;
    let expected_liq_pool := LiquidityPoolYieldFarm_new liq_pool_id updated_at None (fixed 10) in
    let expected_liq_pool := mkLiquidityPool (lp_id expected_liq_pool) (lp_updated_at
      expected_liq_pool) (lp_total_shares expected_liq_pool) (lp_total_valued_shares
      expected_liq_pool) (lp_accumulated_rpvs expected_liq_pool)
      expected_liq_pool_accumulated_rpz (lp_loyalty_curve expected_liq_pool)
      (lp_stake_in_global_pool expected_liq_pool) (lp_multiplier expected_liq_pool) (lp_canceled
      expected_liq_pool) in
    check (fun s => bool_decide (liq_pool = expected_liq_pool)))
    testing_values).

Definition update_pool_should_work : Test := (new_test_ext,
  let testing_values := [(BSX_FARM, BSX_DOT_LM_POOL, 26, 206, 299, 0, 2222546480, BSX, 299, 26,
    0, 9000000000000); (BSX_FARM, BSX_ACA_LM_POOL, 188, 259, 1151, 33769603, 170130593048, BSX,
    6188, 259, 170130593048, 8829869406952); (BSX_FARM, BSX_KSM_LM_POOL, 195, 326, 823,
    2604286056, 8414312431200, BSX, 4053, 326, 8414312431200, 585687568800); (BSX_FARM,
    BSX_KSM_LM_POOL, 181, 1856, 320, 8940144, 190581342, BSX, 341, 1856, 190581342,
    8999809418658); (BSX_FARM, BSX_ACA_LM_POOL, 196, 954, 5684, 282043, 15319968, BSX, 5738, 954,
    15319968, 8999984680032); (BSX_FARM, BSX_DOT_LM_POOL, 68, 161, 37, 1138057342, 2345375835,
    BSX, 39, 161, 2345375835, 8997654624165); (BSX_FARM, BSX_ACA_LM_POOL, 161, 448, 678, 49923,
    39735180, BSX, 1473, 448, 39735180, 8999960264820); (BSX_FARM, BSX_DOT_LM_POOL, 27, 132, 978,
    2444, 3795224, BSX, 2530, 132, 3795224, 8999996204776); (BSX_FARM, BSX_KSM_LM_POOL, 97, 146,
    28, 1593208, 3249180, BSX, 30, 146, 3249180, 8999996750820); (BSX_FARM, BSX_ACA_LM_POOL, 154,
    202, 876, 9838, 12385881, BSX, 2134, 202, 12385881, 8999987614119); (BSX_FARM,
    BSX_DOT_LM_POOL, 104, 131, 8373, 2046838954, 56708340909, BSX, 8400, 131, 56708340909,
    8943291659091); (BSX_FARM, BSX_KSM_LM_POOL, 90, 110, 5886, 596054, 1685400, BSX, 5888, 110,
    1685400, 8999998314600); (BSX_FARM, BSX_DOT_LM_POOL, 198, 582, 2591, 377215, 67232880, BSX,
    2769, 582, 67232880, 8999932767120); (BSX_FARM, BSX_KSM_LM_POOL, 29, 100, 80, 8250, 79833261,
    BSX, 9756, 100, 79833261, 8999920166739); (BSX_FARM, BSX_ACA_LM_POOL, 91, 260, 2537, 35172,
    3914623276, BSX, 113836, 260, 3914623276, 8996085376724); (BSX_FARM, BSX_ACA_LM_POOL, 67,
    229, 471, 1126422, 63144576, BSX, 527, 229, 63144576, 8999936855424); (BSX_FARM,
    BSX_DOT_LM_POOL, 168, 361, 952, 28279041, 179074946, BSX, 958, 361, 179074946,
    8999820925054); (BSX_FARM, BSX_ACA_LM_POOL, 3, 52, 357, 2, 256455100, BSX, 128227907, 52,
    256455100, 8999743544900); (BSX_FARM, BSX_KSM_LM_POOL, 49, 132, 1557, 94059, 1119404304, BSX,
    13458, 132, 1119404304, 8998880595696); (BSX_FARM, BSX_ACA_LM_POOL, 38, 38, 2564373, 14085,
    13533356746, BSX, 2564373, 38, 0, 9000000000000); (BSX_FARM, BSX_ACA_LM_POOL, 158, 158, 129,
    762784, 179074933, BSX, 129, 158, 0, 9000000000000)] in
  for_each (fun '(global_pool_id, liq_pool_id, liq_pool_updated_at, now_period,
    liq_pool_accumulated_rpvs, liq_pool_total_valued_shares, liq_pool_rewards, reward_currency,
    expected_liq_pool_accumulated_rpvs, expected_updated_at,
    expected_liq_pool_reward_currency_balance, expected_global_pool_reward_currency_balance) =>
    modify (fun _ => new_test_ext) ;;
    let owner := ALICE in let yield_per_period := percent 50 in let blocks_per_period := 1 in
    let planned_yielding_periods := 100 in let incentivized_token := BSX in
    let updated_at := 200 in let max_reward_per_period := 10000 in
    let global_pool := GlobalPool_new global_pool_id updated_at reward_currency yield_per_period
      planned_yielding_periods blocks_per_period owner incentivized_token max_reward_per_period in
    let global_pool := mkGlobalPool (gp_id global_pool) (gp_owner global_pool) (gp_updated_at
      global_pool) 1000000 (gp_accumulated_rpz global_pool) (gp_reward_currency global_pool)
      (gp_accumulated_rewards global_pool) (gp_paid_accumulated_rewards global_pool)
      (gp_yield_per_period global_pool) (gp_planned_yielding_periods global_pool)
      (gp_blocks_per_period global_pool) (gp_incentivized_asset global_pool)
      (gp_max_reward_per_period global_pool) (gp_liq_pools_count global_pool) in
    let global_pool := mkGlobalPool (gp_id global_pool) (gp_owner global_pool) (gp_updated_at
      global_pool) (gp_total_shares_z global_pool) 200 (gp_reward_currency global_pool)
      (gp_accumulated_rewards global_pool) (gp_paid_accumulated_rewards global_pool)
      (gp_yield_per_period global_pool) (gp_planned_yielding_periods global_pool)
      (gp_blocks_per_period global_pool) (gp_incentivized_asset global_pool)
      (gp_max_reward_per_period global_pool) (gp_liq_pools_count global_pool) in
    let global_pool := mkGlobalPool (gp_id global_pool) (gp_owner global_pool) (gp_updated_at
      global_pool) (gp_total_shares_z global_pool) (gp_accumulated_rpz global_pool)
      (gp_reward_currency global_pool) 1000000 (gp_paid_accumulated_rewards global_pool)
      (gp_yield_per_period global_pool) (gp_planned_yielding_periods global_pool)
      (gp_blocks_per_period global_pool) (gp_incentivized_asset global_pool)
      (gp_max_reward_per_period global_pool) (gp_liq_pools_count global_pool) in
    let global_pool := mkGlobalPool (gp_id global_pool) (gp_owner global_pool) (gp_updated_at
      global_pool) (gp_total_shares_z global_pool) (gp_accumulated_rpz global_pool)
      (gp_reward_currency global_pool) (gp_accumulated_rewards global_pool) 1000000
      (gp_yield_per_period global_pool) (gp_planned_yielding_periods global_pool)
      (gp_blocks_per_period global_pool) (gp_incentivized_asset global_pool)
      (gp_max_reward_per_period global_pool) (gp_liq_pools_count global_pool) in
    let liq_pool := mkLiquidityPool liq_pool_id liq_pool_updated_at 200
      liq_pool_total_valued_shares liq_pool_accumulated_rpvs 200 None 10000 (fixed 10) false in
    farm_account_id ← pool_account_id global_pool_id;
    pool_account_id ← pool_account_id liq_pool_id;
    pay TREASURY farm_account_id (gp_reward_currency global_pool) 9000000000000 ;;
    balance_is (gp_reward_currency global_pool) farm_account_id 9000000000000 ;;
    balance_is reward_currency pool_account_id 0 ;;
    liq_pool ← update_liq_pool liq_pool liq_pool_rewards now_period global_pool_id
      reward_currency;
    let rhs_global_pool := GlobalPool_new global_pool_id updated_at reward_currency
      yield_per_period planned_yielding_periods blocks_per_period owner incentivized_token
      max_reward_per_period in
    let rhs_global_pool := mkGlobalPool (gp_id rhs_global_pool) (gp_owner rhs_global_pool) 200
      (gp_total_shares_z rhs_global_pool) (gp_accumulated_rpz rhs_global_pool)
      (gp_reward_currency rhs_global_pool) (gp_accumulated_rewards rhs_global_pool)
      (gp_paid_accumulated_rewards rhs_global_pool) (gp_yield_per_period rhs_global_pool)
      (gp_planned_yielding_periods rhs_global_pool) (gp_blocks_per_period rhs_global_pool)
      (gp_incentivized_asset rhs_global_pool) (gp_max_reward_per_period rhs_global_pool)
      (gp_liq_pools_count rhs_global_pool) in
    let rhs_global_pool := mkGlobalPool (gp_id rhs_global_pool) (gp_owner rhs_global_pool)
      (gp_updated_at rhs_global_pool) 1000000 (gp_accumulated_rpz rhs_global_pool)
      (gp_reward_currency rhs_global_pool) (gp_accumulated_rewards rhs_global_pool)
      (gp_paid_accumulated_rewards rhs_global_pool) (gp_yield_per_period rhs_global_pool)
      (gp_planned_yielding_periods rhs_global_pool) (gp_blocks_per_period rhs_global_pool)
      (gp_incentivized_asset rhs_global_pool) (gp_max_reward_per_period rhs_global_pool)
      (gp_liq_pools_count rhs_global_pool) in
    let rhs_global_pool := mkGlobalPool (gp_id rhs_global_pool) (gp_owner rhs_global_pool)
      (gp_updated_at rhs_global_pool) (gp_total_shares_z rhs_global_pool) 200 (gp_reward_currency
      rhs_global_pool) (gp_accumulated_rewards rhs_global_pool) (gp_paid_accumulated_rewards
      rhs_global_pool) (gp_yield_per_period rhs_global_pool) (gp_planned_yielding_periods
      rhs_global_pool) (gp_blocks_per_period rhs_global_pool) (gp_incentivized_asset
      rhs_global_pool) (gp_max_reward_per_period rhs_global_pool) (gp_liq_pools_count
      rhs_global_pool) in
    let rhs_global_pool := mkGlobalPool (gp_id rhs_global_pool) (gp_owner rhs_global_pool)
      (gp_updated_at rhs_global_pool) (gp_total_shares_z rhs_global_pool) (gp_accumulated_rpz
      rhs_global_pool) (gp_reward_currency rhs_global_pool) 1000000 (gp_paid_accumulated_rewards
      rhs_global_pool) (gp_yield_per_period rhs_global_pool) (gp_planned_yielding_periods
      rhs_global_pool) (gp_blocks_per_period rhs_global_pool) (gp_incentivized_asset
      rhs_global_pool) (gp_max_reward_per_period rhs_global_pool) (gp_liq_pools_count
      rhs_global_pool) in
    let rhs_global_pool := mkGlobalPool (gp_id rhs_global_pool) (gp_owner rhs_global_pool)
      (gp_updated_at rhs_global_pool) (gp_total_shares_z rhs_global_pool) (gp_accumulated_rpz
      rhs_global_pool) (gp_reward_currency rhs_global_pool) (gp_accumulated_rewards
      rhs_global_pool) 1000000 (gp_yield_per_period rhs_global_pool) (gp_planned_yielding_periods
      rhs_global_pool) (gp_blocks_per_period rhs_global_pool) (gp_incentivized_asset
      rhs_global_pool) (gp_max_reward_per_period rhs_global_pool) (gp_liq_pools_count
      rhs_global_pool) in
    check (fun s => bool_decide (global_pool = rhs_global_pool)) ;;
    check (fun s => bool_decide (liq_pool = mkLiquidityPool liq_pool_id expected_updated_at 200
      liq_pool_total_valued_shares expected_liq_pool_accumulated_rpvs 200 None 10000 (fixed 10)
      false)) ;;
    balance_is (gp_reward_currency global_pool) farm_account_id
      expected_global_pool_reward_currency_balance ;;
    balance_is (gp_reward_currency global_pool) pool_account_id
      expected_liq_pool_reward_currency_balance)
    testing_values).

Definition get_next_pool_id_should_work : Test := (new_test_ext,
  returns get_next_pool_id 1 ;;
  check (fun s => PoolIdSequencer s =? 1) ;;
  returns get_next_pool_id 2 ;;
  check (fun s => PoolIdSequencer s =? 2) ;;
  returns get_next_pool_id 3 ;;
  check (fun s => PoolIdSequencer s =? 3) ;;
  returns get_next_pool_id 4 ;;
  check (fun s => PoolIdSequencer s =? 4)).

Definition pool_account_id_should_work : Test := (new_test_ext,
  let ids := [1; 100; 543; (2 ^ 32 - 1)] in
  for_each (fun id =>
    assert_ok (pool_account_id id))
    ids).

Definition pool_account_id_should_not_work : Test := (new_test_ext,
  let ids := [0] in
  for_each (fun id =>
    assert_err (pool_account_id id) LmErr.InvalidPoolId)
    ids).

Definition validate_pool_id_should_work : Test := (new_test_ext,
  let ids := [1; 100; 543; (2 ^ 32 - 1)] in
  for_each (fun id =>
    assert_ok (validate_pool_id id))
    ids).

Definition validate_pool_id_should_not_work : Test := (new_test_ext,
  assert_err (validate_pool_id 0) LmErr.InvalidPoolId).

Definition do_claim_rewards_should_work : Test := (predefined_test_ext,
  let empty_liq_pool := mkLiquidityPool 1 0 0 0 0 0 (Some LoyaltyCurve_default) 0 (fixed 100)
    false in
  let test_data := [(mkDeposit 100 500 56 0 12 45, mkLiquidityPool (lp_id empty_liq_pool)
    (lp_updated_at empty_liq_pool) (lp_total_shares empty_liq_pool) (lp_total_valued_shares
    empty_liq_pool) 7789 (lp_accumulated_rpz empty_liq_pool) (Some LoyaltyCurve_default)
    (lp_stake_in_global_pool empty_liq_pool) (lp_multiplier empty_liq_pool) (lp_canceled
    empty_liq_pool), 45, (0, 0)); (mkDeposit 12315314 1454565765765 9809 65454 3 3,
    mkLiquidityPool (lp_id empty_liq_pool) (lp_updated_at empty_liq_pool) (lp_total_shares
    empty_liq_pool) (lp_total_valued_shares empty_liq_pool) 10743 (lp_accumulated_rpz
    empty_liq_pool) (Some (mkLoyaltyCurve 674651900400000000 360)) (lp_stake_in_global_pool
    empty_liq_pool) (lp_multiplier empty_liq_pool) (lp_canceled empty_liq_pool), 50,
    (967600574016191, 390963851142865)); (mkDeposit 97634 7483075 10989 1657649 39 329,
    mkLiquidityPool (lp_id empty_liq_pool) (lp_updated_at empty_liq_pool) (lp_total_shares
    empty_liq_pool) (lp_total_valued_shares empty_liq_pool) 11000 (lp_accumulated_rpz
    empty_liq_pool) None (lp_stake_in_global_pool empty_liq_pool) (lp_multiplier empty_liq_pool)
    (lp_canceled empty_liq_pool), 1002, (80656176, 0))] in
  liq_pool_account ← pool_account_id 1;
  assert_ok (set_balance liq_pool_account BSX 10000000000000000000000) ;;
  for_each (fun '(deposit, liq_pool, now_period, expected_result) =>
    alice_bsx_balance ← gets (fun s => balance BSX ALICE s);
    lib_pool_bsx_balance ← gets (fun s => balance BSX liq_pool_account s);
    '(rewards, unclaimable, deposit) ← do_claim_rewards ALICE deposit liq_pool now_period BSX;
    check (fun _ => bool_decide ((rewards, unclaimable) = expected_result)) ;;
    let expected_alice_balance := alice_bsx_balance + (fst expected_result) in
    let expected_pool_balance := lib_pool_bsx_balance - (fst expected_result) in
    balance_is BSX ALICE expected_alice_balance ;;
    balance_is BSX liq_pool_account expected_pool_balance)
    test_data).

Definition get_next_nft_id_should_work : Test := (new_test_ext,
  let test_data := [(1, 4294967297); (6886, 8589941478); (87321, 12884989209); (56, 17179869240);
    (789, 21474837269); (248, 25769804024); (1000000200, 31064771272); ((2 ^ 32 - 1),
    38654705663)] in
  for_each (fun '(pool_id, expected_nft_id) =>
    returns (get_next_nft_id pool_id) expected_nft_id)
    test_data ;;
  let last_nft_sequencer_num := (from_le_bytes [255; 255; 255; 255; 255; 255; 255; 255; 255; 255;
    255; 255; 0; 0; 0; 0]) - 1 in
  modify (set_NftInstanceSequencer last_nft_sequencer_num) ;;
  check (fun s => bool_decide (NftInstanceSequencer s = 79228162514264337593543950334)) ;;
  returns (get_next_nft_id (2 ^ 32 - 1)) u128_MAX ;;
  let last_nft_sequencer_num := (from_le_bytes [255; 255; 255; 255; 255; 255; 255; 255; 255; 255;
    255; 255; 0; 0; 0; 0]) - 1 in
  modify (set_NftInstanceSequencer last_nft_sequencer_num) ;;
  check (fun s => bool_decide (NftInstanceSequencer s = 79228162514264337593543950334)) ;;
  returns (get_next_nft_id 1) 340282366920938463463374607427473244161).

Definition get_next_nft_id_should_not_work : Test := (new_test_ext,
  let last_nft_sequencer_num := from_le_bytes [255; 255; 255; 255; 255; 255; 255; 255; 255; 255;
    255; 255; 0; 0; 0; 0] in
  modify (set_NftInstanceSequencer last_nft_sequencer_num) ;;
  check (fun s => bool_decide (NftInstanceSequencer s = 79228162514264337593543950335)) ;;
  assert_noop (get_next_nft_id (2 ^ 32 - 1)) LmErr.NftIdOverflow ;;
  assert_noop (get_next_nft_id 1) LmErr.NftIdOverflow).

Definition get_pool_id_from_nft_id_should_work : Test := (new_test_ext,
  let test_data := [(4294967297, 1); (8589941478, 6886); (12884989209, 87321); (17179869240, 56);
    (21474837269, 789); (25769804024, 248); (31064771272, 1000000200); (38654705663, (2 ^ 32 -
    1)); (u128_MAX, (2 ^ 32 - 1)); (340282366920938463463374607427473244161, 1);
    (340282366920938463463374607427473244161, 1)] in
  for_each (fun '(nft_id, expected_pool_id) =>
    returns (get_pool_id_from_nft_id nft_id) expected_pool_id)
    test_data).

Definition get_pool_id_from_nft_id_should_not_work : Test := (new_test_ext,
  let test_data := [0; 132342314; 4294967296] in
  for_each (fun nft_id =>
    assert_noop (get_pool_id_from_nft_id nft_id) LmErr.InvalidNftId)
    test_data).

Definition lm_deposit_suite : list Test :=
    [deposit_shares_should_work; deposit_shares_should_work_2;
     deposit_shares_zero_deposit_should_not_work;
     deposit_shares_insufficient_shares_balance_should_not_work;
     deposit_shares_non_existing_liq_pool_should_not_work;
     deposit_shares_canceled_liq_pool_should_not_work; claim_rewards_should_work;
     claim_rewards_should_work_2;
     claim_rewards_double_claim_in_the_same_period_should_not_work;
     claim_rewards_invalid_nft_id_should_not_work;
     claim_rewards_from_canceled_pool_should_not_work;
     claim_rewards_from_removed_pool_should_not_work;
     claim_rewards_not_deposit_owner_should_not_work; withdraw_shares_should_work;
     withdraw_shares_should_work_2; withdraw_shares_from_destroyed_farm_should_work;
     withdraw_shares_from_canceled_pool_should_work;
     claim_and_withdraw_in_same_period_should_work;
     withdraw_shares_from_removed_pool_should_work;
     withdraw_shares_pool_metadata_not_found_should_not_work;
     withdraw_shares_invalid_nft_id_should_not_work;
     withdraw_shares_nft_not_found_should_not_work; withdraw_shares_not_owner_should_not_work;
     validate_create_farm_data_should_work; validate_create_farm_data_should_not_work;
     get_period_number_should_work; get_period_number_should_not_work;
     get_loyalty_multiplier_should_work; update_global_pool_should_work;
     claim_from_global_pool_should_work; update_pool_should_work;
     get_next_pool_id_should_work; pool_account_id_should_work;
     pool_account_id_should_not_work; validate_pool_id_should_work;
     validate_pool_id_should_not_work; do_claim_rewards_should_work;
     get_next_nft_id_should_work; get_next_nft_id_should_not_work;
     get_pool_id_from_nft_id_should_work; get_pool_id_from_nft_id_should_not_work].

(** All these tests pass on the model. *)
Theorem lm_deposit_tests_pass : suite_passes lm_deposit_suite.
Proof. unfold lm_deposit_suite. run_suite. Qed.
