(* ===== verification/PalletBenchmarks.v ===== *)
(** * Benchmarks of the other pallets

    Models the benchmarks of the LBP, NFT, marketplace and liquidity mining pallets
    ([src/pallets/lbp/src/benchmarking.rs], [nft/src/benchmarking.rs],
    [marketplace/src/benchmarking.rs], [liquidity-mining/benchmarking/src/lib.rs]) in the
    way of [Benchmarks.v], and runs them on the example chains.  The farms run over the
    model of the XYK pallet, as in the runtime. *)

From S2P Require Import Prelude Primitives Errors Interfaces Ledger Xyk Runtime Lbp Nft Marketplace.
From S2P Require Import Benchmarks MarketExamples LiquidityMining LmExamples.

(** ** LBP *)

Module LbpBench.
Section bench.
Context {C : Type} `{MultiCurrency C} `{MultiLockable C} `{BlockNumberProvider C}.
Context `{AssetPairAccountIdFor} `{LbpMath} `{FeeMath} `{AMMProvided} `{CreatePoolOrigin}.
Context {cfg : LbpConfig} `{BenchAccounts} (raise_block : C -> C).
Notation State := (LbpState C).

Definition SEED : Z := 1.
Definition ASSET_HDX : AssetId := 0.
Definition ASSET_A_ID : AssetId := 1.
Definition ASSET_B_ID : AssetId := 2.
Definition ASSET_A_AMOUNT : Balance := 1000000000.
Definition ASSET_B_AMOUNT : Balance := 2000000000.
Definition INITIAL_WEIGHT : LBPWeight := 20000000.
Definition FINAL_WEIGHT : LBPWeight := 90000000.
Definition DEFAULT_FEE : Z * Z := (2, 1000).

Definition lbp_funded_account (name : string) (index : Z) : Dispatch State AccountId :=
  let caller := account name index SEED in
  Benchmarks.unwrap (zoom (C := C) (deposit ASSET_HDX caller 1000000000000000)) ;;
  Benchmarks.unwrap (zoom (C := C) (deposit ASSET_A_ID caller 1000000000000000)) ;;
  Benchmarks.unwrap (zoom (C := C) (deposit ASSET_B_ID caller 1000000000000000)) ;;
  mret caller.

(** Between the preparation and the measured call the framework raises the block number
    from 0 to 1. *)
Definition measured : Dispatch State unit :=
  modify (fun s : State => lens_set (raise_block (lbp_chain s)) s).

Definition has_pool (pool_id : AccountId) : Dispatch State bool :=
  gets (fun s : State => bool_decide (is_Some (PoolData s !! pool_id))).
Definition assert_balance (asset : AssetId) (who : AccountId) (b : Balance) : Dispatch State unit :=
  x ← gets (fun s : State => free_balance asset who (lbp_chain s)); assert (x =? b).
(** The pool most benchmarks start from; [ensure!] fails with a message. *)
Definition created (caller fee_collector : AccountId) (fee : Z * Z) : Dispatch State AccountId :=
  let pool_id := Lbp.pair_account_from_assets ASSET_A_ID ASSET_B_ID in
  Lbp.create_pool Root caller ASSET_A_ID ASSET_A_AMOUNT ASSET_B_ID ASSET_B_AMOUNT INITIAL_WEIGHT
    FINAL_WEIGHT Linear fee fee_collector 0 ;;
  b ← has_pool pool_id;
  ensure b (Foreign 0 0) ;;
  mret pool_id.

Definition bench_create_pool : Dispatch State unit :=
  caller ← lbp_funded_account "caller" 0;
  let pool_id := Lbp.pair_account_from_assets ASSET_A_ID ASSET_B_ID in
  measured ;;
  Lbp.create_pool Root caller ASSET_A_ID ASSET_A_AMOUNT ASSET_B_ID ASSET_B_AMOUNT INITIAL_WEIGHT
    FINAL_WEIGHT Linear DEFAULT_FEE caller 0 ;;
  b ← has_pool pool_id;
  assert b.

Definition bench_update_pool_data : Dispatch State unit :=
  caller ← lbp_funded_account "caller" 0;
  fee_collector ← lbp_funded_account "fee_collector" 0;
  let new_start := Some 50 in let new_end := Some 100 in
  let new_initial_weight := 45250600 in let new_final_weight := 55250600 in
  let fee := (5, 1000) in
  pool_id ← created caller caller fee;
  measured ;;
  update_pool_data (Signed caller) pool_id (Some caller) new_start new_end
    (Some new_initial_weight) (Some new_final_weight) (Some DEFAULT_FEE) (Some fee_collector)
    (Some 1) ;;
  pool ← gets (fun s : State => PoolData s !! pool_id);
  match pool with
  | None => panic
  | Some pool_data =>
      assert (bool_decide (start pool_data = new_start)) ;;
      assert (bool_decide (end_ pool_data = new_end)) ;;
      assert (initial_weight pool_data =? new_initial_weight) ;;
      assert (final_weight pool_data =? new_final_weight)
  end.

Definition bench_add_liquidity : Dispatch State unit :=
  caller ← lbp_funded_account "caller" 0;
  pool_id ← created caller caller DEFAULT_FEE;
  measured ;;
  Lbp.add_liquidity (Signed caller) (ASSET_A_ID, 1000000000) (ASSET_B_ID, 2000000000) ;;
  assert_balance ASSET_A_ID pool_id 2000000000 ;;
  assert_balance ASSET_B_ID pool_id 4000000000.

Definition bench_remove_liquidity : Dispatch State unit :=
  caller ← lbp_funded_account "caller" 0;
  pool_id ← created caller caller DEFAULT_FEE;
  measured ;;
  Lbp.remove_liquidity (Signed caller) pool_id ;;
  b ← has_pool pool_id;
  assert (negb b) ;;
  assert_balance ASSET_A_ID caller 1000000000000000 ;;
  assert_balance ASSET_B_ID caller 1000000000000000.

(** A pool whose sale runs from block 1 to block 11. *)
Definition scheduled (caller fee_collector : AccountId) : Dispatch State unit :=
  pool_id ← created caller fee_collector DEFAULT_FEE;
  let start := 1 in let end_ := 11 in
  update_pool_data (Signed caller) pool_id None (Some start) (Some end_) None None None None None.

Definition bench_sell : Dispatch State unit :=
  caller ← lbp_funded_account "caller" 0;
  fee_collector ← lbp_funded_account "fee_collector" 0;
  let asset_in := ASSET_A_ID in let asset_out := ASSET_B_ID in
  let amount := 100000000 in let max_limit := 10000000 in
  scheduled caller fee_collector ;;
  measured ;;
  Lbp.sell (Signed caller) asset_in asset_out amount max_limit ;;
  assert_balance asset_in caller 999998900000000 ;;
  assert_balance asset_out caller 999998047091820 ;;
  assert_balance asset_in fee_collector 1000000000200000.

Definition bench_buy : Dispatch State unit :=
  caller ← lbp_funded_account "caller" 0;
  fee_collector ← lbp_funded_account "fee_collector" 0;
  let asset_in := ASSET_A_ID in let asset_out := ASSET_B_ID in
  let amount := 100000000 in let max_limit := 1000000000 in
  scheduled caller fee_collector ;;
  measured ;;
  Lbp.buy (Signed caller) asset_out asset_in amount max_limit ;;
  assert_balance asset_out caller 999998100000000 ;;
  assert_balance asset_in caller 999998772262327 ;;
  assert_balance asset_in fee_collector 1000000000455474.
End bench.
End LbpBench.

(** ** NFT and marketplace *)

(** The chain below: endowing an account, and the enumerations of the uniques pallet. *)
Class BenchChain (U : Type) := {
  deposit_creating : AccountId -> Balance -> U -> U;
  count_classes : U -> Z;
  count_owned : AccountId -> U -> Z
}.

Module NftBench.
Section bench.
Context {U : Type} `{Uniques U} {cfg : NftConfig} `{BenchChain U} `{BenchAccounts}.
Context (StringLimit : nat).
Notation State := (NftState U).

Definition SEED : Z := 0.
Definition ENDOWMENT : Z := 1000000.
Definition CLASS_ID_0 : ClassId := 1000000.
Definition saturating_mul (a b : Z) : Z := Z.min (2 ^ 128 - 1) (a * b).
Definition dollar (d : Z) : Balance := saturating_mul d 100000000000000.
Definition nft_create_account (name : string) (index : Z) : Dispatch State AccountId :=
  let caller := account name index SEED in
  modify (fun s : State => set_uniques (deposit_creating caller (dollar ENDOWMENT) (uniques s)) s) ;;
  mret caller.
Definition metadata : Metadata := repeat 0 StringLimit.

Definition bench_do_create_class (class_id : ClassId) : Dispatch State AccountId :=
  caller ← nft_create_account "caller" 0;
  Benchmarks.unwrap (create_class (Signed caller) class_id Marketplace metadata) ;;
  mret caller.
Definition bench_do_mint (class_id : ClassId) (instance_id : InstanceId) : Dispatch State unit :=
  caller ← nft_create_account "caller" 0;
  Benchmarks.unwrap (mint (Signed caller) class_id instance_id metadata).
Definition assert_owner (class_id : ClassId) (instance_id : InstanceId) (who : AccountId)
    : Dispatch State unit :=
  o ← gets (fun s : State => token_owner class_id instance_id (uniques s));
  assert (bool_decide (o = Some who)).

Definition bench_create_class : Dispatch State unit :=
  caller ← nft_create_account "caller" 0;
  create_class (Signed caller) CLASS_ID_0 Marketplace metadata ;;
  o ← gets (fun s : State => class_owner CLASS_ID_0 (uniques s));
  assert (bool_decide (o = Some caller)).
Definition bench_mint : Dispatch State unit :=
  caller ← bench_do_create_class 1000000;
  mint (Signed caller) CLASS_ID_0 0 metadata ;;
  assert_owner CLASS_ID_0 0 caller.
Definition bench_transfer : Dispatch State unit :=
  caller2 ← nft_create_account "caller2" 1;
  caller ← bench_do_create_class CLASS_ID_0;
  bench_do_mint CLASS_ID_0 0 ;;
  Nft.transfer (Signed caller) CLASS_ID_0 0 caller2 ;;
  assert_owner CLASS_ID_0 0 caller2.
Definition bench_destroy_class : Dispatch State unit :=
  caller ← bench_do_create_class CLASS_ID_0;
  destroy_class (Signed caller) CLASS_ID_0 ;;
  n ← gets (fun s : State => count_classes (uniques s));
  assert (n =? 0).
Definition bench_burn : Dispatch State unit :=
  caller ← bench_do_create_class CLASS_ID_0;
  bench_do_mint CLASS_ID_0 0 ;;
  burn (Signed caller) CLASS_ID_0 0 ;;
  n ← gets (fun s : State => count_owned caller (uniques s));
  assert (n =? 0).
End bench.
End NftBench.

Module MarketBench.
Section bench.
Context {U : Type} `{Uniques U} `{NamedReservable U} `{BlockNumberProvider U} `{PercentMath}.
Context {ncfg : NftConfig} {cfg : MarketConfig} `{BenchChain U} `{BenchAccounts}.
Context (StringLimit : nat).
Notation State := (MarketState U).

Definition SEED : Z := 0.
Definition ENDOWMENT : Z := 1000000.
Definition CLASS_ID_0 : ClassId := 1000000.
Definition INSTANCE_ID_0 : InstanceId := 0.
Definition u32_max : Z := 2 ^ 32 - 1.
Definition unit_ (d : Z) : Balance := NftBench.saturating_mul d 1000000000000.
Definition market_create_account (name : string) (index : Z) : Dispatch State AccountId :=
  let caller := account name index SEED in
  zoom (C := NftState U) (modify (fun s =>
    set_uniques (deposit_creating caller (unit_ ENDOWMENT) (uniques s)) s)) ;;
  mret caller.
Definition metadata : Metadata := repeat 0 StringLimit.

Definition create_class_and_mint (class_id : ClassId) (instance_id : InstanceId)
    : Dispatch State (AccountId * AccountId) :=
  caller ← market_create_account "caller" 0;
  caller2 ← market_create_account "caller2" 1;
  Benchmarks.unwrap (zoom (C := NftState U) (create_class (Signed caller) class_id Marketplace metadata)) ;;
  Benchmarks.unwrap (zoom (C := NftState U) (mint (Signed caller) class_id instance_id metadata)) ;;
  mret (caller, caller2).

Definition offer_of (maker : AccountId) : Dispatch State (option Offer) :=
  gets (fun s : State => Offers s !! ((CLASS_ID_0, INSTANCE_ID_0), maker)).

Definition bench_market_buy : Dispatch State unit :=
  p ← create_class_and_mint CLASS_ID_0 INSTANCE_ID_0;
  let '(caller, caller2) := p in
  set_price (Signed caller) CLASS_ID_0 INSTANCE_ID_0 (Some u32_max) ;;
  Marketplace.buy (Signed caller2) CLASS_ID_0 INSTANCE_ID_0 ;;
  o ← gets (fun s : State => token_owner CLASS_ID_0 INSTANCE_ID_0 (uniques (nft s)));
  assert (bool_decide (o = Some caller2)).
Definition bench_set_price : Dispatch State unit :=
  p ← create_class_and_mint CLASS_ID_0 INSTANCE_ID_0;
  let '(caller, caller2) := p in
  set_price (Signed caller) CLASS_ID_0 INSTANCE_ID_0 (Some u32_max) ;;
  x ← gets (fun s : State => Prices s !! (CLASS_ID_0, INSTANCE_ID_0));
  assert (bool_decide (x = Some u32_max)).
Definition bench_make_offer : Dispatch State unit :=
  p ← create_class_and_mint CLASS_ID_0 INSTANCE_ID_0;
  let '(caller, caller2) := p in
  make_offer (Signed caller) CLASS_ID_0 INSTANCE_ID_0 (unit_ 100000) 666 ;;
  o ← offer_of caller;
  match o with
  | Some o => assert ((maker o =? caller) && (offer_amount o =? unit_ 100000) && (expires o =? 666))
  | None => panic
  end.
Definition bench_withdraw_offer : Dispatch State unit :=
  market_create_account "caller2" 0 ;;
  p ← create_class_and_mint CLASS_ID_0 INSTANCE_ID_0;
  let '(caller, caller2) := p in
  make_offer (Signed caller2) CLASS_ID_0 INSTANCE_ID_0 (unit_ 100000) 666 ;;
  withdraw_offer (Signed caller2) CLASS_ID_0 INSTANCE_ID_0 caller2 ;;
  o ← offer_of caller2;
  assert (bool_decide (~ is_Some o)).
Definition bench_accept_offer : Dispatch State unit :=
  market_create_account "caller2" 0 ;;
  p ← create_class_and_mint CLASS_ID_0 INSTANCE_ID_0;
  let '(caller, caller2) := p in
  make_offer (Signed caller2) CLASS_ID_0 INSTANCE_ID_0 (unit_ 100000) 666 ;;
  accept_offer (Signed caller) CLASS_ID_0 INSTANCE_ID_0 caller2 ;;
  o ← offer_of caller2;
  assert (bool_decide (~ is_Some o)).
Definition bench_add_royalty : Dispatch State unit :=
  market_create_account "caller2" 0 ;;
  p ← create_class_and_mint CLASS_ID_0 INSTANCE_ID_0;
  let '(caller, caller2) := p in
  add_royalty (Signed caller) CLASS_ID_0 INSTANCE_ID_0 caller2 25 ;;
  x ← gets (fun s : State => MarketplaceInstances s !! (CLASS_ID_0, INSTANCE_ID_0));
  assert (bool_decide (is_Some x)).
End bench.
End MarketBench.

(** ** Liquidity mining *)

(** The uniques of a chain seen from the pallet above it. *)
Definition lift_uniques {S C} `{Lens S C} `{Uniques C} : Uniques S := {|
  class_owner c s := class_owner c (lens_get s);
  token_owner c i s := token_owner c i (lens_get s);
  class_instances c s := class_instances c (lens_get s);
  uniques_create c o a d h := zoom (uniques_create c o a d h);
  uniques_mint c i o := zoom (uniques_mint c i o);
  transfer_check c i := zoom (transfer_check c i);
  transfer_commit c i o s := lens_set (transfer_commit c i o (lens_get s)) s;
  burn_check c i := zoom (burn_check c i);
  burn_commit c i s := lens_set (burn_commit c i (lens_get s)) s;
  uniques_destroy c o := zoom (uniques_destroy c o);
  ClassDeposit := @ClassDeposit C _
|}.

Module LmBench.
Section bench.
Context {C : Type} `{MultiCurrency C} `{Uniques C} `{ShareTokenRegistry C} `{AMMHandler C}.
Context `{CanCreatePool C} `{BlockNumberProvider C}.
Context `{AssetPairAccountIdFor} `{XykMath} `{FeeMath} `{FixedPoint} `{AMMProvided}.
Context `{LmMath} `{PalletAccounts} {xcfg : XykConfig} {ncfg : NftConfig} {cfg : LmConfig}.
Context `{BenchAccounts} (set_block : BlockNumber -> C -> C).
Notation Pools := (XykState C).
Notation State := (LmState Pools).
#[local] Instance pools_currency : MultiCurrency Pools := lift_currency.
#[local] Instance pools_uniques : Uniques Pools := lift_uniques.
#[local] Instance pools_block : BlockNumberProvider Pools := {|
  block_number s := block_number (chain s)
|}.

Definition SEED : Z := 0.
Definition BSX : AssetId := 0.
Definition KSM : AssetId := 1.
Definition INITIAL_BALANCE : Balance := 100000000000000000.
(** [Permill::from_percent] and [FixedU128::from]. *)
Definition from_percent (p : Z) : Permill := p * 10 ^ 4.
Definition fixed (n : Z) : PoolMultiplier := n * 10 ^ 18.

(** Calls of the chain below the pallet. *)
Definition on_pools {A} (m : Dispatch Pools A) : Dispatch State A :=
  zoom (C := NftState Pools) (zoom (C := Pools) m).

Definition lm_funded_account (name : string) (index : Z) : Dispatch State AccountId :=
  let caller := account name index SEED in
  Benchmarks.unwrap (on_pools (deposit BSX caller (INITIAL_BALANCE * NATIVE_EXISTENTIAL_DEPOSIT))) ;;
  Benchmarks.unwrap (on_pools (deposit KSM caller (INITIAL_BALANCE * NATIVE_EXISTENTIAL_DEPOSIT))) ;;
  mret caller.
Definition initialize_pool (caller : AccountId) (asset_a asset_b : AssetId) (amount : Balance)
    (price : Z) : Dispatch State unit :=
  on_pools (Xyk.create_pool (Signed caller) asset_a asset_b amount price).
Definition init_farm (total_rewards : Balance) (owner : AccountId) (yield_per_period : Permill)
    : Dispatch State unit :=
  create_farm Root (total_rewards * NATIVE_EXISTENTIAL_DEPOSIT) 1000000 1 BSX BSX owner
    yield_per_period.
Definition xyk_add_liquidity (caller : AccountId) (assets : AssetPair)
    (amount_a amount_b_max : Balance) : Dispatch State unit :=
  on_pools (Xyk.add_liquidity (Signed caller) (asset_in assets) (asset_out assets) amount_a
              amount_b_max).
Definition lm_deposit_shares (caller : AccountId) (assets : AssetPair) (amount : Balance)
    : Dispatch State unit :=
  deposit_shares (Signed caller) 1 assets amount.
Definition lm_add_liquidity_pool (caller : AccountId) (assets : AssetPair)
    (multiplier : PoolMultiplier) : Dispatch State unit :=
  add_liquidity_pool (Signed caller) 1 assets multiplier (Some LoyaltyCurve_default).
Definition set_block_number (n : BlockNumber) : Dispatch State unit :=
  on_pools (modify (fun s : Pools => lens_set (set_block n (chain s)) s)).

(** What the benchmarks look at. *)
Definition balance_of (asset : AssetId) (who : AccountId) : Dispatch State Balance :=
  gets (fun s : State => free_balance asset who (below s)).
Definition assert_balance (asset : AssetId) (who : AccountId) (b : Balance) : Dispatch State unit :=
  x ← balance_of asset who; assert (x =? b).
(** [global_pool(1).unwrap()] and [liquidity_pool(1, xyk_id).unwrap()]. *)
Definition the_farm : Dispatch State GlobalPool :=
  g ← gets (fun s : State => GlobalPoolData s !! 1);
  match g with Some g => mret g | None => panic end.
Definition the_pool (xyk_id : AccountId) : Dispatch State LiquidityPoolYieldFarm :=
  p ← gets (fun s : State => LiquidityPoolData s !! (1, xyk_id));
  match p with Some p => mret p | None => panic end.
Definition assert_canceled (xyk_id : AccountId) (b : bool) : Dispatch State unit :=
  p ← the_pool xyk_id; assert (Bool.eqb (lp_canceled p) b).
Definition has_deposit (id : InstanceId) : Dispatch State bool :=
  gets (fun s : State => bool_decide (is_Some (DepositData s !! id))).

Definition assets : AssetPair := AssetPair_new BSX KSM.
Definition xyk_id : AccountId :=
  Xyk.pair_account_from_assets (asset_in assets) (asset_out assets).
Definition deposit_id : InstanceId := 4294967298.

(** The pool and the farm most benchmarks start from, checked. *)
Definition pool_and_farm (total_rewards : Balance) (caller xyk_caller : AccountId)
    : Dispatch State unit :=
  initialize_pool xyk_caller BSX KSM (1000000 * NATIVE_EXISTENTIAL_DEPOSIT) (price 10) ;;
  init_farm total_rewards caller (from_percent 20) ;;
  global_pool_account ← Benchmarks.unwrap (pool_account_id 1);
  assert_balance BSX global_pool_account (total_rewards * NATIVE_EXISTENTIAL_DEPOSIT).

Definition bench_create_farm : Dispatch State unit :=
  caller ← lm_funded_account "caller" 0;
  create_farm Root (1000000 * NATIVE_EXISTENTIAL_DEPOSIT) 1000000 1 BSX BSX caller
    (from_percent 20) ;;
  the_farm ;; mret tt.

Definition bench_destroy_farm : Dispatch State unit :=
  caller ← lm_funded_account "caller" 0;
  init_farm 1000000 caller (from_percent 20) ;;
  the_farm ;;
  withdraw_undistributed_rewards (Signed caller) 1 ;;
  destroy_farm (Signed caller) 1 ;;
  g ← gets (fun s : State => GlobalPoolData s !! 1);
  assert (bool_decide (~ is_Some g)).

Definition bench_withdraw_undistributed_rewards : Dispatch State unit :=
  caller ← lm_funded_account "caller" 0;
  init_farm 1000000 caller (from_percent 20) ;;
  global_pool_account ← Benchmarks.unwrap (pool_account_id 1);
  assert_balance BSX global_pool_account (1000000 * NATIVE_EXISTENTIAL_DEPOSIT) ;;
  withdraw_undistributed_rewards (Signed caller) 1 ;;
  assert_balance BSX global_pool_account 0 ;;
  assert_balance BSX caller (INITIAL_BALANCE * NATIVE_EXISTENTIAL_DEPOSIT).

Definition bench_add_liquidity_pool : Dispatch State unit :=
  caller ← lm_funded_account "caller" 0;
  xyk_caller ← lm_funded_account "xyk_caller" 1;
  pool_and_farm 1000000 caller xyk_caller ;;
  add_liquidity_pool (Signed caller) 1 assets (fixed 50000) (Some LoyaltyCurve_default) ;;
  g ← the_farm;
  assert (gp_liq_pools_count g =? 1) ;;
  the_pool xyk_id ;;
  m ← gets (fun s : State => LiquidityPoolMetadata s !! 2);
  assert (bool_decide (m = Some (assets, 0, 1))).

Definition bench_update_liquidity_pool : Dispatch State unit :=
  caller ← lm_funded_account "caller" 0;
  xyk_caller ← lm_funded_account "xyk_caller" 1;
  pool_and_farm 1000000 caller xyk_caller ;;
  add_liquidity_pool (Signed caller) 1 assets (fixed 50000) (Some LoyaltyCurve_default) ;;
  g ← the_farm;
  assert (gp_liq_pools_count g =? 1) ;;
  p ← the_pool xyk_id;
  assert (lp_multiplier p =? fixed 50000) ;;
  update_liquidity_pool (Signed caller) 1 assets (fixed 10000) ;;
  p ← the_pool xyk_id;
  assert (lp_multiplier p =? fixed 10000).

(** The class of the deposits, the three accounts, the pool, the farm and its liquidity
    pool, and the shares of a provider. *)
Definition with_provider (total_rewards : Balance) : Dispatch State (AccountId * AccountId) :=
  init_nft_class ;;
  caller ← lm_funded_account "caller" 0;
  xyk_caller ← lm_funded_account "xyk_caller" 1;
  liq_provider ← lm_funded_account "liq_provider" 2;
  pool_and_farm total_rewards caller xyk_caller ;;
  lm_add_liquidity_pool caller assets (fixed 50000) ;;
  assert_canceled xyk_id false ;;
  xyk_add_liquidity liq_provider assets 10000 1000000000 ;;
  mret (caller, liq_provider).

Definition bench_cancel_liquidity_pool : Dispatch State unit :=
  r ← with_provider 1000000;
  let '(caller, liq_provider) := r in
  lm_deposit_shares liq_provider assets 10000 ;;
  set_block_number 200000 ;;
  p ← the_pool xyk_id;
  assert (lp_updated_at p =? 0) ;;
  cancel_liquidity_pool (Signed caller) 1 assets ;;
  assert_canceled xyk_id true ;;
  p ← the_pool xyk_id;
  assert (lp_updated_at p =? 200000).

Definition bench_remove_liquidity_pool : Dispatch State unit :=
  r ← with_provider 1000000;
  let '(caller, liq_provider) := r in
  lm_deposit_shares liq_provider assets 10000 ;;
  set_block_number 200000 ;;
  withdraw_shares (Signed liq_provider) deposit_id ;;
  cancel_liquidity_pool (Signed caller) 1 assets ;;
  assert_canceled xyk_id true ;;
  remove_liquidity_pool (Signed caller) 1 assets ;;
  p ← gets (fun s : State => LiquidityPoolData s !! (1, xyk_id));
  assert (bool_decide (~ is_Some p)) ;;
  g ← the_farm;
  assert (gp_liq_pools_count g =? 0) ;;
  m ← gets (fun s : State => LiquidityPoolMetadata s !! 1);
  assert (bool_decide (~ is_Some m)).

Definition bench_deposit_shares : Dispatch State unit :=
  r ← with_provider 1000000;
  let '(caller, liq_provider) := r in
  set_block_number 200000 ;;
  p ← the_pool xyk_id;
  assert (lp_updated_at p =? 0) ;;
  b ← has_deposit deposit_id;
  assert (negb b) ;;
  deposit_shares (Signed liq_provider) 1 assets 10000 ;;
  b ← has_deposit deposit_id;
  assert b.

(** A deposit made at block 200,000, seen at block 400,000. *)
Definition with_deposit : Dispatch State (AccountId * Balance) :=
  r ← with_provider INITIAL_BALANCE;
  let '(caller, liq_provider) := r in
  set_block_number 200000 ;;
  p ← the_pool xyk_id;
  assert (lp_updated_at p =? 0) ;;
  deposit_shares (Signed liq_provider) 1 assets 10000 ;;
  b ← has_deposit deposit_id;
  assert b ;;
  set_block_number 400000 ;;
  liq_provider_bsx_balance ← balance_of BSX liq_provider;
  mret (liq_provider, liq_provider_bsx_balance).

Definition bench_claim_rewards : Dispatch State unit :=
  r ← with_deposit;
  let '(liq_provider, liq_provider_bsx_balance) := r in
  claim_rewards (Signed liq_provider) deposit_id ;;
  x ← balance_of BSX liq_provider;
  assert (liq_provider_bsx_balance <? x).

Definition bench_withdraw_shares : Dispatch State unit :=
  r ← with_deposit;
  let '(liq_provider, liq_provider_bsx_balance) := r in
  withdraw_shares (Signed liq_provider) deposit_id ;;
  x ← balance_of BSX liq_provider;
  assert (liq_provider_bsx_balance <? x) ;;
  b ← has_deposit deposit_id;
  assert (negb b).

Definition bench_resume_liquidity_pool : Dispatch State unit :=
  caller ← lm_funded_account "caller" 0;
  xyk_caller ← lm_funded_account "xyk_caller" 1;
  pool_and_farm 1000000 caller xyk_caller ;;
  lm_add_liquidity_pool caller assets (fixed 50000) ;;
  assert_canceled xyk_id false ;;
  cancel_liquidity_pool (Signed caller) 1 assets ;;
  assert_canceled xyk_id true ;;
  resume_liquidity_pool (Signed caller) 1 assets (fixed 12452) ;;
  assert_canceled xyk_id false.
End bench.
End LmBench.

(** ** Running them *)

(** The amounts of the weighted pool that the assertions of the LBP benchmarks imply; the
    other formulas are not used. *)
#[local] Instance bench_lbp_math : LbpMath := {|
  calculate_linear_weights _ _ iw _ _ := Some iw;
  lbp_spot_price _ _ _ _ _ := None;
  lbp_out_given_in _ _ _ _ _ := Some 47091820;
  lbp_in_given_out _ _ _ _ _ := Some 227737673
|}.
#[local] Instance bench_lbp_config : LbpConfig := {|
  LbpMinTradingLimit := MIN_TRADING_LIMIT; LbpMinPoolLiquidity := MIN_POOL_LIQUIDITY;
  LbpMaxInRatio := MAX_IN_RATIO; LbpMaxOutRatio := MAX_OUT_RATIO
|}.
#[local] Instance bench_lbp_origin : CreatePoolOrigin := {|
  may_create_pool o := match o with Root => true | _ => false end
|}.

(** The reference ledger with a block number. *)
Record Timed := mkTimed { t_books : Ledger; t_now : BlockNumber }.
#[local] Instance Timed_books : Lens Timed Ledger := {|
  lens_get := t_books; lens_set b t := mkTimed b (t_now t)
|}.
#[local] Instance Timed_currency : MultiCurrency Timed := lift_currency.
#[local] Instance Timed_lockable : MultiLockable Timed := {|
  set_lock l c w a := zoom (C := Ledger) (set_lock l c w a);
  remove_lock l c w := zoom (C := Ledger) (remove_lock l c w);
  get_by_lock l c w t := get_by_lock l c w (t_books t)
|}.
#[local] Instance Timed_block : BlockNumberProvider Timed := {| block_number := t_now |}.
Definition raise_to_1 (t : Timed) : Timed := mkTimed (t_books t) (Z.max 1 (t_now t)).
Definition no_sales : LbpState Timed := mkLbp (mkTimed empty_ledger 0) ∅ ∅ [].

(** The benchmarks of the LBP pallet pass: fee, collector and trader get what the authors
    state when the pool's formula gives the amounts they imply. *)
Theorem lbp_benchmarks_pass :
  Forall (fun b => passes (b raise_to_1) no_sales = true)
    [LbpBench.bench_create_pool; LbpBench.bench_update_pool_data; LbpBench.bench_add_liquidity;
     LbpBench.bench_remove_liquidity; LbpBench.bench_sell; LbpBench.bench_buy].
Proof. repeat (apply Forall_cons_2; [by vm_compute|]). by apply Forall_nil_2. Qed.

#[local] Instance Collectibles_bench : BenchChain Collectibles := {|
  deposit_creating w x := set_k_free (k_add w x);
  count_classes u := Z.of_nat (size (k_class u));
  count_owned w u := Z.of_nat (size (filter (fun kv : (Z * Z) * Z => kv.2 = w) (k_token u)))
|}.
Definition no_tokens : Collectibles := mkCollectibles ∅ ∅ ∅ (fun _ _ => 0) 1.
#[local] Instance bench_market_config : MarketConfig := {|
  MarketMinimumOfferAmount := MinimumOfferAmount; MarketRoyaltyBondAmount := RoyaltyBondAmount
|}.

(** So do those of the NFT and of the marketplace pallets, with the runtime's limits. *)
Theorem nft_benchmarks_pass :
  Forall (fun b => passes (b 60%nat) (mkNft no_tokens ∅ ∅ []) = true)
    [NftBench.bench_create_class; NftBench.bench_mint; NftBench.bench_transfer;
     NftBench.bench_destroy_class; NftBench.bench_burn] /\
  Forall (fun b => passes (b 60%nat) (mkMarket (mkNft no_tokens ∅ ∅ []) ∅ ∅ ∅ []) = true)
    [MarketBench.bench_market_buy; MarketBench.bench_set_price; MarketBench.bench_make_offer;
     MarketBench.bench_withdraw_offer; MarketBench.bench_accept_offer; MarketBench.bench_add_royalty].
Proof.
  split; repeat (apply Forall_cons_2; [by vm_compute|]); by apply Forall_nil_2.
Qed.

(** The chain of the farms: books and tokens, below the XYK pallet. *)
#[local] Existing Instance Runtime_xyk.
#[local] Instance LmChain_registry : ShareTokenRegistry LmChain := {|
  shared_asset name u := shared_asset name (lc_books u);
  get_or_create_shared_asset name l ed :=
    zoom (C := Ledger) (get_or_create_shared_asset name l ed)
|}.
#[local] Instance LmChain_handler : AMMHandler LmChain := {|
  on_create_pool _ _ := mret tt; on_trade _ _ _ _ _ u := u
|}.
#[local] Instance LmChain_can_create : CanCreatePool LmChain := {| can_create_pool _ _ _ := true |}.
Definition at_block (n : BlockNumber) (u : LmChain) : LmChain :=
  let k := lc_tokens u in
  mkChain (lc_books u) (mkCollectibles (k_class k) (k_token k) (k_free k) (k_reserved k) n).
Definition no_farms : LmState (XykState LmChain) :=
  mkLm (mkNft (mkXyk (mkChain empty_ledger (mkCollectibles ∅ ∅ ∅ (fun _ _ => 0) 0)) ∅ ∅ ∅ []) ∅ ∅ [])
    0 0 ∅ ∅ ∅ ∅ 0 [].

(** And those of the liquidity mining pallet over the XYK pallet. *)
Theorem lm_benchmarks_pass :
  Forall (fun b => passes (b at_block) no_farms = true)
    [fun _ => LmBench.bench_create_farm; fun _ => LmBench.bench_destroy_farm;
     fun _ => LmBench.bench_withdraw_undistributed_rewards;
     fun _ => LmBench.bench_add_liquidity_pool; fun _ => LmBench.bench_update_liquidity_pool;
     LmBench.bench_cancel_liquidity_pool; LmBench.bench_remove_liquidity_pool;
     LmBench.bench_deposit_shares; LmBench.bench_claim_rewards; LmBench.bench_withdraw_shares;
     fun _ => LmBench.bench_resume_liquidity_pool].
Proof. repeat (apply Forall_cons_2; [by vm_compute|]). by apply Forall_nil_2. Qed.
