(* ===== verification/Duster.v ===== *)
(** * The duster and offchain-duster pallets

    Models [src/pallets/duster/src/lib.rs] and [src/pallets/offchain-duster/src/lib.rs]:
    sweeping accounts whose balance is below the minimum of a currency to the dust
    account, for a reward, and the worker that submits those calls. *)

From S2P Require Import Prelude Primitives Errors Interfaces.

Inductive DusterEvent :=
| Dusted (account : AccountId) (amount : Balance)
| Added (account : AccountId)
| Removed (account : AccountId).

Record DusterState (P : Type) := mkDuster {
  duster_chain : P;
  AccountBlacklist : gset AccountId;
  RewardAccount : option AccountId;
  DustAccount : option AccountId;
  duster_events : list DusterEvent
}.
Arguments mkDuster {P}.
Arguments duster_chain {P}.
Arguments AccountBlacklist {P}.
Arguments RewardAccount {P}.
Arguments DustAccount {P}.
Arguments duster_events {P}.

Section setters.
Context {P : Type}.
Implicit Types s : DusterState P.
Definition set_duster_chain (p : P) s : DusterState P :=
  mkDuster p (AccountBlacklist s) (RewardAccount s) (DustAccount s) (duster_events s).
Definition set_AccountBlacklist (f : gset AccountId -> gset AccountId) s : DusterState P :=
  mkDuster (duster_chain s) (f (AccountBlacklist s)) (RewardAccount s) (DustAccount s)
    (duster_events s).
Definition duster_deposit_event (e : DusterEvent) : Dispatch (DusterState P) unit :=
  modify (fun s => mkDuster (duster_chain s) (AccountBlacklist s) (RewardAccount s) (DustAccount s)
                     (duster_events s ++ [e])).
End setters.

#[export] Instance Duster_lens P : Lens (DusterState P) P := {|
  lens_get := duster_chain;
  lens_set := set_duster_chain
|}.

(** [MinCurrencyDeposits::get] is a function of the currency. *)
Class DusterConfig := {
  MinCurrencyDeposits : AssetId -> Balance;
  Reward : Balance;
  DusterNativeCurrencyId : AssetId
}.

Section pallet.
Context {P : Type} `{MultiCurrency P} {cfg : DusterConfig}.
Notation State := (DusterState P).
Local Notation ensure b e := (ensure b%rust (DusterE e)).
Local Notation ok_or o e := (ok_or o (DusterE e)).

(** ** Genesis *)

Record DusterGenesis := mkGenesis {
  account_blacklist : list AccountId;
  reward_account : option AccountId;
  dust_dest : option AccountId
}.
Definition DusterGenesis_default : DusterGenesis := mkGenesis [] None None.

Definition genesis_build (g : DusterGenesis) : Dispatch State unit :=
  for_each (fun account_id => modify (set_AccountBlacklist (union {[ account_id ]})))
    (account_blacklist g) ;;
  match reward_account g, dust_dest g with
  | None, _ => panic
  | _, None => panic
  | Some reward, Some dust =>
      modify (fun s => mkDuster (duster_chain s) (AccountBlacklist s) (Some reward) (Some dust)
                         (duster_events s))
  end.

(** ** Helpers *)

Definition is_dustable (account : AccountId) (currency_id : AssetId) (s : State) : bool * Balance :=
  let ed := MinCurrencyDeposits currency_id in
  let total := total_balance currency_id account (duster_chain s) in
  (total <? ed, total).

Definition reward_duster (duster : AccountId) (currency_id : AssetId) (dust : Balance)
    : Dispatch State unit :=
  maybe_account ← gets RewardAccount;
  reserve_account ← ok_or maybe_account DusterErr.ReserveAccountNotSet;
  let reward := Reward in
  zoom (transfer DusterNativeCurrencyId reserve_account duster reward) ;;
  mret tt.

Definition transfer_dust (from dest : AccountId) (currency_id : AssetId) (dust : Balance)
    : Dispatch State unit :=
  zoom (transfer currency_id from dest dust).

(** ** Extrinsics *)

(** Not transactional; the result of the reward is dropped. *)
Definition dust_account (origin : Origin) (account : AccountId) (currency_id : AssetId)
    : Dispatch State unit :=
  who ← ensure_signed origin;
  listed ← gets (fun s => bool_decide (account ∈ AccountBlacklist s));
  ensure (negb listed) DusterErr.AccountBlacklisted ;;
  r ← gets (is_dustable account currency_id);
  let dustable := fst r in
  let dust := snd r in
  ensure (dust != 0) DusterErr.ZeroBalance ;;
  ensure dustable DusterErr.BalanceSufficient ;;
  maybe_dest ← gets DustAccount;
  dust_dest_account ← ok_or maybe_dest DusterErr.DustAccountNotSet;
  transfer_dust account dust_dest_account currency_id dust ;;
  duster_deposit_event (Dusted account dust) ;;
  attempt (reward_duster who currency_id dust) ;;
  mret tt.

Definition add_nondustable_account (origin : Origin) (account : AccountId) : Dispatch State unit :=
  ensure_root origin ;;
  modify (set_AccountBlacklist (union {[ account ]})) ;;
  duster_deposit_event (Added account) ;;
  mret tt.

Definition remove_nondustable_account (origin : Origin) (account : AccountId)
    : Dispatch State unit :=
  ensure_root origin ;;
  listed ← gets (fun s => bool_decide (account ∈ AccountBlacklist s));
  ensure listed DusterErr.AccountNotBlacklisted ;;
  modify (set_AccountBlacklist (fun b => b ∖ {[ account ]})) ;;
  duster_deposit_event (Removed account) ;;
  mret tt.

(** ** The hooks for the currencies *)

Definition on_dust (who : AccountId) (currency_id : AssetId) (amount : Balance)
    : Dispatch State unit :=
  maybe_dest ← gets DustAccount;
  match maybe_dest with
  | Some dust_dest_account =>
      attempt (transfer_dust who dust_dest_account currency_id amount) ;; mret tt
  | None => mret tt
  end.

Definition DusterWhitelist_contains (t : AccountId) (s : State) : bool :=
  bool_decide (t ∈ AccountBlacklist s).

(** ** The offchain worker

    The entries of [orml_tokens::Accounts] in storage order; what the node's offchain
    facilities answer (validator role, lock, extending the lock at each entry, keys) are
    arguments; the result is the outcome with the submitted calls. *)

Record TokenAccount := mkTokenAccount {
  ta_who : AccountId; ta_asset : AssetId; ta_free : Balance; ta_reserved : Balance
}.
Inductive OffchainErr := NotValidator | OffchainLock.

Definition dust_account_signed (can_sign : bool) (from : AccountId) (currency_id : AssetId)
    : list (AccountId * AssetId) :=
  if negb can_sign then [] else [(from, currency_id)].

Fixpoint worker_loop (can_sign : bool) (extend_lock : nat -> bool) (n : nat) (l : list TokenAccount)
    : option OffchainErr * list (AccountId * AssetId) :=
  match l with
  | [] => (None, [])
  | a :: l =>
      let ed := MinCurrencyDeposits (ta_asset a) in
      let total := saturating_add 128 (ta_free a) (ta_reserved a) in
      let sent := if total <? ed then dust_account_signed can_sign (ta_who a) (ta_asset a) else [] in
      if extend_lock n then
        let '(r, more) := worker_loop can_sign extend_lock (S n) l in (r, sent ++ more)
      else (Some OffchainLock, sent)
  end.

Definition offchain_worker (is_validator try_lock can_sign : bool) (extend_lock : nat -> bool)
    (accounts : list TokenAccount) : option OffchainErr * list (AccountId * AssetId) :=
  if negb is_validator then (Some NotValidator, [])
  else if negb try_lock then (Some OffchainLock, [])
  else worker_loop can_sign extend_lock 0 accounts.
End pallet.
