(* ===== verification/DusterProps.v ===== *)
(** * Correctness of the duster pallets

    What dusting an account moves, that listed accounts are safe and only the root
    origin lists them, what the worker submits, and an account that can be dusted over
    and over. *)

From S2P Require Import Prelude Primitives Errors Interfaces Ledger Duster.

(** The free balance is part of the total, and a failed transfer moves nothing. *)
Class DusterChainLaws (P : Type) `{MultiCurrency P} : Prop := {
  free_le_total c w (p : P) : 0 <= free_balance c w p <= total_balance c w p;
  transfer_failed c f t a (p p' : P) r :
    transfer c f t a p = (r, p') -> r <> Ok tt -> p' = p
}.

Section duster.
Context {P : Type} `{MultiCurrency P} {cfg : DusterConfig}.
Context `{!MultiCurrencyLaws P} `{!DusterChainLaws P}.
Notation State := (DusterState P).
Implicit Types s : State.

(** What the chain is after the attempt to reward [w]: the reward account pays the reward, or
    there is none, or it cannot pay and nothing moves. *)
Definition rewarded (w : AccountId) (reward : option AccountId) (p p' : P) : Prop :=
  match reward with
  | None => p' = p
  | Some ra =>
      transfer DusterNativeCurrencyId ra w Reward p = (Ok tt, p') \/
      p' = p /\ fst (transfer DusterNativeCurrencyId ra w Reward p) <> Ok tt
  end.

Lemma reward_duster_cases w c x s r s' :
  reward_duster w c x s = (r, s') ->
  rewarded w (RewardAccount s) (duster_chain s) (duster_chain s') /\
  AccountBlacklist s' = AccountBlacklist s /\ DustAccount s' = DustAccount s /\
  RewardAccount s' = RewardAccount s /\ duster_events s' = duster_events s.
Proof.
  unfold reward_duster, rewarded, mbind, M_bind, run_bind, gets, mret, M_ret. simpl.
  destruct (RewardAccount s) as [ra|] eqn:Hra; simpl; [|intros [= <- <-]; by auto].
  unfold zoom. simpl. destruct (transfer _ _ _ _ _) as [[[]| |] p] eqn:Ht;
    intros [= <- <-]; (split; [|done]); simpl.
  - by left.
  - right. split; [by eapply transfer_failed|done].
  - right. split; [by eapply transfer_failed|done].
Qed.

(** The run of a successful [dust_account]. *)
Lemma dust_account_Ok w a c s u s' :
  dust_account (Signed w) a c s = (Ok u, s') ->
  let x := total_balance c a (duster_chain s) in
  a ∉ AccountBlacklist s /\ 0 < x < MinCurrencyDeposits c /\
  (AccountBlacklist s' = AccountBlacklist s /\ DustAccount s' = DustAccount s /\
   RewardAccount s' = RewardAccount s /\ duster_events s' = duster_events s ++ [Dusted a x]) /\
  exists dest p1, DustAccount s = Some dest /\ transfer c a dest x (duster_chain s) = (Ok tt, p1) /\
    rewarded w (RewardAccount s) p1 (duster_chain s').
Proof.
  unfold dust_account, transfer_dust, duster_deposit_event, is_dustable. intros Hrun.
  apply bind_Ok in Hrun as (w' & s0 & Hg & Hrun). apply ensure_signed_Ok in Hg as [[= <-] ->].
  do 8 (let x := fresh "v" in let s1 := fresh "st" in let Hx := fresh "Hg" in
    apply bind_Ok in Hrun as (x & s1 & Hx & Hrun); minv Hx). zbool.
  apply bind_Ok in Hrun as (x & s1 & Hx & Hrun). minv Hx.
  apply bind_Ok in Hrun as (y & s2 & Hy & Hrun). minv Hrun. simpl in *.
  match goal with Hb : bool_decide _ = false |- _ => apply bool_decide_eq_false in Hb end.
  pose proof (free_le_total c a (duster_chain s)).
  assert (Hrew : exists r, reward_duster w c (total_balance c a (duster_chain s))
    (mkDuster ch (AccountBlacklist s) (RewardAccount s) (DustAccount s)
       (duster_events s ++ [Dusted a (total_balance c a (duster_chain s))])) = (r, s2)).
  { apply attempt_Ok in Hy as [(? & _ & ?)|(? & _ & ?)]; eauto. }
  destruct Hrew as [r (Hcase & Hbl & Hda & Hra & Hev)%reward_duster_cases]. simpl in *.
  split_and!; try done; try lia. eauto.
Qed.

(** The balances after the reward. *)
Lemma rewarded_balances w ra (p p' : P) :
  0 <= Reward -> rewarded w (Some ra) p p' -> keeps DusterNativeCurrencyId ra Reward p ->
  (forall k z, free_balance k z p' = free_balance k z p + moves DusterNativeCurrencyId ra w Reward k z) \/
  fst (transfer DusterNativeCurrencyId ra w Reward p) <> Ok tt /\ p' = p.
Proof.
  intros Hr [Ht|[-> Hf]] Hk; [left|by right]. destruct (decide (ra = w)) as [->|Hne].
  - intros k z. unfold moves. destruct (decide (k = DusterNativeCurrencyId)) as [->|Hk'].
    + rewrite (transfer_noop _ _ _ _ _ _ Ht (or_introl eq_refl) z). lia.
    + rewrite (transfer_frame _ _ _ _ _ _ k Ht Hk' z). lia.
  - by apply (transfer_moves _ _ _ _ _ _ Ht).
Qed.

(** [C37] A successful [dust_account] on another account than the dust account empties an
    account that is not listed and holds less than the minimum of the currency, and moves
    nothing else but the reward: the whole balance goes to the dust account with the one
    event that says so; then the reward account pays the caller exactly [Reward] of the
    native currency, or, when it is not set or its transfer fails, nothing at all.  These
    are the balances of all accounts in all currencies, the native one included (the
    reward account is assumed to keep its existential deposit when it pays); nothing is
    minted or burned, and the pallet's own records stay. *)
Theorem dust_account_exact w a c s s' :
  dust_account (Signed w) a c s = (Ok tt, s') -> DustAccount s <> Some a -> 0 <= Reward ->
  let x := total_balance c a (duster_chain s) in
  a ∉ AccountBlacklist s /\ 0 < x < MinCurrencyDeposits c /\
  (AccountBlacklist s' = AccountBlacklist s /\ DustAccount s' = DustAccount s /\
   RewardAccount s' = RewardAccount s /\ duster_events s' = duster_events s ++ [Dusted a x]) /\
  (forall k, total_issuance k (duster_chain s') = total_issuance k (duster_chain s)) /\
  exists dest p1, DustAccount s = Some dest /\
    (forall k z, free_balance k z p1 = free_balance k z (duster_chain s) + moves c a dest x k z) /\
    free_balance c a p1 = 0 /\
    match RewardAccount s with
    | None => duster_chain s' = p1
    | Some ra =>
        keeps DusterNativeCurrencyId ra Reward p1 ->
        (forall k z, free_balance k z (duster_chain s') =
           free_balance k z p1 + moves DusterNativeCurrencyId ra w Reward k z) \/
        fst (transfer DusterNativeCurrencyId ra w Reward p1) <> Ok tt /\ duster_chain s' = p1
    end.
Proof.
  cbv zeta. intros Hrun Hself Hr0.
  destruct (dust_account_Ok _ _ _ _ _ _ Hrun) as (Hn & Hx & Hrec & dest & p1 & Hdest & Ht & Hrew).
  assert (Hne : a <> dest) by congruence.
  assert (Hall : free_balance c a (duster_chain s) = total_balance c a (duster_chain s)).
  { pose proof (transfer_enough _ _ _ _ _ _ Ht Hne). pose proof (free_le_total c a (duster_chain s)). lia. }
  assert (Hmove := transfer_moves _ _ _ _ _ _ Ht Hne ltac:(lia) (or_introl Hall)).
  split; [done|]. split; [done|]. split; [done|]. split.
  { intros k. rewrite <- (transfer_issuance _ _ _ _ _ _ k Ht). unfold rewarded in Hrew.
    case_match; [|by rewrite Hrew]. destruct Hrew as [Hp|[-> _]]; [|done].
    apply (transfer_issuance _ _ _ _ _ _ k Hp). }
  exists dest, p1. split_and!; [done|done| |].
  - rewrite Hmove. unfold moves. rewrite decide_False, decide_True by naive_solver. lia.
  - case_match; [|done]. intros Hk. by apply rewarded_balances.
Qed.

(** ** Listed accounts *)

Inductive duster_call :=
| DustAccountCall (a : AccountId) (c : AssetId)
| AddNondustable (a : AccountId)
| RemoveNondustable (a : AccountId).
Definition duster_dispatch (o : Origin) (call : duster_call) : Dispatch State unit :=
  match call with
  | DustAccountCall a c => dust_account o a c
  | AddNondustable a => add_nondustable_account o a
  | RemoveNondustable a => remove_nondustable_account o a
  end.

(** [m] leaves the list alone, whatever it returns. *)
Definition keeps_list {A} (m : Dispatch State A) : Prop :=
  forall s, AccountBlacklist (snd (m s)) = AccountBlacklist s.
Lemma keeps_list_reads {A} (m : Dispatch State A) : reads m -> keeps_list m.
Proof. intros Hm s. by rewrite Hm. Qed.
Lemma keeps_list_zoom {A} (m : Dispatch P A) : keeps_list (zoom m).
Proof. intros s. unfold zoom. by destruct (m (lens_get s)). Qed.
Lemma keeps_list_attempt {A} (m : Dispatch State A) : keeps_list m -> keeps_list (attempt m).
Proof. intros Hm s. specialize (Hm s). unfold attempt. by destruct (m s) as [[| |] s1]. Qed.
Lemma keeps_list_bind {A B} (m : Dispatch State A) (k : A -> Dispatch State B) :
  keeps_list m -> (forall a, keeps_list (k a)) -> keeps_list (mbind k m).
Proof.
  intros Hm Hk s. specialize (Hm s). unfold mbind, M_bind, run_bind.
  destruct (m s) as [[a| |] s1]; simpl in *; [|done..]. by rewrite Hk.
Qed.

Lemma dust_account_list o a c : keeps_list (dust_account o a c).
Proof.
  unfold dust_account, transfer_dust, reward_duster, duster_deposit_event.
  repeat first [ apply keeps_list_bind; intros | apply keeps_list_zoom | apply keeps_list_attempt
    | solve [apply keeps_list_reads; solve_reads] | progress cbv zeta | done ].
Qed.

(** [C38] A listed account is never dusted, whoever asks, and a call leaves the list alone
    unless it comes from the root origin and names the account it changes. *)
Theorem listed_accounts_safe o call s r s' :
  duster_dispatch o call s = (r, s') ->
  (forall a c, call = DustAccountCall a c -> a ∈ AccountBlacklist s ->
     r <> Ok tt /\ s' = s) /\
  (AccountBlacklist s' = AccountBlacklist s \/
   (o = Root /\ exists a, call = AddNondustable a /\
      AccountBlacklist s' = {[ a ]} ∪ AccountBlacklist s) \/
   (o = Root /\ exists a, call = RemoveNondustable a /\ a ∈ AccountBlacklist s /\
      AccountBlacklist s' = AccountBlacklist s ∖ {[ a ]})).
Proof.
  intros Hrun. split.
  - intros a c -> Ha. simpl in Hrun. revert Hrun. unfold dust_account. destruct o as [|w|];
      [by intros [= <- <-]| |by intros [= <- <-]].
    unfold mbind, M_bind, run_bind, gets, ensure_signed, mret, M_ret.
    rewrite bool_decide_eq_true_2 by done. by intros [= <- <-].
  - destruct call as [a c|a|a]; simpl in Hrun.
    + left. by rewrite <- (dust_account_list o a c s), Hrun.
    + destruct o; [|left; by injection Hrun as <- <-..].
      right. left. split; [done|]. exists a. by injection Hrun as <- <-.
    + destruct o; [|left; by injection Hrun as <- <-..].
      revert Hrun. unfold remove_nondustable_account, duster_deposit_event, mbind, M_bind, run_bind,
        ensure_root, gets, mret, M_ret.
      destruct (decide (a ∈ AccountBlacklist s)) as [Ha|Ha].
      * rewrite bool_decide_eq_true_2 by done. intros [= <- <-]. right. right. eauto.
      * rewrite bool_decide_eq_false_2 by done. intros [= <- <-]. by left.
Qed.

(** ** The worker *)

(** An entry of the token accounts that is below the minimum of its currency. *)
Definition dusty (a : TokenAccount) : bool :=
  saturating_add 128 (ta_free a) (ta_reserved a) <? MinCurrencyDeposits (ta_asset a).

Lemma worker_loop_filter (ext : nat -> bool) n l :
  (forall i, ext i = true) ->
  worker_loop true ext n l =
    (None, map (fun a => (ta_who a, ta_asset a)) (filter (fun a => dusty a = true) l)).
Proof.
  intros Hext. revert n. induction l as [|a l IH]; intros n; [done|].
  rewrite filter_cons. unfold dusty at 1. cbn [worker_loop]. rewrite Hext, IH.
  case_decide as Hd; [by rewrite Hd|].
  destruct (_ <? _) eqn:Hlt; [done|]. done.
Qed.

(** On a validator with a key, and as long as the lock holds, the worker submits one
    [dust_account] call for each token account below the minimum of its currency, in
    storage order, and nothing else; without the role, the lock or a key it submits
    nothing. *)
Theorem offchain_worker_spec validator lock key (ext : nat -> bool) l :
  (forall i, ext i = true) ->
  snd (offchain_worker validator lock key ext l) =
    (if validator && lock && key
     then map (fun a => (ta_who a, ta_asset a)) (filter (fun a => dusty a = true) l) else []).
Proof.
  intros Hext. unfold offchain_worker. destruct validator, lock; try done. destruct key; simpl.
  - by rewrite worker_loop_filter.
  - generalize 0%nat. induction l as [|a l IH]; intros n; [done|]. cbn [worker_loop]. rewrite Hext.
    specialize (IH (S n)). destruct (worker_loop _ _ _ _) as [r more]. simpl in *. subst.
    by case_match.
Qed.
End duster.

(** ** Examples on the reference ledger *)

#[export] Instance Ledger_duster_laws : DusterChainLaws Ledger.
Proof.
  split.
  - intros c w p. simpl. unfold l_balance. lia.
  - intros c f t a p p' r. simpl. unfold l_transfer. repeat case_match; intros [= <- <-]; done.
Qed.

#[local] Instance ex_duster : DusterConfig := {|
  MinCurrencyDeposits _ := 1000; Reward := 5; DusterNativeCurrencyId := 0
|}.

(** Account 40 holds 300 of asset 1; so does account 50, the dust account.  Account 60
    pays the rewards. *)
Definition ex_duster_state : DusterState Ledger :=
  mkDuster {| l_free := list_to_map [((1, 40), 300%N); ((1, 50), 300%N); ((0, 60), 1000%N)];
              l_reserved := ∅; l_locks := ∅; l_issuance := ∅; l_shared := ∅ |}
    {[ 70 ]} (Some 60) (Some 50) [].

Lemma dust_account_exact_witness :
  let s' := snd (dust_account (Signed 20) 40 1 ex_duster_state) in
  free_balance 1 40 (duster_chain s') = 0 /\ free_balance 1 50 (duster_chain s') = 600 /\
  free_balance 0 20 (duster_chain s') = 5 /\ free_balance 0 60 (duster_chain s') = 995.
Proof.
  destruct (dust_account_exact 20 40 1 ex_duster_state
    (snd (dust_account (Signed 20) 40 1 ex_duster_state)))
    as (_ & _ & _ & _ & dest & p1 & [= <-] & Hb & _ & Hrew).
  - vm_compute. reflexivity.
  - discriminate.
  - discriminate.
  - assert (Hk : keeps DusterNativeCurrencyId 60 Reward p1)
      by (right; rewrite Hb; vm_compute; discriminate).
    destruct (Hrew Hk) as [Hall|[_ Hp]].
    + cbv zeta. rewrite !Hall, !Hb. vm_compute. tauto.
    + exfalso. specialize (Hb 0 20). rewrite <- Hp in Hb. vm_compute in Hb. discriminate.
Defined.

Lemma listed_accounts_safe_witness :
  snd (dust_account (Signed 20) 70 1 ex_duster_state) = ex_duster_state.
Proof.
  destruct (listed_accounts_safe (Signed 20) (DustAccountCall 70 1) ex_duster_state
    (fst (dust_account (Signed 20) 70 1 ex_duster_state))
    (snd (dust_account (Signed 20) 70 1 ex_duster_state))) as [Hsafe _].
  - vm_compute. reflexivity.
  - destruct (Hsafe 70 1) as [_ Hs]; [done|set_solver|exact Hs].
Defined.

Lemma offchain_worker_spec_witness :
  snd (offchain_worker true true true (fun _ => true)
    [mkTokenAccount 40 1 300 0; mkTokenAccount 41 1 900 200]) = [(40, 1)].
Proof. rewrite offchain_worker_spec; [vm_compute; reflexivity|done]. Defined.

(** The dust account itself can be dusted: the transfer to itself moves nothing, the
    caller gets the reward, and the same call succeeds again. *)
Theorem dust_account_can_be_dusted :
  let s1 := snd (dust_account (Signed 20) 50 1 ex_duster_state) in
  fst (dust_account (Signed 20) 50 1 ex_duster_state) = Ok tt /\
  fst (dust_account (Signed 20) 50 1 s1) = Ok tt /\
  free_balance 1 50 (duster_chain s1) = 300 /\
  free_balance 0 20 (duster_chain (snd (dust_account (Signed 20) 50 1 s1))) = 10.
Proof. vm_compute. tauto. Qed.
