(* ===== verification/DusterTests.v ===== *)
(** * The tests of the duster pallet

    Models the mock runtime of [src/pallets/duster/src/mock.rs] and runs the tests of
    [src/pallets/duster/src/tests.rs] on the model of the pallet.  The native balances and the
    tokens of the mock are one reference ledger, which has no events of its own: of the events a
    test expects, the pallet's are compared, in order.  That a swept account is removed from
    the system is the framework's doing; here its balances are all zero. *)

From S2P Require Import Prelude Primitives Errors Interfaces Ledger Testing Duster.

(** ** The mock runtime *)

Definition ALICE : AccountId := 100.
Definition BOB : AccountId := 200.
Definition DUSTER : AccountId := 300.
Definition TREASURY : AccountId := 400.
Definition NativeCurrencyId : AssetId := 0.
Definition MinDeposits (currency_id : AssetId) : Balance :=
  match currency_id with 0 => 1000 | 1 => 100000 | _ => 0 end.
Definition Test_duster : DusterConfig := {|
  MinCurrencyDeposits := MinDeposits;
  Reward := 10000;
  DusterNativeCurrencyId := NativeCurrencyId
|}.
#[local] Existing Instance Test_duster.
Notation State := (DusterState Ledger).
Notation Test := (State * Dispatch State unit)%type.

(** [ExtBuilder]. *)
Record ExtBuilder := mkExt {
  endowed_accounts : list (AccountId * AssetId * Balance);
  native_balances : list (AccountId * Balance)
}.
Definition ExtBuilder_default : ExtBuilder := mkExt [] [(TREASURY, 1000000)].
Definition with_balance (account : AccountId) (currency_id : AssetId) (amount : Balance)
    (e : ExtBuilder) : ExtBuilder :=
  mkExt (endowed_accounts e ++ [(account, currency_id, amount)]) (native_balances e).
Definition with_native_balance (account : AccountId) (amount : Balance) (e : ExtBuilder)
    : ExtBuilder :=
  mkExt (endowed_accounts e) (native_balances e ++ [(account, amount)]).
Definition build (e : ExtBuilder) : State :=
  let native := map (fun '(w, x) => (w, NativeCurrencyId, x)) (native_balances e) in
  snd (genesis_build (mkGenesis [TREASURY] (Some TREASURY) (Some TREASURY))
         (mkDuster (tokens_genesis (native ++ endowed_accounts e)) ∅ None None [])).

(** ** What the tests look at *)

#[local] Instance DusterEvent_eq_dec : EqDecision DusterEvent.
Proof. solve_decision. Defined.
#[local] Instance State_eq_dec : EqDecision State.
Proof. solve_decision. Defined.

Definition balance_is (c : AssetId) (w : AccountId) (x : Balance) : Dispatch State unit :=
  check (fun s => free_balance c w (duster_chain s) =? x).
(** No entry of [orml_tokens::Accounts] is left for the account. *)
Definition removed (w : AccountId) : Dispatch State unit :=
  check (fun s => forallb (fun c => total_balance c w (duster_chain s) =? 0) [1; 2]).
Definition blacklisted (w : AccountId) (s : State) : bool := bool_decide (w ∈ AccountBlacklist s).
Definition expect_events (l : list DusterEvent) : Dispatch State unit :=
  check (fun s => bool_decide (drop (length (duster_events s) - length l) (duster_events s) = l)).
(** [Currencies::transfer]. *)
Definition pay (from to : AccountId) (c : AssetId) (x : Balance) : Dispatch State unit :=
  zoom (C := Ledger) (transfer c from to x).

(** ** The tests *)

Definition dust_account_works : Test := (build (with_balance ALICE 1 100 ExtBuilder_default),
  assert_ok (dust_account (Signed DUSTER) ALICE 1) ;;
  balance_is 1 TREASURY 100 ;;
  removed ALICE ;;
  balance_is 0 DUSTER 10000).

Definition reward_duster_can_fail : Test := (build (with_balance ALICE 1 100 ExtBuilder_default),
  assert_ok (pay TREASURY BOB 0 1000000) ;;
  assert_ok (dust_account (Signed DUSTER) ALICE 1) ;;
  balance_is 1 TREASURY 100 ;;
  removed ALICE ;;
  balance_is 0 DUSTER 0).

Definition dust_account_with_sufficient_balance_fails : Test :=
  (build (with_balance ALICE 1 1000000 ExtBuilder_default),
  assert_noop (dust_account (Signed DUSTER) ALICE 1) DusterErr.BalanceSufficient ;;
  balance_is 1 TREASURY 0).

Definition dust_account_with_exact_dust_fails : Test :=
  (build (with_balance ALICE 1 100000 ExtBuilder_default),
  assert_noop (dust_account (Signed DUSTER) ALICE 1) DusterErr.BalanceSufficient ;;
  balance_is 1 TREASURY 0).

Definition dust_nonexisting_account_fails : Test := (build ExtBuilder_default,
  assert_noop (dust_account (Signed DUSTER) 123456 1) DusterErr.ZeroBalance ;;
  balance_is 1 TREASURY 0).

Definition dust_treasury_account_fails : Test := (build ExtBuilder_default,
  assert_noop (dust_account (Signed DUSTER) TREASURY 1) DusterErr.AccountBlacklisted).

Definition dust_account_native_works : Test :=
  (build (with_native_balance DUSTER 100000 (with_native_balance ALICE 500 ExtBuilder_default)),
  assert_ok (dust_account (Signed DUSTER) ALICE 0) ;;
  balance_is 0 TREASURY 990500 ;;
  balance_is 0 DUSTER 110000 ;;
  expect_events [Dusted ALICE 500]).

Definition native_existential_deposit : Test :=
  (build (with_balance DUSTER 2 100000 (with_balance DUSTER 1 100000
     (with_native_balance DUSTER 100000 ExtBuilder_default))),
  assert_ok (pay DUSTER ALICE 2 20000) ;;
  assert_ok (pay DUSTER ALICE 0 600) ;;
  assert_ok (pay ALICE DUSTER 0 300) ;;
  balance_is 0 ALICE 300 ;;
  assert_ok (dust_account (Signed DUSTER) ALICE 0) ;;
  balance_is 0 ALICE 0 ;;
  expect_events [Dusted ALICE 300] ;;
  assert_ok (pay ALICE DUSTER 2 20000) ;;
  removed ALICE).

Definition add_nondustable_account_works : Test := (build ExtBuilder_default,
  assert_noop (add_nondustable_account (Signed DUSTER) ALICE) BadOrigin ;;
  check (fun s => negb (blacklisted ALICE s)) ;;
  assert_ok (add_nondustable_account Root ALICE) ;;
  check (blacklisted ALICE) ;;
  assert_ok (add_nondustable_account Root ALICE) ;;
  check (blacklisted ALICE)).

Definition remove_nondustable_account_works : Test :=
  (build (with_native_balance ALICE 500 ExtBuilder_default),
  assert_ok (add_nondustable_account Root ALICE) ;;
  check (blacklisted ALICE) ;;
  assert_ok (add_nondustable_account Root ALICE) ;;
  assert_noop (dust_account (Signed DUSTER) ALICE 1) DusterErr.AccountBlacklisted ;;
  assert_noop (remove_nondustable_account (Signed DUSTER) ALICE) BadOrigin ;;
  assert_noop (remove_nondustable_account Root 1234556) DusterErr.AccountNotBlacklisted ;;
  assert_ok (remove_nondustable_account Root ALICE) ;;
  check (fun s => negb (blacklisted ALICE s)) ;;
  assert_ok (dust_account (Signed DUSTER) ALICE 0)).

Definition duster_suite : list Test :=
    [dust_account_works; reward_duster_can_fail; dust_account_with_sufficient_balance_fails;
     dust_account_with_exact_dust_fails; dust_nonexisting_account_fails;
     dust_treasury_account_fails; dust_account_native_works; native_existential_deposit;
     add_nondustable_account_works; remove_nondustable_account_works].

(** All tests of the pallet pass on the model. *)
Theorem duster_tests_pass : suite_passes duster_suite.
Proof. unfold duster_suite. run_suite. Qed.
