(* ===== verification/RuntimeBenchmarks.v ===== *)
(** * Benchmarks of the runtime

    Models [src/runtime/basilisk/src/benchmarking/]: the benchmarks the runtime brings for
    the duster pallet and for the framework pallets it configures (tokens, currencies,
    vesting, transaction payment), in the way of [Benchmarks.v].  The framework pallets are
    interfaces; the duster pallet and the spot price of the XYK pallet are the modelled
    ones.  The last section runs the scripts on a small chain over the reference ledger. *)

From S2P Require Import Prelude Primitives Errors Interfaces Ledger Xyk Runtime Duster Config.
From S2P Require Import Benchmarks.

(** ** Errors and helpers *)

Inductive BenchmarkError :=
| Stop (message : string)
| Failed (e : DispatchError).

Notation Bench S A := (M BenchmarkError S A).

(** The [?] operator, [map_err(|_| BenchmarkError::Stop(msg))?] and [assert_ok!]. *)
Definition question {S A} (m : Dispatch S A) : Bench S A :=
  fun s => match m s with
           | (Ok a, s') => (Ok a, s')
           | (Err e, s') => (Err (Failed e), s')
           | (Panic, s') => (Panic, s')
           end.
Definition or_stop {S A} (message : string) (m : Dispatch S A) : Bench S A :=
  fun s => match m s with
           | (Ok a, s') => (Ok a, s')
           | (Err _, s') => (Err (Stop message), s')
           | (Panic, s') => (Panic, s')
           end.
Definition assert_ok {S A} (m : Dispatch S A) : Bench S A :=
  fun s => match m s with (Ok a, s') => (Ok a, s') | (_, s') => (Panic, s') end.
Definition unwrap_or_panic {E S A} (o : option A) : M E S A :=
  match o with Some a => mret a | None => panic end.

Definition saturated_i128 (x : Z) : Z := Z.min x (2 ^ 127 - 1).

(** ** The pallets that are not in the repository *)

(** The asset registry, for assets of type [Token]. *)
Class AssetRegistryPallet (P : Type) := {
  to_bounded_name : list Z -> option (list Z);
  registry_register : list Z -> Balance -> Dispatch P AssetId;
  registry_update : Origin -> AssetId -> list Z -> option Balance -> Dispatch P unit;
  registry_get : AssetId -> P -> Balance
}.

(** [orml_tokens] and [orml_currencies]: the calls and the balances the benchmarks use. *)
Class TokensPallet (P : Type) := {
  tokens_update_balance : AssetId -> AccountId -> Z -> Dispatch P unit;
  tokens_free_balance : AssetId -> AccountId -> P -> Balance;
  tokens_total_balance : AssetId -> AccountId -> P -> Balance;
  tokens_transfer : Origin -> AccountId -> AssetId -> Balance -> Dispatch P unit;
  tokens_transfer_all : Origin -> AccountId -> AssetId -> bool -> Dispatch P unit;
  tokens_transfer_keep_alive : Origin -> AccountId -> AssetId -> Balance -> Dispatch P unit;
  tokens_force_transfer : Origin -> AccountId -> AccountId -> AssetId -> Balance -> Dispatch P unit;
  tokens_set_balance : Origin -> AccountId -> AssetId -> Balance -> Balance -> Dispatch P unit
}.
Class CurrenciesPallet (P : Type) := {
  currencies_update_balance : AssetId -> AccountId -> Z -> Dispatch P unit;
  currencies_transfer : Origin -> AccountId -> AssetId -> Balance -> Dispatch P unit;
  currencies_transfer_native : Origin -> AccountId -> Balance -> Dispatch P unit;
  currencies_update_call : Origin -> AccountId -> AssetId -> Z -> Dispatch P unit
}.

(** [orml_vesting]; [System::set_block_number]. *)
Record VestingSchedule := mkSchedule {
  vs_start : BlockNumber;
  vs_period : BlockNumber;
  vs_period_count : Z;
  vs_per_period : Balance
}.
Class VestingPallet (P : Type) := {
  total_amount : VestingSchedule -> option Balance;
  schedule_end : VestingSchedule -> option BlockNumber;
  vested_transfer : Origin -> AccountId -> VestingSchedule -> Dispatch P unit;
  vesting_claim : Origin -> Dispatch P unit;
  update_vesting_schedules : Origin -> AccountId -> list VestingSchedule -> Dispatch P unit;
  set_system_block : BlockNumber -> P -> P;
  pallet_account : string -> AccountId
}.

(** [pallet_transaction_multi_payment]. *)
Class MultiPaymentPallet (P : Type) := {
  add_currency : Origin -> AssetId -> Price -> Dispatch P unit;
  remove_currency : Origin -> AssetId -> Dispatch P unit;
  set_currency : Origin -> AssetId -> Dispatch P unit;
  currencies : AssetId -> P -> option Price;
  get_currency : AccountId -> P -> option AssetId;
  put_fallback_account : AccountId -> P -> P
}.

Section bench.
Context {P : Type} `{MultiCurrency P} `{AssetRegistryPallet P} `{TokensPallet P}.
Context `{CurrenciesPallet P} `{VestingPallet P} `{MultiPaymentPallet P} `{BenchAccounts}.
Context (whitelisted_caller : AccountId).

(** ** [mod.rs] *)

Definition BSX : Balance := UNITS.

(** The result of the registry without its error. *)
Definition register_asset (name : list Z) (deposit : Balance) : Dispatch P AssetId :=
  bounded ← ok_or (to_bounded_name name) (Foreign 0 0);
  registry_register bounded deposit.
Definition update_asset (asset_id : AssetId) (name : list Z) (deposit : Balance) : Dispatch P unit :=
  registry_update Root asset_id name (Some deposit).

Definition TST : list Z := as_bytes "TST".
Definition registered {S} `{Lens S P} (deposit : Balance) : Bench S AssetId :=
  or_stop "Failed to register asset" (zoom (register_asset TST deposit)).

(** [duster::update_balance] and [tokens::update_balance] are the same function. *)
Definition update_tokens_balance {S} `{Lens S P} (currency_id : AssetId) (who : AccountId)
    (balance : Balance) : Bench S unit :=
  assert_ok (zoom (tokens_update_balance currency_id who (saturated_i128 balance))).
(** [currencies::set_balance], [vesting::set_balance] and [multi_payment::update_balance]. *)
Definition set_balance {S} `{Lens S P} (currency_id : AssetId) (who : AccountId)
    (balance : Balance) : Bench S unit :=
  assert_ok (zoom (currencies_update_balance currency_id who (saturated_i128 balance))).

(** ** The duster pallet *)

Definition DUSTER_SEED : Z := 1.
(** [pallet_duster::Config for Runtime]: the minimum deposits are the registry's at the time
    of the call. *)
Definition duster_config (p : P) : DusterConfig := {|
  MinCurrencyDeposits c := registry_get c p;
  Reward := DustingReward;
  DusterNativeCurrencyId := CORE_ASSET_ID
|}.
Definition put_dust_account (a : AccountId) (s : DusterState P) : DusterState P :=
  mkDuster (duster_chain s) (AccountBlacklist s) (RewardAccount s) (Some a) (duster_events s).
Definition assert_tokens_free (c : AssetId) (w : AccountId) (b : Balance)
    : Bench (DusterState P) unit :=
  x ← gets (fun s => tokens_free_balance c w (duster_chain s)); assert (x =? b).

Definition bench_dust_account : Bench (DusterState P) unit :=
  let caller := account "caller" 0 DUSTER_SEED in
  let to_dust_account := account "dust" 0 DUSTER_SEED in
  let dust_dest_account := account "dest" 1 DUSTER_SEED in
  modify (put_dust_account dust_dest_account) ;;
  asset_id ← registered 100;
  let reward := DustingReward in
  dest_account ← gets DustAccount;
  min_deposit ← gets (fun s => registry_get asset_id (duster_chain s));
  dest ← unwrap_or_panic dest_account;
  update_tokens_balance asset_id dest min_deposit ;;
  let dust_amount := min_deposit in
  update_tokens_balance asset_id to_dust_account min_deposit ;;
  or_stop "Failed to update asset" (zoom (update_asset asset_id TST 110)) ;;
  assert_tokens_free asset_id to_dust_account dust_amount ;;
  current_balance ← gets (fun s => tokens_free_balance asset_id dest (duster_chain s));
  config ← gets (fun s => duster_config (duster_chain s));
  question (dust_account (cfg := config) (Signed caller) to_dust_account asset_id) ;;
  assert_tokens_free asset_id to_dust_account 0 ;;
  assert_tokens_free CORE_ASSET_ID caller reward ;;
  assert_tokens_free asset_id dest (current_balance + dust_amount).

(** [blacklisted(account)] is [Some] exactly for the listed accounts. *)
Definition blacklisted (a : AccountId) : Bench (DusterState P) bool :=
  gets (fun s => bool_decide (a ∈ AccountBlacklist s)).
Definition bench_add_nondustable_account : Bench (DusterState P) unit :=
  let nondustable_account := account "dust" 0 DUSTER_SEED in
  question (add_nondustable_account Root nondustable_account) ;;
  b ← blacklisted nondustable_account; assert b.
Definition bench_remove_nondustable_account : Bench (DusterState P) unit :=
  let nondustable_account := account "dust" 0 DUSTER_SEED in
  question (add_nondustable_account Root nondustable_account) ;;
  question (remove_nondustable_account Root nondustable_account) ;;
  b ← blacklisted nondustable_account; assert (negb b).

(** ** Tokens *)

#[local] Instance whole : Lens P P := {| lens_get p := p; lens_set p _ := p |}.
Definition FRAMEWORK_SEED : Z := 0.
Definition assert_tokens_total (c : AssetId) (w : AccountId) (b : Balance) : Bench P unit :=
  x ← gets (tokens_total_balance c w); assert (x =? b).

Definition bench_tokens_transfer : Bench P unit :=
  let amount := BSX in
  asset_id ← registered 1;
  let from := whitelisted_caller in
  update_tokens_balance asset_id from amount ;;
  let to := account "to" 0 FRAMEWORK_SEED in
  question (tokens_transfer (Signed from) to asset_id amount) ;;
  assert_tokens_total asset_id to amount.
Definition bench_transfer_all : Bench P unit :=
  let amount := BSX in
  asset_id ← registered 1;
  let from := whitelisted_caller in
  update_tokens_balance asset_id from amount ;;
  let to := account "to" 0 FRAMEWORK_SEED in
  question (tokens_transfer_all (Signed from) to asset_id false) ;;
  assert_tokens_total asset_id from 0.
Definition bench_transfer_keep_alive : Bench P unit :=
  let from := whitelisted_caller in
  asset_id ← registered 1;
  update_tokens_balance asset_id from (2 * BSX) ;;
  let to := account "to" 0 FRAMEWORK_SEED in
  question (tokens_transfer_keep_alive (Signed from) to asset_id BSX) ;;
  assert_tokens_total asset_id to BSX.
Definition bench_force_transfer : Bench P unit :=
  let from := account "from" 0 FRAMEWORK_SEED in
  asset_id ← registered 1;
  update_tokens_balance asset_id from (2 * BSX) ;;
  let to := account "to" 0 FRAMEWORK_SEED in
  question (tokens_force_transfer Root from to asset_id BSX) ;;
  assert_tokens_total asset_id to BSX.
Definition bench_set_balance : Bench P unit :=
  let who := account "who" 0 FRAMEWORK_SEED in
  asset_id ← registered 1;
  question (tokens_set_balance Root who asset_id BSX BSX) ;;
  assert_tokens_total asset_id who (2 * BSX).

(** ** Currencies *)

Definition NATIVE : AssetId := CORE_ASSET_ID.
Definition assert_total (c : AssetId) (w : AccountId) (b : Balance) : Bench P unit :=
  x ← gets (total_balance c w); assert (x =? b).
Definition assert_free (c : AssetId) (w : AccountId) (b : Balance) : Bench P unit :=
  x ← gets (free_balance c w); assert (x =? b).
(** [existential_deposit.saturating_mul(1000)]. *)
Definition thousand_deposits : Balance := Z.min (2 ^ 128 - 1) (NATIVE_EXISTENTIAL_DEPOSIT * 1000).

Definition bench_transfer_non_native_currency : Bench P unit :=
  let amount := 1000 * BSX in
  let from := whitelisted_caller in
  asset_id ← registered 1;
  set_balance asset_id from amount ;;
  let to := account "to" 0 FRAMEWORK_SEED in
  question (currencies_transfer (Signed from) to asset_id amount) ;;
  assert_total asset_id to amount.
Definition bench_transfer_native_currency_worst_case : Bench P unit :=
  let amount := thousand_deposits in
  let from := whitelisted_caller in
  set_balance NATIVE from amount ;;
  let to := account "to" 0 FRAMEWORK_SEED in
  question (currencies_transfer (Signed from) to NATIVE amount) ;;
  assert_total NATIVE to amount.
Definition bench_transfer_native_currency : Bench P unit :=
  let amount := thousand_deposits in
  let from := whitelisted_caller in
  set_balance NATIVE from amount ;;
  let to := account "to" 0 FRAMEWORK_SEED in
  question (currencies_transfer_native (Signed from) to amount) ;;
  assert_total NATIVE to amount.
Definition bench_update_balance_non_native_currency : Bench P unit :=
  let balance := 2 * BSX in
  let amount := saturated_i128 balance in
  let who := account "who" 0 FRAMEWORK_SEED in
  asset_id ← registered 1;
  question (currencies_update_call Root who asset_id amount) ;;
  assert_total asset_id who balance.
Definition bench_update_balance_native_currency_creating : Bench P unit :=
  let balance := thousand_deposits in
  let amount := saturated_i128 balance in
  let who := account "who" 0 FRAMEWORK_SEED in
  question (currencies_update_call Root who NATIVE amount) ;;
  assert_total NATIVE who balance.
Definition bench_update_balance_native_currency_killing : Bench P unit :=
  let balance := thousand_deposits in
  let amount := saturated_i128 balance in
  let who := account "who" 0 FRAMEWORK_SEED in
  set_balance NATIVE who balance ;;
  question (currencies_update_call Root who NATIVE (- amount)) ;;
  assert_free NATIVE who 0.

(** ** Vesting *)

Definition get_vesting_account : AccountId := pallet_account (Config.TreasuryPalletId treasury_params).
(** The schedule of the three benchmarks, and the one they pass on, which starts at [i]. *)
Definition bench_schedule : VestingSchedule := mkSchedule 0 2 3 NATIVE_EXISTENTIAL_DEPOSIT.
Definition schedule_at (i : BlockNumber) : VestingSchedule :=
  mkSchedule i (vs_period bench_schedule) (vs_period_count bench_schedule)
    (vs_per_period bench_schedule).

Definition bench_vested_transfer : Bench P unit :=
  let schedule := bench_schedule in
  let from := get_vesting_account in
  total ← unwrap_or_panic (total_amount schedule);
  set_balance NATIVE from (total + BSX) ;;
  let to := account "to" 0 FRAMEWORK_SEED in
  question (vested_transfer (Signed from) to schedule) ;;
  assert_total NATIVE to total.
(** [i] runs from 1 to [MaxVestingSchedules]. *)
Definition bench_claim (i : Z) : Bench P unit :=
  let from := get_vesting_account in
  total ← unwrap_or_panic (total_amount bench_schedule);
  set_balance NATIVE from (total * i + BSX) ;;
  let to := whitelisted_caller in
  for_range i (fun _ => question (vested_transfer (Signed from) to (schedule_at i))) ;;
  e ← unwrap_or_panic (schedule_end (schedule_at i));
  modify (set_system_block (e + 1)) ;;
  question (vesting_claim (Signed to)) ;;
  after ← unwrap_or_panic (total_amount (schedule_at i));
  assert_free NATIVE to (after * i).
Definition bench_update_vesting_schedules (i : Z) : Bench P unit :=
  let to := account "to" 0 FRAMEWORK_SEED in
  total ← unwrap_or_panic (total_amount bench_schedule);
  set_balance NATIVE to (total * i) ;;
  let schedules := replicate (Z.to_nat i) (schedule_at i) in
  question (update_vesting_schedules Root to schedules) ;;
  after ← unwrap_or_panic (total_amount (schedule_at i));
  assert_free NATIVE to (after * i).

(** ** Transaction payment *)

Definition PAYMENT_SEED : Z := 1.
Definition assert_currency (c : AssetId) (p : option Price) : Bench P unit :=
  x ← gets (currencies c); assert (bool_decide (x = p)).
Definition bench_add_currency : Bench P unit :=
  question (add_currency Root 10 (price 10)) ;;
  assert_currency 10 (Some (price 10)).
Definition bench_remove_currency : Bench P unit :=
  assert_ok (add_currency Root 10 (price 2)) ;;
  question (remove_currency Root 10) ;;
  assert_currency 10 None.
Definition bench_set_currency : Bench P unit :=
  let caller := account "caller" 0 PAYMENT_SEED in
  let fallback_account := account "fallback_account" 1 PAYMENT_SEED in
  modify (put_fallback_account fallback_account) ;;
  asset_id ← registered 100;
  or_stop "Failed to add supported currency" (add_currency Root asset_id (price 1)) ;;
  set_balance asset_id caller 100000000000000 ;;
  question (set_currency (Signed caller) asset_id) ;;
  x ← gets (get_currency caller); assert (bool_decide (x = Some asset_id)).
End bench.

(** ** The spot price of the XYK pallet *)

Section spot_price.
Context {P : Type} `{MultiCurrency P} `{AssetRegistryPallet P} `{CurrenciesPallet P}.
Context `{ShareTokenRegistry P} `{AMMHandler P} `{CanCreatePool P}.
Context `{AssetPairAccountIdFor} `{XykMath} `{FeeMath} `{FixedPoint} `{AMMProvided}.
Context {cfg : XykConfig} `{BenchAccounts}.

(** [mod::create_pool]. *)
Definition create_pool_ok (who : AccountId) (asset_a asset_b : AssetId) (amount : Balance) (p : Price)
    : Bench (XykState P) unit := assert_ok (Xyk.create_pool (Signed who) asset_a asset_b amount p).

Definition bench_get_spot_price : Bench (XykState P) unit :=
  let maker := account "maker" 0 PAYMENT_SEED in
  let asset_out := 0 in
  asset_id ← registered 1;
  set_balance asset_out maker 2000000000000000 ;;
  set_balance asset_id maker 2000000000000000 ;;
  create_pool_ok maker asset_out asset_id 1000000000000000 500000000000000000 ;;
  question (Xyk.spot_price asset_id asset_out) ;;
  x ← question (Xyk.spot_price asset_id asset_out);
  assert (bool_decide (x = price_from_rational 2 1)).
End spot_price.

(** ** Running them *)

(** The reference ledger with a registry of deposits, vesting locks left out of the free
    balances, and the currencies fees can be paid in.  The tokens pallet keeps every
    currency but the native one. *)
Record BenchChain := mkBenchChain {
  bc_books : Ledger;
  bc_deposits : gmap AssetId Balance;
  bc_currencies : gmap AssetId Price;
  bc_chosen : gmap AccountId AssetId;
  bc_fallback : option AccountId;
  bc_schedules : gmap AccountId nat;
  bc_block : BlockNumber
}.
#[local] Instance bc_lens : Lens BenchChain Ledger := {|
  lens_get := bc_books;
  lens_set l c := mkBenchChain l (bc_deposits c) (bc_currencies c) (bc_chosen c) (bc_fallback c)
                    (bc_schedules c) (bc_block c)
|}.
#[local] Instance bc_currency : MultiCurrency BenchChain := lift_currency.
Definition set_deposit (a : AssetId) (d : Balance) (c : BenchChain) : BenchChain :=
  mkBenchChain (bc_books c) (<[a := d]> (bc_deposits c)) (bc_currencies c) (bc_chosen c)
    (bc_fallback c) (bc_schedules c) (bc_block c).
Definition set_payment (f : gmap AssetId Price -> gmap AssetId Price)
    (g : gmap AccountId AssetId -> gmap AccountId AssetId) (c : BenchChain) : BenchChain :=
  mkBenchChain (bc_books c) (bc_deposits c) (f (bc_currencies c)) (g (bc_chosen c))
    (bc_fallback c) (bc_schedules c) (bc_block c).
Definition add_schedules (w : AccountId) (n : nat) (c : BenchChain) : BenchChain :=
  mkBenchChain (bc_books c) (bc_deposits c) (bc_currencies c) (bc_chosen c) (bc_fallback c)
    (<[w := (n + default 0 (bc_schedules c !! w))%nat]> (bc_schedules c)) (bc_block c).

#[local] Instance bc_registry : AssetRegistryPallet BenchChain := {|
  to_bounded_name name := if Z.of_nat (length name) <=? 32 then Some name else None;
  registry_register _ d c :=
    let a := fresh ({[CORE_ASSET_ID]} ∪ dom (bc_deposits c)) in (Ok a, set_deposit a d c);
  registry_update _ a _ d c := (Ok tt, set_deposit a (default (default 0 (bc_deposits c !! a)) d) c);
  registry_get a c := default 0 (bc_deposits c !! a)
|}.
Definition bc_update (a : AssetId) (w : AccountId) (x : Z) : Dispatch BenchChain unit :=
  if x <? 0 then withdraw a w (- x) else deposit a w x.
#[local] Instance bc_tokens : TokensPallet BenchChain := {|
  tokens_update_balance := bc_update;
  tokens_free_balance a w c := if a =? CORE_ASSET_ID then 0 else free_balance a w c;
  tokens_total_balance a w c := if a =? CORE_ASSET_ID then 0 else total_balance a w c;
  tokens_transfer o t a x := w ← ensure_signed o; transfer a w t x;
  tokens_transfer_all o t a _ :=
    w ← ensure_signed o; x ← gets (free_balance a w); transfer a w t x;
  tokens_transfer_keep_alive o t a x := w ← ensure_signed o; transfer a w t x;
  tokens_force_transfer o f t a x := ensure_root o ;; transfer a f t x;
  tokens_set_balance o w a x y :=
    ensure_root o ;; deposit a w (x + y) ;; zoom (reserve a w y)
|}.
#[local] Instance bc_currencies_pallet : CurrenciesPallet BenchChain := {|
  currencies_update_balance := bc_update;
  currencies_transfer o t a x := w ← ensure_signed o; transfer a w t x;
  currencies_transfer_native o t x := w ← ensure_signed o; transfer CORE_ASSET_ID w t x;
  currencies_update_call o w a x := ensure_root o ;; bc_update a w x
|}.
#[local] Instance bc_vesting : VestingPallet BenchChain := {|
  total_amount v := Some (vs_per_period v * vs_period_count v);
  schedule_end v := Some (vs_start v + vs_period v * vs_period_count v);
  vested_transfer o t v :=
    w ← ensure_signed o;
    transfer CORE_ASSET_ID w t (vs_per_period v * vs_period_count v) ;;
    n ← gets (fun c => default 0%nat (bc_schedules c !! t));
    ensure (Z.of_nat n <? MaxVestingSchedules vesting_params) (Foreign 2 0) ;;
    modify (add_schedules t 1);
  vesting_claim o := ensure_signed o ;; mret tt;
  update_vesting_schedules o w l := ensure_root o ;; modify (add_schedules w (length l));
  set_system_block n c := mkBenchChain (bc_books c) (bc_deposits c) (bc_currencies c) (bc_chosen c)
    (bc_fallback c) (bc_schedules c) n;
  pallet_account name := Zpos (encode (as_bytes name))
|}.
#[local] Instance bc_payment : MultiPaymentPallet BenchChain := {|
  add_currency o a p := ensure_root o ;; modify (set_payment <[a := p]> id);
  remove_currency o a := ensure_root o ;; modify (set_payment (delete a) id);
  set_currency o a :=
    w ← ensure_signed o;
    known ← gets (fun c => bool_decide (is_Some (bc_currencies c !! a)));
    ensure known (Foreign 3 0) ;; modify (set_payment id <[w := a]>);
  currencies a c := bc_currencies c !! a;
  get_currency w c := bc_chosen c !! w;
  put_fallback_account w c := mkBenchChain (bc_books c) (bc_deposits c) (bc_currencies c)
    (bc_chosen c) (Some w) (bc_schedules c) (bc_block c)
|}.
#[local] Instance bc_shares : ShareTokenRegistry BenchChain := {|
  shared_asset name c := l_shared (bc_books c) !! name;
  get_or_create_shared_asset name l ed := zoom (get_or_create_shared_asset name l ed)
|}.
#[local] Instance bc_handler : AMMHandler BenchChain := {|
  on_create_pool _ _ := mret tt;
  on_trade _ _ _ _ _ s := s
|}.
#[local] Existing Instances AllowAllPools Runtime_xyk.

Definition new_chain : BenchChain := mkBenchChain (mkLedger ∅ ∅ ∅ ∅ ∅) ∅ ∅ ∅ None ∅ 0.
Definition new_duster : DusterState BenchChain := mkDuster new_chain ∅ None None [].
Definition new_xyk : XykState BenchChain := mkXyk new_chain ∅ ∅ ∅ [].
Definition a_caller : AccountId := account "whitelisted_caller" 0 0.

(** The benchmarks of the duster pallet and of the spot price pass on the model: raising the
    minimum deposit makes an account dust, its whole balance goes to the dust account, the
    caller gets the runtime's reward, and the price of a pool is the ratio of its reserves. *)
Theorem runtime_benchmarks_pass :
  Forall (fun b => passes b new_duster = true)
    [bench_dust_account; bench_add_nondustable_account; bench_remove_nondustable_account] /\
  passes bench_get_spot_price new_xyk = true.
Proof. split; [repeat (apply Forall_cons_2; [by vm_compute|]); by apply Forall_nil_2|by vm_compute]. Qed.

(** So do the scripts for the framework pallets, on the chain above. *)
Theorem framework_benchmarks_pass :
  Forall (fun b => passes b new_chain = true)
    ([bench_tokens_transfer a_caller; bench_transfer_all a_caller; bench_transfer_keep_alive a_caller;
      bench_force_transfer; bench_set_balance; bench_transfer_non_native_currency a_caller;
      bench_transfer_native_currency_worst_case a_caller; bench_transfer_native_currency a_caller;
      bench_update_balance_non_native_currency; bench_update_balance_native_currency_creating;
      bench_update_balance_native_currency_killing; bench_vested_transfer; bench_add_currency;
      bench_remove_currency; bench_set_currency] ++
     ((fun i => bench_claim a_caller (Z.of_nat i)) <$> seq 1 15) ++
     ((fun i => bench_update_vesting_schedules (Z.of_nat i)) <$> seq 1 15)).
Proof. repeat (apply Forall_cons_2; [by vm_compute|]). by apply Forall_nil_2. Qed.
