(* ===== verification/Rpc.v ===== *)
(** * Runtime APIs and RPC

    Models the pool queries: the runtime APIs of the XYK and LBP pallets in
    [src/runtime/basilisk/src/lib.rs], the RPC handlers of [src/pallets/xyk/rpc] and
    [src/pallets/lbp/rpc], and the text form in which [BalanceInfo] carries an amount
    ([src/pallets/xyk/rpc/runtime-api]).  The client that runs a query at a block is an
    argument. *)

From S2P Require Import Prelude Primitives Errors Interfaces Xyk Lbp.

Local Open Scope string_scope.
Local Open Scope Z_scope.

(** ** Amounts as text: [u128::to_string] and [str::parse::<u128>] *)

Definition digit_char (d : Z) : Ascii.ascii := Ascii.ascii_of_N (Z.to_N (48 + d)).
Definition char_digit (c : Ascii.ascii) : option Z :=
  let n := Z.of_N (Ascii.N_of_ascii c) - 48 in
  if (0 <=? n) && (n <=? 9) then Some n else None.

(** Most significant digit first; [fuel] bounds the number of digits. *)
Fixpoint write_digits (fuel : nat) (n : Z) (acc : string) : string :=
  match fuel with
  | O => acc
  | S fuel =>
      let acc := String (digit_char (n mod 10)) acc in
      if n / 10 =? 0 then acc else write_digits fuel (n / 10) acc
  end.
(** A [u128] has at most 39 digits. *)
Definition to_string (n : Balance) : string := write_digits 39 n "".

(** The digits from the left, each step checked for overflow. *)
Fixpoint read_digits (acc : Z) (s : string) : option Z :=
  match s with
  | EmptyString => Some acc
  | String c s =>
      d ← char_digit c;
      m ← checked_mul 128 acc 10;
      a ← checked_add 128 m d;
      read_digits a s
  end.
(** One leading plus sign is allowed, an empty number is not. *)
Definition parse (s : string) : option Balance :=
  match s with
  | EmptyString => None
  | String c s' =>
      if Ascii.eqb c (Ascii.ascii_of_N 43)
      then match s' with EmptyString => None | _ => read_digits 0 s' end
      else read_digits 0 s
  end.

Definition serialize_as_string (t : Balance) : string := to_string t.
Definition deserialize_from_string (s : string) : outcome string Balance :=
  match parse s with
  | Some t => Ok t
  | None => Err "Parse from string failed"
  end.

Record BalanceInfo := mkBalanceInfo { bi_amount : Balance; bi_asset : option AssetId }.

(** ** The runtime APIs *)

Section api.
Context {C : Type} `{MultiCurrency C} `{AssetPairAccountIdFor}.

(** [XYKApi::get_pool_balances]. *)
Definition api_get_pool_balances (pool_address : AccountId) (s : XykState C) : list BalanceInfo :=
  match Xyk.get_pool_balances pool_address s with
  | Some pool_balances =>
      fold_left (fun vec b => (vec ++ [mkBalanceInfo (snd b) (Some (fst b))])%list) pool_balances []
  | None => []
  end.

(** [XYKApi::get_pool_id], [LBPApi::get_pool_id]. *)
Definition api_xyk_get_pool_id (asset_a asset_b : AssetId) : AccountId :=
  Xyk.pair_account_from_assets asset_a asset_b.
Definition api_lbp_get_pool_id (asset_a asset_b : AssetId) : AccountId :=
  Lbp.pair_account_from_assets asset_a asset_b.
End api.

(** ** The RPC handlers *)

Inductive RpcErrorKind := RuntimeError.
Definition error_code (e : RpcErrorKind) : Z := match e with RuntimeError => 1 end.
Record RpcError := mkRpcError { rpc_code : Z; rpc_message : string; rpc_data : option string }.

(** The client: the best block, and a query run at a block, which may fail. *)
Class RpcClient (Hash ApiError : Type) := {
  best_hash : Hash;
  api_pool_balances_at : Hash -> AccountId -> list BalanceInfo + ApiError;
  api_xyk_pool_id_at : Hash -> AssetId -> AssetId -> AccountId + ApiError;
  api_lbp_pool_id_at : Hash -> AssetId -> AssetId -> AccountId + ApiError;
  debug : ApiError -> string
}.

Section rpc.
Context {Hash ApiError : Type} `{RpcClient Hash ApiError}.

Definition map_rpc_err {A} (message : string) (r : A + ApiError) : A + RpcError :=
  match r with
  | inl a => inl a
  | inr e => inr (mkRpcError (error_code RuntimeError) message (Some (debug e)))
  end.

(** [xyk_getPoolBalances]; without a block hash, at the best block. *)
Definition rpc_get_pool_balances (pool_address : AccountId) (at_block : option Hash)
    : list BalanceInfo + RpcError :=
  let at_block := default best_hash at_block in
  map_rpc_err "Unable to retrieve pool balances." (api_pool_balances_at at_block pool_address).

(** [xyk_getPoolAccount] and [lbp_getPoolAccount]. *)
Definition rpc_xyk_get_pool_id (asset_a asset_b : AssetId) : AccountId + RpcError :=
  map_rpc_err "Unable to retrieve pool account address."
    (api_xyk_pool_id_at best_hash asset_a asset_b).
Definition rpc_lbp_get_pool_id (asset_a asset_b : AssetId) : AccountId + RpcError :=
  map_rpc_err "Unable to retrieve pool account address."
    (api_lbp_pool_id_at best_hash asset_a asset_b).
End rpc.

(** ** The round trip of an amount *)

Lemma char_digit_char d : 0 <= d <= 9 -> char_digit (digit_char d) = Some d.
Proof.
  intros Hd. assert (Hc : d = 0 \/ d = 1 \/ d = 2 \/ d = 3 \/ d = 4 \/ d = 5 \/ d = 6 \/ d = 7 \/
    d = 8 \/ d = 9) by lia.
  by repeat destruct Hc as [->|Hc]; [..|subst].
Qed.

(** The digits of [n], of which [write_digits] puts the text before [acc]: reading them
    from [a] gives [a] shifted by their number, plus [n]. *)
Lemma read_write fuel n acc a :
  0 <= n < 10 ^ Z.of_nat fuel -> 0 <= a -> (0 < fuel)%nat ->
  exists k, 0 < k /\
    (a * 10 ^ k + n < 2 ^ 128 ->
     read_digits a (write_digits fuel n acc) = read_digits (a * 10 ^ k + n) acc) /\
    (n = 0 -> k = 1).
Proof.
  revert n acc a. induction fuel as [|fuel IH]; intros n acc a Hn Ha Hf; [lia|].
  cbn [write_digits]. pose proof (Z.mod_pos_bound n 10 ltac:(lia)).
  pose proof (Z.div_mod n 10 ltac:(lia)).
  destruct (Z.eqb_spec (n / 10) 0) as [Hz|Hz].
  - exists 1. split_and!; [lia| |done]. intros Hlt. cbn [read_digits].
    rewrite char_digit_char by lia. simpl.
    unfold checked_mul, checked_add. rewrite Z.pow_1_r in *.
    rewrite !(proj2 (Z.ltb_lt _ _)) by lia. simpl. rewrite (proj2 (Z.ltb_lt _ _)) by lia. simpl.
    f_equal. lia.
  - assert (Hn' : 0 <= n / 10 < 10 ^ Z.of_nat fuel).
    { rewrite Nat2Z.inj_succ, Z.pow_succ_r in Hn by lia. split; [apply Z.div_pos; lia|].
      apply Z.div_lt_upper_bound; lia. }
    assert (Hf' : (0 < fuel)%nat) by (destruct fuel; [simpl in Hn'; lia|lia]).
    destruct (IH (n / 10) (String (digit_char (n mod 10)) acc) a Hn' Ha Hf') as (k & Hk & Hread & _).
    exists (k + 1). split_and!; [lia| |lia]. intros Hlt.
    assert (Hpow : 10 ^ (k + 1) = 10 * 10 ^ k) by (rewrite Z.pow_add_r by lia; lia).
    rewrite Hpow in *. rewrite Hread by nia. cbn [read_digits]. rewrite char_digit_char by lia. simpl.
    unfold checked_mul, checked_add.
    rewrite (proj2 (Z.ltb_lt _ _)) by nia. simpl. rewrite (proj2 (Z.ltb_lt _ _)) by nia. simpl.
    f_equal. lia.
Qed.

Lemma write_digits_first fuel n acc :
  (0 < fuel)%nat -> 0 <= n -> exists d s, 0 <= d <= 9 /\ write_digits fuel n acc = String (digit_char d) s.
Proof.
  revert n acc. induction fuel as [|fuel IH]; intros n acc Hf Hn; [lia|]. cbn [write_digits].
  pose proof (Z.mod_pos_bound n 10 ltac:(lia)).
  destruct (Z.eqb_spec (n / 10) 0); [exists (n mod 10), acc; split; [lia|done]|].
  destruct fuel as [|fuel]; [exists (n mod 10), acc; split; [lia|done]|].
  apply IH; [lia|]. by apply Z.div_pos.
Qed.

Lemma digit_not_plus d : 0 <= d <= 9 -> Ascii.eqb (digit_char d) (Ascii.ascii_of_N 43) = false.
Proof.
  intros Hd. apply Ascii.eqb_neq. intros Heq.
  assert (Hc : char_digit (digit_char d) = Some d) by (by apply char_digit_char).
  by rewrite Heq in Hc.
Qed.

Lemma read_digits_range a s n :
  in_range 128 a -> read_digits a s = Some n -> in_range 128 n.
Proof.
  revert a. induction s as [|c s IH]; intros a Ha; simpl; [by intros [= <-]|].
  destruct (char_digit c) as [d|] eqn:Hd; simpl; [|done].
  destruct (checked_mul 128 a 10) as [m|] eqn:Hm; simpl; [|done].
  destruct (checked_add 128 m d) as [x|] eqn:Hx; simpl; [|done].
  apply IH. unfold char_digit, checked_mul, checked_add, in_range in *.
  destruct (_ && _) eqn:Hb in Hd; [|done]. apply andb_true_iff in Hb as [Hb1%Z.leb_le Hb2%Z.leb_le].
  destruct (Z.ltb_spec (a * 10) (2 ^ 128)); [|done]. destruct (Z.ltb_spec (m + d) (2 ^ 128)); [|done].
  simplify_eq. lia.
Qed.

(** An amount survives its text form: what the RPC server writes for a [u128] is read
    back as that amount, and a text that is read as an amount never overflows. *)
Theorem amount_text_roundtrip :
  (forall n, in_range 128 n -> deserialize_from_string (serialize_as_string n) = Ok n) /\
  (forall s n, deserialize_from_string s = Ok n -> in_range 128 n).
Proof.
  split.
  - intros n [Hn Hlt]. unfold deserialize_from_string, serialize_as_string, to_string, parse.
    destruct (write_digits_first 39 n "" ltac:(lia) Hn) as (d & s & Hd & Hs).
    destruct (read_write 39 n "" 0) as (k & Hk & Hread & _); [|lia|lia|].
    { split; [done|]. eapply Z.lt_le_trans; [exact Hlt|]. by vm_compute. }
    rewrite Hs in *. rewrite digit_not_plus by done. rewrite Hread by lia. by simpl.
  - intros s n. unfold deserialize_from_string. destruct (parse s) as [m|] eqn:Hp; [|done].
    intros [= <-]. unfold parse in Hp. destruct s as [|c s]; [done|].
    assert (H0 : in_range 128 0) by (split; [lia|by vm_compute]).
    destruct (Ascii.eqb c _); [destruct s; [done|]|]; by eapply read_digits_range.
Qed.

Lemma fold_snoc {A B} (f : A -> B) l acc :
  fold_left (fun vec b => (vec ++ [f b])%list) l acc = (acc ++ map f l)%list.
Proof.
  revert acc. induction l as [|a l IH]; intros acc; simpl; [by rewrite app_nil_r|].
  by rewrite IH, <- app_assoc.
Qed.

(** The runtime API lists the assets of the pool, each with the pool's free balance; an
    address that is no pool has none. *)
Lemma api_pool_balances_spec {C} `{MultiCurrency C} (pool : AccountId) (s : XykState C) :
  api_get_pool_balances pool s =
    map (fun a => mkBalanceInfo (free_balance a pool (chain s)) (Some a))
      (default [] (Xyk.get_pool_assets pool s)).
Proof.
  unfold api_get_pool_balances, Xyk.get_pool_balances. destruct (Xyk.get_pool_assets pool s) as [l|]; simpl; [|done].
  rewrite (fold_snoc (fun b => mkBalanceInfo (snd b) (Some (fst b)))). simpl. by rewrite map_map.
Qed.
