(* ===== verification/TestingRuntime.v ===== *)
(** * The code of the testing runtime

    [src/runtime/testing-basilisk/src/lib.rs] and its [xcm.rs] repeat code of the live
    runtime instead of sharing it.  This file translates the copies from the testing crate:
    version, limits of a block, fee polynomial, pool accounts, proxy filters, origins, the
    currency conversions and the runtime APIs of the pools; and proves that no copy has
    drifted from the original.  The configuration of the pallets is in [FrameConfig.v]. *)

From S2P Require Import Prelude Primitives Errors Interfaces Xyk Runtime Xcm Config Lbp Rpc.

(** ** Fees, blocks and accounts *)

Definition testing_WeightToFee_polynomial (weight_per_micros : Z) : Z * (Z * Z) :=
  let p := CENTS in
  let q := 10 * BasiliskExtrinsicBaseWeight weight_per_micros in
  (p / q, (p mod q, q)).

Definition testing_block_weights (weight_per_second weight_per_micros : Z) : BlockWeights :=
  let maximum := MAXIMUM_BLOCK_WEIGHT weight_per_second in {|
  base_extrinsic := BasiliskExtrinsicBaseWeight weight_per_micros;
  normal_max_total := perbill_of NORMAL_DISPATCH_RATIO maximum;
  operational_max_total := maximum;
  operational_reserved := maximum - perbill_of NORMAL_DISPATCH_RATIO maximum
|}.

Definition testing_pair_preimage (asset_a asset_b : AssetId) (identifier : string) : list Z :=
  let buf := as_bytes identifier in
  if asset_a <? asset_b
  then buf ++ to_le_bytes 4 asset_a ++ to_le_bytes 4 asset_b
  else buf ++ to_le_bytes 4 asset_b ++ to_le_bytes 4 asset_a.
Definition testing_accounts `{Hashing} : AssetPairAccountIdFor := {|
  from_assets asset_a asset_b identifier :=
    hash_account (testing_pair_preimage asset_a asset_b identifier)
|}.

(** ** Proxies *)

#[local] Existing Instance Calls.ProxyType_eq_dec.

Definition testing_filter (t : Calls.ProxyType) (c : Calls.Call) : bool :=
  match t with
  | Calls.Any => true
  | Calls.CancelProxy =>
      match c with Calls.Proxy Calls.reject_announcement => true | _ => false end
  | Calls.Governance =>
      match c with
      | Calls.Democracy | Calls.Council | Calls.TechnicalCommittee | Calls.Elections
      | Calls.Treasury | Calls.Tips | Calls.Utility => true
      | _ => false
      end
  | Calls.ExchangeProxy =>
      match c with Calls.XYK | Calls.Exchange | Calls.LBP | Calls.NFT => true | _ => false end
  | Calls.Transfer =>
      match c with Calls.Balances | Calls.Currencies | Calls.Tokens => true | _ => false end
  end.
Definition testing_is_superset (t o : Calls.ProxyType) : bool :=
  if decide (t = o) then true
  else match t, o with
       | Calls.Any, _ => true
       | _, Calls.Any => false
       | _, _ => false
       end.

(** [construct_runtime!]. *)
Definition testing_pallet_indices : list (string * Z) :=
  [("System", 0); ("Timestamp", 1); ("Balances", 2); ("TransactionPayment", 3); ("Treasury", 4);
   ("Utility", 5); ("Scheduler", 6); ("Democracy", 7); ("Elections", 8); ("Council", 9);
   ("TechnicalCommittee", 10); ("Vesting", 11); ("Proxy", 12); ("Tips", 13); ("Authorship", 14);
   ("CollatorSelection", 15); ("Session", 16); ("Aura", 17); ("AuraExt", 18); ("Preimage", 19);
   ("Uniques", 20); ("ParachainSystem", 50); ("ParachainInfo", 51); ("PolkadotXcm", 52);
   ("CumulusXcm", 53); ("XcmpQueue", 54); ("DmpQueue", 55); ("AssetRegistry", 100); ("XYK", 101);
   ("Duster", 102); ("Exchange", 103); ("LBP", 104); ("NFT", 105); ("LiquidityMining", 156);
   ("MultiTransactionPayment", 106); ("PriceOracle", 107); ("RelayChainInfo", 108);
   ("Marketplace", 109); ("Currencies", 150); ("Tokens", 151); ("OrmlXcm", 153);
   ("XTokens", 154); ("UnknownTokens", 155); ("Sudo", 255)]%string.

(** ** Origins *)

Section origins.
Context `{CollectiveChecks}.
Definition testing_EnsureMajorityCouncilOrRoot :=
  EnsureOneOf (proportion_at_least 1 2 CouncilCollective) EnsureRoot.
Definition testing_EnsureUnanimousCouncilOrRoot :=
  EnsureOneOf (proportion_at_least 1 1 CouncilCollective) EnsureRoot.
Definition testing_EnsureSuperMajorityCouncilOrRoot :=
  EnsureOneOf (proportion_at_least 2 3 CouncilCollective) EnsureRoot.
Definition testing_EnsureSuperMajorityTechCommitteeOrRoot :=
  EnsureOneOf (proportion_at_least 2 3 TechnicalCollective) EnsureRoot.
Definition testing_EnsureUnanimousTechCommitteOrRoot :=
  EnsureOneOf (proportion_at_least 1 1 TechnicalCollective) EnsureRoot.
Definition testing_AllCouncilMembers := proportion_at_least 1 1 CouncilCollective.
Definition testing_ManageOrigin := EnsureOneOf EnsureRoot testing_AllCouncilMembers.

Definition testing_try_root_or_treasury (treasury : AccountId) (o : RuntimeOrigin)
    : AccountId + RuntimeOrigin :=
  match o with
  | SystemOrigin Root => inl treasury
  | SystemOrigin (Signed caller) =>
      if caller =? treasury then inl caller else inr (SystemOrigin (Signed caller))
  | SystemOrigin r => inr (SystemOrigin r)
  | o => inr o
  end.
End origins.

(** ** Currencies across chains *)

Section convert.
Context `{LocationRegistry} `{ParachainInfo}.
Definition testing_SelfLocation : MultiLocation := mkLocation 1 [Parachain parachain_id].
Definition testing_Ancestry : MultiLocation := mkLocation 0 [Parachain parachain_id].
Definition testing_RelayNetwork : NetworkId := Kusama.
Definition testing_buy_weight {Assets XcmError} (weight : Z) (payment : Assets)
    : outcome XcmError Assets :=
  Ok payment.
Definition testing_convert_id (id : AssetId) : option MultiLocation :=
  if id =? CORE_ASSET_ID
  then Some (mkLocation 1 [Parachain parachain_id; GeneralIndex id])
  else match asset_to_location id with
       | Some loc => Some loc
       | None => None
       end.
Definition testing_convert_location (location : MultiLocation) : option AssetId :=
  match interior location with
  | [Parachain id; GeneralIndex index] =>
      if (parents location =? 1) && (id =? parachain_id) && (index mod 2 ^ 32 =? CORE_ASSET_ID)
      then Some CORE_ASSET_ID
      else location_to_asset location
  | [GeneralIndex index] =>
      if (parents location =? 0) && (index mod 2 ^ 32 =? CORE_ASSET_ID) then Some CORE_ASSET_ID
      else location_to_asset location
  | _ => location_to_asset location
  end.
Definition testing_convert_asset (asset : MultiAsset) : option AssetId :=
  match asset with
  | mkMultiAsset (Concrete location) _ => testing_convert_location location
  | _ => None
  end.
Definition testing_account_location (account : AccountId) : MultiLocation :=
  mkLocation 0 [AccountId32 NetworkAny account].
End convert.

(** ** Runtime APIs of the pools *)

Section api.
Context {C : Type} `{MultiCurrency C} `{AssetPairAccountIdFor}.
Definition testing_api_get_pool_balances (pool_address : AccountId) (s : XykState C)
    : list BalanceInfo :=
  match Xyk.get_pool_balances pool_address s with
  | Some pool_balances =>
      fold_left (fun vec b => (vec ++ [mkBalanceInfo (snd b) (Some (fst b))])%list) pool_balances []
  | None => []
  end.
Definition testing_api_xyk_get_pool_id (asset_a asset_b : AssetId) : AccountId :=
  Xyk.pair_account_from_assets asset_a asset_b.
Definition testing_api_lbp_get_pool_id (asset_a asset_b : AssetId) : AccountId :=
  Lbp.pair_account_from_assets asset_a asset_b.
End api.

(** ** The copies agree *)

(** Accounts, proxies and limits of the testing runtime are those of the live one, so the
    theorems about them hold for both. *)
Theorem testing_code_agrees `{Hashing} `{CollectiveChecks} :
  testing_WeightToFee_polynomial = WeightToFee_polynomial /\
  testing_block_weights = block_weights /\
  testing_accounts = Runtime_accounts /\
  testing_filter = Calls.filter /\ testing_is_superset = Calls.is_superset /\
  testing_try_root_or_treasury = try_root_or_treasury /\
  testing_EnsureMajorityCouncilOrRoot = EnsureMajorityCouncilOrRoot /\
  testing_EnsureUnanimousCouncilOrRoot = EnsureUnanimousCouncilOrRoot /\
  testing_EnsureSuperMajorityCouncilOrRoot = EnsureSuperMajorityCouncilOrRoot /\
  testing_EnsureSuperMajorityTechCommitteeOrRoot = EnsureSuperMajorityTechCommitteeOrRoot /\
  testing_EnsureUnanimousTechCommitteOrRoot = EnsureUnanimousTechCommitteOrRoot /\
  testing_ManageOrigin = ManageOrigin /\ testing_pallet_indices = pallet_indices.
Proof. split_and!; reflexivity. Qed.

(** So are the conversions of currencies and the answers of the runtime APIs. *)
Theorem testing_conversions_agree `{LocationRegistry} `{ParachainInfo} {C} `{MultiCurrency C}
    `{AssetPairAccountIdFor} :
  testing_convert_id = convert_id /\ testing_convert_location = convert_location /\
  testing_convert_asset = convert_asset /\ testing_account_location = account_location /\
  testing_SelfLocation = SelfLocation /\ testing_Ancestry = Ancestry /\
  testing_api_get_pool_balances (C := C) = api_get_pool_balances /\
  testing_api_xyk_get_pool_id = api_xyk_get_pool_id /\
  testing_api_lbp_get_pool_id = api_lbp_get_pool_id.
Proof. split_and!; reflexivity. Qed.
