(* ===== verification/FrameConfig.v ===== *)
(** * Configuration of the pallets

    Models the blocks [impl ...::Config for Runtime] of [src/runtime/basilisk/src/lib.rs]
    and of [src/runtime/testing-basilisk/src/lib.rs], one module for each crate that is
    configured: its associated types and constants as the fields of a record, once for
    the live and once for the testing runtime.  A field that names a pallet as a handler
    is that pallet, an origin is its check, a weight table the function of [Weights.v] or
    [FrameworkWeights.v], and the parameters of the pallets of this repository are the
    classes the pallets are proved against.  [None] stands for a [WeightInfo] of [()],
    the defaults of a crate outside the repository.  Associated types that only name the
    types of the model ([Event], [Call], [Balance], [Hash], ...) are left out. *)

From S2P Require Import Prelude Primitives Errors Interfaces Xyk XykProps Runtime Xcm Config Weights.
From S2P Require Import FrameworkWeights Lbp Nft Marketplace LiquidityMining TestingRuntime.

(** The pallets of [construct_runtime!]. *)
Module P.
Inductive t :=
| System | Timestamp | Balances | TransactionPayment | Treasury | Utility | Scheduler | Democracy
| Elections | Council | TechnicalCommittee | Vesting | Proxy | Tips | Authorship
| CollatorSelection | Session | Aura | AuraExt | Preimage | Uniques | ParachainSystem
| ParachainInfo | PolkadotXcm | CumulusXcm | XcmpQueue | DmpQueue | AssetRegistry | XYK | Duster
| Exchange | LBP | NFT | LiquidityMining | MultiTransactionPayment | PriceOracle
| RelayChainInfo | Marketplace | Currencies | Tokens | OrmlXcm | XTokens | UnknownTokens | Sudo.
End P.
Notation Pallet := P.t.

(** [WEIGHT_PER_SECOND] and [WEIGHT_PER_MICROS] of the framework. *)
Class WeightConstants := { WEIGHT_PER_SECOND : Z; WEIGHT_PER_MICROS : Z }.

(** The provider of the relay chain's block number: the live runtime's own
    ([Runtime.current_block_number]) or the one of the parachain system. *)
Inductive BlockSource := RelayChainBlockNumberProvider | CumulusRelaychainBlockNumberProvider.

(** ** Parameters of the common crate and of the testing runtime *)

Definition RegistryStrLimit : Z := 32.
Definition ElectionsPhragmenPalletId : string := "phrelect".
Definition LMPalletId : string := "LiqMinId".

(** [SlowAdjustingFeeUpdate]: a [Perquintill] and two numbers with 18 decimals. *)
Record FeeParams := mkFeeParams {
  TargetBlockFullness : Z; AdjustmentVariable : Z; MinimumMultiplier : Z
}.
Definition fee_params : FeeParams := {|
  TargetBlockFullness := 25 * 10 ^ 16; AdjustmentVariable := 6 * 10 ^ 18 / 100000;
  MinimumMultiplier := 10 ^ 18 / 1000000
|}.

(** [mod testing]. *)
Definition testing_LaunchPeriod : BlockNumber := MINUTES.
Definition testing_VotingPeriod : BlockNumber := MINUTES.
Definition testing_Period : Z := 10 * MINUTES.

Definition testing_preimage_params : PreimageParams := {|
  PreimageMaxSize := 4096 * 1024; PreimageBaseDeposit := currency_deposit 2 64;
  preimage_byte_deposit := currency_deposit 0 1
|}.

(** ** The configured crates *)

Module frame_system.
Record Config := mkConfig {
  BaseCallFilter : Calls.Call -> bool; BlockWeights : Config.BlockWeights; BlockLength : Z;
  BlockHashCount : BlockNumber; Version : RuntimeVersion; OnNewAccount : option Pallet;
  OnKilledAccount : option Pallet; SystemWeightInfo : SystemWeights -> Weight; SS58Prefix : Z;
  OnSetCode : Pallet; MaxConsumers : Z
}.
Definition basilisk_system `{RuntimeDbWeight} `{WeightConstants} : Config := {|
  BaseCallFilter := Calls.BaseFilter_contains;
  BlockWeights := Config.block_weights WEIGHT_PER_SECOND WEIGHT_PER_MICROS;
  BlockLength := max_block_length system_params;
  BlockHashCount := Config.BlockHashCount system_params; Version := VERSION; OnNewAccount := None;
  OnKilledAccount := None; SystemWeightInfo := system_runtime_weight;
  SS58Prefix := Config.SS58Prefix system_params; OnSetCode := P.ParachainSystem; MaxConsumers := 16
|}.
Definition testing_system `{RuntimeDbWeight} `{WeightConstants} : Config := {|
  BaseCallFilter := fun _ => true;
  BlockWeights := testing_block_weights WEIGHT_PER_SECOND WEIGHT_PER_MICROS;
  BlockLength := max_block_length system_params;
  BlockHashCount := Config.BlockHashCount system_params; Version := testing_VERSION;
  OnNewAccount := None; OnKilledAccount := None; SystemWeightInfo := system_runtime_weight;
  SS58Prefix := Config.SS58Prefix system_params; OnSetCode := P.ParachainSystem; MaxConsumers := 16
|}.
End frame_system.

Module pallet_timestamp.
Record Config := mkConfig {
  OnTimestampSet : option Pallet; MinimumPeriod : Z; WeightInfo : TimestampWeights -> Weight
}.
Definition basilisk_timestamp `{RuntimeDbWeight} : Config := {|
  OnTimestampSet := None; MinimumPeriod := Config.MinimumPeriod system_params;
  WeightInfo := timestamp_runtime_weight
|}.
Definition testing_timestamp `{RuntimeDbWeight} : Config := {|
  OnTimestampSet := None; MinimumPeriod := Config.MinimumPeriod system_params;
  WeightInfo := timestamp_runtime_weight
|}.
End pallet_timestamp.

Module pallet_balances.
Record Config := mkConfig {
  MaxLocks : Z; DustRemoval : Pallet; ExistentialDeposit : Balance; AccountStore : Pallet;
  WeightInfo : option (BalancesWeights -> Weight); MaxReserves : Z
}.
Definition basilisk_balances `{RuntimeDbWeight} : Config := {|
  MaxLocks := Config.MaxLocks system_params; DustRemoval := P.Treasury;
  ExistentialDeposit := NATIVE_EXISTENTIAL_DEPOSIT; AccountStore := P.System;
  WeightInfo := Some balances_runtime_weight; MaxReserves := Config.MaxReserves system_params
|}.
Definition testing_balances `{RuntimeDbWeight} : Config := {|
  MaxLocks := Config.MaxLocks system_params; DustRemoval := P.Treasury;
  ExistentialDeposit := NATIVE_EXISTENTIAL_DEPOSIT; AccountStore := P.System; WeightInfo := None;
  MaxReserves := Config.MaxReserves system_params
|}.
End pallet_balances.

Module pallet_transaction_payment.
(** The unit type for [OperationalFeeMultiplier] is the default, 0. *)
Record Config := mkConfig {
  OnChargeTransaction : Pallet * Pallet; TransactionByteFee : Balance; OperationalFeeMultiplier : Z;
  WeightToFee : Z * (Z * Z); FeeMultiplierUpdate : FeeParams
}.
Definition basilisk_transaction_payment `{WeightConstants} : Config := {|
  OnChargeTransaction := (P.Balances, P.MultiTransactionPayment);
  TransactionByteFee := Runtime.TransactionByteFee; OperationalFeeMultiplier := 0;
  WeightToFee := WeightToFee_polynomial WEIGHT_PER_MICROS; FeeMultiplierUpdate := fee_params
|}.
Definition testing_transaction_payment `{WeightConstants} : Config := {|
  OnChargeTransaction := (P.Balances, P.MultiTransactionPayment);
  TransactionByteFee := Runtime.TransactionByteFee; OperationalFeeMultiplier := 0;
  WeightToFee := testing_WeightToFee_polynomial WEIGHT_PER_MICROS; FeeMultiplierUpdate := fee_params
|}.
End pallet_transaction_payment.

Module pallet_transaction_multi_payment.
(** The testing runtime has the unit type for [NativeAssetId], the default asset 0. *)
Record Config := mkConfig {
  AcceptedCurrencyOrigin : RuntimeOrigin -> bool; Currencies : Pallet; SpotPriceProvider : Pallet;
  WeightInfo : PaymentWeights -> Weight; WithdrawFeeForSetCurrency : bool;
  WeightToFee : Z * (Z * Z); NativeAssetId : AssetId
}.
Definition basilisk_multi_payment `{RuntimeDbWeight} `{CollectiveChecks} `{WeightConstants} : Config := {|
  AcceptedCurrencyOrigin := EnsureSuperMajorityTechCommitteeOrRoot; Currencies := P.Currencies;
  SpotPriceProvider := P.XYK; WeightInfo := payment_runtime_weight;
  WithdrawFeeForSetCurrency := true; WeightToFee := WeightToFee_polynomial WEIGHT_PER_MICROS;
  NativeAssetId := CORE_ASSET_ID
|}.
Definition testing_multi_payment `{RuntimeDbWeight} `{CollectiveChecks} `{WeightConstants} : Config := {|
  AcceptedCurrencyOrigin := testing_EnsureSuperMajorityTechCommitteeOrRoot;
  Currencies := P.Currencies; SpotPriceProvider := P.XYK; WeightInfo := payment_runtime_weight;
  WithdrawFeeForSetCurrency := true;
  WeightToFee := testing_WeightToFee_polynomial WEIGHT_PER_MICROS; NativeAssetId := 0
|}.
End pallet_transaction_multi_payment.

Module pallet_proxy.
Record Config := mkConfig {
  Currency : Pallet; ProxyType : Calls.ProxyType -> Calls.Call -> bool; ProxyDepositBase : Balance;
  ProxyDepositFactor : Balance; MaxProxies : Z; MaxPending : Z; AnnouncementDepositBase : Balance;
  AnnouncementDepositFactor : Balance
}.
Definition basilisk_proxy : Config := {|
  Currency := P.Balances; ProxyType := Calls.filter;
  ProxyDepositBase := Config.ProxyDepositBase proxy_params;
  ProxyDepositFactor := Config.ProxyDepositFactor proxy_params;
  MaxProxies := Config.MaxProxies proxy_params; MaxPending := Config.MaxPending proxy_params;
  AnnouncementDepositBase := Config.AnnouncementDepositBase proxy_params;
  AnnouncementDepositFactor := Config.AnnouncementDepositFactor proxy_params
|}.
Definition testing_proxy : Config := {|
  Currency := P.Balances; ProxyType := testing_filter;
  ProxyDepositBase := Config.ProxyDepositBase proxy_params;
  ProxyDepositFactor := Config.ProxyDepositFactor proxy_params;
  MaxProxies := Config.MaxProxies proxy_params; MaxPending := Config.MaxPending proxy_params;
  AnnouncementDepositBase := Config.AnnouncementDepositBase proxy_params;
  AnnouncementDepositFactor := Config.AnnouncementDepositFactor proxy_params
|}.
End pallet_proxy.

Module orml_tokens.
Record Config := mkConfig {
  WeightInfo : option (TokensWeights -> Weight); ExistentialDeposits : Pallet; OnDust : Pallet;
  MaxLocks : Z; DustRemovalWhitelist : Pallet
}.
Definition basilisk_tokens `{RuntimeDbWeight} : Config := {|
  WeightInfo := Some tokens_runtime_weight; ExistentialDeposits := P.AssetRegistry;
  OnDust := P.Duster; MaxLocks := Config.MaxLocks system_params; DustRemovalWhitelist := P.Duster
|}.
Definition testing_tokens `{RuntimeDbWeight} : Config := {|
  WeightInfo := None; ExistentialDeposits := P.AssetRegistry; OnDust := P.Duster;
  MaxLocks := Config.MaxLocks system_params; DustRemovalWhitelist := P.Duster
|}.
End orml_tokens.

Module orml_currencies.
(** [MultiCurrency] is reached through [OrmlTokensAdapter] ([Adapter.v]). *)
Record Config := mkConfig {
  MultiCurrency : Pallet; NativeCurrency : Pallet; GetNativeCurrencyId : AssetId;
  WeightInfo : option (CurrenciesWeights -> Weight)
}.
Definition basilisk_currencies `{RuntimeDbWeight} : Config := {|
  MultiCurrency := P.Tokens; NativeCurrency := P.Balances; GetNativeCurrencyId := CORE_ASSET_ID;
  WeightInfo := Some currencies_runtime_weight
|}.
Definition testing_currencies `{RuntimeDbWeight} : Config := {|
  MultiCurrency := P.Tokens; NativeCurrency := P.Balances; GetNativeCurrencyId := CORE_ASSET_ID;
  WeightInfo := None
|}.
End orml_currencies.

Module pallet_duster.
Record Config := mkConfig {
  MultiCurrency : Pallet; MinCurrencyDeposits : Pallet; Reward : Balance;
  NativeCurrencyId : AssetId; WeightInfo : DusterWeights -> Weight
}.
Definition basilisk_duster `{RuntimeDbWeight} : Config := {|
  MultiCurrency := P.Currencies; MinCurrencyDeposits := P.AssetRegistry; Reward := DustingReward;
  NativeCurrencyId := CORE_ASSET_ID; WeightInfo := duster_runtime_weight
|}.
Definition testing_duster `{RuntimeDbWeight} : Config := {|
  MultiCurrency := P.Currencies; MinCurrencyDeposits := P.AssetRegistry; Reward := DustingReward;
  NativeCurrencyId := CORE_ASSET_ID; WeightInfo := duster_runtime_weight
|}.
End pallet_duster.

Module pallet_asset_registry.
(** [AssetNativeLocation] is given by its default, [AssetLocation::default]. *)
Record Config := mkConfig {
  RegistryOrigin : RuntimeOrigin -> bool; AssetNativeLocation : MultiLocation; StringLimit : Z;
  NativeAssetId : AssetId; WeightInfo : AssetRegistryWeights -> Weight
}.
Definition basilisk_asset_registry `{RuntimeDbWeight} `{CollectiveChecks} : Config := {|
  RegistryOrigin := EnsureSuperMajorityTechCommitteeOrRoot; AssetNativeLocation := mkLocation 0 [];
  StringLimit := RegistryStrLimit; NativeAssetId := CORE_ASSET_ID;
  WeightInfo := asset_registry_runtime_weight
|}.
Definition testing_asset_registry `{RuntimeDbWeight} `{CollectiveChecks} : Config := {|
  RegistryOrigin := testing_EnsureSuperMajorityTechCommitteeOrRoot;
  AssetNativeLocation := mkLocation 0 []; StringLimit := RegistryStrLimit;
  NativeAssetId := CORE_ASSET_ID; WeightInfo := asset_registry_runtime_weight
|}.
End pallet_asset_registry.

Module pallet_xyk.
Record Config := mkConfig {
  AssetRegistry : Pallet; Currency : Pallet; parameters : XykConfig;
  WeightInfo : XykWeights -> Weight; CanCreatePool : Pallet; AMMHandler : Pallet
}.
Definition basilisk_xyk `{RuntimeDbWeight} : Config := {|
  AssetRegistry := P.AssetRegistry; Currency := P.Currencies;
  parameters := {| NativeAssetId := CORE_ASSET_ID; GetExchangeFee := ExchangeFee;
    MinTradingLimit := MIN_TRADING_LIMIT; MinPoolLiquidity := MIN_POOL_LIQUIDITY;
    MaxInRatio := MAX_IN_RATIO; MaxOutRatio := MAX_OUT_RATIO |};
  WeightInfo := xyk_runtime_weight; CanCreatePool := P.LBP; AMMHandler := P.PriceOracle
|}.
Definition testing_xyk `{RuntimeDbWeight} : Config := {|
  AssetRegistry := P.AssetRegistry; Currency := P.Currencies;
  parameters := {| NativeAssetId := CORE_ASSET_ID; GetExchangeFee := ExchangeFee;
    MinTradingLimit := MIN_TRADING_LIMIT; MinPoolLiquidity := MIN_POOL_LIQUIDITY;
    MaxInRatio := MAX_IN_RATIO; MaxOutRatio := MAX_OUT_RATIO |};
  WeightInfo := xyk_runtime_weight; CanCreatePool := P.LBP; AMMHandler := P.PriceOracle
|}.
End pallet_xyk.

Module pallet_exchange.
Record Config := mkConfig {
  AMMPool : Pallet; Resolver : Pallet; Currency : Pallet; WeightInfo : ExchangeWeights -> Weight
}.
Definition basilisk_exchange `{RuntimeDbWeight} : Config := {|
  AMMPool := P.XYK; Resolver := P.Exchange; Currency := P.Currencies;
  WeightInfo := exchange_runtime_weight
|}.
Definition testing_exchange `{RuntimeDbWeight} : Config := {|
  AMMPool := P.XYK; Resolver := P.Exchange; Currency := P.Currencies;
  WeightInfo := exchange_runtime_weight
|}.
End pallet_exchange.

Module pallet_lbp.
Record Config := mkConfig {
  MultiCurrency : Pallet; CreatePoolOrigin : RuntimeOrigin -> bool; parameters : LbpConfig;
  WeightInfo : LbpWeights -> Weight; BlockNumberProvider : BlockSource
}.
Definition basilisk_lbp `{RuntimeDbWeight} `{CollectiveChecks} : Config := {|
  MultiCurrency := P.Currencies; CreatePoolOrigin := EnsureSuperMajorityTechCommitteeOrRoot;
  parameters := {| LbpMinTradingLimit := MIN_TRADING_LIMIT; LbpMinPoolLiquidity := MIN_POOL_LIQUIDITY;
    LbpMaxInRatio := MAX_IN_RATIO; LbpMaxOutRatio := MAX_OUT_RATIO |};
  WeightInfo := lbp_runtime_weight; BlockNumberProvider := RelayChainBlockNumberProvider
|}.
Definition testing_lbp `{RuntimeDbWeight} `{CollectiveChecks} : Config := {|
  MultiCurrency := P.Currencies; CreatePoolOrigin := testing_EnsureSuperMajorityTechCommitteeOrRoot;
  parameters := {| LbpMinTradingLimit := MIN_TRADING_LIMIT; LbpMinPoolLiquidity := MIN_POOL_LIQUIDITY;
    LbpMaxInRatio := MAX_IN_RATIO; LbpMaxOutRatio := MAX_OUT_RATIO |};
  WeightInfo := lbp_runtime_weight; BlockNumberProvider := CumulusRelaychainBlockNumberProvider
|}.
End pallet_lbp.

Module pallet_price_oracle.
Record Config := mkConfig {
  WeightInfo : PriceOracleWeights -> Weight
}.
Definition basilisk_price_oracle `{RuntimeDbWeight} : Config := {|
  WeightInfo := price_oracle_runtime_weight
|}.
Definition testing_price_oracle `{RuntimeDbWeight} : Config := {|
  WeightInfo := price_oracle_runtime_weight
|}.
End pallet_price_oracle.

Module cumulus_pallet_parachain_system.
Record Config := mkConfig {
  OnSystemEvent : Pallet; SelfParaId : Pallet; OutboundXcmpMessageSource : Pallet;
  DmpMessageHandler : Pallet; ReservedDmpWeight : Z; XcmpMessageHandler : Pallet;
  ReservedXcmpWeight : Z
}.
Definition basilisk_parachain_system `{WeightConstants} : Config := {|
  OnSystemEvent := P.RelayChainInfo; SelfParaId := P.ParachainInfo;
  OutboundXcmpMessageSource := P.XcmpQueue; DmpMessageHandler := P.DmpQueue;
  ReservedDmpWeight := Config.ReservedDmpWeight (block_weights WEIGHT_PER_SECOND WEIGHT_PER_MICROS);
  XcmpMessageHandler := P.XcmpQueue;
  ReservedXcmpWeight := Config.ReservedXcmpWeight (block_weights WEIGHT_PER_SECOND WEIGHT_PER_MICROS)
|}.
Definition testing_parachain_system `{WeightConstants} : Config := {|
  OnSystemEvent := P.RelayChainInfo; SelfParaId := P.ParachainInfo;
  OutboundXcmpMessageSource := P.XcmpQueue; DmpMessageHandler := P.DmpQueue;
  ReservedDmpWeight := Config.ReservedDmpWeight (testing_block_weights WEIGHT_PER_SECOND WEIGHT_PER_MICROS);
  XcmpMessageHandler := P.XcmpQueue;
  ReservedXcmpWeight := Config.ReservedXcmpWeight (testing_block_weights WEIGHT_PER_SECOND WEIGHT_PER_MICROS)
|}.
End cumulus_pallet_parachain_system.

Module pallet_aura.
Record Config := mkConfig {
  MaxAuthorities : Z; DisabledValidators : option Pallet
}.
Definition basilisk_aura : Config := {|
  MaxAuthorities := Config.MaxAuthorities system_params; DisabledValidators := None
|}.
Definition testing_aura : Config := {|
  MaxAuthorities := Config.MaxAuthorities system_params; DisabledValidators := None
|}.
End pallet_aura.

Module pallet_nft.
Record Config := mkConfig {
  Currency : Pallet; WeightInfo : NftWeights -> Weight; ProtocolOrigin : RuntimeOrigin -> bool;
  parameters : NftConfig
}.
Definition basilisk_nft `{RuntimeDbWeight} : Config := {|
  Currency := P.Balances; WeightInfo := nft_runtime_weight; ProtocolOrigin := EnsureRoot;
  parameters := {| NftReserveClassIdUpTo := ReserveClassIdUpTo; Permissions := NftPermissions |}
|}.
Definition testing_nft `{RuntimeDbWeight} : Config := {|
  Currency := P.Balances; WeightInfo := nft_pallet_weight; ProtocolOrigin := EnsureRoot;
  parameters := {| NftReserveClassIdUpTo := 999; Permissions := NftPermissions |}
|}.
End pallet_nft.

Module pallet_democracy.
(** In both runtimes the parameter [PreimageByteDeposit] of the preimage pallet shadows
    the one of the common crate. *)
Record Config := mkConfig {
  Currency : Pallet; EnactmentPeriod : BlockNumber; LaunchPeriod : BlockNumber;
  VotingPeriod : BlockNumber; MinimumDeposit : Balance; ExternalOrigin : RuntimeOrigin -> bool;
  ExternalMajorityOrigin : RuntimeOrigin -> bool; ExternalDefaultOrigin : RuntimeOrigin -> bool;
  FastTrackOrigin : RuntimeOrigin -> bool; InstantOrigin : RuntimeOrigin -> bool;
  InstantAllowed : bool; FastTrackVotingPeriod : BlockNumber;
  CancellationOrigin : RuntimeOrigin -> bool; CancelProposalOrigin : RuntimeOrigin -> bool;
  BlacklistOrigin : RuntimeOrigin -> bool; VetoOrigin : RuntimeOrigin -> bool;
  CooloffPeriod : BlockNumber; PreimageByteDeposit : Balance;
  OperationalPreimageOrigin : RuntimeOrigin -> bool; Slash : Pallet; Scheduler : Pallet;
  MaxVotes : Z; WeightInfo : DemocracyWeights -> Weight; MaxProposals : Z;
  VoteLockingPeriod : BlockNumber
}.
Definition basilisk_democracy `{RuntimeDbWeight} `{CollectiveChecks} : Config := {|
  Currency := P.Balances; EnactmentPeriod := Config.EnactmentPeriod democracy_params;
  LaunchPeriod := Config.LaunchPeriod democracy_params;
  VotingPeriod := Config.VotingPeriod democracy_params;
  MinimumDeposit := Config.MinimumDeposit democracy_params;
  ExternalOrigin := EnsureMajorityCouncilOrRoot;
  ExternalMajorityOrigin := EnsureMajorityCouncilOrRoot;
  ExternalDefaultOrigin := EnsureUnanimousCouncilOrRoot;
  FastTrackOrigin := EnsureSuperMajorityTechCommitteeOrRoot;
  InstantOrigin := EnsureUnanimousTechCommitteOrRoot;
  InstantAllowed := Config.InstantAllowed democracy_params;
  FastTrackVotingPeriod := Config.FastTrackVotingPeriod democracy_params;
  CancellationOrigin := EnsureSuperMajorityCouncilOrRoot;
  CancelProposalOrigin := EnsureUnanimousTechCommitteOrRoot; BlacklistOrigin := EnsureRoot;
  VetoOrigin := is_member_of TechnicalCollective;
  CooloffPeriod := Config.CooloffPeriod democracy_params;
  PreimageByteDeposit := preimage_byte_deposit preimage_params;
  OperationalPreimageOrigin := is_member_of CouncilCollective; Slash := P.Treasury;
  Scheduler := P.Scheduler; MaxVotes := Config.MaxVotes democracy_params;
  WeightInfo := democracy_runtime_weight; MaxProposals := Config.MaxProposals democracy_params;
  VoteLockingPeriod := Config.EnactmentPeriod democracy_params
|}.
Definition testing_democracy `{RuntimeDbWeight} `{CollectiveChecks} : Config := {|
  Currency := P.Balances; EnactmentPeriod := Config.EnactmentPeriod democracy_params;
  LaunchPeriod := testing_LaunchPeriod; VotingPeriod := testing_VotingPeriod;
  MinimumDeposit := Config.MinimumDeposit democracy_params;
  ExternalOrigin := testing_EnsureMajorityCouncilOrRoot;
  ExternalMajorityOrigin := testing_EnsureMajorityCouncilOrRoot;
  ExternalDefaultOrigin := testing_EnsureUnanimousCouncilOrRoot;
  FastTrackOrigin := testing_EnsureSuperMajorityTechCommitteeOrRoot;
  InstantOrigin := testing_EnsureUnanimousTechCommitteOrRoot;
  InstantAllowed := Config.InstantAllowed democracy_params;
  FastTrackVotingPeriod := Config.FastTrackVotingPeriod democracy_params;
  CancellationOrigin := testing_EnsureSuperMajorityCouncilOrRoot;
  CancelProposalOrigin := testing_EnsureUnanimousTechCommitteOrRoot; BlacklistOrigin := EnsureRoot;
  VetoOrigin := is_member_of TechnicalCollective;
  CooloffPeriod := Config.CooloffPeriod democracy_params;
  PreimageByteDeposit := preimage_byte_deposit testing_preimage_params;
  OperationalPreimageOrigin := is_member_of CouncilCollective; Slash := P.Treasury;
  Scheduler := P.Scheduler; MaxVotes := Config.MaxVotes democracy_params;
  WeightInfo := democracy_runtime_weight; MaxProposals := Config.MaxProposals democracy_params;
  VoteLockingPeriod := Config.EnactmentPeriod democracy_params
|}.
End pallet_democracy.

Module pallet_elections_phragmen.
Record Config := mkConfig {
  PalletId : string; Currency : Pallet; ChangeMembers : Pallet; InitializeMembers : option Pallet;
  CandidacyBond : Balance; VotingBondBase : Balance; VotingBondFactor : Balance;
  LoserCandidate : Pallet; KickedMember : Pallet; DesiredMembers : Z; DesiredRunnersUp : Z;
  TermDuration : BlockNumber
}.
Definition basilisk_elections : Config := {|
  PalletId := ElectionsPhragmenPalletId; Currency := P.Balances; ChangeMembers := P.Council;
  InitializeMembers := None; CandidacyBond := Config.CandidacyBond elections_params;
  VotingBondBase := Config.VotingBondBase elections_params;
  VotingBondFactor := Config.VotingBondFactor elections_params; LoserCandidate := P.Treasury;
  KickedMember := P.Treasury; DesiredMembers := Config.DesiredMembers elections_params;
  DesiredRunnersUp := Config.DesiredRunnersUp elections_params;
  TermDuration := Config.TermDuration elections_params
|}.
Definition testing_elections : Config := {|
  PalletId := ElectionsPhragmenPalletId; Currency := P.Balances; ChangeMembers := P.Council;
  InitializeMembers := None; CandidacyBond := Config.CandidacyBond elections_params;
  VotingBondBase := Config.VotingBondBase elections_params;
  VotingBondFactor := Config.VotingBondFactor elections_params; LoserCandidate := P.Treasury;
  KickedMember := P.Treasury; DesiredMembers := Config.DesiredMembers elections_params;
  DesiredRunnersUp := Config.DesiredRunnersUp elections_params;
  TermDuration := Config.TermDuration elections_params
|}.
End pallet_elections_phragmen.

Module pallet_collective.
Record Config := mkConfig {
  MotionDuration : BlockNumber; MaxProposals : Z; MaxMembers : Z
}.
Definition basilisk_council : Config := {|
  MotionDuration := Config.MotionDuration council_params;
  MaxProposals := CollectiveMaxProposals council_params;
  MaxMembers := Config.MaxMembers council_params
|}.
Definition testing_council : Config := {|
  MotionDuration := Config.MotionDuration council_params;
  MaxProposals := CollectiveMaxProposals council_params;
  MaxMembers := Config.MaxMembers council_params
|}.
Definition basilisk_technical : Config := {|
  MotionDuration := Config.MotionDuration technical_params;
  MaxProposals := CollectiveMaxProposals technical_params;
  MaxMembers := Config.MaxMembers technical_params
|}.
Definition testing_technical : Config := {|
  MotionDuration := Config.MotionDuration technical_params;
  MaxProposals := CollectiveMaxProposals technical_params;
  MaxMembers := Config.MaxMembers technical_params
|}.
End pallet_collective.

Module pallet_treasury.
Record Config := mkConfig {
  PalletId : string; Currency : Pallet; ApproveOrigin : RuntimeOrigin -> bool;
  RejectOrigin : RuntimeOrigin -> bool; OnSlash : Pallet; ProposalBond : Z;
  ProposalBondMinimum : Balance; ProposalBondMaximum : Balance; SpendPeriod : BlockNumber; Burn : Z;
  BurnDestination : option Pallet; WeightInfo : TreasuryWeights -> Weight;
  SpendFunds : option Pallet; MaxApprovals : Z
}.
Definition basilisk_treasury `{RuntimeDbWeight} `{CollectiveChecks} : Config := {|
  PalletId := TreasuryPalletId treasury_params; Currency := P.Balances;
  ApproveOrigin := ManageOrigin; RejectOrigin := ManageOrigin; OnSlash := P.Treasury;
  ProposalBond := Config.ProposalBond treasury_params;
  ProposalBondMinimum := Config.ProposalBondMinimum treasury_params;
  ProposalBondMaximum := Config.ProposalBondMaximum treasury_params;
  SpendPeriod := Config.SpendPeriod treasury_params; Burn := Config.Burn treasury_params;
  BurnDestination := None; WeightInfo := treasury_runtime_weight; SpendFunds := None;
  MaxApprovals := Config.MaxApprovals treasury_params
|}.
Definition testing_treasury `{RuntimeDbWeight} `{CollectiveChecks} : Config := {|
  PalletId := TreasuryPalletId treasury_params; Currency := P.Balances;
  ApproveOrigin := testing_ManageOrigin; RejectOrigin := testing_ManageOrigin;
  OnSlash := P.Treasury; ProposalBond := Config.ProposalBond treasury_params;
  ProposalBondMinimum := Config.ProposalBondMinimum treasury_params;
  ProposalBondMaximum := Config.ProposalBondMaximum treasury_params;
  SpendPeriod := Config.SpendPeriod treasury_params; Burn := Config.Burn treasury_params;
  BurnDestination := None; WeightInfo := treasury_runtime_weight; SpendFunds := None;
  MaxApprovals := Config.MaxApprovals treasury_params
|}.
End pallet_treasury.

Module pallet_scheduler.
Record Config := mkConfig {
  MaximumWeight : Z; ScheduleOrigin : RuntimeOrigin -> bool; MaxScheduledPerBlock : Z;
  WeightInfo : SchedulerWeights -> Weight; PreimageProvider : Pallet;
  NoPreimagePostponement : option Z
}.
Definition basilisk_scheduler `{RuntimeDbWeight} `{WeightConstants} : Config := {|
  MaximumWeight := MaximumSchedulerWeight (block_weights WEIGHT_PER_SECOND WEIGHT_PER_MICROS);
  ScheduleOrigin := EnsureRoot; MaxScheduledPerBlock := Config.MaxScheduledPerBlock;
  WeightInfo := scheduler_runtime_weight; PreimageProvider := P.Preimage;
  NoPreimagePostponement := Config.NoPreimagePostponement
|}.
Definition testing_scheduler `{RuntimeDbWeight} `{WeightConstants} : Config := {|
  MaximumWeight := MaximumSchedulerWeight (testing_block_weights WEIGHT_PER_SECOND WEIGHT_PER_MICROS);
  ScheduleOrigin := EnsureRoot; MaxScheduledPerBlock := Config.MaxScheduledPerBlock;
  WeightInfo := scheduler_runtime_weight; PreimageProvider := P.Preimage;
  NoPreimagePostponement := Config.NoPreimagePostponement
|}.
End pallet_scheduler.

Module pallet_utility.
Record Config := mkConfig {
  WeightInfo : UtilityWeights -> Weight
}.
Definition basilisk_utility `{RuntimeDbWeight} : Config := {|
  WeightInfo := utility_runtime_weight
|}.
Definition testing_utility `{RuntimeDbWeight} : Config := {|
  WeightInfo := utility_runtime_weight
|}.
End pallet_utility.

Module pallet_authorship.
Record Config := mkConfig {
  FindAuthor : Pallet; UncleGenerations : Z; FilterUncle : option Pallet; EventHandler : list Pallet
}.
Definition basilisk_authorship : Config := {|
  FindAuthor := P.Aura; UncleGenerations := 0; FilterUncle := None;
  EventHandler := [P.CollatorSelection]
|}.
Definition testing_authorship : Config := {|
  FindAuthor := P.Aura; UncleGenerations := 0; FilterUncle := None;
  EventHandler := [P.CollatorSelection]
|}.
End pallet_authorship.

Module pallet_tips.
Record Config := mkConfig {
  DataDepositPerByte : Balance; MaximumReasonLength : Z; Tippers : Pallet;
  TipCountdown : BlockNumber; TipFindersFee : Z; TipReportDepositBase : Balance
}.
Definition basilisk_tips : Config := {|
  DataDepositPerByte := Config.DataDepositPerByte tips_params;
  MaximumReasonLength := Config.MaximumReasonLength tips_params; Tippers := P.Elections;
  TipCountdown := Config.TipCountdown tips_params;
  TipFindersFee := Config.TipFindersFee tips_params;
  TipReportDepositBase := Config.TipReportDepositBase tips_params
|}.
Definition testing_tips : Config := {|
  DataDepositPerByte := Config.DataDepositPerByte tips_params;
  MaximumReasonLength := Config.MaximumReasonLength tips_params; Tippers := P.Elections;
  TipCountdown := Config.TipCountdown tips_params;
  TipFindersFee := Config.TipFindersFee tips_params;
  TipReportDepositBase := Config.TipReportDepositBase tips_params
|}.
End pallet_tips.

Module pallet_collator_selection.
Record Config := mkConfig {
  Currency : Pallet; UpdateOrigin : RuntimeOrigin -> bool; PotId : string; MaxCandidates : Z;
  MinCandidates : Z; MaxInvulnerables : Z; KickThreshold : BlockNumber;
  ValidatorRegistration : Pallet; WeightInfo : option (CollatorSelectionWeights -> Weight)
}.
Definition basilisk_collator_selection `{RuntimeDbWeight} `{CollectiveChecks} : Config := {|
  Currency := P.Balances; UpdateOrigin := EnsureMajorityCouncilOrRoot;
  PotId := Config.PotId collator_params; MaxCandidates := Config.MaxCandidates collator_params;
  MinCandidates := Config.MinCandidates collator_params;
  MaxInvulnerables := Config.MaxInvulnerables collator_params;
  KickThreshold := Period session_params; ValidatorRegistration := P.Session;
  WeightInfo := Some collator_selection_runtime_weight
|}.
Definition testing_collator_selection `{RuntimeDbWeight} `{CollectiveChecks} : Config := {|
  Currency := P.Balances; UpdateOrigin := testing_EnsureMajorityCouncilOrRoot;
  PotId := Config.PotId collator_params; MaxCandidates := Config.MaxCandidates collator_params;
  MinCandidates := Config.MinCandidates collator_params;
  MaxInvulnerables := Config.MaxInvulnerables collator_params; KickThreshold := testing_Period;
  ValidatorRegistration := P.Session; WeightInfo := None
|}.
End pallet_collator_selection.

Module pallet_session.
(** [PeriodicSessions<Period, Offset>] is the pair; the only session key is that of Aura. *)
Record Config := mkConfig {
  ShouldEndSession : Z * Z; NextSessionRotation : Z * Z; SessionManager : Pallet;
  SessionHandler : list Pallet
}.
Definition basilisk_session : Config := {|
  ShouldEndSession := (Period session_params, Offset session_params);
  NextSessionRotation := (Period session_params, Offset session_params);
  SessionManager := P.CollatorSelection; SessionHandler := [P.Aura]
|}.
Definition testing_session : Config := {|
  ShouldEndSession := (testing_Period, Offset session_params);
  NextSessionRotation := (testing_Period, Offset session_params);
  SessionManager := P.CollatorSelection; SessionHandler := [P.Aura]
|}.
End pallet_session.

Module orml_vesting.
Record Config := mkConfig {
  Currency : Pallet; MinVestedTransfer : Balance;
  VestedTransferOrigin : AccountId -> RuntimeOrigin -> AccountId + RuntimeOrigin;
  WeightInfo : option (VestingWeights -> Weight); MaxVestingSchedules : Z;
  BlockNumberProvider : BlockSource
}.
Definition basilisk_vesting `{RuntimeDbWeight} `{CollectiveChecks} : Config := {|
  Currency := P.Balances; MinVestedTransfer := Config.MinVestedTransfer vesting_params;
  VestedTransferOrigin := try_root_or_treasury; WeightInfo := Some vesting_runtime_weight;
  MaxVestingSchedules := Config.MaxVestingSchedules vesting_params;
  BlockNumberProvider := RelayChainBlockNumberProvider
|}.
Definition testing_vesting `{RuntimeDbWeight} `{CollectiveChecks} : Config := {|
  Currency := P.Balances; MinVestedTransfer := Config.MinVestedTransfer vesting_params;
  VestedTransferOrigin := testing_try_root_or_treasury; WeightInfo := None;
  MaxVestingSchedules := Config.MaxVestingSchedules vesting_params;
  BlockNumberProvider := CumulusRelaychainBlockNumberProvider
|}.
End orml_vesting.

Module pallet_marketplace.
Record Config := mkConfig {
  WeightInfo : MarketWeights -> Weight; parameters : MarketConfig
}.
Definition basilisk_marketplace `{RuntimeDbWeight} : Config := {|
  WeightInfo := marketplace_pallet_weight;
  parameters := {| MarketMinimumOfferAmount := MinimumOfferAmount;
    MarketRoyaltyBondAmount := RoyaltyBondAmount |}
|}.
Definition testing_marketplace `{RuntimeDbWeight} : Config := {|
  WeightInfo := marketplace_pallet_weight;
  parameters := {| MarketMinimumOfferAmount := 10000 * UNITS; MarketRoyaltyBondAmount := 2000 * UNITS |}
|}.
End pallet_marketplace.

Module pallet_uniques.
Record Config := mkConfig {
  Currency : Pallet; ForceOrigin : RuntimeOrigin -> bool; parameters : UniquesParams
}.
Definition basilisk_uniques_config : Config := {|
  Currency := P.Balances; ForceOrigin := EnsureRoot; parameters := uniques_params
|}.
Definition testing_uniques_config : Config := {|
  Currency := P.Balances; ForceOrigin := EnsureRoot; parameters := testing_uniques_params
|}.
End pallet_uniques.

Module pallet_relaychain_info.
Record Config := mkConfig {
  RelaychainBlockNumberProvider : BlockSource
}.
Definition basilisk_relaychain_info : Config := {|
  RelaychainBlockNumberProvider := RelayChainBlockNumberProvider
|}.
Definition testing_relaychain_info : Config := {|
  RelaychainBlockNumberProvider := CumulusRelaychainBlockNumberProvider
|}.
End pallet_relaychain_info.

Module pallet_liquidity_mining.
Record Config := mkConfig {
  MultiCurrency : Pallet; PalletId : string; parameters : LmConfig;
  BlockNumberProvider : BlockSource; AMM : Pallet; WeightInfo : LmWeights -> Weight
}.
Definition basilisk_liquidity_mining `{RuntimeDbWeight} : Config := {|
  MultiCurrency := P.Currencies; PalletId := LMPalletId;
  parameters := {| may_create_farm o := EnsureRoot (SystemOrigin o);
    MinPlannedYieldingPeriods := Runtime.MinPlannedYieldingPeriods;
    MinTotalFarmRewards := Runtime.MinTotalFarmRewards; NftClass := Runtime.NftClass |};
  BlockNumberProvider := RelayChainBlockNumberProvider; AMM := P.XYK; WeightInfo := lm_unit_weight
|}.
Definition testing_liquidity_mining `{RuntimeDbWeight} : Config := {|
  MultiCurrency := P.Currencies; PalletId := LMPalletId;
  parameters := {| may_create_farm o := EnsureRoot (SystemOrigin o);
    MinPlannedYieldingPeriods := Runtime.MinPlannedYieldingPeriods;
    MinTotalFarmRewards := Runtime.MinTotalFarmRewards; NftClass := Runtime.NftClass |};
  BlockNumberProvider := CumulusRelaychainBlockNumberProvider; AMM := P.XYK;
  WeightInfo := lm_unit_weight
|}.
End pallet_liquidity_mining.

Module pallet_preimage.
Record Config := mkConfig {
  Currency : Pallet; ManagerOrigin : RuntimeOrigin -> bool; MaxSize : Z; BaseDeposit : Balance;
  ByteDeposit : Balance
}.
Definition basilisk_preimage : Config := {|
  Currency := P.Balances; ManagerOrigin := EnsureRoot; MaxSize := PreimageMaxSize preimage_params;
  BaseDeposit := PreimageBaseDeposit preimage_params;
  ByteDeposit := preimage_byte_deposit preimage_params
|}.
Definition testing_preimage : Config := {|
  Currency := P.Balances; ManagerOrigin := EnsureRoot;
  MaxSize := PreimageMaxSize testing_preimage_params;
  BaseDeposit := PreimageBaseDeposit testing_preimage_params;
  ByteDeposit := preimage_byte_deposit testing_preimage_params
|}.
End pallet_preimage.

Record RuntimeOf := mkRuntime {
  rt_system : frame_system.Config; rt_timestamp : pallet_timestamp.Config;
  rt_balances : pallet_balances.Config; rt_transaction_payment : pallet_transaction_payment.Config;
  rt_multi_payment : pallet_transaction_multi_payment.Config; rt_proxy : pallet_proxy.Config;
  rt_tokens : orml_tokens.Config; rt_currencies : orml_currencies.Config;
  rt_duster : pallet_duster.Config; rt_asset_registry : pallet_asset_registry.Config;
  rt_xyk : pallet_xyk.Config; rt_exchange : pallet_exchange.Config; rt_lbp : pallet_lbp.Config;
  rt_price_oracle : pallet_price_oracle.Config;
  rt_parachain_system : cumulus_pallet_parachain_system.Config; rt_aura : pallet_aura.Config;
  rt_nft : pallet_nft.Config; rt_democracy : pallet_democracy.Config;
  rt_elections : pallet_elections_phragmen.Config; rt_council : pallet_collective.Config;
  rt_technical : pallet_collective.Config; rt_treasury : pallet_treasury.Config;
  rt_scheduler : pallet_scheduler.Config; rt_utility : pallet_utility.Config;
  rt_authorship : pallet_authorship.Config; rt_tips : pallet_tips.Config;
  rt_collator_selection : pallet_collator_selection.Config; rt_session : pallet_session.Config;
  rt_vesting : orml_vesting.Config; rt_marketplace : pallet_marketplace.Config;
  rt_uniques_config : pallet_uniques.Config; rt_relaychain_info : pallet_relaychain_info.Config;
  rt_liquidity_mining : pallet_liquidity_mining.Config; rt_preimage : pallet_preimage.Config
}.

Section runtimes.
Context `{RuntimeDbWeight} `{CollectiveChecks} `{WeightConstants}.
Definition basilisk_runtime : RuntimeOf := {|
  rt_system := frame_system.basilisk_system; rt_timestamp := pallet_timestamp.basilisk_timestamp;
  rt_balances := pallet_balances.basilisk_balances;
  rt_transaction_payment := pallet_transaction_payment.basilisk_transaction_payment;
  rt_multi_payment := pallet_transaction_multi_payment.basilisk_multi_payment;
  rt_proxy := pallet_proxy.basilisk_proxy; rt_tokens := orml_tokens.basilisk_tokens;
  rt_currencies := orml_currencies.basilisk_currencies; rt_duster := pallet_duster.basilisk_duster;
  rt_asset_registry := pallet_asset_registry.basilisk_asset_registry;
  rt_xyk := pallet_xyk.basilisk_xyk; rt_exchange := pallet_exchange.basilisk_exchange;
  rt_lbp := pallet_lbp.basilisk_lbp; rt_price_oracle := pallet_price_oracle.basilisk_price_oracle;
  rt_parachain_system := cumulus_pallet_parachain_system.basilisk_parachain_system;
  rt_aura := pallet_aura.basilisk_aura; rt_nft := pallet_nft.basilisk_nft;
  rt_democracy := pallet_democracy.basilisk_democracy;
  rt_elections := pallet_elections_phragmen.basilisk_elections;
  rt_council := pallet_collective.basilisk_council;
  rt_technical := pallet_collective.basilisk_technical;
  rt_treasury := pallet_treasury.basilisk_treasury;
  rt_scheduler := pallet_scheduler.basilisk_scheduler;
  rt_utility := pallet_utility.basilisk_utility;
  rt_authorship := pallet_authorship.basilisk_authorship; rt_tips := pallet_tips.basilisk_tips;
  rt_collator_selection := pallet_collator_selection.basilisk_collator_selection;
  rt_session := pallet_session.basilisk_session; rt_vesting := orml_vesting.basilisk_vesting;
  rt_marketplace := pallet_marketplace.basilisk_marketplace;
  rt_uniques_config := pallet_uniques.basilisk_uniques_config;
  rt_relaychain_info := pallet_relaychain_info.basilisk_relaychain_info;
  rt_liquidity_mining := pallet_liquidity_mining.basilisk_liquidity_mining;
  rt_preimage := pallet_preimage.basilisk_preimage
|}.
Definition testing_runtime : RuntimeOf := {|
  rt_system := frame_system.testing_system; rt_timestamp := pallet_timestamp.testing_timestamp;
  rt_balances := pallet_balances.testing_balances;
  rt_transaction_payment := pallet_transaction_payment.testing_transaction_payment;
  rt_multi_payment := pallet_transaction_multi_payment.testing_multi_payment;
  rt_proxy := pallet_proxy.testing_proxy; rt_tokens := orml_tokens.testing_tokens;
  rt_currencies := orml_currencies.testing_currencies; rt_duster := pallet_duster.testing_duster;
  rt_asset_registry := pallet_asset_registry.testing_asset_registry;
  rt_xyk := pallet_xyk.testing_xyk; rt_exchange := pallet_exchange.testing_exchange;
  rt_lbp := pallet_lbp.testing_lbp; rt_price_oracle := pallet_price_oracle.testing_price_oracle;
  rt_parachain_system := cumulus_pallet_parachain_system.testing_parachain_system;
  rt_aura := pallet_aura.testing_aura; rt_nft := pallet_nft.testing_nft;
  rt_democracy := pallet_democracy.testing_democracy;
  rt_elections := pallet_elections_phragmen.testing_elections;
  rt_council := pallet_collective.testing_council;
  rt_technical := pallet_collective.testing_technical;
  rt_treasury := pallet_treasury.testing_treasury;
  rt_scheduler := pallet_scheduler.testing_scheduler; rt_utility := pallet_utility.testing_utility;
  rt_authorship := pallet_authorship.testing_authorship; rt_tips := pallet_tips.testing_tips;
  rt_collator_selection := pallet_collator_selection.testing_collator_selection;
  rt_session := pallet_session.testing_session; rt_vesting := orml_vesting.testing_vesting;
  rt_marketplace := pallet_marketplace.testing_marketplace;
  rt_uniques_config := pallet_uniques.testing_uniques_config;
  rt_relaychain_info := pallet_relaychain_info.testing_relaychain_info;
  rt_liquidity_mining := pallet_liquidity_mining.testing_liquidity_mining;
  rt_preimage := pallet_preimage.testing_preimage
|}.

(** ** What the testing runtime changes *)

(** The testing runtime as a change of the live one [r]: another version, no call filter,
    short periods, its own NFT deposits and fewer reserved classes, the provider of the
    parachain system for the relay chain's block number, and default weights for some
    pallets. *)
Definition relaxed (r : RuntimeOf) : RuntimeOf := {|
  rt_system := let c := rt_system r in frame_system.mkConfig (fun _ => true)
    (frame_system.BlockWeights c) (frame_system.BlockLength c) (frame_system.BlockHashCount c)
    testing_VERSION (frame_system.OnNewAccount c) (frame_system.OnKilledAccount c)
    (frame_system.SystemWeightInfo c) (frame_system.SS58Prefix c) (frame_system.OnSetCode c)
    (frame_system.MaxConsumers c);
  rt_balances := let c := rt_balances r in pallet_balances.mkConfig (pallet_balances.MaxLocks c)
    (pallet_balances.DustRemoval c) (pallet_balances.ExistentialDeposit c)
    (pallet_balances.AccountStore c) None (pallet_balances.MaxReserves c);
  rt_tokens := let c := rt_tokens r in orml_tokens.mkConfig None (orml_tokens.ExistentialDeposits c)
    (orml_tokens.OnDust c) (orml_tokens.MaxLocks c) (orml_tokens.DustRemovalWhitelist c);
  rt_currencies := let c := rt_currencies r in orml_currencies.mkConfig
    (orml_currencies.MultiCurrency c) (orml_currencies.NativeCurrency c)
    (orml_currencies.GetNativeCurrencyId c) None;
  rt_lbp := let c := rt_lbp r in pallet_lbp.mkConfig (pallet_lbp.MultiCurrency c)
    (pallet_lbp.CreatePoolOrigin c) (pallet_lbp.parameters c) (pallet_lbp.WeightInfo c)
    CumulusRelaychainBlockNumberProvider;
  rt_nft := let c := rt_nft r in pallet_nft.mkConfig (pallet_nft.Currency c) nft_pallet_weight
    (pallet_nft.ProtocolOrigin c)
    {| NftReserveClassIdUpTo := 999; Permissions := @Permissions (pallet_nft.parameters c) |};
  rt_democracy := let c := rt_democracy r in pallet_democracy.mkConfig (pallet_democracy.Currency c)
    (pallet_democracy.EnactmentPeriod c) MINUTES MINUTES (pallet_democracy.MinimumDeposit c)
    (pallet_democracy.ExternalOrigin c) (pallet_democracy.ExternalMajorityOrigin c)
    (pallet_democracy.ExternalDefaultOrigin c) (pallet_democracy.FastTrackOrigin c)
    (pallet_democracy.InstantOrigin c) (pallet_democracy.InstantAllowed c)
    (pallet_democracy.FastTrackVotingPeriod c) (pallet_democracy.CancellationOrigin c)
    (pallet_democracy.CancelProposalOrigin c) (pallet_democracy.BlacklistOrigin c)
    (pallet_democracy.VetoOrigin c) (pallet_democracy.CooloffPeriod c)
    (pallet_democracy.PreimageByteDeposit c) (pallet_democracy.OperationalPreimageOrigin c)
    (pallet_democracy.Slash c) (pallet_democracy.Scheduler c) (pallet_democracy.MaxVotes c)
    (pallet_democracy.WeightInfo c) (pallet_democracy.MaxProposals c)
    (pallet_democracy.VoteLockingPeriod c);
  rt_collator_selection := let c := rt_collator_selection r in pallet_collator_selection.mkConfig
    (pallet_collator_selection.Currency c) (pallet_collator_selection.UpdateOrigin c)
    (pallet_collator_selection.PotId c) (pallet_collator_selection.MaxCandidates c)
    (pallet_collator_selection.MinCandidates c) (pallet_collator_selection.MaxInvulnerables c)
    (10 * MINUTES) (pallet_collator_selection.ValidatorRegistration c) None;
  rt_session := let c := rt_session r in pallet_session.mkConfig
    (10 * MINUTES, snd (pallet_session.ShouldEndSession c))
    (10 * MINUTES, snd (pallet_session.NextSessionRotation c))
    (pallet_session.SessionManager c) (pallet_session.SessionHandler c);
  rt_vesting := let c := rt_vesting r in orml_vesting.mkConfig (orml_vesting.Currency c)
    (orml_vesting.MinVestedTransfer c) (orml_vesting.VestedTransferOrigin c) None
    (orml_vesting.MaxVestingSchedules c) CumulusRelaychainBlockNumberProvider;
  rt_uniques_config := let c := rt_uniques_config r in pallet_uniques.mkConfig
    (pallet_uniques.Currency c) (pallet_uniques.ForceOrigin c)
    (let p := pallet_uniques.parameters c in mkUniquesParams (10000 * UNITS) (InstanceDeposit p)
       (KeyLimit p) (ValueLimit p) (UniquesMetadataDepositBase p) (AttributeDepositBase p)
       (DepositPerByte p) 128);
  rt_relaychain_info := pallet_relaychain_info.mkConfig CumulusRelaychainBlockNumberProvider;
  rt_liquidity_mining := let c := rt_liquidity_mining r in pallet_liquidity_mining.mkConfig
    (pallet_liquidity_mining.MultiCurrency c) (pallet_liquidity_mining.PalletId c)
    (pallet_liquidity_mining.parameters c) CumulusRelaychainBlockNumberProvider
    (pallet_liquidity_mining.AMM c) (pallet_liquidity_mining.WeightInfo c);
  rt_timestamp := rt_timestamp r; rt_transaction_payment := rt_transaction_payment r;
  rt_multi_payment := rt_multi_payment r; rt_proxy := rt_proxy r; rt_duster := rt_duster r;
  rt_asset_registry := rt_asset_registry r; rt_xyk := rt_xyk r; rt_exchange := rt_exchange r;
  rt_price_oracle := rt_price_oracle r; rt_parachain_system := rt_parachain_system r;
  rt_aura := rt_aura r; rt_elections := rt_elections r; rt_council := rt_council r;
  rt_technical := rt_technical r; rt_treasury := rt_treasury r; rt_scheduler := rt_scheduler r;
  rt_utility := rt_utility r; rt_authorship := rt_authorship r; rt_tips := rt_tips r;
  rt_marketplace := rt_marketplace r; rt_preimage := rt_preimage r
|}.

(** The two runtimes, which configure every pallet separately in two crates, differ exactly
    in what [relaxed] changes: trading limits, fees, deposits, origins, handlers and block
    limits are the same, so what is proved of the pallets under the live configuration
    carries over to the testing runtime. *)
Theorem testing_runtime_relaxes : testing_runtime = relaxed basilisk_runtime.
Proof. reflexivity. Qed.

(** ** Filters and deposits *)

(** Under the base filter of the live runtime an exchange proxy can only trade on the LBP
    and a transfer proxy can only move non-native tokens; the testing runtime lets every
    call through. *)
Theorem proxies_under_filter call :
  let live c := frame_system.BaseCallFilter (rt_system basilisk_runtime) c in
  let proxy := pallet_proxy.ProxyType (rt_proxy basilisk_runtime) in
  (live call && proxy Calls.ExchangeProxy call = true <-> call = Calls.LBP) /\
  (live call && proxy Calls.Transfer call = true <-> call = Calls.Tokens) /\
  frame_system.BaseCallFilter (rt_system testing_runtime) call = true.
Proof. destruct call; simpl; repeat split; intros; done. Qed.

(** The deposit for a byte of a preimage is 30 millicents in both runtimes, three times the
    value the common crate sets for the democracy pallet, and that value makes 100
    dollars for a megabyte. *)
Theorem preimage_deposit_shadowed :
  pallet_democracy.PreimageByteDeposit (rt_democracy basilisk_runtime) = 30 * MILLICENTS /\
  pallet_democracy.PreimageByteDeposit (rt_democracy testing_runtime) = 30 * MILLICENTS /\
  PreimageByteDeposit democracy_params = 10 * MILLICENTS /\
  10 ^ 6 * PreimageByteDeposit democracy_params = 100 * DOLLARS.
Proof. split_and!; reflexivity. Qed.
End runtimes.
