(* ===== verification/XcmConfig.v ===== *)
(** * Messages from and to other chains

    Models the XCM configuration in [src/runtime/basilisk/src/xcm.rs] and the same file of
    the testing runtime: which messages are executed ([Barrier]), which account a location
    stands for ([LocationToAccountId]), which origin a message gets
    ([XcmOriginToCallOrigin]), which queue carries a message ([XcmRouter]), and the
    parameters of the executor and of the message pallets.  The building blocks are of
    [xcm_builder]: each is an operation of a class, with its documented behaviour in the
    class of laws; how the runtime puts them together is the model. *)

From S2P Require Import Prelude Primitives Errors Runtime Xcm Config TestingRuntime FrameConfig.

(** ** Tuples of building blocks

    A tuple of converters answers with the first element that answers. *)
Fixpoint first_of {A B : Type} (fs : list (A -> option B)) (a : A) : option B :=
  match fs with
  | [] => None
  | f :: fs => match f a with Some b => Some b | None => first_of fs a end
  end.

(** A tuple of barriers passes a message when an element does; each element sees the weight
    credit the ones before it left. *)
Definition Check (Msg : Type) : Type := MultiLocation -> Msg -> Z -> Z -> bool * Z.
Fixpoint should_execute {Msg} (cs : list (Check Msg)) : Check Msg :=
  fun origin msg max_weight credit =>
    match cs with
    | [] => (false, credit)
    | c :: cs =>
        let '(ok, credit) := c origin msg max_weight credit in
        if ok then (true, credit) else should_execute cs origin msg max_weight credit
    end.

(** ** The building blocks *)

Inductive OriginKind := Native | SovereignAccount | Superuser | XcmKind.

(** What a queue answers to a message: sent, not a destination of it, or failed. *)
Inductive SendResult := Sent (queue : Pallet) | CannotReachDestination | SendError.

Class XcmBuilder (Msg : Type) := {
  TakeWeightCredit : Check Msg;
  AllowTopLevelPaidExecutionFrom : (MultiLocation -> bool) -> Check Msg;
  AllowKnownQueryResponses : Pallet -> Check Msg;
  AllowSubscriptionsFrom : (MultiLocation -> bool) -> Check Msg;
  ParentIsPreset : MultiLocation -> option AccountId;
  SiblingParachainConvertsVia : MultiLocation -> option AccountId;
  AccountId32Aliases : NetworkId -> MultiLocation -> option AccountId;
  SovereignSignedViaLocation :
    (MultiLocation -> option AccountId) -> MultiLocation * OriginKind -> option RuntimeOrigin;
  RelayChainAsNative : RuntimeOrigin -> MultiLocation * OriginKind -> option RuntimeOrigin;
  SiblingParachainAsNative : MultiLocation * OriginKind -> option RuntimeOrigin;
  SignedAccountId32AsNative : NetworkId -> MultiLocation * OriginKind -> option RuntimeOrigin;
  XcmPassthrough : MultiLocation * OriginKind -> option RuntimeOrigin;
  ParentAsUmp : Pallet -> MultiLocation -> Msg -> SendResult;
  XcmpQueue_send : MultiLocation -> Msg -> SendResult
}.

Section runtime.
Context {Msg : Type} `{XcmBuilder Msg} `{LocationRegistry} `{ParachainInfo}.

Definition Everything {A : Type} (_ : A) : bool := true.
Definition Nothing {A : Type} (_ : A) : bool := false.

Definition Barrier : list (Check Msg) :=
  [TakeWeightCredit; AllowTopLevelPaidExecutionFrom Everything;
   AllowKnownQueryResponses P.PolkadotXcm; AllowSubscriptionsFrom Everything].

Definition LocationToAccountId : list (MultiLocation -> option AccountId) :=
  [ParentIsPreset; SiblingParachainConvertsVia; AccountId32Aliases RelayNetwork].

(** [relay] is [cumulus_pallet_xcm::Origin::Relay]. *)
Definition XcmOriginToCallOrigin (relay : RuntimeOrigin)
    : list (MultiLocation * OriginKind -> option RuntimeOrigin) :=
  [SovereignSignedViaLocation (first_of LocationToAccountId); RelayChainAsNative relay;
   SiblingParachainAsNative; SignedAccountId32AsNative RelayNetwork; XcmPassthrough].

Definition XcmRouter : list (MultiLocation -> Msg -> SendResult) :=
  [ParentAsUmp P.ParachainSystem; XcmpQueue_send].
(** A tuple of routers: the next one is tried when a router does not reach the
    destination; any other answer is final. *)
Fixpoint send_xcm (rs : list (MultiLocation -> Msg -> SendResult)) (dest : MultiLocation)
    (msg : Msg) : SendResult :=
  match rs with
  | [] => CannotReachDestination
  | r :: rs =>
      match r dest msg with CannotReachDestination => send_xcm rs dest msg | x => x end
  end.

(** The account that receives tokens which could not be deposited. *)
Definition AlternativePalletId : string := "xcm/alte".

(** [LocalAssetTransactor]: the currencies, where other assets go, how assets and
    locations are read, and where failed deposits end. *)
Record AssetTransactor := mkTransactor {
  at_MultiCurrency : Pallet; at_UnknownAsset : Pallet;
  at_Match : MultiAsset -> option AssetId; at_AccountIdConvert : MultiLocation -> option AccountId;
  at_DepositFailure : string
}.
Definition LocalAssetTransactor : AssetTransactor := {|
  at_MultiCurrency := P.Currencies; at_UnknownAsset := P.UnknownTokens; at_Match := convert_asset;
  at_AccountIdConvert := first_of LocationToAccountId; at_DepositFailure := AlternativePalletId
|}.

(** [impl Config for XcmConfig]. *)
Record ExecutorConfig := mkExecutor {
  XcmSender : list (MultiLocation -> Msg -> SendResult); ex_AssetTransactor : AssetTransactor;
  OriginConverter : list (MultiLocation * OriginKind -> option RuntimeOrigin);
  IsTeleporter : option Pallet; LocationInverter : MultiLocation;
  ex_Barrier : list (Check Msg); Weigher : Z * Z; ResponseHandler : Pallet; AssetTrap : Pallet;
  AssetClaims : Pallet; SubscriptionService : Pallet
}.
Definition basilisk_XcmConfig (relay : RuntimeOrigin) : ExecutorConfig := {|
  XcmSender := XcmRouter; ex_AssetTransactor := LocalAssetTransactor;
  OriginConverter := XcmOriginToCallOrigin relay; IsTeleporter := None;
  LocationInverter := Ancestry; ex_Barrier := Barrier;
  Weigher := (BaseXcmWeight, MaxInstructions); ResponseHandler := P.PolkadotXcm;
  AssetTrap := P.PolkadotXcm; AssetClaims := P.PolkadotXcm; SubscriptionService := P.PolkadotXcm
|}.

(** ** The message pallets *)

Section pallets.
Context `{CollectiveChecks}.

Record XcmpQueueConfig := mkXcmpQueue {
  ChannelInfo : Pallet; VersionWrapper : Pallet; xq_ExecuteOverweight : RuntimeOrigin -> bool;
  ControllerOrigin : RuntimeOrigin -> bool;
  ControllerOriginConverter : list (MultiLocation * OriginKind -> option RuntimeOrigin)
}.
Definition basilisk_xcmp_queue (relay : RuntimeOrigin) : XcmpQueueConfig := {|
  ChannelInfo := P.ParachainSystem; VersionWrapper := P.PolkadotXcm;
  xq_ExecuteOverweight := EnsureRoot; ControllerOrigin := EnsureMajorityCouncilOrRoot;
  ControllerOriginConverter := XcmOriginToCallOrigin relay
|}.

(** [cumulus_pallet_dmp_queue]. *)
Definition basilisk_dmp_queue : RuntimeOrigin -> bool := EnsureRoot.
(** [orml_xcm]. *)
Definition basilisk_orml_xcm : RuntimeOrigin -> bool := EnsureMajorityCouncilOrRoot.

Record XTokensConfig := mkXTokens {
  CurrencyIdConvert : AssetId -> option MultiLocation;
  AccountIdToMultiLocation : AccountId -> MultiLocation; xt_SelfLocation : MultiLocation;
  xt_Weigher : Z * Z; xt_BaseXcmWeight : Z; xt_LocationInverter : MultiLocation;
  xt_MaxAssetsForTransfer : Z
}.
Definition basilisk_xtokens : XTokensConfig := {|
  CurrencyIdConvert := convert_id; AccountIdToMultiLocation := account_location;
  xt_SelfLocation := SelfLocation; xt_Weigher := (BaseXcmWeight, MaxInstructions);
  xt_BaseXcmWeight := BaseXcmWeight; xt_LocationInverter := Ancestry;
  xt_MaxAssetsForTransfer := MaxAssetsForTransfer
|}.

(** [pallet_xcm]; the filters are predicates of an origin with a message or with assets. *)
Record PolkadotXcmConfig := mkPolkadotXcm {
  LocalOriginNetwork : NetworkId; px_XcmRouter : list (MultiLocation -> Msg -> SendResult);
  XcmExecuteFilter : MultiLocation * Msg -> bool;
  XcmTeleportFilter : MultiLocation * list MultiAsset -> bool;
  XcmReserveTransferFilter : MultiLocation * list MultiAsset -> bool;
  px_Weigher : Z * Z; px_LocationInverter : MultiLocation; VERSION_DISCOVERY_QUEUE_SIZE : Z
}.
Definition basilisk_polkadot_xcm : PolkadotXcmConfig := {|
  LocalOriginNetwork := RelayNetwork; px_XcmRouter := XcmRouter; XcmExecuteFilter := Everything;
  XcmTeleportFilter := Nothing; XcmReserveTransferFilter := Everything;
  px_Weigher := (BaseXcmWeight, MaxInstructions); px_LocationInverter := Ancestry;
  VERSION_DISCOVERY_QUEUE_SIZE := 100
|}.

(** ** The copies of the testing runtime *)

Definition testing_Barrier : list (Check Msg) :=
  [TakeWeightCredit; AllowTopLevelPaidExecutionFrom Everything;
   AllowKnownQueryResponses P.PolkadotXcm; AllowSubscriptionsFrom Everything].
Definition testing_LocationToAccountId : list (MultiLocation -> option AccountId) :=
  [ParentIsPreset; SiblingParachainConvertsVia; AccountId32Aliases testing_RelayNetwork].
Definition testing_XcmOriginToCallOrigin (relay : RuntimeOrigin)
    : list (MultiLocation * OriginKind -> option RuntimeOrigin) :=
  [SovereignSignedViaLocation (first_of testing_LocationToAccountId); RelayChainAsNative relay;
   SiblingParachainAsNative; SignedAccountId32AsNative testing_RelayNetwork; XcmPassthrough].
Definition testing_XcmRouter : list (MultiLocation -> Msg -> SendResult) :=
  [ParentAsUmp P.ParachainSystem; XcmpQueue_send].
Definition testing_LocalAssetTransactor : AssetTransactor := {|
  at_MultiCurrency := P.Currencies; at_UnknownAsset := P.UnknownTokens; at_Match := testing_convert_asset;
  at_AccountIdConvert := first_of testing_LocationToAccountId; at_DepositFailure := AlternativePalletId
|}.
Definition testing_XcmConfig (relay : RuntimeOrigin) : ExecutorConfig := {|
  XcmSender := testing_XcmRouter; ex_AssetTransactor := testing_LocalAssetTransactor;
  OriginConverter := testing_XcmOriginToCallOrigin relay; IsTeleporter := None;
  LocationInverter := testing_Ancestry; ex_Barrier := testing_Barrier;
  Weigher := (BaseXcmWeight, MaxInstructions); ResponseHandler := P.PolkadotXcm;
  AssetTrap := P.PolkadotXcm; AssetClaims := P.PolkadotXcm; SubscriptionService := P.PolkadotXcm
|}.
Definition testing_xcmp_queue (relay : RuntimeOrigin) : XcmpQueueConfig := {|
  ChannelInfo := P.ParachainSystem; VersionWrapper := P.PolkadotXcm;
  xq_ExecuteOverweight := EnsureRoot; ControllerOrigin := testing_EnsureMajorityCouncilOrRoot;
  ControllerOriginConverter := testing_XcmOriginToCallOrigin relay
|}.
Definition testing_dmp_queue : RuntimeOrigin -> bool := EnsureRoot.
Definition testing_orml_xcm : RuntimeOrigin -> bool := testing_EnsureMajorityCouncilOrRoot.
Definition testing_xtokens : XTokensConfig := {|
  CurrencyIdConvert := testing_convert_id; AccountIdToMultiLocation := testing_account_location;
  xt_SelfLocation := testing_SelfLocation; xt_Weigher := (BaseXcmWeight, MaxInstructions);
  xt_BaseXcmWeight := BaseXcmWeight; xt_LocationInverter := testing_Ancestry;
  xt_MaxAssetsForTransfer := MaxAssetsForTransfer
|}.
Definition testing_polkadot_xcm : PolkadotXcmConfig := {|
  LocalOriginNetwork := testing_RelayNetwork; px_XcmRouter := testing_XcmRouter; XcmExecuteFilter := Everything;
  XcmTeleportFilter := Nothing; XcmReserveTransferFilter := Everything;
  px_Weigher := (BaseXcmWeight, MaxInstructions); px_LocationInverter := testing_Ancestry;
  VERSION_DISCOVERY_QUEUE_SIZE := 100
|}.

(** The messages of the testing runtime are configured as those of the live one. *)
Theorem testing_xcm_agrees relay :
  testing_XcmConfig relay = basilisk_XcmConfig relay /\
  testing_xcmp_queue relay = basilisk_xcmp_queue relay /\
  testing_dmp_queue = basilisk_dmp_queue /\ testing_orml_xcm = basilisk_orml_xcm /\
  testing_xtokens = basilisk_xtokens /\ testing_polkadot_xcm = basilisk_polkadot_xcm.
Proof. split_and!; reflexivity. Qed.
End pallets.

(** ** What the building blocks promise *)

(** Properties of messages the barriers look for: it pays for a weight at its top level, it
    answers a query a pallet waits for, it subscribes to versions. *)
Class XcmMessages := {
  pays_for : Msg -> Z -> bool; answers_query : Pallet -> MultiLocation -> Msg -> bool;
  subscribes : MultiLocation -> Msg -> bool;
  parent_account : AccountId; sibling_account : Z -> AccountId
}.
Context `{XcmMessages}.

Class XcmBuilderLaws : Prop := {
  take_credit o m w c : TakeWeightCredit o m w c = if w <=? c then (true, c - w) else (false, c);
  allow_paid f o m w c : AllowTopLevelPaidExecutionFrom f o m w c = (f o && pays_for m w, c);
  allow_known p o m w c : AllowKnownQueryResponses p o m w c = (answers_query p o m, c);
  allow_subscriptions f o m w c : AllowSubscriptionsFrom f o m w c = (f o && subscribes o m, c);
  parent_preset l :
    ParentIsPreset l = if decide (l = mkLocation 1 []) then Some parent_account else None;
  sibling_via l : SiblingParachainConvertsVia l =
    match l with mkLocation 1 [Parachain id] => Some (sibling_account id) | _ => None end;
  account_alias n l : AccountId32Aliases n l =
    match l with
    | mkLocation 0 [AccountId32 k a] => if decide (k = NetworkAny \/ k = n) then Some a else None
    | _ => None
    end;
  ump_reaches p l m : ParentAsUmp p l m = CannotReachDestination <-> l <> mkLocation 1 [];
  ump_queue p l m q : ParentAsUmp p l m = Sent q -> q = p;
  xcmp_reaches l m :
    XcmpQueue_send l m = CannotReachDestination <-> ~ exists id, l = mkLocation 1 [Parachain id];
  xcmp_queue_name l m q : XcmpQueue_send l m = Sent q -> q = P.XcmpQueue
}.
Context `{!XcmBuilderLaws}.

(** ** Properties *)

(** The barrier: a message runs exactly when the credit covers its weight, or it pays for
    its execution (from any location), or it answers a query of the XCM pallet, or it
    subscribes to versions; the credit is used only in the first case. *)
Theorem barrier_spec o m w c :
  should_execute Barrier o m w c =
    if w <=? c then (true, c - w)
    else (pays_for m w || answers_query P.PolkadotXcm o m || subscribes o m, c).
Proof.
  unfold Barrier, Everything. simpl. rewrite take_credit. destruct (w <=? c); [done|].
  rewrite allow_paid. simpl. destruct (pays_for m w); [done|].
  rewrite allow_known. destruct (answers_query _ o m); [done|].
  rewrite allow_subscriptions. simpl. by destruct (subscribes o m).
Qed.

(** Which locations have an account here: the relay chain, the sibling chains and the local
    accounts named under no network or the relay chain's; no others.  In particular an
    account survives the trip to its location and back. *)
Theorem account_locations l :
  first_of LocationToAccountId l =
    match l with
    | mkLocation 1 [] => Some parent_account
    | mkLocation 1 [Parachain id] => Some (sibling_account id)
    | mkLocation 0 [AccountId32 n a] =>
        if decide (n = NetworkAny \/ n = Kusama) then Some a else None
    | _ => None
    end /\
  forall a, first_of LocationToAccountId (account_location a) = Some a.
Proof.
  unfold LocationToAccountId, RelayNetwork, account_location. split.
  - simpl. rewrite parent_preset, sibling_via, account_alias.
    destruct l as [n j]. case_decide as Hp; [by injection Hp as -> ->|].
    destruct n as [|[| |]|], j as [|[] [|]]; try done; by case_decide.
  - intros a. simpl. rewrite parent_preset, sibling_via, account_alias.
    rewrite !decide_False by done. by rewrite decide_True by auto.
Qed.

(** Messages to the relay chain go through the parachain system, messages to sibling chains
    through the XCMP queue, and no other destination is reached. *)
Theorem router_spec dest msg :
  match send_xcm XcmRouter dest msg with
  | Sent q => dest = mkLocation 1 [] /\ q = P.ParachainSystem \/
              (exists id, dest = mkLocation 1 [Parachain id]) /\ q = P.XcmpQueue
  | CannotReachDestination => dest <> mkLocation 1 [] /\ forall id, dest <> mkLocation 1 [Parachain id]
  | SendError => True
  end.
Proof.
  unfold XcmRouter. simpl. pose proof (ump_reaches P.ParachainSystem dest msg) as Hu.
  pose proof (xcmp_reaches dest msg) as Hx.
  destruct (ParentAsUmp _ dest msg) as [q| |] eqn:Eu; [| |done].
  - left. pose proof (ump_queue _ _ _ _ Eu). split; [|done].
    destruct (decide (dest = mkLocation 1 [])) as [|Hne]; [done|]. by apply Hu in Hne.
  - destruct (XcmpQueue_send dest msg) as [q| |] eqn:Ex; [| |done].
    + right. pose proof (xcmp_queue_name _ _ _ Ex). split; [|done].
      destruct dest as [n j]. destruct (decide (n = 1)) as [->|];
        [destruct j as [|[id| | |] [|]]; try (by exists id)|];
        exfalso; assert (Hno : Sent q = CannotReachDestination) by (apply Hx; intros [? ?]; congruence);
        done.
    + split; [by apply Hu|]. intros id ->. apply Hx; [done|]. by exists id.
Qed.
End runtime.

(** ** An instance of the building blocks

    Messages are the weight they pay for; queries and subscriptions do not occur. *)

#[local] Instance ex_info : ParachainInfo := {| parachain_id := 2090 |}.
#[local] Instance ex_registry : LocationRegistry := {|
  asset_to_location _ := None; location_to_asset _ := None
|}.
#[local] Instance ex_builder : XcmBuilder Z := {|
  TakeWeightCredit _ _ w c := if w <=? c then (true, c - w) else (false, c);
  AllowTopLevelPaidExecutionFrom f o m w c := (f o && (w <=? m), c);
  AllowKnownQueryResponses _ _ _ _ c := (false, c);
  AllowSubscriptionsFrom f o _ _ c := (f o && false, c);
  ParentIsPreset l := if decide (l = mkLocation 1 []) then Some 7 else None;
  SiblingParachainConvertsVia l :=
    match l with mkLocation 1 [Parachain id] => Some (100 + id) | _ => None end;
  AccountId32Aliases n l :=
    match l with
    | mkLocation 0 [AccountId32 k a] => if decide (k = NetworkAny \/ k = n) then Some a else None
    | _ => None
    end;
  SovereignSignedViaLocation convert p :=
    match p with (l, SovereignAccount) => SystemOrigin ∘ Signed <$> convert l | _ => None end;
  RelayChainAsNative relay p :=
    match p with (mkLocation 1 [], Native) => Some relay | _ => None end;
  SiblingParachainAsNative p :=
    match p with (mkLocation 1 [Parachain id], Native) => Some (OtherOrigin id) | _ => None end;
  SignedAccountId32AsNative n p :=
    match p with
    | (mkLocation 0 [AccountId32 k a], Native) =>
        if decide (k = NetworkAny \/ k = n) then Some (SystemOrigin (Signed a)) else None
    | _ => None
    end;
  XcmPassthrough p := match p with (_, XcmKind) => Some (OtherOrigin 0) | _ => None end;
  ParentAsUmp p l _ := if decide (l = mkLocation 1 []) then Sent p else CannotReachDestination;
  XcmpQueue_send l _ :=
    match l with mkLocation 1 [Parachain _] => Sent P.XcmpQueue | _ => CannotReachDestination end
|}.
#[local] Instance ex_messages : XcmMessages (Msg := Z) := {|
  pays_for m w := w <=? m; answers_query _ _ _ := false; subscribes _ _ := false;
  parent_account := 7; sibling_account id := 100 + id
|}.
#[local] Instance ex_builder_laws : XcmBuilderLaws (Msg := Z).
Proof.
  split; intros *; simpl; try done.
  - case_decide; naive_solver.
  - case_decide; congruence.
  - destruct l as [[|[| |]|] [|[] [|]]]; naive_solver.
  - destruct l as [[|[| |]|] [|[] [|]]]; congruence.
Qed.

(** A sibling chain with no credit runs what it pays for; its sovereign account is its own,
    and a message back to it takes the XCMP queue. *)
Example ex_sibling :
  let sibling := mkLocation 1 [Parachain 2000] in
  should_execute Barrier sibling 50 40 0 = (true, 0) /\
  should_execute Barrier sibling 30 40 0 = (false, 0) /\
  first_of (XcmOriginToCallOrigin (OtherOrigin 1)) (sibling, SovereignAccount) =
    Some (SystemOrigin (Signed 2100)) /\
  send_xcm XcmRouter sibling 0 = Sent P.XcmpQueue.
Proof. by vm_compute. Qed.
