(* ===== verification/RuntimeApi.v ===== *)
(** * Entry points of the runtime

    Models what the node calls in a runtime: the runtime APIs ([impl_runtime_apis!]), the
    check of a block's inherents against the relay chain and the registry of benchmarks, in
    [src/runtime/basilisk/src/lib.rs] and [src/runtime/testing-basilisk/src/lib.rs].  The
    executive, the framework pallets behind the APIs and the benchmark runner are
    arguments. *)

From S2P Require Import Prelude Primitives Errors Interfaces Xyk Runtime Config Lbp Rpc TestingRuntime FrameConfig.

(** The executive and the pallets the APIs ask, over a storage [S]. *)
Class Executive (S Block Header Extrinsic Hash Inherents Report Validity Source Keys : Type) := {
  Executive_execute_block : Block -> S -> outcome DispatchError unit * S;
  Executive_execute_block_no_check : Block -> S -> Z * S;
  Executive_try_runtime_upgrade : S -> outcome string Z * S;
  Runtime_metadata : list Z;
  ParachainSystem_collect_collation_info : Header -> S -> Hash;
  Executive_initialize_block : Header -> S -> S;
  Executive_apply_extrinsic : Extrinsic -> S -> outcome DispatchError unit * S;
  Executive_finalize_block : S -> Header * S;
  create_extrinsics : Inherents -> list Extrinsic;
  check_extrinsics : Inherents -> Block -> Report;
  Executive_validate_transaction : Source -> Extrinsic -> Hash -> S -> Validity;
  Executive_offchain_worker : Header -> S -> S;
  decode_into_raw_public_keys : list Z -> option Keys;
  SessionKeys_generate : option (list Z) -> list Z;
  Aura_slot_duration : S -> Z;
  Aura_authorities : S -> list Z;
  System_account_nonce : AccountId -> S -> Z;
  TransactionPayment_query_info : Extrinsic -> Z -> S -> Z * Balance;
  TransactionPayment_query_fee_details : Extrinsic -> Z -> S -> list Balance
}.

Section api.
Context {S Block Header Extrinsic Hash Inherents Report Validity Source Keys : Type}.
Context `{Executive S Block Header Extrinsic Hash Inherents Report Validity Source Keys}.
Context {C : Type} `{MultiCurrency C} `{AssetPairAccountIdFor} (xyk_state : S -> XykState C).
Context `{WeightConstants}.

(** [impl_runtime_apis!]: what a client can call. *)
Record RuntimeApi := mkApi {
  version : RuntimeVersion;
  execute_block : Block -> S -> outcome DispatchError unit * S;
  initialize_block : Header -> S -> S;
  metadata : list Z;
  apply_extrinsic : Extrinsic -> S -> outcome DispatchError unit * S;
  finalize_block : S -> Header * S;
  inherent_extrinsics : Inherents -> list Extrinsic;
  api_check_inherents : Block -> Inherents -> Report;
  validate_transaction : Source -> Extrinsic -> Hash -> S -> Validity;
  offchain_worker : Header -> S -> S;
  decode_session_keys : list Z -> option Keys;
  generate_session_keys : option (list Z) -> list Z;
  slot_duration : S -> Z;
  authorities : S -> list Z;
  collect_collation_info : Header -> S -> Hash;
  api_on_runtime_upgrade : S -> outcome string (Z * Z) * S;
  execute_block_no_check : Block -> S -> Z * S;
  account_nonce : AccountId -> S -> Z;
  query_info : Extrinsic -> Z -> S -> Z * Balance;
  query_fee_details : Extrinsic -> Z -> S -> list Balance;
  get_pool_balances : AccountId -> S -> list BalanceInfo;
  xyk_get_pool_id : AssetId -> AssetId -> AccountId;
  lbp_get_pool_id : AssetId -> AssetId -> AccountId
}.

(** [TryRuntime::on_runtime_upgrade] unwraps the result of the upgrade, so a failed check
    is a panic, and reports its weight next to that of a whole block. *)
Definition try_runtime_upgrade (b : BlockWeights) (s : S) : outcome string (Z * Z) * S :=
  match Executive_try_runtime_upgrade s with
  | (Ok weight, s') => (Ok (weight, max_block b), s')
  | (_, s') => (Panic, s')
  end.

Definition basilisk_api : RuntimeApi := {|
  version := VERSION;
  execute_block block := Executive_execute_block block;
  initialize_block header := Executive_initialize_block header;
  metadata := Runtime_metadata;
  apply_extrinsic extrinsic := Executive_apply_extrinsic extrinsic;
  finalize_block := Executive_finalize_block;
  inherent_extrinsics data := create_extrinsics data;
  api_check_inherents block data := check_extrinsics data block;
  validate_transaction source tx block_hash := Executive_validate_transaction source tx block_hash;
  offchain_worker header := Executive_offchain_worker header;
  decode_session_keys encoded := decode_into_raw_public_keys encoded;
  generate_session_keys seed := SessionKeys_generate seed;
  slot_duration := Aura_slot_duration;
  authorities := Aura_authorities;
  collect_collation_info header := ParachainSystem_collect_collation_info header;
  api_on_runtime_upgrade := try_runtime_upgrade (block_weights WEIGHT_PER_SECOND WEIGHT_PER_MICROS);
  execute_block_no_check block := Executive_execute_block_no_check block;
  account_nonce account := System_account_nonce account;
  query_info uxt len := TransactionPayment_query_info uxt len;
  query_fee_details uxt len := TransactionPayment_query_fee_details uxt len;
  get_pool_balances pool_address s := api_get_pool_balances pool_address (xyk_state s);
  xyk_get_pool_id asset_a asset_b := api_xyk_get_pool_id asset_a asset_b;
  lbp_get_pool_id asset_a asset_b := api_lbp_get_pool_id asset_a asset_b
|}.
Definition testing_api : RuntimeApi := {|
  version := testing_VERSION;
  execute_block block := Executive_execute_block block;
  initialize_block header := Executive_initialize_block header;
  metadata := Runtime_metadata;
  apply_extrinsic extrinsic := Executive_apply_extrinsic extrinsic;
  finalize_block := Executive_finalize_block;
  inherent_extrinsics data := create_extrinsics data;
  api_check_inherents block data := check_extrinsics data block;
  validate_transaction source tx block_hash := Executive_validate_transaction source tx block_hash;
  offchain_worker header := Executive_offchain_worker header;
  decode_session_keys encoded := decode_into_raw_public_keys encoded;
  generate_session_keys seed := SessionKeys_generate seed;
  slot_duration := Aura_slot_duration;
  authorities := Aura_authorities;
  collect_collation_info header := ParachainSystem_collect_collation_info header;
  api_on_runtime_upgrade := try_runtime_upgrade (testing_block_weights WEIGHT_PER_SECOND WEIGHT_PER_MICROS);
  execute_block_no_check block := Executive_execute_block_no_check block;
  account_nonce account := System_account_nonce account;
  query_info uxt len := TransactionPayment_query_info uxt len;
  query_fee_details uxt len := TransactionPayment_query_fee_details uxt len;
  get_pool_balances pool_address s := testing_api_get_pool_balances pool_address (xyk_state s);
  xyk_get_pool_id asset_a asset_b := testing_api_xyk_get_pool_id asset_a asset_b;
  lbp_get_pool_id asset_a asset_b := testing_api_lbp_get_pool_id asset_a asset_b
|}.

(** ** Inherents *)

(** [CheckInherents::check_inherents]: the slot of the relay chain gives the time of the
    block; a proof without the slot, or data that cannot be created, is a panic. *)
Definition relay_slot_seconds : Z := 6.
Definition check_inherents {Proof Slot : Type} (read_slot : Proof -> option Slot)
    (create_inherent_data : Slot -> Z -> option Inherents) (block : Block) (proof : Proof)
    : outcome DispatchError Report :=
  match read_slot proof with
  | None => Panic
  | Some relay_chain_slot =>
      match create_inherent_data relay_chain_slot relay_slot_seconds with
      | None => Panic
      | Some inherent_data => Ok (check_extrinsics inherent_data block)
      end
  end.
Definition testing_check_inherents {Proof Slot : Type} (read_slot : Proof -> option Slot)
    (create_inherent_data : Slot -> Z -> option Inherents) (block : Block) (proof : Proof)
    : outcome DispatchError Report :=
  match read_slot proof with
  | None => Panic
  | Some relay_chain_slot =>
      match create_inherent_data relay_chain_slot relay_slot_seconds with
      | None => Panic
      | Some inherent_data => Ok (check_extrinsics inherent_data block)
      end
  end.
End api.

(** ** Benchmarks *)

(** [benchmark_metadata]: the pallets whose weights can be measured, each with the type
    that holds its benchmarks. *)
Definition basilisk_benchmark_list : list (string * string) :=
  [("pallet_xyk", "XYK"); ("pallet_lbp", "LBP"); ("pallet_price_oracle", "PriceOracle");
   ("pallet_exchange", "ExchangeBench"); ("pallet_nft", "NFT"); ("pallet_marketplace", "Marketplace");
   ("pallet_asset_registry", "AssetRegistry"); ("pallet_liquidity_mining", "LiquidityMiningBench");
   ("frame_system", "SystemBench"); ("pallet_balances", "Balances");
   ("pallet_collator_selection", "CollatorSelection"); ("pallet_timestamp", "Timestamp");
   ("pallet_democracy", "Democracy"); ("pallet_treasury", "Treasury");
   ("pallet_scheduler", "Scheduler"); ("pallet_utility", "Utility"); ("pallet_tips", "Tips");
   ("orml_currencies", "benchmarking::currencies"); ("orml_tokens", "benchmarking::tokens");
   ("orml_vesting", "benchmarking::vesting"); ("pallet_duster", "benchmarking::duster");
   ("pallet_transaction_multi_payment", "benchmarking::multi_payment")]%string.
(** [dispatch_benchmark]: the same pallets in the order they are run. *)
Definition basilisk_benchmark_batches : list (string * string) :=
  [("pallet_xyk", "XYK"); ("pallet_lbp", "LBP"); ("pallet_price_oracle", "PriceOracle");
   ("pallet_exchange", "ExchangeBench"); ("pallet_nft", "NFT"); ("pallet_marketplace", "Marketplace");
   ("pallet_asset_registry", "AssetRegistry"); ("pallet_liquidity_mining", "LiquidityMiningBench");
   ("frame_system", "SystemBench"); ("pallet_balances", "Balances");
   ("pallet_collator_selection", "CollatorSelection"); ("pallet_timestamp", "Timestamp");
   ("pallet_democracy", "Democracy"); ("pallet_treasury", "Treasury");
   ("pallet_scheduler", "Scheduler"); ("pallet_utility", "Utility"); ("pallet_tips", "Tips");
   ("orml_currencies", "benchmarking::currencies"); ("orml_tokens", "benchmarking::tokens");
   ("orml_vesting", "benchmarking::vesting"); ("pallet_duster", "benchmarking::duster");
   ("pallet_transaction_multi_payment", "benchmarking::multi_payment")]%string.

Definition testing_benchmark_list : list (string * string) :=
  [("pallet_xyk", "XYK"); ("pallet_lbp", "LBP"); ("pallet_price_oracle", "PriceOracle");
   ("pallet_exchange", "ExchangeBench"); ("pallet_nft", "NFT"); ("pallet_marketplace", "Marketplace");
   ("pallet_asset_registry", "AssetRegistry"); ("pallet_liquidity_mining", "LiquidityMiningBench");
   ("frame_system", "SystemBench"); ("pallet_exchange", "ExchangeBench"); ("pallet_balances", "Balances");
   ("pallet_timestamp", "Timestamp"); ("pallet_democracy", "Democracy"); ("pallet_treasury", "Treasury");
   ("pallet_scheduler", "Scheduler"); ("pallet_utility", "Utility"); ("pallet_tips", "Tips")]%string.
Definition testing_benchmark_batches : list (string * string) :=
  [("pallet_xyk", "XYK"); ("pallet_lbp", "LBP"); ("pallet_price_oracle", "PriceOracle");
   ("pallet_exchange", "ExchangeBench"); ("pallet_nft", "NFT");
   ("pallet_asset_registry", "AssetRegistry"); ("pallet_liquidity_mining", "LiquidityMiningBench");
   ("pallet_marketplace", "Marketplace");
   ("frame_system", "SystemBench"); ("pallet_exchange", "ExchangeBench"); ("pallet_balances", "Balances");
   ("pallet_timestamp", "Timestamp"); ("pallet_democracy", "Democracy"); ("pallet_treasury", "Treasury");
   ("pallet_scheduler", "Scheduler"); ("pallet_utility", "Utility"); ("pallet_tips", "Tips")]%string.

(** The storage keys a benchmark does not count: block number, total issuance, execution
    phase, event count and events. *)
Definition basilisk_whitelist : list string :=
  ["26aa394eea5630e07c48ae0c9558cef702a5c1b19ab7a04f536c519aca4983ac";
   "c2261276cc9d1f8598ea4b6a74b15c2f57c875e4cff74148e4628f264b974c80";
   "26aa394eea5630e07c48ae0c9558cef7ff553b5a9862a516939d82b3d3d8661a";
   "26aa394eea5630e07c48ae0c9558cef70a98fdbe9ce6c55837576c60c7af3850";
   "26aa394eea5630e07c48ae0c9558cef780d41e5e16056765bc8461851072c9d7"]%string.
Definition testing_whitelist : list string :=
  ["26aa394eea5630e07c48ae0c9558cef702a5c1b19ab7a04f536c519aca4983ac";
   "c2261276cc9d1f8598ea4b6a74b15c2f57c875e4cff74148e4628f264b974c80";
   "26aa394eea5630e07c48ae0c9558cef7ff553b5a9862a516939d82b3d3d8661a";
   "26aa394eea5630e07c48ae0c9558cef70a98fdbe9ce6c55837576c60c7af3850";
   "26aa394eea5630e07c48ae0c9558cef780d41e5e16056765bc8461851072c9d7"]%string.

(** [add_benchmark!] appends the batches the configuration selects of a pallet; none at all
    is an error. *)
Definition dispatch_benchmark {Batch : Type} (run : string * string -> list Batch)
    (pallets : list (string * string)) : outcome string (list Batch) :=
  let batches := fold_left (fun batches p => (batches ++ run p)%list) pallets [] in
  match batches with
  | [] => Err "Benchmark not found for this pallet."
  | _ => Ok batches
  end.
Definition basilisk_dispatch_benchmark {Batch : Type}
    (run : list string -> string * string -> list Batch) : outcome string (list Batch) :=
  dispatch_benchmark (run basilisk_whitelist) basilisk_benchmark_batches.
Definition testing_dispatch_benchmark {Batch : Type}
    (run : list string -> string * string -> list Batch) : outcome string (list Batch) :=
  dispatch_benchmark (run testing_whitelist) testing_benchmark_batches.

(** ** Properties *)

Lemma fold_batches {Batch} (run : string * string -> list Batch) pallets acc :
  fold_left (fun batches p => (batches ++ run p)%list) pallets acc = (acc ++ (pallets ≫= run))%list.
Proof.
  revert acc. induction pallets as [|p pallets IH]; intros acc; simpl; [by rewrite app_nil_r|].
  by rewrite IH, <- app_assoc.
Qed.

(** A benchmark the configuration selects of a pallet in the list is answered, and the run
    fails exactly when it selects none. *)
Lemma dispatch_benchmark_spec {Batch} (run : string * string -> list Batch) pallets :
  dispatch_benchmark run pallets =
    (if bool_decide (pallets ≫= run = []) then Err "Benchmark not found for this pallet."%string
     else Ok (pallets ≫= run)).
Proof.
  unfold dispatch_benchmark. rewrite fold_batches. simpl.
  by destruct (pallets ≫= run).
Qed.

(** Both runtimes run exactly the benchmarks they list and answer every benchmark the
    configuration selects of a listed pallet; but the testing runtime runs those of the
    exchange pallet twice. *)
Theorem listed_benchmarks_run {Batch} (run : list string -> string * string -> list Batch) p :
  let batches w ps := ps ≫= run w in
  (p ∈ basilisk_benchmark_list <-> p ∈ basilisk_benchmark_batches) /\
  (p ∈ testing_benchmark_list <-> p ∈ testing_benchmark_batches) /\
  basilisk_dispatch_benchmark run =
    (if bool_decide (batches basilisk_whitelist basilisk_benchmark_list = [])
     then Err "Benchmark not found for this pallet."%string
     else Ok (batches basilisk_whitelist basilisk_benchmark_list)) /\
  testing_whitelist = basilisk_whitelist /\ NoDup basilisk_whitelist /\
  NoDup basilisk_benchmark_batches /\
  length (List.filter (fun q => String.eqb (fst q) "pallet_exchange") testing_benchmark_batches) = 2%nat.
Proof.
  split_and!.
  - done.
  - unfold testing_benchmark_list, testing_benchmark_batches. set_solver.
  - apply dispatch_benchmark_spec.
  - done.
  - by apply (bool_decide_unpack _); vm_compute.
  - by apply (bool_decide_unpack _); vm_compute.
  - done.
Qed.

(** The APIs of the two runtimes differ in their version only. *)
Theorem testing_api_agrees {S Block Header Extrinsic Hash Inherents Report Validity Source Keys C : Type}
    `{Executive S Block Header Extrinsic Hash Inherents Report Validity Source Keys}
    `{MultiCurrency C} `{AssetPairAccountIdFor} `{WeightConstants} (xyk_state : S -> XykState C) :
  let b := basilisk_api xyk_state in
  testing_api xyk_state =
    mkApi testing_VERSION (execute_block b) (initialize_block b) (metadata b) (apply_extrinsic b)
      (finalize_block b) (inherent_extrinsics b) (api_check_inherents b) (validate_transaction b)
      (offchain_worker b) (decode_session_keys b) (generate_session_keys b) (slot_duration b)
      (authorities b) (collect_collation_info b) (api_on_runtime_upgrade b)
      (execute_block_no_check b) (account_nonce b) (query_info b) (query_fee_details b)
      (get_pool_balances b) (xyk_get_pool_id b) (lbp_get_pool_id b).
Proof. reflexivity. Qed.
