(* ===== verification/ChainSpec.v ===== *)
(** * Chain specifications and their genesis

    Models [src/node/src/chain_spec.rs] and [src/node/src/testing_chain_spec.rs]: the
    genesis configuration of the two runtimes and the specifications of every network
    the node knows.  The derivation of development keys, the compiled runtimes, the
    bundled JSON specification and the conversion of prices from floating point are
    arguments. *)

From S2P Require Import Prelude Primitives Errors Interfaces Runtime Duster.

(** ** Account literals ([hex!] of 32 bytes, most significant digit first) *)

Definition hex_digit (c : Ascii.ascii) : Z :=
  let n := Z.of_N (Ascii.N_of_ascii c) in
  if n <? 58 then n - 48 else n - 87.
Fixpoint hex_value (acc : Z) (digits : string) : Z :=
  match digits with
  | EmptyString => acc
  | String c digits => hex_value (16 * acc + hex_digit c) digits
  end.
Definition hex (digits : string) : AccountId := hex_value 0 digits.

(** ** Data *)

Record VestingEntry := mkVesting {
  v_account : AccountId;
  v_start : BlockNumber;
  v_period : BlockNumber;
  v_period_count : Z;
  v_per_period : Balance
}.

(** [GenesisConfig]; the parts that are defaults everywhere are left out. *)
Record GenesisConfig (AuraId : Type) := mkGenesisConfig {
  g_code : list Z;
  g_balances : list (AccountId * Balance);
  g_sudo : option AccountId;
  g_invulnerables : list AccountId;
  g_candidacy_bond : Balance;
  g_session_keys : list (AccountId * AccountId * AuraId);
  g_asset_names : list (string * Balance);
  g_native_asset_name : string;
  g_native_existential_deposit : Balance;
  g_currencies : list (AssetId * Price);
  g_fallback_account : option AccountId;
  g_account_currencies : list (AccountId * AssetId);
  g_tokens : list (AccountId * AssetId * Balance);
  g_elections : list (AccountId * Balance);
  g_council : list AccountId;
  g_technical_committee : list AccountId;
  g_vesting : list VestingEntry;
  g_parachain_id : Z;
  g_duster : DusterGenesis
}.
Arguments mkGenesisConfig {AuraId}.
Arguments g_code {AuraId}.
Arguments g_balances {AuraId}.
Arguments g_sudo {AuraId}.
Arguments g_invulnerables {AuraId}.
Arguments g_candidacy_bond {AuraId}.
Arguments g_session_keys {AuraId}.
Arguments g_asset_names {AuraId}.
Arguments g_native_asset_name {AuraId}.
Arguments g_native_existential_deposit {AuraId}.
Arguments g_currencies {AuraId}.
Arguments g_fallback_account {AuraId}.
Arguments g_account_currencies {AuraId}.
Arguments g_tokens {AuraId}.
Arguments g_elections {AuraId}.
Arguments g_council {AuraId}.
Arguments g_technical_committee {AuraId}.
Arguments g_vesting {AuraId}.
Arguments g_parachain_id {AuraId}.
Arguments g_duster {AuraId}.

Inductive ChainType := Development | Local | Live.
Inductive Property := PNumber (n : Z) | PString (s : string).
Record Extensions := mkExtensions { relay_chain : string; para_id : Z }.

(** [sc_service::GenericChainSpec]; the genesis is a closure, which may panic when it
    is run. *)
Record ChainSpec (AuraId : Type) := mkSpec {
  spec_name : string;
  spec_id : string;
  spec_type : ChainType;
  spec_genesis : outcome string (GenesisConfig AuraId);
  spec_bootnodes : list string;
  spec_telemetry : option (list (string * Z));
  spec_protocol_id : option string;
  spec_fork_id : option string;
  spec_properties : option (list (string * Property));
  spec_extensions : Extensions
}.
Arguments mkSpec {AuraId}.
Arguments spec_name {AuraId}.
Arguments spec_id {AuraId}.
Arguments spec_type {AuraId}.
Arguments spec_genesis {AuraId}.
Arguments spec_bootnodes {AuraId}.
Arguments spec_telemetry {AuraId}.
Arguments spec_protocol_id {AuraId}.
Arguments spec_fork_id {AuraId}.
Arguments spec_properties {AuraId}.
Arguments spec_extensions {AuraId}.

Definition TOKEN_DECIMALS : Z := 12.
Definition TOKEN_SYMBOL : string := "BSX".
Definition PROTOCOL_ID : string := "bsx".
Definition TELEMETRY_URLS : list string :=
  ["wss://telemetry.polkadot.io/submit/"; "wss://telemetry.hydradx.io:9000/submit/"]%string.
Definition PARA_ID : Z := 2090.

(** What the specifications are built from and cannot be read here: keys derived from a
    seed, the session key with given bytes, the compiled runtimes, the bundled
    specification of the live network, and [Price::from_float] on a decimal fraction. *)
Class NodeResources (AuraId : Type) := {
  get_account_id_from_seed : string -> AccountId;
  get_from_seed : string -> AuraId;
  aura_unchecked_into : AccountId -> AuraId;
  WASM_BINARY : option (list Z);
  TESTING_WASM_BINARY : option (list Z);
  basilisk_json : outcome string (ChainSpec AuraId);
  price_from_float : Z -> Z -> Price
}.

(** [../res/basilisk-vesting-lbp-test.json], its two accounts decoded. *)
Definition vesting_list_json : list VestingEntry :=
  [mkVesting (hex "d43593c715fdd31c61141abd04a99fd6822c8558854ccde39a5684e7a56da27d")
     5 1 30 100000000000;
   mkVesting (hex "8eaf04151687736326c9fea17e25fc5287613693c912909cb226aa4794f26a48")
     5 1 30 200000000000].

Section specs.
Context {AuraId : Type} `{NodeResources AuraId}.
Notation Genesis := (GenesisConfig AuraId).
Notation Spec := (ChainSpec AuraId).
Local Open Scope string_scope.

(** The duplicate check of [get_vesting_config_for_test], on any list. *)
Definition vesting_unique (vesting_list : list VestingEntry) : outcome string (list VestingEntry) :=
  let unique_vesting_accounts : gset AccountId := list_to_set (map v_account vesting_list) in
  if (size unique_vesting_accounts =? length vesting_list)%nat then Ok vesting_list else Panic.
Definition get_vesting_config_for_test : outcome string (list VestingEntry) :=
  vesting_unique vesting_list_json.

(** ** Genesis *)

(** The live network. *)
Definition parachain_genesis (wasm_binary : list Z) (root_key : AccountId)
    (initial_authorities : list (AccountId * AuraId)) (_endowed_accounts : list AccountId)
    (_enable_println : bool) (parachain_id : Z) (tx_fee_payment_account : AccountId) : Genesis := {|
  g_code := wasm_binary;
  g_balances :=
    [(hex "bca8eeb9c7cf74fc28ebe4091d29ae1c12ed622f7e3656aae080b54d5ff9a23c", 15000000000 * UNITS);
     (hex "6d6f646c70792f74727372790000000000000000000000000000000000000000", 9000000000 * UNITS)];
  g_sudo := Some root_key;
  g_invulnerables := map fst initial_authorities;
  g_candidacy_bond := 10000;
  g_session_keys := map (fun '(acc, aura) => (acc, acc, aura)) initial_authorities;
  g_asset_names := [];
  g_native_asset_name := TOKEN_SYMBOL;
  g_native_existential_deposit := NATIVE_EXISTENTIAL_DEPOSIT;
  g_currencies := [];
  g_fallback_account := Some tx_fee_payment_account;
  g_account_currencies := [];
  g_tokens := [];
  g_elections :=
    [(hex "bca8eeb9c7cf74fc28ebe4091d29ae1c12ed622f7e3656aae080b54d5ff9a23c", 14999900000 * UNITS)];
  g_council := [hex "bca8eeb9c7cf74fc28ebe4091d29ae1c12ed622f7e3656aae080b54d5ff9a23c"];
  g_technical_committee :=
    [hex "d6cf8789dce651cb54a4036406f4aa0c771914d345c004ad0567b814c71fb637";
     hex "bc96ec00952efa8f0e3e08b36bf5096bcb877acac536e478aecb72868db5db02";
     hex "2875dd47bc1bcb70e23de79e7538c312be12c716033bbae425130e46f5f2b35e";
     hex "644643bf953233d08c4c9bae0acd49f3baa7658d9b342b7e6879bb149ee6e44c";
     hex "ccdb435892c9883656d0398b2b67023ba1e11bda0c7f213f70fdac54c6abab3f";
     hex "f461c5ae6e80bf4af5b84452789c17b0b0a095a2d77c2a407978147de2d5b572"];
  g_vesting := [];
  g_parachain_id := parachain_id;
  g_duster := {|
    account_blacklist := [hex "6d6f646c70792f74727372790000000000000000000000000000000000000000"];
    reward_account := Some (hex "6d6f646c70792f74727372790000000000000000000000000000000000000000");
    dust_dest := Some (hex "6d6f646c70792f74727372790000000000000000000000000000000000000000")
  |}
|}.

(** The test networks; [endowment] is the amount each endowed account gets. *)
Definition endowed_genesis (endowment : Balance) (wasm_binary : list Z) (root_key : AccountId)
    (initial_authorities : list (AccountId * AuraId)) (endowed_accounts : list AccountId)
    (_enable_println : bool) (parachain_id : Z)
    (council_members tech_committee_members : list AccountId) (tx_fee_payment_account : AccountId)
    (vesting_list : list VestingEntry) (registered_assets : list (string * Balance))
    (accepted_assets : list (AssetId * Price)) (elections : list AccountId) : Genesis := {|
  g_code := wasm_binary;
  g_balances := map (fun k => (k, endowment)) endowed_accounts;
  g_sudo := Some root_key;
  g_invulnerables := map fst initial_authorities;
  g_candidacy_bond := 10000;
  g_session_keys := map (fun '(acc, aura) => (acc, acc, aura)) initial_authorities;
  g_asset_names := registered_assets;
  g_native_asset_name := TOKEN_SYMBOL;
  g_native_existential_deposit := NATIVE_EXISTENTIAL_DEPOSIT;
  g_currencies := accepted_assets;
  g_fallback_account := Some tx_fee_payment_account;
  g_account_currencies := [];
  g_tokens :=
    match registered_assets with
    | [] => []
    | _ => flat_map (fun x => [(x, 1, endowment); (x, 2, endowment)]) endowed_accounts
    end;
  g_elections := flat_map (fun x => [(x, 100000000 * UNITS)]) elections;
  g_council := council_members;
  g_technical_committee := tech_committee_members;
  g_vesting := vesting_list;
  g_parachain_id := parachain_id;
  g_duster := {|
    account_blacklist := [get_account_id_from_seed "Duster"];
    reward_account := Some (get_account_id_from_seed "Duster");
    dust_dest := Some (get_account_id_from_seed "Duster")
  |}
|}.
Definition testnet_parachain_genesis := endowed_genesis (1000000000 * UNITS).
Definition testing_testnet_parachain_genesis := endowed_genesis (1000000000000 * UNITS).

(** ** Specifications *)

Definition properties : list (string * Property) :=
  [("tokenDecimals", PNumber TOKEN_DECIMALS); ("tokenSymbol", PString TOKEN_SYMBOL)].
Definition telemetry : option (list (string * Z)) := Some (map (fun url => (url, 0)) TELEMETRY_URLS).

(** [WASM_BINARY.ok_or(...)?], then the specification. *)
Definition with_wasm (wasm : option (list Z)) (k : list Z -> Spec) : outcome string Spec :=
  match wasm with
  | Some wasm_binary => Ok (k wasm_binary)
  | None => Err "Development wasm binary not available"
  end.

(** The arguments that hold lists computed by a function that may panic. *)
Definition with_vesting (vesting : outcome string (list VestingEntry))
    (k : list VestingEntry -> Genesis) : outcome string Genesis :=
  match vesting with
  | Ok vesting_list => Ok (k vesting_list)
  | Err e => Err e
  | Panic => Panic
  end.

Definition collator (digits : string) : AccountId * AuraId :=
  (hex digits, aura_unchecked_into (hex digits)).
Definition seeded (seed : string) : AccountId * AuraId :=
  (get_account_id_from_seed seed, get_from_seed seed).
Definition ksm_kusd : list (string * Balance) := [("KSM", 1000); ("KUSD", 1000)].
Definition ksm_kusd_prices : list (AssetId * Price) :=
  [(1, price_from_float 212 (10 ^ 7)); (2, price_from_float 806 (10 ^ 6))].

Definition basilisk_parachain_config : outcome string Spec := basilisk_json.

Definition kusama_staging_parachain_config : outcome string Spec :=
  with_wasm WASM_BINARY (fun wasm_binary => {|
    spec_name := "Basilisk";
    spec_id := "basilisk";
    spec_type := Live;
    spec_genesis := Ok (parachain_genesis wasm_binary
      (hex "bca8eeb9c7cf74fc28ebe4091d29ae1c12ed622f7e3656aae080b54d5ff9a23c")
      (map collator ["f25e5d7b43266a5b4cca762c9be917f18852d7a5db85e734776206eeb539dd4f";
         "e84a7090cb18fe39eafebdae9a3ac1111c955247a202a3ab2a3cfe8573c03c60";
         "c49e3fbebac92027e0d19c2fc1ddc288eb549971831e336550832a476727f601";
         "c856aabea6e433be2dfe233c6118d156133e4e663a1223da06421058ddb56712";
         "e02a753fc885bde7ea5839df8619ab80b67be6c869bc19b41f20f865a2f90578"])
      [] true PARA_ID
      (hex "6d6f646c70792f74727372790000000000000000000000000000000000000000"));
    spec_bootnodes :=
      ["/dns/p2p-01.basilisk.hydradx.io/tcp/30333/p2p/12D3KooWJRdTtgFnwrrcigrMRxdJ9zfmhtpH5qgAV9budWat4UtR";
       "/dns/p2p-02.basilisk.hydradx.io/tcp/30333/p2p/12D3KooWQNvuYebz6Zt34LnesFfdVh5i7FWP8GUe9QxuBmKE4b9R";
       "/dns/p2p-03.basilisk.hydradx.io/tcp/30333/p2p/12D3KooWD2Y9VkfC9cmQEpKZLN26xWq7XPJXHDUH8LNVmhoNBrdJ"];
    spec_telemetry := telemetry;
    spec_protocol_id := Some PROTOCOL_ID;
    spec_fork_id := None;
    spec_properties := Some properties;
    spec_extensions := {| relay_chain := "kusama"; para_id := PARA_ID |}
  |}).

Definition testnet_parachain_config : outcome string Spec :=
  with_wasm WASM_BINARY (fun wasm_binary => {|
    spec_name := "Basilisk Egg";
    spec_id := "basilisk_egg";
    spec_type := Live;
    spec_genesis := Ok (testnet_parachain_genesis wasm_binary
      (hex "30035c21ba9eda780130f2029a80c3e962f56588bc04c36be95a225cb536fb55")
      (map collator ["da0fa4ab419def66fb4ac5224e594e82c34ee795268fc7787c8a096c4ff14f11";
         "ecd7a5439c6ab0cd6550bc2f1cef5299d425bb95bb6d7afb32aa3d95ee4f7f1f";
         "f0ad6f1aae7a445c1e80cac883096ec8177eda276fec53ad9ccbe570f3090a26"])
      [hex "30035c21ba9eda780130f2029a80c3e962f56588bc04c36be95a225cb536fb55"]
      true PARA_ID
      [hex "30035c21ba9eda780130f2029a80c3e962f56588bc04c36be95a225cb536fb55"]
      [hex "30035c21ba9eda780130f2029a80c3e962f56588bc04c36be95a225cb536fb55"]
      (hex "30035c21ba9eda780130f2029a80c3e962f56588bc04c36be95a225cb536fb55")
      [] ksm_kusd ksm_kusd_prices
      [hex "30035c21ba9eda780130f2029a80c3e962f56588bc04c36be95a225cb536fb55"]);
    spec_bootnodes :=
      ["/dns/p2p-01.basilisk-testnet.hydradx.io/tcp/30333/p2p/12D3KooW9qapYrocm6W1meShf8eQfeJzbry9PN2CN6SfBGbymxPL";
       "/dns/p2p-02.basilisk-testnet.hydradx.io/tcp/30333/p2p/12D3KooWPS16BYW173YxmxEJpQBoDz1t3Ht4yaPwwg5qCTED7N66";
       "/dns/p2p-03.basilisk-testnet.hydradx.io/tcp/30333/p2p/12D3KooWRMgQRtYrWsLvuwg3V3aQEvMgsbb88T29cKCTH6RAxTaj"];
    spec_telemetry := telemetry;
    spec_protocol_id := Some PROTOCOL_ID;
    spec_fork_id := None;
    spec_properties := Some properties;
    spec_extensions := {| relay_chain := "westend"; para_id := PARA_ID |}
  |}).

Definition parachain_development_config : outcome string Spec :=
  with_wasm WASM_BINARY (fun wasm_binary => {|
    spec_name := "Basilisk Development";
    spec_id := "dev";
    spec_type := Development;
    spec_genesis := with_vesting get_vesting_config_for_test (fun vesting_list => testnet_parachain_genesis wasm_binary
      (get_account_id_from_seed "Alice")
      (map seeded ["Alice"; "Bob"])
      (map get_account_id_from_seed ["Alice"; "Bob"; "Alice//stash"; "Bob//stash"; "Duster"])
      true PARA_ID
      (map get_account_id_from_seed ["Alice"])
      (map get_account_id_from_seed ["Alice"; "Bob"; "Eve"])
      (get_account_id_from_seed "Alice")
      vesting_list ksm_kusd ksm_kusd_prices
      (map get_account_id_from_seed ["Alice"]));
    spec_bootnodes :=
      [];
    spec_telemetry := None;
    spec_protocol_id := Some PROTOCOL_ID;
    spec_fork_id := None;
    spec_properties := Some properties;
    spec_extensions := {| relay_chain := "rococo-dev"; para_id := PARA_ID |}
  |}).

Definition rococo_parachain_config : outcome string Spec :=
  with_wasm WASM_BINARY (fun wasm_binary => {|
    spec_name := "Basilisk testnet";
    spec_id := "basilisk_rococo";
    spec_type := Live;
    spec_genesis := Ok (testnet_parachain_genesis wasm_binary
      (hex "3418b257de81886bef265495f3609def9a083869f32ef5a03f7351956497d41a")
      (map collator ["1822c7a002c35274bd5da15690e9d0027d9d189998990fcefd4458f768109a57";
         "1a5fc9b99feaac2b2dcb8473b1b8e5d641296394233685499b7222edceb40327"])
      [hex "3418b257de81886bef265495f3609def9a083869f32ef5a03f7351956497d41a";
       hex "1822c7a002c35274bd5da15690e9d0027d9d189998990fcefd4458f768109a57";
       hex "1a5fc9b99feaac2b2dcb8473b1b8e5d641296394233685499b7222edceb40327"]
      true PARA_ID
      [hex "3418b257de81886bef265495f3609def9a083869f32ef5a03f7351956497d41a"]
      []
      (hex "3418b257de81886bef265495f3609def9a083869f32ef5a03f7351956497d41a")
      [] [] []
      [hex "3418b257de81886bef265495f3609def9a083869f32ef5a03f7351956497d41a"]);
    spec_bootnodes :=
      ["/dns/p2p-01.basilisk-rococo.hydradx.io/tcp/30333/p2p/12D3KooWPr6PPDFpnY3A4mVE1nNfxQcLAzM98g9tVqNbv3ErZoCV";
       "/dns/p2p-02.basilisk-rococo.hydradx.io/tcp/30333/p2p/12D3KooWN39qskQYQkXVHnAdpCbrRQDQTomUTVv9WjnWCagZroY4"];
    spec_telemetry := telemetry;
    spec_protocol_id := Some PROTOCOL_ID;
    spec_fork_id := None;
    spec_properties := Some properties;
    spec_extensions := {| relay_chain := "rococo"; para_id := PARA_ID |}
  |}).

Definition karura_testnet_parachain_config : outcome string Spec :=
  with_wasm WASM_BINARY (fun wasm_binary => {|
    spec_name := "Basilisk testnet";
    spec_id := "basilisk_karura_testnet";
    spec_type := Live;
    spec_genesis := Ok (testnet_parachain_genesis wasm_binary
      (hex "0897746a8df7df1969bf5fdb4f048221109830994c8afa001e9454c525211404")
      (map collator ["eaef883d17243a8f4622bd22be73a51b0ed635066063a402d5c65b55e391486d";
         "24bcc906635829a590fe47491340b3701ed8b7f8b81c18b4feff00e8dbea0072"])
      [hex "0897746a8df7df1969bf5fdb4f048221109830994c8afa001e9454c525211404"]
      true PARA_ID
      [hex "0897746a8df7df1969bf5fdb4f048221109830994c8afa001e9454c525211404"]
      []
      (hex "0897746a8df7df1969bf5fdb4f048221109830994c8afa001e9454c525211404")
      [] [] []
      [hex "0897746a8df7df1969bf5fdb4f048221109830994c8afa001e9454c525211404"]);
    spec_bootnodes :=
      ["/dns/p2p-01.basilisk-karura-testnet.hydradx.io/tcp/30333/p2p/12D3KooWK7h9waDaJsiBGkqMMVNzK3V8xaxXgzrJd8FUaoTU3Kqk";
       "/dns/p2p-02.basilisk-karura-testnet.hydradx.io/tcp/30333/p2p/12D3KooWHCHDhVJEZcw8jjyx6e1cKCUyfS4QrSXFmzfDX8eB79SC"];
    spec_telemetry := telemetry;
    spec_protocol_id := Some PROTOCOL_ID;
    spec_fork_id := None;
    spec_properties := Some properties;
    spec_extensions := {| relay_chain := "kusama-local"; para_id := PARA_ID |}
  |}).

Definition benchmarks_development_config : outcome string Spec :=
  with_wasm WASM_BINARY (fun wasm_binary => {|
    spec_name := "Basilisk Benchmarks";
    spec_id := "benchmarks";
    spec_type := Development;
    spec_genesis := with_vesting get_vesting_config_for_test (fun vesting_list => testnet_parachain_genesis wasm_binary
      (get_account_id_from_seed "Alice")
      (map seeded ["Alice"; "Bob"])
      (map get_account_id_from_seed ["Alice"; "Bob"; "Alice//stash"; "Bob//stash"; "Duster"])
      true PARA_ID
      (map get_account_id_from_seed ["Alice"])
      (map get_account_id_from_seed ["Alice"; "Bob"; "Eve"])
      (get_account_id_from_seed "Alice")
      vesting_list [] []
      (map get_account_id_from_seed ["Alice"]));
    spec_bootnodes :=
      [];
    spec_telemetry := None;
    spec_protocol_id := Some PROTOCOL_ID;
    spec_fork_id := None;
    spec_properties := Some properties;
    spec_extensions := {| relay_chain := "rococo-dev"; para_id := PARA_ID |}
  |}).

Definition local_parachain_config : outcome string Spec :=
  with_wasm WASM_BINARY (fun wasm_binary => {|
    spec_name := "Basilisk Local Testnet";
    spec_id := "local_testnet";
    spec_type := Local;
    spec_genesis := with_vesting get_vesting_config_for_test (fun vesting_list => testnet_parachain_genesis wasm_binary
      (get_account_id_from_seed "Alice")
      (map seeded ["Alice"; "Bob"])
      (map get_account_id_from_seed ["Alice"; "Bob"; "Charlie"; "Dave"; "Eve"; "Ferdie"; "Alice//stash"; "Bob//stash"; "Charlie//stash"; "Dave//stash"; "Eve//stash"; "Ferdie//stash"])
      true PARA_ID
      (map get_account_id_from_seed ["Alice"])
      (map get_account_id_from_seed ["Alice"; "Bob"; "Eve"])
      (get_account_id_from_seed "Alice")
      vesting_list ksm_kusd ksm_kusd_prices
      (map get_account_id_from_seed ["Alice"]));
    spec_bootnodes :=
      [];
    spec_telemetry := None;
    spec_protocol_id := Some PROTOCOL_ID;
    spec_fork_id := None;
    spec_properties := Some properties;
    spec_extensions := {| relay_chain := "rococo-local"; para_id := PARA_ID |}
  |}).

(** *** The testing runtime *)

Definition testing_parachain_development_config : outcome string Spec :=
  with_wasm TESTING_WASM_BINARY (fun wasm_binary => {|
    spec_name := "Testing Basilisk Development";
    spec_id := "dev";
    spec_type := Development;
    spec_genesis := with_vesting get_vesting_config_for_test (fun vesting_list => testing_testnet_parachain_genesis wasm_binary
      (get_account_id_from_seed "Alice")
      (map seeded ["Alice"; "Bob"])
      (map get_account_id_from_seed ["Alice"; "Bob"; "Alice//stash"; "Bob//stash"; "Duster"])
      true PARA_ID
      (map get_account_id_from_seed ["Alice"])
      (map get_account_id_from_seed ["Alice"; "Bob"; "Eve"])
      (get_account_id_from_seed "Alice")
      vesting_list ksm_kusd ksm_kusd_prices
      (map get_account_id_from_seed ["Alice"]));
    spec_bootnodes :=
      [];
    spec_telemetry := None;
    spec_protocol_id := Some PROTOCOL_ID;
    spec_fork_id := None;
    spec_properties := Some properties;
    spec_extensions := {| relay_chain := "rococo-dev"; para_id := PARA_ID |}
  |}).

Definition testing_local_parachain_config : outcome string Spec :=
  with_wasm TESTING_WASM_BINARY (fun wasm_binary => {|
    spec_name := "Testing Basilisk Local Testnet";
    spec_id := "local_testnet";
    spec_type := Local;
    spec_genesis := with_vesting get_vesting_config_for_test (fun vesting_list => testing_testnet_parachain_genesis wasm_binary
      (get_account_id_from_seed "Alice")
      (map seeded ["Alice"; "Bob"])
      (map get_account_id_from_seed ["Alice"; "Bob"; "Charlie"; "Dave"; "Eve"; "Ferdie"; "Alice//stash"; "Bob//stash"; "Charlie//stash"; "Dave//stash"; "Eve//stash"; "Ferdie//stash"])
      true PARA_ID
      (map get_account_id_from_seed ["Alice"])
      (map get_account_id_from_seed ["Alice"; "Bob"; "Eve"])
      (get_account_id_from_seed "Alice")
      vesting_list ksm_kusd ksm_kusd_prices
      (map get_account_id_from_seed ["Alice"]));
    spec_bootnodes :=
      [];
    spec_telemetry := None;
    spec_protocol_id := Some PROTOCOL_ID;
    spec_fork_id := None;
    spec_properties := Some properties;
    spec_extensions := {| relay_chain := "rococo-local"; para_id := PARA_ID |}
  |}).

Definition k8s_testnet_parachain_config : outcome string Spec :=
  with_wasm TESTING_WASM_BINARY (fun wasm_binary => {|
    spec_name := "Basilisk testnet";
    spec_id := "basilisk_testnet";
    spec_type := Live;
    spec_genesis := with_vesting get_vesting_config_for_test (fun vesting_list => testing_testnet_parachain_genesis wasm_binary
      (hex "a62f1daf8e490a1c0514c7d9f3a700999100f2aeb1d67a2ca68b241d3d6b3547")
      (map collator ["54d469d6141e56c0aa802b00732c38477e72d1ad9d8030f45f76b61aaebc1251";
         "f4969ff6c9b4b1219a1d329d7bdeff9857dd5fc33085fd98182856f7f781b043"])
      [hex "a62f1daf8e490a1c0514c7d9f3a700999100f2aeb1d67a2ca68b241d3d6b3547";
       hex "2e004ce52dd68ec64093d887dbbcc69c7a5333673a7acec6109b08056e89f538";
       hex "d43593c715fdd31c61141abd04a99fd6822c8558854ccde39a5684e7a56da27d";
       hex "8eaf04151687736326c9fea17e25fc5287613693c912909cb226aa4794f26a48"]
      true PARA_ID
      [hex "a62f1daf8e490a1c0514c7d9f3a700999100f2aeb1d67a2ca68b241d3d6b3547"]
      []
      (hex "a62f1daf8e490a1c0514c7d9f3a700999100f2aeb1d67a2ca68b241d3d6b3547")
      vesting_list ksm_kusd ksm_kusd_prices
      [hex "a62f1daf8e490a1c0514c7d9f3a700999100f2aeb1d67a2ca68b241d3d6b3547"]);
    spec_bootnodes :=
      [];
    spec_telemetry := None;
    spec_protocol_id := Some PROTOCOL_ID;
    spec_fork_id := None;
    spec_properties := Some properties;
    spec_extensions := {| relay_chain := "westend"; para_id := PARA_ID |}
  |}).

Definition moonbase_parachain_config : outcome string Spec :=
  with_wasm TESTING_WASM_BINARY (fun wasm_binary => {|
    spec_name := "Basilisk testnet";
    spec_id := "basilisk_moonbase";
    spec_type := Live;
    spec_genesis := Ok (testing_testnet_parachain_genesis wasm_binary
      (hex "9eaea650948488ccc720491b8e40be7436359dc4213a6487ba758ed496f9e53f")
      (map collator ["44cb7e89dfbafaa0a90b1838ec588d53fb01f1789d9b638d4aa4cb7de3870463";
         "8cc5f3c8e9480977f93c519522c12f5ec4cd8ab246be9eee6110aec498f22f36"])
      [hex "9eaea650948488ccc720491b8e40be7436359dc4213a6487ba758ed496f9e53f"]
      true PARA_ID
      [hex "9eaea650948488ccc720491b8e40be7436359dc4213a6487ba758ed496f9e53f"]
      []
      (hex "9eaea650948488ccc720491b8e40be7436359dc4213a6487ba758ed496f9e53f")
      [] [] []
      [hex "9eaea650948488ccc720491b8e40be7436359dc4213a6487ba758ed496f9e53f"]);
    spec_bootnodes :=
      ["/dns/p2p-01.basilisk-moonbase.hydradx.io/tcp/30333/p2p/12D3KooWEugVWasr2Zz8SBETvBwdG65RGo4CEp5tJJSASDarqgam";
       "/dns/p2p-02.basilisk-moonbase.hydradx.io/tcp/30333/p2p/12D3KooWP1bEqFb6VxqoNkp4e5ifkxNLFYzzLxzAJCH76zNq2iQB"];
    spec_telemetry := telemetry;
    spec_protocol_id := Some PROTOCOL_ID;
    spec_fork_id := None;
    spec_properties := Some properties;
    spec_extensions := {| relay_chain := "westend"; para_id := PARA_ID |}
  |}).

End specs.
