(* ===== verification/ChainSpecProps.v ===== *)
(** * Genesis configurations are well formed

    The conditions the pallets put on a genesis, and the proof that every specification
    built by the node meets them: accounts are distinct and hold at least the existential
    deposit, stakes and vesting schedules are covered by balances, collectives fit their
    seats, tokens refer to registered assets, collators have their own keys, and the
    duster has its accounts. *)

From S2P Require Import Prelude Primitives Errors Interfaces Runtime Config Duster ChainSpec.

Local Open Scope Z_scope.

(** The accounts of the well-known development seeds, as [subkey] prints them. *)
Definition dev_keys : list (string * string) :=
  [("Alice", "d43593c715fdd31c61141abd04a99fd6822c8558854ccde39a5684e7a56da27d");
   ("Bob", "8eaf04151687736326c9fea17e25fc5287613693c912909cb226aa4794f26a48");
   ("Charlie", "90b5ab205c6974c9ea841be688864633dc9ca8a357843eeacf2314649965fe22");
   ("Dave", "306721211d5404bd9da88e0204360a1a9ab8b87c66c1bc2fcdd37f3c2222cc20");
   ("Eve", "e659a7a1628cdd93febc04a4e0646ea20e9f5f0ce097d9a05290d4a9e054df4e");
   ("Ferdie", "1cbd2d43530a44705ad088af313e18f80b53ef16b36177cd4b77b846f2a5f07c");
   ("Alice//stash", "be5ddb1579b72e84524fc29e78609e3caf42e85aa118ebfe0b0ad404b5bdd25f");
   ("Bob//stash", "fe65717dad0447d715f660a0a58411de509b42e6efb8375f562f58a554d5860e");
   ("Charlie//stash", "1e07379407fecc4b89eb7dbd287c2c781cfb1907a96947a3eb18e4f8e7198625");
   ("Dave//stash", "e860f1b1c7227f7c22602f53f15af80747814dffd839719731ee3bba6edc126c");
   ("Eve//stash", "8ac59e11963af19174d0b94d5d78041c233f55d2e19324665bafdfb62925af2d");
   ("Ferdie//stash", "101191192fc877c24d725b337120fa3edc63d227bbc92705db1e2cb65f56981a")]%string.

(** The account of a seed, if it is one of these. *)
Definition known (seed : string) : option AccountId :=
  (fun k => hex (snd k)) <$> List.find (fun k => String.eqb (fst k) seed) dev_keys.

(** What is used of the key derivation of [sp_core]: the well-known seeds have the accounts
    above, and the Aura key of such a seed is the same public key; the seed [Duster] is none
    of them; turning 32 bytes into a public key loses nothing. *)
Class NodeResourcesLaws {AuraId} `{NodeResources AuraId} : Prop := {
  dev_account seed a : known seed = Some a -> get_account_id_from_seed seed = a;
  dev_aura seed a : known seed = Some a -> get_from_seed seed = aura_unchecked_into a;
  duster_account seed : known seed <> Some (get_account_id_from_seed "Duster");
  aura_unchecked_inj a b :
    in_range 256 a -> in_range 256 b -> aura_unchecked_into a = aura_unchecked_into b -> a = b
}.

Definition total (l : list Balance) : Balance := foldr Z.add 0 l.

Section wellformed.
Context {AuraId : Type}.
Implicit Types g : GenesisConfig AuraId.

(** [a] holds at least [x] at genesis. *)
Definition covered g (a : AccountId) (x : Balance) : Prop :=
  exists b, (a, b) ∈ g_balances g /\ x <= b.

Record genesis_ok g : Prop := {
  ok_accounts : NoDup (map fst (g_balances g));
  ok_existential : Forall (fun p => g_native_existential_deposit g <= snd p) (g_balances g);
  ok_issuance : total (map snd (g_balances g)) < 2 ^ 128;
  ok_tokens : NoDup (map fst (g_tokens g)) /\
    Forall (fun '(_, c, b) => exists a, g_asset_names g !! Z.to_nat (c - 1) = Some a /\
                                        1 <= c /\ snd a <= b) (g_tokens g);
  ok_token_issuance : total (map snd (g_tokens g)) < 2 ^ 128;
  ok_currencies : NoDup (map fst (g_currencies g)) /\
    Forall (fun p => 1 <= fst p <= Z.of_nat (length (g_asset_names g))) (g_currencies g);
  ok_collators :
    map (fun '(acc, val, _) => (acc, val)) (g_session_keys g) =
      map (fun acc => (acc, acc)) (g_invulnerables g) /\
    NoDup (g_invulnerables g) /\ NoDup (map snd (g_session_keys g)) /\
    (1 <= length (g_invulnerables g))%nat /\
    Z.of_nat (length (g_invulnerables g)) <= MaxInvulnerables collator_params;
  ok_elections : NoDup (map fst (g_elections g)) /\
    Z.of_nat (length (g_elections g)) <= DesiredMembers elections_params /\
    Forall (fun p => covered g (fst p) (snd p)) (g_elections g);
  ok_council : g_council g = map fst (g_elections g) /\
    Z.of_nat (length (g_council g)) <= MaxMembers council_params;
  ok_committee : NoDup (g_technical_committee g) /\
    Z.of_nat (length (g_technical_committee g)) <= MaxMembers technical_params;
  ok_vesting : NoDup (map v_account (g_vesting g)) /\
    Forall (fun v => covered g (v_account v) (v_period_count v * v_per_period v)) (g_vesting g);
  ok_duster : reward_account (g_duster g) <> None /\ dust_dest (g_duster g) <> None
}.

(** The duster's part of the genesis does not panic. *)
Lemma duster_genesis_builds {C} g (s : DusterState C) :
  genesis_ok g -> exists s', genesis_build (g_duster g) s = (Ok tt, s').
Proof.
  intros [_ _ _ _ _ _ _ _ _ _ _ [Hr Hd]]. unfold genesis_build.
  destruct (reward_account (g_duster g)) as [r|], (dust_dest (g_duster g)) as [d|]; try done.
  clear. revert s. induction (account_blacklist (g_duster g)) as [|a l IH]; intros s; simpl; [eauto|].
  destruct (IH (set_AccountBlacklist (union {[a]}) s)) as (s' & Hs'). exists s'.
  revert Hs'. unfold mbind, M_bind, run_bind. simpl. done.
Qed.
End wellformed.

(** ** The genesis of the test networks *)

Lemma total_const {A} (e : Balance) (l : list A) :
  total (map (fun _ => e) l) = e * Z.of_nat (length l).
Proof. unfold total. induction l; simpl length; simpl; lia. Qed.

Section endowed.
Context {AuraId : Type} `{NodeResources AuraId}.

(** What the arguments of [endowed_genesis] have to satisfy. *)
Record endowed_args (e : Balance) (auth : list (AccountId * AuraId)) (endowed council tech : list AccountId)
    (vesting : list VestingEntry) (assets : list (string * Balance)) (prices : list (AssetId * Price))
    : Prop := {
  ea_enough : 100000000 * UNITS <= e /\ e <= 2 ^ 80;
  ea_endowed : NoDup endowed /\ (length endowed <= 100)%nat;
  ea_auth : NoDup (map fst auth) /\ NoDup (map snd auth) /\ (1 <= length auth <= 10)%nat;
  ea_council : council ⊆ endowed /\ NoDup council /\ (length council <= 1)%nat;
  ea_tech : NoDup tech /\ (length tech <= 10)%nat;
  ea_vesting : NoDup (map v_account vesting) /\
    Forall (fun v => v_account v ∈ endowed /\ v_period_count v * v_per_period v <= e) vesting;
  ea_assets : assets = [] /\ prices = [] \/ assets = ksm_kusd /\ prices = ksm_kusd_prices
}.

Lemma covered_endowed g e endowed a x :
  g_balances (AuraId := AuraId) g = map (fun k => (k, e)) endowed -> a ∈ endowed -> x <= e ->
  covered g a x.
Proof.
  intros Hg Ha Hx. exists e. split; [|done]. rewrite Hg. apply list_elem_of_fmap. eauto.
Qed.

(** The tokens of an endowed account. *)
Definition tokens_of (e : Balance) (l : list AccountId) : list (AccountId * AssetId * Balance) :=
  flat_map (fun x => [(x, 1, e); (x, 2, e)]) l.

Lemma tokens_total e (l : list AccountId) :
  total (map snd (tokens_of e l)) = 2 * e * Z.of_nat (length l).
Proof. unfold total. induction l; simpl length; simpl; lia. Qed.

Lemma tokens_nodup e (l : list AccountId) :
  NoDup l -> NoDup (map fst (tokens_of e l)).
Proof.
  induction 1 as [|x l Hx Hl IH]; simpl; [constructor|].
  assert (Hin : forall k, (x, k) ∉ map fst (tokens_of e l)).
  { intros k Hk. destruct Hx. clear -Hk. induction l as [|y l IH]; simpl in Hk; [by apply elem_of_nil in Hk|].
    rewrite !elem_of_cons in Hk. destruct Hk as [[= <- _]|[[= <- _]|Hk]]; [left|left|right]; auto. }
  constructor; [|constructor; [apply Hin|done]].
  rewrite elem_of_cons. intros [[=]|Hk]. by apply Hin in Hk.
Qed.

Lemma endowed_genesis_ok e wasm root auth endowed pl pid council tech fee vesting assets prices :
  endowed_args e auth endowed council tech vesting assets prices ->
  genesis_ok (endowed_genesis e wasm root auth endowed pl pid council tech fee vesting assets prices
                council).
Proof.
  intros [[He1 He2] [Hn Hl] (Ha & Hk & Hla) (Hc & Hcn & Hcl) [Ht Htl] [Hv Hvc] Has].
  assert (Hed : NATIVE_EXISTENTIAL_DEPOSIT <= 100000000 * UNITS) by (by vm_compute).
  assert (Hel : map fst (flat_map (fun x : AccountId => [(x, 100000000 * UNITS)]) council) = council).
  { clear. induction council; simpl; congruence. }
  split; simpl.
  - by rewrite map_map, map_id.
  - apply Forall_fmap, Forall_true. simpl. lia.
  - rewrite map_map. simpl. rewrite total_const. nia.
  - destruct Has as [[-> ->]|[-> ->]]; [by split; constructor|]. simpl. split; [by apply tokens_nodup|].
    clear -Hed He1. induction endowed; simpl; [constructor|].
    repeat constructor; [exists ("KSM"%string, 1000)|exists ("KUSD"%string, 1000)|done];
      (split; [done|]); simpl; unfold NATIVE_EXISTENTIAL_DEPOSIT, CENTS, DOLLARS in *;
      split; try lia; change (100 * UNITS / 100) with UNITS in Hed; unfold UNITS in *; lia.
  - destruct Has as [[-> ->]|[-> ->]]; [done|].
    change (total (map snd (tokens_of e endowed)) < 2 ^ 128). rewrite tokens_total. nia.
  - destruct Has as [[-> ->]|[-> ->]]; [by split; constructor|].
    split; [by apply (bool_decide_unpack _); vm_compute|]. repeat constructor; simpl; lia.
  - split_and!.
    + rewrite !map_map. apply map_ext. by intros [].
    + done.
    + rewrite map_map. replace (map _ auth) with (map snd auth); [done|]. apply map_ext. by intros [].
    + rewrite length_map. lia.
    + rewrite length_map. simpl. lia.
  - rewrite Hel. split_and!; [done| |].
    + rewrite <- (length_map fst), Hel. simpl. lia.
    + clear -Hc He1. induction council as [|x council IH]; simpl; [constructor|].
      constructor; [|apply IH; set_solver]. simpl. eapply covered_endowed; [done|set_solver|lia].
  - rewrite Hel. split; [done|]. simpl. lia.
  - split; [done|]. simpl. lia.
  - split; [done|]. eapply Forall_impl; [|exact Hvc]. intros v [Hin Hle].
    by eapply covered_endowed.
  - done.
Qed.
End endowed.

(** ** Every specification *)

Section all_specs.
Context {AuraId : Type} `{NodeResourcesLaws AuraId}.

(** The specifications that are built from code, for either runtime. *)
Definition built_specs : list (outcome string (ChainSpec AuraId)) :=
  [kusama_staging_parachain_config; testnet_parachain_config; parachain_development_config;
   rococo_parachain_config; karura_testnet_parachain_config; benchmarks_development_config;
   local_parachain_config; testing_parachain_development_config; testing_local_parachain_config;
   k8s_testnet_parachain_config; moonbase_parachain_config].

Definition spec_ok (o : outcome string (ChainSpec AuraId)) : Prop :=
  exists spec g, o = Ok spec /\ spec_genesis spec = Ok g /\ genesis_ok g /\
    g_parachain_id g = para_id (spec_extensions spec) /\ g_sudo g <> None /\
    g_fallback_account g <> None.

Lemma vesting_loads : get_vesting_config_for_test = Ok vesting_list_json.
Proof. unfold get_vesting_config_for_test, vesting_unique. by vm_compute. Qed.

(** Distinct values stay distinct under a map that keeps those of the list apart. *)
Lemma NoDup_map_apart {A B C} (f : A -> B) (g : A -> C) (l : list A) :
  (forall x y, x ∈ l -> y ∈ l -> g x = g y -> f x = f y) -> NoDup (map f l) -> NoDup (map g l).
Proof.
  induction l as [|x l IH]; simpl; intros Hfg Hn; [constructor|].
  apply list.NoDup_cons in Hn as [Hx Hn]. constructor.
  - intros (y & Hy & Hin)%list_elem_of_fmap. apply Hx, list_elem_of_fmap. exists y.
    split; [|done]. apply Hfg; [by left|by right|done].
  - apply IH; [|done]. intros y z Hy Hz. apply Hfg; by right.
Qed.

(** The seeds of the specifications: well-known ones and [Duster]. *)
Definition dev_seed (seed : string) : bool :=
  String.eqb seed "Duster" || match known seed with Some _ => true | None => false end.

Lemma dev_account_inj s t :
  dev_seed s = true -> dev_seed t = true ->
  get_account_id_from_seed s = get_account_id_from_seed t -> known s = known t.
Proof.
  assert (Hc : forall s, dev_seed s = true -> s = "Duster"%string \/ exists a, known s = Some a).
  { intros u. unfold dev_seed. destruct (String.eqb_spec u "Duster"); [by left|].
    destruct (known u); [eauto|done]. }
  intros [->|[a Ha]]%Hc [->|[b Hb]]%Hc Heq; [done| | |].
  - rewrite (dev_account _ _ Hb) in Heq. rewrite <- Heq in Hb. by apply duster_account in Hb.
  - rewrite (dev_account _ _ Ha) in Heq. rewrite Heq in Ha. by apply duster_account in Ha.
  - rewrite (dev_account _ _ Ha), (dev_account _ _ Hb) in Heq. congruence.
Qed.

Lemma seeds_nodup (l : list string) :
  forallb dev_seed l && bool_decide (NoDup (map known l)) = true ->
  NoDup (map get_account_id_from_seed l).
Proof.
  intros [Hl Hn%bool_decide_eq_true]%andb_true_iff. rewrite forallb_forall in Hl. revert Hn. apply NoDup_map_apart.
  intros s t Hs%list_elem_of_In Ht%list_elem_of_In. apply dev_account_inj; auto.
Qed.
Definition is_key (a : AccountId) : bool := (0 <=? a) && (a <? 2 ^ 256).
Lemma keys_nodup (l : list AccountId) :
  forallb is_key l = true -> NoDup l -> NoDup (map aura_unchecked_into l).
Proof.
  intros Hl. rewrite <- (map_id l) at 1. apply NoDup_map_apart. rewrite forallb_forall in Hl.
  intros a b Ha%list_elem_of_In Hb%list_elem_of_In. apply Hl in Ha, Hb.
  unfold is_key in *. apply andb_true_iff in Ha, Hb. zbool. apply aura_unchecked_inj; unfold in_range; lia.
Qed.
Lemma seeded_keys :
  NoDup (map fst (map seeded ["Alice"; "Bob"]%string)) /\
  NoDup (map snd (map seeded ["Alice"; "Bob"]%string)).
Proof.
  split; [by apply (seeds_nodup ["Alice"; "Bob"]%string); vm_compute|]. simpl.
  rewrite (dev_aura "Alice" (hex "d43593c715fdd31c61141abd04a99fd6822c8558854ccde39a5684e7a56da27d") eq_refl),
    (dev_aura "Bob" (hex "8eaf04151687736326c9fea17e25fc5287613693c912909cb226aa4794f26a48") eq_refl).
  apply (keys_nodup [hex _; hex _]); [by vm_compute|]. by apply (bool_decide_unpack _); vm_compute.
Qed.
Lemma collator_keys (l : list string) :
  bool_decide (NoDup (map hex l)) && forallb is_key (map hex l) = true ->
  NoDup (map fst (map collator l)) /\ NoDup (map snd (map collator l)).
Proof.
  intros [Hl%bool_decide_eq_true Hk]%andb_true_iff. rewrite !map_map. simpl. split; [done|].
  rewrite <- (map_map hex aura_unchecked_into). by apply keys_nodup.
Qed.

(** The bundled vesting schedules, for accounts that are endowed. *)
Lemma vesting_args e (endowed : list AccountId) :
  hex "d43593c715fdd31c61141abd04a99fd6822c8558854ccde39a5684e7a56da27d" ∈ endowed ->
  hex "8eaf04151687736326c9fea17e25fc5287613693c912909cb226aa4794f26a48" ∈ endowed ->
  100000000 * UNITS <= e ->
  NoDup (map v_account vesting_list_json) /\
  Forall (fun v => v_account v ∈ endowed /\ v_period_count v * v_per_period v <= e) vesting_list_json.
Proof.
  intros Ha Hb He. split; [by apply (bool_decide_unpack _); vm_compute|].
  repeat constructor; simpl; (done || (unfold UNITS in He; lia)).
Qed.
Lemma alice_bob_vesting e (l : list string) :
  "Alice"%string ∈ l -> "Bob"%string ∈ l -> 100000000 * UNITS <= e ->
  NoDup (map v_account vesting_list_json) /\
  Forall (fun v => v_account v ∈ map get_account_id_from_seed l /\
                   v_period_count v * v_per_period v <= e) vesting_list_json.
Proof.
  intros Ha Hb He.
  assert (Hin : forall s a, known s = Some a -> s ∈ l -> a ∈ map get_account_id_from_seed l).
  { intros s a Hs Hl. rewrite <- (dev_account s a Hs). by apply list_elem_of_fmap_2. }
  apply vesting_args; [by apply (Hin "Alice"%string)|by apply (Hin "Bob"%string)|done].
Qed.

(** The arguments of a network with development keys, and of one with fixed keys. *)
Lemma dev_args e (endowed : list string) assets prices :
  100000000 * UNITS <= e <= 2 ^ 80 ->
  forallb dev_seed endowed && bool_decide (NoDup (map known endowed)) = true ->
  (length endowed <= 100)%nat -> "Alice"%string ∈ endowed -> "Bob"%string ∈ endowed ->
  assets = [] /\ prices = [] \/ assets = ksm_kusd /\ prices = ksm_kusd_prices ->
  endowed_args e (map seeded ["Alice"; "Bob"]%string) (map get_account_id_from_seed endowed)
    (map get_account_id_from_seed ["Alice"]%string)
    (map get_account_id_from_seed ["Alice"; "Bob"; "Eve"]%string) vesting_list_json assets prices.
Proof.
  intros He Hn Hl Ha Hb Has. split; [done| | | | | |done].
  - split; [by apply seeds_nodup|by rewrite length_map].
  - destruct seeded_keys. split_and!; simpl; auto; lia.
  - split_and!; [|by apply seeds_nodup|simpl; lia].
    intros x [->|[]%elem_of_nil]%elem_of_cons. by apply list_elem_of_fmap_2.
  - split; [by apply seeds_nodup|simpl; lia].
  - apply alice_bob_vesting; (done || lia).
Qed.

Lemma live_args e (auth : list string) (endowed council tech : list AccountId) vesting assets prices :
  100000000 * UNITS <= e <= 2 ^ 80 ->
  bool_decide (NoDup (map hex auth)) && forallb is_key (map hex auth) = true ->
  (1 <= length auth <= 10)%nat -> bool_decide (NoDup endowed) = true ->
  (length endowed <= 100)%nat -> bool_decide (council ⊆ endowed /\ NoDup council /\ NoDup tech) = true ->
  (length council <= 1)%nat -> (length tech <= 10)%nat ->
  vesting = [] \/ vesting = vesting_list_json /\
    hex "d43593c715fdd31c61141abd04a99fd6822c8558854ccde39a5684e7a56da27d" ∈ endowed /\
    hex "8eaf04151687736326c9fea17e25fc5287613693c912909cb226aa4794f26a48" ∈ endowed ->
  assets = [] /\ prices = [] \/ assets = ksm_kusd /\ prices = ksm_kusd_prices ->
  endowed_args e (map collator auth) endowed council tech vesting assets prices.
Proof.
  intros He Ha Hla Hn%bool_decide_eq_true Hl (Hc & Hcn & Ht)%bool_decide_eq_true Hcl Htl Hv Has.
  destruct (collator_keys auth Ha). split; [done|done| |done|done| |done].
  - rewrite length_map. split_and!; (done || lia).
  - destruct Hv as [->|(-> & Ha1 & Hb1)]; [by split; constructor|]. apply vesting_args; (done || lia).
Qed.

Lemma staging_ok w fee root :
  genesis_ok (parachain_genesis w root
    (map collator
      ["f25e5d7b43266a5b4cca762c9be917f18852d7a5db85e734776206eeb539dd4f";
       "e84a7090cb18fe39eafebdae9a3ac1111c955247a202a3ab2a3cfe8573c03c60";
       "c49e3fbebac92027e0d19c2fc1ddc288eb549971831e336550832a476727f601";
       "c856aabea6e433be2dfe233c6118d156133e4e663a1223da06421058ddb56712";
       "e02a753fc885bde7ea5839df8619ab80b67be6c869bc19b41f20f865a2f90578"]%string)
    [] true PARA_ID fee).
Proof.
  match goal with |- genesis_ok (parachain_genesis _ _ (map collator ?l) _ _ _ _) =>
    destruct (collator_keys l) as [Ha Hk]; [by vm_compute|] end.
  split; try (simpl; repeat split; repeat constructor; (done || by vm_compute));
    try (by apply (bool_decide_unpack _); vm_compute).
  - split_and!; (done || exact Ha || exact Hk || (simpl; lia)).
  - split_and!; [by apply (bool_decide_unpack _); vm_compute|by vm_compute|].
    constructor; [|constructor]. eexists. split; [left|by vm_compute].
Qed.

Lemma endowed_spec_ok w spec e root auth endowed council tech fee vesting assets prices :
  spec_genesis spec =
    Ok (endowed_genesis e w root auth endowed true PARA_ID council tech fee vesting assets prices
          council) ->
  para_id (spec_extensions spec) = PARA_ID ->
  endowed_args e auth endowed council tech vesting assets prices -> spec_ok (Ok spec).
Proof.
  intros Hg Hp Ha. eexists spec, _. split; [done|]. split; [exact Hg|].
  split; [by apply endowed_genesis_ok|]. by rewrite Hp.
Qed.

Ltac live_spec := eapply (endowed_spec_ok); [reflexivity|reflexivity|
  apply (live_args _ _); simpl length; try lia; try (by vm_compute); try (by left); try (by right)].
Ltac dev_spec := eapply (endowed_spec_ok); [cbn [spec_genesis]; rewrite vesting_loads; reflexivity|reflexivity|
  apply (dev_args _ _); simpl length; try lia; try (by vm_compute); try (by left); try (by right);
  apply (bool_decide_unpack _); by vm_compute].

(** [C17] Every specification the node builds has a well-formed genesis: when the two
    runtimes are compiled in (and the development seeds have their well-known accounts), each of the eleven configurations loads, its genesis does
    not panic, accounts, keys and seats are distinct and within their limits, stakes
    and vesting schedules are covered by balances, tokens and fee currencies refer to
    registered assets, the duster has its accounts, and the parachain id is the one of
    the specification. *)
Theorem specs_wellformed w w' :
  WASM_BINARY = Some w -> TESTING_WASM_BINARY = Some w' -> Forall spec_ok built_specs.
Proof.
  intros Hw Hw'. unfold built_specs, kusama_staging_parachain_config, testnet_parachain_config,
    parachain_development_config, rococo_parachain_config, karura_testnet_parachain_config,
    benchmarks_development_config, local_parachain_config, testing_parachain_development_config,
    testing_local_parachain_config, k8s_testnet_parachain_config, moonbase_parachain_config.
  rewrite Hw, Hw'. unfold with_wasm. repeat apply Forall_cons_2; [..|apply Forall_nil_2].
  - eexists _, _. split; [done|]. split; [done|]. split; [apply staging_ok|done].
  - live_spec.
  - dev_spec.
  - live_spec.
  - live_spec.
  - dev_spec.
  - dev_spec.
  - dev_spec.
  - dev_spec.
  - eapply endowed_spec_ok; [cbn [spec_genesis]; rewrite vesting_loads; reflexivity|reflexivity|].
    apply (live_args _ _); simpl length; try lia; try (by vm_compute); [|by right].
    right. split; [done|]. split; apply (bool_decide_unpack _); by vm_compute.
  - live_spec.
Qed.
End all_specs.

(** ** A concrete set of resources *)

(** The accounts of the well-known seeds, and zero for the others. *)
Definition ex_account (seed : string) : AccountId := default 0 (known seed).

#[local] Instance ex_resources : NodeResources Z := {|
  get_account_id_from_seed := ex_account;
  get_from_seed := ex_account;
  aura_unchecked_into a := a;
  WASM_BINARY := Some [0; 97; 115; 109];
  TESTING_WASM_BINARY := Some [0; 97; 115; 109];
  basilisk_json := Err "not bundled"%string;
  price_from_float n d := n * 10 ^ 18 / d
|}.
(** No well-known account is zero. *)
Lemma known_nonzero seed : known seed <> Some 0.
Proof.
  unfold known. assert (Hall : Forall (fun k => hex (snd k) <> 0) dev_keys)
    by (by apply (bool_decide_unpack _); vm_compute).
  intros (k & [Hin _]%find_some & Hk)%fmap_Some. rewrite List.Forall_forall in Hall.
  by apply (Hall _ Hin).
Qed.
#[local] Instance ex_resources_laws : NodeResourcesLaws.
Proof.
  split; simpl; unfold ex_account.
  - by intros seed a ->.
  - by intros seed a ->.
  - exact known_nonzero.
  - by intros a b _ _.
Qed.

Lemma specs_wellformed_witness : Forall spec_ok (built_specs (AuraId := Z)).
Proof. by eapply specs_wellformed. Defined.
