(* ===== verification/Client.v ===== *)
(** * The client of either runtime

    Models [src/node/src/client.rs]: the node holds one client, of the live or of the
    testing runtime, behind the enum [Client].  The traits of the client API are classes,
    the enum implements each of them by forwarding, and [execute_with] runs code that is
    generic in the client.  The two full clients are arguments; their blocks, keys and
    errors are abstract. *)

From S2P Require Import Prelude Primitives.

(** ** The traits of a client *)

(** The types of a chain's data. *)
Record ChainTypes := mkChainTypes {
  BlockId : Type; Hash : Type; Header : Type; Extrinsic : Type; SignedBlock : Type;
  BlockStatus : Type; Justifications : Type; StorageKey : Type; StorageData : Type;
  ChildInfo : Type; KeyIterator : Type; ClientInfo : Type; ChainInfo : Type; ClientError : Type
}.

Section client.
Context {X : ChainTypes}.
(** [sp_blockchain::Result]. *)
Notation Result A := (outcome (ClientError X) A).

Class UsageProvider (T : Type) := { usage_info : T -> ClientInfo X }.

Class BlockBackend (T : Type) := {
  block_body : T -> BlockId X -> Result (option (list (Extrinsic X)));
  block : T -> BlockId X -> Result (option (SignedBlock X));
  block_status : T -> BlockId X -> Result (BlockStatus X);
  justifications : T -> BlockId X -> Result (option (Justifications X));
  block_hash : T -> BlockNumber -> Result (option (Hash X));
  indexed_transaction : T -> Hash X -> Result (option (list Z));
  block_indexed_body : T -> BlockId X -> Result (option (list (list Z)))
}.

Class StorageProvider (T : Type) := {
  storage : T -> BlockId X -> StorageKey X -> Result (option (StorageData X));
  storage_keys : T -> BlockId X -> StorageKey X -> Result (list (StorageKey X));
  storage_hash : T -> BlockId X -> StorageKey X -> Result (option (Hash X));
  storage_pairs : T -> BlockId X -> StorageKey X -> Result (list (StorageKey X * StorageData X));
  storage_keys_iter :
    T -> BlockId X -> option (StorageKey X) -> option (StorageKey X) -> Result (KeyIterator X);
  child_storage :
    T -> BlockId X -> ChildInfo X -> StorageKey X -> Result (option (StorageData X));
  child_storage_keys :
    T -> BlockId X -> ChildInfo X -> StorageKey X -> Result (list (StorageKey X));
  child_storage_keys_iter : T -> BlockId X -> ChildInfo X -> option (StorageKey X) ->
    option (StorageKey X) -> Result (KeyIterator X);
  child_storage_hash : T -> BlockId X -> ChildInfo X -> StorageKey X -> Result (option (Hash X))
}.

Class HeaderBackend (T : Type) := {
  header : T -> BlockId X -> Result (option (Header X));
  info : T -> ChainInfo X;
  status : T -> BlockId X -> Result (BlockStatus X);
  number : T -> Hash X -> Result (option BlockNumber);
  hash : T -> BlockNumber -> Result (option (Hash X))
}.

(** [AbstractClient]: what code that is generic in the client may use. *)
Class AbstractClient (T : Type) := {
  abstract_usage :: UsageProvider T; abstract_blocks :: BlockBackend T;
  abstract_storage :: StorageProvider T; abstract_headers :: HeaderBackend T
}.

(** ** The enum and its implementations *)

Inductive AnyClient (B T : Type) := OfBasilisk (client : B) | OfTestingBasilisk (client : T).
#[global] Arguments OfBasilisk {B T} client.
#[global] Arguments OfTestingBasilisk {B T} client.

Context {B T : Type} `{AbstractClient B} `{AbstractClient T}.
Notation Client := (AnyClient B T).

(** [ClientHandle::execute_with]: [t] is generic in the client. *)
Definition execute_with {Output : Type} (self : Client)
    (t : forall C : Type, AbstractClient C -> C -> Output) : Output :=
  match self with
  | OfBasilisk client => t _ _ client
  | OfTestingBasilisk client => t _ _ client
  end.

#[export] Instance Client_usage : UsageProvider Client := {|
  usage_info self :=
    match self with OfBasilisk c => usage_info c | OfTestingBasilisk c => usage_info c end
|}.

#[export] Instance Client_blocks : BlockBackend Client := {|
  block_body self id :=
    match self with OfBasilisk c => block_body c id | OfTestingBasilisk c => block_body c id end;
  block self id :=
    match self with OfBasilisk c => block c id | OfTestingBasilisk c => block c id end;
  block_status self id :=
    match self with OfBasilisk c => block_status c id | OfTestingBasilisk c => block_status c id end;
  justifications self id :=
    match self with OfBasilisk c => justifications c id | OfTestingBasilisk c => justifications c id end;
  block_hash self number :=
    match self with OfBasilisk c => block_hash c number | OfTestingBasilisk c => block_hash c number end;
  indexed_transaction self id :=
    match self with
    | OfBasilisk c => indexed_transaction c id
    | OfTestingBasilisk c => indexed_transaction c id
    end;
  block_indexed_body self id :=
    match self with
    | OfBasilisk c => block_indexed_body c id
    | OfTestingBasilisk c => block_indexed_body c id
    end
|}.

#[export] Instance Client_storage : StorageProvider Client := {|
  storage self id key :=
    match self with OfBasilisk c => storage c id key | OfTestingBasilisk c => storage c id key end;
  storage_keys self id key_prefix :=
    match self with
    | OfBasilisk c => storage_keys c id key_prefix
    | OfTestingBasilisk c => storage_keys c id key_prefix
    end;
  storage_hash self id key :=
    match self with
    | OfBasilisk c => storage_hash c id key
    | OfTestingBasilisk c => storage_hash c id key
    end;
  storage_pairs self id key_prefix :=
    match self with
    | OfBasilisk c => storage_pairs c id key_prefix
    | OfTestingBasilisk c => storage_pairs c id key_prefix
    end;
  storage_keys_iter self id prefix start_key :=
    match self with
    | OfBasilisk c => storage_keys_iter c id prefix start_key
    | OfTestingBasilisk c => storage_keys_iter c id prefix start_key
    end;
  child_storage self id child_info key :=
    match self with
    | OfBasilisk c => child_storage c id child_info key
    | OfTestingBasilisk c => child_storage c id child_info key
    end;
  child_storage_keys self id child_info key_prefix :=
    match self with
    | OfBasilisk c => child_storage_keys c id child_info key_prefix
    | OfTestingBasilisk c => child_storage_keys c id child_info key_prefix
    end;
  child_storage_keys_iter self id child_info prefix start_key :=
    match self with
    | OfBasilisk c => child_storage_keys_iter c id child_info prefix start_key
    | OfTestingBasilisk c => child_storage_keys_iter c id child_info prefix start_key
    end;
  child_storage_hash self id child_info key :=
    match self with
    | OfBasilisk c => child_storage_hash c id child_info key
    | OfTestingBasilisk c => child_storage_hash c id child_info key
    end
|}.

#[export] Instance Client_headers : HeaderBackend Client := {|
  header self id :=
    match self with OfBasilisk c => header c id | OfTestingBasilisk c => header c id end;
  info self := match self with OfBasilisk c => info c | OfTestingBasilisk c => info c end;
  status self id :=
    match self with OfBasilisk c => status c id | OfTestingBasilisk c => status c id end;
  number self h :=
    match self with OfBasilisk c => number c h | OfTestingBasilisk c => number c h end;
  hash self n :=
    match self with OfBasilisk c => hash c n | OfTestingBasilisk c => hash c n end
|}.

(** So the enum is itself a client. *)
#[export] Instance Client_abstract : AbstractClient Client := Build_AbstractClient _ _ _ _ _.

(** ** Properties *)

(** What code relies on in a client: numbers and hashes of the best chain agree, the hash of
    a block is the same from either trait, a block's body is there when the block is, and
    pairs of storage are the keys with their data. *)
Class ClientLaws (C : Type) `{AbstractClient C} : Prop := {
  hash_number (c : C) n h : hash c n = Ok (Some h) -> number c h = Ok (Some n);
  hash_twice (c : C) n : block_hash c n = hash c n;
  body_of_block (c : C) id b : block c id = Ok (Some b) -> exists l, block_body c id = Ok (Some l);
  pairs_keys (c : C) id p l :
    storage_pairs c id p = Ok l -> storage_keys c id p = Ok (map fst l) /\
      Forall (fun kv => storage c id (fst kv) = Ok (Some (snd kv))) l
}.

(** Forwarding keeps these promises: whichever runtime the node runs, its client is one. *)
#[export] Instance Client_laws `{!ClientLaws B} `{!ClientLaws T} : ClientLaws Client.
Proof.
  split.
  - intros [c|c] n h; simpl; apply hash_number.
  - intros [c|c] n; simpl; apply hash_twice.
  - intros [c|c] id b; simpl; apply body_of_block.
  - intros [c|c] id p l; simpl; apply pairs_keys.
Qed.

(** Code that is generic in the client gets the same answers through [execute_with] as from
    the enum itself, for every query of the four traits. *)
Theorem execute_with_agrees (self : Client) :
  execute_with self (fun C _ (c : C) => usage_info c) = usage_info self /\
  (forall id, execute_with self (fun C _ (c : C) => block c id) = block self id) /\
  (forall id, execute_with self (fun C _ (c : C) => block_body c id) = block_body self id) /\
  (forall id, execute_with self (fun C _ (c : C) => header c id) = header self id) /\
  (forall n, execute_with self (fun C _ (c : C) => hash c n) = hash self n) /\
  (forall h, execute_with self (fun C _ (c : C) => number c h) = number self h) /\
  (forall id k, execute_with self (fun C _ (c : C) => storage c id k) = storage self id k) /\
  (forall id i k,
     execute_with self (fun C _ (c : C) => child_storage c id i k) = child_storage self id i k).
Proof. destruct self; split_and!; reflexivity. Qed.
End client.
