(* ===== verification/Node.v ===== *)
(** * The node: command line, chain selection and runtime selection

    Models [src/node/src/cli.rs], [command.rs] and the runtime selection of [service.rs]:
    how the [--runtime] argument is read, which specification an id of a chain stands
    for, which of the two runtimes a specification runs on, and what the subcommands
    do with them.  Files, the compiled resources, the substrate runner and the services
    are arguments.  Names are ASCII, so [to_lowercase] is the lower case of ASCII. *)

From S2P Require Import Prelude Primitives Errors Interfaces Runtime Config Duster ChainSpec.

Local Open Scope string_scope.

(** ** Strings *)

Definition lower_char (c : Ascii.ascii) : Ascii.ascii :=
  let n := Ascii.N_of_ascii c in
  if ((65 <=? n) && (n <=? 90))%N then Ascii.ascii_of_N (n + 32) else c.
Fixpoint to_lowercase (s : string) : string :=
  match s with
  | EmptyString => EmptyString
  | String c s => String (lower_char c) (to_lowercase s)
  end.
Definition starts_with (s p : string) : bool := String.prefix p s.

(** ** [RuntimeInstance] ([cli.rs]) *)

Inductive RuntimeInstance := Basilisk | Testing.
#[export] Instance RuntimeInstance_eq_dec : EqDecision RuntimeInstance.
Proof. solve_decision. Defined.

Definition variants : list string := ["basilisk"; "testing"].
Definition is_testing_runtime (r : RuntimeInstance) : bool :=
  match r with Basilisk => false | Testing => true end.
Definition display (r : RuntimeInstance) : string :=
  match r with Basilisk => "basilisk" | Testing => "testing" end.
Definition default_instance : RuntimeInstance := Basilisk.
Definition from_str (input : string) : outcome string RuntimeInstance :=
  let input_lower := to_lowercase input in
  if String.eqb input_lower "testing" then Ok Testing
  else if String.eqb input_lower "basilisk" || String.eqb input_lower "" then Ok Basilisk
  else Err ("Invalid variant: `" +:+ input_lower +:+ "`").

(** ** Which runtime a specification runs on ([service.rs]) *)

Section node.
Context {AuraId : Type} `{NodeResources AuraId}.
Notation Spec := (ChainSpec AuraId).

Definition spec_is_basilisk_runtime (spec : Spec) : bool :=
  starts_with (to_lowercase (spec_name spec)) "basilisk" ||
  starts_with (to_lowercase (spec_name spec)) "bsx".
Definition spec_is_testing_runtime (spec : Spec) : bool :=
  starts_with (to_lowercase (spec_name spec)) "test".

(** [Cli::native_runtime_version]. *)
Definition native_runtime_version (spec : Spec) : RuntimeVersion :=
  if spec_is_testing_runtime spec then testing_VERSION else VERSION.

(** ** Loading specifications ([command.rs]) *)

(** [ChainSpec::from_json_file] of the two runtimes. *)
Class SpecFiles := {
  from_json_file : string -> outcome string Spec;
  testing_from_json_file : string -> outcome string Spec
}.
Context `{SpecFiles}.

(** The testing half is the same in both functions. *)
Definition load_testing_spec (id : string) : outcome string Spec :=
  if String.eqb id "dev" then testing_parachain_development_config
  else if String.eqb id "local" then testing_local_parachain_config
  else if String.eqb id "testnet-k8s" then k8s_testnet_parachain_config
  else if String.eqb id "moonbase" then moonbase_parachain_config
  else testing_from_json_file id.

(** The free function, used by the export subcommands. *)
Definition load_spec (id : string) (is_testing : bool) : outcome string Spec :=
  if is_testing then load_testing_spec id
  else if String.eqb id "" then basilisk_parachain_config
  else if String.eqb id "dev" then parachain_development_config
  else if String.eqb id "benchmarks" then benchmarks_development_config
  else if String.eqb id "testnet" then testnet_parachain_config
  else if String.eqb id "rococo" then rococo_parachain_config
  else if String.eqb id "local" then local_parachain_config
  else if String.eqb id "staging" then kusama_staging_parachain_config
  else if String.eqb id "karura-testnet" then karura_testnet_parachain_config
  else from_json_file id.

(** The executable's name decides first, then the argument. *)
Definition runs_testing (exec_name : option string) (runtime : RuntimeInstance) : bool :=
  if starts_with (default "" exec_name) "testing" then true else is_testing_runtime runtime.

(** [SubstrateCli::load_spec] of [Cli], used by everything else. *)
Definition cli_load_spec (exec_name : option string) (runtime : RuntimeInstance) (id : string)
    : outcome string Spec :=
  let id := if String.eqb id "" then "basilisk" else id in
  if runs_testing exec_name runtime then load_testing_spec id
  else if String.eqb id "basilisk" then basilisk_parachain_config
  else if String.eqb id "dev" then parachain_development_config
  else if String.eqb id "benchmarks" then benchmarks_development_config
  else if String.eqb id "testnet" then testnet_parachain_config
  else if String.eqb id "local" then local_parachain_config
  else if String.eqb id "staging" then kusama_staging_parachain_config
  else if String.eqb id "rococo" then rococo_parachain_config
  else if String.eqb id "karura-testnet" then karura_testnet_parachain_config
  else from_json_file id.

(** ** Services *)

(** [Client] and the runtime behind it. *)
Inductive Client := ClientBasilisk | ClientTestingBasilisk.
Inductive Keystore := KeystorePath | KeystoreInMemory.
Inductive Role := Full | Light | Authority.
Definition is_authority (r : Role) : bool := match r with Authority => true | _ => false end.

Record Configuration := mkConfiguration {
  c_chain_spec : Spec; c_keystore : Keystore; c_role : Role; c_base_path : option string
}.

(** [new_partial]: the keystore is switched to memory, the client is that of the runtime;
    [impl] is the construction of the client, which may fail. *)
Definition new_partial (impl : Client -> Configuration -> outcome string unit) (config : Configuration)
    : outcome string Client * Configuration :=
  let config := mkConfiguration (c_chain_spec config) KeystoreInMemory (c_role config)
                  (c_base_path config) in
  let client := if spec_is_testing_runtime (c_chain_spec config) then ClientTestingBasilisk
                else ClientBasilisk in
  (match impl client config with Ok _ => Ok client | Err e => Err e | Panic => Panic end, config).

(** What kind of node a specification and a role ask for, and on which client: the abstract
    counterpart of [start_node], whose services are modelled in [Service.v]. *)
Inductive Started := StartedCollator (c : Client) | StartedFullNode (c : Client).
Definition node_to_start (spec : Spec) (role : Role) : outcome string Started :=
  let client := if spec_is_testing_runtime spec then ClientTestingBasilisk else ClientBasilisk in
  match role with
  | Light => Err "Light client not supported!"
  | _ => Ok (if is_authority role then StartedCollator client else StartedFullNode client)
  end.

(** ** The relay chain's part of the command line *)

Record RelayChainCli := mkRelayChainCli { rc_chain_id : option string; rc_base_path : option string }.
Definition RelayChainCli_new (para_config : Configuration) : RelayChainCli :=
  mkRelayChainCli (Some (relay_chain (spec_extensions (c_chain_spec para_config))))
    ((fun p => p +:+ "/polkadot") <$> c_base_path para_config).
(** [chain_id]: the relay chain named on the command line, else the one of the specification. *)
Definition relay_chain_id (cli : RelayChainCli) (base_chain_id : string) : string :=
  if String.eqb base_chain_id "" then default "" (rc_chain_id cli) else base_chain_id.
Definition relay_base_path (cli : RelayChainCli) (base : option string) : option string :=
  match base with Some p => Some p | None => rc_base_path cli end.

(** ** Exporting the genesis *)

(** Building the storage of a genesis, the encoded header of its block under a state
    version, its display as [0x...], and the configuration of the relay chain's part. *)
Class GenesisBlocks := {
  build_storage : Spec -> outcome string (gmap string (list Z));
  genesis_header : Spec -> Z -> outcome string (list Z);
  hex_display : list Z -> list Z;
  relay_configuration : RelayChainCli -> outcome string unit
}.
Context `{GenesisBlocks}.
Definition CODE : string := ":code".

Record ExportParams := mkExport { ep_chain : option string; ep_raw : bool; ep_runtime : RuntimeInstance }.

Definition extract_genesis_wasm (spec : Spec) : outcome string (list Z) :=
  match build_storage spec with
  | Ok top => match top !! CODE with
              | Some code => Ok code
              | None => Err "Could not find wasm file in genesis state!"
              end
  | Err e => Err e
  | Panic => Panic
  end.

Definition and_then {A B} (m : outcome string A) (k : A -> outcome string B) : outcome string B :=
  match m with Ok a => k a | Err e => Err e | Panic => Panic end.
Definition render (raw : bool) (bytes : list Z) : list Z := if raw then bytes else hex_display bytes.

Definition export_genesis_state (exec_name : option string) (params : ExportParams)
    : outcome string (list Z) :=
  let is_testing := runs_testing exec_name (ep_runtime params) in
  and_then (load_spec (default "" (ep_chain params)) false) (fun spec =>
  let version := state_version (native_runtime_version spec) in
  and_then (load_spec (default "" (ep_chain params)) is_testing) (fun spec' =>
  and_then (genesis_header spec' version) (fun header =>
  Ok (render (ep_raw params) header)))).

Definition export_genesis_wasm (exec_name : option string) (params : ExportParams)
    : outcome string (list Z) :=
  let is_testing := runs_testing exec_name (ep_runtime params) in
  and_then (load_spec (default "" (ep_chain params)) is_testing) (fun spec =>
  and_then (extract_genesis_wasm spec) (fun wasm =>
  Ok (render (ep_raw params) wasm))).

(** ** [run] *)

Inductive ClientCommand := CheckBlock | ExportBlocks | ExportState | ImportBlocks | Revert.
Inductive Subcommand :=
| BuildSpec
| WithClient (c : ClientCommand)
| PurgeChain
| Benchmark
| ExportGenesisState (p : ExportParams)
| ExportGenesisWasm (p : ExportParams)
| TryRuntime.

Record Cli := mkCli {
  cli_subcommand : option Subcommand; cli_runtime : RuntimeInstance; cli_chain : string; cli_role : Role
}.

(** What a run of the program does. *)
Inductive Effect :=
| RanBuildSpec (spec : Spec)
| RanWithClient (c : ClientCommand) (client : Client)
| RanPurgeChain (spec : Spec) (relay : RelayChainCli)
| RanBenchmark (spec : Spec)
| RanTryRuntime (spec : Spec)
| Wrote (bytes : list Z)
| RanNode (node : Started) (para : Z).

(** The features the binary is compiled with: [runtime-benchmarks], [try-runtime]. *)
Record Features := mkFeatures { runtime_benchmarks : bool; try_runtime : bool }.

Definition relay_checked (relay : RelayChainCli) : outcome string unit :=
  match relay_configuration relay with
  | Err e => Err ("Relay chain argument error: " +:+ e)
  | r => r
  end.

(** [create_runner] loads the specification of the chain named by the command
    ([cli_chain]). *)
Definition create_runner (exec_name : option string) (cli : Cli) : outcome string Configuration :=
  and_then (cli_load_spec exec_name (cli_runtime cli) (cli_chain cli)) (fun spec =>
  Ok (mkConfiguration spec KeystorePath (cli_role cli) None)).

(** Without a subcommand the node itself is run: not as a collator with the benchmarking
    runtime, and only when the genesis block and the configuration of the relay chain can
    be built; [services] is the start of the node's services, which may fail. *)
Definition run_node (features : Features) (services : Started -> outcome string unit)
    (config : Configuration) : outcome string Effect :=
  if runtime_benchmarks features && is_authority (c_role config)
  then Err "It is not allowed to run a collator node with the benchmarking runtime."
  else
  and_then (genesis_header (c_chain_spec config)
              (state_version (native_runtime_version (c_chain_spec config)))) (fun _ =>
  and_then (relay_checked (RelayChainCli_new config)) (fun _ =>
  and_then (node_to_start (c_chain_spec config) (c_role config)) (fun started =>
  and_then (services started) (fun _ =>
  Ok (RanNode started (para_id (spec_extensions (c_chain_spec config)))))))).

Definition run (features : Features) (impl : Client -> Configuration -> outcome string unit)
    (services : Started -> outcome string unit) (exec_name : option string) (cli : Cli) : outcome string Effect :=
  match cli_subcommand cli with
  | Some BuildSpec =>
      and_then (create_runner exec_name cli) (fun config => Ok (RanBuildSpec (c_chain_spec config)))
  | Some (WithClient c) =>
      and_then (create_runner exec_name cli) (fun config =>
      and_then (fst (new_partial impl config)) (fun client => Ok (RanWithClient c client)))
  | Some PurgeChain =>
      and_then (create_runner exec_name cli) (fun config =>
      and_then (relay_checked (RelayChainCli_new config)) (fun _ =>
      Ok (RanPurgeChain (c_chain_spec config) (RelayChainCli_new config))))
  | Some Benchmark =>
      if runtime_benchmarks features then
        and_then (create_runner exec_name cli) (fun config => Ok (RanBenchmark (c_chain_spec config)))
      else Err "Benchmarking wasn't enabled when building the node. You can enable it with `--features runtime-benchmarks`."
  | Some (ExportGenesisState params) =>
      and_then (export_genesis_state exec_name params) (fun b => Ok (Wrote b))
  | Some (ExportGenesisWasm params) =>
      and_then (export_genesis_wasm exec_name params) (fun b => Ok (Wrote b))
  | Some TryRuntime =>
      if try_runtime features then
        and_then (create_runner exec_name cli) (fun config => Ok (RanTryRuntime (c_chain_spec config)))
      else Err "TryRuntime wasn't enabled when building the node. You can enable it with `--features try-runtime`."
  | None => and_then (create_runner exec_name cli) (run_node features services)
  end.
End node.
