(* ===== verification/NodeProps.v ===== *)
(** * Properties of the node

    The two functions that load a specification agree but for one id each; reading the
    [--runtime] argument inverts printing it; which runtime each known chain runs on; what
    a run of the program has done when it succeeds. *)

From S2P Require Import Prelude Primitives Errors Interfaces Runtime Config Duster ChainSpec Node.

Local Open Scope string_scope.

(** ** Reading the [--runtime] argument *)

Lemma lower_char_idem c : lower_char (lower_char c) = lower_char c.
Proof. by destruct c as [[] [] [] [] [] [] [] []]. Qed.
Lemma to_lowercase_idem s : to_lowercase (to_lowercase s) = to_lowercase s.
Proof. induction s; simpl; [done|]. by rewrite lower_char_idem, IHs. Qed.

(** Reading inverts printing, in any case of letters: the argument is accepted exactly
    when its lower case is the printed name of a runtime or empty, the empty one being
    the default runtime; the printed names are the possible values the command line
    offers. *)
Theorem runtime_argument_roundtrip :
  (forall r, from_str (display r) = Ok r) /\
  (forall s, from_str s = from_str (to_lowercase s)) /\
  (forall s r, from_str s = Ok r <->
     to_lowercase s = display r \/ (to_lowercase s = "" /\ r = default_instance)) /\
  (forall s, s ∈ variants <-> exists r, s = display r).
Proof.
  split_and!.
  - by intros [].
  - intros s. unfold from_str. by rewrite to_lowercase_idem.
  - intros s r. unfold from_str. cbv zeta.
    destruct (String.eqb_spec (to_lowercase s) "testing") as [->|Ht];
      [|destruct (String.eqb_spec (to_lowercase s) "basilisk") as [->|Hb];
        [|destruct (String.eqb_spec (to_lowercase s) "") as [->|He]]];
      destruct r; simpl; naive_solver.
  - intros s. unfold variants. rewrite !elem_of_cons, elem_of_nil. split.
    + intros [->|[->|[]]]; [by exists Basilisk|by exists Testing].
    + intros [[] ->]; simpl; auto.
Qed.

(** ** Loading specifications *)

Section load.
Context {AuraId : Type} `{NodeResources AuraId} `{!SpecFiles (AuraId := AuraId)}.
Notation Spec := (ChainSpec AuraId).

Ltac ids := repeat match goal with
  | |- context [String.eqb ?a ?b] => destruct (String.eqb_spec a b) as [->|?]
  end.

(** The two loaders agree: the function of the export subcommands and the one of the
    command-line interface give the same specification for every id, every name of the
    executable and every runtime, except for the id [basilisk] on the live runtime and
    the empty id on the testing runtime; the first is a file for the exports, the
    second is the file [basilisk] for the interface. *)
Theorem loaders_agree exec runtime id :
  let testing := runs_testing exec runtime in
  (~ (id = "basilisk" /\ testing = false) -> ~ (id = "" /\ testing = true) ->
   cli_load_spec exec runtime id = load_spec id testing) /\
  (testing = false -> cli_load_spec exec runtime "basilisk" = cli_load_spec exec runtime "" /\
     load_spec "basilisk" testing = from_json_file "basilisk") /\
  (testing = true -> cli_load_spec exec runtime "" = testing_from_json_file "basilisk" /\
     load_spec "" testing = testing_from_json_file "").
Proof.
  intros testing. unfold cli_load_spec. fold testing. split_and!.
  - intros Hb He. unfold load_spec. destruct testing.
    + destruct (String.eqb_spec id "") as [->|]; [by destruct He|done].
    + destruct (String.eqb_spec id "") as [->|Hid]; [done|].
      destruct (String.eqb_spec id "basilisk") as [->|Hnb]; [by destruct Hb|]. by ids.
  - by intros ->.
  - by intros ->.
Qed.

(** ** Which runtime runs *)

(** The runtime of the specification that was loaded, if any. *)
Definition runtime_of (o : outcome string Spec) : option RuntimeInstance :=
  match o with
  | Ok spec => Some (if spec_is_testing_runtime spec then Testing else Basilisk)
  | _ => None
  end.

(** Every known chain of the live runtime runs on the live runtime, and the development
    and local chains of the testing runtime run on the testing runtime; the client of
    the other commands, the started node and the version agree on it. *)
Theorem runtime_selection w w' :
  WASM_BINARY = Some w -> TESTING_WASM_BINARY = Some w' ->
  (forall id, id ∈ ["dev"; "benchmarks"; "testnet"; "rococo"; "local"; "staging"; "karura-testnet"] ->
     runtime_of (load_spec id false) = Some Basilisk) /\
  (forall id, id ∈ ["dev"; "local"] -> runtime_of (load_spec id true) = Some Testing) /\
  (forall (spec : Spec) role impl config, c_chain_spec config = spec ->
     impl (if spec_is_testing_runtime spec then ClientTestingBasilisk else ClientBasilisk)
       (mkConfiguration spec KeystoreInMemory (c_role config) (c_base_path config)) = Ok tt ->
     role <> Light ->
     let t := spec_is_testing_runtime spec in
     let client := if t then ClientTestingBasilisk else ClientBasilisk in
     fst (new_partial impl config) = Ok client /\
     node_to_start spec role =
       Ok (if is_authority role then StartedCollator client else StartedFullNode client) /\
     spec_name_of (native_runtime_version spec) = (if t then "testing-basilisk" else "basilisk")).
Proof.
  intros Hw Hw'. split_and!.
  - intros id Hid. rewrite !elem_of_cons, elem_of_nil in Hid.
    unfold load_spec, parachain_development_config, benchmarks_development_config,
      testnet_parachain_config, rococo_parachain_config, local_parachain_config,
      kusama_staging_parachain_config, karura_testnet_parachain_config, with_wasm.
    rewrite Hw. by repeat destruct Hid as [->|Hid].
  - intros id Hid. rewrite !elem_of_cons, elem_of_nil in Hid.
    unfold load_spec, load_testing_spec, testing_parachain_development_config,
      testing_local_parachain_config, with_wasm.
    rewrite Hw'. by repeat destruct Hid as [->|Hid].
  - intros spec role impl config <- Himpl Hrole t client. split_and!.
    + unfold new_partial. simpl. fold t client. fold t client in Himpl. by rewrite Himpl.
    + unfold node_to_start. fold t client. by destruct role.
    + unfold native_runtime_version. fold t. by destruct t.
Qed.

(** The two live networks of the testing runtime are named [Basilisk testnet], so the node
    runs the live runtime on their genesis although the testing runtime was asked for. *)
Theorem testing_networks_run_live_runtime w' exec id :
  TESTING_WASM_BINARY = Some w' -> id = "testnet-k8s" \/ id = "moonbase" ->
  runtime_of (cli_load_spec exec Testing id) = Some Basilisk.
Proof.
  intros Hw Hid. unfold cli_load_spec, runs_testing, load_testing_spec,
    k8s_testnet_parachain_config, moonbase_parachain_config, with_wasm. rewrite Hw.
  replace (if starts_with (default "" exec) "testing" then true else is_testing_runtime Testing)
    with true by (by destruct (starts_with _ _)).
  by destruct Hid as [->| ->].
Qed.

(** ** Exporting the genesis state *)

Context `{!GenesisBlocks (AuraId := AuraId)}.

(** [export-genesis-state] reads the specification as one of the live runtime first, even
    for the testing runtime, so for a chain only the testing runtime knows it fails
    unless a file has that name; [export-genesis-wasm] does not. *)
Theorem export_state_of_testing_chain w' exec raw id e :
  TESTING_WASM_BINARY = Some w' -> id = "testnet-k8s" \/ id = "moonbase" ->
  from_json_file id = Err e ->
  let params := mkExport (Some id) raw Testing in
  export_genesis_state exec params = Err e /\
  exists spec, load_spec id (runs_testing exec Testing) = Ok spec /\
    export_genesis_wasm exec params =
      and_then (extract_genesis_wasm spec) (fun wasm => Ok (render raw wasm)).
Proof.
  intros Hw Hid Hf params. unfold export_genesis_state, export_genesis_wasm, params. cbn [ep_chain ep_runtime ep_raw].
  replace (runs_testing exec Testing) with true
    by (unfold runs_testing; by destruct (starts_with _ _)).
  unfold load_spec, load_testing_spec, k8s_testnet_parachain_config, moonbase_parachain_config,
    with_wasm. rewrite Hw. simpl default.
  destruct Hid as [-> | ->]; simpl; rewrite Hf; split; try done; by eexists.
Qed.

(** ** Running the program *)

Lemma and_then_Ok {A B} (m : outcome string A) (k : A -> outcome string B) b :
  and_then m k = Ok b <-> exists a, m = Ok a /\ k a = Ok b.
Proof. destruct m; simpl; naive_solver. Qed.

(** The specification a command line asks for, and the client of its runtime. *)
Definition asks_for (exec : option string) (cli : Cli) (spec : Spec) : Prop :=
  cli_load_spec exec (cli_runtime cli) (cli_chain cli) = Ok spec.
Definition client_of (spec : Spec) : Client :=
  if spec_is_testing_runtime spec then ClientTestingBasilisk else ClientBasilisk.

Lemma create_runner_Ok exec cli config :
  create_runner exec cli = Ok config ->
  exists spec, asks_for exec cli spec /\ config = mkConfiguration spec KeystorePath (cli_role cli) None.
Proof. intros (spec & Hl & [= <-])%and_then_Ok. by exists spec. Qed.

(** What a run that succeeds has done: everything that needs a chain uses the one of the
    command line, with the client of its runtime; the node is run without a subcommand,
    never as a light client, nor as a collator by a binary built for benchmarks; its
    relay chain is the one of the specification; benchmarks and try-runtime need a binary
    built with them. *)
Theorem run_spec features impl services exec cli effect :
  run features impl services exec cli = Ok effect ->
  match effect with
  | RanBuildSpec spec => cli_subcommand cli = Some BuildSpec /\ asks_for exec cli spec
  | RanWithClient c client =>
      cli_subcommand cli = Some (WithClient c) /\
      exists spec, asks_for exec cli spec /\ client = client_of spec
  | RanPurgeChain spec relay =>
      cli_subcommand cli = Some PurgeChain /\ asks_for exec cli spec /\
      relay_chain_id relay "" = relay_chain (spec_extensions spec)
  | RanBenchmark spec => runtime_benchmarks features = true /\ asks_for exec cli spec
  | RanTryRuntime spec => try_runtime features = true /\ asks_for exec cli spec
  | Wrote bytes => exists params,
      cli_subcommand cli = Some (ExportGenesisState params) /\
        export_genesis_state exec params = Ok bytes \/
      cli_subcommand cli = Some (ExportGenesisWasm params) /\
        export_genesis_wasm exec params = Ok bytes
  | RanNode started para =>
      cli_subcommand cli = None /\ cli_role cli <> Light /\
      (runtime_benchmarks features = true -> cli_role cli <> Authority) /\
      exists spec, asks_for exec cli spec /\ para = para_id (spec_extensions spec) /\
        started = (if is_authority (cli_role cli) then StartedCollator (client_of spec)
                   else StartedFullNode (client_of spec))
  end.
Proof.
  unfold run. destruct (cli_subcommand cli) as [[|c| | |params|params|]|].
  - intros (config & (spec & Hs & ->)%create_runner_Ok & [= <-])%and_then_Ok. done.
  - intros (config & (spec & Hs & ->)%create_runner_Ok & (client & Hc & [= <-])%and_then_Ok)%and_then_Ok.
    split; [done|]. exists spec. split; [done|]. unfold new_partial, client_of in *. simpl in Hc.
    case_match; congruence.
  - intros (config & (spec & Hs & ->)%create_runner_Ok & (u & _ & [= <-])%and_then_Ok)%and_then_Ok.
    done.
  - destruct (runtime_benchmarks features); [|done].
    by intros (config & (spec & Hs & ->)%create_runner_Ok & [= <-])%and_then_Ok.
  - intros (b & Hb & [= <-])%and_then_Ok. exists params. by left.
  - intros (b & Hb & [= <-])%and_then_Ok. exists params. by right.
  - destruct (try_runtime features); [|done].
    by intros (config & (spec & Hs & ->)%create_runner_Ok & [= <-])%and_then_Ok.
  - intros (config & (spec & Hs & ->)%create_runner_Ok & Hrun)%and_then_Ok.
    unfold run_node in Hrun. simpl in Hrun.
    destruct (runtime_benchmarks features && is_authority (cli_role cli)) eqn:Hb; [done|].
    apply and_then_Ok in Hrun as (h & _ & Hrun). apply and_then_Ok in Hrun as (u & _ & Hrun).
    apply and_then_Ok in Hrun as (started & Hst & Hrun). apply and_then_Ok in Hrun as (v & _ & [= <-]).
    unfold node_to_start in Hst. split; [done|].
    destruct (cli_role cli); [|by destruct (spec_is_testing_runtime spec)|];
      (split; [done|]); (split; [destruct (runtime_benchmarks features); done|]);
      exists spec; unfold client_of; simpl in *; destruct (spec_is_testing_runtime spec);
      injection Hst as <-; done.
Qed.
End load.
