(* ===== verification/RelayCli.v ===== *)
(** * The relay chain's command line

    Models the implementations of [SubstrateCli], [DefaultConfigurationValues] and
    [CliConfiguration] for [Cli] and [RelayChainCli] in [src/node/src/command.rs].  The relay
    chain's part of a collator is configured by the arguments after [--], parsed by
    [polkadot_cli]; the values of that command are a record here, and the types of the
    settings, which are of [sc_cli] and [sc_service], are parameters. *)

From S2P Require Import Prelude Primitives Errors Interfaces Runtime Config Duster ChainSpec Node.
#[local] Open Scope string_scope.

(** ** Names *)

Record CliInfo := mkCliInfo {
  impl_name : string; impl_version : string; description : string; author : string;
  support_url : string; copyright_start_year : Z
}.
(** Version, description and authors are set by the build. *)
Record BuildEnv := mkBuildEnv {
  SUBSTRATE_CLI_IMPL_VERSION : string; CARGO_PKG_DESCRIPTION : string; CARGO_PKG_AUTHORS : string
}.
Definition Cli_info (env : BuildEnv) : CliInfo :=
  mkCliInfo "Basilisk" (SUBSTRATE_CLI_IMPL_VERSION env) (CARGO_PKG_DESCRIPTION env)
    (CARGO_PKG_AUTHORS env) "https://github.com/galacticcouncil/Basilisk-node/issues" 2020.
Definition RelayChainCli_info (env : BuildEnv) : CliInfo :=
  mkCliInfo "Basilisk" (SUBSTRATE_CLI_IMPL_VERSION env) (CARGO_PKG_DESCRIPTION env)
    (CARGO_PKG_AUTHORS env) "https://github.com/galacticcouncil/Basilisk-node/issues" 2020.

(** ** Ports *)

Record DefaultPorts := mkPorts {
  p2p_listen_port : Z; rpc_ws_listen_port : Z; rpc_http_listen_port : Z;
  prometheus_listen_port : Z
}.
Definition RelayChainCli_ports : DefaultPorts := mkPorts 30334 9945 9934 9616.
(** [DefaultConfigurationValues] of the node itself, as [sc_cli] documents them. *)
Definition sc_cli_ports : DefaultPorts := mkPorts 30333 9944 9933 9615.
Definition ports (p : DefaultPorts) : list Z :=
  [p2p_listen_port p; rpc_ws_listen_port p; rpc_http_listen_port p; prometheus_listen_port p].

(** ** The configuration of a command *)

Section configuration.
Context {AuraId : Type} `{NodeResources AuraId}.
Notation Spec := (ChainSpec AuraId).
Context {SharedParams ImportParams NetworkParams KeystoreParams SocketAddr PrometheusConfig : Type}.
Context {TransactionPoolOptions RpcMethods TelemetryEndpoints : Type}.
Notation Result A := (outcome string A).

Record CliConfiguration := mkCli {
  shared_params : SharedParams;
  import_params : option ImportParams;
  network_params : option NetworkParams;
  keystore_params : option KeystoreParams;
  base_path : Result (option string);
  rpc_http : Z -> Result (option SocketAddr);
  rpc_ipc : Result (option string);
  rpc_ws : Z -> Result (option SocketAddr);
  prometheus_config : Z -> Spec -> Result (option PrometheusConfig);
  init : Result unit;
  chain_id : bool -> Result string;
  role : bool -> Result Role;
  transaction_pool : Result TransactionPoolOptions;
  state_cache_child_ratio : Result (option Z);
  rpc_methods : Result RpcMethods;
  rpc_ws_max_connections : Result (option Z);
  rpc_cors : bool -> Result (option (list string));
  default_heap_pages : Result (option Z);
  force_authoring : Result bool;
  disable_grandpa : Result bool;
  max_runtime_instances : Result (option Z);
  announce_block : Result bool;
  telemetry_endpoints : Spec -> Result (option TelemetryEndpoints)
}.

(** [SharedParams::base_path]. *)
Variable shared_base_path : SharedParams -> option string.

(** [base] is the command of [polkadot_cli], [self.base.base]; initialising it is unreachable. *)
Definition RelayChainCli_configuration (self : RelayChainCli) (base : CliConfiguration)
    : CliConfiguration := {|
  shared_params := shared_params base;
  import_params := import_params base;
  network_params := network_params base;
  keystore_params := keystore_params base;
  base_path := Ok (relay_base_path self (shared_base_path (shared_params base)));
  rpc_http default_listen_port := rpc_http base default_listen_port;
  rpc_ipc := rpc_ipc base;
  rpc_ws default_listen_port := rpc_ws base default_listen_port;
  prometheus_config default_listen_port chain_spec :=
    prometheus_config base default_listen_port chain_spec;
  init := Panic;
  chain_id is_dev :=
    match chain_id base is_dev with
    | Ok id => Ok (relay_chain_id self id)
    | Err e => Err e
    | Panic => Panic
    end;
  role is_dev := role base is_dev;
  transaction_pool := transaction_pool base;
  state_cache_child_ratio := state_cache_child_ratio base;
  rpc_methods := rpc_methods base;
  rpc_ws_max_connections := rpc_ws_max_connections base;
  rpc_cors is_dev := rpc_cors base is_dev;
  default_heap_pages := default_heap_pages base;
  force_authoring := force_authoring base;
  disable_grandpa := disable_grandpa base;
  max_runtime_instances := max_runtime_instances base;
  announce_block := announce_block base;
  telemetry_endpoints chain_spec := telemetry_endpoints base chain_spec
|}.

(** The relay chain of a collator is the one of its chain specification unless the command line
    names another, and its data lie in a directory of their own below the collator's. *)
Theorem relay_follows_collator (config : Configuration (AuraId := AuraId)) (base : CliConfiguration)
    is_dev id :
  chain_id base is_dev = Ok id ->
  let relay := RelayChainCli_configuration (RelayChainCli_new config) base in
  chain_id relay is_dev =
    Ok (if String.eqb id "" then relay_chain (spec_extensions (c_chain_spec config)) else id) /\
  base_path relay =
    Ok (match shared_base_path (shared_params base) with
        | Some p => Some p
        | None => (fun p => p +:+ "/polkadot") <$> c_base_path config
        end).
Proof. intros Hid. cbn. rewrite Hid. unfold relay_chain_id, relay_base_path. by destruct id. Qed.
End configuration.

(** A collator and its relay chain node share no port by default. *)
Theorem relay_ports_apart :
  NoDup (ports sc_cli_ports ++ ports RelayChainCli_ports) /\
  Forall (fun p => 1024 <= p < 2 ^ 16) (ports RelayChainCli_ports).
Proof.
  split; [apply (bool_decide_unpack _); vm_compute; done|].
  repeat (apply Forall_cons_2; [vm_compute; split; done || discriminate|]). apply Forall_nil_2.
Qed.
