(* ===== verification/Service.v ===== *)
(** * Starting a node

    Models the construction of a node in [src/node/src/service.rs]: the parts of a client
    ([new_partial_impl]), the import queue, the consensus of a collator and the order in
    which [start_node_impl] builds and starts them, for the runtime the specification
    selects.  The services themselves (Substrate, Cumulus and the relay chain) are
    operations of a class; each may fail, and what has been started by then stays in the
    log. *)

From S2P Require Import Prelude Primitives Errors Interfaces Runtime Config Duster ChainSpec Node.

Local Open Scope string_scope.

(** What starting a node does to the outside, in order. *)
Inductive Action :=
| SpawnTelemetry | SpawnTasks | BuildConsensus | StartCollator (para_id : Z)
| StartFullNode (para_id : Z) | StartNetwork.

(** Computations with the log of actions; errors are [sc_service::Error]s, as text. *)
Notation Start := (M string (list Action)).
Definition perform (a : Action) : Start unit := modify (fun log => (log ++ [a])%list).
(** The operator [?] on the result of a service. *)
Definition call {A : Type} (r : A + string) : Start A :=
  match r with inl a => mret a | inr e => fail e end.

(** ** The services *)

(** The handles the services exchange. *)
Record Handles := mkHandles {
  FullClient : Type; Backend : Type; Keystore_ : Type; TaskManager : Type; Telemetry : Type;
  TelemetryWorker : Type; Pool : Type; ImportQueue : Type; RelayChainInterface : Type;
  CollatorKey : Type; Network : Type; ProposerFactory : Type; Consensus : Type
}.

(** An error of the relay chain's service: one of the parachain's kind, or another. *)
Inductive RelayError := SubError (e : string) | OtherError (displayed : string).

Section service.
Context {AuraId : Type} {X : Handles}.
Notation Spec := (ChainSpec AuraId).

(** The fields of [sc_service::Configuration] the file reads. *)
Record ServiceConfig := mkServiceConfig {
  sc_chain_spec : Spec; sc_role : Role; sc_telemetry_endpoints : option (list string);
  sc_force_authoring : bool
}.

(** ** RPC ([rpc.rs]) *)

Record FullDeps := mkDeps { fd_client : FullClient X; fd_pool : Pool X; fd_deny_unsafe : bool }.
(** The handlers a node serves, each with what it is given. *)
Inductive RpcHandler :=
| SystemApi (client : FullClient X) (pool : Pool X) (deny_unsafe : bool)
| TransactionPaymentApi (client : FullClient X)
| XYKApi (client : FullClient X)
| LBPApi (client : FullClient X).
Definition create_full (deps : FullDeps) : list RpcHandler + string :=
  inl [SystemApi (fd_client deps) (fd_pool deps) (fd_deny_unsafe deps);
       TransactionPaymentApi (fd_client deps); XYKApi (fd_client deps); LBPApi (fd_client deps)].

(** ** Services *)

(** A time stamp and its slot, and the data of the relay chain for a block. *)
Record InherentProviders := mkProviders {
  ip_time : Z; ip_slot : Z; ip_parachain : option (list Z)
}.

(** The parameters of [BuildAuraConsensusParams] that are not handles; the portions of a
    slot are denominators. *)
Record AuraParams := mkAura {
  au_slot_duration : Z; au_force_authoring : bool; au_backoff : option unit;
  au_proposal_portion : Z; au_max_proposal_portion : option Z;
  au_inherents : Z -> option (list Z) -> InherentProviders + string
}.

Class NodeServices := {
  TelemetryWorker_new : list string -> (TelemetryWorker X * Telemetry X) + string;
  new_full_parts : Client -> ServiceConfig -> option (Telemetry X) ->
    (FullClient X * Backend X * Keystore_ X * TaskManager X) + string;
  BasicPool_new_full : ServiceConfig -> bool -> TaskManager X -> FullClient X -> Pool X;
  aura_slot_duration : FullClient X -> Z + string;
  aura_import_queue : FullClient X -> (Z -> InherentProviders) -> option (Telemetry X) ->
    TaskManager X -> ImportQueue X + string;
  slot_of : Z -> Z -> Z;
  prepare_node_config : ServiceConfig -> ServiceConfig;
  build_relay_chain_interface : ServiceConfig -> option (TelemetryWorker X) ->
    (RelayChainInterface X * CollatorKey X) + RelayError;
  build_network : ServiceConfig -> FullClient X -> Pool X -> ImportQueue X ->
    RelayChainInterface X -> Z -> Network X + string;
  spawn_tasks : (bool -> list RpcHandler + string) -> ServiceConfig -> FullClient X -> Pool X ->
    Backend X -> Network X -> option (Telemetry X) -> unit + string;
  with_proof_recording : FullClient X -> Pool X -> option (Telemetry X) -> ProposerFactory X;
  AuraConsensus_build : ProposerFactory X -> FullClient X -> Network X -> Keystore_ X ->
    AuraParams -> Consensus X;
  start_collator : Z -> FullClient X -> RelayChainInterface X -> Consensus X -> ImportQueue X ->
    CollatorKey X -> Z -> unit + string;
  start_full_node : Z -> FullClient X -> RelayChainInterface X -> ImportQueue X -> Z ->
    unit + string
}.
Context `{NodeServices}.

(** ** The parts of a client *)

(** [parachain_build_import_queue]: blocks are checked against the time of the system. *)
Definition parachain_build_import_queue (client : FullClient X) (telemetry : option (Telemetry X))
    (task_manager : TaskManager X) : Start (ImportQueue X) :=
  slot_duration ← call (aura_slot_duration client);
  call (aura_import_queue client
          (fun time => mkProviders time (slot_of time slot_duration) None) telemetry task_manager).

Record PartialComponents := mkPartial {
  p_client : FullClient X; p_backend : Backend X; p_import_queue : ImportQueue X;
  p_task_manager : TaskManager X; p_keystore : Keystore_ X; p_pool : Pool X;
  p_telemetry : option (Telemetry X); p_telemetry_worker : option (TelemetryWorker X)
}.

Definition new_partial_impl (runtime : Client) (config : ServiceConfig) : Start PartialComponents :=
  telemetry ← match sc_telemetry_endpoints config with
              | Some (e :: es) => t ← call (TelemetryWorker_new (e :: es)); mret (Some t)
              | _ => mret None
              end;
  parts ← call (new_full_parts runtime config (snd <$> telemetry));
  let '(client, backend, keystore_container, task_manager) := parts in
  let telemetry_worker_handle := fst <$> telemetry in
  telemetry ← match telemetry with
              | Some (worker, t) => perform SpawnTelemetry ;; mret (Some t)
              | None => mret None
              end;
  let transaction_pool :=
    BasicPool_new_full config (is_authority (sc_role config)) task_manager client in
  import_queue ← parachain_build_import_queue client telemetry task_manager;
  mret (mkPartial client backend import_queue task_manager keystore_container transaction_pool
          telemetry telemetry_worker_handle).

(** ** The node *)

(** [NewFull] and its [with_client]. *)
Record NewFull (C : Type) := mkNewFull { nf_client : C; nf_task_manager : TaskManager X }.
#[global] Arguments mkNewFull {C} nf_client nf_task_manager.
#[global] Arguments nf_client {C} n.
#[global] Arguments nf_task_manager {C} n.
Definition with_client {C NC : Type} (func : C -> NC) (full : NewFull C) : NewFull NC :=
  mkNewFull (func (nf_client full)) (nf_task_manager full).

Definition relay_chain_slot_duration : Z := 6.

(** How a collator builds its consensus. *)
Definition ConsensusBuilder : Type :=
  FullClient X -> option (Telemetry X) -> Pool X -> Network X -> Keystore_ X -> bool ->
  Start (Consensus X).

Definition start_node_impl (runtime : Client) (parachain_config polkadot_config : ServiceConfig)
    (para_id : Z) (build_consensus : ConsensusBuilder) : Start (NewFull (FullClient X)) :=
  match sc_role parachain_config with
  | Light => fail "Light client not supported!"
  | _ =>
    let parachain_config := prepare_node_config parachain_config in
    params ← new_partial_impl runtime parachain_config;
    relay ← match build_relay_chain_interface polkadot_config (p_telemetry_worker params) with
            | inl r => mret r
            | inr (SubError x) => fail x
            | inr (OtherError s) => fail s
            end;
    let '(relay_chain_interface, collator_key) := relay in
    let validator := is_authority (sc_role parachain_config) in
    network ← call (build_network parachain_config (p_client params) (p_pool params)
                      (p_import_queue params) relay_chain_interface para_id);
    let rpc_extensions_builder deny_unsafe :=
      create_full (mkDeps (p_client params) (p_pool params) deny_unsafe) in
    call (spawn_tasks rpc_extensions_builder parachain_config (p_client params) (p_pool params)
            (p_backend params) network (p_telemetry params)) ;;
    perform SpawnTasks ;;
    (if validator
     then parachain_consensus ← build_consensus (p_client params) (p_telemetry params)
                                  (p_pool params) network (p_keystore params)
                                  (sc_force_authoring parachain_config);
          call (start_collator para_id (p_client params) relay_chain_interface
                  parachain_consensus (p_import_queue params) collator_key
                  relay_chain_slot_duration) ;;
          perform (StartCollator para_id)
     else call (start_full_node para_id (p_client params) relay_chain_interface
                  (p_import_queue params) relay_chain_slot_duration) ;;
          perform (StartFullNode para_id)) ;;
    perform StartNetwork ;;
    mret (mkNewFull (p_client params) (p_task_manager params))
  end.

(** The consensus: Aura with a 24th of a slot for a proposal and a 16th when slots were
    skipped; a block needs the data of the relay chain. *)
Definition build_aura (client : FullClient X) (telemetry : option (Telemetry X)) (pool : Pool X)
    (sync_oracle : Network X) (keystore : Keystore_ X) (force_authoring : bool)
    : Start (Consensus X) :=
  slot_duration ← call (aura_slot_duration client);
  let proposer_factory := with_proof_recording client pool telemetry in
  perform BuildConsensus ;;
  mret (AuraConsensus_build proposer_factory client sync_oracle keystore {|
    au_slot_duration := slot_duration; au_force_authoring := force_authoring;
    au_backoff := None; au_proposal_portion := 24; au_max_proposal_portion := Some 16;
    au_inherents := fun time parachain_inherent =>
      match parachain_inherent with
      | Some data => inl (mkProviders time (slot_of time slot_duration) (Some data))
      | None => inr "Failed to create parachain inherent"
      end
  |}).

(** The client of the enum, with the runtime that was chosen. *)
Definition RunningClient : Type := Client * FullClient X.
Definition start_node (parachain_config polkadot_config : ServiceConfig) (para_id : Z)
    : Start (NewFull RunningClient) :=
  if spec_is_testing_runtime (sc_chain_spec parachain_config)
  then full ← start_node_impl ClientTestingBasilisk parachain_config polkadot_config para_id build_aura;
       mret (with_client (pair ClientTestingBasilisk) full)
  else full ← start_node_impl ClientBasilisk parachain_config polkadot_config para_id build_aura;
       mret (with_client (pair ClientBasilisk) full).
(** ** Properties *)

(** A computation that performs [acts] in order: when it succeeds it has performed them all,
    when it fails a prefix of them; [strict]: a proper prefix. *)
Definition runs {A} (strict : bool) (acts : list Action) (m : Start A) (Q : A -> Prop) : Prop :=
  forall log, match m log with
  | (Ok a, log') => log' = (log ++ acts)%list /\ Q a
  | (Err _, log') => exists pre rest, acts = (pre ++ rest)%list /\ log' = (log ++ pre)%list /\
                       (strict = true -> rest <> [])
  | (Panic, _) => False
  end.

Lemma runs_ret {A} b (a : A) (Q : A -> Prop) : Q a -> runs b [] (mret a) Q.
Proof. intros Hq log. split; [by rewrite app_nil_r|done]. Qed.
Lemma runs_perform b a (Q : unit -> Prop) : Q tt -> runs b [a] (perform a) Q.
Proof. intros Hq log. by split. Qed.
Lemma runs_call {A} (r : A + string) (Q : A -> Prop) : (forall a, Q a) -> runs false [] (call r) Q.
Proof.
  intros Hq log. destruct r as [a|e]; simpl; [split; [by rewrite app_nil_r|done]|].
  exists [], []. by rewrite !app_nil_r.
Qed.
Lemma runs_fail {A} acts e (Q : A -> Prop) : runs false acts (fail e) Q.
Proof. intros log. exists [], acts. by rewrite !app_nil_r. Qed.
Lemma runs_bind {A B} b a1 a2 (m : Start A) (k : A -> Start B) (P : A -> Prop) (Q : B -> Prop) :
  runs false a1 m P -> (forall a, P a -> runs b a2 (k a) Q) -> (b = true -> a2 <> []) ->
  runs b (a1 ++ a2)%list (m ≫= k) Q.
Proof.
  intros Hm Hk Hb log. specialize (Hm log). unfold mbind, M_bind, run_bind.
  destruct (m log) as [[a|e|] l1]; [| |done].
  - destruct Hm as [-> Hp]. specialize (Hk a Hp (log ++ a1)%list).
    destruct (k a _) as [[x|e|] l2]; [by rewrite app_assoc| |done].
    destruct Hk as (pre & rest & -> & -> & Hs). exists (a1 ++ pre)%list, rest.
    by rewrite !app_assoc.
  - destruct Hm as (pre & rest & -> & -> & _). exists pre, (rest ++ a2)%list.
    rewrite <- app_assoc. split_and!; [done|done|]. intros Ht. specialize (Hb Ht).
    destruct rest; [done|]. discriminate.
Qed.

Lemma runs_import_queue client t tm : runs false [] (parachain_build_import_queue client t tm) (fun _ => True).
Proof. apply (runs_bind false [] [] _ _ (fun _ => True)); [by apply runs_call|intros; by apply runs_call|done]. Qed.

(** Whether there is telemetry to start. *)
Definition has_telemetry (config : ServiceConfig) : bool :=
  match sc_telemetry_endpoints config with Some (_ :: _) => true | _ => false end.

Lemma runs_partial runtime config :
  runs false (if has_telemetry config then [SpawnTelemetry] else [])
    (new_partial_impl runtime config) (fun _ => True).
Proof.
  unfold new_partial_impl, has_telemetry.
  eapply (runs_bind _ [] _ _ _ (fun t => bool_decide (is_Some t) = has_telemetry config)).
  { unfold has_telemetry. destruct (sc_telemetry_endpoints config) as [[|e es]|]; try (by apply runs_ret).
    apply (runs_bind _ [] [] _ _ (fun _ => True)); [by apply runs_call|intros; by apply runs_ret|done]. }
  2: done.
  intros t Ht. unfold has_telemetry in Ht. rewrite <- Ht. clear Ht.
  apply (runs_bind _ [] _ _ _ (fun _ => True)); [by apply runs_call| |done].
  intros [[[client backend] keystore] tm] _.
  rewrite <- (app_nil_r (if bool_decide _ then _ else _)).
  eapply (runs_bind _ _ _ _ _ (fun _ => True)); [| |done].
  - destruct t as [[w t]|]; simpl; [|by apply runs_ret].
    apply (runs_bind _ [_] [] _ _ (fun _ => True)); [by apply runs_perform|intros; by apply runs_ret|done].
  - intros t' _. apply (runs_bind _ [] [] _ _ (fun _ => True)); [apply runs_import_queue|intros; by apply runs_ret|done].
Qed.

(** The actions of starting a node, in their order. *)
Definition node_plan (telemetry authority : bool) (para_id : Z) : list Action :=
  (if telemetry then [SpawnTelemetry] else []) ++ [SpawnTasks] ++
  (if authority then [BuildConsensus; StartCollator para_id] else [StartFullNode para_id]) ++
  [StartNetwork].

Lemma runs_aura client t pool net ks f : runs false [BuildConsensus] (build_aura client t pool net ks f) (fun _ => True).
Proof.
  apply (runs_bind _ [] [_] _ _ (fun _ => True)); [by apply runs_call| |done]. intros slot _.
  apply (runs_bind _ [_] [] _ _ (fun _ => True)); [by apply runs_perform|intros; by apply runs_ret|done].
Qed.

(** [cumulus_client_service::prepare_node_config] leaves the fields read here alone. *)
Class PrepareLaws : Prop := { prepare_keeps c : prepare_node_config c = c }.
Context `{!PrepareLaws}.

Lemma runs_start_impl runtime c pc para :
  sc_role c <> Light ->
  runs true (node_plan (has_telemetry c) (is_authority (sc_role c)) para)
    (start_node_impl runtime c pc para build_aura) (fun _ => True).
Proof.
  intros Hrole. unfold start_node_impl, node_plan.
  assert (Hd : forall (x y : Start (NewFull (FullClient X))),
    match sc_role c with Light => x | _ => y end = y) by (intros; by destruct (sc_role c)).
  rewrite Hd, prepare_keeps. clear Hd.
  apply (runs_bind _ _ _ _ _ (fun _ => True)); [apply runs_partial| |done]. intros params _.
  apply (runs_bind _ [] _ _ _ (fun _ => True)); [|intros [relay key] _|done].
  { destruct (build_relay_chain_interface _ _) as [r|[]]; [by apply runs_ret|apply runs_fail..]. }
  apply (runs_bind _ [] _ _ _ (fun _ => True)); [by apply runs_call|intros net _|done].
  apply (runs_bind _ [] _ _ _ (fun _ => True)); [by apply runs_call|intros _ _|done].
  apply (runs_bind _ [_] _ _ _ (fun _ => True)); [by apply runs_perform|intros _ _|by destruct (is_authority _)].
  apply (runs_bind _ _ _ _ _ (fun _ => True)); [|intros _ _|done].
  - destruct (is_authority _).
    + apply (runs_bind _ [_] [_] _ _ (fun _ => True)); [apply runs_aura|intros co _|done].
      apply (runs_bind _ [] [_] _ _ (fun _ => True)); [by apply runs_call|intros _ _; by apply runs_perform|done].
    + apply (runs_bind _ [] [_] _ _ (fun _ => True)); [by apply runs_call|intros _ _; by apply runs_perform|done].
  - intros log. by split.
Qed.

(** A light client is refused before anything starts. *)
Lemma light_refused c pc para log :
  sc_role c = Light ->
  start_node c pc para log = (Err "Light client not supported!", log).
Proof.
  intros Hl. unfold start_node, start_node_impl. rewrite Hl. by destruct (spec_is_testing_runtime _).
Qed.

Lemma runs_start c pc para :
  sc_role c <> Light ->
  runs true (node_plan (has_telemetry c) (is_authority (sc_role c)) para) (start_node c pc para)
    (fun full => fst (nf_client full) =
       if spec_is_testing_runtime (sc_chain_spec c) then ClientTestingBasilisk else ClientBasilisk).
Proof.
  intros Hr log. unfold start_node.
  destruct (spec_is_testing_runtime _); unfold mbind, M_bind, run_bind;
    match goal with |- context [start_node_impl ?r c pc para _ log] =>
      pose proof (runs_start_impl r c pc para Hr log) as Hi;
      destruct (start_node_impl r c pc para _ log) as [[full|e|] l]; [split; [apply Hi|done]|exact Hi|done]
    end.
Qed.

(** [C20] Starting a node, whatever the services answer, is all in order or stops in time: a
    node that started has the client of the runtime its specification selects and has
    performed every action of the plan in order, the network last and after exactly one of
    collator and full node, as [node_to_start] says; a start that failed has
    performed a proper prefix of the plan, so the network was never started; a light client
    starts nothing. *)
Theorem start_node_ordered c pc para log :
  let plan := node_plan (has_telemetry c) (is_authority (sc_role c)) para in
  match start_node c pc para log with
  | (Ok full, log') =>
      log' = (log ++ plan)%list /\
      node_to_start (sc_chain_spec c) (sc_role c) =
        Ok (if is_authority (sc_role c) then StartedCollator (fst (nf_client full))
            else StartedFullNode (fst (nf_client full)))
  | (Err _, log') =>
      exists done rest, log' = (log ++ done)%list /\ plan = (done ++ rest)%list /\
        ~ StartNetwork ∈ done /\ (sc_role c = Light -> done = [])
  | (Panic, _) => False
  end.
Proof.
  intros plan.
  assert (Hd : {sc_role c = Light} + {sc_role c <> Light}) by (destruct (sc_role c); auto).
  destruct Hd as [Hl|Hr].
  - rewrite light_refused by done. exists [], plan. rewrite app_nil_r. split_and!; try done.
    apply not_elem_of_nil.
  - pose proof (runs_start c pc para Hr log) as Hs. fold plan in Hs.
    destruct (start_node c pc para log) as [[full|e|] l]; [| |done].
    + destruct Hs as [-> Hc]. split; [done|]. unfold node_to_start.
      rewrite Hc. destruct (spec_is_testing_runtime _), (sc_role c); done.
    + destruct Hs as (pre & rest & Hp & -> & Hne). exists pre, rest. split_and!; try done.
      destruct (exists_last (Hne eq_refl)) as (init & x & ->).
      assert (Hlast : plan = ((pre ++ init) ++ [x])%list) by (by rewrite Hp, app_assoc).
      assert (Hplan : exists p, plan = (p ++ [StartNetwork])%list /\ ~ StartNetwork ∈ p).
      { unfold plan, node_plan. destruct (has_telemetry c), (is_authority _);
          [exists [SpawnTelemetry; SpawnTasks; BuildConsensus; StartCollator para]
          |exists [SpawnTelemetry; SpawnTasks; StartFullNode para]
          |exists [SpawnTasks; BuildConsensus; StartCollator para]
          |exists [SpawnTasks; StartFullNode para]];
          (split; [done|rewrite !elem_of_cons, elem_of_nil; naive_solver]). }
      destruct Hplan as (p & Hp1 & Hp2). rewrite Hlast in Hp1.
      apply app_inj_tail in Hp1 as [<- _]. intros Hin. apply Hp2, elem_of_app. by left.
Qed.
End service.

(** ** Concrete services

    Handles carry no data; the relay chain can be told to fail. *)

Definition ex_handles : Handles :=
  mkHandles unit unit unit unit unit unit unit unit unit unit unit unit AuraParams.
#[local] Instance ex_services (relay_up : bool) : @NodeServices unit ex_handles :=
  @Build_NodeServices unit ex_handles
    (fun _ => inl (tt, tt)) (fun _ _ _ => inl (tt, tt, tt, tt)) (fun _ _ _ _ => tt)
    (fun _ => inl 12000) (fun _ _ _ _ => inl tt) (fun time duration => time / duration)
    (fun c => c)
    (fun _ _ => if relay_up then inl (tt, tt) else inr (OtherError "relay chain is down"))
    (fun _ _ _ _ _ _ => inl tt) (fun _ _ _ _ _ _ _ => inl tt) (fun _ _ _ => tt)
    (fun _ _ _ _ a => a) (fun _ _ _ _ _ _ _ => inl tt) (fun _ _ _ _ _ => inl tt).
#[local] Instance ex_services_prepare up : @PrepareLaws _ _ (ex_services up).
Proof. by split. Qed.

Definition ex_spec (name : string) : ChainSpec unit :=
  mkSpec name "id" Live (Err "") [] None None None None (mkExtensions "rococo" 2090).
Definition ex_config (name : string) (role : Role) : ServiceConfig (AuraId := unit) :=
  mkServiceConfig (ex_spec name) role (Some ["wss://telemetry"]) false.

(** A collator of the testing runtime starts everything; when the relay chain is down only
    telemetry has been started. *)
Example ex_start_collator :
  let start up := @start_node unit ex_handles (ex_services up) (ex_config "Testing Dev" Authority)
    (ex_config "Rococo" Full) 2090 [] in
  fst <$> (match start true with (Ok full, _) => Some (nf_client full) | _ => None end) =
    Some ClientTestingBasilisk /\
  snd (start true) = [SpawnTelemetry; SpawnTasks; BuildConsensus; StartCollator 2090; StartNetwork] /\
  start false = (Err "relay chain is down", [SpawnTelemetry]).
Proof. by vm_compute. Qed.

Lemma start_node_ordered_witness :
  let c := ex_config "Testing Dev" Authority in
  node_to_start (sc_chain_spec c) (sc_role c) = Ok (StartedCollator ClientTestingBasilisk).
Proof.
  exact (proj2 (@start_node_ordered unit ex_handles (ex_services true) (ex_services_prepare true)
    (ex_config "Testing Dev" Authority) (ex_config "Rococo" Full) 2090 [])).
Defined.
